(* ===== verification/_CoqProject ===== *)
-Q . S2P
Prelude.v
Bytes.v
Hashes.v
Types.v
GoStd.v
GoText.v
Encoding.v
Aes.v
Secrets.v
RadiusPacket.v
RadiusAttributes.v
RadiusAuth.v
RadiusServer.v
MemIdentity.v
MemAuth.v
MemPolicy.v
AuditTrail.v
AuditLog.v
Compliance.v
Authorization.v
IdentityService.v
Tables.v
PgIdentity.v
FieldMigration.v
Redis.v
RedisStores.v
AuthService.v
AuthApi.v
SessionStore.v
SessionRisk.v
SessionLifecycle.v
OAuth.v
DeviceFlow.v
MFA.v
Recovery.v
Scim.v
Gateway.v
Rbac.v
Privacy.v
WebAuthn.v
Ldap.v
Devices.v
Lifecycle.v
Profile.v
LdapSync.v
AuthFlow.v
Platform.v
Webhook.v
Server.v
PgStores.v
DevCenter.v
Plugins.v
Portal.v
Client.v
Config.v
RadiusService.v
Tenancy.v
SessionScheduler.v
Background.v
LdapService.v
Federation.v
Outputs.v
Unrouted.v
PolicyReload.v
LdapClient.v
Telemetry.v
Fingerprint.v
PgProfiles.v
