(* ===== verification/Prelude.v ===== *)
(** * QuantaID: a verification development

    QuantaID is an identity provider written in Go: it keeps users, groups,
    sessions and policies, logs users in (passwords, second factors, OAuth,
    LDAP, RADIUS), decides what they may do, and watches risk, devices and
    data quality.  This library models its core logic and proves what it
    promises; where the code does not keep a promise, a theorem says what it
    does instead.

    ** How the program is put together

    Requests come in over HTTP, LDAP and RADIUS.  The HTTP handlers and the
    RADIUS and LDAP servers call the domain services (identity, authentication,
    policy), which are written against repository interfaces.  The repositories
    have an implementation in memory and one over PostgreSQL; both are modelled, the
    second over tables with their laws.  Sessions, one-time codes, risk
    scores and rate limits live in Redis.  Audit events go through a pipeline to
    sinks and, for some of them, to webhooks.

    ** Files (all sources under src/)

    Shared:
    - [Prelude]: outcomes of Go code ([res]: value, error, panic, divergence),
      stateful code ([prog]), slices, pages of a listing, machine integers, the
      order in which a Go map is visited ([map_order]), tactics and hints.
    - [Bytes], [Hashes]: bytes, big-endian integers; MD5, SHA-1, SHA-256, HMAC
      and DES, executable and checked against published vectors.
      [Encoding]: hexadecimal and base64.  [Aes]: AES-256 and GCM, with the
      published vectors and their round trip.
    - [Types]: pkg/types - users, groups, sessions, values of [interface{}],
      and errors: the predefined errors are shared variables that [WithCause]
      and [WithDetails] write, so they are a state that the services thread.
    - [GoStd], [GoText]: floats (binary64), durations, splitting and joining,
      decimal numbers, [time.ParseDuration], letter case, regular expressions.
    - [Redis]: the commands the program uses and their laws, with a reference
      instance.

    RADIUS (internal/protocol/radius):
    - [RadiusPacket] (packet.go), [RadiusAttributes] (attributes.go),
      [RadiusAuth] (authenticator.go, mschap.go), [RadiusServer] (server.go,
      client_manager.go, accounting.go, proxy.go).  Packets and hidden passwords
      survive the round trip; an Access-Accept is sent only after the password
      was verified; replies carry a valid authenticator; which datagrams make
      a worker panic.

    Identity and access:
    - [MemIdentity], [MemAuth], [MemPolicy] (internal/storage/memory): the
      in-memory repositories.  User objects are shared between the repository
      and its callers, so they live in a heap.  Every history keeps the
      repository consistent; lookups, pages, batches and upserts are specified.
    - [IdentityService] (internal/domain/identity/service.go and
      internal/services/identity): the contract of [CreateUser] over any
      repository that keeps the laws it relies on.
    - [AuditTrail] (internal/services/audit, internal/audit/pipeline.go): events
      and their sinks.  [AuditLog] (internal/audit/logger.go): the asynchronous
      logger, as histories of calls and of rounds of its goroutine, which lose
      and repeat no event.
    - [Authorization] (internal/domain/policy, internal/policy/engine,
      internal/services/authorization): deny overrides, RBAC with its cache,
      ABAC, the hybrid engine, the audited decision.
    - [AuthService] (internal/domain/auth): log-in, refresh with rotation,
      revocation, PKCE, over a class of stores of sessions and tokens, of which
      memory and Redis are instances.  [AuthApi] (internal/services/auth,
      handlers/auth.go, identity.go, helpers.go, pkg/types/errors.go): log-in
      and registration over HTTP.  [Recovery]: resetting a password with a
      mailed code.
    - [RedisStores] (internal/storage/redis/client.go, session.go, cache.go,
      internal/cache): the client, which counts its commands and reconnects, the
      stores of sessions and tokens, refined against the repository in memory,
      and the cache of users.
    - [SessionStore], [SessionRisk], [SessionLifecycle]
      (internal/storage/redis/session_manager.go, internal/auth/session):
      sessions in Redis, signals and scores, the states of a session and the
      actions on it, as histories with an invariant.
    - [MFA] (internal/auth/mfa, pkg/auth/mfa): one-time codes, TOTP, recovery
      codes, policy.  [Devices] (internal/auth/device).
    - [OAuth] (pkg/auth/protocols), [DeviceFlow] (internal/domain/oauth):
      authorization codes, the token endpoint, the device grant.
    - [AuthFlow] (internal/auth/adaptive, internal/security,
      internal/orchestrator): adaptive risk, automated responses in any order,
      the log-in workflow.
    - [Gateway] (internal/server/middleware, internal/server/http/middleware):
      what stands between a request and its handler - authentication,
      authorization, CSRF, permissions, the audit of requests.
    - [Rbac] (internal/services/policy, internal/api/admin): roles and their
      grants, from the administration endpoints to the decisions.
    - [WebAuthn] (internal/auth/mfa/webauthn_provider.go,
      handlers/webauthn.go, postgres_mfa_repository.go): the ceremonies of
      registration and log-in, over a library with its laws.
    - [Platform] (internal/services/platform, internal/server/middleware,
      internal/multitenant): API keys, rate limits, quotas.

    Provisioning and data:
    - [Ldap] (internal/protocol/ldap): filters, the virtual tree, binds,
      searches and the connection loop.
    - [LdapSync] (internal/identity/ldap, internal/services/sync): mapping,
      deduplication, the paging pipeline, full and incremental runs.
    - [Scim] (internal/protocols/scim, handlers/scim.go): the adapter and the
      endpoints over the identity service.
    - [Lifecycle] (internal/domain/identity/lifecycle and governance,
      internal/worker/lifecycle_job.go), [Profile] (internal/identity/profile):
      rules, data quality, the scan over all users, scores and tags.
    - [Webhook] (internal/services/webhook, internal/worker/webhook_sender.go):
      subscriptions, the queue, signed deliveries with retries.
    - [Privacy] (internal/services/privacy): consent, export, erasure.
    - [Compliance] (internal/audit): compliance checks, retention, and reports,
      whose CSV is read back by a reader of RFC 4180.
    - [Secrets] (pkg/utils/crypto.go, pkg/kms, pkg/types/encrypted.go, start-up
      in cmd/qid-server/main.go): keys, encrypted columns, tokens, passwords.
    - [Tables]: the interface of relational tables and its laws, with a
      reference instance.  [PgIdentity]
      (internal/storage/postgresql/identity_repo.go): the identity repository
      over them, which keeps the laws the services rely on.
    - [FieldMigration] (cmd/qid-migrate-fle): the command that encrypts the
      columns of the users already stored.
    - [PgStores] (internal/storage/postgresql): the repositories of API keys,
      roles, policies, log-in methods, applications and devices over the tables,
      which keep the interfaces that the services are proved against.  A JSONB
      column gives back what JSON has: a list of strings returns as a list of
      values, and [DevCenter] shows what that does.

    - [LdapClient] (internal/identity/ldap/client.go): the client that reads a
      directory in pages, and the full synchronisation through it.
    - [PgProfiles] (internal/identity/profile/profile_repository.go): the laws that
      [Profile] relies on, kept by the database.
    - [Fingerprint] (internal/auth/adaptive/device_fingerprint.go): when two
      browsers have the same fingerprint.

    The program as a whole:
    - [Server] (internal/server/http/server.go, internal/storage/postgresql/db.go,
      internal/server/middleware): the assembly of the server in both storage
      modes, its chain of middleware, what a request meets on its way, the
      probes.
    - [Config] (pkg/utils/config.go): defaults, file and environment, and the
      configuration of the server that results from them.
    - [RadiusService] (internal/protocol/radius/server.go): starting, stopping
      and the goroutines of the RADIUS server as a step relation; it stops in
      finitely many steps, and a datagram that panics ends the process.
    - [DevCenter] (internal/services/application, internal/services/platform,
      handlers/devcenter.go): applications and the developers who register them.
    - [Tenancy] (internal/multitenant, internal/storage/postgresql): whose rows
      a request sees.
    - [Portal] (internal/server/http/ui, internal/portal/services): the pages of
      log-in, recovery, sessions and devices, and the history of accesses.
    - [Plugins] (pkg/plugins, pkg/auth/mfa): the registry, the manager, the LDAP
      connector, and second factors that plugins provide.
    - [Client] (pkg/client): the client library, composed with the handlers it
      talks to.
    - [Federation] (pkg/auth/engine.go, pkg/auth/protocols, internal/protocols/saml,
      handlers/oidc.go, oauth.go, saml.go): the engine that picks a protocol, the
      SAML service, whose session is a constant, and the OpenID Connect endpoints.
    - [Outputs] (cmd/audit-exporter, internal/audit/pipeline.go,
      internal/config/audit_config.go, pkg/notification/smtp): where audit
      events and mails leave the program, as the bytes written.
    - [Unrouted] (handlers/admin_api.go, handlers/application.go,
      cmd/qid-server/mfa.go): handlers that no router of the program reaches.

    The goroutines beside the requests, as step relations:
    - [SessionScheduler] (internal/auth/session/evaluation_scheduler.go): the
      periodic evaluation of sessions; what starting, stopping and starting again
      leave running.
    - [Background] (internal/identity/ldap/sync_scheduler.go,
      internal/worker/lifecycle_job.go, handlers/sync.go): the scheduled
      synchronisation with its retries, the job of the lifecycle rules.
    - [LdapService] (internal/protocol/ldap/server.go): the LDAP server, its
      connections and its stop, which waits for the clients.
    - [PolicyReload] (internal/policy/engine/opa_provider.go,
      internal/services/policy/service.go): the watcher of the policy file, which
      keeps the last good policy.
    - [Telemetry] (internal/storage/redis/client.go, metrics.go, internal/metrics):
      the health check and the collector of the Redis client, and which metrics
      are registered and what they count.

    ** How the code is modelled

    A function that returns [(T, error)] is a [res]; one that changes state is a
    [prog] over the state of its component, and the state is there for every
    outcome, so that what a failed operation leaves behind can be stated.  A
    nil dereference, an index out of range and a failed type assertion are
    [Panic].  Loops that recur over data are structural; the others take fuel
    and end with [Diverge] without it.  Where fuel is used a theorem or lemma
    says how much is enough: one more than the users for the lifecycle scan, the
    pages of the directory for the synchronisation, the length of the text for
    parsers, the attempts that are left for a webhook, one more than the pages
    of a hundred users for the migration.  The walk along the
    causes of an error is the exception: the causes can form a cycle, and
    [errors_are_shared] shows that the program makes one.

    Interfaces between components are classes: the operations one component
    calls, with the laws it relies on in a second class, and an instance (the
    in-memory repository, a table, the reference Redis) that keeps the laws.

    What the source does not fix is an argument of the definitions: random
    bytes and identifiers, bcrypt, JSON and JWT encodings, e-mail, the calendar
    and the printing of times and floats, trigonometry, the GeoIP database, the
    letter case of characters beyond ASCII, BER and DN parsing, the order in
    which a map is visited and in which goroutines run.  One request is handled
    at one instant, except where the code sleeps.  A database that lists all
    users in pages answers in a fixed order during one scan.

    ** Not modelled

    PostgreSQL, GORM, Redis, LDAP directories, WebAuthn, JWT, bcrypt, viper and
    the OPA sidecar are calls of libraries and of services; their contracts are
    the classes above, and so are the SAML library and the registry of
    Prometheus.  The device handlers of the
    portal (internal/portal/handlers/device_handler.go) do not compile.  Logging,
    the counters that services raise, templates, the mocks and the command qid are
    I/O and glue. *)

From stdpp Require Export base tactics option list strings gmap pretty.
From Stdlib Require Export ZArith Lia.

#[global] Set Default Goal Selector "!".

(** ** Outcomes of Go code

    A Go function returning [(T, error)] is modelled as [res E T]: it
    returns a value, returns an error, or panics (an index or slice bound out
    of range, a nil dereference).  [Diverge] is the outcome of a loop whose
    fuel ran out; every loop with fuel has a theorem that the fuel given is
    enough, or that none is. *)
Inductive res (E A : Type) : Type :=
  | Ok (a : A)
  | Err (e : E)
  | Panic
  | Diverge.
Arguments Ok {E A} a.
Arguments Err {E A} e.
Arguments Panic {E A}.
Arguments Diverge {E A}.

#[global] Instance res_ret {E} : MRet (res E) := fun A a => Ok a.
#[global] Instance res_bind {E} : MBind (res E) := fun A B f m =>
  match m with
  | Ok a => f a
  | Err e => Err e
  | Panic => Panic
  | Diverge => Diverge
  end.
#[global] Instance res_fmap {E} : FMap (res E) := fun A B f m =>
  match m with
  | Ok a => Ok (f a)
  | Err e => Err e
  | Panic => Panic
  | Diverge => Diverge
  end.

#[global] Instance res_eq_dec {E A} `{EqDecision E, EqDecision A} :
  EqDecision (res E A).
Proof. solve_decision. Defined.

(** [is_ok]: the call returned a value and a nil error. *)
Definition is_ok {E A} (r : res E A) : bool :=
  match r with Ok _ => true | _ => false end.

(** [returns]: the call came back, with a value or with an error. *)
Definition returns {E A} (r : res E A) : bool :=
  match r with Ok _ | Err _ => true | _ => false end.

Section Res.
Context {E : Type}.

Lemma bind_ok_inv {A B} (m : res E A) (f : A -> res E B) (b : B) :
  m ≫= f = Ok b <-> exists a, m = Ok a /\ f a = Ok b.
Proof. destruct m; cbn; naive_solver. Qed.

Lemma bind_err_inv {A B} (m : res E A) (f : A -> res E B) (e : E) :
  m ≫= f = Err e <-> m = Err e \/ exists a, m = Ok a /\ f a = Err e.
Proof. destruct m; cbn; naive_solver. Qed.

Lemma bind_panic_inv {A B} (m : res E A) (f : A -> res E B) :
  m ≫= f = Panic <-> m = Panic \/ exists a, m = Ok a /\ f a = Panic.
Proof. destruct m; cbn; naive_solver. Qed.

Lemma bind_diverge_inv {A B} (m : res E A) (f : A -> res E B) :
  m ≫= f = Diverge <-> m = Diverge \/ exists a, m = Ok a /\ f a = Diverge.
Proof. destruct m; cbn; naive_solver. Qed.

Lemma bind_assoc {A B C} (m : res E A) (f : A -> res E B) (g : B -> res E C) :
  (m ≫= f) ≫= g = m ≫= (fun a => f a ≫= g).
Proof. by destruct m. Qed.
End Res.

(** ** Go slices

    [slice l i j] is [l[i:j]] for a slice whose capacity is its length, which
    is what [make([]T, n)] gives; the bounds may come from arithmetic, so they
    are integers.  [index l i] is [l[i]]. *)
Definition slice {E A} (l : list A) (i j : Z) : res E (list A) :=
  if bool_decide (0 <= i /\ i <= j /\ j <= Z.of_nat (length l))%Z
  then Ok (take (Z.to_nat (j - i)) (drop (Z.to_nat i) l))
  else Panic.

Definition index {E A} (l : list A) (i : Z) : res E A :=
  if bool_decide (0 <= i)%Z then
    match l !! Z.to_nat i with
    | Some a => Ok a
    | None => Panic
    end
  else Panic.

Section Slice.
Context {E A : Type}.
Implicit Types l : list A.

Lemma slice_ok l i j :
  (0 <= i <= j)%Z -> (j <= Z.of_nat (length l))%Z ->
  slice (E:=E) l i j = Ok (take (Z.to_nat (j - i)) (drop (Z.to_nat i) l)).
Proof. intros. unfold slice. rewrite bool_decide_eq_true_2; [done|lia]. Qed.

Lemma slice_panic l i j :
  slice (E:=E) l i j = Panic <->
  (i < 0 \/ j < i \/ Z.of_nat (length l) < j)%Z.
Proof. unfold slice. case_bool_decide; split; try done; lia. Qed.

Lemma slice_not_err l i j e : slice (E:=E) l i j <> Err e.
Proof. unfold slice. by case_bool_decide. Qed.

Lemma slice_not_diverge l i j : slice (E:=E) l i j <> Diverge.
Proof. unfold slice. by case_bool_decide. Qed.

Lemma slice_length l i j r :
  slice (E:=E) l i j = Ok r -> Z.of_nat (length r) = (j - i)%Z.
Proof.
  unfold slice. case_bool_decide; [|done]. intros [= <-].
  rewrite length_take, length_drop. lia.
Qed.

Lemma index_ok l i a :
  (0 <= i)%Z -> l !! Z.to_nat i = Some a -> index (E:=E) l i = Ok a.
Proof. intros ? Hl. unfold index. by rewrite bool_decide_eq_true_2, Hl. Qed.

Lemma index_middle l a l' :
  index (E:=E) (l ++ a :: l') (Z.of_nat (length l)) = Ok a.
Proof. apply index_ok; [lia|]. rewrite Nat2Z.id. by apply list_lookup_middle. Qed.

Lemma index_middle_1 l a b l' :
  index (E:=E) (l ++ a :: b :: l') (Z.of_nat (length l) + 1) = Ok b.
Proof.
  change (a :: b :: l') with ([a] ++ b :: l'). rewrite app_assoc.
  replace (Z.of_nat (length l) + 1)%Z with (Z.of_nat (length (l ++ [a]))).
  - apply index_middle.
  - rewrite length_app. cbn [length]. lia.
Qed.

Lemma index_panic l i :
  index (E:=E) l i = Panic <-> (i < 0 \/ Z.of_nat (length l) <= i)%Z.
Proof.
  unfold index. case_bool_decide; [|split; [lia|done]].
  destruct (l !! Z.to_nat i) eqn:Hl.
  - apply lookup_lt_Some in Hl. split; [done|lia].
  - apply lookup_ge_None in Hl. split; [lia|done].
Qed.
End Slice.

(** ** Unsigned machine integers *)
Definition wrap (w : Z) (z : Z) : Z := (z mod 2 ^ w)%Z.

Lemma wrap_range w z : (0 <= w)%Z -> (0 <= wrap w z < 2 ^ w)%Z.
Proof. intros. apply Z.mod_pos_bound. by apply Z.pow_pos_nonneg. Qed.

Lemma wrap_small w z : (0 <= z < 2 ^ w)%Z -> wrap w z = z.
Proof. apply Z.mod_small. Qed.

(** A Go [int] is 64 bits wide and wraps. *)
Definition int64 (z : Z) : Z := ((z + 2 ^ 63) mod 2 ^ 64 - 2 ^ 63)%Z.

Lemma int64_small z : (- 2 ^ 63 <= z < 2 ^ 63)%Z -> int64 z = z.
Proof. intros. unfold int64. rewrite Z.mod_small; lia. Qed.

Lemma int64_range z : (- 2 ^ 63 <= int64 z < 2 ^ 63)%Z.
Proof. unfold int64. pose proof (Z.mod_pos_bound (z + 2 ^ 63) (2 ^ 64) ltac:(lia)). lia. Qed.

(** ** Stateful code

    An operation on a component with state [S] is a function from the state
    to an outcome and the state it leaves.  The state is there for every
    outcome: a handler that fails half way keeps what it has written, and a
    panic (recovered by the HTTP server) does too. *)
Definition prog (S E A : Type) : Type := S -> res E A * S.

#[global] Instance prog_ret {S E} : MRet (prog S E) := fun A a s => (Ok a, s).
#[global] Instance prog_bind {S E} : MBind (prog S E) := fun A B f m s =>
  match m s with
  | (Ok a, s') => f a s'
  | (Err e, s') => (Err e, s')
  | (Panic, s') => (Panic, s')
  | (Diverge, s') => (Diverge, s')
  end.

Definition get {S E} : prog S E S := fun s => (Ok s, s).
Definition put {S E} (s : S) : prog S E unit := fun _ => (Ok (), s).
Definition modify {S E} (f : S -> S) : prog S E unit := fun s => (Ok (), f s).
Definition throw {S E A} (e : E) : prog S E A := fun s => (Err e, s).
Definition lift {S E A} (r : res E A) : prog S E A := fun s => (r, s).

(** [x, err := m]: the error is a value the caller looks at. *)
Definition try {S E A} (m : prog S E A) : prog S E (E + A) := fun s =>
  match m s with
  | (Ok a, s') => (Ok (inr a), s')
  | (Err e, s') => (Ok (inl e), s')
  | (Panic, s') => (Panic, s')
  | (Diverge, s') => (Diverge, s')
  end.

(** Run an operation on a part of the state. *)
Definition zoom {S T E A} (proj : S -> T) (inj : T -> S -> S) (m : prog T E A) :
    prog S E A := fun s =>
  let '(r, t) := m (proj s) in (r, inj t s).

(** [for _, x := range l { body x }] *)
Fixpoint for_each {S E A} (body : A -> prog S E unit) (l : list A) : prog S E unit :=
  match l with
  | [] => mret ()
  | x :: l => body x ;; for_each body l
  end.

(** [preserves I m]: [m] keeps the invariant, whatever its outcome. *)
Definition preserves {S E A} (I : S -> Prop) (m : prog S E A) : Prop :=
  forall s, I s -> I (m s).2.

Section Prog.
Context {S E : Type}.
Implicit Types (s : S) (I : S -> Prop).

Lemma prog_bind_ok {A B} (m : prog S E A) (f : A -> prog S E B) s s' b :
  (m ≫= f) s = (Ok b, s') <->
  exists a s1, m s = (Ok a, s1) /\ f a s1 = (Ok b, s').
Proof. unfold mbind, prog_bind. destruct (m s) as [[] ?]; naive_solver. Qed.

Lemma prog_bind_run {A B} (m : prog S E A) (f : A -> prog S E B) s a s1 :
  m s = (Ok a, s1) -> (m ≫= f) s = f a s1.
Proof. unfold mbind, prog_bind. by intros ->. Qed.

Lemma prog_bind_fail {A B} (m : prog S E A) (f : A -> prog S E B) s e s1 :
  m s = (Err e, s1) -> (m ≫= f) s = (Err e, s1).
Proof. unfold mbind, prog_bind. by intros ->. Qed.

Lemma prog_get_bind {A} (f : S -> prog S E A) s : (get ≫= f) s = f s s.
Proof. done. Qed.

Lemma prog_lift_bind {A B} (a : A) (f : A -> prog S E B) s : (lift (Ok a) ≫= f) s = f a s.
Proof. done. Qed.

Lemma prog_assoc {A B C} (m : prog S E A) (f : A -> prog S E B) (g : B -> prog S E C) s :
  ((m ≫= f) ≫= g) s = (m ≫= (fun a => f a ≫= g)) s.
Proof. unfold mbind, prog_bind. by destruct (m s) as [[] ?]. Qed.

(** Two continuations that agree everywhere. *)
Lemma prog_bind_ext {A B} (m : prog S E A) (f g : A -> prog S E B) s :
  (forall a s', f a s' = g a s') -> (m ≫= f) s = (m ≫= g) s.
Proof. intros Hfg. unfold mbind, prog_bind. destruct (m s) as [[] ?]; auto. Qed.

Lemma preserves_ret {A} I (a : A) : preserves (E:=E) I (mret a).
Proof. by intros s. Qed.

Lemma preserves_throw {A} I (e : E) : preserves (A:=A) I (throw e).
Proof. by intros s. Qed.

Lemma preserves_lift {A} I (r : res E A) : preserves I (lift r).
Proof. by intros s. Qed.

Lemma preserves_get I : preserves (E:=E) I get.
Proof. by intros s. Qed.

Lemma preserves_bind {A B} I (m : prog S E A) (f : A -> prog S E B) :
  preserves I m -> (forall a, preserves I (f a)) -> preserves I (m ≫= f).
Proof.
  intros Hm Hf s Hs. specialize (Hm s Hs). unfold mbind, prog_bind.
  destruct (m s) as [[] ?]; cbn in *; try done. by apply Hf.
Qed.

Lemma preserves_get_bind {A} I (f : S -> prog S E A) :
  (forall s, I s -> I (f s s).2) -> preserves I (get ≫= f).
Proof. intros Hf s Hs. by apply Hf. Qed.

Lemma preserves_modify I (f : S -> S) :
  (forall s, I s -> I (f s)) -> preserves (E:=E) I (modify f).
Proof. intros Hf s Hs. by apply Hf. Qed.

Lemma preserves_try {A} I (m : prog S E A) : preserves I m -> preserves I (try m).
Proof.
  intros Hm s Hs. specialize (Hm s Hs). unfold try. by destruct (m s) as [[] ?].
Qed.

Lemma preserves_for_each {A} I (body : A -> prog S E unit) l :
  (forall x, x ∈ l -> preserves I (body x)) -> preserves I (for_each body l).
Proof.
  induction l as [|x l IH]; intros Hb; cbn [for_each]; [apply preserves_ret|].
  apply preserves_bind; [apply Hb, list_elem_of_here|].
  intros []. apply IH. intros. by apply Hb, list_elem_of_further.
Qed.
End Prog.

(** ** Pages of a listing

    The pagination of the in-memory repositories: entries [start] to
    [start + size] of the listing, nothing when the listing is shorter. *)
Definition page {E A} (l : list A) (start size : Z) : res E (list A) :=
  let e := int64 (start + size) in
  if bool_decide (Z.of_nat (length l) < start)%Z then Ok []
  else slice l start (Z.min e (Z.of_nat (length l))).

Lemma page_ok {E A} (l : list A) start size :
  (0 <= start)%Z -> (0 <= size)%Z -> (start + size < 2 ^ 63)%Z ->
  page (E:=E) l start size = Ok (take (Z.to_nat size) (drop (Z.to_nat start) l)).
Proof.
  intros. unfold page. rewrite int64_small by lia. case_bool_decide.
  - rewrite drop_ge by lia. by rewrite take_nil.
  - rewrite slice_ok by lia. f_equal.
    destruct (Z.min_spec (start + size) (Z.of_nat (length l))) as [[? ->]|[? ->]];
      [f_equal; lia|].
    rewrite !take_ge; [done|rewrite length_drop; lia..].
Qed.

(** Outside that range of arguments the listing panics. *)
Lemma page_panic {E A} (l : list A) start size :
  (start <= Z.of_nat (length l))%Z ->
  (page (E:=E) l start size = Panic <->
   (start < 0 \/ int64 (start + size) < start)%Z).
Proof. intros. unfold page. rewrite bool_decide_eq_false_2 by lia. rewrite slice_panic. lia. Qed.

Lemma page_far {E A} (l : list A) start size :
  (Z.of_nat (length l) < start)%Z -> page (E:=E) l start size = Ok [].
Proof. intros. unfold page. by rewrite bool_decide_eq_true_2. Qed.

(** Successive pages put together give the listing from the first one on. *)
Lemma pages_concat {A} (l : list A) (size n : nat) :
  mjoin ((fun i => take size (drop (i * size) l)) <$> seq 0 n) = take (n * size) l.
Proof.
  induction n as [|n IH]; [done|].
  rewrite seq_S, fmap_app, join_app, IH. cbn [mjoin fmap list_fmap list_join].
  rewrite app_nil_r, take_take_drop. f_equal. lia.
Qed.

Lemma exists_elem_cons {A} (P : A -> Prop) x l :
  (exists y, y ∈ x :: l /\ P y) <-> P x \/ exists y, y ∈ l /\ P y.
Proof. setoid_rewrite elem_of_cons. naive_solver. Qed.

Lemma exists_elem_nil {A} (P : A -> Prop) : (exists y, y ∈ [] /\ P y) <-> False.
Proof. setoid_rewrite elem_of_nil. naive_solver. Qed.

Lemma filter_all {A} (P : A -> Prop) `{forall x, Decision (P x)} (l : list A) :
  Forall P l -> filter P l = l.
Proof.
  induction 1 as [|x l Hx _ IH]; [done|]. by rewrite filter_cons, decide_True, IH.
Qed.

(** ** Iterating over a Go map

    The order in which [range] visits a map is not specified.  A [map_order]
    is one choice of order, for every map; it visits each entry exactly once.
    Operations that range over a map take the order as an argument, so that a
    theorem holds for every order the runtime may choose. *)
Record map_order := MapOrder {
  range : forall {A}, gmap string A -> list (string * A);
  range_perm : forall {A} (m : gmap string A), range m ≡ₚ map_to_list m
}.

Definition default_order : map_order :=
  MapOrder (fun A m => map_to_list m) (fun A m => Permutation_refl _).

Definition reverse_order : map_order.
Proof.
  refine (MapOrder (fun A m => reverse (map_to_list m)) _).
  intros A m. apply reverse_Permutation.
Defined.

Section MapOrder.
Context (ord : map_order) {A : Type}.
Implicit Types m : gmap string A.

Lemma elem_of_range m k a : (k, a) ∈ range ord m <-> m !! k = Some a.
Proof. by rewrite range_perm, elem_of_map_to_list. Qed.

Lemma range_length m : length (range ord m) = size m.
Proof. by rewrite range_perm, length_map_to_list. Qed.

Lemma range_nodup m : NoDup (range ord m).*1.
Proof. rewrite range_perm. apply NoDup_fst_map_to_list. Qed.

Lemma range_empty : range ord (∅ : gmap string A) = [].
Proof. apply Permutation_nil. by rewrite range_perm, map_to_list_empty. Qed.
End MapOrder.

(** ** Tactics and hints *)

(** Decompose hypotheses [m ≫= f = Ok b] into the results of the calls. *)
Ltac inv_bind :=
  repeat match goal with
  | H : _ ≫= _ = Ok _ |- _ =>
      apply bind_ok_inv in H; destruct H as (? & ? & H)
  end.

(** Case analysis on the boolean guards of a handler, closing the branches
    that contradict the hypotheses. *)
Ltac cases_guard :=
  repeat (case_match || case_bool_decide); try done; try lia.

Create HintDb quantaid.
Create HintDb len.
Create HintDb preserve.
#[export] Hint Resolve slice_ok index_ok wrap_range : quantaid.
#[export] Hint Resolve preserves_ret preserves_throw preserves_lift preserves_get
  preserves_bind preserves_try preserves_for_each : preserve.
#[export] Hint Rewrite @length_app @length_take @length_drop
  @length_reverse @length_replicate @length_fmap : len.
