(* ===== verification/Bytes.v ===== *)
(** * Bytes

    Go's [byte] is Rocq's [Byte.byte]; its arithmetic and bit operations go
    through the integers 0..255 ([b2z], [z2b]).  Big-endian conversions of
    encoding/binary, xor of byte strings, and the conversion between Go
    strings used as map keys ([string]) and as bytes ([list byte]). *)

From S2P Require Import Prelude.
From Stdlib Require Export Strings.Byte Bool.
Local Open Scope Z_scope.

#[global] Instance byte_eq_dec : EqDecision byte := byte_eq_dec.

Definition b2z (b : byte) : Z := Z.of_N (Byte.to_N b).
Definition z2b (z : Z) : byte :=
  match Byte.of_N (Z.to_N (z mod 256)) with
  | Some b => b
  | None => x00
  end.

Lemma b2z_range b : 0 <= b2z b < 256.
Proof. unfold b2z. pose proof (Byte.to_N_bounded b). lia. Qed.

Lemma b2z_z2b z : b2z (z2b z) = z mod 256.
Proof.
  unfold b2z, z2b. pose proof (Z.mod_pos_bound z 256 eq_refl).
  destruct (Byte.of_N _) as [b|] eqn:Hb.
  - apply Byte.to_of_N in Hb. rewrite Hb. lia.
  - apply Byte.of_N_None_iff in Hb. lia.
Qed.

Lemma z2b_b2z b : z2b (b2z b) = b.
Proof.
  unfold z2b, b2z. pose proof (Byte.to_N_bounded b).
  rewrite Z.mod_small by lia. by rewrite N2Z.id, Byte.of_to_N.
Qed.

Lemma b2z_inj a b : b2z a = b2z b -> a = b.
Proof. intros H. by rewrite <-(z2b_b2z a), H, z2b_b2z. Qed.

Lemma z2b_small z : 0 <= z < 256 -> b2z (z2b z) = z.
Proof. intros. rewrite b2z_z2b. by apply Z.mod_small. Qed.

(** ** Bit operations *)
Definition bxor (a b : byte) : byte := z2b (Z.lxor (b2z a) (b2z b)).
Definition band (a b : byte) : byte := z2b (Z.land (b2z a) (b2z b)).
Definition bor (a b : byte) : byte := z2b (Z.lor (b2z a) (b2z b)).
Definition bshl (a : byte) (n : Z) : byte := z2b (Z.shiftl (b2z a) n).
Definition bshr (a : byte) (n : Z) : byte := z2b (Z.shiftr (b2z a) n).

(** A property of all bytes is decided by running through the 256 of them. *)
Definition all_bytes : list byte := map (fun n => z2b (Z.of_nat n)) (seq 0 256).

Lemma elem_of_all_bytes b : In b all_bytes.
Proof.
  apply in_map_iff. exists (Z.to_nat (b2z b)).
  pose proof (b2z_range b). rewrite Z2Nat.id by lia.
  split; [apply z2b_b2z|]. apply in_seq. lia.
Qed.

Lemma forall_bytes (P : byte -> bool) :
  forallb P all_bytes = true -> forall b, P b = true.
Proof. intros H b. rewrite forallb_forall in H. apply H, elem_of_all_bytes. Qed.

(** Bits of a byte. *)
Lemma testbit_z2b v i :
  0 <= i -> Z.testbit (b2z (z2b v)) i = (i <? 8) && Z.testbit v i.
Proof.
  intros Hi. rewrite b2z_z2b. change 256 with (2 ^ 8).
  destruct (Z.ltb_spec i 8).
  - by rewrite Z.mod_pow2_bits_low.
  - by rewrite Z.mod_pow2_bits_high by lia.
Qed.

Lemma testbit_byte_high b i : 8 <= i -> Z.testbit (b2z b) i = false.
Proof.
  intros Hi. rewrite <-(z2b_b2z b), testbit_z2b by lia.
  by rewrite (proj2 (Z.ltb_ge _ _)).
Qed.

Lemma byte_ext a b :
  (forall i, 0 <= i < 8 -> Z.testbit (b2z a) i = Z.testbit (b2z b) i) -> a = b.
Proof.
  intros H. apply b2z_inj, Z.bits_inj'. intros i Hi.
  destruct (Z.lt_ge_cases i 8); [by apply H|].
  by rewrite !testbit_byte_high.
Qed.

Lemma testbit_bxor a b i :
  0 <= i -> Z.testbit (b2z (bxor a b)) i = xorb (Z.testbit (b2z a) i) (Z.testbit (b2z b) i).
Proof.
  intros Hi. unfold bxor. rewrite testbit_z2b, Z.lxor_spec by done.
  destruct (Z.ltb_spec i 8); [done|]. by rewrite !testbit_byte_high.
Qed.

Lemma testbit_bor a b i :
  0 <= i -> Z.testbit (b2z (bor a b)) i = Z.testbit (b2z a) i || Z.testbit (b2z b) i.
Proof.
  intros Hi. unfold bor. rewrite testbit_z2b, Z.lor_spec by done.
  destruct (Z.ltb_spec i 8); [done|]. by rewrite !testbit_byte_high.
Qed.

Lemma testbit_band a b i :
  0 <= i -> Z.testbit (b2z (band a b)) i = Z.testbit (b2z a) i && Z.testbit (b2z b) i.
Proof.
  intros Hi. unfold band. rewrite testbit_z2b, Z.land_spec by done.
  destruct (Z.ltb_spec i 8); [done|]. by rewrite !testbit_byte_high.
Qed.

Lemma testbit_bshl a n i :
  0 <= i -> Z.testbit (b2z (bshl a n)) i = (i <? 8) && Z.testbit (b2z a) (i - n).
Proof. intros Hi. unfold bshl. by rewrite testbit_z2b, Z.shiftl_spec. Qed.

Lemma testbit_bshr a n i :
  0 <= i -> Z.testbit (b2z (bshr a n)) i = (i <? 8) && Z.testbit (b2z a) (i + n).
Proof. intros Hi. unfold bshr. by rewrite testbit_z2b, Z.shiftr_spec. Qed.

Lemma bxor_cancel a b : bxor (bxor a b) b = a.
Proof.
  apply byte_ext. intros i Hi. rewrite !testbit_bxor by lia.
  by rewrite xorb_assoc, xorb_nilpotent, xorb_false_r.
Qed.

Definition xor_bytes (a b : list byte) : list byte := zip_with bxor a b.

Lemma xor_bytes_cancel a b :
  (length a <= length b)%nat -> xor_bytes (xor_bytes a b) b = a.
Proof.
  revert b. induction a as [|x a IH]; intros [|y b] H; cbn in *; try done; [lia|].
  rewrite bxor_cancel. f_equal. apply IH. lia.
Qed.

Lemma xor_bytes_length a b :
  length (xor_bytes a b) = Nat.min (length a) (length b).
Proof. apply length_zip_with. Qed.

(** ** encoding/binary, big endian: [n] bytes of an integer and back *)
Fixpoint be_encode (n : nat) (z : Z) : list byte :=
  match n with
  | O => []
  | S n => be_encode n (Z.shiftr z 8) ++ [z2b z]
  end.

Definition be_decode (l : list byte) : Z :=
  fold_left (fun acc b => acc * 256 + b2z b) l 0.

Lemma be_encode_length n z : length (be_encode n z) = n.
Proof.
  revert z. induction n as [|n IH]; intros z; cbn; [done|].
  rewrite length_app, IH. cbn. lia.
Qed.

Lemma be_decode_snoc l b : be_decode (l ++ [b]) = be_decode l * 256 + b2z b.
Proof. unfold be_decode. by rewrite fold_left_app. Qed.

Lemma be_decode_encode n z : be_decode (be_encode n z) = z mod 2 ^ (8 * Z.of_nat n).
Proof.
  revert z. induction n as [|n IH]; intros z.
  - cbn. by rewrite Z.mod_1_r.
  - cbn [be_encode]. rewrite be_decode_snoc, IH, b2z_z2b.
    rewrite Z.shiftr_div_pow2 by lia. change (2 ^ 8) with 256.
    replace (8 * Z.of_nat (S n)) with (8 + 8 * Z.of_nat n) by lia.
    rewrite Z.pow_add_r by lia. change (2 ^ 8) with 256.
    rewrite Z.rem_mul_r by lia. lia.
Qed.

Lemma be_decode_range l : 0 <= be_decode l < 2 ^ (8 * Z.of_nat (length l)).
Proof.
  induction l as [|b l IH] using rev_ind; [done|].
  rewrite be_decode_snoc, length_app. cbn [length].
  replace (8 * Z.of_nat (length l + 1)) with (8 + 8 * Z.of_nat (length l)) by lia.
  rewrite Z.pow_add_r by lia. change (2 ^ 8) with 256.
  pose proof (b2z_range b). lia.
Qed.

Lemma be_encode_decode l : be_encode (length l) (be_decode l) = l.
Proof.
  induction l as [|b l IH] using rev_ind; [done|].
  rewrite length_app, Nat.add_comm. cbn [Nat.add length be_encode].
  rewrite be_decode_snoc. f_equal.
  - rewrite Z.shiftr_div_pow2 by lia. change (2 ^ 8) with 256.
    pose proof (b2z_range b). rewrite Z.div_add_l by lia.
    rewrite (Z.div_small (b2z b)) by lia. by rewrite Z.add_0_r.
  - f_equal. apply b2z_inj. rewrite b2z_z2b.
    pose proof (b2z_range b). rewrite Z.add_comm, Z_mod_plus_full.
    by apply Z.mod_small.
Qed.

(** [binary.BigEndian.Uint16(l)] and [Uint32(l)] read the first bytes of [l]
    and panic when there are too few. *)
Definition read_be {E} (n : nat) (l : list byte) : res E Z :=
  if bool_decide (n <= length l)%nat then Ok (be_decode (take n l)) else Panic.

Lemma read_be_inv {E} n l z :
  read_be (E:=E) n l = Ok z -> (n <= length l)%nat /\ z = be_decode (take n l).
Proof. unfold read_be. case_bool_decide; [|done]. by intros [= <-]. Qed.

(** [buf[i:i+n]] overwritten ([copy(buf[i:], s)] with [s] in range). *)
Definition splice (l : list byte) (i : nat) (s : list byte) : list byte :=
  take i l ++ s ++ drop (i + length s) l.

(** ** Strings as bytes *)
Definition str (s : string) : list byte := String.list_byte_of_string s.
Definition unstr (l : list byte) : string := String.string_of_list_byte l.

Lemma str_unstr l : str (unstr l) = l.
Proof. apply String.list_byte_of_string_of_list_byte. Qed.

Lemma unstr_str s : unstr (str s) = s.
Proof. apply String.string_of_list_byte_of_string. Qed.

#[global] Instance str_inj : Inj (=) (=) str.
Proof. intros a b H. by rewrite <-(unstr_str a), H, unstr_str. Qed.

#[global] Instance unstr_inj : Inj (=) (=) unstr.
Proof. intros a b H. by rewrite <-(str_unstr a), H, str_unstr. Qed.

#[export] Hint Rewrite be_encode_length xor_bytes_length : len.
