(* ===== verification/Hashes.v ===== *)
(** * Hash and cipher functions of Go's standard library

    The parts of crypto/md5, crypto/sha1, crypto/sha256, crypto/hmac and
    crypto/des the program calls, executable on byte lists and checked against the published test vectors.
    The clients of this file use only the length lemmas. *)

From S2P Require Import Prelude Bytes.
Local Open Scope Z_scope.

Definition w32 (z : Z) : Z := Z.land z 4294967295.
Definition rotl32 (x n : Z) : Z :=
  w32 (Z.lor (Z.shiftl x n) (Z.shiftr x (32 - n))).
Definition not32 (x : Z) : Z := Z.lxor x 4294967295.

(** [l] cut into pieces of [n] elements; the fuel is the length of [l]. *)
Fixpoint chunks_fuel {A} (fuel n : nat) (l : list A) : list (list A) :=
  match fuel, l with
  | S fuel, _ :: _ => take n l :: chunks_fuel fuel n (drop n l)
  | _, _ => []
  end.
Definition chunks {A} (n : nat) (l : list A) : list (list A) :=
  chunks_fuel (length l) n l.

(** Merkle-Damgard padding: 0x80, zeros up to 56 modulo 64, then [len]. *)
Definition md_pad (msg len : list byte) : list byte :=
  let k := Z.to_nat ((55 - Z.of_nat (length msg)) mod 64) in
  msg ++ [x80] ++ replicate k x00 ++ len.

(** ** MD5 (RFC 1321) *)
Module Md5.
Definition le_decode (l : list byte) : Z := be_decode (reverse l).
Definition le32 (z : Z) : list byte := reverse (be_encode 4 z).

Definition table : list Z := [
   3614090360; 3905402710; 606105819; 3250441966; 4118548399;
   1200080426; 2821735955; 4249261313; 1770035416; 2336552879;
   4294925233; 2304563134; 1804603682; 4254626195; 2792965006;
   1236535329; 4129170786; 3225465664; 643717713; 3921069994;
   3593408605; 38016083; 3634488961; 3889429448; 568446438;
   3275163606; 4107603335; 1163531501; 2850285829; 4243563512;
   1735328473; 2368359562; 4294588738; 2272392833; 1839030562;
   4259657740; 2763975236; 1272893353; 4139469664; 3200236656;
   681279174; 3936430074; 3572445317; 76029189; 3654602809;
   3873151461; 530742520; 3299628645; 4096336452; 1126891415;
   2878612391; 4237533241; 1700485571; 2399980690; 4293915773;
   2240044497; 1873313359; 4264355552; 2734768916; 1309151649;
   4149444226; 3174756917; 718787259; 3951481745 ].

Definition shifts : list Z := [
   7; 12; 17; 22; 7; 12; 17; 22; 7; 12; 17; 22; 7; 12; 17; 22;
   5; 9; 14; 20; 5; 9; 14; 20; 5; 9; 14; 20; 5; 9; 14; 20;
   4; 11; 16; 23; 4; 11; 16; 23; 4; 11; 16; 23; 4; 11; 16; 23;
   6; 10; 15; 21; 6; 10; 15; 21; 6; 10; 15; 21; 6; 10; 15; 21 ].

Definition state : Type := Z * Z * Z * Z.

Definition step (m : list Z) (st : state) (i : Z * (Z * Z)) : state :=
  let '(a, b, c, d) := st in
  let '(i, (k, s)) := i in
  let '(f, g) :=
    if i <? 16 then (Z.lor (Z.land b c) (Z.land (not32 b) d), i)
    else if i <? 32 then (Z.lor (Z.land d b) (Z.land (not32 d) c), (5 * i + 1) mod 16)
    else if i <? 48 then (Z.lxor (Z.lxor b c) d, (3 * i + 5) mod 16)
    else (Z.lxor c (Z.lor b (not32 d)), (7 * i) mod 16) in
  let x := w32 (a + f + k + nth (Z.to_nat g) m 0) in
  (d, w32 (b + rotl32 x s), b, c).

Definition rounds : list (Z * (Z * Z)) :=
  zip (map Z.of_nat (seq 0 64)) (zip table shifts).

Definition block (st : state) (chunk : list byte) : state :=
  let m := map le_decode (chunks 4 chunk) in
  let '(a0, b0, c0, d0) := st in
  let '(a, b, c, d) := fold_left (step m) rounds st in
  (w32 (a0 + a), w32 (b0 + b), w32 (c0 + c), w32 (d0 + d)).

Definition init : state := (1732584193, 4023233417, 2562383102, 271733878).

Definition sum (msg : list byte) : list byte :=
  let len := reverse (be_encode 8 (8 * Z.of_nat (length msg))) in
  let '(a, b, c, d) := fold_left block (chunks 64 (md_pad msg len)) init in
  le32 a ++ le32 b ++ le32 c ++ le32 d.
End Md5.

Definition md5 (msg : list byte) : list byte := Md5.sum msg.

Lemma md5_length msg : length (md5 msg) = 16%nat.
Proof.
  unfold md5, Md5.sum. destruct (fold_left _ _ _) as [[[a b] c] d].
  unfold Md5.le32. by rewrite !length_app, !length_reverse, !be_encode_length.
Qed.

(** ** SHA-1 (FIPS 180-4) *)
Module Sha1.
Definition state : Type := Z * Z * Z * Z * Z.

(** The message schedule, most recent word first. *)
Fixpoint expand (n : nat) (w : list Z) : list Z :=
  match n with
  | O => w
  | S n =>
      let x := rotl32 (Z.lxor (Z.lxor (nth 2 w 0) (nth 7 w 0))
                              (Z.lxor (nth 13 w 0) (nth 15 w 0))) 1 in
      expand n (x :: w)
  end.

Definition step (st : state) (tw : Z * Z) : state :=
  let '(a, b, c, d, e) := st in
  let '(t, w) := tw in
  let '(f, k) :=
    if t <? 20 then (Z.lor (Z.land b c) (Z.land (not32 b) d), 1518500249)
    else if t <? 40 then (Z.lxor (Z.lxor b c) d, 1859775393)
    else if t <? 60 then
      (Z.lor (Z.lor (Z.land b c) (Z.land b d)) (Z.land c d), 2400959708)
    else (Z.lxor (Z.lxor b c) d, 3395469782) in
  (w32 (rotl32 a 5 + f + e + k + w), a, rotl32 b 30, c, d).

Definition block (st : state) (chunk : list byte) : state :=
  let w := reverse (expand 64 (reverse (map be_decode (chunks 4 chunk)))) in
  let '(a0, b0, c0, d0, e0) := st in
  let '(a, b, c, d, e) :=
    fold_left step (zip (map Z.of_nat (seq 0 80)) w) st in
  (w32 (a0 + a), w32 (b0 + b), w32 (c0 + c), w32 (d0 + d), w32 (e0 + e)).

Definition init : state :=
  (1732584193, 4023233417, 2562383102, 271733878, 3285377520).

Definition sum (msg : list byte) : list byte :=
  let len := be_encode 8 (8 * Z.of_nat (length msg)) in
  let '(a, b, c, d, e) := fold_left block (chunks 64 (md_pad msg len)) init in
  be_encode 4 a ++ be_encode 4 b ++ be_encode 4 c ++ be_encode 4 d ++ be_encode 4 e.
End Sha1.

Definition sha1 (msg : list byte) : list byte := Sha1.sum msg.

Lemma sha1_length msg : length (sha1 msg) = 20%nat.
Proof.
  unfold sha1, Sha1.sum. destruct (fold_left _ _ _) as [[[[a b] c] d] e].
  by rewrite !length_app, !be_encode_length.
Qed.

(** ** SHA-256 (FIPS 180-4) *)
Module Sha256.
Definition state : Type := Z * Z * Z * Z * Z * Z * Z * Z.

Definition table : list Z := [
   1116352408; 1899447441; 3049323471; 3921009573; 961987163;
   1508970993; 2453635748; 2870763221; 3624381080; 310598401;
   607225278; 1426881987; 1925078388; 2162078206; 2614888103;
   3248222580; 3835390401; 4022224774; 264347078; 604807628;
   770255983; 1249150122; 1555081692; 1996064986; 2554220882;
   2821834349; 2952996808; 3210313671; 3336571891; 3584528711;
   113926993; 338241895; 666307205; 773529912; 1294757372;
   1396182291; 1695183700; 1986661051; 2177026350; 2456956037;
   2730485921; 2820302411; 3259730800; 3345764771; 3516065817;
   3600352804; 4094571909; 275423344; 430227734; 506948616;
   659060556; 883997877; 958139571; 1322822218; 1537002063;
   1747873779; 1955562222; 2024104815; 2227730452; 2361852424;
   2428436474; 2756734187; 3204031479; 3329325298 ].

Definition rotr32 (x n : Z) : Z := rotl32 x (32 - n).
Definition xor3 (x y z : Z) : Z := Z.lxor (Z.lxor x y) z.

(** The message schedule, most recent word first. *)
Fixpoint expand (n : nat) (w : list Z) : list Z :=
  match n with
  | O => w
  | S n =>
      let x := nth 14 w 0 in
      let y := nth 1 w 0 in
      let s0 := xor3 (rotr32 x 7) (rotr32 x 18) (Z.shiftr x 3) in
      let s1 := xor3 (rotr32 y 17) (rotr32 y 19) (Z.shiftr y 10) in
      expand n (w32 (nth 15 w 0 + s0 + nth 6 w 0 + s1) :: w)
  end.

Definition step (st : state) (kw : Z * Z) : state :=
  let '(a, b, c, d, e, f, g, h) := st in
  let '(k, w) := kw in
  let s1 := xor3 (rotr32 e 6) (rotr32 e 11) (rotr32 e 25) in
  let ch := Z.lxor (Z.land e f) (Z.land (not32 e) g) in
  let t1 := w32 (h + s1 + ch + k + w) in
  let s0 := xor3 (rotr32 a 2) (rotr32 a 13) (rotr32 a 22) in
  let maj := xor3 (Z.land a b) (Z.land a c) (Z.land b c) in
  (w32 (t1 + s0 + maj), a, b, c, w32 (d + t1), e, f, g).

Definition block (st : state) (chunk : list byte) : state :=
  let w := reverse (expand 48 (reverse (map be_decode (chunks 4 chunk)))) in
  let '(a0, b0, c0, d0, e0, f0, g0, h0) := st in
  let '(a, b, c, d, e, f, g, h) := fold_left step (zip table w) st in
  (w32 (a0 + a), w32 (b0 + b), w32 (c0 + c), w32 (d0 + d),
   w32 (e0 + e), w32 (f0 + f), w32 (g0 + g), w32 (h0 + h)).

Definition init : state :=
  (1779033703, 3144134277, 1013904242, 2773480762, 1359893119, 2600822924, 528734635, 1541459225).

Definition sum (msg : list byte) : list byte :=
  let len := be_encode 8 (8 * Z.of_nat (length msg)) in
  let '(a, b, c, d, e, f, g, h) := fold_left block (chunks 64 (md_pad msg len)) init in
  concat (map (be_encode 4) [a; b; c; d; e; f; g; h]).
End Sha256.

Definition sha256 (msg : list byte) : list byte := Sha256.sum msg.

Lemma sha256_length msg : length (sha256 msg) = 32%nat.
Proof.
  unfold sha256, Sha256.sum. destruct (fold_left _ _ _) as [[[[[[[a b] c] d] e] f] g] h].
  cbn [map concat]. by rewrite !length_app, !be_encode_length.
Qed.

(** ** HMAC-SHA-256 (RFC 2104): a key longer than a block is hashed. *)
Definition hmac_pad (key : list byte) (c : byte) : list byte :=
  let key := if bool_decide (64 < length key)%nat then sha256 key else key in
  xor_bytes (key ++ replicate (64 - length key) x00) (replicate 64 c).
Definition hmac_sha256 (key msg : list byte) : list byte :=
  sha256 (hmac_pad key x5c ++ sha256 (hmac_pad key x36 ++ msg)).

(** ** DES (FIPS 46-3), encryption of one block *)
Module Des.
Definition ip : list Z := [
   58; 50; 42; 34; 26; 18; 10; 2; 60; 52; 44; 36; 28; 20; 12; 4;
   62; 54; 46; 38; 30; 22; 14; 6; 64; 56; 48; 40; 32; 24; 16; 8;
   57; 49; 41; 33; 25; 17; 9; 1; 59; 51; 43; 35; 27; 19; 11; 3;
   61; 53; 45; 37; 29; 21; 13; 5; 63; 55; 47; 39; 31; 23; 15; 7 ].
Definition fp : list Z := [
   40; 8; 48; 16; 56; 24; 64; 32; 39; 7; 47; 15; 55; 23; 63; 31;
   38; 6; 46; 14; 54; 22; 62; 30; 37; 5; 45; 13; 53; 21; 61; 29;
   36; 4; 44; 12; 52; 20; 60; 28; 35; 3; 43; 11; 51; 19; 59; 27;
   34; 2; 42; 10; 50; 18; 58; 26; 33; 1; 41; 9; 49; 17; 57; 25 ].
Definition expansion : list Z := [
   32; 1; 2; 3; 4; 5; 4; 5; 6; 7; 8; 9; 8; 9; 10; 11;
   12; 13; 12; 13; 14; 15; 16; 17; 16; 17; 18; 19; 20; 21; 20; 21;
   22; 23; 24; 25; 24; 25; 26; 27; 28; 29; 28; 29; 30; 31; 32; 1 ].
Definition perm : list Z := [
   16; 7; 20; 21; 29; 12; 28; 17; 1; 15; 23; 26; 5; 18; 31; 10;
   2; 8; 24; 14; 32; 27; 3; 9; 19; 13; 30; 6; 22; 11; 4; 25 ].
Definition pc1 : list Z := [
   57; 49; 41; 33; 25; 17; 9; 1; 58; 50; 42; 34; 26; 18;
   10; 2; 59; 51; 43; 35; 27; 19; 11; 3; 60; 52; 44; 36;
   63; 55; 47; 39; 31; 23; 15; 7; 62; 54; 46; 38; 30; 22;
   14; 6; 61; 53; 45; 37; 29; 21; 13; 5; 28; 20; 12; 4 ].
Definition pc2 : list Z := [
   14; 17; 11; 24; 1; 5; 3; 28; 15; 6; 21; 10; 23; 19; 12; 4;
   26; 8; 16; 7; 27; 20; 13; 2; 41; 52; 31; 37; 47; 55; 30; 40;
   51; 45; 33; 48; 44; 49; 39; 56; 34; 53; 46; 42; 50; 36; 29; 32 ].
Definition key_shifts : list nat := [1; 1; 2; 2; 2; 2; 2; 2; 1; 2; 2; 2; 2; 2; 2; 1]%nat.
Definition sboxes : list (list Z) := [

  [
   14; 4; 13; 1; 2; 15; 11; 8; 3; 10; 6; 12; 5; 9; 0; 7;
   0; 15; 7; 4; 14; 2; 13; 1; 10; 6; 12; 11; 9; 5; 3; 8;
   4; 1; 14; 8; 13; 6; 2; 11; 15; 12; 9; 7; 3; 10; 5; 0;
   15; 12; 8; 2; 4; 9; 1; 7; 5; 11; 3; 14; 10; 0; 6; 13 ];
  [
   15; 1; 8; 14; 6; 11; 3; 4; 9; 7; 2; 13; 12; 0; 5; 10;
   3; 13; 4; 7; 15; 2; 8; 14; 12; 0; 1; 10; 6; 9; 11; 5;
   0; 14; 7; 11; 10; 4; 13; 1; 5; 8; 12; 6; 9; 3; 2; 15;
   13; 8; 10; 1; 3; 15; 4; 2; 11; 6; 7; 12; 0; 5; 14; 9 ];
  [
   10; 0; 9; 14; 6; 3; 15; 5; 1; 13; 12; 7; 11; 4; 2; 8;
   13; 7; 0; 9; 3; 4; 6; 10; 2; 8; 5; 14; 12; 11; 15; 1;
   13; 6; 4; 9; 8; 15; 3; 0; 11; 1; 2; 12; 5; 10; 14; 7;
   1; 10; 13; 0; 6; 9; 8; 7; 4; 15; 14; 3; 11; 5; 2; 12 ];
  [
   7; 13; 14; 3; 0; 6; 9; 10; 1; 2; 8; 5; 11; 12; 4; 15;
   13; 8; 11; 5; 6; 15; 0; 3; 4; 7; 2; 12; 1; 10; 14; 9;
   10; 6; 9; 0; 12; 11; 7; 13; 15; 1; 3; 14; 5; 2; 8; 4;
   3; 15; 0; 6; 10; 1; 13; 8; 9; 4; 5; 11; 12; 7; 2; 14 ];
  [
   2; 12; 4; 1; 7; 10; 11; 6; 8; 5; 3; 15; 13; 0; 14; 9;
   14; 11; 2; 12; 4; 7; 13; 1; 5; 0; 15; 10; 3; 9; 8; 6;
   4; 2; 1; 11; 10; 13; 7; 8; 15; 9; 12; 5; 6; 3; 0; 14;
   11; 8; 12; 7; 1; 14; 2; 13; 6; 15; 0; 9; 10; 4; 5; 3 ];
  [
   12; 1; 10; 15; 9; 2; 6; 8; 0; 13; 3; 4; 14; 7; 5; 11;
   10; 15; 4; 2; 7; 12; 9; 5; 6; 1; 13; 14; 0; 11; 3; 8;
   9; 14; 15; 5; 2; 8; 12; 3; 7; 0; 4; 10; 1; 13; 11; 6;
   4; 3; 2; 12; 9; 5; 15; 10; 11; 14; 1; 7; 6; 0; 8; 13 ];
  [
   4; 11; 2; 14; 15; 0; 8; 13; 3; 12; 9; 7; 5; 10; 6; 1;
   13; 0; 11; 7; 4; 9; 1; 10; 14; 3; 5; 12; 2; 15; 8; 6;
   1; 4; 11; 13; 12; 3; 7; 14; 10; 15; 6; 8; 0; 5; 9; 2;
   6; 11; 13; 8; 1; 4; 10; 7; 9; 5; 0; 15; 14; 2; 3; 12 ];
  [
   13; 2; 8; 4; 6; 15; 11; 1; 10; 9; 3; 14; 5; 0; 12; 7;
   1; 15; 13; 8; 10; 3; 7; 4; 12; 5; 6; 11; 0; 14; 9; 2;
   7; 11; 4; 1; 9; 12; 14; 2; 0; 6; 10; 13; 15; 3; 5; 8;
   2; 1; 14; 7; 4; 10; 8; 13; 15; 12; 9; 0; 3; 5; 6; 11 ] ].

Definition bits_of_byte (b : byte) : list bool :=
  map (fun i => Z.testbit (b2z b) i) [7; 6; 5; 4; 3; 2; 1; 0].
Definition bits_of_bytes (l : list byte) : list bool := concat (map bits_of_byte l).
Definition z_of_bits (l : list bool) : Z :=
  fold_left (fun acc (b : bool) => 2 * acc + (if b then 1 else 0)) l 0.
Definition bytes_of_bits (n : nat) (l : list bool) : list byte :=
  be_encode n (z_of_bits l).

Definition permute (t : list Z) (l : list bool) : list bool :=
  map (fun i => nth (Z.to_nat (i - 1)) l false) t.
Definition xor_bits (a b : list bool) : list bool := zip_with xorb a b.
Definition rot (n : nat) (l : list bool) : list bool := drop n l ++ take n l.

Fixpoint subkeys (sh : list nat) (c d : list bool) : list (list bool) :=
  match sh with
  | [] => []
  | n :: sh =>
      let c := rot n c in
      let d := rot n d in
      permute pc2 (c ++ d) :: subkeys sh c d
  end.

Definition sbox (t : list Z) (six : list bool) : list bool :=
  let v := z_of_bits six in
  let row := Z.lor (Z.land (Z.shiftr v 4) 2) (Z.land v 1) in
  let col := Z.land (Z.shiftr v 1) 15 in
  let x := nth (Z.to_nat (16 * row + col)) t 0 in
  map (fun i => Z.testbit x i) [3; 2; 1; 0].

Definition feistel (r k : list bool) : list bool :=
  let x := xor_bits (permute expansion r) k in
  permute perm (concat (zip_with sbox sboxes (chunks 6 x))).

Definition round (lr : list bool * list bool) (k : list bool) : list bool * list bool :=
  let '(l, r) := lr in (r, xor_bits l (feistel r k)).

Definition encrypt (key plain : list byte) : list byte :=
  let k := permute pc1 (bits_of_bytes key) in
  let p := permute ip (bits_of_bytes plain) in
  let '(l, r) := fold_left round (subkeys key_shifts (take 28 k) (drop 28 k))
                   (take 32 p, drop 32 p) in
  bytes_of_bits 8 (permute fp (r ++ l)).
End Des.

Lemma des_encrypt_length key plain : length (Des.encrypt key plain) = 8%nat.
Proof.
  unfold Des.encrypt. destruct (fold_left _ _ _) as [l r].
  apply be_encode_length.
Qed.

#[export] Hint Rewrite md5_length sha1_length sha256_length des_encrypt_length : len.

(** ** Test vectors *)
Definition hex_digit (n : Z) : byte := if n <? 10 then z2b (48 + n) else z2b (55 + n).

(** [%X] of a byte string. *)
Definition hex_upper (l : list byte) : list byte :=
  concat (map (fun b => [hex_digit (Z.shiftr (b2z b) 4); hex_digit (Z.land (b2z b) 15)]) l).

Example md5_abc :
  hex_upper (md5 (str "abc")) = str "900150983CD24FB0D6963F7D28E17F72".
Proof. by vm_compute. Qed.

Example md5_long :
  hex_upper (md5 (str "12345678901234567890123456789012345678901234567890123456789012345678901234567890"))
  = str "57EDF4A22BE3C955AC49DA2E2107B67A".
Proof. by vm_compute. Qed.

Example sha1_abc :
  hex_upper (sha1 (str "abc")) = str "A9993E364706816ABA3E25717850C26C9CD0D89D".
Proof. by vm_compute. Qed.

Example des_vector :
  hex_upper (Des.encrypt (be_encode 8 0x133457799BBCDFF1) (be_encode 8 0x0123456789ABCDEF))
  = str "85E813540F0AB405".
Proof. by vm_compute. Qed.

Example sha256_abc :
  hex_upper (sha256 (str "abc")) =
    str "BA7816BF8F01CFEA414140DE5DAE2223B00361A396177A9CB410FF61F20015AD".
Proof. by vm_compute. Qed.

Example hmac_jefe :
  hex_upper (hmac_sha256 (str "Jefe") (str "what do ya want for nothing?")) =
    str "5BDCC146BF60754E6A042426089575C75A003F089D2739839DEC58B964EC3843".
Proof. by vm_compute. Qed.

#[global] Opaque md5 sha1 sha256 Des.encrypt.
