(* ===== verification/Types.v ===== *)
(** * Shared data types (pkg/types)

    Users, groups, sessions and audit records, the values of Go's
    [interface{}] the models need, and the error values.  The predefined
    errors of pkg/types/errors.go are pointers to package variables, and
    [WithCause] and [WithDetails] write through them: the model keeps these
    variables in a store that the services thread, and [errors.Is] follows the
    causes found there. *)

From S2P Require Import Prelude.
From Stdlib Require Import SpecFloat.
Local Open Scope Z_scope.

(** ** Values of type [interface{}]

    A [float64] is a binary64 value of the standard library's executable
    floating-point specification. *)
Notation float64 := spec_float (only parsing).

#[global] Instance spec_float_eq_dec : EqDecision spec_float.
Proof. solve_decision. Defined.

Inductive any : Type :=
  | AnyNil
  | AnyBool (b : bool)
  | AnyInt (z : Z)
  | AnyFloat (f : float64)
  | AnyDuration (d : Z)
  | AnyString (s : string)
  | AnyStrings (l : list string)
  | AnyList (l : list any)
  | AnyStringMap (m : gmap string string)
  | AnyStruct (fields : list (string * any)).

#[global] Instance any_eq_dec : EqDecision any.
Proof.
  refine (fix go (x y : any) {struct x} : Decision (x = y) :=
    match x, y with
    | AnyNil, AnyNil => left eq_refl
    | AnyBool b, AnyBool b' => cast_if (decide (b = b'))
    | AnyInt z, AnyInt z' => cast_if (decide (z = z'))
    | AnyFloat f, AnyFloat f' => cast_if (decide (f = f'))
    | AnyDuration d, AnyDuration d' => cast_if (decide (d = d'))
    | AnyString s, AnyString s' => cast_if (decide (s = s'))
    | AnyStrings l, AnyStrings l' => cast_if (decide (l = l'))
    | AnyStringMap m, AnyStringMap m' => cast_if (decide (m = m'))
    | AnyList l, AnyList l' => cast_if (@list_eq_dec _ go l l')
    | AnyStruct l, AnyStruct l' =>
        cast_if (@list_eq_dec _ (fun p q : string * any =>
          match p, q with
          | (k, v), (k', v') => cast_if_and (decide (k = k')) (go v v')
          end) l l')
    | _, _ => right _
    end); clear go; abstract congruence.
Defined.

(** Instants and durations count nanoseconds. *)
Notation time := Z (only parsing).

(** The zero [time.Time], the first of January of the year 1, counted from the
    epoch of Unix. *)
Definition zero_time : time := - 62135596800000000000.

(** ** Users and groups (pkg/types/user.go) *)
Definition UserStatusActive : string := "active".
Definition UserStatusInactive : string := "inactive".
Definition UserStatusLocked : string := "locked".
Definition UserStatusPending : string := "pending_verification".
Definition UserStatusDeleted : string := "deleted".

(** The [Users] field of a group is not modelled: no operation reads it, and
    it would make the type mutually recursive with [User]. *)
Record UserGroup := mkUserGroup {
  group_ID : string;
  group_Name : string;
  group_Description : string;
  group_ParentID : option string;
  group_Metadata : gmap string any;
  group_CreatedAt : time;
  group_UpdatedAt : time
}.

Record MergeRecord := mkMergeRecord {
  merge_SourceIDs : list string;
  merge_MergedAt : time;
  merge_Strategy : string
}.

Record User := mkUser {
  user_ID : string;
  user_Username : string;
  user_Email : string;
  user_Phone : string;
  user_Password : string;
  user_Status : string;
  user_Attributes : gmap string any;
  user_PrivacySettings : gmap string any;
  user_Groups : list UserGroup;
  user_CreatedAt : time;
  user_UpdatedAt : time;
  user_DeletedAt : option time;
  user_LastLoginAt : option time;
  user_MergeHistory : list MergeRecord;
  user_ExternalID : string;
  user_SourceType : string
}.

#[global] Instance UserGroup_eq_dec : EqDecision UserGroup.
Proof. solve_decision. Defined.
#[global] Instance MergeRecord_eq_dec : EqDecision MergeRecord.
Proof. solve_decision. Defined.
#[global] Instance User_eq_dec : EqDecision User.
Proof. solve_decision. Defined.

(** The zero value, with the fields the services set. *)
Definition new_user (id username email password status : string) : User :=
  mkUser id username email "" password status ∅ ∅ [] zero_time zero_time None None [] "" "".

Definition set_user_ID (id : string) (u : User) : User :=
  mkUser id (user_Username u) (user_Email u) (user_Phone u) (user_Password u)
    (user_Status u) (user_Attributes u) (user_PrivacySettings u) (user_Groups u)
    (user_CreatedAt u) (user_UpdatedAt u) (user_DeletedAt u) (user_LastLoginAt u)
    (user_MergeHistory u) (user_ExternalID u) (user_SourceType u).

Definition set_user_Status (status : string) (u : User) : User :=
  mkUser (user_ID u) (user_Username u) (user_Email u) (user_Phone u) (user_Password u)
    status (user_Attributes u) (user_PrivacySettings u) (user_Groups u)
    (user_CreatedAt u) (user_UpdatedAt u) (user_DeletedAt u) (user_LastLoginAt u)
    (user_MergeHistory u) (user_ExternalID u) (user_SourceType u).

(** The three fields [UpsertBatch] overwrites. *)
Definition merge_user (src u : User) : User :=
  mkUser (user_ID u) (user_Username src) (user_Email u) (user_Phone u) (user_Password u)
    (user_Status src) (user_Attributes src) (user_PrivacySettings u) (user_Groups u)
    (user_CreatedAt u) (user_UpdatedAt u) (user_DeletedAt u) (user_LastLoginAt u)
    (user_MergeHistory u) (user_ExternalID u) (user_SourceType u).

Definition set_group_ID (id : string) (g : UserGroup) : UserGroup :=
  mkUserGroup id (group_Name g) (group_Description g) (group_ParentID g)
    (group_Metadata g) (group_CreatedAt g) (group_UpdatedAt g).

Definition HasRole (u : User) (roleName : string) : bool :=
  existsb (fun g => bool_decide (group_Name g = roleName)) (user_Groups u).

Record UserFilter := mkUserFilter {
  filter_Query : string;
  filter_Status : list string;
  filter_Page : Z;
  filter_PageSize : Z;
  filter_SortBy : string;
  filter_SortOrder : string
}.

Record PaginationQuery := mkPaginationQuery {
  pq_PageSize : Z;
  pq_Offset : Z
}.

Record UserSession := mkUserSession {
  session_ID : string;
  session_UserID : string;
  session_IPAddress : string;
  session_UserAgent : string;
  session_CreatedAt : time;
  session_ExpiresAt : time;
  session_DeviceFingerprint : string;
  session_LastRotatedAt : time
}.

#[global] Instance UserSession_eq_dec : EqDecision UserSession.
Proof. solve_decision. Defined.

(** ** Errors (pkg/types/errors.go) *)

(** A predefined error is named by its code, which no two of them share.
    [Errorf] is a fresh [fmt.Errorf] or [errors.New] value; [Wrapf] is one
    built with [%w]. *)
Inductive error : Type :=
  | Sentinel (code : string)
  | Errorf (msg : string)
  | Wrapf (msg : string) (e : error).

#[global] Instance error_eq_dec : EqDecision error.
Proof. solve_decision. Defined.

Definition ErrInternal : string := "internal_error".
Definition ErrNotFound : string := "not_found".
Definition ErrValidation : string := "validation_failed".
Definition ErrForbidden : string := "forbidden".
Definition ErrConflict : string := "conflict".
Definition ErrInvalidCredentials : string := "invalid_credentials".
Definition ErrInvalidToken : string := "invalid_token".
Definition ErrUserDisabled : string := "user_disabled".
Definition ErrInvalidGrant : string := "invalid_grant".
Definition ErrUserNotFound : string := "user_not_found".
Definition ErrSessionExpired : string := "session_expired".
Definition ErrDeviceMismatch : string := "device_mismatch".
Definition ErrAuthorizationPending : string := "authorization_pending".
Definition ErrAccessDenied : string := "access_denied".
Definition ErrExpiredToken : string := "expired_token".
Definition ErrInvalidRequest : string := "invalid_request".
Definition ErrInvalidClient : string := "invalid_client".
Definition ErrUnsupportedGrantType : string := "unsupported_grant_type".
Definition ErrUnauthorized : string := "unauthorized".

(** The mutable fields of the predefined errors; a code that is absent has
    the zero fields it was created with. *)
Record errvar := mkErrvar {
  err_cause : option error;
  err_details : gmap string string
}.
Definition new_errvar : errvar := mkErrvar None ∅.
Notation errvars := (gmap string errvar).

Definition errvar_of (vs : errvars) (code : string) : errvar :=
  default new_errvar (vs !! code).

(** [Err.WithCause(cause)] and [Err.WithDetails(details)]: the receiver is
    written and returned. *)
Definition WithCause (vs : errvars) (code : string) (cause : error) : errvars :=
  <[code := mkErrvar (Some cause) (err_details (errvar_of vs code))]> vs.

Definition WithDetails (vs : errvars) (code : string) (details : gmap string string) :
    errvars :=
  <[code := mkErrvar (err_cause (errvar_of vs code)) details]> vs.

(** [Unwrap] *)
Definition unwrap (vs : errvars) (e : error) : option error :=
  match e with
  | Sentinel c => err_cause (errvar_of vs c)
  | Errorf _ => None
  | Wrapf _ e => Some e
  end.

(** [errors.Is(err, target)] for a predefined target: follow [Unwrap] until
    the target or the end of the chain. *)
Fixpoint errors_is (fuel : nat) (vs : errvars) (e : error) (target : string) :
    res error bool :=
  match fuel with
  | O => Diverge
  | S fuel =>
      if decide (e = Sentinel target) then Ok true
      else match unwrap vs e with
           | None => Ok false
           | Some e' => errors_is fuel vs e' target
           end
  end.

(** ** Facts about the error store *)
Section Errors.
Implicit Types (vs : errvars) (e : error).

Lemma errvar_of_WithCause vs c e c' :
  errvar_of (WithCause vs c e) c' =
    if decide (c = c') then mkErrvar (Some e) (err_details (errvar_of vs c))
    else errvar_of vs c'.
Proof.
  unfold WithCause, errvar_of at 1. rewrite lookup_insert. by case_decide; subst.
Qed.

Lemma errvar_of_WithDetails vs c d c' :
  errvar_of (WithDetails vs c d) c' =
    if decide (c = c') then mkErrvar (err_cause (errvar_of vs c)) d
    else errvar_of vs c'.
Proof.
  unfold WithDetails, errvar_of at 1. rewrite lookup_insert. by case_decide; subst.
Qed.

(** [WithDetails] leaves the causes alone. *)
Lemma unwrap_WithDetails vs c d e : unwrap (WithDetails vs c d) e = unwrap vs e.
Proof.
  destruct e; cbn; try done. rewrite errvar_of_WithDetails. by case_decide; subst.
Qed.

Lemma errors_is_WithDetails fuel vs c d e target :
  errors_is fuel (WithDetails vs c d) e target = errors_is fuel vs e target.
Proof.
  revert e. induction fuel as [|fuel IH]; intros e; cbn; [done|].
  rewrite unwrap_WithDetails. case_decide; [done|]. by destruct (unwrap vs e).
Qed.

Lemma errors_is_self fuel vs target :
  (0 < fuel)%nat -> errors_is fuel vs (Sentinel target) target = Ok true.
Proof. destruct fuel; [lia|]. intros _. cbn. by rewrite decide_True. Qed.

Lemma errors_is_errorf fuel vs msg target :
  (0 < fuel)%nat -> errors_is fuel vs (Errorf msg) target = Ok false.
Proof. destruct fuel; [lia|]. intros _. cbn. by rewrite decide_False. Qed.

(** A predefined error that is its own cause: the walk never ends. *)
Lemma errors_is_cycle fuel vs c target :
  unwrap vs (Sentinel c) = Some (Sentinel c) -> target <> c ->
  errors_is fuel vs (Sentinel c) target = Diverge.
Proof.
  intros Hc Hne. induction fuel as [|fuel IH]; [done|].
  cbn [errors_is]. rewrite decide_False by congruence. by rewrite Hc.
Qed.
End Errors.

(** [fmt.Errorf("...: %w", err)] around a call *)
Definition wrapping {S A} (msg : string) (m : prog S error A) : prog S error A :=
  answer ← try m;
  match answer with inl err => throw (Wrapf msg err) | inr x => mret x end.

Lemma wrapping_returns {S A} msg (m : prog S error A) s x s' :
  m s = (Ok x, s') -> wrapping msg m s = (Ok x, s').
Proof. intros Hm. unfold wrapping, try, mbind, prog_bind. by rewrite Hm. Qed.

Lemma wrapping_fails {S A} msg (m : prog S error A) s e s' :
  m s = (Err e, s') -> wrapping msg m s = (Err (Wrapf msg e), s').
Proof. intros Hm. unfold wrapping, try, mbind, prog_bind. by rewrite Hm. Qed.

Lemma wrapping_ok {S A B} msg (m : prog S error A) (k : A -> prog S error B) s x s' :
  m s = (Ok x, s') -> (wrapping msg m ≫= k) s = k x s'.
Proof. intros Hm. by rewrite (prog_bind_run _ _ _ _ _ (wrapping_returns _ _ _ _ _ Hm)). Qed.
