(* ===== verification/GoStd.v ===== *)
(** * What the program uses of Go's standard library: floats, durations, strings

    [float64] arithmetic is the binary64 instance of the standard library's
    executable floating-point specification: every operation rounds to
    nearest, ties to even, as Go's does.  [time.Duration] counts nanoseconds in
    64 bits. *)

From stdpp Require Import sorting.
From S2P Require Import Prelude Types.
From Stdlib Require Import SpecFloat Ascii.
Local Open Scope Z_scope.

(** ** Floats *)
Definition float_of_Z (z : Z) : float64 := binary_normalize 53 1024 z 0 false.
Definition fadd : float64 -> float64 -> float64 := SFadd 53 1024.
Definition fsub : float64 -> float64 -> float64 := SFsub 53 1024.
Definition fmul : float64 -> float64 -> float64 := SFmul 53 1024.
Definition fdiv : float64 -> float64 -> float64 := SFdiv 53 1024.
Definition flt (x y : float64) : bool := SFltb x y.
Definition fle (x y : float64) : bool := SFleb x y.
Definition fzero : float64 := S754_zero false.

(** A Go constant [m * 2^e], written as the nearest float of a decimal. *)
Definition fconst (m : positive) (e : Z) : float64 := S754_finite false m e.

(** [int(x)] truncates towards zero; out of range the result is not
    specified, here the zero. *)
Definition int_of_float (x : float64) : Z :=
  match x with
  | S754_finite s m e =>
      let n := if 0 <=? e then Z.shiftl (Zpos m) e else Z.shiftr (Zpos m) (- e) in
      let n := if s then - n else n in
      if (- 2 ^ 63 <=? n) && (n <? 2 ^ 63) then n else 0
  | _ => 0
  end.

(** ** Durations *)
Definition Millisecond : Z := 10 ^ 6.
Definition Second : Z := 10 ^ 9.
Definition Minute : Z := 60 * Second.
Definition Hour : Z := 60 * Minute.

(** [t.Sub(u)] and [time.Since]: the difference saturates at the bounds of a
    duration. *)
Definition Sub (t u : time) : Z := Z.max (- 2 ^ 63) (Z.min (2 ^ 63 - 1) (t - u)).

(** [Duration.Seconds], [Minutes] and [Hours] *)
Definition in_units (unit d : Z) : float64 :=
  fadd (float_of_Z (Z.quot d unit)) (fdiv (float_of_Z (Z.rem d unit)) (float_of_Z unit)).
Definition Seconds : Z -> float64 := in_units Second.
Definition Minutes : Z -> float64 := in_units Minute.
Definition Hours : Z -> float64 := in_units Hour.

Example minutes_half : Minutes (90 * Second) = fconst 6755399441055744 (-52).
Proof. reflexivity. Qed.
Example minutes_61 : flt (float_of_Z 60) (Minutes (60 * Minute + 1)) = true.
Proof. reflexivity. Qed.
Example trunc_27 : int_of_float (fmul (float_of_Z 45) (fconst 5404319552844595 (-53))) = 27.
Proof. reflexivity. Qed.

(** ** Printing with [%v]

    Integers, strings and slices of strings are printed here; the shortest
    decimal of a float and the other types are the argument [format_other]. *)
Section Sprintf.
Context (format_other : any -> string).

Fixpoint join_spaces (l : list string) : string :=
  match l with
  | [] => ""
  | [x] => x
  | x :: l => x +:+ " " +:+ join_spaces l
  end.

Definition Sprintf_v (v : any) : string :=
  match v with
  | AnyNil => "<nil>"
  | AnyBool b => if b then "true" else "false"
  | AnyInt z => pretty z
  | AnyString s => s
  | AnyStrings l => "[" +:+ join_spaces l +:+ "]"
  | _ => format_other v
  end.
End Sprintf.

(** ** Strings *)

(** [strings.Contains] *)
Definition strings_Contains (s sub : string) : bool :=
  match String.index 0 sub s with Some _ => true | None => false end.

(** [strings.Split] at a separator of one character *)
Fixpoint strings_Split (sep : ascii) (s : string) : list string :=
  match s with
  | EmptyString => [""]
  | String c s =>
      if bool_decide (c = sep) then "" :: strings_Split sep s
      else match strings_Split sep s with
           | [] => [String c ""]
           | w :: ws => String c w :: ws
           end
  end.

(** [str_free sep s]: the separator does not occur. *)
Fixpoint str_free (sep : ascii) (s : string) : bool :=
  match s with
  | EmptyString => true
  | String c s => negb (bool_decide (c = sep)) && str_free sep s
  end.

Section Split.
Context (sep : ascii).

Lemma strings_Split_nonempty s : strings_Split sep s <> [].
Proof. destruct s as [|c s]; cbn; [done|]. case_bool_decide; [done|]. by destruct (strings_Split sep s). Qed.

Lemma strings_Split_app r a :
  strings_Split sep (r +:+ String sep a) =
  strings_Split sep r ++ strings_Split sep a.
Proof.
  induction r as [|c r IH].
  - change ("" +:+ String sep a) with (String sep a). cbn [strings_Split].
    by rewrite bool_decide_eq_true_2.
  - change (String c r +:+ String sep a) with (String c (r +:+ String sep a)). cbn [strings_Split].
    rewrite IH. case_bool_decide; [done|]. pose proof (strings_Split_nonempty r).
    by destruct (strings_Split sep r).
Qed.

Lemma strings_Split_free s : str_free sep s = true -> strings_Split sep s = [s].
Proof.
  induction s as [|c s IH]; cbn; [done|]. intros [Hc Hs]%andb_true_iff.
  apply negb_true_iff in Hc. rewrite Hc. by rewrite IH.
Qed.

Lemma strings_Split_single s : length (strings_Split sep s) = 1%nat -> str_free sep s = true.
Proof.
  induction s as [|c s IH]; cbn; [done|]. case_bool_decide.
  - pose proof (strings_Split_nonempty s). by destruct (strings_Split sep s).
  - destruct (strings_Split sep s) as [|w ws] eqn:Hs; [by apply strings_Split_nonempty in Hs|].
    cbn. intros ?. by apply IH.
Qed.
End Split.

(** [strings.HasSuffix] and [strings.TrimSuffix] *)
Definition strings_HasSuffix (s suffix : string) : bool :=
  bool_decide (String.length suffix <= String.length s)%nat &&
  bool_decide (String.substring (String.length s - String.length suffix) (String.length suffix) s = suffix).
Definition strings_TrimSuffix (s suffix : string) : string :=
  if strings_HasSuffix s suffix
  then String.substring 0 (String.length s - String.length suffix) s else s.

Section Suffix.
Implicit Types s t p : string.

Lemma string_app_cons c s t : String c s +:+ t = String c (s +:+ t).
Proof. done. Qed.

Lemma string_app_assoc s t p : s +:+ (t +:+ p) = (s +:+ t) +:+ p.
Proof. induction s as [|c s IH]; [done|]. by rewrite !string_app_cons, IH. Qed.

Lemma string_app_nil_r s : s +:+ "" = s.
Proof. induction s as [|c s IH]; [done|]. by rewrite string_app_cons, IH. Qed.

Lemma string_length_app s t : String.length (s +:+ t) = (String.length s + String.length t)%nat.
Proof. induction s as [|c s IH]; [done|]. rewrite string_app_cons. cbn. by rewrite IH. Qed.

Lemma substring_all s : String.substring 0 (String.length s) s = s.
Proof. induction s as [|c s IH]; [done|]. cbn. by rewrite IH. Qed.

Lemma substring_prefix s t : String.substring 0 (String.length s) (s +:+ t) = s.
Proof.
  induction s as [|c s IH]; [by destruct t|]. rewrite string_app_cons. cbn. by rewrite IH.
Qed.

Lemma substring_suffix s t : String.substring (String.length s) (String.length t) (s +:+ t) = t.
Proof. induction s as [|c s IH]; [apply substring_all|]. exact IH. Qed.

Lemma substring_split n s :
  (n <= String.length s)%nat ->
  s = String.substring 0 n s +:+ String.substring n (String.length s - n) s.
Proof.
  revert n. induction s as [|c s IH]; intros n Hn; cbn in Hn.
  - by replace n with 0%nat by lia.
  - destruct n as [|n]; cbn [String.length String.substring Nat.sub].
    + by rewrite substring_all.
    + rewrite string_app_cons, <-IH by lia. done.
Qed.

Lemma strings_HasSuffix_spec s t : strings_HasSuffix s t = true <-> exists p, s = p +:+ t.
Proof.
  unfold strings_HasSuffix. rewrite andb_true_iff, !bool_decide_eq_true. split.
  - intros [Hl Ht]. exists (String.substring 0 (String.length s - String.length t) s).
    pose proof (substring_split (String.length s - String.length t) s ltac:(lia)) as Hs.
    replace (String.length s - (String.length s - String.length t))%nat with (String.length t) in Hs by lia.
    by rewrite Ht in Hs.
  - intros [p ->]. rewrite string_length_app. split; [lia|].
    replace (String.length p + String.length t - String.length t)%nat with (String.length p) by lia.
    apply substring_suffix.
Qed.

Lemma strings_TrimSuffix_app p t : strings_TrimSuffix (p +:+ t) t = p.
Proof.
  unfold strings_TrimSuffix. rewrite (proj2 (strings_HasSuffix_spec _ _)) by (by exists p).
  rewrite string_length_app.
  replace (String.length p + String.length t - String.length t)%nat with (String.length p) by lia.
  apply substring_prefix.
Qed.
End Suffix.

(** [strings.ToLower] on ASCII *)
Definition ascii_is_upper (c : ascii) : bool :=
  let n := Ascii.nat_of_ascii c in bool_decide (65 <= n <= 90)%nat.
Definition ascii_to_lower (c : ascii) : ascii :=
  if ascii_is_upper c then Ascii.ascii_of_nat (Ascii.nat_of_ascii c + 32) else c.
Fixpoint ascii_lower (s : string) : string :=
  match s with EmptyString => "" | String c s => String (ascii_to_lower c) (ascii_lower s) end.
Fixpoint is_ascii (s : string) : bool :=
  match s with
  | EmptyString => true
  | String c s => bool_decide (Ascii.nat_of_ascii c < 128)%nat && is_ascii s
  end.

Lemma str_free_app sep s t : str_free sep (s +:+ t) = str_free sep s && str_free sep t.
Proof. induction s as [|c s IH]; [done|]. rewrite string_app_cons. cbn. by rewrite IH, andb_assoc. Qed.

Section Lower.
Lemma ascii_lower_app s t : ascii_lower (s +:+ t) = ascii_lower s +:+ ascii_lower t.
Proof. induction s as [|c s IH]; [done|]. rewrite string_app_cons. cbn. by rewrite IH. Qed.

Lemma ascii_to_lower_idem c : ascii_to_lower (ascii_to_lower c) = ascii_to_lower c.
Proof. destruct c as [[] [] [] [] [] [] [] []]; reflexivity. Qed.

Lemma ascii_lower_idem s : ascii_lower (ascii_lower s) = ascii_lower s.
Proof. induction s as [|c s IH]; [done|]. cbn. by rewrite ascii_to_lower_idem, IH. Qed.

Lemma is_ascii_app s t : is_ascii (s +:+ t) = is_ascii s && is_ascii t.
Proof. induction s as [|c s IH]; [done|]. rewrite string_app_cons. cbn. by rewrite IH, andb_assoc. Qed.

Lemma is_ascii_lower s : is_ascii s = true -> is_ascii (ascii_lower s) = true.
Proof.
  induction s as [|c s IH]; [done|]. cbn [is_ascii ascii_lower].
  intros [Hc Hs]%andb_true_iff. rewrite IH by done. apply andb_true_iff. split; [|done].
  revert Hc. destruct c as [[] [] [] [] [] [] [] []]; done.
Qed.

(** Lower case neither adds nor removes commas. *)
Lemma str_free_lower s : str_free ","%char (ascii_lower s) = str_free ","%char s.
Proof.
  induction s as [|c s IH]; [done|]. cbn. rewrite IH. f_equal. f_equal. apply bool_decide_ext.
  destruct c as [[] [] [] [] [] [] [] []]; split; done.
Qed.
End Lower.

(** [sort.Strings]: the order is that of the bytes. *)
Definition string_le (s t : string) : Prop := String.leb s t = true.
#[global] Instance string_le_dec s t : Decision (string_le s t) := decide (String.leb s t = true).
Definition sort_Strings (l : list string) : list string := merge_sort string_le l.

Section SortStrings.
#[local] Instance string_le_total : Total string_le.
Proof. intros s t. apply String.leb_total. Qed.

Lemma ascii_compare_N (a b : ascii) : Ascii.compare a b = N.compare (N_of_ascii a) (N_of_ascii b).
Proof. done. Qed.

#[local] Instance string_le_trans : Transitive string_le.
Proof.
  intros s. induction s as [|a s IH]; intros t p; [by destruct p|].
  destruct t as [|b t]; [done|]. destruct p as [|c p]; [by unfold string_le|].
  unfold string_le, String.leb. cbn [String.compare]. rewrite !ascii_compare_N.
  destruct (N.compare_spec (N_of_ascii a) (N_of_ascii b)) as [Hab|Hab|Hab],
    (N.compare_spec (N_of_ascii b) (N_of_ascii c)) as [Hbc|Hbc|Hbc],
    (N.compare_spec (N_of_ascii a) (N_of_ascii c)) as [Hac|Hac|Hac]; try done; try lia.
  apply IH.
Qed.

(** The result does not depend on the order of the argument. *)
Lemma sort_Strings_ext l l' : l ≡ₚ l' -> sort_Strings l = sort_Strings l'.
Proof.
  intros Hp. apply (StronglySorted_unique_strong string_le).
  - intros s t _ _. apply String.leb_antisym.
  - apply (StronglySorted_merge_sort _).
  - apply (StronglySorted_merge_sort _).
  - unfold sort_Strings. by rewrite !merge_sort_Permutation.
Qed.

Lemma sort_Strings_perm l : sort_Strings l ≡ₚ l.
Proof. apply merge_sort_Permutation. Qed.
End SortStrings.

(** ** Comparing with constants *)
Section Compare.

(** Thirty and sixty have the same mantissa: what is greater than the one is
    greater than the other. *)
Lemma flt_60_30 x : flt (float_of_Z 60) x = true -> flt (float_of_Z 30) x = true.
Proof.
  unfold flt, SFltb.
  replace (float_of_Z 60) with (S754_finite false 8444249301319680 (-47)) by reflexivity.
  replace (float_of_Z 30) with (S754_finite false 8444249301319680 (-48)) by reflexivity.
  destruct x as [[]|[]| |[] m e]; try done. unfold SFcompare.
  destruct (Z.compare_spec (-47) e); try done; intros _ || intros Hm;
    destruct (Z.compare_spec (-48) e); try done; lia.
Qed.
End Compare.
