(* ===== verification/GoText.v ===== *)
(** * Text in the Go standard library

    - [strings.ToLower] and [strings.EqualFold], open beyond ASCII;
    - [fmt.Sscanf] with ["%d"];
    - [time.ParseDuration];
    - regular expressions of [regexp], by derivatives, with the language they
      denote. *)

From S2P Require Import Prelude Types GoStd.
From stdpp Require Import pretty.
From Stdlib Require Import SpecFloat Ascii.
Local Open Scope Z_scope.

(** ** Letter case

    [strings.ToLower] and [strings.EqualFold].  What they do beyond ASCII is in
    tables the model leaves open. *)
Class CaseFolding := {
  ToLower : string -> string;
  EqualFold : string -> string -> bool
}.

Class CaseFoldingLaws `{CaseFolding} := {
  ToLower_ascii s : is_ascii s = true -> ToLower s = ascii_lower s;
  EqualFold_ascii s t : is_ascii s = true -> is_ascii t = true ->
    EqualFold s t = bool_decide (ascii_lower s = ascii_lower t)
}.

#[export] Instance ascii_folding : CaseFolding := {
  ToLower := ascii_lower;
  EqualFold s t := bool_decide (ascii_lower s = ascii_lower t)
}.
#[export] Instance ascii_folding_laws : @CaseFoldingLaws ascii_folding.
Proof. by split. Defined.

(** [strings.HasPrefix] and [strings.TrimPrefix] *)
Definition strings_HasPrefix (s prefix : string) : bool := String.prefix prefix s.
Definition strings_TrimPrefix (s prefix : string) : string :=
  if strings_HasPrefix s prefix
  then String.substring (String.length prefix) (String.length s - String.length prefix) s else s.

Lemma strings_HasPrefix_app p s : strings_HasPrefix (p +:+ s) p = true.
Proof.
  unfold strings_HasPrefix. induction p as [|c p IH]; [by destruct s|]. rewrite string_app_cons. cbn.
  by destruct (ascii_dec c c).
Qed.

Lemma strings_TrimPrefix_app p s : strings_TrimPrefix (p +:+ s) p = s.
Proof.
  unfold strings_TrimPrefix. rewrite strings_HasPrefix_app, string_length_app.
  replace (String.length p + String.length s - String.length p)%nat with (String.length s) by lia.
  apply substring_suffix.
Qed.

(** ** Decimal numbers *)
Definition digit_of (c : ascii) : Z := Z.of_nat (Ascii.nat_of_ascii c) - 48.
Definition is_digit (c : ascii) : bool := bool_decide (0 <= digit_of c <= 9).

(** The digits at the front of a string, after those in [acc], and the rest. *)
Fixpoint take_digits (acc : Z) (s : string) : Z * string :=
  match s with
  | String c s' => if is_digit c then take_digits (10 * acc + digit_of c) s' else (acc, s)
  | EmptyString => (acc, s)
  end.

(** [fmt] skips white space, here that of ASCII, but not the end of a line. *)
Fixpoint skip_spaces (s : string) : option string :=
  match s with
  | String c s' =>
      if bool_decide (c = "010"%char) then None
      else if bool_decide (c ∈ ["009"; "011"; "012"; "013"; " "]%char) then skip_spaces s'
      else Some s
  | EmptyString => Some s
  end.

Definition take_sign (s : string) : bool * string :=
  match s with
  | String "-" s' => (true, s')
  | String "+" s' => (false, s')
  | _ => (false, s)
  end.

(** [fmt.Sscanf(s, "%d", &n)]: a number at the front, whatever follows. *)
Definition Sscanf_d (s : string) : option Z :=
  match skip_spaces s with
  | None => None
  | Some s =>
      let '(neg, s) := take_sign s in
      match s with
      | String c _ =>
          let n := (take_digits 0 s).1 in
          let n := if neg : bool then - n else n in
          if is_digit c && bool_decide (- 2 ^ 63 <= n < 2 ^ 63) then Some n else None
      | EmptyString => None
      end
  end.

(** ** Durations *)
Definition unit_of (u : string) : option Z :=
  if bool_decide (u = "ns") then Some 1
  else if bool_decide (u ∈ ["us"; "µs"; "μs"]) then Some 1000
  else if bool_decide (u = "ms") then Some Millisecond
  else if bool_decide (u = "s") then Some Second
  else if bool_decide (u = "m") then Some Minute
  else if bool_decide (u = "h") then Some Hour
  else None.

(** [leadingInt]: the digits must stay within 2^63. *)
Fixpoint leadingInt (x : Z) (s : string) : option (Z * string) :=
  match s with
  | String c s' =>
      if is_digit c then
        if bool_decide (2 ^ 63 / 10 < x) then None
        else if bool_decide (2 ^ 63 < 10 * x + digit_of c) then None
        else leadingInt (10 * x + digit_of c) s'
      else Some (x, s)
  | EmptyString => Some (x, s)
  end.

(** [leadingFraction]: digits that would overflow are skipped. *)
Fixpoint leadingFraction (overflow : bool) (x : Z) (scale : float64) (s : string) : Z * float64 * string :=
  match s with
  | String c s' =>
      if is_digit c then
        if overflow || bool_decide ((2 ^ 63 - 1) / 10 < x) || bool_decide (2 ^ 63 < 10 * x + digit_of c)
        then leadingFraction true x scale s'
        else leadingFraction false (10 * x + digit_of c) (fmul scale (float_of_Z 10)) s'
      else (x, scale, s)
  | EmptyString => (x, scale, s)
  end.

(** Up to the next dot or digit *)
Fixpoint take_unit (s : string) : string * string :=
  match s with
  | String c s' =>
      if bool_decide (c = ".")%char || is_digit c then ("", s)
      else let '(u, rest) := take_unit s' in (String c u, rest)
  | EmptyString => ("", s)
  end.

(** One round of the loop of [ParseDuration]: a number with its unit. *)
Definition duration_part (s : string) : option (Z * string) :=
  if negb (match s with String c _ => bool_decide (c = ".")%char || is_digit c | EmptyString => false end)
  then None
  else
    '(v, s1) ← leadingInt 0 s;
    let pre := negb (bool_decide (String.length s1 = String.length s)) in
    let '(f, scale, s2, post) :=
      match s1 with
      | String "." s1' =>
          let '(f, scale, s2) := leadingFraction false 0 (float_of_Z 1) s1' in
          (f, scale, s2, negb (bool_decide (String.length s2 = String.length s1')))
      | _ => (0, float_of_Z 1, s1, false)
      end in
    if negb pre && negb post then None
    else
      let '(u, rest) := take_unit s2 in
      if bool_decide (u = "") then None
      else
        unit ← unit_of u;
        if bool_decide (2 ^ 63 / unit < v) then None
        else
          let v := v * unit in
          let v := if bool_decide (0 < f)
                   then v + int_of_float (fmul (float_of_Z f) (fdiv (float_of_Z unit) scale)) else v in
          if bool_decide (2 ^ 63 < v) then None else Some (v, rest).

Fixpoint duration_parts (fuel : nat) (d : Z) (s : string) : option Z :=
  match s, fuel with
  | EmptyString, _ => Some d
  | _, O => None
  | _, S fuel =>
      '(v, rest) ← duration_part s;
      let d := d + v in
      if bool_decide (2 ^ 63 < d) then None else duration_parts fuel d rest
  end.

(** [time.ParseDuration]: every round reads at least a unit, so that the
    length of the string is enough fuel. *)
Definition ParseDuration (s : string) : option Z :=
  let '(neg, s) := take_sign s in
  if bool_decide (s = "0") then Some 0
  else if bool_decide (s = "") then None
  else
    d ← duration_parts (String.length s) 0 s;
    if neg : bool then Some (- d)
    else if bool_decide (2 ^ 63 - 1 < d) then None else Some d.

Example duration_2160h : ParseDuration "2160h" = Some (90 * 24 * Hour).
Proof. reflexivity. Qed.
Example duration_mixed : ParseDuration "-1h15m30.918ms" = Some (- (Hour + 15 * Minute + 30918000)).
Proof. reflexivity. Qed.
Example duration_days : ParseDuration "90d" = None.
Proof. reflexivity. Qed.
Example duration_dot : ParseDuration ".s" = None /\ ParseDuration "1.5" = None /\ ParseDuration "0" = Some 0.
Proof. repeat split. Qed.

(** ** Facts *)
Lemma digit_of_char d : (d < 10)%N -> digit_of (pretty_N_char d) = Z.of_N d /\ is_digit (pretty_N_char d) = true.
Proof.
  intros Hd. assert (d = 0 \/ d = 1 \/ d = 2 \/ d = 3 \/ d = 4 \/ d = 5 \/ d = 6 \/ d = 7 \/ d = 8 \/ d = 9)%N
    as Hd10 by lia. by repeat (destruct Hd10 as [->|Hd10]; [done|]); subst d.
Qed.

Lemma take_digits_step acc d s : (d < 10)%N ->
  take_digits acc (String (pretty_N_char d) s) = take_digits (10 * acc + Z.of_N d) s.
Proof. intros Hd. cbn [take_digits]. by destruct (digit_of_char d Hd) as [-> ->]. Qed.

(** Printing writes the digits from the last one on: an induction over any
    reader that takes one digit at a time. *)
Lemma pretty_N_go_read {A} (f : Z -> string -> A) (ok : Z -> Prop) :
  (forall acc d s, (d < 10)%N -> 0 <= acc -> ok (10 * acc + Z.of_N d) ->
     f acc (String (pretty_N_char d) s) = f (10 * acc + Z.of_N d) s) ->
  (forall x y, 0 <= x <= y -> ok y -> ok x) ->
  forall x s, (0 < x)%N -> ok (Z.of_N x) -> f 0 (pretty_N_go x s) = f (Z.of_N x) s.
Proof.
  intros Hstep Hmono x. induction (N.lt_wf_0 x) as [x _ IH]. intros s Hx Hok.
  rewrite pretty_N_go_step by done.
  pose proof (N.mod_lt x 10 ltac:(lia)) as Hmod. pose proof (N.div_mod x 10 ltac:(lia)) as Hdm.
  revert IH Hmod Hdm. generalize (x / 10)%N (x mod 10)%N. intros q m IH Hmod Hdm.
  assert (Hval : 10 * Z.of_N q + Z.of_N m = Z.of_N x) by (rewrite Hdm; lia).
  destruct (decide (q = 0)%N) as [->|Hq].
  - change (10 * Z.of_N 0) with (10 * 0) in Hval. rewrite pretty_N_go_0, Hstep; [|lia..|by rewrite Hval]. by rewrite Hval.
  - rewrite IH; [|lia|lia|apply (Hmono _ (Z.of_N x)); [lia|done]].
    rewrite Hstep; [|lia..|by rewrite Hval]. by rewrite Hval.
Qed.

Lemma pretty_pos p : pretty (Z.pos p) = pretty_N_go (N.pos p) "".
Proof. change (pretty (Z.pos p)) with (pretty (N.pos p)). unfold pretty, pretty_N. by rewrite decide_False. Qed.

Lemma pretty_N_go_app x s t : pretty_N_go x s +:+ t = pretty_N_go x (s +:+ t).
Proof.
  revert s. induction (N.lt_wf_0 x) as [x _ IH]. intros s. destruct (decide (x = 0)%N) as [->|Hx].
  - by rewrite !pretty_N_go_0.
  - rewrite !(pretty_N_go_step x) by lia. apply IH. apply N.div_lt; lia.
Qed.

Lemma pretty_starts n : 0 <= n -> exists c s, pretty n = String c s /\ is_digit c = true.
Proof.
  intros Hn. destruct n as [|p|p]; [by exists "0"%char, ""| |lia]. rewrite pretty_pos.
  assert (Hgo : forall x s, (0 < x)%N \/ (exists c t, s = String c t /\ is_digit c = true) ->
    exists c t, pretty_N_go x s = String c t /\ is_digit c = true).
  { intros x. induction (N.lt_wf_0 x) as [x _ IH]. intros s Hs. destruct (decide (x = 0)%N) as [->|Hx].
    - rewrite pretty_N_go_0. destruct Hs as [?|?]; [lia|done].
    - rewrite pretty_N_go_step by lia. apply IH; [apply N.div_lt; lia|right].
      eexists _, _. split; [done|]. by destruct (digit_of_char (x mod 10) ltac:(apply N.mod_lt; lia)). }
  apply Hgo. left. lia.
Qed.

Lemma pretty_Z_nonempty (n : Z) : pretty n <> "".
Proof.
  destruct (Z.lt_ge_cases n 0) as [Hn|Hn]; [by destruct n|].
  destruct (pretty_starts n Hn) as (c & s & -> & _). done.
Qed.

(** A number that was printed is read back, up to what follows it. *)
Definition no_digit (s : string) : bool := match s with String c _ => negb (is_digit c) | EmptyString => true end.

Lemma take_digits_stop acc s : no_digit s = true -> take_digits acc s = (acc, s).
Proof. destruct s as [|c s]; cbn; [done|]. by destruct (is_digit c). Qed.

Lemma take_digits_pretty n s : 0 <= n -> no_digit s = true -> take_digits 0 (pretty n +:+ s) = (n, s).
Proof.
  intros Hn Hs. destruct n as [|p|p]; [| |lia].
  - change (pretty 0) with "0". change ("0" +:+ s) with (String (pretty_N_char 0) s).
    rewrite take_digits_step by lia. by apply take_digits_stop.
  - rewrite pretty_pos, pretty_N_go_app, (pretty_N_go_read take_digits (fun _ => True)); [|by intros; apply take_digits_step|done..].
    by apply take_digits_stop.
Qed.

Lemma digit_plain c : is_digit c = true ->
  c <> "010"%char /\ c ∉ ["009"; "011"; "012"; "013"; " "]%char /\ c <> "-"%char /\ c <> "+"%char.
Proof.
  intros Hc. split; [|split; [|split]]; intros Hx.
  - by subst c.
  - repeat (apply elem_of_cons in Hx as [Hx|Hx]; [by subst c|]). by apply elem_of_nil in Hx.
  - by subst c.
  - by subst c.
Qed.

Lemma take_sign_digit c s : is_digit c = true -> take_sign (String c s) = (false, String c s).
Proof. intros Hc. by destruct c as [[] [] [] [] [] [] [] []]. Qed.

Lemma Sscanf_d_app n s : 0 <= n < 2 ^ 63 -> no_digit s = true -> Sscanf_d (pretty n +:+ s) = Some n.
Proof.
  intros Hn Hs. pose proof (take_digits_pretty n s ltac:(lia) Hs) as Htake.
  destruct (pretty_starts n ltac:(lia)) as (c & t & Hc & Hd).
  unfold Sscanf_d. rewrite Hc, string_app_cons in *. destruct (digit_plain c Hd) as (H1 & H2 & _).
  cbn [skip_spaces]. rewrite !bool_decide_eq_false_2 by done. rewrite take_sign_digit by done.
  rewrite Htake, Hd. cbn [fst]. by rewrite bool_decide_eq_true_2 by lia.
Qed.

Lemma Sscanf_d_pretty n : 0 <= n < 2 ^ 63 -> Sscanf_d (pretty n) = Some n.
Proof.
  intros Hn. rewrite <- (Sscanf_d_app n "" Hn eq_refl). f_equal.
  induction (pretty n) as [|c s IH]; [done|]. by rewrite string_app_cons, <- IH.
Qed.

(** ** Regular expressions *)
Inductive regex :=
  | REmpty
  | REps
  | RClass (f : ascii -> bool)
  | RSeq (r1 r2 : regex)
  | RAlt (r1 r2 : regex)
  | RStar (r : regex).

Fixpoint nullable (r : regex) : bool :=
  match r with
  | REmpty | RClass _ => false
  | REps | RStar _ => true
  | RSeq r1 r2 => nullable r1 && nullable r2
  | RAlt r1 r2 => nullable r1 || nullable r2
  end.

Fixpoint derive (c : ascii) (r : regex) : regex :=
  match r with
  | REmpty | REps => REmpty
  | RClass f => if f c then REps else REmpty
  | RSeq r1 r2 =>
      if nullable r1 then RAlt (RSeq (derive c r1) r2) (derive c r2) else RSeq (derive c r1) r2
  | RAlt r1 r2 => RAlt (derive c r1) (derive c r2)
  | RStar r => RSeq (derive c r) (RStar r)
  end.

(** [MatchString] of an expression anchored at both ends *)
Fixpoint matches (r : regex) (s : string) : bool :=
  match s with
  | EmptyString => nullable r
  | String c s => matches (derive c r) s
  end.

Definition RPlus (r : regex) : regex := RSeq r (RStar r).
Definition ROpt (r : regex) : regex := RAlt REps r.
Definition RChar (c : ascii) : regex := RClass (fun x => bool_decide (x = c)).
Fixpoint RTimes (n : nat) (r : regex) : regex := match n with O => REps | S n => RSeq r (RTimes n r) end.
Fixpoint RUpTo (n : nat) (r : regex) : regex := match n with O => REps | S n => ROpt (RSeq r (RUpTo n r)) end.
(** [r{lo,lo+more}] *)
Definition RBetween (lo more : nat) (r : regex) : regex := RSeq (RTimes lo r) (RUpTo more r).

(** The language of an expression. *)
Inductive lang : regex -> string -> Prop :=
  | lang_eps : lang REps ""
  | lang_class f c : f c = true -> lang (RClass f) (String c "")
  | lang_seq r1 r2 s t : lang r1 s -> lang r2 t -> lang (RSeq r1 r2) (s +:+ t)
  | lang_altl r1 r2 s : lang r1 s -> lang (RAlt r1 r2) s
  | lang_altr r1 r2 s : lang r2 s -> lang (RAlt r1 r2) s
  | lang_star_nil r : lang (RStar r) ""
  | lang_star r s t : lang r s -> lang (RStar r) t -> lang (RStar r) (s +:+ t).
#[export] Hint Constructors lang : regex.

Lemma nullable_spec r : nullable r = true <-> lang r "".
Proof.
  split.
  - induction r as [| | |r1 IH1 r2 IH2|r1 IH1 r2 IH2|]; cbn; intros Hn; try done; auto with regex.
    + apply andb_true_iff in Hn as [H1 H2]. apply (lang_seq _ _ "" ""); auto.
    + apply orb_true_iff in Hn as [H1|H2]; auto with regex.
  - intros Hl. remember "" as e eqn:He. induction Hl as [| |r1 r2 s t _ IH1 _ IH2|r1 r2 s _ IH|r1 r2 s _ IH| |]; cbn;
      try done.
    + destruct s; [|done]. by rewrite IH1, IH2.
    + by rewrite IH.
    + rewrite IH by done. by rewrite orb_true_r.
Qed.

Lemma derive_spec c r s : lang (derive c r) s <-> lang r (String c s).
Proof.
  split.
  - revert s. induction r as [| |f|r1 IH1 r2 IH2|r1 IH1 r2 IH2|r IH]; cbn; intros s Hl.
    + inversion Hl.
    + inversion Hl.
    + destruct (f c) eqn:Hf; inversion Hl; subst. by constructor.
    + assert (Hseq : forall s, lang (RSeq (derive c r1) r2) s -> lang (RSeq r1 r2) (String c s)).
      { intros s' Hs. inversion Hs as [| |? ? s1 t1 H1 H2| | | |]; subst.
        apply (lang_seq _ _ (String c s1) t1); auto. }
      destruct (nullable r1) eqn:Hn; [|auto]. apply nullable_spec in Hn.
      inversion Hl; subst; [auto|]. apply (lang_seq _ _ "" (String c s)); auto.
    + inversion Hl; subst; auto with regex.
    + inversion Hl as [| |? ? s1 t1 H1 H2| | | |]; subst. apply (lang_star _ (String c s1) t1); auto.
  - intros Hl. remember (String c s) as w eqn:Hw. revert s Hw.
    induction Hl as [|f c' Hf|r1 r2 s1 t1 H1 IH1 H2 IH2|r1 r2 s1 _ IH|r1 r2 s1 _ IH| |r s1 t1 H1 IH1 H2 IH2];
      intros s Hw; cbn; try done.
    + injection Hw as -> <-. rewrite Hf. constructor.
    + destruct s1 as [|c1 s1].
      * assert (Hn : nullable r1 = true) by (by apply nullable_spec). rewrite Hn. apply lang_altr. by apply IH2.
      * injection Hw as -> <-. destruct (nullable r1); auto with regex.
    + auto with regex.
    + auto with regex.
    + destruct s1 as [|c1 s1]; [by apply IH2|]. injection Hw as -> <-. apply lang_seq; auto.
Qed.

Lemma matches_spec r s : matches r s = true <-> lang r s.
Proof.
  revert r. induction s as [|c s IH]; intros r; cbn; [apply nullable_spec|].
  by rewrite IH, derive_spec.
Qed.

Fixpoint str_all (f : ascii -> bool) (s : string) : bool :=
  match s with EmptyString => true | String c s => f c && str_all f s end.

Lemma string_app_one c s : String c "" +:+ s = String c s.
Proof. done. Qed.

Lemma lang_class_inv f s : lang (RClass f) s <-> exists c, s = String c "" /\ f c = true.
Proof.
  split; [intros Hl; inversion Hl; subst; eauto|]. intros (c & -> & Hf). by constructor.
Qed.

Lemma lang_seq_inv r1 r2 s : lang (RSeq r1 r2) s <-> exists s1 s2, s = s1 +:+ s2 /\ lang r1 s1 /\ lang r2 s2.
Proof.
  split; [intros Hl; inversion Hl; subst; eauto 10|]. intros (s1 & s2 & -> & H1 & H2). by constructor.
Qed.

Lemma lang_alt_inv r1 r2 s : lang (RAlt r1 r2) s <-> lang r1 s \/ lang r2 s.
Proof. split; [intros Hl; inversion Hl; auto|intros [?|?]; auto with regex]. Qed.

Lemma lang_opt r s : lang (ROpt r) s <-> s = "" \/ lang r s.
Proof.
  unfold ROpt. rewrite lang_alt_inv. split; (intros [H|H]; [left|by right]); [by inversion H|subst; constructor].
Qed.

Lemma lang_star_class f s : lang (RStar (RClass f)) s <-> str_all f s = true.
Proof.
  split.
  - intros Hl. remember (RStar (RClass f)) as r eqn:Hr. induction Hl as [| | | | | |r s t H1 _ _ IH]; try done.
    injection Hr as ->. apply lang_class_inv in H1 as (c & -> & Hf). rewrite string_app_one. cbn. by rewrite Hf, IH.
  - induction s as [|c s IH]; cbn; intros Hs; [constructor|]. apply andb_true_iff in Hs as [Hf Hs].
    apply (lang_star _ (String c "") s); [by constructor|auto].
Qed.

Lemma lang_plus_class f s : lang (RPlus (RClass f)) s <-> s <> "" /\ str_all f s = true.
Proof.
  unfold RPlus. rewrite lang_seq_inv. split.
  - intros (s1 & s2 & -> & H1 & H2). apply lang_class_inv in H1 as (c & -> & Hf).
    apply lang_star_class in H2. rewrite string_app_one. split; [done|]. cbn. by rewrite Hf, H2.
  - intros [Hne Hs]. destruct s as [|c s]; [done|]. cbn in Hs. apply andb_true_iff in Hs as [Hf Hs].
    exists (String c ""), s. split; [done|]. split; [by constructor|by apply lang_star_class].
Qed.

Lemma lang_times_class n f s :
  lang (RTimes n (RClass f)) s <-> String.length s = n /\ str_all f s = true.
Proof.
  revert s. induction n as [|n IH]; intros s; cbn [RTimes].
  - split; [intros Hl; by inversion Hl|]. intros [Hs _]. destruct s; [constructor|done].
  - rewrite lang_seq_inv. split.
    + intros (s1 & s2 & -> & H1 & H2). apply lang_class_inv in H1 as (c & -> & Hf). apply IH in H2 as [Hn Hs].
      rewrite string_app_one. cbn. rewrite Hf, Hs. by rewrite <- Hn.
    + intros [Hn Hs]. destruct s as [|c s]; [done|]. cbn in Hn, Hs. apply andb_true_iff in Hs as [Hf Hs].
      exists (String c ""), s. split; [done|]. split; [by constructor|]. apply IH. split; [lia|done].
Qed.

Lemma lang_upto_class n f s :
  lang (RUpTo n (RClass f)) s <-> (String.length s <= n)%nat /\ str_all f s = true.
Proof.
  revert s. induction n as [|n IH]; intros s; cbn [RUpTo].
  - split; [intros Hl; by inversion Hl|]. intros [Hs _]. destruct s; [constructor|cbn in Hs; lia].
  - rewrite lang_opt, lang_seq_inv. split.
    + intros [->|(s1 & s2 & -> & H1 & H2)]; [split; [cbn; lia|done]|].
      apply lang_class_inv in H1 as (c & -> & Hf). apply IH in H2 as [Hn Hs]. rewrite string_app_one. cbn. rewrite Hf, Hs. split; [lia|done].
    + intros [Hn Hs]. destruct s as [|c s]; [by left|right]. cbn in Hn, Hs. apply andb_true_iff in Hs as [Hf Hs].
      exists (String c ""), s. split; [done|]. split; [by constructor|]. apply IH. split; [lia|done].
Qed.

Lemma str_all_app f s t : str_all f (s +:+ t) = str_all f s && str_all f t.
Proof. induction s as [|c s IH]; [done|]. rewrite string_app_cons. cbn. by rewrite IH, andb_assoc. Qed.

Lemma str_split_at n s : (n <= String.length s)%nat -> exists s1 s2, s = s1 +:+ s2 /\ String.length s1 = n.
Proof.
  revert s. induction n as [|n IH]; intros s Hn; [by exists "", s|].
  destruct s as [|c s]; cbn in Hn; [lia|]. destruct (IH s ltac:(lia)) as (s1 & s2 & -> & Hl).
  exists (String c s1), s2. split; [done|]. cbn. by rewrite Hl.
Qed.

Lemma lang_between_class lo more f s :
  lang (RBetween lo more (RClass f)) s <->
  (lo <= String.length s <= lo + more)%nat /\ str_all f s = true.
Proof.
  unfold RBetween. rewrite lang_seq_inv. split.
  - intros (s1 & s2 & -> & H1 & H2). apply lang_times_class in H1 as [H1 Ha]. apply lang_upto_class in H2 as [H2 Hb].
    rewrite string_length_app, str_all_app, Ha, Hb. split; [lia|done].
  - intros [Hn Hs]. destruct (str_split_at lo s ltac:(lia)) as (s1 & s2 & -> & Hl).
    rewrite str_all_app in Hs. apply andb_true_iff in Hs as [Ha Hb]. rewrite string_length_app in Hn.
    exists s1, s2. split; [done|]. split; [by apply lang_times_class|]. apply lang_upto_class. split; [lia|done].
Qed.

Lemma lang_char c s : lang (RChar c) s <-> s = String c "".
Proof.
  unfold RChar. rewrite lang_class_inv. split.
  - intros (x & -> & Hx). apply bool_decide_eq_true in Hx. by subst x.
  - intros ->. exists c. split; [done|]. by apply bool_decide_eq_true.
Qed.
