(* ===== verification/Encoding.v ===== *)
(** * encoding/hex and encoding/base64 of Go's standard library

    Both directions, with the round trips the components rely on: hexadecimal
    digits, in either case when decoding, and base64 over an alphabet with or
    without padding.  The decoder of base64 skips carriage returns and line
    feeds, asks for the padding the encoding has and nothing after it, and
    does not look at the unused bits of the last character. *)

From S2P Require Import Prelude Bytes.
Local Open Scope Z_scope.

(** ** Hexadecimal *)
Definition hex_lower : list byte := str "0123456789abcdef".

Definition hex_of (b : byte) : list byte :=
  [ nth (Z.to_nat (Z.shiftr (b2z b) 4)) hex_lower x00;
    nth (Z.to_nat (Z.land (b2z b) 15)) hex_lower x00 ].

Definition hex_encode (l : list byte) : list byte := concat (map hex_of l).

Definition hex_value (b : byte) : option Z :=
  let c := b2z b in
  if (48 <=? c) && (c <=? 57) then Some (c - 48)
  else if (97 <=? c) && (c <=? 102) then Some (c - 87)
  else if (65 <=? c) && (c <=? 70) then Some (c - 55)
  else None.

Fixpoint hex_decode (l : list byte) : option (list byte) :=
  match l with
  | [] => Some []
  | [_] => None
  | a :: b :: l =>
      hi ← hex_value a; lo ← hex_value b; rest ← hex_decode l;
      Some (z2b (Z.lor (Z.shiftl hi 4) lo) :: rest)
  end.

(** The two digits of a byte give the byte back, checked for each of them. *)
Definition hex_pair_ok (b : byte) : bool :=
  match hex_of b with
  | [x; y] =>
      match hex_value x, hex_value y with
      | Some hi, Some lo => bool_decide (z2b (Z.lor (Z.shiftl hi 4) lo) = b)
      | _, _ => false
      end
  | _ => false
  end.

Lemma hex_of_value b :
  exists x y hi lo, hex_of b = [x; y] /\ hex_value x = Some hi /\ hex_value y = Some lo /\
    z2b (Z.lor (Z.shiftl hi 4) lo) = b.
Proof.
  assert (H : hex_pair_ok b = true) by (apply forall_bytes; by vm_compute).
  unfold hex_pair_ok in H. destruct (hex_of b) as [|x [|y [|? ?]]]; try done.
  destruct (hex_value x) as [hi|] eqn:Hx, (hex_value y) as [lo|] eqn:Hy; try done.
  apply bool_decide_eq_true in H. by exists x, y, hi, lo.
Qed.

Lemma hex_decode_encode l : hex_decode (hex_encode l) = Some l.
Proof.
  unfold hex_encode. induction l as [|b l IH]; [done|]. cbn [map concat].
  destruct (hex_of_value b) as (x & y & hi & lo & -> & Hx & Hy & Hb).
  cbn [app hex_decode]. rewrite Hx, Hy. cbn. by rewrite IH, Hb.
Qed.

Lemma hex_encode_length l : length (hex_encode l) = (2 * length l)%nat.
Proof. unfold hex_encode. induction l as [|b l IH]; [done|]. cbn in *. lia. Qed.

Lemma hex_decode_length : forall l r, hex_decode l = Some r -> length l = (2 * length r)%nat.
Proof.
  fix IH 1. intros [|a [|b l]] r; cbn; [by intros [= <-]|done|].
  destruct (hex_value a), (hex_value b); cbn; try done.
  destruct (hex_decode l) as [rest|] eqn:Hl; cbn; [|done].
  intros [= <-]. apply IH in Hl. cbn. lia.
Qed.

(** ** Base64 *)
Definition b64_letters (last : string) : list byte :=
  str ("ABCDEFGHIJKLMNOPQRSTUVWXYZabcdefghijklmnopqrstuvwxyz0123456789" +:+ last).

Record Base64 := mkBase64 { b64_alphabet : list byte; b64_padded : bool }.

Definition StdEncoding : Base64 := mkBase64 (b64_letters "+/") true.
Definition URLEncoding : Base64 := mkBase64 (b64_letters "-_") true.
Definition RawURLEncoding : Base64 := mkBase64 (b64_letters "-_") false.

Definition b64_char (enc : Base64) (v : Z) : byte := nth (Z.to_nat v) (b64_alphabet enc) x00.
Definition b64_value (enc : Base64) (c : byte) : option Z :=
  Z.of_nat ∘ fst <$> list_find (eq c) (b64_alphabet enc).

(** Three bytes are four characters of six bits. *)
Definition pack3 (a b c : byte) : Z := b2z a * 65536 + b2z b * 256 + b2z c.
Definition sextet (n i : Z) : Z := n / 64 ^ (3 - i) mod 64.
Definition pack4 (a b c d : Z) : Z := a * 262144 + b * 4096 + c * 64 + d.
Definition octet (n i : Z) : byte := z2b (n / 256 ^ (2 - i)).

Definition b64_padding (enc : Base64) (n : nat) : list byte :=
  if b64_padded enc then replicate n x3d else [].

Fixpoint b64_encode (enc : Base64) (l : list byte) : list byte :=
  match l with
  | [] => []
  | [a] =>
      let n := pack3 a x00 x00 in
      [b64_char enc (sextet n 0); b64_char enc (sextet n 1)] ++ b64_padding enc 2
  | [a; b] =>
      let n := pack3 a b x00 in
      [b64_char enc (sextet n 0); b64_char enc (sextet n 1); b64_char enc (sextet n 2)] ++
      b64_padding enc 1
  | a :: b :: c :: l =>
      let n := pack3 a b c in
      b64_char enc (sextet n 0) :: b64_char enc (sextet n 1) :: b64_char enc (sextet n 2) ::
      b64_char enc (sextet n 3) :: b64_encode enc l
  end.

Definition b64_last2 (enc : Base64) (a b : byte) : option (list byte) :=
  x ← b64_value enc a; y ← b64_value enc b;
  Some [octet (pack4 x y 0 0) 0].
Definition b64_last3 (enc : Base64) (a b c : byte) : option (list byte) :=
  x ← b64_value enc a; y ← b64_value enc b; z ← b64_value enc c;
  Some [octet (pack4 x y z 0) 0; octet (pack4 x y z 0) 1].

Fixpoint b64_groups (enc : Base64) (l : list byte) : option (list byte) :=
  match l with
  | [] => Some []
  | [_] => None
  | [a; b] => if b64_padded enc then None else b64_last2 enc a b
  | [a; b; c] => if b64_padded enc then None else b64_last3 enc a b c
  | a :: b :: c :: d :: l =>
      if b64_padded enc && bool_decide (d = x3d) then
        match l with
        | [] => if bool_decide (c = x3d) then b64_last2 enc a b else b64_last3 enc a b c
        | _ => None
        end
      else
        x ← b64_value enc a; y ← b64_value enc b; z ← b64_value enc c; w ← b64_value enc d;
        rest ← b64_groups enc l;
        let n := pack4 x y z w in
        Some (octet n 0 :: octet n 1 :: octet n 2 :: rest)
  end.

Definition newline (c : byte) : bool := bool_decide (c = x0a) || bool_decide (c = x0d).
Definition b64_decode (enc : Base64) (l : list byte) : option (list byte) :=
  b64_groups enc (List.filter (fun c => negb (newline c)) l).

(** ** What an encoding needs of its alphabet *)
Definition b64_ok (enc : Base64) : bool :=
  forallb (fun v => bool_decide (b64_value enc (b64_char enc v) = Some v) &&
                    negb (newline (b64_char enc v)) && negb (bool_decide (b64_char enc v = x3d)))
    (map Z.of_nat (seq 0 64)).

Class GoodAlphabet (enc : Base64) : Prop := good_alphabet : b64_ok enc = true.
#[global] Instance std_good : GoodAlphabet StdEncoding.
Proof. by vm_compute. Qed.
#[global] Instance url_good : GoodAlphabet URLEncoding.
Proof. by vm_compute. Qed.
#[global] Instance raw_url_good : GoodAlphabet RawURLEncoding.
Proof. by vm_compute. Qed.

Lemma sextet_range n i : 0 <= sextet n i < 64.
Proof. apply Z.mod_pos_bound. lia. Qed.

(** The bytes of three come back from their four sextets. *)
Lemma pack3_range a b c : 0 <= pack3 a b c < 16777216.
Proof. unfold pack3. pose proof (b2z_range a). pose proof (b2z_range b). pose proof (b2z_range c). lia. Qed.

Lemma pack_sextets n : 0 <= n < 16777216 -> pack4 (sextet n 0) (sextet n 1) (sextet n 2) (sextet n 3) = n.
Proof.
  intros Hn. unfold pack4, sextet. change (64 ^ (3 - 0)) with 262144. change (64 ^ (3 - 1)) with 4096.
  change (64 ^ (3 - 2)) with 64. change (64 ^ (3 - 3)) with 1.
  replace (n / 4096) with (n / 64 / 64) by (by rewrite Z.div_div).
  replace (n / 262144) with (n / 64 / 64 / 64) by (by rewrite !Z.div_div).
  rewrite Z.div_1_r.
  pose proof (Z_div_mod_eq_full n 64). pose proof (Z.mod_pos_bound n 64 eq_refl).
  remember (n / 64) as q. pose proof (Z_div_mod_eq_full q 64). pose proof (Z.mod_pos_bound q 64 eq_refl).
  remember (q / 64) as p. pose proof (Z_div_mod_eq_full p 64). pose proof (Z.mod_pos_bound p 64 eq_refl).
  rewrite (Z.mod_small (p / 64)) by lia. lia.
Qed.

Lemma octet_pack a b c :
  octet (pack3 a b c) 0 = a /\ octet (pack3 a b c) 1 = b /\ octet (pack3 a b c) 2 = c.
Proof.
  unfold octet, pack3. change (256 ^ (2 - 0)) with 65536. change (256 ^ (2 - 1)) with 256.
  change (256 ^ (2 - 2)) with 1.
  pose proof (b2z_range a). pose proof (b2z_range b). pose proof (b2z_range c).
  assert (Hhi : (b2z a * 65536 + b2z b * 256 + b2z c) / 65536 = b2z a)
    by (symmetry; apply (Z.div_unique_pos _ _ _ (b2z b * 256 + b2z c)); lia).
  assert (Hmid : (b2z a * 65536 + b2z b * 256 + b2z c) / 256 = b2z a * 256 + b2z b)
    by (symmetry; apply (Z.div_unique_pos _ _ _ (b2z c)); lia).
  rewrite Hhi, Hmid, Z.div_1_r. repeat split; apply b2z_inj; rewrite b2z_z2b; [by apply Z.mod_small|..].
  - symmetry. apply (Z.mod_unique_pos _ _ (b2z a)); lia.
  - symmetry. apply (Z.mod_unique_pos _ _ (b2z a * 256 + b2z b)); lia.
Qed.

Lemma sextet_zero a : sextet (pack3 a x00 x00) 2 = 0 /\ sextet (pack3 a x00 x00) 3 = 0.
Proof.
  unfold sextet, pack3. change (64 ^ (3 - 2)) with 64. change (64 ^ (3 - 3)) with 1.
  change (b2z x00) with 0. pose proof (b2z_range a).
  Z.to_euclidean_division_equations; lia.
Qed.

Lemma sextet_zero3 a b : sextet (pack3 a b x00) 3 = 0.
Proof.
  unfold sextet, pack3. change (64 ^ (3 - 3)) with 1.
  change (b2z x00) with 0. pose proof (b2z_range a). pose proof (b2z_range b).
  Z.to_euclidean_division_equations; lia.
Qed.

Section RoundTrip.
Context (enc : Base64) `{GoodAlphabet enc}.

Lemma b64_char_ok v :
  0 <= v < 64 ->
  b64_value enc (b64_char enc v) = Some v /\ newline (b64_char enc v) = false /\ b64_char enc v <> x3d.
Proof.
  intros Hv. pose proof good_alphabet as Hok. unfold b64_ok in Hok. rewrite forallb_forall in Hok.
  specialize (Hok v). rewrite !andb_true_iff, !negb_true_iff, bool_decide_eq_true, bool_decide_eq_false in Hok.
  destruct Hok as [[? ?] ?]; [|done].
  apply in_map_iff. exists (Z.to_nat v). split; [lia|]. apply in_seq. lia.
Qed.

Definition b64_clean (c : byte) : Prop := newline c = false.

Lemma filter_clean l : Forall b64_clean l -> List.filter (fun c => negb (newline c)) l = l.
Proof. induction 1 as [|c l Hc _ IH]; cbn; [done|]. unfold b64_clean in Hc. by rewrite Hc; cbn; f_equal. Qed.

Lemma b64_encode_clean : forall l, Forall b64_clean (b64_encode enc l).
Proof.
  assert (Hc : forall n i, b64_clean (b64_char enc (sextet n i))).
  { intros n i. apply b64_char_ok, sextet_range. }
  fix IH 1. intros [|a [|b [|c l]]]; cbn [b64_encode]; unfold b64_padding.
  - constructor.
  - destruct (b64_padded enc); repeat constructor; apply Hc.
  - destruct (b64_padded enc); repeat constructor; apply Hc.
  - repeat (constructor; [apply Hc|]). apply IH.
Qed.
Lemma b64_value_char n i : b64_value enc (b64_char enc (sextet n i)) = Some (sextet n i).
Proof. apply b64_char_ok, sextet_range. Qed.

Lemma b64_char_not_pad n i : bool_decide (b64_char enc (sextet n i) = x3d) = false.
Proof. apply bool_decide_eq_false_2, b64_char_ok, sextet_range. Qed.

Lemma b64_last2_char a :
  b64_last2 enc (b64_char enc (sextet (pack3 a x00 x00) 0)) (b64_char enc (sextet (pack3 a x00 x00) 1)) = Some [a].
Proof.
  unfold b64_last2. rewrite !b64_value_char. cbn [mbind option_bind].
  pose proof (pack_sextets _ (pack3_range a x00 x00)) as Hn.
  destruct (sextet_zero a) as [Hz Hz']. rewrite Hz, Hz' in Hn. rewrite Hn.
  by destruct (octet_pack a x00 x00) as (-> & _ & _).
Qed.

Lemma b64_last3_char a b :
  b64_last3 enc (b64_char enc (sextet (pack3 a b x00) 0)) (b64_char enc (sextet (pack3 a b x00) 1))
    (b64_char enc (sextet (pack3 a b x00) 2)) = Some [a; b].
Proof.
  unfold b64_last3. rewrite !b64_value_char. cbn [mbind option_bind].
  pose proof (pack_sextets _ (pack3_range a b x00)) as Hn. rewrite sextet_zero3 in Hn. rewrite Hn.
  by destruct (octet_pack a b x00) as (-> & -> & _).
Qed.

Lemma b64_groups_encode : forall l, b64_groups enc (b64_encode enc l) = Some l.
Proof.
  fix IH 1. intros [|a [|b [|c l]]]; cbn [b64_encode]; unfold b64_padding.
  - done.
  - destruct (b64_padded enc) eqn:Hp; cbn [replicate app b64_groups]; rewrite Hp;
      cbn [andb]; rewrite ?bool_decide_eq_true_2 by done; apply b64_last2_char.
  - destruct (b64_padded enc) eqn:Hp; cbn [replicate app b64_groups]; rewrite Hp;
      cbn [andb]; rewrite ?(bool_decide_eq_true_2 (x3d = x3d)) by done; rewrite ?b64_char_not_pad;
      apply b64_last3_char.
  - cbn [b64_groups]. rewrite b64_char_not_pad, andb_false_r, !b64_value_char. cbn [mbind option_bind].
    rewrite IH, pack_sextets by apply pack3_range.
    by destruct (octet_pack a b c) as (-> & -> & ->).
Qed.

(** Decoding what was encoded gives the bytes back, also when the text was
    broken into lines. *)
Lemma b64_decode_encode l : b64_decode enc (b64_encode enc l) = Some l.
Proof.
  unfold b64_decode. rewrite filter_clean by apply b64_encode_clean. apply b64_groups_encode.
Qed.

Lemma b64_decode_lines l text :
  List.filter (fun c => negb (newline c)) text = b64_encode enc l -> b64_decode enc text = Some l.
Proof. unfold b64_decode. intros ->. apply b64_groups_encode. Qed.

#[global] Instance b64_encode_inj : Inj (=) (=) (b64_encode enc).
Proof.
  intros l k Hlk. pose proof (b64_decode_encode l) as Hl.
  rewrite Hlk, b64_decode_encode in Hl. by injection Hl.
Qed.

(** Every character is of the alphabet or the padding. *)
Lemma b64_encode_chars : forall l c, In c (b64_encode enc l) ->
  c = x3d \/ exists v, 0 <= v < 64 /\ c = b64_char enc v.
Proof.
  assert (Hp : forall n c, In c (b64_padding enc n) -> c = x3d).
  { intros n c. unfold b64_padding. destruct (b64_padded enc); [|done].
    intros Hc%list_elem_of_In%elem_of_replicate. by destruct Hc. }
  assert (Hs : forall n i, exists v, 0 <= v < 64 /\ b64_char enc (sextet n i) = b64_char enc v).
  { intros n i. exists (sextet n i). split; [apply sextet_range|done]. }
  fix IH 1. intros [|a [|b [|d l]]] c; cbn [b64_encode app]; [done|..]; intros Hc; cbn in Hc;
    repeat (destruct Hc as [<-|Hc]; [right; apply Hs|]); try (left; by eapply Hp).
  by apply (IH l).
Qed.
End RoundTrip.

(** Text with a character outside the alphabet is refused. *)
Lemma b64_groups_values enc : forall l r, b64_groups enc l = Some r ->
  Forall (fun c => c = x3d \/ is_Some (b64_value enc c)) l.
Proof.
  fix IH 1. intros [|a [|b [|c [|d l]]]] r; cbn [b64_groups]; unfold b64_last2, b64_last3.
  - constructor.
  - done.
  - destruct (b64_padded enc); [done|].
    destruct (b64_value enc a) eqn:?, (b64_value enc b) eqn:?; cbn; try done; eauto 10.
  - destruct (b64_padded enc); [done|].
    destruct (b64_value enc a) eqn:?, (b64_value enc b) eqn:?, (b64_value enc c) eqn:?; cbn; try done; eauto 10.
  - destruct (b64_padded enc && bool_decide (d = x3d)) eqn:Hd.
    + apply andb_true_iff in Hd as [_ ->%bool_decide_eq_true]. destruct l; [|done].
      destruct (b64_value enc a) eqn:?, (b64_value enc b) eqn:?; cbn; try (by case_bool_decide).
      case_bool_decide as Hc; [subst; eauto 10|].
      destruct (b64_value enc c) eqn:?; cbn; [eauto 10|done].
    + destruct (b64_value enc a) eqn:?, (b64_value enc b) eqn:?, (b64_value enc c) eqn:?,
        (b64_value enc d) eqn:?; cbn; try done.
      destruct (b64_groups enc l) as [rest|] eqn:Hl; cbn; [|done]. intros _.
      apply IH in Hl. eauto 10.
Qed.

Example b64_hello : b64_encode StdEncoding (str "hello") = str "aGVsbG8=".
Proof. by vm_compute. Qed.
Example b64_raw : b64_encode RawURLEncoding [xfb; xff] = str "-_8".
Proof. by vm_compute. Qed.
Example b64_garbage : b64_decode StdEncoding (str "aGVsbG8=x") = None.
Proof. by vm_compute. Qed.
