(* ===== verification/Aes.v ===== *)
(** * AES-256 and GCM (crypto/aes and crypto/cipher), written out

    The block cipher of FIPS 197 with a key of 32 bytes and the mode of
    NIST SP 800-38D with a nonce of 12 bytes, a tag of 16 and no additional
    data, which is what the program asks for.  The tables are computed from
    the field; the published vectors are checked below.  Go refuses a message
    of more than 64 GB, which no caller here can build. *)

From S2P Require Import Prelude Bytes Hashes.
Local Open Scope Z_scope.

(** ** The field of 256 elements and the substitution box *)
Definition xtime (a : Z) : Z :=
  let d := Z.shiftl a 1 in if Z.testbit d 8 then Z.lxor d 283 else d.

Fixpoint gf_mul_fuel (n : nat) (a b : Z) : Z :=
  match n with
  | O => 0
  | S n => Z.lxor (if Z.testbit b 0 then a else 0) (gf_mul_fuel n (xtime a) (Z.shiftr b 1))
  end.
Definition gf_mul : Z -> Z -> Z := gf_mul_fuel 8.

(** The inverse is the power 254. *)
Definition gf_inv (a : Z) : Z :=
  let a2 := gf_mul a a in
  let a4 := gf_mul a2 a2 in
  let a8 := gf_mul a4 a4 in
  let a16 := gf_mul a8 a8 in
  let a32 := gf_mul a16 a16 in
  let a64 := gf_mul a32 a32 in
  let a128 := gf_mul a64 a64 in
  gf_mul a2 (gf_mul a4 (gf_mul a8 (gf_mul a16 (gf_mul a32 (gf_mul a64 a128))))).

Definition rotl8 (a n : Z) : Z := Z.land (Z.lor (Z.shiftl a n) (Z.shiftr a (8 - n))) 255.
Definition affine (a : Z) : Z :=
  Z.lxor (Z.lxor (Z.lxor (Z.lxor (Z.lxor a (rotl8 a 1)) (rotl8 a 2)) (rotl8 a 3)) (rotl8 a 4)) 99.

Definition sbox_bytes : list byte :=
  Eval vm_compute in map (fun n => z2b (affine (gf_inv (Z.of_nat n)))) (seq 0 256).
Definition mul2_bytes : list byte :=
  Eval vm_compute in map (fun n => z2b (xtime (Z.of_nat n))) (seq 0 256).

Definition look (t : list byte) (b : byte) : byte := nth (Z.to_nat (b2z b)) t x00.
Definition sub_byte : byte -> byte := look sbox_bytes.

(** ** The key schedule: sixty words of four bytes *)
Fixpoint expand_key (n i : nat) (rcon : Z) (w : list (list byte)) : list (list byte) :=
  match n with
  | O => w
  | S n =>
      let prev := nth (i - 1) w [] in
      let t :=
        if Nat.eqb (i mod 8) 0 then
          match prev with
          | [a; b; c; d] => [bxor (sub_byte b) (z2b rcon); sub_byte c; sub_byte d; sub_byte a]
          | _ => []
          end
        else if Nat.eqb (i mod 8) 4 then map sub_byte prev else prev in
      let rcon := if Nat.eqb (i mod 8) 0 then xtime rcon else rcon in
      expand_key n (S i) rcon (w ++ [xor_bytes (nth (i - 8) w []) t])
  end.
Definition round_keys (key : list byte) : list (list byte) :=
  chunks 16 (concat (expand_key 52 8 1 (chunks 4 key))).

(** ** One block *)
Definition shift_rows (st : list byte) : list byte :=
  map (fun i => nth i st x00) [0; 5; 10; 15; 4; 9; 14; 3; 8; 13; 2; 7; 12; 1; 6; 11]%nat.
Definition mix_column (col : list byte) : list byte :=
  match col with
  | [a; b; c; d] =>
      let two := look mul2_bytes in
      let three x := bxor (two x) x in
      [ bxor (bxor (two a) (three b)) (bxor c d); bxor (bxor a (two b)) (bxor (three c) d);
        bxor (bxor a b) (bxor (two c) (three d)); bxor (bxor (three a) b) (bxor c (two d)) ]
  | _ => []
  end.
Definition mix_columns (st : list byte) : list byte := concat (map mix_column (chunks 4 st)).

Fixpoint cipher_rounds (keys : list (list byte)) (st : list byte) : list byte :=
  match keys with
  | [] => st
  | [k] => xor_bytes (shift_rows (map sub_byte st)) k
  | k :: keys => cipher_rounds keys (xor_bytes (mix_columns (shift_rows (map sub_byte st))) k)
  end.
Definition aes_block (keys : list (list byte)) (blk : list byte) : list byte :=
  match keys with
  | [] => blk
  | k :: keys => cipher_rounds keys (xor_bytes blk k)
  end.

Example aes256_vector :
  hex_upper (aes_block (round_keys (map (fun n => z2b (Z.of_nat n)) (seq 0 32)))
    (map (fun n => z2b (17 * Z.of_nat n)) (seq 0 16))) = str "8EA2B7CA516745BFEAFC49904B496089".
Proof. by vm_compute. Qed.

(** ** GHASH: polynomials over two elements modulo x^128 + x^7 + x^2 + x + 1,
    the first bit of a block being the constant term *)
Fixpoint ghash_mul_fuel (n : nat) (x v acc : Z) : Z :=
  match n with
  | O => acc
  | S n =>
      let acc := if Z.testbit x (Z.of_nat n) then Z.lxor acc v else acc in
      let w := Z.shiftr v 1 in
      ghash_mul_fuel n x (if Z.testbit v 0 then Z.lxor w (Z.shiftl 225 120) else w) acc
  end.
Definition ghash_mul (x h : Z) : Z := ghash_mul_fuel 128 x h 0.

Definition pad16 (l : list byte) : list byte := l ++ replicate ((16 - length l mod 16) mod 16) x00.
Definition ghash (h : Z) (blocks : list (list byte)) : Z :=
  fold_left (fun acc blk => ghash_mul (Z.lxor acc (be_decode blk)) h) blocks 0.

(** ** The mode *)
Definition gcm_nonce_size : nat := 12.
Definition gcm_tag_size : nat := 16.

Definition counter_block (nonce : list byte) (i : Z) : list byte := nonce ++ be_encode 4 i.

Fixpoint gctr (keys : list (list byte)) (nonce : list byte) (i : Z) (blocks : list (list byte)) : list byte :=
  match blocks with
  | [] => []
  | blk :: blocks =>
      xor_bytes blk (aes_block keys (counter_block nonce i)) ++ gctr keys nonce (i + 1) blocks
  end.

Definition gcm_crypt (key nonce text : list byte) : list byte :=
  gctr (round_keys key) nonce 2 (chunks 16 text).

Definition gcm_tag (key nonce ciphertext : list byte) : list byte :=
  let keys := round_keys key in
  let h := be_decode (aes_block keys (replicate 16 x00)) in
  let lengths := be_encode 8 0 ++ be_encode 8 (8 * Z.of_nat (length ciphertext)) in
  let s := ghash h (chunks 16 (pad16 ciphertext ++ lengths)) in
  be_encode 16 (Z.lxor s (be_decode (aes_block keys (counter_block nonce 1)))).

Definition gcm_Seal (key nonce plaintext : list byte) : list byte :=
  let c := gcm_crypt key nonce plaintext in c ++ gcm_tag key nonce c.

(** [gcm.Open]: the tag is compared before anything is decrypted. *)
Definition gcm_Open (key nonce sealed : list byte) : option (list byte) :=
  if bool_decide (length sealed < gcm_tag_size)%nat then None
  else
    let n := (length sealed - gcm_tag_size)%nat in
    let c := take n sealed in
    if bool_decide (drop n sealed = gcm_tag key nonce c)
    then Some (gcm_crypt key nonce c) else None.

Example gcm_vector_13 :
  hex_upper (gcm_Seal (replicate 32 x00) (replicate 12 x00) []) = str "530F8AFBC74536B9A963B4F1C4CB738B".
Proof. by vm_compute. Qed.
Example gcm_vector_14 :
  hex_upper (gcm_Seal (replicate 32 x00) (replicate 12 x00) (replicate 16 x00)) =
  str "CEA7403D4D606B6E074EC5D3BAF39D18D0D1C8A799996BF0265B98B5D48AB919".
Proof. by vm_compute. Qed.

(** ** Pieces of a list *)
Lemma chunks_fuel_enough {A} n (l : list A) f g :
  (0 < n)%nat -> (length l <= f)%nat -> (length l <= g)%nat -> chunks_fuel f n l = chunks_fuel g n l.
Proof.
  intros Hn. revert l g. induction f as [|f IH]; intros [|x l] [|g]; cbn [chunks_fuel length]; try (done || lia).
  intros Hf Hg. f_equal. apply IH; rewrite length_drop; cbn; lia.
Qed.

Lemma chunks_cons {A} n (l : list A) :
  (0 < n)%nat -> l <> [] -> chunks n l = take n l :: chunks n (drop n l).
Proof.
  intros Hn Hl. unfold chunks at 1. destruct l as [|x l]; [done|]. cbn [length chunks_fuel].
  f_equal. apply chunks_fuel_enough; [done| |done]. rewrite length_drop. cbn. lia.
Qed.

Lemma chunks_lengths {A} n k (l : list A) :
  (0 < n)%nat -> length l = (k * n)%nat ->
  Forall (fun c => length c = n) (chunks n l) /\ length (chunks n l) = k.
Proof.
  intros Hn. revert l. induction k as [|k IH]; intros l Hl.
  - apply nil_length_inv in Hl as ->. by split.
  - rewrite chunks_cons by (done || intros ->; cbn in Hl; lia).
    destruct (IH (drop n l)) as [Hall Hlen]; [rewrite length_drop; lia|].
    split; [|cbn; lia]. constructor; [|done]. rewrite length_take. lia.
Qed.

Lemma concat_lengths {A} n (ls : list (list A)) :
  Forall (fun c => length c = n) ls -> length (concat ls) = (length ls * n)%nat.
Proof. induction 1 as [|c ls Hc _ IH]; [done|]. cbn. rewrite length_app. lia. Qed.

(** ** A block stays a block *)
Notation is_block := (fun b : list byte => length b = 16%nat).
Notation is_word := (fun w : list byte => length w = 4%nat).

Lemma mix_columns_length st : length st = 16%nat -> length (mix_columns st) = 16%nat.
Proof.
  intros Hst. unfold mix_columns. destruct (chunks_lengths 4 4 st) as [Hall Hlen]; [lia|done|].
  rewrite (concat_lengths 4); [by rewrite length_map, Hlen|].
  apply List.Forall_map. eapply List.Forall_impl; [|exact Hall].
  intros [|a [|b [|c [|d [|? ?]]]]]; cbn; done.
Qed.

Lemma aes_block_length keys blk :
  Forall is_block keys -> length blk = 16%nat -> length (aes_block keys blk) = 16%nat.
Proof.
  destruct keys as [|k keys]; [done|]. cbn [aes_block]. intros [Hk Hks]%Forall_cons Hb.
  assert (Hst : length (xor_bytes blk k) = 16%nat) by (rewrite xor_bytes_length; lia).
  clear Hb Hk. revert Hst. generalize (xor_bytes blk k) as st.
  induction Hks as [|k' keys' Hk' Hks IH]; intros st Hst; [done|].
  assert (Hsr : forall l, length (shift_rows l) = 16%nat) by done.
  cbn [cipher_rounds]. destruct keys' as [|k'' keys'].
  - by rewrite xor_bytes_length, Hsr, Hk'.
  - apply IH. rewrite xor_bytes_length, mix_columns_length by done. lia.
Qed.

Lemma expand_key_words n : forall i rcon w,
  (8 <= i)%nat -> length w = i -> Forall is_word w ->
  Forall is_word (expand_key n i rcon w) /\ length (expand_key n i rcon w) = (n + i)%nat.
Proof.
  induction n as [|n IH]; intros i rcon w Hi Hw Hall; [done|]. cbn [expand_key].
  assert (Hnth : forall j, (j < i)%nat -> length (nth j w []) = 4%nat).
  { intros j Hj. rewrite List.Forall_forall in Hall. apply Hall, nth_In. lia. }
  match goal with |- context [xor_bytes _ ?t] => set (t0 := t) end.
  assert (Ht : length t0 = 4%nat).
  { subst t0. pose proof (Hnth (i - 1)%nat ltac:(lia)) as Hp.
    destruct (nth (i - 1) w []) as [|a [|b [|c [|d [|? ?]]]]]; try done.
    by destruct (Nat.eqb (i mod 8) 0), (Nat.eqb (i mod 8) 4). }
  destruct (IH (S i) (if Nat.eqb (i mod 8) 0 then xtime rcon else rcon)
              (w ++ [xor_bytes (nth (i - 8) w []) t0])) as [Hall' Hlen']; [lia|..].
  - rewrite length_app. cbn. lia.
  - apply Forall_app. split; [done|]. repeat constructor.
    rewrite xor_bytes_length, Hnth by lia. lia.
  - split; [done|]. lia.
Qed.

Lemma round_keys_blocks key : length key = 32%nat -> Forall is_block (round_keys key).
Proof.
  intros Hk. destruct (chunks_lengths 4 8 key) as [Hall Hlen]; [lia|done|].
  destruct (expand_key_words 52 8 1 (chunks 4 key)) as [Hw Hl]; [lia|done|done|].
  apply (chunks_lengths 16 15); [lia|]. rewrite (concat_lengths 4) by done. by rewrite Hl.
Qed.

(** ** The mode decrypts what it encrypts *)
Section Gcm.
Context (key nonce : list byte) (Hkey : length key = 32%nat) (Hnonce : length nonce = gcm_nonce_size).

Lemma keystream_length i : length (aes_block (round_keys key) (counter_block nonce i)) = 16%nat.
Proof.
  apply aes_block_length; [by apply round_keys_blocks|].
  unfold counter_block. by rewrite length_app, Hnonce, be_encode_length.
Qed.

Lemma gctr_twice : forall n l i, (length l <= n)%nat ->
  let c := gctr (round_keys key) nonce i (chunks 16 l) in
  length c = length l /\ gctr (round_keys key) nonce i (chunks 16 c) = l.
Proof.
  induction n as [|n IH]; intros l i Hl; cbv zeta; destruct (decide (l = [])) as [->|Hne]; try done.
  { destruct l; [done|cbn in Hl; lia]. }
  assert (Hpos : (0 < length l)%nat) by (destruct l; [done|cbn; lia]).
  rewrite chunks_cons by (done || lia). cbn [gctr].
  set (ks := aes_block _ _). assert (Hks : length ks = 16%nat) by apply keystream_length.
  destruct (IH (drop 16 l) (i + 1)) as [Hlen Hdec]; [rewrite length_drop; lia|].
  set (c := gctr _ _ (i + 1) (chunks 16 (drop 16 l))) in *.
  assert (Hx : length (xor_bytes (take 16 l) ks) = Nat.min 16 (length l))
    by (rewrite xor_bytes_length, length_take; lia).
  split; [rewrite length_app, Hx, Hlen, length_drop; lia|].
  rewrite chunks_cons; [|lia|].
  2:{ intros Heq%(f_equal length). rewrite length_app, Hx in Heq. cbn [length] in Heq. lia. }
  cbn [gctr]. fold ks. destruct (Nat.le_gt_cases 16 (length l)).
  - rewrite take_app_length', drop_app_length' by (rewrite Hx; lia).
    rewrite Hdec, xor_bytes_cancel by (rewrite length_take; lia). apply take_drop.
  - assert (Hc : c = []) by (apply nil_length_inv; rewrite Hlen, length_drop; lia).
    rewrite Hc, app_nil_r, take_ge, drop_ge by (rewrite Hx; lia).
    change (gctr _ _ _ (chunks 16 [])) with (@nil byte). rewrite app_nil_r, xor_bytes_cancel by (rewrite length_take; lia). apply take_ge. lia.
Qed.

Lemma gcm_crypt_length l : length (gcm_crypt key nonce l) = length l.
Proof. by destruct (gctr_twice (length l) l 2 ltac:(lia)). Qed.

Lemma gcm_crypt_twice l : gcm_crypt key nonce (gcm_crypt key nonce l) = l.
Proof. by destruct (gctr_twice (length l) l 2 ltac:(lia)). Qed.

Lemma gcm_tag_length c : length (gcm_tag key nonce c) = gcm_tag_size.
Proof. apply be_encode_length. Qed.

Lemma gcm_Seal_length l : length (gcm_Seal key nonce l) = (length l + gcm_tag_size)%nat.
Proof. unfold gcm_Seal. by rewrite length_app, gcm_crypt_length, gcm_tag_length. Qed.

Lemma gcm_open_seal l : gcm_Open key nonce (gcm_Seal key nonce l) = Some l.
Proof.
  unfold gcm_Open. rewrite bool_decide_eq_false_2 by (rewrite gcm_Seal_length; lia).
  rewrite gcm_Seal_length, Nat.add_sub. unfold gcm_Seal.
  rewrite take_app_length' by (by rewrite gcm_crypt_length).
  rewrite drop_app_length' by (by rewrite gcm_crypt_length).
  by rewrite bool_decide_eq_true_2, gcm_crypt_twice.
Qed.

(** Whatever opens is the encryption of what comes out, byte for byte: for a
    given nonce nothing else opens to it. *)
Lemma gcm_open_inv sealed l : gcm_Open key nonce sealed = Some l -> sealed = gcm_Seal key nonce l.
Proof.
  unfold gcm_Open. case_bool_decide as Hshort; [done|]. cbv zeta. case_bool_decide as Htag; [|done].
  intros [= <-]. unfold gcm_Seal. rewrite gcm_crypt_twice, <-Htag. symmetry. apply take_drop.
Qed.
End Gcm.
