(* ===== verification/Secrets.v ===== *)
(** * Keys, encrypted secrets and encrypted columns

    - pkg/utils/crypto.go: the cryptographic manager - AES-GCM in hexadecimal
      under the hash of the server's secret, passwords, signed tokens;
    - pkg/kms: the interface of key providers and the local provider;
    - pkg/types/encrypted.go: the strings that are encrypted when a column is
      written and decrypted when it is read;
    - how cmd/qid-server/main.go sets them up.

    SHA-256, AES-GCM, hexadecimal and base64 are written out (Hashes.v, Aes.v,
    Encoding.v).  The system's random bytes are a stream with a position, any
    byte of which may be missing (a read error); bcrypt and the JWT library
    are parameters. *)

From S2P Require Import Prelude Bytes Hashes Types GoStd Encoding Aes.
From Stdlib Require Import SpecFloat Ascii.
Local Open Scope Z_scope.

(** ** Randomness: [io.ReadFull(rand.Reader, buf)] *)
Section Random.
Context (source : nat -> option byte).

Definition read_full (n : nat) : prog nat error (list byte) := fun pos =>
  match mapM source (seq pos n) with
  | Some bytes => (Ok bytes, (pos + n)%nat)
  | None => (Err (Errorf "read error"), pos)
  end.

Lemma read_full_run n pos :
  (exists bytes, read_full n pos = (Ok bytes, (pos + n)%nat) /\ length bytes = n) \/
  (read_full n pos = (Err (Errorf "read error"), pos) /\ mapM source (seq pos n) = None).
Proof.
  unfold read_full. destruct (mapM source (seq pos n)) as [bytes|] eqn:Hb; [left|by right].
  exists bytes. split; [done|]. apply mapM_Some, Forall2_length in Hb. by rewrite length_seq in Hb.
Qed.
End Random.

(** [aes.NewCipher] followed by [cipher.NewGCM]: every key here has 32 bytes
    by construction, and only such keys are modelled. *)
Definition new_gcm {S} (key : list byte) : prog S error (list byte) :=
  wrapping "failed to create cipher block: "
    (if bool_decide (length key = 32%nat) then mret key
     else throw (Errorf ("crypto/aes: invalid key size " +:+ pretty (Z.of_nat (length key))))).

Lemma new_gcm_run {S} (key : list byte) (s : S) :
  length key = 32%nat -> new_gcm key s = (Ok key, s).
Proof. intros Hk. apply wrapping_returns. by rewrite bool_decide_eq_true_2. Qed.

(** The steps the manager and the local provider share: a fresh nonce in
    front of what [Seal] returns, and back. *)
Section Sealed.
Context (source : nat -> option byte).

Definition seal (key plaintext : list byte) : prog nat error (list byte) :=
  gcm ← new_gcm key;
  nonce ← wrapping "failed to generate nonce: " (read_full source gcm_nonce_size);
  mret (nonce ++ gcm_Seal gcm nonce plaintext).

Definition unseal (short : string) (key ciphertext : list byte) : prog nat error (list byte) :=
  gcm ← new_gcm key;
  if bool_decide (length ciphertext < gcm_nonce_size)%nat then throw (Errorf short)
  else
    match gcm_Open gcm (take gcm_nonce_size ciphertext) (drop gcm_nonce_size ciphertext) with
    | None => throw (Wrapf "failed to decrypt: " (Errorf "cipher: message authentication failed"))
    | Some plaintext => mret plaintext
    end.

(** A nonce, and what a message of a given nonce looks like. *)
Definition sealed_with (key nonce plaintext : list byte) : list byte :=
  nonce ++ gcm_Seal key nonce plaintext.

Lemma seal_run key plaintext pos :
  length key = 32%nat ->
  (exists nonce, length nonce = gcm_nonce_size /\ read_full source gcm_nonce_size pos = (Ok nonce, (pos + gcm_nonce_size)%nat) /\
     seal key plaintext pos = (Ok (sealed_with key nonce plaintext), (pos + gcm_nonce_size)%nat)) \/
  (exists e, seal key plaintext pos = (Err e, pos) /\ mapM source (seq pos gcm_nonce_size) = None).
Proof.
  intros Hk. unfold seal. rewrite (prog_bind_run _ _ _ _ _ (new_gcm_run key pos Hk)).
  destruct (read_full_run source gcm_nonce_size pos) as [(nonce & Hr & Hl)|[Hr Hm]].
  - left. exists nonce. split; [done|]. split; [done|].
    by rewrite (prog_bind_run _ _ _ _ _ (wrapping_returns _ _ _ _ _ Hr)).
  - right. exists (Wrapf "failed to generate nonce: " (Errorf "read error")). split; [|done].
    by rewrite (prog_bind_fail _ _ _ _ _ (wrapping_fails _ _ _ _ _ Hr)).
Qed.

Lemma unseal_run short key ciphertext pos :
  length key = 32%nat ->
  unseal short key ciphertext pos =
    (if bool_decide (length ciphertext < gcm_nonce_size)%nat then Err (Errorf short)
     else match gcm_Open key (take gcm_nonce_size ciphertext) (drop gcm_nonce_size ciphertext) with
          | None => Err (Wrapf "failed to decrypt: " (Errorf "cipher: message authentication failed"))
          | Some p => Ok p
          end, pos).
Proof.
  intros Hk. unfold unseal. rewrite (prog_bind_run _ _ _ _ _ (new_gcm_run key pos Hk)).
  case_bool_decide; [done|]. by destruct (gcm_Open _ _ _).
Qed.

Lemma unseal_sealed short key nonce plaintext pos :
  length key = 32%nat -> length nonce = gcm_nonce_size ->
  unseal short key (sealed_with key nonce plaintext) pos = (Ok plaintext, pos).
Proof.
  intros Hk Hn. rewrite unseal_run by done. unfold sealed_with.
  rewrite bool_decide_eq_false_2 by (rewrite length_app; lia).
  rewrite take_app_length', drop_app_length' by done. by rewrite gcm_open_seal.
Qed.

(** What is accepted was sealed with this key, under the nonce in front. *)
Lemma unseal_cases short key ciphertext pos :
  length key = 32%nat ->
  (exists plaintext nonce, unseal short key ciphertext pos = (Ok plaintext, pos) /\
     length nonce = gcm_nonce_size /\ ciphertext = sealed_with key nonce plaintext) \/
  (exists e, unseal short key ciphertext pos = (Err e, pos)).
Proof.
  intros Hk. rewrite unseal_run by done. case_bool_decide as Hshort; [right; by eexists|].
  destruct (gcm_Open _ _ _) as [p|] eqn:Ho; [left|right; by eexists].
  assert (Hn : length (take gcm_nonce_size ciphertext) = gcm_nonce_size) by (rewrite length_take; lia).
  exists p, (take gcm_nonce_size ciphertext). split; [done|]. split; [done|].
  unfold sealed_with. rewrite <-(gcm_open_inv key _ Hk Hn _ _ Ho). by rewrite take_drop.
Qed.
End Sealed.

(** ** The cryptographic manager (crypto.go) *)
Record CryptoManager := mkCryptoManager { jwtSecret : list byte; aesKey : list byte }.

Definition NewCryptoManager (secret : string) : CryptoManager :=
  mkCryptoManager (str secret) (sha256 (str secret)).

Section Manager.
Context (source : nat -> option byte) (cm : CryptoManager).

Definition crypto_Encrypt (plaintext : string) : prog nat error string :=
  ciphertext ← seal source (aesKey cm) (str plaintext);
  mret (unstr (hex_encode ciphertext)).

Definition crypto_Decrypt (ciphertextHex : string) : prog nat error string :=
  match hex_decode (str ciphertextHex) with
  | None => throw (Wrapf "failed to decode hex ciphertext: " (Errorf "encoding/hex: invalid input"))
  | Some ciphertext =>
      plaintext ← unseal "ciphertext is too short" (aesKey cm) ciphertext;
      mret (unstr plaintext)
  end.

(** Passwords and recovery codes, with bcrypt as a parameter *)
Context (bcrypt_Generate : list byte -> prog nat error (list byte))
        (bcrypt_Compare : list byte -> list byte -> res error unit).

Definition crypto_HashPassword (password : string) : prog nat error string :=
  bytes ← wrapping "failed to hash password: " (bcrypt_Generate (str password));
  mret (unstr bytes).
Definition crypto_HashRecoveryCode (code : string) : prog nat error string :=
  bytes ← wrapping "failed to hash recovery code: " (bcrypt_Generate (str code));
  mret (unstr bytes).
Definition crypto_CheckPasswordHash (password hash : string) : bool :=
  is_ok (bcrypt_Compare (str hash) (str password)).

End Manager.

(** ** Key providers (pkg/kms)

    An interface value: its two methods. *)
Record KeyProvider := mkKeyProvider {
  kp_Encrypt : list byte -> prog nat error (list byte * string);
  kp_Decrypt : list byte -> prog nat error (list byte)
}.

Record LocalProvider := mkLocalProvider { lp_key : list byte; lp_keyID : string }.

Definition local_New (keyHex : string) : res error LocalProvider :=
  match hex_decode (str keyHex) with
  | None => Err (Wrapf "failed to decode key hex: " (Errorf "encoding/hex: invalid input"))
  | Some key =>
      if bool_decide (length key = 32%nat) then Ok (mkLocalProvider key "v1")
      else Err (Errorf ("invalid key length: expected 32 bytes (AES-256), got " +:+ pretty (Z.of_nat (length key))))
  end.

Definition local_Encrypt (source : nat -> option byte) (p : LocalProvider) (plaintext : list byte) :
    prog nat error (list byte * string) :=
  ciphertext ← seal source (lp_key p) plaintext;
  mret (ciphertext, lp_keyID p).
Definition local_Decrypt (p : LocalProvider) (ciphertext : list byte) : prog nat error (list byte) :=
  unseal "ciphertext too short" (lp_key p) ciphertext.

Definition local_provider (source : nat -> option byte) (p : LocalProvider) : KeyProvider :=
  mkKeyProvider (local_Encrypt source p) (local_Decrypt p).

(** What a key provider promises: it does not panic, what it encrypts it
    decrypts to the same bytes, whatever was drawn meanwhile, and a
    ciphertext is never empty. *)
Class LawfulProvider (kp : KeyProvider) : Prop := {
  kp_encrypts : forall p pos,
    (exists c id pos', kp_Encrypt kp p pos = (Ok (c, id), pos') /\ c <> [] /\
       forall pos'', kp_Decrypt kp c pos'' = (Ok p, pos'')) \/
    (exists e pos', kp_Encrypt kp p pos = (Err e, pos'));
  kp_decrypts : forall c pos,
    (exists p, kp_Decrypt kp c pos = (Ok p, pos)) \/ (exists e, kp_Decrypt kp c pos = (Err e, pos))
}.

(** ** Encrypted columns (encrypted.go) *)
Inductive dbvalue : Type :=
  | DbNull
  | DbString (s : string)
  | DbBytes (b : list byte)
  | DbOther (typ : string).

Section Column.
Context (globalKMS : option KeyProvider).

Definition es_Value (es : string) : prog nat error string :=
  match globalKMS with
  | None => throw (Errorf "global KMS not initialized")
  | Some kms =>
      if bool_decide (es = "") then mret ""
      else
        ciphertext ← wrapping "encryption failed: " (kp_Encrypt kms (str es));
        mret (unstr (b64_encode StdEncoding ciphertext.1))
  end.

Definition scan_text (ciphertextBase64 : string) : prog nat error string :=
  match globalKMS with
  | None => throw (Errorf "global KMS not initialized")
  | Some kms =>
      if bool_decide (ciphertextBase64 = "") then mret ""
      else
        match b64_decode StdEncoding (str ciphertextBase64) with
        | None => throw (Wrapf "failed to decode base64 ciphertext: " (Errorf "illegal base64 data"))
        | Some ciphertext =>
            plaintext ← wrapping "decryption failed: " (kp_Decrypt kms ciphertext);
            mret (unstr plaintext)
        end
  end.

Definition es_Scan (value : dbvalue) : prog nat error string :=
  match globalKMS with
  | None => throw (Errorf "global KMS not initialized")
  | Some _ =>
      match value with
      | DbNull => mret ""
      | DbString v => scan_text v
      | DbBytes v => scan_text (unstr v)
      | DbOther typ => throw (Errorf ("failed to scan EncryptedString: unexpected type " +:+ typ))
      end
  end.
End Column.

(** ** Start-up (cmd/qid-server/main.go) *)
Definition server_crypto : CryptoManager := NewCryptoManager "your-jwt-secret".

(** [Err] is [os.Exit(1)]; without a key the server starts, and no encrypted
    column can be read or written. *)
Definition server_kms (source : nat -> option byte) (key : string) : res error (option KeyProvider) :=
  if bool_decide (key = "") then Ok None
  else p ← local_New key; Ok (Some (local_provider source p)).

(** ** The local provider keeps the promise *)
Lemma local_New_key keyHex p : local_New keyHex = Ok p -> length (lp_key p) = 32%nat.
Proof.
  unfold local_New. destruct (hex_decode _) as [key|]; [|done].
  case_bool_decide; [|done]. by intros [= <-].
Qed.

Lemma local_lawful source p : length (lp_key p) = 32%nat -> LawfulProvider (local_provider source p).
Proof.
  intros Hk. split; cbn [kp_Encrypt kp_Decrypt local_provider].
  - intros text pos. unfold local_Encrypt.
    destruct (seal_run source (lp_key p) text pos Hk) as [(nonce & Hn & _ & Hrun)|(e & Hrun & _)].
    + left. exists (sealed_with (lp_key p) nonce text), (lp_keyID p), (pos + gcm_nonce_size)%nat.
      rewrite (prog_bind_run _ _ _ _ _ Hrun). split; [done|]. split.
      * intros Heq%(f_equal length). unfold sealed_with in Heq.
        rewrite length_app, Hn in Heq. cbn in Heq. lia.
      * intros pos''. by apply unseal_sealed.
    + right. exists e, pos. by rewrite (prog_bind_fail _ _ _ _ _ Hrun).
  - intros c pos. unfold local_Decrypt. rewrite unseal_run by done. case_bool_decide; [eauto|].
    destruct (gcm_Open _ _ _); eauto.
Qed.

Lemma server_kms_lawful source key kms :
  server_kms source key = Ok (Some kms) -> LawfulProvider kms.
Proof.
  unfold server_kms. case_bool_decide; [done|]. destruct (local_New key) as [p| | |] eqn:Hp; try done.
  cbn. intros [= <-]. by apply local_lawful, (local_New_key key).
Qed.

(** ** Columns *)
Section Columns.
Context (kms : KeyProvider) `{LawfulProvider kms}.

(** [column_of es c]: the text [c] in the table reads as [es]. *)
Definition column_of (es c : string) : Prop := forall pos, scan_text (Some kms) c pos = (Ok es, pos).

Lemma es_Value_cases es pos :
  (exists c pos', es_Value (Some kms) es pos = (Ok c, pos') /\ column_of es c /\
     (es = "" <-> c = "") /\ (exists ciphertext, es <> "" -> c = unstr (b64_encode StdEncoding ciphertext))) \/
  (exists e pos', es_Value (Some kms) es pos = (Err e, pos') /\ es <> "").
Proof.
  unfold es_Value. case_bool_decide as He.
  { left. exists "", pos. subst. repeat split; try done. by exists []. }
  destruct (kp_encrypts (str es) pos) as [(c & id & pos' & Hrun & Hne & Hdec)|(e & pos' & Hrun)].
  - left. exists (unstr (b64_encode StdEncoding c)), pos'.
    rewrite (prog_bind_run _ _ _ _ _ (wrapping_returns _ _ _ _ _ Hrun)). split; [done|].
    assert (Hne' : unstr (b64_encode StdEncoding c) <> "").
    { intros Hz%(f_equal str). rewrite str_unstr in Hz. apply Hne.
      apply (b64_encode_inj StdEncoding). by rewrite Hz. }
    split; [|split; [by split|by exists c]].
    intros p. unfold scan_text. rewrite bool_decide_eq_false_2 by done.
    rewrite str_unstr, b64_decode_encode by apply _.
    by rewrite (prog_bind_run _ _ _ _ _ (wrapping_returns _ _ _ _ _ (Hdec p))), unstr_str.
  - right. exists (Wrapf "encryption failed: " e), pos'.
    by rewrite (prog_bind_fail _ _ _ _ _ (wrapping_fails _ _ _ _ _ Hrun)).
Qed.
End Columns.

(** An address is never the text of an encrypted column. *)
Lemma b64_no_at l : ~ In x40 (b64_encode StdEncoding l).
Proof.
  intros Hin. apply (b64_encode_chars StdEncoding) in Hin as [Hin|(v & Hv & Hin)]; [done|].
  destruct (b64_char_ok StdEncoding v Hv) as [Hval _]. rewrite <-Hin in Hval. by vm_compute in Hval.
Qed.

Definition has_at (s : string) : bool := bool_decide (x40 ∈ str s).

Lemma es_Value_no_at kms `{LawfulProvider kms} es pos c pos' :
  es_Value (Some kms) es pos = (Ok c, pos') -> has_at c = false.
Proof.
  intros Hrun. destruct (es_Value_cases kms es pos) as [(c' & q & Hrun' & _ & He & [l Hl])|(e & q & Hrun' & _)];
    [|congruence].
  rewrite Hrun in Hrun'. injection Hrun' as <- <-. apply bool_decide_eq_false_2. intros Hin%list_elem_of_In.
  destruct (decide (es = "")) as [Hz|Hz]; [apply He in Hz as ->; done|].
  rewrite (Hl Hz), str_unstr in Hin. by apply b64_no_at in Hin.
Qed.

(** Text with an [@] is not base64. *)
Lemma scan_text_at kms s pos :
  has_at s = true ->
  scan_text (Some kms) s pos =
    (Err (Wrapf "failed to decode base64 ciphertext: " (Errorf "illegal base64 data")), pos).
Proof.
  unfold has_at. intros Hin%bool_decide_eq_true%list_elem_of_In. unfold scan_text.
  rewrite bool_decide_eq_false_2 by (intros ->; done).
  destruct (b64_decode StdEncoding (str s)) as [l|] eqn:Hd; [|done]. exfalso.
  apply b64_groups_values in Hd. rewrite List.Forall_forall in Hd.
  destruct (Hd x40) as [?|[v Hv]]; [|done|by vm_compute in Hv].
  apply List.filter_In. by split.
Qed.

(** C33: An encrypted column gives back what was written.  When the server
    starts with a key in its configuration, the columns of every user hold
    base64 text that decrypts to exactly the string that was stored, whether
    the driver hands it over as a string or as bytes and however many random
    bytes were drawn in between; the empty string is stored as the empty
    string and nothing else is; writing fails only when the system has no
    random bytes.  Text that was stored before encryption was switched on - an
    address with its [@] - is refused when it is read, and a server started
    without a key can neither write nor read any such column, the empty
    string included. *)
Theorem encrypted_column source key kms pos es :
  server_kms source key = Ok (Some kms) ->
  ((exists c pos', es_Value (Some kms) es pos = (Ok c, pos') /\
      (forall p, es_Scan (Some kms) (DbString c) p = (Ok es, p) /\
                 es_Scan (Some kms) (DbBytes (str c)) p = (Ok es, p)) /\
      (c = "" <-> es = "") /\ has_at c = false) \/
   (es <> "" /\ mapM source (seq pos 12) = None /\
    exists e, es_Value (Some kms) es pos = (Err e, pos))) /\
  (forall p, es_Scan (Some kms) DbNull p = (Ok "", p)) /\
  (forall plain p, has_at plain = true -> exists e, es_Scan (Some kms) (DbString plain) p = (Err e, p)) /\
  (forall p v, exists e, es_Value None es p = (Err e, p) /\ es_Scan None v p = (Err e, p)).
Proof.
  intros Hkms. pose proof (server_kms_lawful _ _ _ Hkms) as Hlaw. repeat split.
  - destruct (es_Value_cases kms es pos) as [(c & pos' & Hrun & Hcol & He & _)|(e & pos' & Hrun & Hne)].
    + left. exists c, pos'. split; [done|]. split; [|split; [by split; apply He|by eapply es_Value_no_at]].
      intros p. cbn. rewrite unstr_str. split; apply Hcol.
    + right. split; [done|]. unfold server_kms in Hkms. case_bool_decide; [done|].
      destruct (local_New key) as [lp| | |] eqn:Hlp; try done. cbn in Hkms. injection Hkms as <-.
      pose proof (local_New_key _ _ Hlp) as Hk. unfold es_Value in *. rewrite bool_decide_eq_false_2 in * by done.
      cbn [kp_Encrypt local_provider] in *. unfold local_Encrypt in *.
      destruct (seal_run source (lp_key lp) (str es) pos Hk) as [(nonce & _ & _ & Hs)|(e' & Hs & Hm)].
      { rewrite (prog_bind_run _ _ _ _ _ (wrapping_returns _ _ _ _ _ (prog_bind_run _ _ _ _ _ Hs))) in Hrun.
        discriminate Hrun. }
      rewrite (prog_bind_fail _ _ _ _ _ (wrapping_fails _ _ _ _ _ (prog_bind_fail _ _ _ _ _ Hs))).
      split; [exact Hm|by eexists].
  - intros plain p Hat. eexists. by apply scan_text_at.
  - intros p v. by eexists.
Qed.

Definition demo_key : string := unstr (hex_encode (sha256 (str "demo key"))).
Definition demo_source (i : nat) : option byte := Some (z2b (7 * Z.of_nat i + 3)).

Lemma encrypted_column_witness : exists kms c pos',
  server_kms demo_source demo_key = Ok (Some kms) /\
  es_Value (Some kms) "bob@example.org" 0%nat = (Ok c, pos') /\ c <> "" /\
  es_Scan (Some kms) (DbString c) pos' = (Ok "bob@example.org", pos').
Proof.
  destruct (local_New demo_key) as [lp| | |] eqn:Hlp; try (vm_compute in Hlp; discriminate Hlp).
  assert (Hkms : server_kms demo_source demo_key = Ok (Some (local_provider demo_source lp)))
    by (unfold server_kms; rewrite Hlp; reflexivity).
  destruct (encrypted_column demo_source demo_key (local_provider demo_source lp) 0%nat "bob@example.org" Hkms)
    as [[(c & pos' & Hv & Hs & Hne & _)|(_ & Hm & _)] _]; [|vm_compute in Hm; discriminate Hm].
  exists (local_provider demo_source lp), c, pos'. split; [exact Hkms|]. split; [exact Hv|].
  split; [intros Hz; apply Hne in Hz; discriminate Hz|apply Hs].
Defined.

(** ** Secrets of the manager *)

(** What the cryptographic manager encrypts - the secrets of one-time
    passwords - it decrypts to the same text, at any later time; encrypting
    fails only for want of random bytes.  Decrypting never panics, and
    whatever it accepts is, byte for byte, an encryption under the manager's
    own key of the text it answers: text that is no hexadecimal, is shorter
    than a nonce or was altered anywhere is refused. *)
Theorem manager_secrets source secret text pos :
  let cm := NewCryptoManager secret in
  ((exists c pos', crypto_Encrypt source cm text pos = (Ok c, pos') /\
      forall p, crypto_Decrypt cm c p = (Ok text, p)) \/
   (mapM source (seq pos 12) = None /\ exists e, crypto_Encrypt source cm text pos = (Err e, pos))) /\
  (forall c p,
     (exists t nonce, crypto_Decrypt cm c p = (Ok t, p) /\ length nonce = 12%nat /\
        hex_decode (str c) = Some (sealed_with (aesKey cm) nonce (str t))) \/
     (exists e, crypto_Decrypt cm c p = (Err e, p))).
Proof.
  cbv zeta. set (cm := NewCryptoManager secret).
  assert (Hk : length (aesKey cm) = 32%nat) by apply sha256_length. split.
  - destruct (seal_run source (aesKey cm) (str text) pos Hk) as [(nonce & Hn & _ & Hs)|(e & Hs & Hm)].
    + left. exists (unstr (hex_encode (sealed_with (aesKey cm) nonce (str text)))), (pos + gcm_nonce_size)%nat.
      unfold crypto_Encrypt. rewrite (prog_bind_run _ _ _ _ _ Hs). split; [done|].
      intros p. unfold crypto_Decrypt. rewrite str_unstr, hex_decode_encode.
      rewrite (prog_bind_run _ _ _ _ _ (unseal_sealed _ _ _ _ p Hk Hn)). unfold mret, prog_ret. by rewrite unstr_str.
    + right. split; [exact Hm|]. exists e. unfold crypto_Encrypt. by rewrite (prog_bind_fail _ _ _ _ _ Hs).
  - intros c p. unfold crypto_Decrypt. destruct (hex_decode (str c)) as [ct|] eqn:Hc; [|right; by eexists].
    destruct (unseal_cases "ciphertext is too short" (aesKey cm) ct p Hk) as [(t & nonce & Hu & Hn & ->)|[e Hu]].
    + left. exists (unstr t), nonce. rewrite str_unstr. split; [|by split].
      by rewrite (prog_bind_run _ _ _ _ _ Hu).
    + right. exists e. by rewrite (prog_bind_fail _ _ _ _ _ Hu).
Qed.

(** ** Tokens

    What the program relies on of the JWT library: a token that was signed is
    parsed, when the key function gives its key for an HMAC token, to its
    claims - strings as they are, numbers as JSON numbers - as long as its
    dates allow; and whatever is parsed had a method for which the key
    function gave a key. *)
Definition Unix (t : time) : Z := t / Second.

Definition date_ok (now : time) (test : Z -> Z -> bool) (v : option any) : bool :=
  match v with Some (AnyInt d) => test (Unix now) d | _ => true end.
Definition claims_current (now : time) (claims : gmap string any) : bool :=
  date_ok now Z.ltb (claims !! "exp") && date_ok now Z.geb (claims !! "iat") &&
  date_ok now Z.geb (claims !! "nbf").
Definition json_claim (v : any) : any := match v with AnyInt z => AnyFloat (float_of_Z z) | v => v end.

Class JWTLibrary := {
  jwt_Sign : list byte -> gmap string any -> res error string;
  jwt_Parse : time -> string -> (bool -> string -> res error (list byte)) -> res error (gmap string any * bool);
  jwt_method : string -> bool * string
}.

Class JWTLaws `{JWTLibrary} : Prop := {
  jwt_parses key claims tok now kf : jwt_Sign key claims = Ok tok -> kf true "HS256" = Ok key ->
    if claims_current now claims then
      exists c, jwt_Parse now tok kf = Ok (c, true) /\
        forall k v, claims !! k = Some v -> (exists z, v = AnyInt z) \/ (exists s, v = AnyString s) ->
          c !! k = Some (json_claim v)
    else exists e, jwt_Parse now tok kf = Err e;
  jwt_asks tok now kf c v : jwt_Parse now tok kf = Ok (c, v) ->
    exists key, kf (jwt_method tok).1 (jwt_method tok).2 = Ok key;
  jwt_returns tok now kf : (forall h a, kf h a <> Panic /\ kf h a <> Diverge) ->
    is_ok (jwt_Parse now tok kf) = true \/ exists e, jwt_Parse now tok kf = Err e
}.

Section Issue.
Context `{JWTLibrary} (cm : CryptoManager).

(** The map is the caller's: it is changed.  The clock is read twice. *)
Definition jwt_claims (now later : time) (uuid userID : string) (duration : Z)
    (claims : gmap string any) : gmap string any :=
  <["jti" := AnyString uuid]> (<["exp" := AnyInt (Unix (later + duration))]>
  (<["iat" := AnyInt (Unix now)]> (<["iss" := AnyString "QuantaID"]> (<["sub" := AnyString userID]> claims)))).

Definition crypto_GenerateJWT (now later : time) (uuid userID : string) (duration : Z)
    (claims : option (gmap string any)) : res error string * option (gmap string any) :=
  let claims' := jwt_claims now later uuid userID duration (default ∅ claims) in
  (match jwt_Sign (jwtSecret cm) claims' with
   | Err err => Err (Wrapf "failed to sign JWT: " err)
   | r => r
   end, (fun _ => claims') <$> claims).

Definition jwt_key (hmac : bool) (alg : string) : res error (list byte) :=
  if hmac then Ok (jwtSecret cm) else Err (Errorf ("unexpected signing method: " +:+ alg)).

Definition crypto_ValidateJWT (now : time) (tokenString : string) : res error (gmap string any) :=
  match jwt_Parse now tokenString jwt_key with
  | Ok (claims, valid) => if valid then Ok claims else Err (Errorf "invalid token")
  | Err err => Err (Wrapf "failed to parse JWT: " err)
  | Panic => Panic
  | Diverge => Diverge
  end.
End Issue.

Section Tokens.
Context `{JWTLaws}.

Lemma jwt_claims_lookup now later uuid userID duration claims :
  let c := jwt_claims now later uuid userID duration claims in
  c !! "sub" = Some (AnyString userID) /\ c !! "iss" = Some (AnyString "QuantaID") /\
  c !! "iat" = Some (AnyInt (Unix now)) /\ c !! "exp" = Some (AnyInt (Unix (later + duration))) /\
  c !! "jti" = Some (AnyString uuid).
Proof.
  unfold jwt_claims. cbv zeta.
  repeat split; repeat first [rewrite lookup_insert_eq; done | rewrite lookup_insert_ne by done].
Qed.

Lemma jwt_claims_nbf now later uuid userID duration claims :
  jwt_claims now later uuid userID duration claims !! "nbf" = claims !! "nbf".
Proof. unfold jwt_claims. by rewrite !lookup_insert_ne by done. Qed.

Lemma validate_signed cm claims tok t :
  jwt_Sign (jwtSecret cm) claims = Ok tok ->
  if claims_current t claims then
    exists c, crypto_ValidateJWT cm t tok = Ok c /\
      forall k v, claims !! k = Some v -> (exists z, v = AnyInt z) \/ (exists s, v = AnyString s) ->
        c !! k = Some (json_claim v)
  else exists e, crypto_ValidateJWT cm t tok = Err e.
Proof.
  intros Hs. pose proof (jwt_parses _ _ _ t (jwt_key cm) Hs eq_refl) as Hp. unfold crypto_ValidateJWT.
  destruct (claims_current t claims).
  - destruct Hp as (c & -> & Hc). by exists c.
  - destruct Hp as (e & ->). by eexists.
Qed.

(** A token the manager issues is accepted by the same manager from the
    second it was issued in up to the second before its lifetime ends, with
    the user, the issuer and the identifier it was issued for; from then on,
    and before, it is refused.  The map of extra claims a caller passes in is
    changed under it.  A token whose method is no HMAC is never accepted. *)
Theorem token_lifetime cm now later uuid userID duration claims tok :
  let issued := crypto_GenerateJWT cm now later uuid userID duration claims in
  issued.1 = Ok tok -> claims ≫= (.!! "nbf") = None ->
  (forall m, claims = Some m -> issued.2 = Some (jwt_claims now later uuid userID duration m)) /\
  (forall t,
     if (Unix now <=? Unix t) && (Unix t <? Unix (later + duration)) then
       exists c, crypto_ValidateJWT cm t tok = Ok c /\ c !! "sub" = Some (AnyString userID) /\
         c !! "iss" = Some (AnyString "QuantaID") /\ c !! "jti" = Some (AnyString uuid) /\
         c !! "exp" = Some (AnyFloat (float_of_Z (Unix (later + duration))))
     else exists e, crypto_ValidateJWT cm t tok = Err e) /\
  (forall t other, (jwt_method other).1 = false -> exists e, crypto_ValidateJWT cm t other = Err e).
Proof.
  cbv zeta. unfold crypto_GenerateJWT. cbn [fst snd]. intros Hi Hnbf. split; [by intros m ->|]. split.
  - intros t. set (cs := jwt_claims now later uuid userID duration (default ∅ claims)) in *.
    assert (Hs : jwt_Sign (jwtSecret cm) cs = Ok tok) by (by destruct (jwt_Sign _ cs)).
    pose proof (jwt_claims_lookup now later uuid userID duration (default ∅ claims)) as Hl. cbv zeta in Hl.
    pose proof (jwt_claims_nbf now later uuid userID duration (default ∅ claims)) as Hn. fold cs in Hl, Hn.
    destruct Hl as (Hsub & Hiss & Hiat & Hexp & Hjti).
    pose proof (validate_signed cm cs tok t Hs) as Hv. unfold claims_current in Hv.
    rewrite Hexp, Hiat, Hn in Hv. cbn [date_ok] in Hv.
    assert (Hnone : default ∅ claims !! "nbf" = None) by (destruct claims; [exact Hnbf|apply lookup_empty]).
    rewrite Hnone, andb_true_r, andb_comm, Z.geb_leb in Hv. cbn [date_ok] in Hv.
    destruct ((Unix now <=? Unix t) && (Unix t <? Unix (later + duration))); [|exact Hv].
    destruct Hv as (c & Hv & Hc). exists c. split; [exact Hv|].
    split; [exact (Hc _ _ Hsub (or_intror (ex_intro _ _ eq_refl)))|].
    split; [exact (Hc _ _ Hiss (or_intror (ex_intro _ _ eq_refl)))|].
    split; [exact (Hc _ _ Hjti (or_intror (ex_intro _ _ eq_refl)))|].
    exact (Hc _ _ Hexp (or_introl (ex_intro _ _ eq_refl))).
  - intros t other Hm. unfold crypto_ValidateJWT.
    destruct (jwt_returns other t (jwt_key cm)) as [Hok|[e ->]]; [by intros []|..|by eexists].
    destruct (jwt_Parse t other (jwt_key cm)) as [[c v]| | |] eqn:Hp; try done.
    apply jwt_asks in Hp as [key Hp]. unfold jwt_key in Hp. by rewrite Hm in Hp.
Qed.

(** The secret the server signs with is in its source.  Whoever signs
    claims with it - any subject, any identifier, any lifetime - holds a
    token that the server accepts as its own for as long as those claims
    say. *)
Theorem published_secret claims tok t :
  jwt_Sign (str "your-jwt-secret") claims = Ok tok -> claims_current t claims = true ->
  exists c, crypto_ValidateJWT server_crypto t tok = Ok c /\
    forall sub, claims !! "sub" = Some (AnyString sub) -> c !! "sub" = Some (AnyString sub).
Proof.
  intros Hs Hcur. pose proof (validate_signed server_crypto claims tok t Hs) as Hv. rewrite Hcur in Hv.
  destruct Hv as (c & Hv & Hc). exists c. split; [exact Hv|]. intros sub Hsub.
  apply (Hc _ _ Hsub). eauto.
Qed.
End Tokens.

(** ** A small library of tokens with the laws: the key and the claims are
    written out in the token; it knows claims that are strings and integers. *)
Fixpoint bits_of (p : positive) : string :=
  match p with xH => "" | xO p => String "0"%char (bits_of p) | xI p => String "1"%char (bits_of p) end.
Fixpoint of_bits (s : string) : positive :=
  match s with
  | "" => xH
  | String "0"%char s => xO (of_bits s)
  | String _ s => xI (of_bits s)
  end.
Lemma of_bits_of p : of_bits (bits_of p) = p.
Proof. induction p as [p IH|p IH|]; cbn; [by rewrite IH..|done]. Qed.

Definition flat_claim (v : any) : option (Z + string) :=
  match v with AnyInt z => Some (inl z) | AnyString s => Some (inr s) | _ => None end.
Definition unflat (v : Z + string) : any := match v with inl z => AnyInt z | inr s => AnyString s end.

Definition toy_Sign (key : list byte) (claims : gmap string any) : res error string :=
  match mapM (fun kv => v ← flat_claim kv.2; Some (kv.1, v)) (map_to_list claims) with
  | Some l => Ok (bits_of (encode (unstr key, l)))
  | None => Err (Errorf "json: unsupported type")
  end.
Definition toy_Parse (now : time) (tok : string) (kf : bool -> string -> res error (list byte)) :
    res error (gmap string any * bool) :=
  match kf true "HS256" with
  | Ok key =>
      match decode (A := string * list (string * (Z + string))) (of_bits tok) with
      | Some (key', l) =>
          let claims := list_to_map (prod_map id unflat <$> l) : gmap string any in
          if bool_decide (key' = unstr key) && claims_current now claims then Ok (json_claim <$> claims, true)
          else Err (Errorf "signature is invalid or token is expired")
      | None => Err (Errorf "token contains an invalid number of segments")
      end
  | r => Err (Errorf "token is unverifiable")
  end.

Lemma flat_claims (m : list (string * any)) l :
  mapM (fun kv => v ← flat_claim kv.2; Some (kv.1, v)) m = Some l -> prod_map id unflat <$> l = m.
Proof.
  intros Hl%mapM_Some. induction Hl as [|[k v] [k' w] m l Hkv _ IH]; [done|]. cbn. f_equal; [|done].
  cbn in Hkv. destruct v; cbn in Hkv; simplify_eq; done.
Qed.

Definition toy_library : JWTLibrary := {|
  jwt_Sign := toy_Sign; jwt_Parse := toy_Parse; jwt_method tok := (true, "HS256")
|}.

Lemma toy_laws : @JWTLaws toy_library.
Proof.
  split; cbn [jwt_Sign jwt_Parse jwt_method toy_library fst snd].
  - intros key claims tok now kf Hs Hk. unfold toy_Sign in Hs. unfold toy_Parse. rewrite Hk.
    destruct (mapM _ _) as [l|] eqn:Hl; [|done]. injection Hs as <-.
    rewrite of_bits_of, decode_encode. apply flat_claims in Hl.
    rewrite bool_decide_eq_true_2, Hl, list_to_map_to_list by done. cbn [andb].
    destruct (claims_current now claims); [|by eexists].
    exists (json_claim <$> claims). split; [done|]. intros k v Hv _. by rewrite lookup_fmap, Hv.
  - intros tok now kf c v. unfold toy_Parse. destruct (kf true "HS256") as [key| | |]; try done. by exists key.
  - intros tok now kf Hkf. unfold toy_Parse. destruct (Hkf true "HS256") as [Hp Hd].
    destruct (kf true "HS256"); try done; [|right; by eexists].
    destruct (decode _) as [[]|]; [|right; by eexists]. cbv zeta. destruct (_ && _); [by left|right; by eexists].
Qed.

Lemma token_lifetime_witness : exists tok c,
  (@crypto_GenerateJWT toy_library server_crypto 5 7 "id-1" "alice" (900 * Second) None).1 = Ok tok /\
  @crypto_ValidateJWT toy_library server_crypto (899 * Second) tok = Ok c /\ c !! "sub" = Some (AnyString "alice") /\
  exists e, @crypto_ValidateJWT toy_library server_crypto (900 * Second) tok = Err e.
Proof.
  destruct (@crypto_GenerateJWT toy_library server_crypto 5 7 "id-1" "alice" (900 * Second) None).1
    as [tok| | |] eqn:Hi; try (vm_compute in Hi; discriminate Hi).
  destruct (@token_lifetime toy_library toy_laws server_crypto 5 7 "id-1" "alice" (900 * Second) None tok Hi eq_refl)
    as (_ & Hv & _).
  pose proof (Hv (899 * Second)) as Hbefore. pose proof (Hv (900 * Second)) as Hafter.
  replace ((Unix 5 <=? Unix (899 * Second)) && (Unix (899 * Second) <? Unix (7 + 900 * Second))) with true
    in Hbefore by reflexivity.
  replace ((Unix 5 <=? Unix (900 * Second)) && (Unix (900 * Second) <? Unix (7 + 900 * Second))) with false
    in Hafter by reflexivity.
  destruct Hbefore as (c & Hc & Hsub & _).
  exists tok, c. split; [reflexivity|]. split; [exact Hc|]. split; [exact Hsub|exact Hafter].
Defined.

Lemma published_secret_witness : exists tok c,
  @jwt_Sign toy_library (str "your-jwt-secret") {[ "sub" := AnyString "admin"; "exp" := AnyInt 4102444800 ]} = Ok tok /\
  @crypto_ValidateJWT toy_library server_crypto 0 tok = Ok c /\ c !! "sub" = Some (AnyString "admin").
Proof.
  destruct (@jwt_Sign toy_library (str "your-jwt-secret")
    {[ "sub" := AnyString "admin"; "exp" := AnyInt 4102444800 ]}) as [tok| | |] eqn:Hs; try (vm_compute in Hs; discriminate Hs).
  destruct (@published_secret toy_library toy_laws _ tok 0 Hs eq_refl) as (c & Hv & Hsub).
  exists tok, c. split; [reflexivity|]. split; [exact Hv|]. apply Hsub. reflexivity.
Defined.
