(* ===== verification/RadiusPacket.v ===== *)
(** * RADIUS packets (internal/protocol/radius/packet.go)

    The wire format: parsing a datagram into a [Packet], encoding a packet,
    looking up and adding attributes, the Response Authenticator of RFC 2865.
    The theorems: parsing terminates, exactly which datagrams make it panic,
    parsing inverts encoding on well-formed packets and encoding inverts
    parsing up to one ignored byte. *)

From S2P Require Import Prelude Bytes Hashes.
Local Open Scope Z_scope.

Definition CodeAccessRequest : byte := x01.
Definition CodeAccessAccept : byte := x02.
Definition CodeAccessReject : byte := x03.
Definition CodeAccountingRequest : byte := x04.
Definition CodeAccountingResponse : byte := x05.
Definition MaxPacketSize : Z := 4096.
Definition HeaderSize : Z := 20.

Record Attribute := mkAttribute {
  attr_Type : byte;
  attr_Length : byte;
  attr_Value : list byte
}.

(** [Authenticator] is a [[16]byte]; [wf_packet] below says it has 16 bytes. *)
Record Packet := mkPacket {
  Code : byte;
  Identifier : byte;
  Length : Z;
  Authenticator : list byte;
  Attributes : list Attribute;
  Secret : list byte
}.

#[global] Instance Attribute_eq_dec : EqDecision Attribute.
Proof. solve_decision. Defined.
#[global] Instance Packet_eq_dec : EqDecision Packet.
Proof. solve_decision. Defined.

(** ** Operations *)

(** The loop of [parseAttributes]: [offset] walks through [data]. *)
Fixpoint parse_loop (fuel : nat) (data : list byte) (offset : Z)
    (attrs : list Attribute) : res string (list Attribute) :=
  match fuel with
  | O => Diverge
  | S fuel =>
      if offset <? Z.of_nat (length data) then
        if Z.of_nat (length data) - offset <? 2 then Ok attrs
        else
          attrType ← index data offset;
          attrLen ← index data (offset + 1);
          if b2z attrLen <? 2 then Err "invalid attribute length"
          else if Z.of_nat (length data) <? offset + b2z attrLen
          then Err "attribute length overflow"
          else
            value ← slice data (offset + 2) (offset + b2z attrLen);
            parse_loop fuel data (offset + b2z attrLen)
              (attrs ++ [mkAttribute attrType attrLen value])
      else Ok attrs
  end.

Definition parseAttributes (data : list byte) : res string (list Attribute) :=
  parse_loop (S (length data)) data 0 [].

Definition ParsePacket (data secret : list byte) : res string Packet :=
  if Z.of_nat (length data) <? HeaderSize then Err "packet too short"
  else
    code ← index data 0;
    id ← index data 1;
    len_bytes ← slice data 2 4;
    len ← read_be 2 len_bytes;
    auth ← slice data 4 20;
    if Z.of_nat (length data) <? len then Err "invalid length"
    else
      body ← slice data 20 len;
      attrs ← parseAttributes body;
      Ok (mkPacket code id len auth attrs secret).

Definition encode_attribute (a : Attribute) : list byte :=
  [attr_Type a; attr_Length a] ++ attr_Value a.

(** The buffer is written with a zero length, then the length is stored at
    offset 2 as a [uint16]. *)
Definition encode_bytes (p : Packet) : list byte :=
  let data := [Code p; Identifier p] ++ be_encode 2 0 ++ Authenticator p ++
              concat (map encode_attribute (Attributes p)) in
  splice data 2 (be_encode 2 (Z.of_nat (length data))).

Definition Encode (p : Packet) : res string (list byte) := Ok (encode_bytes p).

Definition GetAttribute (p : Packet) (attrType : byte) : option Attribute :=
  List.find (fun a => bool_decide (attr_Type a = attrType)) (Attributes p).

Definition GetString (p : Packet) (attrType : byte) : list byte :=
  match GetAttribute p attrType with
  | None => []
  | Some a => attr_Value a
  end.

Definition AddAttribute (p : Packet) (attrType : byte) (value : list byte) : Packet :=
  let attr := mkAttribute attrType (z2b (2 + Z.of_nat (length value))) value in
  mkPacket (Code p) (Identifier p) (Length p) (Authenticator p)
    (Attributes p ++ [attr]) (Secret p).

Definition CreateResponse (p : Packet) (code : byte) : Packet :=
  mkPacket code (Identifier p) 0 (replicate 16 x00) [] (Secret p).

Definition CalculateResponseAuthenticator (p : Packet) (requestAuth : list byte) : list byte :=
  md5 (splice (encode_bytes p) 4 requestAuth ++ Secret p).

Definition with_authenticator (p : Packet) (auth : list byte) : Packet :=
  mkPacket (Code p) (Identifier p) (Length p) auth (Attributes p) (Secret p).

(** ** Well-formed packets *)
Definition wf_attribute (a : Attribute) : Prop :=
  b2z (attr_Length a) = 2 + Z.of_nat (length (attr_Value a)).

Definition attrs_bytes (l : list Attribute) : list byte :=
  concat (map encode_attribute l).

Record wf_packet (p : Packet) : Prop := mk_wf_packet {
  wf_auth : length (Authenticator p) = 16%nat;
  wf_attrs : Forall wf_attribute (Attributes p);
  wf_size : 20 + Z.of_nat (length (attrs_bytes (Attributes p))) < 65536
}.

Lemma encode_attribute_length a :
  wf_attribute a -> Z.of_nat (length (encode_attribute a)) = b2z (attr_Length a).
Proof. unfold wf_attribute, encode_attribute. intros ->. cbn [app length]. lia. Qed.

(** The encoded packet, field by field. *)
Lemma encode_bytes_eq p :
  encode_bytes p =
    [Code p; Identifier p] ++
    be_encode 2 (4 + Z.of_nat (length (Authenticator p ++ attrs_bytes (Attributes p)))) ++
    Authenticator p ++ attrs_bytes (Attributes p).
Proof.
  unfold encode_bytes, splice. fold (attrs_bytes (Attributes p)).
  set (body := Authenticator p ++ attrs_bytes (Attributes p)).
  rewrite length_app, length_app, be_encode_length. cbn [length].
  rewrite be_encode_length.
  replace (Z.of_nat (2 + (2 + length body))) with (4 + Z.of_nat (length body)) by lia.
  change ([Code p; Identifier p] ++ be_encode 2 0 ++ body)
    with ((([Code p; Identifier p]) ++ be_encode 2 0) ++ body) at 2.
  by rewrite (drop_app_length' _ body) by done.
Qed.

Lemma encode_bytes_length p :
  length (encode_bytes p) =
    (4 + length (Authenticator p) + length (attrs_bytes (Attributes p)))%nat.
Proof. rewrite encode_bytes_eq, !length_app, be_encode_length. cbn [length]. lia. Qed.

(** ** Parsing: the loop on the bytes that remain

    [parse_suffix] consumes the remaining bytes instead of moving an offset;
    the loop of the code computes the same list. *)
Fixpoint parse_suffix (fuel : nat) (rest : list byte) : res string (list Attribute) :=
  match fuel with
  | O => Diverge
  | S fuel =>
      match rest with
      | t :: l :: rest =>
          if b2z l <? 2 then Err "invalid attribute length"
          else
            let n := Z.to_nat (b2z l - 2) in
            if (length rest <? n)%nat then Err "attribute length overflow"
            else cons (mkAttribute t l (take n rest)) <$> parse_suffix fuel (drop n rest)
      | _ => Ok []
      end
  end.

Lemma parse_loop_suffix fuel pre rest acc :
  parse_loop fuel (pre ++ rest) (Z.of_nat (length pre)) acc =
    app acc <$> parse_suffix fuel rest.
Proof.
  revert pre rest acc. induction fuel as [|fuel IH]; intros pre rest acc; [done|].
  cbn [parse_loop parse_suffix]. rewrite length_app.
  destruct rest as [|t [|l rest]]; cbn [length].
  - rewrite (proj2 (Z.ltb_ge _ _)) by lia. cbn. by rewrite app_nil_r.
  - rewrite (proj2 (Z.ltb_lt _ _)) by lia. rewrite (proj2 (Z.ltb_lt _ _)) by lia.
    cbn. by rewrite app_nil_r.
  - rewrite (proj2 (Z.ltb_lt (Z.of_nat (length pre)) _)) by lia.
    rewrite (proj2 (Z.ltb_ge _ _)) by lia.
    rewrite index_middle, index_middle_1.
    cbn [mbind res_bind]. pose proof (b2z_range l) as Hl.
    destruct (Z.ltb_spec (b2z l) 2); [done|].
    set (n := Z.to_nat (b2z l - 2)).
    destruct (Nat.ltb_spec (length rest) n).
    { by rewrite (proj2 (Z.ltb_lt _ _)) by lia. }
    rewrite (proj2 (Z.ltb_ge _ _)) by lia.
    rewrite slice_ok by (rewrite ?length_app; cbn [length]; lia).
    cbn [mbind res_bind].
    replace (Z.to_nat (Z.of_nat (length pre) + b2z l - (Z.of_nat (length pre) + 2)))
      with n by lia.
    replace (drop (Z.to_nat (Z.of_nat (length pre) + 2)) (pre ++ t :: l :: rest)) with rest.
    2:{ replace (Z.to_nat _) with (length pre + 2)%nat by lia.
        by rewrite drop_app_add. }
    specialize (IH (pre ++ t :: l :: take n rest) (drop n rest)
                  (acc ++ [mkAttribute t l (take n rest)])).
    rewrite <-app_assoc in IH. cbn [app] in IH. rewrite take_drop in IH.
    rewrite length_app in IH. cbn [length] in IH. rewrite length_take_le in IH by lia.
    replace (Z.of_nat (length pre) + b2z l) with (Z.of_nat (length pre + S (S n))) by lia.
    rewrite IH. destruct (parse_suffix fuel (drop n rest)); cbn; try done.
    by rewrite <-app_assoc.
Qed.

Lemma parseAttributes_suffix data :
  parseAttributes data = parse_suffix (S (length data)) data.
Proof.
  unfold parseAttributes.
  change 0 with (Z.of_nat (length (@nil byte))).
  change data with ([] ++ data) at 2.
  rewrite parse_loop_suffix. by destruct (parse_suffix _ _).
Qed.

(** Each turn of the loop consumes at least two bytes, and every byte it reads
    is in range: with one more unit of fuel than bytes it returns. *)
Lemma parse_suffix_returns fuel rest :
  (length rest < fuel)%nat -> returns (parse_suffix fuel rest) = true.
Proof.
  revert rest. induction fuel as [|fuel IH]; intros rest Hlen; [lia|].
  cbn. destruct rest as [|t [|l rest]]; try done. cbn in Hlen.
  do 2 (case_match; [done|]).
  pose proof (IH (drop (Z.to_nat (b2z l - 2)) rest)) as Hr.
  rewrite length_drop in Hr. specialize (Hr ltac:(lia)).
  by destruct (parse_suffix _ _).
Qed.

Lemma parseAttributes_returns data : returns (parseAttributes data) = true.
Proof. rewrite parseAttributes_suffix. apply parse_suffix_returns. lia. Qed.

Lemma attrs_bytes_cons a l : attrs_bytes (a :: l) = encode_attribute a ++ attrs_bytes l.
Proof. done. Qed.

Lemma parse_suffix_encode fuel l pad :
  Forall wf_attribute l -> (length pad <= 1)%nat ->
  (length (attrs_bytes l ++ pad) < fuel)%nat ->
  parse_suffix fuel (attrs_bytes l ++ pad) = Ok l.
Proof.
  revert l. induction fuel as [|fuel IH]; intros l Hwf Hpad Hfuel; [lia|].
  destruct Hwf as [|[t n v] l Ha Hl].
  - cbn. by destruct pad as [|? [|??]]; cbn in *; try lia.
  - rewrite attrs_bytes_cons in *. unfold wf_attribute in Ha. cbn in Ha.
    cbn [encode_attribute attr_Type attr_Length attr_Value app parse_suffix] in *.
    rewrite <-app_assoc in *.
    rewrite (proj2 (Z.ltb_ge _ _)) by lia.
    replace (Z.to_nat (b2z n - 2)) with (length v) by lia.
    cbn [length] in Hfuel. rewrite length_app in *.
    rewrite (proj2 (Nat.ltb_ge _ _)) by lia.
    rewrite take_app_length, drop_app_length. rewrite IH; [done..|lia].
Qed.

Lemma parse_suffix_inv fuel rest l :
  parse_suffix fuel rest = Ok l ->
  Forall wf_attribute l /\ exists pad, (length pad <= 1)%nat /\ rest = attrs_bytes l ++ pad.
Proof.
  revert rest l. induction fuel as [|fuel IH]; intros rest l H; [done|].
  cbn [parse_suffix] in H. destruct rest as [|t [|n rest]].
  - injection H as <-. split; [done|]. exists []. split; [cbn; lia|done].
  - injection H as <-. split; [done|]. exists [t]. split; [cbn; lia|done].
  - destruct (Z.ltb_spec (b2z n) 2); [done|].
    destruct (Nat.ltb_spec (length rest) (Z.to_nat (b2z n - 2))); [done|].
    destruct (parse_suffix fuel _) as [l'| | |] eqn:Hp; try done. injection H as <-.
    apply IH in Hp as (Hwf & pad & Hpad & Hrest). split.
    + constructor; [|done]. unfold wf_attribute. cbn. rewrite length_take_le by lia. lia.
    + exists pad. split; [done|]. rewrite attrs_bytes_cons, <-app_assoc, <-Hrest.
      unfold encode_attribute. cbn. by rewrite take_drop.
Qed.

(** ** ParsePacket *)

(** The value of the Length field of a datagram. *)
Definition length_field (data : list byte) : Z := be_decode (take 2 (drop 2 data)).

Lemma ParsePacket_unfold data secret :
  20 <= Z.of_nat (length data) ->
  ParsePacket data secret =
    (if Z.of_nat (length data) <? length_field data then Err "invalid length"
     else
       body ← slice data 20 (length_field data);
       attrs ← parseAttributes body;
       Ok (mkPacket (nth 0 data x00) (nth 1 data x00) (length_field data)
             (take 16 (drop 4 data)) attrs secret)).
Proof.
  intros Hlen. unfold ParsePacket, HeaderSize.
  rewrite (proj2 (Z.ltb_ge _ _)) by lia.
  destruct data as [|c [|i rest]]; cbn [length] in Hlen; try lia.
  change (index (c :: i :: rest) 0) with (@Ok string _ c).
  change (index (c :: i :: rest) 1) with (@Ok string _ i).
  cbn [mbind res_bind].
  rewrite (slice_ok _ 2 4) by (cbn [length]; lia). cbn [mbind res_bind].
  unfold read_be. rewrite bool_decide_eq_true_2.
  2:{ rewrite length_take, length_drop. cbn [length]. lia. }
  cbn [mbind res_bind]. rewrite (slice_ok _ 4 20) by (cbn [length]; lia).
  cbn [mbind res_bind nth]. unfold length_field.
  by rewrite take_take.
Qed.

Lemma ParsePacket_short data secret :
  Z.of_nat (length data) < 20 -> ParsePacket data secret = Err "packet too short".
Proof. intros. unfold ParsePacket, HeaderSize. by rewrite (proj2 (Z.ltb_lt _ _)). Qed.

Lemma bind_returns {A B} (m : res string A) (f : A -> res string B) :
  returns m = true -> (forall a, returns (f a) = true) -> returns (m ≫= f) = true.
Proof. destruct m; cbn; auto. Qed.

(** The datagrams that make [ParsePacket] panic: long enough to have a
    header, and a Length field below the header size. *)
Definition undersized (data : list byte) : Prop :=
  20 <= Z.of_nat (length data) /\ length_field data < 20.

Lemma length_field_range data : 0 <= length_field data < 65536.
Proof.
  unfold length_field. pose proof (be_decode_range (take 2 (drop 2 data))) as H.
  split; [lia|]. eapply Z.lt_le_trans; [apply H|].
  change 65536 with (2 ^ 16). apply Z.pow_le_mono_r; [lia|].
  rewrite length_take. lia.
Qed.

Lemma ParsePacket_panics data secret :
  ParsePacket data secret = Panic <-> undersized data.
Proof.
  unfold undersized.
  destruct (Z.lt_ge_cases (Z.of_nat (length data)) 20).
  { rewrite ParsePacket_short by done. split; [done|lia]. }
  rewrite ParsePacket_unfold by lia.
  destruct (Z.ltb_spec (Z.of_nat (length data)) (length_field data)).
  { split; [done|lia]. }
  rewrite bind_panic_inv, slice_panic. split; [|lia].
  intros [?|(body & _ & Hb)]; [lia|exfalso].
  pose proof (parseAttributes_returns body) as Hr.
  by destruct (parseAttributes body).
Qed.

Lemma ParsePacket_not_diverge data secret : ParsePacket data secret <> Diverge.
Proof.
  destruct (Z.lt_ge_cases (Z.of_nat (length data)) 20).
  { by rewrite ParsePacket_short. }
  rewrite ParsePacket_unfold by lia. destruct (_ <? _); [done|].
  rewrite bind_diverge_inv. intros [Hs|(body & _ & Hb)].
  - by apply slice_not_diverge in Hs.
  - pose proof (parseAttributes_returns body) as Hr. by destruct (parseAttributes body).
Qed.

(** A packet with the given Length and Secret, otherwise [p]. *)
Definition reframed (p : Packet) (len : Z) (secret : list byte) : Packet :=
  mkPacket (Code p) (Identifier p) len (Authenticator p) (Attributes p) secret.

Definition encoded_length (p : Packet) : Z :=
  20 + Z.of_nat (length (attrs_bytes (Attributes p))).

Section Fields.
Context (c i : byte) (len : Z) (auth body : list byte).
Context (Hauth : length auth = 16%nat).
Let data := [c; i] ++ be_encode 2 len ++ auth ++ body.

Lemma fields_length : length data = (20 + length body)%nat.
Proof using Hauth.
  unfold data. rewrite !length_app, be_encode_length, Hauth. cbn [length]. lia.
Qed.

Lemma fields_length_field : length_field data = len mod 65536.
Proof using Hauth.
  unfold length_field, data. cbn [app drop]. rewrite drop_0.
  rewrite take_app_length' by (by rewrite be_encode_length).
  apply be_decode_encode.
Qed.

Lemma fields_auth : take 16 (drop 4 data) = auth.
Proof using Hauth.
  unfold data. change ([c; i] ++ be_encode 2 len ++ auth ++ body)
    with (([c; i] ++ be_encode 2 len) ++ auth ++ body).
  rewrite drop_app_length' by done. by apply take_app_length'.
Qed.

Lemma fields_drop : drop 20 data = body.
Proof using Hauth.
  unfold data. rewrite (app_assoc _ auth), !app_assoc.
  apply drop_app_length'. rewrite !length_app, Hauth. done.
Qed.
End Fields.

Lemma ParsePacket_fields c i len auth body secret :
  length auth = 16%nat -> 20 <= len < 65536 -> len <= 20 + Z.of_nat (length body) ->
  ParsePacket ([c; i] ++ be_encode 2 len ++ auth ++ body) secret =
    (attrs ← parseAttributes (take (Z.to_nat (len - 20)) body);
     Ok (mkPacket c i len auth attrs secret)).
Proof.
  intros Hauth Hlen Hbody. rewrite ParsePacket_unfold by (rewrite fields_length; lia).
  rewrite fields_length_field, fields_auth, fields_length, Z.mod_small by (done || lia).
  rewrite (proj2 (Z.ltb_ge _ _)) by lia.
  rewrite slice_ok by (rewrite ?fields_length by done; lia).
  change (Z.to_nat 20) with 20%nat. by rewrite fields_drop.
Qed.

Lemma ParsePacket_encode p junk secret :
  wf_packet p ->
  ParsePacket (encode_bytes p ++ junk) secret =
    Ok (reframed p (encoded_length p) secret).
Proof.
  intros [Hauth Hattrs Hsize]. rewrite encode_bytes_eq, <-!app_assoc.
  rewrite ParsePacket_fields; [|done|rewrite ?length_app, Hauth; lia..].
  rewrite length_app, Hauth.
  set (l := attrs_bytes (Attributes p)) in *.
  replace (Z.to_nat (4 + Z.of_nat (16 + length l) - 20)) with (length l) by lia.
  rewrite take_app_length, parseAttributes_suffix.
  pose proof (parse_suffix_encode (S (length l)) (Attributes p) [] Hattrs) as H.
  fold l in H. rewrite app_nil_r in H. rewrite H; [|cbn; lia..].
  cbn [mbind res_bind]. unfold reframed, encoded_length. fold l. do 2 f_equal. lia.
Qed.

(** A datagram, cut at the fields of the header and at [n]. *)
Lemma datagram_split data n :
  (20 <= n <= length data)%nat ->
  data = [nth 0 data x00; nth 1 data x00] ++ be_encode 2 (length_field data) ++
         take 16 (drop 4 data) ++ take (n - 20) (drop 20 data) ++ drop n data.
Proof.
  intros Hn. unfold length_field.
  assert (be_encode 2 (be_decode (take 2 (drop 2 data))) = take 2 (drop 2 data)) as ->.
  { pose proof (be_encode_decode (take 2 (drop 2 data))) as He.
    rewrite length_take, length_drop in He.
    by rewrite Nat.min_l in He by lia. }
  assert (forall k m, drop k data = take m (drop k data) ++ drop (k + m) data) as Hcut.
  { intros k m. by rewrite <-drop_drop, take_drop. }
  replace (drop n data) with (drop (20 + (n - 20)) data) by (f_equal; lia).
  rewrite <-(Hcut 20%nat (n - 20)%nat).
  change 20%nat with (4 + 16)%nat. rewrite <-(Hcut 4%nat 16%nat).
  change 4%nat with (2 + 2)%nat. rewrite <-(Hcut 2%nat 2%nat).
  by destruct data as [|c [|i rest]]; cbn [length] in *; try lia.
Qed.

(** What a successful parse says about the datagram. *)
Lemma ParsePacket_inv data secret p :
  ParsePacket data secret = Ok p ->
  wf_packet p /\ Secret p = secret /\ 20 <= Length p < 65536 /\
  exists pad rest, (length pad <= 1)%nat /\
    Length p = encoded_length p + Z.of_nat (length pad) /\
    data = [Code p; Identifier p] ++ be_encode 2 (Length p) ++ Authenticator p ++
           attrs_bytes (Attributes p) ++ pad ++ rest.
Proof.
  destruct (Z.lt_ge_cases (Z.of_nat (length data)) 20) as [|Hlen].
  { by rewrite ParsePacket_short. }
  rewrite ParsePacket_unfold by lia. pose proof (length_field_range data) as Hr.
  destruct (Z.ltb_spec (Z.of_nat (length data)) (length_field data)); [done|].
  intros Hp. apply bind_ok_inv in Hp as (body & Hs & Hp).
  apply bind_ok_inv in Hp as (attrs & Ha & [= <-]).
  pose proof (slice_length _ _ _ _ Hs) as Hb.
  unfold slice in Hs. case_bool_decide as Hbound; [|done]. injection Hs as Hs.
  rewrite parseAttributes_suffix in Ha.
  apply parse_suffix_inv in Ha as (Hwf & pad & Hpad & Hbody).
  unfold encoded_length. cbn [Attributes Length Secret Code Identifier Authenticator].
  apply (f_equal length) in Hbody as Hbl. rewrite length_app in Hbl.
  split.
  { split; cbn [Attributes Authenticator]; [rewrite length_take, length_drop; lia|done|lia]. }
  split; [done|]. split; [lia|].
  exists pad, (drop (Z.to_nat (length_field data)) data).
  split; [done|]. split; [lia|].
  rewrite (app_assoc (attrs_bytes attrs)), <-Hbody, <-Hs, Z2Nat.inj_sub by lia.
  apply datagram_split. lia.
Qed.

(** ** Adding and reading attributes *)

(** The length byte of an attribute counts up to 255: a value of at most 253
    bytes keeps the packet well-formed. *)
Lemma AddAttribute_wf p t v :
  (length v <= 253)%nat ->
  length (Authenticator p) = 16%nat -> Forall wf_attribute (Attributes p) ->
  encoded_length p + 2 + Z.of_nat (length v) < 65536 ->
  wf_packet (AddAttribute p t v).
Proof.
  intros Hv Hauth Hattrs Hsize. unfold encoded_length in Hsize. split; cbn.
  - done.
  - apply Forall_app_2, Forall_singleton; [done|].
    unfold wf_attribute. cbn. rewrite b2z_z2b, Z.mod_small; lia.
  - unfold attrs_bytes in *. rewrite map_app, concat_app, length_app. cbn.
    rewrite app_nil_r. lia.
Qed.

Lemma GetAttribute_add p t v t' :
  GetAttribute (AddAttribute p t v) t' =
    match GetAttribute p t' with
    | Some a => Some a
    | None => if decide (t = t')
              then Some (mkAttribute t (z2b (2 + Z.of_nat (length v))) v) else None
    end.
Proof.
  unfold GetAttribute. cbn. induction (Attributes p) as [|a l IH]; cbn.
  - by case_bool_decide; case_decide.
  - by case_bool_decide.
Qed.

Lemma CreateResponse_wf p code : wf_packet (CreateResponse p code).
Proof. split; cbn; [done|constructor|done]. Qed.

Lemma with_authenticator_wf p auth :
  length auth = 16%nat -> wf_packet p -> wf_packet (with_authenticator p auth).
Proof. by intros ? []. Qed.

(** ** Theorems *)

(** C6: a well-formed packet survives the wire.  Whatever bytes follow its
    encoding in the datagram, parsing gives the packet back, with the Length
    field set to the encoded length and the secret of the receiver. *)
Theorem packet_roundtrip p junk secret :
  wf_packet p ->
  ParsePacket (encode_bytes p ++ junk) secret =
    Ok (reframed p (encoded_length p) secret).
Proof. apply ParsePacket_encode. Qed.

Definition sample_packet : Packet :=
  mkPacket CodeAccessRequest x2a 0 (replicate 16 x07)
    [mkAttribute x01 x05 (str "bob"); mkAttribute x20 x02 []] (str "secret").

Lemma sample_packet_wf : wf_packet sample_packet.
Proof. split; [done| |done]. by repeat constructor. Qed.

Lemma packet_roundtrip_witness :
  ParsePacket (encode_bytes sample_packet ++ [xff]) (str "s2") =
    Ok (reframed sample_packet 27 (str "s2")).
Proof.
  apply (packet_roundtrip sample_packet [xff] (str "s2")).
  split; [reflexivity| |vm_compute; reflexivity]. by repeat constructor.
Defined.

(** What parses was encoded.  A datagram accepted by [ParsePacket] is the
    header and the attributes of the packet, byte for byte, then at most one
    stray byte counted by the Length field, then bytes beyond it; the packet
    is well-formed, so re-encoding it is faithful. *)
Theorem parse_faithful data secret p :
  ParsePacket data secret = Ok p ->
  wf_packet p /\ Secret p = secret /\
  exists pad rest, (length pad <= 1)%nat /\
    Length p = encoded_length p + Z.of_nat (length pad) /\
    data = [Code p; Identifier p] ++ be_encode 2 (Length p) ++ Authenticator p ++
           attrs_bytes (Attributes p) ++ pad ++ rest.
Proof.
  intros (Hwf & Hs & _ & pad & rest & Hrest)%ParsePacket_inv. eauto 10.
Qed.

Lemma parse_faithful_witness :
  wf_packet (reframed sample_packet 27 (str "s2")) /\ str "s2" = str "s2" /\
  exists pad rest, (length pad <= 1)%nat /\
    27 = 27 + Z.of_nat (length pad) /\
    encode_bytes sample_packet ++ [xff] =
      [x01; x2a] ++ be_encode 2 27 ++ replicate 16 x07 ++
      attrs_bytes (Attributes sample_packet) ++ pad ++ rest.
Proof.
  apply (parse_faithful (encode_bytes sample_packet ++ [xff]) (str "s2")
           (reframed sample_packet 27 (str "s2"))).
  vm_compute. reflexivity.
Defined.

(** C16: [ParsePacket] always terminates, and it panics on exactly the
    datagrams that hold a header whose Length field is below the header size:
    the check [Length > len(data)] does not cover [data[20:Length]]. *)
Theorem parse_panics_iff data secret :
  ParsePacket data secret <> Diverge /\
  (ParsePacket data secret = Panic <->
   20 <= Z.of_nat (length data) /\ length_field data < 20).
Proof. split; [apply ParsePacket_not_diverge|apply ParsePacket_panics]. Qed.

Example parse_panics_on_zero_length : ParsePacket (replicate 20 x00) [] = Panic.
Proof. reflexivity. Qed.
