(* ===== verification/RadiusAttributes.v ===== *)
(** * RADIUS attribute codec (internal/protocol/radius/attributes.go)

    The User-Password hiding of RFC 2865, Vendor-Specific values, and the
    attribute dictionaries.  The theorems: decoding a password inverts
    encoding up to trailing NUL bytes, the size of the encoding, the round
    trip of vendor-specific values and the values on which decoding panics. *)

From S2P Require Import Prelude Bytes Hashes RadiusPacket.
Local Open Scope Z_scope.

Definition AttrUserName : byte := z2b 1.
Definition AttrUserPassword : byte := z2b 2.
Definition AttrCHAPPassword : byte := z2b 3.
Definition AttrNASIPAddress : byte := z2b 4.
Definition AttrServiceType : byte := z2b 6.
Definition AttrReplyMessage : byte := z2b 18.
Definition AttrClass : byte := z2b 25.
Definition AttrVendorSpecific : byte := z2b 26.
Definition AttrSessionTimeout : byte := z2b 27.
Definition AttrNASIdentifier : byte := z2b 32.
Definition AttrAcctStatusType : byte := z2b 40.
Definition AttrAcctInputOctets : byte := z2b 42.
Definition AttrAcctOutputOctets : byte := z2b 43.
Definition AttrAcctSessionId : byte := z2b 44.
Definition AttrAcctSessionTime : byte := z2b 46.
Definition AttrAcctInputPackets : byte := z2b 47.
Definition AttrAcctOutputPackets : byte := z2b 48.
Definition AttrAcctTerminateCause : byte := z2b 49.
Definition AttrCHAPChallenge : byte := z2b 60.

Definition AcctStatusStart : Z := 1.
Definition AcctStatusStop : Z := 2.
Definition AcctStatusInterimUpdate : Z := 3.

Definition VendorMicrosoft : Z := 311.
Definition MSCHAPChallenge : byte := z2b 11.
Definition MSCHAP2Response : byte := z2b 25.
Definition MSCHAP2Success : byte := z2b 26.
Definition MSCHAPError : byte := z2b 2.

Inductive AttrValueType :=
  | AttrTypeString
  | AttrTypeInteger
  | AttrTypeIPAddr
  | AttrTypeDate
  | AttrTypeOctets.

Record AttrDefinition := mkAttrDefinition {
  def_Name : string;
  def_Type : AttrValueType;
  def_Encrypt : bool
}.

Record AttributeCodec := mkAttributeCodec {
  dictionary : gmap Z AttrDefinition;
  vendors : gmap Z (gmap Z AttrDefinition)
}.

Definition plain_def (name : string) (t : AttrValueType) : AttrDefinition :=
  mkAttrDefinition name t false.

Definition loadStandardAttributes (c : AttributeCodec) : AttributeCodec :=
  mkAttributeCodec
    (list_to_map
       [(1, plain_def "User-Name" AttrTypeString);
        (2, mkAttrDefinition "User-Password" AttrTypeString true);
        (3, plain_def "CHAP-Password" AttrTypeOctets);
        (4, plain_def "NAS-IP-Address" AttrTypeIPAddr);
        (5, plain_def "NAS-Port" AttrTypeInteger);
        (6, plain_def "Service-Type" AttrTypeInteger);
        (8, plain_def "Framed-IP-Address" AttrTypeIPAddr);
        (18, plain_def "Reply-Message" AttrTypeString);
        (24, plain_def "State" AttrTypeOctets);
        (25, plain_def "Class" AttrTypeOctets);
        (27, plain_def "Session-Timeout" AttrTypeInteger);
        (28, plain_def "Idle-Timeout" AttrTypeInteger);
        (32, plain_def "NAS-Identifier" AttrTypeString);
        (60, plain_def "CHAP-Challenge" AttrTypeOctets);
        (61, plain_def "NAS-Port-Type" AttrTypeInteger);
        (40, plain_def "Acct-Status-Type" AttrTypeInteger);
        (44, plain_def "Acct-Session-Id" AttrTypeString);
        (46, plain_def "Acct-Session-Time" AttrTypeInteger)])
    (vendors c).

Definition loadMicrosoftAttributes (c : AttributeCodec) : AttributeCodec :=
  mkAttributeCodec (dictionary c)
    (<[VendorMicrosoft :=
        list_to_map
          [(11, plain_def "MS-CHAP-Challenge" AttrTypeOctets);
           (25, plain_def "MS-CHAP2-Response" AttrTypeOctets);
           (26, plain_def "MS-CHAP2-Success" AttrTypeOctets);
           (2, plain_def "MS-CHAP-Error" AttrTypeString)]]> (vendors c)).

Definition NewAttributeCodec : AttributeCodec :=
  loadMicrosoftAttributes (loadStandardAttributes (mkAttributeCodec ∅ ∅)).

(** ** User-Password *)

(** The padding of [EncodePassword]: to a non-zero multiple of 16. *)
Definition pad_password (pass : list byte) : list byte :=
  if bool_decide (length pass = 0%nat) then replicate 16 x00
  else if bool_decide (length pass mod 16 <> 0)%nat
  then pass ++ replicate (16 - length pass mod 16) x00
  else pass.

(** The loop over the 16-byte blocks; [prevBlock] is the cipher block before. *)
Fixpoint encode_blocks (secret prevBlock : list byte) (blocks : list (list byte)) :
    list (list byte) :=
  match blocks with
  | [] => []
  | block :: blocks =>
      let hash := md5 (secret ++ prevBlock) in
      let result := xor_bytes block hash in
      result :: encode_blocks secret result blocks
  end.

Definition EncodePassword (password authenticator secret : list byte) : list byte :=
  concat (encode_blocks secret authenticator (chunks 16 (pad_password password))).

Fixpoint decode_blocks (secret prevBlock : list byte) (blocks : list (list byte)) :
    list (list byte) :=
  match blocks with
  | [] => []
  | block :: blocks =>
      let hash := md5 (secret ++ prevBlock) in
      xor_bytes block hash :: decode_blocks secret block blocks
  end.

(** [bytes.TrimRight(l, "\x00")] *)
Fixpoint trim_nul (l : list byte) : list byte :=
  match l with
  | [] => []
  | b :: l =>
      match trim_nul l with
      | [] => if bool_decide (b = x00) then [] else [b]
      | l' => b :: l'
      end
  end.

Definition DecodePassword (encoded authenticator secret : list byte) : list byte :=
  if bool_decide (length encoded = 0%nat \/ (length encoded mod 16 <> 0)%nat) then []
  else trim_nul (concat (decode_blocks secret authenticator (chunks 16 encoded))).

(** ** Vendor-Specific values *)
Definition EncodeVendorSpecific (vendorID : Z) (attrType : byte) (value : list byte) :
    list byte :=
  be_encode 4 vendorID ++ [attrType; z2b (2 + Z.of_nat (length value))] ++ value.

Definition DecodeVendorSpecific (data : list byte) : res string (Z * byte * list byte) :=
  if Z.of_nat (length data) <? 6 then Err "invalid VSA length"
  else
    id_bytes ← slice data 0 4;
    vendorID ← read_be 4 id_bytes;
    attrType ← index data 4;
    vsaLen ← index data 5;
    if Z.of_nat (length data) - 4 <? b2z vsaLen then Err "invalid VSA internal length"
    else
      let valStart := 6 in
      let valEnd := 4 + b2z vsaLen in
      if Z.of_nat (length data) <? valEnd then Err "VSA length out of bounds"
      else
        value ← slice data valStart valEnd;
        Ok (vendorID, attrType, value).

(** ** Blocks *)
Section Blocks.
Context {A : Type} (n : nat) (Hn : (0 < n)%nat).
Implicit Types l : list A.

Lemma chunks_fuel_concat fuel l :
  (length l <= fuel)%nat -> concat (chunks_fuel fuel n l) = l.
Proof using Hn.
  revert l. induction fuel as [|fuel IH]; intros l Hl.
  - by destruct l; cbn in *; [|lia].
  - destruct l as [|a l]; [done|]. cbn [chunks_fuel concat].
    rewrite IH; [apply take_drop|]. rewrite length_drop. cbn [length] in *. lia.
Qed.

Lemma chunks_concat l : concat (chunks n l) = l.
Proof using Hn. by apply chunks_fuel_concat. Qed.

Lemma chunks_fuel_blocks fuel (bs : list (list A)) :
  (length bs <= fuel)%nat ->
  Forall (fun b => length b = n) bs -> chunks_fuel fuel n (concat bs) = bs.
Proof using Hn.
  revert bs. induction fuel as [|fuel IH]; intros bs Hf Hbs.
  - by destruct bs; cbn in *; [|lia].
  - destruct Hbs as [|b bs Hb Hbs]; [done|]. cbn [concat length] in *.
    destruct b as [|a b]; cbn [length] in Hb; [lia|]. rewrite <-app_comm_cons.
    cbn [chunks_fuel]. rewrite app_comm_cons, take_app_length', drop_app_length' by done.
    by rewrite IH by (done || lia).
Qed.

Lemma concat_blocks_length (bs : list (list A)) :
  Forall (fun b => length b = n) bs -> length (concat bs) = (length bs * n)%nat.
Proof using Hn.
  induction 1 as [|b bs Hb _ IH]; [done|]. cbn. rewrite length_app, IH, Hb. lia.
Qed.

Lemma chunks_blocks (bs : list (list A)) :
  Forall (fun b => length b = n) bs -> chunks n (concat bs) = bs.
Proof using Hn.
  intros H. unfold chunks. apply chunks_fuel_blocks; [|done].
  rewrite concat_blocks_length by done. nia.
Qed.

Lemma chunks_fuel_length fuel l :
  (length l mod n = 0)%nat -> Forall (fun b => length b = n) (chunks_fuel fuel n l).
Proof using Hn.
  revert l. induction fuel as [|fuel IH]; intros l Hmod; [constructor|].
  destruct l as [|a l]; [constructor|]. cbn [chunks_fuel].
  apply Nat.Div0.mod_divides in Hmod as [k Hk].
  destruct k as [|k]; [cbn [length] in Hk; lia|].
  constructor; [rewrite length_take; nia|].
  apply IH. rewrite length_drop, Hk.
  replace (n * S k - n)%nat with (k * n)%nat by lia. apply Nat.Div0.mod_mul.
Qed.

Lemma chunks_length l : (length l mod n = 0)%nat -> Forall (fun b => length b = n) (chunks n l).
Proof using Hn. apply chunks_fuel_length. Qed.
End Blocks.

Lemma pad_password_mod pw : (length (pad_password pw) mod 16 = 0)%nat.
Proof.
  unfold pad_password. case_bool_decide; [done|].
  case_bool_decide as Hm; [|lia].
  rewrite length_app, length_replicate.
  pose proof (Nat.mod_upper_bound (length pw) 16 ltac:(lia)).
  rewrite (Nat.div_mod_eq (length pw) 16) at 1.
  replace (_ + _ + _)%nat with ((1 + length pw / 16) * 16)%nat by lia.
  apply Nat.Div0.mod_mul.
Qed.

Lemma pad_password_length pw :
  length (pad_password pw) = (16 * Nat.max 1 ((length pw + 15) / 16))%nat.
Proof.
  unfold pad_password. case_bool_decide as H0; [by rewrite H0|].
  pose proof (Nat.div_mod_eq (length pw) 16) as Hd.
  pose proof (Nat.mod_upper_bound (length pw) 16 ltac:(lia)) as Hb.
  pose proof (Nat.div_mod_eq (length pw + 15) 16) as Hd'.
  pose proof (Nat.mod_upper_bound (length pw + 15) 16 ltac:(lia)) as Hb'.
  case_bool_decide as Hm; [rewrite length_app, length_replicate|]; nia.
Qed.

Lemma trim_nul_app_nul l k : trim_nul (l ++ replicate k x00) = trim_nul l.
Proof.
  induction l as [|b l IH]; cbn.
  - induction k as [|k IHk]; cbn; [done|]. by rewrite IHk.
  - by rewrite IH.
Qed.

Lemma trim_pad pw : trim_nul (pad_password pw) = trim_nul pw.
Proof.
  unfold pad_password. case_bool_decide as H0.
  - destruct pw; [|done]. done.
  - case_bool_decide; [apply trim_nul_app_nul|done].
Qed.

Lemma encode_blocks_lengths secret prev bs :
  Forall (fun b => length b = 16%nat) bs ->
  Forall (fun b => length b = 16%nat) (encode_blocks secret prev bs).
Proof.
  intros H. revert prev. induction H as [|b bs Hb _ IH]; intros prev; cbn; constructor; auto.
  by rewrite xor_bytes_length, md5_length, Hb.
Qed.

Lemma encode_blocks_length secret prev bs :
  length (encode_blocks secret prev bs) = length bs.
Proof. revert prev. induction bs as [|b bs IH]; intros prev; cbn; [done|]. by rewrite IH. Qed.

Lemma decode_encode_blocks secret prev bs :
  Forall (fun b => length b = 16%nat) bs ->
  decode_blocks secret prev (encode_blocks secret prev bs) = bs.
Proof.
  intros H. revert prev. induction H as [|b bs Hb _ IH]; intros prev; cbn; [done|].
  rewrite IH. f_equal. apply xor_bytes_cancel. by rewrite Hb, md5_length.
Qed.

Lemma EncodePassword_length pw auth secret :
  length (EncodePassword pw auth secret) = (16 * Nat.max 1 ((length pw + 15) / 16))%nat.
Proof.
  pose proof (chunks_length 16 ltac:(lia) _ (pad_password_mod pw)) as Hc.
  unfold EncodePassword. rewrite (concat_blocks_length 16) by (lia || by apply encode_blocks_lengths).
  rewrite encode_blocks_length, <-pad_password_length.
  rewrite <-(concat_blocks_length 16) by (lia || done). by rewrite chunks_concat by lia.
Qed.

Lemma DecodePassword_encode pw auth secret :
  DecodePassword (EncodePassword pw auth secret) auth secret = trim_nul pw.
Proof.
  unfold DecodePassword. rewrite bool_decide_eq_false_2.
  2:{ rewrite EncodePassword_length, Nat.mul_comm, Nat.Div0.mod_mul. lia. }
  pose proof (chunks_length 16 ltac:(lia) _ (pad_password_mod pw)) as Hc.
  unfold EncodePassword. rewrite chunks_blocks by (lia || by apply encode_blocks_lengths).
  rewrite decode_encode_blocks by done.
  rewrite chunks_concat by lia. apply trim_pad.
Qed.

Lemma trim_nul_last pw b : b <> x00 -> trim_nul (pw ++ [b]) = pw ++ [b].
Proof.
  intros Hb. induction pw as [|x pw IH]; cbn.
  - by rewrite bool_decide_eq_false_2.
  - rewrite IH. by destruct pw.
Qed.

(** ** Vendor-Specific values *)

(** The inner length byte of a value of six bytes or more. *)
Definition vsa_length (data : list byte) : Z := b2z (nth 5 data x00).

Lemma DecodeVendorSpecific_unfold data :
  6 <= Z.of_nat (length data) ->
  DecodeVendorSpecific data =
    (if Z.of_nat (length data) - 4 <? vsa_length data
     then Err "invalid VSA internal length"
     else
       value ← slice data 6 (4 + vsa_length data);
       Ok (be_decode (take 4 data), nth 4 data x00, value)).
Proof.
  intros Hlen. unfold DecodeVendorSpecific, vsa_length.
  rewrite (proj2 (Z.ltb_ge _ _)) by lia.
  do 6 (destruct data as [|? data]; [cbn [length] in Hlen; lia|]).
  rewrite (slice_ok _ 0 4) by (cbn [length]; lia).
  cbn [mbind res_bind nth take drop Z.to_nat Z.sub Pos.to_nat Pos.iter_op].
  rewrite (index_ok _ 4 b3), (index_ok _ 5 b4) by done.
  cbn [mbind res_bind]. case_match eqn:Hv; [done|]. apply Z.ltb_ge in Hv.
  by rewrite (proj2 (Z.ltb_ge _ _)) by lia.
Qed.

Lemma DecodeVendorSpecific_encode vendorID attrType value rest :
  (length value <= 253)%nat ->
  DecodeVendorSpecific (EncodeVendorSpecific vendorID attrType value ++ rest) =
    Ok (wrap 32 vendorID, attrType, value).
Proof.
  intros Hlen. unfold EncodeVendorSpecific. rewrite <-!app_assoc.
  set (id := be_encode 4 vendorID).
  assert (length id = 4%nat) as Hid by apply be_encode_length.
  rewrite DecodeVendorSpecific_unfold by (rewrite !length_app, Hid; cbn [length]; lia).
  assert (vsa_length (id ++ [attrType; z2b (2 + Z.of_nat (length value))] ++ value ++ rest)
          = 2 + Z.of_nat (length value)) as ->.
  { unfold vsa_length. rewrite app_nth2 by lia. rewrite Hid. cbn [app nth Nat.sub].
    rewrite b2z_z2b, Z.mod_small; lia. }
  rewrite !length_app, Hid. cbn [length].
  rewrite (proj2 (Z.ltb_ge _ _)) by lia.
  rewrite slice_ok by (rewrite ?length_app, ?Hid; cbn [length]; lia).
  cbn [mbind res_bind]. rewrite take_app_length' by done.
  rewrite app_nth2 by lia. rewrite Hid. cbn [app nth Nat.sub].
  unfold id at 1. rewrite be_decode_encode.
  change (id ++ attrType :: ?y :: ?l) with (id ++ [attrType; y] ++ l).
  rewrite (app_assoc id), drop_app_length' by (rewrite length_app, Hid; done).
  replace (Z.to_nat (4 + (2 + Z.of_nat (length value)) - 6)) with (length value) by lia.
  by rewrite take_app_length.
Qed.

(** ** Theorems *)

(** Decoding inverts encoding.  The password a NAS hides with the shared
    secret is recovered up to its trailing NUL bytes, whatever its length, the
    authenticator and the secret; in particular exactly, when its last byte is
    not NUL. *)
Theorem password_roundtrip pw auth secret :
  DecodePassword (EncodePassword pw auth secret) auth secret = trim_nul pw /\
  (forall pw' b, pw = pw' ++ [b] -> b <> x00 ->
     DecodePassword (EncodePassword pw auth secret) auth secret = pw).
Proof.
  rewrite DecodePassword_encode. split; [done|].
  intros pw' b -> Hb. by apply trim_nul_last.
Qed.

(** The hidden password is a whole number of blocks of 16 bytes, at least
    one, and it fits in an attribute exactly for passwords of at most 240
    bytes. *)
Theorem encoded_password_size pw auth secret :
  length (EncodePassword pw auth secret) = (16 * Nat.max 1 ((length pw + 15) / 16))%nat /\
  ((length (EncodePassword pw auth secret) <= 253)%nat <-> (length pw <= 240)%nat).
Proof.
  rewrite EncodePassword_length. split; [done|].
  pose proof (Nat.div_mod_eq (length pw + 15) 16).
  pose proof (Nat.mod_upper_bound (length pw + 15) 16 ltac:(lia)). lia.
Qed.

(** Vendor-specific values of at most 253 bytes survive the wire, with the
    vendor id taken modulo 2^32; and a value makes decoding panic exactly when
    it has six bytes or more and an inner length of 0 or 1, which the two
    length checks let through. *)
Theorem vsa_roundtrip_and_panics vendorID attrType value rest data :
  ((length value <= 253)%nat ->
   DecodeVendorSpecific (EncodeVendorSpecific vendorID attrType value ++ rest) =
     Ok (wrap 32 vendorID, attrType, value)) /\
  (DecodeVendorSpecific data = Panic <->
   6 <= Z.of_nat (length data) /\ vsa_length data < 2).
Proof.
  split; [apply DecodeVendorSpecific_encode|].
  destruct (Z.lt_ge_cases (Z.of_nat (length data)) 6).
  { unfold DecodeVendorSpecific. rewrite (proj2 (Z.ltb_lt _ _)) by done.
    split; [done|lia]. }
  rewrite DecodeVendorSpecific_unfold by lia.
  destruct (Z.ltb_spec (Z.of_nat (length data) - 4) (vsa_length data)); [split; [done|lia]|].
  pose proof (b2z_range (nth 5 data x00)). unfold vsa_length in *.
  rewrite bind_panic_inv, slice_panic. split; [|lia].
  intros [?|(v & _ & ?)]; [lia|done].
Qed.

(** The standard dictionary marks one attribute for encryption. *)
Example only_password_encrypted :
  map fst (filter (fun kd => def_Encrypt kd.2 = true)
             (map_to_list (dictionary NewAttributeCodec))) = [2].
Proof. by vm_compute. Qed.

Lemma password_roundtrip_witness :
  DecodePassword (EncodePassword (str "hunter2") [x01] (str "key")) [x01] (str "key") =
    str "hunter2".
Proof.
  apply (proj2 (password_roundtrip (str "hunter2") [x01] (str "key")) (str "hunter") x32).
  - reflexivity.
  - discriminate.
Defined.

Lemma vsa_roundtrip_and_panics_witness :
  DecodeVendorSpecific (EncodeVendorSpecific 311 x0b (str "abc") ++ [xff]) =
    Ok (311, x0b, str "abc").
Proof.
  apply (proj1 (vsa_roundtrip_and_panics 311 x0b (str "abc") [xff] [])). cbn. lia.
Defined.
