(* ===== verification/RadiusAuth.v ===== *)
(** * RADIUS authentication (authenticator.go, mschap.go)

    PAP, CHAP and MS-CHAPv2, over the user and password services, which the
    code reaches through interfaces ([RadiusBackend]).  The theorems: an
    Access-Accept is only sent after the password service accepted the
    password or the NT response matched; CHAP never succeeds; replies are
    well-formed and answer the request; which requests make the worker panic;
    the DES key schedule has odd parity and keeps the 56 key bits. *)

From S2P Require Import Prelude Bytes Hashes Types RadiusPacket RadiusAttributes.
Local Open Scope Z_scope.

Record AuthenticatorConfig := mkAuthenticatorConfig {
  RequireMFA : bool;
  MFAInPassword : bool;
  MFASeparator : string;
  DefaultSessionTimeout : Z
}.

Record RADIUSClient := mkRADIUSClient {
  client_ID : string;
  client_Name : string;
  client_IPAddress : string;
  client_Secret : string;
  client_TenantID : string;
  client_Enabled : bool;
  client_VendorType : string;
  client_Attributes : gmap string any
}.

(** The services the authenticator calls, as they answer at the time of the
    request: [identity.IService.GetUserByUsername] (a nil user is [None]),
    [password.IService.Verify], the optional [GetNTHash] the password service
    may also implement, and MD4 of golang.org/x/crypto. *)
Class RadiusBackend := {
  GetUserByUsername : string -> res error (option User);
  Verify : string -> string -> res error bool;
  GetNTHash : option (string -> res error (list byte));
  md4 : list byte -> list byte
}.

(** [v, err := m; if err != nil { ... }] *)
Definition on_result {E E' A B} (m : res E A) (ok : A -> res E' B) (err : E -> res E' B) :
    res E' B :=
  match m with
  | Ok a => ok a
  | Err e => err e
  | Panic => Panic
  | Diverge => Diverge
  end.

(** ** strings.SplitN(s, sep, 2)[0] *)

Fixpoint prefix_of_bytes (p l : list byte) : bool :=
  match p, l with
  | [], _ => true
  | a :: p, b :: l => bool_decide (a = b) && prefix_of_bytes p l
  | _ :: _, [] => false
  end.

(** The bytes before the first occurrence of [sep], all of them if there is
    none. *)
Fixpoint before_sep (sep l : list byte) : list byte :=
  match l with
  | [] => []
  | b :: l' => if prefix_of_bytes sep l then [] else b :: before_sep sep l'
  end.

(** The number of bytes [utf8.DecodeRuneInString] consumes. *)
Definition in_range (lo hi : Z) (b : byte) : bool := (lo <=? b2z b) && (b2z b <=? hi).
Definition cont (b : byte) : bool := in_range 128 191 b.

Definition rune_size (l : list byte) : nat :=
  match l with
  | [] => 0%nat
  | b0 :: l =>
      let two lo hi := match l with b1 :: _ => in_range lo hi b1 | _ => false end in
      let three lo hi :=
        match l with b1 :: b2 :: _ => in_range lo hi b1 && cont b2 | _ => false end in
      let four lo hi :=
        match l with
        | b1 :: b2 :: b3 :: _ => in_range lo hi b1 && cont b2 && cont b3
        | _ => false
        end in
      let size (n : nat) (ok : bool) := if ok then n else 1%nat in
      if in_range 194 223 b0 then size 2%nat (two 128 191)
      else if in_range 224 224 b0 then size 3%nat (three 160 191)
      else if in_range 225 236 b0 || in_range 238 239 b0 then size 3%nat (three 128 191)
      else if in_range 237 237 b0 then size 3%nat (three 128 159)
      else if in_range 240 240 b0 then size 4%nat (four 144 191)
      else if in_range 241 243 b0 then size 4%nat (four 128 191)
      else if in_range 244 244 b0 then size 4%nat (four 128 143)
      else 1%nat
  end.

(** An empty separator splits after the first rune; an empty string then has
    no parts, and taking the first one is out of range. *)
Definition split_first (s sep : list byte) : res string (list byte) :=
  match sep with
  | [] => match s with [] => Panic | _ => Ok (take (rune_size s) s) end
  | _ => Ok (before_sep sep s)
  end.

Definition encodeInteger (val : Z) : list byte := be_encode 4 (wrap 32 val).

(** [binary.BigEndian.Uint32(attr.Value[0:4])] *)
Definition vendor_id {E} (value : list byte) : res E Z :=
  b ← slice value 0 4; read_be 4 b.

(** ** MS-CHAPv2 (mschap.go) *)

Fixpoint getVendorAttribute_loop (attrs : list Attribute) (vendorID : Z) (attrType : byte) :
    res string (option Attribute) :=
  match attrs with
  | [] => Ok None
  | attr :: attrs =>
      if bool_decide (attr_Type attr = AttrVendorSpecific) then
        vid ← vendor_id (attr_Value attr);
        atype ← index (attr_Value attr) 4;
        if (vid =? vendorID) && bool_decide (atype = attrType) then
          len ← index (attr_Value attr) 5;
          value ← slice (attr_Value attr) 6 (Z.of_nat (length (attr_Value attr)));
          Ok (Some (mkAttribute attrType len value))
        else getVendorAttribute_loop attrs vendorID attrType
      else getVendorAttribute_loop attrs vendorID attrType
  end.

Definition getVendorAttribute (p : Packet) (vendorID : Z) (attrType : byte) :
    res string (option Attribute) :=
  getVendorAttribute_loop (Attributes p) vendorID attrType.

Definition count_bits (c : byte) : Z :=
  fold_left (fun bits j => if Z.testbit (b2z c) j then bits + 1 else bits)
    [0; 1; 2; 3; 4; 5; 6; 7] 0.

Definition odd_parity (c : byte) : byte :=
  if count_bits c mod 2 =? 0 then bor c (z2b 1) else band c (z2b 254).

Definition key_byte (key : list byte) (i : nat) : byte := nth i key x00.

Definition makeDESKey (key : list byte) : list byte :=
  let k := key_byte key in
  map odd_parity
    [band (k 0%nat) (z2b 254);
     bor (bshl (k 0%nat) 7) (bshr (k 1%nat) 1);
     bor (bshl (k 1%nat) 6) (bshr (k 2%nat) 2);
     bor (bshl (k 2%nat) 5) (bshr (k 3%nat) 3);
     bor (bshl (k 3%nat) 4) (bshr (k 4%nat) 4);
     bor (bshl (k 4%nat) 3) (bshr (k 5%nat) 5);
     bor (bshl (k 5%nat) 2) (bshr (k 6%nat) 6);
     bshl (k 6%nat) 1].

Definition desEncrypt (key plain : list byte) : list byte := Des.encrypt key plain.

Definition challengeResponse (challenge ntHash : list byte) : list byte :=
  let hashPad := take 21 (ntHash ++ replicate 21 x00) in
  desEncrypt (makeDESKey (take 7 hashPad)) challenge ++
  desEncrypt (makeDESKey (take 7 (drop 7 hashPad))) challenge ++
  desEncrypt (makeDESKey (take 7 (drop 14 hashPad))) challenge.

Definition generateNTResponse (authChallenge peerChallenge username ntHash : list byte) :
    list byte :=
  let challengeHash := take 8 (sha1 (peerChallenge ++ authChallenge ++ username)) in
  challengeResponse challengeHash ntHash.

Definition magic1 : list byte := str "Magic server to client signing constant".
Definition magic2 : list byte := str "Pad to make it do more than one iteration".

Section MSCHAP.
Context `{RadiusBackend}.

Definition generateAuthenticatorResponse
    (ntHash ntResponse peerChallenge authChallenge username : list byte) : list byte :=
  let passwordHashHash := md4 ntHash in
  let digest := sha1 (passwordHashHash ++ ntResponse ++ magic1) in
  let challengeHash := take 8 (sha1 (peerChallenge ++ authChallenge ++ username)) in
  let authResp := sha1 (digest ++ challengeHash ++ magic2) in
  str "S=" ++ hex_upper authResp.

Definition createMSCHAPAccept (request : Packet) (authResponse : list byte) : Packet :=
  let response := CreateResponse request CodeAccessAccept in
  let vsa := EncodeVendorSpecific VendorMicrosoft MSCHAP2Success authResponse in
  AddAttribute response AttrVendorSpecific vsa.

Definition createMSCHAPError (request : Packet) (message : string) : Packet :=
  let response := CreateResponse request CodeAccessReject in
  let vsa := EncodeVendorSpecific VendorMicrosoft MSCHAPError (str message) in
  AddAttribute response AttrVendorSpecific vsa.

Definition getNTHash (userID : string) : res error (list byte) :=
  match GetNTHash with
  | Some f => f userID
  | None => Err (Errorf "password service does not support NTHash retrieval")
  end.

Definition mschap_failed : string := "E=691 R=0 C=0000000000000000 V=3 M=Auth Failed".

Definition mschap_Authenticate (request : Packet) (username : list byte) :
    res string Packet :=
  mschapRespAttr ← getVendorAttribute request VendorMicrosoft MSCHAP2Response;
  match mschapRespAttr with
  | None => Err "MS-CHAPv2 response not found"
  | Some attr =>
      let mschapResp := attr_Value attr in
      if negb (Z.of_nat (length mschapResp) =? 50)
      then Err "invalid MS-CHAPv2 response length"
      else
        peerChallenge ← slice mschapResp 2 18;
        ntResponse ← slice mschapResp 26 50;
        authChallengeAttr ← getVendorAttribute request VendorMicrosoft MSCHAPChallenge;
        match authChallengeAttr with
        | None => Err "missing MS-CHAP-Challenge"
        | Some cattr =>
            let authChallenge := attr_Value cattr in
            on_result (GetUserByUsername (unstr username))
              (fun u =>
                 match u with
                 | None => Panic
                 | Some u =>
                     on_result (getNTHash (user_ID u))
                       (fun ntHash =>
                          let expected :=
                            generateNTResponse authChallenge peerChallenge username ntHash in
                          if negb (bool_decide (ntResponse = expected))
                          then Ok (createMSCHAPError request mschap_failed)
                          else
                            Ok (createMSCHAPAccept request
                                  (generateAuthenticatorResponse ntHash ntResponse
                                     peerChallenge authChallenge username)))
                       (fun _ => Ok (createMSCHAPError request mschap_failed))
                 end)
              (fun _ => Ok (createMSCHAPError request "Invalid credentials"))
        end
  end.
End MSCHAP.

(** ** Authenticator (authenticator.go) *)
Section Authenticator.
Context `{RadiusBackend} (config : AuthenticatorConfig).

Fixpoint isMSCHAP_loop (attrs : list Attribute) : res string bool :=
  match attrs with
  | [] => Ok false
  | attr :: attrs =>
      if bool_decide (attr_Type attr = AttrVendorSpecific) then
        vid ← vendor_id (attr_Value attr);
        if vid =? VendorMicrosoft then Ok true else isMSCHAP_loop attrs
      else isMSCHAP_loop attrs
  end.

Definition isMSCHAPRequest (request : Packet) : res string bool :=
  isMSCHAP_loop (Attributes request).

Definition calculateCHAPResponse (id : byte) (password : string) (challenge : list byte) :
    list byte :=
  md5 ([id] ++ str password ++ challenge).

Definition createAccept (request : Packet) (user : User) : Packet :=
  let response := CreateResponse request CodeAccessAccept in
  let response := AddAttribute response AttrServiceType (encodeInteger 2) in
  let response :=
    if 0 <? DefaultSessionTimeout config
    then AddAttribute response AttrSessionTimeout
           (encodeInteger (DefaultSessionTimeout config))
    else response in
  let classValue := str "user=" ++ str (user_ID user) in
  AddAttribute response AttrClass classValue.

Definition createReject (request : Packet) (message : string) : Packet :=
  AddAttribute (CreateResponse request CodeAccessReject) AttrReplyMessage (str message).

Definition getPlainPassword (userID : string) : res error string :=
  Err (Errorf "cleartext password not available").

(** The password the client sent, without the MFA suffix if there is one. *)
Definition submitted_password (request : Packet) (secret : string) (value : list byte) :
    res string (list byte) :=
  let passwordStr := DecodePassword value (Authenticator request) (str secret) in
  if MFAInPassword config then split_first passwordStr (str (MFASeparator config))
  else Ok passwordStr.

Definition authenticatePAP (request : Packet) (client : RADIUSClient) (username : list byte) :
    res string Packet :=
  match GetAttribute request AttrUserPassword with
  | None => Ok (createReject request "Missing password")
  | Some encPassword =>
      passwordStr ← submitted_password request (client_Secret client) (attr_Value encPassword);
      on_result (GetUserByUsername (unstr username))
        (fun u =>
           match u with
           | None => Ok (createReject request "Invalid credentials")
           | Some u =>
               on_result (Verify (user_ID u) (unstr passwordStr))
                 (fun valid =>
                    if negb valid then Ok (createReject request "Invalid credentials")
                    else Ok (createAccept request u))
                 (fun _ => Ok (createReject request "Invalid credentials"))
           end)
        (fun _ => Ok (createReject request "Invalid credentials"))
  end.

Definition authenticateCHAP (request : Packet) (username : list byte)
    (chapPassword : Attribute) : res string Packet :=
  if Z.of_nat (length (attr_Value chapPassword)) <? 17
  then Ok (createReject request "Invalid CHAP response")
  else
    chapID ← index (attr_Value chapPassword) 0;
    chapResponse ← slice (attr_Value chapPassword) 1 17;
    let challengeVal :=
      match GetAttribute request AttrCHAPChallenge with
      | None => Authenticator request
      | Some challenge => attr_Value challenge
      end in
    on_result (GetUserByUsername (unstr username))
      (fun u =>
         match u with
         | None => Ok (createReject request "Invalid credentials")
         | Some u =>
             on_result (getPlainPassword (user_ID u))
               (fun plainPassword =>
                  let expected := calculateCHAPResponse chapID plainPassword challengeVal in
                  if negb (bool_decide (chapResponse = expected))
                  then Ok (createReject request "Invalid credentials")
                  else Ok (createAccept request u))
               (fun _ => Ok (createReject request "CHAP not supported for this user"))
         end)
      (fun _ => Ok (createReject request "Invalid credentials")).

Definition Authenticate (request : Packet) (client : RADIUSClient) : res string Packet :=
  let username := GetString request AttrUserName in
  if bool_decide (username = []) then Ok (createReject request "Missing username")
  else
    match GetAttribute request AttrCHAPPassword with
    | Some chapPassword => authenticateCHAP request username chapPassword
    | None =>
        mschap ← isMSCHAPRequest request;
        if (mschap : bool) then mschap_Authenticate request username
        else authenticatePAP request client username
    end.
End Authenticator.

(** The test vector of RFC 2759, section 9.2. *)
Example rfc2759_nt_response :
  generateNTResponse (be_encode 16 0x5B5D7C7D7B3F2F3E3C2C602132262628)
    (be_encode 16 0x21402324255E262A28295F2B3A337C7E) (str "User")
    (be_encode 16 0x44EBBA8D5312B8D611474411F56989AE)
  = be_encode 24 0x82309ECD8D708B5EA08FAA3981CD83544233114A3D85D6DF.
Proof. by vm_compute. Qed.

(** ** The DES key schedule of MS-CHAP *)
Definition key_bits (b : byte) : list bool := take 7 (Des.bits_of_byte b).

(** The loop counts the low bit too, then overwrites it: the parity comes out
    odd exactly when the low bit was clear. *)
Lemma odd_parity_spec c :
  count_bits (odd_parity c) mod 2 = if Z.testbit (b2z c) 0 then 0 else 1.
Proof.
  apply Z.eqb_eq. revert c.
  apply (forall_bytes (fun c => count_bits (odd_parity c) mod 2 =?
                                if Z.testbit (b2z c) 0 then 0 else 1)).
  by vm_compute.
Qed.

Lemma key_bits_odd_parity c : key_bits (odd_parity c) = key_bits c.
Proof.
  unfold odd_parity, key_bits, Des.bits_of_byte. cbn [map take].
  destruct (_ =? 0); rewrite ?testbit_bor, ?testbit_band by lia;
    unfold z2b; cbn [b2z Byte.to_N Z.of_N Z.testbit Pos.testbit];
    by rewrite ?orb_false_r, ?andb_true_r.
Qed.

(** The key bits of the eight bytes, from the bits of the seven. *)
Ltac key_bits_tac :=
  rewrite ?key_bits_odd_parity; unfold key_bits, Des.bits_of_byte; cbn [map take drop app];
  rewrite ?testbit_bor, ?testbit_bshl, ?testbit_bshr, ?testbit_band by lia;
  cbn [Z.ltb Z.compare Pos.compare Pos.compare_cont andb Z.add Z.sub Z.opp Z.pos_sub
       Pos.add Pos.succ Pos.pred_double Z.succ_double Z.pred_double Z.double Pos.add_carry];
  rewrite ?(Z.testbit_neg_r _ (-1)), ?(Z.testbit_neg_r _ (-2)), ?(Z.testbit_neg_r _ (-3)),
    ?(Z.testbit_neg_r _ (-4)), ?(Z.testbit_neg_r _ (-5)), ?(Z.testbit_neg_r _ (-6)) by lia;
  rewrite ?orb_false_r, ?orb_false_l, ?andb_true_r;
  repeat match goal with |- _ :: _ = _ :: _ => f_equal end;
  try match goal with
  | |- orb _ (Z.testbit (b2z ?x) ?i) = _ =>
      rewrite (testbit_byte_high x i) by lia; rewrite orb_false_r
  end;
  try reflexivity.

Lemma key_bits_shift a b :
  key_bits (odd_parity (bor (bshl a 7) (bshr b 1))) =
    drop 7 (Des.bits_of_byte a) ++ take 6 (Des.bits_of_byte b) /\
  key_bits (odd_parity (bor (bshl a 6) (bshr b 2))) =
    drop 6 (Des.bits_of_byte a) ++ take 5 (Des.bits_of_byte b) /\
  key_bits (odd_parity (bor (bshl a 5) (bshr b 3))) =
    drop 5 (Des.bits_of_byte a) ++ take 4 (Des.bits_of_byte b) /\
  key_bits (odd_parity (bor (bshl a 4) (bshr b 4))) =
    drop 4 (Des.bits_of_byte a) ++ take 3 (Des.bits_of_byte b) /\
  key_bits (odd_parity (bor (bshl a 3) (bshr b 5))) =
    drop 3 (Des.bits_of_byte a) ++ take 2 (Des.bits_of_byte b) /\
  key_bits (odd_parity (bor (bshl a 2) (bshr b 6))) =
    drop 2 (Des.bits_of_byte a) ++ take 1 (Des.bits_of_byte b).
Proof.
  split_and!; key_bits_tac.
Qed.

Lemma key_bits_ends a :
  key_bits (odd_parity (band a (z2b 254))) = take 7 (Des.bits_of_byte a) /\
  key_bits (odd_parity (bshl a 1)) = drop 1 (Des.bits_of_byte a).
Proof. split; key_bits_tac. Qed.

Lemma makeDESKey_bits key :
  length key = 7%nat -> concat (map key_bits (makeDESKey key)) = Des.bits_of_bytes key.
Proof.
  intros Hlen. do 8 (destruct key as [|? key]; cbn [length] in Hlen; try lia).
  unfold makeDESKey, key_byte, Des.bits_of_bytes. cbn [nth map concat].
  destruct (key_bits_ends b) as [-> _]. destruct (key_bits_ends b5) as [_ ->].
  destruct (key_bits_shift b b0) as (-> & _).
  destruct (key_bits_shift b0 b1) as (_ & -> & _).
  destruct (key_bits_shift b1 b2) as (_ & _ & -> & _).
  destruct (key_bits_shift b2 b3) as (_ & _ & _ & -> & _).
  destruct (key_bits_shift b3 b4) as (_ & _ & _ & _ & -> & _).
  destruct (key_bits_shift b4 b5) as (_ & _ & _ & _ & _ & ->).
  unfold Des.bits_of_byte. by cbn [map take drop app].
Qed.

(** ** Replies *)

(** A reply answers the request: same identifier and secret, an accept or a
    reject code, and bytes that parse back. *)
Record reply_to (request r : Packet) : Prop := mk_reply_to {
  reply_id : Identifier r = Identifier request;
  reply_secret : Secret r = Secret request;
  reply_wf : wf_packet r
}.

Definition small_user (u : User) : Prop := (length (str (user_ID u)) <= 248)%nat.

Lemma createReject_code request msg : Code (createReject request msg) = CodeAccessReject.
Proof. done. Qed.

Lemma createReject_reply request msg :
  (length (str msg) <= 253)%nat -> reply_to request (createReject request msg).
Proof.
  intros Hm. split; [done..|]. unfold createReject.
  apply AddAttribute_wf; [done|done|constructor|].
  unfold encoded_length. cbn -[Z.of_nat str]. lia.
Qed.

Lemma createMSCHAPError_reply request msg :
  (length (str msg) <= 247)%nat -> reply_to request (createMSCHAPError request msg).
Proof.
  intros Hm. split; [done..|]. unfold createMSCHAPError.
  assert (length (EncodeVendorSpecific VendorMicrosoft MSCHAPError (str msg)) =
          6 + length (str msg))%nat as Hl.
  { unfold EncodeVendorSpecific. rewrite !length_app, be_encode_length. done. }
  apply AddAttribute_wf; [lia|done|constructor|].
  rewrite Hl. unfold encoded_length. cbn -[Z.of_nat str]. lia.
Qed.

Lemma encodeInteger_length v : length (encodeInteger v) = 4%nat.
Proof. apply be_encode_length. Qed.

Lemma hex_upper_length l : length (hex_upper l) = (2 * length l)%nat.
Proof.
  unfold hex_upper. induction l as [|b l IH]; [done|].
  cbn [map concat]. rewrite length_app, IH. cbn [length]. lia.
Qed.

Section Replies.
Context `{RadiusBackend} (config : AuthenticatorConfig).

Lemma createMSCHAPAccept_reply request nt resp pc ac user :
  reply_to request
    (createMSCHAPAccept request (generateAuthenticatorResponse nt resp pc ac user)).
Proof.
  split; [done..|]. unfold createMSCHAPAccept.
  set (ar := generateAuthenticatorResponse _ _ _ _ _).
  assert (length ar = 42%nat) as Har.
  { unfold ar, generateAuthenticatorResponse.
    rewrite length_app, hex_upper_length, sha1_length. done. }
  assert (length (EncodeVendorSpecific VendorMicrosoft MSCHAP2Success ar) = 48%nat) as Hl.
  { unfold EncodeVendorSpecific. rewrite !length_app, be_encode_length, Har. done. }
  apply AddAttribute_wf; [lia|done|constructor|].
  rewrite Hl. unfold encoded_length. cbn -[Z.of_nat]. lia.
Qed.

Lemma createAccept_reply request u :
  small_user u -> reply_to request (createAccept config request u).
Proof.
  unfold small_user. intros Hu.
  assert (length (str "user=" ++ str (user_ID u)) <= 253)%nat as Hc.
  { rewrite length_app. change (length (str "user=")) with 5%nat. lia. }
  unfold createAccept.
  set (r0 := AddAttribute (CreateResponse request CodeAccessAccept) AttrServiceType
               (encodeInteger 2)).
  assert (wf_packet r0) as H0.
  { apply AddAttribute_wf; rewrite ?encodeInteger_length; (done || lia || constructor). }
  assert (encoded_length r0 = 26) as E0 by by vm_compute.
  destruct (0 <? DefaultSessionTimeout config).
  - set (r1 := AddAttribute r0 AttrSessionTimeout _).
    pose proof (encodeInteger_length (DefaultSessionTimeout config)) as Hi.
    assert (wf_packet r1) as H1.
    { apply AddAttribute_wf; [lia|apply H0|apply H0|rewrite E0, Hi; lia]. }
    assert (encoded_length r1 = 32) as E1.
    { unfold r1, encoded_length, AddAttribute, attrs_bytes.
      cbn [Attributes]. rewrite map_app, concat_app, length_app.
      cbn [map concat]. unfold encode_attribute at 2. cbn [attr_Value app].
      rewrite app_nil_r. cbn [length]. rewrite Hi. done. }
    split; [done..|]. apply AddAttribute_wf; [done|apply H1|apply H1|].
    rewrite E1. lia.
  - split; [done..|]. apply AddAttribute_wf; [done|apply H0|apply H0|].
    rewrite E0. lia.
Qed.
End Replies.

(** ** What each method does *)

Lemma on_result_ok_inv {E E' A B} (m : res E A) (ok : A -> res E' B) err b :
  on_result m ok err = Ok b <->
    (exists a, m = Ok a /\ ok a = Ok b) \/ (exists e, m = Err e /\ err e = Ok b).
Proof. destruct m; cbn; naive_solver. Qed.

Lemma on_result_returns {E E' A B} (m : res E A) (ok : A -> res E' B) err :
  returns m = true ->
  (forall a, m = Ok a -> returns (ok a) = true) ->
  (forall e, m = Err e -> returns (err e) = true) ->
  returns (on_result m ok err) = true.
Proof. destruct m; cbn; auto. Qed.

Section Methods.
Context `{RadiusBackend} (config : AuthenticatorConfig).
Implicit Types (request r : Packet) (client : RADIUSClient).

(** The password service said yes to the submitted password of the user. *)
Definition password_verified request client (u : User) : Prop :=
  exists enc pw,
    GetAttribute request AttrUserPassword = Some enc /\
    submitted_password config request (client_Secret client) (attr_Value enc) = Ok pw /\
    Verify (user_ID u) (unstr pw) = Ok true.

(** The MS-CHAPv2 response is the one the NT hash of the user gives. *)
Definition mschap_verified request (u : User) : Prop :=
  exists resp chal nt,
    getVendorAttribute request VendorMicrosoft MSCHAP2Response = Ok (Some resp) /\
    getVendorAttribute request VendorMicrosoft MSCHAPChallenge = Ok (Some chal) /\
    length (attr_Value resp) = 50%nat /\
    getNTHash (user_ID u) = Ok nt /\
    drop 26 (attr_Value resp) =
      generateNTResponse (attr_Value chal) (take 16 (drop 2 (attr_Value resp)))
        (GetString request AttrUserName) nt.

(** One of the rejections of the code. *)
Definition rejected request r : Prop :=
  exists msg, (length (str msg) <= 247)%nat /\
    (r = createReject request msg \/ r = createMSCHAPError request msg).

Lemma rejected_code request r : rejected request r -> Code r = CodeAccessReject.
Proof. by intros (msg & _ & [->| ->]). Qed.

Lemma rejected_reply request r : rejected request r -> reply_to request r.
Proof.
  intros (msg & Hm & [->| ->]).
  - apply createReject_reply. lia.
  - by apply createMSCHAPError_reply.
Qed.

#[local] Ltac reject :=
  solve [left; eexists; split; [|by eauto]; cbn; lia | eexists; split; [|by eauto]; cbn; lia].

Lemma authenticatePAP_inv request client username r :
  authenticatePAP config request client username = Ok r ->
  rejected request r \/
  exists u, GetUserByUsername (unstr username) = Ok (Some u) /\
    password_verified request client u /\ r = createAccept config request u.
Proof.
  unfold authenticatePAP, password_verified.
  destruct (GetAttribute request AttrUserPassword) as [enc|]; [|intros [= <-]; reject].
  intros Hr. apply bind_ok_inv in Hr as (pw & Hpw & Hr).
  apply on_result_ok_inv in Hr as [([u|] & Hu & Hr)|(e & _ & [= <-])];
    [|injection Hr as <-; reject|reject].
  apply on_result_ok_inv in Hr as [(valid & Hv & Hr)|(e & _ & [= <-])]; [|reject].
  destruct valid; cbn in Hr; injection Hr as <-; [right|reject].
  exists u. split; [done|]. split; [|done]. by exists enc, pw.
Qed.

Lemma authenticateCHAP_reject request username a r :
  authenticateCHAP config request username a = Ok r -> rejected request r.
Proof.
  unfold authenticateCHAP. destruct (_ <? 17); [intros [= <-]; reject|].
  intros Hr. apply bind_ok_inv in Hr as (id & _ & Hr).
  apply bind_ok_inv in Hr as (resp & _ & Hr).
  apply on_result_ok_inv in Hr as [([u|] & _ & Hr)|(e & _ & [= <-])];
    [injection Hr as <-|injection Hr as <-|]; reject.
Qed.

Lemma mschap_Authenticate_inv request r :
  mschap_Authenticate request (GetString request AttrUserName) = Ok r ->
  rejected request r \/
  exists u, GetUserByUsername (unstr (GetString request AttrUserName)) = Ok (Some u) /\
    mschap_verified request u /\
    exists nt resp pc ac, r = createMSCHAPAccept request
      (generateAuthenticatorResponse nt resp pc ac (GetString request AttrUserName)).
Proof.
  unfold mschap_Authenticate, mschap_verified.
  intros Hr. apply bind_ok_inv in Hr as ([resp|] & Hresp & Hr); [|done].
  destruct (Z.eqb_spec (Z.of_nat (length (attr_Value resp))) 50) as [Hlen|]; [|done].
  cbn [negb] in Hr. rewrite !slice_ok in Hr by lia. cbn [mbind res_bind] in Hr.
  apply bind_ok_inv in Hr as ([chal|] & Hchal & Hr); [|done].
  apply on_result_ok_inv in Hr as [([u|] & Hu & Hr)|(e & _ & [= <-])]; [|done|reject].
  apply on_result_ok_inv in Hr as [(nt & Hnt & Hr)|(e & _ & [= <-])]; [|reject].
  case_bool_decide as Heq; cbn [negb] in Hr; injection Hr as <-; [|reject].
  right. exists u. split; [done|]. split; [|by eauto].
  exists resp, chal, nt. repeat (split; [done || lia|]).
  rewrite take_ge in Heq by (rewrite length_drop; lia). exact Heq.
Qed.

Lemma Authenticate_inv request client r :
  Authenticate config request client = Ok r ->
  rejected request r \/
  exists u, GetUserByUsername (unstr (GetString request AttrUserName)) = Ok (Some u) /\
    GetAttribute request AttrCHAPPassword = None /\
    (password_verified request client u /\ r = createAccept config request u \/
     mschap_verified request u /\ exists nt resp pc ac, r = createMSCHAPAccept request
      (generateAuthenticatorResponse nt resp pc ac (GetString request AttrUserName))).
Proof.
  unfold Authenticate. case_bool_decide; [intros [= <-]; reject|].
  destruct (GetAttribute request AttrCHAPPassword).
  { intros Hr%authenticateCHAP_reject. by left. }
  intros Hr. apply bind_ok_inv in Hr as (b & _ & Hr). destruct b.
  - apply mschap_Authenticate_inv in Hr as [Hr|(u & Hu & Hv & ?)]; [by left|].
    right. exists u. auto.
  - apply authenticatePAP_inv in Hr as [Hr|(u & Hu & Hv & ?)]; [by left|].
    right. exists u. auto.
Qed.

Lemma Authenticate_reply request client r :
  (forall name u, GetUserByUsername name = Ok (Some u) -> small_user u) ->
  Authenticate config request client = Ok r -> reply_to request r.
Proof.
  intros Hsmall [Hr|(u & Hu & _ & [[_ ->]|(_ & nt & resp & pc & ac & ->)])]%Authenticate_inv.
  - by apply rejected_reply.
  - eauto using createAccept_reply.
  - apply createMSCHAPAccept_reply.
Qed.
End Methods.

(** ** Requests on which the authenticator returns, and on which it panics *)

Definition well_shaped_vsas (p : Packet) : Prop :=
  Forall (fun a => attr_Type a = AttrVendorSpecific -> (6 <= length (attr_Value a))%nat)
    (Attributes p).

(** The services return, with a user whenever they report no error. *)
Record backend_total `{RadiusBackend} : Prop := mk_backend_total {
  users_return : forall name, returns (GetUserByUsername name) = true;
  users_not_nil : forall name, GetUserByUsername name <> Ok None;
  verify_returns : forall id pw, returns (Verify id pw) = true;
  nthash_returns : forall id, returns (getNTHash id) = true
}.

Lemma vendor_id_ok {E} v :
  (4 <= length v)%nat -> vendor_id (E:=E) v = Ok (be_decode (take 4 v)).
Proof.
  intros Hv. unfold vendor_id. rewrite slice_ok by lia. cbn [mbind res_bind].
  change (Z.to_nat 0) with 0%nat. rewrite drop_0. unfold read_be.
  rewrite bool_decide_eq_true_2 by (rewrite length_take; lia).
  by rewrite take_take.
Qed.

Lemma vendor_id_panic {E} v : (length v < 4)%nat -> vendor_id (E:=E) v = Panic.
Proof.
  intros Hv. unfold vendor_id.
  by rewrite (proj2 (slice_panic v 0 4)) by lia.
Qed.

Lemma index_in_range {E} (l : list byte) i :
  0 <= i < Z.of_nat (length l) -> exists b, index (E:=E) l i = Ok b.
Proof.
  intros Hi. destruct (lookup_lt_is_Some_2 l (Z.to_nat i)) as [b Hb]; [lia|].
  exists b. apply index_ok; [lia|done].
Qed.

Lemma getVendorAttribute_returns p vid t :
  well_shaped_vsas p -> exists o, getVendorAttribute p vid t = Ok o.
Proof.
  unfold well_shaped_vsas, getVendorAttribute.
  induction 1 as [|a attrs Ha _ IH]; cbn [getVendorAttribute_loop]; [by eauto|].
  case_bool_decide as Ht; [|done]. specialize (Ha Ht).
  rewrite vendor_id_ok by lia. cbn [mbind res_bind].
  destruct (@index_in_range string (attr_Value a) 4) as [b4 ->]; [lia|].
  cbn [mbind res_bind]. case_match; [|done].
  destruct (@index_in_range string (attr_Value a) 5) as [b5 ->]; [lia|].
  cbn [mbind res_bind]. rewrite slice_ok by lia. by eauto.
Qed.

Lemma isMSCHAPRequest_returns p :
  well_shaped_vsas p -> exists b, isMSCHAPRequest p = Ok b.
Proof.
  unfold well_shaped_vsas, isMSCHAPRequest.
  induction 1 as [|a attrs Ha _ IH]; cbn [isMSCHAP_loop]; [by eauto|].
  case_bool_decide as Ht; [|done]. specialize (Ha Ht).
  rewrite vendor_id_ok by lia. cbn [mbind res_bind]. case_match; [by eauto|done].
Qed.

Lemma no_vsa_not_mschap p :
  Forall (fun a => attr_Type a <> AttrVendorSpecific) (Attributes p) ->
  isMSCHAPRequest p = Ok false.
Proof.
  unfold isMSCHAPRequest. induction 1 as [|a attrs Ha _ IH]; cbn [isMSCHAP_loop]; [done|].
  by rewrite bool_decide_eq_false_2.
Qed.

Section Total.
Context `{RadiusBackend} (config : AuthenticatorConfig).
Context (Htotal : backend_total).
Context (Hsep : MFAInPassword config = true -> MFASeparator config <> "").

Lemma submitted_password_returns request secret v :
  returns (submitted_password config request secret v) = true.
Proof using Hsep.
  unfold submitted_password. destruct (MFAInPassword config); [|done].
  specialize (Hsep eq_refl). unfold split_first.
  destruct (str (MFASeparator config)) eqn:Hs; [|done].
  exfalso. apply Hsep. by rewrite <-(unstr_str (MFASeparator config)), Hs.
Qed.

Lemma authenticatePAP_returns request client username :
  returns (authenticatePAP config request client username) = true.
Proof using Hsep Htotal.
  unfold authenticatePAP. destruct (GetAttribute _ _) as [enc|]; [|done].
  apply bind_returns; [apply submitted_password_returns|]. intros pw.
  apply on_result_returns; [by apply users_return| |done].
  intros [u|] _; [|done].
  apply on_result_returns; [by apply verify_returns| |done].
  by intros [] _.
Qed.

Lemma authenticateCHAP_returns request username a :
  returns (authenticateCHAP config request username a) = true.
Proof using Htotal.
  unfold authenticateCHAP. destruct (Z.ltb_spec (Z.of_nat (length (attr_Value a))) 17); [done|].
  destruct (@index_in_range string (attr_Value a) 0) as [b0 ->]; [lia|].
  cbn [mbind res_bind]. rewrite slice_ok by lia. cbn [mbind res_bind].
  apply on_result_returns; [by apply users_return| |done].
  by intros [u|] _.
Qed.

Lemma mschap_Authenticate_returns request username :
  well_shaped_vsas request -> returns (mschap_Authenticate request username) = true.
Proof using Htotal.
  intros Hvsa. unfold mschap_Authenticate.
  destruct (getVendorAttribute_returns request VendorMicrosoft MSCHAP2Response Hvsa)
    as [[resp|] ->]; cbn [mbind res_bind]; [|done].
  destruct (Z.eqb_spec (Z.of_nat (length (attr_Value resp))) 50); cbn [negb]; [|done].
  rewrite !slice_ok by lia. cbn [mbind res_bind].
  destruct (getVendorAttribute_returns request VendorMicrosoft MSCHAPChallenge Hvsa)
    as [[chal|] ->]; cbn [mbind res_bind]; [|done].
  apply on_result_returns; [by apply users_return| |done].
  intros [u|] Hu; [|by apply users_not_nil in Hu].
  apply on_result_returns; [by apply nthash_returns| |done].
  intros nt _. by case_match.
Qed.

Lemma Authenticate_returns request client :
  well_shaped_vsas request -> returns (Authenticate config request client) = true.
Proof using Hsep Htotal.
  intros Hvsa. unfold Authenticate. case_bool_decide; [done|].
  destruct (GetAttribute request AttrCHAPPassword); [apply authenticateCHAP_returns|].
  destruct (isMSCHAPRequest_returns request Hvsa) as [[] ->]; cbn [mbind res_bind].
  - by apply mschap_Authenticate_returns.
  - apply authenticatePAP_returns.
Qed.
End Total.

(** A request with a username, no CHAP password, and a Vendor-Specific
    attribute shorter than a vendor id. *)
Definition short_vsa_request (p : Packet) : Prop :=
  GetString p AttrUserName <> [] /\ GetAttribute p AttrCHAPPassword = None /\
  exists pre a post, Attributes p = pre ++ a :: post /\
    Forall (fun a => attr_Type a <> AttrVendorSpecific) pre /\
    attr_Type a = AttrVendorSpecific /\ (length (attr_Value a) < 4)%nat.

Lemma short_vsa_panics `{RadiusBackend} config request client :
  short_vsa_request request -> Authenticate config request client = Panic.
Proof.
  intros (Hname & Hchap & pre & a & post & Hattrs & Hpre & Ht & Hlen).
  unfold Authenticate. rewrite bool_decide_eq_false_2, Hchap by done.
  assert (isMSCHAPRequest request = Panic) as ->; [|done].
  unfold isMSCHAPRequest. rewrite Hattrs. clear Hattrs.
  induction Hpre as [|x pre Hx _ IH]; cbn [app isMSCHAP_loop].
  - rewrite bool_decide_eq_true_2 by done. by rewrite vendor_id_panic.
  - by rewrite bool_decide_eq_false_2.
Qed.

(** ** PAP, from the client's password to the reply *)

Lemma Authenticate_pap `{RadiusBackend} config request client enc pw :
  GetString request AttrUserName <> [] ->
  GetAttribute request AttrCHAPPassword = None ->
  Forall (fun a => attr_Type a <> AttrVendorSpecific) (Attributes request) ->
  GetAttribute request AttrUserPassword = Some enc ->
  attr_Value enc = EncodePassword pw (Authenticator request) (str (client_Secret client)) ->
  MFAInPassword config = false ->
  Authenticate config request client =
    on_result (GetUserByUsername (unstr (GetString request AttrUserName)))
      (fun u =>
         match u with
         | None => Ok (createReject request "Invalid credentials")
         | Some u =>
             on_result (Verify (user_ID u) (unstr (trim_nul pw)))
               (fun valid =>
                  if negb valid then Ok (createReject request "Invalid credentials")
                  else Ok (createAccept config request u))
               (fun _ => Ok (createReject request "Invalid credentials"))
         end)
      (fun _ => Ok (createReject request "Invalid credentials")).
Proof.
  intros Hname Hchap Hvsa Hpw Henc Hmfa. unfold Authenticate.
  rewrite bool_decide_eq_false_2, Hchap by done.
  rewrite no_vsa_not_mschap by done. cbn [mbind res_bind].
  unfold authenticatePAP, submitted_password.
  by rewrite Hpw, Hmfa, Henc, DecodePassword_encode.
Qed.

(** ** A concrete deployment, for the witnesses *)

Definition demo_user : User := new_user "u-1" "bob" "bob@example.com" "hash" UserStatusActive.

Definition demo_backend : RadiusBackend := {|
  GetUserByUsername name :=
    if bool_decide (name = "bob") then Ok (Some demo_user)
    else Err (Sentinel ErrNotFound);
  Verify id pw := Ok (bool_decide (id = "u-1" /\ pw = "hunter2"));
  GetNTHash := None;
  md4 l := md5 l
|}.

Definition demo_config : AuthenticatorConfig := mkAuthenticatorConfig false false "," 3600.

Definition demo_client : RADIUSClient :=
  mkRADIUSClient "c-1" "nas" "10.0.0.1" "s3cret" "t-1" true "generic" ∅.

Definition demo_auth : list byte := replicate 16 x07.

(** The request a NAS builds for user "bob" with the given password. *)
Definition demo_request (pw : string) : Packet :=
  mkPacket CodeAccessRequest x2a 0 demo_auth
    [mkAttribute AttrUserName (z2b 5) (str "bob");
     mkAttribute AttrUserPassword (z2b 18)
       (EncodePassword (str pw) demo_auth (str "s3cret"))]
    (str "s3cret").

Definition chap_request : Packet :=
  mkPacket CodeAccessRequest x2a 0 demo_auth
    [mkAttribute AttrUserName (z2b 5) (str "bob");
     mkAttribute AttrCHAPPassword (z2b 19) (replicate 17 x00)] (str "s3cret").

Definition crash_request : Packet :=
  mkPacket CodeAccessRequest x2a 0 demo_auth
    [mkAttribute AttrUserName (z2b 5) (str "bob");
     mkAttribute AttrVendorSpecific (z2b 2) []] (str "s3cret").

(** ** Theorems *)

(** C2: no Access-Accept without verified credentials.  Whenever the
    authenticator answers with Access-Accept, the user exists, the request
    carries no CHAP password, and either the password service accepted the
    submitted password for this user, or the MS-CHAPv2 response equals the
    one computed from the user's NT hash. *)
Theorem accept_implies_verified `{RadiusBackend} config request client r :
  Authenticate config request client = Ok r ->
  Code r = CodeAccessAccept ->
  exists u, GetUserByUsername (unstr (GetString request AttrUserName)) = Ok (Some u) /\
    GetAttribute request AttrCHAPPassword = None /\
    (password_verified config request client u \/ mschap_verified request u).
Proof.
  intros [Hr|(u & Hu & Hc & Hv)]%Authenticate_inv Hcode.
  - by rewrite (rejected_code _ _ Hr) in Hcode.
  - exists u. naive_solver.
Qed.

Lemma accept_implies_verified_witness :
  exists u, @GetUserByUsername demo_backend (unstr (str "bob")) = Ok (Some u) /\
    GetAttribute (demo_request "hunter2") AttrCHAPPassword = None /\
    (@password_verified demo_backend demo_config (demo_request "hunter2") demo_client u \/
     @mschap_verified demo_backend (demo_request "hunter2") u).
Proof.
  apply (@accept_implies_verified demo_backend demo_config (demo_request "hunter2") demo_client
           (createAccept demo_config (demo_request "hunter2") demo_user)).
  - vm_compute. reflexivity.
  - reflexivity.
Defined.

(** CHAP authentication never succeeds.  A request with a CHAP password is
    answered, if at all, with Access-Reject: the clear-text password it would
    need is never available. *)
Theorem chap_never_accepts `{RadiusBackend} config request client a r :
  GetAttribute request AttrCHAPPassword = Some a ->
  Authenticate config request client = Ok r ->
  Code r = CodeAccessReject.
Proof.
  intros Ha [Hr|(u & _ & Hc & _)]%Authenticate_inv; [|congruence].
  by apply rejected_code in Hr.
Qed.

Lemma chap_never_accepts_witness :
  Code (createReject chap_request "CHAP not supported for this user") = CodeAccessReject.
Proof.
  apply (@chap_never_accepts demo_backend demo_config chap_request demo_client
           (mkAttribute AttrCHAPPassword (z2b 19) (replicate 17 x00))).
  - vm_compute. reflexivity.
  - vm_compute. reflexivity.
Defined.

(** With services that return, the authenticator answers every request
    whose Vendor-Specific attributes have at least six bytes, provided that
    the separator is set when the MFA code is split from the password; but a
    request with a shorter Vendor-Specific attribute (less than four bytes)
    makes it panic, whatever the services and the configuration. *)
Theorem authenticate_total_or_panics `{RadiusBackend} config request client :
  (backend_total ->
   (MFAInPassword config = true -> MFASeparator config <> "") ->
   well_shaped_vsas request ->
   returns (Authenticate config request client) = true) /\
  (short_vsa_request request -> Authenticate config request client = Panic).
Proof.
  split; [intros; by apply Authenticate_returns|apply short_vsa_panics].
Qed.

Lemma authenticate_total_or_panics_witness :
  returns (@Authenticate demo_backend demo_config (demo_request "wrong") demo_client) = true /\
  @Authenticate demo_backend demo_config crash_request demo_client = Panic.
Proof.
  split.
  - apply (proj1 (@authenticate_total_or_panics demo_backend demo_config
             (demo_request "wrong") demo_client)).
    + split.
      * intros name. cbn. case_bool_decide; reflexivity.
      * intros name. cbn. case_bool_decide; discriminate.
      * reflexivity.
      * reflexivity.
    + discriminate.
    + apply Forall_cons. split; [discriminate|].
      apply Forall_cons. split; [discriminate|]. apply Forall_nil. exact I.
  - apply (proj2 (@authenticate_total_or_panics demo_backend demo_config
             crash_request demo_client)).
    split; [discriminate|]. split; [reflexivity|].
    exists [mkAttribute AttrUserName (z2b 5) (str "bob")],
      (mkAttribute AttrVendorSpecific (z2b 2) []), [].
    split; [reflexivity|]. split; [|split; [reflexivity|cbn; lia]].
    repeat constructor. discriminate.
Defined.

(** The MS-CHAP key schedule.  The eight key bytes carry the 56 bits of
    the hash slice in order, and the ninth-bit parity of each byte comes out
    odd exactly when its low bit was clear before: the loop counts that bit,
    so some keys have bytes of even parity. *)
Theorem des_key_schedule key :
  length key = 7%nat ->
  concat (map key_bits (makeDESKey key)) = Des.bits_of_bytes key /\
  (forall c, count_bits (odd_parity c) mod 2 = if Z.testbit (b2z c) 0 then 0 else 1).
Proof. intros Hkey. split; [by apply makeDESKey_bits|apply odd_parity_spec]. Qed.

Lemma des_key_schedule_witness :
  concat (map key_bits (makeDESKey (str "seven77"))) = Des.bits_of_bytes (str "seven77") /\
  (forall c, count_bits (odd_parity c) mod 2 = if Z.testbit (b2z c) 0 then 0 else 1).
Proof. apply (des_key_schedule (str "seven77")). reflexivity. Defined.
