(* ===== verification/RadiusServer.v ===== *)
(** * RADIUS server (server.go, accounting.go, client_manager.go, proxy.go)

    What happens to a datagram: the NAS is looked up by address through a
    cache, the packet is parsed, authenticated or accounted, and the reply is
    signed and encoded; the proxy forwards a request upstream.  The database,
    the network and the parsing of addresses are parameters.  The theorems:
    a reply datagram parses and carries a valid Response Authenticator, a
    full PAP exchange, the datagrams that crash the server, the accounting
    record, the coherence of the client cache. *)

From S2P Require Import Prelude Bytes Hashes Types RadiusPacket RadiusAttributes RadiusAuth.
Local Open Scope Z_scope.

(** ** Client manager (client_manager.go) *)

(** The database and the address functions of package net.  [find_exact ip]
    is the query [ip_address = ip AND enabled]; [gorm.ErrRecordNotFound] is
    [Ok None].  [find_cidr] lists the enabled clients whose address has a
    slash. *)
Class ClientDB := {
  find_exact : string -> res error (option RADIUSClient);
  find_cidr : res error (list RADIUSClient);
  valid_ip : string -> bool;
  cidr_contains : string -> string -> bool
}.

Notation client_cache := (gmap string RADIUSClient) (only parsing).

Section ClientManager.
Context `{ClientDB}.

(** The first subnet, in database order, that contains the address. *)
Fixpoint first_match (clients : list RADIUSClient) (ip : string) : option RADIUSClient :=
  match clients with
  | [] => None
  | c :: clients =>
      if cidr_contains (client_IPAddress c) ip then Some c else first_match clients ip
  end.

Definition GetByIP (cache : client_cache) (ip : string) :
    client_cache * res error RADIUSClient :=
  match cache !! ip with
  | Some client => (cache, Ok client)
  | None =>
      match find_exact ip with
      | Ok (Some client) => (<[ip := client]> cache, Ok client)
      | Ok None =>
          match find_cidr with
          | Ok clients =>
              if negb (valid_ip ip) then (cache, Err (Errorf "invalid request IP"))
              else match first_match clients ip with
                   | Some client => (<[ip := client]> cache, Ok client)
                   | None => (cache, Err (Errorf "client not found"))
                   end
          | Err e => (cache, Err e)
          | Panic => (cache, Panic)
          | Diverge => (cache, Diverge)
          end
      | Err e => (cache, Err e)
      | Panic => (cache, Panic)
      | Diverge => (cache, Diverge)
      end
  end.

Definition InvalidateCache (cache : client_cache) : client_cache := ∅.
End ClientManager.

(** ** Accounting (accounting.go) *)

Record RadiusAccounting := mkRadiusAccounting {
  acct_ID : string;
  acct_SessionID : list byte;
  acct_Username : list byte;
  acct_NASIdentifier : list byte;
  acct_NASIPAddress : list byte;
  acct_StatusType : Z;
  acct_SessionTime : Z;
  acct_InputOctets : Z;
  acct_OutputOctets : Z;
  acct_InputPackets : Z;
  acct_OutputPackets : Z;
  acct_TerminateCause : Z;
  acct_CreatedAt : time
}.

(** [if val := request.GetAttribute(t); val != nil { Uint32(val.Value) }],
    zero when the attribute is absent. *)
Definition metric (request : Packet) (t : byte) : res string Z :=
  match GetAttribute request t with
  | None => Ok 0
  | Some val => read_be 4 (attr_Value val)
  end.

Section Accounting.
(** [db.Create(&record)], on an abstract database state. *)
Context {DB : Type} (create : DB -> RadiusAccounting -> res error DB).

(** [remote] is the address of the sender, [None] when it is nil; [now_id]
    and [now] are the two readings of the clock. *)
Definition accounting_record (request : Packet) (remote : option string)
    (now_id now : time) : res string RadiusAccounting :=
  match GetAttribute request AttrAcctStatusType with
  | None => Err "missing Acct-Status-Type"
  | Some statusTypeAttr =>
      if negb (Z.of_nat (length (attr_Value statusTypeAttr)) =? 4)
      then Err "invalid Acct-Status-Type length"
      else
        statusType ← read_be 4 (attr_Value statusTypeAttr);
        let sessionID := GetString request AttrAcctSessionId in
        if bool_decide (sessionID = []) then Err "missing Acct-Session-Id"
        else
          let nas := GetString request AttrNASIPAddress in
          let nas := match nas, remote with
                     | [], Some ip => str ip
                     | _, _ => nas
                     end in
          sessionTime ← metric request AttrAcctSessionTime;
          inputOctets ← metric request AttrAcctInputOctets;
          outputOctets ← metric request AttrAcctOutputOctets;
          inputPackets ← metric request AttrAcctInputPackets;
          outputPackets ← metric request AttrAcctOutputPackets;
          terminateCause ← metric request AttrAcctTerminateCause;
          Ok (mkRadiusAccounting
                (unstr sessionID +:+ "-" +:+ pretty now_id)
                sessionID (GetString request AttrUserName)
                (GetString request AttrNASIdentifier) nas statusType sessionTime
                inputOctets outputOctets inputPackets outputPackets terminateCause now)
  end.

Definition accounting_Handle (db : DB) (request : Packet) (remote : option string)
    (now_id now : time) : res string (DB * Packet) :=
  record ← accounting_record request remote now_id now;
  on_result (create db record)
    (fun db => Ok (db, CreateResponse request CodeAccountingResponse))
    (fun _ => Err "failed to save accounting record").
End Accounting.

(** ** Request handlers (server.go) *)

Definition createRejectResponse (request : Packet) (message : string) : Packet :=
  AddAttribute (CreateResponse request CodeAccessReject) AttrReplyMessage (str message).

(** The reply as it is sent: signed, then encoded. *)
Definition sign (response request : Packet) : Packet :=
  with_authenticator response
    (CalculateResponseAuthenticator response (Authenticator request)).

Section Handlers.
Context `{RadiusBackend} `{ClientDB}.

(** [authenticator] is [None] when the server has none.  The outcome is the
    client cache and the datagram sent, if any. *)
Definition handleAuthRequest (authenticator : option AuthenticatorConfig)
    (cache : client_cache) (data : list byte) (ip : string) :
    client_cache * res string (option (list byte)) :=
  let '(cache, client) := GetByIP cache ip in
  (cache,
   on_result client
     (fun client =>
        on_result (ParsePacket data (str (client_Secret client)))
          (fun packet =>
             if negb (bool_decide (Code packet = CodeAccessRequest)) then Ok None
             else
               response ← match authenticator with
                          | Some config =>
                              on_result (Authenticate config packet client)
                                (fun r => Ok r)
                                (fun _ => Ok (createRejectResponse packet "Internal error"))
                          | None => Ok (createRejectResponse packet "Server not configured")
                          end;
               Ok (Some (encode_bytes (sign response packet))))
          (fun _ => Ok None))
     (fun _ => Ok None)).

(** [accounting] is the database of the accounting handler, [None] when the
    server has no such handler. *)
Context {DB : Type} (accounting : option (DB -> RadiusAccounting -> res error DB)).

Definition handleAcctRequest (cache : client_cache) (db : DB) (data : list byte)
    (ip : string) (now_id now : time) :
    client_cache * res string (DB * option (list byte)) :=
  let '(cache, client) := GetByIP cache ip in
  (cache,
   on_result client
     (fun client =>
        on_result (ParsePacket data (str (client_Secret client)))
          (fun packet =>
             if negb (bool_decide (Code packet = CodeAccountingRequest)) then Ok (db, None)
             else
               match accounting with
               | None => Ok (db, None)
               | Some create =>
                   on_result (accounting_Handle create db packet (Some ip) now_id now)
                     (fun '(db, response) =>
                        Ok (db, Some (encode_bytes (sign response packet))))
                     (fun _ => Ok (db, None))
               end)
          (fun _ => Ok (db, None)))
     (fun _ => Ok (db, None))).
End Handlers.

(** ** Proxy (proxy.go) *)

Record UpstreamServer := mkUpstreamServer {
  up_Address : string;
  up_Secret : string;
  up_Weight : Z
}.

Record ProxyConfig := mkProxyConfig {
  proxy_Enabled : bool;
  proxy_UpstreamServers : list UpstreamServer;
  proxy_RetryCount : Z;
  proxy_Timeout : Z
}.

Section Proxy.
(** The connection to an upstream server: resolving and dialling it, then
    sending a datagram and waiting for the answer. *)
Context (dial : string -> res error unit) (exchange : string -> list byte -> res error (list byte)).

(** [getConn]: an open connection is reused. *)
Definition getConn (conns : gset string) (address : string) : gset string * res error unit :=
  if bool_decide (address ∈ conns) then (conns, Ok tt)
  else match dial address with
       | Ok _ => ({[address]} ∪ conns, Ok tt)
       | r => (conns, r)
       end.

Definition proxy_packet (request : Packet) (upstream : UpstreamServer) : Packet :=
  mkPacket (Code request) (Identifier request) 0 (Authenticator request)
    (Attributes request) (str (up_Secret upstream)).

Definition Forward (config : ProxyConfig) (conns : gset string) (request : Packet)
    (client : RADIUSClient) : gset string * res error Packet :=
  match proxy_Enabled config, proxy_UpstreamServers config with
  | true, upstream :: _ =>
      let '(conns, conn) := getConn conns (up_Address upstream) in
      (conns,
       _ ← conn;
       let data := encode_bytes (proxy_packet request upstream) in
       resp ← exchange (up_Address upstream) data;
       on_result (ParsePacket (take 4096 resp) (str (up_Secret upstream)))
         (fun respPacket =>
            Ok (mkPacket (Code respPacket) (Identifier respPacket) (Length respPacket)
                  (Authenticator respPacket) (Attributes respPacket)
                  (str (client_Secret client))))
         (fun msg => Err (Errorf msg)))
  | _, _ => (conns, Err (Errorf "proxy not enabled or no upstream servers"))
  end.
End Proxy.

(** ** The Response Authenticator, as the NAS checks it (RFC 2865, section 3) *)
Definition valid_response (out reqAuth secret : list byte) : Prop :=
  take 16 (drop 4 out) = md5 (splice out 4 reqAuth ++ secret).

Lemma encode_splice p auth :
  length auth = 16%nat -> wf_packet p ->
  splice (encode_bytes p) 4 auth = encode_bytes (with_authenticator p auth).
Proof.
  intros Hauth Hp. rewrite !encode_bytes_eq. cbn [Authenticator with_authenticator Attributes Code Identifier].
  rewrite !length_app, Hauth, (wf_auth _ Hp). unfold splice.
  set (hd := be_encode 2 _). assert (length hd = 2%nat) as Hhd by apply be_encode_length.
  set (ab := attrs_bytes (Attributes p)).
  rewrite (app_assoc [Code p; Identifier p] hd).
  rewrite take_app_length' by (rewrite length_app, Hhd; done).
  rewrite <-app_assoc, (app_assoc _ (Authenticator p) ab), (app_assoc _ _ ab).
  rewrite drop_app_length'; [by rewrite <-!app_assoc|].
  rewrite !length_app, Hhd, Hauth, (wf_auth _ Hp). done.
Qed.

Lemma encode_auth_field p :
  wf_packet p -> take 16 (drop 4 (encode_bytes p)) = Authenticator p.
Proof.
  intros Hp. rewrite encode_bytes_eq. apply fields_auth, Hp.
Qed.

Lemma CalculateResponseAuthenticator_length r a :
  length (CalculateResponseAuthenticator r a) = 16%nat.
Proof. apply md5_length. Qed.

Lemma with_authenticator_twice p a b :
  with_authenticator (with_authenticator p a) b = with_authenticator p b.
Proof. done. Qed.

Lemma sign_valid response request :
  wf_packet response -> length (Authenticator request) = 16%nat ->
  valid_response (encode_bytes (sign response request)) (Authenticator request)
    (Secret response).
Proof.
  intros Hr Hauth. unfold valid_response, sign.
  set (sig := CalculateResponseAuthenticator response (Authenticator request)).
  assert (wf_packet (with_authenticator response sig)) as Hw.
  { apply with_authenticator_wf; [apply CalculateResponseAuthenticator_length|done]. }
  rewrite encode_auth_field by done. rewrite encode_splice by done.
  rewrite with_authenticator_twice. cbn [Authenticator with_authenticator].
  unfold sig, CalculateResponseAuthenticator. by rewrite encode_splice.
Qed.

Lemma createRejectResponse_reply request msg :
  (length (str msg) <= 253)%nat -> reply_to request (createRejectResponse request msg).
Proof. apply createReject_reply. Qed.

Section HandlerFacts.
Context `{RadiusBackend} `{ClientDB}.
Context (Hsmall : forall name u, GetUserByUsername name = Ok (Some u) -> small_user u).

(** The reply of the handler before it is signed. *)
Definition reply_of (authenticator : option AuthenticatorConfig) (packet : Packet)
    (client : RADIUSClient) : res string Packet :=
  match authenticator with
  | Some config =>
      on_result (Authenticate config packet client) (fun r => Ok r)
        (fun _ => Ok (createRejectResponse packet "Internal error"))
  | None => Ok (createRejectResponse packet "Server not configured")
  end.

Lemma reply_of_reply authenticator packet client r :
  reply_of authenticator packet client = Ok r -> reply_to packet r.
Proof using Hsmall.
  unfold reply_of. destruct authenticator as [config|].
  - intros [(a & Ha & [= <-])|(e & _ & [= <-])]%on_result_ok_inv.
    + by eapply Authenticate_reply.
    + apply createRejectResponse_reply. cbn. lia.
  - intros [= <-]. apply createRejectResponse_reply. cbn. lia.
Qed.

Lemma handleAuthRequest_inv authenticator cache data ip cache' out :
  handleAuthRequest authenticator cache data ip = (cache', Ok (Some out)) ->
  exists client packet r,
    GetByIP cache ip = (cache', Ok client) /\
    ParsePacket data (str (client_Secret client)) = Ok packet /\
    Code packet = CodeAccessRequest /\
    reply_of authenticator packet client = Ok r /\
    out = encode_bytes (sign r packet).
Proof using.
  unfold handleAuthRequest. destruct (GetByIP cache ip) as [c1 client] eqn:Hc.
  intros [= <- Hr]. apply on_result_ok_inv in Hr as [(cl & -> & Hr)|(e & _ & Hr)]; [|done].
  apply on_result_ok_inv in Hr as [(packet & Hp & Hr)|(e & _ & Hr)]; [|done].
  case_bool_decide as Hcode; cbn [negb] in Hr; [|done].
  apply bind_ok_inv in Hr as (r & Hrep & [= <-]).
  exists cl, packet, r. done.
Qed.

Lemma handleAuthRequest_packet authenticator cache data ip cache' client packet :
  GetByIP cache ip = (cache', Ok client) ->
  ParsePacket data (str (client_Secret client)) = Ok packet ->
  Code packet = CodeAccessRequest ->
  handleAuthRequest authenticator cache data ip =
    (cache', r ← reply_of authenticator packet client;
             Ok (Some (encode_bytes (sign r packet)))).
Proof using.
  intros Hc Hp Hcode. unfold handleAuthRequest. rewrite Hc. cbn [on_result].
  rewrite Hp. cbn [on_result]. by rewrite bool_decide_eq_true_2.
Qed.

Lemma signed_reply_parses packet r secret :
  reply_to packet r -> wf_packet packet -> Secret packet = secret ->
  ParsePacket (encode_bytes (sign r packet)) secret =
    Ok (reframed (sign r packet) (encoded_length r) secret) /\
  valid_response (encode_bytes (sign r packet)) (Authenticator packet) secret.
Proof using.
  intros [Hid Hs Hwf] Hp Hsec.
  assert (wf_packet (sign r packet)) as Hw.
  { apply with_authenticator_wf; [apply CalculateResponseAuthenticator_length|done]. }
  split.
  - pose proof (ParsePacket_encode (sign r packet) [] secret Hw) as He.
    by rewrite app_nil_r in He.
  - rewrite <-Hsec, <-Hs. apply sign_valid; [done|apply Hp].
Qed.
End HandlerFacts.

(** ** Client cache *)
Section Cache.
Context `{ClientDB}.

(** The answer of the database, without a cache. *)
Definition db_answer (ip : string) : res error RADIUSClient := (GetByIP ∅ ip).2.

(** Every cached client is the one the database would give. *)
Definition coherent (cache : client_cache) : Prop :=
  forall ip c, cache !! ip = Some c -> db_answer ip = Ok c.

Lemma GetByIP_miss (cache : gmap string RADIUSClient) ip :
  cache !! ip = None ->
  GetByIP cache ip =
    (match db_answer ip with Ok c => <[ip := c]> cache | _ => cache end, db_answer ip).
Proof.
  intros Hc. unfold db_answer, GetByIP. rewrite Hc, lookup_empty.
  destruct (find_exact ip) as [[c|]| | |]; try done.
  destruct find_cidr as [cs| | |]; try done.
  destruct (negb (valid_ip ip)); [done|]. by destruct (first_match cs ip).
Qed.

Lemma GetByIP_coherent cache ip :
  coherent cache ->
  (GetByIP cache ip).2 = db_answer ip /\ coherent (GetByIP cache ip).1.
Proof.
  intros Hco. destruct (cache !! ip) as [c|] eqn:Hc.
  - unfold GetByIP at 1 2. rewrite Hc. cbn. split; [|done]. by rewrite (Hco _ _ Hc).
  - rewrite GetByIP_miss by done. cbn. split; [done|].
    destruct (db_answer ip) as [c| | |] eqn:Ha; try done.
    intros ip' c'. rewrite lookup_insert. case_decide; [|apply Hco].
    intros [= <-]. by subst.
Qed.
End Cache.

(** ** A concrete deployment, for the witnesses *)
Definition demo_db : ClientDB := {|
  find_exact ip := if bool_decide (ip = "10.0.0.1") then Ok (Some demo_client) else Ok None;
  find_cidr := Ok [];
  valid_ip ip := true;
  cidr_contains net ip := false
|}.

Definition demo_datagram (pw : string) : list byte := encode_bytes (demo_request pw).

Definition demo_reply (authenticator : option AuthenticatorConfig) (data : list byte) :=
  (@handleAuthRequest demo_backend demo_db authenticator ∅ data "10.0.0.1").2.

(** The code of the reply, when there is one. *)
Definition reply_code (r : res string (option (list byte))) : option byte :=
  match r with Ok (Some (c :: _)) => Some c | _ => None end.

Example demo_accept :
  reply_code (demo_reply (Some demo_config) (demo_datagram "hunter2")) = Some CodeAccessAccept.
Proof. by vm_compute. Qed.
Example demo_reject :
  reply_code (demo_reply (Some demo_config) (demo_datagram "hunter3")) = Some CodeAccessReject.
Proof. by vm_compute. Qed.

Lemma demo_small name u : @GetUserByUsername demo_backend name = Ok (Some u) -> small_user u.
Proof. cbn. case_bool_decide; [|done]. intros [= <-]. unfold small_user. cbn. lia. Qed.

(** ** Theorems *)

(** Every datagram the server sends in answer to an authentication request
    is a well-formed packet with the identifier of the request, and its
    Response Authenticator is the one RFC 2865 prescribes, for the request's
    authenticator and the secret shared with the client.  User identifiers
    are at most 248 bytes long, so that the Class attribute has room. *)
Theorem auth_reply_valid `{RadiusBackend} `{ClientDB} authenticator cache data ip cache' out :
  (forall name u, GetUserByUsername name = Ok (Some u) -> small_user u) ->
  handleAuthRequest authenticator cache data ip = (cache', Ok (Some out)) ->
  exists client packet reply,
    GetByIP cache ip = (cache', Ok client) /\
    ParsePacket data (str (client_Secret client)) = Ok packet /\
    ParsePacket out (str (client_Secret client)) = Ok reply /\
    Identifier reply = Identifier packet /\
    valid_response out (Authenticator packet) (str (client_Secret client)).
Proof.
  intros Hsmall (client & packet & r & Hc & Hp & _ & Hr & ->)%handleAuthRequest_inv.
  pose proof (reply_of_reply Hsmall _ _ _ _ Hr) as Hrep.
  pose proof (ParsePacket_inv _ _ _ Hp) as (Hwf & Hsec & _).
  destruct (signed_reply_parses packet r _ Hrep Hwf Hsec) as [Hparse Hvalid].
  exists client, packet, (reframed (sign r packet) (encoded_length r) (str (client_Secret client))).
  repeat (split; [done|]). split; [|done]. cbn. apply Hrep.
Qed.

Lemma auth_reply_valid_witness :
  exists client packet reply,
    @GetByIP demo_db ∅ "10.0.0.1" = (<["10.0.0.1" := demo_client]> ∅, Ok client) /\
    ParsePacket (demo_datagram "hunter2") (str (client_Secret client)) = Ok packet /\
    ParsePacket (encode_bytes (sign (createAccept demo_config (demo_request "hunter2") demo_user)
                   (demo_request "hunter2"))) (str (client_Secret client)) = Ok reply /\
    Identifier reply = Identifier packet /\
    valid_response (encode_bytes (sign (createAccept demo_config (demo_request "hunter2") demo_user)
                      (demo_request "hunter2"))) (Authenticator packet)
      (str (client_Secret client)).
Proof.
  apply (@auth_reply_valid demo_backend demo_db (Some demo_config) ∅
           (demo_datagram "hunter2") "10.0.0.1").
  - exact demo_small.
  - vm_compute. reflexivity.
Defined.

(** C1: a PAP exchange, end to end.  A NAS known to the server sends the
    encoding of a well-formed Access-Request with a username, the password
    hidden under the shared secret, and no CHAP or vendor attribute; MFA codes
    are not split off, the user exists, and the password does not end in NUL.
    Then the server sends the signed Access-Accept if the password service
    accepts the password, and the signed Access-Reject otherwise. *)
Theorem pap_exchange `{RadiusBackend} `{ClientDB} config cache ip cache' client
    request enc pw u valid :
  GetByIP cache ip = (cache', Ok client) ->
  wf_packet request -> Code request = CodeAccessRequest ->
  GetString request AttrUserName <> [] ->
  GetAttribute request AttrCHAPPassword = None ->
  Forall (fun a => attr_Type a <> AttrVendorSpecific) (Attributes request) ->
  GetAttribute request AttrUserPassword = Some enc ->
  attr_Value enc =
    EncodePassword (str pw) (Authenticator request) (str (client_Secret client)) ->
  trim_nul (str pw) = str pw ->
  MFAInPassword config = false ->
  GetUserByUsername (unstr (GetString request AttrUserName)) = Ok (Some u) ->
  Verify (user_ID u) pw = Ok valid ->
  let received := reframed request (encoded_length request) (str (client_Secret client)) in
  handleAuthRequest (Some config) cache (encode_bytes request) ip =
    (cache', Ok (Some (encode_bytes
       (sign (if valid then createAccept config received u
              else createReject received "Invalid credentials") received)))).
Proof.
  intros Hc Hwf Hcode Hname Hchap Hvsa Hpw Henc Htrim Hmfa Hu Hv received.
  pose proof (ParsePacket_encode request [] (str (client_Secret client)) Hwf) as Hp.
  rewrite app_nil_r in Hp.
  rewrite (handleAuthRequest_packet _ _ _ _ _ _ _ Hc Hp) by done.
  unfold reply_of. fold received.
  rewrite (Authenticate_pap config received client enc (str pw)) by done.
  change (GetString received AttrUserName) with (GetString request AttrUserName).
  rewrite Hu. cbn [on_result]. rewrite Htrim, unstr_str, Hv. cbn [on_result].
  by destruct valid.
Qed.

Lemma pap_exchange_witness :
  let received := reframed (demo_request "hunter2") 43 (str "s3cret") in
  @handleAuthRequest demo_backend demo_db (Some demo_config) ∅
    (encode_bytes (demo_request "hunter2")) "10.0.0.1" =
    (<["10.0.0.1" := demo_client]> ∅, Ok (Some (encode_bytes
       (sign (createAccept demo_config received demo_user) received)))).
Proof.
  apply (@pap_exchange demo_backend demo_db demo_config ∅ "10.0.0.1"
           (<["10.0.0.1" := demo_client]> ∅) demo_client (demo_request "hunter2")
           (mkAttribute AttrUserPassword (z2b 18)
             (EncodePassword (str "hunter2") demo_auth (str "s3cret")))
           "hunter2" demo_user true).
  - vm_compute. reflexivity.
  - split; [reflexivity| |vm_compute; reflexivity].
    apply Forall_cons. split; [vm_compute; reflexivity|].
    apply Forall_cons. split; [vm_compute; reflexivity|]. apply Forall_nil. exact I.
  - reflexivity.
  - vm_compute. discriminate.
  - vm_compute. reflexivity.
  - apply Forall_cons. split; [discriminate|].
    apply Forall_cons. split; [discriminate|]. apply Forall_nil. exact I.
  - vm_compute. reflexivity.
  - reflexivity.
  - vm_compute. reflexivity.
  - reflexivity.
  - vm_compute. reflexivity.
  - vm_compute. reflexivity.
Defined.

(** C19: two kinds of datagram from a known NAS crash the server, since neither
    the handler nor the worker recovers from a panic: one whose Length field
    is below the header size, and an Access-Request that parses with a
    username, no CHAP password, and a Vendor-Specific attribute of fewer than
    four bytes. *)
Theorem hostile_datagrams_panic `{RadiusBackend} `{ClientDB} config cache ip cache' client data :
  GetByIP cache ip = (cache', Ok client) ->
  (undersized data \/
   exists packet, ParsePacket data (str (client_Secret client)) = Ok packet /\
     Code packet = CodeAccessRequest /\ short_vsa_request packet) ->
  handleAuthRequest (Some config) cache data ip = (cache', Panic).
Proof.
  intros Hc [Hu|(packet & Hp & Hcode & Hshort)].
  - unfold handleAuthRequest. rewrite Hc. cbn [on_result].
    by rewrite (proj2 (ParsePacket_panics data _) Hu).
  - rewrite (handleAuthRequest_packet _ _ _ _ _ _ _ Hc Hp Hcode).
    unfold reply_of. by rewrite short_vsa_panics.
Qed.

Lemma hostile_datagrams_panic_witness :
  @handleAuthRequest demo_backend demo_db (Some demo_config) ∅ (encode_bytes crash_request)
    "10.0.0.1" = (<["10.0.0.1" := demo_client]> ∅, Panic) /\
  @handleAuthRequest demo_backend demo_db (Some demo_config) ∅ (replicate 20 x00)
    "10.0.0.1" = (<["10.0.0.1" := demo_client]> ∅, Panic).
Proof.
  split; apply (@hostile_datagrams_panic demo_backend demo_db demo_config ∅ "10.0.0.1"
                  (<["10.0.0.1" := demo_client]> ∅) demo_client).
  - vm_compute. reflexivity.
  - right. exists (reframed crash_request 27 (str "s3cret")).
    split; [vm_compute; reflexivity|]. split; [reflexivity|].
    split; [discriminate|]. split; [reflexivity|].
    exists [mkAttribute AttrUserName (z2b 5) (str "bob")],
      (mkAttribute AttrVendorSpecific (z2b 2) []), [].
    split; [reflexivity|]. split; [|split; [reflexivity|cbn; lia]].
    apply Forall_cons. split; [discriminate|]. apply Forall_nil. exact I.
  - vm_compute. reflexivity.
  - left. split; vm_compute; congruence.
Defined.

(** The client cache changes no answer.  From a coherent cache, a lookup
    answers what the database answers and leaves a coherent cache; a client
    that is cached is returned until [InvalidateCache], whatever the database
    says by then. *)
Theorem client_cache_transparent `{ClientDB} cache ip :
  (coherent cache ->
   (GetByIP cache ip).2 = db_answer ip /\ coherent (GetByIP cache ip).1) /\
  (forall (db' : ClientDB) c, cache !! ip = Some c -> @GetByIP db' cache ip = (cache, Ok c)) /\
  coherent (InvalidateCache cache).
Proof.
  split; [apply GetByIP_coherent|]. split.
  - intros db' c Hc. unfold GetByIP. by rewrite Hc.
  - intros ip' c. unfold InvalidateCache. by rewrite lookup_empty.
Qed.

Lemma client_cache_transparent_witness :
  (@GetByIP demo_db ∅ "10.0.0.1").2 = @db_answer demo_db "10.0.0.1" /\
  @coherent demo_db (@GetByIP demo_db ∅ "10.0.0.1").1.
Proof.
  apply (proj1 (@client_cache_transparent demo_db ∅ "10.0.0.1")).
  intros ip c Hc. rewrite lookup_empty in Hc. discriminate.
Defined.

(** ** Accounting *)

Lemma metric_ok request t z :
  metric request t = Ok z ->
  z = match GetAttribute request t with
      | None => 0
      | Some val => be_decode (take 4 (attr_Value val))
      end.
Proof.
  unfold metric, read_be. destruct (GetAttribute request t); [|by intros [= <-]].
  case_bool_decide; [|done]. by intros [= <-].
Qed.

Lemma accounting_record_inv request remote t1 t2 r :
  accounting_record request remote t1 t2 = Ok r ->
  (exists st, GetAttribute request AttrAcctStatusType = Some st /\
     length (attr_Value st) = 4%nat /\ acct_StatusType r = be_decode (attr_Value st)) /\
  acct_SessionID r = GetString request AttrAcctSessionId /\ acct_SessionID r <> [] /\
  acct_Username r = GetString request AttrUserName /\
  metric request AttrAcctSessionTime = Ok (acct_SessionTime r) /\
  metric request AttrAcctInputOctets = Ok (acct_InputOctets r) /\
  metric request AttrAcctOutputOctets = Ok (acct_OutputOctets r).
Proof.
  unfold accounting_record. destruct (GetAttribute request AttrAcctStatusType) as [st|]; [|done].
  destruct (Z.eqb_spec (Z.of_nat (length (attr_Value st))) 4) as [Hl|]; [|done]. cbn [negb].
  intros Hr. apply bind_ok_inv in Hr as (status & Hs & Hr).
  apply read_be_inv in Hs as [_ ->].
  case_bool_decide as Hid; [done|]. inv_bind. injection Hr as <-. cbn.
  split; [|done]. exists st. split; [done|]. split; [lia|].
  by rewrite take_ge by lia.
Qed.

Lemma metric_panic request t :
  metric request t = Panic <->
  exists val, GetAttribute request t = Some val /\ (length (attr_Value val) < 4)%nat.
Proof.
  unfold metric, read_be. destruct (GetAttribute request t) as [val|].
  - case_bool_decide; split; try done; try (intros (? & [= <-] & ?); lia).
    intros _. exists val. split; [done|lia].
  - split; [done|]. by intros (? & ? & _).
Qed.

(** Accounting writes one record or none.  A request is acknowledged only
    after its record was saved: the record carries the four-byte status, the
    non-empty session id, the user name and the counters of the request, and
    the acknowledgement is the signed, empty Accounting-Response; without a
    reply the database is unchanged. *)
Theorem accounting_acknowledges_saved `{ClientDB} {DB} (accounting : option (DB -> RadiusAccounting -> res error DB))
    cache db data ip t1 t2 cache' db' out :
  handleAcctRequest accounting cache db data ip t1 t2 = (cache', Ok (db', out)) ->
  match out with
  | None => db' = db
  | Some bytes =>
      exists create packet record,
        accounting = Some create /\
        Code packet = CodeAccountingRequest /\
        accounting_record packet (Some ip) t1 t2 = Ok record /\
        create db record = Ok db' /\
        acct_SessionID record <> [] /\
        acct_Username record = GetString packet AttrUserName /\
        bytes = encode_bytes (sign (CreateResponse packet CodeAccountingResponse) packet)
  end.
Proof.
  unfold handleAcctRequest. destruct (GetByIP cache ip) as [c1 client].
  intros [= <- Hr]. apply on_result_ok_inv in Hr as [(cl & -> & Hr)|(e & _ & [= <- <-])]; [|done].
  apply on_result_ok_inv in Hr as [(packet & Hp & Hr)|(e & _ & [= <- <-])]; [|done].
  case_bool_decide as Hcode; cbn [negb] in Hr; [|by injection Hr as <- <-].
  destruct accounting as [create|]; [|by injection Hr as <- <-].
  apply on_result_ok_inv in Hr as [([db1 resp] & Hh & [= <- <-])|(e & _ & [= <- <-])]; [|done].
  unfold accounting_Handle in Hh. apply bind_ok_inv in Hh as (record & Hrec & Hh).
  apply on_result_ok_inv in Hh as [(db2 & Hcr & [= <- <-])|(e & _ & ?)]; [|done].
  pose proof (accounting_record_inv _ _ _ _ _ Hrec) as (_ & _ & Hid & Hname & _).
  by exists create, packet, record.
Qed.

Definition acct_request : Packet :=
  mkPacket CodeAccountingRequest x05 0 demo_auth
    [mkAttribute AttrAcctStatusType (z2b 6) (be_encode 4 1);
     mkAttribute AttrAcctSessionId (z2b 4) (str "s1");
     mkAttribute AttrAcctInputOctets (z2b 6) (be_encode 4 1234)] (str "s3cret").

Definition demo_create (db : list RadiusAccounting) (r : RadiusAccounting) :
    res error (list RadiusAccounting) := Ok (db ++ [r]).

Definition acct_demo_record : RadiusAccounting :=
  mkRadiusAccounting "s1-77" (str "s1") [] [] (str "10.0.0.1") 1 0 1234 0 0 0 0 78.

Lemma accounting_acknowledges_saved_witness :
  exists create packet record,
    Some demo_create = Some create /\
    Code packet = CodeAccountingRequest /\
    accounting_record packet (Some "10.0.0.1") 77 78 = Ok record /\
    create [] record = Ok [acct_demo_record] /\
    acct_SessionID record <> [] /\
    acct_Username record = GetString packet AttrUserName /\
    encode_bytes (sign (CreateResponse acct_request CodeAccountingResponse) acct_request) =
      encode_bytes (sign (CreateResponse packet CodeAccountingResponse) packet).
Proof.
  apply (@accounting_acknowledges_saved demo_db _ (Some demo_create) ∅ []
           (encode_bytes acct_request) "10.0.0.1" 77 78 (<["10.0.0.1" := demo_client]> ∅)
           [acct_demo_record]
           (Some (encode_bytes (sign (CreateResponse acct_request CodeAccountingResponse)
                    acct_request)))).
  vm_compute. reflexivity.
Defined.

(** ** Proxy *)

(** A forwarded answer is returned under the secret of the client. *)
Lemma Forward_secret dial exchange config conns request client conns' p :
  Forward dial exchange config conns request client = (conns', Ok p) ->
  Secret p = str (client_Secret client) /\
  exists upstream rest data,
    proxy_UpstreamServers config = upstream :: rest /\ proxy_Enabled config = true /\
    exchange (up_Address upstream) (encode_bytes (proxy_packet request upstream)) = Ok data /\
    up_Address upstream ∈ conns'.
Proof.
  unfold Forward. destruct (proxy_Enabled config); [|done].
  destruct (proxy_UpstreamServers config) as [|upstream rest]; [done|].
  destruct (getConn dial conns (up_Address upstream)) as [c1 conn] eqn:Hg.
  intros [= <- Hr]. apply bind_ok_inv in Hr as ([] & -> & Hr).
  apply bind_ok_inv in Hr as (data & Hx & Hr).
  apply on_result_ok_inv in Hr as [(resp & _ & [= <-])|(e & _ & ?)]; [|done].
  split; [done|]. exists upstream, rest, data. repeat (split; [done|]).
  unfold getConn in Hg. case_bool_decide; [by injection Hg as <-|].
  destruct (dial _); injection Hg as <-; try done. set_solver.
Qed.
