(* ===== verification/MemIdentity.v ===== *)
(** * The in-memory identity repository (internal/storage/memory)

    [IdentityMemoryRepository] of identity_memory_repository.go.  The maps hold
    pointers that callers share, so the state is a heap of user and group
    objects next to the three maps; a pointer the heap does not hold is a nil
    pointer, and following it panics.  Every operation that ranges over a map
    takes the order of the visit, and [uuid.New] is an argument. *)

From S2P Require Import Prelude Types.
Local Open Scope Z_scope.

Notation loc := positive (only parsing).

(** ** State *)
Record identity_repo := mkIdentityRepo {
  user_heap : gmap loc User;
  group_heap : gmap loc UserGroup;
  repo_users : gmap string loc;
  repo_groups : gmap string loc;
  repo_userGroups : gmap string (gset string)
}.

Definition NewIdentityMemoryRepository : identity_repo := mkIdentityRepo ∅ ∅ ∅ ∅ ∅.

Definition set_user_heap h (r : identity_repo) : identity_repo :=
  mkIdentityRepo h (group_heap r) (repo_users r) (repo_groups r) (repo_userGroups r).
Definition set_group_heap h (r : identity_repo) : identity_repo :=
  mkIdentityRepo (user_heap r) h (repo_users r) (repo_groups r) (repo_userGroups r).
Definition set_users us (r : identity_repo) : identity_repo :=
  mkIdentityRepo (user_heap r) (group_heap r) us (repo_groups r) (repo_userGroups r).
Definition set_groups gs (r : identity_repo) : identity_repo :=
  mkIdentityRepo (user_heap r) (group_heap r) (repo_users r) gs (repo_userGroups r).
Definition set_userGroups ug (r : identity_repo) : identity_repo :=
  mkIdentityRepo (user_heap r) (group_heap r) (repo_users r) (repo_groups r) ug.

Notation repoM := (prog identity_repo error).

(** [*p], for the user and group pointers *)
Definition user_at (p : loc) : repoM User :=
  r ← get;
  match user_heap r !! p with Some u => mret u | None => lift Panic end.
Definition group_at (p : loc) : repoM UserGroup :=
  r ← get;
  match group_heap r !! p with Some g => mret g | None => lift Panic end.

(** [*p = u] *)
Definition write_user (p : loc) (u : User) : repoM unit :=
  modify (fun r => set_user_heap (<[p := u]> (user_heap r)) r).
Definition write_group (p : loc) (g : UserGroup) : repoM unit :=
  modify (fun r => set_group_heap (<[p := g]> (group_heap r)) r).

(** [for _, x := range m]: the body looks at the object and may leave the loop
    with a value. *)
Fixpoint scan {A B} (h : gmap loc A) (body : loc -> A -> option B)
    (l : list (string * loc)) : res error (option B) :=
  match l with
  | [] => Ok None
  | (_, p) :: l =>
      match h !! p with
      | None => Panic
      | Some x =>
          match body p x with
          | Some b => Ok (Some b)
          | None => scan h body l
          end
      end
  end.

(** The same loop appending the pointers that match. *)
Fixpoint collect {A} (h : gmap loc A) (keep : A -> bool) (l : list (string * loc)) :
    res error (list loc) :=
  match l with
  | [] => Ok []
  | (_, p) :: l =>
      match h !! p with
      | None => Panic
      | Some x => ps ← collect h keep l; Ok (if keep x then p :: ps else ps)
      end
  end.

(** The loop of [DeleteGroup] over the users with memberships. *)
Definition drop_memberships (id : string) (l : list (string * gset string)) : repoM unit :=
  for_each (fun '(userID, _) => modify (fun r => set_userGroups
    (alter (fun gs => gs ∖ {[id]}) userID (repo_userGroups r)) r)) l.

Section Repository.
Context (ord : map_order).

(** ** User operations *)
Definition CreateUser (uuid : string) (user : loc) : repoM unit :=
  r ← get;
  u ← (if bool_decide (repo_users r = ∅) then mret None else
       user ← user_at user; mret (Some user));
  dup ← lift (scan (user_heap r) (fun _ x =>
    match u with
    | None => None
    | Some u =>
        if bool_decide (user_Username x = user_Username u)
        then Some (Errorf ("username '" +:+ user_Username u +:+ "' already exists"))
        else if bool_decide (user_Email x = user_Email u)
        then Some (Errorf ("email '" +:+ user_Email u +:+ "' already exists"))
        else None
    end) (range ord (repo_users r)));
  match dup with
  | Some e => throw e
  | None =>
      u ← user_at user;
      write_user user (set_user_ID uuid u);;
      modify (fun r => set_users (<[uuid := user]> (repo_users r)) r)
  end.

Definition FindUsersBySource (sourceID : string) : repoM (list loc) :=
  r ← get; mret (range ord (repo_users r)).*2.

Definition CreateBatch (uuids : nat -> string) (users : list loc) : repoM unit :=
  for_each (fun '(i, p) =>
    u ← user_at p;
    write_user p (set_user_ID (uuids i) u);;
    modify (fun r => set_users (<[uuids i := p]> (repo_users r)) r))
    (imap pair users).

(** One round of [UpdateBatch], which is also [UpdateUser]. *)
Definition UpdateUser (user : loc) : repoM unit :=
  u ← user_at user;
  r ← get;
  match repo_users r !! user_ID u with
  | None => throw (Errorf ("user with ID '" +:+ user_ID u +:+ "' not found for update"))
  | Some _ => modify (fun r => set_users (<[user_ID u := user]> (repo_users r)) r)
  end.

Definition UpdateBatch (users : list loc) : repoM unit := for_each UpdateUser users.

Definition DeleteBatch (userIDs : list string) : repoM unit :=
  for_each (fun id => modify (fun r => set_users (delete id (repo_users r)) r)) userIDs.

Definition GetUserByID (id : string) : repoM loc :=
  r ← get;
  match repo_users r !! id with
  | Some p => mret p
  | None => throw (Errorf ("user with ID '" +:+ id +:+ "' not found"))
  end.

(** The first user in the range that satisfies the test. *)
Definition find_user (test : User -> bool) (not_found : error) : repoM loc :=
  r ← get;
  found ← lift (scan (user_heap r) (fun p u => if test u then Some p else None)
                  (range ord (repo_users r)));
  match found with
  | Some p => mret p
  | None => throw not_found
  end.

Definition GetUserByUsername (username : string) : repoM loc :=
  find_user (fun u => bool_decide (user_Username u = username))
    (Errorf ("user with username '" +:+ username +:+ "' not found")).

Definition GetUserByEmail (email : string) : repoM loc :=
  find_user (fun u => bool_decide (user_Email u = email))
    (Errorf ("user with email '" +:+ email +:+ "' not found")).

Definition GetUserByExternalID (externalID sourceID : string) : repoM loc :=
  find_user (fun u => bool_decide (user_ExternalID u = externalID) &&
                      bool_decide (user_SourceType u = sourceID))
    (Sentinel ErrUserNotFound).

Definition DeleteUser (id : string) : repoM unit :=
  r ← get;
  match repo_users r !! id with
  | None => throw (Errorf ("user with ID '" +:+ id +:+ "' not found for deletion"))
  | Some _ =>
      modify (fun r => set_users (delete id (repo_users r)) r);;
      modify (fun r => set_userGroups (delete id (repo_userGroups r)) r)
  end.

(** The page and the total, which a page past the end answers with 0. *)
Definition ListUsers (filter : UserFilter) : repoM (list loc * Z) :=
  r ← get;
  let users := (range ord (repo_users r)).*2 in
  let start := int64 (int64 (filter_Page filter - 1) * filter_PageSize filter) in
  if bool_decide (Z.of_nat (length users) < start) then mret ([], 0)
  else
    ps ← lift (page users start (filter_PageSize filter));
    mret (ps, Z.of_nat (length users)).

Definition ChangeUserStatus (userID newStatus : string) : repoM unit :=
  r ← get;
  match repo_users r !! userID with
  | None => throw (Errorf ("user with ID '" +:+ userID +:+ "' not found"))
  | Some p => u ← user_at p; write_user p (set_user_Status newStatus u)
  end.

Definition attribute_matches (attribute : string) (value : any) (u : User) : bool :=
  match value with
  | AnyString s =>
      if bool_decide (attribute = "email") then bool_decide (user_Email u = s)
      else if bool_decide (attribute = "username") then bool_decide (user_Username u = s)
      else false
  | _ => false
  end.

Definition FindUsersByAttribute (attribute : string) (value : any) : repoM (list loc) :=
  r ← get;
  lift (collect (user_heap r) (attribute_matches attribute value) (range ord (repo_users r))).

(** One round of [UpsertBatch]: the first user with the same email is
    overwritten in place, or the new one is filed. *)
Definition upsert_one (uuid : string) (p : loc) : repoM unit :=
  r ← get;
  existingUser ← (if bool_decide (repo_users r = ∅) then mret None else
    user ← user_at p;
    lift (scan (user_heap r)
            (fun q u => if bool_decide (user_Email u = user_Email user) then Some q else None)
            (range ord (repo_users r))));
  user ← user_at p;
  match existingUser with
  | Some q => u ← user_at q; write_user q (merge_user user u)
  | None =>
      (if bool_decide (user_ID user = "") then write_user p (set_user_ID uuid user)
       else mret ());;
      user ← user_at p;
      modify (fun r => set_users (<[user_ID user := p]> (repo_users r)) r)
  end.

Definition UpsertBatch (uuids : nat -> string) (users : list loc) : repoM unit :=
  for_each (fun '(i, p) => upsert_one (uuids i) p) (imap pair users).

(** ** Group operations *)
Definition CreateGroup (uuid : string) (group : loc) : repoM unit :=
  r ← get;
  g ← (if bool_decide (repo_groups r = ∅) then mret None else
       group ← group_at group; mret (Some group));
  dup ← lift (scan (group_heap r) (fun _ x =>
    match g with
    | None => None
    | Some g =>
        if bool_decide (group_Name x = group_Name g)
        then Some (Errorf ("group with name '" +:+ group_Name g +:+ "' already exists"))
        else None
    end) (range ord (repo_groups r)));
  match dup with
  | Some e => throw e
  | None =>
      g ← group_at group;
      write_group group (set_group_ID uuid g);;
      modify (fun r => set_groups (<[uuid := group]> (repo_groups r)) r)
  end.

Definition GetGroupByID (id : string) : repoM loc :=
  r ← get;
  match repo_groups r !! id with
  | Some p => mret p
  | None => throw (Errorf ("group with ID '" +:+ id +:+ "' not found"))
  end.

Definition GetGroupByName (name : string) : repoM loc :=
  r ← get;
  found ← lift (scan (group_heap r)
    (fun p g => if bool_decide (group_Name g = name) then Some p else None)
    (range ord (repo_groups r)));
  match found with
  | Some p => mret p
  | None => throw (Errorf ("group with name '" +:+ name +:+ "' not found"))
  end.

Definition UpdateGroup (group : loc) : repoM unit :=
  g ← group_at group;
  r ← get;
  match repo_groups r !! group_ID g with
  | None => throw (Errorf ("group with ID '" +:+ group_ID g +:+ "' not found for update"))
  | Some _ => modify (fun r => set_groups (<[group_ID g := group]> (repo_groups r)) r)
  end.

Definition DeleteGroup (id : string) : repoM unit :=
  r ← get;
  match repo_groups r !! id with
  | None => throw (Errorf ("group with ID '" +:+ id +:+ "' not found for deletion"))
  | Some _ =>
      modify (fun r => set_groups (delete id (repo_groups r)) r);;
      drop_memberships id (range ord (repo_userGroups r))
  end.

Definition ListGroups (pq : PaginationQuery) : repoM (list loc) :=
  r ← get;
  lift (page (range ord (repo_groups r)).*2 (pq_Offset pq) (pq_PageSize pq)).

Definition AddUserToGroup (userID groupID : string) : repoM unit :=
  r ← get;
  match repo_users r !! userID, repo_groups r !! groupID with
  | None, _ => throw (Errorf ("user with ID '" +:+ userID +:+ "' not found"))
  | _, None => throw (Errorf ("group with ID '" +:+ groupID +:+ "' not found"))
  | Some _, Some _ =>
      (match repo_userGroups r !! userID with
       | None => modify (fun r => set_userGroups (<[userID := ∅]> (repo_userGroups r)) r)
       | Some _ => mret ()
       end);;
      modify (fun r => set_userGroups
        (alter (fun gs => {[groupID]} ∪ gs) userID (repo_userGroups r)) r)
  end.

Definition RemoveUserFromGroup (userID groupID : string) : repoM unit :=
  modify (fun r => set_userGroups
    (alter (fun gs => gs ∖ {[groupID]}) userID (repo_userGroups r)) r).

(** The range over the set of a user's groups, in the order of the map with
    these keys. *)
Definition GetUserGroups (userID : string) : repoM (list loc) :=
  r ← get;
  match repo_userGroups r !! userID with
  | None => mret []
  | Some groupIDs =>
      mret (omap (fun '(groupID, _) => repo_groups r !! groupID)
              (range ord (gset_to_gmap () groupIDs)))
  end.
End Repository.

(** ** Loops over the maps *)
Section Loops.
Context {A : Type} (h : gmap loc A).
Implicit Types l : list (string * loc).

Definition live (l : list (string * loc)) : Prop :=
  forall k p, (k, p) ∈ l -> is_Some (h !! p).

Lemma scan_spec {B} (body : loc -> A -> option B) l :
  live l ->
  (scan h body l = Ok None /\
   forall k p x, (k, p) ∈ l -> h !! p = Some x -> body p x = None) \/
  (exists b k p x, scan h body l = Ok (Some b) /\
    (k, p) ∈ l /\ h !! p = Some x /\ body p x = Some b).
Proof.
  induction l as [|[k p] l IH]; intros Hl; cbn [scan].
  { left. split; [done|]. by intros ??? ?%elem_of_nil. }
  destruct (Hl k p (list_elem_of_here _ _)) as [x Hx]. rewrite Hx.
  destruct (body p x) as [b|] eqn:Hb.
  { right. exists b, k, p, x. repeat split; [constructor|done|done]. }
  destruct IH as [[-> Hno]|(b & k' & p' & x' & -> & Hin & Hx' & Hb')].
  - intros k' p' Hin. by apply (Hl k'), list_elem_of_further.
  - left. split; [done|]. intros k' p' x' [[= -> ->]|Hin]%elem_of_cons Hx'; [congruence|].
    by eapply Hno.
  - right. exists b, k', p', x'. repeat split; [by constructor|done|done].
Qed.

Lemma scan_not_err {B} (body : loc -> A -> option B) l e : scan h body l <> Err e.
Proof.
  induction l as [|[k p] l IH]; cbn [scan]; [done|].
  destruct (h !! p); [|done]. by destruct (body p a).
Qed.

Lemma collect_spec (keep : A -> bool) l :
  live l ->
  exists ps, collect h keep l = Ok ps /\
    forall p, p ∈ ps <-> exists k x, (k, p) ∈ l /\ h !! p = Some x /\ keep x.
Proof.
  induction l as [|[k p] l IH]; intros Hl; cbn [collect].
  { exists []. split; [done|]. intros p. rewrite elem_of_nil. split; [done|].
    by intros (? & ? & ?%elem_of_nil & _). }
  destruct (Hl k p (list_elem_of_here _ _)) as [x Hx]. rewrite Hx.
  destruct IH as (ps & -> & Hps).
  { intros k' p' Hin. by apply (Hl k'), list_elem_of_further. }
  exists (if keep x then p :: ps else ps). split; [done|]. intros q. split.
  - intros Hq. assert ((q = p /\ keep x) \/ q ∈ ps) as [[-> ?]|Hq'].
    { destruct (keep x); [|by right]. apply elem_of_cons in Hq as [->|?]; auto. }
    + exists k, x. split; [constructor|done].
    + apply Hps in Hq' as (k' & y & ? & ? & ?). exists k', y. split; [by constructor|done].
  - intros (k' & y & [[= -> ->]|Hin]%elem_of_cons & Hy & Hk).
    + rewrite Hx in Hy. injection Hy as ->. destruct (keep y); [constructor|done].
    + assert (q ∈ ps) by (apply Hps; eauto). destruct (keep x); [by constructor|done].
Qed.
End Loops.

(** ** Well-formed repositories *)

(** [stored r id u]: the repository holds the user object [u] under [id]. *)
Definition stored (r : identity_repo) (id : string) (u : User) : Prop :=
  exists p, repo_users r !! id = Some p /\ user_heap r !! p = Some u.

(** No stored pointer is nil, and nobody is a member of a group that does not
    exist. *)
Record valid (r : identity_repo) : Prop := {
  valid_users : forall id p, repo_users r !! id = Some p -> is_Some (user_heap r !! p);
  valid_groups : forall id p, repo_groups r !! id = Some p -> is_Some (group_heap r !! p);
  valid_members : forall id gs, repo_userGroups r !! id = Some gs ->
                  gs ⊆ dom (repo_groups r)
}.

Definition emails_unique (r : identity_repo) : Prop :=
  forall id1 id2 u1 u2, stored r id1 u1 -> stored r id2 u2 ->
  user_Email u1 = user_Email u2 -> id1 = id2.
Definition names_unique (r : identity_repo) : Prop :=
  forall id1 id2 u1 u2, stored r id1 u1 -> stored r id2 u2 ->
  user_Username u1 = user_Username u2 -> id1 = id2.

Lemma valid_new : valid NewIdentityMemoryRepository.
Proof. split; by intros ??; cbn; rewrite lookup_empty. Qed.

Lemma valid_live_users r ord :
  valid r -> live (user_heap r) (range ord (repo_users r)).
Proof. intros Hv k p ?%elem_of_range. by eapply valid_users. Qed.

Lemma valid_live_groups r ord :
  valid r -> live (group_heap r) (range ord (repo_groups r)).
Proof. intros Hv k p ?%elem_of_range. by eapply valid_groups. Qed.

Lemma write_user_valid r p u : valid r -> valid (set_user_heap (<[p := u]> (user_heap r)) r).
Proof.
  intros []; split; cbn; [|done|done]. intros id q Hq.
  rewrite lookup_insert. case_decide; eauto.
Qed.

Lemma write_group_valid r p g :
  valid r -> valid (set_group_heap (<[p := g]> (group_heap r)) r).
Proof.
  intros []; split; cbn; [done| |done]. intros id q Hq.
  rewrite lookup_insert. case_decide; eauto.
Qed.

Lemma insert_user_valid r id p :
  valid r -> is_Some (user_heap r !! p) -> valid (set_users (<[id := p]> (repo_users r)) r).
Proof.
  intros [] ?; split; cbn; [|done|done]. intros id' q.
  rewrite lookup_insert. case_decide; [by intros [= ->]|eauto].
Qed.

Lemma insert_group_valid r id p :
  valid r -> is_Some (group_heap r !! p) -> valid (set_groups (<[id := p]> (repo_groups r)) r).
Proof.
  intros [? ? Hm] ?; split; cbn; [done| |].
  - intros id' q. rewrite lookup_insert. case_decide; [by intros [= ->]|eauto].
  - intros u gs Hu. rewrite dom_insert_L. specialize (Hm u gs Hu). set_solver.
Qed.

Lemma delete_user_valid r id : valid r -> valid (set_users (delete id (repo_users r)) r).
Proof.
  intros []; split; cbn; [|done|done]. intros id' q [_ ?]%lookup_delete_Some. eauto.
Qed.

Lemma set_userGroups_valid r ug :
  valid r -> (forall id gs, ug !! id = Some gs -> gs ⊆ dom (repo_groups r)) ->
  valid (set_userGroups ug r).
Proof. by intros [] ?; split. Qed.

Lemma alter_userGroups_valid r id f :
  valid r ->
  (forall gs, gs ⊆ dom (repo_groups r) -> f gs ⊆ dom (repo_groups r)) ->
  valid (set_userGroups (alter f id (repo_userGroups r)) r).
Proof.
  intros Hv Hf. apply set_userGroups_valid; [done|]. intros id' gs.
  rewrite lookup_alter. case_decide; [|by apply valid_members].
  intros (gs' & Hgs & ->)%fmap_Some. by eapply Hf, valid_members.
Qed.
#[export] Hint Resolve write_user_valid write_group_valid insert_user_valid
  insert_group_valid delete_user_valid valid_new : quantaid.

(** ** Every operation keeps a repository valid *)

(** Unfold the operation into its steps; the writes are discharged by the
    lemmas above. *)
Lemma user_at_run p r u :
  user_heap r !! p = Some u -> user_at p r = (Ok u, r).
Proof. unfold user_at, mbind, prog_bind, get. cbn. by intros ->. Qed.

Lemma user_at_inv p r : (exists u, user_heap r !! p = Some u /\ user_at p r = (Ok u, r)) \/
  (user_heap r !! p = None /\ user_at p r = (Panic, r)).
Proof.
  destruct (user_heap r !! p) as [u|] eqn:Hp; [left|right].
  - exists u. split; [done|by apply user_at_run].
  - split; [done|]. unfold user_at, mbind, prog_bind, get. cbn. by rewrite Hp.
Qed.

Lemma group_at_inv p r : (exists g, group_heap r !! p = Some g /\ group_at p r = (Ok g, r)) \/
  (group_heap r !! p = None /\ group_at p r = (Panic, r)).
Proof.
  unfold group_at, mbind, prog_bind, get. cbn.
  destruct (group_heap r !! p) as [g|] eqn:Hp; cbn; rewrite ?Hp; naive_solver.
Qed.

Lemma preserves_user_at {I : identity_repo -> Prop} p : preserves I (user_at p).
Proof. intros r Hr. by destruct (user_at_inv p r) as [(? & ? & ->)|(? & ->)]. Qed.

Lemma preserves_group_at {I : identity_repo -> Prop} p : preserves I (group_at p).
Proof. intros r Hr. by destruct (group_at_inv p r) as [(? & ? & ->)|(? & ->)]. Qed.

(** After a pointer was followed it is known to be live. *)
Lemma preserves_with_user {A} (I : identity_repo -> Prop) p (f : User -> repoM A) :
  (forall u r, I r -> user_heap r !! p = Some u -> I (f u r).2) ->
  preserves I (user_at p ≫= f).
Proof.
  intros Hf r Hr. unfold mbind, prog_bind.
  destruct (user_at_inv p r) as [(u & Hu & ->)|(? & ->)]; [|done]. by apply Hf.
Qed.

Lemma preserves_with_group {A} (I : identity_repo -> Prop) p (f : UserGroup -> repoM A) :
  (forall g r, I r -> group_heap r !! p = Some g -> I (f g r).2) ->
  preserves I (group_at p ≫= f).
Proof.
  intros Hf r Hr. unfold mbind, prog_bind.
  destruct (group_at_inv p r) as [(u & Hu & ->)|(? & ->)]; [|done]. by apply Hf.
Qed.

Lemma preserves_write_user p u : preserves valid (write_user p u).
Proof. intros r. apply write_user_valid. Qed.

Lemma preserves_write_group p g : preserves valid (write_group p g).
Proof. intros r. apply write_group_valid. Qed.

Lemma preserves_find_user ord I test e : preserves I (find_user ord test e).
Proof.
  apply preserves_get_bind. intros r Hr.
  eapply (preserves_bind I); [apply preserves_lift| |exact Hr].
  intros []; [apply preserves_ret|apply preserves_throw].
Qed.

(** Give a stored object its identifier and file it. *)
Lemma file_user_valid id p u r :
  valid r -> user_heap r !! p = Some u ->
  valid (set_users (<[id := p]> (repo_users r)) (set_user_heap (<[p := set_user_ID id u]> (user_heap r)) r)).
Proof.
  intros Hv Hp. apply (insert_user_valid (set_user_heap _ r)); [by apply write_user_valid|].
  cbn. rewrite lookup_insert_eq. eauto.
Qed.

Lemma file_group_valid id p g r :
  valid r -> group_heap r !! p = Some g ->
  valid (set_groups (<[id := p]> (repo_groups r)) (set_group_heap (<[p := set_group_ID id g]> (group_heap r)) r)).
Proof.
  intros Hv Hp. apply (insert_group_valid (set_group_heap _ r)); [by apply write_group_valid|].
  cbn. rewrite lookup_insert_eq. eauto.
Qed.
#[export] Hint Resolve preserves_user_at preserves_group_at preserves_write_user
  preserves_write_group preserves_find_user : preserve.

Lemma CreateUser_valid ord uuid p : preserves valid (CreateUser ord uuid p).
Proof.
  apply preserves_get_bind. intros r Hr.
  eapply (preserves_bind valid); [| |exact Hr].
  { case_bool_decide; auto with preserve. }
  intros u. apply preserves_bind; [apply preserves_lift|]. intros [e|]; [apply preserves_throw|].
  apply preserves_with_user. intros v s Hs Hp. exact (file_user_valid _ _ _ _ Hs Hp).
Qed.

Lemma CreateGroup_valid ord uuid p : preserves valid (CreateGroup ord uuid p).
Proof.
  apply preserves_get_bind. intros r Hr.
  eapply (preserves_bind valid); [| |exact Hr].
  { case_bool_decide; auto with preserve. }
  intros u. apply preserves_bind; [apply preserves_lift|]. intros [e|]; [apply preserves_throw|].
  apply preserves_with_group. intros v s Hs Hp. exact (file_group_valid _ _ _ _ Hs Hp).
Qed.

Lemma CreateBatch_valid uuids ps : preserves valid (CreateBatch uuids ps).
Proof.
  apply preserves_for_each. intros [i p] _. apply preserves_with_user.
  intros u r Hr Hp. exact (file_user_valid _ _ _ _ Hr Hp).
Qed.

Lemma UpdateUser_valid p : preserves valid (UpdateUser p).
Proof.
  apply preserves_with_user. intros u r Hr Hp. rewrite prog_get_bind.
  destruct (repo_users r !! _); [|done]. apply (insert_user_valid r); eauto.
Qed.

Lemma UpdateGroup_valid p : preserves valid (UpdateGroup p).
Proof.
  apply preserves_with_group. intros u r Hr Hp. rewrite prog_get_bind.
  destruct (repo_groups r !! _); [|done]. apply (insert_group_valid r); eauto.
Qed.

Lemma DeleteUser_valid id : preserves valid (DeleteUser id).
Proof.
  apply preserves_get_bind. intros r Hr. destruct (_ !! _); [|done].
  apply (set_userGroups_valid (set_users _ r)); cbn.
  - by apply delete_user_valid.
  - intros u gs [_ Hu]%lookup_delete_Some. by eapply valid_members.
Qed.

Lemma ChangeUserStatus_valid id st : preserves valid (ChangeUserStatus id st).
Proof.
  apply preserves_get_bind. intros r Hr. destruct (_ !! _); [|done].
  revert Hr. apply preserves_bind; auto with preserve.
Qed.

Lemma upsert_one_valid ord uuid p : preserves valid (upsert_one ord uuid p).
Proof.
  apply preserves_get_bind. intros r Hr.
  eapply (preserves_bind valid); [| |exact Hr].
  { case_bool_decide; auto with preserve. }
  intros [q|].
  { apply preserves_bind; [apply preserves_user_at|]. intros u.
    apply preserves_bind; auto with preserve. }
  apply preserves_with_user. intros u s Hs Hp.
  revert Hs. apply (preserves_bind valid); [case_bool_decide; auto with preserve|].
  intros _. apply preserves_with_user. intros u' t Ht Hp'. apply (insert_user_valid t); eauto.
Qed.

Lemma UpsertBatch_valid ord uuids ps : preserves valid (UpsertBatch ord uuids ps).
Proof. apply preserves_for_each. intros [i p] _. apply upsert_one_valid. Qed.

(** [DeleteGroup] takes the group out of every membership set. *)
Lemma drop_memberships_run id l r :
  exists ug, drop_memberships id l r = (Ok (), set_userGroups ug r) /\
  forall u, ug !! u =
    (fun gs => if decide (u ∈ l.*1) then gs ∖ {[id]} else gs) <$> repo_userGroups r !! u.
Proof.
  revert r. induction l as [|[k gs0] l IH]; intros r.
  { exists (repo_userGroups r). split; [by destruct r|]. intros u.
    destruct (repo_userGroups r !! u); [|done]. cbn.
    rewrite decide_False; [done|apply not_elem_of_nil]. }
  set (r1 := set_userGroups (alter (fun gs => gs ∖ {[id]}) k (repo_userGroups r)) r).
  destruct (IH r1) as (ug & Hrun & Hug). exists ug. split; [exact Hrun|].
  intros u. rewrite Hug. unfold r1. cbn [repo_userGroups set_userGroups fmap list_fmap fst].
  rewrite lookup_alter. destruct (decide (k = u)) as [->|Hk].
  - destruct (repo_userGroups r !! u); [|done]. cbn. f_equal.
    rewrite (decide_True (P := u ∈ u :: _)) by constructor. case_decide; set_solver.
  - destruct (repo_userGroups r !! u); [|done]. cbn. f_equal.
    apply decide_ext. rewrite elem_of_cons. naive_solver.
Qed.

Lemma DeleteGroup_run ord id p r :
  repo_groups r !! id = Some p ->
  DeleteGroup ord id r =
    (Ok (), set_userGroups ((fun gs => gs ∖ {[id]}) <$> repo_userGroups r)
              (set_groups (delete id (repo_groups r)) r)).
Proof.
  intros Hp. unfold DeleteGroup. rewrite prog_get_bind, Hp.
  set (r1 := set_groups (delete id (repo_groups r)) r).
  destruct (drop_memberships_run id (range ord (repo_userGroups r)) r1) as (ug & Hrun & Hug).
  assert (ug = (fun gs => gs ∖ {[id]}) <$> repo_userGroups r) as ->.
  { apply map_eq. intros u. rewrite Hug, lookup_fmap. cbn.
    destruct (repo_userGroups r !! u) as [gs|] eqn:Hu; [|done]. cbn. f_equal.
    apply decide_True, list_elem_of_fmap. exists (u, gs). split; [done|].
    by apply elem_of_range. }
  exact Hrun.
Qed.

Lemma DeleteGroup_valid ord id : preserves valid (DeleteGroup ord id).
Proof.
  intros r Hr. destruct (repo_groups r !! id) as [p|] eqn:Hp.
  2: { unfold DeleteGroup. by rewrite prog_get_bind, Hp. }
  rewrite (DeleteGroup_run _ _ p) by done. destruct Hr as [Hu Hg Hm]. split; cbn; [done| |].
  - intros id' q [_ ?]%lookup_delete_Some. eauto.
  - intros u gs. rewrite lookup_fmap. intros (gs' & Hgs & ->)%fmap_Some.
    specialize (Hm u gs' Hgs). rewrite dom_delete_L. set_solver.
Qed.

Lemma AddUserToGroup_run u g r :
  AddUserToGroup u g r =
  match repo_users r !! u, repo_groups r !! g with
  | None, _ => (Err (Errorf ("user with ID '" +:+ u +:+ "' not found")), r)
  | _, None => (Err (Errorf ("group with ID '" +:+ g +:+ "' not found")), r)
  | Some _, Some _ => (Ok (), set_userGroups
      (<[u := {[g]} ∪ default ∅ (repo_userGroups r !! u)]> (repo_userGroups r)) r)
  end.
Proof.
  unfold AddUserToGroup. rewrite prog_get_bind.
  destruct (repo_users r !! u); [|done]. destruct (repo_groups r !! g); [|done].
  destruct (repo_userGroups r !! u) as [gs|] eqn:Hu; cbn.
  - unfold mbind, prog_bind, modify, mret, prog_ret. do 2 f_equal.
    apply map_eq. intros i. rewrite lookup_alter, lookup_insert.
    case_decide; [|done]. subst. by rewrite Hu.
  - unfold mbind, prog_bind, modify, mret, prog_ret. f_equal. unfold set_userGroups.
    cbn. f_equal. apply map_eq. intros i. rewrite lookup_alter, !lookup_insert.
    case_decide; [|done]. subst. by rewrite decide_True by done.
Qed.

Lemma AddUserToGroup_valid u g : preserves valid (AddUserToGroup u g).
Proof.
  intros r Hr. rewrite AddUserToGroup_run.
  destruct (repo_users r !! u); [|done]. destruct (repo_groups r !! g) eqn:Hg; [|done].
  apply set_userGroups_valid; [done|]. intros i gs. rewrite lookup_insert. case_decide.
  - intros [= <-]. apply union_subseteq. split.
    + apply singleton_subseteq_l, elem_of_dom. eauto.
    + destruct (repo_userGroups r !! u) eqn:Hu; [by eapply valid_members|set_solver].
  - by apply valid_members.
Qed.

Lemma RemoveUserFromGroup_valid u g : preserves valid (RemoveUserFromGroup u g).
Proof. intros r Hr. apply alter_userGroups_valid; [done|]. set_solver. Qed.

Lemma DeleteBatch_valid ids : preserves valid (DeleteBatch ids).
Proof.
  apply preserves_for_each. intros id _ r Hr. by apply (delete_user_valid r).
Qed.

Lemma UpdateBatch_valid ps : preserves valid (UpdateBatch ps).
Proof. apply preserves_for_each. intros p _. apply UpdateUser_valid. Qed.

(** ** Runs of the operations *)
Lemma find_user_spec ord test e r :
  valid r ->
  (find_user ord test e r = (Err e, r) /\ forall id u, stored r id u -> test u = false) \/
  (exists id p u, find_user ord test e r = (Ok p, r) /\ repo_users r !! id = Some p /\
     user_heap r !! p = Some u /\ test u).
Proof.
  intros Hv. unfold find_user. rewrite prog_get_bind.
  destruct (scan_spec (user_heap r) (fun p u => if test u then Some p else None)
              (range ord (repo_users r))) as [[Hs Hno]|(b & k & p & x & Hs & Hin & Hx & Hb)].
  { by apply valid_live_users. }
  - left. unfold mbind, prog_bind, lift. rewrite Hs. split; [done|].
    intros id u (p & Hid & Hp). apply (elem_of_range ord) in Hid.
    specialize (Hno id p u Hid Hp). by destruct (test u).
  - right. exists k, b, x. unfold mbind, prog_bind, lift. rewrite Hs.
    destruct (test x) eqn:Ht; [|done]. injection Hb as ->.
    apply elem_of_range in Hin. repeat split; try done.
Qed.

Lemma find_user_unique ord (test : User -> bool) e r id p u :
  valid r -> repo_users r !! id = Some p -> user_heap r !! p = Some u -> test u ->
  (forall id' u', stored r id' u' -> test u' -> id' = id) ->
  find_user ord test e r = (Ok p, r).
Proof.
  intros Hv Hid Hp Ht Huniq.
  destruct (find_user_spec ord test e r Hv) as [[_ Hno]|(id' & p' & u' & Hf & Hid' & Hp' & Ht')].
  - specialize (Hno id u). rewrite Hno in Ht; [done|by exists p].
  - assert (id' = id) as -> by (eapply Huniq; [by exists p'|done]). by simplify_eq.
Qed.

(** The duplicate check of [CreateUser]. *)
Definition duplicates (r : identity_repo) (u : User) : Prop :=
  exists id v, stored r id v /\ (user_Username v = user_Username u \/ user_Email v = user_Email u).

Definition created (uuid : string) (p : loc) (u : User) (r : identity_repo) : identity_repo :=
  set_users (<[uuid := p]> (repo_users r))
    (set_user_heap (<[p := set_user_ID uuid u]> (user_heap r)) r).

Lemma CreateUser_run ord uuid p u r :
  valid r -> user_heap r !! p = Some u ->
  (exists e, duplicates r u /\ CreateUser ord uuid p r = (Err (Errorf e), r)) \/
  (~ duplicates r u /\ CreateUser ord uuid p r = (Ok (), created uuid p u r)).
Proof.
  intros Hv Hp. unfold CreateUser. rewrite prog_get_bind.
  assert (Hu : forall A (f : option User -> repoM A), ((if bool_decide (repo_users r = ∅) then mret None
    else user ← user_at p; mret (Some user)) ≫= f) r =
    f (if bool_decide (repo_users r = ∅) then None else Some u) r).
  { intros. case_bool_decide; [done|]. apply prog_bind_run.
    by rewrite (prog_bind_run _ _ _ u r) by by apply user_at_run. }
  rewrite Hu. clear Hu.
  assert (Hok : (x ← user_at p; write_user p (set_user_ID uuid x);;
     modify (fun r => set_users (<[uuid := p]> (repo_users r)) r)) r = (Ok (), created uuid p u r)).
  { by rewrite (prog_bind_run _ _ _ u r) by by apply user_at_run. }
  case_bool_decide as Hemp.
  - right. rewrite Hemp, range_empty. split; [|by rewrite <- Hok].
    intros (id & v & (q & Hq & _) & _). by rewrite Hemp, lookup_empty in Hq.
  - match goal with |- context [scan ?h ?b ?l] =>
      destruct (scan_spec h b l) as [[Hs Hno]|(b' & k & q & x & Hs & Hin & Hx & Hb)] end;
      [by apply valid_live_users| |].
    + right. split.
      * intros (id & v & (q & Hq & Hv') & Hd). apply (elem_of_range ord) in Hq.
        specialize (Hno id q v Hq Hv'). cbn in Hno. repeat case_bool_decide; naive_solver.
      * unfold mbind at 1, prog_bind at 1, lift at 1. by rewrite Hs.
    + left. apply elem_of_range in Hin. cbn in Hb.
      assert (duplicates r u /\ exists e, b' = Errorf e) as [Hd [e ->]].
      { repeat case_bool_decide; simplify_eq; (split; [exists k, x|by eexists]);
          (split; [by exists q|auto]). }
      exists e. split; [done|].
      unfold mbind at 1, prog_bind at 1, lift at 1. by rewrite Hs.
Qed.

Lemma stored_created uuid p u r id v :
  (forall i, repo_users r !! i <> Some p) -> repo_users r !! uuid = None ->
  stored (created uuid p u r) id v <->
  (id = uuid /\ v = set_user_ID uuid u) \/ (id <> uuid /\ stored r id v).
Proof.
  intros Hp Hfresh. unfold stored, created. cbn. split.
  - intros (q & Hq & Hh). rewrite lookup_insert in Hq. rewrite lookup_insert in Hh.
    repeat case_decide; naive_solver.
  - intros [[-> ->]|[Hne (q & Hq & Hh)]].
    + exists p. by rewrite !lookup_insert_eq.
    + exists q. rewrite !lookup_insert_ne; [done| |done]. intros ->. by eapply Hp.
Qed.

(** ** Histories

    Any sequence of operations, in any map order, with any identifiers, and
    with callers writing through the pointers they hold in between. *)
Inductive operation : forall A, repoM A -> Prop :=
  | op_CreateUser ord uuid p : operation _ (CreateUser ord uuid p)
  | op_CreateBatch uuids ps : operation _ (CreateBatch uuids ps)
  | op_UpdateUser p : operation _ (UpdateUser p)
  | op_UpdateBatch ps : operation _ (UpdateBatch ps)
  | op_UpsertBatch ord uuids ps : operation _ (UpsertBatch ord uuids ps)
  | op_DeleteUser id : operation _ (DeleteUser id)
  | op_DeleteBatch ids : operation _ (DeleteBatch ids)
  | op_ChangeUserStatus id st : operation _ (ChangeUserStatus id st)
  | op_CreateGroup ord uuid p : operation _ (CreateGroup ord uuid p)
  | op_UpdateGroup p : operation _ (UpdateGroup p)
  | op_DeleteGroup ord id : operation _ (DeleteGroup ord id)
  | op_AddUserToGroup u g : operation _ (AddUserToGroup u g)
  | op_RemoveUserFromGroup u g : operation _ (RemoveUserFromGroup u g).

Inductive step (r : identity_repo) : identity_repo -> Prop :=
  | step_operation A (m : repoM A) : operation A m -> step r (m r).2
  | step_write_user p u : step r (write_user p u r).2
  | step_write_group p g : step r (write_group p g r).2.

Lemma operation_valid A m : operation A m -> preserves valid m.
Proof.
  destruct 1; auto using CreateUser_valid, CreateBatch_valid, UpdateUser_valid,
    UpdateBatch_valid, UpsertBatch_valid, DeleteUser_valid, DeleteBatch_valid,
    ChangeUserStatus_valid, CreateGroup_valid, UpdateGroup_valid, DeleteGroup_valid,
    AddUserToGroup_valid, RemoveUserFromGroup_valid.
Qed.

Lemma reachable_valid r r' : valid r -> rtc step r r' -> valid r'.
Proof.
  induction 2 as [|r r1 r2 Hstep _ IH]; [done|]. apply IH. destruct Hstep.
  - by eapply operation_valid.
  - by apply preserves_write_user.
  - by apply preserves_write_group.
Qed.

Lemma omap_total {A B} (f : A -> option B) l :
  (forall x, x ∈ l -> is_Some (f x)) -> length (omap f l) = length l.
Proof.
  induction l as [|x l IH]; intros Hf; [done|]. cbn.
  destruct (Hf x) as [y ->]; [constructor|]. cbn. f_equal. apply IH.
  intros. apply Hf. by constructor.
Qed.

(** ** Properties *)

(** C5: in every repository that operations (in any order, with any map order
    and any interference by callers holding pointers) can produce, no stored
    pointer is nil, every membership names an existing group, so that
    [GetUserGroups] returns one group per membership, and the lookups by
    name, by email and by external identifier never panic. *)
Theorem reachable_consistent ord r :
  rtc step NewIdentityMemoryRepository r ->
  valid r /\
  (forall u gs, repo_userGroups r !! u = Some gs ->
     exists ps, GetUserGroups ord u r = (Ok ps, r) /\ length ps = size gs) /\
  (forall test e, (find_user ord test e r).1 <> Panic).
Proof.
  intros Hr. assert (Hv : valid r) by by eapply reachable_valid, Hr.
  split; [done|]. split.
  - intros u gs Hu. unfold GetUserGroups. rewrite prog_get_bind, Hu. eexists. split; [done|].
    rewrite omap_total, range_length.
    + rewrite <- size_dom. by rewrite dom_gset_to_gmap.
    + intros [g []] Hg%elem_of_range. apply lookup_gset_to_gmap_Some in Hg as [Hg _].
      apply elem_of_dom. by eapply valid_members.
  - intros test e. by destruct (find_user_spec ord test e r Hv) as [[-> _]|(? & ? & ? & -> & _)].
Qed.

(** C31: [CreateUser] rejects a user exactly when another one has the username
    or the email, whatever the order of the map, and then changes nothing;
    otherwise it files the caller's object under the new identifier, keeps all
    other users, and usernames and emails stay unique. *)
Theorem create_user_unique ord uuid p u r :
  valid r -> names_unique r -> emails_unique r ->
  user_heap r !! p = Some u -> (forall i, repo_users r !! i <> Some p) ->
  repo_users r !! uuid = None ->
  (duplicates r u <-> exists e, CreateUser ord uuid p r = (Err (Errorf e), r)) /\
  (~ duplicates r u <-> CreateUser ord uuid p r = (Ok (), created uuid p u r)) /\
  names_unique (CreateUser ord uuid p r).2 /\ emails_unique (CreateUser ord uuid p r).2 /\
  (~ duplicates r u -> forall id v, stored (CreateUser ord uuid p r).2 id v <->
     (id = uuid /\ v = set_user_ID uuid u) \/ (id <> uuid /\ stored r id v)).
Proof.
  intros Hv Hn He Hp Hnew Hfresh.
  destruct (CreateUser_run ord uuid p u r Hv Hp) as [(e & Hd & Hrun)|[Hd Hrun]]; rewrite Hrun;
    cbn [snd].
  { repeat split; try done; try naive_solver. }
  assert (Hst := fun id v => stored_created uuid p u r id v Hnew Hfresh).
  split; [naive_solver|]. split; [done|]. split; [|split; [|done]].
  - intros id1 id2 u1 u2 H1%Hst H2%Hst. unfold duplicates in Hd. naive_solver.
  - intros id1 id2 u1 u2 H1%Hst H2%Hst. unfold duplicates in Hd. naive_solver.
Qed.

(** While usernames and emails are unique, the lookups find the one user
    with that name or email, and report an error exactly when there is none;
    the order in which the map is visited does not matter. *)
Theorem lookups_deterministic ord r :
  valid r -> names_unique r -> emails_unique r ->
  (forall id p u, repo_users r !! id = Some p -> user_heap r !! p = Some u ->
     GetUserByUsername ord (user_Username u) r = (Ok p, r) /\
     GetUserByEmail ord (user_Email u) r = (Ok p, r)) /\
  (forall n, (forall id u, stored r id u -> user_Username u <> n) <->
     exists e, GetUserByUsername ord n r = (Err (Errorf e), r)).
Proof.
  intros Hv Hn He. split.
  - intros id p u Hid Hp. split; eapply find_user_unique; try done;
      try (by apply bool_decide_pack); cbn; intros id' u' Hst' Ht%bool_decide_unpack.
    + eapply Hn; [done|by exists p|done].
    + eapply He; [done|by exists p|done].
  - intros n. unfold GetUserByUsername.
    match goal with |- context [find_user ord ?t ?e r] =>
      destruct (find_user_spec ord t e r Hv) as [[-> Hno]|(id & p & u & -> & Hid & Hp & Ht)] end.
    + split; [by eexists|]. intros _ id u Hst%Hno. by apply bool_decide_eq_false in Hst.
    + apply bool_decide_unpack in Ht. split; [|by intros [? [=]]].
      intros Hne. by destruct (Hne id u ltac:(by exists p)).
Qed.

(** ** Upserts *)

(** The identifier a user without one is given. *)
Definition upsert_id (uuid : string) (u : User) : string :=
  if bool_decide (user_ID u = "") then uuid else user_ID u.

Definition inserted (uuid : string) (p : loc) (u : User) (r : identity_repo) : identity_repo :=
  set_users (<[upsert_id uuid u := p]> (repo_users r))
    (set_user_heap (<[p := set_user_ID (upsert_id uuid u) u]> (user_heap r)) r).

Definition merged (q : loc) (u v : User) (r : identity_repo) : identity_repo :=
  set_user_heap (<[q := merge_user u v]> (user_heap r)) r.

Lemma set_user_ID_same u : set_user_ID (user_ID u) u = u.
Proof. by destruct u. Qed.

Lemma upsert_one_run ord uuid p u r :
  valid r -> user_heap r !! p = Some u ->
  (exists id q v, repo_users r !! id = Some q /\ user_heap r !! q = Some v /\
     user_Email v = user_Email u /\ upsert_one ord uuid p r = (Ok (), merged q u v r)) \/
  ((forall id v, stored r id v -> user_Email v <> user_Email u) /\
   upsert_one ord uuid p r = (Ok (), inserted uuid p u r)).
Proof.
  intros Hv Hp. unfold upsert_one. rewrite prog_get_bind.
  set (body := fun (q : loc) v => if bool_decide (user_Email v = user_Email u) then Some q else None).
  assert (Hu : forall A (f : option loc -> repoM A),
    ((if bool_decide (repo_users r = ∅) then mret None else user ← user_at p;
      lift (scan (user_heap r)
        (fun q v => if bool_decide (user_Email v = user_Email user) then Some q else None)
        (range ord (repo_users r)))) ≫= f) r =
    (lift (scan (user_heap r) body (range ord (repo_users r))) ≫= f) r).
  { intros. case_bool_decide as Hemp; [by rewrite Hemp, range_empty|].
    unfold mbind, prog_bind. by rewrite (user_at_run p r u) by done. }
  rewrite Hu. clear Hu.
  destruct (scan_spec (user_heap r) body (range ord (repo_users r)))
    as [[-> Hno]|(b & k & q & x & -> & Hin & Hx & Hb)]; [by apply valid_live_users| |].
  - right. split.
    { intros id v (q & Hq & Hh) Heq. apply (elem_of_range ord) in Hq.
      specialize (Hno id q v Hq Hh). unfold body in Hno. by case_bool_decide. }
    rewrite prog_lift_bind. rewrite (prog_bind_run _ _ _ u r) by by apply user_at_run.
    unfold inserted, upsert_id. case_bool_decide as Hid.
    + cbn [mbind prog_bind write_user modify]. unfold mbind, prog_bind, write_user, modify.
      rewrite (user_at_run p _ (set_user_ID uuid u)) by (cbn; by rewrite lookup_insert_eq).
      done.
    + rewrite set_user_ID_same. unfold mbind, prog_bind, mret, prog_ret.
      rewrite (user_at_run p _ u) by done. unfold modify. rewrite (insert_id (user_heap r) p u) by done.
      by destruct r.
  - left. unfold body in Hb. case_bool_decide; [|done]. injection Hb as <-.
    apply elem_of_range in Hin. exists k, q, x. repeat split; try done.
    rewrite prog_lift_bind. rewrite (prog_bind_run _ _ _ u r) by by apply user_at_run.
    by rewrite (prog_bind_run _ _ _ x r) by by apply user_at_run.
Qed.

Lemma merged_stored q u v r id w :
  user_heap r !! q = Some v -> stored (merged q u v r) id w ->
  exists w', stored r id w' /\ user_Email w = user_Email w'.
Proof.
  intros Hq (p & Hp & Hw). unfold merged in Hp, Hw. cbn in Hp, Hw.
  rewrite lookup_insert in Hw. case_decide; subst; simplify_eq.
  - exists v. split; [by exists p|done].
  - exists w. split; [by exists p|done].
Qed.

Lemma inserted_stored uuid p u r id w :
  user_heap r !! p = Some u -> stored (inserted uuid p u r) id w ->
  (id = upsert_id uuid u /\ w = set_user_ID id u) \/
  (id <> upsert_id uuid u /\ exists w', stored r id w' /\ user_Email w = user_Email w').
Proof.
  intros Hu (q & Hq & Hw). unfold inserted in Hq, Hw. cbn in Hq, Hw.
  rewrite lookup_insert in Hq. rewrite lookup_insert in Hw.
  destruct (decide (upsert_id uuid u = id)) as [<-|Hne]; simplify_eq.
  - left. rewrite decide_True in Hw by done. by simplify_eq.
  - right. split; [done|]. case_decide; subst; simplify_eq.
    + exists u. split; [by exists q|done].
    + exists w. split; [by exists q|done].
Qed.

Lemma upsert_one_unique ord uuid p u r :
  valid r -> emails_unique r -> user_heap r !! p = Some u ->
  exists r', upsert_one ord uuid p r = (Ok (), r') /\ valid r' /\ emails_unique r' /\
    forall q, is_Some (user_heap r !! q) -> is_Some (user_heap r' !! q).
Proof.
  intros Hv He Hp. pose proof (upsert_one_valid ord uuid p r Hv) as Hv'.
  destruct (upsert_one_run ord uuid p u r Hv Hp)
    as [(id & q & v & Hid & Hq & Heq & Hrun)|[Hno Hrun]]; rewrite Hrun in *.
  - exists (merged q u v r). repeat split; try done; try apply Hv'.
    + intros id1 id2 u1 u2 H1 H2 Hm.
      apply (merged_stored q u v r) in H1 as (w1 & ? & ?); [|done].
      apply (merged_stored q u v r) in H2 as (w2 & ? & ?); [|done].
      eapply He; [done..|congruence].
    + intros q' ?. cbn. rewrite lookup_insert. case_decide; eauto.
  - exists (inserted uuid p u r). repeat split; try done; try apply Hv'.
    + intros id1 id2 u1 u2 H1 H2 Hm.
      apply (inserted_stored uuid p u r) in H1 as [[-> ->]|(? & w1 & Hw1 & ?)]; [| |done];
      apply (inserted_stored uuid p u r) in H2 as [[-> ->]|(? & w2 & Hw2 & ?)]; try done.
      * exfalso. cbn in Hm. eapply Hno; [exact Hw2|]. congruence.
      * exfalso. cbn in Hm. eapply Hno; [exact Hw1|]. congruence.
      * eapply He; [done..|congruence].
    + intros q' ?. cbn. rewrite lookup_insert. case_decide; eauto.
Qed.

(** C32: [UpsertBatch] of non-nil users always succeeds and keeps emails
    unique, whatever the map orders and the generated identifiers; a user whose
    email is stored has its username, status and attributes merged into the
    stored object, and one whose email is new is filed under its identifier
    (a generated one when it is empty), replacing whatever had that
    identifier. *)
Theorem upsert_batch ord uuids ps r :
  valid r -> emails_unique r -> (forall p, p ∈ ps -> is_Some (user_heap r !! p)) ->
  (exists r', UpsertBatch ord uuids ps r = (Ok (), r') /\ valid r' /\ emails_unique r') /\
  (forall p u uuid, ps = [p] -> user_heap r !! p = Some u -> uuids 0%nat = uuid ->
     (exists id q v, repo_users r !! id = Some q /\ user_heap r !! q = Some v /\
        user_Email v = user_Email u /\
        UpsertBatch ord uuids ps r = (Ok (), merged q u v r)) \/
     ((forall id v, stored r id v -> user_Email v <> user_Email u) /\
        UpsertBatch ord uuids ps r = (Ok (), inserted uuid p u r))).
Proof.
  intros Hv He Hps. split.
  - unfold UpsertBatch. assert (Hl : forall ips : list (nat * loc), (forall x, x ∈ ips.*2 -> is_Some (user_heap r !! x)) ->
      exists r', for_each (fun '(i, p) => upsert_one ord (uuids i) p) ips r = (Ok (), r') /\
        valid r' /\ emails_unique r').
    { clear Hps ps. intros ips. revert r Hv He.
      induction ips as [|[i p] ips IH]; intros r Hv He Hps; [by exists r|].
      destruct (Hps p) as [u Hu]; [by constructor|].
      destruct (upsert_one_unique ord (uuids i) p u r) as (r' & Hrun & Hv' & He' & Hh); [done..|].
      destruct (IH r' Hv' He') as (r'' & Hrest & Hfin).
      { intros q Hq. apply Hh, Hps. by constructor. }
      exists r''. split; [|done]. cbn [for_each]. by rewrite (prog_bind_run _ _ _ () r'). }
    apply Hl. intros p Hp. apply Hps.
    apply list_elem_of_fmap in Hp as ([i q] & -> & Hq).
    apply elem_of_lookup_imap in Hq as (j & y & [= -> ->] & Hy).
    by eapply list_elem_of_lookup_2.
  - intros p u uuid -> Hu <-.
    unfold UpsertBatch. cbn [imap for_each].
    destruct (upsert_one_run ord (uuids 0%nat) p u r Hv Hu)
      as [(id & q & v & ? & ? & ? & Hrun)|[Hno Hrun]]; [left|right].
    + exists id, q, v. repeat split; try done. by rewrite (prog_bind_run _ _ _ _ _ Hrun).
    + split; [done|]. by rewrite (prog_bind_run _ _ _ _ _ Hrun).
Qed.

(** [filter] asking for page [k] *)
Definition at_page (filter : UserFilter) (k : Z) : UserFilter :=
  mkUserFilter (filter_Query filter) (filter_Status filter) k (filter_PageSize filter)
    (filter_SortBy filter) (filter_SortOrder filter).

(** Page [i+1] of [ListUsers] holds the users from [i * size] on and the
    total number of users, or nothing and a total of 0 when it lies past the
    end; the first [n] pages together are a permutation of the stored users
    when they are long enough; page 0 and negative pages panic. *)
Theorem list_users_pages ord r filter (size n : nat) :
  (0 < size)%nat -> filter_PageSize filter = Z.of_nat size ->
  Z.of_nat (n * size + size) < 2 ^ 63 ->
  let all := (range ord (repo_users r)).*2 in
  let page_of i := take size (drop (i * size) all) in
  (forall i, (i < n)%nat ->
     ListUsers ord (at_page filter (Z.of_nat i + 1)) r =
       (Ok (if bool_decide (i * size <= length all)%nat
            then (page_of i, Z.of_nat (length all)) else ([], 0)), r)) /\
  ((length all <= n * size)%nat -> mjoin (page_of <$> seq 0 n) ≡ₚ (map_to_list (repo_users r)).*2) /\
  (forall k, - 2 ^ 62 <= (k - 1) * Z.of_nat size -> - 2 ^ 62 <= k <= 0 ->
     ListUsers ord (at_page filter k) r = (Panic, r)).
Proof.
  intros Hsize Hps Hbound all page_of. split; [|split].
  - intros i Hi. assert ((i * size + size <= n * size)%nat /\ (i <= i * size)%nat) as [] by nia.
    unfold ListUsers. rewrite prog_get_bind. cbn [at_page filter_Page filter_PageSize].
    rewrite Hps. replace (Z.of_nat i + 1 - 1) with (Z.of_nat i) by lia.
    rewrite (int64_small (Z.of_nat i)), <- Nat2Z.inj_mul, int64_small by lia. fold all.
    case_bool_decide; case_bool_decide; try lia; [done|].
    rewrite page_ok by lia. rewrite !Nat2Z.id. done.
  - intros Hn. unfold page_of. rewrite pages_concat, take_ge by done.
    unfold all. by rewrite range_perm.
  - intros k Hk1 Hk2. unfold ListUsers. rewrite prog_get_bind.
    cbn [at_page filter_Page filter_PageSize]. rewrite Hps.
    assert ((k - 1) * Z.of_nat size < 0) by nia.
    rewrite (int64_small (k - 1)) by lia. rewrite int64_small by lia.
    rewrite bool_decide_eq_false_2 by lia. unfold mbind, prog_bind, lift.
    match goal with |- context [page ?l ?s ?z] =>
      assert (page (E:=error) l s z = Panic) as -> end; [|done].
    apply page_panic; [lia|by left].
Qed.

(** C33: [DeleteUser] ends the memberships of the user, but [DeleteBatch] keeps
    them: whoever is filed later under the same identifier (as [UpsertBatch]
    does with the identifiers of an external source) is in the groups of the
    deleted user. *)
Theorem deleted_memberships ord uuids id g r u p groups :
  valid r -> repo_groups r !! g <> None -> repo_users r !! id <> None ->
  user_heap r !! p = Some u -> user_ID u = id -> id <> "" ->
  (forall i v, stored r i v -> i <> id -> user_Email v <> user_Email u) ->
  repo_userGroups r !! id = Some groups -> g ∈ groups ->
  (exists r1, DeleteUser id r = (Ok (), r1) /\ repo_userGroups r1 !! id = None) /\
  (exists r1 r2 ps q, DeleteBatch [id] r = (Ok (), r1) /\ repo_users r1 !! id = None /\
     UpsertBatch ord uuids [p] r1 = (Ok (), r2) /\ repo_users r2 !! id = Some p /\
     GetUserGroups ord id r2 = (Ok ps, r2) /\ repo_groups r2 !! g = Some q /\ q ∈ ps).
Proof.
  intros Hv Hg Hid Hp Hu Hne Hmail Hgs Hin.
  destruct (repo_groups r !! g) as [q|] eqn:Hq; [|done]. clear Hg.
  split.
  { destruct (repo_users r !! id) as [p0|] eqn:Hp0; [|done].
    exists (set_userGroups (delete id (repo_userGroups r)) (set_users (delete id (repo_users r)) r)).
    unfold DeleteUser. rewrite prog_get_bind, Hp0. split; [done|]. cbn. apply lookup_delete_eq. }
  set (r1 := set_users (delete id (repo_users r)) r).
  assert (Hv1 : valid r1) by by apply delete_user_valid.
  assert (Hrun : upsert_one ord (uuids 0%nat) p r1 = (Ok (), inserted (uuids 0%nat) p u r1)).
  { destruct (upsert_one_run ord (uuids 0%nat) p u r1 Hv1 Hp)
      as [(i & q' & v & Hi & Hq' & Heq & _)|[_ ?]]; [|done].
    cbn in Hi. apply lookup_delete_Some in Hi as [? ?]. exfalso. eapply (Hmail i v); [by exists q'|done..]. }
  exists r1, (inserted (uuids 0%nat) p u r1). unfold GetUserGroups.
  rewrite prog_get_bind. unfold inserted, upsert_id. rewrite bool_decide_eq_false_2 by congruence.
  cbn [repo_userGroups set_userGroups set_users set_user_heap repo_users repo_groups r1].
  rewrite Hgs, Hu. eexists _, q. split; [done|]. split; [apply lookup_delete_eq|]. split.
  { unfold UpsertBatch. cbn [imap for_each]. rewrite (prog_bind_run _ _ _ _ _ Hrun).
    unfold inserted, upsert_id. rewrite bool_decide_eq_false_2 by congruence. by rewrite Hu. }
  split; [apply lookup_insert_eq|]. split; [done|]. split; [done|].
  apply list_elem_of_omap. exists (g, ()). split; [|done].
  by apply elem_of_range, lookup_gset_to_gmap_Some.
Qed.

(** ** A concrete repository: Alice is stored and in the staff group; Bob has
    an object that is not stored yet. *)
Definition alice : User := new_user "u1" "alice" "alice@example.org" "hash" UserStatusActive.
Definition bob : User := new_user "" "bob" "bob@example.org" "hash" UserStatusActive.
Definition carol : User := new_user "u1" "carol" "carol@example.org" "hash" UserStatusActive.
Definition staff : UserGroup := mkUserGroup "g1" "staff" "" None ∅ 0 0.

Definition demo_repo : identity_repo :=
  mkIdentityRepo {[ 1%positive := alice; 2%positive := bob; 3%positive := carol ]}
    {[ 1%positive := staff ]} {[ "u1" := 1%positive ]} {[ "g1" := 1%positive ]}
    {[ "u1" := {[ "g1" ]} ]}.

Lemma demo_repo_valid : valid demo_repo.
Proof.
  split; cbn; intros i x [<- <-]%lookup_singleton_Some.
  - by eexists.
  - by eexists.
  - rewrite dom_singleton_L. done.
Qed.

Lemma demo_stored id u : stored demo_repo id u -> id = "u1" /\ u = alice.
Proof.
  intros (p & Hp & Hu). cbn in Hp. apply lookup_singleton_Some in Hp as [<- <-].
  vm_compute in Hu. by injection Hu as <-.
Qed.

Lemma demo_names : names_unique demo_repo.
Proof. by intros id1 id2 u1 u2 [-> ->]%demo_stored [-> ->]%demo_stored. Qed.

Lemma demo_emails : emails_unique demo_repo.
Proof. by intros id1 id2 u1 u2 [-> ->]%demo_stored [-> ->]%demo_stored. Qed.

Lemma reachable_consistent_witness :
  exists r, r = (CreateUser default_order "u1" 2 (write_user 2 bob NewIdentityMemoryRepository).2).2 /\
  repo_users r = {[ "u1" := 2%positive ]} /\ valid r.
Proof.
  eexists. split; [done|]. split; [vm_compute; reflexivity|].
  eapply (reachable_consistent default_order).
  eapply rtc_l; [apply (step_write_user _ 2 bob)|].
  apply rtc_once, (step_operation _ _ (CreateUser default_order "u1" 2)). constructor.
Defined.

Lemma create_user_unique_witness :
  CreateUser default_order "u2" 2 demo_repo = (Ok (), created "u2" 2 bob demo_repo).
Proof.
  apply (create_user_unique default_order "u2" 2 bob demo_repo);
    [exact demo_repo_valid|exact demo_names|exact demo_emails|reflexivity| |reflexivity|].
  - intros i Hi. cbn in Hi. by apply lookup_singleton_Some in Hi as [_ [=]].
  - intros (id & v & [-> ->]%demo_stored & [[=]|[=]]).
Defined.

Lemma lookups_deterministic_witness :
  GetUserByUsername reverse_order "alice" demo_repo = (Ok 1%positive, demo_repo).
Proof.
  apply (proj1 (lookups_deterministic reverse_order demo_repo demo_repo_valid demo_names
    demo_emails) "u1" 1%positive alice); reflexivity.
Defined.

Lemma upsert_batch_witness :
  exists r', UpsertBatch default_order (fun _ => "u9") [2%positive; 1%positive] demo_repo = (Ok (), r') /\
    valid r' /\ emails_unique r'.
Proof.
  apply (upsert_batch default_order (fun _ => "u9") [2%positive; 1%positive] demo_repo
    demo_repo_valid demo_emails).
  intros p. rewrite !elem_of_cons, elem_of_nil. intros [->|[->|[]]]; by eexists.
Defined.

Lemma list_users_pages_witness :
  ListUsers default_order (mkUserFilter "" [] 1 10 "" "") demo_repo = (Ok ([1%positive], 1), demo_repo) /\
  ListUsers default_order (mkUserFilter "" [] 0 10 "" "") demo_repo = (Panic, demo_repo).
Proof.
  destruct (list_users_pages default_order demo_repo (mkUserFilter "" [] 1 10 "" "") 10 1)
    as (Hpage & _ & Hpanic); [lia|done|done|]. split.
  - specialize (Hpage 0%nat ltac:(lia)). exact Hpage.
  - apply (Hpanic 0); lia.
Defined.

Lemma deleted_memberships_witness :
  exists r1 r2 ps q, DeleteBatch ["u1"] demo_repo = (Ok (), r1) /\ repo_users r1 !! "u1" = None /\
    UpsertBatch default_order (fun _ => "x") [3%positive] r1 = (Ok (), r2) /\
    repo_users r2 !! "u1" = Some 3%positive /\
    GetUserGroups default_order "u1" r2 = (Ok ps, r2) /\
    repo_groups r2 !! "g1" = Some q /\ q ∈ ps.
Proof.
  apply (deleted_memberships default_order (fun _ => "x") "u1" "g1" demo_repo carol 3 {[ "g1" ]});
    [exact demo_repo_valid|done|done|reflexivity|reflexivity|done| |reflexivity|by apply elem_of_singleton].
  by intros i v [-> ->]%demo_stored.
Defined.
