(* ===== verification/MemAuth.v ===== *)
(** * The in-memory session, token and audit repositories

    [AuthMemoryRepository] of internal/storage/memory/auth_memory_repository.go.
    Sessions and log entries are stored by value: the services that use the
    repository create the objects they store and do not write to them
    afterwards.  The clock is an argument of the operations that read it. *)

From S2P Require Import Prelude Types.
Local Open Scope Z_scope.

Record AuditLog := mkAuditLog {
  log_ID : string;
  log_UserID : string;
  log_ActorID : string;
  log_Action : string;
  log_Resource : string;
  log_Status : string;
  log_Context : gmap string any;
  log_Timestamp : time;
  log_IPAddress : string;
  log_UserAgent : string
}.

#[global] Instance AuditLog_eq_dec : EqDecision AuditLog.
Proof. solve_decision. Defined.

Definition set_log_ID (id : string) (e : AuditLog) : AuditLog :=
  mkAuditLog id (log_UserID e) (log_ActorID e) (log_Action e) (log_Resource e)
    (log_Status e) (log_Context e) (log_Timestamp e) (log_IPAddress e) (log_UserAgent e).

Record auth_repo := mkAuthRepo {
  sessions : gmap string UserSession;
  refreshTokens : gmap string string;
  denyList : gmap string time;
  auditLogs : list AuditLog
}.

Definition NewAuthMemoryRepository : auth_repo := mkAuthRepo ∅ ∅ ∅ [].

Definition set_sessions x (r : auth_repo) : auth_repo :=
  mkAuthRepo x (refreshTokens r) (denyList r) (auditLogs r).
Definition set_refreshTokens x (r : auth_repo) : auth_repo :=
  mkAuthRepo (sessions r) x (denyList r) (auditLogs r).
Definition set_denyList x (r : auth_repo) : auth_repo :=
  mkAuthRepo (sessions r) (refreshTokens r) x (auditLogs r).
Definition set_auditLogs x (r : auth_repo) : auth_repo :=
  mkAuthRepo (sessions r) (refreshTokens r) (denyList r) x.

Notation authM := (prog auth_repo error).

(** ** Sessions *)
Definition CreateSession (session : UserSession) (duration : Z) : authM unit :=
  modify (fun r => set_sessions (<[session_ID session := session]> (sessions r)) r).

Definition GetSession (sessionID : string) : authM UserSession :=
  r ← get;
  match sessions r !! sessionID with
  | Some s => mret s
  | None => throw (Errorf ("session with ID '" +:+ sessionID +:+ "' not found"))
  end.

Definition DeleteSession (sessionID : string) : authM unit :=
  modify (fun r => set_sessions (delete sessionID (sessions r)) r).

Definition GetUserSessions (ord : map_order) (userID : string) : authM (list UserSession) :=
  r ← get;
  mret (filter (fun s => session_UserID s = userID) (range ord (sessions r)).*2).

(** ** Tokens *)
Definition StoreRefreshToken (token userID : string) (duration : Z) : authM unit :=
  modify (fun r => set_refreshTokens (<[token := userID]> (refreshTokens r)) r).

Definition GetRefreshTokenUserID (token : string) : authM string :=
  r ← get;
  match refreshTokens r !! token with
  | Some u => mret u
  | None => throw (Errorf "refresh token not found")
  end.

Definition DeleteRefreshToken (token : string) : authM unit :=
  modify (fun r => set_refreshTokens (delete token (refreshTokens r)) r).

Definition AddToDenyList (now : time) (jti : string) (duration : Z) : authM unit :=
  modify (fun r => set_denyList (<[jti := now + duration]> (denyList r)) r).

Definition IsInDenyList (now : time) (jti : string) : authM bool :=
  r ← get;
  match denyList r !! jti with
  | None => mret false
  | Some expiry => mret (negb (bool_decide (expiry < now)))
  end.

(** ** Audit log *)
Definition CreateLogEntry (uuid : string) (entry : AuditLog) : authM unit :=
  let entry := if bool_decide (log_ID entry = "") then set_log_ID uuid entry else entry in
  modify (fun r => set_auditLogs (auditLogs r ++ [entry]) r).

(** The pagination of the two log queries: a start past the end is the end. *)
Definition log_page (logs : list AuditLog) (pq : PaginationQuery) : res error (list AuditLog) :=
  let len := Z.of_nat (length logs) in
  let start := if bool_decide (len < pq_Offset pq) then len else pq_Offset pq in
  let e := int64 (start + pq_PageSize pq) in
  slice logs start (if bool_decide (len < e) then len else e).

Definition GetLogsForUser (userID : string) (pq : PaginationQuery) : authM (list AuditLog) :=
  r ← get;
  lift (log_page (filter (fun e => log_ActorID e = userID) (auditLogs r)) pq).

Definition GetLogsByAction (action : string) (pq : PaginationQuery) : authM (list AuditLog) :=
  r ← get;
  lift (log_page (filter (fun e => log_Action e = action) (auditLogs r)) pq).

(** ** Histories

    The operations that write, as data, so that a history is a list. *)
Inductive write_op : Type :=
  | CreateSessionOp (s : UserSession) (duration : Z)
  | DeleteSessionOp (sessionID : string)
  | StoreRefreshTokenOp (token userID : string) (duration : Z)
  | DeleteRefreshTokenOp (token : string)
  | AddToDenyListOp (now : time) (jti : string) (duration : Z)
  | CreateLogEntryOp (uuid : string) (entry : AuditLog).

Definition run_op (r : auth_repo) (o : write_op) : auth_repo :=
  match o with
  | CreateSessionOp s d => (CreateSession s d r).2
  | DeleteSessionOp i => (DeleteSession i r).2
  | StoreRefreshTokenOp t u d => (StoreRefreshToken t u d r).2
  | DeleteRefreshTokenOp t => (DeleteRefreshToken t r).2
  | AddToDenyListOp now j d => (AddToDenyList now j d r).2
  | CreateLogEntryOp i e => (CreateLogEntry i e r).2
  end.

Definition run_ops : auth_repo -> list write_op -> auth_repo := foldl run_op.

Definition writes_token (token : string) (o : write_op) : bool :=
  match o with
  | StoreRefreshTokenOp t _ _ | DeleteRefreshTokenOp t => bool_decide (t = token)
  | _ => false
  end.

Definition writes_session (sessionID : string) (o : write_op) : bool :=
  match o with
  | CreateSessionOp s _ => bool_decide (session_ID s = sessionID)
  | DeleteSessionOp i => bool_decide (i = sessionID)
  | _ => false
  end.

Definition writes_deny (jti : string) (o : write_op) : bool :=
  match o with AddToDenyListOp _ j _ => bool_decide (j = jti) | _ => false end.

Section Frames.
Context (r : auth_repo).

Lemma run_op_token token o :
  writes_token token o = false -> refreshTokens (run_op r o) !! token = refreshTokens r !! token.
Proof.
  destruct o; cbn; try done; intros ?%bool_decide_eq_false.
  - by apply lookup_insert_ne.
  - by apply lookup_delete_ne.
Qed.

Lemma run_op_session sid o :
  writes_session sid o = false -> sessions (run_op r o) !! sid = sessions r !! sid.
Proof.
  destruct o; cbn; try done; intros ?%bool_decide_eq_false.
  - by apply lookup_insert_ne.
  - by apply lookup_delete_ne.
Qed.

Lemma run_op_deny jti o :
  writes_deny jti o = false -> denyList (run_op r o) !! jti = denyList r !! jti.
Proof. destruct o; cbn; try done. intros ?%bool_decide_eq_false. by apply lookup_insert_ne. Qed.

Lemma run_op_logs o : exists l, auditLogs (run_op r o) = auditLogs r ++ l.
Proof. destruct o; cbn; try (exists []; by rewrite app_nil_r). by eexists. Qed.
End Frames.

(** A field that no operation of the history writes keeps its value. *)
Lemma run_ops_frame {A} (f : auth_repo -> A) (w : write_op -> bool) r ops :
  (forall r o, w o = false -> f (run_op r o) = f r) ->
  Forall (fun o => w o = false) ops -> f (run_ops r ops) = f r.
Proof.
  intros Hf Hops. revert r. induction Hops as [|o ops Ho _ IH]; intros r; [done|].
  cbn [run_ops foldl]. by rewrite IH, Hf.
Qed.

Lemma run_ops_logs r ops : exists l, auditLogs (run_ops r ops) = auditLogs r ++ l.
Proof.
  revert r. induction ops as [|o ops IH]; intros r; [exists []; by rewrite app_nil_r|].
  cbn [run_ops foldl]. destruct (IH (run_op r o)) as [l ->], (run_op_logs r o) as [l' ->].
  exists (l' ++ l). by rewrite app_assoc.
Qed.

Lemma log_page_ok logs pq :
  0 <= pq_Offset pq -> 0 <= pq_PageSize pq -> pq_Offset pq + pq_PageSize pq < 2 ^ 63 ->
  Z.of_nat (length logs) + pq_PageSize pq < 2 ^ 63 ->
  log_page logs pq = Ok (take (Z.to_nat (pq_PageSize pq)) (drop (Z.to_nat (pq_Offset pq)) logs)).
Proof.
  intros. unfold log_page. case_bool_decide as Hoff.
  - rewrite int64_small by lia. case_bool_decide.
    + rewrite slice_ok by lia. rewrite (drop_ge logs (Z.to_nat (pq_Offset pq))) by lia.
      rewrite Z.sub_diag, take_nil. done.
    + rewrite slice_ok by lia. rewrite !(drop_ge logs) by lia. by rewrite !take_nil.
  - rewrite int64_small by lia. case_bool_decide; rewrite slice_ok by lia; f_equal.
    + rewrite !take_ge; [done|rewrite length_drop; lia..].
    + f_equal. lia.
Qed.

Lemma log_page_panic logs pq :
  - 2 ^ 63 <= pq_Offset pq -> Z.of_nat (length logs) < 2 ^ 62 ->
  - 2 ^ 62 <= pq_PageSize pq < 2 ^ 62 ->
  log_page logs pq = Panic <-> pq_Offset pq < 0 \/ pq_PageSize pq < 0.
Proof.
  intros. unfold log_page. rewrite slice_panic.
  case_bool_decide; [rewrite int64_small by lia; case_bool_decide; lia|].
  destruct (decide (pq_Offset pq < 0)); [split; [by left|by left]|].
  rewrite int64_small by lia. case_bool_decide; lia.
Qed.

(** ** Properties *)

(** A token added to the deny list is refused until its time is over and
    accepted afterwards, through every history of other operations; an entry
    with a time to live in the past changes nothing. *)
Theorem deny_list_window t0 jti ttl ops r t :
  Forall (fun o => writes_deny jti o = false) ops ->
  (IsInDenyList t jti (run_ops (AddToDenyList t0 jti ttl r).2 ops)).1 =
    Ok (bool_decide (t <= t0 + ttl)).
Proof.
  intros Hops. unfold IsInDenyList. rewrite prog_get_bind.
  rewrite (run_ops_frame (fun r => denyList r !! jti) (writes_deny jti)); [|intros; by apply run_op_deny|done].
  cbn. rewrite lookup_insert_eq. cbn. f_equal. rewrite <- bool_decide_not.
  apply bool_decide_ext. lia.
Qed.

(** The lifetimes given to [CreateSession] and [StoreRefreshToken] are not
    kept: whatever they were, the session and the token are found after every
    history of operations on other sessions and tokens, however much time
    went by. *)
Theorem lifetimes_ignored s d token userID d' ops r :
  Forall (fun o => writes_session (session_ID s) o = false) ops ->
  Forall (fun o => writes_token token o = false) ops ->
  let r' := run_ops (StoreRefreshToken token userID d' (CreateSession s d r).2).2 ops in
  GetSession (session_ID s) r' = (Ok s, r') /\ GetRefreshTokenUserID token r' = (Ok userID, r').
Proof.
  intros Hs Ht r'.
  assert (sessions r' !! session_ID s = Some s) as Hs'.
  { unfold r'. rewrite (run_ops_frame (fun r => sessions r !! session_ID s)
      (writes_session (session_ID s))); [|intros; by apply run_op_session|done].
    apply lookup_insert_eq. }
  assert (refreshTokens r' !! token = Some userID) as Ht'.
  { unfold r'. rewrite (run_ops_frame (fun r => refreshTokens r !! token) (writes_token token));
      [|intros; by apply run_op_token|done].
    apply lookup_insert_eq. }
  unfold GetSession, GetRefreshTokenUserID. rewrite !prog_get_bind, Hs', Ht'. done.
Qed.

(** The audit log only grows, and the pages of [GetLogsForUser] put
    together are the entries of that actor in the order they were written;
    a negative offset or page size panics. *)
Theorem audit_log_pages user (size n : nat) r ops :
  Z.of_nat (length (auditLogs r)) < 2 ^ 62 -> Z.of_nat (n * size + size) < 2 ^ 62 ->
  let logs := filter (fun e => log_ActorID e = user) (auditLogs r) in
  (exists l, auditLogs (run_ops r ops) = auditLogs r ++ l) /\
  (exists pages, length pages = n /\ mjoin pages = take (n * size) logs /\
     forall i pg, pages !! i = Some pg ->
       GetLogsForUser user (mkPaginationQuery (Z.of_nat size) (Z.of_nat (i * size))) r = (Ok pg, r)) /\
  (forall off sz, - 2 ^ 62 <= off < 2 ^ 62 -> - 2 ^ 62 <= sz < 2 ^ 62 ->
     (GetLogsForUser user (mkPaginationQuery sz off) r = (Panic, r) <-> off < 0 \/ sz < 0)).
Proof.
  intros Hlen Hn logs. assert (Hl : Z.of_nat (length logs) < 2 ^ 62).
  { pose proof (length_filter (fun e => log_ActorID e = user) (auditLogs r)). unfold logs. lia. }
  split; [apply run_ops_logs|]. split.
  - exists ((fun i => take size (drop (i * size) logs)) <$> seq 0 n).
    rewrite length_fmap, length_seq, pages_concat. split; [done|]. split; [done|].
    intros i pg Hi. apply list_lookup_fmap_Some in Hi as (j & -> & Hj).
    apply lookup_seq in Hj as [-> Hj].
    assert (i * size + size <= n * size + size)%nat by nia.
    unfold GetLogsForUser. rewrite prog_get_bind. unfold lift. fold logs.
    rewrite log_page_ok by (cbn [pq_Offset pq_PageSize]; lia). cbn [pq_Offset pq_PageSize].
    by rewrite !Nat2Z.id.
  - intros off sz Hoff Hsz. unfold GetLogsForUser. rewrite prog_get_bind. unfold lift. fold logs.
    pose proof (log_page_panic logs (mkPaginationQuery sz off)) as Hp. cbn in Hp.
    rewrite <- Hp by (try done; lia). split; [by intros [= ->]|by intros ->].
Qed.

(** ** A concrete history *)
Definition demo_session : UserSession := mkUserSession "s1" "u1" "" "" 0 100 "" 0.
Definition demo_entry (actor action : string) : AuditLog :=
  mkAuditLog "" "" actor action "" "success" ∅ 0 "" "".
Definition demo_ops : list write_op :=
  [CreateLogEntryOp "l1" (demo_entry "u1" "login"); StoreRefreshTokenOp "t2" "u2" 5;
   CreateLogEntryOp "l2" (demo_entry "u2" "login"); DeleteSessionOp "s9";
   CreateLogEntryOp "l3" (demo_entry "u1" "logout"); AddToDenyListOp 7 "j2" 5].

Lemma deny_list_window_witness :
  (IsInDenyList 30 "j1" (run_ops (AddToDenyList 10 "j1" 20 NewAuthMemoryRepository).2 demo_ops)).1
    = Ok true /\
  (IsInDenyList 31 "j1" (run_ops (AddToDenyList 10 "j1" 20 NewAuthMemoryRepository).2 demo_ops)).1
    = Ok false.
Proof.
  split.
  - apply (deny_list_window 10 "j1" 20 demo_ops NewAuthMemoryRepository 30). repeat constructor.
  - apply (deny_list_window 10 "j1" 20 demo_ops NewAuthMemoryRepository 31). repeat constructor.
Defined.

Lemma lifetimes_ignored_witness :
  (GetRefreshTokenUserID "t1" (run_ops (StoreRefreshToken "t1" "u1" 1
    (CreateSession demo_session 1 NewAuthMemoryRepository).2).2 demo_ops)).1 = Ok "u1".
Proof.
  assert (H := lifetimes_ignored demo_session 1 "t1" "u1" 1 demo_ops NewAuthMemoryRepository).
  destruct H as [_ ->]; [repeat constructor..|reflexivity].
Defined.

Lemma audit_log_pages_witness :
  (GetLogsForUser "u1" (mkPaginationQuery 1 1) (run_ops NewAuthMemoryRepository demo_ops)).1 =
    Ok [set_log_ID "l3" (demo_entry "u1" "logout")] /\
  (GetLogsForUser "u1" (mkPaginationQuery 1 (-1)) (run_ops NewAuthMemoryRepository demo_ops)) =
    (Panic, run_ops NewAuthMemoryRepository demo_ops).
Proof.
  split; [vm_compute; reflexivity|].
  apply (audit_log_pages "u1" 1 2 (run_ops NewAuthMemoryRepository demo_ops) []);
    [vm_compute; reflexivity|done|lia|lia|by left].
Defined.
