(* ===== verification/MemPolicy.v ===== *)
(** * The in-memory policy and MFA repositories

    [PolicyMemoryRepository] and [MFAFactorMemoryRepository] of
    internal/storage/memory.  Objects are stored by value; [uuid.New] and, for
    the MFA factors, [uuid.Parse] are arguments. *)

From S2P Require Import Prelude Types.
Local Open Scope Z_scope.

(** ** Policies (pkg/types/policy.go) *)
Definition EffectAllow : string := "allow".
Definition EffectDeny : string := "deny".

Record Policy := mkPolicy {
  policy_ID : string;
  policy_Version : Z;
  policy_Effect : string;
  policy_Actions : list string;
  policy_Resources : list string;
  policy_Subjects : list string;
  policy_Conditions : gmap string (gmap string any);
  policy_Description : string
}.

#[global] Instance Policy_eq_dec : EqDecision Policy.
Proof. solve_decision. Defined.

Definition set_policy_ID (id : string) (p : Policy) : Policy :=
  mkPolicy id (policy_Version p) (policy_Effect p) (policy_Actions p) (policy_Resources p)
    (policy_Subjects p) (policy_Conditions p) (policy_Description p).

Notation policy_repo := (gmap string Policy).
Notation policyM := (prog policy_repo error).

Definition NewPolicyMemoryRepository : policy_repo := ∅.

(** The stored policy is returned as well: the caller's object has the new
    identifier. *)
Definition CreatePolicy (uuid : string) (policy : Policy) : policyM Policy :=
  let policy := set_policy_ID uuid policy in
  modify <[uuid := policy]> ;; mret policy.

Definition GetPolicyByID (id : string) : policyM Policy :=
  r ← get;
  match r !! id with
  | Some p => mret p
  | None => throw (Errorf ("policy with ID '" +:+ id +:+ "' not found"))
  end.

Definition UpdatePolicy (policy : Policy) : policyM unit :=
  r ← get;
  match r !! policy_ID policy with
  | None => throw (Errorf ("policy with ID '" +:+ policy_ID policy +:+ "' not found for update"))
  | Some _ => modify <[policy_ID policy := policy]>
  end.

Definition DeletePolicy (id : string) : policyM unit := modify (delete id).

Section Queries.
Context (ord : map_order).

Definition ListPolicies (pq : PaginationQuery) : policyM (list Policy) :=
  r ← get; lift (page (range ord r).*2 (pq_Offset pq) (pq_PageSize pq)).

Definition FindPoliciesForSubject (subject : string) : policyM (list Policy) :=
  r ← get; mret (filter (fun p => subject ∈ policy_Subjects p) (range ord r).*2).

Definition FindPoliciesForResource (resource : string) : policyM (list Policy) :=
  r ← get; mret (filter (fun p => resource ∈ policy_Resources p) (range ord r).*2).

Definition FindPoliciesForAction (action : string) : policyM (list Policy) :=
  r ← get; mret (filter (fun p => action ∈ policy_Actions p) (range ord r).*2).
End Queries.

(** ** MFA factors (pkg/types/mfa.go)

    A [uuid.UUID] is written as its text. *)
Record MFAFactor := mkMFAFactor {
  factor_ID : string;
  factor_UserID : string;
  factor_Type : string;
  factor_Status : string;
  factor_CredentialID : string;
  factor_PublicKey : string;
  factor_Secret : string;
  factor_PhoneNumber : string;
  factor_BackupCodes : string;
  factor_Metadata : string;
  factor_LastUsedAt : option time;
  factor_CreatedAt : time;
  factor_UpdatedAt : time
}.

#[global] Instance MFAFactor_eq_dec : EqDecision MFAFactor.
Proof. solve_decision. Defined.

Definition uuid_Nil : string := "00000000-0000-0000-0000-000000000000".

Definition set_factor_ID (id : string) (f : MFAFactor) : MFAFactor :=
  mkMFAFactor id (factor_UserID f) (factor_Type f) (factor_Status f) (factor_CredentialID f)
    (factor_PublicKey f) (factor_Secret f) (factor_PhoneNumber f) (factor_BackupCodes f)
    (factor_Metadata f) (factor_LastUsedAt f) (factor_CreatedAt f) (factor_UpdatedAt f).

Definition set_BackupCodes (codes : string) (f : MFAFactor) : MFAFactor :=
  mkMFAFactor (factor_ID f) (factor_UserID f) (factor_Type f) (factor_Status f)
    (factor_CredentialID f) (factor_PublicKey f) (factor_Secret f) (factor_PhoneNumber f) codes
    (factor_Metadata f) (factor_LastUsedAt f) (factor_CreatedAt f) (factor_UpdatedAt f).

Notation factor_repo := (gmap string MFAFactor).
Notation factorM := (prog factor_repo error).

Definition CreateMFAFactor (uuid : string) (factor : MFAFactor) : factorM MFAFactor :=
  let factor := if bool_decide (factor_ID factor = uuid_Nil)
                then set_factor_ID uuid factor else factor in
  modify <[factor_ID factor := factor]> ;; mret factor.

Definition UpdateMFAFactor (factor : MFAFactor) : factorM unit :=
  r ← get;
  match r !! factor_ID factor with
  | None => throw (Errorf "factor not found")
  | Some _ => modify <[factor_ID factor := factor]>
  end.

Definition GetMFAFactorsByUserID (parse : string -> option string) (ord : map_order)
    (userID : string) : factorM (list MFAFactor) :=
  match parse userID with
  | None => throw (Wrapf "invalid user ID: " (Errorf "uuid"))
  | Some id => r ← get; mret (filter (fun f => factor_UserID f = id) (range ord r).*2)
  end.

(** ** Facts *)

(** Every policy is stored under its own identifier. *)
Definition keyed (r : policy_repo) : Prop := forall id p, r !! id = Some p -> policy_ID p = id.
Definition keyed_factors (r : factor_repo) : Prop :=
  forall id f, r !! id = Some f -> factor_ID f = id.

Lemma elem_of_range_snd {A} ord (m : gmap string A) a :
  a ∈ (range ord m).*2 <-> exists k, m !! k = Some a.
Proof.
  rewrite list_elem_of_fmap. split.
  - intros ([k a'] & -> & Hk%elem_of_range). by exists k.
  - intros [k Hk]. exists (k, a). split; [done|by apply elem_of_range].
Qed.

Lemma keyed_insert r p : keyed r -> keyed (<[policy_ID p := p]> r).
Proof. intros Hr id q. rewrite lookup_insert. case_decide; [naive_solver|apply Hr]. Qed.

Lemma CreatePolicy_run uuid p r :
  CreatePolicy uuid p r = (Ok (set_policy_ID uuid p), <[uuid := set_policy_ID uuid p]> r).
Proof. done. Qed.

Lemma FindPoliciesForSubject_run ord s r :
  FindPoliciesForSubject ord s r = (Ok (filter (fun p => s ∈ policy_Subjects p) (range ord r).*2), r).
Proof. done. Qed.

(** The policies a subject query can return. *)
Lemma elem_of_subject_policies ord s (r : policy_repo) p :
  p ∈ filter (fun p => s ∈ policy_Subjects p) (range ord r).*2 <->
  s ∈ policy_Subjects p /\ exists id, r !! id = Some p.
Proof. by rewrite list_elem_of_filter, elem_of_range_snd. Qed.

(** ** Properties *)

(** The policy repository is a map from identifiers to policies: every
    operation keeps each policy under its own identifier; what was created or
    updated is read back, what was deleted is not found, an update of an
    unknown policy is an error that changes nothing, and the query by subject
    returns exactly the stored policies that name it, each once, in every map
    order. *)
Theorem policy_repository_laws ord uuid p r :
  keyed r ->
  (let r1 := (CreatePolicy uuid p r).2 in
   keyed r1 /\ GetPolicyByID uuid r1 = (Ok (set_policy_ID uuid p), r1)) /\
  (match r !! policy_ID p with
   | Some _ => exists r1, UpdatePolicy p r = (Ok (), r1) /\ keyed r1 /\
                 GetPolicyByID (policy_ID p) r1 = (Ok p, r1) /\ dom r1 = dom r
   | None => exists e, UpdatePolicy p r = (Err e, r)
   end) /\
  (let r1 := (DeletePolicy uuid r).2 in
   keyed r1 /\ (exists e, GetPolicyByID uuid r1 = (Err e, r1)) /\
   forall id, id <> uuid -> r1 !! id = r !! id) /\
  (forall s, exists ps, FindPoliciesForSubject ord s r = (Ok ps, r) /\ NoDup ps /\
     forall q, q ∈ ps <-> s ∈ policy_Subjects q /\ r !! policy_ID q = Some q).
Proof.
  intros Hr. split; [|split; [|split]].
  - cbv zeta. rewrite CreatePolicy_run. cbn [snd]. split.
    + intros id q. rewrite lookup_insert. case_decide; [naive_solver|apply Hr].
    + unfold GetPolicyByID. rewrite prog_get_bind. by rewrite lookup_insert_eq.
  - unfold UpdatePolicy. rewrite prog_get_bind. destruct (r !! policy_ID p) eqn:Hp; [|by eexists].
    eexists. split; [done|]. cbn. split; [by apply keyed_insert|].
    unfold GetPolicyByID. rewrite prog_get_bind, lookup_insert_eq. split; [done|].
    rewrite dom_insert_L. apply elem_of_dom_2 in Hp. set_solver.
  - cbv zeta. change (DeletePolicy uuid r).2 with (delete uuid r). split; [|split].
    + intros id q [_ ?]%lookup_delete_Some. by apply Hr.
    + unfold GetPolicyByID. rewrite prog_get_bind, lookup_delete_eq. by eexists.
    + intros id Hne. by apply lookup_delete_ne.
  - intros s. eexists. split; [apply FindPoliciesForSubject_run|]. split.
    + apply NoDup_filter. apply (NoDup_fmap_1 policy_ID).
      assert ((policy_ID <$> (range ord r).*2) = (range ord r).*1) as ->.
      { rewrite <- list_fmap_compose. apply list_fmap_ext. intros i [k q] Hi.
        apply list_elem_of_lookup_2, elem_of_range in Hi. by apply Hr. }
      apply range_nodup.
    + intros q. rewrite elem_of_subject_policies. split.
      * intros [? [id Hid]]. split; [done|]. by rewrite (Hr id q Hid).
      * intros [? ?]. split; [done|by exists (policy_ID q)].
Qed.

(** An MFA factor is stored under its identifier, a fresh one when it has
    none, and is then among the factors of its user; a user identifier that is
    not a UUID is an error. *)
Theorem mfa_factor_stored parse ord uuid f user r :
  uuid <> uuid_Nil -> keyed_factors r ->
  let '(f', r1) := (set_factor_ID (if bool_decide (factor_ID f = uuid_Nil) then uuid
                     else factor_ID f) f, (CreateMFAFactor uuid f r).2) in
  CreateMFAFactor uuid f r = (Ok f', r1) /\ keyed_factors r1 /\ factor_ID f' <> uuid_Nil /\
  (parse user = Some (factor_UserID f) ->
     exists fs, GetMFAFactorsByUserID parse ord user r1 = (Ok fs, r1) /\ f' ∈ fs /\
       forall g, g ∈ fs -> factor_UserID g = factor_UserID f) /\
  (parse user = None -> exists e, GetMFAFactorsByUserID parse ord user r1 = (Err e, r1)).
Proof.
  intros Huuid Hr. cbn.
  assert (Hf : (if bool_decide (factor_ID f = uuid_Nil) then set_factor_ID uuid f else f) =
    set_factor_ID (if bool_decide (factor_ID f = uuid_Nil) then uuid else factor_ID f) f).
  { case_bool_decide; [done|]. by destruct f. }
  unfold CreateMFAFactor. rewrite Hf. set (f' := set_factor_ID _ f).
  unfold mbind, prog_bind, modify, mret, prog_ret. cbn [snd].
  split; [done|]. split; [|split; [|split]].
  - intros id g. rewrite lookup_insert. destruct (decide (factor_ID f' = id)) as [<-|];
      [by intros [= <-]|apply Hr].
  - unfold f'. by case_bool_decide.
  - intros Hp. unfold GetMFAFactorsByUserID. rewrite Hp. eexists. split; [done|]. split.
    + apply list_elem_of_filter. split; [done|]. apply elem_of_range_snd.
      exists (factor_ID f'). apply lookup_insert_eq.
    + intros g Hg. by apply list_elem_of_filter in Hg as [? _].
  - intros Hp. unfold GetMFAFactorsByUserID. rewrite Hp. by eexists.
Qed.

Definition demo_policy (effect : string) (subjects : list string) : Policy :=
  mkPolicy "p1" 1 effect ["read"] ["doc:1"] subjects ∅ "".

Lemma policy_repository_laws_witness :
  exists ps, FindPoliciesForSubject reverse_order "user:u1"
    {[ "p1" := demo_policy EffectAllow ["user:u1"] ]} = (Ok ps, {[ "p1" := demo_policy EffectAllow ["user:u1"] ]})
    /\ NoDup ps /\ demo_policy EffectAllow ["user:u1"] ∈ ps.
Proof.
  destruct (policy_repository_laws reverse_order "p1" (demo_policy EffectAllow ["user:u1"])
    {[ "p1" := demo_policy EffectAllow ["user:u1"] ]}) as (_ & _ & _ & Hq).
  { by intros id p [<- <-]%lookup_singleton_Some. }
  destruct (Hq "user:u1") as (ps & Hps & Hnd & Hin). exists ps. repeat split; [done|done|].
  apply Hin. split; [by constructor|reflexivity].
Defined.

Definition demo_factor : MFAFactor :=
  mkMFAFactor uuid_Nil "u1" "totp" "active" "" "" "secret" "" "" "" None 0 0.

Lemma mfa_factor_stored_witness :
  exists fs, GetMFAFactorsByUserID Some default_order "u1" (CreateMFAFactor "f1" demo_factor ∅).2 =
    (Ok fs, (CreateMFAFactor "f1" demo_factor ∅).2) /\ set_factor_ID "f1" demo_factor ∈ fs.
Proof.
  destruct (mfa_factor_stored Some default_order "f1" demo_factor "u1" ∅) as (_ & _ & _ & Hin & _).
  - done.
  - intros id g. by rewrite lookup_empty.
  - destruct (Hin eq_refl) as (fs & Hfs & Hf & _). exists fs. split; [exact Hfs|exact Hf].
Defined.
