(* ===== verification/AuditTrail.v ===== *)
(** * Audit events (internal/services/audit, internal/audit/pipeline.go)

    The audit service builds events and hands them to the pipeline, which
    writes them to its sinks.  A sink is the list of events it has taken and
    the events it takes: writing to a file or a database may fail, and which
    events fail is not up to the program.  Webhook deliveries are started in
    the background; the model keeps the list of those started. *)

From S2P Require Import Prelude Types.
From Stdlib Require Import SpecFloat.
Local Open Scope Z_scope.

Definition ResultSuccess : string := "success".
Definition ResultFailure : string := "failure".

(** The fields the service fills. *)
Record AuditEvent := mkAuditEvent {
  event_ID : string;
  event_Timestamp : time;
  event_Category : string;
  event_Action : string;
  event_UserID : string;
  event_IP : string;
  event_Resource : string;
  event_Result : string;
  event_TraceID : string;
  event_Details : gmap string any
}.

#[global] Instance AuditEvent_eq_dec : EqDecision AuditEvent.
Proof. solve_decision. Defined.

Record Sink := mkSink {
  sink_accepts : AuditEvent -> bool;
  sink_events : list AuditEvent
}.

(** [NewInMemorySink], whose [Write] never fails *)
Definition NewInMemorySink : Sink := mkSink (fun _ => true) [].

Definition Write (s : Sink) (event : AuditEvent) : res error unit * Sink :=
  if sink_accepts s event
  then (Ok (), mkSink (sink_accepts s) (sink_events s ++ [event]))
  else (Err (Errorf "sink"), s).

Definition GetEvents (s : Sink) : list AuditEvent := sink_events s.

(** The service with its pipeline; [dispatcher] says whether webhooks are
    configured. *)
Record audit_service := mkAuditService {
  pipeline : list Sink;
  dispatcher : bool;
  dispatched : list (string * AuditEvent)
}.

Notation auditM := (prog audit_service error).

(** [Pipeline.Emit]: a failed write is logged and the loop goes on. *)
Definition Emit (event : AuditEvent) : auditM unit :=
  modify (fun s => mkAuditService ((fun k => (Write k event).2) <$> pipeline s)
                     (dispatcher s) (dispatched s)).

Definition dispatchWebhook (eventType : string) (event : AuditEvent) : auditM unit :=
  modify (fun s => if dispatcher s
    then mkAuditService (pipeline s) (dispatcher s) (dispatched s ++ [(eventType, event)])
    else s).

(** The operations take the identifier [generateAuditID] returns and the
    time. *)
Section Records.
Context (auditID : string) (now : time).

Definition RecordLoginSuccess (userID ip traceID : string) (details : gmap string any) :
    auditM unit :=
  let event := mkAuditEvent auditID now "auth" "login_success" userID ip "" ResultSuccess
                 traceID details in
  Emit event ;; dispatchWebhook "login.success" event.

(** The details map is the caller's, and is written. *)
Definition RecordLoginFailed (userID ip traceID reason : string) (details : gmap string any) :
    auditM unit :=
  let details := <["reason" := AnyString reason]> details in
  let event := mkAuditEvent auditID now "auth" "login_failed" userID ip "" ResultFailure
                 traceID details in
  Emit event ;; dispatchWebhook "login.failed" event.

Definition RecordUserCreated (user : User) (ip traceID : string) : auditM unit :=
  let event := mkAuditEvent auditID now "identity" "user.created" (user_ID user) ip ""
    ResultSuccess traceID
    {[ "username" := AnyString (user_Username user); "email" := AnyString (user_Email user) ]} in
  Emit event ;; dispatchWebhook "user.created" event.

Definition RecordPolicyDecision (userID ip resource traceID result : string)
    (details : gmap string any) : auditM unit :=
  Emit (mkAuditEvent auditID now "policy" "policy_evaluated" userID ip resource result
          traceID details).

Definition RecordAdminAction (userID ip resource action traceID : string)
    (details : gmap string any) : auditM unit :=
  Emit (mkAuditEvent auditID now "admin" action userID ip resource ResultSuccess traceID details).

Definition RecordHighRiskLogin (userID ip traceID : string) (score : float64)
    (factors : list string) (details : gmap string any) : auditM unit :=
  let details := <["risk_factors" := AnyStrings factors]>
                   (<["risk_score" := AnyFloat score]> details) in
  Emit (mkAuditEvent auditID now "risk" "high_risk_login" userID ip "" ResultSuccess
          traceID details).
End Records.

(** [GetLogsForUser]: the repository's query for the last thirty days is an
    argument; the limit is applied to its answer. *)
Definition GetLogsForUser (query : option (string -> res error (list AuditEvent)))
    (userID : string) (limit : Z) : res error (list AuditEvent) :=
  match query with
  | None => Err (Errorf "audit repository not configured")
  | Some query =>
      logs ← query userID;
      if bool_decide (0 < limit) && bool_decide (limit < Z.of_nat (length logs))
      then slice logs 0 limit
      else Ok logs
  end.

(** ** Facts *)
Definition received (s : audit_service) (i : nat) : option (list AuditEvent) :=
  sink_events <$> pipeline s !! i.

Lemma Emit_received event s i k :
  pipeline s !! i = Some k ->
  received (Emit event s).2 i =
    Some (if sink_accepts k event then sink_events k ++ [event] else sink_events k).
Proof.
  intros Hi. unfold received, Emit, modify. cbn [snd pipeline].
  rewrite list_lookup_fmap, Hi. cbn. unfold Write. by destruct (sink_accepts k event).
Qed.

Lemma Emit_sinks event s : length (pipeline (Emit event s).2) = length (pipeline s).
Proof. unfold Emit, modify. cbn [snd pipeline]. apply length_fmap. Qed.

Lemma Write_accepts k e : sink_accepts (Write k e).2 = sink_accepts k.
Proof. unfold Write. by destruct (sink_accepts k e). Qed.

Lemma Write_events k e :
  sink_events (Write k e).2 = sink_events k ++ (if sink_accepts k e then [e] else []).
Proof. unfold Write. destruct (sink_accepts k e); [done|]. by rewrite app_nil_r. Qed.

(** Events emitted one after the other. *)
Definition emit_all (events : list AuditEvent) : auditM unit := for_each Emit events.

Lemma emit_all_received events s i k :
  pipeline s !! i = Some k ->
  exists s', emit_all events s = (Ok (), s') /\
    received s' i = Some (sink_events k ++ filter (fun e => sink_accepts k e) events).
Proof.
  revert s k. induction events as [|e events IH]; intros s k Hi.
  { exists s. split; [done|]. unfold received. rewrite Hi. cbn. by rewrite app_nil_r. }
  destruct (IH (Emit e s).2 (Write k e).2) as (s' & Hrun & Hrec).
  { unfold Emit, modify. cbn [snd pipeline]. by rewrite list_lookup_fmap, Hi. }
  exists s'. split; [exact Hrun|]. rewrite Hrec. f_equal.
  rewrite Write_accepts, Write_events, filter_cons, <- app_assoc. f_equal.
  destruct (sink_accepts k e) eqn:Hk.
  - by rewrite decide_True by done.
  - rewrite decide_False; [done|]. by intros ?.
Qed.

(** ** Properties *)

(** Every sink of the pipeline receives every event it takes, in the order
    of the events and whatever the other sinks do: a sink that fails loses
    its own events only, and emitting never fails. *)
Theorem pipeline_fanout events s :
  exists s', emit_all events s = (Ok (), s') /\
    forall i k, pipeline s !! i = Some k ->
      received s' i = Some (sink_events k ++ filter (fun e => sink_accepts k e) events).
Proof.
  assert (Hrun : exists s', emit_all events s = (Ok (), s')).
  { revert s. induction events as [|e events IH]; intros s; [by exists s|].
    destruct (IH (Emit e s).2) as [s' Hs']. by exists s'. }
  destruct Hrun as [s' Hrun]. exists s'. split; [done|]. intros i k Hi.
  destruct (emit_all_received events s i k Hi) as (s'' & Hrun' & Hrec). by rewrite Hrun in Hrun'; simplify_eq.
Qed.

Lemma limit_logs (logs : list AuditEvent) limit :
  (if bool_decide (0 < limit) && bool_decide (limit < Z.of_nat (length logs))
   then slice (E:=error) logs 0 limit else Ok logs) =
  Ok (if bool_decide (0 < limit) then take (Z.to_nat limit) logs else logs).
Proof.
  case_bool_decide; cbn [andb]; [|done]. case_bool_decide.
  - rewrite slice_ok by lia. cbn [drop Z.to_nat]. by rewrite Z.sub_0_r.
  - by rewrite take_ge by lia.
Qed.

Definition demo_event (action : string) : AuditEvent :=
  mkAuditEvent "e" 0 "auth" action "u1" "" "" ResultSuccess "" ∅.

(** A sink that takes log-ins only, next to one that takes everything. *)
Definition demo_service : audit_service :=
  mkAuditService [mkSink (fun e => bool_decide (event_Action e = "login")) []; NewInMemorySink]
    false [].

Lemma pipeline_fanout_witness :
  exists s', emit_all [demo_event "logout"; demo_event "login"] demo_service = (Ok (), s') /\
    received s' 0 = Some [demo_event "login"] /\
    received s' 1 = Some [demo_event "logout"; demo_event "login"].
Proof.
  destruct (pipeline_fanout [demo_event "logout"; demo_event "login"] demo_service)
    as (s' & Hrun & Hrec).
  exists s'. split; [exact Hrun|]. split.
  - rewrite (Hrec 0%nat _ eq_refl). vm_compute. reflexivity.
  - rewrite (Hrec 1%nat _ eq_refl). vm_compute. reflexivity.
Defined.
