(* ===== verification/AuditLog.v ===== *)
(** * The asynchronous audit log (internal/audit/logger.go)

    [AuditLogger] buffers events in a channel; one goroutine gathers them in
    batches and writes each batch to every sink, when it is full and when a
    ticker fires; an event that finds the buffer full is written at once.  A
    history is a sequence of calls and of rounds of the goroutine in any order.
    Which writes a sink refuses is not up to the program. *)

From S2P Require Import Prelude Types GoStd.
Local Open Scope Z_scope.

(** ** Events (pkg/audit/events/event_types.go) *)
Record Actor := mkActor { actor_ID : string; actor_Type : string; actor_Name : string }.
Record Target := mkTarget { target_ID : string; target_Type : string; target_Name : string }.

(** The structured event, with all its fields; AuditTrail.v has the part that
    the audit service fills. *)
Record LogEvent := mkLogEvent {
  le_ID : string;
  le_Timestamp : time;
  le_EventType : string;
  le_Actor : Actor;
  le_Target : Target;
  le_Action : string;
  le_Result : string;
  le_Metadata : gmap string any;
  le_IPAddress : string;
  le_UserAgent : string;
  le_TraceID : string;
  le_Category : string;
  le_UserID : string;
  le_IP : string;
  le_Details : gmap string any;
  le_Resource : string
}.
Definition EventDataModified : string := "data.modified".
Definition EventConfigChanged : string := "system.config.changed".
Definition EventKeyRotated : string := "system.key.rotated".

#[global] Instance Actor_eq_dec : EqDecision Actor.
Proof. solve_decision. Defined.
#[global] Instance Target_eq_dec : EqDecision Target.
Proof. solve_decision. Defined.
#[global] Instance LogEvent_eq_dec : EqDecision LogEvent.
Proof. solve_decision. Defined.

(** A sink: whether it takes a write (of a batch, or of one event at once),
    what it has taken, and whether it is closed. *)
Record log_sink := mkLogSink {
  ls_accepts : bool -> list LogEvent -> bool;
  ls_written : list LogEvent;
  ls_closed : bool
}.
Definition sink_write (sync : bool) (events : list LogEvent) (s : log_sink) : log_sink :=
  if ls_accepts s sync events then mkLogSink (ls_accepts s) (ls_written s ++ events) (ls_closed s) else s.
Definition sink_close (s : log_sink) : log_sink := mkLogSink (ls_accepts s) (ls_written s) true.

Record audit_logger := mkAuditLogger {
  al_sinks : list log_sink;
  al_buffer : list LogEvent;
  al_batch : list LogEvent;
  al_stopped : bool
}.
Definition NewAuditLogger (sinks : list log_sink) : audit_logger := mkAuditLogger sinks [] [] false.

(** The primary repository is the first sink that is one; sinks are given with
    the repository they implement, if any. *)
Definition primary_repo {R} (sinks : list (option R)) : option R := head (omap id sinks).

Notation loggerM := (prog audit_logger error).

Section Logger.
Context (batchSize bufferSize : nat).

(** [writeSync] and [flushBatch]: a sink that fails does not stop the loop. *)
Definition writeSync (event : LogEvent) : loggerM unit :=
  modify (fun l => mkAuditLogger (sink_write true [event] <$> al_sinks l) (al_buffer l) (al_batch l) (al_stopped l)).
Definition flushBatch (batch : list LogEvent) : loggerM unit :=
  modify (fun l => mkAuditLogger (sink_write false batch <$> al_sinks l) (al_buffer l) (al_batch l) (al_stopped l)).

Definition enrich (uuid : string) (now : time) (e : LogEvent) : LogEvent :=
  mkLogEvent (if bool_decide (le_ID e = "") then uuid else le_ID e)
    (if bool_decide (le_Timestamp e = zero_time) then now else le_Timestamp e)
    (le_EventType e) (le_Actor e) (le_Target e) (le_Action e) (le_Result e) (le_Metadata e)
    (le_IPAddress e) (le_UserAgent e) (le_TraceID e) (le_Category e) (le_UserID e) (le_IP e)
    (le_Details e) (le_Resource e).

(** A send on the closed channel panics. *)
Definition Record_event (uuid : string) (now : time) (event : LogEvent) : loggerM unit :=
  let event := enrich uuid now event in
  l ← get;
  if al_stopped l : bool then lift Panic
  else if bool_decide (length (al_buffer l) < bufferSize)%nat
  then modify (fun l => mkAuditLogger (al_sinks l) (al_buffer l ++ [event]) (al_batch l) (al_stopped l))
  else writeSync event.

(** ** The rounds of [flushLoop] *)
Definition set_batch (batch : list LogEvent) : loggerM unit :=
  modify (fun l => mkAuditLogger (al_sinks l) (al_buffer l) batch (al_stopped l)).

(** [case event := <-al.buffer] *)
Definition loop_event : loggerM unit :=
  l ← get;
  match al_buffer l with
  | [] => mret ()
  | event :: buffer =>
      let batch := al_batch l ++ [event] in
      modify (fun l => mkAuditLogger (al_sinks l) buffer (al_batch l) (al_stopped l)) ;;
      if bool_decide (batchSize <= length batch)%nat
      then flushBatch batch ;; set_batch []
      else set_batch batch
  end.

(** [case <-ticker.C] *)
Definition loop_tick : loggerM unit :=
  l ← get;
  if bool_decide (al_batch l = []) then mret () else flushBatch (al_batch l) ;; set_batch [].

(** [case <-ctx.Done()] *)
Definition loop_done : loggerM unit :=
  l ← get;
  let batch := al_batch l ++ al_buffer l in
  put (mkAuditLogger (al_sinks l) [] [] true) ;;
  (if bool_decide (batch = []) then mret () else flushBatch batch) ;;
  modify (fun l => mkAuditLogger (sink_close <$> al_sinks l) (al_buffer l) (al_batch l) (al_stopped l)).

(** ** Histories *)
Inductive log_action : Type :=
  | ActRecord (uuid : string) (now : time) (event : LogEvent)
  | ActEvent
  | ActTick
  | ActDone.

(** The goroutine is gone once it is done. *)
Definition perform (a : log_action) : loggerM unit :=
  match a with
  | ActRecord uuid now event => Record_event uuid now event
  | ActEvent | ActTick | ActDone =>
      l ← get;
      if al_stopped l : bool then mret () else
        match a with ActEvent => loop_event | ActTick => loop_tick | _ => loop_done end
  end.
Definition perform_all : list log_action -> loggerM unit := for_each perform.

Definition recorded (actions : list log_action) : list LogEvent :=
  omap (fun a => match a with ActRecord uuid now event => Some (enrich uuid now event) | _ => None end) actions.

End Logger.

(** ** What becomes of the events *)

(** The writes a sink takes, of a sequence of writes to all sinks *)
Definition taken (accepts : bool -> list LogEvent -> bool) (writes : list (bool * list LogEvent)) : list LogEvent :=
  concat (filter (fun w => accepts w.1 w.2 = true) writes).*2.

Definition sink_after (writes : list (bool * list LogEvent)) (s s' : log_sink) : Prop :=
  ls_accepts s' = ls_accepts s /\ ls_written s' = ls_written s ++ taken (ls_accepts s) writes.

(** From [l] to [l'], with these writes and these new events *)
Record conserves (l l' : audit_logger) (writes : list (bool * list LogEvent)) (new : list LogEvent) : Prop := {
  cs_sinks : Forall2 (sink_after writes) (al_sinks l) (al_sinks l');
  cs_events : concat writes.*2 ++ al_batch l' ++ al_buffer l' ≡ₚ al_batch l ++ al_buffer l ++ new
}.

Lemma taken_app accepts w1 w2 : taken accepts (w1 ++ w2) = taken accepts w1 ++ taken accepts w2.
Proof. unfold taken. by rewrite filter_app, fmap_app, concat_app. Qed.

Lemma sink_after_nil s : sink_after [] s s.
Proof. split; [done|]. cbn. by rewrite app_nil_r. Qed.

Lemma sink_after_app w1 w2 s1 s2 s3 :
  sink_after w1 s1 s2 -> sink_after w2 s2 s3 -> sink_after (w1 ++ w2) s1 s3.
Proof.
  intros [Ha1 Hw1] [Ha2 Hw2]. split; [congruence|]. rewrite Hw2, Hw1, Ha1, taken_app. by rewrite app_assoc.
Qed.

Lemma conserves_app l1 l2 l3 w1 w2 n1 n2 :
  conserves l1 l2 w1 n1 -> conserves l2 l3 w2 n2 -> conserves l1 l3 (w1 ++ w2) (n1 ++ n2).
Proof.
  intros [Hs1 He1] [Hs2 He2]. split.
  - eapply Forall2_trans; [|exact Hs1|exact Hs2]. intros ???. apply sink_after_app.
  - rewrite fmap_app, concat_app, <- app_assoc, He2, (app_assoc (al_batch l2)), app_assoc, He1.
    by rewrite !app_assoc.
Qed.

Lemma write_one sync events s : sink_after [(sync, events)] s (sink_write sync events s).
Proof.
  unfold sink_write, sink_after, taken. rewrite filter_cons. cbn.
  destruct (ls_accepts s sync events) eqn:Ha; (split; [done|]).
  - rewrite decide_True by done. cbn. by rewrite app_nil_r.
  - rewrite decide_False by congruence. cbn. by rewrite app_nil_r.
Qed.

Lemma write_sinks sync events l : Forall2 (sink_after [(sync, events)]) l (sink_write sync events <$> l).
Proof. apply Forall2_fmap_r, Forall_Forall2_diag, Forall_forall. intros s _. apply write_one. Qed.

Lemma no_write l : Forall2 (sink_after []) l l.
Proof. apply Forall_Forall2_diag, Forall_forall. intros s _. apply sink_after_nil. Qed.

Section Conservation.
Context (batchSize bufferSize : nat).
Notation act := (perform batchSize bufferSize).

Lemma record_conserves uuid now event l l' :
  Record_event bufferSize uuid now event l = (Ok (), l') ->
  exists writes, conserves l l' writes [enrich uuid now event].
Proof.
  unfold Record_event. rewrite prog_get_bind. destruct (al_stopped l); [done|]. case_bool_decide.
  - intros [= <-]. exists []. split; cbn; [apply no_write|done].
  - intros [= <-]. eexists [(true, _)]. split; cbn; [apply write_sinks|].
    solve_Permutation.
Qed.

Lemma event_conserves l : exists writes, conserves l (loop_event batchSize l).2 writes [].
Proof.
  destruct l as [sinks [|event buffer] batch stopped]; unfold loop_event; rewrite prog_get_bind; cbn [al_buffer].
  - exists []. split; cbn; [apply no_write|by rewrite app_nil_r].
  - cbn [al_batch]. case_bool_decide.
    + eexists [(false, _)]. split; cbn; [apply write_sinks|]. solve_Permutation.
    + exists []. split; cbn; [apply no_write|]. solve_Permutation.
Qed.

Lemma tick_conserves l : exists writes, conserves l (loop_tick l).2 writes [].
Proof.
  destruct l as [sinks buffer batch stopped]. unfold loop_tick. rewrite prog_get_bind. cbn [al_batch].
  case_bool_decide as Hb.
  - exists []. split; cbn; [apply no_write|by rewrite app_nil_r].
  - eexists [(false, _)]. split; cbn; [apply write_sinks|]. by rewrite !app_nil_r.
Qed.

Lemma close_after writes l l' : Forall2 (sink_after writes) l l' -> Forall2 (sink_after writes) l (sink_close <$> l').
Proof. intros Hl. apply Forall2_fmap_r. eapply Forall2_impl; [exact Hl|]. by intros s s' [Ha Hw]. Qed.

Lemma done_conserves l :
  exists writes, conserves l (loop_done l).2 writes [] /\
    al_batch (loop_done l).2 = [] /\ al_buffer (loop_done l).2 = [] /\ al_stopped (loop_done l).2 = true.
Proof.
  destruct l as [sinks buffer batch stopped]. unfold loop_done. rewrite prog_get_bind. cbn [al_batch al_buffer].
  destruct (decide (batch ++ buffer = [])) as [Hb|Hb].
  - exists []. rewrite bool_decide_eq_true_2 by done. split; [|done].
    split; cbn; [apply close_after, no_write|]. by rewrite (app_assoc batch), Hb.
  - eexists [(false, _)]. rewrite bool_decide_eq_false_2 by done. split; [|done].
    split; cbn; [apply close_after, write_sinks|]. by rewrite !app_nil_r.
Qed.

Lemma perform_conserves a l l' :
  act a l = (Ok (), l') -> exists writes, conserves l l' writes (recorded [a]).
Proof.
  destruct a as [uuid now event| | |]; [apply record_conserves|..]; unfold perform; rewrite prog_get_bind;
    (destruct (al_stopped l); [intros [= <-]; exists []; split; [apply no_write|cbn; by rewrite app_nil_r]|]).
  - intros Hl. destruct (event_conserves l) as [w Hw]. rewrite Hl in Hw. eauto.
  - intros Hl. destruct (tick_conserves l) as [w Hw]. rewrite Hl in Hw. eauto.
  - intros Hl. destruct (done_conserves l) as (w & Hw & _). rewrite Hl in Hw. eauto.
Qed.

Lemma perform_all_conserves actions l l' :
  perform_all batchSize bufferSize actions l = (Ok (), l') ->
  exists writes, conserves l l' writes (recorded actions).
Proof.
  revert l. induction actions as [|a actions IH]; intros l.
  - intros [= <-]. exists []. split; [apply no_write|cbn; by rewrite app_nil_r].
  - unfold perform_all. cbn [for_each]. intros ([] & l1 & Ha & Hrest)%prog_bind_ok.
    destruct (perform_conserves _ _ _ Ha) as [w1 Hw1]. destruct (IH _ Hrest) as [w2 Hw2].
    exists (w1 ++ w2). assert (recorded (a :: actions) = recorded [a] ++ recorded actions) as ->.
    { unfold recorded. cbn. by case_match. }
    by eapply conserves_app.
Qed.

(** ** The bound on the buffer *)
Definition buffer_bounded (l : audit_logger) : Prop := (length (al_buffer l) <= bufferSize)%nat.

(** Nothing is buffered once the goroutine is gone. *)
Definition drained (l : audit_logger) : Prop :=
  al_stopped l = true -> al_buffer l = [] /\ al_batch l = [].

Definition logger_inv (l : audit_logger) : Prop := buffer_bounded l /\ drained l.

Lemma perform_inv a : preserves logger_inv (act a).
Proof.
  intros l [Hb Hd]. unfold logger_inv, buffer_bounded, drained, perform in *.
  destruct a as [uuid now event| | |]; cbn; unfold Record_event; rewrite prog_get_bind;
    (destruct (al_stopped l) eqn:Hs; [cbn; rewrite Hs; by split|]).
  - case_bool_decide; cbn; [|split; [done|congruence]].
    rewrite length_app. cbn. split; [lia|congruence].
  - unfold loop_event. rewrite prog_get_bind.
    destruct (al_buffer l) as [|event buffer] eqn:Hq; cbn in Hb; [cbn; rewrite Hq; split; [done|congruence]|].
    unfold mbind, prog_bind. cbn. case_bool_decide; cbn; (split; [lia|congruence]).
  - unfold loop_tick. rewrite prog_get_bind.
    case_bool_decide; unfold mbind, prog_bind; cbn; (split; [done|congruence]).
  - unfold loop_done. rewrite prog_get_bind. case_bool_decide; unfold mbind, prog_bind; cbn; (split; [lia|done]).
Qed.

Lemma perform_all_inv actions : preserves logger_inv (perform_all batchSize bufferSize actions).
Proof. apply preserves_for_each. intros a _. apply perform_inv. Qed.
End Conservation.

(** A sink that takes every write has exactly the events of the writes. *)
Lemma taken_all accepts writes : (forall sync es, accepts sync es = true) -> taken accepts writes = concat writes.*2.
Proof.
  intros Hall. unfold taken. f_equal. f_equal. apply filter_all, Forall_forall. by intros [sync es] _.
Qed.

Definition all_gone (l : audit_logger) : Prop :=
  al_stopped l = true /\ al_buffer l = [] /\ al_batch l = [].

(** C28: no event is lost or written twice on its way through the logger.
    Whatever the order of calls and of rounds of the goroutine, as long as no
    call came after the shutdown: there is a sequence of writes such that each
    sink has, after what it had, exactly the writes it accepted, and the events
    written, those in the batch and those in the buffer are the recorded ones;
    the buffer keeps its bound; and when the last step is the shutdown all
    recorded events were written. *)
Theorem events_conserved batchSize bufferSize actions sinks l :
  perform_all batchSize bufferSize actions (NewAuditLogger sinks) = (Ok (), l) ->
  (exists writes,
     Forall2 (sink_after writes) sinks (al_sinks l) /\
     concat writes.*2 ++ al_batch l ++ al_buffer l ≡ₚ recorded actions) /\
  (length (al_buffer l) <= bufferSize)%nat /\
  (al_stopped l = true -> al_buffer l = [] /\ al_batch l = []).
Proof.
  intros Hrun. destruct (perform_all_conserves _ _ _ _ _ Hrun) as (writes & [Hsinks Hevents]).
  assert (logger_inv bufferSize l) as [Hb Hd].
  { replace l with (perform_all batchSize bufferSize actions (NewAuditLogger sinks)).2 by by rewrite Hrun.
    apply perform_all_inv. split; [cbn; unfold buffer_bounded; cbn; lia|done]. }
  split; [|done]. exists writes. by split.
Qed.

(** After [Shutdown], every event that was recorded before is in a sink that
    accepts all writes, as often as it was recorded. *)
Theorem shutdown_flushes batchSize bufferSize actions sinks l s s' :
  perform_all batchSize bufferSize actions (NewAuditLogger sinks) = (Ok (), l) ->
  al_stopped l = true ->
  sinks = [s] -> al_sinks l = [s'] -> (forall sync es, ls_accepts s sync es = true) ->
  ls_written s' ≡ₚ ls_written s ++ recorded actions.
Proof.
  intros Hrun Hstop -> Hl Hall. destruct (perform_all_conserves _ _ _ _ _ Hrun) as (writes & [Hsinks Hevents]).
  assert (logger_inv bufferSize l) as [_ Hd].
  { replace l with (perform_all batchSize bufferSize actions (NewAuditLogger [s])).2 by by rewrite Hrun.
    apply perform_all_inv. split; [cbn; unfold buffer_bounded; cbn; lia|done]. }
  destruct (Hd Hstop) as [Hbuf Hbatch]. rewrite Hbuf, Hbatch, !app_nil_r in Hevents. cbn in Hevents.
  rewrite Hl in Hsinks. apply Forall2_cons in Hsinks as [[_ ->] _].
  by rewrite taken_all, Hevents.
Qed.

(** Once the goroutine has closed the channel, recording an event panics. *)
Theorem record_after_shutdown batchSize bufferSize l uuid now event rest :
  al_stopped l = true ->
  perform_all batchSize bufferSize (ActRecord uuid now event :: rest) l = (Panic, l).
Proof. intros Hs. unfold perform_all. cbn. unfold Record_event. unfold mbind, prog_bind, get. cbn. by rewrite Hs. Qed.

(** A full buffer is no obstacle: the event is written at once, before those
    that wait. *)
Theorem full_buffer_overtakes bufferSize uuid now event l :
  al_stopped l = false -> length (al_buffer l) = bufferSize ->
  exists l', Record_event bufferSize uuid now event l = (Ok (), l') /\ al_buffer l' = al_buffer l /\
    Forall2 (sink_after [(true, [enrich uuid now event])]) (al_sinks l) (al_sinks l').
Proof.
  intros Hs Hlen. unfold Record_event. rewrite prog_get_bind, Hs, bool_decide_eq_false_2 by lia.
  eexists. split; [done|]. split; [done|]. cbn. apply write_sinks.
Qed.

(** ** The sink over PostgreSQL (internal/audit/sinks/postgres_sink.go) *)
Record AuditLogEntry := mkAuditLogEntry {
  entry_ID : string;
  entry_Timestamp : time;
  entry_EventType : string;
  entry_Actor : string;
  entry_Target : string;
  entry_Action : string;
  entry_Result : string;
  entry_Metadata : string;
  entry_IPAddress : string;
  entry_UserAgent : string;
  entry_TraceID : string;
  entry_Category : string;
  entry_UserID : string;
  entry_Details : string
}.

(** JSON is an argument; a failed encoding leaves the column empty. *)
Record event_json := mkEventJson {
  json_actor : Actor -> string;
  json_target : Target -> string;
  json_map : gmap string any -> option string
}.
Definition toAuditLogEntry (js : event_json) (e : LogEvent) : AuditLogEntry :=
  let json_or_nil m := default "" (json_map js m) in
  mkAuditLogEntry (le_ID e) (le_Timestamp e) (le_EventType e) (json_actor js (le_Actor e))
    (json_target js (le_Target e)) (le_Action e) (le_Result e) (json_or_nil (le_Metadata e))
    (le_IPAddress e) (le_UserAgent e) (le_TraceID e) (le_Category e) (le_UserID e) (json_or_nil (le_Details e)).

(** [WriteBatch] inserts the rows of a batch that is not empty; [insert] is the
    database. *)
Definition postgres_WriteBatch (js : event_json) (insert : list AuditLogEntry -> res error unit)
    (batch : list LogEvent) : res error unit :=
  if bool_decide (batch = []) then Ok () else insert (toAuditLogEntry js <$> batch).

(** What the audit service calls the address and the resource of an event has
    no column: two events that differ there only have one row. *)
Theorem resource_not_stored js e ip resource :
  toAuditLogEntry js (mkLogEvent (le_ID e) (le_Timestamp e) (le_EventType e) (le_Actor e) (le_Target e)
    (le_Action e) (le_Result e) (le_Metadata e) (le_IPAddress e) (le_UserAgent e) (le_TraceID e)
    (le_Category e) (le_UserID e) ip (le_Details e) resource) = toAuditLogEntry js e.
Proof. done. Qed.

(** ** Witnesses *)
Definition picky_sink : log_sink := mkLogSink (fun _ es => bool_decide (length es = 1)%nat) [] false.
Definition willing_sink : log_sink := mkLogSink (fun _ _ => true) [] false.
Definition an_event (id : string) : LogEvent :=
  mkLogEvent id 5 EventDataModified (mkActor "u" "user" "") (mkTarget "t" "" "") "a" "success" ∅
    "192.0.2.1" "curl" "" "" "u" "192.0.2.1" ∅ "users".
Definition a_history : list log_action :=
  [ActRecord "x" 1 (an_event "1"); ActRecord "x" 1 (an_event "2"); ActRecord "x" 1 (an_event "3");
   ActEvent; ActTick; ActRecord "x" 1 (an_event "4"); ActDone].

Lemma events_conserved_witness :
  let l := (perform_all 2 2 a_history (NewAuditLogger [picky_sink; willing_sink])).2 in
  (fun s => le_ID <$> ls_written s) <$> al_sinks l = [["3"; "1"]; ["3"; "1"; "2"; "4"]] /\
  (exists writes,
     Forall2 (sink_after writes) [picky_sink; willing_sink] (al_sinks l) /\
     concat writes.*2 ++ al_batch l ++ al_buffer l ≡ₚ recorded a_history).
Proof. split; [vm_compute; reflexivity|]. exact (proj1 (events_conserved 2 2 a_history [picky_sink; willing_sink] _ eq_refl)). Defined.

Lemma shutdown_flushes_witness :
  let l := (perform_all 2 2 a_history (NewAuditLogger [willing_sink])).2 in
  concat (ls_written <$> al_sinks l) ≡ₚ [] ++ recorded a_history.
Proof. exact (shutdown_flushes 2 2 a_history [willing_sink] _ willing_sink _ eq_refl eq_refl eq_refl eq_refl (fun _ _ => eq_refl)). Defined.
