(* ===== verification/Compliance.v ===== *)
(** * Compliance checks, retention and reports (internal/audit)

    The checker runs the rules of a standard against the audit log and the
    accounts; the retention manager and the retention policies delete and
    archive what is old; the report generator prints the log, as CSV among
    others, which is read back here by a reader of RFC 4180.  The audit log of
    PostgreSQL is a list of rows with the conditions of its queries; times
    print as an argument says, and so does JSON. *)

From stdpp Require Import pretty.
From S2P Require Import Prelude Types GoStd AuditLog.
From Stdlib Require Import Ascii.
Local Open Scope Z_scope.

(** ** The audit log (repository.go, postgres_auditlog_repository.go) *)
Record QueryFilter := mkQueryFilter {
  qf_StartTimestamp : time;
  qf_EndTimestamp : time;
  qf_EventTypes : list string;
  qf_ActorID : string;
  qf_TargetID : string
}.
Definition no_filter : QueryFilter := mkQueryFilter zero_time zero_time [] "" "".

(** The conditions of the query, those that are not set left out *)
Definition Query_matches (f : QueryFilter) (e : LogEvent) : bool :=
  (bool_decide (qf_StartTimestamp f = zero_time) || (qf_StartTimestamp f <=? le_Timestamp e)) &&
  (bool_decide (qf_EndTimestamp f = zero_time) || (le_Timestamp e <=? qf_EndTimestamp f)) &&
  (bool_decide (qf_EventTypes f = []) || bool_decide (le_EventType e ∈ qf_EventTypes f)) &&
  (bool_decide (qf_ActorID f = "") || bool_decide (actor_ID (le_Actor e) = qf_ActorID f)) &&
  (bool_decide (qf_TargetID f = "") || bool_decide (target_ID (le_Target e) = qf_TargetID f)).

Definition table_Query (rows : list LogEvent) (f : QueryFilter) : res error (list LogEvent) :=
  Ok (filter (fun e => Query_matches f e = true) rows).
Definition table_DeleteBefore (cutoff : time) (rows : list LogEvent) : list LogEvent :=
  filter (fun e => cutoff <= le_Timestamp e) rows.

(** ** The checker (compliance_checker.go) *)
Record UserAccount := mkUserAccount { account_ID : string; account_CreatedAt : time }.

Record ComplianceResult := mkComplianceResult {
  result_RuleID : string;
  result_Status : string;
  result_Details : string;
  result_Error : option error
}.
Record ComplianceReport := mkComplianceReport {
  report_Standard : string;
  report_Timestamp : time;
  report_Results : list ComplianceResult;
  report_PassRate : float64
}.

(** What the checks read *)
Record check_env := mkCheckEnv {
  cc_Query : QueryFilter -> res error (list LogEvent);
  cc_FindAccountsCreatedBefore : time -> res error (list UserAccount)
}.
Record ComplianceRule := mkComplianceRule {
  rule_ID : string;
  rule_Name : string;
  rule_Standard : string;
  rule_Description : string;
  rule_CheckFunc : time -> check_env -> res error ComplianceResult
}.
Definition StandardGDPR : string := "GDPR".
Definition StandardSOC2 : string := "SOC2".
Definition StandardISO27001 : string := "ISO27001".

(** [audit.ErrNotFound], which is not the error of that name of pkg/types *)
Definition audit_ErrNotFound : error := Sentinel "audit: not found".

Definition getRulesByStandard (rules : list ComplianceRule) (standard : string) : list ComplianceRule :=
  filter (fun r => rule_Standard r = standard) rules.

Section Checker.
Context (error_text : error -> string) (format_date : time -> string).

(** One rule of the loop: an error is a result of its own. *)
Definition check_rule (now : time) (env : check_env) (r : ComplianceRule) : res error ComplianceResult :=
  match rule_CheckFunc r now env with
  | Err err => Ok (mkComplianceResult (rule_ID r) "error" (error_text err) (Some err))
  | answer => answer
  end.
Fixpoint check_rules (now : time) (env : check_env) (rules : list ComplianceRule) : res error (list ComplianceResult) :=
  match rules with
  | [] => Ok []
  | r :: rules => x ← check_rule now env r; xs ← check_rules now env rules; Ok (x :: xs)
  end.
Definition passedCount (results : list ComplianceResult) : nat :=
  length (filter (fun x => result_Status x = "pass") results).

Definition RunChecksForStandard (now : time) (rules : list ComplianceRule) (env : check_env) (standard : string) :
    res error ComplianceReport :=
  let rulesForStandard := getRulesByStandard rules standard in
  if bool_decide (rulesForStandard = []) then Err (Errorf "no compliance rules defined for standard")
  else
    results ← check_rules now env rulesForStandard;
    Ok (mkComplianceReport standard now results
          (fdiv (float_of_Z (Z.of_nat (passedCount results))) (float_of_Z (Z.of_nat (length rulesForStandard))))).

(** [time.Now().UTC().Hour()]: times count from an instant of midnight. *)
Definition utc_hour (t : time) : Z := (t / Hour) mod 24.
Definition ValidateAction (now : time) (action : string) : res error unit :=
  if bool_decide (action = "data.export") then
    let hour := utc_hour now in
    if (hour <? 6) || (20 <=? hour) then Err (Errorf "data export is restricted to business hours (06:00 - 20:00 UTC)")
    else Ok ()
  else Ok ().

Definition CheckGDPRDataRetention (now : time) (env : check_env) : res error ComplianceResult :=
  let cutoff := now + (- 7 * 365 * 24 * Hour) in
  match cc_FindAccountsCreatedBefore env cutoff with
  | Err err =>
      if bool_decide (err = audit_ErrNotFound)
      then Ok (mkComplianceResult "GDPR-05" "pass" "No user accounts found beyond the retention period." None)
      else Err err
  | Ok expiredUsers =>
      if bool_decide (0 < length expiredUsers)%nat
      then Ok (mkComplianceResult "GDPR-05" "fail"
             ("Found " +:+ pretty (length expiredUsers) +:+ " user accounts with creation dates older than " +:+
              format_date cutoff +:+ ".") None)
      else Ok (mkComplianceResult "GDPR-05" "pass" "" None)
  | Panic => Panic
  | Diverge => Diverge
  end.

Definition CheckSOC2MonitoringCoverage (now : time) (env : check_env) : res error ComplianceResult :=
  let f := mkQueryFilter (now + (- 7 * 24 * Hour)) zero_time [EventConfigChanged; EventKeyRotated] "" "" in
  events ← cc_Query env f;
  Ok (if bool_decide (events = [])
      then mkComplianceResult "SOC2-CC7.2" "fail"
             "No critical system events (e.g., config change, key rotation) were audited in the last 7 days." None
      else mkComplianceResult "SOC2-CC7.2" "pass"
             ("Found " +:+ pretty (length events) +:+ " critical system events in the last 7 days.") None).

(** The rules of the command line tool (cmd/audit-exporter/compliance.go), and
    its source of accounts, which has none *)
Definition exporter_rules : list ComplianceRule :=
  [mkComplianceRule "GDPR-05" "" StandardGDPR "" CheckGDPRDataRetention;
   mkComplianceRule "SOC2-CC7.2" "" StandardSOC2 "" CheckSOC2MonitoringCoverage].
Definition mockIdentityRepository (cutoff : time) : res error (list UserAccount) := Ok [].
End Checker.

(** ** Retention (retention.go, retention_policy.go) *)

(** The job that [RetentionManager.Start] schedules, or nothing; [repo] is the
    interface value the manager was made with, which may be nil. *)
Definition retention_job {St} (repo : option (time -> prog St error unit)) (retentionDays : Z) (now : time) :
    prog St error unit :=
  if retentionDays <=? 0 then mret ()
  else match repo with
       | None => lift Panic
       | Some DeleteBefore => try (DeleteBefore (now - retentionDays * (24 * Hour))) ;; mret ()
       end.

Record RetentionConfig := mkRetentionConfig {
  HotDataRetention : Z;
  WarmDataRetention : Z;
  ColdDataRetention : Z;
  EnableAutoArchive : bool;
  EnableAutoDelete : bool
}.

(** [RetentionRepository], and its laws as the interface documents them: the
    logs with their tiers, in an order *)
Class RetentionRepository (St : Type) := {
  ArchiveLogs : time -> string -> prog St error Z;
  DeleteLogsBefore : time -> prog St error Z;
  tiers : St -> list (LogEvent * string)
}.
Class RetentionLaws (St : Type) `{RetentionRepository St} := {
  law_archive cutoff tier s n s' :
    ArchiveLogs cutoff tier s = (Ok n, s') ->
    tiers s' = (fun x => if bool_decide (le_Timestamp x.1 < cutoff) then (x.1, tier) else x) <$> tiers s;
  law_archive_err cutoff tier s e s' : ArchiveLogs cutoff tier s = (Err e, s') -> tiers s' = tiers s;
  law_archive_returns cutoff tier s : exists r s', ArchiveLogs cutoff tier s = (r, s') /\ returns r = true;
  law_delete cutoff s n s' :
    DeleteLogsBefore cutoff s = (Ok n, s') ->
    tiers s' = filter (fun x => cutoff <= le_Timestamp x.1) (tiers s);
  law_delete_err cutoff s e s' : DeleteLogsBefore cutoff s = (Err e, s') -> tiers s' = tiers s
}.

(** [Execute]: archiving may fail, and deleting is done all the same. *)
Definition policy_Execute {St} `{RetentionRepository St} (config : RetentionConfig) (now : time) : prog St error unit :=
  (if EnableAutoArchive config
   then try (ArchiveLogs (now + (- HotDataRetention config)) "warm") ;; mret ()
   else mret ()) ;;
  (if EnableAutoDelete config
   then DeleteLogsBefore (now + (- ColdDataRetention config)) ;; mret ()
   else mret ()).

(** ** Comma-separated values *)
Module CSV.
Definition quote : ascii := "034".
Definition comma : ascii := ",".
Definition newline : ascii := "010".
Definition return_ : ascii := "013".

(** [unicode.IsSpace] of the first character of a text in UTF-8 *)
Definition leading_space (s : string) : bool :=
  match s with
  | "" => false
  | String a s1 =>
      let n := nat_of_ascii a in
      if (bool_decide (9 <= n <= 13) || bool_decide (n = 32))%nat then true
      else match s1 with
           | "" => false
           | String b s2 =>
               let m := nat_of_ascii b in
               if bool_decide (n = 194)%nat then (bool_decide (m = 133) || bool_decide (m = 160))%nat
               else match s2 with
                    | "" => false
                    | String c _ =>
                        let k := nat_of_ascii c in
                        (bool_decide (n = 225 /\ m = 154 /\ k = 128)
                         || bool_decide (n = 226 /\ m = 128 /\ (128 <= k <= 138 \/ k = 168 \/ k = 169 \/ k = 175))
                         || bool_decide (n = 226 /\ m = 129 /\ k = 159)
                         || bool_decide (n = 227 /\ m = 128 /\ k = 128))%nat
                    end
           end
  end.

Definition special (c : ascii) : bool :=
  bool_decide (c = newline) || bool_decide (c = return_) || bool_decide (c = quote) || bool_decide (c = comma).
Fixpoint has_special (s : string) : bool :=
  match s with "" => false | String c s => special c || has_special s end.

(** [csv.Writer.fieldNeedsQuotes] with a comma, and the field as written *)
Definition fieldNeedsQuotes (field : string) : bool :=
  if bool_decide (field = "") then false
  else if bool_decide (field = "\.") then true
  else has_special field || leading_space field.
Fixpoint double_quotes (s : string) : string :=
  match s with
  | "" => ""
  | String c s => if bool_decide (c = quote) then String quote (String quote (double_quotes s)) else String c (double_quotes s)
  end.
Definition write_field (field : string) : string :=
  if fieldNeedsQuotes field then String quote (double_quotes field +:+ String quote "") else field.

(** [csv.Writer.Write] *)
Fixpoint write_fields (fields : list string) : string :=
  match fields with
  | [] => ""
  | [f] => write_field f
  | f :: fs => write_field f +:+ String comma (write_fields fs)
  end.
Definition write_record (record : list string) : string := write_fields record +:+ String newline "".
Fixpoint write_all (records : list (list string)) : string :=
  match records with [] => "" | r :: rs => write_record r +:+ write_all rs end.

(** A reader of RFC 4180, with a line feed between records: where in a field it
    is, the record so far, the records before. *)
Inductive state : Type := Start | Bare (field : string) | Quoted (field : string) | Closed (field : string).
Definition ended (record : list string) (field : string) (c : ascii) : option (list string + list string) :=
  if bool_decide (c = comma) then Some (inl (record ++ [field]))
  else if bool_decide (c = newline) then Some (inr (record ++ [field]))
  else None.
Fixpoint read (s : string) (st : state) (record : list string) : option (list (list string)) :=
  match s with
  | "" => match st, record with Start, [] => Some [] | _, _ => None end
  | String c s =>
      let bare f := if bool_decide (c = quote) then None else read s (Bare (f +:+ String c "")) record in
      let finish f next :=
        match ended record f c with
        | Some (inl record) => read s Start record
        | Some (inr record) => (fun rs => record :: rs) <$> read s Start []
        | None => next
        end in
      match st with
      | Start => if bool_decide (c = quote) then read s (Quoted "") record else finish "" (bare "")
      | Bare f => finish f (bare f)
      | Quoted f => if bool_decide (c = quote) then read s (Closed f) record else read s (Quoted (f +:+ String c "")) record
      | Closed f => if bool_decide (c = quote) then read s (Quoted (f +:+ String quote "")) record else finish f None
      end
  end.
Definition read_all (s : string) : option (list (list string)) := read s Start [].
End CSV.

(** ** Reports (report_generator.go) *)
Record ReportRequest := mkReportRequest { req_Format : string; req_Filter : QueryFilter }.
Record Report := mkReport {
  rep_Title : string;
  rep_GeneratedAt : time;
  rep_Format : string;
  rep_Content : string;
  rep_MimeType : string
}.
Definition FormatJSON : string := "json".
Definition FormatCSV : string := "csv".
Definition FormatPDF : string := "pdf".

Section Reports.
Context (format_rfc3339 format_rfc1123 : time -> string) (marshal : list LogEvent -> res error string).
Local Notation nl := (String CSV.newline "").

Definition csv_header : list string :=
  ["id"; "timestamp"; "event_type"; "actor_id"; "actor_type"; "target_id"; "target_type"; "action"; "result";
   "ip_address"; "user_agent"].
Definition csv_record (e : LogEvent) : list string :=
  [le_ID e; format_rfc3339 (le_Timestamp e); le_EventType e; actor_ID (le_Actor e); actor_Type (le_Actor e);
   target_ID (le_Target e); target_Type (le_Target e); le_Action e; le_Result e; le_IPAddress e; le_UserAgent e].
Definition exportCSV (events : list LogEvent) : string := CSV.write_all (csv_header :: (csv_record <$> events)).

Definition summary_event (i : nat) (e : LogEvent) : string :=
  "Event #" +:+ pretty (i + 1)%nat +:+ nl +:+
  "  ID: " +:+ le_ID e +:+ nl +:+
  "  Timestamp: " +:+ format_rfc3339 (le_Timestamp e) +:+ nl +:+
  "  Type: " +:+ le_EventType e +:+ nl +:+
  "  Actor: " +:+ actor_ID (le_Actor e) +:+ " (" +:+ actor_Type (le_Actor e) +:+ ")" +:+ nl +:+
  "  Action: " +:+ le_Action e +:+ nl +:+
  "  Result: " +:+ le_Result e +:+ nl +:+
  (if bool_decide (le_IPAddress e = "") then "" else "  IP Address: " +:+ le_IPAddress e +:+ nl) +:+
  nl.
Definition exportTextSummary (now : time) (events : list LogEvent) : string :=
  "========================================" +:+ nl +:+
  "       Audit Log Report Summary" +:+ nl +:+
  "========================================" +:+ nl +:+
  "Report Generated: " +:+ format_rfc1123 now +:+ nl +:+
  "Total Events: " +:+ pretty (length events) +:+ nl +:+
  "----------------------------------------" +:+ nl +:+ nl +:+
  String.concat "" (imap summary_event events) +:+
  "--- End of Report ---" +:+ nl.

Definition GenerateReport (now : time) (query : QueryFilter -> res error (list LogEvent)) (req : ReportRequest) :
    res error Report :=
  match query (req_Filter req) with
  | Ok events =>
      '(content, mime) ←
        (if bool_decide (req_Format req = FormatJSON) then
           match marshal events with
           | Err err => Err (Wrapf "failed to marshal report data to JSON" err)
           | answer => c ← answer; Ok (c, "application/json")
           end
         else if bool_decide (req_Format req = FormatCSV) then Ok (exportCSV events, "text/csv")
         else if bool_decide (req_Format req = FormatPDF) then Ok (exportTextSummary now events, "application/pdf")
         else Err (Errorf "unsupported report format"));
      Ok (mkReport "Audit Log Report" now (req_Format req) content mime)
  | Err err => Err (Wrapf "failed to query audit events for report" err)
  | Panic => Panic
  | Diverge => Diverge
  end.
End Reports.

(** ** Reading back what was written *)
Module CSVFacts.
Import CSV.

Lemma append_char f c s : (f +:+ String c "") +:+ s = f +:+ String c s.
Proof. by rewrite <- string_app_assoc. Qed.

Lemma bare_char c : special c = false -> bool_decide (c = quote) = false /\ forall record f, ended record f c = None.
Proof.
  unfold special. rewrite !orb_false_iff. intros (((Hn & _) & Hq) & Hc). split; [done|].
  intros record f. unfold ended. by rewrite Hc, Hn.
Qed.

(** A field without special characters, up to the separator *)
Lemma read_bare s : has_special s = false ->
  forall f rest record, read (s +:+ rest) (Bare f) record = read rest (Bare (f +:+ s)) record.
Proof.
  induction s as [|c s IH]; intros Hs f rest record.
  - by rewrite string_app_nil_r.
  - cbn in Hs. apply orb_false_iff in Hs as [Hc Hs]. destruct (bare_char c Hc) as [Hq He].
    change (String c s +:+ rest) with (String c (s +:+ rest)). cbn [read]. rewrite He, Hq, (IH Hs). by rewrite append_char.
Qed.

(** A quoted field, up to the closing quote *)
Lemma read_quoted s :
  forall f rest record, read (double_quotes s +:+ String quote rest) (Quoted f) record = read rest (Closed (f +:+ s)) record.
Proof.
  induction s as [|c s IH]; intros f rest record.
  - cbn. by rewrite string_app_nil_r.
  - cbn [double_quotes]. case_bool_decide as Hc.
    + change (String quote (String quote (double_quotes s)) +:+ String quote rest)
        with (String quote (String quote (double_quotes s +:+ String quote rest))).
      cbn [read]. rewrite !bool_decide_eq_true_2 by done. by rewrite IH, append_char, Hc.
    + change (String c (double_quotes s) +:+ String quote rest) with (String c (double_quotes s +:+ String quote rest)).
      cbn [read]. rewrite bool_decide_eq_false_2 by done. by rewrite IH, append_char.
Qed.

Definition next (sep : ascii) (record : list string) (field rest : string) : option (list (list string)) :=
  if bool_decide (sep = comma) then read rest Start (record ++ [field])
  else (fun rs => (record ++ [field]) :: rs) <$> read rest Start [].

(** Any field, with its separator *)
Lemma read_field field sep rest record : sep = comma \/ sep = newline ->
  read (write_field field +:+ String sep rest) Start record = next sep record field rest.
Proof.
  intros Hsep. assert (forall f, ended record f sep =
    if bool_decide (sep = comma) then Some (inl (record ++ [f])) else Some (inr (record ++ [f]))) as He.
  { intros f. unfold ended. by destruct Hsep as [-> | ->]. }
  assert (bool_decide (sep = quote) = false) as Hq by by destruct Hsep as [-> | ->].
  unfold write_field, next. destruct (fieldNeedsQuotes field) eqn:Hneeds.
  - change (String quote (double_quotes field +:+ String quote "") +:+ String sep rest)
      with (String quote ((double_quotes field +:+ String quote "") +:+ String sep rest)).
    rewrite append_char. cbn [read]. rewrite bool_decide_eq_true_2 by done. rewrite read_quoted.
    change ("" +:+ field) with field. cbn [read]. rewrite Hq, He. by destruct (bool_decide (sep = comma)).
  - destruct field as [|c field].
    + change ("" +:+ String sep rest) with (String sep rest). cbn [read]. rewrite Hq, He. by destruct (bool_decide (sep = comma)).
    + assert (has_special (String c field) = false) as Hs.
      { unfold fieldNeedsQuotes in Hneeds. rewrite bool_decide_eq_false_2 in Hneeds by done.
        case_bool_decide as Hdot; [done|]. by apply orb_false_iff in Hneeds as [-> _]. }
      cbn in Hs. apply orb_false_iff in Hs as [Hc Hs]. destruct (bare_char c Hc) as [Hcq Hce].
      change (String c field +:+ String sep rest) with (String c (field +:+ String sep rest)).
      cbn [read]. rewrite Hcq, Hce, (read_bare _ Hs). change ("" +:+ String c "") with (String c "").
      change (String c "" +:+ field) with (String c field). cbn [read]. rewrite Hq, He. by destruct (bool_decide (sep = comma)).
Qed.

Lemma read_record fields rest : forall record, fields <> [] ->
  read (write_record fields +:+ rest) Start record = (fun rs => (record ++ fields) :: rs) <$> read rest Start [].
Proof.
  unfold write_record. induction fields as [|f fields IH]; intros record Hne; [done|].
  rewrite append_char. destruct fields as [|g fields].
  - cbn [write_fields]. by rewrite read_field by auto.
  - change (write_fields (f :: g :: fields)) with (write_field f +:+ String comma (write_fields (g :: fields))).
    rewrite <- string_app_assoc.
    change (String comma (write_fields (g :: fields)) +:+ String newline rest)
      with (String comma (write_fields (g :: fields) +:+ String newline rest)).
    rewrite read_field by auto. unfold next. rewrite bool_decide_eq_true_2 by done.
    rewrite <- append_char, IH by done. by rewrite <- app_assoc.
Qed.

Lemma read_write records : Forall (fun r => r <> []) records -> read_all (write_all records) = Some records.
Proof.
  unfold read_all. induction 1 as [|r records Hr _ IH]; [done|]. cbn [write_all].
  by rewrite read_record, IH.
Qed.
End CSVFacts.

(** ** What the reports show *)

(** C29: a CSV report holds the selected events, whatever their fields contain.
    A request for CSV against the table of events gives a report that RFC 4180
    reads back, field for field, as the header and one record for each event
    that satisfies the filter, in the order of the table; every other format
    but JSON and PDF is refused; and what is called a PDF is the plain text of
    the summary. *)
Theorem report_contract fmt fmt1123 marshal now rows f format :
  let rep := GenerateReport fmt fmt1123 marshal now (table_Query rows) (mkReportRequest format f) in
  let events := filter (fun e => Query_matches f e = true) rows in
  (format = FormatCSV -> exists text, rep = Ok (mkReport "Audit Log Report" now FormatCSV text "text/csv") /\
     CSV.read_all text = Some (csv_header :: (csv_record fmt <$> events))) /\
  (format = FormatPDF ->
     rep = Ok (mkReport "Audit Log Report" now FormatPDF (exportTextSummary fmt fmt1123 now events) "application/pdf")) /\
  (format ∉ [FormatJSON; FormatCSV; FormatPDF] -> rep = Err (Errorf "unsupported report format")).
Proof.
  intros rep events. subst rep. unfold GenerateReport. cbn [table_Query req_Filter req_Format].
  split; [|split].
  - intros ->. eexists. split; [reflexivity|]. unfold exportCSV. rewrite CSVFacts.read_write; [done|].
    constructor; [done|]. apply Forall_fmap, Forall_forall. done.
  - intros ->. reflexivity.
  - rewrite !not_elem_of_cons. intros (Hj & Hc & Hp & _). by rewrite !bool_decide_eq_false_2.
Qed.

(** ** What the checker shows *)

Lemma check_rules_results error_text now env rules results :
  check_rules error_text now env rules = Ok results ->
  Forall2 (fun r x => check_rule error_text now env r = Ok x) rules results.
Proof.
  revert results. induction rules as [|r rules IH]; intros results; [by intros [= <-]|].
  cbn. intros (x & Hx & (xs & Hxs & [= <-])%bind_ok_inv)%bind_ok_inv. constructor; auto.
Qed.

(** A rule whose check returns never stops the others. *)
Lemma check_rules_total error_text now env rules :
  Forall (fun r => returns (rule_CheckFunc r now env) = true) rules ->
  exists results, check_rules error_text now env rules = Ok results.
Proof.
  induction 1 as [|r rules Hr _ (xs & IH)]; [by exists []|]. cbn. unfold check_rule.
  destruct (rule_CheckFunc r now env); try done; rewrite IH; cbn; eauto.
Qed.

(** The report has one result for each rule of the standard, in order; a check
    that fails is a result with the status "error", which does not count as
    passed. *)
Theorem checks_all_reported error_text now rules env standard :
  Forall (fun r => returns (rule_CheckFunc r now env) = true) (getRulesByStandard rules standard) ->
  getRulesByStandard rules standard <> [] ->
  exists report, RunChecksForStandard error_text now rules env standard = Ok report /\
    report_Standard report = standard /\
    Forall2 (fun r x => match rule_CheckFunc r now env with
                        | Ok y => x = y
                        | Err err => result_RuleID x = rule_ID r /\ result_Status x = "error" /\ result_Error x = Some err
                        | _ => False
                        end) (getRulesByStandard rules standard) (report_Results report) /\
    report_PassRate report =
      fdiv (float_of_Z (Z.of_nat (length (filter (fun x => result_Status x = "pass") (report_Results report)))))
           (float_of_Z (Z.of_nat (length (report_Results report)))).
Proof.
  intros Hret Hne. unfold RunChecksForStandard. rewrite bool_decide_eq_false_2 by done.
  destruct (check_rules_total error_text now env _ Hret) as [results Hrun]. rewrite Hrun. cbn.
  eexists. split; [reflexivity|]. cbn. split; [done|].
  pose proof (check_rules_results _ _ _ _ _ Hrun) as Hall.
  split; [|by rewrite (Forall2_length _ _ _ Hall)].
  eapply Forall2_impl; [exact Hall|]. intros r x. unfold check_rule. cbn beta.
  destruct (rule_CheckFunc r now env); by intros [= <-].
Qed.

(** Monitoring passes exactly when the log has a change of the configuration
    or a rotation of keys of the last seven days. *)
Theorem monitoring_decides now rows accounts :
  now - 7 * 24 * Hour <> zero_time ->
  exists result, CheckSOC2MonitoringCoverage now (mkCheckEnv (table_Query rows) accounts) = Ok result /\
    (result_Status result = "pass" <->
       exists e, e ∈ rows /\ le_EventType e ∈ [EventConfigChanged; EventKeyRotated] /\
         now - 7 * 24 * Hour <= le_Timestamp e).
Proof.
  intros Hz. eexists. split; [reflexivity|].
  match goal with |- context [filter (fun e => Query_matches ?f e = true) rows] => set (flt := f) end.
  assert (forall e, Query_matches flt e = true <->
    le_EventType e ∈ [EventConfigChanged; EventKeyRotated] /\ now - 7 * 24 * Hour <= le_Timestamp e) as Hm.
  { intros e. unfold Query_matches, flt. cbn [qf_StartTimestamp qf_EndTimestamp qf_EventTypes qf_ActorID qf_TargetID].
    rewrite (bool_decide_eq_false_2 (_ = zero_time)) by lia.
    rewrite (bool_decide_eq_true_2 (zero_time = zero_time)), (bool_decide_eq_false_2 (_ = [])) by done.
    rewrite !(bool_decide_eq_true_2 ("" = "")) by done. cbn [orb].
    rewrite !andb_true_r, andb_true_iff, Z.leb_le, bool_decide_eq_true.
    replace (now + -7 * 24 * Hour) with (now - 7 * 24 * Hour) by lia. tauto. }
  destruct (filter (fun e => Query_matches flt e = true) rows) as [|e es] eqn:Hf.
  - split; [done|]. intros (e & He & Hty & Ht). exfalso. apply (not_elem_of_nil e). rewrite <- Hf.
    apply list_elem_of_filter. split; [by apply Hm|done].
  - split; [|done]. intros _. assert (e ∈ e :: es) as He by apply list_elem_of_here.
    rewrite <- Hf in He. apply list_elem_of_filter in He as [He Hin]. apply Hm in He. by exists e.
Qed.

(** Exports are refused exactly outside of 06:00-20:00, and nothing else is. *)
Theorem export_hours day hour rest action :
  0 <= hour < 24 -> 0 <= rest < Hour ->
  let now := day * (24 * Hour) + hour * Hour + rest in
  ValidateAction now action =
    if bool_decide (action = "data.export" /\ ~ 6 <= hour < 20)
    then Err (Errorf "data export is restricted to business hours (06:00 - 20:00 UTC)") else Ok ().
Proof.
  intros Hh Hr now. assert (utc_hour now = hour) as Hu.
  { unfold utc_hour, now. replace (_ + _ + rest) with ((day * 24 + hour) * Hour + rest) by lia.
    rewrite Z.div_add_l, Z.div_small by (unfold Hour, Minute, Second in *; lia).
    rewrite Z.add_0_r, Z.add_comm, Z.mod_add, Z.mod_small by lia. done. }
  unfold ValidateAction. rewrite Hu. destruct (decide (action = "data.export")) as [Ha|Ha].
  2: { by rewrite !bool_decide_eq_false_2 by tauto. }
  rewrite (bool_decide_eq_true_2 _ Ha). case_bool_decide as Hout;
    destruct (Z.ltb_spec hour 6), (Z.leb_spec 20 hour); cbn [orb]; try done; exfalso; naive_solver lia.
Qed.

(** ** What retention does *)

(** The job over the table deletes exactly the events before the cutoff. *)
Definition table_repo (cutoff : time) : prog (list LogEvent) error unit := modify (table_DeleteBefore cutoff).

(** With a number of days that enables it, the daily job deletes exactly
    the events that are older and keeps the rest in their order - over a
    repository.  The server gives it the repository its logger found among its
    sinks, and its one sink, over PostgreSQL, is no such repository: the job
    that is scheduled then panics, whatever the time and the log. *)
Theorem retention_job_contract days now rows :
  0 < days ->
  retention_job (Some table_repo) days now rows =
    (Ok (), filter (fun e => now - days * (24 * Hour) <= le_Timestamp e) rows) /\
  (forall (postgresSink : option (time -> prog (list LogEvent) error unit)),
     postgresSink = None -> retention_job (primary_repo [postgresSink]) days now rows = (Panic, rows)).
Proof.
  intros Hd. unfold retention_job. rewrite (proj2 (Z.leb_gt days 0)) by lia. split; [done|]. by intros ? ->.
Qed.

Section Policies.
Context `{RetentionLaws St}.
Implicit Types s : St.

Definition archived (cutoff : time) (l : list (LogEvent * string)) : list (LogEvent * string) :=
  (fun x => if bool_decide (le_Timestamp x.1 < cutoff) then (x.1, "warm") else x) <$> l.

(** Deleting does not depend on the archive: with both steps enabled, when the
    policies return without an error, the logs older than the cold retention
    are gone and all others are left; those older than the hot retention are in
    the warm tier, or where they were when archiving failed. *)
Theorem policies_enforced config now s s' :
  EnableAutoArchive config = true -> EnableAutoDelete config = true ->
  policy_Execute config now s = (Ok (), s') ->
  let kept := fun x : LogEvent * string => now - ColdDataRetention config <= le_Timestamp x.1 in
  match (ArchiveLogs (now - HotDataRetention config) "warm" s).1 with
  | Ok _ => tiers s' = filter kept (archived (now - HotDataRetention config) (tiers s))
  | _ => tiers s' = filter kept (tiers s)
  end.
Proof.
  intros Ha Hd. unfold policy_Execute. rewrite Ha, Hd. rewrite !Z.add_opp_r.
  destruct (law_archive_returns (now - HotDataRetention config) "warm" s) as (r & s1 & Hr & Hret).
  assert (forall k : unit -> prog St error unit,
    ((try (ArchiveLogs (now - HotDataRetention config) "warm") ;; mret ()) ≫= k) s = k () s1) as Hstep.
  { intros k. unfold try, mbind, prog_bind. rewrite Hr. by destruct r. }
  rewrite Hstep, Hr. intros (n & s2 & Hdel & [= <-])%prog_bind_ok. rewrite (law_delete _ _ _ _ Hdel).
  destruct r as [m|e| |]; cbn; try done.
  - by rewrite (law_archive _ _ _ _ _ Hr).
  - by rewrite (law_archive_err _ _ _ _ _ Hr).
Qed.
End Policies.

(** An archive in memory keeps the laws. *)
#[global] Instance archive_table : RetentionRepository (list (LogEvent * string)) := {
  ArchiveLogs cutoff tier := fun s =>
    (Ok (Z.of_nat (length (filter (fun x => le_Timestamp x.1 < cutoff) s))),
     (fun x => if bool_decide (le_Timestamp x.1 < cutoff) then (x.1, tier) else x) <$> s);
  DeleteLogsBefore cutoff := fun s =>
    (Ok (Z.of_nat (length (filter (fun x => le_Timestamp x.1 < cutoff) s))), filter (fun x => cutoff <= le_Timestamp x.1) s);
  tiers := id
}.
#[global] Instance archive_table_laws : RetentionLaws (list (LogEvent * string)).
Proof.
  split; cbn.
  - by intros ????? [= <-].
  - done.
  - intros. eexists _, _. by split.
  - by intros ???? [= <-].
  - done.
Qed.

(** ** Witnesses *)
Definition log_at (t : time) (id : string) : LogEvent :=
  mkLogEvent id t EventKeyRotated (mkActor "u" "user" "") (mkTarget "t" "" "") "a" "success" ∅
    "192.0.2.1" "agent, with a comma" "" "" "u" "" ∅ "".

Lemma report_contract_witness :
  let rows := [log_at 5 "a"; log_at 9 "b"] in
  let f := mkQueryFilter 6 zero_time [] "" "" in
  (exists text, GenerateReport pretty pretty (fun _ => Ok "") 7 (table_Query rows) (mkReportRequest FormatCSV f) =
     Ok (mkReport "Audit Log Report" 7 FormatCSV text "text/csv") /\
   CSV.read_all text = Some (csv_header :: (csv_record pretty <$> [log_at 9 "b"]))) /\
  GenerateReport pretty pretty (fun _ => Ok "") 7 (table_Query rows) (mkReportRequest "xml" f) =
    Err (Errorf "unsupported report format").
Proof.
  intros rows f. split.
  - exact (proj1 (report_contract pretty pretty (fun _ => Ok "") 7 rows f FormatCSV) eq_refl).
  - apply (proj2 (proj2 (report_contract pretty pretty (fun _ => Ok "") 7 rows f "xml"))). vm_compute. set_solver.
Defined.

Lemma checks_all_reported_witness :
  let env := mkCheckEnv (table_Query [log_at 5 "a"]) (fun _ => Err (Errorf "down")) in
  exists report, RunChecksForStandard (fun _ => "") 7 (exporter_rules pretty) env StandardGDPR = Ok report /\
    result_Status <$> report_Results report = ["error"].
Proof.
  intros env. destruct (checks_all_reported (fun _ => "") 7 (exporter_rules pretty) env StandardGDPR) as (report & Hrun & _).
  - constructor; [reflexivity|constructor].
  - discriminate.
  - exists report. split; [exact Hrun|]. cbv in Hrun. by injection Hrun as <-.
Defined.

Lemma monitoring_decides_witness :
  exists result, CheckSOC2MonitoringCoverage 7 (mkCheckEnv (table_Query [log_at 5 "a"]) mockIdentityRepository) = Ok result /\
    (result_Status result = "pass" <->
       exists e, e ∈ [log_at 5 "a"] /\ le_EventType e ∈ [EventConfigChanged; EventKeyRotated] /\
         7 - 7 * 24 * Hour <= le_Timestamp e).
Proof. exact (monitoring_decides 7 [log_at 5 "a"] mockIdentityRepository ltac:(vm_compute; lia)). Defined.

Lemma export_hours_witness :
  ValidateAction (3 * (24 * Hour) + 21 * Hour + 5) "data.export" =
    Err (Errorf "data export is restricted to business hours (06:00 - 20:00 UTC)").
Proof. exact (export_hours 3 21 5 "data.export" ltac:(lia) ltac:(vm_compute; split; congruence)). Defined.

Lemma retention_job_contract_witness :
  retention_job (Some table_repo) 1 (25 * Hour) [log_at 5 "a"; log_at (2 * Hour) "b"] = (Ok (), [log_at (2 * Hour) "b"]).
Proof. exact (proj1 (retention_job_contract 1 (25 * Hour) [log_at 5 "a"; log_at (2 * Hour) "b"] ltac:(lia))). Defined.

Lemma policies_enforced_witness :
  let config := mkRetentionConfig 10 0 20 true true in
  let logs := [(log_at 5 "a", "hot"); (log_at 15 "b", "hot"); (log_at 25 "c", "hot")] in
  policy_Execute config 30 logs = (Ok (), [(log_at 15 "b", "warm"); (log_at 25 "c", "hot")]) /\
  [(log_at 15 "b", "warm"); (log_at 25 "c", "hot")] =
    filter (fun x => 30 - 20 <= le_Timestamp x.1) (archived (30 - 10) logs).
Proof.
  intros config logs. split; [reflexivity|].
  exact (policies_enforced config 30 logs [(log_at 15 "b", "warm"); (log_at 25 "c", "hot")] eq_refl eq_refl eq_refl).
Defined.
