(* ===== verification/Authorization.v ===== *)
(** * Authorization

    - the policy domain: internal/domain/policy/service.go;
    - the policy engine: internal/policy/engine (RBAC with its cache, ABAC,
      OPA, and the hybrid of them);
    - the authorization service: internal/services/authorization (the default
      evaluator, the adapter to the engine, the log-in policy, and the audited
      [Authorize]).

    A policy repository is what answers [FindPoliciesForSubject]; the
    repository in memory is one ([MemPolicy]). *)

From S2P Require Import Prelude Types GoStd MemPolicy AuditTrail.
From Stdlib Require Import Ascii.
Local Open Scope Z_scope.

Definition DecisionAllow : string := "allow".
Definition DecisionDeny : string := "deny".

(** ** Evaluation contexts (internal/domain/policy/authz_models.go) *)
Record Subject := mkSubject {
  subject_UserID : string;
  subject_Groups : list string;
  subject_Attributes : gmap string string
}.
Record Resource := mkResource {
  resource_Type : string;
  resource_ID : string;
  resource_Attributes : gmap string string
}.
Record Environment := mkEnvironment {
  env_IP : string;
  env_Time : time;
  env_DeviceTrust : string
}.
Record EvaluationContext := mkEvaluationContext {
  ec_Subject : Subject;
  ec_Resource : Resource;
  ec_Action : string;
  ec_Environment : Environment
}.

(** What the evaluators ask of the policy store: the policies that name a
    subject, as a list in some order. *)
Class PolicyStore := {
  find_for_subject : string -> res error (list Policy)
}.

(** The in-memory repository is a policy store. *)
Definition memory_store (ord : map_order) (r : policy_repo) : PolicyStore :=
  {| find_for_subject s := (FindPoliciesForSubject ord s r).1 |}.

(** [slices.Contains] *)
Definition contains (l : list string) (x : string) : bool := bool_decide (x ∈ l).

(** ** The default evaluator (services/authorization/evaluator.go) *)
Module Default.

Definition matchesAction (p : Policy) (c : EvaluationContext) : bool :=
  if bool_decide (policy_Actions p = []) then true
  else contains (policy_Actions p) "*" || contains (policy_Actions p) (ec_Action c).

Definition matchesSubject (p : Policy) (c : EvaluationContext) : bool :=
  if bool_decide (policy_Subjects p = []) then true
  else if contains (policy_Subjects p) "*" then true
  else existsb (fun subject =>
    bool_decide (subject = "user:" +:+ subject_UserID (ec_Subject c)) ||
    existsb (fun group => bool_decide (subject = "group:" +:+ group))
      (subject_Groups (ec_Subject c))) (policy_Subjects p).

Definition policy_matches (p : Policy) (c : EvaluationContext) : bool :=
  matchesAction p c && matchesSubject p c.

(** The two loops: is there a matching policy with this effect? *)
Definition some_match (effect : string) (ps : list Policy) (c : EvaluationContext) : bool :=
  existsb (fun p => policy_matches p c && bool_decide (policy_Effect p = effect)) ps.

Definition Evaluate `{PolicyStore} (c : EvaluationContext) : res error string :=
  policies ← find_for_subject ("user:" +:+ subject_UserID (ec_Subject c));
  if some_match EffectDeny policies c then Ok DecisionDeny
  else if some_match EffectAllow policies c then Ok DecisionAllow
  else Ok DecisionDeny.
End Default.

(** ** The policy domain service (domain/policy/service.go) *)
Module Domain.

(** [types.PolicyEvaluationContext] *)
Record PolicyEvaluationContext := mkPolicyEvaluationContext {
  pe_Subject : gmap string any;
  pe_Action : string;
  pe_Resource : gmap string any;
  pe_Context : gmap string any
}.

Record PolicyDecision := mkPolicyDecision {
  pd_Allowed : bool;
  pd_Reason : string;
  pd_MatchingPolicies : list string
}.

Definition getSubjectsFromContext (c : PolicyEvaluationContext) : list string :=
  (match pe_Subject c !! "id" with
   | Some (AnyString userID) => ["user:" +:+ userID]
   | _ => []
   end) ++
  (match pe_Subject c !! "groups" with
   | Some (AnyStrings groups) => (fun g => "group:" +:+ g) <$> groups
   | _ => []
   end).

Definition matchesAction (policyActions : list string) (requestAction : string) : bool :=
  contains policyActions requestAction || contains policyActions "*".

Definition matchesResource (policyResources : list string) (requestResource : string) : bool :=
  contains policyResources requestResource || contains policyResources "*".

(** The type assertion [evalCtx.Resource["id"].(string)] panics when the
    identifier is missing or not a string; it is reached only when the action
    matches. *)
Definition policyMatches (p : Policy) (c : PolicyEvaluationContext) : res error bool :=
  if negb (matchesAction (policy_Actions p) (pe_Action c)) then Ok false
  else match pe_Resource c !! "id" with
       | Some (AnyString id) => Ok (matchesResource (policy_Resources p) id)
       | _ => Panic
       end.

(** The loop over the policies, with [isAllowed] and the matching policies
    so far. *)
Fixpoint decide_loop (c : PolicyEvaluationContext) (ps : list Policy) (isAllowed : bool)
    (matching : list string) : res error PolicyDecision :=
  match ps with
  | [] => Ok (mkPolicyDecision isAllowed
               (if isAllowed then "" else "No allowing policy found") matching)
  | p :: ps =>
      m ← policyMatches p c;
      if negb m then decide_loop c ps isAllowed matching
      else if bool_decide (policy_Effect p = EffectDeny)
      then Ok (mkPolicyDecision false ("Explicitly denied by policy " +:+ policy_ID p)
                 (matching ++ [policy_ID p]))
      else if bool_decide (policy_Effect p = EffectAllow)
      then decide_loop c ps true (matching ++ [policy_ID p])
      else decide_loop c ps isAllowed matching
  end.

Fixpoint relevant `{PolicyStore} (subjects : list string) : prog errvars error (list Policy) :=
  match subjects with
  | [] => mret []
  | s :: subjects =>
      found ← try (lift (find_for_subject s));
      match found with
      | inl err =>
          modify (fun vs => WithCause vs ErrInternal err) ;; throw (Sentinel ErrInternal)
      | inr policies => rest ← relevant subjects; mret (policies ++ rest)
      end
  end.

Definition Evaluate `{PolicyStore} (c : PolicyEvaluationContext) :
    prog errvars error PolicyDecision :=
  relevantPolicies ← relevant (getSubjectsFromContext c);
  lift (decide_loop c relevantPolicies false []).
End Domain.

(** ** The policy engine (internal/policy/engine) *)
Module Engine.

(** The request, with the context map of the adapter as a record. *)
Record RequestContext := mkRequestContext {
  rc_resource_type : string;
  rc_resource : Resource;
  rc_environment : Environment;
  rc_subject : Subject;
  rc_roles : list string
}.
Record EvaluationRequest := mkEvaluationRequest {
  er_SubjectID : string;
  er_Action : string;
  er_Resource : string;
  er_Context : RequestContext
}.

(** *** RBAC (rbac_provider.go) *)
Record Permission := mkPermission { perm_Resource : string; perm_Action : string }.
Record Role := mkRole { role_Code : string; role_Permissions : list Permission }.

Definition match_permission (permission action resource : string) : bool :=
  match strings_Split ":"%char permission with
  | [r; a] => bool_decide (r = resource) && bool_decide (a = action)
  | _ => false
  end.

Definition permission_key (p : Permission) : string :=
  perm_Resource p +:+ ":" +:+ perm_Action p.

(** The permissions of a user's roles, as the set of keys the code builds. *)
Definition permissions_of (roles : list Role) : gset string :=
  list_to_set (permission_key <$> mjoin (role_Permissions <$> roles)).

(** What the provider needs of the cache package: a table with a clock. *)
Class Cache (C : Type) := {
  cache_get : time -> string -> C -> option (gset string);
  cache_set : time -> string -> gset string -> C -> C
}.

Section RBAC.
Context `{Cache C} (GetRolesForUser : string -> res error (list Role)) (now : time).

Definition getPermissionsForUser (subjectID : string) : prog C error (gset string) :=
  c ← get;
  match cache_get now subjectID c with
  | Some perms => mret perms
  | None =>
      roles ← lift (GetRolesForUser subjectID);
      let permissions := permissions_of roles in
      modify (cache_set now subjectID permissions) ;;
      mret permissions
  end.

(** The range over the set stops at the first match; its order does not
    matter for the answer. *)
Definition IsAllowed (subjectID action resource : string) : prog C error bool :=
  permissions ← getPermissionsForUser subjectID;
  mret (existsb (fun perm => match_permission perm action resource) (elements permissions)).
End RBAC.

(** *** ABAC (abac_provider.go) *)
Definition checkOwnership (c : gmap string any) : res error bool :=
  match c !! "resource.owner_id", c !! "subject.id" with
  | Some (AnyString owner), Some (AnyString subject) => Ok (bool_decide (owner = subject))
  | _, _ => Ok false
  end.

(** The hour of the day is an argument. *)
Definition checkWorkingHours (hour : Z) : res error bool :=
  Ok (bool_decide (9 <= hour) && bool_decide (hour <= 18)).

Definition abac_Evaluate (hour : Z) (c : gmap string any) : res error bool :=
  match c !! "rule" with
  | None => Ok true
  | Some rule =>
      if bool_decide (rule = AnyString "resource.owner_id == subject.id") then checkOwnership c
      else if bool_decide (rule = AnyString "time.hour >= 9 && time.hour <= 18")
      then checkWorkingHours hour
      else Err (Errorf "unknown rule")
  end.

(** *** OPA (opa_provider.go)

    The Rego evaluator and the sidecar's HTTP exchange are arguments. *)
Inductive rego_value : Type :=
  | RegoUndefined
  | RegoObject (allow deny : option bool)
  | RegoOther.

Record OPAConfig := mkOPAConfig { opa_Enabled : bool; opa_Mode : string }.

Record OPAProvider := mkOPAProvider {
  opa_config : OPAConfig;
  opa_query : EvaluationRequest -> res error rego_value;
  opa_sidecar : EvaluationRequest -> res error (Z * rego_value)
}.

(** [allow, _ := m["allow"].(bool)] *)
Definition flags (v : rego_value) : bool * bool :=
  match v with RegoObject a d => (default false a, default false d) | _ => (false, false) end.

Definition evaluateSidecar (p : OPAProvider) (req : EvaluationRequest) : res error (bool * bool) :=
  match opa_sidecar p req with
  | Err e => Err (Wrapf "opa sidecar request failed: " e)
  | Ok (status, v) =>
      if negb (bool_decide (status = 200)) then Err (Errorf "opa sidecar returned status")
      else match v with
           | RegoOther => Err (Errorf "failed to decode response")
           | _ => Ok (flags v)
           end
  | Panic => Panic
  | Diverge => Diverge
  end.

Definition opa_Evaluate (p : OPAProvider) (req : EvaluationRequest) : res error (bool * bool) :=
  if negb (opa_Enabled (opa_config p)) then Ok (false, false)
  else if bool_decide (opa_Mode (opa_config p) = "sdk") || bool_decide (opa_Mode (opa_config p) = "")
  then match opa_query p req with
       | Err e => Err (Wrapf "opa eval error: " e)
       | Ok RegoOther => Err (Errorf "unexpected result type from opa: expected map")
       | Ok v => Ok (flags v)
       | Panic => Panic
       | Diverge => Diverge
       end
  else if bool_decide (opa_Mode (opa_config p) = "sidecar") then evaluateSidecar p req
  else Err (Errorf "unknown opa mode").

(** *** The hybrid evaluator (evaluator.go) *)
Section Hybrid.
Context `{Cache C} (GetRolesForUser : string -> res error (list Role)) (now : time)
  (opa : option OPAProvider).

Definition hybrid_Evaluate (req : EvaluationRequest) : prog C error bool :=
  rbacAllowed ← IsAllowed GetRolesForUser now (er_SubjectID req) (er_Action req) (er_Resource req);
  answer ← try (lift (match opa with
                      | None => Ok (false, false)
                      | Some p => opa_Evaluate p req
                      end));
  match answer with
  | inl err => throw (Wrapf "OPA evaluation failed: " err)
  | inr (opaAllowed, opaDenied) =>
      if (opaDenied : bool) then mret false
      else if (opaAllowed : bool) then mret true
      else mret rbacAllowed
  end.

(** ** The adapter (services/authorization/adapter.go) *)
Definition adapter_request (c : EvaluationContext) : EvaluationRequest :=
  mkEvaluationRequest (subject_UserID (ec_Subject c)) (ec_Action c) (resource_ID (ec_Resource c))
    (mkRequestContext (resource_Type (ec_Resource c)) (ec_Resource c) (ec_Environment c)
       (ec_Subject c) (subject_Groups (ec_Subject c))).

Definition adapter_Evaluate (c : EvaluationContext) : prog C error string :=
  allowed ← hybrid_Evaluate (adapter_request c);
  mret (if allowed : bool then DecisionAllow else DecisionDeny).
End Hybrid.
End Engine.

(** ** The authorization service (services/authorization) *)

(** Both evaluators implement the service's [Evaluator] interface: from an
    evaluation context and the state they keep, a decision. *)
Class Evaluator (St : Type) := { ev_Evaluate : EvaluationContext -> prog St error string }.

#[global] Instance default_evaluator `{PolicyStore} : Evaluator () :=
  {| ev_Evaluate c := lift (Default.Evaluate c) |}.

Definition hybrid_evaluator `{Engine.Cache C} roles now opa : Evaluator C :=
  {| ev_Evaluate c := Engine.adapter_Evaluate roles now opa c |}.

Definition RiskLevelLow : string := "LOW".
Definition RiskLevelMedium : string := "MEDIUM".
Definition RiskLevelHigh : string := "HIGH".

(** [auth.AuthContext] *)
Record AuthContext := mkAuthContext {
  ac_UserID : string;
  ac_IPAddress : string;
  ac_UserAgent : string;
  ac_Timestamp : time;
  ac_DeviceFingerprint : string;
  ac_IsKnownDevice : bool
}.

Section Service.
Context `{Evaluator St}.

(** policy_engine.go: the resource of a log-in is empty. *)
Definition login_context (ac : AuthContext) : EvaluationContext :=
  mkEvaluationContext (mkSubject (ac_UserID ac) [] ∅) (mkResource "" "" ∅) "login"
    (mkEnvironment (ac_IPAddress ac) 0 "").

Definition Decide (level : string) (ac : AuthContext) : prog St error string :=
  answer ← try (ev_Evaluate (login_context ac));
  match answer with
  | inl _ => mret "DENY"
  | inr decision =>
      if bool_decide (decision = DecisionAllow)
      then mret (if bool_decide (level = RiskLevelHigh) then "REQUIRE_MFA" else "ALLOW")
      else mret "DENY"
  end.

Definition any_subject (s : Subject) : any :=
  AnyStruct [("user_id", AnyString (subject_UserID s)); ("groups", AnyStrings (subject_Groups s));
    ("attributes", AnyStringMap (subject_Attributes s))].
Definition any_resource (r : Resource) : any :=
  AnyStruct [("type", AnyString (resource_Type r)); ("id", AnyString (resource_ID r));
    ("attributes", AnyStringMap (resource_Attributes r))].
Definition any_environment (e : Environment) : any :=
  AnyStruct [("ip", AnyString (env_IP e)); ("time", AnyInt (env_Time e));
    ("device_trust", AnyString (env_DeviceTrust e))].

Definition decision_details (c : EvaluationContext) : gmap string any :=
  {[ "subject" := any_subject (ec_Subject c); "action" := AnyString (ec_Action c);
     "resource" := any_resource (ec_Resource c);
     "environment" := any_environment (ec_Environment c) ]}.

(** [Service.Authorize], with the audit service as the other half of the
    state. *)
Definition Authorize (auditID : string) (now : time) (c : EvaluationContext) :
    prog (St * audit_service) error string :=
  answer ← try (zoom fst (fun s p => (s, p.2)) (ev_Evaluate c));
  match answer with
  | inl err => throw err
  | inr decision =>
      zoom snd (fun a p => (p.1, a))
        (RecordPolicyDecision auditID now (subject_UserID (ec_Subject c)) "not_implemented"
           (resource_ID (ec_Resource c)) "not_implemented" decision (decision_details c)) ;;
      mret decision
  end.
End Service.

(** ** Facts *)
Lemma contains_spec l x : contains l x <-> x ∈ l.
Proof. unfold contains. by rewrite bool_decide_spec. Qed.

Module DefaultFacts.
Import Default.

Definition matches_action (p : Policy) (action : string) : Prop :=
  policy_Actions p = [] \/ "*" ∈ policy_Actions p \/ action ∈ policy_Actions p.

Lemma matchesAction_spec p c : matchesAction p c <-> matches_action p (ec_Action c).
Proof.
  unfold matchesAction, matches_action. case_bool_decide; [naive_solver|].
  rewrite orb_True, !contains_spec. naive_solver.
Qed.

(** A policy fetched for the user matches the user. *)
Lemma matchesSubject_fetched p c :
  "user:" +:+ subject_UserID (ec_Subject c) ∈ policy_Subjects p -> matchesSubject p c = true.
Proof.
  intros Hin. unfold matchesSubject. case_bool_decide; [done|]. case_match; [done|].
  apply existsb_exists. eexists. split; [by apply list_elem_of_In|].
  rewrite bool_decide_eq_true_2 by done. done.
Qed.

Lemma some_match_spec effect ps c :
  some_match effect ps c = true <->
  exists p, p ∈ ps /\ policy_matches p c /\ policy_Effect p = effect.
Proof.
  unfold some_match. rewrite existsb_exists. setoid_rewrite <- list_elem_of_In.
  setoid_rewrite andb_true_iff. setoid_rewrite bool_decide_eq_true.
  split; intros (p & ? & Hm & ?); exists p; repeat split; try done.
  - by rewrite Hm.
  - by apply Is_true_true.
Qed.
End DefaultFacts.

Module RbacFacts.
Import Engine.

Definition no_colon (s : string) : bool := str_free ":"%char s.

(** A permission matches the requests for its resource and action, unless one
    of them contains the separator. *)
Lemma match_permission_key p action resource :
  match_permission (permission_key p) action resource = true <->
  perm_Resource p = resource /\ perm_Action p = action /\
  no_colon resource = true /\ no_colon action = true.
Proof.
  unfold match_permission, permission_key, no_colon.
  change (":" +:+ perm_Action p) with (String ":"%char (perm_Action p)). rewrite strings_Split_app.
  destruct (str_free ":"%char (perm_Resource p)) eqn:Hr; destruct (str_free ":"%char (perm_Action p)) eqn:Ha.
  - rewrite !strings_Split_free by done. cbn. rewrite andb_true_iff, !bool_decide_eq_true.
    split; [intros [<- <-]; done|naive_solver].
  - split; [|intros (<- & <- & ? & ?); congruence].
    rewrite (strings_Split_free _ _ Hr). cbn. destruct (strings_Split ":"%char (perm_Action p)) as [|? [|? ?]] eqn:Hs; try done.
    rewrite strings_Split_single in Ha; [done|by rewrite Hs].
  - split; [|intros (<- & <- & ? & ?); congruence].
    rewrite (strings_Split_free _ _ Ha). destruct (strings_Split ":"%char (perm_Resource p)) as [|? [|? [|? ?]]] eqn:Hs; try done.
    rewrite strings_Split_single in Hr; [done|by rewrite Hs].
  - split; [|intros (<- & <- & ? & ?); congruence].
    destruct (strings_Split ":"%char (perm_Resource p)) as [|? [|? ?]] eqn:Hs;
      [by destruct (strings_Split_nonempty ":"%char (perm_Resource p))| |].
    + rewrite strings_Split_single in Hr; [done|by rewrite Hs].
    + cbn. destruct (strings_Split ":"%char (perm_Action p)) as [|? ?] eqn:Hs';
        [by destruct (strings_Split_nonempty ":"%char (perm_Action p))|]. by destruct l.
Qed.

Lemma permissions_match roles action resource :
  existsb (fun perm => match_permission perm action resource) (elements (permissions_of roles)) = true <->
  no_colon resource = true /\ no_colon action = true /\
  exists r p, r ∈ roles /\ p ∈ role_Permissions r /\ perm_Resource p = resource /\ perm_Action p = action.
Proof.
  rewrite existsb_exists. setoid_rewrite <- list_elem_of_In. setoid_rewrite elem_of_elements.
  unfold permissions_of. setoid_rewrite elem_of_list_to_set. setoid_rewrite list_elem_of_fmap.
  split.
  - intros (k & (p & -> & Hp) & Hm). apply match_permission_key in Hm as (<- & <- & ? & ?).
    apply list_elem_of_join in Hp as (ps & Hp & Hps). apply list_elem_of_fmap in Hps as (r & -> & Hr).
    repeat split; try done. by exists r, p.
  - intros (Hr & Ha & r & p & Hin & Hp & <- & <-). exists (permission_key p). split.
    + exists p. split; [done|]. apply list_elem_of_join. exists (role_Permissions r).
      split; [done|]. apply list_elem_of_fmap. by exists r.
    + by apply match_permission_key.
Qed.
End RbacFacts.

Module DomainFacts.
Import Domain.

(** A policy that matches a request for the resource [id]. *)
Definition covers (p : Policy) (action id : string) : Prop :=
  (action ∈ policy_Actions p \/ "*" ∈ policy_Actions p) /\
  (id ∈ policy_Resources p \/ "*" ∈ policy_Resources p).

(** Some policy of the list with this effect covers the request. *)
Definition covering (ps : list Policy) (action id effect : string) : Prop :=
  exists p, p ∈ ps /\ covers p action id /\ policy_Effect p = effect.

Lemma covering_nil action id effect : covering [] action id effect <-> False.
Proof. apply (exists_elem_nil (fun p => covers p action id /\ policy_Effect p = effect)). Qed.

Lemma covering_cons p ps action id effect :
  covering (p :: ps) action id effect <->
  (covers p action id /\ policy_Effect p = effect) \/ covering ps action id effect.
Proof. apply (exists_elem_cons (fun p => covers p action id /\ policy_Effect p = effect)). Qed.

Lemma policyMatches_spec p c id :
  pe_Resource c !! "id" = Some (AnyString id) ->
  exists b, policyMatches p c = Ok b /\ (b = true <-> covers p (pe_Action c) id).
Proof.
  intros Hid. unfold policyMatches, covers. rewrite Hid.
  destruct (matchesAction (policy_Actions p) (pe_Action c)) eqn:Ha; cbn [negb]; eexists;
    (split; [done|]); unfold matchesAction, matchesResource in *; revert Ha;
    rewrite <- ?Is_true_true, ?orb_True, ?contains_spec.
  - naive_solver.
  - intros Ha. split; [done|]. intros [Hc _]. exfalso.
    apply orb_false_iff in Ha as [H1 H2]. apply bool_decide_eq_false in H1, H2. naive_solver.
Qed.

(** The loop decides by the policies that cover the request. *)
Lemma decide_loop_spec c id ps allowed matching :
  pe_Resource c !! "id" = Some (AnyString id) ->
  exists d, decide_loop c ps allowed matching = Ok d /\
    (pd_Allowed d = true <->
      (allowed = true \/ covering ps (pe_Action c) id EffectAllow) /\
      ~ covering ps (pe_Action c) id EffectDeny).
Proof.
  intros Hid. revert allowed matching. induction ps as [|p ps IH]; intros allowed matching.
  { eexists. split; [done|]. cbn. rewrite !covering_nil. naive_solver. }
  cbn [decide_loop]. destruct (policyMatches_spec p c id Hid) as (b & -> & Hb).
  cbn [mbind res_bind]. setoid_rewrite covering_cons. destruct b; cbn [negb].
  - assert (Hc : covers p (pe_Action c) id) by by apply Hb.
    destruct (decide (policy_Effect p = EffectDeny)) as [He|He].
    { rewrite bool_decide_eq_true_2 by done. eexists. split; [done|]. cbn.
      split; [done|]. intros [_ []]. by left. }
    rewrite bool_decide_eq_false_2 by done.
    destruct (decide (policy_Effect p = EffectAllow)) as [Ha|Ha].
    + rewrite bool_decide_eq_true_2 by done.
      destruct (IH true (matching ++ [policy_ID p])) as (d & -> & Hd). exists d.
      split; [done|]. rewrite Hd. tauto.
    + rewrite bool_decide_eq_false_2 by done.
      destruct (IH allowed matching) as (d & -> & Hd). exists d. split; [done|]. rewrite Hd. tauto.
  - assert (~ covers p (pe_Action c) id) by (intros ?%Hb; done).
    destruct (IH allowed matching) as (d & -> & Hd). exists d. split; [done|]. rewrite Hd. tauto.
Qed.

Lemma relevant_ok `{PolicyStore} subjects vs (found : string -> list Policy) :
  (forall s, s ∈ subjects -> find_for_subject s = Ok (found s)) ->
  relevant subjects vs = (Ok (mjoin (found <$> subjects)), vs).
Proof.
  induction subjects as [|s subjects IH]; intros Hf; [done|]. cbn [relevant].
  unfold mbind at 1, prog_bind at 1, try, lift. rewrite Hf by constructor.
  rewrite (prog_bind_run _ _ vs _ _ (IH ltac:(intros; apply Hf; by constructor))). done.
Qed.
End DomainFacts.

(** ** Properties *)

(** With the in-memory repository the default evaluator never fails and
    allows a request exactly when a stored policy that names the user allows
    the action and none that names the user denies it, whatever the order of
    the map; the resource, the environment and the user's groups have no
    influence, so a policy for one resource covers every resource, and a
    policy for a group or for everyone is not considered. *)
Theorem default_evaluator_decides ord r (c : EvaluationContext) :
  let me := "user:" +:+ subject_UserID (ec_Subject c) in
  let has effect := exists id p, r !! id = Some p /\ me ∈ policy_Subjects p /\
    DefaultFacts.matches_action p (ec_Action c) /\ policy_Effect p = effect in
  let evaluate := @Default.Evaluate (memory_store ord r) in
  (evaluate c = Ok DecisionAllow <-> has EffectAllow /\ ~ has EffectDeny) /\
  (evaluate c = Ok DecisionDeny <-> ~ (has EffectAllow /\ ~ has EffectDeny)) /\
  (forall resource environment groups attributes,
     evaluate (mkEvaluationContext
       (mkSubject (subject_UserID (ec_Subject c)) groups attributes)
       resource (ec_Action c) environment) = evaluate c).
Proof.
  intros me has evaluate.
  set (ps := filter (fun p => me ∈ policy_Subjects p) (range ord r).*2).
  assert (Hmatch : forall effect, Default.some_match effect ps c = true <-> has effect).
  { intros effect. rewrite DefaultFacts.some_match_spec. unfold has, Default.policy_matches. split.
    - intros (p & Hp & Hm & He). apply elem_of_subject_policies in Hp as [Hs [id Hid]].
      apply andb_True in Hm as [Hm _]. apply DefaultFacts.matchesAction_spec in Hm. by exists id, p.
    - intros (id & p & Hid & Hs & Hm & He). exists p.
      split; [by apply elem_of_subject_policies; eauto|]. split; [|done].
      apply andb_True. split; [by apply DefaultFacts.matchesAction_spec|].
      by rewrite DefaultFacts.matchesSubject_fetched. }
  assert (Hrun : evaluate c = Ok (if Default.some_match EffectDeny ps c then DecisionDeny
    else if Default.some_match EffectAllow ps c then DecisionAllow else DecisionDeny)).
  { unfold evaluate, Default.Evaluate. cbn [find_for_subject memory_store].
    rewrite FindPoliciesForSubject_run. cbn [fst mbind res_bind]. fold me. fold ps.
    by destruct (Default.some_match EffectDeny ps c), (Default.some_match EffectAllow ps c). }
  split; [|split].
  - rewrite Hrun, <- !Hmatch. destruct (Default.some_match EffectDeny ps c),
      (Default.some_match EffectAllow ps c); naive_solver.
  - rewrite Hrun, <- !Hmatch. destruct (Default.some_match EffectDeny ps c),
      (Default.some_match EffectAllow ps c); naive_solver.
  - intros resource environment groups attributes. unfold evaluate, Default.Evaluate.
    cbn [find_for_subject memory_store ec_Subject subject_UserID].
    rewrite FindPoliciesForSubject_run. cbn [fst mbind res_bind]. fold me. fold ps.
    assert (Hsame : forall effect, Default.some_match effect ps (mkEvaluationContext
       (mkSubject (subject_UserID (ec_Subject c)) groups attributes)
       resource (ec_Action c) environment) = Default.some_match effect ps c).
    { intros effect. apply eq_bool_prop_intro. rewrite !Is_true_true, !DefaultFacts.some_match_spec.
      unfold Default.policy_matches.
      split; intros (p & Hp & Hm & He); exists p; (split; [done|]); (split; [|done]);
        apply andb_True in Hm as [Hm _]; apply andb_True; (split; [exact Hm|]);
        apply elem_of_subject_policies in Hp as [Hs _]; by rewrite DefaultFacts.matchesSubject_fetched. }
    by rewrite !Hsame.
Qed.

(** The policy service allows a request on a resource with an identifier
    exactly when a policy found for the user or one of the groups allows the
    action and resource and none of those found denies them; a policy store
    that fails gives an internal error, and a request whose resource has no
    string identifier panics as soon as a policy covers its action. *)
Theorem policy_service_denies_override `{PolicyStore} (c : Domain.PolicyEvaluationContext) vs
    (found : string -> list Policy) :
  (forall s, s ∈ Domain.getSubjectsFromContext c -> find_for_subject s = Ok (found s)) ->
  let ps := mjoin (found <$> Domain.getSubjectsFromContext c) in
  (forall id, Domain.pe_Resource c !! "id" = Some (AnyString id) ->
     exists d, Domain.Evaluate c vs = (Ok d, vs) /\
       (Domain.pd_Allowed d = true <->
          DomainFacts.covering ps (Domain.pe_Action c) id EffectAllow /\
          ~ DomainFacts.covering ps (Domain.pe_Action c) id EffectDeny)) /\
  (Domain.pe_Resource c !! "id" = None ->
     (exists p, p ∈ ps /\ (Domain.pe_Action c ∈ policy_Actions p \/ "*" ∈ policy_Actions p)) ->
     Domain.Evaluate c vs = (Panic, vs)).
Proof.
  intros Hfound ps. unfold Domain.Evaluate.
  rewrite (prog_bind_run _ _ vs _ _ (DomainFacts.relevant_ok _ vs found Hfound)). fold ps.
  unfold lift. split.
  - intros id Hid. destruct (DomainFacts.decide_loop_spec c id ps false [] Hid) as (d & -> & Hd).
    exists d. split; [done|]. rewrite Hd. naive_solver.
  - intros Hnone (p & Hp & Hact). f_equal. clear Hfound. generalize false, (@nil string).
    clearbody ps. induction ps as [|q ps IH]; [by apply elem_of_nil in Hp|].
    intros allowed matching. cbn [Domain.decide_loop]. unfold Domain.policyMatches. rewrite Hnone.
    destruct (Domain.matchesAction (policy_Actions q) (Domain.pe_Action c)) eqn:Hq; [done|].
    cbn [negb mbind res_bind]. apply IH. apply elem_of_cons in Hp as [->|?]; [|done].
    exfalso. unfold Domain.matchesAction in Hq. apply orb_false_iff in Hq as [H1 H2].
    apply bool_decide_eq_false in H1, H2. naive_solver.
Qed.

(** What the cache package documents: an entry that was set is found until it
    expires, and setting one key leaves the others alone. *)
Class CacheLaws (C : Type) `{Engine.Cache C} := {
  cache_get_set : forall t k v c, Engine.cache_get t k (Engine.cache_set t k v c) = Some v;
  cache_get_other : forall t t' k k' v c, k <> k' ->
    Engine.cache_get t' k' (Engine.cache_set t k v c) = Engine.cache_get t' k' c
}.

(** A cache with the lifetime of five minutes the provider asks for. *)
Definition ttl : Z := 300 * 10 ^ 9.
#[global] Instance map_cache : Engine.Cache (gmap string (gset string * time)) := {
  cache_get now k c := match c !! k with
                       | Some (v, expiry) => if bool_decide (now <= expiry) then Some v else None
                       | None => None
                       end;
  cache_set now k v c := <[k := (v, now + ttl)]> c
}.

#[global] Instance map_cache_laws : CacheLaws (gmap string (gset string * time)).
Proof.
  split.
  - intros t k v c. cbn. rewrite lookup_insert_eq. by rewrite bool_decide_eq_true_2 by (unfold ttl; lia).
  - intros t t' k k' v c Hne. cbn. by rewrite lookup_insert_ne.
Qed.

Section RBACProperties.
Context `{CacheLaws C} (roles : string -> res error (list Engine.Role)).
Import Engine.

(** What the roles grant. *)
Definition grants (rs : list Role) (action resource : string) : Prop :=
  RbacFacts.no_colon resource = true /\ RbacFacts.no_colon action = true /\
  exists r p, r ∈ rs /\ p ∈ role_Permissions r /\ perm_Resource p = resource /\ perm_Action p = action.

Definition answer_of (rs : list Role) (action resource : string) : bool :=
  existsb (fun perm => match_permission perm action resource) (elements (permissions_of rs)).

Lemma answer_of_spec rs action resource :
  answer_of rs action resource = true <-> grants rs action resource.
Proof. apply RbacFacts.permissions_match. Qed.

Lemma IsAllowed_miss now u action resource c rs :
  cache_get now u c = None -> roles u = Ok rs ->
  IsAllowed roles now u action resource c =
    (Ok (answer_of rs action resource), cache_set now u (permissions_of rs) c).
Proof.
  intros Hc Hr. unfold IsAllowed, getPermissionsForUser, mbind, prog_bind, get, lift, modify.
  by rewrite Hc, Hr.
Qed.

Lemma IsAllowed_hit now u action resource c perms :
  cache_get now u c = Some perms ->
  IsAllowed roles now u action resource c =
    (Ok (existsb (fun perm => match_permission perm action resource) (elements perms)), c).
Proof.
  intros Hc. unfold IsAllowed, getPermissionsForUser, mbind, prog_bind, get, lift, modify.
  by rewrite Hc.
Qed.

Lemma IsAllowed_fails now u action resource c e :
  cache_get now u c = None -> roles u = Err e ->
  IsAllowed roles now u action resource c = (Err e, c).
Proof.
  intros Hc Hr. unfold IsAllowed, getPermissionsForUser, mbind, prog_bind, get, lift, modify.
  by rewrite Hc, Hr.
Qed.

(** A user with no cached permissions is allowed an action on a resource
    exactly when one of their roles has that permission and neither contains a
    colon (a resource such as ["doc:1"] is never allowed); while the entry
    lives the roles are not read again, so that a grant or a revocation has no
    effect; a role query that fails is an error and is not cached. *)
Theorem rbac_decides now u c rs :
  cache_get now u c = None -> roles u = Ok rs ->
  forall action resource,
  exists b c', IsAllowed roles now u action resource c = (Ok b, c') /\
    (b = true <-> grants rs action resource) /\
    (forall roles' action' resource', exists b',
       IsAllowed roles' now u action' resource' c' = (Ok b', c') /\
       (b' = true <-> grants rs action' resource')) /\
    (forall u' e, u' <> u -> cache_get now u' c = None -> roles u' = Err e ->
       IsAllowed roles now u' action resource c' = (Err e, c')).
Proof.
  intros Hc Hr action resource. rewrite (IsAllowed_miss now u action resource c rs) by done.
  eexists _, _. split; [done|]. split; [apply answer_of_spec|]. split.
  - intros roles' action' resource'. unfold IsAllowed, getPermissionsForUser, mbind, prog_bind, get.
    rewrite cache_get_set. eexists. split; [done|]. apply answer_of_spec.
  - intros u' e Hne Hc' Hr'. apply IsAllowed_fails; [|done]. by rewrite cache_get_other.
Qed.

Lemma hybrid_run now opa req c b c' :
  IsAllowed roles now (er_SubjectID req) (er_Action req) (er_Resource req) c = (Ok b, c') ->
  hybrid_Evaluate roles now opa req c =
    match (match opa with None => Ok (false, false) | Some p => opa_Evaluate p req end) with
    | Ok (allow, deny) => (Ok (if deny : bool then false else if allow : bool then true else b), c')
    | Err e => (Err (Wrapf "OPA evaluation failed: " e), c')
    | Panic => (Panic, c')
    | Diverge => (Diverge, c')
    end.
Proof.
  intros Hrun. unfold hybrid_Evaluate, mbind, prog_bind, try, lift. rewrite Hrun.
  destruct (match opa with None => _ | _ => _ end) as [[[] []]|e| |]; done.
Qed.
End RBACProperties.

(** C4: the service's decision is the hybrid one: with no RBAC answer cached,
    the request is allowed exactly when OPA does not deny it and either OPA
    allows it or a role of the user grants it; a failing OPA is an error and
    never an allow.  Every decision is audited with exactly one event carrying
    it, and an error with none. *)
Theorem authorize_decides `{CacheLaws C} roles now opa rs auditID (ctx : EvaluationContext) c a :
  let u := subject_UserID (ec_Subject ctx) in
  let granted := grants rs (ec_Action ctx) (resource_ID (ec_Resource ctx)) in
  let opa_answer := match opa with
                    | None => Ok (false, false)
                    | Some p => Engine.opa_Evaluate p (Engine.adapter_request ctx)
                    end in
  Engine.cache_get now u c = None -> roles u = Ok rs ->
  let run := @Authorize _ (hybrid_evaluator roles now opa) auditID now ctx (c, a) in
  let event decision := mkAuditEvent auditID now "policy" "policy_evaluated" u "not_implemented"
    (resource_ID (ec_Resource ctx)) decision "not_implemented" (decision_details ctx) in
  (forall allow deny, opa_answer = Ok (allow, deny) ->
     exists decision c', run = (Ok decision, (c', (Emit (event decision) a).2)) /\
       (decision = DecisionAllow <-> deny = false /\ (allow = true \/ granted)) /\
       (decision = DecisionDeny <-> ~ (deny = false /\ (allow = true \/ granted)))) /\
  (forall e, opa_answer = Err e -> exists e' c', run = (Err e', (c', a))).
Proof.
  intros u granted opa_answer Hc Hr run event.
  pose proof (hybrid_run roles now opa (Engine.adapter_request ctx) c _ _
    (IsAllowed_miss roles now u (ec_Action ctx) (resource_ID (ec_Resource ctx)) c rs Hc Hr)) as Hrun.
  fold opa_answer in Hrun.
  pose proof (answer_of_spec rs (ec_Action ctx) (resource_ID (ec_Resource ctx))) as Hspec.
  fold granted in Hspec. split.
  - intros allow deny Hopa. rewrite Hopa in Hrun.
    eexists _, _. split.
    { unfold run, Authorize, mbind, prog_bind, try, zoom, hybrid_evaluator, Engine.adapter_Evaluate.
      cbn [ev_Evaluate fst snd]. unfold mbind, prog_bind. rewrite Hrun. reflexivity. }
    destruct deny, allow; cbn; [naive_solver..|].
    destruct (answer_of rs (ec_Action ctx) (resource_ID (ec_Resource ctx))); naive_solver.
  - intros e Hopa. rewrite Hopa in Hrun.
    eexists _, _. unfold run, Authorize, mbind, prog_bind, try, zoom, hybrid_evaluator,
      Engine.adapter_Evaluate.
    cbn [ev_Evaluate fst snd]. unfold mbind, prog_bind. rewrite Hrun. reflexivity.
Qed.

(** ** Concrete requests *)
Definition demo_roles (u : string) : res error (list Engine.Role) :=
  if bool_decide (u = "u1")
  then Ok [Engine.mkRole "editor" [Engine.mkPermission "reports" "write";
                                   Engine.mkPermission "doc:1" "read"]]
  else Ok [].
Definition demo_cache : gmap string (gset string * time) := ∅.
Definition demo_context (action id : string) : EvaluationContext :=
  mkEvaluationContext (mkSubject "u1" [] ∅) (mkResource "doc" id ∅) action (mkEnvironment "" 0 "").
Definition demo_opa (allow deny : bool) : Engine.OPAProvider :=
  Engine.mkOPAProvider (Engine.mkOPAConfig true "sdk")
    (fun _ => Ok (Engine.RegoObject (Some allow) (Some deny))) (fun _ => Err (Errorf "unreachable")).

Lemma rbac_decides_witness :
  exists c', Engine.IsAllowed demo_roles 0 "u1" "write" "reports" demo_cache = (Ok true, c') /\
    (Engine.IsAllowed (fun _ => Ok []) 0 "u1" "write" "reports" c').1 = Ok true.
Proof.
  destruct (@rbac_decides _ map_cache map_cache_laws demo_roles 0 "u1" demo_cache
    [Engine.mkRole "editor" [Engine.mkPermission "reports" "write"; Engine.mkPermission "doc:1" "read"]]
    eq_refl eq_refl "write" "reports") as (b & c' & Hrun & Hb & Hcached & _).
  assert (grants [Engine.mkRole "editor" [Engine.mkPermission "reports" "write";
    Engine.mkPermission "doc:1" "read"]] "write" "reports") as Hg.
  { split; [reflexivity|]. split; [reflexivity|].
    eexists _, (Engine.mkPermission "reports" "write").
    split; [apply list_elem_of_here|]. split; [apply list_elem_of_here|by split]. }
  exists c'. destruct (Hcached (fun _ => Ok []) "write" "reports") as (b' & Hrun' & Hb').
  rewrite Hrun, Hrun'. assert (b = true) as -> by by apply Hb. assert (b' = true) as -> by by apply Hb'.
  split; reflexivity.
Defined.

(** The request of the same user for a document with a colon in its name is
    denied, although the role names it. *)
Example colon_denied : (Engine.IsAllowed demo_roles 0 "u1" "read" "doc:1" demo_cache).1 = Ok false.
Proof. vm_compute. reflexivity. Qed.

Lemma authorize_decides_witness :
  exists decision c', @Authorize _ (hybrid_evaluator demo_roles 0 (Some (demo_opa true false)))
    "a1" 0 (demo_context "delete" "reports") (demo_cache, demo_service) =
    (Ok decision, (c', (Emit (mkAuditEvent "a1" 0 "policy" "policy_evaluated" "u1" "not_implemented"
      "reports" decision "not_implemented" (decision_details (demo_context "delete" "reports")))
      demo_service).2)) /\ decision = DecisionAllow.
Proof.
  destruct (@authorize_decides _ map_cache map_cache_laws demo_roles 0 (Some (demo_opa true false))
    [Engine.mkRole "editor" [Engine.mkPermission "reports" "write"; Engine.mkPermission "doc:1" "read"]]
    "a1" (demo_context "delete" "reports") demo_cache demo_service eq_refl eq_refl) as [Hok _].
  destruct (Hok true false eq_refl) as (decision & c' & Hrun & Hallow & _).
  exists decision, c'. split; [exact Hrun|]. apply Hallow. split; [reflexivity|by left].
Defined.

Definition demo_store : PolicyStore :=
  memory_store default_order
    {[ "p1" := demo_policy EffectAllow ["user:u1"]; "p2" := demo_policy EffectDeny ["group:g1"] ]}.
Definition demo_request (groups : list string) : Domain.PolicyEvaluationContext :=
  Domain.mkPolicyEvaluationContext {[ "id" := AnyString "u1"; "groups" := AnyStrings groups ]}
    "read" {[ "id" := AnyString "doc:1" ]} ∅.

Lemma policy_service_denies_override_witness :
  exists d, @Domain.Evaluate demo_store (demo_request ["g1"]) ∅ = (Ok d, ∅) /\ Domain.pd_Allowed d <> true.
Proof.
  destruct (@policy_service_denies_override demo_store (demo_request ["g1"]) ∅
    (fun s => if bool_decide (s = "user:u1") then [demo_policy EffectAllow ["user:u1"]]
              else [demo_policy EffectDeny ["group:g1"]])) as [Hdec _].
  - intros s Hs. vm_compute in Hs. apply elem_of_cons in Hs as [->|Hs]; [vm_compute; reflexivity|].
    apply list_elem_of_singleton in Hs as ->. vm_compute. reflexivity.
  - destruct (Hdec "doc:1" eq_refl) as (d & Hrun & Hd). exists d. split; [exact Hrun|].
    intros Ha. apply Hd in Ha as [_ Hno]. apply Hno. exists (demo_policy EffectDeny ["group:g1"]).
    split; [right; left|]. split; [|reflexivity].
    split; left; apply list_elem_of_here.
Defined.
