(* ===== verification/IdentityService.v ===== *)
(** * The identity services

    - the domain service: internal/domain/identity/service.go;
    - the application service over it: internal/services/identity/service.go.

    They are written against the repository interface of
    internal/domain/identity/repository.go, here the class [IdentityRepository];
    the in-memory repository is an instance, sharing its user objects with the
    services.  The state is the repository and the predefined errors, which
    the services write.  Password hashing and identifiers are arguments. *)

From S2P Require Import Prelude Types MemIdentity AuditTrail.
Local Open Scope Z_scope.

(** ** The repository interface

    [ir_alloc] is Go's [&types.User{...}], [ir_read] and [ir_store] follow a
    pointer; [ir_alloc_group] and the like do so for groups. *)
Class IdentityRepository (R : Type) := {
  ir_alloc : User -> prog R error loc;
  ir_read : loc -> prog R error User;
  ir_store : loc -> User -> prog R error unit;
  ir_alloc_group : UserGroup -> prog R error loc;
  ir_read_group : loc -> prog R error UserGroup;
  ir_store_group : loc -> UserGroup -> prog R error unit;
  ir_CreateUser : string -> loc -> prog R error unit;
  ir_GetUserByID : string -> prog R error loc;
  ir_GetUserByUsername : string -> prog R error loc;
  ir_GetUserByEmail : string -> prog R error loc;
  ir_GetUserByExternalID : string -> string -> prog R error loc;
  ir_UpdateUser : loc -> prog R error unit;
  ir_DeleteUser : string -> prog R error unit;
  ir_ListUsers : UserFilter -> prog R error (list loc * Z);
  ir_CreateGroup : string -> loc -> prog R error unit;
  ir_GetGroupByID : string -> prog R error loc;
  ir_UpdateGroup : loc -> prog R error unit;
  ir_DeleteGroup : string -> prog R error unit;
  ir_ListGroups : PaginationQuery -> prog R error (list loc);
  ir_AddUserToGroup : string -> string -> prog R error unit;
  ir_GetUserGroups : string -> prog R error (list loc)
}.

Definition alloc_user (u : User) : prog identity_repo error loc :=
  r ← get;
  let p := fresh (dom (user_heap r)) in
  write_user p u ;; mret p.

Definition alloc_group (g : UserGroup) : prog identity_repo error loc :=
  r ← get;
  let p := fresh (dom (group_heap r)) in
  write_group p g ;; mret p.

Definition memory_repository (ord : map_order) : IdentityRepository identity_repo := {|
  ir_alloc := alloc_user;
  ir_read := user_at;
  ir_store := write_user;
  ir_alloc_group := alloc_group;
  ir_read_group := group_at;
  ir_store_group := write_group;
  ir_CreateUser := CreateUser ord;
  ir_GetUserByID := GetUserByID;
  ir_GetUserByUsername := GetUserByUsername ord;
  ir_GetUserByEmail := GetUserByEmail ord;
  ir_GetUserByExternalID := GetUserByExternalID ord;
  ir_UpdateUser := UpdateUser;
  ir_DeleteUser := DeleteUser;
  ir_ListUsers := ListUsers ord;
  ir_CreateGroup := CreateGroup ord;
  ir_GetGroupByID := GetGroupByID;
  ir_UpdateGroup := UpdateGroup;
  ir_DeleteGroup := DeleteGroup ord;
  ir_ListGroups := ListGroups ord;
  ir_AddUserToGroup := AddUserToGroup;
  ir_GetUserGroups := GetUserGroups ord
|}.

Notation svc R := (prog (R * errvars) error).

Section Service.
Context `{IdentityRepository R} (HashPassword : string -> res error string) (fuel : nat).

Definition on_repo {A} (m : prog R error A) : svc R A := zoom fst (fun r w => (r, w.2)) m.
Definition on_errors (f : errvars -> errvars) : svc R unit := modify (fun w => (w.1, f w.2)).

(** [return Err.WithCause(err)] and the like *)
Definition fail_internal {A} (err : error) : svc R A :=
  on_errors (fun vs => WithCause vs ErrInternal err) ;; throw (Sentinel ErrInternal).
Definition fail_not_found {A} (err : error) (details : gmap string string) : svc R A :=
  on_errors (fun vs => WithDetails (WithCause vs ErrNotFound err) ErrNotFound details) ;;
  throw (Sentinel ErrNotFound).
Definition fail_details {A} (code : string) (details : gmap string string) : svc R A :=
  on_errors (fun vs => WithDetails vs code details) ;; throw (Sentinel code).

(** [errors.Is(err, target)], which may not come back *)
Definition is_error (err : error) (target : string) : svc R bool :=
  w ← get; lift (errors_is fuel w.2 err target).

(** One of the two duplicate checks of [CreateUser]. *)
Definition ensure_absent (lookup : prog R error loc) (field value : string) : svc R unit :=
  found ← try (on_repo lookup);
  match found with
  | inr _ => fail_details ErrConflict {[ "field" := field; "value" := value ]}
  | inl err =>
      absent ← is_error err ErrUserNotFound;
      if negb absent then fail_internal err else mret ()
  end.

Definition service_CreateUser (uuid repo_uuid username email password : string) : svc R loc :=
  if bool_decide (username = "") || bool_decide (email = "") || bool_decide (password = "")
  then fail_details ErrValidation
         {[ "field" := "username/email/password"; "error" := "cannot be empty" ]}
  else
    ensure_absent (ir_GetUserByUsername username) "username" username ;;
    ensure_absent (ir_GetUserByEmail email) "email" email ;;
    hashed ← try (lift (HashPassword password));
    match hashed with
    | inl err => fail_internal err
    | inr hashedPassword =>
        user ← on_repo (ir_alloc (new_user uuid username email hashedPassword UserStatusActive));
        created ← try (on_repo (ir_CreateUser repo_uuid user));
        match created with
        | inl err => fail_internal err
        | inr _ => mret user
        end
    end.

(** The lookups turn every failure into [ErrNotFound]. *)
Definition or_not_found {A} (m : prog R error A) (details : gmap string string) : svc R A :=
  found ← try (on_repo m);
  match found with inl err => fail_not_found err details | inr x => mret x end.
Definition or_internal {A} (m : prog R error A) : svc R A :=
  found ← try (on_repo m);
  match found with inl err => fail_internal err | inr x => mret x end.

Definition service_GetUser (userID : string) : svc R loc :=
  or_not_found (ir_GetUserByID userID) {[ "userID" := userID ]}.
Definition service_ListUsers (filter : UserFilter) : svc R (list loc * Z) :=
  on_repo (ir_ListUsers filter).
Definition service_GetUserByID (userID : string) : svc R loc :=
  or_not_found (ir_GetUserByID userID) {[ "userID" := userID ]}.
Definition service_GetUserByUsername (username : string) : svc R loc :=
  or_not_found (ir_GetUserByUsername username) {[ "username" := username ]}.
Definition service_GetUserByExternalID (externalID sourceID : string) : svc R loc :=
  or_not_found (ir_GetUserByExternalID externalID sourceID)
    {[ "externalId" := externalID; "sourceId" := sourceID ]}.
Definition service_GetUserGroups (userID : string) : svc R (list loc) :=
  or_internal (ir_GetUserGroups userID).

Definition service_AddUserToGroup (userID groupID : string) : svc R unit :=
  or_not_found (ir_GetUserByID userID) {[ "user_id" := userID ]} ;;
  or_not_found (ir_GetGroupByID groupID) {[ "group_id" := groupID ]} ;;
  or_internal (ir_AddUserToGroup userID groupID).

(** The status is written through the pointer before the update. *)
Definition service_ChangeUserStatus (userID newStatus : string) : svc R unit :=
  user ← or_not_found (ir_GetUserByID userID) {[ "userID" := userID ]};
  u ← on_repo (ir_read user);
  on_repo (ir_store user (set_user_Status newStatus u)) ;;
  or_internal (ir_UpdateUser user).

Definition service_UpdateUser (user : loc) : svc R unit := or_internal (ir_UpdateUser user).

Definition service_DeleteUser (userID : string) : svc R unit :=
  deleted ← try (on_repo (ir_DeleteUser userID));
  match deleted with
  | inr _ => mret ()
  | inl err =>
      missing ← is_error err ErrNotFound;
      if missing : bool then fail_not_found err {[ "userID" := userID ]}
      else fail_internal err
  end.

Definition service_CreateGroup (uuid : string) (group : loc) : svc R unit :=
  or_internal (ir_CreateGroup uuid group).
Definition service_GetGroup (groupID : string) : svc R loc :=
  or_not_found (ir_GetGroupByID groupID) {[ "groupID" := groupID ]}.
Definition service_UpdateGroup (group : loc) : svc R unit := or_internal (ir_UpdateGroup group).
Definition service_DeleteGroup (groupID : string) : svc R unit :=
  or_internal (ir_DeleteGroup groupID).
Definition service_ListGroups (offset limit : Z) : svc R (list loc) :=
  or_internal (ir_ListGroups (mkPaginationQuery limit offset)).

(** ** The application service

    [err.( *types.Error)]: a predefined error is passed on, any other becomes
    the cause of [ErrInternal]. *)
Definition app_error {A} (m : svc R A) : svc R A :=
  answer ← try m;
  match answer with
  | inr x => mret x
  | inl (Sentinel c) => throw (Sentinel c)
  | inl err => fail_internal err
  end.

Definition clear_password (u : User) : User :=
  mkUser (user_ID u) (user_Username u) (user_Email u) (user_Phone u) "" (user_Status u)
    (user_Attributes u) (user_PrivacySettings u) (user_Groups u) (user_CreatedAt u)
    (user_UpdatedAt u) (user_DeletedAt u) (user_LastLoginAt u) (user_MergeHistory u)
    (user_ExternalID u) (user_SourceType u).

(** [user.Password = ""] on the object the repository returned *)
Definition hide_password (user : loc) : svc R unit :=
  u ← on_repo (ir_read user); on_repo (ir_store user (clear_password u)).

(** The audit event of a creation is returned with the user. *)
Definition app_CreateUser (auditID : string) (now : time)
    (uuid repo_uuid username email password : string) : svc R (loc * AuditEvent) :=
  user ← app_error (service_CreateUser uuid repo_uuid username email password);
  u ← on_repo (ir_read user);
  hide_password user ;;
  mret (user, mkAuditEvent auditID now "identity" "user.created" (user_ID u) "unknown" ""
    ResultSuccess ""
    {[ "username" := AnyString (user_Username u); "email" := AnyString (user_Email u) ]}).

Definition app_GetUserByID (userID : string) : svc R loc :=
  user ← app_error (service_GetUser userID);
  hide_password user ;;
  mret user.

Definition app_AddUserToGroup (userID groupID : string) : svc R unit :=
  app_error (service_AddUserToGroup userID groupID).
Definition app_ChangeUserStatus (userID newStatus : string) : svc R unit :=
  app_error (service_ChangeUserStatus userID newStatus).

(** The other operations are those of the domain service. *)
Definition app_GetUser : string -> svc R loc := service_GetUser.
Definition app_GetUserByUsername : string -> svc R loc := service_GetUserByUsername.
Definition app_GetUserByExternalID : string -> string -> svc R loc := service_GetUserByExternalID.
Definition app_GetUserGroups : string -> svc R (list loc) := service_GetUserGroups.
Definition app_ListUsers : UserFilter -> svc R (list loc * Z) := service_ListUsers.
Definition app_UpdateUser : loc -> svc R unit := service_UpdateUser.
Definition app_DeleteUser : string -> svc R unit := service_DeleteUser.
Definition app_CreateGroup : string -> loc -> svc R unit := service_CreateGroup.
Definition app_GetGroup : string -> svc R loc := service_GetGroup.
Definition app_UpdateGroup : loc -> svc R unit := service_UpdateGroup.
Definition app_DeleteGroup : string -> svc R unit := service_DeleteGroup.
Definition app_ListGroups : Z -> Z -> svc R (list loc) := service_ListGroups.
End Service.

(** ** What the domain service relies on

    [holds r p u]: the repository stores the object [u] at [p].  The lookups
    answer a name nobody has with [ErrUserNotFound], which is what
    [CreateUser] tests for; the in-memory repository does not. *)
Class RepositoryLaws (R : Type) `{IdentityRepository R} := {
  inv : R -> Prop;
  free_id : R -> string -> Prop;
  holds : R -> loc -> User -> Prop;
  law_by_username r n : inv r ->
    (exists p u, ir_GetUserByUsername n r = (Ok p, r) /\ holds r p u /\ user_Username u = n) \/
    (ir_GetUserByUsername n r = (Err (Sentinel ErrUserNotFound), r) /\
     forall p u, holds r p u -> user_Username u <> n);
  law_by_email r e : inv r ->
    (exists p u, ir_GetUserByEmail e r = (Ok p, r) /\ holds r p u /\ user_Email u = e) \/
    (ir_GetUserByEmail e r = (Err (Sentinel ErrUserNotFound), r) /\
     forall p u, holds r p u -> user_Email u <> e);
  law_alloc r u : inv r ->
    exists p r', ir_alloc u r = (Ok p, r') /\ inv r' /\ ir_read p r' = (Ok u, r') /\
      (forall v, ~ holds r' p v) /\ (forall q v, holds r' q v <-> holds r q v) /\
      (forall id, free_id r id -> free_id r' id);
  law_create r id p u : inv r -> free_id r id -> ir_read p r = (Ok u, r) ->
    (forall v, ~ holds r p v) ->
    (forall q v, holds r q v -> user_Username v <> user_Username u /\ user_Email v <> user_Email u) ->
    exists r', ir_CreateUser id p r = (Ok (), r') /\ inv r' /\
      (forall q v, holds r' q v <-> (q = p /\ v = set_user_ID id u) \/ holds r q v)
}.

(** The in-memory repository with the errors the service expects. *)
Definition strict {A} (m : prog identity_repo error A) : prog identity_repo error A := fun r =>
  match m r with
  | (Err _, r') => (Err (Sentinel ErrUserNotFound), r')
  | x => x
  end.

Definition strict_repository (ord : map_order) : IdentityRepository identity_repo := {|
  ir_alloc := alloc_user;
  ir_read := user_at;
  ir_store := write_user;
  ir_alloc_group := alloc_group;
  ir_read_group := group_at;
  ir_store_group := write_group;
  ir_CreateUser := CreateUser ord;
  ir_GetUserByID id := strict (GetUserByID id);
  ir_GetUserByUsername n := strict (GetUserByUsername ord n);
  ir_GetUserByEmail e := strict (GetUserByEmail ord e);
  ir_GetUserByExternalID x s := strict (GetUserByExternalID ord x s);
  ir_UpdateUser := UpdateUser;
  ir_DeleteUser id := strict (DeleteUser id);
  ir_ListUsers := ListUsers ord;
  ir_CreateGroup := CreateGroup ord;
  ir_GetGroupByID := GetGroupByID;
  ir_UpdateGroup := UpdateGroup;
  ir_DeleteGroup := DeleteGroup ord;
  ir_ListGroups := ListGroups ord;
  ir_AddUserToGroup := AddUserToGroup;
  ir_GetUserGroups := GetUserGroups ord
|}.

Definition stored_at (r : identity_repo) (p : loc) (u : User) : Prop :=
  (exists id, repo_users r !! id = Some p) /\ user_heap r !! p = Some u.

(** Every user is filed under its own identifier. *)
Definition filed (r : identity_repo) : Prop :=
  valid r /\ forall id p u, repo_users r !! id = Some p -> user_heap r !! p = Some u -> user_ID u = id.

Lemma stored_at_stored r p u : stored_at r p u -> exists id, stored r id u.
Proof. intros [[id Hid] Hp]. exists id. by exists p. Qed.

Lemma strict_find ord test e r :
  valid r ->
  (exists p u, strict (find_user ord test e) r = (Ok p, r) /\ stored_at r p u /\ test u) \/
  (strict (find_user ord test e) r = (Err (Sentinel ErrUserNotFound), r) /\
   forall p u, stored_at r p u -> test u = false).
Proof.
  intros Hv. unfold strict.
  destruct (find_user_spec ord test e r Hv) as [[-> Hno]|(id & p & u & -> & Hid & Hp & Ht)].
  - right. split; [done|]. intros p u Hs. apply stored_at_stored in Hs as [id Hs]. by eapply Hno.
  - left. exists p, u. split; [done|]. split; [|done]. split; [by exists id|done].
Qed.

Lemma alloc_user_run u r :
  valid r ->
  exists p r', alloc_user u r = (Ok p, r') /\ r' = set_user_heap (<[p := u]> (user_heap r)) r /\
    user_heap r !! p = None /\ valid r'.
Proof.
  intros Hv. exists (fresh (dom (user_heap r))), (write_user (fresh (dom (user_heap r))) u r).2.
  split; [reflexivity|]. split; [reflexivity|]. split.
  - apply not_elem_of_dom. apply is_fresh.
  - by apply write_user_valid.
Qed.

Definition strict_laws ord : @RepositoryLaws identity_repo (strict_repository ord).
Proof.
  refine (@Build_RepositoryLaws identity_repo (strict_repository ord) valid
    (fun r id => repo_users r !! id = None) stored_at _ _ _ _).
  - intros r n Hv. cbn [ir_GetUserByUsername strict_repository]. unfold GetUserByUsername.
    match goal with |- context [find_user ord ?t ?e] => destruct (strict_find ord t e r Hv) as
      [(p & u & Hrun & Hs & Ht)|[Hrun Hno]] end.
    + left. exists p, u. by apply bool_decide_unpack in Ht.
    + right. split; [done|]. intros p u Hs%Hno. by apply bool_decide_eq_false in Hs.
  - intros r n Hv. cbn [ir_GetUserByEmail strict_repository]. unfold GetUserByEmail.
    match goal with |- context [find_user ord ?t ?e] => destruct (strict_find ord t e r Hv) as
      [(p & u & Hrun & Hs & Ht)|[Hrun Hno]] end.
    + left. exists p, u. by apply bool_decide_unpack in Ht.
    + right. split; [done|]. intros p u Hs%Hno. by apply bool_decide_eq_false in Hs.
  - intros r u Hv. destruct (alloc_user_run u r Hv) as (p & r' & Hrun & -> & Hp & Hv').
    assert (Hfree : forall id, repo_users r !! id <> Some p).
    { intros id Hid. destruct (valid_users r Hv id p Hid) as [v Hp']. congruence. }
    exists p, (set_user_heap (<[p := u]> (user_heap r)) r). split; [exact Hrun|].
    split; [done|]. split; [|split; [|split]].
    + apply user_at_run. cbn. apply lookup_insert_eq.
    + intros v [[id Hid] _]. by eapply Hfree.
    + intros q v. unfold stored_at. cbn. split; intros [[id Hid] Hq]; split; eauto;
        (assert (q <> p) by (intros ->; by eapply Hfree));
        rewrite lookup_insert_ne in * by done; done.
    + done.
  - intros r id p u Hv Hfree Hread Hnot Hdup. cbn [ir_CreateUser ir_read strict_repository] in *.
    assert (Hp : user_heap r !! p = Some u).
    { destruct (user_at_inv p r) as [(v & Hv' & Hrun)|[_ Hrun]]; rewrite Hrun in Hread; [|done].
      by injection Hread as ->. }
    destruct (CreateUser_run ord id p u r Hv Hp) as [(e & (i & v & (q & Hq & Hh) & Hd) & _)|[_ Hrun]].
    { exfalso. destruct (Hdup q v) as [? ?]; [split; [by exists i|done]|]. by destruct Hd. }
    exists (created id p u r). split; [exact Hrun|]. split.
    { pose proof (CreateUser_valid ord id p r Hv) as Hv'. by rewrite Hrun in Hv'. }
    intros q v. unfold stored_at, created. cbn. split.
    + intros [[i Hi] Hq]. rewrite lookup_insert in Hq. destruct (decide (p = q)) as [<-|Hne].
      { left. by injection Hq as <-. }
      right. split; [|done]. rewrite lookup_insert in Hi. case_decide; [congruence|by exists i].
    + intros [[-> ->]|[[i Hi] Hq]].
      * split; [exists id; apply lookup_insert_eq|apply lookup_insert_eq].
      * assert (p <> q) by (intros ->; eapply Hnot; by split; [exists i|]).
        rewrite lookup_insert_ne by done. split; [|done]. exists i.
        rewrite lookup_insert_ne; [done|]. intros ->. congruence.
Defined.

(** ** Runs *)
Section Runs.
Context `{IdentityRepository R} (HashPassword : string -> res error string) (fuel : nat).

Lemma on_repo_run {A} (m : prog R error A) r vs x r' :
  m r = (x, r') -> on_repo m (r, vs) = (x, (r', vs)).
Proof. intros Hm. unfold on_repo, zoom. cbn. by rewrite Hm. Qed.

Lemma try_on_repo_ok {A B} (m : prog R error A) (f : error + A -> svc R B) r vs a r' :
  m r = (Ok a, r') -> (try (on_repo m) ≫= f) (r, vs) = f (inr a) (r', vs).
Proof.
  intros Hm. unfold mbind, prog_bind, try. by rewrite (on_repo_run m r vs _ _ Hm).
Qed.

Lemma try_on_repo_err {A B} (m : prog R error A) (f : error + A -> svc R B) r vs e r' :
  m r = (Err e, r') -> (try (on_repo m) ≫= f) (r, vs) = f (inl e) (r', vs).
Proof.
  intros Hm. unfold mbind, prog_bind, try. by rewrite (on_repo_run m r vs _ _ Hm).
Qed.

Lemma fail_internal_run {A} e (w : R * errvars) :
  fail_internal (A:=A) e w = (Err (Sentinel ErrInternal), (w.1, WithCause w.2 ErrInternal e)).
Proof. done. Qed.

Lemma fail_not_found_run {A} e d (w : R * errvars) :
  fail_not_found (A:=A) e d w =
    (Err (Sentinel ErrNotFound), (w.1, WithDetails (WithCause w.2 ErrNotFound e) ErrNotFound d)).
Proof. done. Qed.

(** The duplicate check, on each answer of the lookup. *)
Lemma ensure_absent_found {B} (m : prog R error loc) field value (k : () -> svc R B) r vs p r' :
  m r = (Ok p, r') ->
  (ensure_absent fuel m field value ≫= k) (r, vs) =
    (Err (Sentinel ErrConflict),
     (r', WithDetails vs ErrConflict {[ "field" := field; "value" := value ]})).
Proof.
  intros Hm. unfold ensure_absent. rewrite prog_assoc.
  by rewrite (try_on_repo_ok m _ r vs p r').
Qed.

Lemma ensure_absent_missing {B} (m : prog R error loc) field value (k : () -> svc R B) r vs :
  (0 < fuel)%nat -> m r = (Err (Sentinel ErrUserNotFound), r) ->
  (ensure_absent fuel m field value ≫= k) (r, vs) = k () (r, vs).
Proof.
  intros Hf Hm. unfold ensure_absent. rewrite prog_assoc.
  rewrite (try_on_repo_err m _ r vs _ r Hm). unfold is_error.
  unfold mbind, prog_bind, get, lift. cbn [snd]. by rewrite errors_is_self.
Qed.

Lemma ensure_absent_failed {B} (m : prog R error loc) field value (k : () -> svc R B) r vs msg :
  (0 < fuel)%nat -> m r = (Err (Errorf msg), r) ->
  (ensure_absent fuel m field value ≫= k) (r, vs) =
    (Err (Sentinel ErrInternal), (r, WithCause vs ErrInternal (Errorf msg))).
Proof.
  intros Hf Hm. unfold ensure_absent. rewrite prog_assoc.
  rewrite (try_on_repo_err m _ r vs _ r Hm). unfold is_error.
  unfold mbind, prog_bind, get, lift. cbn [snd]. by rewrite errors_is_errorf.
Qed.
End Runs.

(** A name and an address that nobody has: the user is created. *)
Lemma create_new_user `{RepositoryLaws R} hash fuel (r : R) vs uuid id name email pw h :
  (0 < fuel)%nat -> inv r -> free_id r id -> name <> "" -> email <> "" -> pw <> "" ->
  ~ (exists p u, holds r p u /\ user_Username u = name) ->
  ~ (exists p u, holds r p u /\ user_Email u = email) -> hash pw = Ok h ->
  exists p r', service_CreateUser hash fuel uuid id name email pw (r, vs) = (Ok p, (r', vs)) /\ inv r' /\
    forall q v, holds r' q v <->
      (q = p /\ v = set_user_ID id (new_user uuid name email h UserStatusActive)) \/ holds r q v.
Proof.
  intros Hf Hinv Hfree Hn He Hp Hnn Hnm Hhash. unfold service_CreateUser.
  rewrite !bool_decide_eq_false_2 by done. cbn [orb].
  destruct (law_by_username r name Hinv) as [(p & u & _ & Hh & Hu)|[Hl Hno]]; [destruct Hnn; by exists p, u|].
  destruct (law_by_email r email Hinv) as [(p & u & _ & Hh & Hu)|[Hl' Hno']]; [destruct Hnm; by exists p, u|].
  rewrite (ensure_absent_missing fuel _ _ _ _ r vs Hf Hl), (ensure_absent_missing fuel _ _ _ _ r vs Hf Hl').
  set (u := new_user uuid name email h UserStatusActive).
  destruct (law_alloc r u Hinv) as (p & r1 & Halloc & Hinv1 & Hread & Hnot & Hsame & Hfree1).
  destruct (law_create r1 id p u) as (r2 & Hcreate & Hinv2 & Hholds); try done.
  { by apply Hfree1. }
  { intros q v Hq%Hsame. split; intros Heq; [by eapply Hno|by eapply Hno']. }
  exists p, r2. split; [|split; [done|]].
  - unfold mbind, prog_bind, try, lift. rewrite Hhash. cbv beta iota. fold u.
    rewrite (on_repo_run _ r vs _ _ Halloc). by rewrite (on_repo_run _ r1 vs _ _ Hcreate).
  - intros q v. rewrite Hholds, Hsame. done.
Qed.

(** ** Properties *)

(** C7: over a repository that answers unknown names with [ErrUserNotFound],
    [CreateUser] rejects empty fields, a taken username and a taken email (in
    that order, naming the field) without touching the repository, and
    otherwise stores one new active user with the hashed password. *)
Theorem create_user_contract `{RepositoryLaws R} hash fuel (r : R) vs uuid id name email pw :
  (0 < fuel)%nat -> inv r -> free_id r id ->
  let run := service_CreateUser hash fuel uuid id name email pw (r, vs) in
  let named := exists p u, holds r p u /\ user_Username u = name in
  let mailed := exists p u, holds r p u /\ user_Email u = email in
  let conflict field value :=
    (Err (Sentinel ErrConflict), (r, WithDetails vs ErrConflict {[ "field" := field; "value" := value ]})) in
  ((name = "" \/ email = "" \/ pw = "") -> run.1 = Err (Sentinel ErrValidation) /\ run.2.1 = r) /\
  (name <> "" -> email <> "" -> pw <> "" ->
     (named -> run = conflict "username" name) /\
     (~ named -> mailed -> run = conflict "email" email) /\
     (~ named -> ~ mailed -> forall e, hash pw = Err e ->
        run = (Err (Sentinel ErrInternal), (r, WithCause vs ErrInternal e))) /\
     (~ named -> ~ mailed -> forall h, hash pw = Ok h ->
        exists p r', run = (Ok p, (r', vs)) /\ inv r' /\
          forall q v, holds r' q v <->
            (q = p /\ v = set_user_ID id (new_user uuid name email h UserStatusActive)) \/ holds r q v)).
Proof.
  intros Hf Hinv Hfree run named mailed conflict. split.
  { intros Hempty. unfold run, service_CreateUser. assert (bool_decide (name = "") || bool_decide (email = "") || bool_decide (pw = "") = true)
      as ->; [|by split]. rewrite !orb_true_iff, !bool_decide_eq_true. tauto. }
  intros Hn He Hp. refine ((fun Hall => conj (proj1 Hall) (conj (proj1 (proj2 Hall)) (conj (proj2 (proj2 Hall)) _))) _).
  { intros Hnn Hnm h Hhash. by apply create_new_user. }
  unfold run, service_CreateUser. rewrite !bool_decide_eq_false_2 by done. cbn [orb].
  destruct (law_by_username r name Hinv) as [(p & u & Hl & Hh & Hu)|[Hl Hno]].
  { assert (named) by (by exists p, u).
    split; [|by split]. intros _. by apply (ensure_absent_found fuel _ _ _ _ r vs p r). }
  assert (Hnn : ~ named) by (intros (p & u & Hh & Hu); by eapply Hno).
  split; [done|]. rewrite (ensure_absent_missing fuel _ _ _ _ r vs Hf Hl).
  destruct (law_by_email r email Hinv) as [(p & u & Hl' & Hh & Hu)|[Hl' Hno']].
  { assert (mailed) by (by exists p, u).
    split; [|done]. intros _ _. by apply (ensure_absent_found fuel _ _ _ _ r vs p r). }
  assert (Hnm : ~ mailed) by (intros (p & u & Hh & Hu); by eapply Hno').
  split; [done|]. rewrite (ensure_absent_missing fuel _ _ _ _ r vs Hf Hl').
  intros _ _ e Hhash. unfold mbind, prog_bind, try, lift. by rewrite Hhash.
Qed.

(** With the in-memory repository, whose lookups report an unknown user by
    an error of their own, [CreateUser] never creates anyone: every request
    with fields that nobody has yet is answered with an internal error, and
    the repository is left as it was. *)
Theorem memory_create_user_fails ord hash fuel (r : identity_repo) vs uuid id name email pw :
  (0 < fuel)%nat -> valid r ->
  let run := @service_CreateUser _ (memory_repository ord) hash fuel uuid id name email pw (r, vs) in
  (exists code, run.1 = Err (Sentinel code)) /\ run.2.1 = r /\
  (name <> "" -> email <> "" -> pw <> "" ->
   (forall i u, stored r i u -> user_Username u <> name) ->
   run.1 = Err (Sentinel ErrInternal)).
Proof.
  intros Hf Hv run. unfold run, service_CreateUser.
  destruct (bool_decide (name = "") || bool_decide (email = "") || bool_decide (pw = "")) eqn:Hempty.
  { split; [by eexists|]. split; [done|]. intros Hn He Hp.
    by rewrite !bool_decide_eq_false_2 in Hempty. }
  cbn [ir_GetUserByUsername ir_GetUserByEmail memory_repository]. unfold GetUserByUsername.
  match goal with |- context [find_user ord ?t ?e] =>
    destruct (find_user_spec ord t e r Hv) as [[Hl Hno]|(i & p & u & Hl & Hi & Hp & Ht)] end.
  - rewrite (ensure_absent_failed fuel _ _ _ _ r vs _ Hf Hl).
    split; [by eexists|by split].
  - rewrite (ensure_absent_found fuel _ _ _ _ r vs p r Hl).
    split; [by eexists|]. split; [done|]. intros _ _ _ Hnone. exfalso.
    apply bool_decide_unpack in Ht. eapply Hnone; [by exists p|done].
Qed.

(** With the in-memory repository, reading a user through the application
    service erases the stored password hash: the object is shared, and
    clearing the field of the answer clears it in the repository; everything
    else stays as it was, and an unknown user is [ErrNotFound]. *)
Theorem get_user_erases_password ord (r : identity_repo) vs id :
  valid r ->
  let run := @app_GetUserByID _ (memory_repository ord) id (r, vs) in
  (forall u, stored r id u ->
     (exists p, run.1 = Ok p) /\ stored run.2.1 id (clear_password u) /\
     repo_users run.2.1 = repo_users r /\
     (forall i v, stored r i v -> (exists p, repo_users r !! i = Some p /\ repo_users r !! id <> Some p) ->
        stored run.2.1 i v)) /\
  ((forall u, ~ stored r id u) ->
     run = (Err (Sentinel ErrNotFound),
            (r, WithDetails (WithCause vs ErrNotFound (Errorf ("user with ID '" +:+ id +:+ "' not found")))
                  ErrNotFound {[ "userID" := id ]}))).
Proof.
  intros Hv run. split.
  - intros u (p & Hid & Hp).
    assert (Hrun : run = (Ok p, (set_user_heap (<[p := clear_password u]> (user_heap r)) r, vs))).
    { unfold run, app_GetUserByID, service_GetUser, or_not_found, app_error, hide_password, mbind,
        prog_bind, try, on_repo, zoom. cbn [ir_GetUserByID ir_read ir_store memory_repository fst].
      unfold GetUserByID, mbind, prog_bind, get, mret, prog_ret. rewrite Hid. cbv beta iota.
      cbn [fst snd]. rewrite (user_at_run p r u) by done. reflexivity. }
    rewrite Hrun. cbn [fst snd]. split; [by eexists|]. split; [|split; [done|]].
    + exists p. split; [done|]. cbn. apply lookup_insert_eq.
    + intros i v (q & Hi & Hq) (q' & Hi' & Hne).
      assert (q' = q) as -> by congruence. exists q. split; [done|]. cbn.
      rewrite lookup_insert_ne; [done|]. intros ->. done.
  - intros Hnone. assert (Hid : repo_users r !! id = None).
    { destruct (repo_users r !! id) as [p|] eqn:Hid; [|done]. exfalso.
      destruct (valid_users r Hv id p Hid) as [u Hu]. apply (Hnone u). by exists p. }
    unfold run, app_GetUserByID, service_GetUser, or_not_found, app_error, mbind,
      prog_bind, try, on_repo, zoom. cbn [ir_GetUserByID memory_repository fst].
    unfold GetUserByID, mbind, prog_bind, get. by rewrite Hid.
Qed.

(** The predefined errors are shared: two requests for unknown users are
    answered with the same error value, and after the second one the first
    answer carries the identifier of the second; and an error that becomes its
    own cause (a deletion that the repository answers with [ErrNotFound]) makes
    every later comparison with another error loop forever. *)
Theorem errors_are_shared `{IdentityRepository R} fuel (r r1 r2 : R) vs a b e1 e2 :
  ir_GetUserByID a r = (Err e1, r1) -> ir_GetUserByID b r1 = (Err e2, r2) ->
  (exists vs1 vs2 err, service_GetUserByID a (r, vs) = (Err err, (r1, vs1)) /\
     service_GetUserByID b (r1, vs1) = (Err err, (r2, vs2)) /\
     err_details (errvar_of vs1 ErrNotFound) = {[ "userID" := a ]} /\
     err_details (errvar_of vs2 ErrNotFound) = {[ "userID" := b ]}) /\
  (forall r', (0 < fuel)%nat -> ir_DeleteUser a r = (Err (Sentinel ErrNotFound), r') ->
     exists vs', service_DeleteUser fuel a (r, vs) = (Err (Sentinel ErrNotFound), (r', vs')) /\
       forall fuel' target, target <> ErrNotFound ->
         errors_is fuel' vs' (Sentinel ErrNotFound) target = Diverge).
Proof.
  intros Ha Hb. split.
  - unfold service_GetUserByID, or_not_found.
    rewrite (try_on_repo_err _ _ r vs e1 r1 Ha), fail_not_found_run. cbn [fst snd].
    eexists _, _, _. split; [done|].
    rewrite (try_on_repo_err _ _ r1 _ e2 r2 Hb), fail_not_found_run. cbn [fst snd].
    split; [done|]. by rewrite !errvar_of_WithDetails, !decide_True.
  - intros r' Hf Hd. unfold service_DeleteUser.
    rewrite (try_on_repo_err _ _ r vs _ r' Hd). unfold is_error.
    unfold mbind, prog_bind, get, lift. cbn [snd]. rewrite errors_is_self by done.
    rewrite fail_not_found_run. cbn [fst snd]. eexists. split; [done|].
    intros fuel' target Hne. apply errors_is_cycle; [|done].
    rewrite unwrap_WithDetails. cbn [unwrap]. by rewrite errvar_of_WithCause, decide_True.
Qed.

Lemma create_user_contract_witness :
  exists p r', @service_CreateUser _ (strict_repository default_order) (fun pw => Ok ("bcrypt:" +:+ pw)) 3
    "x" "u2" "dave" "dave@example.org" "secret" (demo_repo, ∅) = (Ok p, (r', ∅)) /\
    valid r' /\ stored_at r' p (new_user "u2" "dave" "dave@example.org" "bcrypt:secret" UserStatusActive).
Proof.
  destruct (@create_user_contract _ _ (strict_laws default_order) (fun pw => Ok ("bcrypt:" +:+ pw)) 3
    demo_repo ∅ "x" "u2" "dave" "dave@example.org" "secret") as [_ Hok];
    [lia|exact demo_repo_valid|reflexivity|].
  destruct (Hok ltac:(done) ltac:(done) ltac:(done)) as (_ & _ & _ & Hcreate).
  destruct (Hcreate) with (h := "bcrypt:secret") as (p & r' & Hrun & Hv & Hh).
  - intros (p & u & Hs & Hu). apply stored_at_stored in Hs as [id Hs].
    by apply demo_stored in Hs as [_ ->].
  - intros (p & u & Hs & Hu). apply stored_at_stored in Hs as [id Hs].
    by apply demo_stored in Hs as [_ ->].
  - reflexivity.
  - exists p, r'. split; [exact Hrun|]. split; [exact Hv|]. apply Hh. left. split; reflexivity.
Defined.

Lemma memory_create_user_fails_witness :
  (@service_CreateUser _ (memory_repository default_order) (fun pw => Ok pw) 3
    "x" "u2" "dave" "dave@example.org" "secret" (demo_repo, ∅)).1 = Err (Sentinel ErrInternal).
Proof.
  apply (memory_create_user_fails default_order (fun pw => Ok pw) 3 demo_repo ∅ "x" "u2" "dave"
    "dave@example.org" "secret"); [lia|exact demo_repo_valid|done|done|done|].
  by intros i u [-> ->]%demo_stored.
Defined.

Lemma get_user_erases_password_witness :
  stored (@app_GetUserByID _ (memory_repository default_order) "u1" (demo_repo, ∅)).2.1 "u1"
    (clear_password alice).
Proof.
  apply (get_user_erases_password default_order demo_repo ∅ "u1" demo_repo_valid).
  by exists 1%positive.
Defined.

Lemma errors_are_shared_witness :
  exists vs1 vs2 err, @service_GetUserByID _ (memory_repository default_order) "a" (demo_repo, ∅) =
      (Err err, (demo_repo, vs1)) /\
    @service_GetUserByID _ (memory_repository default_order) "b" (demo_repo, vs1) =
      (Err err, (demo_repo, vs2)) /\
    err_details (errvar_of vs2 ErrNotFound) = {[ "userID" := "b" ]}.
Proof.
  destruct (@errors_are_shared _ (memory_repository default_order) 1 demo_repo demo_repo demo_repo ∅ "a" "b"
    (Errorf "user with ID 'a' not found") (Errorf "user with ID 'b' not found") eq_refl eq_refl)
    as [(vs1 & vs2 & err & H1 & H2 & _ & H3) _].
  exists vs1, vs2, err. split; [exact H1|]. split; [exact H2|exact H3].
Defined.
