(* ===== verification/Tables.v ===== *)
(** * Tables of the relational database

    The repositories of internal/storage/postgresql send their queries through
    GORM to PostgreSQL.  What they rely on is the documented behaviour of a
    table with unique indexes: a statement sees and changes all rows that
    satisfy its condition, in no promised order, and one that would leave two
    rows alike in a unique index fails and changes nothing.  [Table] is the
    interface, [TableLaws] the promise, and a list of rows keeps it. *)

From S2P Require Import Prelude Types.

(** [conflict a b]: the rows are alike in a unique index. *)
Fixpoint unique {A} (conflict : A -> A -> bool) (l : list A) : bool :=
  match l with
  | [] => true
  | a :: l => forallb (fun b => negb (conflict a b)) l && unique conflict l
  end.

Definition select_rows {A} (p : A -> bool) (l : list A) : list A := List.filter p l.
Definition update_rows {A} (p : A -> bool) (f : A -> A) (l : list A) : list A :=
  map (fun r => if p r then f r else r) l.
Definition delete_rows {A} (p : A -> bool) (l : list A) : list A := List.filter (fun r => negb (p r)) l.

Definition ErrDuplicateKey : error := Errorf "duplicate key value violates unique constraint".

(** [INSERT ... ON CONFLICT (target) DO UPDATE]: row by row; a row that meets
    one with the same target is merged into it, once in a statement. *)
Fixpoint upsert_rows {A} (conflict target : A -> A -> bool) (merge : A -> A -> A)
    (touched rows new : list A) : option (list A) :=
  match new with
  | [] => Some rows
  | a :: new =>
      if existsb (target a) touched then None
      else
        let rows' := if existsb (target a) rows
                     then update_rows (target a) (merge a) rows else rows ++ [a] in
        if unique conflict rows' then upsert_rows conflict target merge (a :: touched) rows' new
        else None
  end.

Class Table (A D : Type) := {
  t_insert : list A -> prog D error unit;
  t_upsert : (A -> A -> bool) -> (A -> A -> A) -> list A -> prog D error unit;
  t_select : (A -> bool) -> prog D error (list A);
  t_update : (A -> bool) -> (A -> A) -> prog D error Z;
  t_delete : (A -> bool) -> prog D error Z
}.

Class TableLaws (A D : Type) (conflict : A -> A -> bool) `{Table A D} := {
  t_rows : D -> list A;
  law_insert l d :
    if unique conflict (t_rows d ++ l) then
      exists d', t_insert l d = (Ok (), d') /\ t_rows d' ≡ₚ t_rows d ++ l
    else t_insert l d = (Err ErrDuplicateKey, d);
  law_upsert target merge l d :
    match upsert_rows conflict target merge [] (t_rows d) l with
    | Some rows => exists d', t_upsert target merge l d = (Ok (), d') /\ t_rows d' ≡ₚ rows
    | None => t_upsert target merge l d = (Err ErrDuplicateKey, d)
    end;
  law_select p d : exists l, t_select p d = (Ok l, d) /\ l ≡ₚ select_rows p (t_rows d);
  law_update p f d :
    if unique conflict (update_rows p f (t_rows d)) then
      exists d', t_update p f d = (Ok (Z.of_nat (length (select_rows p (t_rows d)))), d') /\
        t_rows d' ≡ₚ update_rows p f (t_rows d)
    else t_update p f d = (Err ErrDuplicateKey, d);
  law_delete p d : exists d' n, t_delete p d = (Ok n, d') /\ t_rows d' ≡ₚ delete_rows p (t_rows d)
}.

(** ** Facts about unique rows *)
Section Unique.
Context {A : Type} (conflict : A -> A -> bool).

Lemma unique_app l k :
  unique conflict (l ++ k) =
  unique conflict l && unique conflict k && forallb (fun a => forallb (fun b => negb (conflict a b)) k) l.
Proof.
  induction l as [|a l IH]; cbn; [by rewrite andb_true_r|].
  rewrite IH, forallb_app.
  destruct (forallb _ l), (forallb _ k), (unique conflict l), (unique conflict k), (forallb _ l); done.
Qed.

Lemma unique_filter p l : unique conflict l = true -> unique conflict (List.filter p l) = true.
Proof.
  induction l as [|a l IH]; cbn; [done|]. intros [Ha Hl]%andb_true_iff. destruct (p a); [|by apply IH].
  cbn. rewrite IH by done. rewrite andb_true_r. apply forallb_forall. intros b [Hb _]%List.filter_In.
  rewrite forallb_forall in Ha. by apply Ha.
Qed.

Context (conflict_sym : forall a b, conflict a b = conflict b a).

Lemma unique_perm l k : l ≡ₚ k -> unique conflict l = unique conflict k.
Proof.
  assert (Hforall : forall p (m n : list A), m ≡ₚ n -> forallb p m = forallb p n).
  { intros p m n Hmn. induction Hmn as [|x m n _ IH|x y m|m n o _ IH1 _ IH2]; cbn; [done|by rewrite IH| |congruence].
    by rewrite !andb_assoc, (andb_comm (p y)). }
  induction 1 as [|x m n Hmn IH|x y m|m n o _ IH1 _ IH2]; cbn; [done|by rewrite IH, (Hforall _ _ _ Hmn)| |congruence].
  rewrite (conflict_sym y x).
  destruct (negb (conflict x y)), (forallb _ m), (forallb _ m), (unique conflict m); done.
Qed.

Lemma unique_pair l a b :
  unique conflict l = true -> a ∈ l -> b ∈ l -> conflict a b = true -> a = b.
Proof.
  intros Hu Ha Hb Hc. revert Hu Ha Hb. induction l as [|x l IH]; cbn; [intros _ Ha; by apply elem_of_nil in Ha|].
  intros [Hx Hu]%andb_true_iff Ha Hb. rewrite forallb_forall in Hx.
  apply elem_of_cons in Ha as [->|Ha], Hb as [->|Hb]; try done; [| |by apply IH].
  - apply list_elem_of_In in Hb. specialize (Hx _ Hb). by rewrite Hc in Hx.
  - apply list_elem_of_In in Ha. specialize (Hx _ Ha). by rewrite conflict_sym, Hc in Hx.
Qed.
End Unique.

(** ** A list of rows keeps the promise *)
Section ListTable.
Context {A : Type} (conflict : A -> A -> bool).

Definition guarded_by (l l' : list A) {B} (b : B) : res error B * list A :=
  if unique conflict l' then (Ok b, l') else (Err ErrDuplicateKey, l).

#[local] Instance list_table : Table A (list A) := {|
  t_insert l := fun d => guarded_by d (d ++ l) ();
  t_upsert target merge l := fun d =>
    match upsert_rows conflict target merge [] d l with
    | Some rows => (Ok (), rows)
    | None => (Err ErrDuplicateKey, d)
    end;
  t_select p := fun d => (Ok (select_rows p d), d);
  t_update p f := fun d => guarded_by d (update_rows p f d) (Z.of_nat (length (select_rows p d)));
  t_delete p := fun d => (Ok (Z.of_nat (length (select_rows p d))), delete_rows p d)
|}.

Definition list_table_laws : TableLaws A (list A) conflict.
Proof.
  refine {| t_rows := fun d => d |}; cbn [t_insert t_upsert t_select t_update t_delete list_table]; unfold guarded_by.
  - intros l d. destruct (unique conflict (d ++ l)); [by eexists|done].
  - intros target merge l d. destruct (upsert_rows _ _ _ _ _ _); [by eexists|done].
  - intros p d. by eexists.
  - intros p f d. destruct (unique conflict (update_rows p f d)); [by eexists|done].
  - intros p d. by eexists _, _.
Defined.
End ListTable.

(** ** What the statements do to the rows *)
Section Statements.
Context {A : Type} (conflict : A -> A -> bool).

Lemma upsert_rows_inv (target : A -> A -> bool) (merge : A -> A -> A) (I : list A -> Prop) new : forall touched rows rows',
  upsert_rows conflict target merge touched rows new = Some rows' -> I rows ->
  (forall rows a, I rows -> a ∈ new ->
     let next := if existsb (target a) rows then update_rows (target a) (merge a) rows else rows ++ [a] in
     unique conflict next = true -> I next) -> I rows'.
Proof.
  induction new as [|a new IH]; intros touched rows rows'; cbn [upsert_rows]; [by intros [= <-]|].
  destruct (existsb (target a) touched); [done|]. cbv zeta.
  destruct (unique conflict _) eqn:Hu; [|done]. intros Hrun HI Hstep.
  eapply IH; [exact Hrun| |].
  - apply Hstep; [done|apply list_elem_of_here|done].
  - intros rows0 b HI0 Hb. apply Hstep; [done|by apply list_elem_of_further].
Qed.

Lemma update_rows_Forall p (f : A -> A) (P : A -> Prop) l :
  Forall P l -> (forall r, P r -> p r = true -> P (f r)) -> Forall P (update_rows p f l).
Proof.
  intros Hl Hf. apply List.Forall_map. eapply List.Forall_impl; [|exact Hl]. intros r Hr.
  destruct (p r) eqn:Hp; [by apply Hf|done].
Qed.

Lemma update_rows_key {B} (key : A -> B) p (f : A -> A) l :
  (forall r, p r = true -> key (f r) = key r) -> map key (update_rows p f l) = map key l.
Proof.
  intros Hf. unfold update_rows. rewrite map_map. apply map_ext. intros r.
  destruct (p r) eqn:Hp; [by apply Hf|done].
Qed.

Lemma update_rows_none p (f : A -> A) l : select_rows p l = [] -> update_rows p f l = l.
Proof.
  induction l as [|r l IH]; cbn; [done|]. destruct (p r); [done|]. intros Hl. f_equal. by apply IH.
Qed.

Lemma select_rows_perm p (l k : list A) : l ≡ₚ k -> select_rows p l ≡ₚ select_rows p k.
Proof.
  unfold select_rows. induction 1 as [|x l k _ IH|x y l|l k m _ IH1 _ IH2]; cbn; [done| | |by rewrite IH1].
  - destruct (p x); [by rewrite IH|done].
  - destruct (p x), (p y); try done. apply Permutation_swap.
Qed.

Lemma elem_of_select p r (l : list A) : r ∈ select_rows p l <-> r ∈ l /\ p r = true.
Proof. unfold select_rows. by rewrite !list_elem_of_In, List.filter_In. Qed.

Lemma elem_of_delete p r (l : list A) : r ∈ delete_rows p l <-> r ∈ l /\ p r = false.
Proof. unfold delete_rows. by rewrite !list_elem_of_In, List.filter_In, negb_true_iff. Qed.
End Statements.

(** ** Tables whose rows are unique from the start

    A table is created empty and every statement keeps its indexes. *)
Class UniqueRows (A D : Type) (conflict : A -> A -> bool) `{TableLaws A D conflict} := {
  rows_unique (d : D) : unique conflict (t_rows d) = true
}.

Section UniqueTable.
Context {A : Type} (conflict : A -> A -> bool).
Definition utable : Type := {l : list A | unique conflict l = true}.

Lemma unique_upsert target merge new : forall touched rows rows',
  unique conflict rows = true -> upsert_rows conflict target merge touched rows new = Some rows' -> unique conflict rows' = true.
Proof.
  intros touched rows rows' Hu Hup.
  apply (upsert_rows_inv conflict target merge (fun l => unique conflict l = true) new touched rows rows' Hup Hu).
  cbv zeta. by intros ? ? _ _.
Qed.

Definition commit {B} (d : utable) (l : list A) (b : B) : res error B * utable :=
  match decide (unique conflict l = true) with
  | left Hl => (Ok b, exist _ l Hl)
  | right _ => (Err ErrDuplicateKey, d)
  end.

#[local] Instance unique_table : Table A utable := {|
  t_insert l := fun d => commit d (`d ++ l) ();
  t_upsert target merge l := fun d =>
    match upsert_rows conflict target merge [] (`d) l with
    | Some rows => commit d rows ()
    | None => (Err ErrDuplicateKey, d)
    end;
  t_select p := fun d => (Ok (select_rows p (`d)), d);
  t_update p f := fun d => commit d (update_rows p f (`d)) (Z.of_nat (length (select_rows p (`d))));
  t_delete p := fun d => commit d (delete_rows p (`d)) (Z.of_nat (length (select_rows p (`d))))
|}.

Lemma commit_ok {B} d l (b : B) : unique conflict l = true -> exists d', commit d l b = (Ok b, d') /\ `d' = l.
Proof. intros Hl. unfold commit. destruct (decide _) as [Hd|]; [by eexists|done]. Qed.

Definition unique_table_laws : TableLaws A utable conflict.
Proof.
  refine {| t_rows := fun d => `d |}; cbn [t_insert t_upsert t_select t_update t_delete unique_table].
  - intros l d. destruct (unique conflict (`d ++ l)) eqn:Hu; [|unfold commit; destruct (decide _); [congruence|done]].
    destruct (commit_ok d _ () Hu) as (d' & Hc & Hr). exists d'. by rewrite Hr.
  - intros target merge l d. destruct (upsert_rows _ _ _ _ _ _) as [rows|] eqn:Hup; [|done].
    destruct (commit_ok d rows () (unique_upsert _ _ _ _ _ _ (proj2_sig d) Hup)) as (d' & Hc & Hr). exists d'. by rewrite Hr.
  - intros p d. by eexists.
  - intros p f d. destruct (unique conflict (update_rows p f (`d))) eqn:Hu; [|unfold commit; destruct (decide _); [congruence|done]].
    destruct (commit_ok d _ (Z.of_nat (length (select_rows p (`d)))) Hu) as (d' & Hc & Hr). exists d'. by rewrite Hr.
  - intros p d.
    destruct (commit_ok d (delete_rows p (`d)) (Z.of_nat (length (select_rows p (`d)))) (unique_filter _ _ _ (proj2_sig d)))
      as (d' & Hc & Hr). exists d'. eexists. by rewrite Hr.
Defined.
Definition unique_table_unique : @UniqueRows A utable conflict unique_table unique_table_laws.
Proof. constructor. intros d. exact (proj2_sig d). Defined.
End UniqueTable.

(** ** What one row does to a table of unique rows *)
Section OneRow.
Context `{UniqueRows A D conflict}.
Context (conflict_sym : forall a b, conflict a b = conflict b a) (conflict_refl : forall a, conflict a a = true).
Implicit Types (d : D) (a b : A).

Lemma rows_pair d a b : a ∈ t_rows d -> b ∈ t_rows d -> conflict a b = true -> a = b.
Proof. intros Ha Hb Hc. exact (unique_pair conflict conflict_sym _ a b (rows_unique d) Ha Hb Hc). Qed.

Lemma insert_row d a :
  (forall b, b ∈ t_rows d -> conflict b a = false) ->
  exists d', t_insert [a] d = (Ok (), d') /\ forall b, b ∈ t_rows d' <-> b = a \/ b ∈ t_rows d.
Proof.
  intros Hfree. pose proof (law_insert [a] d) as Hi. rewrite unique_app, rows_unique in Hi.
  assert (forallb (fun b => forallb (fun c => negb (conflict b c)) [a]) (t_rows d) = true) as Hall.
  { apply forallb_forall. intros b Hb%list_elem_of_In. cbn. by rewrite (Hfree b Hb). }
  rewrite Hall in Hi. cbn in Hi. destruct Hi as (d' & Hrun & Hp). exists d'. split; [done|].
  intros b. rewrite Hp, elem_of_app, list_elem_of_singleton. tauto.
Qed.

Lemma update_row d p a a0 :
  a0 ∈ t_rows d -> p a0 = true -> (forall b, b ∈ t_rows d -> p b = true -> b = a0) ->
  (forall b, b ∈ t_rows d -> p b = false -> conflict b a = false) ->
  exists d' n, t_update p (fun _ => a) d = (Ok n, d') /\ (0 < n)%Z /\
    forall b, b ∈ t_rows d' <-> b = a \/ b ∈ t_rows d /\ p b = false.
Proof.
  intros Hin Hp Hone Hfree. pose proof (law_update p (fun _ => a) d) as Hu.
  assert (Hunq : unique conflict (update_rows p (fun _ => a) (t_rows d)) = true).
  { pose proof (rows_unique d) as Hun. revert Hun Hone Hfree. clear Hin Hu. generalize (t_rows d) as l.
    induction l as [|x l IH]; cbn; [done|]. intros [Hx Hl]%andb_true_iff Hone Hfree.
    rewrite forallb_forall in Hx. apply andb_true_iff. split.
    - apply forallb_forall. intros y Hy. apply in_map_iff in Hy as (z & <- & Hz). apply list_elem_of_In in Hz as Hz'.
      destruct (p x) eqn:Hpx, (p z) eqn:Hpz.
      + assert (x = a0) as -> by (apply Hone; [by left|done]). assert (z = a0) as -> by (apply Hone; [by right|done]).
        specialize (Hx _ Hz). by rewrite conflict_refl in Hx.
      + rewrite conflict_sym, Hfree; [done|by right|done].
      + rewrite Hfree; [done|by left|done].
      + by apply Hx.
    - apply IH; [done|..]; intros b Hb; [apply Hone|apply Hfree]; by right. }
  rewrite Hunq in Hu. destruct Hu as (d' & Hrun & Hrows). exists d', (Z.of_nat (length (select_rows p (t_rows d)))).
  split; [done|]. split.
  - assert (a0 ∈ select_rows p (t_rows d)) as Hs by (by apply elem_of_select).
    destruct (select_rows p (t_rows d)); [by apply elem_of_nil in Hs|cbn; lia].
  - intros b. rewrite Hrows. unfold update_rows. rewrite list_elem_of_In, in_map_iff. setoid_rewrite <-list_elem_of_In.
    split.
    + intros (c & Hc & Hin'). destruct (p c) eqn:Hpc; [by left|right; by subst].
    + intros [->|[Hb Hpb]]; [exists a0|exists b]; [by rewrite Hp|by rewrite Hpb].
Qed.
End OneRow.
