(* ===== verification/PgIdentity.v ===== *)
(** * The PostgreSQL identity repository and the migration to encrypted columns

    - internal/storage/postgresql/identity_repo.go over the tables of users,
      groups and memberships, an implementation of the repository interface of
      the identity services ([IdentityRepository]);
    - cmd/qid-migrate-fle/main.go: the command that encrypts the addresses and
      telephone numbers already stored.

    A row of users is a [User] whose [Email] and [Phone] hold the text of their
    columns; structs live in a heap, and every read makes fresh ones.  Columns
    of JSON and of times are taken to read back as they were written.  The
    tables are the interface of Tables.v; the evaluation of an ORDER BY, whose
    text comes from the request, is a parameter. *)

From stdpp Require Import sorting.
From S2P Require Import Prelude Types GoStd Encoding Aes Secrets MemIdentity IdentityService Tables.
From Stdlib Require Import Ascii.
Local Open Scope Z_scope.

(** ** Rows *)

(** The unique indexes of the struct tags in pkg/types/user.go: the primary
    key, the name, the text of the address and the pair of the external
    identifier and its source. *)
Definition user_conflict (u v : User) : bool :=
  bool_decide (user_ID u = user_ID v) || bool_decide (user_Username u = user_Username v) ||
  bool_decide (user_Email u = user_Email v) ||
  (bool_decide (user_ExternalID u = user_ExternalID v) && bool_decide (user_SourceType u = user_SourceType v)).
Definition group_conflict (g h : UserGroup) : bool :=
  bool_decide (group_ID g = group_ID h) || bool_decide (group_Name g = group_Name h).
Definition member_conflict (m n : string * string) : bool := bool_decide (m = n).

Definition ErrRecordNotFound : error := Errorf "record not found".
Definition ErrForeignKey : error := Errorf "violates foreign key constraint".

Definition set_contacts (email phone : string) (u : User) : User :=
  mkUser (user_ID u) (user_Username u) email phone (user_Password u) (user_Status u)
    (user_Attributes u) (user_PrivacySettings u) (user_Groups u) (user_CreatedAt u)
    (user_UpdatedAt u) (user_DeletedAt u) (user_LastLoginAt u) (user_MergeHistory u)
    (user_ExternalID u) (user_SourceType u).
Definition set_groups (gs : list UserGroup) (u : User) : User :=
  mkUser (user_ID u) (user_Username u) (user_Email u) (user_Phone u) (user_Password u)
    (user_Status u) (user_Attributes u) (user_PrivacySettings u) gs (user_CreatedAt u)
    (user_UpdatedAt u) (user_DeletedAt u) (user_LastLoginAt u) (user_MergeHistory u)
    (user_ExternalID u) (user_SourceType u).
Definition set_times (created updated : time) (u : User) : User :=
  mkUser (user_ID u) (user_Username u) (user_Email u) (user_Phone u) (user_Password u)
    (user_Status u) (user_Attributes u) (user_PrivacySettings u) (user_Groups u) created
    updated (user_DeletedAt u) (user_LastLoginAt u) (user_MergeHistory u)
    (user_ExternalID u) (user_SourceType u).

(** autoCreateTime and autoUpdateTime: a time that is not set becomes now on
    an insert; every save is an update. *)
Definition auto_time (now t : time) : time := if bool_decide (t = zero_time) then now else t.
Definition stamp_create (now : time) (u : User) : User :=
  set_times (auto_time now (user_CreatedAt u)) (auto_time now (user_UpdatedAt u)) u.
Definition stamp_update (now : time) (u : User) : User := set_times (user_CreatedAt u) now u.
Definition stamp_group (now : time) (create : bool) (g : UserGroup) : UserGroup :=
  mkUserGroup (group_ID g) (group_Name g) (group_Description g) (group_ParentID g) (group_Metadata g)
    (if create then auto_time now (group_CreatedAt g) else group_CreatedAt g)
    (if create then auto_time now (group_UpdatedAt g) else now).

(** ** LIKE: [%] is any text, [_] any character, a backslash takes the next
    character as it is. *)
Fixpoint like_any (f : string -> bool) (s : string) : bool :=
  f s || match s with EmptyString => false | String _ s => like_any f s end.
Fixpoint sql_like (pattern : string) (s : string) : bool :=
  match pattern with
  | EmptyString => match s with EmptyString => true | _ => false end
  | String "%"%char pattern => like_any (sql_like pattern) s
  | String "_"%char pattern => match s with String _ s => sql_like pattern s | _ => false end
  | String "\"%char (String c pattern) | String c pattern =>
      match s with String d s => bool_decide (c = d) && sql_like pattern s | _ => false end
  end.

(** ** The repository *)
Record pg_state (D G M : Type) := mkPg {
  pg_users : D;
  pg_groups : G;
  pg_members : M;
  pg_pos : nat;
  pg_heap : gmap loc User;
  pg_gheap : gmap loc UserGroup
}.
Arguments mkPg {D G M}.
Arguments pg_users {D G M}.
Arguments pg_groups {D G M}.
Arguments pg_members {D G M}.
Arguments pg_pos {D G M}.
Arguments pg_heap {D G M}.
Arguments pg_gheap {D G M}.

Section Repository.
Context {D G M : Type} `{Table User D} `{Table UserGroup G} `{Table (string * string) M}.
Context (globalKMS : option KeyProvider) (order_by : string -> list User -> option (list User)) (now : time).
Notation pg A := (prog (pg_state D G M) error A).

Definition on_users {A} (m : prog D error A) : pg A :=
  zoom pg_users (fun d s => mkPg d (pg_groups s) (pg_members s) (pg_pos s) (pg_heap s) (pg_gheap s)) m.
Definition on_groups {A} (m : prog G error A) : pg A :=
  zoom pg_groups (fun g s => mkPg (pg_users s) g (pg_members s) (pg_pos s) (pg_heap s) (pg_gheap s)) m.
Definition on_members {A} (m : prog M error A) : pg A :=
  zoom pg_members (fun x s => mkPg (pg_users s) (pg_groups s) x (pg_pos s) (pg_heap s) (pg_gheap s)) m.
Definition on_pos {A} (m : prog nat error A) : pg A :=
  zoom pg_pos (fun n s => mkPg (pg_users s) (pg_groups s) (pg_members s) n (pg_heap s) (pg_gheap s)) m.

(** Structs *)
Definition pg_read (p : loc) : pg User :=
  s ← get; match pg_heap s !! p with Some u => mret u | None => lift Panic end.
Definition pg_store (p : loc) (u : User) : pg unit :=
  modify (fun s => mkPg (pg_users s) (pg_groups s) (pg_members s) (pg_pos s) (<[p := u]> (pg_heap s)) (pg_gheap s)).
Definition pg_alloc (u : User) : pg loc :=
  s ← get; let p := fresh (dom (pg_heap s)) in pg_store p u ;; mret p.
Definition pg_read_group (p : loc) : pg UserGroup :=
  s ← get; match pg_gheap s !! p with Some g => mret g | None => lift Panic end.
Definition pg_store_group (p : loc) (g : UserGroup) : pg unit :=
  modify (fun s => mkPg (pg_users s) (pg_groups s) (pg_members s) (pg_pos s) (pg_heap s) (<[p := g]> (pg_gheap s))).
Definition pg_alloc_group (g : UserGroup) : pg loc :=
  s ← get; let p := fresh (dom (pg_gheap s)) in pg_store_group p g ;; mret p.

Fixpoint pg_alloc_all {A} (alloc : A -> pg loc) (l : list A) : pg (list loc) :=
  match l with
  | [] => mret []
  | x :: l => p ← alloc x; ps ← pg_alloc_all alloc l; mret (p :: ps)
  end.

(** [Value] and [Scan] of the two columns, in the order of the struct.  The
    groups of a struct are not a column. *)
Definition to_row (u : User) : prog nat error User :=
  email ← es_Value globalKMS (user_Email u);
  phone ← es_Value globalKMS (user_Phone u);
  mret (set_groups [] (set_contacts email phone u)).
Definition of_row (r : User) : prog nat error User :=
  email ← es_Scan globalKMS (DbString (user_Email r));
  phone ← es_Scan globalKMS (DbString (user_Phone r));
  mret (set_contacts email phone r).
Fixpoint map_rows (f : User -> prog nat error User) (l : list User) : prog nat error (list User) :=
  match l with
  | [] => mret []
  | r :: l => u ← f r; us ← map_rows f l; mret (u :: us)
  end.

(** [Find] and [First]: the first row by primary key. *)
Definition by_primary_key (l : list User) : list User :=
  merge_sort (fun u v => string_le (user_ID u) (user_ID v)) l.
Definition find_users (p : User -> bool) : pg (list loc) :=
  rows ← on_users (t_select p);
  users ← on_pos (map_rows of_row rows);
  pg_alloc_all pg_alloc users.
Definition first_user (p : User -> bool) : pg loc :=
  rows ← on_users (t_select p);
  match by_primary_key rows with
  | [] => throw ErrRecordNotFound
  | r :: _ => u ← on_pos (of_row r); pg_alloc u
  end.

(** [errors.Is(err, gorm.ErrRecordNotFound)] *)
Definition or_user_not_found {A} (m : pg A) : pg A :=
  answer ← try m;
  match answer with
  | inr x => mret x
  | inl err => if bool_decide (err = ErrRecordNotFound) then throw (Sentinel ErrUserNotFound) else throw err
  end.

Definition has_id (id : string) (u : User) : bool := bool_decide (user_ID u = id).

Definition pg_insert (u : User) : pg unit :=
  row ← on_pos (to_row u);
  on_users (t_insert [row]).

Definition pg_CreateUser (user : loc) : pg unit :=
  u ← pg_read user;
  let u := stamp_create now u in
  pg_store user u ;;
  pg_insert u.
Definition pg_GetUserByID (id : string) : pg loc := first_user (has_id id).
Definition pg_GetUserByUsername (username : string) : pg loc :=
  or_user_not_found (first_user (fun u => bool_decide (user_Username u = username))).
Definition pg_GetUserByEmail (email : string) : pg loc :=
  or_user_not_found (first_user (fun u => bool_decide (user_Email u = email))).
Definition pg_GetUserByExternalID (externalID sourceID : string) : pg loc :=
  or_user_not_found (first_user (fun u =>
    bool_decide (user_ExternalID u = externalID) && bool_decide (user_SourceType u = sourceID))).

(** [Save]: without a primary key an insert; else an update of all columns,
    and when no row was met an insert that on a conflict of the key updates
    all columns but the time of creation. *)
Definition merge_saved (new old : User) : User := set_times (user_CreatedAt old) (user_UpdatedAt new) new.
Definition same_id (u v : User) : bool := bool_decide (user_ID u = user_ID v).

Definition pg_UpdateUser (user : loc) : pg unit :=
  u ← pg_read user;
  if bool_decide (user_ID u = "") then pg_CreateUser user
  else
    let u := stamp_update now u in
    pg_store user u ;;
    row ← on_pos (to_row u);
    affected ← on_users (t_update (has_id (user_ID u)) (fun _ => row));
    if bool_decide (affected = 0) then
      row ← on_pos (to_row (stamp_create now u));
      pg_store user (stamp_create now u) ;;
      on_users (t_upsert same_id merge_saved [row])
    else mret ().

(** The memberships refer to users and groups. *)
Definition pg_DeleteUser (id : string) : pg unit :=
  memberships ← on_members (t_select (fun m => bool_decide (m.1 = id)));
  match memberships with
  | [] => on_users (t_delete (has_id id)) ;; mret ()
  | _ => throw ErrForeignKey
  end.

(** [Offset] and [Limit]: a negative limit is none, an offset below one too. *)
Definition sql_window {A} (offset limit : Z) (l : list A) : list A :=
  let l := if 0 <? offset then drop (Z.to_nat offset) l else l in
  if 0 <=? limit then take (Z.to_nat limit) l else l.

Definition matches_filter (filter : UserFilter) (u : User) : bool :=
  (bool_decide (filter_Query filter = "") ||
   sql_like ("%" +:+ filter_Query filter +:+ "%") (user_Username u) ||
   sql_like ("%" +:+ filter_Query filter +:+ "%") (user_Email u)) &&
  (bool_decide (filter_Status filter = []) || bool_decide (user_Status u ∈ filter_Status filter)).

Definition pg_ListUsers (filter : UserFilter) : pg (list loc * Z) :=
  counted ← on_users (t_select (matches_filter filter));
  rows ← on_users (t_select (matches_filter filter));
  let order := filter_SortBy filter +:+ (if bool_decide (filter_SortOrder filter = "desc") then " DESC" else "") in
  match (if bool_decide (filter_SortBy filter = "") then Some rows else order_by order rows) with
  | None => throw (Errorf "syntax error")
  | Some rows =>
      let offset := (filter_Page filter - 1) * filter_PageSize filter in
      users ← on_pos (map_rows of_row (sql_window offset (filter_PageSize filter) rows));
      ps ← pg_alloc_all pg_alloc users;
      mret (ps, Z.of_nat (length counted))
  end.

Definition pg_ChangeUserStatus (userID newStatus : string) : pg unit :=
  on_users (t_update (has_id userID) (fun r => stamp_update now (set_user_Status newStatus r))) ;; mret ().

(** [attributes ->> a]: the text of a JSON value. *)
Definition pg_FindUsersByAttribute (json_text : any -> option string) (attribute value : string) : pg (list loc) :=
  find_users (fun u => bool_decide (user_Attributes u !! attribute ≫= json_text = Some value)).
Definition pg_FindUsersBySource (sourceID : string) : pg (list loc) :=
  find_users (fun u => bool_decide (user_SourceType u = sourceID)).

(** Batches: one statement each; GORM refuses an empty one. *)
Definition ErrEmptySlice : error := Errorf "empty slice found".

Fixpoint stamp_all (ps : list loc) : pg (list User) :=
  match ps with
  | [] => mret []
  | p :: ps =>
      u ← pg_read p;
      let u := stamp_create now u in
      pg_store p u ;;
      us ← stamp_all ps;
      mret (u :: us)
  end.

Definition pg_CreateBatch (users : list loc) : pg unit :=
  if bool_decide (users = []) then throw ErrEmptySlice
  else
    us ← stamp_all users;
    rows ← on_pos (map_rows to_row us);
    on_users (t_insert rows).
Definition pg_UpdateBatch (users : list loc) : pg unit :=
  if bool_decide (users = []) then throw ErrEmptySlice
  else
    us ← stamp_all users;
    rows ← on_pos (map_rows to_row us);
    on_users (t_upsert same_id merge_saved rows).

Definition same_source (u v : User) : bool :=
  bool_decide (user_ExternalID u = user_ExternalID v) && bool_decide (user_SourceType u = user_SourceType v).
(** The columns [UpsertBatch] names are overwritten, the others stay. *)
Definition merge_upsert (new old : User) : User :=
  mkUser (user_ID old) (user_Username new) (user_Email new) (user_Phone new) (user_Password old)
    (user_Status old) (user_Attributes new) (user_PrivacySettings old) (user_Groups old)
    (user_CreatedAt old) (user_UpdatedAt new) (user_DeletedAt old) (user_LastLoginAt new)
    (user_MergeHistory old) (user_ExternalID old) (user_SourceType old).
Definition pg_UpsertBatch (users : list loc) : pg unit :=
  if bool_decide (users = []) then mret ()
  else
    us ← stamp_all users;
    rows ← on_pos (map_rows to_row us);
    on_users (t_upsert same_source merge_upsert rows).

Definition pg_DeleteBatch (userIDs : list string) : pg unit :=
  memberships ← on_members (t_select (fun m => bool_decide (m.1 ∈ userIDs)));
  match memberships with
  | [] => on_users (t_delete (fun u => bool_decide (user_ID u ∈ userIDs))) ;; mret ()
  | _ => throw ErrForeignKey
  end.

(** Groups *)
Definition has_group_id (id : string) (g : UserGroup) : bool := bool_decide (group_ID g = id).
Definition first_group (p : UserGroup -> bool) : pg loc :=
  rows ← on_groups (t_select p);
  match merge_sort (fun g h => string_le (group_ID g) (group_ID h)) rows with
  | [] => throw ErrRecordNotFound
  | g :: _ => pg_alloc_group g
  end.
Definition pg_CreateGroup (group : loc) : pg unit :=
  g ← pg_read_group group;
  let g := stamp_group now true g in
  pg_store_group group g ;;
  on_groups (t_insert [g]).
Definition pg_GetGroupByID (id : string) : pg loc := first_group (has_group_id id).
Definition pg_GetGroupByName (name : string) : pg loc :=
  first_group (fun g => bool_decide (group_Name g = name)).
Definition merge_group (new old : UserGroup) : UserGroup :=
  mkUserGroup (group_ID new) (group_Name new) (group_Description new) (group_ParentID new)
    (group_Metadata new) (group_CreatedAt old) (group_UpdatedAt new).
Definition pg_UpdateGroup (group : loc) : pg unit :=
  g ← pg_read_group group;
  if bool_decide (group_ID g = "") then pg_CreateGroup group
  else
    let g := stamp_group now false g in
    pg_store_group group g ;;
    affected ← on_groups (t_update (has_group_id (group_ID g)) (fun _ => g));
    if bool_decide (affected = 0) then
      pg_store_group group (stamp_group now true g) ;;
      on_groups (t_upsert (fun g h => bool_decide (group_ID g = group_ID h)) merge_group [stamp_group now true g])
    else mret ().
Definition pg_DeleteGroup (id : string) : pg unit :=
  memberships ← on_members (t_select (fun m => bool_decide (m.2 = id)));
  match memberships with
  | [] => on_groups (t_delete (has_group_id id)) ;; mret ()
  | _ => throw ErrForeignKey
  end.
Definition pg_ListGroups (pq : PaginationQuery) : pg (list loc) :=
  rows ← on_groups (t_select (fun _ => true));
  pg_alloc_all pg_alloc_group (sql_window (pq_Offset pq) (pq_PageSize pq) rows).

(** [Association.Append] first writes the group it was given - a struct with
    nothing but the identifier - unless a row is in its way, then the
    membership; both ends must exist. *)
Definition pg_AddUserToGroup (userID groupID : string) : pg unit :=
  try (on_groups (t_insert [stamp_group now true (mkUserGroup groupID "" "" None ∅ zero_time zero_time)])) ;;
  groups ← on_groups (t_select (has_group_id groupID));
  users ← on_users (t_select (has_id userID));
  if bool_decide (groups = []) || bool_decide (users = []) then throw ErrForeignKey
  else
    present ← on_members (t_select (fun m => bool_decide (m = (userID, groupID))));
    if bool_decide (present = []) then on_members (t_insert [(userID, groupID)]) else mret ().
Definition pg_RemoveUserFromGroup (userID groupID : string) : pg unit :=
  on_members (t_delete (fun m => bool_decide (m = (userID, groupID)))) ;; mret ().
Definition pg_GetUserGroups (userID : string) : pg (list loc) :=
  first_user (has_id userID) ;;
  memberships ← on_members (t_select (fun m => bool_decide (m.1 = userID)));
  groups ← on_groups (t_select (fun g => bool_decide (group_ID g ∈ memberships.*2)));
  pg_alloc_all pg_alloc_group groups.

(** The repository behind the interface of the identity services; the
    identifier the in-memory repository would draw is the struct's. *)
Definition pg_repository : IdentityRepository (pg_state D G M) := {|
  ir_alloc := pg_alloc;
  ir_read := pg_read;
  ir_store := pg_store;
  ir_alloc_group := pg_alloc_group;
  ir_read_group := pg_read_group;
  ir_store_group := pg_store_group;
  ir_CreateUser _ := pg_CreateUser;
  ir_GetUserByID := pg_GetUserByID;
  ir_GetUserByUsername := pg_GetUserByUsername;
  ir_GetUserByEmail := pg_GetUserByEmail;
  ir_GetUserByExternalID := pg_GetUserByExternalID;
  ir_UpdateUser := pg_UpdateUser;
  ir_DeleteUser := pg_DeleteUser;
  ir_ListUsers := pg_ListUsers;
  ir_CreateGroup _ := pg_CreateGroup;
  ir_GetGroupByID := pg_GetGroupByID;
  ir_UpdateGroup := pg_UpdateGroup;
  ir_DeleteGroup := pg_DeleteGroup;
  ir_ListGroups := pg_ListGroups;
  ir_AddUserToGroup := pg_AddUserToGroup;
  ir_GetUserGroups := pg_GetUserGroups
|}.
End Repository.

(** ** Rows and users *)
Section Rows.
Context (kms : KeyProvider) `{LawfulProvider kms}.

(** [row_of u r]: the row [r] stores the user [u]. *)
Definition row_of (u r : User) : Prop :=
  exists e p, r = set_groups [] (set_contacts e p u) /\ column_of kms (user_Email u) e /\
    column_of kms (user_Phone u) p /\ has_at e = false.
Definition encrypted_row (r : User) : Prop := exists u, row_of u r.

Lemma to_row_run u pos :
  (exists row pos', to_row (Some kms) u pos = (Ok row, pos') /\ row_of u row) \/
  (exists e pos', to_row (Some kms) u pos = (Err e, pos')).
Proof.
  unfold to_row.
  destruct (es_Value_cases kms (user_Email u) pos) as [(e & p1 & He & Hce & _)|(e & p1 & He & _)].
  2:{ right. exists e, p1. by rewrite (prog_bind_fail _ _ _ _ _ He). }
  pose proof (es_Value_no_at _ _ _ _ _ He) as Hat.
  rewrite (prog_bind_run _ _ _ _ _ He).
  destruct (es_Value_cases kms (user_Phone u) p1) as [(p & p2 & Hp & Hcp & _)|(x & p2 & Hp & _)].
  2:{ right. exists x, p2. by rewrite (prog_bind_fail _ _ _ _ _ Hp). }
  left. rewrite (prog_bind_run _ _ _ _ _ Hp). eexists _, p2. split; [done|]. by exists e, p.
Qed.

Lemma of_row_run u r pos : row_of u r -> of_row (Some kms) r pos = (Ok (set_groups [] u), pos).
Proof.
  intros (e & p & -> & He & Hp & _). unfold of_row, es_Scan. cbn [user_Email user_Phone set_groups set_contacts].
  rewrite (prog_bind_run _ _ _ _ _ (He pos)), (prog_bind_run _ _ _ _ _ (Hp pos)). by destruct u.
Qed.

Lemma map_rows_of_row rows pos :
  Forall encrypted_row rows ->
  exists us, map_rows (of_row (Some kms)) rows pos = (Ok us, pos) /\
    Forall2 (fun r u => exists v, row_of v r /\ u = set_groups [] v) rows us.
Proof.
  induction 1 as [|r rows [u Hu] _ IH]; cbn [map_rows]; [by exists []|].
  destruct IH as (us & Hrun & Hus). exists (set_groups [] u :: us).
  rewrite (prog_bind_run _ _ _ _ _ (of_row_run _ _ _ Hu)), (prog_bind_run _ _ _ _ _ Hrun).
  split; [done|]. constructor; [by exists u|done].
Qed.

Lemma map_rows_to_row us pos :
  (exists rows pos', map_rows (to_row (Some kms)) us pos = (Ok rows, pos') /\ Forall2 row_of us rows) \/
  (exists e pos', map_rows (to_row (Some kms)) us pos = (Err e, pos')).
Proof.
  revert pos. induction us as [|u us IH]; intros pos; cbn [map_rows]; [left; by exists [], pos|].
  destruct (to_row_run u pos) as [(row & p1 & Hrow & Hr)|(e & p1 & Hrow)].
  2:{ right. exists e, p1. by rewrite (prog_bind_fail _ _ _ _ _ Hrow). }
  rewrite (prog_bind_run _ _ _ _ _ Hrow). destruct (IH p1) as [(rows & p2 & Hrun & Hrs)|(e & p2 & Hrun)].
  - left. exists (row :: rows), p2. rewrite (prog_bind_run _ _ _ _ _ Hrun). split; [done|by constructor].
  - right. exists e, p2. by rewrite (prog_bind_fail _ _ _ _ _ Hrun).
Qed.

Lemma row_of_fields u r :
  row_of u r -> user_ID r = user_ID u /\ user_Username r = user_Username u /\
    user_ExternalID r = user_ExternalID u /\ user_SourceType r = user_SourceType u.
Proof. by intros (e & p & -> & _). Qed.

Lemma encrypted_no_at r : encrypted_row r -> has_at (user_Email r) = false.
Proof. by intros (u & e & p & -> & _ & _ & Hat). Qed.
End Rows.

Lemma user_conflict_sym u v : user_conflict u v = user_conflict v u.
Proof.
  assert (Hs : forall (a b : string), bool_decide (a = b) = bool_decide (b = a))
    by (intros; apply bool_decide_ext; split; congruence).
  unfold user_conflict. by rewrite (Hs (user_ID u)), (Hs (user_Username u)), (Hs (user_Email u)),
    (Hs (user_ExternalID u)), (Hs (user_SourceType u)).
Qed.
Lemma group_conflict_sym g h : group_conflict g h = group_conflict h g.
Proof. unfold group_conflict. f_equal; apply bool_decide_ext; split; congruence. Qed.
Lemma member_conflict_sym m n : member_conflict m n = member_conflict n m.
Proof. apply bool_decide_ext; split; congruence. Qed.

(** ** The invariant of the three tables *)
Section Invariant.
Context {D G M : Type} `{HU : TableLaws User D user_conflict} `{HG : TableLaws UserGroup G group_conflict}
  `{HM : TableLaws (string * string) M member_conflict}.
Context (kms : KeyProvider) `{LawfulProvider kms} (order_by : string -> list User -> option (list User)) (now : time).
Notation pgs := (pg_state D G M).
Notation users_of s := (t_rows (pg_users s)).
Notation groups_of s := (t_rows (pg_groups s)).
Notation members_of s := (t_rows (pg_members s)).

(** The unique indexes hold, every column that should be is encrypted and
    readable, and memberships are of users and groups that are stored. *)
Record pg_inv (s : pgs) : Prop := {
  inv_users : unique user_conflict (users_of s) = true;
  inv_groups : unique group_conflict (groups_of s) = true;
  inv_members : unique member_conflict (members_of s) = true;
  inv_rows : Forall (encrypted_row kms) (users_of s);
  inv_user_key : forall m, m ∈ members_of s -> exists u, u ∈ users_of s /\ user_ID u = m.1;
  inv_group_key : forall m, m ∈ members_of s -> exists g, g ∈ groups_of s /\ group_ID g = m.2
}.

(** [keeps m Q]: [m] preserves the invariant, and what it answers is [Q]. *)
Definition keeps {A} (m : prog pgs error A) (Q : A -> Prop) : Prop :=
  forall s, pg_inv s -> pg_inv (m s).2 /\ forall a, (m s).1 = Ok a -> Q a.

Lemma keeps_ret {A} (a : A) (Q : A -> Prop) : Q a -> keeps (mret a) Q.
Proof. intros Ha s Hs. split; [done|]. by intros b [= <-]. Qed.
Lemma keeps_throw {A} e (Q : A -> Prop) : keeps (throw e) Q.
Proof. intros s Hs. by split. Qed.
Lemma keeps_bind {A B} (m : prog pgs error A) (f : A -> prog pgs error B) Q R :
  keeps m Q -> (forall a, Q a -> keeps (f a) R) -> keeps (m ≫= f) R.
Proof.
  intros Hm Hf s Hs. destruct (Hm s Hs) as [Hs' Ha]. unfold mbind, prog_bind.
  destruct (m s) as [[a|e| |] s']; cbn in *; try (by split). apply Hf; [by apply Ha|done].
Qed.
Lemma keeps_weaken {A} (m : prog pgs error A) (Q R : A -> Prop) :
  keeps m Q -> (forall a, Q a -> R a) -> keeps m R.
Proof. intros Hm HQR s Hs. destruct (Hm s Hs) as [? HQ]. split; [done|]. intros a Ha. by apply HQR, HQ. Qed.
Lemma keeps_try {A} (m : prog pgs error A) Q : keeps m Q -> keeps (try m) (fun _ => True).
Proof.
  intros Hm s Hs. destruct (Hm s Hs) as [Hs' _]. unfold try. by destruct (m s) as [[a|e| |] s'].
Qed.

(** What touches no table keeps everything. *)
Definition tables_only (s : pgs) : D * G * M := (pg_users s, pg_groups s, pg_members s).
Lemma keeps_pure {A} (m : prog pgs error A) (Q : A -> Prop) :
  (forall s, tables_only (m s).2 = tables_only s) -> (forall s a, (m s).1 = Ok a -> Q a) -> keeps m Q.
Proof.
  intros Hsame HQ s [? ? ? ? ? ?]. split; [|by apply HQ].
  pose proof (Hsame s) as Ht. unfold tables_only in Ht. injection Ht as Hu Hg Hm.
  split; by rewrite ?Hu, ?Hg, ?Hm.
Qed.

Lemma keeps_read p : keeps (pg_read p) (fun _ => True).
Proof.
  apply keeps_pure; [|done]. intros s. unfold pg_read. rewrite prog_get_bind. by destruct (pg_heap s !! p).
Qed.
Lemma keeps_store p u : keeps (pg_store p u) (fun _ => True).
Proof. by apply keeps_pure. Qed.
Lemma keeps_alloc u : keeps (pg_alloc u) (fun _ => True).
Proof. by apply keeps_pure. Qed.
Lemma keeps_read_group p : keeps (pg_read_group p) (fun _ => True).
Proof.
  apply keeps_pure; [|done]. intros s. unfold pg_read_group. rewrite prog_get_bind. by destruct (pg_gheap s !! p).
Qed.
Lemma keeps_store_group p g : keeps (pg_store_group p g) (fun _ => True).
Proof. by apply keeps_pure. Qed.
Lemma keeps_alloc_group g : keeps (pg_alloc_group g) (fun _ => True).
Proof. by apply keeps_pure. Qed.
Lemma keeps_alloc_all {A} (alloc : A -> prog pgs error loc) l :
  (forall x, keeps (alloc x) (fun _ => True)) -> keeps (pg_alloc_all alloc l) (fun _ => True).
Proof.
  intros Ha. induction l as [|x l IH]; cbn [pg_alloc_all]; [by apply keeps_ret|].
  eapply keeps_bind; [apply Ha|]. intros p _. eapply keeps_bind; [apply IH|]. intros ps _. by apply keeps_ret.
Qed.
Lemma keeps_pos {A} (m : prog nat error A) (Q : A -> Prop) :
  (forall pos a pos', m pos = (Ok a, pos') -> Q a) -> keeps (on_pos m) Q.
Proof.
  intros HQ. apply keeps_pure; unfold on_pos, zoom; intros s; destruct (m (pg_pos s)) as [r pos'] eqn:Hm; [done|].
  cbn. intros a ->. by eapply HQ.
Qed.
Lemma keeps_to_row u : keeps (on_pos (to_row (Some kms) u)) (fun r => row_of kms u r).
Proof.
  apply keeps_pos. intros pos a pos' Ha.
  destruct (to_row_run kms u pos) as [(r & q & Hr & Hrow)|(e & q & Hr)]; rewrite Hr in Ha; by simplify_eq.
Qed.
Lemma keeps_to_rows us : keeps (on_pos (map_rows (to_row (Some kms)) us)) (fun rs => Forall (encrypted_row kms) rs).
Proof.
  apply keeps_pos. intros pos a pos' Ha.
  destruct (map_rows_to_row kms us pos) as [(r & q & Hr & Hrow)|(e & q & Hr)]; rewrite Hr in Ha; simplify_eq.
  clear Hr. induction Hrow; constructor; [by eexists|done].
Qed.
Lemma keeps_of_rows rs : keeps (on_pos (map_rows (of_row (Some kms)) rs)) (fun _ => True).
Proof. by apply keeps_pos. Qed.
Lemma keeps_of_row r : keeps (on_pos (of_row (Some kms) r)) (fun _ => True).
Proof. by apply keeps_pos. Qed.

(** The statements *)
Lemma keeps_select_users p (Q : list User -> Prop) :
  (forall l, (forall u, u ∈ l -> p u = true) -> Q l) -> keeps (on_users (t_select p)) Q.
Proof.
  intros HQ. apply keeps_pure; unfold on_users, zoom; intros s;
    destruct (law_select p (pg_users s)) as (l & -> & Hl); [done|].
  cbn. intros a [= <-]. apply HQ. intros u Hu. rewrite Hl in Hu. by apply elem_of_select in Hu as [_ Hu].
Qed.
Lemma keeps_select_groups p : keeps (on_groups (t_select p)) (fun _ => True).
Proof. apply keeps_pure; [|done]. unfold on_groups, zoom. intros s. by destruct (law_select p (pg_groups s)) as (l & -> & _). Qed.
Lemma keeps_select_members p : keeps (on_members (t_select p)) (fun _ => True).
Proof. apply keeps_pure; [|done]. unfold on_members, zoom. intros s. by destruct (law_select p (pg_members s)) as (l & -> & _). Qed.

(** A change of the table of users that keeps its rows unique and encrypted
    and loses no identifier. *)
Lemma users_changed s rows d :
  pg_inv s -> t_rows d ≡ₚ rows -> unique user_conflict rows = true -> Forall (encrypted_row kms) rows ->
  (forall u, u ∈ users_of s -> user_ID u ∈ map user_ID rows) ->
  pg_inv (mkPg d (pg_groups s) (pg_members s) (pg_pos s) (pg_heap s) (pg_gheap s)).
Proof.
  intros [? ? ? ? Hk ?] Hd Hu He Hids. split; cbn [pg_users pg_groups pg_members]; try done.
  - by rewrite (unique_perm _ user_conflict_sym _ _ Hd).
  - by rewrite Hd.
  - intros m Hm. destruct (Hk m Hm) as (u & Hin & <-). apply Hids in Hin.
    apply list_elem_of_fmap in Hin as (v & Hv & Hin). exists v. by rewrite Hd.
Qed.

Lemma keeps_insert rows :
  Forall (encrypted_row kms) rows -> keeps (on_users (t_insert rows)) (fun _ => True).
Proof.
  intros Hr s Hs. split; [|done]. unfold on_users, zoom. pose proof (law_insert rows (pg_users s)) as Hl.
  destruct (unique user_conflict (users_of s ++ rows)) eqn:Hu; [destruct Hl as (d & -> & Hd)|by rewrite Hl; destruct s].
  cbn. eapply (users_changed s _ d Hs Hd Hu).
  - apply Forall_app. split; [apply (inv_rows _ Hs)|done].
  - intros u Hin. apply list_elem_of_fmap_2, elem_of_app. by left.
Qed.

Lemma keeps_update p f :
  (forall r, encrypted_row kms r -> p r = true -> encrypted_row kms (f r)) ->
  (forall r, p r = true -> user_ID (f r) = user_ID r) ->
  keeps (on_users (t_update p f)) (fun _ => True).
Proof.
  intros Hf Hid s Hs. split; [|done]. unfold on_users, zoom. pose proof (law_update p f (pg_users s)) as Hl.
  destruct (unique user_conflict (update_rows p f (users_of s))) eqn:Hu; [destruct Hl as (d & -> & Hd)|by rewrite Hl; destruct s].
  cbn. eapply (users_changed s _ d Hs Hd Hu).
  - apply update_rows_Forall; [apply (inv_rows _ Hs)|done].
  - intros u Hin. rewrite update_rows_key by done. by apply list_elem_of_fmap_2.
Qed.

Lemma keeps_upsert target merge rows :
  Forall (encrypted_row kms) rows ->
  (forall new old, encrypted_row kms new -> encrypted_row kms old -> encrypted_row kms (merge new old)) ->
  (forall new old, target new old = true -> user_ID (merge new old) = user_ID old) ->
  keeps (on_users (t_upsert target merge rows)) (fun _ => True).
Proof.
  intros Hr Hm Hid s Hs. split; [|done]. unfold on_users, zoom. pose proof (law_upsert target merge rows (pg_users s)) as Hl.
  destruct (upsert_rows _ _ _ _ _ _) as [rows'|] eqn:Hup; [destruct Hl as (d & -> & Hd)|by rewrite Hl; destruct s].
  cbn. set (I := fun l => unique user_conflict l = true /\ Forall (encrypted_row kms) l /\
                  forall u, u ∈ users_of s -> user_ID u ∈ map user_ID l).
  assert (HI : I rows'); [|destruct HI as (? & ? & ?); by eapply (users_changed s _ d Hs Hd)].
  eapply upsert_rows_inv; [exact Hup| |].
  - split; [apply (inv_users _ Hs)|]. split; [apply (inv_rows _ Hs)|]. intros u Hin. by apply list_elem_of_fmap_2.
  - intros l a (_ & He & Hids) Ha next Hu. split; [done|]. rewrite Forall_forall in Hr. subst next.
    destruct (existsb (target a) l).
    + split; [|intros u Hin; rewrite update_rows_key; [by apply Hids|by apply Hid]].
      apply update_rows_Forall; [done|]. intros r Hre _. by apply Hm; [apply Hr|].
    + split; [apply Forall_app; split; [done|]; constructor; [by apply Hr|constructor]|].
      intros u Hin. rewrite map_app. apply elem_of_app. left. by apply Hids.
Qed.

(** Groups *)
Lemma groups_changed s rows g :
  pg_inv s -> t_rows g ≡ₚ rows -> unique group_conflict rows = true ->
  (forall h, h ∈ groups_of s -> group_ID h ∈ map group_ID rows) ->
  pg_inv (mkPg (pg_users s) g (pg_members s) (pg_pos s) (pg_heap s) (pg_gheap s)).
Proof.
  intros [? ? ? ? ? Hk] Hg Hu Hids. split; cbn [pg_users pg_groups pg_members]; try done.
  - by rewrite (unique_perm _ group_conflict_sym _ _ Hg).
  - intros m Hm. destruct (Hk m Hm) as (h & Hin & <-). apply Hids in Hin.
    apply list_elem_of_fmap in Hin as (k & Hv & Hin). exists k. by rewrite Hg.
Qed.

Lemma keeps_insert_groups rows : keeps (on_groups (t_insert rows)) (fun _ => True).
Proof.
  intros s Hs. split; [|done]. unfold on_groups, zoom. pose proof (law_insert rows (pg_groups s)) as Hl.
  destruct (unique group_conflict (groups_of s ++ rows)) eqn:Hu; [destruct Hl as (g & -> & Hg)|by rewrite Hl; destruct s].
  cbn. eapply (groups_changed s _ g Hs Hg Hu).
  intros h Hin. apply list_elem_of_fmap_2, elem_of_app. by left.
Qed.

Lemma keeps_update_groups p f :
  (forall g, p g = true -> group_ID (f g) = group_ID g) ->
  keeps (on_groups (t_update p f)) (fun _ => True).
Proof.
  intros Hid s Hs. split; [|done]. unfold on_groups, zoom. pose proof (law_update p f (pg_groups s)) as Hl.
  destruct (unique group_conflict (update_rows p f (groups_of s))) eqn:Hu; [destruct Hl as (g & -> & Hg)|by rewrite Hl; destruct s].
  cbn. eapply (groups_changed s _ g Hs Hg Hu).
  intros h Hin. rewrite update_rows_key by done. by apply list_elem_of_fmap_2.
Qed.

Lemma keeps_upsert_groups target merge rows :
  (forall new old, target new old = true -> group_ID (merge new old) = group_ID old) ->
  keeps (on_groups (t_upsert target merge rows)) (fun _ => True).
Proof.
  intros Hid s Hs. split; [|done]. unfold on_groups, zoom. pose proof (law_upsert target merge rows (pg_groups s)) as Hl.
  destruct (upsert_rows _ _ _ _ _ _) as [rows'|] eqn:Hup; [destruct Hl as (g & -> & Hg)|by rewrite Hl; destruct s].
  cbn. assert (HI : unique group_conflict rows' = true /\ forall h, h ∈ groups_of s -> group_ID h ∈ map group_ID rows');
    [|destruct HI; by eapply (groups_changed s _ g Hs Hg)].
  eapply (upsert_rows_inv group_conflict target merge (fun l => unique group_conflict l = true /\
            forall h, h ∈ groups_of s -> group_ID h ∈ map group_ID l)); [exact Hup| |].
  - split; [apply (inv_groups _ Hs)|]. intros h Hin. by apply list_elem_of_fmap_2.
  - intros l a (_ & Hids) _ next Hu. split; [done|]. intros h Hin. subst next. destruct (existsb (target a) l).
    + rewrite update_rows_key; [by apply Hids|by apply Hid].
    + rewrite map_app. apply elem_of_app. left. by apply Hids.
Qed.

(** Deleting what no membership refers to, and memberships *)
Lemma delete_users_keeps p s :
  pg_inv s -> (forall m u, m ∈ members_of s -> user_ID u = m.1 -> p u = false) ->
  pg_inv (on_users (t_delete p) s).2.
Proof.
  intros Hs Hfree. unfold on_users, zoom. destruct (law_delete p (pg_users s)) as (d & n & -> & Hd).
  destruct Hs as [Hu ? ? He Hk ?]. split; cbn [pg_users pg_groups pg_members snd]; try done.
  - rewrite (unique_perm _ user_conflict_sym _ _ Hd). by apply unique_filter.
  - rewrite Hd. rewrite Forall_forall in *. intros u [Hin _]%elem_of_delete. by apply He.
  - intros m Hm. destruct (Hk m Hm) as (u & Hin & Hid). exists u. rewrite Hd, elem_of_delete. eauto.
Qed.

Lemma delete_groups_keeps p s :
  pg_inv s -> (forall m g, m ∈ members_of s -> group_ID g = m.2 -> p g = false) ->
  pg_inv (on_groups (t_delete p) s).2.
Proof.
  intros Hs Hfree. unfold on_groups, zoom. destruct (law_delete p (pg_groups s)) as (d & n & -> & Hd).
  destruct Hs as [? Hg ? ? ? Hk]. split; cbn [pg_users pg_groups pg_members snd]; try done.
  - rewrite (unique_perm _ group_conflict_sym _ _ Hd). by apply unique_filter.
  - intros m Hm. destruct (Hk m Hm) as (g & Hin & Hid). exists g. rewrite Hd, elem_of_delete. eauto.
Qed.

Lemma keeps_delete_members p : keeps (on_members (t_delete p)) (fun _ => True).
Proof.
  intros s Hs. split; [|done]. unfold on_members, zoom. destruct (law_delete p (pg_members s)) as (d & n & -> & Hd).
  destruct Hs as [? ? Hm ? Hku Hkg]. split; cbn [pg_users pg_groups pg_members snd]; try done.
  - rewrite (unique_perm _ member_conflict_sym _ _ Hd). by apply unique_filter.
  - intros m Hin. rewrite Hd, elem_of_delete in Hin. destruct Hin as [Hin _]. by apply Hku.
  - intros m Hin. rewrite Hd, elem_of_delete in Hin. destruct Hin as [Hin _]. by apply Hkg.
Qed.

(** ** Every operation keeps the invariant *)
Hint Resolve keeps_read keeps_store keeps_alloc keeps_read_group keeps_store_group keeps_alloc_group
  keeps_to_row keeps_to_rows keeps_of_rows keeps_of_row keeps_select_groups keeps_select_members
  keeps_insert_groups keeps_delete_members : keeps.

Ltac keeps_step :=
  first
    [ apply keeps_throw
    | apply keeps_ret; done
    | solve [eauto 2 with keeps]
    | eapply keeps_bind; [by eauto with keeps|intros ? ?; cbv beta in *]
    | case_bool_decide
    | progress cbv zeta ].
Ltac keeps_auto := repeat keeps_step.

Lemma keeps_select p : keeps (on_users (t_select p)) (fun _ => True).
Proof. by apply keeps_select_users. Qed.
Hint Resolve keeps_select : keeps.

Lemma row_of_encrypted u r : row_of kms u r -> Forall (encrypted_row kms) [r].
Proof. constructor; [by exists u|constructor]. Qed.

Lemma merge_saved_encrypted new old :
  encrypted_row kms new -> encrypted_row kms old -> encrypted_row kms (merge_saved new old).
Proof. intros (u & e & p & -> & He & Hp & Hat) _. by exists (set_times (user_CreatedAt old) (user_UpdatedAt u) u), e, p. Qed.

Lemma merge_upsert_encrypted new old :
  encrypted_row kms new -> encrypted_row kms old -> encrypted_row kms (merge_upsert new old).
Proof.
  intros (u & e & p & -> & He & Hp & Hat) (v & e' & p' & -> & _).
  by exists (set_contacts (user_Email u) (user_Phone u) (merge_upsert u v)), e, p.
Qed.

Lemma same_id_merge new old : same_id new old = true -> user_ID (merge_saved new old) = user_ID old.
Proof. intros Hid%bool_decide_eq_true. exact Hid. Qed.

Lemma stamp_status_encrypted status r :
  encrypted_row kms r -> encrypted_row kms (stamp_update now (set_user_Status status r)).
Proof. intros (u & e & p & -> & He & Hp & Hat). by exists (stamp_update now (set_user_Status status u)), e, p. Qed.

Lemma keeps_first p : keeps (first_user (Some kms) p) (fun _ => True).
Proof.
  unfold first_user. keeps_step. destruct (by_primary_key _); keeps_auto.
Qed.
Lemma keeps_find p : keeps (find_users (Some kms) p) (fun _ => True).
Proof. unfold find_users. keeps_auto. apply keeps_alloc_all, keeps_alloc. Qed.
Lemma keeps_first_group p : keeps (first_group p) (fun _ => True).
Proof. unfold first_group. keeps_step. destruct (merge_sort _ _); keeps_auto. Qed.
Lemma keeps_or_not_found {A} (m : prog pgs error A) :
  keeps m (fun _ => True) -> keeps (or_user_not_found m) (fun _ => True).
Proof.
  intros Hm. unfold or_user_not_found. eapply keeps_bind; [by eapply keeps_try|]. intros [e|x] _; keeps_auto.
Qed.
Hint Resolve keeps_first keeps_find keeps_first_group keeps_or_not_found : keeps.

Lemma keeps_create p : keeps (pg_CreateUser (Some kms) now p) (fun _ => True).
Proof.
  unfold pg_CreateUser, pg_insert. keeps_auto. by eapply keeps_insert, row_of_encrypted.
Qed.

Hint Resolve keeps_create : keeps.

Lemma keeps_UpdateUser p : keeps (pg_UpdateUser (Some kms) now p) (fun _ => True).
Proof.
  unfold pg_UpdateUser. keeps_auto.
  eapply keeps_bind.
  - apply keeps_update; [intros r _ _; by eexists|].
    intros r Hr%bool_decide_eq_true. match goal with Hrow : row_of _ _ _ |- _ => apply row_of_fields in Hrow as [-> _] end.
    symmetry. exact Hr.
  - intros n _. keeps_auto.
    apply keeps_upsert; [by eapply row_of_encrypted|apply merge_saved_encrypted|apply same_id_merge].
Qed.

Lemma select_members_run p (s : pgs) :
  exists l, on_members (t_select p) s = (Ok l, s) /\ l ≡ₚ select_rows p (members_of s).
Proof.
  unfold on_members, zoom. destruct (law_select p (pg_members s)) as (l & -> & Hl). exists l. by destruct s.
Qed.

Lemma keeps_guarded_delete (refers : string * string -> bool) (p : User -> bool) :
  (forall m u, user_ID u = m.1 -> p u = refers m) ->
  keeps (memberships ← on_members (t_select refers);
         match memberships with
         | [] => on_users (t_delete p) ;; mret ()
         | _ => throw ErrForeignKey
         end) (fun _ => True).
Proof.
  intros Hp s Hs. split; [|done]. destruct (select_members_run refers s) as (l & Hrun & Hl).
  rewrite (prog_bind_run _ _ _ _ _ Hrun). destruct l as [|m l]; [|done].
  assert (Hinv : pg_inv (on_users (t_delete p) s).2).
  { apply delete_users_keeps; [done|]. intros m u Hm Hu. rewrite (Hp m u Hu).
    destruct (refers m) eqn:Hr; [|done]. assert (Hin : m ∈ select_rows refers (members_of s)) by (by apply elem_of_select).
    rewrite <-Hl in Hin. by apply elem_of_nil in Hin. }
  unfold mbind, prog_bind. by destruct (on_users (t_delete p) s) as [[] s'].
Qed.

Lemma keeps_guarded_group_delete (refers : string * string -> bool) (p : UserGroup -> bool) :
  (forall m g, group_ID g = m.2 -> p g = refers m) ->
  keeps (memberships ← on_members (t_select refers);
         match memberships with
         | [] => on_groups (t_delete p) ;; mret ()
         | _ => throw ErrForeignKey
         end) (fun _ => True).
Proof.
  intros Hp s Hs. split; [|done]. destruct (select_members_run refers s) as (l & Hrun & Hl).
  rewrite (prog_bind_run _ _ _ _ _ Hrun). destruct l as [|m l]; [|done].
  assert (Hinv : pg_inv (on_groups (t_delete p) s).2).
  { apply delete_groups_keeps; [done|]. intros m g Hm Hg. rewrite (Hp m g Hg).
    destruct (refers m) eqn:Hr; [|done]. assert (Hin : m ∈ select_rows refers (members_of s)) by (by apply elem_of_select).
    rewrite <-Hl in Hin. by apply elem_of_nil in Hin. }
  unfold mbind, prog_bind. by destruct (on_groups (t_delete p) s) as [[] s'].
Qed.

Lemma keeps_stamp_all ps : keeps (stamp_all now ps) (fun _ => True).
Proof. induction ps as [|p ps IH]; cbn [stamp_all]; keeps_auto. Qed.
Hint Resolve keeps_stamp_all : keeps.

(** A call of the repository, or of a client on its own structs. *)
Inductive pg_call : Type :=
  | PgAlloc (u : User) | PgStore (p : loc) (u : User)
  | PgAllocGroup (g : UserGroup) | PgStoreGroup (p : loc) (g : UserGroup)
  | PgCreateUser (p : loc) | PgUpdateUser (p : loc) | PgDeleteUser (id : string)
  | PgChangeUserStatus (id status : string)
  | PgCreateBatch (ps : list loc) | PgUpdateBatch (ps : list loc) | PgUpsertBatch (ps : list loc)
  | PgDeleteBatch (ids : list string)
  | PgGetUserByID (id : string) | PgGetUserByUsername (name : string) | PgGetUserByEmail (email : string)
  | PgGetUserByExternalID (id source : string) | PgListUsers (filter : UserFilter)
  | PgFindUsersByAttribute (text : any -> option string) (attribute value : string)
  | PgFindUsersBySource (source : string)
  | PgCreateGroup (p : loc) | PgUpdateGroup (p : loc) | PgDeleteGroup (id : string)
  | PgGetGroupByID (id : string) | PgGetGroupByName (name : string) | PgListGroups (q : PaginationQuery)
  | PgAddUserToGroup (userID groupID : string) | PgRemoveUserFromGroup (userID groupID : string)
  | PgGetUserGroups (userID : string).

Definition drop_answer {A} (m : prog pgs error A) : prog pgs error unit := m ;; mret ().
Definition pg_run (c : pg_call) : prog pgs error unit :=
  match c with
  | PgAlloc u => drop_answer (pg_alloc u)
  | PgStore p u => pg_store p u
  | PgAllocGroup g => drop_answer (pg_alloc_group g)
  | PgStoreGroup p g => pg_store_group p g
  | PgCreateUser p => pg_CreateUser (Some kms) now p
  | PgUpdateUser p => pg_UpdateUser (Some kms) now p
  | PgDeleteUser id => pg_DeleteUser id
  | PgChangeUserStatus id status => pg_ChangeUserStatus now id status
  | PgCreateBatch ps => pg_CreateBatch (Some kms) now ps
  | PgUpdateBatch ps => pg_UpdateBatch (Some kms) now ps
  | PgUpsertBatch ps => pg_UpsertBatch (Some kms) now ps
  | PgDeleteBatch ids => pg_DeleteBatch ids
  | PgGetUserByID id => drop_answer (pg_GetUserByID (Some kms) id)
  | PgGetUserByUsername name => drop_answer (pg_GetUserByUsername (Some kms) name)
  | PgGetUserByEmail email => drop_answer (pg_GetUserByEmail (Some kms) email)
  | PgGetUserByExternalID id source => drop_answer (pg_GetUserByExternalID (Some kms) id source)
  | PgListUsers filter => drop_answer (pg_ListUsers (Some kms) order_by filter)
  | PgFindUsersByAttribute text a v => drop_answer (pg_FindUsersByAttribute (Some kms) text a v)
  | PgFindUsersBySource source => drop_answer (pg_FindUsersBySource (Some kms) source)
  | PgCreateGroup p => pg_CreateGroup now p
  | PgUpdateGroup p => pg_UpdateGroup now p
  | PgDeleteGroup id => pg_DeleteGroup id
  | PgGetGroupByID id => drop_answer (pg_GetGroupByID id)
  | PgGetGroupByName name => drop_answer (pg_GetGroupByName name)
  | PgListGroups q => drop_answer (pg_ListGroups q)
  | PgAddUserToGroup u g => pg_AddUserToGroup now u g
  | PgRemoveUserFromGroup u g => pg_RemoveUserFromGroup u g
  | PgGetUserGroups u => drop_answer (pg_GetUserGroups (Some kms) u)
  end.
Definition pg_runs (cs : list pg_call) (s : pgs) : pgs := fold_left (fun s c => (pg_run c s).2) cs s.

Lemma keeps_drop {A} (m : prog pgs error A) : keeps m (fun _ => True) -> keeps (drop_answer m) (fun _ => True).
Proof. intros Hm. eapply keeps_bind; [exact Hm|]. intros a _. by apply keeps_ret. Qed.

Lemma keeps_batches ps :
  keeps (pg_CreateBatch (Some kms) now ps) (fun _ => True) /\
  keeps (pg_UpdateBatch (Some kms) now ps) (fun _ => True) /\
  keeps (pg_UpsertBatch (Some kms) now ps) (fun _ => True).
Proof.
  unfold pg_CreateBatch, pg_UpdateBatch, pg_UpsertBatch. split; [|split]; keeps_auto.
  - by apply keeps_insert.
  - apply keeps_upsert; [done|apply merge_saved_encrypted|apply same_id_merge].
  - by apply keeps_upsert; [|apply merge_upsert_encrypted|].
Qed.

Lemma keeps_list filter : keeps (pg_ListUsers (Some kms) order_by filter) (fun _ => True).
Proof.
  unfold pg_ListUsers. do 2 keeps_step. cbv zeta.
  destruct (if bool_decide (filter_SortBy filter = "") then _ else _); keeps_auto.
  eapply keeps_bind; [apply keeps_alloc_all, keeps_alloc|]. intros ps _. keeps_auto.
Qed.

Lemma keeps_group_writes p :
  keeps (pg_CreateGroup now p) (fun _ => True) /\ keeps (pg_UpdateGroup now p) (fun _ => True).
Proof.
  assert (Hc : keeps (pg_CreateGroup now p) (fun _ => True)) by (unfold pg_CreateGroup; keeps_auto).
  split; [done|]. unfold pg_UpdateGroup. keeps_step. keeps_step; [done|]. keeps_auto.
  eapply keeps_bind.
  - apply keeps_update_groups. intros g Hg%bool_decide_eq_true. symmetry. exact Hg.
  - intros n _. keeps_auto. apply keeps_upsert_groups. intros g h Hg%bool_decide_eq_true. exact Hg.
Qed.

Lemma insert_membership_keeps s u g :
  pg_inv s -> (exists v, v ∈ users_of s /\ user_ID v = u) -> (exists h, h ∈ groups_of s /\ group_ID h = g) ->
  pg_inv (on_members (t_insert [(u, g)]) s).2.
Proof.
  intros Hs Hu Hg. unfold on_members, zoom. pose proof (law_insert [(u, g)] (pg_members s)) as Hl.
  destruct (unique member_conflict (members_of s ++ [(u, g)])) eqn:Hun;
    [destruct Hl as (d & -> & Hd)|by rewrite Hl; destruct s].
  destruct Hs as [? ? ? ? Hku Hkg]. split; cbn [pg_users pg_groups pg_members snd]; try done.
  - by rewrite (unique_perm _ member_conflict_sym _ _ Hd).
  - intros m Hm. rewrite Hd in Hm. apply elem_of_app in Hm as [Hm|Hm]; [by apply Hku|].
    apply list_elem_of_singleton in Hm as ->. exact Hu.
  - intros m Hm. rewrite Hd in Hm. apply elem_of_app in Hm as [Hm|Hm]; [by apply Hkg|].
    apply list_elem_of_singleton in Hm as ->. exact Hg.
Qed.

Lemma select_users_run p (s : pgs) :
  exists l, on_users (t_select p) s = (Ok l, s) /\ l ≡ₚ select_rows p (users_of s).
Proof.
  unfold on_users, zoom. destruct (law_select p (pg_users s)) as (l & -> & Hl). exists l. by destruct s.
Qed.
Lemma select_groups_run p (s : pgs) :
  exists l, on_groups (t_select p) s = (Ok l, s) /\ l ≡ₚ select_rows p (groups_of s).
Proof.
  unfold on_groups, zoom. destruct (law_select p (pg_groups s)) as (l & -> & Hl). exists l. by destruct s.
Qed.

Lemma selected {A} (p : A -> bool) (l rows : list A) : l ≡ₚ select_rows p rows -> l <> [] -> exists r, r ∈ rows /\ p r = true.
Proof.
  intros Hl Hne. destruct l as [|r l]; [done|]. exists r. apply elem_of_select. rewrite <-Hl. apply list_elem_of_here.
Qed.

Lemma keeps_add u g : keeps (pg_AddUserToGroup now u g) (fun _ => True).
Proof.
  unfold pg_AddUserToGroup. eapply keeps_bind; [eapply keeps_try, keeps_insert_groups|]. intros _ _ s Hs.
  split; [|done]. destruct (select_groups_run (has_group_id g) s) as (gs & Hg & Hgs).
  destruct (select_users_run (has_id u) s) as (us & Hu & Hus).
  destruct (select_members_run (fun m => bool_decide (m = (u, g))) s) as (ms & Hm & _).
  rewrite (prog_bind_run _ _ _ _ _ Hg), (prog_bind_run _ _ _ _ _ Hu).
  destruct (decide (gs = [])); [by rewrite bool_decide_eq_true_2|].
  destruct (decide (us = [])); [by rewrite orb_comm, bool_decide_eq_true_2|].
  rewrite !bool_decide_eq_false_2 by done. cbn [orb]. rewrite (prog_bind_run _ _ _ _ _ Hm).
  case_bool_decide; [|done]. apply insert_membership_keeps; [done| |].
  - destruct (selected _ _ _ Hus) as (v & Hv & Hid%bool_decide_eq_true); [done|by exists v].
  - destruct (selected _ _ _ Hgs) as (h & Hh & Hid%bool_decide_eq_true); [done|by exists h].
Qed.

Lemma keeps_call c : keeps (pg_run c) (fun _ => True).
Proof.
  destruct c; cbn [pg_run]; try apply keeps_drop; eauto 2 with keeps; try apply keeps_batches;
    try apply keeps_group_writes.
  - apply keeps_UpdateUser.
  - apply keeps_guarded_delete. intros m u Hu. apply bool_decide_ext. by rewrite Hu.
  - apply keeps_update; [|done]. intros r Hr _. by apply stamp_status_encrypted.
  - apply keeps_guarded_delete. intros m u Hu. apply bool_decide_ext. by rewrite Hu.
  - apply keeps_first.
  - apply keeps_or_not_found, keeps_first.
  - apply keeps_or_not_found, keeps_first.
  - apply keeps_or_not_found, keeps_first.
  - apply keeps_list.
  - apply keeps_find.
  - apply keeps_find.
  - apply keeps_guarded_group_delete. intros m g Hg. apply bool_decide_ext. by rewrite Hg.
  - apply keeps_first_group.
  - apply keeps_first_group.
  - unfold pg_ListGroups. keeps_auto. apply keeps_alloc_all, keeps_alloc_group.
  - apply keeps_add.
  - unfold pg_GetUserGroups. keeps_auto. apply keeps_alloc_all, keeps_alloc_group.
Qed.

Lemma runs_keep cs s : pg_inv s -> pg_inv (pg_runs cs s).
Proof.
  unfold pg_runs. revert s. induction cs as [|c cs IH]; intros s Hs; [done|]. cbn [fold_left].
  apply IH, (keeps_call c), Hs.
Qed.

(** ** Reading *)
Lemma unique_NoDup l : unique user_conflict l = true -> NoDup l.
Proof.
  induction l as [|u l IH]; cbn; [by constructor|]. intros [Hu Hl]%andb_true_iff.
  constructor; [|by apply IH]. intros Hin%list_elem_of_In. rewrite forallb_forall in Hu.
  specialize (Hu _ Hin). unfold user_conflict in Hu. by rewrite bool_decide_eq_true_2 in Hu.
Qed.

Lemma select_one p r s :
  pg_inv s -> r ∈ users_of s -> p r = true -> (forall q, q ∈ users_of s -> p q = true -> q = r) ->
  on_users (t_select p) s = (Ok [r], s).
Proof.
  intros Hs Hr Hp Honly. destruct (select_users_run p s) as (l & Hrun & Hl). rewrite Hrun. do 2 f_equal.
  apply Permutation_singleton_r. rewrite Hl. apply NoDup_Permutation.
  - rewrite <-(inv_users s Hs) in *. apply NoDup_ListNoDup. apply List.NoDup_filter, NoDup_ListNoDup, unique_NoDup, Hs.
  - apply NoDup_singleton.
  - intros q. rewrite elem_of_select, list_elem_of_singleton. split; [|by intros ->].
    intros [Hq Hpq]. by apply Honly.
Qed.

Lemma select_none p (s : pgs) :
  (forall q, q ∈ users_of s -> p q = false) -> on_users (t_select p) s = (Ok [], s).
Proof.
  intros Hno. destruct (select_users_run p s) as (l & Hrun & Hl). rewrite Hrun. do 2 f_equal.
  destruct l as [|r l]; [done|]. assert (Hr : r ∈ select_rows p (users_of s)) by (rewrite <-Hl; apply list_elem_of_here).
  apply elem_of_select in Hr as [Hr Hp]. by rewrite Hno in Hp.
Qed.

(** What a successful read leaves: a fresh struct, the tables as they were. *)
Definition reads_as (u : User) (s : pgs) (run : res error loc * pgs) : Prop :=
  exists p s', run = (Ok p, s') /\ tables_only s' = tables_only s /\ pg_pos s' = pg_pos s /\
    pg_heap s !! p = None /\ pg_heap s' = <[p := u]> (pg_heap s).

Lemma first_found p u r s :
  pg_inv s -> r ∈ users_of s -> row_of kms u r -> p r = true ->
  (forall q, q ∈ users_of s -> p q = true -> q = r) ->
  reads_as (set_groups [] u) s (first_user (Some kms) p s).
Proof.
  intros Hs Hr Hu Hp Honly. unfold first_user. rewrite (prog_bind_run _ _ _ _ _ (select_one p r s Hs Hr Hp Honly)).
  change (by_primary_key [r]) with [r]. cbv iota.
  assert (Hrow : on_pos (of_row (Some kms) r) s = (Ok (set_groups [] u), s)).
  { unfold on_pos, zoom. rewrite (of_row_run kms u r _ Hu). by destruct s. }
  rewrite (prog_bind_run _ _ _ _ _ Hrow).
  exists (fresh (dom (pg_heap s))), (pg_store (fresh (dom (pg_heap s))) (set_groups [] u) s).2.
  split; [reflexivity|]. split; [done|]. split; [done|].
  split; [apply not_elem_of_dom, is_fresh|done].
Qed.

Lemma first_missing p (s : pgs) :
  (forall q, q ∈ users_of s -> p q = false) -> first_user (Some kms) p s = (Err ErrRecordNotFound, s).
Proof. intros Hno. unfold first_user. by rewrite (prog_bind_run _ _ _ _ _ (select_none p s Hno)). Qed.

Lemma found_user_ok {A} (m : prog pgs error A) s a s' :
  m s = (Ok a, s') -> or_user_not_found m s = (Ok a, s').
Proof. intros Hm. unfold or_user_not_found, try, mbind, prog_bind. by rewrite Hm. Qed.

Lemma missing_user_err {A} (m : prog pgs error A) s s' :
  m s = (Err ErrRecordNotFound, s') -> or_user_not_found m s = (Err (Sentinel ErrUserNotFound), s').
Proof. intros Hm. unfold or_user_not_found, try, mbind, prog_bind. by rewrite Hm. Qed.

Lemma user_by p (f : User -> bool) s :
  pg_inv s -> p ∈ users_of s -> f p = true ->
  (forall q, f q = true -> user_conflict q p = true) ->
  forall q, q ∈ users_of s -> f q = true -> q = p.
Proof.
  intros Hs Hp _ Hf q Hq Hfq. by eapply (unique_pair _ user_conflict_sym); [apply (inv_users s Hs)| | |apply Hf].
Qed.

Lemma conflict_by u v :
  user_ID u = user_ID v \/ user_Username u = user_Username v \/ user_Email u = user_Email v \/
  (user_ExternalID u = user_ExternalID v /\ user_SourceType u = user_SourceType v) <->
  user_conflict u v = true.
Proof. unfold user_conflict. rewrite !orb_true_iff, andb_true_iff, !bool_decide_eq_true. tauto. Qed.

(** ** Creating *)
Definition written (p : loc) (u : User) (pos : nat) (s : pgs) : pgs :=
  mkPg (pg_users s) (pg_groups s) (pg_members s) pos (<[p := u]> (pg_heap s)) (pg_gheap s).

Lemma create_cases p u s :
  pg_inv s -> pg_heap s !! p = Some u ->
  let u' := stamp_create now u in
  (exists e pos, to_row (Some kms) u' (pg_pos s) = (Err e, pos) /\
     pg_CreateUser (Some kms) now p s = (Err e, written p u' pos s)) \/
  (exists r pos, to_row (Some kms) u' (pg_pos s) = (Ok r, pos) /\ row_of kms u' r /\
     if existsb (user_conflict r) (users_of s)
     then pg_CreateUser (Some kms) now p s = (Err ErrDuplicateKey, written p u' pos s)
     else exists d, t_rows d ≡ₚ r :: users_of s /\
       pg_CreateUser (Some kms) now p s =
         (Ok (), mkPg d (pg_groups s) (pg_members s) pos (<[p := u']> (pg_heap s)) (pg_gheap s))).
Proof.
  intros Hs Hp u'. unfold pg_CreateUser.
  assert (Hread : pg_read p s = (Ok u, s)) by (unfold pg_read; rewrite prog_get_bind; by rewrite Hp).
  rewrite (prog_bind_run _ _ _ _ _ Hread). cbv zeta. fold u'.
  rewrite (prog_bind_run _ _ s () (written p u' (pg_pos s) s)) by reflexivity. unfold pg_insert.
  destruct (to_row_run kms u' (pg_pos s)) as [(r & pos & Hrow & Hr)|(e & pos & Hrow)].
  - right. exists r, pos. split; [done|]. split; [done|].
    assert (Hpos : on_pos (to_row (Some kms) u') (written p u' (pg_pos s) s) = (Ok r, written p u' pos s))
      by (unfold on_pos, zoom; cbn [pg_pos written]; by rewrite Hrow).
    rewrite (prog_bind_run _ _ _ _ _ Hpos). unfold on_users, zoom. cbn [pg_users written].
    pose proof (law_insert [r] (pg_users s)) as Hins. rewrite unique_app, (inv_users s Hs) in Hins. cbn [unique forallb andb] in Hins.
    assert (Hsame : forallb (fun a => negb (user_conflict a r) && true) (users_of s) = negb (existsb (user_conflict r) (users_of s))).
    { generalize (users_of s) as l. intros l. induction l as [|a l IH]; [done|]. cbn [forallb existsb]. rewrite IH, andb_true_r, (user_conflict_sym a).
      by destruct (user_conflict r a), (existsb (user_conflict r) l). }
    rewrite Hsame in Hins. destruct (existsb _ _); cbn [negb] in Hins; [by rewrite Hins|].
    destruct Hins as (d & Hrun & Hd). exists d. rewrite Hrun. split; [|done].
    by rewrite Hd, Permutation_app_comm.
  - left. exists e, pos. split; [done|].
    assert (Hpos : on_pos (to_row (Some kms) u') (written p u' (pg_pos s) s) = (Err e, written p u' pos s))
      by (unfold on_pos, zoom; cbn [pg_pos written]; by rewrite Hrow).
    by rewrite (prog_bind_fail _ _ _ _ _ Hpos).
Qed.

Lemma found_by_key f u r s :
  pg_inv s -> r ∈ users_of s -> row_of kms u r -> f r = true ->
  (forall q, f q = true -> user_conflict q r = true) ->
  reads_as (set_groups [] u) s (first_user (Some kms) f s).
Proof. intros Hs Hr Hu Hf Hkey. apply (first_found f u r s Hs Hr Hu Hf), user_by; done. Qed.

Lemma reads_as_user_not_found u s (m : prog pgs error loc) :
  reads_as u s (m s) -> reads_as u s (or_user_not_found m s).
Proof. intros (p & s' & Hm & Hrest). exists p, s'. by rewrite (found_user_ok m s p s' Hm). Qed.

Lemma stored_reads u r s :
  pg_inv s -> r ∈ users_of s -> row_of kms u r ->
  reads_as (set_groups [] u) s (pg_GetUserByID (Some kms) (user_ID u) s) /\
  reads_as (set_groups [] u) s (pg_GetUserByUsername (Some kms) (user_Username u) s) /\
  reads_as (set_groups [] u) s (pg_GetUserByExternalID (Some kms) (user_ExternalID u) (user_SourceType u) s).
Proof.
  intros Hs Hr Hu. pose proof (row_of_fields kms u r Hu) as (Hid & Hn & Hx & Hst).
  split; [|split]; [|apply reads_as_user_not_found..]; apply (found_by_key _ u r); try done.
  - by apply bool_decide_eq_true.
  - intros q Hq%bool_decide_eq_true. apply conflict_by. left. congruence.
  - by apply bool_decide_eq_true.
  - intros q Hq%bool_decide_eq_true. apply conflict_by. right. left. congruence.
  - rewrite !bool_decide_eq_true_2 by done. done.
  - intros q [Hq1%bool_decide_eq_true Hq2%bool_decide_eq_true]%andb_true_iff. apply conflict_by. right. right. right.
    split; congruence.
Qed.

Lemma email_blind email s :
  pg_inv s -> has_at email = true ->
  pg_GetUserByEmail (Some kms) email s = (Err (Sentinel ErrUserNotFound), s).
Proof.
  intros Hs Hat. apply missing_user_err, first_missing. intros q Hq.
  apply bool_decide_eq_false_2. intros He. pose proof (inv_rows s Hs) as Hrows. rewrite Forall_forall in Hrows.
  pose proof (encrypted_no_at kms q (Hrows q Hq)) as Hno. congruence.
Qed.

Lemma create_refused p u v s :
  pg_inv s -> pg_heap s !! p = Some u -> v ∈ users_of s ->
  user_ExternalID v = user_ExternalID u -> user_SourceType v = user_SourceType u ->
  exists e s', pg_CreateUser (Some kms) now p s = (Err e, s') /\ tables_only s' = tables_only s.
Proof.
  intros Hs Hp Hv Hx Hst.
  destruct (create_cases p u s Hs Hp) as [(e & pos & _ & Hrun)|(r & pos & _ & Hr & Hrun)].
  { eexists e, _. split; [exact Hrun|done]. }
  assert (Hex : existsb (user_conflict r) (users_of s) = true).
  { apply existsb_exists. exists v. rewrite <-list_elem_of_In. split; [done|]. apply conflict_by. right. right. right.
    apply row_of_fields in Hr as (_ & _ & -> & ->). by split. }
  rewrite Hex in Hrun. eexists _, _. split; [exact Hrun|done].
Qed.

(** ** Properties *)

(** C34: Whatever is called, in any order and with any arguments, the tables
    stay consistent: no two users share an identifier, a name, the text of
    an address column or an external identity, no two groups an identifier
    or a name, memberships are of stored users and groups, and every row
    reads back: its address and telephone columns decrypt, and no column
    shows an address. *)
Theorem pg_tables_consistent cs s :
  pg_inv s ->
  let s' := pg_runs cs s in
  pg_inv s' /\
  (forall u v, u ∈ users_of s' -> v ∈ users_of s' -> user_conflict u v = true -> u = v) /\
  (forall r, r ∈ users_of s' -> has_at (user_Email r) = false /\
     exists u, row_of kms u r /\ forall pos, of_row (Some kms) r pos = (Ok (set_groups [] u), pos)).
Proof.
  intros Hs s'. assert (Hs' : pg_inv s') by (by apply runs_keep). split; [done|]. split.
  - intros u v Hu Hv Hc. by apply (unique_pair _ user_conflict_sym _ _ _ (inv_users s' Hs')).
  - intros r Hr. pose proof (inv_rows s' Hs') as Hrows. rewrite Forall_forall in Hrows.
    destruct (Hrows r Hr) as [u Hu]. split; [by apply (encrypted_no_at kms); exists u|].
    exists u. split; [done|]. intros pos. by apply of_row_run.
Qed.

(** Creating a user and reading him back.  Creating succeeds unless the
    system has no random bytes or a stored user has the identifier, the name,
    the external identity or the very text of the encrypted address; then the
    tables are as before.  Once created he is found by identifier, name and
    external identity, each time as a fresh struct equal to the one stored -
    address and telephone decrypted, times set, groups not loaded - and never
    by his address: a search for any address finds nobody, in every reachable
    table. *)
Theorem pg_user_roundtrip p u s :
  pg_inv s -> pg_heap s !! p = Some u ->
  let u' := stamp_create now u in
  (exists s', pg_CreateUser (Some kms) now p s = (Ok (), s') /\ pg_inv s' /\
     reads_as (set_groups [] u') s' (pg_GetUserByID (Some kms) (user_ID u) s') /\
     reads_as (set_groups [] u') s' (pg_GetUserByUsername (Some kms) (user_Username u) s') /\
     reads_as (set_groups [] u') s'
       (pg_GetUserByExternalID (Some kms) (user_ExternalID u) (user_SourceType u) s') /\
     (forall email, has_at email = true ->
        pg_GetUserByEmail (Some kms) email s' = (Err (Sentinel ErrUserNotFound), s'))) \/
  (exists e s', pg_CreateUser (Some kms) now p s = (Err e, s') /\ tables_only s' = tables_only s /\
     ((exists pos, to_row (Some kms) u' (pg_pos s) = (Err e, pos)) \/
      (e = ErrDuplicateKey /\ exists r v, row_of kms u' r /\ v ∈ users_of s /\ user_conflict r v = true))).
Proof.
  intros Hs Hp u'. pose proof (keeps_create p s Hs) as [Hkeep _].
  destruct (create_cases p u s Hs Hp) as [(e & pos & Hrow & Hrun)|(r & pos & Hrow & Hr & Hrun)].
  { right. eexists e, _. split; [exact Hrun|]. split; [done|]. left. by exists pos. }
  destruct (existsb _ _) eqn:Hex.
  - right. eexists _, _. split; [exact Hrun|]. split; [done|]. right. split; [done|].
    apply existsb_exists in Hex as (v & Hv & Hc). exists r, v. by rewrite list_elem_of_In.
  - left. destruct Hrun as (d & Hd & Hrun). rewrite Hrun in Hkeep. eexists. split; [exact Hrun|].
    split; [exact Hkeep|]. cbn [snd] in Hkeep. set (s' := mkPg _ _ _ _ _ _) in *.
    assert (Hin : r ∈ users_of s') by (cbn; rewrite Hd; apply list_elem_of_here).
    destruct (stored_reads u' r s' Hkeep Hin Hr) as (Hid & Hn & Hx).
    split; [exact Hid|]. split; [exact Hn|]. split; [exact Hx|]. intros email. by apply email_blind.
Qed.

(** The unique index of external identities has no room for local users:
    they all have the empty one.  Once a user without an external identity is
    stored, registering any other through the identity service fails - with a
    conflict when the name is taken and otherwise, for every name, address and
    password, with an internal error - and nothing is stored. *)
Theorem one_local_account hash fuel uuid id name email password h r s vs :
  pg_inv s -> r ∈ users_of s -> user_ExternalID r = "" -> user_SourceType r = "" ->
  (0 < fuel)%nat -> has_at email = true -> name <> "" -> password <> "" -> hash password = Ok h ->
  exists c s' vs',
    @service_CreateUser _ (pg_repository (Some kms) order_by now) hash fuel uuid id name email password (s, vs) =
      (Err (Sentinel c), (s', vs')) /\
    tables_only s' = tables_only s /\
    ((exists u, u ∈ users_of s /\ user_Username u = name) -> c = ErrConflict) /\
    (~ (exists u, u ∈ users_of s /\ user_Username u = name) -> c = ErrInternal).
Proof.
  intros Hs Hr Hx Hst Hf Hat Hn Hpw Hh. unfold service_CreateUser.
  assert (He : email <> "") by (intros ->; by vm_compute in Hat).
  rewrite !bool_decide_eq_false_2 by done. cbn [orb ir_GetUserByUsername ir_GetUserByEmail pg_repository].
  destruct (existsb (fun u => bool_decide (user_Username u = name)) (users_of s)) eqn:Hname.
  - apply existsb_exists in Hname as (v & Hv & Hvn%bool_decide_eq_true). apply list_elem_of_In in Hv.
    pose proof (inv_rows s Hs) as Hrows. rewrite Forall_forall in Hrows. destruct (Hrows v Hv) as [w Hw].
    destruct (stored_reads w v s Hs Hv Hw) as (_ & (q & s1 & Hrun & Ht & _) & _).
    pose proof (row_of_fields kms w v Hw) as (_ & Hwn & _). rewrite <-Hwn, Hvn in Hrun.
    rewrite (ensure_absent_found fuel _ _ _ _ s vs q s1 Hrun).
    eexists _, s1, _. split; [reflexivity|]. split; [done|]. split; [done|]. intros Hno. destruct Hno. by exists v.
  - assert (Hfree : forall q, q ∈ users_of s -> bool_decide (user_Username q = name) = false).
    { intros q Hq. destruct (bool_decide (user_Username q = name)) eqn:Hb; [|done].
      rewrite <-Hname. symmetry. apply existsb_exists. exists q. by rewrite <-list_elem_of_In. }
    rewrite (ensure_absent_missing fuel _ _ _ _ s vs Hf (missing_user_err _ s s (first_missing _ s Hfree))).
    rewrite (ensure_absent_missing fuel _ _ _ _ s vs Hf (email_blind email s Hs Hat)).
    set (u := new_user uuid name email h UserStatusActive). set (p := fresh (dom (pg_heap s))).
    destruct (keeps_alloc u s Hs) as [Hs1 _].
    assert (Halloc : pg_alloc u s = (Ok p, (pg_store p u s).2)) by reflexivity.
    rewrite Halloc in Hs1. cbn [snd] in Hs1. set (s1 := (pg_store p u s).2) in *.
    destruct (create_refused p u r s1 Hs1 (lookup_insert_eq _ _ _) Hr Hx Hst) as (e & s2 & Hrun & Ht).
    unfold mbind, prog_bind, try, lift. rewrite Hh. cbv beta iota. fold u.
    cbn [ir_alloc ir_CreateUser pg_repository].
    rewrite (on_repo_run _ s vs _ _ Halloc), (on_repo_run _ s1 vs _ _ Hrun).
    eexists _, s2, _. split; [reflexivity|]. split; [by rewrite Ht|]. split; [|done].
    intros (v & Hv & Hvn). apply Hfree in Hv. by apply bool_decide_eq_false in Hv.
Qed.
End Invariant.

(** ** Witnesses: lists as tables, the local provider as the key service *)
Definition demo_lp : LocalProvider := mkLocalProvider (Hashes.sha256 (Bytes.str "demo key")) "v1".
Definition demo_kms : KeyProvider := local_provider demo_source demo_lp.
Lemma demo_lawful : LawfulProvider demo_kms.
Proof. apply local_lawful, Hashes.sha256_length. Qed.

Notation demo_pg := (pg_state (list User) (list UserGroup) (list (string * string))).
Notation demo_inv := (@pg_inv _ _ _ _ (list_table_laws user_conflict) _ (list_table_laws group_conflict)
  _ (list_table_laws member_conflict) demo_kms).
Notation demo_runs := (@pg_runs _ _ _ (list_table user_conflict) (list_table group_conflict)
  (list_table member_conflict) demo_kms (fun _ l => Some l) 7).

Definition demo_ann : User := new_user "u1" "ann" "ann@example.org" "h1" UserStatusActive.
Definition demo_empty : demo_pg := mkPg [] [] [] 0%nat {[ 1%positive := demo_ann ]} ∅.
Lemma demo_empty_inv : demo_inv demo_empty.
Proof. split; try done; intros m Hm; by apply elem_of_nil in Hm. Qed.

Lemma demo_run_inv cs : demo_inv (demo_runs cs demo_empty).
Proof. apply (@runs_keep _ _ _ _ _ _ _ _ _ demo_kms demo_lawful), demo_empty_inv. Qed.

Lemma pg_tables_consistent_witness :
  demo_inv (demo_runs [PgCreateUser 1; PgCreateUser 1; PgDeleteUser "u2"] demo_empty) /\
  length (pg_users (demo_runs [PgCreateUser 1; PgCreateUser 1; PgDeleteUser "u2"] demo_empty)) = 1%nat.
Proof.
  split; [|vm_compute; reflexivity].
  exact (proj1 (@pg_tables_consistent _ _ _ _ (list_table_laws user_conflict) _ (list_table_laws group_conflict)
    _ (list_table_laws member_conflict) demo_kms demo_lawful (fun _ l => Some l) 7
    [PgCreateUser 1; PgCreateUser 1; PgDeleteUser "u2"] demo_empty demo_empty_inv)).
Defined.

Lemma pg_user_roundtrip_witness : exists s',
  @pg_CreateUser _ _ _ (list_table user_conflict) (Some demo_kms) 7 1%positive demo_empty = (Ok (), s') /\
  exists p s2, @pg_GetUserByID _ _ _ (list_table user_conflict) (Some demo_kms) "u1" s' = (Ok p, s2) /\
    pg_heap s2 !! p = Some (stamp_create 7 demo_ann).
Proof.
  destruct (@pg_user_roundtrip _ _ _ _ (list_table_laws user_conflict) _ (list_table_laws group_conflict)
    _ (list_table_laws member_conflict) demo_kms demo_lawful 7 1%positive demo_ann demo_empty demo_empty_inv eq_refl)
    as [(s' & Hrun & _ & (p & s2 & Hread & _ & _ & _ & Hheap) & _)|(e & s' & _ & _ & [(pos & He)|(_ & r & v & _ & Hv & _)])].
  - exists s'. split; [exact Hrun|]. exists p, s2. split; [exact Hread|]. rewrite Hheap. apply lookup_insert_eq.
  - vm_compute in He. discriminate He.
  - apply elem_of_nil in Hv. destruct Hv.
Defined.

Lemma one_local_account_witness : exists c s' vs',
  @service_CreateUser _ (@pg_repository _ _ _ (list_table user_conflict) (list_table group_conflict)
      (list_table member_conflict) (Some demo_kms) (fun _ l => Some l) 7)
    (fun pw => Ok ("bcrypt:" +:+ pw)) 3 "u2" "" "bob" "bob@example.org" "secret"
    (demo_runs [PgCreateUser 1] demo_empty, ∅) = (Err (Sentinel c), (s', vs')) /\ length (pg_users s') = 1%nat.
Proof.
  set (s := demo_runs [PgCreateUser 1] demo_empty).
  assert (Hlocal : forallb (fun r => bool_decide (user_ExternalID r = "") && bool_decide (user_SourceType r = "")) (pg_users s)
                   && bool_decide (length (pg_users s) = 1%nat) = true) by (vm_compute; reflexivity).
  apply andb_true_iff in Hlocal as [Hlocal Hlen%bool_decide_eq_true].
  destruct (pg_users s) as [|r l] eqn:Hs; [discriminate Hlen|].
  apply andb_true_iff in Hlocal as [Hr _]. apply andb_true_iff in Hr as [Hx%bool_decide_eq_true Hst%bool_decide_eq_true].
  assert (Hin : r ∈ pg_users s) by (rewrite Hs; apply list_elem_of_here).
  destruct (@one_local_account _ _ _ _ (list_table_laws user_conflict) _ (list_table_laws group_conflict)
    _ (list_table_laws member_conflict) demo_kms demo_lawful (fun _ l => Some l) 7
    (fun pw => Ok ("bcrypt:" +:+ pw)) 3%nat "u2" "" "bob" "bob@example.org" "secret" "bcrypt:secret" r s ∅
    (demo_run_inv [PgCreateUser 1]) Hin Hx Hst ltac:(lia) eq_refl ltac:(discriminate) ltac:(discriminate) eq_refl)
    as (c & s' & vs' & Hrun & Ht & _).
  exists c, s', vs'. split; [exact Hrun|]. 
  pose proof (f_equal (fun t => t.1.1) Ht) as Hu. cbn [tables_only fst] in Hu. rewrite Hu, Hs. exact Hlen.
Defined.
