(* ===== verification/FieldMigration.v ===== *)
(** * The migration to encrypted columns (cmd/qid-migrate-fle/main.go)

    The command reads the users in pages of a hundred ordered by identifier
    and writes the address and the telephone number of each back through the
    encrypting type.  Its state is the table of users, the position in the
    system's random bytes and the identifiers it logged as failed; the loop
    runs on fuel, one unit for each page. *)

From S2P Require Import Prelude Types GoStd Secrets Tables PgIdentity.
From stdpp Require Import sorting.
Local Open Scope Z_scope.

Record fle_world (D : Type) := mkFle { fle_users : D; fle_pos : nat; fle_failed : list string }.
Arguments mkFle {D}.
Arguments fle_users {D}.
Arguments fle_pos {D}.
Arguments fle_failed {D}.

Section Command.
Context {D : Type} `{Table User D} (kms : KeyProvider).
Notation fle A := (prog (fle_world D) error A).

Definition fle_table {A} (m : prog D error A) : fle A :=
  zoom fle_users (fun d w => mkFle d (fle_pos w) (fle_failed w)) m.
Definition fle_random {A} (m : prog nat error A) : fle A :=
  zoom fle_pos (fun n w => mkFle (fle_users w) n (fle_failed w)) m.

(** One page of [LegacyUser]s, the rows as they are *)
Definition legacy_page (offset limit : Z) : fle (list User) :=
  rows ← fle_table (t_select (fun _ => true));
  mret (sql_window offset limit (by_primary_key rows)).

(** [Updates]: only fields that are not empty are written, in the order of
    their names; without any no statement is sent. *)
Definition encrypt_field (field : string) : prog nat error string :=
  if bool_decide (field = "") then mret "" else es_Value (Some kms) field.
Definition update_user (u : User) : fle unit :=
  if bool_decide (user_Email u = "") && bool_decide (user_Phone u = "") then mret ()
  else
    email ← fle_random (encrypt_field (user_Email u));
    phone ← fle_random (encrypt_field (user_Phone u));
    fle_table (t_update (has_id (user_ID u))
      (fun r => set_contacts (if bool_decide (user_Email u = "") then user_Email r else email)
                  (if bool_decide (user_Phone u = "") then user_Phone r else phone) r)) ;;
    mret ().
(** A failure is logged and the loop goes on. *)
Definition migrate_user (u : User) : fle unit :=
  answer ← try (update_user u);
  match answer with
  | inr _ => mret ()
  | inl err => modify (fun w => mkFle (fle_users w) (fle_pos w) (fle_failed w ++ [user_ID u]))
  end.

Definition batch : Z := 100.
Fixpoint migrate_from (fuel : nat) (offset : Z) : fle unit :=
  match fuel with
  | O => lift Diverge
  | S fuel =>
      users ← legacy_page offset batch;
      match users with
      | [] => mret ()
      | _ => for_each migrate_user users ;; migrate_from fuel (offset + batch)
      end
  end.
End Command.

Definition migrate_main {D} `{Table User D} (source : nat -> option Byte.byte) (fuel : nat) (key : string) :
    prog (fle_world D) error unit :=
  if bool_decide (key = "") then throw (Errorf "Data Encryption Key is not set in config.")
  else
    provider ← lift (local_New key);
    migrate_from (local_provider source provider) fuel 0.

(** ** Pages *)
Section Pages.
#[local] Instance id_le_total : Total (fun u v => string_le (user_ID u) (user_ID v)).
Proof. intros u v. apply String.leb_total. Qed.

#[local] Instance id_le_trans : Transitive (fun u v => string_le (user_ID u) (user_ID v)).
Proof. intros u v w. apply string_le_trans. Qed.
#[local] Existing Instances string_le_total string_le_trans.

Lemma ids_sorted l : map user_ID (by_primary_key l) = sort_Strings (map user_ID l).
Proof.
  apply (StronglySorted_unique_strong string_le).
  - intros s t _ _. apply String.leb_antisym.
  - unfold by_primary_key.
    assert (Hs : StronglySorted (fun u v => string_le (user_ID u) (user_ID v))
              (merge_sort (fun u v => string_le (user_ID u) (user_ID v)) l)).
    { apply (StronglySorted_merge_sort _). }
    induction Hs as [|u k _ IH Hu]; cbn; constructor; [done|]. by apply List.Forall_map.
  - apply (StronglySorted_merge_sort _).
  - rewrite sort_Strings_perm. unfold by_primary_key. by rewrite merge_sort_Permutation.
Qed.
End Pages.

(** ** The table after the command *)
Section Migrated.
Context {D : Type} `{HU : TableLaws User D user_conflict} (kms : KeyProvider) `{LawfulProvider kms}.
Notation world := (fle_world D).
Notation rows_of w := (t_rows (fle_users w)).

(** [x] stores, encrypted, the texts that the columns of [r] held; a row
    whose update failed is as it was. *)
Definition encrypted_as (r x : User) : Prop :=
  exists e p, x = set_contacts e p r /\ column_of kms (user_Email r) e /\ column_of kms (user_Phone r) p.
Definition migrated (failed : list string) (r x : User) : Prop :=
  if bool_decide (user_ID r ∈ failed) then x = r else encrypted_as r x.

(** The rows at some moment, those of [done] having been visited. *)
Definition progress (rows : list User) (done : list string) (w : world) : Prop :=
  exists X, rows_of w ≡ₚ X /\
    (forall id, id ∈ fle_failed w -> id ∈ done) /\
    Forall2 (fun r x => if bool_decide (user_ID r ∈ done) then migrated (fle_failed w) r x else x = r) rows X.

Lemma column_empty : column_of kms "" "".
Proof. by intros pos. Qed.

Lemma encrypt_field_cases field pos :
  (exists c pos', encrypt_field kms field pos = (Ok c, pos') /\ column_of kms field c) \/
  (exists e pos', encrypt_field kms field pos = (Err e, pos')).
Proof.
  unfold encrypt_field. case_bool_decide as Hf.
  - left. exists "", pos. subst. by split.
  - destruct (es_Value_cases kms field pos) as [(c & p & Hrun & Hc & _)|(e & p & Hrun & _)]; [left|right]; eauto.
Qed.

(** One statement: it fails and changes nothing, or writes the two columns of
    the rows with the identifier. *)
Lemma update_user_cases u w :
  (exists e w', update_user kms u w = (Err e, w') /\ fle_users w' = fle_users w /\ fle_failed w' = fle_failed w) \/
  (exists e p w', update_user kms u w = (Ok (), w') /\ fle_failed w' = fle_failed w /\
     column_of kms (user_Email u) e /\ column_of kms (user_Phone u) p /\
     ((user_Email u = "" /\ user_Phone u = "" /\ fle_users w' = fle_users w) \/
      rows_of w' ≡ₚ update_rows (has_id (user_ID u))
        (fun r => set_contacts (if bool_decide (user_Email u = "") then user_Email r else e)
                    (if bool_decide (user_Phone u = "") then user_Phone r else p) r) (rows_of w))).
Proof.
  unfold update_user. destruct (bool_decide (user_Email u = "") && bool_decide (user_Phone u = "")) eqn:Hempty.
  { apply andb_true_iff in Hempty as [He%bool_decide_eq_true Hp%bool_decide_eq_true].
    right. exists "", "", w. rewrite He, Hp. split; [done|]. split; [done|]. split; [done|]. split; [done|]. by left. }
  destruct (encrypt_field_cases (user_Email u) (fle_pos w)) as [(e & p1 & Hrun & He)|(x & p1 & Hrun)].
  2:{ left. eexists x, (mkFle (fle_users w) p1 (fle_failed w)).
      rewrite (prog_bind_fail _ _ w x (mkFle (fle_users w) p1 (fle_failed w))) by (unfold fle_random, zoom; by rewrite Hrun). done. }
  rewrite (prog_bind_run _ _ w e (mkFle (fle_users w) p1 (fle_failed w))) by (unfold fle_random, zoom; by rewrite Hrun).
  destruct (encrypt_field_cases (user_Phone u) p1) as [(p & p2 & Hrun2 & Hp)|(x & p2 & Hrun2)].
  2:{ left. eexists x, (mkFle (fle_users w) p2 (fle_failed w)).
      rewrite (prog_bind_fail _ _ _ x (mkFle (fle_users w) p2 (fle_failed w))) by (unfold fle_random, zoom; cbn; by rewrite Hrun2). done. }
  rewrite (prog_bind_run _ _ _ p (mkFle (fle_users w) p2 (fle_failed w))) by (unfold fle_random, zoom; cbn; by rewrite Hrun2).
  match goal with |- context [t_update ?q ?f] => pose proof (law_update q f (fle_users w)) as Hl; set (upd := f) in * end.
  destruct (unique _ _); [destruct Hl as (d & Hl & Hd)|].
  - right. exists e, p, (mkFle d p2 (fle_failed w)).
    rewrite (prog_bind_run _ _ _ (Z.of_nat (length (select_rows (has_id (user_ID u)) (rows_of w)))) (mkFle d p2 (fle_failed w)))
      by (unfold fle_table, zoom; cbn; by rewrite Hl).
    split; [done|]. split; [done|]. split; [done|]. split; [done|]. by right.
  - left. exists ErrDuplicateKey, (mkFle (fle_users w) p2 (fle_failed w)).
    rewrite (prog_bind_fail _ _ _ ErrDuplicateKey (mkFle (fle_users w) p2 (fle_failed w)))
      by (unfold fle_table, zoom; cbn; by rewrite Hl). done.
Qed.

Lemma Forall2_map_in {A B C} (P : A -> B -> Prop) (Q : A -> C -> Prop) (g : B -> C) l k :
  Forall2 P l k -> (forall x y, x ∈ l -> P x y -> Q x (g y)) -> Forall2 Q l (map g k).
Proof.
  induction 1 as [|x y l k Hxy _ IH]; intros Hg; cbn; constructor.
  - apply Hg; [apply list_elem_of_here|done].
  - apply IH. intros a b Ha. apply Hg. by apply list_elem_of_further.
Qed.

Lemma same_id_same rows u r :
  NoDup (map user_ID rows) -> u ∈ rows -> r ∈ rows -> user_ID r = user_ID u -> r = u.
Proof.
  intros Hnd Hu Hr Hid. induction rows as [|x rows IH]; [by apply elem_of_nil in Hu|].
  cbn in Hnd. apply NoDup_cons in Hnd as [Hx Hnd].
  apply elem_of_cons in Hu as [->|Hu], Hr as [->|Hr]; try done; [| |by apply IH].
  - destruct Hx. rewrite <-Hid. by apply list_elem_of_fmap_2.
  - destruct Hx. rewrite Hid. by apply list_elem_of_fmap_2.
Qed.

Lemma visit rows done u w :
  NoDup (map user_ID rows) -> progress rows done w -> u ∈ rows -> user_ID u ∉ done ->
  exists w', migrate_user kms u w = (Ok (), w') /\ progress rows (user_ID u :: done) w'.
Proof.
  intros Hnd (X & HX & Hfail & HF) Hu Hnew. unfold migrate_user.
  destruct (update_user_cases u w) as [(e & w1 & Hrun & Hrows & Hf)|(e & p & w1 & Hrun & Hf & He & Hp & Hrows)];
    unfold mbind, prog_bind, try; rewrite Hrun.
  - eexists. split; [reflexivity|]. exists (map id X). cbn [fle_users fle_failed]. rewrite Hrows, Hf, map_id.
    split; [done|]. split.
    { intros i [Hi|Hi%list_elem_of_singleton]%elem_of_app; apply elem_of_cons; [right; by apply Hfail|by left]. }
    rewrite <-(map_id X). eapply Forall2_map_in; [exact HF|]. intros r x Hr Hrx. cbn. unfold migrated, id in *.
    destruct (decide (user_ID r = user_ID u)) as [Heq|Hne].
    + rewrite Heq in *. rewrite bool_decide_eq_false_2 in Hrx by done.
      rewrite !bool_decide_eq_true_2; [done|apply elem_of_app; right; by apply list_elem_of_singleton|apply list_elem_of_here].
    + rewrite (bool_decide_ext _ (user_ID r ∈ done)) by (rewrite elem_of_cons; tauto).
      rewrite (bool_decide_ext (user_ID r ∈ fle_failed w ++ _) (user_ID r ∈ fle_failed w)); [done|].
      rewrite elem_of_app, list_elem_of_singleton. tauto.
  - set (f := fun r => set_contacts (if bool_decide (user_Email u = "") then user_Email r else e)
                    (if bool_decide (user_Phone u = "") then user_Phone r else p) r).
    assert (Hfu : encrypted_as u (f u)).
    { exists (if bool_decide (user_Email u = "") then user_Email u else e),
        (if bool_decide (user_Phone u = "") then user_Phone u else p).
      split; [done|]. split.
      - destruct (decide (user_Email u = "")) as [Hz|Hz].
        + rewrite bool_decide_eq_true_2, Hz by done. apply column_empty.
        + by rewrite bool_decide_eq_false_2.
      - destruct (decide (user_Phone u = "")) as [Hz|Hz].
        + rewrite bool_decide_eq_true_2, Hz by done. apply column_empty.
        + by rewrite bool_decide_eq_false_2. }
    eexists. split; [reflexivity|]. exists (update_rows (has_id (user_ID u)) f X).
    split; [|rewrite Hf; split; [intros i Hi; apply elem_of_cons; right; by apply Hfail|]].
    + destruct Hrows as [(Hz1 & Hz2 & Hsame)|Hrows]; [|rewrite Hrows; unfold update_rows; apply (fmap_Permutation _ _ _ HX)].
      rewrite Hsame, HX. unfold update_rows. erewrite map_ext; [by rewrite map_id|]. intros r.
      subst f. cbv beta. rewrite Hz1, Hz2, !bool_decide_eq_true_2 by done. destruct (has_id _ r); by destruct r.
    + eapply Forall2_map_in; [exact HF|]. intros r x Hr Hrx. cbv beta in *. unfold migrated in *.
      destruct (decide (user_ID r = user_ID u)) as [Heq|Hne].
      * assert (r = u) as -> by (by eapply same_id_same). rewrite bool_decide_eq_false_2 in Hrx by done. subst x.
        rewrite bool_decide_eq_true_2 by apply list_elem_of_here.
        rewrite bool_decide_eq_false_2 by (intros Hi; by apply Hnew, Hfail). unfold has_id. by rewrite bool_decide_eq_true_2.
      * assert (Hx : user_ID x = user_ID r).
        { destruct (bool_decide (user_ID r ∈ done)); [|by subst].
          destruct (bool_decide (user_ID r ∈ fle_failed w)); [by subst|]. by destruct Hrx as (? & ? & -> & _). }
        unfold has_id. rewrite (bool_decide_eq_false_2 (user_ID x = user_ID u)) by congruence.
        by rewrite (bool_decide_ext _ (user_ID r ∈ done)) by (rewrite elem_of_cons; tauto).
Qed.

Lemma progress_ext rows done done' w :
  (forall id, id ∈ done <-> id ∈ done') -> progress rows done w -> progress rows done' w.
Proof.
  intros Hd (X & HX & Hfail & HF). exists X. split; [done|]. split; [intros id Hid; by apply Hd, Hfail|].
  eapply Forall2_impl; [exact HF|]. intros r x. cbv beta.
  by rewrite (bool_decide_ext (user_ID r ∈ done) (user_ID r ∈ done')).
Qed.

Lemma visit_all rows us : forall done w,
  NoDup (map user_ID rows) -> progress rows done w -> (forall u, u ∈ us -> u ∈ rows /\ user_ID u ∉ done) ->
  NoDup (map user_ID us) ->
  exists w', for_each (migrate_user kms) us w = (Ok (), w') /\ progress rows (done ++ map user_ID us) w'.
Proof.
  induction us as [|u us IH]; intros done w Hnd Hp Hus Hnd'; cbn [for_each map].
  { exists w. rewrite app_nil_r. by split. }
  cbn in Hnd'. apply NoDup_cons in Hnd' as [Hu Hnd'].
  destruct (Hus u (list_elem_of_here _ _)) as [Hin Hnew].
  destruct (visit rows done u w Hnd Hp Hin Hnew) as (w1 & Hrun & Hp1).
  destruct (IH (user_ID u :: done) w1 Hnd Hp1) as (w2 & Hrun2 & Hp2); [|done|].
  - intros v Hv. split; [apply Hus; by apply list_elem_of_further|].
    rewrite not_elem_of_cons. split; [|apply Hus; by apply list_elem_of_further].
    intros Heq. apply Hu. rewrite <-Heq. by apply list_elem_of_fmap_2.
  - exists w2. rewrite (prog_bind_run _ _ _ _ _ Hrun). split; [done|].
    eapply progress_ext; [|exact Hp2]. intros i. rewrite !elem_of_app, !elem_of_cons. tauto.
Qed.

Notation ids rows := (sort_Strings (map user_ID rows)).

Lemma map_window {A B} (f : A -> B) off lim l : map f (sql_window off lim l) = sql_window off lim (map f l).
Proof. unfold sql_window. cbv zeta. destruct (0 <? off), (0 <=? lim); by rewrite ?skipn_map, ?firstn_map. Qed.

Lemma window_page {A} (l : list A) k : sql_window (Z.of_nat k) batch l = take 100 (drop k l).
Proof.
  unfold sql_window, batch. change (0 <=? 100) with true. cbv iota.
  destruct (Z.ltb_spec 0 (Z.of_nat k)); [by rewrite Nat2Z.id|]. assert (k = 0%nat) as -> by lia. done.
Qed.

(** How a row stands to what it was, once [done] were visited. *)
Definition stands (done failed : list string) (r x : User) : Prop :=
  if bool_decide (user_ID r ∈ done) then migrated failed r x else x = r.

Lemma stands_id done failed r x : stands done failed r x -> user_ID x = user_ID r.
Proof.
  unfold stands, migrated. destruct (bool_decide (user_ID r ∈ done)); [|by intros ->].
  destruct (bool_decide (user_ID r ∈ failed)); [by intros ->|]. by intros (? & ? & -> & _).
Qed.

Lemma stands_ids done failed rows X :
  Forall2 (stands done failed) rows X -> map user_ID X = map user_ID rows.
Proof. induction 1 as [|r x rows X Hrx _ IH]; [done|]. cbn. rewrite IH. f_equal. by eapply stands_id. Qed.

Lemma stands_new done failed rows X u :
  Forall2 (stands done failed) rows X -> u ∈ X -> user_ID u ∉ done -> u ∈ rows.
Proof.
  intros HF Hu Hnew. apply list_elem_of_lookup in Hu as [i Hi].
  destruct (Forall2_lookup_r _ _ _ _ _ HF Hi) as (r & Hr & Hru).
  pose proof (stands_id _ _ _ _ Hru) as Hid. unfold stands in Hru. rewrite Hid in Hnew.
  rewrite bool_decide_eq_false_2 in Hru by done. subst. by eapply list_elem_of_lookup_2.
Qed.

Lemma page_run rows k w :
  NoDup (map user_ID rows) -> progress rows (take k (ids rows)) w ->
  exists us, legacy_page (Z.of_nat k) batch w = (Ok us, w) /\
    map user_ID us = take 100 (drop k (ids rows)) /\
    forall u, u ∈ us -> u ∈ rows /\ user_ID u ∉ take k (ids rows).
Proof.
  intros Hnd (X & HX & Hfail & HF). unfold legacy_page.
  destruct (law_select (fun _ => true) (fle_users w)) as (l & Hl & Hperm).
  rewrite (prog_bind_run _ _ w l w) by (unfold fle_table, zoom; rewrite Hl; by destruct w).
  set (us := sql_window (Z.of_nat k) batch (by_primary_key l)).
  assert (HlX : l ≡ₚ X).
  { rewrite Hperm. unfold select_rows. rewrite List.filter_true. exact HX. }
  pose proof (stands_ids _ _ _ _ HF) as Hids.
  assert (Hmap : map user_ID l ≡ₚ map user_ID X) by exact (fmap_Permutation user_ID _ _ HlX).
  assert (Hus : map user_ID us = take 100 (drop k (ids rows))).
  { unfold us. rewrite map_window, ids_sorted, window_page, <-Hids.
    by rewrite (sort_Strings_ext _ _ Hmap). }
  exists us. split; [done|]. split; [exact Hus|]. intros u Hu.
  assert (Hnew : user_ID u ∉ take k (ids rows)).
  { assert (Hin : user_ID u ∈ drop k (ids rows)).
    { apply (subseteq_take 100). rewrite <-Hus. by apply list_elem_of_fmap_2. }
    assert (Hs : NoDup (ids rows)) by (by rewrite sort_Strings_perm).
    rewrite <-(take_drop k (ids rows)) in Hs. apply NoDup_app in Hs as (_ & Hs & _). intros Ht. by apply (Hs _ Ht). }
  split; [|done]. eapply stands_new; [exact HF| |exact Hnew]. rewrite <-HlX.
  rewrite <-(merge_sort_Permutation (fun u v => string_le (user_ID u) (user_ID v)) l).
  unfold us in Hu. rewrite window_page in Hu. by apply subseteq_take, subseteq_drop in Hu.
Qed.

Lemma migrate_from_run rows fuel : forall k w,
  NoDup (map user_ID rows) -> progress rows (take k (ids rows)) w ->
  (length rows + 100 <= k + 100 * fuel)%nat -> (0 < fuel)%nat ->
  exists w', migrate_from kms fuel (Z.of_nat k) w = (Ok (), w') /\ progress rows (ids rows) w'.
Proof.
  assert (Hlen : length (ids rows) = length rows)
    by (by rewrite sort_Strings_perm, length_map).
  induction fuel as [|fuel IH]; intros k w Hnd Hp Hk Hpos; [lia|]. cbn [migrate_from].
  destruct (page_run rows k w Hnd Hp) as (us & Hrun & Hids & Hus).
  rewrite (prog_bind_run _ _ _ _ _ Hrun). destruct (decide (us = [])) as [->|Hne].
  - exists w. split; [done|]. cbn in Hids.
    assert (Hd : drop k (ids rows) = []) by (destruct (drop k (ids rows)); done).
    rewrite take_ge in Hp; [done|]. apply (f_equal length) in Hd. rewrite length_drop in Hd. cbn in Hd. lia.
  - assert (Hloop : forall (x : prog world error unit) y, match us with [] => x | _ :: _ => y end = y) by (by destruct us).
    rewrite Hloop. clear Hloop.
    destruct (visit_all rows us (take k (ids rows)) w Hnd Hp Hus) as (w1 & Hrun1 & Hp1).
    { rewrite Hids. assert (Hs : NoDup (ids rows)) by (by rewrite sort_Strings_perm).
      rewrite <-(take_drop k (ids rows)) in Hs. apply NoDup_app in Hs as (_ & _ & Hs).
      rewrite <-(take_drop 100 (drop k (ids rows))) in Hs. by apply NoDup_app in Hs as (Hs & _). }
    rewrite (prog_bind_run _ _ _ _ _ Hrun1). rewrite Hids, take_take_drop in Hp1.
    replace (Z.of_nat k + batch) with (Z.of_nat (k + 100)) by (unfold batch; lia).
    assert (Hfuel : (0 < fuel)%nat).
    { destruct fuel; [|lia]. exfalso. apply Hne. apply (map_eq_nil user_ID). rewrite Hids, drop_ge; [done|lia]. }
    apply IH; [done|done|lia|done].
Qed.
End Migrated.

(** ** Properties *)
Lemma unique_ids rows : unique user_conflict rows = true -> NoDup (map user_ID rows).
Proof.
  induction rows as [|u rows IH]; cbn; [by constructor|]. intros [Hu Hrows]%andb_true_iff.
  constructor; [|by apply IH]. intros (v & Hid & Hv)%list_elem_of_fmap. rewrite forallb_forall in Hu.
  apply list_elem_of_In in Hv. specialize (Hu _ Hv). unfold user_conflict in Hu. by rewrite Hid, bool_decide_eq_true_2 in Hu.
Qed.

Lemma encrypted_as_reads kms `{LawfulProvider kms} r x pos :
  encrypted_as kms r x -> of_row (Some kms) x pos = (Ok r, pos).
Proof.
  intros (e & p & -> & He & Hp). unfold of_row, es_Scan. cbn [user_Email user_Phone set_contacts].
  rewrite (prog_bind_run _ _ _ _ _ (He pos)), (prog_bind_run _ _ _ _ _ (Hp pos)). by destruct r.
Qed.

(** C35: The command ends, after one page for every hundred users and an empty
    one, and visits every user once: a user whose update did not fail has his
    address and telephone number encrypted - the row reads back as exactly
    the texts its columns held before - and everything else of the row is as
    it was; a user whose update failed is logged and his row untouched.  Rows
    are neither added nor lost.  With a key that is missing, is no hexadecimal
    or has not 32 bytes the command stops before it touches anything. *)
Theorem migration_contract {D} `{TableLaws User D user_conflict} source fuel key (d : D) pos :
  unique user_conflict (t_rows d) = true -> (length (t_rows d) + 100 <= 100 * fuel)%nat ->
  match local_New key with
  | Ok provider =>
      exists w X, migrate_main source fuel key (mkFle d pos []) = (Ok (), w) /\ t_rows (fle_users w) ≡ₚ X /\
        Forall2 (fun r x =>
          if bool_decide (user_ID r ∈ fle_failed w) then x = r
          else (exists e p, x = set_contacts e p r) /\
               forall pos', of_row (Some (local_provider source provider)) x pos' = (Ok r, pos')) (t_rows d) X
  | _ => exists e, migrate_main source fuel key (mkFle d pos []) = (Err e, mkFle d pos [])
  end.
Proof.
  intros Hu Hfuel. unfold migrate_main. case_bool_decide as Hkey.
  { subst. cbn. by eexists. }
  destruct (local_New key) as [lp|e| |] eqn:Hlp.
  - pose proof (local_lawful source lp (local_New_key _ _ Hlp)) as Hlaw.
    rewrite (prog_bind_run _ _ _ lp (mkFle d pos [])) by done.
    assert (Hstart : progress (local_provider source lp) (t_rows d) (take 0 (sort_Strings (map user_ID (t_rows d)))) (mkFle d pos [])).
    { exists (t_rows d). split; [done|]. split; [done|]. apply Forall_Forall2_diag, Forall_true. done. }
    destruct (migrate_from_run (local_provider source lp) (t_rows d) fuel 0 (mkFle d pos []))
      as (w & Hrun & X & HX & _ & HF); [by apply unique_ids|done|lia|lia|].
    exists w, X. split; [exact Hrun|]. split; [exact HX|].
    rewrite <-(map_id X). eapply Forall2_map_in; [exact HF|]. intros r x Hr Hx. cbv beta in *.
    rewrite bool_decide_eq_true_2 in Hx by (rewrite sort_Strings_perm; by apply list_elem_of_fmap_2).
    unfold migrated in Hx. destruct (bool_decide (user_ID r ∈ fle_failed w)); [done|].
    split; [destruct Hx as (e & p & -> & _); by eexists _, _|]. intros pos'. by apply encrypted_as_reads.
  - exists e. by rewrite (prog_bind_fail _ _ _ e (mkFle d pos [])).
  - unfold local_New in Hlp. by repeat case_match.
  - unfold local_New in Hlp. by repeat case_match.
Qed.

Definition demo_table : list User :=
  [new_user "u1" "ann" "ann@example.org" "h1" UserStatusActive;
   mkUser "u2" "bob" "bob@example.org" "555" "h2" UserStatusActive ∅ ∅ [] 0 0 None None [] "x" "ldap"].

Lemma migration_contract_witness : exists kms w x,
  @migrate_main _ (list_table user_conflict) demo_source 2 demo_key (mkFle demo_table 0%nat []) = (Ok (), w) /\
  x ∈ fle_users w /\ (user_ID x = "u2") /\
  ("u2" ∈ fle_failed w \/ of_row (Some kms) x 0%nat =
     (Ok (mkUser "u2" "bob" "bob@example.org" "555" "h2" UserStatusActive ∅ ∅ [] 0 0 None None [] "x" "ldap"), 0%nat)).
Proof.
  pose proof (@migration_contract (list User) (list_table user_conflict) (list_table_laws user_conflict)
    demo_source 2 demo_key demo_table 0%nat ltac:(vm_compute; reflexivity) ltac:(vm_compute; lia)) as Hc.
  destruct (local_New demo_key) as [lp| | |] eqn:Hlp; try (vm_compute in Hlp; discriminate Hlp).
  destruct Hc as (w & X & Hrun & HX & HF). inversion HF as [|r1 x1 l1 k1 _ HF1]; subst.
  inversion HF1 as [|r2 x2 l2 k2 H2 HF2]; subst.
  exists (local_provider demo_source lp), w, x2. split; [exact Hrun|].
  split; [rewrite HX; apply list_elem_of_further, list_elem_of_here|].
  destruct (bool_decide (user_ID _ ∈ fle_failed w)) eqn:Hf in H2.
  - apply bool_decide_eq_true in Hf. subst x2. split; [reflexivity|left; exact Hf].
  - destruct H2 as [(e & p & ->) Hread]. split; [reflexivity|right; apply Hread].
Defined.
