(* ===== verification/Redis.v ===== *)
(** * What the program uses of Redis

    internal/storage/redis reaches Redis through [RedisClientInterface]; the
    server is not part of the program.  [Redis] lists the commands the modelled
    code calls, [RedisLaws] what their documentation says of them on a server
    that answers, in terms of two views: the live value of a key at a time, and
    the members of a sorted set in rank order.  [memory_redis] satisfies the
    laws. *)

From S2P Require Import Prelude Types.
From Stdlib Require Import Ascii.
Local Open Scope Z_scope.

Definition redis_Nil : error := Errorf "redis: nil".

Class Redis (C : Type) := {
  r_Get : time -> string -> prog C error string;
  r_Exists : time -> string -> prog C error Z;
  r_Set : time -> string -> string -> Z -> prog C error unit;
  r_SetNX : time -> string -> string -> Z -> prog C error bool;
  r_Del : string -> prog C error unit;
  r_MGet : time -> list string -> prog C error (list (option string));
  r_ZAdd : string -> Z -> string -> prog C error unit;
  r_ZRem : string -> string -> prog C error Z;
  r_ZCard : string -> prog C error Z;
  r_ZRange : string -> Z -> Z -> prog C error (list string);
  r_ZRemRangeByRank : string -> Z -> Z -> prog C error Z
}.

(** A value written at [now] with a lifetime is there before it is over; a
    lifetime of zero means no expiry. *)
Definition lives (now ttl t : Z) : bool := bool_decide (ttl = 0) || bool_decide (t < now + ttl).

(** The ranks [start..stop] of a list, a negative [stop] counting from the
    end. *)
Definition rank_end (stop : Z) (n : nat) : nat :=
  Z.to_nat (if bool_decide (stop < 0) then Z.of_nat n + stop + 1 else stop + 1).

Class RedisLaws (C : Type) `{Redis C} := {
  kv : C -> time -> string -> option string;
  zmembers : C -> string -> list string;
  law_Get c t k : r_Get t k c =
    (match kv c t k with Some v => Ok v | None => Err redis_Nil end, c);
  law_Exists c t k : r_Exists t k c = (Ok (if bool_decide (kv c t k = None) then 0 else 1), c);
  law_Set c now k v ttl : exists c', r_Set now k v ttl c = (Ok (), c') /\
    (forall t k', kv c' t k' = if decide (k = k') then (if lives now ttl t then Some v else None)
                               else kv c t k') /\
    (forall z, zmembers c' z = zmembers c z);
  law_SetNX c now k v ttl : kv c now k = None -> exists c', r_SetNX now k v ttl c = (Ok true, c') /\
    (forall t k', kv c' t k' = if decide (k = k') then (if lives now ttl t then Some v else None)
                               else kv c t k') /\
    (forall z, zmembers c' z = zmembers c z);
  law_SetNX_taken c now k v ttl : kv c now k <> None -> r_SetNX now k v ttl c = (Ok false, c);
  law_Del c k : exists c', r_Del k c = (Ok (), c') /\
    (forall t k', kv c' t k' = if decide (k = k') then None else kv c t k') /\
    (forall z, zmembers c' z = zmembers c z);
  law_MGet c t ks : r_MGet t ks c = (Ok (kv c t <$> ks), c);
  law_ZAdd c z score m : exists c', r_ZAdd z score m c = (Ok (), c') /\
    (forall t k, kv c' t k = kv c t k) /\
    (forall z', z' <> z -> zmembers c' z' = zmembers c z') /\
    zmembers c' z ≡ₚ m :: filter (fun x => x <> m) (zmembers c z);
  law_ZRem c z m : exists n c', r_ZRem z m c = (Ok n, c') /\
    (forall t k, kv c' t k = kv c t k) /\
    (forall z', z' <> z -> zmembers c' z' = zmembers c z') /\
    zmembers c' z = filter (fun x => x <> m) (zmembers c z);
  law_ZCard c z : r_ZCard z c = (Ok (Z.of_nat (length (zmembers c z))), c);
  law_ZRange_all c z : r_ZRange z 0 (-1) c = (Ok (zmembers c z), c);
  law_ZRemRangeByRank c z stop : 0 <= stop -> exists n c',
    r_ZRemRangeByRank z 0 stop c = (Ok n, c') /\
    (forall t k, kv c' t k = kv c t k) /\
    (forall z', z' <> z -> zmembers c' z' = zmembers c z') /\
    zmembers c' z = drop (rank_end stop (length (zmembers c z))) (zmembers c z)
}.

(** ** A reference server *)
Record redis_state := mkRedis {
  rd_values : gmap string (string * Z * Z);
  rd_zsets : gmap string (list (Z * string))
}.

Definition rd_kv (c : redis_state) (t : time) (k : string) : option string :=
  match rd_values c !! k with
  | Some (v, now, ttl) => if lives now ttl t then Some v else None
  | None => None
  end.
Definition rd_zset (c : redis_state) (z : string) : list (Z * string) := default [] (rd_zsets c !! z).

(** Members are ordered by score, then by name. *)
Fixpoint zinsert (x : Z * string) (l : list (Z * string)) : list (Z * string) :=
  match l with
  | [] => [x]
  | y :: l' =>
      if bool_decide (x.1 < y.1) || (bool_decide (x.1 = y.1) && String.leb x.2 y.2)
      then x :: l else y :: zinsert x l'
  end.
Definition zremove (m : string) (l : list (Z * string)) : list (Z * string) :=
  filter (fun x => x.2 <> m) l.

Definition set_value k v now ttl (c : redis_state) : redis_state :=
  mkRedis (<[k := (v, now, ttl)]> (rd_values c)) (rd_zsets c).
Definition set_zset z l (c : redis_state) : redis_state :=
  mkRedis (rd_values c) (<[z := l]> (rd_zsets c)).

#[global] Instance memory_redis : Redis redis_state := {
  r_Get t k c := (match rd_kv c t k with Some v => Ok v | None => Err redis_Nil end, c);
  r_Exists t k c := (Ok (if bool_decide (rd_kv c t k = None) then 0 else 1), c);
  r_Set now k v ttl c := (Ok (), set_value k v now ttl c);
  r_SetNX now k v ttl c := match rd_kv c now k with
                           | Some _ => (Ok false, c)
                           | None => (Ok true, set_value k v now ttl c)
                           end;
  r_Del k c := (Ok (), mkRedis (delete k (rd_values c)) (rd_zsets c));
  r_MGet t ks c := (Ok (rd_kv c t <$> ks), c);
  r_ZAdd z score m c := (Ok (), set_zset z (zinsert (score, m) (zremove m (rd_zset c z))) c);
  r_ZRem z m c := (Ok (Z.of_nat (length (rd_zset c z)) - Z.of_nat (length (zremove m (rd_zset c z)))),
                   set_zset z (zremove m (rd_zset c z)) c);
  r_ZCard z c := (Ok (Z.of_nat (length (rd_zset c z))), c);
  r_ZRange z start stop c :=
    let l := (rd_zset c z).*2 in (Ok (drop (Z.to_nat start) (take (rank_end stop (length l)) l)), c);
  r_ZRemRangeByRank z start stop c :=
    let l := rd_zset c z in
    let kept := take (Z.to_nat start) l ++ drop (rank_end stop (length l)) l in
    (Ok (Z.of_nat (length l) - Z.of_nat (length kept)), set_zset z kept c)
}.

Lemma zinsert_perm x l : zinsert x l ≡ₚ x :: l.
Proof.
  induction l as [|y l IH]; [done|]. cbn [zinsert]. destruct (_ || _); [done|].
  rewrite IH. apply Permutation_swap.
Qed.

Lemma zremove_members m l : (zremove m l).*2 = filter (fun x => x <> m) l.*2.
Proof.
  induction l as [|[s x] l IH]; [done|]. unfold zremove in *. cbn [fmap list_fmap].
  rewrite !filter_cons. cbn [snd]. by case_decide; cbn [fmap list_fmap]; rewrite ?IH.
Qed.

Lemma rd_kv_set k v now ttl c t k' :
  rd_kv (set_value k v now ttl c) t k' =
    if decide (k = k') then (if lives now ttl t then Some v else None) else rd_kv c t k'.
Proof. unfold rd_kv, set_value. cbn. rewrite lookup_insert. by case_decide. Qed.

Lemma rd_zset_set z l c z' : rd_zset (set_zset z l c) z' = if decide (z = z') then l else rd_zset c z'.
Proof. unfold rd_zset, set_zset. cbn. rewrite lookup_insert. by case_decide. Qed.

Lemma rd_zset_other z l c z' : z' <> z -> rd_zset (set_zset z l c) z' = rd_zset c z'.
Proof. intros. by rewrite rd_zset_set, decide_False. Qed.

Lemma rd_zset_same z l c : rd_zset (set_zset z l c) z = l.
Proof. by rewrite rd_zset_set, decide_True. Qed.

#[global] Instance memory_redis_laws : RedisLaws redis_state.
Proof.
  refine (Build_RedisLaws _ _ rd_kv (fun c z => (rd_zset c z).*2) _ _ _ _ _ _ _ _ _ _ _ _).
  - done.
  - done.
  - intros c now k v ttl. eexists. split; [done|]. split; [|done]. intros. apply rd_kv_set.
  - intros c now k v ttl Hk. cbn. rewrite Hk. eexists. split; [done|]. split; [|done].
    intros. apply rd_kv_set.
  - intros c now k v ttl Hk. cbn. by destruct (rd_kv c now k).
  - intros c k. eexists. split; [done|]. split; [|done]. intros t k'. unfold rd_kv. cbn.
    rewrite lookup_delete. by case_decide.
  - done.
  - intros c z score m. eexists. split; [done|]. split; [done|]. split.
    + intros z' Hz. by rewrite rd_zset_other.
    + rewrite rd_zset_same, zinsert_perm. cbn [fmap list_fmap snd]. by rewrite zremove_members.
  - intros c z m. eexists _, _. split; [done|]. split; [done|]. split.
    + intros z' Hz. by rewrite rd_zset_other.
    + by rewrite rd_zset_same, zremove_members.
  - intros c z. cbn. by rewrite length_fmap.
  - intros c z. cbn [r_ZRange memory_redis Z.to_nat]. unfold rank_end.
    rewrite bool_decide_eq_true_2 by lia. rewrite drop_0, take_ge; [done|]. lia.
  - intros c z stop Hstop. eexists _, _. split; [done|]. split; [done|]. split.
    + intros z' Hz. by rewrite rd_zset_other.
    + rewrite rd_zset_same. change (take (Z.to_nat 0) (rd_zset c z)) with (@nil (Z * string)).
      rewrite app_nil_l, length_fmap. apply fmap_drop.
Defined.

(** ** Encodings for examples

    A value of a countable type as a string that starts with a brace. *)
Fixpoint pos_str (p : positive) : string :=
  match p with
  | xH => ""
  | xO p => String "0"%char (pos_str p)
  | xI p => String "1"%char (pos_str p)
  end.
Fixpoint str_pos (s : string) : positive :=
  match s with
  | EmptyString => xH
  | String c s => if decide (c = "1"%char) then xI (str_pos s) else xO (str_pos s)
  end.
Lemma str_pos_str p : str_pos (pos_str p) = p.
Proof. induction p as [p IH|p IH|]; cbn; by rewrite ?IH. Qed.

Section Encode.
Context `{Countable A}.

Definition encode_string (x : A) : string := String "{"%char (pos_str (encode x)).
Definition decode_string (s : string) : option A :=
  match s with
  | String c r => if decide (c = "{"%char) then decode (str_pos r) else None
  | EmptyString => None
  end.
Lemma decode_encode_string x : decode_string (encode_string x) = Some x.
Proof. unfold decode_string, encode_string. rewrite decide_True by done. by rewrite str_pos_str, decode_encode. Qed.
End Encode.

#[global] Instance UserSession_countable : Countable UserSession.
Proof.
  apply (inj_countable'
    (fun s => (session_ID s, session_UserID s, session_IPAddress s, session_UserAgent s,
      (session_CreatedAt s, session_ExpiresAt s), session_DeviceFingerprint s, session_LastRotatedAt s))
    (fun '(i, u, a, g, (x, e), d, r) => mkUserSession i u a g x e d r)).
  by intros [].
Defined.
