(* ===== verification/RedisStores.v ===== *)
(** * The client of Redis and what is stored through it

    The client of internal/storage/redis/client.go sends every command through
    the library, counts it, and connects with growing pauses.  Over it stand
    the sessions (session.go) and the tokens (cache.go) that the authentication
    service uses in production, and the cache of internal/cache.  The
    repositories in memory (MemAuth.v) are their specification but for the
    lifetimes, which only Redis keeps. *)

From S2P Require Import Prelude Types GoStd Redis MemAuth.
Local Open Scope Z_scope.

(** ** The client *)
Inductive command := CGet | CExists | CSet | CSetNX | CDel | CMGet | CZAdd | CZRem | CZCard | CZRange
  | CZRemRangeByRank | CSetEx.
#[global] Instance command_eq_dec : EqDecision command.
Proof. solve_decision. Defined.

(** The connection of the library and what the hook has counted, by the name of
    the command, and whether [Close] was called. *)
Record redisClient (C : Type) := mkRedisClient {
  rc_client : C;
  rc_Commands : string -> Z;
  rc_Errors : string -> Z;
  rc_stopped : bool
}.
Arguments mkRedisClient {C}.
Arguments rc_client {C}.
Arguments rc_Commands {C}.
Arguments rc_Errors {C}.
Arguments rc_stopped {C}.

(** [SETEX]: a lifetime in whole seconds, which has to be positive. *)
Class RedisEx (C : Type) := { r_SetEx : time -> string -> string -> Z -> prog C error unit }.
Class RedisExLaws (C : Type) `{RedisLaws C} `{!RedisEx C} := {
  granted : Z -> Z;
  law_granted d : 0 < d -> 0 < granted d /\ Z.abs (granted d - d) < Second;
  law_granted_whole n : 0 < n -> granted (n * Second) = n * Second;
  law_SetEx c now k v d : 0 < d -> exists c', r_SetEx now k v d c = (Ok (), c') /\
    (forall t k', kv c' t k' = if decide (k = k') then (if lives now (granted d) t then Some v else None)
                               else kv c t k') /\
    (forall z, zmembers c' z = zmembers c z);
  law_SetEx_bad c now k v d : d <= 0 -> exists e, r_SetEx now k v d c = (Err e, c)
}.

Definition Inc (name : string) (counter : string -> Z) : string -> Z :=
  fun n => counter n + (if bool_decide (n = name) then 1 else 0).

Section Client.
Context {C : Type} (Name : command -> string).

(** [ProcessHook]: the command runs, then it is counted; a missing key is not
    an error. *)
Definition ProcessHook {A} (cmd : command) (next : prog C error A) : prog (redisClient C) error A := fun s =>
  let '(r, c) := next (rc_client s) in
  let failed := match r with Err e => negb (bool_decide (e = redis_Nil)) | _ => false end in
  (r, mkRedisClient c (Inc (Name cmd) (rc_Commands s))
        (if failed then Inc (Name cmd) (rc_Errors s) else rc_Errors s) (rc_stopped s)).

Context `{Redis C, !RedisEx C}.

#[local] Instance client_commands : Redis (redisClient C) := {|
  r_Get t k := ProcessHook CGet (r_Get t k);
  r_Exists t k := ProcessHook CExists (r_Exists t k);
  r_Set now k v ttl := ProcessHook CSet (r_Set now k v ttl);
  r_SetNX now k v ttl := ProcessHook CSetNX (r_SetNX now k v ttl);
  r_Del k := ProcessHook CDel (r_Del k);
  r_MGet t ks := ProcessHook CMGet (r_MGet t ks);
  r_ZAdd z score m := ProcessHook CZAdd (r_ZAdd z score m);
  r_ZRem z m := ProcessHook CZRem (r_ZRem z m);
  r_ZCard z := ProcessHook CZCard (r_ZCard z);
  r_ZRange z start stop := ProcessHook CZRange (r_ZRange z start stop);
  r_ZRemRangeByRank z start stop := ProcessHook CZRemRangeByRank (r_ZRemRangeByRank z start stop)
|}.
#[local] Instance client_setex : RedisEx (redisClient C) := {|
  r_SetEx now k v d := ProcessHook CSetEx (r_SetEx now k v d)
|}.
End Client.

(** [Close]: the channel that stops the goroutines can be closed once. *)
Definition Close {C} : prog (redisClient C) error unit := fun s =>
  if rc_stopped s then (Panic, s)
  else (Ok (), mkRedisClient (rc_client s) (rc_Commands s) (rc_Errors s) true).

(** ** Connecting

    [ping t] is what the server answers at an instant; a call takes no time. *)
Record RetryConfig := mkRetryConfig { MaxAttempts : Z; InitialBackoff : Z; MaxBackoff : Z }.

Section Connect.
Context (ping : time -> bool).

(** The loop: the answer, the instant it is given at, the number of pings. *)
Fixpoint attempts (n : nat) (maxBackoff backoff : Z) (now : time) : bool * time * nat :=
  match n with
  | O => (false, now, O)
  | S n =>
      if ping now then (true, now, 1%nat)
      else
        let next := int64 (backoff * 2) in
        let next := if bool_decide (maxBackoff < next) then maxBackoff else next in
        let '(ok, t, k) := attempts n maxBackoff next (now + Z.max 0 backoff) in (ok, t, S k)
  end.

Definition backoff_or (x d : Z) : Z := if bool_decide (x = 0) then d else x.

Definition reconnectWithBackoff (cfg : RetryConfig) (now : time) : res error unit * time * nat :=
  let backoff := backoff_or (InitialBackoff cfg) (1 * Second) in
  let maxBackoff := backoff_or (MaxBackoff cfg) (10 * Second) in
  let maxAttempts := backoff_or (MaxAttempts cfg) 3 in
  let '(ok, t, k) := attempts (Z.to_nat maxAttempts) maxBackoff backoff now in
  (if ok then Ok () else Err (Errorf ("max retries exceeded (" +:+ pretty maxAttempts +:+ ")")), t, k).

(** [warmUp] *)
Fixpoint ping_each (n : nat) (now : time) : bool :=
  match n with O => true | S n => ping now && ping_each n now end.
Definition warmUp (MinIdleConns : Z) (now : time) : bool := ping_each (Z.to_nat MinIdleConns) now.
End Connect.

(** [NewRedisClient]: five seconds for the whole, which end the pings and not
    the pauses; the result of warming up is dropped. *)
Definition NewRedisClient (ping : time -> bool) (cfg : RetryConfig) (MinIdleConns : Z) (now : time) :
    res error unit * time :=
  let ping := fun t => bool_decide (t < now + 5 * Second) && ping t in
  let '(r, t, _) := reconnectWithBackoff ping cfg now in
  match r with
  | Err e => (Err (Wrapf "initial redis connection failed: " e), t)
  | r => let _ := warmUp ping MinIdleConns t in (r, t)
  end.

(** ** Values as JSON *)
Class Codec (A : Type) := { Marshal : A -> string; Unmarshal : string -> option A }.
Class CodecLaws (A : Type) `{Codec A} := { law_codec x : Unmarshal (Marshal x) = Some x }.

Definition json_failure : error := Errorf "json".
Definition parsing {A} `{Codec A} (msg text : string) : res error A :=
  match Unmarshal text with Some x => Ok x | None => Err (Wrapf msg json_failure) end.

(** pkg/types/auth.go *)
Record BearerToken := mkBearerToken {
  bt_AccessToken : string; bt_RefreshToken : string; bt_TokenType : string; bt_ExpiresIn : Z; bt_IDToken : string
}.
#[global] Instance BearerToken_eq_dec : EqDecision BearerToken.
Proof. solve_decision. Defined.

(** ** session.go *)
Module RedisSessionRepository.
Section Sessions.
Context `{Redis C, !Codec UserSession}.
Notation rs A := (prog C error A).

Definition session_key (id : string) : string := "session:" +:+ id.

Definition CreateSession (now : time) (session : UserSession) (ttl : Z) : rs unit :=
  r_Set now (session_key (session_ID session)) (Marshal session) ttl.
Definition GetSession (now : time) (sessionID : string) : rs UserSession :=
  data ← wrapping "failed to get session: " (r_Get now (session_key sessionID));
  lift (parsing "failed to unmarshal session: " data).
Definition DeleteSession (sessionID : string) : rs unit := r_Del (session_key sessionID).
Definition GetUserSessions (userID : string) : rs (list UserSession) := throw (Errorf "not implemented").
End Sessions.
End RedisSessionRepository.

(** ** cache.go *)
Module RedisTokenRepository.
Section Tokens.
Context `{Redis C, !RedisEx C, !Codec BearerToken}.
Notation rt A := (prog C error A).

Definition token_key (t : string) : string := "token:" +:+ t.
Definition refresh_key (t : string) : string := "refresh_token:" +:+ t.
Definition deny_key (jti : string) : string := "deny_list:" +:+ jti.

Definition token_ttl (token : BearerToken) : Z :=
  let expiration := int64 (bt_ExpiresIn token * Second) in
  if bool_decide (expiration <= 0) then Hour else expiration.
Definition SaveToken (now : time) (token : BearerToken) : rt unit :=
  r_Set now (token_key (bt_AccessToken token)) (Marshal token) (token_ttl token).

(** [errors.Is(err, redis.Nil)] *)
Definition or_not_found {A} (msg : string) (m : rt A) : rt A :=
  answer ← try m;
  match answer with
  | inl err => throw (if bool_decide (err = redis_Nil) then Sentinel ErrNotFound else Wrapf msg err)
  | inr x => mret x
  end.
Definition FetchToken (now : time) (accessToken : string) : rt BearerToken :=
  data ← or_not_found "could not fetch token from redis: " (r_Get now (token_key accessToken));
  lift (parsing "could not unmarshal token: " data).
Definition DeleteToken (accessToken : string) : rt unit := r_Del (token_key accessToken).

Definition StoreRefreshToken (now : time) (token userID : string) (duration : Z) : rt unit :=
  r_SetEx now (refresh_key token) userID duration.
Definition GetRefreshTokenUserID (now : time) (token : string) : rt string :=
  or_not_found "redis get: " (r_Get now (refresh_key token)).
Definition DeleteRefreshToken (token : string) : rt unit := r_Del (refresh_key token).

Definition AddToDenyList (now : time) (jti : string) (duration : Z) : rt unit :=
  r_SetEx now (deny_key jti) "" duration.
Definition IsInDenyList (now : time) (jti : string) : rt bool :=
  val ← wrapping "redis exists: " (r_Exists now (deny_key jti));
  mret (bool_decide (val = 1)).
End Tokens.
End RedisTokenRepository.

(** ** The cache of internal/cache

    [rand.Intn n] panics unless [n] is positive; [draw] is what the generator
    gives.  The users come from a repository; the result of writing a user to
    the cache is dropped. *)
Module RedisCache.
Definition ErrCacheMiss : error := Errorf "item not found in cache".

Definition Intn (draw n : Z) : res error Z := if bool_decide (n <= 0) then Panic else Ok (draw mod n).

Section RedisCache.
Context `{Redis C, !Codec User} {R : Type} (GetUserByID : string -> prog R error User).
Notation rc A := (prog (C * R) error A).

Definition on_cache {A} (m : prog C error A) : rc A := zoom fst (fun c s => (c, s.2)) m.
Definition on_users {A} (m : prog R error A) : rc A := zoom snd (fun r s => (s.1, r)) m.

Definition user_ttl (offset : Z) : Z := 5 * Minute + (offset - 30) * Second.

Definition GetUser (now : time) (draw : Z) (userID : string) : rc User :=
  let cacheKey := "user:" +:+ userID in
  cached ← try (on_cache (r_Get now cacheKey));
  match (match cached with inr text => Unmarshal text | inl _ => None end) with
  | Some user => mret user
  | None =>
      user ← on_users (GetUserByID userID);
      offset ← lift (Intn draw 60);
      try (on_cache (r_Set now cacheKey (Marshal user) (user_ttl offset))) ;;
      mret user
  end.

(** Values of a type that the caller chooses. *)
Section Values.
Context `{Codec A}.

Definition cached_SetSession (now : time) (draw : Z) (sessionID : string) (sessionData : A) : prog C error unit :=
  offset ← lift (Intn draw 180);
  r_Set now ("session:" +:+ sessionID) (Marshal sessionData) (30 * Minute + (offset - 90) * Second).

Definition or_miss {B} (m : prog C error B) : prog C error B :=
  answer ← try m;
  match answer with
  | inl err => throw (if bool_decide (err = redis_Nil) then ErrCacheMiss else err)
  | inr x => mret x
  end.
Definition decoded (text : string) : res error A :=
  match Unmarshal text with Some x => Ok x | None => Err json_failure end.
Definition cached_GetSession (now : time) (sessionID : string) : prog C error A :=
  cached ← or_miss (r_Get now ("session:" +:+ sessionID)); lift (decoded cached).

Definition SetAccessToken (now : time) (draw : Z) (accessToken : string) (tokenData : A) (expiration : Z) :
    prog C error unit :=
  let part n := int_of_float (fdiv (Seconds expiration) (float_of_Z n)) in
  offset ← lift (Intn draw (part 10));
  let randomOffset := int64 (int64 (offset - part 20) * Second) in
  r_Set now ("token:" +:+ accessToken) (Marshal tokenData) (int64 (expiration + randomOffset)).
Definition GetAccessToken (now : time) (accessToken : string) : prog C error A :=
  cached ← or_miss (r_Get now ("token:" +:+ accessToken)); lift (decoded cached).
End Values.
End RedisCache.
End RedisCache.

(** ** The client is transparent and counts every command *)
Section ClientFacts.
Context {C A : Type} (Name : command -> string).
Implicit Types (s : redisClient C) (l : list (command * prog C error A)).

(** The calls one after the other, whatever they answer. *)
Fixpoint run_calls {S} (call : command -> prog C error A -> prog S error A) l (s : S) : list (res error A) * S :=
  match l with
  | [] => ([], s)
  | (cmd, m) :: l =>
      let '(r, s) := call cmd m s in
      let '(rs, s) := run_calls call l s in (r :: rs, s)
  end.

Definition named (n : string) (p : command * prog C error A) : bool := bool_decide (Name p.1 = n).
Definition is_failure (r : res error A) : bool :=
  match r with Err e => negb (bool_decide (e = redis_Nil)) | _ => false end.
Definition count {B} (p : B -> bool) (k : list B) : Z := Z.of_nat (length (List.filter p k)).

Lemma count_cons {B} (p : B -> bool) x (k : list B) : count p (x :: k) = (if p x then 1 else 0) + count p k.
Proof. unfold count. cbn. destruct (p x); cbn [length]; lia. Qed.

(** Through the client every call answers what the library answers and leaves
    the connection as the library does; for each name, the first counter grows
    by the calls and the second by those that failed otherwise than by finding
    no key. *)
Theorem client_counts l s :
  let '(rs, s') := run_calls (ProcessHook Name) l s in
  (rs, rc_client s') = run_calls (fun _ m => m) l (rc_client s) /\
  rc_stopped s' = rc_stopped s /\
  forall n, rc_Commands s' n = rc_Commands s n + count (named n) l /\
    rc_Errors s' n = rc_Errors s n + count (fun x => named n x.1 && is_failure x.2) (combine l rs) /\
    0 <= rc_Errors s' n - rc_Errors s n <= rc_Commands s' n - rc_Commands s n.
Proof.
  revert s. induction l as [|[cmd m] l IH]; intros s; cbn [run_calls].
  { unfold count. cbn. repeat split; lia. }
  unfold ProcessHook at 1. destruct (m (rc_client s)) as [r c] eqn:Hm. fold (is_failure r).
  set (s1 := mkRedisClient _ _ _ _). specialize (IH s1). destruct (run_calls (ProcessHook Name) l s1) as [rs s'].
  cbn [combine] in *. destruct IH as (Hrun & Hstop & Hcount). change (rc_client s1) with c in Hrun.
  rewrite <- Hrun. split; [done|]. split; [by rewrite Hstop|]. intros n.
  destruct (Hcount n) as (-> & -> & Hle). rewrite !count_cons. cbn [fst snd].
  assert (rc_Commands s1 n = rc_Commands s n + if named n (cmd, m) then 1 else 0) as Hc.
  { unfold s1, Inc, named. cbn [rc_Commands fst]. by repeat case_bool_decide. }
  assert (rc_Errors s1 n = rc_Errors s n + if named n (cmd, m) && is_failure r then 1 else 0) as He.
  { unfold s1, Inc, named. cbn [rc_Errors fst].
    destruct (is_failure r); [rewrite andb_true_r; by repeat case_bool_decide|rewrite andb_false_r; lia]. }
  rewrite Hc, He. destruct (named n (cmd, m)), (is_failure r); cbn [andb]; lia.
Qed.
End ClientFacts.

(** ** Histories of the two stores *)
Inductive slot := SessionSlot (id : string) | TokenSlot (token : string) | DenySlot (jti : string).
Inductive payload := PSession (s : UserSession) | PToken (userID : string) | PDeny.
Inductive store_op :=
  | OpCreateSession (s : UserSession) (ttl : Z)
  | OpDeleteSession (id : string)
  | OpStoreRefresh (token userID : string) (duration : Z)
  | OpDeleteRefresh (token : string)
  | OpDeny (jti : string) (duration : Z).
#[global] Instance slot_eq_dec : EqDecision slot.
Proof. solve_decision. Defined.

(** What an operation writes: the slot, and the value with its lifetime. *)
Definition writes (o : store_op) : slot * option (payload * Z) :=
  match o with
  | OpCreateSession s ttl => (SessionSlot (session_ID s), Some (PSession s, ttl))
  | OpDeleteSession id => (SessionSlot id, None)
  | OpStoreRefresh token userID d => (TokenSlot token, Some (PToken userID, d))
  | OpDeleteRefresh token => (TokenSlot token, None)
  | OpDeny jti d => (DenySlot jti, Some (PDeny, d))
  end.
Definition lasting (o : time * store_op) : Prop :=
  match (writes o.2).2 with Some (_, d) => 0 < d | None => True end.

(** The last write to a slot, with its instant *)
Definition last_put (s : slot) (h : list (time * store_op)) : option (time * payload * Z) :=
  foldl (fun acc o => let '(s', w) := writes o.2 in
           if decide (s' = s) then (fun p => (o.1, p.1, p.2)) <$> w else acc) None h.

(** The repository in memory, which only keeps the lifetimes of the deny
    list. *)
Definition memory_step (o : time * store_op) : prog auth_repo error unit :=
  match o.2 with
  | OpCreateSession s ttl => MemAuth.CreateSession s ttl
  | OpDeleteSession id => MemAuth.DeleteSession id
  | OpStoreRefresh token userID d => MemAuth.StoreRefreshToken token userID d
  | OpDeleteRefresh token => MemAuth.DeleteRefreshToken token
  | OpDeny jti d => MemAuth.AddToDenyList o.1 jti d
  end.
Definition memory_view (t : time) (s : slot) (h : list (time * store_op)) : option payload :=
  match last_put s h with
  | Some (t0, p, d) =>
      match s with DenySlot _ => if bool_decide (t <= t0 + d) then Some p else None | _ => Some p end
  | None => None
  end.

Section Histories.
Context `{RedisExLaws C} `{!Codec UserSession, !CodecLaws UserSession}.
Implicit Types h : list (time * store_op).

Definition redis_step (o : time * store_op) : prog C error unit :=
  match o.2 with
  | OpCreateSession s ttl => RedisSessionRepository.CreateSession o.1 s ttl
  | OpDeleteSession id => RedisSessionRepository.DeleteSession id
  | OpStoreRefresh token userID d => RedisTokenRepository.StoreRefreshToken o.1 token userID d
  | OpDeleteRefresh token => RedisTokenRepository.DeleteRefreshToken token
  | OpDeny jti d => RedisTokenRepository.AddToDenyList o.1 jti d
  end.
Definition lifetime (s : slot) (d : Z) : Z := match s with SessionSlot _ => d | _ => granted d end.
Definition redis_view (t : time) (s : slot) h : option payload :=
  match last_put s h with
  | Some (t0, p, d) => if bool_decide (t < t0 + lifetime s d) then Some p else None
  | None => None
  end.

Definition slot_key (s : slot) : string :=
  match s with
  | SessionSlot id => RedisSessionRepository.session_key id
  | TokenSlot token => RedisTokenRepository.refresh_key token
  | DenySlot jti => RedisTokenRepository.deny_key jti
  end.
Definition payload_text (p : payload) : string :=
  match p with PSession s => Marshal s | PToken userID => userID | PDeny => "" end.

Lemma slot_key_inj s s' : slot_key s = slot_key s' -> s = s'.
Proof.
  destruct s, s'; cbn; unfold RedisSessionRepository.session_key, RedisTokenRepository.refresh_key,
    RedisTokenRepository.deny_key; intros Hk; try done; f_equal; by apply (inj (String.append _)) in Hk.
Qed.

Lemma last_put_snoc s h o :
  last_put s (h ++ [o]) =
    (let '(s', w) := writes o.2 in if decide (s' = s) then (fun p => (o.1, p.1, p.2)) <$> w else last_put s h).
Proof. unfold last_put. by rewrite foldl_app. Qed.

Lemma for_each_snoc {S E A} (body : A -> prog S E unit) l x s s' :
  for_each body l s = (Ok (), s') -> for_each body (l ++ [x]) s = body x s'.
Proof.
  revert s. induction l as [|y l IH]; intros s; cbn.
  - intros [= <-]. unfold mbind, prog_bind. by destruct (body x s) as [[[]| | |] ?].
  - unfold mbind, prog_bind. destruct (body y s) as [[[]| | |] s1]; try done. apply IH.
Qed.

Lemma redis_step_run o c : lasting o -> exists c', redis_step o c = (Ok (), c') /\
  forall t s, kv c' t (slot_key s) =
    if decide ((writes o.2).1 = s) then
      match (writes o.2).2 with
      | Some (p, d) => if bool_decide (t < o.1 + lifetime s d) then Some (payload_text p) else None
      | None => None
      end
    else kv c t (slot_key s).
Proof.
  assert (Hlive : forall now d t, 0 < d -> lives now d t = bool_decide (t < now + d)).
  { intros now d t Hd. unfold lives. by rewrite (bool_decide_eq_false_2 (d = 0)) by lia. }
  assert (Hkey : forall (A : Type) s s' (x y : A),
    (if decide (slot_key s = slot_key s') then x else y) = if decide (s = s') then x else y).
  { intros A s s' x y. destruct (decide (s = s')) as [->|Hne]; [by rewrite decide_True|].
    rewrite decide_False; [done|]. by intros ?%slot_key_inj. }
  destruct o as [now []]; cbn [redis_step fst snd writes]; unfold lasting; cbn; intros Hd.
  - destruct (law_Set c now (slot_key (SessionSlot (session_ID s))) (Marshal s) ttl) as (c' & Hrun & Hkv & _).
    exists c'. split; [exact Hrun|]. intros t s'. rewrite Hkv, Hkey, Hlive by done. by destruct (decide _) as [<-|].
  - destruct (law_Del c (slot_key (SessionSlot id))) as (c' & Hrun & Hkv & _).
    exists c'. split; [exact Hrun|]. intros t s'. by rewrite Hkv, Hkey.
  - destruct (law_SetEx c now (slot_key (TokenSlot token)) userID duration Hd) as (c' & Hrun & Hkv & _).
    exists c'. split; [exact Hrun|]. intros t s'. rewrite Hkv, Hkey, Hlive by (by apply law_granted).
    by destruct (decide _) as [<-|].
  - destruct (law_Del c (slot_key (TokenSlot token))) as (c' & Hrun & Hkv & _).
    exists c'. split; [exact Hrun|]. intros t s'. by rewrite Hkv, Hkey.
  - destruct (law_SetEx c now (slot_key (DenySlot jti)) "" duration Hd) as (c' & Hrun & Hkv & _).
    exists c'. split; [exact Hrun|]. intros t s'. rewrite Hkv, Hkey, Hlive by (by apply law_granted).
    by destruct (decide _) as [<-|].
Qed.

Lemma redis_history h c :
  Forall lasting h -> (forall t s, kv c t (slot_key s) = None) ->
  exists c', for_each redis_step h c = (Ok (), c') /\
    forall t s, kv c' t (slot_key s) = payload_text <$> redis_view t s h.
Proof.
  intros Hh Hc. induction h as [|o h IH] using rev_ind; [by exists c|].
  apply Forall_app in Hh as [Hh [Ho _]%Forall_cons]. destruct (IH Hh) as (c1 & Hrun & Hkv).
  destruct (redis_step_run o c1 Ho) as (c' & Hstep & Hkv'). exists c'.
  split; [by rewrite (for_each_snoc _ _ _ _ _ Hrun)|]. intros t s. rewrite Hkv'. unfold redis_view.
  rewrite last_put_snoc. destruct (writes o.2) as [s' w]. cbn [fst snd].
  destruct (decide (s' = s)) as [->|]; [|by rewrite Hkv]. destruct w as [[p d]|]; [|done]. cbn.
  by case_bool_decide.
Qed.
End Histories.

Lemma last_put_lasting s h t0 p d : Forall lasting h -> last_put s h = Some (t0, p, d) -> 0 < d.
Proof.
  intros Hh. induction h as [|[t o] h IH] using rev_ind; [done|].
  apply Forall_app in Hh as [Hh [Ho _]%Forall_cons]. rewrite last_put_snoc. unfold lasting in Ho. cbn [fst snd] in *.
  destruct (writes o) as [s' [[q e]|]]; cbn in *; case_decide; try done; try (by apply IH). by intros [= _ _ <-].
Qed.

(** ** The memory repository on the same history *)
Section MemoryHistory.
Implicit Types h : list (time * store_op).

Definition memory_slot (t : time) (r : auth_repo) (s : slot) : option payload :=
  match s with
  | SessionSlot id => PSession <$> sessions r !! id
  | TokenSlot token => PToken <$> refreshTokens r !! token
  | DenySlot jti => match denyList r !! jti with
                    | Some expiry => if bool_decide (expiry < t) then None else Some PDeny
                    | None => None
                    end
  end.

(** What is written to a slot has the type of the slot. *)
Lemma last_put_typed s h t0 p d : last_put s h = Some (t0, p, d) ->
  match s, p with SessionSlot _, PSession _ | TokenSlot _, PToken _ | DenySlot _, PDeny => True | _, _ => False end.
Proof.
  induction h as [|[t o] h IH] using rev_ind; [done|]. rewrite last_put_snoc. cbn [fst snd].
  destruct o; cbn; case_decide as Hs; try exact IH; try done; subst s; cbn; by intros [= <- <- <-].
Qed.

Lemma memory_history h :
  exists r, for_each memory_step h NewAuthMemoryRepository = (Ok (), r) /\
    forall t s, memory_slot t r s = memory_view t s h.
Proof.
  induction h as [|[now o] h (r & Hrun & Hslot)] using rev_ind; [exists NewAuthMemoryRepository; by split; [|intros t []]|].
  exists (memory_step (now, o) r).2. rewrite (for_each_snoc _ _ _ _ _ Hrun).
  split; [by destruct o|]. intros t s. specialize (Hslot t s). unfold memory_view in *.
  rewrite last_put_snoc. cbn [fst snd].
  destruct o, s; cbn [writes memory_step MemAuth.CreateSession MemAuth.DeleteSession MemAuth.StoreRefreshToken
    MemAuth.DeleteRefreshToken MemAuth.AddToDenyList modify fst snd memory_slot set_sessions set_refreshTokens set_denyList
    sessions refreshTokens denyList] in *; rewrite ?lookup_insert, ?lookup_delete; try exact Hslot;
    repeat case_decide; try congruence; try exact Hslot; cbn; try done.
  all: repeat case_bool_decide; done || lia.
Qed.

Lemma memory_denied r h t jti : memory_slot t r (DenySlot jti) = memory_view t (DenySlot jti) h ->
  MemAuth.IsInDenyList t jti r = (Ok (match memory_view t (DenySlot jti) h with Some _ => true | None => false end), r).
Proof.
  intros <-. unfold MemAuth.IsInDenyList. rewrite prog_get_bind. cbn. destruct (denyList r !! jti); [|done].
  by case_bool_decide.
Qed.

Lemma memory_refresh token r : MemAuth.GetRefreshTokenUserID token r =
  (match refreshTokens r !! token with Some u => Ok u | None => Err (Errorf "refresh token not found") end, r).
Proof. unfold MemAuth.GetRefreshTokenUserID. rewrite prog_get_bind. by destruct (refreshTokens r !! token). Qed.

Lemma memory_session id r : MemAuth.GetSession id r =
  (match sessions r !! id with Some s => Ok s | None => Err (Errorf ("session with ID '" +:+ id +:+ "' not found")) end, r).
Proof. unfold MemAuth.GetSession. rewrite prog_get_bind. by destruct (sessions r !! id). Qed.
End MemoryHistory.

(** ** Refinement *)
Section Refinement.
Context `{RedisExLaws C} `{!Codec UserSession, !CodecLaws UserSession}.
Implicit Types h : list (time * store_op).

Lemma live_put t s h p : redis_view t s h = Some p ->
  exists t0 d, last_put s h = Some (t0, p, d) /\ t < t0 + lifetime s d.
Proof.
  unfold redis_view. destruct (last_put s h) as [[[t0 q] d]|]; [|done]. case_bool_decide; [|done]. intros [= <-]. eauto.
Qed.

Lemma redis_refresh c h t token :
  (forall s, kv c t (slot_key s) = payload_text <$> redis_view t s h) ->
  RedisTokenRepository.GetRefreshTokenUserID t token c =
    (match redis_view t (TokenSlot token) h with
     | Some (PToken userID) => Ok userID
     | _ => Err (Sentinel ErrNotFound)
     end, c).
Proof.
  intros Hkv. specialize (Hkv (TokenSlot token)).
  unfold RedisTokenRepository.GetRefreshTokenUserID, RedisTokenRepository.or_not_found, try, mbind, prog_bind.
  rewrite law_Get. change (RedisTokenRepository.refresh_key token) with (slot_key (TokenSlot token)). rewrite Hkv.
  destruct (redis_view t (TokenSlot token) h) as [p|] eqn:Hv; [|done].
  apply live_put in Hv as (t0 & d & Hp & _). apply last_put_typed in Hp. by destruct p.
Qed.

Lemma redis_session c h t id :
  (forall s, kv c t (slot_key s) = payload_text <$> redis_view t s h) ->
  RedisSessionRepository.GetSession t id c =
    (match redis_view t (SessionSlot id) h with
     | Some (PSession s) => Ok s
     | _ => Err (Wrapf "failed to get session: " redis_Nil)
     end, c).
Proof.
  intros Hkv. specialize (Hkv (SessionSlot id)). unfold RedisSessionRepository.GetSession.
  change (RedisSessionRepository.session_key id) with (slot_key (SessionSlot id)).
  pose proof (law_Get c t (slot_key (SessionSlot id))) as Hget. rewrite Hkv in Hget.
  destruct (redis_view t (SessionSlot id) h) as [p|] eqn:Hv; cbn in Hget.
  - apply live_put in Hv as (t0 & d & Hp & _). apply last_put_typed in Hp. destruct p as [s| |]; [|done..].
    rewrite (wrapping_ok _ _ _ _ _ _ Hget). unfold lift, parsing. cbn. by rewrite law_codec.
  - by rewrite (prog_bind_fail _ _ _ _ _ (wrapping_fails _ _ _ _ _ Hget)).
Qed.

Lemma redis_denied c h t jti :
  (forall s, kv c t (slot_key s) = payload_text <$> redis_view t s h) ->
  RedisTokenRepository.IsInDenyList t jti c =
    (Ok (match redis_view t (DenySlot jti) h with Some _ => true | None => false end), c).
Proof.
  intros Hkv. specialize (Hkv (DenySlot jti)). unfold RedisTokenRepository.IsInDenyList.
  pose proof (law_Exists c t (slot_key (DenySlot jti))) as Hex. rewrite Hkv in Hex.
  change (RedisTokenRepository.deny_key jti) with (slot_key (DenySlot jti)).
  rewrite (wrapping_ok _ _ _ _ _ _ Hex). by destruct (redis_view t (DenySlot jti) h).
Qed.

(** C37: the stores of production and of memory, on the same history of
    sessions, refresh tokens and deny-list entries with positive lifetimes.
    Every operation succeeds in both.  What Redis finds, memory finds, with the
    same user or session; Redis finds the last value written and not deleted
    until its lifetime is over - refresh tokens and entries of the deny list
    within a second of the lifetime asked for - and nothing after, while memory
    keeps sessions and tokens for ever.  On the deny list they answer alike but
    in the second around the expiry. *)
Theorem stores_agree h c :
  Forall lasting h -> (forall t s, kv c t (slot_key s) = None) ->
  exists c' r', for_each redis_step h c = (Ok (), c') /\
    for_each memory_step h NewAuthMemoryRepository = (Ok (), r') /\
    (forall t token, exists a b,
       RedisTokenRepository.GetRefreshTokenUserID t token c' = (a, c') /\
       MemAuth.GetRefreshTokenUserID token r' = (b, r') /\
       match last_put (TokenSlot token) h with
       | Some (t0, PToken u, d) => b = Ok u /\ a = if bool_decide (t < t0 + granted d) then Ok u else Err (Sentinel ErrNotFound)
       | _ => is_ok b = false /\ a = Err (Sentinel ErrNotFound)
       end) /\
    (forall t id, exists a b,
       RedisSessionRepository.GetSession t id c' = (a, c') /\ MemAuth.GetSession id r' = (b, r') /\
       match last_put (SessionSlot id) h with
       | Some (t0, PSession s, ttl) =>
           b = Ok s /\ a = if bool_decide (t < t0 + ttl) then Ok s else Err (Wrapf "failed to get session: " redis_Nil)
       | _ => is_ok b = false /\ a = Err (Wrapf "failed to get session: " redis_Nil)
       end) /\
    (forall t jti, exists a b,
       RedisTokenRepository.IsInDenyList t jti c' = (Ok a, c') /\ MemAuth.IsInDenyList t jti r' = (Ok b, r') /\
       match last_put (DenySlot jti) h with
       | Some (t0, _, d) => a = bool_decide (t < t0 + granted d) /\ b = bool_decide (t <= t0 + d) /\
           (Second <= Z.abs (t - (t0 + d)) -> a = b)
       | None => a = false /\ b = false
       end).
Proof.
  intros Hh Hc. destruct (redis_history h c Hh Hc) as (c' & Hrun & Hkv). destruct (memory_history h) as (r' & Hmem & Hslot).
  exists c', r'. split; [done|]. split; [done|]. split; [|split]; intros t name; eexists _, _.
  - split; [exact (redis_refresh c' h t name (Hkv t))|]. split; [apply memory_refresh|].
    specialize (Hslot t (TokenSlot name)). unfold memory_view in Hslot. cbn in Hslot. unfold redis_view.
    destruct (last_put (TokenSlot name) h) as [[[t0 p] d]|] eqn:Hp; [apply last_put_typed in Hp; destruct p as [|u|]; try done|];
      destruct (refreshTokens r' !! name) as [v|]; cbn in Hslot; try done; injection Hslot as [= ->].
    split; [done|]. cbn [lifetime]. by case_bool_decide.
  - split; [exact (redis_session c' h t name (Hkv t))|]. split; [apply memory_session|].
    specialize (Hslot t (SessionSlot name)). unfold memory_view in Hslot. cbn in Hslot. unfold redis_view.
    destruct (last_put (SessionSlot name) h) as [[[t0 p] d]|] eqn:Hp; [apply last_put_typed in Hp; destruct p as [s| |]; try done|];
      destruct (sessions r' !! name) as [v|]; cbn in Hslot; try done; injection Hslot as [= ->].
    split; [done|]. cbn [lifetime]. by case_bool_decide.
  - split; [exact (redis_denied c' h t name (Hkv t))|]. specialize (Hslot t (DenySlot name)). cbn in Hslot.
    split; [exact (memory_denied r' h t name Hslot)|]. unfold redis_view, memory_view.
    destruct (last_put (DenySlot name) h) as [[[t0 p] d]|] eqn:Hp; [|done]. cbn [lifetime].
    split; [by case_bool_decide|]. split; [by case_bool_decide|].
    destruct (law_granted d (last_put_lasting _ _ _ _ _ Hh Hp)). unfold Second in *.
    repeat case_bool_decide; done || lia.
Qed.
End Refinement.

(** ** Access tokens *)
Section AccessTokens.
Context `{RedisLaws C} `{!Codec BearerToken, !CodecLaws BearerToken}.

(** A token that was saved is fetched until its lifetime is over, and not
    after; deleted, it is gone.  A lifetime in seconds that is not positive, or
    that wraps around to a negative duration, counts as an hour. *)
Theorem saved_token now token c :
  exists c', RedisTokenRepository.SaveToken now token c = (Ok (), c') /\
    (forall t, RedisTokenRepository.FetchToken t (bt_AccessToken token) c' =
       (if bool_decide (t < now + RedisTokenRepository.token_ttl token) then Ok token else Err (Sentinel ErrNotFound), c')) /\
    (forall t, exists c'', RedisTokenRepository.DeleteToken (bt_AccessToken token) c' = (Ok (), c'') /\
       RedisTokenRepository.FetchToken t (bt_AccessToken token) c'' = (Err (Sentinel ErrNotFound), c'')) /\
    0 < RedisTokenRepository.token_ttl token.
Proof.
  set (key := RedisTokenRepository.token_key (bt_AccessToken token)).
  assert (0 < RedisTokenRepository.token_ttl token) as Hpos.
  { unfold RedisTokenRepository.token_ttl. case_bool_decide; [done|lia]. }
  assert (Hfetch : forall t c0, RedisTokenRepository.FetchToken t (bt_AccessToken token) c0 =
    match kv c0 t key with
    | Some text => (parsing "could not unmarshal token: " text, c0)
    | None => (Err (Sentinel ErrNotFound), c0)
    end).
  { intros t c0. unfold RedisTokenRepository.FetchToken, RedisTokenRepository.or_not_found, try, mbind, prog_bind.
    rewrite law_Get. fold key. by destruct (kv c0 t key). }
  destruct (law_Set c now key (Marshal token) (RedisTokenRepository.token_ttl token)) as (c' & Hrun & Hkv & _).
  exists c'. split; [exact Hrun|]. split; [|split; [|done]].
  - intros t. rewrite Hfetch, Hkv, decide_True by done. unfold lives. rewrite (bool_decide_eq_false_2 (_ = 0)) by lia.
    cbn [orb]. case_bool_decide; [|done]. unfold parsing. by rewrite law_codec.
  - intros t. destruct (law_Del c' key) as (c'' & Hdel & Hkv' & _). exists c''. split; [exact Hdel|].
    by rewrite Hfetch, Hkv', decide_True.
Qed.
End AccessTokens.

(** ** The cache of users *)
Section CachedUsers.
Context `{RedisLaws C} `{!Codec User} {R : Type} (GetUserByID : string -> prog R error User).
(** What is left of a user in JSON, which has no field for the password *)
Context (public : User -> User).
Context (public_json : forall u, Unmarshal (Marshal u) = Some (public u)).

Definition missing (c : C) (now : time) (userID : string) : Prop :=
  match kv c now ("user:" +:+ userID) with Some text => Unmarshal (A:=User) text = None | None => True end.

Lemma cache_miss now draw userID c r : missing c now userID ->
  RedisCache.GetUser GetUserByID now draw userID (c, r) =
    match GetUserByID userID r with
    | (Ok u, r') => (Ok u, ((r_Set now ("user:" +:+ userID) (Marshal u) (RedisCache.user_ttl (draw mod 60)) c).2, r'))
    | (Err e, r') => (Err e, (c, r'))
    | (Panic, r') => (Panic, (c, r'))
    | (Diverge, r') => (Diverge, (c, r'))
    end.
Proof.
  intros Hmiss. unfold RedisCache.GetUser, try, mbind, prog_bind, RedisCache.on_cache, RedisCache.on_users, zoom.
  cbn [fst snd]. rewrite law_Get. unfold missing in Hmiss.
  assert (match (match kv c now ("user:" +:+ userID) with Some v => @Ok error string v | None => Err redis_Nil end) with
    | Ok text => Unmarshal text | _ => None end = @None User) as Hnone by (by destruct (kv c now _)).
  destruct (kv c now ("user:" +:+ userID)) as [text|]; [rewrite Hmiss|]; cbn [fst snd];
    destruct (GetUserByID userID r) as [[u|e| |] r']; try done; cbn [RedisCache.Intn lift]; unfold RedisCache.Intn;
    rewrite bool_decide_eq_false_2 by lia; cbn [lift fst snd];
    destruct (law_Set c now ("user:" +:+ userID) (Marshal u) (RedisCache.user_ttl (draw mod 60))) as (c' & -> & _); done.
Qed.

(** A user who was not in the cache is answered from the repository and
    cached: for four and a half to five and a half minutes every answer is the
    user as it was then, without the password, whatever the repository has
    become; after that the repository is asked again.  An error of the
    repository is passed on and nothing is cached. *)
Theorem cached_user now draw userID c r :
  missing c now userID ->
  match GetUserByID userID r with
  | (Ok u, r') => exists c' ttl, RedisCache.GetUser GetUserByID now draw userID (c, r) = (Ok u, (c', r')) /\
      270 * Second <= ttl < 330 * Second /\
      (forall t draw' r'', t < now + ttl ->
         RedisCache.GetUser GetUserByID t draw' userID (c', r'') = (Ok (public u), (c', r''))) /\
      (forall t draw' r'', now + ttl <= t ->
         (RedisCache.GetUser GetUserByID t draw' userID (c', r'')).1 = (GetUserByID userID r'').1)
  | (a, r') => RedisCache.GetUser GetUserByID now draw userID (c, r) = (a, (c, r'))
  end.
Proof.
  intros Hmiss. pose proof (cache_miss now draw userID c r Hmiss) as Hrun.
  destruct (GetUserByID userID r) as [[u|e| |] r'] eqn:Hu; try exact Hrun.
  set (ttl := RedisCache.user_ttl (draw mod 60)) in *.
  destruct (law_Set c now ("user:" +:+ userID) (Marshal u) ttl) as (c' & Hset & Hkv & _). rewrite Hset in Hrun.
  assert (270 * Second <= ttl < 330 * Second) as Httl.
  { unfold ttl, RedisCache.user_ttl, Minute, Second. pose proof (Z.mod_pos_bound draw 60 ltac:(lia)). lia. }
  assert (Hget : forall t, kv c' t ("user:" +:+ userID) = if bool_decide (t < now + ttl) then Some (Marshal u) else None).
  { intros t. rewrite Hkv, decide_True by done. unfold lives.
    by rewrite (bool_decide_eq_false_2 (ttl = 0)) by (unfold Second in Httl; lia). }
  exists c', ttl. split; [exact Hrun|]. split; [exact Httl|]. split; intros t draw' r'' Ht.
  - unfold RedisCache.GetUser, try, mbind, prog_bind, RedisCache.on_cache, zoom. cbn [fst snd].
    rewrite law_Get, Hget, bool_decide_eq_true_2 by done. cbn [fst snd]. by rewrite public_json.
  - rewrite cache_miss; [by destruct (GetUserByID userID r'') as [[] ?]|].
    unfold missing. by rewrite Hget, bool_decide_eq_false_2 by lia.
Qed.
End CachedUsers.

(** Caching an access token with less than ten seconds to live panics: a tenth
    of its lifetime is no bound for a random number. *)
Lemma short_token_panics `{Redis C} `{Codec A} now draw accessToken (x : A) n c :
  0 <= n < 10 -> RedisCache.SetAccessToken now draw accessToken x (n * Second) c = (Panic, c).
Proof.
  intros Hn. assert (Hin : n ∈ seqZ 0 10) by (apply elem_of_seqZ; lia).
  apply list_elem_of_In in Hin. vm_compute in Hin. by repeat destruct Hin as [<-|Hin]; [reflexivity..|].
Qed.

(** ** Connecting ends *)
Section Connecting.
Context (ping : time -> bool).

Lemma attempts_bound n maxBackoff backoff now :
  0 <= backoff < 2 ^ 62 -> 0 <= maxBackoff < 2 ^ 62 ->
  let '(ok, t, k) := attempts ping n maxBackoff backoff now in
  (k <= n)%nat /\ now <= t <= now + Z.of_nat n * Z.max backoff maxBackoff /\
  (if ok then ping t = true else k = n).
Proof.
  revert backoff now. induction n as [|n IH]; intros backoff now Hb Hm; cbn [attempts]; [repeat split; lia|].
  destruct (ping now) eqn:Hp; [repeat split; try done; lia|].
  rewrite int64_small by lia. set (next := if bool_decide _ then _ else _).
  assert (0 <= next <= maxBackoff) as Hnext by (unfold next; case_bool_decide; lia).
  specialize (IH next (now + Z.max 0 backoff) ltac:(lia) Hm).
  destruct (attempts ping n maxBackoff next (now + Z.max 0 backoff)) as [[ok t] k].
  destruct IH as (Hk & Ht & Hok). split; [lia|]. split; [|destruct ok; [done|lia]]. nia.
Qed.

(** Connecting ends: no more pings than attempts, and at most the longest pause
    for each; when it succeeds the server answered the last ping, and when it
    does not every attempt was made. *)
Theorem connecting_ends cfg now :
  0 <= InitialBackoff cfg < 2 ^ 62 -> 0 <= MaxBackoff cfg < 2 ^ 62 ->
  let n := Z.to_nat (backoff_or (MaxAttempts cfg) 3) in
  let '(r, t, k) := reconnectWithBackoff ping cfg now in
  (k <= n)%nat /\
  now <= t <= now + Z.of_nat n * Z.max (backoff_or (InitialBackoff cfg) Second) (backoff_or (MaxBackoff cfg) (10 * Second)) /\
  match r with Ok _ => ping t = true | Err _ => k = n | _ => False end.
Proof.
  intros Hi Hm n. unfold reconnectWithBackoff. fold n.
  assert (forall x d, 0 <= x < 2 ^ 62 -> 0 <= d < 2 ^ 62 -> 0 <= backoff_or x d < 2 ^ 62) as Hdef.
  { intros x d Hx Hd. unfold backoff_or. by case_bool_decide. }
  pose proof (attempts_bound n (backoff_or (MaxBackoff cfg) (10 * Second)) (backoff_or (InitialBackoff cfg) (1 * Second)) now
    ltac:(by apply Hdef) ltac:(by apply Hdef)) as Hb.
  destruct (attempts ping n _ _ now) as [[ok t] k]. destruct Hb as (Hk & Ht & Hok).
  split; [exact Hk|]. split; [exact Ht|]. by destruct ok.
Qed.
End Connecting.

(** With the configuration that the server uses a Redis that comes up within
    three seconds is found, and one that does not is given up after seven. *)
Definition server_retry : RetryConfig := mkRetryConfig 0 0 0.
Lemma server_connects up now :
  NewRedisClient (fun t => bool_decide (up <= t)) server_retry 0 now =
    if bool_decide (up <= now) then (Ok (), now)
    else if bool_decide (up <= now + Second) then (Ok (), now + Second)
    else if bool_decide (up <= now + 3 * Second) then (Ok (), now + 3 * Second)
    else (Err (Wrapf "initial redis connection failed: " (Errorf "max retries exceeded (3)")), now + 7 * Second).
Proof.
  unfold NewRedisClient, reconnectWithBackoff, server_retry.
  change (backoff_or (InitialBackoff (mkRetryConfig 0 0 0)) (1 * Second)) with Second.
  change (backoff_or (MaxBackoff (mkRetryConfig 0 0 0)) (10 * Second)) with (10 * Second).
  change (backoff_or (MaxAttempts (mkRetryConfig 0 0 0)) 3) with 3. change (Z.to_nat 3) with 3%nat. cbn [attempts].
  change (int64 (Second * 2)) with (2 * Second).
  rewrite (bool_decide_eq_false_2 (10 * Second < 2 * Second)) by done.
  change (int64 (2 * Second * 2)) with (4 * Second).
  rewrite (bool_decide_eq_false_2 (10 * Second < 4 * Second)) by done.
  replace (now + Z.max 0 Second) with (now + Second) by (unfold Second; lia).
  replace (now + Second + Z.max 0 (2 * Second)) with (now + 3 * Second) by (unfold Second; lia).
  replace (now + 3 * Second + Z.max 0 (4 * Second)) with (now + 7 * Second) by (unfold Second; lia).
  rewrite !(bool_decide_eq_true_2 (_ < now + 5 * Second)) by (unfold Second; lia). cbn [andb].
  repeat case_bool_decide; done.
Qed.

(** ** A concrete history *)
Section Demo.
#[local] Instance memory_setex : RedisEx redis_state := {|
  r_SetEx now k v d c :=
    if bool_decide (d <= 0) then (Err (Errorf "ERR invalid expire time in 'setex' command"), c)
    else (Ok (), set_value k v now (if bool_decide (d < Second) then Second else d / Second * Second) c)
|}.
#[local] Instance memory_setex_laws : RedisExLaws redis_state.
Proof.
  refine {| granted := fun d => if bool_decide (d < Second) then Second else d / Second * Second |}.
  - intros d Hd. unfold Second. case_bool_decide as Hs; [lia|]. Z.to_euclidean_division_equations. lia.
  - intros n Hn. rewrite bool_decide_eq_false_2 by (unfold Second; lia). by rewrite Z.div_mul.
  - intros c now k v d Hd. cbn. rewrite bool_decide_eq_false_2 by lia. eexists. split; [done|].
    split; [|done]. intros t k'. apply rd_kv_set.
  - intros c now k v d Hd. cbn. rewrite bool_decide_eq_true_2 by done. by eexists.
Defined.

#[local] Instance session_codec : Codec UserSession := {| Marshal := encode_string; Unmarshal := decode_string |}.
#[local] Instance session_codec_laws : CodecLaws UserSession.
Proof. constructor. intros s. apply decode_encode_string. Defined.

Definition demo_writes : list (time * store_op) :=
  [(0, OpCreateSession (mkUserSession "s1" "u1" "" "" 0 100 "" 0) (100 * Second));
   (5, OpStoreRefresh "r1" "u1" (10 * Second));
   (7, OpDeny "j1" (3 * Second + 5));
   (9, OpDeleteSession "s1")].

Lemma stores_agree_witness : exists c' r',
  for_each redis_step demo_writes (mkRedis ∅ ∅) = (Ok (), c') /\
  for_each memory_step demo_writes NewAuthMemoryRepository = (Ok (), r') /\
  (RedisTokenRepository.GetRefreshTokenUserID (20 * Second) "r1" c').1 = Err (Sentinel ErrNotFound) /\
  (MemAuth.GetRefreshTokenUserID "r1" r').1 = Ok "u1" /\
  (RedisTokenRepository.IsInDenyList (3 * Second + 8) "j1" c').1 = Ok false /\
  (MemAuth.IsInDenyList (3 * Second + 8) "j1" r').1 = Ok true.
Proof.
  destruct (stores_agree demo_writes (mkRedis ∅ ∅)) as (c' & r' & Hc & Hr & Htok & _ & Hdeny).
  - unfold demo_writes. repeat apply Forall_cons_2; try apply Forall_nil_2; done.
  - intros t []; reflexivity.
  - exists c', r'. split; [exact Hc|]. split; [exact Hr|].
    destruct (Htok (20 * Second) "r1") as (a & b & -> & -> & Hb & Ha).
    destruct (Hdeny (3 * Second + 8) "j1") as (a' & b' & -> & -> & Ha' & Hb' & _).
    rewrite Ha, Hb, Ha', Hb'. repeat split; reflexivity.
Defined.
End Demo.
