(* ===== verification/AuthService.v ===== *)
(** * The authentication service (internal/domain/auth)

    [Service] of service.go: log-in, MFA, sessions and tokens, refresh with
    rotation, revocation and log-out; and [VerifyPKCE] of pkce.go.  It runs
    over the identity service ([IdentityService]), a store of sessions and
    tokens (the class [AuthStore], with the repository of [MemAuth] as an
    instance) and a repository of token families.  The
    repository only contains mocks of the latter, so it is the class
    [FamilyStore]; the server passes a nil one, which is [None] here.  JWTs,
    password hashes, the risk engine and the policy engine are arguments. *)

From S2P Require Import Prelude Types MemIdentity MemAuth AuditTrail Authorization IdentityService.
Local Open Scope Z_scope.

(** ** Token families (repository.go) *)
Record TokenFamily := mkTokenFamily {
  FamilyID : string;
  OriginalToken : string;
  CurrentToken : string;
  IssuedTokens : list string;
  family_UserID : string;
  family_ClientID : string;
  RevokedAt : option time
}.

Class FamilyStore (F : Type) := {
  fs_GetFamilyByToken : string -> prog F error TokenFamily;
  fs_UpdateFamily : TokenFamily -> prog F error unit;
  fs_RevokeFamily : time -> string -> prog F error unit
}.

(** What the interface documents: the family of a token is the one that lists
    it, an update replaces it, and a revocation marks it. *)
Class FamilyLaws (F : Type) `{FamilyStore F} := {
  family_of : F -> string -> option TokenFamily;
  law_get f t : fs_GetFamilyByToken t f =
    (match family_of f t with Some fam => Ok fam | None => Err (Errorf "token family not found") end, f);
  law_lists f t fam : family_of f t = Some fam -> t ∈ IssuedTokens fam;
  law_update f t fam fam' : family_of f t = Some fam -> FamilyID fam' = FamilyID fam ->
    IssuedTokens fam ⊆ IssuedTokens fam' ->
    (forall t', t' ∈ IssuedTokens fam' -> t' ∉ IssuedTokens fam -> family_of f t' = None) ->
    exists f', fs_UpdateFamily fam' f = (Ok (), f') /\
      forall t', family_of f' t' = if decide (t' ∈ IssuedTokens fam') then Some fam' else family_of f t';
  law_revoke f t fam now : family_of f t = Some fam ->
    exists f', fs_RevokeFamily now (FamilyID fam) f = (Ok (), f') /\
      forall t', family_of f' t' = (fun g => if decide (FamilyID g = FamilyID fam)
        then mkTokenFamily (FamilyID g) (OriginalToken g) (CurrentToken g) (IssuedTokens g)
               (family_UserID g) (family_ClientID g) (Some now)
        else g) <$> family_of f t'
}.

(** ** Requests and results *)
Record Config := mkConfig {
  AccessTokenDuration : Z;
  RefreshTokenDuration : Z;
  SessionDuration : Z
}.
Record AuthnRequest := mkAuthnRequest {
  req_Username : string;
  req_Password : string;
  req_IPAddress : string;
  req_DeviceFingerprint : string;
  req_IsKnownDevice : bool
}.
Record Token := mkToken {
  tok_AccessToken : string;
  tok_RefreshToken : string;
  tok_TokenType : string;
  tok_ExpiresIn : Z
}.
Record MFAChallenge := mkMFAChallenge { ch_Provider : string; ch_ID : string }.
Record AuthResult := mkAuthResult {
  ar_Session : option UserSession;
  ar_Token : option Token;
  ar_User : loc;
  ar_Challenge : option MFAChallenge;
  ar_IsMfaRequired : bool
}.
Record VerifyMFARequest := mkVerifyMFARequest {
  mfa_ChallengeID : string;
  mfa_Code : string;
  mfa_UserID : string
}.

(** The claims of an access token the service reads: its identifier and its
    expiry in seconds, when they are there. *)
Record Claims := mkClaims { claim_jti : option string; claim_exp : option Z }.

(** ** Sessions and tokens (repository.go)

    What the service calls of [SessionRepository] and [TokenRepository]; the
    repository in memory ignores the clock but for the deny list. *)
Class AuthStore (T : Type) := {
  as_CreateSession : time -> UserSession -> Z -> prog T error unit;
  as_DeleteSession : string -> prog T error unit;
  as_StoreRefreshToken : time -> string -> string -> Z -> prog T error unit;
  as_GetRefreshTokenUserID : time -> string -> prog T error string;
  as_DeleteRefreshToken : string -> prog T error unit;
  as_AddToDenyList : time -> string -> Z -> prog T error unit
}.
#[global] Instance memory_store : AuthStore auth_repo := {
  as_CreateSession _ := CreateSession;
  as_DeleteSession := DeleteSession;
  as_StoreRefreshToken _ := StoreRefreshToken;
  as_GetRefreshTokenUserID _ := GetRefreshTokenUserID;
  as_DeleteRefreshToken := DeleteRefreshToken;
  as_AddToDenyList := AddToDenyList
}.

(** ** The world of the service *)
Record world (R T F : Type) := mkWorld {
  w_repo : R;
  w_auth : T;
  w_families : option F;
  w_errors : errvars;
  w_started : list AuditLog
}.
Arguments mkWorld {R T F}.
Arguments w_repo {R T F}.
Arguments w_auth {R T F}.
Arguments w_families {R T F}.
Arguments w_errors {R T F}.
Arguments w_started {R T F}.

(** What one call draws from outside: the clock, fresh identifiers, and the
    services it is configured with. *)
Record outside := mkOutside {
  o_now : time;
  o_refresh_uuid : string;
  o_session_uuid : string;
  o_log_uuid : string;
  o_GenerateJWT : string -> Z -> res error string;
  o_ValidateJWT : string -> res error Claims;
  o_CheckPasswordHash : string -> string -> bool;
  o_risk : AuthContext -> res error string;
  o_decide : string -> AuthContext -> string
}.

Section Service.
Context `{IdentityRepository R} `{AuthStore T} `{FamilyStore F} (o : outside).
Notation auth A := (prog (world R T F) error A).

Definition on_identity {A} (m : svc R A) : auth A :=
  zoom (fun w => (w_repo w, w_errors w))
    (fun p w => mkWorld p.1 (w_auth w) (w_families w) p.2 (w_started w)) m.
Definition on_auth {A} (m : prog T error A) : auth A :=
  zoom w_auth (fun a w => mkWorld (w_repo w) a (w_families w) (w_errors w) (w_started w)) m.
(** A call on the nil repository panics. *)
Definition on_families {A} (m : prog F error A) : auth A := fun w =>
  match w_families w with
  | None => (Panic, w)
  | Some f => let '(r, f) := m f in
              (r, mkWorld (w_repo w) (w_auth w) (Some f) (w_errors w) (w_started w))
  end.

(** [return nil, Err.WithCause(err)] *)
Definition fail_cause {A} (code : string) (err : error) : auth A :=
  modify (fun w => mkWorld (w_repo w) (w_auth w) (w_families w) (WithCause (w_errors w) code err)
                     (w_started w)) ;;
  throw (Sentinel code).

Definition or_fail {A} (code : string) (m : auth A) : auth A :=
  answer ← try m;
  match answer with inl err => fail_cause code err | inr x => mret x end.

(** The audit entries are written in the background: [w_started] lists the
    writes that were started. *)
Definition start_log (entry : AuditLog) : auth unit :=
  modify (fun w => mkWorld (w_repo w) (w_auth w) (w_families w) (w_errors w)
                     (w_started w ++ [entry])).

Definition logAuthSuccess (userID method : string) : auth unit :=
  start_log (mkAuditLog (o_log_uuid o) "" userID "user.login.success" ("user:" +:+ userID)
    "success" {[ "method" := AnyString method ]} (o_now o) "" "").

Definition logAuthFailure (userID method reason : string) : auth unit :=
  start_log (mkAuditLog (o_log_uuid o) "" userID "user.login.failure" ("user:" +:+ userID)
    "failure" {[ "method" := AnyString method; "reason" := AnyString reason ]} (o_now o) "" "").

(** [time.Duration.Seconds], truncated *)
Definition seconds (d : Z) : Z := Z.quot d (10 ^ 9).

Definition createSessionAndTokens (p : loc) (user : User) (cfg : Config) : auth AuthResult :=
  accessToken ← or_fail ErrInternal (lift (o_GenerateJWT o (user_ID user) (AccessTokenDuration cfg)));
  let refreshToken := o_refresh_uuid o in
  or_fail ErrInternal (on_auth
    (as_StoreRefreshToken (o_now o) refreshToken (user_ID user) (RefreshTokenDuration cfg))) ;;
  let session := mkUserSession (o_session_uuid o) (user_ID user) "" "" (o_now o)
                   (o_now o + SessionDuration cfg) "" 0 in
  or_fail ErrInternal (on_auth (as_CreateSession (o_now o) session (SessionDuration cfg))) ;;
  logAuthSuccess (user_ID user) "login_password" ;;
  mret (mkAuthResult (Some session)
    (Some (mkToken accessToken refreshToken "Bearer" (seconds (AccessTokenDuration cfg))))
    p None false).

Definition LoginWithPassword (req : AuthnRequest) (cfg : Config) : auth AuthResult :=
  p ← or_fail ErrInvalidCredentials (on_identity (service_GetUserByUsername (req_Username req)));
  user ← on_identity (on_repo (ir_read p));
  if negb (bool_decide (user_Status user = UserStatusActive)) then
    logAuthFailure (user_ID user) "login_password" "user_not_active" ;;
    throw (Sentinel ErrUserDisabled)
  else if negb (o_CheckPasswordHash o (req_Password req) (user_Password user)) then
    logAuthFailure (user_ID user) "login_password" "invalid_password" ;;
    throw (Sentinel ErrInvalidCredentials)
  else
    let authContext := mkAuthContext (user_ID user) (req_IPAddress req) "" (o_now o) ""
                         (req_IsKnownDevice req) in
    level ← or_fail ErrInternal (lift (o_risk o authContext));
    if bool_decide (o_decide o level authContext = "REQUIRE_MFA") then
      mret (mkAuthResult None None p
        (Some (mkMFAChallenge "totp" "challenge-id-placeholder")) true)
    else createSessionAndTokens p user cfg.

Definition VerifyMFAChallenge (req : VerifyMFARequest) (cfg : Config) : auth AuthResult :=
  p ← or_fail ErrInvalidCredentials (on_identity (service_GetUserByID (mfa_UserID req)));
  user ← on_identity (on_repo (ir_read p));
  createSessionAndTokens p user cfg.

(** Add a token to the deny list until it expires; the identifier and the
    expiry of a token without them are the zero values. *)
Definition deny (claims : Claims) : auth unit :=
  on_auth (as_AddToDenyList (o_now o) (default "" (claim_jti claims))
    (default 0 (claim_exp claims) * 10 ^ 9 - o_now o)).

Definition Logout (sessionID accessToken : string) : auth unit :=
  try (on_auth (as_DeleteSession sessionID)) ;;
  claims ← or_fail ErrInvalidToken (lift (o_ValidateJWT o accessToken));
  or_fail ErrInternal (deny claims).

Definition RefreshAccessToken (refreshToken : string) (cfg : Config) : auth Token :=
  userID ← or_fail ErrInvalidGrant (on_auth (as_GetRefreshTokenUserID (o_now o) refreshToken));
  family ← or_fail ErrInternal (on_families (fs_GetFamilyByToken refreshToken));
  match RevokedAt family with
  | Some _ => throw (Sentinel ErrInvalidGrant)
  | None =>
      newAccessToken ← or_fail ErrInternal (lift (o_GenerateJWT o userID (AccessTokenDuration cfg)));
      let newRefreshToken := o_refresh_uuid o in
      or_fail ErrInternal (on_auth
        (as_StoreRefreshToken (o_now o) newRefreshToken userID (RefreshTokenDuration cfg))) ;;
      or_fail ErrInternal (on_families (fs_UpdateFamily
        (mkTokenFamily (FamilyID family) (OriginalToken family) newRefreshToken
           (IssuedTokens family ++ [newRefreshToken]) (family_UserID family)
           (family_ClientID family) (RevokedAt family)))) ;;
      try (on_auth (as_DeleteRefreshToken refreshToken)) ;;
      mret (mkToken newAccessToken newRefreshToken "Bearer" (seconds (AccessTokenDuration cfg)))
  end.

Definition RevokeToken (token tokenTypeHint : string) : auth unit :=
  if bool_decide (tokenTypeHint = "refresh_token") then
    family ← try (on_families (fs_GetFamilyByToken token));
    match family with
    | inr family => on_families (fs_RevokeFamily (o_now o) (FamilyID family))
    | inl _ => on_auth (as_DeleteRefreshToken token)
    end
  else
    claims ← or_fail ErrInvalidToken (lift (o_ValidateJWT o token));
    deny claims.
End Service.

(** ** PKCE (pkce.go), with SHA-256 and base64url as an argument *)
Definition VerifyPKCE (s256 : string -> string) (codeVerifier codeChallenge method : string) : bool :=
  if bool_decide (method = "S256") then bool_decide (s256 codeVerifier = codeChallenge)
  else if bool_decide (method = "plain") then bool_decide (codeVerifier = codeChallenge)
  else false.

(** ** Runs *)
Section Runs.
Context `{IdentityRepository R} `{AuthStore T} `{FamilyStore F} (o : outside).
Implicit Types w : world R T F.

Definition set_auth a w : world R T F :=
  mkWorld (w_repo w) a (w_families w) (w_errors w) (w_started w).
Definition set_families f w : world R T F :=
  mkWorld (w_repo w) (w_auth w) f (w_errors w) (w_started w).
Definition set_errors e w : world R T F :=
  mkWorld (w_repo w) (w_auth w) (w_families w) e (w_started w).
Definition add_log l w : world R T F :=
  mkWorld (w_repo w) (w_auth w) (w_families w) (w_errors w) (w_started w ++ [l]).

Lemma or_fail_ok {A B} code (m : prog (world R T F) error A) (k : A -> prog (world R T F) error B) w x w' :
  m w = (Ok x, w') -> (or_fail code m ≫= k) w = k x w'.
Proof. intros Hm. unfold or_fail, mbind, prog_bind, try. by rewrite Hm. Qed.

Lemma or_fail_err {A B} code (m : prog (world R T F) error A) (k : A -> prog (world R T F) error B) w e w' :
  m w = (Err e, w') ->
  (or_fail code m ≫= k) w = (Err (Sentinel code), set_errors (WithCause (w_errors w') code e) w').
Proof. intros Hm. unfold or_fail, mbind, prog_bind, try. by rewrite Hm. Qed.

Lemma or_fail_panic {A B} code (m : prog (world R T F) error A) (k : A -> prog (world R T F) error B) w w' :
  m w = (Panic, w') -> (or_fail code m ≫= k) w = (Panic, w').
Proof. intros Hm. unfold or_fail, mbind, prog_bind, try. by rewrite Hm. Qed.

Lemma on_auth_run {A} (m : prog T error A) w x a :
  m (w_auth w) = (x, a) -> on_auth m w = (x, set_auth a w).
Proof. intros Hm. unfold on_auth, zoom. by rewrite Hm. Qed.

Lemma on_families_run {A} (m : prog F error A) w f x f' :
  w_families w = Some f -> m f = (x, f') -> on_families m w = (x, set_families (Some f') w).
Proof. intros Hf Hm. unfold on_families. by rewrite Hf, Hm. Qed.

Lemma on_families_nil {A} (m : prog F error A) w :
  w_families w = None -> on_families m w = (Panic, w).
Proof. intros Hf. unfold on_families. by rewrite Hf. Qed.

(** A lookup of the identity service that finds someone changes nothing. *)
Lemma on_identity_found {A} (m : prog R error A) d w x :
  m (w_repo w) = (Ok x, w_repo w) -> on_identity (or_not_found m d) w = (Ok x, w).
Proof.
  intros Hm. unfold on_identity, zoom, or_not_found, mbind, prog_bind, try, on_repo, zoom.
  cbn [fst snd]. rewrite Hm. by destruct w.
Qed.

Lemma on_identity_missing {A} (m : prog R error A) d w e :
  m (w_repo w) = (Err e, w_repo w) ->
  on_identity (or_not_found m d) w =
    (Err (Sentinel ErrNotFound), set_errors (WithDetails (WithCause (w_errors w) ErrNotFound e) ErrNotFound d) w).
Proof.
  intros Hm. unfold on_identity, zoom, or_not_found, mbind, prog_bind, try, on_repo, zoom.
  cbn [fst snd]. by rewrite Hm.
Qed.

Lemma read_user_run {B} p (k : User -> prog (world R T F) error B) w u :
  ir_read p (w_repo w) = (Ok u, w_repo w) ->
  (on_identity (on_repo (ir_read p)) ≫= k) w = k u w.
Proof.
  intros Hr. unfold mbind, prog_bind, on_identity, zoom, on_repo, zoom. cbn [fst snd].
  rewrite Hr. by destruct w.
Qed.

End Runs.

Section MemoryRuns.
Context `{IdentityRepository R} `{FamilyStore F} (o : outside).
Implicit Types w : world R auth_repo F.

(** The session and the tokens of a user. *)
Definition new_session (u : User) (cfg : Config) : UserSession :=
  mkUserSession (o_session_uuid o) (user_ID u) "" "" (o_now o) (o_now o + SessionDuration cfg) "" 0.
Definition success_log (userID : string) : AuditLog :=
  mkAuditLog (o_log_uuid o) "" userID "user.login.success" ("user:" +:+ userID)
    "success" {[ "method" := AnyString "login_password" ]} (o_now o) "" "".
Definition with_session (u : User) (cfg : Config) (a : auth_repo) : auth_repo :=
  mkAuthRepo (<[o_session_uuid o := new_session u cfg]> (sessions a))
    (<[o_refresh_uuid o := user_ID u]> (refreshTokens a)) (denyList a) (auditLogs a).
Definition issued (p : loc) (u : User) (cfg : Config) (jwt : string) : AuthResult :=
  mkAuthResult (Some (new_session u cfg))
    (Some (mkToken jwt (o_refresh_uuid o) "Bearer" (seconds (AccessTokenDuration cfg)))) p None false.

Lemma createSessionAndTokens_run p u cfg w :
  createSessionAndTokens o p u cfg w =
    match o_GenerateJWT o (user_ID u) (AccessTokenDuration cfg) with
    | Ok jwt => (Ok (issued p u cfg jwt), add_log (success_log (user_ID u)) (set_auth (with_session u cfg (w_auth w)) w))
    | Err e => (Err (Sentinel ErrInternal), set_errors (WithCause (w_errors w) ErrInternal e) w)
    | Panic => (Panic, w)
    | Diverge => (Diverge, w)
    end.
Proof.
  unfold createSessionAndTokens, or_fail, mbind, prog_bind, try, lift.
  by destruct (o_GenerateJWT o (user_ID u) (AccessTokenDuration cfg)).
Qed.
End MemoryRuns.

(** ** Properties *)
Section Properties.
Context `{IdentityRepository R} `{FamilyStore F} (o : outside).
Implicit Types w : world R auth_repo F.

(** The user the identity service finds. *)
Definition finds_name w (name : string) (p : loc) (u : User) : Prop :=
  ir_GetUserByUsername name (w_repo w) = (Ok p, w_repo w) /\ ir_read p (w_repo w) = (Ok u, w_repo w).
Definition finds_id w (id : string) (p : loc) (u : User) : Prop :=
  ir_GetUserByID id (w_repo w) = (Ok p, w_repo w) /\ ir_read p (w_repo w) = (Ok u, w_repo w).

Definition login_context_of (u : User) (req : AuthnRequest) : AuthContext :=
  mkAuthContext (user_ID u) (req_IPAddress req) "" (o_now o) "" (req_IsKnownDevice req).

(** C3: a password log-in with a known name: a user who is not active or whose
    password does not verify is refused, and a risk engine that fails is an
    internal error, with no session and no token stored; otherwise the
    decision REQUIRE_MFA gives a challenge and nothing else, and every other
    decision of the policy engine, DENY included, opens a session and issues
    tokens. *)
Theorem login_decides w req cfg p u :
  finds_name w (req_Username req) p u ->
  let run := LoginWithPassword o req cfg w in
  let ctx := login_context_of u req in
  (user_Status u <> UserStatusActive ->
     run.1 = Err (Sentinel ErrUserDisabled) /\ w_auth run.2 = w_auth w) /\
  (user_Status u = UserStatusActive -> o_CheckPasswordHash o (req_Password req) (user_Password u) = false ->
     run.1 = Err (Sentinel ErrInvalidCredentials) /\ w_auth run.2 = w_auth w) /\
  (user_Status u = UserStatusActive -> o_CheckPasswordHash o (req_Password req) (user_Password u) = true ->
     (forall e, o_risk o ctx = Err e -> run.1 = Err (Sentinel ErrInternal) /\ w_auth run.2 = w_auth w) /\
     (forall level, o_risk o ctx = Ok level ->
        (o_decide o level ctx = "REQUIRE_MFA" ->
           run = (Ok (mkAuthResult None None p (Some (mkMFAChallenge "totp" "challenge-id-placeholder")) true), w)) /\
        (o_decide o level ctx <> "REQUIRE_MFA" ->
           forall jwt, o_GenerateJWT o (user_ID u) (AccessTokenDuration cfg) = Ok jwt ->
             run.1 = Ok (issued o p u cfg jwt) /\ w_auth run.2 = with_session o u cfg (w_auth w)))).
Proof.
  intros [Hfind Hread] run ctx. unfold run, LoginWithPassword, service_GetUserByUsername.
  rewrite (or_fail_ok _ _ _ w p w) by by apply on_identity_found.
  rewrite (read_user_run p _ w u Hread).
  destruct (decide (user_Status u = UserStatusActive)) as [Hact|Hact].
  2: { rewrite bool_decide_eq_false_2 by done. by repeat split. }
  rewrite bool_decide_eq_true_2 by done. cbn [negb].
  split; [done|]. destruct (o_CheckPasswordHash o (req_Password req) (user_Password u)); cbn [negb].
  2: { by repeat split. }
  split; [done|]. intros _ _. fold (login_context_of u req). fold ctx. split.
  - intros e Hrisk. rewrite (or_fail_err _ _ _ w e w) by (unfold lift; by rewrite Hrisk). done.
  - intros level Hrisk. rewrite (or_fail_ok _ _ _ w level w) by (unfold lift; by rewrite Hrisk).
    split; intros Hd.
    + by rewrite bool_decide_eq_true_2.
    + intros jwt Hjwt. rewrite bool_decide_eq_false_2 by done.
      by rewrite createSessionAndTokens_run, Hjwt.
Qed.

(** The second factor is not checked: for every challenge identifier and
    every code, [VerifyMFAChallenge] opens a session and issues tokens for the
    user named in the request, whatever the status of the account. *)
Theorem mfa_not_verified w cfg id p u jwt challenge code :
  finds_id w id p u -> o_GenerateJWT o (user_ID u) (AccessTokenDuration cfg) = Ok jwt ->
  VerifyMFAChallenge o (mkVerifyMFARequest challenge code id) cfg w =
    (Ok (issued o p u cfg jwt),
     add_log (success_log o (user_ID u)) (set_auth (with_session o u cfg (w_auth w)) w)).
Proof.
  intros [Hfind Hread] Hjwt. unfold VerifyMFAChallenge, service_GetUserByID. cbn [mfa_UserID].
  rewrite (or_fail_ok _ _ _ w p w) by by apply on_identity_found.
  rewrite (read_user_run p _ w u Hread). by rewrite createSessionAndTokens_run, Hjwt.
Qed.

(** The family after a rotation. *)
Definition rotated (fam : TokenFamily) (new : string) : TokenFamily :=
  mkTokenFamily (FamilyID fam) (OriginalToken fam) new (IssuedTokens fam ++ [new])
    (family_UserID fam) (family_ClientID fam) (RevokedAt fam).

Lemma refresh_run `{!FamilyLaws F} w cfg token f fam u jwt :
  w_families w = Some f -> family_of f token = Some fam -> RevokedAt fam = None ->
  refreshTokens (w_auth w) !! token = Some u ->
  o_GenerateJWT o u (AccessTokenDuration cfg) = Ok jwt ->
  family_of f (o_refresh_uuid o) = None ->
  exists f', RefreshAccessToken o token cfg w =
      (Ok (mkToken jwt (o_refresh_uuid o) "Bearer" (seconds (AccessTokenDuration cfg))),
       set_auth (set_refreshTokens (delete token (<[o_refresh_uuid o := u]> (refreshTokens (w_auth w)))) (w_auth w))
         (set_families (Some f') w)) /\
    forall t, family_of f' t = if decide (t ∈ IssuedTokens fam ++ [o_refresh_uuid o])
                               then Some (rotated fam (o_refresh_uuid o)) else family_of f t.
Proof.
  intros Hf Hfam Hrev Htok Hjwt Hnew.
  destruct (law_update f token fam (rotated fam (o_refresh_uuid o))) as (f' & Hup & Hfam'); try done.
  { cbn. apply list_subseteq_app_l. done. }
  { cbn. intros t [?|Ht%list_elem_of_singleton]%elem_of_app; [done|by subst]. }
  exists f'. split; [|done]. unfold RefreshAccessToken.
  rewrite (or_fail_ok _ _ _ w u w).
  2: { rewrite (on_auth_run _ w (Ok u) (w_auth w)); [by destruct w|].
       cbn [as_GetRefreshTokenUserID memory_store]. unfold GetRefreshTokenUserID. rewrite prog_get_bind. by rewrite Htok. }
  rewrite (or_fail_ok _ _ _ w fam w).
  2: { rewrite (on_families_run _ w f (Ok fam) f Hf); [destruct w; cbn in *; by rewrite Hf|].
       rewrite law_get. by rewrite Hfam. }
  destruct fam as [fid orig cur iss fu fc rv]. cbn [RevokedAt] in Hrev |- *. subst rv.
  rewrite (or_fail_ok _ _ _ w jwt w) by (unfold lift; by rewrite Hjwt).
  set (a1 := (StoreRefreshToken (o_refresh_uuid o) u (RefreshTokenDuration cfg) (w_auth w)).2).
  rewrite (or_fail_ok _ _ _ w () (set_auth a1 w)) by by apply on_auth_run.
  rewrite (or_fail_ok _ _ _ (set_auth a1 w) () (set_families (Some f') (set_auth a1 w))).
  2: { exact (on_families_run _ (set_auth a1 w) f (Ok ()) f' Hf Hup). }
  reflexivity.
Qed.

Lemma refresh_unknown w cfg token :
  refreshTokens (w_auth w) !! token = None ->
  (RefreshAccessToken o token cfg w).1 = Err (Sentinel ErrInvalidGrant) /\
  w_auth (RefreshAccessToken o token cfg w).2 = w_auth w /\
  w_families (RefreshAccessToken o token cfg w).2 = w_families w.
Proof.
  intros Htok. unfold RefreshAccessToken.
  rewrite (or_fail_err _ _ _ w (Errorf "refresh token not found") w); [done|].
  rewrite (on_auth_run _ w (Err (Errorf "refresh token not found")) (w_auth w)); [by destruct w|].
  cbn [as_GetRefreshTokenUserID memory_store]. unfold GetRefreshTokenUserID. rewrite prog_get_bind. by rewrite Htok.
Qed.

(** C8: a refresh rotates the token: the new one names the same user and joins
    the family, the old one is deleted.  Presenting the old one again is
    refused, but as an unknown token: its family is not revoked, and the
    tokens issued from it stay usable. *)
Theorem refresh_rotates `{!FamilyLaws F} w cfg token f fam u jwt :
  w_families w = Some f -> family_of f token = Some fam -> RevokedAt fam = None ->
  refreshTokens (w_auth w) !! token = Some u ->
  o_GenerateJWT o u (AccessTokenDuration cfg) = Ok jwt ->
  family_of f (o_refresh_uuid o) = None ->
  exists w', RefreshAccessToken o token cfg w =
      (Ok (mkToken jwt (o_refresh_uuid o) "Bearer" (seconds (AccessTokenDuration cfg))), w') /\
    refreshTokens (w_auth w') !! o_refresh_uuid o = Some u /\
    refreshTokens (w_auth w') !! token = None /\
    (exists f', w_families w' = Some f' /\
       family_of f' (o_refresh_uuid o) = Some (rotated fam (o_refresh_uuid o)) /\
       family_of f' token = Some (rotated fam (o_refresh_uuid o))) /\
    (let replay := RefreshAccessToken o token cfg w' in
     replay.1 = Err (Sentinel ErrInvalidGrant) /\ w_auth replay.2 = w_auth w' /\
     w_families replay.2 = w_families w' /\ RevokedAt (rotated fam (o_refresh_uuid o)) = None).
Proof.
  intros Hf Hfam Hrev Htok Hjwt Hnew.
  assert (Hne : o_refresh_uuid o <> token) by congruence.
  destruct (refresh_run w cfg token f fam u jwt) as (f' & Hrun & Hfam'); try done.
  eexists. split; [exact Hrun|].
  assert (Hold : refreshTokens (w_auth (set_auth (set_refreshTokens (delete token
    (<[o_refresh_uuid o := u]> (refreshTokens (w_auth w)))) (w_auth w))
    (set_families (Some f') w))) !! token = None) by apply lookup_delete_eq.
  split; [|split; [done|split]].
  - cbn. rewrite lookup_delete_ne by done. apply lookup_insert_eq.
  - exists f'. split; [done|]. rewrite !Hfam'. apply law_lists in Hfam.
    rewrite !decide_True; [done| |]; apply elem_of_app; [by left|right; constructor].
  - destruct (refresh_unknown _ cfg token Hold) as (H1 & H2 & H3). done.
Qed.

(** The refresh token a log-in (or an MFA verification) issues cannot be
    used: no family is created for it, so with a family repository the
    refresh is an internal error; and without one, as the server is set up,
    every refresh of a known token panics. *)
Theorem login_token_not_refreshable `{!FamilyLaws F} w cfg p u res w' tok :
  createSessionAndTokens o p u cfg w = (Ok res, w') -> ar_Token res = Some tok ->
  (forall f, w_families w = Some f -> family_of f (o_refresh_uuid o) = None ->
     (RefreshAccessToken o (tok_RefreshToken tok) cfg w').1 = Err (Sentinel ErrInternal)) /\
  (w_families w = None ->
     (RefreshAccessToken o (tok_RefreshToken tok) cfg w').1 = Panic).
Proof.
  rewrite createSessionAndTokens_run.
  destruct (o_GenerateJWT o (user_ID u) (AccessTokenDuration cfg)) as [jwt| | |]; try done.
  intros [= <- <-] [= <-]. cbn [tok_RefreshToken].
  set (w1 := add_log _ _).
  assert (Htok : forall (k : string -> prog (world R auth_repo F) error Token),
    (or_fail ErrInvalidGrant (on_auth (GetRefreshTokenUserID (o_refresh_uuid o))) ≫= k) w1 =
    k (user_ID u) w1).
  { intros k. apply or_fail_ok. rewrite (on_auth_run _ w1 (Ok (user_ID u)) (w_auth w1)); [done|].
    cbn [as_GetRefreshTokenUserID memory_store]. unfold GetRefreshTokenUserID. rewrite prog_get_bind. cbn. by rewrite lookup_insert_eq. }
  unfold RefreshAccessToken. rewrite Htok. split.
  - intros f Hf Hfam. erewrite or_fail_err; [done|].
    apply (on_families_run _ w1 f); [done|]. rewrite law_get. by rewrite Hfam.
  - intros Hf. erewrite or_fail_panic; [done|]. by apply on_families_nil.
Qed.

(** Log-out deletes the session even when the access token is invalid
    (which it then reports); a valid token's identifier is on the deny list
    exactly until the token expires, and refresh tokens are left alone. *)
Theorem logout_denies w sid tok :
  let run := Logout o sid tok w in
  sessions (w_auth run.2) = delete sid (sessions (w_auth w)) /\
  refreshTokens (w_auth run.2) = refreshTokens (w_auth w) /\
  (forall e, o_ValidateJWT o tok = Err e ->
     run.1 = Err (Sentinel ErrInvalidToken) /\ denyList (w_auth run.2) = denyList (w_auth w)) /\
  (forall jti exp, o_ValidateJWT o tok = Ok (mkClaims (Some jti) (Some exp)) ->
     run.1 = Ok () /\
     forall t, (IsInDenyList t jti (w_auth run.2)).1 = Ok (bool_decide (t <= exp * 10 ^ 9))).
Proof.
  intros run. unfold run, Logout, or_fail, deny, on_auth, zoom, mbind, prog_bind, try, lift.
  destruct (o_ValidateJWT o tok) as [claims|e| |];
    (split; [done|]); (split; [done|]); (split; [by intros|]); intros jti exp [=].
  subst claims. split; [done|]. intros t. cbn.
  unfold IsInDenyList. rewrite prog_get_bind. cbn. rewrite lookup_insert_eq. cbn.
  f_equal. rewrite <- bool_decide_not. apply bool_decide_ext. lia.
Qed.
End Properties.

(** ** A family repository: the latest version of a family comes first. *)
Fixpoint find_family (f : list TokenFamily) (t : string) : option TokenFamily :=
  match f with
  | [] => None
  | fam :: f => if decide (t ∈ IssuedTokens fam) then Some fam else find_family f t
  end.

Definition revoke (now : time) (id : string) (g : TokenFamily) : TokenFamily :=
  if decide (FamilyID g = id)
  then mkTokenFamily (FamilyID g) (OriginalToken g) (CurrentToken g) (IssuedTokens g)
         (family_UserID g) (family_ClientID g) (Some now)
  else g.

#[global] Instance list_families : FamilyStore (list TokenFamily) := {
  fs_GetFamilyByToken t f :=
    (match find_family f t with Some fam => Ok fam | None => Err (Errorf "token family not found") end, f);
  fs_UpdateFamily fam f := (Ok (), fam :: f);
  fs_RevokeFamily now id f := (Ok (), revoke now id <$> f)
}.

#[global] Instance list_family_laws : FamilyLaws (list TokenFamily).
Proof.
  refine (Build_FamilyLaws _ _ find_family _ _ _ _).
  - done.
  - intros f t fam. induction f as [|g f IH]; cbn; [done|]. case_decide; [by intros [= <-]|done].
  - intros f t fam fam' _ _ _ _. by exists (fam' :: f).
  - intros f t fam now _. exists (revoke now (FamilyID fam) <$> f). split; [done|].
    intros t'. induction f as [|g f IH]; [done|]. cbn [fmap list_fmap find_family].
    assert (IssuedTokens (revoke now (FamilyID fam) g) = IssuedTokens g) as ->
      by (unfold revoke; by case_decide).
    destruct (decide (t' ∈ IssuedTokens g)); [done|exact IH].
Defined.

(** ** A concrete world: Alice is stored; her token [t0] has a family. *)
Definition demo_family : TokenFamily := mkTokenFamily "f0" "t0" "t0" ["t0"] "u1" "web" None.
Definition demo_world (families : option (list TokenFamily)) : world identity_repo auth_repo (list TokenFamily) :=
  mkWorld demo_repo (mkAuthRepo {[ "s0" := demo_session ]} {[ "t0" := "u1" ]} ∅ []) families ∅ [].
Definition demo_outside (decision : string) : outside :=
  mkOutside 1000 "t1" "s1" "l1" (fun u _ => Ok ("jwt:" +:+ u))
    (fun t => if bool_decide (t = "good") then Ok (mkClaims (Some "j1") (Some 5)) else Err (Errorf "bad token"))
    (fun pw h => bool_decide (pw = h)) (fun _ => Ok RiskLevelLow) (fun _ _ => decision).
Definition demo_cfg : Config := mkConfig (900 * 10 ^ 9) (3600 * 10 ^ 9) (3600 * 10 ^ 9).

#[local] Instance demo_repository : IdentityRepository identity_repo := memory_repository default_order.

Lemma login_decides_witness :
  (LoginWithPassword (demo_outside "DENY") (mkAuthnRequest "alice" "hash" "10.0.0.1" "" true) demo_cfg
     (demo_world None)).1 = Ok (issued (demo_outside "DENY") 1 alice demo_cfg "jwt:u1").
Proof.
  destruct (login_decides (demo_outside "DENY") (demo_world None)
    (mkAuthnRequest "alice" "hash" "10.0.0.1" "" true) demo_cfg 1 alice) as (_ & _ & Hok);
    [split; vm_compute; reflexivity|].
  destruct (Hok eq_refl eq_refl) as [_ Hlevel].
  destruct (Hlevel RiskLevelLow eq_refl) as [_ Hissue].
  apply (Hissue ltac:(vm_compute; discriminate) "jwt:u1" eq_refl).
Defined.

Lemma mfa_not_verified_witness :
  (VerifyMFAChallenge (demo_outside "DENY") (mkVerifyMFARequest "made-up" "000000" "u1") demo_cfg
     (demo_world None)).1 = Ok (issued (demo_outside "DENY") 1 alice demo_cfg "jwt:u1").
Proof.
  rewrite (mfa_not_verified (demo_outside "DENY") (demo_world None) demo_cfg "u1" 1 alice "jwt:u1");
    [reflexivity|split; vm_compute; reflexivity|reflexivity].
Defined.

Lemma refresh_rotates_witness :
  exists w', RefreshAccessToken (demo_outside "ALLOW") "t0" demo_cfg (demo_world (Some [demo_family])) =
      (Ok (mkToken "jwt:u1" "t1" "Bearer" 900), w') /\
    (RefreshAccessToken (demo_outside "ALLOW") "t0" demo_cfg w').1 = Err (Sentinel ErrInvalidGrant).
Proof.
  destruct (@refresh_rotates _ _ list_families (demo_outside "ALLOW") list_family_laws (demo_world (Some [demo_family])) demo_cfg "t0"
    [demo_family] demo_family "u1" "jwt:u1" eq_refl eq_refl eq_refl eq_refl eq_refl eq_refl)
    as (w' & Hrun & _ & _ & _ & Hreplay & _).
  exists w'. split; [exact Hrun|exact Hreplay].
Defined.

Lemma login_token_not_refreshable_witness :
  exists res w', createSessionAndTokens (demo_outside "ALLOW") 1 alice demo_cfg (demo_world None) = (Ok res, w') /\
    (RefreshAccessToken (demo_outside "ALLOW") "t1" demo_cfg w').1 = Panic.
Proof.
  pose proof (createSessionAndTokens_run (demo_outside "ALLOW") 1 alice demo_cfg (demo_world None)) as Hrun.
  eexists _, _. split; [exact Hrun|].
  exact (proj2 (login_token_not_refreshable (demo_outside "ALLOW") (demo_world None) demo_cfg 1 alice
    _ _ (mkToken "jwt:u1" "t1" "Bearer" 900) Hrun eq_refl) eq_refl).
Defined.

Lemma logout_denies_witness :
  (Logout (demo_outside "ALLOW") "s0" "good" (demo_world None)).1 = Ok () /\
  (Logout (demo_outside "ALLOW") "s0" "bad" (demo_world None)).1 = Err (Sentinel ErrInvalidToken).
Proof.
  split.
  - apply (logout_denies (demo_outside "ALLOW") (demo_world None) "s0" "good") with (jti := "j1") (exp := 5).
    reflexivity.
  - apply (logout_denies (demo_outside "ALLOW") (demo_world None) "s0" "bad") with (e := Errorf "bad token").
    reflexivity.
Defined.
