(* ===== verification/AuthApi.v ===== *)
(** * The endpoints of log-in and registration

    internal/services/auth (the application service over the authentication
    service), internal/server/http/handlers/auth.go, identity.go and helpers.go,
    and the table of predefined errors that gives the answers their status.
    Decoding a request is an argument: the value or the error of the decoder. *)

From S2P Require Import Prelude Types GoStd Secrets MemIdentity MemAuth Redis RedisStores AuditTrail IdentityService AuthService.
Local Open Scope Z_scope.

(** ** The predefined errors (pkg/types/errors.go): code, message, status *)
Definition predefined_errors : list (string * string * Z) :=
  [("internal_error", "An unexpected internal error occurred", 500);
   ("not_found", "The requested resource was not found", 404);
   ("bad_request", "The request is malformed or invalid", 400);
   ("validation_failed", "Input validation failed", 400);
   ("unauthorized", "Authentication is required and has failed or has not yet been provided", 401);
   ("forbidden", "You do not have permission to access this resource", 403);
   ("conflict", "The resource already exists", 409);
   ("too_many_requests", "You have exceeded the rate limit", 429);
   ("service_unavailable", "The service is temporarily unavailable", 503);
   ("invalid_credentials", "Invalid username or password", 401);
   ("invalid_token", "The provided token is invalid or expired", 401);
   ("token_expired", "The provided token has expired", 401);
   ("mfa_required", "Multi-factor authentication is required", 401);
   ("mfa_challenge_invalid", "The MFA challenge is invalid or has expired", 400);
   ("user_locked", "The user account is locked", 403);
   ("user_disabled", "The user account is disabled", 403);
   ("plugin_load_failed", "Failed to load plugin", 500);
   ("plugin_not_found", "The requested plugin was not found", 404);
   ("plugin_init_failed", "Failed to initialize plugin", 500);
   ("not_implemented", "This feature is not implemented", 501);
   ("invalid_request", "The request is missing a required parameter, includes an invalid parameter value, includes a parameter more than once, or is otherwise malformed.", 400);
   ("invalid_client", "Client authentication failed (e.g., unknown client, no client authentication included, or unsupported authentication method).", 401);
   ("invalid_grant", "The provided authorization grant (e.g., authorization code, resource owner credentials) or refresh token is invalid, expired, revoked, does not match the redirection URI used in the authorization request, or was issued to another client.", 400);
   ("unsupported_grant_type", "The authorization grant type is not supported by the authorization server.", 400);
   ("user_not_found", "The user was not found.", 404);
   ("session_expired", "The user session has expired.", 401);
   ("device_mismatch", "The device fingerprint does not match the session.", 401);
   ("max_sessions_exceeded", "The maximum number of concurrent sessions has been exceeded.", 403);
   ("authorization_pending", "The authorization request is still pending as the end-user has not yet completed the user interaction steps.", 400);
   ("access_denied", "The resource owner or authorization server denied the request.", 403);
   ("expired_token", "The token has expired.", 400)].
Fixpoint find_error (l : list (string * string * Z)) (code : string) : option (string * Z) :=
  match l with
  | [] => None
  | (c, message, status) :: l => if decide (c = code) then Some (message, status) else find_error l code
  end.
Definition error_Message (code : string) : string := default "" (fst <$> find_error predefined_errors code).
Definition HttpStatus (code : string) : Z := default 0 (snd <$> find_error predefined_errors code).
Definition ErrBadRequest : string := "bad_request".

(** [err.Error()] *)
Fixpoint Error_text (err : error) : string :=
  match err with
  | Sentinel code => "code: " +:+ code +:+ ", message: " +:+ error_Message code
  | Errorf message => message
  | Wrapf message err => message +:+ Error_text err
  end.

(** ** The application service (services/auth/service.go)

    The world of the authentication service with the audit service. *)
Record api (R T F : Type) := mkApi { api_world : world R T F; api_audit : audit_service }.
Arguments mkApi {R T F}.
Arguments api_world {R T F}.
Arguments api_audit {R T F}.

Inductive api_body := NoBody | ChallengeBody (c : option MFAChallenge) | TokenBody (t : option Token)
  | UserBody (u : User) | ErrorBody (code message : string) (details : gmap string string).
Record api_response := mkApiResponse { ar_Status : Z; ar_Body : api_body }.

Section Api.
Context `{IdentityRepository R} `{AuthStore T} `{FamilyStore F} (o : outside) (auditID : string).
Notation apiM A := (prog (api R T F) error A).

Definition on_domain {A} (m : prog (world R T F) error A) : apiM A :=
  zoom api_world (fun w a => mkApi w (api_audit a)) m.
Definition on_audit {A} (m : prog audit_service error A) : apiM A :=
  zoom api_audit (fun s a => mkApi (api_world a) s) m.

(** [err.( *types.Error)]: a predefined error is passed on, any other becomes
    the cause of [ErrInternal]. *)
Definition app_fail {A} (err : error) : apiM A :=
  match err with
  | Sentinel code => throw (Sentinel code)
  | _ => on_domain (fail_cause ErrInternal err)
  end.

Definition app_LoginWithPassword (req : AuthnRequest) (cfg : Config) : apiM AuthResult :=
  answer ← try (on_domain (LoginWithPassword o req cfg));
  match answer with
  | inr res => mret res
  | inl err =>
      on_audit (RecordLoginFailed auditID (o_now o) (req_Username req) "not_implemented" "not_implemented"
        (Error_text err) ∅) ;;
      app_fail err
  end.
Definition app_Logout (sessionID accessToken : string) : apiM unit :=
  answer ← try (on_domain (Logout o sessionID accessToken));
  match answer with inr _ => mret () | inl err => app_fail err end.
Definition app_VerifyMFAChallenge (req : VerifyMFARequest) (cfg : Config) : apiM AuthResult :=
  on_domain (VerifyMFAChallenge o req cfg).

(** ** Answers (helpers.go) *)
Definition WriteJSON (status : Z) (body : api_body) : apiM api_response := mret (mkApiResponse status body).
Definition WriteJSONError (code : string) (defaultStatus : Z) : apiM api_response :=
  a ← get;
  let status := if bool_decide (HttpStatus code = 0) then defaultStatus else HttpStatus code in
  WriteJSON status (ErrorBody code (error_Message code) (err_details (errvar_of (w_errors (api_world a)) code))).
Definition set_cause (code : string) (cause : error) : apiM unit :=
  on_domain (modify (fun w => mkWorld (w_repo w) (w_auth w) (w_families w) (WithCause (w_errors w) code cause) (w_started w))).

Definition bad_request (cause : error) : apiM api_response :=
  set_cause ErrBadRequest cause ;; WriteJSONError ErrBadRequest 400.
Definition write_failure (err : error) : apiM api_response :=
  match err with
  | Sentinel code => WriteJSONError code (HttpStatus code)
  | _ => set_cause ErrInternal err ;; WriteJSONError ErrInternal 500
  end.
Definition answering {A} (m : apiM A) (k : A -> apiM api_response) : apiM api_response :=
  answer ← try m;
  match answer with inl err => write_failure err | inr x => k x end.

(** ** Log-in (handlers/auth.go): the lifetimes are those of an empty
    configuration. *)
Definition handler_config : Config := mkConfig 0 0 0.

Definition handle_Login (body : error + AuthnRequest) : apiM api_response :=
  match body with
  | inl err => bad_request err
  | inr req =>
      answering (app_LoginWithPassword req handler_config) (fun res =>
        if ar_IsMfaRequired res then WriteJSON 200 (ChallengeBody (ar_Challenge res))
        else WriteJSON 200 (TokenBody (ar_Token res)))
  end.
Definition handle_VerifyMFA (body : error + VerifyMFARequest) : apiM api_response :=
  match body with
  | inl err => bad_request err
  | inr req => answering (app_VerifyMFAChallenge req handler_config) (fun res => WriteJSON 200 (TokenBody (ar_Token res)))
  end.
Definition handle_Logout : apiM api_response := WriteJSON 204 NoBody.

(** ** Registration (handlers/identity.go) *)
Context (HashPassword : string -> res error string) (fuel : nat).
Definition on_service {A} (m : svc R A) : apiM A := on_domain (on_identity m).

Definition handle_CreateUser (uuid repo_uuid : string) (body : error + (string * string * string)) : apiM api_response :=
  match body with
  | inl err => bad_request err
  | inr (username, email, password) =>
      answering
        (created ← on_service (app_CreateUser HashPassword fuel auditID (o_now o) uuid repo_uuid username email password);
         on_audit (Emit created.2 ;; dispatchWebhook "user.created" created.2) ;;
         mret created.1)
        (fun p => user ← on_service (on_repo (ir_read p)); WriteJSON 201 (UserBody user))
  end.

Definition handle_GetUser (vars : gmap string string) : apiM api_response :=
  match vars !! "id" with
  | None =>
      on_domain (modify (fun w => mkWorld (w_repo w) (w_auth w) (w_families w)
        (WithDetails (w_errors w) ErrBadRequest {[ "error" := "missing user ID" ]}) (w_started w))) ;;
      WriteJSONError ErrBadRequest 400
  | Some userID =>
      answering (on_service (app_GetUserByID userID))
        (fun p => user ← on_service (on_repo (ir_read p)); WriteJSON 200 (UserBody user))
  end.
End Api.

(** ** The stores of production (Redis) as the store of the service *)
#[global] Instance redis_store `{Redis C, !RedisEx C, !Codec UserSession} : AuthStore C := {
  as_CreateSession := RedisSessionRepository.CreateSession;
  as_DeleteSession := RedisSessionRepository.DeleteSession;
  as_StoreRefreshToken := RedisTokenRepository.StoreRefreshToken;
  as_GetRefreshTokenUserID := RedisTokenRepository.GetRefreshTokenUserID;
  as_DeleteRefreshToken := RedisTokenRepository.DeleteRefreshToken;
  as_AddToDenyList := RedisTokenRepository.AddToDenyList
}.

(** ** Facts *)
Section Facts.
Context `{IdentityRepository R} `{AuthStore T} `{FamilyStore F} (o : outside) (auditID : string).
Implicit Types (w : world R T F) (a : api R T F).

(** Everything a log-in asks for: the name is known, the account is active,
    the password verifies, and the policy does not ask for a second factor. *)
Definition entitled w (req : AuthnRequest) (p : loc) (u : User) : Prop :=
  ir_GetUserByUsername (req_Username req) (w_repo w) = (Ok p, w_repo w) /\ ir_read p (w_repo w) = (Ok u, w_repo w) /\
  user_Status u = UserStatusActive /\ o_CheckPasswordHash o (req_Password req) (user_Password u) = true /\
  exists level, o_risk o (login_context_of o u req) = Ok level /\ o_decide o level (login_context_of o u req) <> "REQUIRE_MFA".

Lemma entitled_login w req cfg p u : entitled w req p u ->
  LoginWithPassword o req cfg w = createSessionAndTokens o p u cfg w.
Proof.
  intros (Hfind & Hread & Hact & Hpw & level & Hrisk & Hd). unfold LoginWithPassword, service_GetUserByUsername.
  rewrite (or_fail_ok _ _ _ w p w) by by apply on_identity_found.
  rewrite (read_user_run p _ w u Hread), bool_decide_eq_true_2 by done. cbn [negb]. rewrite Hpw. cbn [negb].
  fold (login_context_of o u req). rewrite (or_fail_ok _ _ _ w level w) by (unfold lift; by rewrite Hrisk).
  by rewrite bool_decide_eq_false_2.
Qed.

Lemma app_login_run a req cfg :
  app_LoginWithPassword o auditID req cfg a =
    match LoginWithPassword o req cfg (api_world a) with
    | (Ok res, w) => (Ok res, mkApi w (api_audit a))
    | (Err err, w) =>
        app_fail err (mkApi w (RecordLoginFailed auditID (o_now o) (req_Username req) "not_implemented" "not_implemented"
                                (Error_text err) ∅ (api_audit a)).2)
    | (Panic, w) => (Panic, mkApi w (api_audit a))
    | (Diverge, w) => (Diverge, mkApi w (api_audit a))
    end.
Proof.
  unfold app_LoginWithPassword, try, mbind, prog_bind, on_domain, zoom.
  by destruct (LoginWithPassword o req cfg (api_world a)) as [[res|err| |] w].
Qed.

(** The audit trail of a refused log-in *)
Definition failed_login (req : AuthnRequest) (err : error) : AuditEvent :=
  mkAuditEvent auditID (o_now o) "auth" "login_failed" (req_Username req) "not_implemented" "" ResultFailure
    "not_implemented" {[ "reason" := AnyString (Error_text err) ]}.

Lemma record_failed req err s :
  (RecordLoginFailed auditID (o_now o) (req_Username req) "not_implemented" "not_implemented" (Error_text err) ∅ s).2 =
  (dispatchWebhook "login.failed" (failed_login req err) (Emit (failed_login req err) s).2).2.
Proof. done. Qed.

Lemma write_error_run code d a :
  WriteJSONError code d a =
    (Ok (mkApiResponse (if bool_decide (HttpStatus code = 0) then d else HttpStatus code)
           (ErrorBody code (error_Message code) (err_details (errvar_of (w_errors (api_world a)) code)))), a).
Proof. done. Qed.

(** A log-in that the service refuses with a predefined error: the answer has
    its status, and the failure is on the audit trail. *)
Lemma login_refused a req code w' :
  LoginWithPassword o req handler_config (api_world a) = (Err (Sentinel code), w') ->
  handle_Login o auditID (inr req) a =
    (Ok (mkApiResponse (HttpStatus code)
           (ErrorBody code (error_Message code) (err_details (errvar_of (w_errors w') code)))),
     mkApi w' (dispatchWebhook "login.failed" (failed_login req (Sentinel code))
                 (Emit (failed_login req (Sentinel code)) (api_audit a)).2).2).
Proof.
  intros Hrun. unfold handle_Login, answering, try, mbind, prog_bind. rewrite app_login_run, Hrun, record_failed.
  cbn [app_fail throw write_failure]. rewrite write_error_run. cbn [api_world]. by case_bool_decide as Hz; rewrite ?Hz.
Qed.
End Facts.

(** ** What log-in over HTTP is worth *)
Section HttpLogin.
Context `{IdentityRepository R} `{FamilyStore F} `{RedisExLaws C} `{!Codec UserSession} `{JWTLaws}.
Context (cm : CryptoManager) (jti : string) (o : outside) (auditID : string).
Context (issues : forall userID d, o_GenerateJWT o userID d = (crypto_GenerateJWT cm (o_now o) (o_now o) jti userID d None).1).

(** C38: the handler of log-in passes an empty configuration on.  With Redis, as
    in production, the refresh token is to be stored for no time, which Redis
    refuses: a log-in that is entitled in every respect is answered 500, no
    session and no token is stored, and the audit trail has a failed log-in.
    With the repository in memory it is answered 200 with tokens - an access
    token that the same manager accepts at no time, and a session that is over
    when it is opened. *)
Theorem login_over_http req p u (a : api R C F) (m : api R auth_repo F) :
  entitled o (api_world a) req p u -> entitled o (api_world m) req p u ->
  forall jwt, o_GenerateJWT o (user_ID u) 0 = Ok jwt ->
  (exists a', handle_Login o auditID (inr req) a =
       (Ok (mkApiResponse 500 (ErrorBody ErrInternal (error_Message ErrInternal)
              (err_details (errvar_of (w_errors (api_world a)) ErrInternal)))), a') /\
     w_auth (api_world a') = w_auth (api_world a) /\ w_repo (api_world a') = w_repo (api_world a) /\
     w_started (api_world a') = w_started (api_world a) /\
     (forall i k, pipeline (api_audit a) !! i = Some k -> sink_accepts k (failed_login o auditID req (Sentinel ErrInternal)) = true ->
        received (api_audit a') i = Some (sink_events k ++ [failed_login o auditID req (Sentinel ErrInternal)]))) /\
  (exists m', handle_Login o auditID (inr req) m =
       (Ok (mkApiResponse 200 (TokenBody (Some (mkToken jwt (o_refresh_uuid o) "Bearer" 0)))), m') /\
     w_auth (api_world m') = with_session o u handler_config (w_auth (api_world m)) /\
     session_ExpiresAt (new_session o u handler_config) = o_now o /\
     forall t, exists e, crypto_ValidateJWT cm t jwt = Err e).
Proof.
  intros Ha Hm jwt Hjwt. split.
  - destruct (law_SetEx_bad (w_auth (api_world a)) (o_now o) (RedisTokenRepository.refresh_key (o_refresh_uuid o)) (user_ID u) 0
      ltac:(lia)) as [e He].
    assert (Hrun : LoginWithPassword o req handler_config (api_world a) =
      (Err (Sentinel ErrInternal), set_errors (WithCause (w_errors (api_world a)) ErrInternal e) (api_world a))).
    { rewrite (entitled_login o _ req handler_config p u Ha). unfold createSessionAndTokens. cbn [AccessTokenDuration handler_config].
      rewrite (or_fail_ok _ _ _ (api_world a) jwt (api_world a)) by (unfold lift; by rewrite Hjwt).
      erewrite or_fail_err; [|apply on_auth_run; exact He]. by destruct (api_world a). }
    eexists. split.
    { rewrite (login_refused o auditID a req _ _ Hrun). change (HttpStatus ErrInternal) with 500.
      cbn [w_errors set_errors]. by rewrite errvar_of_WithCause, decide_True. }
    split; [done|]. split; [done|]. split; [done|]. intros i k Hi Hk. cbn [api_audit].
    pose proof (Emit_received (failed_login o auditID req (Sentinel ErrInternal)) (api_audit a) i k Hi) as Hrec. rewrite Hk in Hrec.
    rewrite <- Hrec. unfold dispatchWebhook, modify. cbn [snd]. by destruct (dispatcher _).
  - eexists. unfold handle_Login, answering, try, mbind, prog_bind. rewrite app_login_run, (entitled_login o _ req handler_config p u Hm).
    rewrite createSessionAndTokens_run. cbn [AccessTokenDuration handler_config]. rewrite Hjwt.
    split; [reflexivity|]. split; [reflexivity|]. split; [cbn; lia|]. intros t.
    rewrite issues in Hjwt. unfold crypto_GenerateJWT in Hjwt. cbn [fst] in Hjwt.
    set (cs := jwt_claims (o_now o) (o_now o) jti (user_ID u) 0 (default ∅ None)) in Hjwt.
    assert (Hs : jwt_Sign (jwtSecret cm) cs = Ok jwt) by (by destruct (jwt_Sign _ cs)).
    pose proof (validate_signed cm cs jwt t Hs) as Hv. unfold claims_current in Hv.
    destruct (jwt_claims_lookup (o_now o) (o_now o) jti (user_ID u) 0 ∅) as (_ & _ & Hiat & Hexp & _).
    change (cs !! "iat" = Some (AnyInt (Unix (o_now o)))) in Hiat.
    change (cs !! "exp" = Some (AnyInt (Unix (o_now o + 0)))) in Hexp.
    rewrite Hiat, Hexp in Hv. cbn [date_ok] in Hv. rewrite Z.add_0_r, Z.geb_leb in Hv.
    destruct (Z.ltb_spec (Unix t) (Unix (o_now o))), (Z.leb_spec (Unix (o_now o)) (Unix t)); try lia; exact Hv.
Qed.
End HttpLogin.

(** ** A concrete log-in *)
Section Demo.
#[local] Existing Instance toy_library.
#[local] Existing Instance toy_laws.
#[local] Existing Instance memory_setex.
#[local] Existing Instance memory_setex_laws.
#[local] Existing Instance session_codec.
#[local] Instance api_repository : IdentityRepository identity_repo := memory_repository default_order.

Definition api_outside : outside :=
  mkOutside 1000 "t1" "s1" "l1" (fun u d => (crypto_GenerateJWT server_crypto 1000 1000 "id-1" u d None).1)
    (fun _ => Err (Errorf "bad token")) (fun pw h => bool_decide (pw = h)) (fun _ => Ok "LOW") (fun _ _ => "ALLOW").
Definition quiet_audit : audit_service := mkAuditService [NewInMemorySink] false [].
Definition api_state {T} (t : T) : api identity_repo T (list TokenFamily) :=
  mkApi (mkWorld demo_repo t None ∅ []) quiet_audit.
Definition alice_enters : AuthnRequest := mkAuthnRequest "alice" "hash" "10.0.0.1" "" true.

Lemma login_over_http_witness :
  (handle_Login api_outside "a1" (inr alice_enters) (api_state (mkRedis ∅ ∅))).1 =
    Ok (mkApiResponse 500 (ErrorBody ErrInternal (error_Message ErrInternal) ∅)) /\
  exists jwt, (handle_Login api_outside "a1" (inr alice_enters) (api_state NewAuthMemoryRepository)).1 =
    Ok (mkApiResponse 200 (TokenBody (Some (mkToken jwt "t1" "Bearer" 0)))) /\
  exists e, crypto_ValidateJWT server_crypto 1000 jwt = Err e.
Proof.
  destruct (o_GenerateJWT api_outside (user_ID alice) 0) as [jwt| | |] eqn:Hjwt; try (vm_compute in Hjwt; discriminate Hjwt).
  destruct (@login_over_http identity_repo api_repository (list TokenFamily) redis_state memory_redis memory_redis_laws
    memory_setex memory_setex_laws session_codec toy_library toy_laws server_crypto "id-1" api_outside "a1"
    (fun _ _ => eq_refl) alice_enters 1%positive alice (api_state (mkRedis ∅ ∅)) (api_state NewAuthMemoryRepository)) with (jwt := jwt)
    as [(a' & Ha & _) (m' & Hm & _ & _ & Hjwt')].
  - split; [reflexivity|]. split; [reflexivity|]. split; [reflexivity|]. split; [reflexivity|].
    exists "LOW". split; [reflexivity|discriminate].
  - split; [reflexivity|]. split; [reflexivity|]. split; [reflexivity|]. split; [reflexivity|].
    exists "LOW". split; [reflexivity|discriminate].
  - exact Hjwt.
  - split; [rewrite Ha; reflexivity|]. exists jwt. split; [rewrite Hm; reflexivity|exact (Hjwt' 1000)].
Defined.
End Demo.
