(* ===== verification/SessionStore.v ===== *)
(** * The Redis session manager (internal/storage/redis/session_manager.go)

    Sessions are JSON values under [session:ID], indexed per user by the
    sorted set [user_sessions:USER].  JSON encoding and the fingerprint of a
    request's User-Agent are arguments; the metrics and the log are not
    modelled.  The clock is read several times by some operations; one reading
    stands for them. *)

From S2P Require Import Prelude Types Redis.
From Stdlib Require Import Ascii.
Local Open Scope Z_scope.

Record SessionConfig := mkSessionConfig {
  DefaultTTL : Z;
  EnableRotation : bool;
  RotationInterval : Z;
  EnableDeviceBinding : bool;
  MaxSessionsPerUser : Z
}.

Section SessionManager.
Context `{Redis C} (config : SessionConfig).
Context (marshal : UserSession -> string) (unmarshal : string -> option UserSession).
(** [computeDeviceFingerprint] of a User-Agent *)
Context (fingerprint : string -> string).

Notation sm A := (prog C error A).

Definition sessionKey (id : string) : string := "session:" +:+ id.
Definition userSessionsKey (u : string) : string := "user_sessions:" +:+ u.

(** [_ = m]: the error is dropped. *)
Definition ignore {A} (m : sm A) : sm unit := try m ;; mret ().

Definition enforceMaxSessions (userID : string) : sm unit :=
  count ← wrapping "could not get user session count: " (r_ZCard (userSessionsKey userID));
  if bool_decide (count < MaxSessionsPerUser config) then mret ()
  else
    let numToEvict := int64 (int64 (count - MaxSessionsPerUser config) + 1) in
    if bool_decide (numToEvict <= 0) then mret ()
    else
      wrapping "could not retrieve sessions for eviction: "
        (r_ZRemRangeByRank (userSessionsKey userID) 0 (numToEvict - 1)) ;;
      mret ().

Definition new_user_session (id userID : string) (now : time) : UserSession :=
  mkUserSession id userID "" "" now (now + DefaultTTL config) "" now.

Definition sm_CreateSession (now : time) (uuid userID : string) : sm UserSession :=
  (if bool_decide (0 < MaxSessionsPerUser config) then ignore (enforceMaxSessions userID) else mret ()) ;;
  let session := new_user_session uuid userID now in
  ok ← wrapping "could not store session in redis: "
         (r_SetNX now (sessionKey uuid) (marshal session) (DefaultTTL config));
  if negb ok then throw (Errorf "session already exists")
  else
    added ← try (r_ZAdd (userSessionsKey userID) now uuid);
    match added with
    | inl err => ignore (r_Del (sessionKey uuid)) ;;
                 throw (Wrapf "could not add session to user set: " err)
    | inr _ => mret session
    end.

Definition sm_DeleteSession (userID sessionID : string) : sm unit :=
  wrapping "could not delete session key: " (r_Del (sessionKey sessionID)) ;;
  wrapping "could not remove session from user set: "
    (r_ZRem (userSessionsKey userID) sessionID) ;;
  mret ().

(** [userAgent] is [None] for a nil request, which the fingerprint would
    follow. *)
Definition sm_GetSession (now : time) (sessionID : string) (userAgent : option string) : sm UserSession :=
  data ← try (r_Get now (sessionKey sessionID));
  match data with
  | inl _ => throw (Sentinel ErrNotFound)
  | inr data =>
      match unmarshal data with
      | None => throw (Wrapf "could not unmarshal session: " (Errorf "json"))
      | Some session =>
          if bool_decide (session_ExpiresAt session < now) then
            ignore (sm_DeleteSession (session_UserID session) (session_ID session)) ;;
            throw (Sentinel ErrSessionExpired)
          else if EnableDeviceBinding config then
            match userAgent with
            | None => lift Panic
            | Some ua =>
                if bool_decide (session_DeviceFingerprint session = fingerprint ua)
                then mret session else throw (Sentinel ErrDeviceMismatch)
            end
          else mret session
      end
  end.

Definition gracePeriod : Z := 300 * 10 ^ 9.

Definition carry_over (old new : UserSession) : UserSession :=
  mkUserSession (session_ID new) (session_UserID new) (session_IPAddress old)
    (session_UserAgent old) (session_CreatedAt new) (session_ExpiresAt new)
    (session_DeviceFingerprint old) (session_LastRotatedAt new).

Definition RotateSession (now : time) (uuid oldSessionID : string) (userAgent : option string) :
    sm UserSession :=
  oldSession ← sm_GetSession now oldSessionID userAgent;
  newSession ← wrapping "could not create new session during rotation: "
                 (sm_CreateSession now uuid (session_UserID oldSession));
  let newSession := carry_over oldSession newSession in
  ignore (r_Set now (sessionKey oldSessionID) (session_ID newSession) gracePeriod) ;;
  ignore (r_ZRem (userSessionsKey (session_UserID oldSession)) oldSessionID) ;;
  mret newSession.

(** The loop of [GetUserSessions] over the identifiers and the values. *)
Fixpoint collect_sessions (now : time) (userID : string) (ids : list string)
    (results : list (option string)) : sm (list UserSession) :=
  match ids, results with
  | id :: ids, result :: results =>
      match result with
      | None => ignore (sm_DeleteSession userID id) ;; collect_sessions now userID ids results
      | Some data =>
          match unmarshal data with
          | None => collect_sessions now userID ids results
          | Some session =>
              if bool_decide (session_ExpiresAt session < now)
              then ignore (sm_DeleteSession userID id) ;; collect_sessions now userID ids results
              else rest ← collect_sessions now userID ids results; mret (session :: rest)
          end
      end
  | _, _ => mret []
  end.

Definition sm_GetUserSessions (now : time) (userID : string) : sm (list UserSession) :=
  sessionIDs ← wrapping "could not retrieve session IDs: " (r_ZRange (userSessionsKey userID) 0 (-1));
  match sessionIDs with
  | [] => mret []
  | _ =>
      results ← wrapping "could not retrieve sessions: " (r_MGet now (sessionKey <$> sessionIDs));
      collect_sessions now userID sessionIDs results
  end.

Definition RevokeSession (now : time) (userID sessionID : string) : sm unit :=
  if negb (bool_decide (userID = "")) then sm_DeleteSession userID sessionID
  else
    session ← try (sm_GetSession now sessionID None);
    match session with
    | inl err => if bool_decide (err = Sentinel ErrNotFound) then mret () else throw err
    | inr session => sm_DeleteSession (session_UserID session) sessionID
    end.

Definition RevokeAllUserSessions (userID : string) : sm unit :=
  sessionIDs ← r_ZRange (userSessionsKey userID) 0 (-1);
  for_each (fun id => ignore (sm_DeleteSession userID id)) sessionIDs.
End SessionManager.

(** ** Runs on a server that answers *)
Section Runs.
Context `{RedisLaws C} (config : SessionConfig).
Context (marshal : UserSession -> string) (unmarshal : string -> option UserSession).
Context (fingerprint : string -> string).

Lemma ignore_run {A B} (m : prog C error A) (k : () -> prog C error B) c x c' :
  m c = (Ok x, c') -> (ignore m ≫= k) c = k () c'.
Proof. intros Hm. unfold ignore, mbind, prog_bind, try. by rewrite Hm. Qed.

Lemma sessionKey_inj i j : sessionKey i = sessionKey j -> i = j.
Proof. unfold sessionKey. intros Hij. by apply (inj (String.append "session:")) in Hij. Qed.

Lemma userSessionsKey_inj i j : userSessionsKey i = userSessionsKey j -> i = j.
Proof. unfold userSessionsKey. intros Hij. by apply (inj (String.append "user_sessions:")) in Hij. Qed.

Lemma delete_run u id c :
  exists c', sm_DeleteSession u id c = (Ok (), c') /\
    (forall t k, kv c' t k = if decide (sessionKey id = k) then None else kv c t k) /\
    (forall z, z <> userSessionsKey u -> zmembers c' z = zmembers c z) /\
    zmembers c' (userSessionsKey u) = filter (fun x => x <> id) (zmembers c (userSessionsKey u)).
Proof.
  destruct (law_Del c (sessionKey id)) as (c1 & Hdel & Hkv & Hz).
  destruct (law_ZRem c1 (userSessionsKey u) id) as (n & c2 & Hrem & Hkv2 & Hz2 & Hm2).
  exists c2. split; [|split; [|split]].
  - unfold sm_DeleteSession. rewrite (wrapping_ok _ _ _ _ _ _ Hdel).
    by rewrite (wrapping_ok _ _ _ _ _ _ Hrem).
  - intros t k. by rewrite Hkv2, Hkv.
  - intros z Hne. by rewrite Hz2, Hz.
  - by rewrite Hm2, Hz.
Qed.

(** The number of members the eviction leaves. *)
Definition kept (members : list string) : list string :=
  if bool_decide (Z.of_nat (length members) < MaxSessionsPerUser config) then members
  else drop (Z.to_nat (Z.of_nat (length members) - MaxSessionsPerUser config + 1)) members.

Lemma enforce_run u c :
  0 < MaxSessionsPerUser config -> Z.of_nat (length (zmembers c (userSessionsKey u))) < 2 ^ 62 ->
  exists c', enforceMaxSessions config u c = (Ok (), c') /\
    (forall t k, kv c' t k = kv c t k) /\
    (forall z, z <> userSessionsKey u -> zmembers c' z = zmembers c z) /\
    zmembers c' (userSessionsKey u) = kept (zmembers c (userSessionsKey u)).
Proof.
  intros Hmax Hlen. unfold enforceMaxSessions, kept.
  rewrite (wrapping_ok _ _ _ _ _ _ (law_ZCard c (userSessionsKey u))).
  set (n := Z.of_nat (length (zmembers c (userSessionsKey u)))) in *.
  case_bool_decide as Hn; [by exists c|].
  rewrite (int64_small (n - _)) by lia. rewrite int64_small by lia.
  rewrite bool_decide_eq_false_2 by lia.
  destruct (law_ZRemRangeByRank c (userSessionsKey u) (n - MaxSessionsPerUser config + 1 - 1))
    as (m & c' & Hrun & Hkv & Hz & Hm); [lia|].
  exists c'. split; [|split; [done|split; [done|]]].
  - by rewrite (wrapping_ok _ _ _ _ _ _ Hrun).
  - rewrite Hm. f_equal. unfold rank_end. rewrite bool_decide_eq_false_2 by lia. f_equal. lia.
Qed.

Lemma kept_length members :
  0 < MaxSessionsPerUser config -> Z.of_nat (length (kept members)) < MaxSessionsPerUser config.
Proof.
  intros. unfold kept. case_bool_decide; [done|]. rewrite length_drop. lia.
Qed.

Lemma create_run now uuid u c :
  kv c now (sessionKey uuid) = None ->
  Z.of_nat (length (zmembers c (userSessionsKey u))) < 2 ^ 62 ->
  exists c', sm_CreateSession config marshal now uuid u c =
      (Ok (new_user_session config uuid u now), c') /\
    (forall t k, kv c' t k = if decide (sessionKey uuid = k)
       then (if lives now (DefaultTTL config) t
             then Some (marshal (new_user_session config uuid u now)) else None)
       else kv c t k) /\
    (forall z, z <> userSessionsKey u -> zmembers c' z = zmembers c z) /\
    zmembers c' (userSessionsKey u) ≡ₚ uuid :: filter (fun x => x <> uuid)
      (if bool_decide (0 < MaxSessionsPerUser config) then kept (zmembers c (userSessionsKey u))
       else zmembers c (userSessionsKey u)).
Proof.
  intros Hfree Hlen. unfold sm_CreateSession.
  assert (exists c1, (forall (k : () -> prog C error UserSession),
      ((if bool_decide (0 < MaxSessionsPerUser config) then ignore (enforceMaxSessions config u)
        else mret ()) ≫= k) c = k () c1) /\
    (forall t k, kv c1 t k = kv c t k) /\
    (forall z, z <> userSessionsKey u -> zmembers c1 z = zmembers c z) /\
    zmembers c1 (userSessionsKey u) = if bool_decide (0 < MaxSessionsPerUser config)
      then kept (zmembers c (userSessionsKey u)) else zmembers c (userSessionsKey u))
    as (c1 & Hrun1 & Hkv1 & Hz1 & Hm1).
  { case_bool_decide; [|by exists c].
    destruct (enforce_run u c) as (c1 & Hrun & Hrest); [done|done|].
    exists c1. split; [|done]. intros k. by apply (ignore_run _ _ _ ()). }
  rewrite Hrun1.
  destruct (law_SetNX c1 now (sessionKey uuid) (marshal (new_user_session config uuid u now))
    (DefaultTTL config)) as (c2 & Hset & Hkv2 & Hz2); [by rewrite Hkv1|].
  rewrite (wrapping_ok _ _ _ _ _ _ Hset). cbn [negb].
  destruct (law_ZAdd c2 (userSessionsKey u) now uuid) as (c3 & Hadd & Hkv3 & Hz3 & Hm3).
  exists c3. split; [|split; [|split]].
  - unfold mbind, prog_bind, try. by rewrite Hadd.
  - intros t k. rewrite Hkv3, Hkv2. destruct (decide (sessionKey uuid = k)); [done|]. apply Hkv1.
  - intros z Hne. by rewrite Hz3, Hz2, Hz1.
  - rewrite Hm3, Hz2, Hm1. done.
Qed.

Lemma get_run now id ua c :
  sm_GetSession config unmarshal fingerprint now id ua c =
    match kv c now (sessionKey id) with
    | None => (Err (Sentinel ErrNotFound), c)
    | Some data =>
        match unmarshal data with
        | None => (Err (Wrapf "could not unmarshal session: " (Errorf "json")), c)
        | Some s =>
            if bool_decide (session_ExpiresAt s < now)
            then (Err (Sentinel ErrSessionExpired),
                  (sm_DeleteSession (session_UserID s) (session_ID s) c).2)
            else if EnableDeviceBinding config then
              match ua with
              | None => (Panic, c)
              | Some ua => if bool_decide (session_DeviceFingerprint s = fingerprint ua)
                           then (Ok s, c) else (Err (Sentinel ErrDeviceMismatch), c)
              end
            else (Ok s, c)
        end
    end.
Proof.
  unfold sm_GetSession. unfold mbind at 1, prog_bind at 1, try at 1. rewrite law_Get.
  destruct (kv c now (sessionKey id)) as [data|]; [|done].
  destruct (unmarshal data) as [s|]; [|done].
  case_bool_decide.
  - destruct (delete_run (session_UserID s) (session_ID s) c) as (c' & Hrun & _).
    rewrite (ignore_run _ _ _ _ _ Hrun), Hrun. done.
  - destruct (EnableDeviceBinding config); [|done]. destruct ua; [|done]. by case_bool_decide.
Qed.

(** Revoking all sessions of a user deletes the indexed ones only. *)
Lemma revoke_all_run u c t id :
  id ∉ zmembers c (userSessionsKey u) ->
  (RevokeAllUserSessions u c).1 = Ok () /\
  kv (RevokeAllUserSessions u c).2 t (sessionKey id) = kv c t (sessionKey id).
Proof.
  unfold RevokeAllUserSessions. rewrite (prog_bind_run _ _ c _ _ (law_ZRange_all c (userSessionsKey u))).
  generalize (zmembers c (userSessionsKey u)). intros ids. revert c.
  induction ids as [|i ids IH]; intros c Hni; [done|]. cbn [for_each].
  destruct (delete_run u i c) as (c' & Hrun & Hkv & _).
  rewrite (ignore_run _ _ _ _ _ Hrun).
  apply not_elem_of_cons in Hni as [Hne Hni].
  destruct (IH c' Hni) as [H1 H2]. split; [done|]. rewrite H2, Hkv.
  rewrite decide_False; [done|]. intros ?%sessionKey_inj. congruence.
Qed.
End Runs.

(** ** Properties

    [marshal] and [unmarshal] are Go's JSON encoding of a session, of which
    the development uses that decoding inverts encoding. *)
Section Properties.
Context `{RedisLaws C} (config : SessionConfig).
Context (marshal : UserSession -> string) (unmarshal : string -> option UserSession).
Context (fingerprint : string -> string).
Hypothesis unmarshal_marshal : forall s, unmarshal (marshal s) = Some s.

(** A session that was created is returned until its lifetime is over and
    not found from then on; with device binding it is never returned: the
    fingerprint of the device is not recorded, so that every request with a
    fingerprint is a mismatch, and a nil request panics. *)
Theorem session_lifetime now uuid u c t :
  kv c now (sessionKey uuid) = None ->
  Z.of_nat (length (zmembers c (userSessionsKey u))) < 2 ^ 62 ->
  0 < DefaultTTL config ->
  exists s c', sm_CreateSession config marshal now uuid u c = (Ok s, c') /\
    session_UserID s = u /\ session_ID s = uuid /\
    let read ua := (sm_GetSession config unmarshal fingerprint t uuid ua c').1 in
    (now + DefaultTTL config <= t -> forall ua, read ua = Err (Sentinel ErrNotFound)) /\
    (t < now + DefaultTTL config ->
       (EnableDeviceBinding config = false -> forall ua, read ua = Ok s) /\
       (EnableDeviceBinding config = true ->
          read None = Panic /\
          forall a, fingerprint a <> "" -> read (Some a) = Err (Sentinel ErrDeviceMismatch))).
Proof.
  intros Hfree Hlen Httl.
  destruct (create_run config marshal now uuid u c Hfree Hlen) as (c' & Hrun & Hkv & _ & _).
  exists (new_user_session config uuid u now), c'. split; [exact Hrun|].
  split; [done|]. split; [done|]. intros read. unfold read.
  assert (Hread : kv c' t (sessionKey uuid) =
    if lives now (DefaultTTL config) t then Some (marshal (new_user_session config uuid u now)) else None).
  { by rewrite Hkv, decide_True. }
  unfold lives in Hread. rewrite (bool_decide_eq_false_2 (DefaultTTL config = 0)) in Hread by lia.
  cbn [orb] in Hread. split.
  - intros Ht ua. rewrite bool_decide_eq_false_2 in Hread by lia.
    rewrite get_run. by rewrite Hread.
  - intros Ht. rewrite bool_decide_eq_true_2 in Hread by lia. split.
    + intros Hb ua. rewrite get_run, Hread, unmarshal_marshal, Hb.
      cbn [session_ExpiresAt new_user_session]. by rewrite bool_decide_eq_false_2 by lia.
    + intros Hb. split.
      * rewrite get_run, Hread, unmarshal_marshal, Hb.
        cbn [session_ExpiresAt new_user_session]. by rewrite bool_decide_eq_false_2 by lia.
      * intros a Ha. rewrite get_run, Hread, unmarshal_marshal, Hb.
        cbn [session_ExpiresAt new_user_session session_DeviceFingerprint].
        rewrite !bool_decide_eq_false_2; [done|congruence|lia].
Qed.

(** C9: creating a session leaves at most the configured number in the user's
    index, the new one among them; but the sessions dropped from the index
    stay valid: they are still returned, they are not listed, and revoking all
    sessions of the user does not end them. *)
Theorem evicted_sessions_survive now uuid u c old s t ua :
  0 < MaxSessionsPerUser config -> EnableDeviceBinding config = false ->
  kv c now (sessionKey uuid) = None ->
  Z.of_nat (length (zmembers c (userSessionsKey u))) < 2 ^ 62 ->
  kv c t (sessionKey old) = Some (marshal s) -> t <= session_ExpiresAt s ->
  old ∉ kept config (zmembers c (userSessionsKey u)) -> old <> uuid ->
  exists s' c', sm_CreateSession config marshal now uuid u c = (Ok s', c') /\
    Z.of_nat (length (zmembers c' (userSessionsKey u))) <= MaxSessionsPerUser config /\
    uuid ∈ zmembers c' (userSessionsKey u) /\
    old ∉ zmembers c' (userSessionsKey u) /\
    sm_GetSession config unmarshal fingerprint t old ua c' = (Ok s, c') /\
    (sm_GetSession config unmarshal fingerprint t old ua (RevokeAllUserSessions u c').2).1 = Ok s.
Proof.
  intros Hmax Hbind Hfree Hlen Hold Hexp Hout Hne.
  destruct (create_run config marshal now uuid u c Hfree Hlen) as (c' & Hrun & Hkv & _ & Hm).
  rewrite bool_decide_eq_true_2 in Hm by done.
  assert (Hnot : old ∉ zmembers c' (userSessionsKey u)).
  { rewrite Hm. apply not_elem_of_cons. split; [done|]. by intros [_ ?]%list_elem_of_filter. }
  assert (Hget : kv c' t (sessionKey old) = Some (marshal s)).
  { rewrite Hkv, decide_False; [done|]. intros ?%sessionKey_inj. congruence. }
  exists (new_user_session config uuid u now), c'. split; [exact Hrun|].
  split; [|split; [|split; [done|split]]].
  - rewrite Hm. cbn [length].
    pose proof (kept_length config (zmembers c (userSessionsKey u)) Hmax).
    pose proof (length_filter (fun x => x <> uuid) (kept config (zmembers c (userSessionsKey u)))). lia.
  - rewrite Hm. constructor.
  - rewrite get_run, Hget, unmarshal_marshal, Hbind. by rewrite bool_decide_eq_false_2 by lia.
  - destruct (revoke_all_run u c' t old Hnot) as [_ Hkv'].
    rewrite get_run, Hkv', Hget, unmarshal_marshal, Hbind. by rewrite bool_decide_eq_false_2 by lia.
Qed.

(** Rotation gives the user a new session and takes the old identifier out
    of the index, but the grace period for the old identifier does not work:
    its key then holds the bare new identifier, which is not a session, so
    that a late request with it is answered by a decoding error; and the
    device, address and agent the answer carries over are not stored. *)
Theorem rotation_breaks_grace_period now uuid u c old s t ua :
  EnableDeviceBinding config = false -> 0 < DefaultTTL config ->
  kv c now (sessionKey old) = Some (marshal s) -> now <= session_ExpiresAt s ->
  session_UserID s = u -> unmarshal uuid = None ->
  kv c now (sessionKey uuid) = None ->
  Z.of_nat (length (zmembers c (userSessionsKey u))) < 2 ^ 62 ->
  now <= t < now + gracePeriod -> t < now + DefaultTTL config ->
  exists s' c', RotateSession config marshal unmarshal fingerprint now uuid old ua c = (Ok s', c') /\
    session_ID s' = uuid /\ session_UserID s' = u /\
    session_DeviceFingerprint s' = session_DeviceFingerprint s /\
    uuid ∈ zmembers c' (userSessionsKey u) /\ old ∉ zmembers c' (userSessionsKey u) /\
    sm_GetSession config unmarshal fingerprint t old ua c' =
      (Err (Wrapf "could not unmarshal session: " (Errorf "json")), c') /\
    (exists s'', sm_GetSession config unmarshal fingerprint t uuid ua c' = (Ok s'', c') /\
       session_UserID s'' = u /\ session_DeviceFingerprint s'' = "").
Proof.
  intros Hbind Httl Hold Hexp Hu Hbare Hfree Hlen Ht Ht'.
  assert (Hne : uuid <> old) by (intros ->; congruence).
  assert (Hget : sm_GetSession config unmarshal fingerprint now old ua c = (Ok s, c)).
  { rewrite get_run, Hold, unmarshal_marshal, Hbind. by rewrite bool_decide_eq_false_2 by lia. }
  destruct (create_run config marshal now uuid u c Hfree Hlen) as (c1 & Hrun & Hkv1 & _ & Hm1).
  destruct (law_Set c1 now (sessionKey old) uuid gracePeriod) as (c2 & Hset & Hkv2 & Hz2).
  destruct (law_ZRem c2 (userSessionsKey u) old) as (n & c3 & Hrem & Hkv3 & _ & Hm3).
  exists (carry_over s (new_user_session config uuid u now)), c3.
  assert (Hlive : lives now gracePeriod t = true).
  { unfold lives. rewrite (bool_decide_eq_true_2 (t < _)) by lia. by rewrite orb_true_r. }
  assert (Hlive' : lives now (DefaultTTL config) t = true).
  { unfold lives. rewrite (bool_decide_eq_true_2 (t < _)) by lia. by rewrite orb_true_r. }
  split; [|do 3 (split; [done|])].
  { unfold RotateSession. rewrite (prog_bind_run _ _ c s c Hget). rewrite Hu.
    rewrite (wrapping_ok _ _ _ _ _ _ Hrun). cbn [session_ID carry_over new_user_session].
    rewrite (ignore_run _ _ _ _ _ Hset). by rewrite (ignore_run _ _ _ _ _ Hrem). }
  split; [|split; [|split]].
  - rewrite Hm3, Hz2. apply list_elem_of_filter. split; [done|]. rewrite Hm1. constructor.
  - rewrite Hm3. by intros [? _]%list_elem_of_filter.
  - rewrite get_run, Hkv3, Hkv2, decide_True by done. rewrite Hlive. by rewrite Hbare.
  - exists (new_user_session config uuid u now). split; [|done].
    rewrite get_run, Hkv3, Hkv2. rewrite decide_False by (intros ?%sessionKey_inj; congruence).
    rewrite Hkv1, decide_True by done. rewrite Hlive', unmarshal_marshal, Hbind.
    cbn [session_ExpiresAt new_user_session]. by rewrite bool_decide_eq_false_2 by lia.
Qed.
End Properties.

(** ** A concrete server: an encoding of sessions that starts with a brace *)
Definition demo_marshal : UserSession -> string := encode_string.
Definition demo_unmarshal : string -> option UserSession := decode_string.
Lemma demo_unmarshal_marshal s : demo_unmarshal (demo_marshal s) = Some s.
Proof. apply decode_encode_string. Qed.

Definition demo_config (binding : bool) : SessionConfig := mkSessionConfig 100 false 0 binding 1.
Definition demo_redis : redis_state := mkRedis ∅ ∅.
(** One session [s1] of [u1], created at time 10. *)
Definition demo_redis_1 : redis_state :=
  (sm_CreateSession (demo_config false) demo_marshal 10 "s1" "u1" demo_redis).2.

Lemma session_lifetime_witness :
  exists s c', sm_CreateSession (demo_config true) demo_marshal 10 "s1" "u1" demo_redis = (Ok s, c') /\
    (sm_GetSession (demo_config true) demo_unmarshal (fun ua => "h:" +:+ ua) 20 "s1" (Some "curl") c').1 =
      Err (Sentinel ErrDeviceMismatch).
Proof.
  destruct (session_lifetime (demo_config true) demo_marshal demo_unmarshal (fun ua => "h:" +:+ ua)
    demo_unmarshal_marshal 10 "s1" "u1" demo_redis 20) as (s & c' & Hrun & _ & _ & _ & Hlive);
    [reflexivity|vm_compute; reflexivity|vm_compute; reflexivity|].
  exists s, c'. split; [exact Hrun|].
  destruct (Hlive eq_refl) as [_ Hb]. apply (Hb eq_refl). discriminate.
Defined.

Lemma evicted_sessions_survive_witness :
  exists s' c', sm_CreateSession (demo_config false) demo_marshal 20 "s2" "u1" demo_redis_1 = (Ok s', c') /\
    "s1" ∉ zmembers c' (userSessionsKey "u1") /\
    (sm_GetSession (demo_config false) demo_unmarshal (fun ua => ua) 30 "s1" None
       (RevokeAllUserSessions "u1" c').2).1 = Ok (new_user_session (demo_config false) "s1" "u1" 10).
Proof.
  destruct (evicted_sessions_survive (demo_config false) demo_marshal demo_unmarshal (fun ua => ua)
    demo_unmarshal_marshal 20 "s2" "u1" demo_redis_1 "s1" (new_user_session (demo_config false) "s1" "u1" 10)
    30 None) as (s' & c' & Hrun & _ & _ & Hnot & _ & Hget).
  - reflexivity.
  - reflexivity.
  - vm_compute. reflexivity.
  - vm_compute. reflexivity.
  - vm_compute. reflexivity.
  - vm_compute. discriminate.
  - vm_compute. apply not_elem_of_nil.
  - discriminate.
  - exists s', c'. split; [exact Hrun|]. split; [exact Hnot|exact Hget].
Defined.

Lemma rotation_breaks_grace_period_witness :
  exists s' c', RotateSession (demo_config false) demo_marshal demo_unmarshal (fun ua => ua)
      20 "s2" "s1" None demo_redis_1 = (Ok s', c') /\
    sm_GetSession (demo_config false) demo_unmarshal (fun ua => ua) 30 "s1" None c' =
      (Err (Wrapf "could not unmarshal session: " (Errorf "json")), c').
Proof.
  destruct (rotation_breaks_grace_period (demo_config false) demo_marshal demo_unmarshal (fun ua => ua)
    demo_unmarshal_marshal 20 "s2" "u1" demo_redis_1 "s1" (new_user_session (demo_config false) "s1" "u1" 10)
    30 None) as (s' & c' & Hrun & _ & _ & _ & _ & _ & Hold & _).
  - reflexivity.
  - vm_compute. reflexivity.
  - vm_compute. reflexivity.
  - vm_compute. discriminate.
  - reflexivity.
  - vm_compute. reflexivity.
  - vm_compute. reflexivity.
  - vm_compute. reflexivity.
  - unfold gracePeriod. lia.
  - vm_compute. reflexivity.
  - exists s', c'. split; [exact Hrun|exact Hold].
Defined.
