(* ===== verification/SessionRisk.v ===== *)
(** * Session risk (internal/auth/session, internal/storage/redis/session_risk_store.go)

    Continuous evaluation of a session: the signals of [RiskMonitor]
    (risk_monitor.go), the score and level of [SessionEvaluator]
    (session_evaluator.go), the rules of [SessionPolicy] (session_policy.go)
    and the cache of results in Redis.  Geolocation, IP reputation and the
    device lookup are arguments; one reading of the clock stands for the
    several of a call. *)

From S2P Require Import Prelude Types GoStd Redis.
From Stdlib Require Import Sorting.Sorted SpecFloat.
From stdpp Require Import sorting.
Local Open Scope Z_scope.

(** ** Sessions (session_manager.go) *)
Definition SessionStatusActive : string := "active".
Definition SessionStatusDowngraded : string := "downgraded".
Definition SessionStatusStepUpRequired : string := "step_up_required".
Definition SessionStatusTerminated : string := "terminated".

Record Session := mkSession {
  se_ID : string;
  se_UserID : string;
  se_TenantID : string;
  se_DeviceID : string;
  se_Status : string;
  se_AuthLevel : Z;
  se_RiskLevel : string;
  se_CurrentRiskScore : Z;
  se_Permissions : list string;
  se_CurrentIP : string;
  se_PreviousIP : string;
  se_LastIPChangeAt : time;
  se_PreviousDeviceID : string;
  se_CreatedAt : time;
  se_ExpiresAt : time;
  se_LastActivityAt : time;
  se_LastEvaluatedAt : time;
  se_LastStepUpAt : time;
  se_StepUpReason : string;
  se_StepUpRequiredAt : time;
  se_DowngradeReason : string;
  se_DowngradedAt : time;
  se_TerminateReason : string;
  se_TerminatedAt : time;
  se_UserAgent : string;
  se_DeviceFingerprint : string
}.

#[global] Instance Session_eq_dec : EqDecision Session.
Proof. solve_decision. Defined.

(** ** Policy rules (session_policy.go) *)
Definition ActionNone : string := "none".
Definition ActionMonitor : string := "monitor".
Definition ActionRequireMFA : string := "require_mfa".
Definition ActionDowngrade : string := "downgrade".
Definition ActionTerminate : string := "terminate".

Record PolicyCondition := mkCondition {
  cond_Field : string;
  cond_Operator : string;
  cond_Value : any
}.

Record PolicyRule := mkRule {
  rule_ID : string;
  rule_Name : string;
  rule_Priority : Z;
  rule_Conditions : list PolicyCondition;
  rule_Action : string;
  rule_Reason : string
}.

Definition DefaultPolicyRules : list PolicyRule := [
  mkRule "critical_risk_terminate" "Terminate Critical Risk Sessions" 1
    [mkCondition "risk_level" "==" (AnyString "critical")]
    ActionTerminate "Risk level reached critical threshold";
  mkRule "high_risk_downgrade" "Downgrade High Risk Sessions" 2
    [mkCondition "risk_level" "==" (AnyString "high")]
    ActionDowngrade "High risk level detected, restricting permissions";
  mkRule "medium_risk_mfa" "Require MFA for Medium Risk" 3
    [mkCondition "risk_level" "==" (AnyString "medium")]
    ActionRequireMFA "Suspicious activity detected, verification required";
  mkRule "geo_jump_mfa" "Require MFA on Geo Jump" 4
    [mkCondition "signals" "contains" (AnyString "geo_jump")]
    ActionRequireMFA "Abnormal geographical movement detected";
  mkRule "long_inactive_reauth" "Re-auth after Long Inactivity" 5
    [mkCondition "inactive_minutes" ">" (AnyInt 60)]
    ActionRequireMFA "Session inactive for too long"
].

(** [sort.Slice] by priority is not stable: of the documentation of the
    standard library a sorting only has that its result is sorted and a
    permutation of its argument. *)
Record priority_sort := PrioritySort {
  sort_rules : list PolicyRule -> list PolicyRule;
  sort_perm rules : sort_rules rules ≡ₚ rules;
  sort_sorted rules : StronglySorted (fun r r' => rule_Priority r <= rule_Priority r') (sort_rules rules)
}.

Section Policy.
Context (format_other : any -> string) (srt : priority_sort).

Definition toFloat (v : any) : float64 :=
  match v with
  | AnyInt i => float_of_Z i
  | AnyFloat f => f
  | AnyDuration d => Seconds d
  | _ => fzero
  end.

Definition matchCondition (actual : any) (operator : string) (expected : any) : bool :=
  let text := Sprintf_v format_other in
  if bool_decide (operator = "==") then bool_decide (text actual = text expected)
  else if bool_decide (operator = "!=") then negb (bool_decide (text actual = text expected))
  else if bool_decide (operator = ">") then flt (toFloat expected) (toFloat actual)
  else if bool_decide (operator = "<") then flt (toFloat actual) (toFloat expected)
  else if bool_decide (operator = ">=") then fle (toFloat expected) (toFloat actual)
  else if bool_decide (operator = "<=") then fle (toFloat actual) (toFloat expected)
  else if bool_decide (operator = "contains") then
    match actual with
    | AnyStrings arr => bool_decide (text expected ∈ arr)
    | AnyString str => strings_Contains str (text expected)
    | _ => false
    end
  else false.

Fixpoint matchAllConditions (ctx : gmap string any) (conditions : list PolicyCondition) : bool :=
  match conditions with
  | [] => true
  | cond :: conditions =>
      match ctx !! cond_Field cond with
      | None => false
      | Some val =>
          if negb (matchCondition val (cond_Operator cond) (cond_Value cond)) then false
          else matchAllConditions ctx conditions
      end
  end.

Fixpoint first_action (ctx : gmap string any) (rules : list PolicyRule) : string * string :=
  match rules with
  | [] => (ActionNone, "")
  | rule :: rules =>
      if matchAllConditions ctx (rule_Conditions rule) then (rule_Action rule, rule_Reason rule)
      else first_action ctx rules
  end.

Definition DetermineAction (rules : list PolicyRule) (ctx : gmap string any) : string * string :=
  first_action ctx (sort_rules srt rules).

Definition AddRule (rule : PolicyRule) (rules : list PolicyRule) : list PolicyRule := rules ++ [rule].
Definition RemoveRule (ruleID : string) (rules : list PolicyRule) : list PolicyRule :=
  filter (fun r => rule_ID r <> ruleID) rules.
End Policy.

(** ** Risk signals (risk_monitor.go) *)
Record RiskSignal := mkSignal {
  sig_Type : string;
  sig_Severity : string;
  sig_Value : any;
  sig_DetectedAt : time
}.

Record IPReputation := mkIPReputation { rep_Score : Z; rep_IsTor : bool; rep_IsProxy : bool }.
Record GeoLocation := mkGeoLocation {
  geo_Latitude : float64;
  geo_Longitude : float64;
  geo_City : string;
  geo_Country : string
}.

Record MonitorConfig := mkMonitorConfig {
  GeoJumpThresholdKm : float64;
  GeoJumpTimeMinutes : Z;
  SuspiciousIPThreshold : Z
}.

Definition is_zero (f : float64) : bool := SFeqb f fzero.

(** The defaults [NewRiskMonitor] fills in. *)
Definition NewRiskMonitor (c : MonitorConfig) : MonitorConfig :=
  mkMonitorConfig
    (if is_zero (GeoJumpThresholdKm c) then float_of_Z 500 else GeoJumpThresholdKm c)
    (if bool_decide (GeoJumpTimeMinutes c = 0) then 60 else GeoJumpTimeMinutes c)
    (if bool_decide (SuspiciousIPThreshold c = 0) then 30 else SuspiciousIPThreshold c).

(** "This is a placeholder": the distance is always zero. *)
Definition HaversineDistance (p1 p2 : GeoLocation) : float64 := fzero.

(** The services of the monitor, each [None] when it is nil. *)
Record monitor_services := mkServices {
  geoService : option (string -> option GeoLocation);
  ipChecker : option (string -> option IPReputation)
}.

Section Monitor.
Context (services : monitor_services) (config : MonitorConfig) (now : time).

Definition checkIPChange (session : Session) : option RiskSignal :=
  if negb (bool_decide (se_PreviousIP session = "")) &&
     negb (bool_decide (se_PreviousIP session = se_CurrentIP session))
  then Some (mkSignal "ip_change" "low"
         (AnyStringMap {[ "old" := se_PreviousIP session; "new" := se_CurrentIP session ]}) now)
  else None.

Definition checkGeoJump (session : Session) : option RiskSignal :=
  if bool_decide (se_PreviousIP session = "") ||
     bool_decide (se_PreviousIP session = se_CurrentIP session) then None
  else
    match geoService services with
    | None => None
    | Some GetLocation =>
        match GetLocation (se_PreviousIP session), GetLocation (se_CurrentIP session) with
        | Some prevLoc, Some currLoc =>
            let distance := HaversineDistance prevLoc currLoc in
            let timeDiff := Sub now (se_LastIPChangeAt session) in
            let timeDiff := if flt (Minutes timeDiff) (float_of_Z 1) then Minute else timeDiff in
            if flt (GeoJumpThresholdKm config) distance &&
               flt (Minutes timeDiff) (float_of_Z (GeoJumpTimeMinutes config)) then
              let speed := fdiv distance (Hours timeDiff) in
              let severity := if flt speed (float_of_Z 500) then "medium" else "high" in
              Some (mkSignal "geo_jump" severity
                (AnyStruct [("distance_km", AnyFloat distance); ("speed_kmh", AnyFloat speed)]) now)
            else None
        | _, _ => None
        end
    end.

Definition checkIPReputation (ip : string) : option RiskSignal :=
  match ipChecker services with
  | None => None
  | Some GetReputation =>
      match GetReputation ip with
      | None => None
      | Some reputation =>
          if bool_decide (rep_Score reputation < SuspiciousIPThreshold config) then
            let severity := if bool_decide (rep_Score reputation < 15) then "high" else "medium" in
            let severity := if rep_IsTor reputation || rep_IsProxy reputation then "high" else severity in
            Some (mkSignal "suspicious_ip" severity
              (AnyStruct [("Score", AnyInt (rep_Score reputation)); ("IsTor", AnyBool (rep_IsTor reputation));
                          ("IsProxy", AnyBool (rep_IsProxy reputation))]) now)
          else None
      end
  end.

(** The device is looked up, and nothing is done with it. *)
Definition checkDeviceChange (session : Session) : option RiskSignal := None.

Definition checkInactivity (session : Session) : option RiskSignal :=
  let inactiveMinutes := Minutes (Sub now (se_LastActivityAt session)) in
  if flt (float_of_Z 30) inactiveMinutes then
    let severity := if flt (float_of_Z 60) inactiveMinutes then "medium" else "low" in
    Some (mkSignal "inactive" severity (AnyFloat inactiveMinutes) now)
  else None.

Definition CollectSignals (session : Session) : list RiskSignal :=
  option_list (checkIPChange session) ++ option_list (checkGeoJump session) ++
  option_list (checkIPReputation (se_CurrentIP session)) ++
  option_list (checkDeviceChange session) ++ option_list (checkInactivity session).
End Monitor.

(** ** Cached results (session_risk_store.go) *)
Record SessionRiskData := mkRiskData {
  risk_SessionID : string;
  risk_RiskScore : Z;
  risk_RiskLevel : string;
  risk_LastEvaluated : time;
  risk_Signals : list string;
  risk_ActionsTaken : list string;
  risk_NextEvaluation : time
}.

#[global] Instance SessionRiskData_eq_dec : EqDecision SessionRiskData.
Proof. solve_decision. Defined.

(** [SessionRiskData{SessionID: id}] *)
Definition new_risk_data (id : string) : SessionRiskData :=
  mkRiskData id 0 "" zero_time [] [] zero_time.

Section RiskStore.
Context `{Redis C} (marshal : SessionRiskData -> string) (unmarshal : string -> option SessionRiskData).
Context (now : time).
Notation rs A := (prog C error A).

Definition riskKey (sessionID : string) : string := "session:risk:" +:+ sessionID.
Definition sessionRiskTTL : Z := 30 * Minute.

Definition risk_Set (sessionID : string) (data : SessionRiskData) : rs unit :=
  r_Set now (riskKey sessionID) (marshal data) sessionRiskTTL.

Definition risk_Get (sessionID : string) : rs (option SessionRiskData) :=
  val ← try (r_Get now (riskKey sessionID));
  match val with
  | inl err => if bool_decide (err = redis_Nil) then mret None else throw err
  | inr val => match unmarshal val with
               | None => throw (Errorf "json")
               | Some data => mret (Some data)
               end
  end.

Definition risk_UpdateScore (sessionID : string) (score : Z) (level : string) : rs unit :=
  data ← risk_Get sessionID;
  let data := default (new_risk_data sessionID) data in
  risk_Set sessionID (mkRiskData (risk_SessionID data) score level now (risk_Signals data)
                        (risk_ActionsTaken data) (risk_NextEvaluation data)).

Definition with_signals (signals : list string) (data : SessionRiskData) : SessionRiskData :=
  mkRiskData (risk_SessionID data) (risk_RiskScore data) (risk_RiskLevel data)
    (risk_LastEvaluated data) signals (risk_ActionsTaken data) (risk_NextEvaluation data).

Definition risk_AddSignal (sessionID signal : string) : rs unit :=
  data ← risk_Get sessionID;
  let data := default (new_risk_data sessionID) data in
  let signals := if bool_decide (signal ∈ risk_Signals data) then risk_Signals data
                 else risk_Signals data ++ [signal] in
  risk_Set sessionID (with_signals signals data).

Definition risk_ClearSignals (sessionID : string) : rs unit :=
  data ← risk_Get sessionID;
  match data with
  | None => mret ()
  | Some data => risk_Set sessionID (with_signals [] data)
  end.

Definition risk_Delete (sessionID : string) : rs unit := r_Del (riskKey sessionID).

(** [RegisterSignal] of the monitor *)
Definition RegisterSignal (sessionID : string) (signal : RiskSignal) : rs unit :=
  risk_AddSignal sessionID (sig_Type signal).
End RiskStore.

(** ** The evaluator (session_evaluator.go) *)
Record EvaluationConfig := mkEvaluationConfig {
  LowRiskThreshold : Z;
  MediumRiskThreshold : Z;
  HighRiskThreshold : Z;
  MaxInactiveMinutes : Z;
  EnableGeoCheck : bool
}.

Definition NewSessionEvaluator (c : EvaluationConfig) : EvaluationConfig :=
  let or_default z d := if bool_decide (z = 0) then d else z in
  mkEvaluationConfig (or_default (LowRiskThreshold c) 25) (or_default (MediumRiskThreshold c) 50)
    (or_default (HighRiskThreshold c) 75) (or_default (MaxInactiveMinutes c) 30) (EnableGeoCheck c).

Record EvaluationResult := mkEvaluationResult {
  eval_SessionID : string;
  eval_RiskScore : Z;
  eval_RiskLevel : string;
  eval_Signals : list RiskSignal;
  eval_RecommendedAction : string;
  eval_Reason : string;
  eval_EvaluatedAt : time
}.

Definition severity_score (signal : RiskSignal) : Z :=
  if bool_decide (sig_Severity signal = "high") then 30
  else if bool_decide (sig_Severity signal = "medium") then 15
  else if bool_decide (sig_Severity signal = "low") then 5
  else 0.

(** The constants 0.6 and 0.4 *)
Definition weight_signals : float64 := fconst 5404319552844595 (-53).
Definition weight_profile : float64 := fconst 7205759403792794 (-54).

Definition calculateCombinedScore (signals : list RiskSignal) (profileRiskScore : Z) : Z :=
  let signalScore := fold_left (fun acc s => int64 (acc + severity_score s)) signals 0 in
  let combined := int_of_float (fadd (fmul (float_of_Z signalScore) weight_signals)
                                     (fmul (float_of_Z profileRiskScore) weight_profile)) in
  if bool_decide (100 < combined) then 100 else combined.

Section Evaluator.
Context `{Redis C} (marshal : SessionRiskData -> string) (unmarshal : string -> option SessionRiskData).
Context (format_other : any -> string) (srt : priority_sort) (rules : list PolicyRule).
Context (services : monitor_services) (monitor : MonitorConfig) (config : EvaluationConfig).
(** [has_store] tells whether the evaluator has a store of results. *)
Context (has_store : bool) (now : time).
Notation ev A := (prog C error A).

Definition scoreToLevel (score : Z) : string :=
  if bool_decide (score < LowRiskThreshold config) then "low"
  else if bool_decide (score < MediumRiskThreshold config) then "medium"
  else if bool_decide (score < HighRiskThreshold config) then "high"
  else "critical".

Definition buildEvalContext (session : Session) (score : Z) (level : string)
    (signals : list RiskSignal) : gmap string any :=
  <["risk_level" := AnyString level]>
  (<["risk_score" := AnyInt score]>
  (<["signal_count" := AnyInt (Z.of_nat (length signals))]>
  (<["signals" := AnyStrings (sig_Type <$> signals)]>
  (<["inactive_minutes" := AnyFloat (Minutes (Sub now (se_LastActivityAt session)))]>
  (<["session_age_hours" := AnyFloat (Hours (Sub now (se_CreatedAt session)))]>
  (<["auth_level" := AnyInt (se_AuthLevel session)]> ∅)))))).

(** What [Evaluate] computes of the session. *)
Definition assess (session : Session) : EvaluationResult :=
  let signals := CollectSignals services monitor now session in
  let score := calculateCombinedScore signals 0 in
  let level := scoreToLevel score in
  let '(action, reason) := DetermineAction format_other srt rules
                             (buildEvalContext session score level signals) in
  mkEvaluationResult (se_ID session) score level signals action reason now.

Definition Evaluate (session : Session) : ev EvaluationResult :=
  let result := assess session in
  (if has_store then
     try (risk_UpdateScore marshal unmarshal now (se_ID session) (eval_RiskScore result)
            (eval_RiskLevel result)) ;; mret ()
   else mret ()) ;;
  mret result.

Definition QuickCheck (session : Session) : ev bool :=
  if negb has_store then mret true
  else
    cached ← risk_Get unmarshal now (se_ID session);
    let recent := match cached with
                  | Some data => bool_decide (Sub now (risk_LastEvaluated data) < Minute)
                  | None => false
                  end in
    match cached, recent with
    | Some data, true => mret (negb (bool_decide (risk_RiskLevel data = "critical")))
    | _, _ =>
        result ← Evaluate session;
        mret (negb (bool_decide (eval_RiskLevel result = "critical")))
    end.
End Evaluator.

(** ** Facts about the rules *)
Section PolicyFacts.
Context (format_other : any -> string).
Implicit Types rules : list PolicyRule.

Notation matches ctx r := (matchAllConditions format_other ctx (rule_Conditions r)).

(** The first matching rule: none before it matches. *)
Lemma first_action_spec ctx rules :
  (first_action format_other ctx rules = (ActionNone, "") /\ forall r, r ∈ rules -> matches ctx r = false) \/
  exists before r after, rules = before ++ r :: after /\ matches ctx r = true /\
    (forall r', r' ∈ before -> matches ctx r' = false) /\
    first_action format_other ctx rules = (rule_Action r, rule_Reason r).
Proof.
  induction rules as [|r rules IH]; cbn [first_action]; [left; split; [done|set_solver]|].
  destruct (matches ctx r) eqn:Hm.
  - right. exists [], r, rules. split; [done|]. split; [done|]. split; [set_solver|done].
  - destruct IH as [[Hr Hnone]|(before & r' & after & -> & Hr' & Hbefore & Hres)].
    + left. split; [done|]. intros r' [->|?]%elem_of_cons; [done|auto].
    + right. exists (r :: before), r', after. split; [done|]. split; [done|]. split; [|done].
      intros r'' [->|?]%elem_of_cons; [done|auto].
Qed.

Lemma sorted_split_le before r (after : list PolicyRule) r' :
  StronglySorted (fun r r' => rule_Priority r <= rule_Priority r') (before ++ r :: after) ->
  r' ∈ r :: after -> rule_Priority r <= rule_Priority r'.
Proof.
  intros Hs [->|Hin]%elem_of_cons; [done|].
  induction before as [|b before IH]; cbn [app] in Hs.
  - apply StronglySorted_inv in Hs as [_ Hall]. rewrite Forall_forall in Hall. by apply Hall.
  - apply StronglySorted_inv in Hs as [Hs _]. auto.
Qed.

(** Sorting is determined when no two rules have the same priority. *)
Lemma sort_unique (srt srt' : priority_sort) rules :
  (forall r r', r ∈ rules -> r' ∈ rules -> rule_Priority r = rule_Priority r' -> r = r') ->
  sort_rules srt rules = sort_rules srt' rules.
Proof.
  intros Hdistinct.
  apply (StronglySorted_unique_strong (fun r r' => rule_Priority r <= rule_Priority r')).
  - intros r r' Hr Hr'. rewrite sort_perm in Hr, Hr'. intros. apply Hdistinct; [done|done|lia].
  - apply sort_sorted.
  - apply sort_sorted.
  - by rewrite !sort_perm.
Qed.
End PolicyFacts.

(** A stable sort, for the examples. *)
Definition by_priority (r r' : PolicyRule) : Prop := rule_Priority r <= rule_Priority r'.
#[global] Instance by_priority_dec r r' : Decision (by_priority r r').
Proof. unfold by_priority. apply _. Defined.
#[global] Instance by_priority_total : Total by_priority.
Proof. intros r r'. unfold by_priority. lia. Qed.
#[global] Instance by_priority_trans : Transitive by_priority.
Proof. intros r r' r''. unfold by_priority. lia. Qed.

Definition merge_priority_sort : priority_sort.
Proof.
  refine (PrioritySort (merge_sort by_priority) _ _).
  - intros rules. apply merge_sort_Permutation.
  - intros rules. apply (StronglySorted_merge_sort by_priority).
Defined.

Lemma default_rules_sorted srt : sort_rules srt DefaultPolicyRules = DefaultPolicyRules.
Proof.
  rewrite (sort_unique srt merge_priority_sort); [reflexivity|].
  intros r r' Hr Hr'.
  repeat (apply elem_of_cons in Hr as [->|Hr]; [|]); try by apply elem_of_nil in Hr.
  all: repeat (apply elem_of_cons in Hr' as [->|Hr']; [|]); try by apply elem_of_nil in Hr'.
  all: try done.
Qed.

(** ** Facts about the evaluation *)
Section EvaluationFacts.
Context (services : monitor_services) (monitor : MonitorConfig) (now : time).

(** The distance is the constant zero: no jump is ever detected. *)
Lemma no_geo_jump session :
  flt (GeoJumpThresholdKm monitor) fzero = false -> checkGeoJump services monitor now session = None.
Proof.
  intros Ht. unfold checkGeoJump. destruct (_ || _); [done|].
  destruct (geoService services) as [g|]; [|done].
  destruct (g _); [|done]. destruct (g _); [|done]. unfold HaversineDistance. by rewrite Ht.
Qed.

(** The severities of the signals. *)
Definition ip_severity (session : Session) : option string :=
  sig_Severity <$> checkIPChange now session.
Definition reputation_severity (session : Session) : option string :=
  sig_Severity <$> checkIPReputation services monitor now (se_CurrentIP session).

Lemma ip_change_cases session :
  checkIPChange now session = None \/
  exists v, checkIPChange now session = Some (mkSignal "ip_change" "low" v now).
Proof. unfold checkIPChange. destruct (_ && _); eauto. Qed.

Lemma reputation_cases ip :
  checkIPReputation services monitor now ip = None \/
  exists sev v, checkIPReputation services monitor now ip = Some (mkSignal "suspicious_ip" sev v now) /\
    (sev = "medium" \/ sev = "high").
Proof.
  unfold checkIPReputation. destruct (ipChecker services) as [f|]; [|by left].
  destruct (f ip) as [rep|]; [|by left]. case_bool_decide; [|by left].
  right. eexists _, _. split; [done|]. destruct (_ || _); [by right|]. case_bool_decide; auto.
Qed.

Definition idle (session : Session) : float64 := Minutes (Sub now (se_LastActivityAt session)).

Lemma inactivity_cases session :
  (flt (float_of_Z 60) (idle session) = true /\
   exists v, checkInactivity now session = Some (mkSignal "inactive" "medium" v now)) \/
  (flt (float_of_Z 60) (idle session) = false /\
   (checkInactivity now session = None \/
    exists v, checkInactivity now session = Some (mkSignal "inactive" "low" v now))).
Proof.
  unfold checkInactivity, idle. destruct (flt (float_of_Z 60) _) eqn:H60.
  - left. split; [done|]. rewrite (flt_60_30 _ H60). eauto.
  - right. split; [done|]. destruct (flt (float_of_Z 30) _); eauto.
Qed.
End EvaluationFacts.

(** Rules are compared with the entries of the evaluation context. *)
Section Context_.
Context (now : time) (session : Session) (score : Z) (level : string) (signals : list RiskSignal).
Notation ctx := (buildEvalContext now session score level signals).

Lemma ctx_level : ctx !! "risk_level" = Some (AnyString level).
Proof. unfold buildEvalContext. by simplify_map_eq. Qed.
Lemma ctx_signals : ctx !! "signals" = Some (AnyStrings (sig_Type <$> signals)).
Proof. unfold buildEvalContext. by simplify_map_eq. Qed.
Lemma ctx_idle : ctx !! "inactive_minutes" = Some (AnyFloat (idle now session)).
Proof. unfold buildEvalContext, idle. by simplify_map_eq. Qed.
End Context_.

Lemma default_action format_other srt now session score level signals :
  level = "low" \/ level = "medium" -> "geo_jump" ∉ sig_Type <$> signals ->
  (DetermineAction format_other srt DefaultPolicyRules
     (buildEvalContext now session score level signals)).1 =
  if bool_decide (level = "medium") || flt (float_of_Z 60) (idle now session)
  then ActionRequireMFA else ActionNone.
Proof.
  intros Hlevel Hgeo. unfold DetermineAction. rewrite default_rules_sorted.
  unfold DefaultPolicyRules. cbn [first_action matchAllConditions rule_Conditions cond_Field
    cond_Operator cond_Value rule_Action rule_Reason].
  rewrite ctx_level, ctx_signals, ctx_idle. unfold matchCondition.
  repeat (rewrite bool_decide_eq_true_2 by reflexivity || (rewrite bool_decide_eq_false_2 by discriminate)).
  cbn [Sprintf_v toFloat].
  rewrite (bool_decide_eq_false_2 ("geo_jump" ∈ _)) by done.
  destruct Hlevel as [-> | ->]; cbn [negb]; [|done].
  by destruct (flt (float_of_Z 60) (idle now session)).
Qed.

(** ** Runs of the store *)
Section StoreRuns.
Context `{RedisLaws C} (marshal : SessionRiskData -> string) (unmarshal : string -> option SessionRiskData).

Lemma risk_Get_run now id c :
  risk_Get unmarshal now id c =
    (match kv c now (riskKey id) with
     | None => Ok None
     | Some v => match unmarshal v with Some d => Ok (Some d) | None => Err (Errorf "json") end
     end, c).
Proof.
  unfold risk_Get, mbind, prog_bind, try. rewrite law_Get.
  destruct (kv c now (riskKey id)) as [v|]; [by destruct (unmarshal v)|].
  by rewrite bool_decide_eq_true_2.
Qed.

Lemma risk_UpdateScore_returns now id score level c :
  exists e c', try (risk_UpdateScore marshal unmarshal now id score level) c = (Ok e, c').
Proof.
  unfold risk_UpdateScore, risk_Set, try, mbind at 1, prog_bind at 1. rewrite risk_Get_run.
  destruct (kv c now (riskKey id)) as [v|]; [destruct (unmarshal v) as [d|]; [|by eauto]|];
    cbv beta iota zeta; cbn [default];
    match goal with |- context [r_Set ?n ?k ?v ?t c] =>
      destruct (law_Set c n k v t) as (c' & Hr & _); rewrite Hr; eauto
    end.
Qed.

Lemma Evaluate_run format_other srt rules services monitor config has_store now session c :
  exists c', Evaluate marshal unmarshal format_other srt rules services monitor config has_store now session c =
    (Ok (assess format_other srt rules services monitor config now session), c').
Proof.
  unfold Evaluate. destruct has_store; [|by exists c].
  destruct (risk_UpdateScore_returns now (se_ID session)
    (eval_RiskScore (assess format_other srt rules services monitor config now session))
    (eval_RiskLevel (assess format_other srt rules services monitor config now session)) c)
    as (e & c' & Hrun).
  exists c'. rewrite prog_assoc. by rewrite (prog_bind_run _ _ _ _ _ Hrun).
Qed.
End StoreRuns.

(** ** Properties *)

(** The action the policy recommends is that of a matching rule of the
    smallest priority, or none when no rule matches; and when no two rules
    share a priority it does not depend on how the unstable sort orders
    them. *)
Theorem determine_action_least format_other srt rules ctx :
  let matches r := matchAllConditions format_other ctx (rule_Conditions r) in
  (DetermineAction format_other srt rules ctx = (ActionNone, "") /\
     (forall r, r ∈ rules -> matches r = false) \/
   exists r, r ∈ rules /\ matches r = true /\
     (forall r', r' ∈ rules -> matches r' = true -> rule_Priority r <= rule_Priority r') /\
     DetermineAction format_other srt rules ctx = (rule_Action r, rule_Reason r)) /\
  ((forall r r', r ∈ rules -> r' ∈ rules -> rule_Priority r = rule_Priority r' -> r = r') ->
   forall srt', DetermineAction format_other srt' rules ctx = DetermineAction format_other srt rules ctx).
Proof.
  intros matches. split.
  - destruct (first_action_spec format_other ctx (sort_rules srt rules))
      as [[Hr Hnone]|(before & r & after & Hs & Hm & Hbefore & Hres)].
    + left. split; [done|]. intros r Hin. apply Hnone. by rewrite sort_perm.
    + right. exists r. split; [|split; [done|split; [|done]]].
      * rewrite <-(sort_perm srt), Hs. set_solver.
      * intros r' Hin Hm'. rewrite <-(sort_perm srt), Hs in Hin.
        apply elem_of_app in Hin as [Hin|Hin].
        { unfold matches in Hm'. rewrite (Hbefore r' Hin) in Hm'. done. }
        apply (sorted_split_le before r after); [|done]. rewrite <-Hs. apply sort_sorted.
  - intros Hdistinct srt'. unfold DetermineAction. by rewrite (sort_unique srt' srt).
Qed.

Section DefaultAssessment.
Context (format_other : any -> string) (srt : priority_sort) (services : monitor_services).
Context (m : MonitorConfig) (geo : bool) (now : time) (session : Session).
Let monitor := NewRiskMonitor m.
Let config := NewSessionEvaluator (mkEvaluationConfig 0 0 0 0 geo).
Let r := assess format_other srt DefaultPolicyRules services monitor config now session.

Lemma assess_of_signals signals :
  CollectSignals services monitor now session = signals -> "geo_jump" ∉ sig_Type <$> signals ->
  let level := scoreToLevel config (calculateCombinedScore signals 0) in
  level = "low" \/ level = "medium" ->
  eval_RiskScore r = calculateCombinedScore signals 0 /\ eval_RiskLevel r = level /\
  eval_RecommendedAction r =
    if bool_decide (level = "medium") || flt (float_of_Z 60) (idle now session)
    then ActionRequireMFA else ActionNone.
Proof.
  intros <- Hng level Hl. unfold r, assess.
  pose proof (default_action format_other srt now session
    (calculateCombinedScore (CollectSignals services monitor now session) 0) level _ Hl Hng) as Ha.
  unfold level in *. destruct (DetermineAction _ _ _ _) as [a re]. cbn in Ha |- *. by rewrite Ha.
Qed.

(** Every combination of the signals that can occur. *)
Lemma default_assessment_cases :
  flt (GeoJumpThresholdKm monitor) fzero = false ->
  0 <= eval_RiskScore r <= 30 /\
  eval_RiskLevel r =
    (if bool_decide (reputation_severity services monitor now session = Some "high") &&
        flt (float_of_Z 60) (idle now session) then "medium" else "low") /\
  eval_RecommendedAction r =
    (if flt (float_of_Z 60) (idle now session) then ActionRequireMFA else ActionNone).
Proof.
  intros Hgeo. pose proof assess_of_signals as Hsig.
  unfold CollectSignals in Hsig. rewrite (no_geo_jump _ _ _ _ Hgeo) in Hsig.
  unfold reputation_severity.
  destruct (ip_change_cases now session) as [Hip|[v Hip]];
  destruct (reputation_cases services monitor now (se_CurrentIP session))
    as [Hrep|(sev & v' & Hrep & [-> | ->])];
  destruct (inactivity_cases now session) as [[H60 [v'' Hin]]|[H60 [Hin|[v'' Hin]]]];
  rewrite Hip, Hrep, Hin in Hsig; rewrite Hrep, H60;
  specialize (Hsig _ eq_refl ltac:(apply (bool_decide_unpack _); vm_compute; exact I));
  (destruct Hsig as (-> & -> & ->); [(left; reflexivity) || (right; reflexivity)|]);
  rewrite ?H60; (split; [vm_compute; split; discriminate|split; reflexivity]).
Qed.
End DefaultAssessment.

Lemma default_assessment format_other srt services m geo now session :
  flt (GeoJumpThresholdKm (NewRiskMonitor m)) fzero = false ->
  eval_RecommendedAction (assess format_other srt DefaultPolicyRules services (NewRiskMonitor m)
    (NewSessionEvaluator (mkEvaluationConfig 0 0 0 0 geo)) now session) =
  (if flt (float_of_Z 60) (idle now session) then ActionRequireMFA else ActionNone).
Proof. intros Hgeo. by apply default_assessment_cases. Qed.

(** With the default thresholds and the default rules the evaluation never
    reaches the levels high and critical and never recommends to downgrade or
    to terminate a session: the score is at most 30; the level is medium only
    for an address of high risk on a session idle for more than an hour; and a
    second factor is required exactly when the session was idle for more than
    an hour.  The stored results and the signals registered from outside have
    no influence. *)
Theorem default_evaluation `{RedisLaws C} marshal unmarshal format_other srt services m geo has_store
    now session (c : C) :
  let monitor := NewRiskMonitor m in
  let config := NewSessionEvaluator (mkEvaluationConfig 0 0 0 0 geo) in
  flt (GeoJumpThresholdKm monitor) fzero = false ->
  exists r, (Evaluate marshal unmarshal format_other srt DefaultPolicyRules services monitor config
               has_store now session c).1 = Ok r /\
    0 <= eval_RiskScore r <= 30 /\
    eval_RiskLevel r =
      (if bool_decide (reputation_severity services monitor now session = Some "high") &&
          flt (float_of_Z 60) (idle now session) then "medium" else "low") /\
    eval_RecommendedAction r =
      (if flt (float_of_Z 60) (idle now session) then ActionRequireMFA else ActionNone).
Proof.
  intros monitor config Hgeo.
  destruct (Evaluate_run marshal unmarshal format_other srt DefaultPolicyRules services monitor config
    has_store now session c) as (c' & Hrun).
  eexists. split; [by rewrite Hrun|]. by apply default_assessment_cases.
Qed.

(** ** Concrete sessions *)
Definition demo_session : Session :=
  mkSession "s1" "u1" "" "d1" SessionStatusActive 2 "low" 0 ["read"] "10.0.0.2" "10.0.0.1" 0 "" 0
    (24 * Hour) 0 0 zero_time "" zero_time "" zero_time "" zero_time "curl" "".
Definition demo_reputation (ip : string) : option IPReputation :=
  Some (mkIPReputation 10 false false).
Definition demo_services : monitor_services := mkServices None (Some demo_reputation).
Definition demo_monitor : MonitorConfig := mkMonitorConfig fzero 0 0.

Lemma determine_action_least_witness :
  DetermineAction (fun _ => "") merge_priority_sort DefaultPolicyRules
    (buildEvalContext 0 demo_session 60 "high" []) =
    (ActionDowngrade, "High risk level detected, restricting permissions") /\
  forall srt', DetermineAction (fun _ => "") srt' DefaultPolicyRules
    (buildEvalContext 0 demo_session 60 "high" []) =
    (ActionDowngrade, "High risk level detected, restricting permissions").
Proof.
  destruct (determine_action_least (fun _ => "") merge_priority_sort DefaultPolicyRules
    (buildEvalContext 0 demo_session 60 "high" [])) as [_ Hdet].
  split; [vm_compute; reflexivity|]. intros srt'. rewrite (Hdet).
  - vm_compute. reflexivity.
  - intros r r' Hr Hr' Hp.
    apply list_elem_of_lookup in Hr as [i Hi], Hr' as [j Hj].
    do 5 (destruct i as [|i]; [injection Hi as <-;
      do 5 (destruct j as [|j]; [injection Hj as <-; first [reflexivity|discriminate Hp]|]);
      discriminate Hj|]).
    discriminate Hi.
Defined.

Lemma default_evaluation_witness :
  exists r, (Evaluate (fun _ => "data") (fun _ => None) (fun _ => "") merge_priority_sort DefaultPolicyRules
      demo_services (NewRiskMonitor demo_monitor)
      (NewSessionEvaluator (mkEvaluationConfig 0 0 0 0 false)) true (61 * Minute) demo_session
      (mkRedis ∅ ∅)).1 = Ok r /\
    eval_RiskScore r = 30 /\ eval_RiskLevel r = "medium" /\ eval_RecommendedAction r = ActionRequireMFA.
Proof.
  destruct (default_evaluation (fun _ => "data") (fun _ => None) (fun _ => "") merge_priority_sort
    demo_services demo_monitor false true (61 * Minute) demo_session (mkRedis ∅ ∅))
    as (r & Hrun & _ & Hlevel & Haction); [reflexivity|].
  exists r. split; [exact Hrun|]. split; [|split; [rewrite Hlevel; reflexivity|rewrite Haction; reflexivity]].
  vm_compute in Hrun. injection Hrun as <-. reflexivity.
Defined.
