(* ===== verification/SessionLifecycle.v ===== *)
(** * Session actions, manager and scheduler (internal/auth/session)

    [SessionActions] (session_actions.go), [SessionManager]
    (session_manager.go) and [EvaluationScheduler] (evaluation_scheduler.go)
    over a repository of session objects, which the code changes through
    pointers.  The repository, the store of events and Redis are classes; a
    notice that was sent is recorded in the world.  The goroutines of a batch
    are run one after the other, in the order given. *)

From S2P Require Import Prelude Types GoStd Redis SessionRisk.
From Stdlib Require Import SpecFloat.
Local Open Scope Z_scope.

Notation loc := positive (only parsing).

(** ** Session events (storage/postgresql/models/session_event.go) *)
Definition SessionEventCreated : string := "created".
Definition SessionEventUpgraded : string := "upgraded".

(** The declared event types. *)
Definition session_event_types : list string :=
  ["created"; "evaluated"; "downgraded"; "upgraded"; "step_up_required"; "reauthenticated";
   "terminated"; "expired"; "risk_changed"].

Record SessionState := mkSessionState {
  st_Status : string;
  st_RiskLevel : string;
  st_Permissions : list string;
  st_AuthLevel : Z;
  st_LastEvaluatedAt : time
}.
Definition zero_state : SessionState := mkSessionState "" "" [] 0 zero_time.

Record SessionEvent := mkSessionEvent {
  sev_ID : string;
  sev_SessionID : string;
  sev_TenantID : string;
  sev_UserID : string;
  sev_EventType : string;
  sev_PreviousState : SessionState;
  sev_NewState : SessionState;
  sev_TriggerReason : string;
  sev_RiskScore : Z;
  sev_IPAddress : string;
  sev_DeviceID : string;
  sev_CreatedAt : time
}.

(** ** The interfaces *)
Class SessionRepository (R : Type) := {
  sr_alloc : Session -> prog R error loc;
  sr_deref : loc -> prog R error Session;
  sr_assign : loc -> Session -> prog R error unit;
  sr_GetByID : string -> prog R error loc;
  sr_Update : loc -> prog R error unit;
  sr_DeleteFromCache : string -> prog R error unit;
  sr_FindByRiskLevel : string -> Z -> prog R error (list loc);
  sr_FindActiveSessions : Z -> prog R error (list loc)
}.

Class SessionEventRepository (V : Type) := { er_Create : SessionEvent -> prog V error unit }.

(** ** Changes of a session object *)
Section Changes.
Context (now : time) (s : Session).

Definition GetState : SessionState :=
  mkSessionState (se_Status s) (se_RiskLevel s) (se_Permissions s) (se_AuthLevel s)
    (se_LastEvaluatedAt s).

Definition IsExpired : bool := bool_decide (se_ExpiresAt s < now).

Definition step_up (reason : string) : Session :=
  mkSession (se_ID s) (se_UserID s) (se_TenantID s) (se_DeviceID s)
    SessionStatusStepUpRequired (se_AuthLevel s) (se_RiskLevel s) (se_CurrentRiskScore s)
    (se_Permissions s) (se_CurrentIP s) (se_PreviousIP s) (se_LastIPChangeAt s)
    (se_PreviousDeviceID s) (se_CreatedAt s) (se_ExpiresAt s) (se_LastActivityAt s)
    (se_LastEvaluatedAt s) (se_LastStepUpAt s) reason now (se_DowngradeReason s)
    (se_DowngradedAt s) (se_TerminateReason s) (se_TerminatedAt s) (se_UserAgent s)
    (se_DeviceFingerprint s).

Definition downgraded (reason : string) : Session :=
  let level := if bool_decide (1 < se_AuthLevel s) then se_AuthLevel s - 1 else 1 in
  mkSession (se_ID s) (se_UserID s) (se_TenantID s) (se_DeviceID s) SessionStatusDowngraded
    level (se_RiskLevel s) (se_CurrentRiskScore s) (se_Permissions s) (se_CurrentIP s)
    (se_PreviousIP s) (se_LastIPChangeAt s) (se_PreviousDeviceID s) (se_CreatedAt s)
    (se_ExpiresAt s) (se_LastActivityAt s) (se_LastEvaluatedAt s) (se_LastStepUpAt s)
    (se_StepUpReason s) (se_StepUpRequiredAt s) reason now (se_TerminateReason s)
    (se_TerminatedAt s) (se_UserAgent s) (se_DeviceFingerprint s).

Definition terminated (reason : string) : Session :=
  mkSession (se_ID s) (se_UserID s) (se_TenantID s) (se_DeviceID s) SessionStatusTerminated
    (se_AuthLevel s) (se_RiskLevel s) (se_CurrentRiskScore s) (se_Permissions s)
    (se_CurrentIP s) (se_PreviousIP s) (se_LastIPChangeAt s) (se_PreviousDeviceID s)
    (se_CreatedAt s) (se_ExpiresAt s) (se_LastActivityAt s) (se_LastEvaluatedAt s)
    (se_LastStepUpAt s) (se_StepUpReason s) (se_StepUpRequiredAt s) (se_DowngradeReason s)
    (se_DowngradedAt s) reason now (se_UserAgent s) (se_DeviceFingerprint s).

Definition upgraded : Session :=
  mkSession (se_ID s) (se_UserID s) (se_TenantID s) (se_DeviceID s) SessionStatusActive
    (Z.min (int64 (se_AuthLevel s + 1)) 4) (se_RiskLevel s) (se_CurrentRiskScore s)
    (se_Permissions s) (se_CurrentIP s) (se_PreviousIP s) (se_LastIPChangeAt s)
    (se_PreviousDeviceID s) (se_CreatedAt s) (se_ExpiresAt s) (se_LastActivityAt s)
    (se_LastEvaluatedAt s) now "" (se_StepUpRequiredAt s) (se_DowngradeReason s)
    (se_DowngradedAt s) (se_TerminateReason s) (se_TerminatedAt s) (se_UserAgent s)
    (se_DeviceFingerprint s).

Definition evaluated : Session :=
  mkSession (se_ID s) (se_UserID s) (se_TenantID s) (se_DeviceID s) (se_Status s)
    (se_AuthLevel s) (se_RiskLevel s) (se_CurrentRiskScore s) (se_Permissions s)
    (se_CurrentIP s) (se_PreviousIP s) (se_LastIPChangeAt s) (se_PreviousDeviceID s)
    (se_CreatedAt s) (se_ExpiresAt s) (se_LastActivityAt s) now (se_LastStepUpAt s)
    (se_StepUpReason s) (se_StepUpRequiredAt s) (se_DowngradeReason s) (se_DowngradedAt s)
    (se_TerminateReason s) (se_TerminatedAt s) (se_UserAgent s) (se_DeviceFingerprint s).

Definition touched : Session :=
  mkSession (se_ID s) (se_UserID s) (se_TenantID s) (se_DeviceID s) (se_Status s)
    (se_AuthLevel s) (se_RiskLevel s) (se_CurrentRiskScore s) (se_Permissions s)
    (se_CurrentIP s) (se_PreviousIP s) (se_LastIPChangeAt s) (se_PreviousDeviceID s)
    (se_CreatedAt s) (se_ExpiresAt s) now (se_LastEvaluatedAt s) (se_LastStepUpAt s)
    (se_StepUpReason s) (se_StepUpRequiredAt s) (se_DowngradeReason s) (se_DowngradedAt s)
    (se_TerminateReason s) (se_TerminatedAt s) (se_UserAgent s) (se_DeviceFingerprint s).

Definition assessed (score : Z) (level : string) : Session :=
  mkSession (se_ID s) (se_UserID s) (se_TenantID s) (se_DeviceID s) (se_Status s)
    (se_AuthLevel s) level score (se_Permissions s) (se_CurrentIP s) (se_PreviousIP s)
    (se_LastIPChangeAt s) (se_PreviousDeviceID s) (se_CreatedAt s) (se_ExpiresAt s)
    (se_LastActivityAt s) now (se_LastStepUpAt s) (se_StepUpReason s)
    (se_StepUpRequiredAt s) (se_DowngradeReason s) (se_DowngradedAt s)
    (se_TerminateReason s) (se_TerminatedAt s) (se_UserAgent s) (se_DeviceFingerprint s).

Definition unassessed : Session :=
  mkSession (se_ID s) (se_UserID s) (se_TenantID s) (se_DeviceID s) (se_Status s)
    (se_AuthLevel s) "unknown" (se_CurrentRiskScore s) (se_Permissions s) (se_CurrentIP s)
    (se_PreviousIP s) (se_LastIPChangeAt s) (se_PreviousDeviceID s) (se_CreatedAt s)
    (se_ExpiresAt s) (se_LastActivityAt s) (se_LastEvaluatedAt s) (se_LastStepUpAt s)
    (se_StepUpReason s) (se_StepUpRequiredAt s) (se_DowngradeReason s) (se_DowngradedAt s)
    (se_TerminateReason s) (se_TerminatedAt s) (se_UserAgent s) (se_DeviceFingerprint s).
End Changes.

(** [&Session{...}] of [CreateSession] *)
Definition new_session (now : time) (id userID deviceID : string) (authLevel : Z) (ip userAgent : string) :
    Session :=
  mkSession id userID "" deviceID SessionStatusActive authLevel "" 0 [] ip "" zero_time "" now
    (now + 24 * Hour) now zero_time zero_time "" zero_time "" zero_time "" zero_time userAgent "".

(** ** The world of the operations *)
Record notice := mkNotice { no_Kind : string; no_UserID : string; no_Reason : string }.

Record world (R V C : Type) := mkWorld {
  w_sessions : R;
  w_events : V;
  w_redis : C;
  w_notices : list notice
}.
Arguments mkWorld {R V C}.
Arguments w_sessions {R V C}.
Arguments w_events {R V C}.
Arguments w_redis {R V C}.
Arguments w_notices {R V C}.

Record SchedulerConfig := mkSchedulerConfig {
  DefaultInterval : Z;
  HighRiskInterval : Z;
  CriticalInterval : Z;
  BatchSize : Z;
  WorkerCount : Z
}.

Definition NewEvaluationScheduler (c : SchedulerConfig) : SchedulerConfig :=
  mkSchedulerConfig
    (if bool_decide (DefaultInterval c = 0) then 5 * Minute else DefaultInterval c)
    (HighRiskInterval c) (CriticalInterval c)
    (if bool_decide (BatchSize c = 0) then 100 else BatchSize c)
    (if bool_decide (WorkerCount c = 0) then 4 else WorkerCount c).

(** What the evaluator is configured with. *)
Record evaluator := mkEvaluator {
  e_marshal : SessionRiskData -> string;
  e_unmarshal : string -> option SessionRiskData;
  e_format : any -> string;
  e_sort : priority_sort;
  e_rules : list PolicyRule;
  e_services : monitor_services;
  e_monitor : MonitorConfig;
  e_config : EvaluationConfig;
  e_has_store : bool
}.

Section Operations.
Context `{SessionRepository R} `{SessionEventRepository V} `{Redis C}.
(** [has_events] and [has_notify]: the service has an event repository and a
    notification service. *)
Context (e : evaluator) (has_events has_notify : bool) (now : time) (uuid : string).
Notation lm A := (prog (world R V C) error A).

Definition on_sessions {A} (m : prog R error A) : lm A :=
  zoom w_sessions (fun r w => mkWorld r (w_events w) (w_redis w) (w_notices w)) m.
Definition on_events {A} (m : prog V error A) : lm A :=
  zoom w_events (fun v w => mkWorld (w_sessions w) v (w_redis w) (w_notices w)) m.
Definition on_redis {A} (m : prog C error A) : lm A :=
  zoom w_redis (fun c w => mkWorld (w_sessions w) (w_events w) c (w_notices w)) m.

(** Assign fields of the object behind a pointer. *)
Definition change (p : loc) (f : Session -> Session) : lm unit :=
  session ← on_sessions (sr_deref p);
  on_sessions (sr_assign p (f session)).

Definition notify (kind userID reason : string) : lm unit :=
  if has_notify then
    modify (fun w => mkWorld (w_sessions w) (w_events w) (w_redis w)
                       (w_notices w ++ [mkNotice kind userID reason]))
  else mret ().

(** *** session_actions.go *)
Definition requireMFA (p : loc) (reason : string) : lm unit :=
  change p (fun s => step_up now s reason) ;;
  on_sessions (sr_Update p) ;;
  session ← on_sessions (sr_deref p);
  notify "step_up_required" (se_UserID session) reason.

Definition downgrade (p : loc) (reason : string) : lm unit :=
  change p (fun s => downgraded now s reason) ;;
  on_sessions (sr_Update p) ;;
  session ← on_sessions (sr_deref p);
  notify "session_downgraded" (se_UserID session) reason.

Definition terminate (p : loc) (reason : string) : lm unit :=
  change p (fun s => terminated now s reason) ;;
  on_sessions (sr_Update p) ;;
  session ← on_sessions (sr_deref p);
  try (on_sessions (sr_DeleteFromCache (se_ID session))) ;;
  notify "session_terminated" (se_UserID session) reason.

Definition new_event (eventType : string) (prevState : SessionState) (s : Session) (reason : string) :
    SessionEvent :=
  mkSessionEvent uuid (se_ID s) (se_TenantID s) (se_UserID s) eventType prevState (GetState s) reason
    (se_CurrentRiskScore s) (se_CurrentIP s) (se_DeviceID s) now.

Definition recordEvent (p : loc) (action : string) (prevState : SessionState) (reason : string) : lm unit :=
  if negb has_events then mret ()
  else
    session ← on_sessions (sr_deref p);
    let eventType := if bool_decide (action = "upgraded") then SessionEventUpgraded else action in
    on_events (er_Create (new_event eventType prevState session reason)).

Definition Execute (p : loc) (action reason : string) : lm unit :=
  session ← on_sessions (sr_deref p);
  let previousState := GetState session in
  if bool_decide (action = ActionNone) then mret ()
  else
    (if bool_decide (action = ActionMonitor) then mret ()
     else if bool_decide (action = ActionRequireMFA) then requireMFA p reason
     else if bool_decide (action = ActionDowngrade) then downgrade p reason
     else if bool_decide (action = ActionTerminate) then terminate p reason
     else mret ()) ;;
    recordEvent p action previousState reason.

Definition Upgrade (p : loc) : lm unit :=
  session ← on_sessions (sr_deref p);
  let previousState := GetState session in
  change p (upgraded now) ;;
  on_sessions (sr_Update p) ;;
  recordEvent p "upgraded" previousState "MFA Verification Successful".

(** *** session_manager.go *)
Definition evaluate (session : Session) : lm EvaluationResult :=
  on_redis (Evaluate (e_marshal e) (e_unmarshal e) (e_format e) (e_sort e) (e_rules e) (e_services e)
    (e_monitor e) (e_config e) (e_has_store e) now session).
Definition quick_check (session : Session) : lm bool :=
  on_redis (QuickCheck (e_marshal e) (e_unmarshal e) (e_format e) (e_sort e) (e_rules e) (e_services e)
    (e_monitor e) (e_config e) (e_has_store e) now session).

Definition recordSessionEvent (p : loc) (eventType reason : string) : lm unit :=
  if negb has_events then mret ()
  else
    session ← on_sessions (sr_deref p);
    try (on_events (er_Create (new_event eventType zero_state session reason))) ;; mret ().

Definition CreateSession (session_uuid userID deviceID : string) (authLevel : Z) (ip userAgent : string) :
    lm loc :=
  p ← on_sessions (sr_alloc (new_session now session_uuid userID deviceID authLevel ip userAgent));
  session ← on_sessions (sr_deref p);
  result ← try (evaluate session);
  (match result with
   | inr result => change p (fun s => assessed now s (eval_RiskScore result) (eval_RiskLevel result))
   | inl _ => change p unassessed
   end) ;;
  on_sessions (sr_Update p) ;;
  recordSessionEvent p SessionEventCreated "Session Created" ;;
  mret p.

Definition ValidateSession (sessionID : string) : lm loc :=
  p ← on_sessions (sr_GetByID sessionID);
  session ← on_sessions (sr_deref p);
  if bool_decide (se_Status session = SessionStatusTerminated) then throw (Errorf "session terminated")
  else if IsExpired now session then throw (Errorf "session expired")
  else
    safe ← try (quick_check session);
    match safe with
    | inr false => throw (Errorf "session risk too high")
    | _ =>
        if bool_decide (se_Status session = SessionStatusStepUpRequired)
        then throw (Errorf "step-up authentication required")
        else
          change p (touched now) ;;
          try (on_sessions (sr_Update p)) ;;
          mret p
    end.

Definition TerminateSession (sessionID reason : string) : lm unit :=
  p ← on_sessions (sr_GetByID sessionID);
  Execute p ActionTerminate reason.

(** *** evaluation_scheduler.go *)
Definition due (interval : Z) (p : loc) : lm bool :=
  session ← on_sessions (sr_deref p);
  mret (bool_decide (interval < Sub now (se_LastEvaluatedAt session))).

Fixpoint select_due (interval : Z) (ps : list loc) : lm (list loc) :=
  match ps with
  | [] => mret []
  | p :: ps =>
      d ← due interval p;
      rest ← select_due interval ps;
      mret (if d : bool then p :: rest else rest)
  end.

(** [sessions, _ := repo.Find...(...)]: none after an error. *)
Definition or_nil (m : prog R error (list loc)) : lm (list loc) :=
  answer ← try (on_sessions m);
  match answer with inl _ => mret [] | inr l => mret l end.

Definition getSessionsNeedingEvaluation (config : SchedulerConfig) : lm (list loc) :=
  critical ← or_nil (sr_FindByRiskLevel "critical" (Z.quot (BatchSize config) 4));
  result ← select_due (CriticalInterval config) critical;
  result ← (if bool_decide (Z.of_nat (length result) < BatchSize config) then
              high ← or_nil (sr_FindByRiskLevel "high" (Z.quot (BatchSize config) 4));
              more ← select_due (HighRiskInterval config) high;
              mret (result ++ more)
            else mret result);
  if bool_decide (Z.of_nat (length result) < BatchSize config) then
    normal ← or_nil (sr_FindActiveSessions (BatchSize config - Z.of_nat (length result)));
    more ← select_due (DefaultInterval config) normal;
    mret (result ++ more)
  else mret result.

Definition evaluateSession (p : loc) : lm unit :=
  session ← on_sessions (sr_deref p);
  result ← try (evaluate session);
  match result with
  | inl _ => mret ()
  | inr result =>
      (if negb (bool_decide (eval_RecommendedAction result = ActionNone))
       then try (Execute p (eval_RecommendedAction result) (eval_Reason result)) ;; mret ()
       else mret ()) ;;
      change p (evaluated now) ;;
      try (on_sessions (sr_Update p)) ;; mret ()
  end.

Definition scheduleBatch (config : SchedulerConfig) (order : list loc -> list loc) : lm unit :=
  sessions ← getSessionsNeedingEvaluation config;
  for_each evaluateSession (order sessions).

Definition TriggerImmediate (sessionID : string) : lm unit :=
  p ← on_sessions (sr_GetByID sessionID);
  evaluateSession p.
End Operations.

(** ** What a repository promises

    Session objects live on a heap; storing one or dropping it from the cache
    may fail, and changes no object. *)
Definition answers {A} (m : res error A) : Prop := (exists x, m = Ok x) \/ exists err, m = Err err.

Class SessionRepositoryLaws (R : Type) `{SessionRepository R} := {
  object : R -> loc -> option Session;
  sl_deref r p : sr_deref p r = (match object r p with Some s => Ok s | None => Panic end, r);
  sl_assign r p s : is_Some (object r p) -> exists r', sr_assign p s r = (Ok (), r') /\
    forall q, object r' q = if decide (p = q) then Some s else object r q;
  sl_Update r p : exists a r', sr_Update p r = (a, r') /\ answers a /\
    forall q, object r' q = object r q;
  sl_DeleteFromCache r i : exists a r', sr_DeleteFromCache i r = (a, r') /\ answers a /\
    forall q, object r' q = object r q
}.

Class SessionEventLaws (V : Type) `{SessionEventRepository V} := {
  history : V -> list SessionEvent;
  el_Create v ev : (exists v', er_Create ev v = (Ok (), v') /\ history v' = history v ++ [ev]) \/
    (exists err v', er_Create ev v = (Err err, v') /\ history v' = history v)
}.

Section Runs.
Context `{SessionRepositoryLaws R} `{SessionEventLaws V} `{Redis C}.
Context (e : evaluator) (has_events has_notify : bool) (now : time) (uuid : string).
Notation W := (world R V C).
Notation lm A := (prog W error A).
Implicit Types (w : W) (p : loc) (s : Session).

Notation obj w p := (object (w_sessions w) p).

(** The object behind [p] is [s] now, and the others are as they were. *)
Definition becomes w w' p s : Prop :=
  forall q, obj w' q = if decide (p = q) then Some s else obj w q.

(** Nothing but objects changed. *)
Definition aside w w' : Prop := w_events w' = w_events w /\ w_redis w' = w_redis w.

Lemma becomes_same w p s : obj w p = Some s -> becomes w w p s.
Proof. intros Hp q. by destruct (decide (p = q)) as [<-|]. Qed.

Lemma becomes_trans w w1 w2 p s s' : becomes w w1 p s -> becomes w1 w2 p s' -> becomes w w2 p s'.
Proof. intros Hb1 Hb2 q. rewrite Hb2, Hb1. by destruct (decide (p = q)). Qed.

Lemma becomes_obj w w' p s : becomes w w' p s -> obj w' p = Some s.
Proof. intros Hb. by rewrite Hb, decide_True. Qed.

Lemma deref_bind {A} p s w (k : Session -> lm A) :
  obj w p = Some s -> (on_sessions (sr_deref p) ≫= k) w = k s w.
Proof.
  intros Hp. unfold on_sessions, zoom, mbind, prog_bind. rewrite sl_deref, Hp. by destruct w.
Qed.

Lemma change_run p f s w :
  obj w p = Some s ->
  exists w', change p f w = (Ok (), w') /\ becomes w w' p (f s) /\ aside w w' /\
    w_notices w' = w_notices w.
Proof.
  intros Hp. destruct (sl_assign (w_sessions w) p (f s)) as (r' & Hr & Hobj); [by rewrite Hp|].
  exists (mkWorld r' (w_events w) (w_redis w) (w_notices w)).
  split; [|by split].
  unfold change. rewrite (deref_bind p s w _ Hp). unfold on_sessions, zoom. by rewrite Hr.
Qed.

(** [Update] and [DeleteFromCache] *)
Lemma store_run (m : prog R error unit) w :
  (exists a r', m (w_sessions w) = (a, r') /\ answers a /\ forall q, object r' q = obj w q) ->
  exists a w', on_sessions m w = (a, w') /\ answers a /\ aside w w' /\
    (forall q, obj w' q = obj w q) /\ w_notices w' = w_notices w.
Proof.
  intros (a & r' & Hr & Ha & Hobj).
  exists a, (mkWorld r' (w_events w) (w_redis w) (w_notices w)).
  split; [unfold on_sessions, zoom; by rewrite Hr|done].
Qed.

Lemma try_answers {A} (m : lm A) w a w' :
  m w = (a, w') -> answers a -> exists x, try m w = (Ok x, w') /\
    match a with Ok y => x = inr y | Err err => x = inl err | _ => False end.
Proof. unfold try. intros -> [[x ->]|[err ->]]; eauto. Qed.

(** The actions: assign, store, then work that keeps objects. *)
Lemma action_run p f (rest : lm unit) s w :
  obj w p = Some s ->
  (forall w1, obj w1 p = Some (f s) -> exists w2, rest w1 = (Ok (), w2) /\ aside w1 w2 /\
     forall q, obj w2 q = obj w1 q) ->
  exists a w', (change p f ;; on_sessions (sr_Update p) ;; rest) w = (a, w') /\ answers a /\
    becomes w w' p (f s) /\ aside w w'.
Proof.
  intros Hp Hrest. destruct (change_run p f s w Hp) as (w1 & Hc & Hb & [He1 Hr1] & _).
  rewrite (prog_bind_run _ _ _ _ _ Hc).
  destruct (store_run (sr_Update p) w1 (sl_Update _ _)) as (a & w2 & Hu & Ha & [He2 Hr2] & Hobj & _).
  assert (Hb2 : becomes w w2 p (f s)) by (intros q; by rewrite Hobj).
  destruct Ha as [[[] ->]|[err ->]].
  - rewrite (prog_bind_run _ _ _ _ _ Hu).
    destruct (Hrest w2) as (w3 & Hw3 & [He3 Hr3] & Hobj3); [by apply (becomes_obj w)|].
    exists (Ok ()), w3. split; [done|]. split; [left; by eexists|].
    split; [intros q; by rewrite Hobj3|]. split; congruence.
  - rewrite (prog_bind_fail _ _ _ _ _ Hu). exists (Err err), w2.
    split; [done|]. split; [right; by eexists|]. split; [done|]. split; congruence.
Qed.

Lemma notify_run kind u reason w :
  exists w', notify has_notify kind u reason w = (Ok (), w') /\ aside w w' /\
    forall q, obj w' q = obj w q.
Proof. unfold notify. destruct has_notify; by eexists. Qed.

Lemma record_run p action prev reason s w :
  obj w p = Some s ->
  exists a w', recordEvent has_events now uuid p action prev reason w = (a, w') /\ answers a /\
    (forall q, obj w' q = obj w q) /\ w_redis w' = w_redis w /\
    history (w_events w') = history (w_events w) ++
      (if has_events && is_ok a then
         [new_event now uuid (if bool_decide (action = "upgraded") then SessionEventUpgraded else action)
            prev s reason]
       else []).
Proof.
  intros Hp. unfold recordEvent. destruct has_events; cbn [negb andb];
    [|exists (Ok ()), w; rewrite app_nil_r; do 2 (split; [by try left; eauto|]); done].
  rewrite (deref_bind p s w _ Hp). unfold on_events, zoom.
  match goal with |- context [er_Create ?ev _] =>
    destruct (el_Create (w_events w) ev) as [(v' & Hv & Hh)|(err & v' & Hv & Hh)]; rewrite Hv
  end.
  - eexists _, _. split; [done|]. split; [left; by eexists|]. cbn [w_events w_sessions is_ok]. by rewrite Hh.
  - eexists _, _. split; [done|]. split; [right; by eexists|]. cbn [w_events w_sessions is_ok].
    by rewrite app_nil_r, Hh.
Qed.

(** *** The effect of an action on its session *)
Definition after_action (action reason : string) s : Session :=
  if bool_decide (action = ActionRequireMFA) then step_up now s reason
  else if bool_decide (action = ActionDowngrade) then downgraded now s reason
  else if bool_decide (action = ActionTerminate) then terminated now s reason
  else s.

Lemma requireMFA_run p reason s w :
  obj w p = Some s ->
  exists a w', requireMFA has_notify now p reason w = (a, w') /\ answers a /\
    becomes w w' p (step_up now s reason) /\ aside w w'.
Proof.
  intros Hp. apply (action_run p (fun s => step_up now s reason)); [done|].
  intros w1 Hw1. rewrite (deref_bind p _ w1 _ Hw1). apply notify_run.
Qed.

Lemma downgrade_run p reason s w :
  obj w p = Some s ->
  exists a w', downgrade has_notify now p reason w = (a, w') /\ answers a /\
    becomes w w' p (downgraded now s reason) /\ aside w w'.
Proof.
  intros Hp. apply (action_run p (fun s => downgraded now s reason)); [done|].
  intros w1 Hw1. rewrite (deref_bind p _ w1 _ Hw1). apply notify_run.
Qed.

Lemma terminate_run p reason s w :
  obj w p = Some s ->
  exists a w', terminate has_notify now p reason w = (a, w') /\ answers a /\
    becomes w w' p (terminated now s reason) /\ aside w w'.
Proof.
  intros Hp. apply (action_run p (fun s => terminated now s reason)); [done|].
  intros w1 Hw1. rewrite (deref_bind p _ w1 _ Hw1).
  destruct (store_run (sr_DeleteFromCache (se_ID (terminated now s reason))) w1
    (sl_DeleteFromCache _ _)) as (a & w2 & Hd & Ha & [He2 Hr2] & Hobj & _).
  destruct (try_answers _ _ _ _ Hd Ha) as (x & Hx & _). rewrite (prog_bind_run _ _ _ _ _ Hx).
  destruct (notify_run "session_terminated" (se_UserID (terminated now s reason)) reason w2)
    as (w3 & Hn & [He3 Hr3] & Hobj3).
  exists w3. split; [done|]. split; [split; congruence|]. intros q. by rewrite Hobj3.
Qed.

Lemma Execute_run p action reason s w :
  obj w p = Some s ->
  exists a w', Execute has_events has_notify now uuid p action reason w = (a, w') /\ answers a /\
    becomes w w' p (after_action action reason s) /\ w_redis w' = w_redis w /\
    history (w_events w') = history (w_events w) ++
      (if has_events && is_ok a && negb (bool_decide (action = ActionNone)) then
         [new_event now uuid (if bool_decide (action = "upgraded") then SessionEventUpgraded else action)
            (GetState s) (after_action action reason s) reason]
       else []).
Proof.
  intros Hp. unfold Execute. rewrite (deref_bind p s w _ Hp).
  destruct (bool_decide_reflect (action = ActionNone)) as [->|Hnone].
  { exists (Ok ()), w. split; [done|]. split; [left; by eexists|].
    split; [by apply becomes_same|]. split; [done|]. rewrite andb_false_r. by rewrite app_nil_r. }
  assert (Hact : exists a w1,
    (if bool_decide (action = ActionMonitor) then mret ()
     else if bool_decide (action = ActionRequireMFA) then requireMFA has_notify now p reason
     else if bool_decide (action = ActionDowngrade) then downgrade has_notify now p reason
     else if bool_decide (action = ActionTerminate) then terminate has_notify now p reason
     else mret ()) w = (a, w1) /\ answers a /\ becomes w w1 p (after_action action reason s) /\ aside w w1).
  { unfold after_action. destruct (bool_decide_reflect (action = ActionMonitor)) as [->|_].
    { exists (Ok ()), w. split; [done|]. split; [left; by eexists|]. by split; [apply becomes_same|]. }
    case_bool_decide; [by apply requireMFA_run|]. case_bool_decide; [by apply downgrade_run|].
    case_bool_decide; [by apply terminate_run|].
    exists (Ok ()), w. split; [done|]. split; [left; by eexists|]. by split; [apply becomes_same|]. }
  destruct Hact as (a & w1 & Hrun & Ha & Hb & [He1 Hr1]). cbn [negb].
  destruct Ha as [[[] ->]|[err ->]].
  - rewrite (prog_bind_run _ _ _ _ _ Hrun).
    destruct (record_run p action (GetState s) reason _ w1 (becomes_obj _ _ _ _ Hb))
      as (a2 & w2 & Hrec & Ha2 & Hobj & Hr2 & Hh).
    exists a2, w2. split; [done|]. split; [done|].
    split; [intros q; by rewrite Hobj|]. split; [congruence|]. by rewrite Hh, He1, andb_true_r.
  - rewrite (prog_bind_fail _ _ _ _ _ Hrun). exists (Err err), w1.
    split; [done|]. split; [right; by eexists|]. split; [done|]. split; [done|].
    cbn [is_ok]. by rewrite andb_false_r, andb_true_r, app_nil_r, He1.
Qed.

Lemma Upgrade_run p s w :
  obj w p = Some s ->
  exists a w', Upgrade has_events now uuid p w = (a, w') /\ answers a /\
    becomes w w' p (upgraded now s) /\ w_redis w' = w_redis w.
Proof.
  intros Hp. unfold Upgrade. rewrite (deref_bind p s w _ Hp).
  destruct (change_run p (upgraded now) s w Hp) as (w1 & Hc & Hb & [He1 Hr1] & _).
  rewrite (prog_bind_run _ _ _ _ _ Hc).
  destruct (store_run (sr_Update p) w1 (sl_Update _ _)) as (a & w2 & Hu & Ha & [He2 Hr2] & Hobj & _).
  assert (Hb2 : becomes w w2 p (upgraded now s)) by (intros q; by rewrite Hobj).
  destruct Ha as [[[] ->]|[err ->]].
  - rewrite (prog_bind_run _ _ _ _ _ Hu).
    destruct (record_run p "upgraded" (GetState s) "MFA Verification Successful" _ w2
      (becomes_obj _ _ _ _ Hb2)) as (a3 & w3 & Hrec & Ha3 & Hobj3 & Hr3 & _).
    exists a3, w3. split; [done|]. split; [done|]. split; [intros q; by rewrite Hobj3|congruence].
  - rewrite (prog_bind_fail _ _ _ _ _ Hu). exists (Err err), w2.
    split; [done|]. split; [right; by eexists|]. split; [done|congruence].
Qed.
End Runs.

Section Scheduled.
Context `{SessionRepositoryLaws R} `{SessionEventLaws V} `{RedisLaws C}.
Context (e : evaluator) (has_events has_notify : bool) (now : time) (uuid : string).
Notation W := (world R V C).
Notation lm A := (prog W error A).
Implicit Types (w : W) (p : loc) (s : Session).
Notation obj w p := (object (w_sessions w) p).

Definition assessment s : EvaluationResult :=
  assess (e_format e) (e_sort e) (e_rules e) (e_services e) (e_monitor e) (e_config e) now s.

Lemma evaluate_run s w :
  exists w', evaluate e now s w = (Ok (assessment s), w') /\
    w_sessions w' = w_sessions w /\ w_events w' = w_events w.
Proof.
  unfold evaluate, on_redis, zoom, assessment.
  destruct (Evaluate_run (e_marshal e) (e_unmarshal e) (e_format e) (e_sort e) (e_rules e) (e_services e)
    (e_monitor e) (e_config e) (e_has_store e) now s (w_redis w)) as (c' & ->).
  eexists. split; [done|]. done.
Qed.

(** A scheduled evaluation carries out the recommended action and dates the
    session; it always comes back. *)
Lemma evaluateSession_run p s w :
  obj w p = Some s ->
  exists w', evaluateSession e has_events has_notify now uuid p w = (Ok (), w') /\
    becomes w w' p (evaluated now
      (after_action now (eval_RecommendedAction (assessment s)) (eval_Reason (assessment s)) s)).
Proof.
  intros Hp. unfold evaluateSession. rewrite (deref_bind p s w _ Hp).
  destruct (evaluate_run s w) as (w1 & He & Hs1 & _).
  destruct (try_answers _ _ _ _ He ltac:(left; by eexists)) as (x & Hx & ->).
  rewrite (prog_bind_run _ _ _ _ _ Hx).
  set (r := assessment s) in *.
  assert (Hp1 : obj w1 p = Some s) by by rewrite Hs1.
  assert (exists w2, (forall (k : () -> lm unit),
    ((if negb (bool_decide (eval_RecommendedAction r = ActionNone))
      then try (Execute has_events has_notify now uuid p (eval_RecommendedAction r) (eval_Reason r)) ;; mret ()
      else mret ()) ≫= k) w1 = k () w2) /\
    becomes w1 w2 p (after_action now (eval_RecommendedAction r) (eval_Reason r) s)) as (w2 & Hrun & Hb).
  { destruct (bool_decide_reflect (eval_RecommendedAction r = ActionNone)) as [->|Hn]; cbn [negb].
    - exists w1. split; [done|]. by apply becomes_same.
    - destruct (Execute_run has_events has_notify now uuid p (eval_RecommendedAction r) (eval_Reason r) s w1 Hp1)
        as (a & w2 & Hex & Ha & Hb & _).
      destruct (try_answers _ _ _ _ Hex Ha) as (y & Hy & _).
      exists w2. split; [|done]. intros k. rewrite prog_assoc. by rewrite (prog_bind_run _ _ _ _ _ Hy). }
  rewrite Hrun.
  destruct (change_run p (evaluated now) _ w2 (becomes_obj _ _ _ _ Hb)) as (w3 & Hc & Hb3 & _).
  rewrite (prog_bind_run _ _ _ _ _ Hc).
  destruct (store_run (sr_Update p) w3 (sl_Update _ _)) as (a & w4 & Hu & Ha & _ & Hobj & _).
  destruct (try_answers _ _ _ _ Hu Ha) as (y & Hy & _). rewrite (prog_bind_run _ _ _ _ _ Hy).
  exists w4. split; [done|]. intros q. rewrite Hobj, Hb3, Hb.
  destruct (decide (p = q)); [done|]. by rewrite Hs1.
Qed.
End Scheduled.

(** ** Histories of a session *)
Inductive session_op : Type :=
  | OpExecute (now : time) (uuid action reason : string)
  | OpUpgrade (now : time) (uuid : string)
  | OpScheduled (now : time) (uuid : string).

Section Histories.
Context `{SessionRepositoryLaws R} `{SessionEventLaws V} `{RedisLaws C}.
Context (e : evaluator) (has_events has_notify : bool).
Notation W := (world R V C).
Notation lm A := (prog W error A).
Implicit Types (w : W) (p : loc) (s : Session).
Notation obj w p := (object (w_sessions w) p).

(** The answer of an operation is looked at by its caller only. *)
Definition run_op p (op : session_op) : lm unit :=
  match op with
  | OpExecute now uuid action reason =>
      try (Execute has_events has_notify now uuid p action reason) ;; mret ()
  | OpUpgrade now uuid => try (Upgrade has_events now uuid p) ;; mret ()
  | OpScheduled now uuid => evaluateSession e has_events has_notify now uuid p
  end.

Definition after_op (op : session_op) s : Session :=
  match op with
  | OpExecute now uuid action reason => after_action now action reason s
  | OpUpgrade now uuid => upgraded now s
  | OpScheduled now uuid =>
      evaluated now (after_action now (eval_RecommendedAction (assessment e now s))
                       (eval_Reason (assessment e now s)) s)
  end.

Lemma run_op_run p op s w :
  obj w p = Some s ->
  exists w', run_op p op w = (Ok (), w') /\ becomes w w' p (after_op op s).
Proof.
  intros Hp. destruct op as [now uuid action reason|now uuid|now uuid]; cbn [run_op after_op].
  - destruct (Execute_run has_events has_notify now uuid p action reason s w Hp)
      as (a & w' & Hr & Ha & Hb & _).
    destruct (try_answers _ _ _ _ Hr Ha) as (x & Hx & _). rewrite (prog_bind_run _ _ _ _ _ Hx). by exists w'.
  - destruct (Upgrade_run has_events now uuid p s w Hp) as (a & w' & Hr & Ha & Hb & _).
    destruct (try_answers _ _ _ _ Hr Ha) as (x & Hx & _). rewrite (prog_bind_run _ _ _ _ _ Hx). by exists w'.
  - by apply evaluateSession_run.
Qed.

Definition statuses : list string :=
  [SessionStatusActive; SessionStatusDowngraded; SessionStatusStepUpRequired; SessionStatusTerminated].

(** What no operation changes, and the bounds of the two it does. *)
Definition descends s s' : Prop :=
  se_ID s' = se_ID s /\ se_UserID s' = se_UserID s /\ se_Permissions s' = se_Permissions s /\
  se_ExpiresAt s' = se_ExpiresAt s /\ se_RiskLevel s' = se_RiskLevel s /\
  se_CurrentRiskScore s' = se_CurrentRiskScore s /\
  (1 <= se_AuthLevel s <= 4 -> 1 <= se_AuthLevel s' <= 4) /\
  (se_Status s ∈ statuses -> se_Status s' ∈ statuses).

#[local] Instance descends_trans : Transitive descends.
Proof.
  intros s s' s'' (a1 & a2 & a3 & a4 & a5 & a6 & a7 & a8) (b1 & b2 & b3 & b4 & b5 & b6 & b7 & b8).
  unfold descends. do 6 (split; [congruence|]). tauto.
Qed.

Lemma descends_action now action reason s : descends s (after_action now action reason s).
Proof.
  unfold after_action. repeat case_bool_decide; unfold descends; cbn;
    do 6 (split; [done|]); (split; [|unfold statuses; set_solver]); try done.
  case_bool_decide; lia.
Qed.

Lemma descends_op op s : descends s (after_op op s).
Proof.
  destruct op as [now uuid action reason|now uuid|now uuid]; cbn [after_op].
  - apply descends_action.
  - unfold descends; cbn [upgraded se_ID se_UserID se_Permissions se_ExpiresAt se_RiskLevel
      se_CurrentRiskScore se_AuthLevel se_Status].
    do 6 (split; [done|]). split; [|unfold statuses; set_solver].
    intros Hl. rewrite int64_small by lia. lia.
  - etrans; [apply descends_action|]. unfold descends. cbn. tauto.
Qed.

Lemma run_ops_run p ops s w :
  obj w p = Some s ->
  exists w' s', for_each (run_op p) ops w = (Ok (), w') /\ becomes w w' p s' /\ descends s s'.
Proof.
  revert s w. induction ops as [|op ops IH]; intros s w Hp; cbn [for_each].
  { exists w, s. split; [done|]. split; [by apply becomes_same|]. unfold descends. tauto. }
  destruct (run_op_run p op s w Hp) as (w1 & Hr & Hb). rewrite (prog_bind_run _ _ _ _ _ Hr).
  destruct (IH _ w1 (becomes_obj _ _ _ _ Hb)) as (w2 & s2 & Hr2 & Hb2 & Hd).
  exists w2, s2. split; [done|]. split; [by apply (becomes_trans w w1 w2 p (after_op op s))|].
  etrans; [apply descends_op|done].
Qed.
End Histories.

(** ** Selecting sessions *)
Section Selection.
Context `{SessionRepositoryLaws R} `{SessionEventLaws V} `{RedisLaws C}.
Context (e : evaluator) (now : time).
Notation W := (world R V C).
Implicit Types (w : W) (p : loc).
Notation obj w p := (object (w_sessions w) p).

(** What the scheduler needs of the two queries: they answer with at most as
    many sessions as asked for, all of them objects, and change nothing. *)
Definition query_ok (m : prog R error (list loc)) (limit : Z) : Prop := forall r,
  exists a, m r = (a, r) /\ answers a /\
    forall l, a = Ok l -> Z.of_nat (length l) <= Z.max 0 limit /\ Forall (fun p => is_Some (object r p)) l.

Lemma or_nil_run (m : prog R error (list loc)) limit w :
  query_ok m limit ->
  exists l, or_nil m w = (Ok l, w) /\ Z.of_nat (length l) <= Z.max 0 limit /\
    Forall (fun p => is_Some (obj w p)) l.
Proof.
  intros Hq. destruct (Hq (w_sessions w)) as (a & Hm & [[l ->]|[err ->]] & Hl);
    unfold or_nil, on_sessions, zoom, try, mbind, prog_bind; rewrite Hm; destruct w.
  - exists l. split; [done|]. by apply Hl.
  - exists []. split; [done|]. split; [cbn; lia|constructor].
Qed.

Definition is_due w (interval : Z) p : Prop :=
  exists s, obj w p = Some s /\ interval < Sub now (se_LastEvaluatedAt s).

Lemma select_due_run interval ps w :
  Forall (fun p => is_Some (obj w p)) ps ->
  exists l, select_due now interval ps w = (Ok l, w) /\ (length l <= length ps)%nat /\
    Forall (is_due w interval) l /\ (forall p, p ∈ ps -> is_due w interval p -> p ∈ l).
Proof.
  induction ps as [|p ps IH]; intros Hps; cbn [select_due].
  { exists []. repeat split; [done|constructor|set_solver]. }
  apply Forall_cons in Hps as [[s Hs] Hps]. destruct (IH Hps) as (l & Hl & Hlen & Hdue & Hall).
  unfold due. rewrite prog_assoc, (deref_bind p s w _ Hs).
  change (mret ?b ≫= ?k) with (k b). cbv beta.
  rewrite (prog_bind_run _ _ _ _ _ Hl). case_bool_decide as Hd.
  - exists (p :: l). split; [done|]. cbn [length]. split; [lia|].
    split; [constructor; [by exists s|done]|]. intros q [->|?]%elem_of_cons ?; constructor; auto.
  - exists l. split; [done|]. cbn [length]. split; [lia|]. split; [done|].
    intros q [->|?]%elem_of_cons Hq; [|auto]. destruct Hq as (s' & Hs' & ?).
    rewrite Hs in Hs'. injection Hs' as <-. done.
Qed.
End Selection.

(** ** The quick check *)
Section Verdict.
Context `{RedisLaws C} (e : evaluator) (now : time).
Implicit Types (c : C) (s : Session).

Definition not_critical (level : string) : bool := negb (bool_decide (level = "critical")).

(** What the check answers: a result less than a minute old is believed, and
    otherwise the session is evaluated. *)
Definition verdict s c : res error bool :=
  let fresh := Ok (not_critical (eval_RiskLevel (assessment e now s))) in
  if negb (e_has_store e) then Ok true
  else match kv c now (riskKey (se_ID s)) with
       | None => fresh
       | Some v =>
           match e_unmarshal e v with
           | None => Err (Errorf "json")
           | Some d => if bool_decide (Sub now (risk_LastEvaluated d) < Minute)
                       then Ok (not_critical (risk_RiskLevel d)) else fresh
           end
       end.

Lemma QuickCheck_run s c :
  exists c', QuickCheck (e_marshal e) (e_unmarshal e) (e_format e) (e_sort e) (e_rules e) (e_services e)
    (e_monitor e) (e_config e) (e_has_store e) now s c = (verdict s c, c').
Proof.
  unfold QuickCheck, verdict. destruct (e_has_store e) eqn:Hst; cbn [negb]; [|by exists c].
  destruct (Evaluate_run (e_marshal e) (e_unmarshal e) (e_format e) (e_sort e) (e_rules e) (e_services e)
    (e_monitor e) (e_config e) true now s c) as (c' & He).
  unfold mbind at 1, prog_bind at 1. rewrite risk_Get_run.
  destruct (kv c now (riskKey (se_ID s))) as [v|].
  - destruct (e_unmarshal e v) as [d|]; [|by exists c]. case_bool_decide; [by exists c|].
    exists c'. by rewrite (prog_bind_run _ _ _ _ _ He).
  - exists c'. by rewrite (prog_bind_run _ _ _ _ _ He).
Qed.

Lemma verdict_answers s c : answers (verdict s c).
Proof.
  unfold verdict, answers. destruct (e_has_store e); cbn [negb]; [|eauto].
  destruct (kv c now _); [|eauto]. destruct (e_unmarshal e _); [|eauto]. case_bool_decide; eauto.
Qed.
End Verdict.

(** ** Properties *)
Section Properties.
Context `{SessionRepositoryLaws R} `{SessionEventLaws V} `{RedisLaws C}.
Context (e : evaluator) (has_events has_notify : bool).
Notation W := (world R V C).
Implicit Types (w : W) (p : loc) (s : Session).
Notation obj w p := (object (w_sessions w) p).

(** The end of [ValidateSession], when the risk check let the session through. *)
Lemma validate_pass now p s w :
  obj w p = Some s ->
  exists w',
    (if bool_decide (se_Status s = SessionStatusStepUpRequired)
     then throw (Errorf "step-up authentication required")
     else change p (touched now) ;; try (on_sessions (sr_Update p)) ;; mret p) w =
    ((if bool_decide (se_Status s = SessionStatusStepUpRequired)
      then Err (Errorf "step-up authentication required") else Ok p), w') /\
    (forall q, obj w' q = if decide (p = q) then
       Some (if bool_decide (se_Status s = SessionStatusStepUpRequired) then s else touched now s)
       else obj w q).
Proof.
  intros Hp. case_bool_decide.
  { exists w. split; [done|]. intros q. by destruct (decide (p = q)) as [<-|]. }
  destruct (change_run p (touched now) s w Hp) as (w3 & Hc & Hb & _).
  rewrite (prog_bind_run _ _ _ _ _ Hc).
  destruct (store_run (sr_Update p) w3 (sl_Update _ _)) as (a & w4 & Hu & Ha & _ & Hobj & _).
  destruct (try_answers _ _ _ _ Hu Ha) as (y & Hy & _). rewrite (prog_bind_run _ _ _ _ _ Hy).
  exists w4. split; [done|]. intros q. rewrite Hobj, Hb. done.
Qed.

(** Executing an action changes exactly the session it is for, as the
    action says and even when storing it fails; it answers, with an error when
    storing or recording failed; and after a success the history has grown by
    one event with the states before and after.  The recorded event type is
    the name of the action, which is none of the declared event types. *)
Theorem execute_contract now uuid p action reason s w :
  obj w p = Some s -> has_events = true ->
  action ∈ [ActionMonitor; ActionRequireMFA; ActionDowngrade; ActionTerminate] ->
  exists a w', Execute has_events has_notify now uuid p action reason w = (a, w') /\
    (a = Ok () \/ exists err, a = Err err) /\
    (forall q, obj w' q = if decide (p = q) then Some (after_action now action reason s) else obj w q) /\
    (a = Ok () -> exists ev, history (w_events w') = history (w_events w) ++ [ev] /\
       sev_SessionID ev = se_ID s /\ sev_PreviousState ev = GetState s /\
       sev_NewState ev = GetState (after_action now action reason s) /\
       sev_EventType ev = action /\ sev_EventType ev ∉ session_event_types) /\
    (a <> Ok () -> history (w_events w') = history (w_events w)).
Proof.
  intros Hp Hev Hact.
  destruct (Execute_run has_events has_notify now uuid p action reason s w Hp)
    as (a & w' & Hr & Ha & Hb & _ & Hh).
  exists a, w'. split; [done|]. rewrite Hev in Hh.
  assert (Hnames : action <> ActionNone /\ action <> "upgraded" /\ action ∉ session_event_types).
  { rewrite !elem_of_cons, elem_of_nil in Hact.
    destruct Hact as [->|[->|[->|[->|[]]]]]; (split; [discriminate|split; [discriminate|]]);
      apply (bool_decide_unpack _); vm_compute; exact I. }
  destruct Hnames as (Hn & Hu & Hdecl). rewrite bool_decide_eq_false_2 in Hh by done.
  cbn [negb andb] in Hh. rewrite andb_true_r in Hh. rewrite bool_decide_eq_false_2 in Hh by done.
  split; [destruct Ha as [[[] ->]|?]; eauto|]. split; [done|].
  destruct Ha as [[[] ->]|[err ->]]; cbn [is_ok] in Hh.
  - split; [|done]. intros _. eexists. split; [exact Hh|]. cbn.
    split; [unfold after_action; by repeat case_bool_decide|]. done.
  - split; [done|]. intros _. by rewrite Hh, app_nil_r.
Qed.


(** What validating a session decides: a terminated, an expired, a critical
    and a session that awaits its second factor are refused, in that order; any
    other is returned and its activity is dated - a downgraded one, and one
    whose risk could not be read, too. *)
Theorem validate_decides now id p s w r1 :
  sr_GetByID id (w_sessions w) = (Ok p, r1) -> object r1 p = Some s ->
  exists w', ValidateSession e now id w =
    ((if bool_decide (se_Status s = SessionStatusTerminated) then Err (Errorf "session terminated")
      else if bool_decide (se_ExpiresAt s < now) then Err (Errorf "session expired")
      else if bool_decide (verdict e now s (w_redis w) = Ok false) then Err (Errorf "session risk too high")
      else if bool_decide (se_Status s = SessionStatusStepUpRequired)
      then Err (Errorf "step-up authentication required")
      else Ok p), w') /\
    (forall q, obj w' q = if decide (p = q) then
       Some (if is_ok (ValidateSession e now id w).1 then touched now s else s) else object r1 q).
Proof.
  intros Hget Hp. set (w1 := mkWorld r1 (w_events w) (w_redis w) (w_notices w)).
  assert (Hrun : on_sessions (sr_GetByID id) w = (Ok p, w1)).
  { unfold on_sessions, zoom. by rewrite Hget. }
  assert (Hp1 : obj w1 p = Some s) by done.
  unfold ValidateSession. rewrite (prog_bind_run _ _ _ _ _ Hrun), (deref_bind p s w1 _ Hp1).
  assert (Hkeep : forall q, obj w1 q = if decide (p = q) then Some s else object r1 q).
  { intros q. by destruct (decide (p = q)) as [<-|]. }
  case_bool_decide; [by exists w1|]. unfold IsExpired. case_bool_decide; [by exists w1|].
  destruct (QuickCheck_run e now s (w_redis w)) as (c' & Hq).
  set (w2 := mkWorld r1 (w_events w) c' (w_notices w)).
  assert (Hquick : quick_check e now s w1 = (verdict e now s (w_redis w), w2)).
  { unfold quick_check, on_redis, zoom. cbn [w_redis w1]. by rewrite Hq. }
  destruct (try_answers _ _ _ _ Hquick (verdict_answers e now s (w_redis w))) as (x & Hx & Hv).
  rewrite (prog_bind_run _ _ _ _ _ Hx).
  destruct (validate_pass now p s w2 Hp1) as (w' & Hpass & Hobj).
  change (object (w_sessions w2)) with (object r1) in Hobj.
  clear Hquick Hx. revert Hv. destruct (verdict e now s (w_redis w)) as [[]|err| |]; intros Hv;
    try (by destruct Hv); subst x.
  - rewrite Hpass. rewrite (bool_decide_eq_false_2 (Ok true = Ok false)) by done.
    exists w'. split; [done|]. intros q. rewrite Hobj. by case_bool_decide.
  - rewrite bool_decide_eq_true_2 by done. by exists w2.
  - rewrite Hpass. rewrite (bool_decide_eq_false_2 (Err _ = Ok _)) by done.
    exists w'. split; [done|]. intros q. rewrite Hobj. by case_bool_decide.
Qed.

(** A scheduled evaluation with the default thresholds and rules demands a
    second factor of a session idle for more than an hour - of a terminated one
    too, which it brings back to a status that an upgrade leads out of - and
    otherwise only dates the session.  It always comes back. *)
Theorem scheduled_evaluation now uuid p s w geo m :
  obj w p = Some s -> e_rules e = DefaultPolicyRules -> e_monitor e = NewRiskMonitor m ->
  e_config e = NewSessionEvaluator (mkEvaluationConfig 0 0 0 0 geo) ->
  flt (GeoJumpThresholdKm (NewRiskMonitor m)) fzero = false ->
  exists w' s', evaluateSession e has_events has_notify now uuid p w = (Ok (), w') /\
    obj w' p = Some s' /\ (forall q, q <> p -> obj w' q = obj w q) /\
    se_LastEvaluatedAt s' = now /\ se_RiskLevel s' = se_RiskLevel s /\ se_AuthLevel s' = se_AuthLevel s /\
    se_Status s' = (if flt (float_of_Z 60) (idle now s) then SessionStatusStepUpRequired else se_Status s).
Proof.
  intros Hp Hrules Hmon Hcfg Hgeo.
  destruct (evaluateSession_run e has_events has_notify now uuid p s w Hp) as (w' & Hr & Hb).
  eexists w', _. split; [done|]. split; [by apply (becomes_obj w)|].
  split; [intros q Hq; rewrite Hb; by rewrite decide_False|].
  assert (Hact : eval_RecommendedAction (assessment e now s) =
    if flt (float_of_Z 60) (idle now s) then ActionRequireMFA else ActionNone).
  { unfold assessment. rewrite Hrules, Hmon, Hcfg. by apply default_assessment. }
  rewrite Hact. by destruct (flt (float_of_Z 60) (idle now s)).
Qed.

(** One round of the scheduler selects at most a batch of sessions, all of
    them due, when the repository respects the limits of the queries. *)
Theorem batch_bounds now config w :
  0 < BatchSize config ->
  (forall level limit, query_ok (sr_FindByRiskLevel level limit) limit) ->
  (forall limit, query_ok (sr_FindActiveSessions limit) limit) ->
  exists l, getSessionsNeedingEvaluation now config w = (Ok l, w) /\
    Z.of_nat (length l) <= BatchSize config /\
    Forall (fun p => is_due now w (CriticalInterval config) p \/ is_due now w (HighRiskInterval config) p \/
      is_due now w (DefaultInterval config) p) l.
Proof.
  intros HB Hrisk Hactive. unfold getSessionsNeedingEvaluation.
  assert (Hquarter : 0 <= Z.quot (BatchSize config) 4 /\ 4 * Z.quot (BatchSize config) 4 <= BatchSize config).
  { rewrite Z.quot_div_nonneg by lia. pose proof (Z.mul_div_le (BatchSize config) 4 ltac:(lia)).
    pose proof (Z.div_pos (BatchSize config) 4 ltac:(lia) ltac:(lia)). lia. }
  destruct (or_nil_run _ _ w (Hrisk "critical" (Z.quot (BatchSize config) 4))) as (lc & Hc & Hlc & Hoc).
  rewrite (prog_bind_run _ _ _ _ _ Hc).
  destruct (select_due_run now (CriticalInterval config) lc w Hoc) as (l1 & Hs1 & Hl1 & Hd1 & _).
  rewrite (prog_bind_run _ _ _ _ _ Hs1). rewrite bool_decide_eq_true_2 by lia. rewrite prog_assoc.
  destruct (or_nil_run _ _ w (Hrisk "high" (Z.quot (BatchSize config) 4))) as (lh & Hh & Hlh & Hoh).
  rewrite (prog_bind_run _ _ _ _ _ Hh). rewrite prog_assoc.
  destruct (select_due_run now (HighRiskInterval config) lh w Hoh) as (l2 & Hs2 & Hl2 & Hd2 & _).
  rewrite (prog_bind_run _ _ _ _ _ Hs2). change (mret ?b ≫= ?k) with (k b). cbv beta.
  assert (Hdue : Forall (fun p => is_due now w (CriticalInterval config) p \/
    is_due now w (HighRiskInterval config) p \/ is_due now w (DefaultInterval config) p) (l1 ++ l2)).
  { apply Forall_app. split; (eapply Forall_impl; [eassumption|]); cbn; auto. }
  rewrite length_app. case_bool_decide as Hlt.
  - destruct (or_nil_run _ _ w (Hactive (BatchSize config - Z.of_nat (length l1 + length l2))))
      as (la & Ha & Hla & Hoa). rewrite (prog_bind_run _ _ _ _ _ Ha).
    destruct (select_due_run now (DefaultInterval config) la w Hoa) as (l3 & Hs3 & Hl3 & Hd3 & _).
    rewrite (prog_bind_run _ _ _ _ _ Hs3). eexists. split; [reflexivity|].
    rewrite !length_app. split; [lia|]. apply Forall_app. split; [done|].
    eapply Forall_impl; [eassumption|]. cbn; auto.
  - eexists. split; [reflexivity|]. rewrite length_app. split; [lia|done].
Qed.
End Properties.

(** ** A reference repository: objects on a heap, indexed by identifier *)
Record session_repo := mkSessionRepo {
  rp_heap : gmap loc Session;
  rp_index : gmap string loc
}.

Definition repo_deref (p : loc) : prog session_repo error Session := fun r =>
  (match rp_heap r !! p with Some s => Ok s | None => Panic end, r).

Definition repo_find (keep : Session -> bool) (limit : Z) : prog session_repo error (list loc) := fun r =>
  (Ok (take (Z.to_nat limit)
    (fst <$> filter (fun ps => keep ps.2) (map_to_list (rp_heap r)))), r).

#[global] Instance memory_sessions : SessionRepository session_repo := {
  sr_alloc s r := let p := fresh (dom (rp_heap r)) in (Ok p, mkSessionRepo (<[p := s]> (rp_heap r)) (rp_index r));
  sr_deref := repo_deref;
  sr_assign p s r := match rp_heap r !! p with
                     | Some _ => (Ok (), mkSessionRepo (<[p := s]> (rp_heap r)) (rp_index r))
                     | None => (Panic, r)
                     end;
  sr_GetByID i r :=
    (match rp_index r !! i with
     | Some p => if rp_heap r !! p then Ok p else Err (Sentinel ErrNotFound)
     | None => Err (Sentinel ErrNotFound)
     end, r);
  sr_Update p r := match rp_heap r !! p with
                   | Some s => (Ok (), mkSessionRepo (rp_heap r) (<[se_ID s := p]> (rp_index r)))
                   | None => (Err (Sentinel ErrNotFound), r)
                   end;
  sr_DeleteFromCache i r := (Ok (), r);
  sr_FindByRiskLevel level := repo_find (fun s => bool_decide (se_RiskLevel s = level));
  sr_FindActiveSessions := repo_find (fun s => bool_decide (se_Status s = SessionStatusActive))
}.

#[global] Instance memory_sessions_laws : SessionRepositoryLaws session_repo.
Proof.
  refine (Build_SessionRepositoryLaws _ _ (fun r p => rp_heap r !! p) _ _ _ _).
  - done.
  - intros r p s [s0 Hs]. eexists. cbn. rewrite Hs. split; [done|]. intros q. cbn.
    rewrite lookup_insert. by destruct (decide (p = q)).
  - intros r p. cbn. destruct (rp_heap r !! p); (eexists _, _; split; [done|]); unfold answers; eauto.
  - intros r i. eexists _, _. split; [reflexivity|]. split; [left; by eexists|done].
Defined.

Lemma repo_find_ok keep limit : query_ok (repo_find keep limit) limit.
Proof.
  intros r. eexists. split; [reflexivity|]. split; [left; by eexists|]. intros l [= <-].
  rewrite length_take. split; [lia|]. apply Forall_take, Forall_forall. intros p Hp.
  apply list_elem_of_fmap in Hp as ([q s] & -> & [_ Hq]%list_elem_of_filter).
  apply elem_of_map_to_list in Hq. cbn. by eexists.
Defined.

#[global] Instance list_events : SessionEventRepository (list SessionEvent) :=
  { er_Create ev l := (Ok (), l ++ [ev]) }.
#[global] Instance list_events_laws : SessionEventLaws (list SessionEvent).
Proof.
  refine (Build_SessionEventLaws _ _ (fun l => l) _). intros v ev. left. by eexists.
Defined.

Definition demo_evaluator : evaluator :=
  mkEvaluator (fun _ => "data") (fun _ => None) (fun _ => "") merge_priority_sort DefaultPolicyRules
    demo_services (NewRiskMonitor demo_monitor) (NewSessionEvaluator (mkEvaluationConfig 0 0 0 0 false)) true.

Definition demo_world (s : Session) : world session_repo (list SessionEvent) redis_state :=
  mkWorld (mkSessionRepo {[ 1%positive := s ]} {[ se_ID s := 1%positive ]}) [] (mkRedis ∅ ∅) [].

Lemma execute_contract_witness :
  exists a w', Execute true true 5 "e1" 1%positive ActionTerminate "admin" (demo_world demo_session) = (a, w') /\
    a = Ok () /\ object (w_sessions w') 1%positive = Some (terminated 5 demo_session "admin").
Proof.
  destruct (execute_contract true true 5 "e1" 1%positive ActionTerminate "admin" demo_session
    (demo_world demo_session)) as (a & w' & Hr & _ & Hobj & _).
  - reflexivity.
  - reflexivity.
  - apply (bool_decide_unpack _); vm_compute; exact I.
  - exists a, w'. split; [exact Hr|]. split; [vm_compute in Hr; by injection Hr as <- _|].
    rewrite Hobj. reflexivity.
Defined.


Lemma validate_decides_witness :
  exists w', ValidateSession demo_evaluator 5 "s1" (demo_world demo_session) = (Ok 1%positive, w') /\
    object (w_sessions w') 1%positive = Some (touched 5 demo_session).
Proof.
  destruct (validate_decides demo_evaluator 5 "s1" 1%positive demo_session (demo_world demo_session)
    (w_sessions (demo_world demo_session))) as (w' & Hr & Hobj); [reflexivity|reflexivity|].
  exists w'. split; [rewrite Hr; vm_compute; reflexivity|]. rewrite Hobj, Hr. reflexivity.
Defined.

Lemma scheduled_evaluation_witness :
  exists w' s', evaluateSession demo_evaluator true true (2 * Hour) "e1" 1%positive
      (demo_world (terminated 5 demo_session "admin")) = (Ok (), w') /\
    object (w_sessions w') 1%positive = Some s' /\ se_Status s' = SessionStatusStepUpRequired.
Proof.
  destruct (scheduled_evaluation demo_evaluator true true (2 * Hour) "e1" 1%positive
    (terminated 5 demo_session "admin") (demo_world (terminated 5 demo_session "admin")) false demo_monitor)
    as (w' & s' & Hr & Hobj & _ & _ & _ & _ & Hst); try reflexivity.
  exists w', s'. split; [exact Hr|]. split; [exact Hobj|]. rewrite Hst. reflexivity.
Defined.

Lemma batch_bounds_witness :
  exists l, getSessionsNeedingEvaluation Hour (NewEvaluationScheduler (mkSchedulerConfig 0 0 0 0 0))
      (demo_world demo_session) = (Ok l, demo_world demo_session) /\ Z.of_nat (length l) <= 100.
Proof.
  destruct (batch_bounds (V := list SessionEvent) (C := redis_state) Hour
    (NewEvaluationScheduler (mkSchedulerConfig 0 0 0 0 0)) (demo_world demo_session))
    as (l & Hr & Hlen & _).
  - reflexivity.
  - intros level limit. apply repo_find_ok.
  - intros limit. apply repo_find_ok.
  - exists l. split; [exact Hr|exact Hlen].
Defined.
