(* ===== verification/OAuth.v ===== *)
(** * OAuth 2.1 and OpenID Connect (pkg/auth/protocols, internal/server/http/handlers/oauth.go)

    The authorization endpoint, the three grants of the token endpoint and the
    user-info endpoint, over Redis ([Redis.v]) and the user repository
    ([IdentityService.v]).  The application repository, JSON encoding, JWT
    signing and SHA-256 are arguments.  Redis keeps what is written for its
    lifetime, and the codes and tokens of a request are drawn from outside. *)

From S2P Require Import Prelude Types GoStd MemIdentity IdentityService Authorization AuthService Redis.
From Stdlib Require Import Ascii.
Local Open Scope Z_scope.

(** ** Applications (pkg/types/application.go) *)
Definition ClientTypeConfidential : string := "confidential".
Definition ClientTypePublic : string := "public".

Record Application := mkApplication {
  app_ID : string;
  app_Name : string;
  app_Description : string;
  app_Status : string;
  app_ClientType : string;
  app_Protocol : string;
  app_ProtocolConfig : gmap string any;
  app_CreatedAt : time;
  app_UpdatedAt : time
}.

(** ** Requests (pkg/types/oauth.go, pkg/types/auth.go) *)
Record TokenRequest := mkTokenRequest {
  GrantType : string;
  req_Code : string;
  req_RedirectURI : string;
  req_ClientID : string;
  req_ClientSecret : string;
  req_CodeVerifier : string;
  req_RefreshToken : string;
  req_UserID : string;
  req_Scope : string
}.
Record TokenResponse := mkTokenResponse {
  resp_AccessToken : string;
  resp_TokenType : string;
  resp_ExpiresIn : Z;
  resp_RefreshToken : string;
  resp_IDToken : string;
  resp_Scope : string
}.
(** The fields of an [AuthResponse] this adapter sets. *)
Record AuthResponse := mkAuthResponse {
  authresp_Code : string;
  authresp_RedirectURI : string;
  authresp_State : string
}.

(** [scope.go] *)
Definition ScopeContains (scope s : string) : bool :=
  bool_decide (s ∈ strings_Split " "%char scope).

(** ** The adapter

    [ad_logger] tells whether the logger was set: without it the first log
    line panics.  [ad_apps] is the application repository, if any. *)
Record adapter := mkAdapter {
  ad_logger : bool;
  ad_apps : option (string -> res error Application);
  ad_jwtSecret : string;
  ad_idKey : option string
}.

(** The adapter the HTTP server builds: [NewOAuthHandlers] sets neither the
    logger, nor the secret, nor the key of the identity tokens. *)
Definition NewOAuthHandlers (apps : string -> res error Application) : adapter :=
  mkAdapter false (Some apps) "" None.

(** What a request draws from outside the program. *)
Record oracle := mkOracle {
  or_marshal : gmap string string -> string;
  or_unmarshal : string -> option (gmap string any);
  or_s256 : string -> string;
  or_signHS256 : string -> gmap string any -> res error string;
  or_signRS256 : string -> gmap string any -> res error string;
  or_parse : string -> string -> res error (gmap string any)
}.

Record oworld (R C : Type) := mkOWorld { ow_users : R; ow_redis : C; ow_errors : errvars }.
Arguments mkOWorld {R C}.
Arguments ow_users {R C}.
Arguments ow_redis {R C}.
Arguments ow_errors {R C}.

Section OAuth.
Context `{IdentityRepository R} `{Redis C} (a : adapter) (o : oracle).
Notation oa A := (prog (oworld R C) error A).

Definition on_users {A} (m : prog R error A) : oa A :=
  zoom ow_users (fun r w => mkOWorld r (ow_redis w) (ow_errors w)) m.
Definition on_cache {A} (m : prog C error A) : oa A :=
  zoom ow_redis (fun c w => mkOWorld (ow_users w) c (ow_errors w)) m.
Definition on_vars (f : errvars -> errvars) : oa unit :=
  modify (fun w => mkOWorld (ow_users w) (ow_redis w) (f (ow_errors w))).

(** [return nil, Err.WithDetails({"error": msg})] and [Err.WithCause(err)] *)
Definition deny_details {A} (code msg : string) : oa A :=
  on_vars (fun vs => WithDetails vs code {[ "error" := msg ]}) ;; throw (Sentinel code).
Definition deny_cause {A} (code : string) (err : error) : oa A :=
  on_vars (fun vs => WithCause vs code err) ;; throw (Sentinel code).
Definition or_deny {A} (code : string) (m : oa A) : oa A :=
  answer ← try m;
  match answer with inl err => deny_cause code err | inr x => mret x end.

(** [a.logger.Info(...)] *)
Definition log_line : oa unit := if ad_logger a then mret () else lift Panic.

(** A missing key of a map of strings reads as the empty string. *)
Definition credential (credentials : gmap string string) (key : string) : string :=
  default "" (credentials !! key).

(** [data[key].(string)] *)
Definition as_string (data : gmap string any) (key : string) : oa string :=
  match data !! key with Some (AnyString s) => mret s | _ => lift Panic end.

Definition get_application (clientID : string) : oa Application :=
  match ad_apps a with
  | None => lift Panic
  | Some apps => or_deny ErrInvalidClient (lift (apps clientID))
  end.

Definition authCodeTTL : Z := 10 * Minute.
Definition refreshTokenTTL : Z := 7 * 24 * Hour.

(** The record stored with a code. *)
Definition auth_code_data (credentials : gmap string string) : gmap string string :=
  let c := credential credentials in
  <["user_id" := c "user_id"]> (<["client_id" := c "client_id"]>
  (<["redirect_uri" := c "redirect_uri"]> (<["code_challenge" := c "code_challenge"]>
  (<["challenge_method" := c "code_challenge_method"]> (<["scope" := c "scope"]>
  (<["nonce" := c "nonce"]> ∅)))))).

Definition HandleAuthRequest (now : time) (code : string) (credentials : gmap string string) :
    oa AuthResponse :=
  let c := credential credentials in
  match ad_apps a with
  | None => lift Panic
  | Some _ =>
      log_line ;;
      if negb (bool_decide (c "response_type" = "code"))
      then deny_details ErrInvalidRequest "unsupported response_type"
      else
        app ← get_application (c "client_id");
        match app_ProtocolConfig app !! "redirect_uris" with
        | Some (AnyStrings redirectURIs) =>
            if negb (bool_decide (c "redirect_uri" ∈ redirectURIs))
            then deny_details ErrInvalidRequest "invalid redirect_uri"
            else if bool_decide (app_ClientType app = ClientTypePublic) &&
                    (bool_decide (c "code_challenge" = "") || bool_decide (c "code_challenge_method" = ""))
            then deny_details ErrInvalidRequest "public clients must use pkce"
            else
              or_deny ErrInternal (on_cache (r_Set now ("authcode:" +:+ code)
                (or_marshal o (auth_code_data credentials)) authCodeTTL)) ;;
              mret (mkAuthResponse code (c "redirect_uri") (c "state"))
        | _ => deny_details ErrInvalidClient "invalid client configuration"
        end
  end.

(** *** Tokens *)
Definition unix (t : time) : Z := t / Second.

(** The claims on the user that the scope asks for. *)
Definition scope_claims (user : option User) (scope : string) (claims : gmap string any) :
    res error (gmap string any) :=
  claims ← (if ScopeContains scope "email" then
              match user with
              | None => Panic
              | Some u => Ok (<["email" := AnyString (user_Email u)]>
                              (<["email_verified" := AnyBool (bool_decide (user_Status u = UserStatusActive))]> claims))
              end
            else Ok claims);
  if ScopeContains scope "profile" then
    match user with
    | None => Panic
    | Some u => Ok (<["name" := default AnyNil (user_Attributes u !! "name")]> claims)
    end
  else Ok claims.

Definition generateAccessToken (now : time) (user : option User) (scope : string) : res error string :=
  let claims := <["exp" := AnyInt (unix (now + Hour))]> (<["iat" := AnyInt (unix now)]>
                 (<["scope" := AnyString scope]> ∅)) in
  let claims := match user with Some u => <["sub" := AnyString (user_ID u)]> claims | None => claims end in
  claims ← scope_claims user scope claims;
  or_signHS256 o (ad_jwtSecret a) claims.

(** Signing with the nil key panics. *)
Definition generateIDToken (now : time) (u : User) (scope nonce clientID : string) : res error string :=
  let claims := <["iss" := AnyString "https://localhost:8080"]> (<["sub" := AnyString (user_ID u)]>
                 (<["aud" := AnyString clientID]> (<["exp" := AnyInt (unix (now + Hour))]>
                 (<["iat" := AnyInt (unix now)]> (<["nonce" := AnyString nonce]> ∅))))) in
  claims ← scope_claims (Some u) scope claims;
  match ad_idKey a with
  | None => Panic
  | Some key => or_signRS256 o key claims
  end.

Definition refresh_token_data (u : User) (scope clientID : string) : gmap string string :=
  <["user_id" := user_ID u]> (<["scope" := scope]> (<["client_id" := clientID]> ∅)).

Definition generateTokens (now : time) (refreshToken : string) (user : option User)
    (scope nonce clientID : string) : oa TokenResponse :=
  accessToken ← lift (generateAccessToken now user scope);
  (match user with
   | None => mret ()
   | Some u => or_deny ErrInternal (on_cache (r_Set now ("refresh_token:" +:+ refreshToken)
                 (or_marshal o (refresh_token_data u scope clientID)) refreshTokenTTL))
   end) ;;
  idToken ← match user with
            | Some u => if ScopeContains scope "openid"
                        then lift (generateIDToken now u scope nonce clientID) else mret ""
            | None => mret ""
            end;
  mret (mkTokenResponse accessToken "Bearer" 3600 refreshToken idToken scope).

(** Deleting a key; a failure is logged. *)
Definition delete_key (key : string) : oa unit :=
  deleted ← try (on_cache (r_Del key));
  match deleted with inl _ => log_line | inr _ => mret () end.

(** The user behind an identifier. *)
Definition get_user (id : string) : oa User :=
  p ← or_deny ErrInternal (on_users (ir_GetUserByID id));
  on_users (ir_read p).

(** A value that is not JSON leaves the nil map. *)
Definition decoded (val : string) : gmap string any := default ∅ (or_unmarshal o val).

Definition handleAuthorizationCode (now : time) (refresh : string) (request : TokenRequest) :
    oa TokenResponse :=
  val ← or_deny ErrInvalidGrant (on_cache (r_Get now ("authcode:" +:+ req_Code request)));
  let data := decoded val in
  challenge ← as_string data "code_challenge";
  challengeMethod ← as_string data "challenge_method";
  if negb (VerifyPKCE (or_s256 o) (req_CodeVerifier request) challenge challengeMethod)
  then deny_details ErrInvalidGrant "pkce verification failed"
  else
    delete_key ("authcode:" +:+ req_Code request) ;;
    userID ← as_string data "user_id";
    user ← get_user userID;
    scope ← as_string data "scope";
    nonce ← as_string data "nonce";
    clientID ← as_string data "client_id";
    generateTokens now refresh (Some user) scope nonce clientID.

Definition handleRefreshToken (now : time) (refresh : string) (request : TokenRequest) :
    oa TokenResponse :=
  val ← or_deny ErrInvalidGrant (on_cache (r_Get now ("refresh_token:" +:+ req_RefreshToken request)));
  let data := decoded val in
  userID ← as_string data "user_id";
  user ← get_user userID;
  delete_key ("refresh_token:" +:+ req_RefreshToken request) ;;
  scope ← as_string data "scope";
  clientID ← as_string data "client_id";
  generateTokens now refresh (Some user) scope "" clientID.

Definition handleClientCredentials (now : time) (refresh : string) (request : TokenRequest) :
    oa TokenResponse :=
  app ← get_application (req_ClientID request);
  match app_ProtocolConfig app !! "client_secret" with
  | Some (AnyString clientSecret) =>
      if negb (bool_decide (clientSecret = req_ClientSecret request))
      then deny_details ErrInvalidClient "invalid client_secret"
      else generateTokens now refresh None "" "" (req_ClientID request)
  | _ => deny_details ErrInvalidClient "invalid client configuration"
  end.

Definition HandleTokenRequest (now : time) (refresh : string) (request : TokenRequest) : oa TokenResponse :=
  if bool_decide (GrantType request = "authorization_code")
  then handleAuthorizationCode now refresh request
  else if bool_decide (GrantType request = "refresh_token") then handleRefreshToken now refresh request
  else if bool_decide (GrantType request = "client_credentials")
  then handleClientCredentials now refresh request
  else throw (Sentinel ErrUnsupportedGrantType).

(** *** User info (oidc.go), under the secret of the adapter *)
Definition GetUserInfo (accessToken : string) : oa (gmap string any) :=
  claims ← or_deny ErrInvalidToken (lift (or_parse o (ad_jwtSecret a) accessToken));
  userID ← as_string claims "sub";
  p ← or_deny ErrUserNotFound (on_users (ir_GetUserByID userID));
  user ← on_users (ir_read p);
  scope ← as_string claims "scope";
  let claim key := default AnyNil (claims !! key) in
  let info := <["sub" := AnyString (user_ID user)]> ∅ in
  let info := if ScopeContains scope "profile" then <["name" := claim "name"]> info else info in
  mret (if ScopeContains scope "email"
        then <["email" := claim "email"]> (<["email_verified" := claim "email_verified"]> info)
        else info).

(** *** The HTTP handlers

    Without a session the authorization endpoint authorizes the user
    [test_user]; the answer is the address to redirect to. *)
Definition authorize_credentials (query : string -> string) : gmap string string :=
  <["response_type" := query "response_type"]> (<["client_id" := query "client_id"]>
  (<["redirect_uri" := query "redirect_uri"]> (<["scope" := query "scope"]>
  (<["state" := query "state"]> (<["code_challenge" := query "code_challenge"]>
  (<["code_challenge_method" := query "code_challenge_method"]>
  (<["user_id" := "test_user"]> ∅))))))).

Definition Authorize_endpoint (now : time) (code : string) (query : string -> string) : oa string :=
  resp ← HandleAuthRequest now code (authorize_credentials query);
  mret (authresp_RedirectURI resp +:+ "?code=" +:+ authresp_Code resp +:+ "&state=" +:+ authresp_State resp).

Definition Token_endpoint (now : time) (refresh : string) (form : string -> string) : oa TokenResponse :=
  HandleTokenRequest now refresh (mkTokenRequest (form "grant_type") (form "code") (form "redirect_uri")
    (form "client_id") (form "client_secret") (form "code_verifier") (form "refresh_token") "" "").
End OAuth.

(** ** Runs *)
Section Runs.
Context `{IdentityRepository R} `{RedisLaws C} (a : adapter) (o : oracle).
Notation W := (oworld R C).
Notation oa A := (prog W error A).
Implicit Types (w : W) (u : User).

(** Decoding inverts encoding, and the two keys sign. *)
Hypothesis unmarshal_marshal : forall m, or_unmarshal o (or_marshal o m) = Some (AnyString <$> m).
Hypothesis access_signs : forall claims, exists t, or_signHS256 o (ad_jwtSecret a) claims = Ok t.
Hypothesis id_signs : exists key, ad_idKey a = Some key /\
  forall claims, exists t, or_signRS256 o key claims = Ok t.

(** The repository finds the user, and reading changes nothing. *)
Definition has_user (r : R) (id : string) (u : User) : Prop :=
  exists p, ir_GetUserByID id r = (Ok p, r) /\ ir_read p r = (Ok u, r).

Definition with_redis w (c : C) : W := mkOWorld (ow_users w) c (ow_errors w).

Lemma on_cache_ok {A} (m : prog C error A) w x c :
  m (ow_redis w) = (Ok x, c) -> on_cache m w = (Ok x, with_redis w c).
Proof. intros Hm. unfold on_cache, zoom. by rewrite Hm. Qed.

Lemma or_deny_ok {A B} code (m : oa A) (k : A -> oa B) w x w' :
  m w = (Ok x, w') -> (or_deny code m ≫= k) w = k x w'.
Proof. intros Hm. unfold or_deny, mbind, prog_bind, try. by rewrite Hm. Qed.

Lemma or_deny_err {A B} code (m : oa A) (k : A -> oa B) w err w' :
  m w = (Err err, w') -> (or_deny code m ≫= k) w =
    (Err (Sentinel code), mkOWorld (ow_users w') (ow_redis w') (WithCause (ow_errors w') code err)).
Proof. intros Hm. unfold or_deny, mbind, prog_bind, try. by rewrite Hm. Qed.

Lemma get_key t key w :
  on_cache (r_Get t key) w =
    (match kv (ow_redis w) t key with Some v => Ok v | None => Err redis_Nil end, w).
Proof. unfold on_cache, zoom. rewrite law_Get. by destruct w. Qed.

Lemma get_user_run {A} id u w (k : User -> oa A) :
  has_user (ow_users w) id u -> (get_user id ≫= k) w = k u w.
Proof.
  intros (p & Hget & Hread). unfold get_user. rewrite prog_assoc.
  assert (Hg : on_users (ir_GetUserByID id) w = (Ok p, w)).
  { unfold on_users, zoom. rewrite Hget. by destruct w. }
  rewrite (or_deny_ok _ _ _ _ _ _ Hg). unfold on_users, zoom, mbind, prog_bind. rewrite Hread.
  by destruct w.
Qed.

Lemma as_string_run {A} data key v w (k : string -> oa A) :
  data !! key = Some (AnyString v) -> (as_string data key ≫= k) w = k v w.
Proof. intros Hd. unfold as_string. by rewrite Hd. Qed.

(** Deleting a key succeeds; the log is not needed. *)
Lemma delete_key_run key w :
  exists c', delete_key a key w = (Ok (), with_redis w c') /\
    forall t k, kv c' t k = if decide (key = k) then None else kv (ow_redis w) t k.
Proof.
  destruct (law_Del (ow_redis w) key) as (c' & Hdel & Hkv & _). exists c'. split; [|done].
  unfold delete_key, on_cache, zoom, mbind, prog_bind, try. by rewrite Hdel.
Qed.

Lemma scope_claims_user u scope claims :
  exists claims', scope_claims (Some u) scope claims = Ok claims' /\
    forall k, k <> "email" -> k <> "email_verified" -> k <> "name" -> claims' !! k = claims !! k.
Proof.
  unfold scope_claims. destruct (ScopeContains scope "email"), (ScopeContains scope "profile");
    cbn; eexists; (split; [done|]); intros; by rewrite ?lookup_insert_ne by done.
Qed.

(** What the access token says. *)
Definition access_claims (now : time) (sub : option string) (scope : string) (claims : gmap string any) : Prop :=
  claims !! "sub" = AnyString <$> sub /\ claims !! "scope" = Some (AnyString scope) /\
  claims !! "exp" = Some (AnyInt (unix (now + Hour))).

Lemma access_run now u scope :
  exists token claims, generateAccessToken a o now (Some u) scope = Ok token /\
    or_signHS256 o (ad_jwtSecret a) claims = Ok token /\ access_claims now (Some (user_ID u)) scope claims.
Proof.
  unfold generateAccessToken.
  match goal with |- context [scope_claims _ _ ?c] =>
    destruct (scope_claims_user u scope c) as (claims & Hclaims & Hsame) end.
  destruct (access_signs claims) as [token Hsign]. exists token, claims. rewrite Hclaims.
  split; [done|]. split; [done|]. unfold access_claims. rewrite !Hsame by done.
  by simplify_map_eq.
Qed.

Lemma id_run now u scope nonce clientID :
  exists token, generateIDToken a o now u scope nonce clientID = Ok token.
Proof.
  unfold generateIDToken.
  match goal with |- context [scope_claims _ _ ?c] =>
    destruct (scope_claims_user u scope c) as (claims & Hclaims & _) end.
  rewrite Hclaims. destruct id_signs as (key & Hkey & Hsigns). destruct (Hsigns claims) as [token Hsign].
  exists token. cbn. by rewrite Hkey.
Qed.

(** Issuing the tokens of a user: the refresh token is stored for a week and
    nothing else changes. *)
Lemma tokens_run now refresh u scope nonce clientID w :
  exists resp claims c', generateTokens a o now refresh (Some u) scope nonce clientID w =
      (Ok resp, with_redis w c') /\
    or_signHS256 o (ad_jwtSecret a) claims = Ok (resp_AccessToken resp) /\
    access_claims now (Some (user_ID u)) scope claims /\
    resp_Scope resp = scope /\ resp_RefreshToken resp = refresh /\
    forall t k, kv c' t k = if decide ("refresh_token:" +:+ refresh = k)
      then (if lives now refreshTokenTTL t then Some (or_marshal o (refresh_token_data u scope clientID)) else None)
      else kv (ow_redis w) t k.
Proof.
  destruct (access_run now u scope) as (token & claims & Hacc & Hsign & Hclaims).
  destruct (law_Set (ow_redis w) now ("refresh_token:" +:+ refresh)
    (or_marshal o (refresh_token_data u scope clientID)) refreshTokenTTL) as (c' & Hset & Hkv & _).
  destruct (id_run now u scope nonce clientID) as [id Hid].
  exists (mkTokenResponse token "Bearer" 3600 refresh (if ScopeContains scope "openid" then id else "") scope),
    claims, c'.
  split; [|done]. unfold generateTokens. rewrite Hacc, prog_lift_bind.
  rewrite (or_deny_ok _ _ _ _ _ _ (on_cache_ok _ _ _ _ Hset)).
  destruct (ScopeContains scope "openid"); [by rewrite Hid|done].
Qed.
End Runs.

(** ** Properties *)
Section Properties.
Context `{IdentityRepository R} `{RedisLaws C} (a : adapter) (o : oracle).
Notation W := (oworld R C).
Implicit Types (w : W) (u : User).
Hypothesis unmarshal_marshal : forall m, or_unmarshal o (or_marshal o m) = Some (AnyString <$> m).

Lemma decoded_marshal m : decoded o (or_marshal o m) = AnyString <$> m.
Proof. unfold decoded. by rewrite unmarshal_marshal. Qed.

(** A code is stored with the record of the request for ten minutes. *)
Definition code_stored w now code credentials : Prop :=
  forall t, now <= t -> kv (ow_redis w) t ("authcode:" +:+ code) =
    if bool_decide (t < now + authCodeTTL) then Some (or_marshal o (auth_code_data credentials)) else None.

Lemma lives_until now ttl t : 0 < ttl -> lives now ttl t = bool_decide (t < now + ttl).
Proof. intros. unfold lives. by rewrite (bool_decide_eq_false_2 (ttl = 0)) by lia. Qed.

(** Redeeming: the code is looked up, then the verifier is checked. *)
Lemma redeem_run now t code credentials refresh req w :
  code_stored w now code credentials -> now <= t -> req_Code req = code ->
  handleAuthorizationCode a o t refresh req w =
    if bool_decide (t < now + authCodeTTL) then
      if VerifyPKCE (or_s256 o) (req_CodeVerifier req) (credential credentials "code_challenge")
           (credential credentials "code_challenge_method")
      then (delete_key a ("authcode:" +:+ code) ;;
            user ← get_user (credential credentials "user_id");
            generateTokens a o t refresh (Some user) (credential credentials "scope")
              (credential credentials "nonce") (credential credentials "client_id")) w
      else (Err (Sentinel ErrInvalidGrant), mkOWorld (ow_users w) (ow_redis w)
             (WithDetails (ow_errors w) ErrInvalidGrant {[ "error" := "pkce verification failed" ]}))
    else (Err (Sentinel ErrInvalidGrant), mkOWorld (ow_users w) (ow_redis w)
           (WithCause (ow_errors w) ErrInvalidGrant redis_Nil)).
Proof.
  intros Hcode Ht Hreq. unfold handleAuthorizationCode. rewrite Hreq.
  pose proof (get_key t ("authcode:" +:+ code) w) as Hget. rewrite (Hcode t Ht) in Hget.
  case_bool_decide as Hlive.
  - rewrite (or_deny_ok _ _ _ _ _ _ Hget). rewrite decoded_marshal.
    rewrite (as_string_run _ "code_challenge" (credential credentials "code_challenge"))
      by (rewrite lookup_fmap; unfold auth_code_data; by simplify_map_eq).
    rewrite (as_string_run _ "challenge_method" (credential credentials "code_challenge_method"))
      by (rewrite lookup_fmap; unfold auth_code_data; by simplify_map_eq).
    destruct (VerifyPKCE _ _ _ _); cbn [negb]; [|by destruct w].
    apply prog_bind_ext. intros [] w1.
    rewrite (as_string_run _ "user_id" (credential credentials "user_id"))
      by (rewrite lookup_fmap; unfold auth_code_data; by simplify_map_eq).
    apply prog_bind_ext. intros u w2.
    rewrite (as_string_run _ "scope" (credential credentials "scope"))
      by (rewrite lookup_fmap; unfold auth_code_data; by simplify_map_eq).
    rewrite (as_string_run _ "nonce" (credential credentials "nonce"))
      by (rewrite lookup_fmap; unfold auth_code_data; by simplify_map_eq).
    by rewrite (as_string_run _ "client_id" (credential credentials "client_id"))
      by (rewrite lookup_fmap; unfold auth_code_data; by simplify_map_eq).
  - by rewrite (or_deny_err _ _ _ _ _ _ Hget).
Qed.

(** The outcome of the authorization endpoint, when Redis answers. *)
Definition authorization (apps : string -> res error Application) (c : string -> string) :
    res error unit :=
  if negb (bool_decide (c "response_type" = "code")) then Err (Sentinel ErrInvalidRequest)
  else match apps (c "client_id") with
       | Ok app =>
           match app_ProtocolConfig app !! "redirect_uris" with
           | Some (AnyStrings uris) =>
               if bool_decide (c "redirect_uri" ∈ uris) &&
                  (negb (bool_decide (app_ClientType app = ClientTypePublic)) ||
                   negb (bool_decide (c "code_challenge" = "")) &&
                   negb (bool_decide (c "code_challenge_method" = "")))
               then Ok () else Err (Sentinel ErrInvalidRequest)
           | _ => Err (Sentinel ErrInvalidClient)
           end
       | Err _ => Err (Sentinel ErrInvalidClient)
       | Panic => Panic
       | Diverge => Diverge
       end.

(** The authorization endpoint issues a code exactly when the response type
    is [code], the client exists, its redirect addresses contain the one
    requested, and a public client sent a challenge and a method; the code is
    then stored with the request for ten minutes, and otherwise nothing is
    stored.  Neither the status of the application nor the challenge method is
    looked at, and redirect addresses that were decoded from JSON, which are
    not a slice of strings, refuse every request. *)
Theorem authorization_decides now code credentials apps w :
  ad_logger a = true -> ad_apps a = Some apps ->
  let c := credential credentials in
  exists w', HandleAuthRequest a o now code credentials w =
    (match authorization apps c with
     | Ok _ => Ok (mkAuthResponse code (c "redirect_uri") (c "state"))
     | Err e => Err e | Panic => Panic | Diverge => Diverge
     end, w') /\
    ow_users w' = ow_users w /\
    (forall x, authorization apps c = Ok x -> code_stored w' now code credentials) /\
    ((forall x, authorization apps c <> Ok x) -> ow_redis w' = ow_redis w) /\
    (forall app l, apps (c "client_id") = Ok app ->
       app_ProtocolConfig app !! "redirect_uris" = Some (AnyList l) ->
       authorization apps c <> Ok ()).
Proof.
  intros Hlog Happs c. unfold HandleAuthRequest. rewrite Happs.
  unfold log_line. rewrite Hlog. change (mret () ≫= ?k) with (k ()). cbv beta. fold c.
  assert (Hlist : forall app l, apps (c "client_id") = Ok app ->
    app_ProtocolConfig app !! "redirect_uris" = Some (AnyList l) -> authorization apps c <> Ok ()).
  { intros app l Happ Hl. unfold authorization. case_bool_decide; cbn [negb]; [|done].
    by rewrite Happ, Hl. }
  unfold authorization in *.
  case_bool_decide as Htype; cbn [negb] in *.
  2:{ eexists. split; [done|]. split; [done|]. split; [done|]. by split. }
  unfold get_application. rewrite Happs.
  destruct (apps (c "client_id")) as [app|err| |] eqn:Happ.
  2-4: eexists; split; [done|]; split; [done|]; split; [done|]; by split.
  rewrite (or_deny_ok _ _ _ w app w) by done.
  destruct (app_ProtocolConfig app !! "redirect_uris") as [[| | | | | |uris| | |]|] eqn:Huris.
  all: try (eexists; split; [done|]; split; [done|]; split; [done|]; by split).
  destruct (bool_decide_reflect (c "redirect_uri" ∈ uris)) as [Hin|Hin]; cbn [negb andb] in *.
  2:{ eexists. split; [done|]. split; [done|]. split; [done|]. by split. }
  assert (Hneg : forall b1 b2 b3 : bool, b1 && (b2 || b3) = negb (negb b1 || negb b2 && negb b3))
    by by intros [] [] [].
  rewrite Hneg. destruct (negb (bool_decide (app_ClientType app = ClientTypePublic)) || _) eqn:Hpkce;
    cbn [negb] in *.
  2:{ eexists. split; [done|]. split; [done|]. split; [done|]. by split. }
  destruct (law_Set (ow_redis w) now ("authcode:" +:+ code)
    (or_marshal o (auth_code_data credentials)) authCodeTTL) as (c' & Hset & Hkv & _).
  rewrite (or_deny_ok _ _ _ _ _ _ (on_cache_ok _ _ _ _ Hset)).
  eexists. split; [done|]. split; [done|]. split; [|split; [|done]].
  - intros x _ t Ht. cbn [ow_redis with_redis]. rewrite Hkv, decide_True by done.
    rewrite lives_until by done. by case_bool_decide.
  - intros Hno. by destruct (Hno ()).
Qed.

Hypothesis access_signs : forall claims, exists t, or_signHS256 o (ad_jwtSecret a) claims = Ok t.
Hypothesis id_signs : exists key, ad_idKey a = Some key /\
  forall claims, exists t, or_signRS256 o key claims = Ok t.

(** C11: within ten minutes a code is exchanged, by whoever presents a verifier
    that matches the challenge, for tokens of the user and the scope the code
    was issued for - the client, its secret and the redirect address of the
    token request have no influence -, and then it is gone; a wrong verifier
    is refused and leaves the code usable; after ten minutes it is refused; and
    a code that was requested without one of the two challenge methods cannot
    be redeemed at all. *)
Theorem code_exchange now t code credentials u refresh req w :
  code_stored w now code credentials -> now <= t ->
  has_user (ow_users w) (credential credentials "user_id") u ->
  GrantType req = "authorization_code" -> req_Code req = code ->
  let method := credential credentials "code_challenge_method" in
  let valid := VerifyPKCE (or_s256 o) (req_CodeVerifier req) (credential credentials "code_challenge") method in
  let run := HandleTokenRequest a o t refresh req w in
  (valid = true -> t < now + authCodeTTL ->
     exists resp claims w', run = (Ok resp, w') /\
       or_signHS256 o (ad_jwtSecret a) claims = Ok (resp_AccessToken resp) /\
       access_claims t (Some (user_ID u)) (credential credentials "scope") claims /\
       resp_Scope resp = credential credentials "scope" /\
       forall t' refresh' req', GrantType req' = "authorization_code" -> req_Code req' = code ->
         (HandleTokenRequest a o t' refresh' req' w').1 = Err (Sentinel ErrInvalidGrant)) /\
  (valid = false \/ now + authCodeTTL <= t ->
     run.1 = Err (Sentinel ErrInvalidGrant) /\ ow_redis run.2 = ow_redis w) /\
  (method <> "S256" -> method <> "plain" -> run.1 = Err (Sentinel ErrInvalidGrant)).
Proof.
  intros Hcode Ht Huser Hgrant Hreq method valid run.
  assert (Hrun : run = handleAuthorizationCode a o t refresh req w).
  { unfold run, HandleTokenRequest. by rewrite Hgrant. }
  rewrite (redeem_run now t code credentials refresh req w Hcode Ht Hreq) in Hrun.
  fold method valid in Hrun. split; [|split].
  - intros Hvalid Hlive. rewrite Hvalid, bool_decide_eq_true_2 in Hrun by done.
    destruct (delete_key_run a ("authcode:" +:+ code) w) as (c1 & Hdel & Hkv1).
    rewrite (prog_bind_run _ _ _ _ _ Hdel) in Hrun.
    rewrite (get_user_run _ u (with_redis w c1)) in Hrun by done.
    destruct (tokens_run a o access_signs id_signs t refresh u
      (credential credentials "scope") (credential credentials "nonce") (credential credentials "client_id")
      (with_redis w c1)) as (resp & claims & c2 & Htok & Hsign & Hclaims & Hscope & _ & Hkv2).
    exists resp, claims, (with_redis (with_redis w c1) c2). rewrite Hrun.
    do 4 (split; [done|]). intros t' refresh' req' Hg' Hc'.
    unfold HandleTokenRequest. rewrite Hg'. cbn [bool_decide]. rewrite bool_decide_eq_true_2 by done.
    unfold handleAuthorizationCode. rewrite Hc'.
    rewrite (or_deny_err _ _ _ (with_redis (with_redis w c1) c2) redis_Nil (with_redis (with_redis w c1) c2));
      [done|].
    rewrite get_key. cbn [ow_redis with_redis]. rewrite Hkv2.
    rewrite decide_False by discriminate. cbn [ow_redis with_redis]. by rewrite Hkv1, decide_True.
  - intros Hno. rewrite Hrun. case_bool_decide as Hlive; [|done].
    destruct Hno as [Hno|?]; [|lia]. by rewrite Hno.
  - intros H1' H2'. rewrite Hrun. case_bool_decide; [|done].
    assert (valid = false) as ->; [|done].
    unfold valid, VerifyPKCE. by rewrite !bool_decide_eq_false_2.
Qed.

(** A refresh token is exchanged once for new tokens of the same user,
    client and scope, by whoever presents it - the client does not have to
    authenticate -, and the token it was exchanged for is stored for a week. *)
Theorem refresh_exchange now t token refresh uid scope clientID u req w :
  (forall t, now <= t -> t < now + refreshTokenTTL ->
     kv (ow_redis w) t ("refresh_token:" +:+ token) =
       Some (or_marshal o (<["user_id" := uid]> (<["scope" := scope]> (<["client_id" := clientID]> ∅))))) ->
  now <= t < now + refreshTokenTTL -> has_user (ow_users w) uid u -> token <> refresh ->
  GrantType req = "refresh_token" -> req_RefreshToken req = token ->
  exists resp claims w', HandleTokenRequest a o t refresh req w = (Ok resp, w') /\
    or_signHS256 o (ad_jwtSecret a) claims = Ok (resp_AccessToken resp) /\
    access_claims t (Some (user_ID u)) scope claims /\ resp_RefreshToken resp = refresh /\
    (forall t', kv (ow_redis w') t' ("refresh_token:" +:+ refresh) =
       if bool_decide (t' < t + refreshTokenTTL)
       then Some (or_marshal o (refresh_token_data u scope clientID)) else None) /\
    (forall t' refresh' req', GrantType req' = "refresh_token" -> req_RefreshToken req' = token ->
       (HandleTokenRequest a o t' refresh' req' w').1 = Err (Sentinel ErrInvalidGrant)).
Proof.
  intros Hstored Ht Huser Hne Hgrant Hreq.
  unfold HandleTokenRequest. rewrite Hgrant. cbn [bool_decide].
  rewrite bool_decide_eq_false_2, bool_decide_eq_true_2 by done.
  unfold handleRefreshToken. rewrite Hreq.
  pose proof (get_key t ("refresh_token:" +:+ token) w) as Hget. rewrite Hstored in Hget by lia.
  rewrite (or_deny_ok _ _ _ _ _ _ Hget), decoded_marshal.
  rewrite (as_string_run _ "user_id" uid) by (rewrite lookup_fmap; by simplify_map_eq).
  rewrite (get_user_run _ u w) by done.
  destruct (delete_key_run a ("refresh_token:" +:+ token) w) as (c1 & Hdel & Hkv1).
  rewrite (prog_bind_run _ _ _ _ _ Hdel).
  rewrite (as_string_run _ "scope" scope) by (rewrite lookup_fmap; by simplify_map_eq).
  rewrite (as_string_run _ "client_id" clientID) by (rewrite lookup_fmap; by simplify_map_eq).
  destruct (tokens_run a o access_signs id_signs t refresh u scope "" clientID
    (with_redis w c1)) as (resp & claims & c2 & Htok & Hsign & Hclaims & Hscope & Hrefresh & Hkv2).
  exists resp, claims, (with_redis (with_redis w c1) c2). do 4 (split; [done|]). split.
  - intros t'. cbn [ow_redis with_redis]. rewrite Hkv2, decide_True by done.
    rewrite lives_until by done. by case_bool_decide.
  - intros t' refresh' req' Hg' Hc'. rewrite Hg'. cbn [bool_decide].
    rewrite bool_decide_eq_false_2, bool_decide_eq_true_2 by done. rewrite Hc'.
    rewrite (or_deny_err _ _ _ (with_redis (with_redis w c1) c2) redis_Nil (with_redis (with_redis w c1) c2));
      [done|].
    rewrite get_key. cbn [ow_redis with_redis]. rewrite Hkv2. rewrite decide_False.
    + cbn [ow_redis with_redis]. by rewrite Hkv1, decide_True.
    + intros Heq. by apply (inj (String.append "refresh_token:")) in Heq.
Qed.

(** Client credentials: the right secret is answered with an access token
    without a subject and without the scope that was asked for, and with a
    refresh token that was never stored, so that it can not be used; a wrong
    secret is refused; and asking for the user information with the access
    token panics. *)
Theorem client_credentials_decides t refresh apps app secret req w :
  ad_apps a = Some apps -> apps (req_ClientID req) = Ok app ->
  app_ProtocolConfig app !! "client_secret" = Some (AnyString secret) ->
  GrantType req = "client_credentials" ->
  (forall t', kv (ow_redis w) t' ("refresh_token:" +:+ refresh) = None) ->
  let run := HandleTokenRequest a o t refresh req w in
  (req_ClientSecret req <> secret -> run.1 = Err (Sentinel ErrInvalidClient)) /\
  (req_ClientSecret req = secret ->
     exists resp claims, run = (Ok resp, w) /\
       or_signHS256 o (ad_jwtSecret a) claims = Ok (resp_AccessToken resp) /\
       access_claims t None "" claims /\ resp_Scope resp = "" /\
       (forall t' refresh' req', GrantType req' = "refresh_token" ->
          req_RefreshToken req' = resp_RefreshToken resp ->
          (HandleTokenRequest a o t' refresh' req' w).1 = Err (Sentinel ErrInvalidGrant)) /\
       (or_parse o (ad_jwtSecret a) (resp_AccessToken resp) = Ok claims ->
        (GetUserInfo a o (resp_AccessToken resp) w).1 = Panic)).
Proof.
  intros Happs Happ Hsecret Hgrant Hfree run.
  assert (Hrun : run = handleClientCredentials a o t refresh req w).
  { unfold run, HandleTokenRequest. by rewrite Hgrant. }
  unfold handleClientCredentials, get_application in Hrun. rewrite Happs in Hrun.
  rewrite (or_deny_ok _ _ _ w app w) in Hrun by (unfold lift; by rewrite Happ). rewrite Hsecret in Hrun.
  split; intros Hs; rewrite Hrun; [by rewrite bool_decide_eq_false_2|].
  rewrite bool_decide_eq_true_2 by done. cbn [negb].
  set (claims := <["exp" := AnyInt (unix (t + Hour))]> (<["iat" := AnyInt (unix t)]>
                 (<["scope" := AnyString ""]> (∅ : gmap string any)))).
  destruct (access_signs claims) as [token Hsign].
  exists (mkTokenResponse token "Bearer" 3600 refresh "" ""), claims.
  split; [|split; [done|split; [|split; [done|split]]]].
  - unfold generateTokens, generateAccessToken, scope_claims.
    change (ScopeContains "" "email") with false. change (ScopeContains "" "profile") with false.
    cbn [mbind res_bind]. fold claims. by rewrite Hsign.
  - unfold access_claims, claims. by simplify_map_eq.
  - intros t' refresh' req' Hg' Hr'. cbn [resp_RefreshToken] in Hr'. unfold HandleTokenRequest. rewrite Hg'.
    rewrite bool_decide_eq_false_2, bool_decide_eq_true_2 by done. unfold handleRefreshToken. rewrite Hr'.
    rewrite (or_deny_err _ _ _ w redis_Nil w); [done|]. rewrite get_key. by rewrite Hfree.
  - cbn [resp_AccessToken]. intros Hparse. unfold GetUserInfo.
    rewrite (or_deny_ok _ _ _ w claims w) by (unfold lift; by rewrite Hparse).
    unfold as_string. assert (claims !! "sub" = None) as -> by (unfold claims; by simplify_map_eq). done.
Qed.
End Properties.

(** The adapter the HTTP server builds cannot authorize anybody: it has no
    logger, so that every request of the authorization endpoint panics; and the
    access tokens it does sign, for client credentials, are signed with the
    empty secret. *)
Theorem server_adapter_unusable `{IdentityRepository R} `{Redis C} o apps :
  let a := NewOAuthHandlers apps in
  (forall now code query (w : oworld R C), (Authorize_endpoint a o now code query w).1 = Panic) /\
  (forall now user scope token, generateAccessToken a o now user scope = Ok token ->
     exists claims, or_signHS256 o "" claims = Ok token) /\
  (forall now u scope nonce clientID token, generateIDToken a o now u scope nonce clientID <> Ok token).
Proof.
  intros a. split; [done|]. split.
  - intros now user scope token. unfold generateAccessToken. rewrite bind_ok_inv. intros (claims & _ & Hs).
    by exists claims.
  - intros now u scope nonce clientID token. unfold generateIDToken. rewrite bind_ok_inv. by intros (? & _ & ?).
Qed.

(** ** A concrete server *)
Definition demo_app : Application :=
  mkApplication "app1" "shop" "" "inactive" ClientTypePublic "oauth"
    (<["redirect_uris" := AnyStrings ["https://shop/cb"]]> (<["client_secret" := AnyString "s3cret"]> ∅)) 0 0.
Definition demo_apps (id : string) : res error Application :=
  if decide (id = "shop") then Ok demo_app else Err (Sentinel ErrNotFound).
Definition demo_adapter : adapter := mkAdapter true (Some demo_apps) "key" (Some "rsa").
Definition demo_oracle : oracle :=
  mkOracle encode_string (fun s => option_map (fun m : gmap string string => AnyString <$> m) (decode_string s)) (fun v => v)
    (fun _ _ => Ok "access") (fun _ _ => Ok "id") (fun _ _ => Err (Errorf "invalid")).

Lemma demo_oracle_decodes m : or_unmarshal demo_oracle (or_marshal demo_oracle m) = Some (AnyString <$> m).
Proof.
  cbn [or_unmarshal or_marshal demo_oracle]. by rewrite decode_encode_string.
Qed.
Lemma demo_access_signs : forall claims, exists t, or_signHS256 demo_oracle (ad_jwtSecret demo_adapter) claims = Ok t.
Proof. intros claims. by eexists. Qed.
Lemma demo_id_signs : exists key, ad_idKey demo_adapter = Some key /\
  forall claims, exists t, or_signRS256 demo_oracle key claims = Ok t.
Proof. eexists. split; [done|]. intros claims. by eexists. Qed.

#[local] Instance oauth_repository : IdentityRepository identity_repo := memory_repository default_order.

Definition demo_oworld (c : redis_state) : oworld identity_repo redis_state := mkOWorld demo_repo c ∅.
Definition demo_credentials : gmap string string :=
  <["response_type" := "code"]> (<["client_id" := "shop"]> (<["redirect_uri" := "https://shop/cb"]>
  (<["code_challenge" := "v"]> (<["code_challenge_method" := "S256"]> (<["user_id" := "u1"]>
  (<["scope" := "openid email"]> ∅)))))).

Lemma demo_user c : has_user (ow_users (demo_oworld c)) "u1" alice.
Proof. exists 1%positive. split; reflexivity. Defined.

Definition demo_code_redis : redis_state :=
  set_value ("authcode:" +:+ "c1") (encode_string (auth_code_data demo_credentials)) 0 authCodeTTL (mkRedis ∅ ∅).

Lemma demo_code_stored : code_stored demo_oracle (demo_oworld demo_code_redis) 0 "c1" demo_credentials.
Proof.
  intros t Ht. cbn [ow_redis demo_oworld kv memory_redis_laws]. unfold demo_code_redis.
  rewrite rd_kv_set, decide_True by done. rewrite lives_until by done. by case_bool_decide.
Defined.

Lemma authorization_decides_witness :
  exists w', HandleAuthRequest demo_adapter demo_oracle 0 "c1" demo_credentials (demo_oworld (mkRedis ∅ ∅)) =
      (Ok (mkAuthResponse "c1" "https://shop/cb" ""), w') /\
    code_stored demo_oracle w' 0 "c1" demo_credentials.
Proof.
  destruct (authorization_decides demo_adapter demo_oracle 0 "c1" demo_credentials demo_apps
    (demo_oworld (mkRedis ∅ ∅))) as (w' & Hrun & _ & Hstored & _); [reflexivity|reflexivity|].
  exists w'. split; [rewrite Hrun; reflexivity|]. apply (Hstored ()). reflexivity.
Defined.

Definition demo_redeem (verifier : string) : TokenRequest :=
  mkTokenRequest "authorization_code" "c1" "https://evil/cb" "other" "" verifier "" "" "".

Lemma code_exchange_witness :
  (exists resp w', HandleTokenRequest demo_adapter demo_oracle 5 "r1" (demo_redeem "v")
       (demo_oworld demo_code_redis) = (Ok resp, w') /\ resp_Scope resp = "openid email") /\
  (HandleTokenRequest demo_adapter demo_oracle 5 "r1" (demo_redeem "guess") (demo_oworld demo_code_redis)).1 =
    Err (Sentinel ErrInvalidGrant).
Proof.
  split.
  - destruct (code_exchange demo_adapter demo_oracle demo_oracle_decodes demo_access_signs demo_id_signs
      0 5 "c1" demo_credentials alice "r1" (demo_redeem "v") (demo_oworld demo_code_redis)
      demo_code_stored) as [Hok _]; [lia|apply demo_user|reflexivity|reflexivity|].
    destruct Hok as (resp & claims & w' & Hrun & _ & _ & Hscope & _); [reflexivity|reflexivity|].
    exists resp, w'. split; [exact Hrun|exact Hscope].
  - destruct (code_exchange demo_adapter demo_oracle demo_oracle_decodes demo_access_signs demo_id_signs
      0 5 "c1" demo_credentials alice "r1" (demo_redeem "guess") (demo_oworld demo_code_redis)
      demo_code_stored) as (_ & Hno & _); [lia|apply demo_user|reflexivity|reflexivity|].
    apply Hno. left. reflexivity.
Defined.

Definition demo_refresh_redis : redis_state :=
  set_value ("refresh_token:" +:+ "r0") (encode_string (refresh_token_data alice "email" "shop")) 0 refreshTokenTTL
    (mkRedis ∅ ∅).

Lemma refresh_exchange_witness :
  exists resp w', HandleTokenRequest demo_adapter demo_oracle 5 "r1"
      (mkTokenRequest "refresh_token" "" "" "" "" "" "r0" "" "") (demo_oworld demo_refresh_redis) = (Ok resp, w') /\
    resp_RefreshToken resp = "r1" /\
    (HandleTokenRequest demo_adapter demo_oracle 6 "r2"
      (mkTokenRequest "refresh_token" "" "" "" "" "" "r0" "" "") w').1 = Err (Sentinel ErrInvalidGrant).
Proof.
  destruct (refresh_exchange demo_adapter demo_oracle demo_oracle_decodes demo_access_signs demo_id_signs
    0 5 "r0" "r1" "u1" "email" "shop" alice (mkTokenRequest "refresh_token" "" "" "" "" "" "r0" "" "")
    (demo_oworld demo_refresh_redis)) as (resp & claims & w' & Hrun & _ & _ & Hr & _ & Hgone).
  - intros t Ht Hlive. cbn [ow_redis demo_oworld kv memory_redis_laws]. unfold demo_refresh_redis.
    rewrite rd_kv_set, decide_True by done. rewrite lives_until by done. by rewrite bool_decide_eq_true_2.
  - split; [lia|reflexivity].
  - apply demo_user.
  - discriminate.
  - reflexivity.
  - reflexivity.
  - exists resp, w'. split; [exact Hrun|]. split; [exact Hr|]. apply Hgone; reflexivity.
Defined.

Lemma client_credentials_decides_witness :
  exists resp, HandleTokenRequest demo_adapter demo_oracle 5 "r1"
      (mkTokenRequest "client_credentials" "" "" "shop" "s3cret" "" "" "" "admin") (demo_oworld (mkRedis ∅ ∅)) =
      (Ok resp, demo_oworld (mkRedis ∅ ∅)) /\ resp_Scope resp = "".
Proof.
  destruct (client_credentials_decides demo_adapter demo_oracle demo_access_signs 5 "r1" demo_apps demo_app "s3cret"
    (mkTokenRequest "client_credentials" "" "" "shop" "s3cret" "" "" "" "admin") (demo_oworld (mkRedis ∅ ∅)))
    as [_ Hok]; [reflexivity|reflexivity|reflexivity|reflexivity|reflexivity|].
  destruct (Hok eq_refl) as (resp & claims & Hrun & _ & _ & Hscope & _).
  exists resp. split; [exact Hrun|exact Hscope].
Defined.

Lemma server_adapter_unusable_witness :
  (Authorize_endpoint (NewOAuthHandlers demo_apps) demo_oracle 0 "c1" (fun _ => "")
     (demo_oworld (mkRedis ∅ ∅))).1 = Panic.
Proof. apply (server_adapter_unusable demo_oracle demo_apps). Defined.
