(* ===== verification/DeviceFlow.v ===== *)
(** * The device authorization grant, client registration, claims

    - internal/domain/oauth/device_flow_handler.go: a device asks for a pair of
      codes, the user enters one of them, the device polls with the other;
    - internal/domain/oauth/client_registry.go: dynamic client registration;
    - internal/domain/oauth/claims_mapper.go: which claims the scopes give.

    The repositories are classes, of which the repository of the program has no
    implementation; the token service is an argument. *)

From S2P Require Import Prelude Types GoStd OAuth.
From Stdlib Require Import Ascii.
Local Open Scope Z_scope.

(** ** Device codes *)
Record DeviceFlowConfig := mkDeviceFlowConfig {
  DeviceCodeLength : Z;
  UserCodeLength : Z;
  UserCodeCharset : string;
  dfc_ExpiresIn : Z;
  PollingInterval : Z;
  dfc_VerificationURI : string
}.

Record DeviceAuthorizationResponse := mkDeviceResponse {
  resp_DeviceCode : string;
  resp_UserCode : string;
  resp_VerificationURI : string;
  resp_VerificationURIComplete : string;
  resp_DeviceExpiresIn : Z;
  resp_Interval : Z
}.

Record DeviceCodeRecord := mkDeviceCode {
  dc_DeviceCode : string;
  dc_UserCode : string;
  dc_ClientID : string;
  dc_Scope : string;
  dc_Status : string;
  dc_UserID : string;
  dc_ExpiresAt : time;
  dc_CreatedAt : time
}.

Class DeviceCodeRepository (D : Type) := {
  dcr_Create : DeviceCodeRecord -> prog D error unit;
  dcr_GetByDeviceCode : string -> prog D error DeviceCodeRecord;
  dcr_GetByUserCode : string -> prog D error DeviceCodeRecord;
  dcr_UpdateStatus : string -> string -> prog D error unit;
  dcr_MarkUsed : string -> prog D error unit;
  dcr_Update : string -> gmap string any -> prog D error unit
}.

(** The two generators are placeholders. *)
Definition generateSecureCode (length : Z) : string := "temp_device_code".
Definition generateUserFriendlyCode (length : Z) (charset : string) : string := "ABCD-EFGH".

Definition deviceGrantType : string := "urn:ietf:params:oauth:grant-type:device_code".

Section DeviceFlow.
Context `{DeviceCodeRepository D} {Token : Type} (IssueTokens : TokenRequest -> res error Token).
Context (config : DeviceFlowConfig).
Notation df A := (prog D error A).

Definition new_record (now : time) (clientID scope : string) : DeviceCodeRecord :=
  mkDeviceCode (generateSecureCode (DeviceCodeLength config))
    (generateUserFriendlyCode (UserCodeLength config) (UserCodeCharset config))
    clientID scope "pending" "" (now + dfc_ExpiresIn config) zero_time.

Definition HandleDeviceAuthorizationRequest (now : time) (clientID scope : string) :
    df DeviceAuthorizationResponse :=
  let record := new_record now clientID scope in
  stored ← try (dcr_Create record);
  match stored with
  | inl err => throw (Wrapf "failed to store device code: " err)
  | inr _ =>
      mret (mkDeviceResponse (dc_DeviceCode record) (dc_UserCode record) (dfc_VerificationURI config)
              (dfc_VerificationURI config +:+ "?user_code=" +:+ dc_UserCode record)
              (int_of_float (Seconds (dfc_ExpiresIn config))) (PollingInterval config))
  end.

Definition device_token_request (record : DeviceCodeRecord) : TokenRequest :=
  mkTokenRequest deviceGrantType "" "" (dc_ClientID record) "" "" "" (dc_UserID record) (dc_Scope record).

(** [clientID] is not looked at. *)
Definition HandleDeviceTokenRequest (now : time) (deviceCode clientID : string) : df Token :=
  found ← try (dcr_GetByDeviceCode deviceCode);
  match found with
  | inl _ => throw (Sentinel ErrInvalidGrant)
  | inr record =>
      if bool_decide (dc_ExpiresAt record < now) then
        try (dcr_UpdateStatus deviceCode "expired") ;; throw (Sentinel ErrExpiredToken)
      else if bool_decide (dc_Status record = "pending") then throw (Sentinel ErrAuthorizationPending)
      else if bool_decide (dc_Status record = "denied") then throw (Sentinel ErrAccessDenied)
      else if bool_decide (dc_Status record = "authorized") then
        tokens ← lift (IssueTokens (device_token_request record));
        try (dcr_MarkUsed deviceCode) ;;
        mret tokens
      else throw (Sentinel ErrInvalidGrant)
  end.

Definition activation (userID : string) : gmap string any :=
  {[ "status" := AnyString "authorized"; "user_id" := AnyString userID ]}.

Definition ActivateDeviceCode (userCode userID : string) : df unit :=
  found ← try (dcr_GetByUserCode userCode);
  match found with
  | inl err => throw (Wrapf "invalid user code: " err)
  | inr record => dcr_Update (dc_DeviceCode record) (activation userID)
  end.
End DeviceFlow.

(** ** Client registration *)
Record Client := mkClient {
  client_ID : string;
  client_Secret : string;
  client_RedirectURIs : list string;
  client_GrantTypes : list string;
  client_ResponseTypes : list string;
  client_Name : string;
  client_AuthMethod : string
}.

Record ClientMetadata := mkClientMetadata {
  md_RedirectURIs : list string;
  md_GrantTypes : list string;
  md_ResponseTypes : list string;
  md_ClientName : string;
  md_AuthMethod : string
}.

Record ClientRegistryConfig := mkRegistryConfig {
  DefaultGrantTypes : list string;
  DefaultResponseTypes : list string;
  DefaultScopes : list string
}.

Definition generateClientID : string := "temp_client_id".
Definition generateClientSecret : string := "temp_client_secret".

Definition or_default_list (l default : list string) : list string :=
  if bool_decide (length l = 0%nat) then default else l.

Definition RegisterClient {D} (CreateClient : Client -> prog D error unit) (config : ClientRegistryConfig)
    (req : ClientMetadata) : prog D error Client :=
  let client := mkClient generateClientID generateClientSecret (md_RedirectURIs req)
    (or_default_list (md_GrantTypes req) (DefaultGrantTypes config))
    (or_default_list (md_ResponseTypes req) (DefaultResponseTypes config)) (md_ClientName req) (md_AuthMethod req) in
  created ← try (CreateClient client);
  match created with
  | inl err => throw (Wrapf "failed to create client: " err)
  | inr _ => mret client
  end.

(** ** Claims *)
Record MappingRule := mkMappingRule {
  mr_Scope : string;
  mr_Claims : list string;
  mr_Transforms : gmap string string
}.

(** The first byte of the local part is kept. *)
Definition mask_email (v : any) : res error any :=
  match v with
  | AnyString email =>
      match strings_Split "@"%char email with
      | [String c _; domain] => Ok (AnyString (String c ("***@" +:+ domain)))
      | [EmptyString; _] => Panic
      | _ => Ok v
      end
  | _ => Ok v
  end.

(** The transforms by name; there is one. *)
Definition transforms (name : string) : option (any -> res error any) :=
  if bool_decide (name = "mask_email") then Some mask_email else None.

Definition extractUserAttribute (u : User) (claimName : string) : any :=
  if bool_decide (claimName = "email") then AnyString (user_Email u)
  else if bool_decide (claimName = "username") then AnyString (user_Username u)
  else AnyNil.

Definition claim_value (u : User) (rule : MappingRule) (claimName : string) : res error any :=
  let value := extractUserAttribute u claimName in
  match mr_Transforms rule !! claimName with
  | Some name => match transforms name with Some f => f value | None => Ok value end
  | None => Ok value
  end.

Fixpoint map_rule (u : User) (rule : MappingRule) (names : list string) (claims : gmap string any) :
    res error (gmap string any) :=
  match names with
  | [] => Ok claims
  | name :: names => v ← claim_value u rule name; map_rule u rule names (<[name := v]> claims)
  end.

Fixpoint map_rules (u : User) (rules : list MappingRule) (claims : gmap string any) : res error (gmap string any) :=
  match rules with
  | [] => Ok claims
  | rule :: rules => claims ← map_rule u rule (mr_Claims rule) claims; map_rules u rules claims
  end.

Definition findRulesByScope (rules : list MappingRule) (scope : string) : list MappingRule :=
  filter (fun rule => mr_Scope rule = scope) rules.

Fixpoint map_scopes (rules : list MappingRule) (u : User) (scopes : list string) (claims : gmap string any) :
    res error (gmap string any) :=
  match scopes with
  | [] => Ok claims
  | scope :: scopes =>
      claims ← map_rules u (findRulesByScope rules scope) claims; map_scopes rules u scopes claims
  end.

(** Conditions always hold; the subject and the time of issue come last. *)
Definition MapClaims (rules : list MappingRule) (now : time) (u : User) (scopes : list string) :
    res error (gmap string any) :=
  claims ← map_scopes rules u scopes ∅;
  Ok (<["iat" := AnyInt (now / Second)]> (<["sub" := AnyString (user_ID u)]> claims)).

Example mask_example : mask_email (AnyString "test@example.com") = Ok (AnyString "t***@example.com").
Proof. reflexivity. Qed.
Example mask_twice : mask_email (AnyString "a@b@c") = Ok (AnyString "a@b@c").
Proof. reflexivity. Qed.

(** ** What the device flow relies on *)
Definition set_dc_Status (status : string) (r : DeviceCodeRecord) : DeviceCodeRecord :=
  mkDeviceCode (dc_DeviceCode r) (dc_UserCode r) (dc_ClientID r) (dc_Scope r) status (dc_UserID r)
    (dc_ExpiresAt r) (dc_CreatedAt r).
Definition authorized_by (userID : string) (r : DeviceCodeRecord) : DeviceCodeRecord :=
  mkDeviceCode (dc_DeviceCode r) (dc_UserCode r) (dc_ClientID r) (dc_Scope r) "authorized" userID
    (dc_ExpiresAt r) (dc_CreatedAt r).

(** [codes]: the records by device code; a used one is in none of the states
    the handler acts on. *)
Class DeviceCodeLaws (D : Type) `{DeviceCodeRepository D} := {
  codes : D -> gmap string DeviceCodeRecord;
  law_codes_keyed d c r : codes d !! c = Some r -> dc_DeviceCode r = c;
  law_dc_Create d r : codes d !! dc_DeviceCode r = None ->
    exists d', dcr_Create r d = (Ok (), d') /\ codes d' = <[dc_DeviceCode r := r]> (codes d);
  law_dc_Get d c :
    (exists r, codes d !! c = Some r /\ dcr_GetByDeviceCode c d = (Ok r, d)) \/
    (codes d !! c = None /\ exists err, dcr_GetByDeviceCode c d = (Err err, d));
  law_dc_GetByUserCode d uc :
    (exists c r, codes d !! c = Some r /\ dc_UserCode r = uc /\ dcr_GetByUserCode uc d = (Ok r, d)) \/
    ((forall c r, codes d !! c = Some r -> dc_UserCode r <> uc) /\ exists err, dcr_GetByUserCode uc d = (Err err, d));
  law_dc_UpdateStatus d c r s : codes d !! c = Some r ->
    exists d', dcr_UpdateStatus c s d = (Ok (), d') /\ codes d' = <[c := set_dc_Status s r]> (codes d);
  law_dc_MarkUsed d c r : codes d !! c = Some r ->
    exists d' s, dcr_MarkUsed c d = (Ok (), d') /\ codes d' = <[c := set_dc_Status s r]> (codes d) /\
      s ∉ ["pending"; "denied"; "authorized"];
  law_dc_Update d c r userID : codes d !! c = Some r ->
    exists d', dcr_Update c (activation userID) d = (Ok (), d') /\ codes d' = <[c := authorized_by userID r]> (codes d)
}.

Section DeviceFlowFacts.
Context `{DeviceCodeLaws D} {Token : Type} (IssueTokens : TokenRequest -> res error Token).
Implicit Types (d : D) (r : DeviceCodeRecord).

Lemma get_code d c {A} (k : error + DeviceCodeRecord -> prog D error A) r :
  codes d !! c = Some r -> (try (dcr_GetByDeviceCode c) ≫= k) d = k (inr r) d.
Proof.
  intros Hc. destruct (law_dc_Get d c) as [(r' & Hr & Hrun)|[Hnone _]]; [|congruence].
  assert (r' = r) as -> by congruence. unfold try, mbind, prog_bind. by rewrite Hrun.
Qed.

(** What a poll answers, by the state of the record. *)
Definition poll (now : time) (r : DeviceCodeRecord) : res error Token :=
  if bool_decide (dc_ExpiresAt r < now) then Err (Sentinel ErrExpiredToken)
  else if bool_decide (dc_Status r = "pending") then Err (Sentinel ErrAuthorizationPending)
  else if bool_decide (dc_Status r = "denied") then Err (Sentinel ErrAccessDenied)
  else if bool_decide (dc_Status r = "authorized") then IssueTokens (device_token_request r)
  else Err (Sentinel ErrInvalidGrant).

Lemma poll_run now c clientID d r :
  codes d !! c = Some r ->
  exists d', HandleDeviceTokenRequest IssueTokens now c clientID d = (poll now r, d') /\
    (if bool_decide (dc_ExpiresAt r < now) then codes d' = <[c := set_dc_Status "expired" r]> (codes d)
     else if is_ok (poll now r)
     then exists s, s ∉ ["pending"; "denied"; "authorized"] /\ codes d' = <[c := set_dc_Status s r]> (codes d)
     else d' = d).
Proof.
  intros Hc. unfold HandleDeviceTokenRequest, poll. rewrite (get_code d c _ r Hc).
  case_bool_decide.
  { destruct (law_dc_UpdateStatus d c r "expired" Hc) as (d' & Hrun & Hcodes). exists d'. split; [|done].
    unfold try, mbind, prog_bind. by rewrite Hrun. }
  case_bool_decide; [by exists d|]. case_bool_decide; [by exists d|]. case_bool_decide; [|by exists d].
  destruct (IssueTokens (device_token_request r)) as [tokens|err| |] eqn:Hissue; [|by exists d..].
  destruct (law_dc_MarkUsed d c r Hc) as (d' & s & Hrun & Hcodes & Hs). exists d'. split; [|by exists s].
  unfold try, lift, mbind, prog_bind. by rewrite Hrun.
Qed.

(** Activating the only record with the user code. *)
Lemma activate_run d c r userID :
  codes d !! c = Some r -> (forall c' r', codes d !! c' = Some r' -> dc_UserCode r' = dc_UserCode r -> c' = c) ->
  exists d', ActivateDeviceCode (dc_UserCode r) userID d = (Ok (), d') /\
    codes d' = <[c := authorized_by userID r]> (codes d).
Proof.
  intros Hc Huniq. unfold ActivateDeviceCode.
  destruct (law_dc_GetByUserCode d (dc_UserCode r)) as [(c' & r' & Hc' & Huc & Hrun)|[Hno _]]; [|by destruct (Hno c r Hc)].
  rewrite (Huniq c' r' Hc' Huc) in Hc'. assert (r' = r) as -> by congruence.
  destruct (law_dc_Update d c r userID Hc) as (d' & Hupd & Hcodes). exists d'. split; [|done].
  unfold try, mbind, prog_bind. rewrite Hrun. by rewrite (law_codes_keyed d c r Hc).
Qed.

(** The store of one code. *)
Definition only d r : Prop := codes d = {[ dc_DeviceCode r := r ]}.

Lemma only_poll now clientID d r :
  only d r -> exists d', HandleDeviceTokenRequest IssueTokens now (dc_DeviceCode r) clientID d = (poll now r, d') /\
    (if bool_decide (dc_ExpiresAt r < now) then only d' (set_dc_Status "expired" r)
     else if is_ok (poll now r) then exists s, s ∉ ["pending"; "denied"; "authorized"] /\ only d' (set_dc_Status s r)
     else d' = d).
Proof.
  intros Hd. destruct (poll_run now (dc_DeviceCode r) clientID d r) as (d' & Hrun & Hd').
  { rewrite Hd. apply lookup_singleton_eq. }
  exists d'. split; [done|]. unfold only in *. case_bool_decide; [by rewrite Hd', Hd, insert_singleton_eq|].
  destruct (is_ok _); [|done]. destruct Hd' as (s & Hs & Hd'). exists s. by rewrite Hd', Hd, insert_singleton_eq.
Qed.

Lemma only_activate userID d r :
  only d r -> exists d', ActivateDeviceCode (dc_UserCode r) userID d = (Ok (), d') /\ only d' (authorized_by userID r).
Proof.
  intros Hd. destruct (activate_run d (dc_DeviceCode r) r userID) as (d' & Hrun & Hd').
  - rewrite Hd. apply lookup_singleton_eq.
  - intros c' r2. rewrite Hd. by intros [-> _]%lookup_singleton_Some.
  - exists d'. split; [done|]. unfold only in *. by rewrite Hd', Hd, insert_singleton_eq.
Qed.

Lemma poll_authorized now r userID tokens :
  dc_ExpiresAt r >= now -> IssueTokens (device_token_request (authorized_by userID r)) = Ok tokens ->
  poll now (authorized_by userID r) = Ok tokens.
Proof.
  intros Hexp Hissue. unfold poll. cbn [dc_ExpiresAt dc_Status authorized_by].
  rewrite bool_decide_eq_false_2 by lia. exact Hissue.
Qed.

Lemma poll_used now r s :
  dc_ExpiresAt r >= now -> s ∉ ["pending"; "denied"; "authorized"] ->
  poll now (set_dc_Status s r) = Err (Sentinel ErrInvalidGrant).
Proof.
  intros Hexp Hs. unfold poll. cbn [dc_ExpiresAt dc_Status set_dc_Status].
  rewrite bool_decide_eq_false_2 by lia.
  by rewrite !bool_decide_eq_false_2 by (intros ->; apply Hs; apply (bool_decide_unpack _); vm_compute; exact I).
Qed.

(** The device fetches its tokens: they are given once. *)
Lemma only_fetch now clientID d r userID tokens :
  only d (authorized_by userID r) -> now <= dc_ExpiresAt r ->
  IssueTokens (device_token_request (authorized_by userID r)) = Ok tokens ->
  exists d' s, HandleDeviceTokenRequest IssueTokens now (dc_DeviceCode r) clientID d = (Ok tokens, d') /\
    only d' (set_dc_Status s (authorized_by userID r)) /\
    (HandleDeviceTokenRequest IssueTokens now (dc_DeviceCode r) clientID d').1 = Err (Sentinel ErrInvalidGrant).
Proof.
  intros Hd Hexp Hissue. destruct (only_poll now clientID d (authorized_by userID r) Hd) as (d' & Hrun & Hd').
  rewrite (poll_authorized now r userID tokens) in Hrun, Hd' by (done || lia). cbn [is_ok] in Hd'.
  cbn [dc_ExpiresAt authorized_by] in Hd'. rewrite bool_decide_eq_false_2 in Hd' by lia.
  destruct Hd' as (s & Hs & Hd'). exists d', s. split; [exact Hrun|]. split; [exact Hd'|].
  destruct (only_poll now clientID d' _ Hd') as (d2 & Hrun2 & _).
  rewrite (poll_used now (authorized_by userID r) s) in Hrun2 by (done || (cbn; lia)).
  cbn [dc_DeviceCode set_dc_Status authorized_by] in Hrun2. by rewrite Hrun2.
Qed.
End DeviceFlowFacts.

(** ** Properties *)

(** C22: The grant from end to end, while no other code is stored: the device is
    told to wait until the user has entered the code, gets the tokens for its
    client, its scope and that user at most once - whoever names the device code
    - and nothing after the expiry.  But a code that was used can be entered
    again, and then gives tokens again; and the codes are the same for
    everybody. *)
Theorem device_grant `{DeviceCodeLaws D} {Token} (IssueTokens : TokenRequest -> res error Token) config now t
    clientID scope userID userID2 poller tokens tokens2 (d : D) :
  codes d = ∅ -> t <= now + dfc_ExpiresIn config ->
  let request u := mkTokenRequest deviceGrantType "" "" clientID "" "" "" u scope in
  IssueTokens (request userID) = Ok tokens -> IssueTokens (request userID2) = Ok tokens2 ->
  exists a d0, HandleDeviceAuthorizationRequest config now clientID scope d = (Ok a, d0) /\
    resp_DeviceCode a = generateSecureCode 0 /\ resp_UserCode a = generateUserFriendlyCode 0 "" /\
    let token u := HandleDeviceTokenRequest IssueTokens u (resp_DeviceCode a) poller in
    let activate u := ActivateDeviceCode (resp_UserCode a) u in
    token t d0 = (Err (Sentinel ErrAuthorizationPending), d0) /\
    exists d1 d2 d3 d4, activate userID d0 = (Ok (), d1) /\
      (forall t', now + dfc_ExpiresIn config < t' -> (token t' d1).1 = Err (Sentinel ErrExpiredToken)) /\
      token t d1 = (Ok tokens, d2) /\ (token t d2).1 = Err (Sentinel ErrInvalidGrant) /\
      activate userID2 d2 = (Ok (), d3) /\ token t d3 = (Ok tokens2, d4).
Proof.
  intros Hempty Ht request Hissue Hissue2. set (r := new_record config now clientID scope).
  destruct (law_dc_Create d r) as (d0 & Hcreate & Hc0); [by rewrite Hempty|]. rewrite Hempty, insert_empty in Hc0.
  assert (Hexp : t <= dc_ExpiresAt r) by done.
  destruct (only_poll IssueTokens t poller d0 r Hc0) as (d0' & Hpoll & Hd0).
  assert (Hpending : poll IssueTokens t r = Err (Sentinel ErrAuthorizationPending)).
  { unfold poll. rewrite bool_decide_eq_false_2 by lia. by rewrite bool_decide_eq_true_2. }
  rewrite Hpending in Hpoll, Hd0. rewrite bool_decide_eq_false_2 in Hd0 by lia. cbn [is_ok] in Hd0. subst d0'.
  destruct (only_activate userID d0 r Hc0) as (d1 & Hact1 & Hd1).
  destruct (only_fetch IssueTokens t poller d1 r userID tokens Hd1 Hexp Hissue) as (d2 & s & Hfetch & Hd2 & Hagain).
  destruct (only_activate userID2 d2 _ Hd2) as (d3 & Hact2 & Hd3).
  destruct (only_fetch IssueTokens t poller d3 r userID2 tokens2 Hd3 Hexp Hissue2) as (d4 & s2 & Hfetch2 & _).
  exists (mkDeviceResponse (dc_DeviceCode r) (dc_UserCode r) (dfc_VerificationURI config)
    (dfc_VerificationURI config +:+ "?user_code=" +:+ dc_UserCode r)
    (int_of_float (Seconds (dfc_ExpiresIn config))) (PollingInterval config)), d0.
  split; [unfold HandleDeviceAuthorizationRequest, try, mbind, prog_bind; fold r; by rewrite Hcreate|].
  split; [done|]. split; [done|]. cbn [resp_DeviceCode resp_UserCode]. split; [exact Hpoll|].
  exists d1, d2, d3, d4. split; [exact Hact1|]. split; [|by auto].
  intros t' Ht'. destruct (only_poll IssueTokens t' poller d1 _ Hd1) as (d' & Hrun & _). cbn [dc_DeviceCode authorized_by] in Hrun.
  rewrite Hrun. unfold poll. by rewrite bool_decide_eq_true_2.
Qed.

(** ** Claims *)

(** The claims the scopes ask for, in order, with the rule of each. *)
Definition requested (rules : list MappingRule) (scopes : list string) : list (string * MappingRule) :=
  scopes ≫= fun scope => findRulesByScope rules scope ≫= fun rule => (fun name => (name, rule)) <$> mr_Claims rule.

Fixpoint map_requested (u : User) (l : list (string * MappingRule)) (claims : gmap string any) :
    res error (gmap string any) :=
  match l with
  | [] => Ok claims
  | (name, rule) :: l => v ← claim_value u rule name; map_requested u l (<[name := v]> claims)
  end.

Lemma map_requested_app u l l' claims :
  map_requested u (l ++ l') claims = (claims ← map_requested u l claims; map_requested u l' claims).
Proof.
  revert claims. induction l as [|[name rule] l IH]; intros claims; [done|]. cbn.
  destruct (claim_value u rule name); cbn; [apply IH|done..].
Qed.

Lemma map_rule_requested u rule names claims :
  map_rule u rule names claims = map_requested u ((fun name => (name, rule)) <$> names) claims.
Proof.
  revert claims. induction names as [|name names IH]; intros claims; [done|]. cbn.
  by destruct (claim_value u rule name); cbn.
Qed.

Lemma map_rules_requested u rules claims :
  map_rules u rules claims =
    map_requested u (rules ≫= fun rule => (fun name => (name, rule)) <$> mr_Claims rule) claims.
Proof.
  revert claims. induction rules as [|rule rules IH]; intros claims; [done|]. cbn.
  rewrite map_requested_app, map_rule_requested. by destruct (map_requested _ _ claims); cbn.
Qed.

Lemma map_scopes_requested rules u scopes claims :
  map_scopes rules u scopes claims = map_requested u (requested rules scopes) claims.
Proof.
  revert claims. induction scopes as [|scope scopes IH]; intros claims; [done|]. cbn [map_scopes requested].
  unfold requested. cbn. rewrite map_requested_app, map_rules_requested. by destruct (map_requested _ _ claims); cbn.
Qed.

(** The rule that was applied last for a claim. *)
Definition last_rule (name : string) (l : list (string * MappingRule)) : option MappingRule :=
  snd <$> last (filter (fun p => p.1 = name) l).

Lemma last_cons_default {A} (x : A) l : last (x :: l) = Some (default x (last l)).
Proof. by rewrite last_cons; destruct (last l). Qed.

Lemma map_requested_lookup u l claims claims' name :
  map_requested u l claims = Ok claims' ->
  match last_rule name l with
  | Some rule => exists v, claim_value u rule name = Ok v /\ claims' !! name = Some v
  | None => claims' !! name = claims !! name
  end.
Proof.
  revert claims. induction l as [|[n rule] l IH]; intros claims; [by intros [= <-]|]. cbn [map_requested].
  destruct (claim_value u rule n) as [v| | |] eqn:Hv; cbn; [|done..]. intros Hrest. specialize (IH _ Hrest).
  unfold last_rule in *. rewrite filter_cons. cbn [fst]. case_decide as Hn.
  - subst n. rewrite last_cons_default. cbn. destruct (last (filter _ l)) as [[n' r']|]; cbn in *; [done|].
    exists v. split; [done|]. by rewrite IH, lookup_insert_eq.
  - destruct (last (filter _ l)) as [[n' r']|]; cbn in *; [done|]. by rewrite IH, lookup_insert_ne.
Qed.

(** An email with nothing before its only at-sign cannot be masked. *)
Definition masked_in_vain (u : User) (p : string * MappingRule) : Prop :=
  mr_Transforms p.2 !! p.1 = Some "mask_email" /\
  exists c v, extractUserAttribute u p.1 = AnyString v /\ strings_Split "@"%char v = [""; c].

Lemma claim_value_answers u rule name :
  (exists v, claim_value u rule name = Ok v /\ ~ masked_in_vain u (name, rule)) \/
  (claim_value u rule name = Panic /\ masked_in_vain u (name, rule)).
Proof.
  unfold claim_value, masked_in_vain. cbn [fst snd]. destruct (mr_Transforms rule !! name) as [t|]; [|by left; eexists; split; [|intros [? _]]].
  unfold transforms. case_bool_decide as Ht; [subst t|left; eexists; split; [done|]; by intros [[= ->] _]].
  destruct (extractUserAttribute u name) as [| | | | |email| | | |] eqn:Hv;
    try (left; eexists; split; [done|]; intros (_ & c & v & ? & _); congruence).
  cbn [mask_email]. destruct (strings_Split "@"%char email) as [|a [|b [|]]] eqn:Hs;
    try (left; eexists; split; [done|]; intros (_ & c & v & [= <-] & ?); congruence).
  - left. destruct a; (eexists; split; [done|]; intros (_ & c & v & [= <-] & ?); congruence).
  - destruct a as [|c a].
    + right. split; [done|]. split; [done|]. by exists b, email.
    + left. eexists. split; [done|]. intros (_ & c' & v & [= <-] & ?). congruence.
  - left. destruct a; (eexists; split; [done|]; intros (_ & c & v & [= <-] & ?); congruence).
Qed.

(** The claims of a token: the subject is always the user and the time of issue
    the present one, whatever the rules say; every other claim is there exactly
    when a rule of one of the scopes lists it, with the value the last such rule
    gives it.  Mapping panics exactly when an email without a local part is to
    be masked. *)
Theorem claims_decides rules now u scopes :
  let asked := requested rules scopes in
  match MapClaims rules now u scopes with
  | Ok claims =>
      claims !! "sub" = Some (AnyString (user_ID u)) /\ claims !! "iat" = Some (AnyInt (now / Second)) /\
      (forall name, name <> "sub" -> name <> "iat" ->
         match last_rule name asked with
         | Some rule => exists v, claim_value u rule name = Ok v /\ claims !! name = Some v
         | None => claims !! name = None
         end) /\
      Forall (fun p => ~ masked_in_vain u p) asked
  | Panic => Exists (masked_in_vain u) asked
  | _ => False
  end.
Proof.
  intros asked. unfold MapClaims. rewrite map_scopes_requested. fold asked.
  assert (Hans : forall l claims, match map_requested u l claims with
    | Ok _ => Forall (fun p => ~ masked_in_vain u p) l | Panic => Exists (masked_in_vain u) l | _ => False end).
  { induction l as [|[name rule] l IH]; intros claims; cbn; [constructor|].
    destruct (claim_value_answers u rule name) as [(v & -> & Hno)|[-> Hvain]]; cbn; [|by constructor].
    specialize (IH (<[name:=v]> claims)). destruct (map_requested u l _); try done; [by constructor|by right]. }
  specialize (Hans asked ∅). destruct (map_requested u asked ∅) as [claims| | |] eqn:Hmap; cbn; [|done..].
  split; [by rewrite lookup_insert_ne, lookup_insert_eq by done|]. split; [apply lookup_insert_eq|]. split; [|done].
  intros name Hsub Hiat. rewrite !lookup_insert_ne by done.
  pose proof (map_requested_lookup u asked ∅ claims name Hmap) as Hl. by destruct (last_rule name asked).
Qed.

(** ** A reference repository: the records written, the last first *)
Definition code_map (d : list DeviceCodeRecord) : gmap string DeviceCodeRecord :=
  list_to_map ((fun r => (dc_DeviceCode r, r)) <$> d).
Definition with_code (c : string) (f : DeviceCodeRecord -> DeviceCodeRecord) : prog (list DeviceCodeRecord) error unit :=
  fun d => match code_map d !! c with
           | Some r => (Ok (), f r :: d)
           | None => (Err (Sentinel ErrNotFound), d)
           end.
Definition apply_updates (updates : gmap string any) (r : DeviceCodeRecord) : DeviceCodeRecord :=
  let text k old := match updates !! k with Some (AnyString s) => s | _ => old end in
  mkDeviceCode (dc_DeviceCode r) (dc_UserCode r) (dc_ClientID r) (dc_Scope r) (text "status" (dc_Status r))
    (text "user_id" (dc_UserID r)) (dc_ExpiresAt r) (dc_CreatedAt r).

#[export] Instance code_log : DeviceCodeRepository (list DeviceCodeRecord) := {
  dcr_Create r d := match code_map d !! dc_DeviceCode r with
                    | None => (Ok (), r :: d)
                    | Some _ => (Err (Sentinel ErrConflict), d)
                    end;
  dcr_GetByDeviceCode c d := (match code_map d !! c with Some r => Ok r | None => Err (Sentinel ErrNotFound) end, d);
  dcr_GetByUserCode uc d :=
    (match List.find (fun p => bool_decide (dc_UserCode p.2 = uc)) (map_to_list (code_map d)) with
     | Some p => Ok p.2
     | None => Err (Sentinel ErrNotFound)
     end, d);
  dcr_UpdateStatus c s := with_code c (set_dc_Status s);
  dcr_MarkUsed c := with_code c (set_dc_Status "used");
  dcr_Update c updates := with_code c (apply_updates updates)
}.

Lemma code_map_keyed d c r : code_map d !! c = Some r -> dc_DeviceCode r = c.
Proof.
  intros Hc%elem_of_list_to_map_2. apply list_elem_of_fmap in Hc as (r' & [= -> ->] & _). done.
Qed.

Lemma with_code_run c f d r :
  code_map d !! c = Some r -> dc_DeviceCode (f r) = dc_DeviceCode r ->
  with_code c f d = (Ok (), f r :: d) /\ code_map (f r :: d) = <[c := f r]> (code_map d).
Proof.
  intros Hc Hf. unfold with_code. rewrite Hc. split; [done|]. unfold code_map. cbn.
  by rewrite Hf, (code_map_keyed _ _ _ Hc).
Qed.

#[export] Instance code_log_laws : DeviceCodeLaws (list DeviceCodeRecord).
Proof.
  refine {| codes := code_map |}.
  - apply code_map_keyed.
  - intros d r Hr. exists (r :: d). cbn. by rewrite Hr.
  - intros d c. cbn. destruct (code_map d !! c) as [r|]; [left; by exists r|right; split; [done|by eexists]].
  - intros d uc. cbn. destruct (List.find _ _) as [[c r]|] eqn:Hfind.
    + left. apply List.find_some in Hfind as [Hin Huc]. apply bool_decide_eq_true in Huc.
      exists c, r. split; [|done]. apply elem_of_map_to_list. by apply list_elem_of_In.
    + right. split; [|by eexists]. intros c r Hc Huc.
      assert (Hin : List.In (c, r) (map_to_list (code_map d))) by (by apply list_elem_of_In, elem_of_map_to_list).
      pose proof (List.find_none _ _ Hfind (c, r) Hin) as Hno. by apply bool_decide_eq_false in Hno.
  - intros d c r s Hc. eexists. by apply with_code_run.
  - intros d c r Hc. eexists _, "used". destruct (with_code_run c (set_dc_Status "used") d r Hc eq_refl) as [H1 H2].
    split; [exact H1|]. split; [exact H2|]. apply (bool_decide_unpack _). vm_compute. exact I.
  - intros d c r u Hc. eexists. by apply (with_code_run c (apply_updates (activation u))).
Defined.

(** ** Examples *)
Definition demo_flow : DeviceFlowConfig := mkDeviceFlowConfig 32 8 "BCDFG" (900 * Second) 5 "https://id.example.org/device".
Definition demo_tokens (r : TokenRequest) : res error string := Ok ("tokens of " +:+ req_UserID r +:+ " for " +:+ req_ClientID r).

Lemma demo_no_codes : codes ([] : list DeviceCodeRecord) = ∅.
Proof. reflexivity. Defined.

Lemma device_grant_witness :
  exists a d0, HandleDeviceAuthorizationRequest demo_flow 0 "tv" "openid" ([] : list DeviceCodeRecord) = (Ok a, d0) /\
    resp_DeviceExpiresIn a = 900 /\
    exists d1 d2, ActivateDeviceCode "ABCD-EFGH" "alice" d0 = (Ok (), d1) /\
      HandleDeviceTokenRequest demo_tokens (60 * Second) "temp_device_code" "other" d1 = (Ok "tokens of alice for tv", d2).
Proof.
  destruct (device_grant demo_tokens demo_flow 0 (60 * Second) "tv" "openid" "alice" "bob" "other"
    "tokens of alice for tv" "tokens of bob for tv" ([] : list DeviceCodeRecord) demo_no_codes ltac:(by vm_compute) eq_refl eq_refl)
    as (a & d0 & Ha & Hdc & Huc & Hrest). rewrite Hdc, Huc in Hrest.
  destruct Hrest as (_ & d1 & d2 & d3 & d4 & Hact & _ & Hfetch & _).
  exists a, d0. split; [exact Ha|]. split; [|exists d1, d2; split; [exact Hact|exact Hfetch]].
  vm_compute in Ha. injection Ha as <- _. by vm_compute.
Defined.

Definition demo_email_rule : MappingRule := mkMappingRule "email" ["email"] {[ "email" := "mask_email" ]}.
Lemma claims_decides_witness :
  (exists claims, MapClaims [demo_email_rule] Second (new_user "u1" "joe" "joe@example.org" "" "active") ["openid"; "email"] =
     Ok claims /\ claims !! "email" = Some (AnyString "j***@example.org")) /\
  MapClaims [demo_email_rule] 0 (new_user "u1" "joe" "@example.org" "" "active") ["email"] = Panic /\
  Exists (masked_in_vain (new_user "u1" "joe" "@example.org" "" "active")) (requested [demo_email_rule] ["email"]).
Proof.
  split; [eexists; split; by vm_compute|]. split; [by vm_compute|].
  exact (claims_decides [demo_email_rule] 0 (new_user "u1" "joe" "@example.org" "" "active") ["email"]).
Defined.
