(* ===== verification/MFA.v ===== *)
(** * Multi-factor authentication

    - internal/auth/mfa: the one-time codes sent by mail or SMS
      ([OTPProvider]), the TOTP provider, the recovery codes and the manager;
    - pkg/utils/crypto.go: how codes are drawn from random bytes;
    - internal/domain/auth/mfa_policy.go: [MFAPolicy].

    The TOTP library, encryption, hashing, JSON and random bytes are arguments.
    Redis keeps the codes ([SETEX] is a [SET] with a lifetime); factors live in
    a repository of which the in-memory one is an instance. *)

From S2P Require Import Prelude Types GoStd MemPolicy Redis.
From Stdlib Require Import Ascii SpecFloat.
Local Open Scope Z_scope.

(** ** Codes from random bytes *)

(** [charset[b % byte(len(charset))]], for every byte *)
Definition pick (charset : string) (b : Z) : ascii :=
  default "0"%char (String.get (Z.to_nat (b mod Z.of_nat (String.length charset))) charset).
Definition code_of (charset : string) (bytes : list Z) : string :=
  foldr (fun b s => String (pick charset b) s) "" bytes.

Definition digits : string := "0123456789".
Definition letters : string := "0123456789ABCDEFGHIJKLMNOPQRSTUVWXYZ".

(** [make([]byte, n)] and [rand.Read] *)
Definition random_bytes (rand : Z -> res error (list Z)) (n : Z) : res error (list Z) :=
  if bool_decide (n < 0) then Panic else rand n.

Definition generateRandomNumberString (rand : Z -> res error (list Z)) (length : Z) : res error string :=
  bytes ← random_bytes rand length;
  Ok (code_of digits bytes).

Definition generateSingleRecoveryCode (rand : Z -> res error (list Z)) : res error string :=
  bytes ← random_bytes rand 8;
  Ok (code_of letters bytes).

(** Ten codes; [rand i] are the random bytes of the i-th. *)
Fixpoint generate_codes (n : nat) (rand : nat -> Z -> res error (list Z)) : res error (list string) :=
  match n with
  | O => Ok []
  | S n =>
      code ← generateSingleRecoveryCode (rand O);
      codes ← generate_codes n (fun i => rand (S i));
      Ok (code :: codes)
  end.
Definition GenerateRecoveryCodes (rand : nat -> Z -> res error (list Z)) : res error (list string) :=
  generate_codes 10 rand.

(** ** One-time codes (otp_provider.go) *)
Record OTPConfig := mkOTPConfig { otp_TTL : Z; otp_Length : Z }.

Record Message := mkMessage {
  msg_Recipient : string;
  msg_Subject : string;
  msg_Body : string;
  msg_Type : string
}.

(** A notifier answers whether the message was sent. *)
Notation Notifier := (Message -> res error unit).

Record mworld (C : Type) := mkMWorld { mw_redis : C; mw_sent : list Message }.
Arguments mkMWorld {C}.
Arguments mw_redis {C}.
Arguments mw_sent {C}.

Section OTP.
Context `{Redis C} (manager : option (string -> res error Notifier)) (config : OTPConfig).
Context (rand : Z -> res error (list Z)) (now : time).
Notation otp A := (prog (mworld C) error A).

Definition on_otp_redis {A} (m : prog C error A) : otp A :=
  zoom mw_redis (fun c w => mkMWorld c (mw_sent w)) m.

Definition otpKey (userID : string) : string := "mfa:otp:" +:+ userID.

(** [fmt.Errorf("...: %w", err)] *)
Definition wrap_err {A} (msg : string) (m : otp A) : otp A :=
  answer ← try m;
  match answer with inl err => throw (Wrapf msg err) | inr x => mret x end.

Definition otp_message (target code : string) : Message :=
  mkMessage target "Your OTP Code"
    ("Your One-Time Password is: <b>" +:+ code +:+ "</b>. It expires in " +:+
     pretty (int_of_float (Minutes (otp_TTL config))) +:+ " minutes.") "otp".

(** The nil manager panics. *)
Definition otp_Challenge (userID target method : string) : otp string :=
  notifier ← match manager with
             | None => lift Panic
             | Some m => wrap_err ("failed to get notifier for method " +:+ method +:+ ": ") (lift (m method))
             end;
  code ← wrap_err "failed to generate OTP: " (lift (generateRandomNumberString rand (otp_Length config)));
  wrap_err "failed to store OTP in Redis: "
    (on_otp_redis (r_Set now (otpKey userID) code (otp_TTL config))) ;;
  let msg := otp_message target code in
  modify (fun w => mkMWorld (mw_redis w) (mw_sent w ++ [msg])) ;;
  wrap_err "failed to send OTP notification: " (lift (notifier msg)) ;;
  mret "".

Definition otp_Verify (userID code : string) : otp bool :=
  storedCode ← wrap_err "failed to retrieve OTP from Redis (might be expired): "
                 (on_otp_redis (r_Get now (otpKey userID)));
  if bool_decide (storedCode = code) then
    try (on_otp_redis (r_Del (otpKey userID))) ;; mret true
  else mret false.
End OTP.

(** ** Factors *)
Class FactorRepository (F : Type) := {
  fr_Create : MFAFactor -> prog F error unit;
  fr_GetByUserID : string -> prog F error (list MFAFactor);
  fr_Update : MFAFactor -> prog F error unit
}.

(** [uuid.New] depends on what is stored only in that it is none of it. *)
Definition memory_factors (parse : string -> option string) (ord : map_order)
    (uuid : factor_repo -> string) : FactorRepository factor_repo := {|
  fr_Create f := r ← get; CreateMFAFactor (uuid r) f ;; mret ();
  fr_GetByUserID := GetMFAFactorsByUserID parse ord;
  fr_Update := UpdateMFAFactor
|}.

(** What the providers use of the crypto manager and the TOTP library. *)
Record mfa_oracle := mkMFAOracle {
  mo_totp_Generate : string -> res error (string * string);
  mo_totp_Validate : string -> string -> bool;
  mo_Encrypt : string -> res error string;
  mo_Decrypt : string -> res error string;
  mo_parse_uuid : string -> option string;
  mo_rand : nat -> Z -> res error (list Z);
  mo_Hash : string -> res error string;
  mo_Check : string -> string -> bool;
  mo_marshal : list string -> string;
  mo_unmarshal : string -> option (list string)
}.

Record MFAEnrollment := mkMFAEnrollment { en_Secret : string; en_URL : string }.
Record MFAMethod := mkMFAMethod { meth_ID : string; meth_Type : string }.

Section Factors.
Context `{FactorRepository F} (o : mfa_oracle).
Notation fm A := (prog F error A).

Definition wrap_factor {A} (msg : string) (m : fm A) : fm A :=
  answer ← try m;
  match answer with inl err => throw (Wrapf msg err) | inr x => mret x end.

(** *** totp_provider.go *)
Definition pending_factor (userID secret : string) : MFAFactor :=
  mkMFAFactor uuid_Nil userID "totp" "pending" "" "" secret "" "" "" None 0 0.

Definition totp_Enroll (user : User) : fm MFAEnrollment :=
  key ← wrap_factor "failed to generate TOTP key: " (lift (mo_totp_Generate o (user_Username user)));
  encryptedSecret ← wrap_factor "failed to encrypt TOTP secret: " (lift (mo_Encrypt o key.1));
  match mo_parse_uuid o (user_ID user) with
  | None => throw (Wrapf "invalid user ID: " (Errorf "uuid"))
  | Some userID =>
      wrap_factor "failed to save MFA factor: " (fr_Create (pending_factor userID encryptedSecret)) ;;
      mret (mkMFAEnrollment key.1 key.2)
  end.

(** A secret that cannot be decrypted is skipped. *)
Fixpoint totp_any (code : string) (factors : list MFAFactor) : res error bool :=
  match factors with
  | [] => Ok false
  | factor :: factors =>
      if bool_decide (factor_Type factor = "totp") then
        match mo_Decrypt o (factor_Secret factor) with
        | Err _ => totp_any code factors
        | Ok secret => if mo_totp_Validate o code secret then Ok true else totp_any code factors
        | Panic => Panic
        | Diverge => Diverge
        end
      else totp_any code factors
  end.

Definition totp_Verify (user : User) (code : string) : fm bool :=
  factors ← wrap_factor "failed to get MFA factors: " (fr_GetByUserID (user_ID user));
  lift (totp_any code factors).

Definition totp_ListMethods (user : User) : fm (list MFAMethod) :=
  factors ← wrap_factor "failed to get MFA factors: " (fr_GetByUserID (user_ID user));
  mret ((fun f => mkMFAMethod (factor_ID f) "totp") <$>
    filter (fun f => factor_Type f = "totp" /\ factor_Status f = "enrolled") factors).

(** *** recovery_codes.go *)
Fixpoint hash_all (codes : list string) : res error (list string) :=
  match codes with
  | [] => Ok []
  | code :: codes =>
      match mo_Hash o code with
      | Ok hashed => rest ← hash_all codes; Ok (hashed :: rest)
      | Err err => Err (Wrapf "failed to hash recovery code: " err)
      | Panic => Panic
      | Diverge => Diverge
      end
  end.

Definition GenerateAndStore (factor : MFAFactor) : fm (list string) :=
  plaintextCodes ← wrap_factor "failed to generate recovery codes: " (lift (GenerateRecoveryCodes (mo_rand o)));
  hashedCodes ← lift (hash_all plaintextCodes);
  wrap_factor "failed to update MFA factor with recovery codes: "
    (fr_Update (set_BackupCodes (mo_marshal o hashedCodes) factor)) ;;
  mret plaintextCodes.

(** The first hash the code matches, taken out of the list. *)
Fixpoint take_code (code : string) (hashedCodes : list string) : option (list string) :=
  match hashedCodes with
  | [] => None
  | hashedCode :: rest =>
      if mo_Check o code hashedCode then Some rest
      else (fun l => hashedCode :: l) <$> take_code code rest
  end.

Fixpoint use_code (code : string) (factors : list MFAFactor) : fm bool :=
  match factors with
  | [] => mret false
  | factor :: factors =>
      if bool_decide (factor_BackupCodes factor = "") then use_code code factors
      else match mo_unmarshal o (factor_BackupCodes factor) with
           | None => use_code code factors
           | Some hashedCodes =>
               match take_code code hashedCodes with
               | None => use_code code factors
               | Some remaining =>
                   wrap_factor "failed to update MFA factor after using recovery code: "
                     (fr_Update (set_BackupCodes (mo_marshal o remaining) factor)) ;;
                   mret true
               end
           end
  end.

Definition recovery_Verify (user : User) (code : string) : fm bool :=
  factors ← wrap_factor "failed to get MFA factors: " (fr_GetByUserID (user_ID user));
  use_code code factors.
End Factors.

(** ** The manager (mfa_manager.go) *)
Definition AuthMethodEmailOTP : string := "email_otp".
Definition AuthMethodSMS : string := "sms".
Record MFAChallenge := mkChallenge { chal_ID : string; chal_Provider : string }.

Record MFAProvider (W : Type) := mkProvider {
  pv_Challenge : User -> prog W error MFAChallenge;
  pv_Verify : User -> string -> prog W error bool;
  pv_ListMethods : User -> prog W error (list MFAMethod);
  pv_GetStrength : string
}.
Arguments mkProvider {W}.
Arguments pv_Challenge {W}.
Arguments pv_Verify {W}.
Arguments pv_ListMethods {W}.
Arguments pv_GetStrength {W}.

(** The one-time codes of the manager: challenge and verification. *)
Record OTPService (W : Type) := mkOTPService {
  os_Challenge : string -> string -> string -> prog W error string;
  os_Verify : string -> string -> prog W error bool
}.
Arguments mkOTPService {W}.
Arguments os_Challenge {W}.
Arguments os_Verify {W}.

Section Manager.
Context {W : Type} (ord : map_order) (providers : gmap string (MFAProvider W)).
Context (otp : option (OTPService W)).
Notation mm A := (prog W error A).

Fixpoint methods_of (strength : string) (user : User) (ps : list (MFAProvider W)) : mm (list MFAMethod) :=
  match ps with
  | [] => mret []
  | provider :: ps =>
      if bool_decide (pv_GetStrength provider = strength) then
        methods ← pv_ListMethods provider user;
        rest ← methods_of strength user ps;
        mret (methods ++ rest)
      else methods_of strength user ps
  end.

Definition manager_GetAvailableMFAMethods (user : User) (requiredStrength : string) : mm (list MFAMethod) :=
  methods_of requiredStrength user (range ord providers).*2.

Definition is_otp (providerName : string) : bool :=
  bool_decide (providerName = "email") || bool_decide (providerName = "sms").

Definition manager_Challenge (user : User) (providerName : string) : mm MFAChallenge :=
  if is_otp providerName then
    match otp with
    | None => throw (Errorf "otp provider not configured")
    | Some otp =>
        let sms := bool_decide (providerName = "sms") in
        let target := if sms then user_Phone user else user_Email user in
        let method := if sms then "sms" else "email" in
        if bool_decide (target = "")
        then throw (Errorf ("user contact info missing for " +:+ providerName))
        else
          os_Challenge otp (user_ID user) target method ;;
          mret (mkChallenge "" (if sms then AuthMethodSMS else AuthMethodEmailOTP))
    end
  else match providers !! providerName with
       | None => throw (Errorf ("provider not found: " +:+ providerName))
       | Some provider => pv_Challenge provider user
       end.

Definition manager_Verify (user : User) (providerName code : string) : mm bool :=
  if is_otp providerName then
    match otp with
    | None => throw (Errorf "otp provider not configured")
    | Some otp => os_Verify otp (user_ID user) code
    end
  else match providers !! providerName with
       | None => throw (Errorf ("provider not found: " +:+ providerName))
       | Some provider => pv_Verify provider user code
       end.
End Manager.

(** ** The policy (internal/domain/auth/mfa_policy.go)

    [GetUserFactors] and [VerifyCode] are arguments, and so is the decoding of
    a stored challenge into the user it is for; what cannot be decoded leaves
    the zero value.  The causes attached to the predefined errors are left
    out here. *)
Section MFAPolicy.
Context `{Redis C} (GetUserFactors : string -> res error (list MFAFactor)).
Context (VerifyCode : string -> string -> bool) (parse_uuid : string -> option string).
Context (challenge_user : string -> option string) (now : time).
Notation mp A := (prog C error A).

Definition is_active (f : MFAFactor) : bool := bool_decide (factor_Status f = "active").

Definition ShouldEnforceMFA (user : User) : res error bool :=
  match parse_uuid (user_ID user) with
  | None => Err (Errorf "uuid")
  | Some userID => factors ← GetUserFactors userID; Ok (existsb is_active factors)
  end.

Definition policy_GetAvailableMFAMethods (userID : string) : res error (list string) :=
  (fun factors : list MFAFactor => factor_Type <$> filter (fun f => is_active f) factors) <$>
    GetUserFactors userID.

(** Only the first TOTP factor is tried. *)
Fixpoint first_totp (code : string) (factors : list MFAFactor) : res error bool :=
  match factors with
  | [] => Err (Sentinel ErrNotFound)
  | factor :: factors =>
      if bool_decide (factor_Type factor = "totp") then Ok (VerifyCode (factor_Secret factor) code)
      else first_totp code factors
  end.

Definition VerifyTOTP (userID code : string) : res error bool :=
  match GetUserFactors userID with
  | Ok factors => first_totp code factors
  | Err _ => Err (Sentinel ErrNotFound)
  | Panic => Panic
  | Diverge => Diverge
  end.

Definition challengeKey (id : string) : string := "mfa:challenge:" +:+ id.

Definition unauthorized : mp unit := throw (Sentinel ErrUnauthorized).

Definition policy_VerifyMFAChallenge (challengeID method code : string) : mp unit :=
  challenge ← try (r_Get now (challengeKey challengeID));
  match challenge with
  | inl _ => throw (Sentinel ErrInvalidRequest)
  | inr challenge =>
      let userID := default uuid_Nil (challenge_user challenge) in
      (if bool_decide (method = "totp") then
         factors ← try (lift (GetUserFactors userID));
         match factors with
         | inl _ => unauthorized
         | inr factors =>
             if forallb (fun f => negb (bool_decide (factor_Type f = "totp")) ||
                                  VerifyCode (factor_Secret f) code) factors
             then mret () else unauthorized
         end
       else if bool_decide (method = "sms") then
         storedCode ← try (r_Get now ("sms:otp:" +:+ userID));
         match storedCode with
         | inl _ => unauthorized
         | inr storedCode => if bool_decide (storedCode = code) then mret () else unauthorized
         end
       else mret ()) ;;
      try (r_Del (challengeKey challengeID)) ;;
      mret ()
  end.
End MFAPolicy.

(** ** Facts *)

Lemma pick_in charset b : charset <> "" -> pick charset b ∈ String.list_ascii_of_string charset.
Proof.
  intros Hne. unfold pick.
  assert (Hlen : (Z.to_nat (b mod Z.of_nat (String.length charset)) < String.length charset)%nat).
  { destruct charset as [|c s]; [done|]. cbn [String.length].
    pose proof (Z.mod_pos_bound b (Z.of_nat (S (String.length s))) ltac:(lia)). lia. }
  revert Hlen. generalize (Z.to_nat (b mod Z.of_nat (String.length charset))). clear Hne.
  induction charset as [|c s IH]; cbn [String.length]; intros n Hn; [lia|].
  destruct n as [|n]; cbn [String.get String.list_ascii_of_string default]; [constructor|].
  constructor. apply IH. lia.
Qed.

(** A code has one character of the set for every byte. *)
Lemma code_of_spec charset bytes :
  charset <> "" ->
  String.length (code_of charset bytes) = length bytes /\
  Forall (fun c => c ∈ String.list_ascii_of_string charset) (String.list_ascii_of_string (code_of charset bytes)).
Proof.
  intros Hne. induction bytes as [|b bytes [IHl IHf]]; [split; [done|constructor]|].
  cbn [code_of foldr String.length length String.list_ascii_of_string]. split; [by f_equal|].
  constructor; [by apply pick_in|done].
Qed.

Section OTPFacts.
Context `{RedisLaws C} (manager : option (string -> res error Notifier)) (config : OTPConfig).
Implicit Types w : mworld C.

Lemma wrap_err_ok {A B} msg (m : prog (mworld C) error A) (k : A -> prog (mworld C) error B) w x w' :
  m w = (Ok x, w') -> (wrap_err msg m ≫= k) w = k x w'.
Proof. intros Hm. unfold wrap_err, mbind, prog_bind, try. by rewrite Hm. Qed.

Lemma wrap_err_err {A B} msg (m : prog (mworld C) error A) (k : A -> prog (mworld C) error B) w err w' :
  m w = (Err err, w') -> (wrap_err msg m ≫= k) w = (Err (Wrapf msg err), w').
Proof. intros Hm. unfold wrap_err, mbind, prog_bind, try. by rewrite Hm. Qed.

Lemma otp_Verify_run now userID code w :
  exists w', otp_Verify now userID code w =
    (match kv (mw_redis w) now (otpKey userID) with
     | None => Err (Wrapf "failed to retrieve OTP from Redis (might be expired): " redis_Nil)
     | Some stored => Ok (bool_decide (stored = code))
     end, w') /\
    (if bool_decide (kv (mw_redis w) now (otpKey userID) = Some code)
     then forall t k, kv (mw_redis w') t k = if decide (otpKey userID = k) then None else kv (mw_redis w) t k
     else w' = w).
Proof.
  unfold otp_Verify.
  assert (Hget : on_otp_redis (r_Get now (otpKey userID)) w =
    (match kv (mw_redis w) now (otpKey userID) with Some v => Ok v | None => Err redis_Nil end, w)).
  { unfold on_otp_redis, zoom. rewrite law_Get. by destruct w. }
  destruct (kv (mw_redis w) now (otpKey userID)) as [stored|].
  - rewrite (wrap_err_ok _ _ _ _ _ _ Hget).
    destruct (bool_decide_reflect (stored = code)) as [->|Hne].
    + destruct (law_Del (mw_redis w) (otpKey userID)) as (c' & Hdel & Hkv & _).
      exists (mkMWorld c' (mw_sent w)). rewrite bool_decide_eq_true_2 by done. split; [|done].
      unfold on_otp_redis, zoom, mbind, prog_bind, try. by rewrite Hdel.
    + exists w. rewrite bool_decide_eq_false_2 by congruence. done.
  - rewrite (wrap_err_err _ _ _ _ _ _ Hget). exists w. by rewrite bool_decide_eq_false_2.
Qed.

(** Challenging stores the code, whether or not it can be sent. *)
Lemma otp_Challenge_run rand now m notifier bytes userID target method w :
  manager = Some m -> m method = Ok notifier -> 0 <= otp_Length config ->
  rand (otp_Length config) = Ok bytes ->
  exists a c', otp_Challenge manager config rand now userID target method w =
      (a, mkMWorld c' (mw_sent w ++ [otp_message config target (code_of digits bytes)])) /\
    a = match notifier (otp_message config target (code_of digits bytes)) with
        | Ok _ => Ok ""
        | Err err => Err (Wrapf "failed to send OTP notification: " err)
        | Panic => Panic
        | Diverge => Diverge
        end /\
    forall t k, kv c' t k = if decide (otpKey userID = k)
      then (if lives now (otp_TTL config) t then Some (code_of digits bytes) else None)
      else kv (mw_redis w) t k.
Proof.
  intros Hm Hmeth Hlen Hrand. unfold otp_Challenge. rewrite Hm.
  rewrite (wrap_err_ok _ _ _ w notifier w) by (unfold lift; by rewrite Hmeth).
  rewrite (wrap_err_ok _ _ _ w (code_of digits bytes) w)
    by (unfold lift, generateRandomNumberString, random_bytes;
        rewrite bool_decide_eq_false_2 by lia; by rewrite Hrand).
  destruct (law_Set (mw_redis w) now (otpKey userID) (code_of digits bytes) (otp_TTL config))
    as (c' & Hset & Hkv & _).
  rewrite (wrap_err_ok _ _ _ w () (mkMWorld c' (mw_sent w)))
    by (unfold on_otp_redis, zoom; by rewrite Hset).
  eexists _, c'. split; [|split; [reflexivity|done]].
  cbv zeta. unfold modify, mbind at 1, prog_bind at 1. cbn [mw_redis mw_sent].
  unfold wrap_err, lift, mbind, prog_bind, try. by destruct (notifier _).
Qed.
End OTPFacts.

(** ** What a factor repository promises *)
Class FactorLaws (F : Type) `{FactorRepository F} := {
  finv : F -> Prop;
  user_factors : F -> string -> list MFAFactor;
  fl_get r u : finv r -> fr_GetByUserID u r = (Ok (user_factors r u), r);
  fl_ids r u : finv r -> NoDup (factor_ID <$> user_factors r u);
  fl_create r f : finv r -> factor_ID f = uuid_Nil ->
    exists id r', fr_Create f r = (Ok (), r') /\ finv r' /\
      user_factors r' (factor_UserID f) ≡ₚ set_factor_ID id f :: user_factors r (factor_UserID f);
  fl_update r f f0 u : finv r -> f0 ∈ user_factors r u -> factor_ID f = factor_ID f0 ->
    factor_UserID f = factor_UserID f0 ->
    exists r', fr_Update f r = (Ok (), r') /\ finv r' /\
      user_factors r' u ≡ₚ f :: filter (fun g => factor_ID g <> factor_ID f) (user_factors r u)
}.

Section FactorFacts.
Context `{FactorLaws F} (o : mfa_oracle).
Implicit Types (r : F) (f : MFAFactor).

Lemma wrap_factor_ok {A B} msg (m : prog F error A) (k : A -> prog F error B) r x r' :
  m r = (Ok x, r') -> (wrap_factor msg m ≫= k) r = k x r'.
Proof. intros Hm. unfold wrap_factor, mbind, prog_bind, try. by rewrite Hm. Qed.

Hypothesis unmarshal_marshal : forall l, mo_unmarshal o (mo_marshal o l) = Some l.
Hypothesis marshal_nonempty : forall l, mo_marshal o l <> "".

(** The hashes a factor keeps, and those of a user. *)
Definition hashes_of f : list string :=
  if bool_decide (factor_BackupCodes f = "") then []
  else default [] (mo_unmarshal o (factor_BackupCodes f)).
Definition stored_hashes r u : list string := mjoin (hashes_of <$> user_factors r u).

Lemma take_code_spec code hashes :
  match take_code o code hashes with
  | Some rest => exists h, mo_Check o code h = true /\ hashes ≡ₚ h :: rest
  | None => forall h, h ∈ hashes -> mo_Check o code h = false
  end.
Proof.
  induction hashes as [|h hashes IH]; cbn [take_code]; [intros h Hh; by apply elem_of_nil in Hh|].
  destruct (mo_Check o code h) eqn:Hc; [by exists h|].
  destruct (take_code o code hashes) as [rest|]; cbn.
  - destruct IH as (h' & Hc' & Hp). exists h'. split; [done|]. rewrite Hp. apply Permutation_swap.
  - intros h' [->|?]%elem_of_cons; auto.
Qed.

(** The search through the factors stops at the first that has the code. *)
Lemma use_code_spec code fs r :
  (use_code o code fs r = (Ok false, r) /\ forall h, h ∈ mjoin (hashes_of <$> fs) -> mo_Check o code h = false) \/
  exists before f after rest h, fs = before ++ f :: after /\ hashes_of f ≡ₚ h :: rest /\
    mo_Check o code h = true /\
    forall r', fr_Update (set_BackupCodes (mo_marshal o rest) f) r = (Ok (), r') ->
      use_code o code fs r = (Ok true, r').
Proof.
  induction fs as [|f fs IH]; cbn [use_code]; [left; split; [done|intros h Hh; by apply elem_of_nil in Hh]|].
  assert (Hskip : (forall h, h ∈ hashes_of f -> mo_Check o code h = false) ->
    (use_code o code fs r = (Ok false, r) /\
       forall h, h ∈ mjoin (hashes_of <$> f :: fs) -> mo_Check o code h = false) \/
    exists before f' after rest h, f :: fs = before ++ f' :: after /\ hashes_of f' ≡ₚ h :: rest /\
      mo_Check o code h = true /\
      forall r', fr_Update (set_BackupCodes (mo_marshal o rest) f') r = (Ok (), r') ->
        use_code o code fs r = (Ok true, r')).
  { intros Hf. destruct IH as [[Hrun Hno]|(before & f' & after & rest & h & -> & Hp & Hc & Hrun)].
    - left. split; [done|]. intros h [Hin|Hin]%elem_of_app; auto.
    - right. exists (f :: before), f', after, rest, h. done. }
  destruct (bool_decide_reflect (factor_BackupCodes f = "")) as [Hb|Hb].
  { apply Hskip. unfold hashes_of. rewrite bool_decide_eq_true_2 by done.
    intros h Hh. by apply elem_of_nil in Hh. }
  destruct (mo_unmarshal o (factor_BackupCodes f)) as [hashes|] eqn:Hu.
  2:{ apply Hskip. unfold hashes_of. rewrite bool_decide_eq_false_2, Hu by done.
      intros h Hh. by apply elem_of_nil in Hh. }
  assert (Hof : hashes_of f = hashes).
  { unfold hashes_of. by rewrite bool_decide_eq_false_2, Hu. }
  pose proof (take_code_spec code hashes) as Ht.
  destruct (take_code o code hashes) as [rest|]; [|apply Hskip; by rewrite Hof].
  destruct Ht as (h & Hc & Hp). right. exists [], f, fs, rest, h. rewrite Hof.
  do 3 (split; [done|]). intros r' Hup. by rewrite (wrap_factor_ok _ _ _ _ _ _ Hup).
Qed.

(** Taking the factor out by its identifier leaves the others. *)
Lemma filter_other_ids f before after :
  NoDup (factor_ID <$> before ++ f :: after) ->
  filter (fun g => factor_ID g <> factor_ID f) (before ++ f :: after) = before ++ after.
Proof.
  intros Hnd. rewrite fmap_app, fmap_cons in Hnd. apply NoDup_app in Hnd as (_ & Hbef & Haft).
  apply NoDup_cons in Haft as [Hf _].
  assert (Hall : forall l : list MFAFactor, factor_ID f ∉ factor_ID <$> l -> filter (fun g => factor_ID g <> factor_ID f) l = l).
  { intros l Hl. apply filter_all, Forall_forall. intros g Hg Heq. apply Hl. rewrite <-Heq.
    by apply list_elem_of_fmap_2. }
  rewrite filter_app, filter_cons, decide_False by tauto.
  rewrite !Hall; [done|done|]. intros Hin. apply (Hbef _ Hin). constructor.
Qed.
End FactorFacts.

(** ** Properties *)

(** Recovery codes: ten codes of eight digits or capital letters each,
    whenever enough random bytes were drawn.  Nothing keeps them apart: equal
    bytes give equal codes. *)
Theorem recovery_codes_shape (rand : nat -> Z -> res error (list Z)) :
  (forall i, exists bytes, rand i 8 = Ok bytes /\ length bytes = 8%nat) ->
  exists codes, GenerateRecoveryCodes rand = Ok codes /\ length codes = 10%nat /\
    Forall (fun c => String.length c = 8%nat /\
      Forall (fun x => x ∈ String.list_ascii_of_string letters) (String.list_ascii_of_string c)) codes /\
    forall i j ci cj, rand i 8 = rand j 8 -> codes !! i = Some ci -> codes !! j = Some cj -> ci = cj.
Proof.
  intros Hrand. unfold GenerateRecoveryCodes.
  assert (Hgen : forall n (rand : nat -> Z -> res error (list Z)),
    (forall i, exists bytes, rand i 8 = Ok bytes /\ length bytes = 8%nat) ->
    exists codes, generate_codes n rand = Ok codes /\ length codes = n /\
      forall i c, codes !! i = Some c -> exists bytes, rand i 8 = Ok bytes /\ length bytes = 8%nat /\
        c = code_of letters bytes).
  { clear. induction n as [|n IH]; intros rand Hrand; cbn [generate_codes]; [by exists []|].
    destruct (Hrand O) as (b0 & Hb0 & Hl0).
    destruct (IH (fun i => rand (S i))) as (codes & Hcodes & Hlen & Hall); [by intros i; apply Hrand|].
    exists (code_of letters b0 :: codes). unfold generateSingleRecoveryCode, random_bytes.
    rewrite bool_decide_eq_false_2 by lia. rewrite Hb0. cbn [mbind res_bind]. rewrite Hcodes.
    split; [done|]. split; [by f_equal/=|]. intros [|i] c; cbn; [intros [= <-]; by exists b0|apply Hall]. }
  destruct (Hgen 10%nat rand Hrand) as (codes & Hcodes & Hlen & Hall).
  exists codes. split; [done|]. split; [done|]. split.
  - apply Forall_forall. intros c Hc. apply list_elem_of_lookup in Hc as [i Hi].
    destruct (Hall i c Hi) as (bytes & _ & Hl & ->). rewrite <-Hl. by apply code_of_spec.
  - intros i j ci cj Hij Hi Hj.
    destruct (Hall i ci Hi) as (b & Hb & _ & ->), (Hall j cj Hj) as (b' & Hb' & _ & ->). congruence.
Qed.

(** A one-time code: after a challenge the code that was sent is accepted
    once within its lifetime and never again; before that any number of wrong
    guesses is refused without consequence - none is counted and the code stays
    valid -; after the lifetime every code is refused. *)
Theorem otp_lifecycle `{RedisLaws C} manager config rand now m notifier bytes userID target method t guesses
    (w : mworld C) :
  manager = Some m -> m method = Ok notifier -> (forall msg, notifier msg = Ok ()) ->
  0 <= otp_Length config -> rand (otp_Length config) = Ok bytes ->
  Z.of_nat (length bytes) = otp_Length config -> 0 < otp_TTL config ->
  let code := code_of digits bytes in
  code ∉ guesses ->
  exists w', otp_Challenge manager config rand now userID target method w = (Ok "", w') /\
    Z.of_nat (String.length code) = otp_Length config /\
    (t < now + otp_TTL config ->
       for_each (fun g => ok ← otp_Verify t userID g; if ok : bool then throw (Errorf "accepted") else mret ())
         guesses w' = (Ok (), w') /\
       exists w'', otp_Verify t userID code w' = (Ok true, w'') /\
         forall t' g, (otp_Verify t' userID g w'').1 =
           Err (Wrapf "failed to retrieve OTP from Redis (might be expired): " redis_Nil)) /\
    (now + otp_TTL config <= t -> forall g, (otp_Verify t userID g w').1 =
       Err (Wrapf "failed to retrieve OTP from Redis (might be expired): " redis_Nil)).
Proof.
  intros Hm Hmeth Hsend Hlen Hrand Hbytes Httl code Hguess.
  destruct (otp_Challenge_run manager config rand now m notifier bytes userID target method w
    Hm Hmeth Hlen Hrand) as (a & c' & Hrun & Ha & Hkv). rewrite Hsend in Ha. subst a. fold code in Hrun, Hkv.
  eexists. split; [exact Hrun|].
  split; [unfold code; by rewrite (proj1 (code_of_spec digits bytes ltac:(done)))|].
  set (w' := mkMWorld c' _).
  assert (Hread : kv (mw_redis w') t (otpKey userID) = if bool_decide (t < now + otp_TTL config) then Some code else None).
  { cbn. rewrite Hkv, decide_True by done. unfold lives.
    rewrite (bool_decide_eq_false_2 (otp_TTL config = 0)) by lia. by case_bool_decide. }
  split.
  - intros Ht. rewrite bool_decide_eq_true_2 in Hread by done. split.
    + clear Hrun. revert Hguess. induction guesses as [|g guesses IH]; [done|].
      intros [Hne Hrest]%not_elem_of_cons. cbn [for_each].
      destruct (otp_Verify_run t userID g w') as (w1 & Hv & Hsame). rewrite Hread in Hv, Hsame.
      rewrite bool_decide_eq_false_2 in Hsame by congruence. subst w1.
      rewrite bool_decide_eq_false_2 in Hv by congruence.
      rewrite prog_assoc, (prog_bind_run _ _ _ _ _ Hv). by apply IH.
    + destruct (otp_Verify_run t userID code w') as (w'' & Hv & Hkv''). rewrite Hread in Hv, Hkv''.
      rewrite bool_decide_eq_true_2 in Hv, Hkv'' by done.
      exists w''. split; [done|]. intros t' g. destruct (otp_Verify_run t' userID g w'') as (w3 & Hv3 & _).
      rewrite Hv3. cbn [fst]. by rewrite Hkv'', decide_True.
  - intros Ht g. rewrite bool_decide_eq_false_2 in Hread by lia.
    destruct (otp_Verify_run t userID g w') as (w1 & Hv & _). rewrite Hv. cbn [fst]. by rewrite Hread.
Qed.

Section FactorProperties.
Context `{FactorLaws F} (o : mfa_oracle).
Implicit Types (r : F) (f : MFAFactor).

(** C12: a recovery code is accepted exactly when one of the user's stored hashes
    matches it, and then exactly one such hash is gone from what is stored; a
    refused code changes nothing. *)
Theorem recovery_code_single_use user code r :
  (forall l, mo_unmarshal o (mo_marshal o l) = Some l) -> (forall l, mo_marshal o l <> "") ->
  finv r ->
  exists ok r', recovery_Verify o user code r = (Ok ok, r') /\ finv r' /\
    (ok = true <-> exists h, h ∈ stored_hashes o r (user_ID user) /\ mo_Check o code h = true) /\
    (if ok : bool
     then exists h, mo_Check o code h = true /\
       stored_hashes o r (user_ID user) ≡ₚ h :: stored_hashes o r' (user_ID user)
     else r' = r).
Proof.
  intros Hjson Hne Hinv. unfold recovery_Verify.
  rewrite (wrap_factor_ok _ _ _ _ _ _ (fl_get r (user_ID user) Hinv)).
  destruct (use_code_spec o code (user_factors r (user_ID user)) r)
    as [[Hrun Hno]|(before & f & after & rest & h & Hfs & Hp & Hc & Hrun)].
  - exists false, r. do 2 (split; [done|]). split; [|done].
    split; [done|]. intros (h & Hh & Hc). by rewrite Hno in Hc.
  - assert (Hin : f ∈ user_factors r (user_ID user)) by (rewrite Hfs; set_solver).
    destruct (fl_update r (set_BackupCodes (mo_marshal o rest) f) f (user_ID user) Hinv Hin)
      as (r' & Hup & Hinv' & Hfac); [done|done|].
    exists true, r'. split; [by apply Hrun|]. split; [done|].
    assert (Hperm : stored_hashes o r (user_ID user) ≡ₚ h :: stored_hashes o r' (user_ID user)).
    { pose proof (fl_ids r (user_ID user) Hinv) as Hnd. rewrite Hfs in Hnd.
      unfold stored_hashes. rewrite Hfac, Hfs. cbn [factor_ID set_BackupCodes].
      rewrite (filter_other_ids f before after Hnd).
      rewrite !fmap_app, !fmap_cons, fmap_app, !join_app. cbn [mjoin list_join]. rewrite join_app.
      assert (hashes_of o (set_BackupCodes (mo_marshal o rest) f) = rest) as ->.
      { unfold hashes_of. cbn [factor_BackupCodes set_BackupCodes]. rewrite bool_decide_eq_false_2 by apply Hne.
        by rewrite Hjson. }
      rewrite Hp. cbn [app]. rewrite <-Permutation_middle. constructor.
      rewrite !(assoc_L (++)). by rewrite (comm (++) rest (mjoin _)). }
    split; [|by exists h]. split; [|done]. intros _. exists h. rewrite Hperm. split; [constructor|done].
Qed.

(** Enrolling a TOTP factor: the code of the generated secret is accepted at
    once, while the factor is still pending - so that it is listed neither among
    the user's methods nor counted by the policy that would enforce a second
    factor; no code of the program makes it anything else. *)
Theorem totp_pending_accepted user userID secret url cipher VerifyCode code r :
  finv r -> mo_totp_Generate o (user_Username user) = Ok (secret, url) ->
  mo_Encrypt o secret = Ok cipher -> mo_Decrypt o cipher = Ok secret ->
  mo_parse_uuid o (user_ID user) = Some userID -> userID = user_ID user ->
  user_factors r (user_ID user) = [] ->
  exists r', totp_Enroll o user r = (Ok (mkMFAEnrollment secret url), r') /\
    totp_Verify o user code r' = (Ok (mo_totp_Validate o code secret), r') /\
    totp_ListMethods user r' = (Ok [], r') /\
    ShouldEnforceMFA (fun u => Ok (user_factors r' u)) (mo_parse_uuid o) user = Ok false /\
    VerifyTOTP (fun u => Ok (user_factors r' u)) VerifyCode (user_ID user) code = Ok (VerifyCode cipher code).
Proof.
  intros Hinv Hgen Henc Hdec Hparse -> Hnone.
  destruct (fl_create r (pending_factor (user_ID user) cipher) Hinv eq_refl) as (id & r' & Hcr & Hinv' & Hfac).
  cbn [factor_UserID pending_factor] in Hfac. rewrite Hnone in Hfac. apply Permutation_singleton_r in Hfac.
  exists r'. pose proof (fl_get r' (user_ID user) Hinv') as Hget. split; [|split; [|split; [|split]]].
  - unfold totp_Enroll. rewrite (wrap_factor_ok _ _ _ r (secret, url) r) by (unfold lift; by rewrite Hgen).
    cbn [fst snd]. rewrite (wrap_factor_ok _ _ _ r cipher r) by (unfold lift; by rewrite Henc).
    rewrite Hparse. by rewrite (wrap_factor_ok _ _ _ _ _ _ Hcr).
  - unfold totp_Verify. rewrite (wrap_factor_ok _ _ _ _ _ _ Hget), Hfac. unfold lift. cbn [totp_any].
    cbn [set_factor_ID pending_factor factor_Type factor_Secret]. rewrite bool_decide_eq_true_2, Hdec by done.
    by destruct (mo_totp_Validate o code secret).
  - unfold totp_ListMethods. rewrite (wrap_factor_ok _ _ _ _ _ _ Hget), Hfac. done.
  - unfold ShouldEnforceMFA. rewrite Hparse. cbn [mbind res_bind]. by rewrite Hfac.
  - unfold VerifyTOTP. by rewrite Hfac.
Qed.
End FactorProperties.

(** The challenges of the MFA policy: an unknown or expired challenge is an
    invalid request; otherwise TOTP demands that the code matches every TOTP
    factor of the user - none of them is enough -, SMS that it is the stored
    one, and any other method is accepted without a look at the code.  An
    accepted challenge is gone. *)
Theorem policy_challenge_decides `{RedisLaws C} GetUserFactors VerifyCode challenge_user now id method code (c : C) :
  (forall u, exists fs, GetUserFactors u = Ok fs) ->
  let run := policy_VerifyMFAChallenge GetUserFactors VerifyCode challenge_user now id method code c in
  match kv c now (challengeKey id) with
  | None => run = (Err (Sentinel ErrInvalidRequest), c)
  | Some challenge =>
      let u := default uuid_Nil (challenge_user challenge) in
      let accepted :=
        if bool_decide (method = "totp") then
          match GetUserFactors u with
          | Ok fs => forallb (fun f => negb (bool_decide (factor_Type f = "totp")) ||
                                       VerifyCode (factor_Secret f) code) fs
          | _ => false
          end
        else if bool_decide (method = "sms") then bool_decide (kv c now ("sms:otp:" +:+ u) = Some code)
        else true in
      if accepted : bool
      then exists c', run = (Ok (), c') /\ forall t, kv c' t (challengeKey id) = None
      else run = (Err (Sentinel ErrUnauthorized), c)
  end.
Proof.
  intros Hfs run.
  assert (Hrun : run = policy_VerifyMFAChallenge GetUserFactors VerifyCode challenge_user now id method code c)
    by done.
  unfold policy_VerifyMFAChallenge in Hrun. unfold mbind at 1, prog_bind at 1, try at 1 in Hrun.
  rewrite law_Get in Hrun. destruct (kv c now (challengeKey id)) as [challenge|]; [|done].
  cbv zeta. clearbody run. set (u := default uuid_Nil (challenge_user challenge)) in *.
  destruct (law_Del c (challengeKey id)) as (c' & Hdel & Hkv & _).
  assert (Hdone : (try (r_Del (challengeKey id)) ;; mret ()) c = (Ok (), c')).
  { unfold try, mbind, prog_bind. by rewrite Hdel. }
  assert (Hgone : forall t, kv c' t (challengeKey id) = None) by (intros t; by rewrite Hkv, decide_True).
  destruct (bool_decide (method = "totp")).
  - destruct (Hfs u) as [fs Hu]. rewrite Hu in Hrun. rewrite Hu.
    rewrite prog_assoc in Hrun. unfold mbind at 1, prog_bind at 1, try at 1, lift at 1 in Hrun.
    destruct (forallb _ fs); [exists c'; rewrite Hrun; by split|done].
  - destruct (bool_decide (method = "sms")); [|exists c'; rewrite Hrun; by split].
    rewrite prog_assoc in Hrun. unfold mbind at 1, prog_bind at 1, try at 1 in Hrun. rewrite law_Get in Hrun.
    destruct (kv c now ("sms:otp:" +:+ u)) as [stored|]; [|by rewrite bool_decide_eq_false_2].
    destruct (bool_decide_reflect (stored = code)) as [Heq|Hne].
    + rewrite bool_decide_eq_true_2 by congruence. exists c'. rewrite Hrun. by split.
    + rewrite bool_decide_eq_false_2 by congruence. done.
Qed.

(** ** The in-memory repository keeps the promises *)
Lemma range_values_insert {A} ord (m : gmap string A) k v :
  m !! k = None -> (range ord (<[k := v]> m)).*2 ≡ₚ v :: (range ord m).*2.
Proof. intros Hk. rewrite !range_perm. by rewrite map_to_list_insert. Qed.

Lemma range_values_update {A} ord (m : gmap string A) k v :
  (range ord (<[k := v]> m)).*2 ≡ₚ v :: (range ord (delete k m)).*2.
Proof. rewrite <-insert_delete_eq. apply range_values_insert, lookup_delete_eq. Qed.

Section MemoryFactors.
Context (ord : map_order) (uuid : factor_repo -> string).
Hypothesis uuid_fresh : forall r, r !! uuid r = None.

Definition factors_of (r : factor_repo) (u : string) : list MFAFactor :=
  filter (fun f => factor_UserID f = u) (range ord r).*2.

Lemma keyed_factors_insert r f : keyed_factors r -> keyed_factors (<[factor_ID f := f]> r).
Proof. intros Hr id g. rewrite lookup_insert. case_decide; [naive_solver|apply Hr]. Qed.

Lemma factors_ids r u : keyed_factors r -> NoDup (factor_ID <$> factors_of r u).
Proof.
  intros Hr. unfold factors_of.
  assert (Hids : factor_ID <$> (range ord r).*2 = (range ord r).*1).
  { rewrite <-list_fmap_compose. apply list_fmap_ext. intros i [k f] Hi.
    apply list_elem_of_lookup_2, elem_of_range in Hi. by apply Hr. }
  pose proof (range_nodup ord r) as Hnd. rewrite <-Hids in Hnd. clear Hids. revert Hnd.
  generalize (range ord r).*2. intros l. induction l as [|f l IH]; cbn; [constructor|].
  intros [Hf Hl]%NoDup_cons. case_decide; [|auto].
  cbn. constructor; [|auto]. intros (g & Heq & Hg)%list_elem_of_fmap. apply Hf. rewrite Heq.
  apply list_elem_of_filter in Hg as [_ Hg]. by apply list_elem_of_fmap_2.
Qed.

#[export] Instance memory_factor_laws : @FactorLaws factor_repo (memory_factors Some ord uuid).
Proof.
  refine {| finv := keyed_factors; user_factors := factors_of |}.
  - done.
  - exact factors_ids.
  - intros r f Hr Hf. set (f' := set_factor_ID (uuid r) f). exists (uuid r), (<[factor_ID f' := f']> r).
    split; [|split; [by apply keyed_factors_insert|]].
    + unfold fr_Create, memory_factors. rewrite prog_get_bind. unfold CreateMFAFactor.
      by rewrite bool_decide_eq_true_2.
    + unfold factors_of. rewrite (range_values_insert ord r (factor_ID f') f') by apply uuid_fresh.
      by rewrite filter_cons, decide_True.
  - intros r f f0 u Hr Hin Hid Hu. apply list_elem_of_filter in Hin as [Hfu [k Hk]%elem_of_range_snd].
    pose proof (Hr _ _ Hk) as Hkid. exists (<[factor_ID f := f]> r).
    split; [|split; [by apply keyed_factors_insert|]].
    + unfold fr_Update, memory_factors, UpdateMFAFactor. rewrite prog_get_bind, Hid, Hkid, Hk. done.
    + pose proof (factors_ids r u Hr) as Hnd. rewrite Hid, Hkid. unfold factors_of in Hnd |- *.
      assert (Hold : filter (fun g => factor_UserID g = u) (range ord r).*2 ≡ₚ
        f0 :: filter (fun g => factor_UserID g = u) (range ord (delete k r)).*2).
      { rewrite <-(insert_id r k f0 Hk) at 1. rewrite range_values_update.
        by rewrite filter_cons, decide_True. }
      rewrite Hold in Hnd. rewrite range_values_update, filter_cons, decide_True by congruence.
      constructor. symmetry. rewrite Hold, filter_cons, decide_False by congruence.
      rewrite filter_all; [done|]. apply Forall_forall. intros g Hg Heq.
      apply NoDup_cons in Hnd as [Hnot _]. apply Hnot.
      replace (factor_ID f0) with (factor_ID g) by congruence. by apply list_elem_of_fmap_2.
Defined.
End MemoryFactors.

(** ** Examples *)
Definition demo_bytes : list Z := [0; 11; 22; 33; 44; 55].
Definition demo_notifier (m : Message) : res error unit := Ok ().
Definition demo_manager : option (string -> res error Notifier) := Some (fun _ => Ok demo_notifier).
Definition demo_otp_config : OTPConfig := mkOTPConfig (300 * Second) 6.

Lemma recovery_codes_shape_witness :
  exists codes, GenerateRecoveryCodes (fun _ _ => Ok (replicate 8 36)) = Ok codes /\ length codes = 10%nat /\
    codes !! 0%nat = codes !! 1%nat.
Proof.
  destruct (recovery_codes_shape (fun _ _ => Ok (replicate 8 36))) as (codes & Hrun & Hlen & _ & _).
  - intros i. by exists (replicate 8 36).
  - exists codes. split; [exact Hrun|]. split; [exact Hlen|]. vm_compute in Hrun. by injection Hrun as <-.
Defined.

Lemma otp_lifecycle_witness :
  exists w', otp_Challenge demo_manager demo_otp_config (fun _ => Ok demo_bytes) 0 "u1" "a@b" "email"
      (mkMWorld (mkRedis ∅ ∅) []) = (Ok "", w') /\
    (exists w'', otp_Verify (100 * Second) "u1" "012345" w' = (Ok true, w'')) /\
    (otp_Verify (300 * Second) "u1" "012345" w').1 =
      Err (Wrapf "failed to retrieve OTP from Redis (might be expired): " redis_Nil).
Proof.
  destruct (otp_lifecycle demo_manager demo_otp_config (fun _ => Ok demo_bytes) 0 _ demo_notifier demo_bytes
    "u1" "a@b" "email" (100 * Second) ["999999"] (mkMWorld (mkRedis ∅ ∅) [])
    eq_refl eq_refl ltac:(done) ltac:(done) eq_refl eq_refl eq_refl
    ltac:(apply (bool_decide_unpack _); vm_compute; exact I)) as (w' & Hrun & _ & Hin & _).
  destruct (otp_lifecycle demo_manager demo_otp_config (fun _ => Ok demo_bytes) 0 _ demo_notifier demo_bytes
    "u1" "a@b" "email" (300 * Second) ["999999"] (mkMWorld (mkRedis ∅ ∅) [])
    eq_refl eq_refl ltac:(done) ltac:(done) eq_refl eq_refl eq_refl
    ltac:(apply (bool_decide_unpack _); vm_compute; exact I)) as (w2 & Hrun2 & _ & _ & Hout).
  rewrite Hrun in Hrun2. injection Hrun2 as <-.
  exists w'. split; [exact Hrun|]. split.
  - destruct Hin as [_ (w'' & Hv & _)]; [done|]. by exists w''.
  - by apply Hout.
Defined.

Definition demo_mfa_oracle : mfa_oracle :=
  mkMFAOracle (fun u => Ok ("secret", "otpauth://" +:+ u)) (fun code secret => bool_decide (code = secret))
    (fun s => Ok ("enc " +:+ s)) (fun s => Ok (String.substring 4 (String.length s) s)) Some
    (fun _ _ => Ok (replicate 8 36)) (fun s => Ok ("hash " +:+ s)) (fun c h => bool_decide (h = "hash " +:+ c))
    encode_string decode_string.
Definition demo_new_id (r : factor_repo) : string := fresh (dom r : gset string).
Lemma demo_new_id_fresh (r : factor_repo) : r !! demo_new_id r = None.
Proof. unfold demo_new_id. apply (not_elem_of_dom (D := gset string)), (is_fresh (dom r : gset string)). Qed.

Definition demo_factors : factor_repo :=
  {[ "f1" := set_BackupCodes (encode_string ["hash AAAA"; "hash BBBB"]) (set_factor_ID "f1" demo_factor) ]}.
Lemma demo_factors_keyed : keyed_factors demo_factors.
Proof. intros id f Hf. unfold demo_factors in Hf. by apply lookup_singleton_Some in Hf as [<- <-]. Qed.

Definition demo_mfa_user : User :=
  mkUser "u1" "alice" "a@b" "" "" UserStatusActive ∅ ∅ [] 0 0 None None [] "" "".

#[local] Instance demo_repository : FactorRepository factor_repo :=
  memory_factors Some default_order demo_new_id.
#[local] Instance demo_repository_laws : FactorLaws factor_repo :=
  memory_factor_laws default_order demo_new_id demo_new_id_fresh.

Lemma recovery_code_single_use_witness :
  exists r', recovery_Verify demo_mfa_oracle demo_mfa_user "BBBB" demo_factors = (Ok true, r') /\
    exists h, mo_Check demo_mfa_oracle "BBBB" h = true.
Proof.
  destruct (recovery_code_single_use demo_mfa_oracle demo_mfa_user "BBBB" demo_factors)
    as (ok & r' & Hrun & _ & Hok & _).
  - exact decode_encode_string.
  - done.
  - exact demo_factors_keyed.
  - assert (Hex : exists h, h ∈ stored_hashes demo_mfa_oracle demo_factors (user_ID demo_mfa_user) /\
    mo_Check demo_mfa_oracle "BBBB" h = true).
    { exists "hash BBBB". split; [|done]. apply (bool_decide_unpack _). vm_compute. exact I. }
    rewrite (proj2 Hok Hex) in Hrun. exists r'. split; [exact Hrun|by exists "hash BBBB"].
Defined.

Lemma totp_pending_accepted_witness :
  exists r', totp_Enroll demo_mfa_oracle demo_mfa_user ∅ = (Ok (mkMFAEnrollment "secret" "otpauth://alice"), r') /\
    totp_Verify demo_mfa_oracle demo_mfa_user "secret" r' = (Ok true, r') /\
    totp_ListMethods demo_mfa_user r' = (Ok [], r').
Proof.
  destruct (totp_pending_accepted demo_mfa_oracle demo_mfa_user "u1" "secret" "otpauth://alice" "enc secret"
    (fun _ _ => false) "secret" (∅ : factor_repo)) as (r' & Hen & Hv & Hl & _).
  - intros id f. by rewrite lookup_empty.
  - done.
  - done.
  - done.
  - done.
  - done.
  - done.
  - exists r'. split; [exact Hen|]. split; [exact Hv|exact Hl].
Defined.

Definition demo_challenges : redis_state :=
  mkRedis {[ challengeKey "c1" := ("{u1}", 0, 0) ]} ∅.

Lemma policy_challenge_decides_witness :
  exists c', policy_VerifyMFAChallenge (fun _ => Ok []) (fun _ _ => false) (fun _ => Some "u1") 0 "c1" "webauthn"
    "anything" demo_challenges = (Ok (), c').
Proof.
  pose proof (policy_challenge_decides (fun _ => Ok []) (fun _ _ => false) (fun _ => Some "u1") 0 "c1" "webauthn"
    "anything" demo_challenges) as Hp.
  destruct Hp as (c' & Hrun & _); [intros u; by exists []|]. exists c'. exact Hrun.
Defined.
