(* ===== verification/Recovery.v ===== *)
(** * Password recovery

    internal/domain/auth/recovery_service.go: a one-time code is mailed to the
    user, and whoever presents it sets a new password; the user's sessions are
    revoked.  The service composes the identity repository ([IdentityService]),
    the one-time codes ([MFA]) and the session manager ([SessionStore]), which
    share one Redis server; hashing, mail and random bytes are arguments. *)

From S2P Require Import Prelude Types GoStd MemIdentity IdentityService Redis SessionStore MFA.
Local Open Scope Z_scope.

Definition ErrInvalidCode : error := Errorf "invalid or expired OTP code".

(** The repository, the predefined errors, and Redis with the mails sent. *)
Record rworld (R C : Type) := mkRWorld { rw_repo : R; rw_errs : errvars; rw_mfa : mworld C }.
Arguments mkRWorld {R C}.
Arguments rw_repo {R C}.
Arguments rw_errs {R C}.
Arguments rw_mfa {R C}.

Definition set_user_Password (password : string) (u : User) : User :=
  mkUser (user_ID u) (user_Username u) (user_Email u) (user_Phone u) password (user_Status u)
    (user_Attributes u) (user_PrivacySettings u) (user_Groups u) (user_CreatedAt u) (user_UpdatedAt u)
    (user_DeletedAt u) (user_LastLoginAt u) (user_MergeHistory u) (user_ExternalID u) (user_SourceType u).

Section Service.
Context `{IdentityRepository R} `{Redis C}.
Context (manager : option (string -> res error Notifier)) (config : OTPConfig).
Context (HashPassword : string -> res error string) (fuel : nat).
Notation rs A := (prog (rworld R C) error A).

Definition on_accounts {A} (m : prog R error A) : rs A :=
  zoom rw_repo (fun r w => mkRWorld r (rw_errs w) (rw_mfa w)) m.
Definition on_codes {A} (m : prog (mworld C) error A) : rs A :=
  zoom rw_mfa (fun o w => mkRWorld (rw_repo w) (rw_errs w) o) m.
Definition on_sessions {A} (m : prog C error A) : rs A :=
  zoom (fun w => mw_redis (rw_mfa w))
    (fun c w => mkRWorld (rw_repo w) (rw_errs w) (mkMWorld c (mw_sent (rw_mfa w)))) m.

(** [errors.Is(err, types.ErrUserNotFound)] *)
Definition is_unknown_user (err : error) : rs bool :=
  w ← get; lift (errors_is fuel (rw_errs w) err ErrUserNotFound).

(** [rand] are the random bytes of the request, at [now]. *)
Definition InitiateRecovery (rand : Z -> res error (list Z)) (now : time) (email : string) : rs unit :=
  found ← try (on_accounts (ir_GetUserByEmail email));
  match found with
  | inl err => unknown ← is_unknown_user err; if unknown : bool then mret () else throw err
  | inr p =>
      user ← on_accounts (ir_read p);
      on_codes (otp_Challenge manager config rand now (user_ID user) email "email") ;; mret ()
  end.

(** The password is written through the pointer before the update. *)
Definition VerifyAndReset (now : time) (email code newPassword : string) : rs unit :=
  found ← try (on_accounts (ir_GetUserByEmail email));
  match found with
  | inl err =>
      unknown ← is_unknown_user err;
      if unknown : bool then throw (Sentinel ErrInvalidCredentials) else throw err
  | inr p =>
      user ← on_accounts (ir_read p);
      valid ← on_codes (otp_Verify now (user_ID user) code);
      if negb valid then throw ErrInvalidCode
      else
        hashed ← try (lift (HashPassword newPassword));
        match hashed with
        | inl err => throw (Wrapf "failed to hash password: " err)
        | inr hashedPassword =>
            on_accounts (ir_store p (set_user_Password hashedPassword user)) ;;
            updated ← try (on_accounts (ir_UpdateUser p));
            match updated with
            | inl err => throw (Wrapf "failed to update user password: " err)
            | inr _ => try (on_sessions (RevokeAllUserSessions (user_ID user))) ;; mret ()
            end
        end
  end.
End Service.

(** ** What the service relies on

    An unknown email is the error the service asks for, and a user that was
    read is stored again under the same pointer. *)
Class AccountLaws (R : Type) `{IdentityRepository R} := {
  acc_inv : R -> Prop;
  acc_holds : R -> loc -> User -> Prop;
  acc_by_email r e : acc_inv r ->
    (exists p u, ir_GetUserByEmail e r = (Ok p, r) /\ acc_holds r p u /\ user_Email u = e) \/
    (ir_GetUserByEmail e r = (Err (Sentinel ErrUserNotFound), r) /\
     forall p u, acc_holds r p u -> user_Email u <> e);
  acc_read r p u : acc_inv r -> acc_holds r p u -> ir_read p r = (Ok u, r);
  acc_replace r p u u' : acc_inv r -> acc_holds r p u -> user_ID u' = user_ID u ->
    exists r1 r2, ir_store p u' r = (Ok (), r1) /\ ir_UpdateUser p r1 = (Ok (), r2) /\ acc_inv r2 /\
      acc_holds r2 p u' /\ forall q v, q <> p -> acc_holds r2 q v <-> acc_holds r q v
}.

(** The in-memory repository, with the errors the service expects. *)
Definition strict_account_laws ord : @AccountLaws identity_repo (strict_repository ord).
Proof.
  refine (@Build_AccountLaws identity_repo (strict_repository ord) filed stored_at _ _ _).
  - intros r e [Hv _]. cbn [ir_GetUserByEmail strict_repository]. unfold GetUserByEmail.
    match goal with |- context [find_user ord ?t ?e] => destruct (strict_find ord t e r Hv) as
      [(p & u & Hrun & Hs & Ht)|[Hrun Hno]] end.
    + left. exists p, u. by apply bool_decide_unpack in Ht.
    + right. split; [done|]. intros p u Hs%Hno. by apply bool_decide_eq_false in Hs.
  - intros r p u [Hv _] [_ Hp]. by apply user_at_run.
  - intros r p u u' [Hv Hf] [[id Hid] Hp] Hu. pose proof (Hf id p u Hid Hp) as <-.
    exists (set_user_heap (<[p := u']> (user_heap r)) r),
      (set_users (<[user_ID u := p]> (repo_users r)) (set_user_heap (<[p := u']> (user_heap r)) r)).
    assert (Hsame : <[user_ID u := p]> (repo_users r) = repo_users r) by by apply insert_id.
    split; [done|]. split; [|split; [split|split]].
    + cbn [ir_UpdateUser strict_repository]. unfold UpdateUser.
      rewrite (prog_bind_run _ _ _ u' (set_user_heap (<[p := u']> (user_heap r)) r))
        by (apply user_at_run; cbn; apply lookup_insert_eq).
      rewrite prog_get_bind. cbn [repo_users set_user_heap]. by rewrite Hu, Hid.
    + apply (insert_user_valid (set_user_heap _ r)); [by apply write_user_valid|]. cbn. rewrite lookup_insert_eq. eauto.
    + intros id q v. cbn. rewrite Hsame. intros Hq. rewrite lookup_insert. case_decide as Hpq.
      * subst q. intros [= <-]. rewrite Hu. apply (Hf id p u Hq Hp).
      * intros Hv'. by apply (Hf id q v).
    + split; [exists (user_ID u); cbn; by rewrite Hsame|cbn; apply lookup_insert_eq].
    + intros q v Hne. unfold stored_at. cbn. by rewrite Hsame, lookup_insert_ne.
Defined.

(** ** Runs *)
Section Runs.
Context `{AccountLaws R} `{RedisLaws C}.
Context (manager : option (string -> res error Notifier)) (config : OTPConfig).
Context (HashPassword : string -> res error string) (fuel : nat).
Implicit Types w : rworld R C.

Lemma on_accounts_run {A} (m : prog R error A) w a r :
  m (rw_repo w) = (a, r) -> on_accounts (C := C) m w = (a, mkRWorld r (rw_errs w) (rw_mfa w)).
Proof. intros Hm. unfold on_accounts, zoom. by rewrite Hm. Qed.

Lemma on_codes_run {A} (m : prog (mworld C) error A) w a o :
  m (rw_mfa w) = (a, o) -> on_codes (R := R) m w = (a, mkRWorld (rw_repo w) (rw_errs w) o).
Proof. intros Hm. unfold on_codes, zoom. by rewrite Hm. Qed.

Lemma on_sessions_run {A} (m : prog C error A) w a c :
  m (mw_redis (rw_mfa w)) = (a, c) ->
  on_sessions (R := R) m w = (a, mkRWorld (rw_repo w) (rw_errs w) (mkMWorld c (mw_sent (rw_mfa w)))).
Proof. intros Hm. unfold on_sessions, zoom. by rewrite Hm. Qed.

Lemma try_lift {A B} (r : res error A) (k : error + A -> prog (rworld R C) error B) w :
  (try (lift r) ≫= k) w =
    match r with Ok a => k (inr a) w | Err e => k (inl e) w | Panic => (Panic, w) | Diverge => (Diverge, w) end.
Proof. unfold try, lift, mbind, prog_bind. by destruct r. Qed.

Lemma try_run {A B} (m : prog (rworld R C) error A) (k : error + A -> prog (rworld R C) error B) w a w' :
  m w = (Ok a, w') -> (try m ≫= k) w = k (inr a) w'.
Proof. intros Hm. unfold try, mbind, prog_bind. by rewrite Hm. Qed.

Lemma same_world w : mkRWorld (rw_repo w) (rw_errs w) (rw_mfa w) = w.
Proof. by destruct w. Qed.

(** [account w email p u]: the user whom the email finds. *)
Definition account w (email : string) (p : loc) (u : User) : Prop :=
  ir_GetUserByEmail email (rw_repo w) = (Ok p, rw_repo w) /\ acc_holds (rw_repo w) p u.
Definition nobody w (email : string) : Prop := forall p u, acc_holds (rw_repo w) p u -> user_Email u <> email.

Lemma lookup_account w email p u {A} (k : error + loc -> prog (rworld R C) error A) :
  acc_inv (rw_repo w) -> account w email p u ->
  (try (on_accounts (C := C) (ir_GetUserByEmail email)) ≫= k) w = k (inr p) w.
Proof.
  intros Hinv [Hget _]. unfold try, mbind, prog_bind. rewrite (on_accounts_run _ _ _ _ Hget). by rewrite same_world.
Qed.

Lemma read_account w email p u {A} (k : User -> prog (rworld R C) error A) :
  acc_inv (rw_repo w) -> account w email p u ->
  (on_accounts (C := C) (ir_read p) ≫= k) w = k u w.
Proof.
  intros Hinv [_ Hh]. unfold mbind, prog_bind.
  rewrite (on_accounts_run _ _ _ _ (acc_read (rw_repo w) p u Hinv Hh)). by rewrite same_world.
Qed.

Lemma lookup_nobody w email {A} (k : error + loc -> prog (rworld R C) error A) :
  acc_inv (rw_repo w) -> nobody w email ->
  (try (on_accounts (C := C) (ir_GetUserByEmail email)) ≫= k) w = k (inl (Sentinel ErrUserNotFound)) w.
Proof.
  intros Hinv Hno. destruct (acc_by_email (rw_repo w) email Hinv) as [(p & u & _ & Hh & He)|[Hget _]].
  - by destruct (Hno p u Hh).
  - unfold try, mbind, prog_bind. rewrite (on_accounts_run _ _ _ _ Hget). by rewrite same_world.
Qed.

Lemma unknown_user_run w {A} (k : bool -> prog (rworld R C) error A) :
  (0 < fuel)%nat ->
  (is_unknown_user (R := R) (C := C) fuel (Sentinel ErrUserNotFound) ≫= k) w = k true w.
Proof.
  intros Hf. unfold is_unknown_user. unfold mbind at 1, prog_bind at 1. unfold mbind, prog_bind, get, lift.
  by rewrite errors_is_self.
Qed.

(** Revoking deletes the indexed sessions and nothing else. *)
Lemma revoke_all_deletes u c :
  exists c', RevokeAllUserSessions u c = (Ok (), c') /\
    (forall t id, id ∈ zmembers c (userSessionsKey u) -> kv c' t (sessionKey id) = None) /\
    (forall t k, (forall id, id ∈ zmembers c (userSessionsKey u) -> k <> sessionKey id) -> kv c' t k = kv c t k).
Proof.
  unfold RevokeAllUserSessions. rewrite (prog_bind_run _ _ c _ _ (law_ZRange_all c (userSessionsKey u))).
  generalize (zmembers c (userSessionsKey u)). intros ids. revert c.
  induction ids as [|i ids IH]; intros c.
  - exists c. split; [done|]. split; [|done]. by intros t id ?%elem_of_nil.
  - destruct (delete_run u i c) as (c1 & Hrun & Hkv & _). destruct (IH c1) as (c2 & Hrest & Hdel & Hkeep).
    exists c2. split; [cbn [for_each]; by rewrite (ignore_run _ _ _ _ _ Hrun)|]. split.
    + intros t id [->|Hid]%elem_of_cons; [|by apply Hdel].
      destruct (decide (i ∈ ids)) as [Hin|Hout]; [by apply Hdel|].
      rewrite Hkeep by (by intros id Hid ->%sessionKey_inj). by rewrite Hkv, decide_True.
    + intros t k Hk. rewrite Hkeep by (intros id Hid; apply Hk, elem_of_cons; by right).
      rewrite Hkv, decide_False; [done|]. intros <-. by apply (Hk i); [apply elem_of_cons; left|].
Qed.

(** The world after a reset: the password is replaced, the code is used up and
    the indexed sessions of the user are gone. *)
Definition reset_done w now (p : loc) (u : User) (hash : string) w' : Prop :=
  acc_inv (rw_repo w') /\ acc_holds (rw_repo w') p (set_user_Password hash u) /\
  (forall q v, q <> p -> acc_holds (rw_repo w') q v <-> acc_holds (rw_repo w) q v) /\
  rw_errs w' = rw_errs w /\ mw_sent (rw_mfa w') = mw_sent (rw_mfa w) /\
  kv (mw_redis (rw_mfa w')) now (otpKey (user_ID u)) = None /\
  forall t id, id ∈ zmembers (mw_redis (rw_mfa w)) (userSessionsKey (user_ID u)) ->
    kv (mw_redis (rw_mfa w')) t (sessionKey id) = None.

Lemma otp_Verify_keeps now userID code (o : mworld C) a o' :
  otp_Verify now userID code o = (a, o') ->
  mw_sent o' = mw_sent o /\ forall z, zmembers (mw_redis o') z = zmembers (mw_redis o) z.
Proof.
  unfold otp_Verify. assert (Hget : on_otp_redis (r_Get now (otpKey userID)) o =
    (match kv (mw_redis o) now (otpKey userID) with Some v => Ok v | None => Err redis_Nil end, o)).
  { unfold on_otp_redis, zoom. rewrite law_Get. by destruct o. }
  destruct (kv (mw_redis o) now (otpKey userID)) as [stored|].
  - rewrite (wrap_err_ok _ _ _ _ _ _ Hget). destruct (bool_decide (stored = code)); [|by intros [= _ <-]].
    destruct (law_Del (mw_redis o) (otpKey userID)) as (c' & Hdel & _ & Hz).
    unfold on_otp_redis, zoom, mbind, prog_bind, try. rewrite Hdel. by intros [= _ <-].
  - rewrite (wrap_err_err _ _ _ _ _ _ Hget). by intros [= _ <-].
Qed.

Lemma otpKey_not_session id i : otpKey id <> sessionKey i.
Proof. by unfold otpKey, sessionKey. Qed.

Lemma VerifyAndReset_run now email code newPassword p u w :
  acc_inv (rw_repo w) -> account w email p u ->
  let stored := kv (mw_redis (rw_mfa w)) now (otpKey (user_ID u)) in
  let run := VerifyAndReset HashPassword fuel now email code newPassword w in
  match stored with
  | None => run = (Err (Wrapf "failed to retrieve OTP from Redis (might be expired): " redis_Nil), w)
  | Some c =>
      if bool_decide (c = code) then
        match HashPassword newPassword with
        | Ok hash => exists w', run = (Ok (), w') /\ reset_done w now p u hash w'
        | Err err => run.1 = Err (Wrapf "failed to hash password: " err) /\ rw_repo run.2 = rw_repo w
        | Panic => run.1 = Panic
        | Diverge => run.1 = Diverge
        end
      else run = (Err ErrInvalidCode, w)
  end.
Proof.
  intros Hinv Hacc stored run. unfold run, VerifyAndReset.
  rewrite (lookup_account _ _ _ _ _ Hinv Hacc), (read_account _ _ _ _ _ Hinv Hacc).
  destruct (otp_Verify_run now (user_ID u) code (rw_mfa w)) as (o & Hv & Hkv). fold stored in Hv, Hkv.
  destruct (otp_Verify_keeps _ _ _ _ _ _ Hv) as [Hsent Hmem].
  apply (on_codes_run _ w) in Hv.
  destruct stored as [c|]; [|rewrite bool_decide_eq_false_2 in Hkv by done; subst o;
    rewrite (prog_bind_fail _ _ _ _ _ Hv); by rewrite same_world].
  rewrite (prog_bind_run _ _ _ _ _ Hv).
  destruct (bool_decide_reflect (c = code)) as [->|Hne];
    [|rewrite bool_decide_eq_false_2 in Hkv by congruence; subst o; cbn [negb]; by rewrite same_world].
  rewrite bool_decide_eq_true_2 in Hkv by done. cbn [negb]. rewrite try_lift.
  destruct (HashPassword newPassword) as [hash|err| |]; [|done..].
  destruct Hacc as [Hget Hh].
  destruct (acc_replace (rw_repo w) p u (set_user_Password hash u) Hinv Hh eq_refl)
    as (r1 & r2 & Hstore & Hupd & Hinv2 & Hh2 & Hothers).
  destruct (revoke_all_deletes (user_ID u) (mw_redis o)) as (c' & Hrevoke & Hdel & Hkeep).
  eexists. split.
  - rewrite (prog_bind_run _ _ _ () (mkRWorld r1 (rw_errs w) o)) by (by apply (on_accounts_run _ (mkRWorld (rw_repo w) (rw_errs w) o))).
    rewrite (try_run _ _ _ _ _ (on_accounts_run _ (mkRWorld r1 (rw_errs w) o) _ _ Hupd)).
    by rewrite (try_run _ _ _ _ _ (on_sessions_run _ (mkRWorld r2 (rw_errs w) o) _ _ Hrevoke)).
  - split; [done|]. split; [done|]. split; [done|]. split; [done|]. split; [done|]. cbn [rw_mfa mw_redis]. split.
    + rewrite Hkeep by (intros id _; apply otpKey_not_session). by rewrite Hkv, decide_True.
    + intros t id Hid. apply Hdel. by rewrite Hmem.
Qed.
End Runs.

(** ** Properties *)

(** What a request to set a new password does: nothing and an error for an
    email nobody has, for a code that expired and for a wrong one - which is an
    error of another kind than that for an unknown email -; with the code that
    was mailed the password is replaced, nobody else's account is touched, the
    code is used up and the sessions the user's index lists are revoked. *)
Theorem reset_decides `{AccountLaws R} `{RedisLaws C} HashPassword fuel now email code newPassword (w : rworld R C) :
  acc_inv (rw_repo w) -> (0 < fuel)%nat ->
  let run := VerifyAndReset HashPassword fuel now email code newPassword w in
  (nobody w email -> run = (Err (Sentinel ErrInvalidCredentials), w)) /\
  forall p u, account w email p u ->
    let stored := kv (mw_redis (rw_mfa w)) now (otpKey (user_ID u)) in
    (stored = None ->
       run = (Err (Wrapf "failed to retrieve OTP from Redis (might be expired): " redis_Nil), w)) /\
    (forall c, stored = Some c -> c <> code -> run = (Err ErrInvalidCode, w)) /\
    (stored = Some code -> forall hash, HashPassword newPassword = Ok hash ->
       exists w', run = (Ok (), w') /\ reset_done w now p u hash w').
Proof.
  intros Hinv Hf run. split.
  - intros Hno. unfold run, VerifyAndReset. rewrite (lookup_nobody _ _ _ Hinv Hno). by rewrite unknown_user_run.
  - intros p u Hacc stored. pose proof (VerifyAndReset_run HashPassword fuel now email code newPassword p u w Hinv Hacc) as Hrun.
    cbv zeta in Hrun. fold stored run in Hrun. split; [|split].
    + intros Hs. by rewrite Hs in Hrun.
    + intros c Hs Hne. rewrite Hs, bool_decide_eq_false_2 in Hrun by done. exact Hrun.
    + intros Hs hash Hhash. by rewrite Hs, bool_decide_eq_true_2, Hhash in Hrun.
Qed.


(** The server builds the service without a notifier manager: a recovery for an
    email that somebody has panics, and one for any other is answered, so that
    the answer tells them apart. *)
Theorem server_recovery_panics `{AccountLaws R} `{Redis C} config fuel rand now email (w : rworld R C) :
  acc_inv (rw_repo w) -> (0 < fuel)%nat ->
  (forall p u, account w email p u -> InitiateRecovery None config fuel rand now email w = (Panic, w)) /\
  (nobody w email -> InitiateRecovery None config fuel rand now email w = (Ok (), w)).
Proof.
  intros Hinv Hf. split.
  - intros p u Hacc. unfold InitiateRecovery.
    rewrite (lookup_account _ _ _ _ _ Hinv Hacc), (read_account _ _ _ _ _ Hinv Hacc). by destruct w.
  - intros Hno. unfold InitiateRecovery. rewrite (lookup_nobody _ _ _ Hinv Hno). by rewrite unknown_user_run.
Qed.

(** ** Examples *)
#[local] Instance demo_accounts : IdentityRepository identity_repo := strict_repository default_order.
#[local] Instance demo_account_laws : AccountLaws identity_repo := strict_account_laws default_order.

Lemma demo_filed : filed demo_repo.
Proof.
  split; [exact demo_repo_valid|]. intros id p u Hid Hp.
  destruct (demo_stored id u) as [-> ->]; [by exists p|done].
Qed.

Definition demo_hash (password : string) : res error string := Ok ("hash " +:+ password).
Definition demo_sessions : redis_state :=
  mkRedis {[ "session:s1" := ("data", 0, 0) ]} {[ "user_sessions:u1" := [(0, "s1")] ]}.
Definition demo_world : rworld identity_repo redis_state := mkRWorld demo_repo ∅ (mkMWorld demo_sessions []).
Lemma demo_inv : acc_inv (rw_repo demo_world).
Proof. exact demo_filed. Defined.
Lemma demo_account : account demo_world "alice@example.org" 1%positive alice.
Proof. split; [by vm_compute|]. split; [by exists "u1"|done]. Defined.
Lemma demo_nobody : nobody demo_world "bob@example.org".
Proof. intros p u [[id Hid] Hp]. by destruct (demo_stored id u) as [_ ->]; [exists p|]. Defined.


Lemma reset_decides_witness :
  VerifyAndReset demo_hash 5 0 "bob@example.org" "012345" "new" demo_world =
    (Err (Sentinel ErrInvalidCredentials), demo_world) /\
  VerifyAndReset demo_hash 5 0 "alice@example.org" "012345" "new" demo_world =
    (Err (Wrapf "failed to retrieve OTP from Redis (might be expired): " redis_Nil), demo_world).
Proof.
  destruct (reset_decides demo_hash 5 0 "bob@example.org" "012345" "new" demo_world demo_inv ltac:(lia)) as [Hno _].
  destruct (reset_decides demo_hash 5 0 "alice@example.org" "012345" "new" demo_world demo_inv ltac:(lia)) as [_ Hacc].
  split; [apply Hno; exact demo_nobody|]. by apply (Hacc 1%positive alice demo_account).
Defined.

Lemma server_recovery_panics_witness :
  InitiateRecovery None demo_otp_config 5 (fun _ => Ok demo_bytes) 0 "alice@example.org" demo_world = (Panic, demo_world) /\
  InitiateRecovery None demo_otp_config 5 (fun _ => Ok demo_bytes) 0 "bob@example.org" demo_world = (Ok (), demo_world).
Proof.
  split.
  - apply (proj1 (server_recovery_panics demo_otp_config 5 (fun _ => Ok demo_bytes) 0 "alice@example.org" demo_world
      demo_inv ltac:(lia)) 1%positive alice demo_account).
  - apply (proj2 (server_recovery_panics demo_otp_config 5 (fun _ => Ok demo_bytes) 0 "bob@example.org" demo_world
      demo_inv ltac:(lia)) demo_nobody).
Defined.
