(* ===== verification/Scim.v ===== *)
(** * SCIM provisioning

    - pkg/scim/types.go and schemas.go: the resources of the protocol;
    - internal/protocols/scim/adapter.go: users and groups as resources and back;
    - internal/server/http/handlers/scim.go: the endpoints, over the domain
      identity service ([IdentityService]).

    A decoded request body is an argument ([None] is one that does not decode),
    and so are random bytes, identifiers and how times print.  A nested
    [map[string]interface{}] is an [AnyStruct]. *)

From S2P Require Import Prelude Types GoStd GoText MemIdentity IdentityService.
From stdpp Require Import pretty.
From Stdlib Require Import Ascii.
Local Open Scope Z_scope.

(** ** Resources (pkg/scim) *)
Definition SchemaUser : string := "urn:ietf:params:scim:schemas:core:2.0:User".
Definition SchemaGroup : string := "urn:ietf:params:scim:schemas:core:2.0:Group".
Definition SchemaListResponse : string := "urn:ietf:params:scim:api:messages:2.0:ListResponse".
Definition SchemaError : string := "urn:ietf:params:scim:api:messages:2.0:Error".

Record Meta := mkMeta {
  meta_ResourceType : string;
  meta_Created : string;
  meta_LastModified : string;
  meta_Location : string;
  meta_Version : string
}.
Record Resource := mkResource { res_Schemas : list string; res_ID : string; res_Meta : option Meta }.

Record PersonName := mkPersonName {
  name_Formatted : string;
  name_FamilyName : string;
  name_GivenName : string;
  name_MiddleName : string;
  name_HonorificPrefix : string;
  name_HonorificSuffix : string
}.
(** [Email] and [Phone], which have the same fields *)
Record Contact := mkContact { contact_Value : string; contact_Type : string; contact_Primary : bool }.
(** [GroupRef] and [Member], which have the same fields *)
Record Reference := mkReference { ref_Value : string; ref_Display : string; ref_Ref : string }.

Record SCIMUser := mkSCIMUser {
  su_Resource : Resource;
  su_UserName : string;
  su_ExternalID : string;
  su_Active : bool;
  su_Name : option PersonName;
  su_Emails : list Contact;
  su_PhoneNumbers : list Contact;
  su_Groups : list Reference
}.
Record SCIMGroup := mkSCIMGroup {
  sg_Resource : Resource;
  sg_DisplayName : string;
  sg_ExternalID : string;
  sg_Members : list Reference
}.

Inductive any_resource : Type := ResUser (u : SCIMUser) | ResGroup (g : SCIMGroup).
Record ListResponse := mkListResponse {
  lr_Schemas : list string;
  lr_TotalResults : Z;
  lr_ItemsPerPage : Z;
  lr_StartIndex : Z;
  lr_Resources : list any_resource
}.
Record SCIMError := mkSCIMError {
  se_Schemas : list string;
  se_Status : string;
  se_ScimType : string;
  se_Detail : string
}.

(** ** The adapter (internal/protocols/scim/adapter.go) *)

(** The loop over addresses: a primary one, or the first. *)
Definition pick_contact (l : list Contact) : string :=
  foldl (fun current c =>
    if contact_Primary c || bool_decide (current = "") then contact_Value c else current) "" l.

Definition set_field (key value : string) (fields : list (string * any)) : list (string * any) :=
  if bool_decide (value = "") then fields else fields ++ [(key, AnyString value)].

Definition name_map (n : PersonName) : any :=
  AnyStruct (set_field "formatted" (name_Formatted n)
    (set_field "familyName" (name_FamilyName n) (set_field "givenName" (name_GivenName n) []))).

Definition user_attributes (s : SCIMUser) : gmap string any :=
  let attrs := if bool_decide (su_ExternalID s = "") then ∅
               else {[ "externalId" := AnyString (su_ExternalID s) ]} in
  match su_Name s with
  | Some n => <["name" := name_map n]> attrs
  | None => attrs
  end.

Definition ToDomainUser (s : SCIMUser) : User :=
  mkUser "" (su_UserName s) (pick_contact (su_Emails s)) (pick_contact (su_PhoneNumbers s)) ""
    (if su_Active s then UserStatusActive else UserStatusInactive)
    (user_attributes s) ∅ [] zero_time zero_time None None [] "" "".

(** [m[key].(string)] of a nested map, and of the attributes *)
Definition map_string (fields : list (string * any)) (key : string) : string :=
  match List.find (fun kv => bool_decide (kv.1 = key)) fields with
  | Some (_, AnyString s) => s
  | _ => ""
  end.
Definition attribute_string (attrs : gmap string any) (key : string) : string :=
  match attrs !! key with Some (AnyString s) => s | _ => "" end.

Definition contacts_of (value : string) : list Contact :=
  if bool_decide (value = "") then [] else [mkContact value "work" true].

Section Adapter.
Context (Format : time -> string).

Definition resource_of (schema kind id : string) (created updated : time) : Resource :=
  mkResource [schema] id (Some (mkMeta kind (Format created) (Format updated) "" "")).

Definition ToSCIMUser (u : User) : SCIMUser :=
  mkSCIMUser (resource_of SchemaUser "User" (user_ID u) (user_CreatedAt u) (user_UpdatedAt u))
    (user_Username u)
    (attribute_string (user_Attributes u) "externalId")
    (bool_decide (user_Status u = UserStatusActive))
    match user_Attributes u !! "name" with
    | Some (AnyStruct fields) =>
        Some (mkPersonName (map_string fields "formatted") (map_string fields "familyName")
          (map_string fields "givenName") "" "" "")
    | _ => None
    end
    (contacts_of (user_Email u)) (contacts_of (user_Phone u)) [].

Definition ToDomainGroup (s : SCIMGroup) : UserGroup :=
  mkUserGroup "" (sg_DisplayName s) "" None
    (if bool_decide (sg_ExternalID s = "") then ∅ else {[ "externalId" := AnyString (sg_ExternalID s) ]}) zero_time zero_time.

(** [users] is the [Users] field of the group. *)
Definition ToSCIMGroup (g : UserGroup) (users : list User) : SCIMGroup :=
  mkSCIMGroup (resource_of SchemaGroup "Group" (group_ID g) (group_CreatedAt g) (group_UpdatedAt g))
    (group_Name g) (attribute_string (group_Metadata g) "externalId")
    ((fun u => mkReference (user_ID u) (user_Username u) ("/scim/v2/Users/" +:+ user_ID u)) <$> users).
End Adapter.

(** ** Filters and passwords *)

(** The regular expression of the handler: userName, spaces, eq, spaces, and a
    value between quotes, which is the submatch.  A match is sought from each
    position on; at a position there is at most one. *)
Definition quote : ascii := "034".
Definition re_space (c : ascii) : bool :=
  bool_decide (c ∈ [" "; "009"; "010"; "012"; "013"]%char).

Fixpoint span (test : ascii -> bool) (s : string) : string * string :=
  match s with
  | String c rest => if test c then let '(a, b) := span test rest in (String c a, b) else ("", s)
  | EmptyString => ("", "")
  end.

Definition literal (lit s : string) : option string :=
  if strings_HasPrefix s lit then Some (strings_TrimPrefix s lit) else None.
Definition some_of (test : ascii -> bool) (s : string) : option (string * string) :=
  let '(a, b) := span test s in if bool_decide (a = "") then None else Some (a, b).

Definition match_at (s : string) : option string :=
  s ← literal "userName" s;
  '(_, s) ← some_of re_space s;
  s ← literal "eq" s;
  '(_, s) ← some_of re_space s;
  s ← literal (String quote "") s;
  '(value, s) ← some_of (fun c => negb (bool_decide (c = quote))) s;
  _ ← literal (String quote "") s;
  Some value.

Fixpoint FindStringSubmatch (s : string) : option string :=
  match match_at s with
  | Some value => Some value
  | None => match s with String _ rest => FindStringSubmatch rest | EmptyString => None end
  end.

(** [GenerateRandomString] (pkg/utils/crypto.go) *)
Definition charset : string :=
  "abcdefghijklmnopqrstuvwxyzABCDEFGHIJKLMNOPQRSTUVWXYZ0123456789!@#$%^&*()_+".
Definition GenerateRandomString (rand : nat -> res error (list Z)) (len : nat) : res error string :=
  bytes ← rand len;
  Ok (foldr (fun b s => String (default "a"%char (String.get (Z.to_nat (b mod Z.of_nat (String.length charset))) charset)) s)
    "" bytes).

(** ** The endpoints (internal/server/http/handlers/scim.go) *)
Inductive scim_body : Type :=
  | BodyResource (x : any_resource)
  | BodyList (l : ListResponse)
  | BodyError (e : SCIMError)
  | NoBody.
Record scim_response := mkScimResponse { sr_status : Z; sr_body : scim_body }.

Definition writeError (status : Z) (scimType detail : string) : scim_response :=
  mkScimResponse status (BodyError (mkSCIMError [SchemaError] (pretty status) scimType detail)).
Definition internal_error : scim_response := writeError 500 "" "Internal server error".
Definition invalid_syntax : scim_response := writeError 400 "invalidSyntax" "Failed to parse request body".

(** [user.Username = dUser.Username], ... of [PutUser] *)
Definition put_fields (d u : User) : User :=
  mkUser (user_ID u) (user_Username d) (user_Email d) (user_Phone d) (user_Password u) (user_Status d)
    (user_Attributes d) (user_PrivacySettings u) (user_Groups u) (user_CreatedAt u) (user_UpdatedAt u)
    (user_DeletedAt u) (user_LastLoginAt u) (user_MergeHistory u) (user_ExternalID u) (user_SourceType u).
Definition set_user_Attributes (attrs : gmap string any) (u : User) : User :=
  mkUser (user_ID u) (user_Username u) (user_Email u) (user_Phone u) (user_Password u) (user_Status u)
    attrs (user_PrivacySettings u) (user_Groups u) (user_CreatedAt u) (user_UpdatedAt u)
    (user_DeletedAt u) (user_LastLoginAt u) (user_MergeHistory u) (user_ExternalID u) (user_SourceType u).
(** The name, and the external identifier when there is one, of [PutGroup] *)
Definition put_group_fields (d g : UserGroup) : UserGroup :=
  mkUserGroup (group_ID g) (group_Name d) (group_Description g) (group_ParentID g)
    match group_Metadata d !! "externalId" with
    | Some v => <["externalId" := v]> (group_Metadata g)
    | None => group_Metadata g
    end (group_CreatedAt g) (group_UpdatedAt g).

Section Handlers.
Context `{IdentityRepository R}.
Context (Format : time -> string) (HashPassword : string -> res error string) (fuel : nat).
Context (rand : nat -> res error (list Z)).
(** The [Users] a repository has loaded with a group. *)
Context (group_Users : loc -> list User).

Definition answer (status : Z) (x : any_resource) : scim_response :=
  mkScimResponse status (BodyResource x).
Definition user_resource (p : loc) : svc R any_resource :=
  u ← on_repo (ir_read p); mret (ResUser (ToSCIMUser Format u)).
Definition group_resource (p : loc) (users : list User) : svc R any_resource :=
  g ← on_repo (ir_read_group p); mret (ResGroup (ToSCIMGroup Format g users)).

Definition scim_CreateUser (uuid repo_uuid : string) (body : option SCIMUser) : svc R scim_response :=
  match body with
  | None => mret invalid_syntax
  | Some sUser =>
      let dUser := ToDomainUser sUser in
      drawn ← try (lift (GenerateRandomString rand 32));
      match drawn with
      | inl _ => mret internal_error
      | inr password =>
          made ← try (service_CreateUser HashPassword fuel uuid repo_uuid
                        (user_Username dUser) (user_Email dUser) password);
          match made with
          | inl err =>
              conflict ← is_error fuel err ErrConflict;
              mret (if conflict : bool then writeError 409 "uniqueness" "User already exists"
                    else internal_error)
          | inr p =>
              (if bool_decide (user_Attributes dUser = ∅) then mret () else
                 u ← on_repo (ir_read p);
                 on_repo (ir_store p (set_user_Attributes (user_Attributes dUser ∪ user_Attributes u) u)) ;;
                 try (service_UpdateUser p) ;; mret ()) ;;
              x ← user_resource p;
              mret (answer 201 x)
          end
      end
  end.

(** [errors.Is(err, types.ErrNotFound)] decides between 404 and 500. *)
Definition not_found_or_internal (err : error) (detail : string) : svc R scim_response :=
  missing ← is_error fuel err ErrNotFound;
  mret (if missing : bool then writeError 404 "" detail else internal_error).

Definition scim_GetUser (id : string) : svc R scim_response :=
  found ← try (service_GetUserByID id);
  match found with
  | inl err => not_found_or_internal err ("Resource " +:+ id +:+ " not found")
  | inr p => x ← user_resource p; mret (answer 200 x)
  end.

Definition scim_DeleteUser (id : string) : svc R scim_response :=
  deleted ← try (service_DeleteUser fuel id);
  match deleted with
  | inl err => not_found_or_internal err ("Resource " +:+ id +:+ " not found")
  | inr _ => mret (mkScimResponse 204 NoBody)
  end.

Definition list_filter (filterParam : string) : UserFilter :=
  mkUserFilter (default "" (FindStringSubmatch filterParam)) [] 0 0 "" "".

Definition list_answer (total : Z) (l : list any_resource) : scim_response :=
  mkScimResponse 200 (BodyList (mkListResponse [SchemaListResponse] total (Z.of_nat (length l)) 1 l)).

Definition scim_ListUsers (filterParam : string) : svc R scim_response :=
  listed ← try (service_ListUsers (list_filter filterParam));
  match listed with
  | inl _ => mret internal_error
  | inr (users, total) => l ← mapM user_resource users; mret (list_answer total l)
  end.

Definition scim_PutUser (id : string) (body : option SCIMUser) : svc R scim_response :=
  found ← try (service_GetUserByID id);
  match found with
  | inl _ => mret (writeError 404 "" "User not found")
  | inr p =>
      match body with
      | None => mret invalid_syntax
      | Some sUser =>
          u ← on_repo (ir_read p);
          on_repo (ir_store p (put_fields (ToDomainUser sUser) u)) ;;
          updated ← try (service_UpdateUser p);
          match updated with
          | inl _ => mret internal_error
          | inr _ => x ← user_resource p; mret (answer 200 x)
          end
      end
  end.

(** One round of the loop over the members: a failure is only logged. *)
Definition add_member (p : loc) (member : Reference) : svc R unit :=
  if bool_decide (ref_Value member = "") then mret () else
    g ← on_repo (ir_read_group p);
    try (service_AddUserToGroup (ref_Value member) (group_ID g)) ;; mret ().

Definition scim_CreateGroup (uuid repo_uuid : string) (body : option SCIMGroup) : svc R scim_response :=
  match body with
  | None => mret invalid_syntax
  | Some sGroup =>
      p ← on_repo (ir_alloc_group (set_group_ID uuid (ToDomainGroup sGroup)));
      created ← try (service_CreateGroup repo_uuid p);
      match created with
      | inl _ => mret internal_error
      | inr _ =>
          for_each (add_member p) (sg_Members sGroup) ;;
          x ← group_resource p [];
          mret (answer 201 x)
      end
  end.

Definition scim_GetGroup (id : string) : svc R scim_response :=
  found ← try (service_GetGroup id);
  match found with
  | inl err => not_found_or_internal err "Group not found"
  | inr p => x ← group_resource p (group_Users p); mret (answer 200 x)
  end.

Definition scim_PutGroup (id : string) (body : option SCIMGroup) : svc R scim_response :=
  found ← try (service_GetGroup id);
  match found with
  | inl _ => mret (writeError 404 "" "Group not found")
  | inr p =>
      match body with
      | None => mret invalid_syntax
      | Some sGroup =>
          g ← on_repo (ir_read_group p);
          on_repo (ir_store_group p (put_group_fields (ToDomainGroup sGroup) g)) ;;
          updated ← try (service_UpdateGroup p);
          match updated with
          | inl _ => mret internal_error
          | inr _ => x ← group_resource p (group_Users p); mret (answer 200 x)
          end
      end
  end.

Definition scim_DeleteGroup (id : string) : svc R scim_response :=
  deleted ← try (service_DeleteGroup id);
  match deleted with
  | inl _ => mret (writeError 404 "" "Group not found")
  | inr _ => mret (mkScimResponse 204 NoBody)
  end.

Definition scim_ListGroups : svc R scim_response :=
  listed ← try (service_ListGroups 0 100);
  match listed with
  | inl _ => mret internal_error
  | inr groups =>
      l ← mapM (fun p => group_resource p (group_Users p)) groups;
      mret (list_answer (Z.of_nat (length groups)) l)
  end.
End Handlers.

(** ** The adapter *)
Lemma pick_contacts_of v : pick_contact (contacts_of v) = v.
Proof. unfold contacts_of. case_bool_decide; [by subst|done]. Qed.

Lemma pick_app l1 l2 :
  pick_contact (l1 ++ l2) = foldl (fun current c =>
    if contact_Primary c || bool_decide (current = "") then contact_Value c else current) (pick_contact l1) l2.
Proof. apply foldl_app. Qed.

(** A value that is kept through the rest of the list. *)
Lemma pick_stays v l : v <> "" -> Forall (fun c => contact_Primary c = false) l ->
  foldl (fun current c =>
    if contact_Primary c || bool_decide (current = "") then contact_Value c else current) v l = v.
Proof.
  intros Hv. induction 1 as [|c l Hc _ IH]; [done|]. cbn. rewrite Hc, bool_decide_eq_false_2 by done. exact IH.
Qed.

Lemma pick_empty l : Forall (fun c => contact_Value c = "") l -> pick_contact l = "".
Proof.
  unfold pick_contact. induction 1 as [|c l Hc _ IH]; [done|]. cbn. rewrite orb_true_r, Hc. exact IH.
Qed.

Lemma name_map_back n m :
  name_map n = AnyStruct m ->
  name_map (mkPersonName (map_string m "formatted") (map_string m "familyName") (map_string m "givenName") "" "" "") =
    name_map n.
Proof.
  unfold name_map. intros [= <-]. cbn [name_Formatted name_FamilyName name_GivenName]. unfold set_field.
  destruct (decide (name_Formatted n = "")) as [Hf|Hf], (decide (name_FamilyName n = "")) as [Hm|Hm],
    (decide (name_GivenName n = "")) as [Hg|Hg];
    repeat (rewrite ?(bool_decide_eq_true_2 _ Hf), ?(bool_decide_eq_false_2 _ Hf), ?(bool_decide_eq_true_2 _ Hm),
      ?(bool_decide_eq_false_2 _ Hm), ?(bool_decide_eq_true_2 _ Hg), ?(bool_decide_eq_false_2 _ Hg); cbn);
    reflexivity.
Qed.

Lemma attributes_external s : attribute_string (user_attributes s) "externalId" = su_ExternalID s.
Proof.
  unfold attribute_string, user_attributes. destruct (su_Name s);
    rewrite ?lookup_insert_ne by done; case_bool_decide as Hx;
    rewrite ?lookup_empty, ?lookup_singleton_eq, ?Hx; reflexivity.
Qed.

Lemma attributes_name s : user_attributes s !! "name" = name_map <$> su_Name s.
Proof.
  unfold user_attributes. destruct (su_Name s); [apply lookup_insert_eq|].
  case_bool_decide; [apply lookup_empty|by apply lookup_singleton_ne].
Qed.

(** A user resource that goes through the domain model keeps its name,
    external identifier, activity and the parts of the person's name, and one
    address and one telephone number: the last primary one, or the first that
    is not empty when none is primary.  Going through the domain model a second
    time changes nothing. *)
Theorem adapter_roundtrip Format s :
  let back := ToSCIMUser Format (ToDomainUser s) in
  ToDomainUser back = ToDomainUser s /\
  su_UserName back = su_UserName s /\ su_ExternalID back = su_ExternalID s /\ su_Active back = su_Active s /\
  (forall l1 c l2, su_Emails s = l1 ++ c :: l2 -> contact_Value c <> "" ->
     Forall (fun c => contact_Primary c = false) l2 ->
     contact_Primary c = true \/ Forall (fun c => contact_Value c = "") l1 ->
     su_Emails back = [mkContact (contact_Value c) "work" true]) /\
  (forall l1 c l2, su_PhoneNumbers s = l1 ++ c :: l2 -> contact_Value c <> "" ->
     Forall (fun c => contact_Primary c = false) l2 ->
     contact_Primary c = true \/ Forall (fun c => contact_Value c = "") l1 ->
     su_PhoneNumbers back = [mkContact (contact_Value c) "work" true]).
Proof.
  assert (Hpick : forall l1 c l2, contact_Value c <> "" -> Forall (fun c => contact_Primary c = false) l2 ->
    contact_Primary c = true \/ Forall (fun c => contact_Value c = "") l1 ->
    contacts_of (pick_contact (l1 ++ c :: l2)) = [mkContact (contact_Value c) "work" true]).
  { intros l1 c l2 Hv Hl2 Hc. rewrite pick_app. cbn [foldl].
    replace (contact_Primary c || bool_decide (pick_contact l1 = "")) with true.
    - rewrite pick_stays by done. unfold contacts_of. by rewrite bool_decide_eq_false_2.
    - destruct Hc as [->|Hl1]; [done|]. rewrite (pick_empty _ Hl1). by destruct (contact_Primary c). }
  intros back. split; [|split; [done|split; [apply attributes_external|split; [|split]]]].
  - unfold back, ToDomainUser at 1. cbn [ToSCIMUser su_UserName su_Emails su_PhoneNumbers su_Active].
    rewrite !pick_contacts_of. unfold ToDomainUser. cbn. f_equal; [by destruct (su_Active s)|].
    unfold user_attributes at 1. cbn [ToSCIMUser su_ExternalID su_Name]. cbn [user_Attributes].
    rewrite attributes_external, attributes_name. unfold user_attributes.
    destruct (su_Name s) as [n|]; [|done]. cbn. f_equal. by apply name_map_back.
  - cbn. by destruct (su_Active s).
  - intros l1 c l2 Hl. cbn. rewrite Hl. apply Hpick.
  - intros l1 c l2 Hl. cbn. rewrite Hl. apply Hpick.
Qed.

(** ** The filter *)
Lemma span_spec test s :
  let '(a, b) := span test s in
  s = a +:+ b /\ str_all test a = true /\ match b with String c _ => test c = false | EmptyString => True end.
Proof.
  induction s as [|c s IH]; [done|]. cbn [span]. destruct (test c) eqn:Hc.
  - destruct (span test s) as [a b]. destruct IH as (-> & Ha & Hb). cbn. by rewrite Hc, Ha.
  - done.
Qed.

Lemma span_app test a b :
  str_all test a = true -> match b with String c _ => test c = false | EmptyString => True end ->
  span test (a +:+ b) = (a, b).
Proof.
  intros Ha Hb. induction a as [|c a IH].
  - change ("" +:+ b) with b. destruct b as [|c b]; [done|]. cbn [span]. by rewrite Hb.
  - cbn in Ha. apply andb_true_iff in Ha as [Hc Ha]. rewrite string_app_cons. cbn. by rewrite Hc, IH.
Qed.

Lemma prefix_split p s : strings_HasPrefix s p = true -> exists rest, s = p +:+ rest.
Proof.
  unfold strings_HasPrefix. revert s. induction p as [|c p IH]; intros s; [by exists s|].
  destruct s as [|d s]; [done|]. cbn. destruct (ascii_dec c d) as [<-|]; [|done].
  intros (rest & ->)%IH. by exists rest.
Qed.

Lemma literal_some lit s rest : literal lit s = Some rest <-> s = lit +:+ rest.
Proof.
  unfold literal. split.
  - destruct (strings_HasPrefix s lit) eqn:Hp; [|done]. apply prefix_split in Hp as [t ->].
    rewrite strings_TrimPrefix_app. by intros [= ->].
  - intros ->. by rewrite strings_HasPrefix_app, strings_TrimPrefix_app.
Qed.

Lemma some_of_some test s a b :
  some_of test s = Some (a, b) <->
  s = a +:+ b /\ a <> "" /\ str_all test a = true /\
    match b with String c _ => test c = false | EmptyString => True end.
Proof.
  unfold some_of. split.
  - pose proof (span_spec test s) as Hs. destruct (span test s) as [x y]. destruct Hs as (-> & Hx & Hy).
    case_bool_decide; [done|]. by intros [= -> ->].
  - intros (-> & Ha & Hall & Hb). rewrite span_app by done. by rewrite bool_decide_eq_false_2.
Qed.

Lemma some_of_app test a c b :
  a <> "" -> str_all test a = true -> test c = false -> some_of test (a +:+ String c b) = Some (a, String c b).
Proof. intros Ha Hall Hc. by apply some_of_some. Qed.

(** What the expression matches at the start of [s]. *)
Definition unquoted (c : ascii) : bool := negb (bool_decide (c = quote)).
Definition query_at (s value : string) : Prop :=
  exists sp1 sp2 rest,
    s = "userName" +:+ sp1 +:+ "eq" +:+ sp2 +:+ String quote (value +:+ String quote rest) /\
    sp1 <> "" /\ str_all re_space sp1 = true /\ sp2 <> "" /\ str_all re_space sp2 = true /\
    value <> "" /\ str_all unquoted value = true.

Lemma match_at_spec s value : match_at s = Some value <-> query_at s value.
Proof.
  unfold match_at, query_at. split.
  - intros (s1 & ->%literal_some & Hm)%bind_Some.
    apply bind_Some in Hm as ([sp1 s2] & (-> & Hn1 & Ha1 & _)%some_of_some & Hm).
    apply bind_Some in Hm as (s3 & ->%literal_some & Hm).
    apply bind_Some in Hm as ([sp2 s4] & (-> & Hn2 & Ha2 & _)%some_of_some & Hm).
    apply bind_Some in Hm as (s5 & ->%literal_some & Hm).
    apply bind_Some in Hm as ([v s6] & (-> & Hn3 & Ha3 & _)%some_of_some & Hm).
    apply bind_Some in Hm as (rest & ->%literal_some & [= ->]).
    by exists sp1, sp2, rest.
  - intros (sp1 & sp2 & rest & -> & Hn1 & Ha1 & Hn2 & Ha2 & Hn3 & Ha3).
    rewrite (proj2 (literal_some _ _ _) eq_refl). cbn [mbind option_bind].
    change (sp1 +:+ "eq" +:+ ?x) with (sp1 +:+ String "e" (String "q" x)).
    rewrite (some_of_app re_space sp1 "e" _ Hn1 Ha1 eq_refl). cbn [mbind option_bind].
    change (String "e" (String "q" ?x)) with ("eq" +:+ x).
    rewrite (proj2 (literal_some "eq" _ _) eq_refl). cbn [mbind option_bind].
    rewrite (some_of_app re_space sp2 quote _ Hn2 Ha2 eq_refl). cbn [mbind option_bind].
    change (String quote (value +:+ ?x)) with (String quote "" +:+ (value +:+ x)).
    rewrite (proj2 (literal_some (String quote "") _ _) eq_refl). cbn [mbind option_bind].
    rewrite (some_of_app unquoted value quote _ Hn3 Ha3 eq_refl). cbn [mbind option_bind].
    change (String quote rest) with (String quote "" +:+ rest).
    by rewrite (proj2 (literal_some (String quote "") _ _) eq_refl).
Qed.

(** The submatch is the value of the leftmost match, and there is none exactly
    when the expression matches nowhere. *)
Theorem filter_submatch s :
  (forall value, FindStringSubmatch s = Some value <->
     exists pre t, s = pre +:+ t /\ query_at t value /\
       forall pre' t' v, s = pre' +:+ t' -> (String.length pre' < String.length pre)%nat -> ~ query_at t' v) /\
  (FindStringSubmatch s = None <-> forall pre t v, s = pre +:+ t -> ~ query_at t v).
Proof.
  induction s as [|c s [IHs IHn]].
  - assert (Hno : forall t v, ~ query_at t v \/ t <> "") by (intros [|]; [left; intros (? & ? & ? & [=] & _)|by right]).
    assert (Hempty : forall pre t v, "" = pre +:+ t -> ~ query_at t v).
    { intros [|] t v Ht; [|done]. cbn in Ht. destruct (Hno t v); [done|]. by subst. }
    cbn. split; [|by split]. intros value. split; [done|]. intros (pre & t & Ht & Hq & _). by edestruct Hempty.
  - cbn [FindStringSubmatch]. destruct (match_at (String c s)) as [v|] eqn:Hm.
    + apply match_at_spec in Hm. split.
      * intros value. split.
        -- intros [= <-]. exists "", (String c s). split; [done|]. split; [done|]. cbn. lia.
        -- intros (pre & t & Ht & Hq & Hfirst). destruct pre as [|d pre].
           ++ change ("" +:+ t) with t in Ht. subst t. apply match_at_spec in Hm, Hq. congruence.
           ++ exfalso. apply (Hfirst "" (String c s) v); [done|cbn; lia|done].
      * split; [done|]. intros Hnone. by edestruct (Hnone "" (String c s) v).
    + assert (Hhere : forall v, ~ query_at (String c s) v) by (intros v Hq%match_at_spec; congruence). split.
      * intros value. rewrite IHs. split.
        -- intros (pre & t & -> & Hq & Hfirst). exists (String c pre), t. split; [done|]. split; [done|].
           intros [|d pre'] t' v Ht Hl; [change ("" +:+ t') with t' in Ht; subst t'; apply Hhere|].
           cbn in Hl. rewrite string_app_cons in Ht. injection Ht as _ Ht. apply (Hfirst pre'); [done|lia].
        -- intros ([|d pre] & t & Ht & Hq & Hfirst); [change ("" +:+ t) with t in Ht; subst t; by edestruct Hhere|].
           rewrite string_app_cons in Ht. injection Ht as _ Ht. exists pre, t. split; [done|]. split; [done|].
           intros pre' t' v Ht' Hl. apply (Hfirst (String c pre')); [by rewrite Ht'|cbn; lia].
      * rewrite IHn. split.
        -- intros Hno [|d pre] t v Ht; [change ("" +:+ t) with t in Ht; subst t; apply Hhere|].
           rewrite string_app_cons in Ht. injection Ht as _ Ht. by apply (Hno pre).
        -- intros Hno pre t v Ht. apply (Hno (String c pre)). by rewrite Ht.
Qed.

(** ** Runs of the service *)
Section ServiceRuns.
Context `{IdentityRepository R}.

Lemma try_ok {S E A} (m : prog S E A) s a s' : m s = (Ok a, s') -> try m s = (Ok (inr a), s').
Proof. unfold try. by intros ->. Qed.

Lemma or_internal_ok {A} (m : prog R error A) r vs a r' :
  m r = (Ok a, r') -> or_internal m (r, vs) = (Ok a, (r', vs)).
Proof. intros Hm. unfold or_internal. by rewrite (try_on_repo_ok m _ r vs a r' Hm). Qed.

Lemma or_not_found_ok {A} (m : prog R error A) details r vs a r' :
  m r = (Ok a, r') -> or_not_found m details (r, vs) = (Ok a, (r', vs)).
Proof. intros Hm. unfold or_not_found. by rewrite (try_on_repo_ok m _ r vs a r' Hm). Qed.
End ServiceRuns.

(** ** Users

    What the endpoints rely on: a user is filed under an identifier, and one
    that was found is stored again under the same pointer. *)
Class DirectoryLaws (R : Type) `{IdentityRepository R} := {
  dir_inv : R -> Prop;
  dir_holds : R -> string -> loc -> User -> Prop;
  dir_find r id : dir_inv r ->
    (exists p u, ir_GetUserByID id r = (Ok p, r) /\ dir_holds r id p u) \/
    (exists err, ir_GetUserByID id r = (Err err, r) /\ forall p u, ~ dir_holds r id p u);
  dir_unique r id p u q v : dir_inv r -> dir_holds r id p u -> dir_holds r id q v -> p = q /\ u = v;
  dir_read r id p u : dir_inv r -> dir_holds r id p u -> ir_read p r = (Ok u, r);
  dir_replace r id p u u' : dir_inv r -> dir_holds r id p u -> user_ID u' = user_ID u ->
    exists r1 r2, ir_store p u' r = (Ok (), r1) /\ ir_UpdateUser p r1 = (Ok (), r2) /\ dir_inv r2 /\
      dir_holds r2 id p u' /\
      forall id' q v, id' <> id -> dir_holds r2 id' q v <-> dir_holds r id' q v
}.

Definition filed_at (r : identity_repo) (id : string) (p : loc) (u : User) : Prop :=
  repo_users r !! id = Some p /\ user_heap r !! p = Some u.

Definition memory_directory_laws ord : @DirectoryLaws identity_repo (memory_repository ord).
Proof.
  refine (@Build_DirectoryLaws identity_repo (memory_repository ord) filed filed_at _ _ _ _).
  - intros r id [Hv _]. cbn [ir_GetUserByID memory_repository]. unfold GetUserByID. rewrite prog_get_bind.
    destruct (repo_users r !! id) as [p|] eqn:Hid.
    + left. destruct (valid_users r Hv id p Hid) as [u Hu]. exists p, u. done.
    + right. eexists. split; [done|]. intros p u [Hp _]. congruence.
  - intros r id p u q v _ [Hp Hu] [Hq Hv]. assert (p = q) as -> by congruence. split; [done|congruence].
  - intros r id p u _ [_ Hp]. by apply user_at_run.
  - intros r id p u u' [Hv Hf] [Hid Hp] Hu. pose proof (Hf id p u Hid Hp) as Heq.
    assert (Hsame : <[id := p]> (repo_users r) = repo_users r) by by apply insert_id.
    exists (set_user_heap (<[p := u']> (user_heap r)) r),
      (set_users (<[id := p]> (repo_users r)) (set_user_heap (<[p := u']> (user_heap r)) r)).
    split; [done|]. split; [|split; [split|split]].
    + cbn [ir_UpdateUser memory_repository]. unfold UpdateUser.
      rewrite (prog_bind_run _ _ _ u' (set_user_heap (<[p := u']> (user_heap r)) r))
        by (apply user_at_run; cbn; apply lookup_insert_eq).
      rewrite prog_get_bind. cbn [repo_users set_user_heap]. by rewrite Hu, Heq, Hid.
    + apply (insert_user_valid (set_user_heap _ r)); [by apply write_user_valid|]. cbn. rewrite lookup_insert_eq. eauto.
    + intros i q v. cbn. rewrite Hsame. intros Hq. rewrite lookup_insert. case_decide as Hpq.
      * subst q. intros [= <-]. rewrite Hu. apply (Hf i p u Hq Hp).
      * intros Hv'. by apply (Hf i q v).
    + unfold filed_at. cbn. rewrite Hsame. split; [done|apply lookup_insert_eq].
    + intros i q v Hne. unfold filed_at. cbn. rewrite Hsame. split; intros [Hi Hq]; (split; [done|]).
      * rewrite lookup_insert in Hq. case_decide as Hpq; [|done]. subst q. exfalso. apply Hne.
        pose proof (Hf i p u Hi Hp). congruence.
      * rewrite lookup_insert_ne; [done|]. intros ->. apply Hne. pose proof (Hf i q v Hi Hq).
        pose proof (Hf id q v Hid Hq). congruence.
Defined.

Section UserRuns.
Context `{DirectoryLaws R} (Format : time -> string) (fuel : nat).
Implicit Types (r : R) (vs : errvars).

Lemma found_run {A} (f : error + loc -> svc R A) r vs id p u :
  dir_inv r -> dir_holds r id p u -> (try (service_GetUserByID id) ≫= f) (r, vs) = f (inr p) (r, vs).
Proof.
  intros Hinv Hh. destruct (dir_find r id Hinv) as [(q & v & Hq & Hh')|(err & _ & Hno)].
  - destruct (dir_unique r id p u q v Hinv Hh Hh') as [<- _].
    unfold service_GetUserByID, or_not_found, mbind, prog_bind, try, on_repo, zoom. cbn [fst]. by rewrite Hq.
  - by edestruct Hno.
Qed.

Lemma missing_run {A} (f : error + loc -> svc R A) r vs id :
  dir_inv r -> (forall p u, ~ dir_holds r id p u) ->
  exists vs', (try (service_GetUserByID id) ≫= f) (r, vs) = f (inl (Sentinel ErrNotFound)) (r, vs').
Proof.
  intros Hinv Hno. destruct (dir_find r id Hinv) as [(q & v & _ & Hh)|(err & Hq & _)]; [by edestruct Hno|].
  eexists. unfold service_GetUserByID, or_not_found, mbind, prog_bind, try, on_repo, zoom. cbn [fst].
  rewrite Hq. cbn [snd fst]. rewrite fail_not_found_run. reflexivity.
Qed.

Lemma user_resource_run {A} (f : any_resource -> svc R A) r vs id p u :
  dir_inv r -> dir_holds r id p u ->
  (user_resource Format p ≫= f) (r, vs) = f (ResUser (ToSCIMUser Format u)) (r, vs).
Proof.
  intros Hinv Hh. unfold user_resource. rewrite prog_assoc.
  by rewrite (prog_bind_run _ _ _ u (r, vs)) by by apply on_repo_run, (dir_read r id p u).
Qed.

Lemma not_found_answer detail (w : R * errvars) :
  (0 < fuel)%nat -> not_found_or_internal fuel (Sentinel ErrNotFound) detail w = (Ok (writeError 404 "" detail), w).
Proof.
  intros Hf. unfold not_found_or_internal, is_error, mbind, prog_bind, get, lift. by rewrite errors_is_self.
Qed.
End UserRuns.

(** C31: [PUT /Users/{id}] answers 404 when there is no such user and 400 when
    the body does not decode, changing no user; otherwise it answers 200 with
    the user as it is then stored: name, address, telephone, status and
    attributes are those of the body, everything else is kept, nobody else
    changes, and reading the user again gives the resource of the answer. *)
Theorem put_user_contract `{DirectoryLaws R} Format fuel (r : R) vs id body :
  dir_inv r -> (0 < fuel)%nat ->
  ((forall p u, ~ dir_holds r id p u) -> exists vs',
     scim_PutUser Format id body (r, vs) = (Ok (writeError 404 "" "User not found"), (r, vs'))) /\
  (forall p u, dir_holds r id p u ->
     (body = None -> scim_PutUser Format id body (r, vs) = (Ok invalid_syntax, (r, vs))) /\
     (forall s, body = Some s ->
        let u' := put_fields (ToDomainUser s) u in
        let answered := answer 200 (ResUser (ToSCIMUser Format u')) in
        exists r', scim_PutUser Format id body (r, vs) = (Ok answered, (r', vs)) /\ dir_inv r' /\
          dir_holds r' id p u' /\
          (forall id' q v, id' <> id -> dir_holds r' id' q v <-> dir_holds r id' q v) /\
          scim_GetUser Format fuel id (r', vs) = (Ok answered, (r', vs)))).
Proof.
  intros Hinv Hf. split.
  - intros Hno. unfold scim_PutUser. match goal with |- context [(try _ ≫= ?f) _] =>
      destruct (missing_run f r vs id Hinv Hno) as [vs' ->] end.
    exists vs'. reflexivity.
  - intros p u Hh. unfold scim_PutUser. rewrite (found_run _ r vs id p u Hinv Hh). split.
    { by intros ->. }
    intros s ->. set (u' := put_fields (ToDomainUser s) u).
    destruct (dir_replace r id p u u' Hinv Hh) as (r1 & r2 & Hstore & Hupd & Hinv2 & Hh2 & Hrest); [done|].
    exists r2. split; [|split; [done|split; [done|split; [done|]]]].
    + rewrite (prog_bind_run _ _ _ u (r, vs)) by by apply on_repo_run, (dir_read r id p u).
      rewrite (prog_bind_run _ _ _ () (r1, vs)) by by apply on_repo_run.
      unfold service_UpdateUser.
      rewrite (prog_bind_run _ _ _ (inr ()) (r2, vs)) by by apply try_ok, or_internal_ok.
      by rewrite (user_resource_run Format _ r2 vs id p u' Hinv2 Hh2).
    + unfold scim_GetUser. rewrite (found_run _ r2 vs id p u' Hinv2 Hh2).
      by rewrite (user_resource_run Format _ r2 vs id p u' Hinv2 Hh2).
Qed.

Lemma random_string_nonempty rand len bytes :
  rand len = Ok bytes -> bytes <> [] -> exists pw, GenerateRandomString rand len = Ok pw /\ pw <> "".
Proof.
  intros Hr Hb. unfold GenerateRandomString. rewrite Hr. cbn [mbind res_bind].
  destruct bytes as [|b bytes]; [done|]. eexists. by split.
Qed.

(** With the in-memory repository, which reports an unknown name with an
    error of its own, [POST /Users] never creates anyone: the answer is 400 for
    a body that does not decode, 409 for a name that is taken and 500 for one
    that is not, and the repository is left as it was.  [GET /Users] counts the
    users but lists none, whatever the filter: it asks for pages of no users. *)
Theorem memory_provisioning ord Format hash fuel rand bytes (r : identity_repo) vs uuid id body filterParam :
  valid r -> (1 < fuel)%nat -> rand 32%nat = Ok bytes -> bytes <> [] ->
  let run := @scim_CreateUser _ (memory_repository ord) Format hash fuel rand uuid id body (r, vs) in
  (body = None -> run = (Ok invalid_syntax, (r, vs))) /\
  (forall s, body = Some s -> su_UserName s <> "" -> pick_contact (su_Emails s) <> "" ->
     ((exists i u, stored r i u /\ user_Username u = su_UserName s) ->
        exists vs', run = (Ok (writeError 409 "uniqueness" "User already exists"), (r, vs'))) /\
     (~ (exists i u, stored r i u /\ user_Username u = su_UserName s) ->
        exists vs', run = (Ok internal_error, (r, vs')))) /\
  @scim_ListUsers _ (memory_repository ord) Format filterParam (r, vs) =
    (Ok (list_answer (Z.of_nat (size (repo_users r))) []), (r, vs)).
Proof.
  intros Hv Hf Hrand Hbytes run. split; [|split].
  - intros ->. reflexivity.
  - intros s -> Hn He. destruct (random_string_nonempty rand _ _ Hrand Hbytes) as (pw & Hpw & Hne).
    assert (Hrun : forall e vs', @service_CreateUser _ (memory_repository ord) hash fuel uuid id (su_UserName s)
      (pick_contact (su_Emails s)) pw (r, vs) = (Err e, (r, vs')) -> run =
      (conflict ← is_error fuel e ErrConflict;
       mret (if conflict : bool then writeError 409 "uniqueness" "User already exists" else internal_error)) (r, vs')).
    { intros e vs' Hs. unfold run, scim_CreateUser.
      rewrite (prog_bind_run _ _ _ (inr pw) (r, vs)) by (unfold try, lift; by rewrite Hpw).
      cbn [ToDomainUser user_Username user_Email].
      rewrite (prog_bind_run _ _ _ (inl e) (r, vs')); [reflexivity|]. unfold try. by rewrite Hs. }
    revert Hrun. unfold service_CreateUser. rewrite !bool_decide_eq_false_2 by done. cbn [orb].
    cbn [ir_GetUserByUsername memory_repository]. unfold GetUserByUsername. intros Hrun.
    match goal with _ : context [find_user ord ?t ?e] |- _ =>
      destruct (find_user_spec ord t e r Hv) as [[Hl Hno]|(i & p & u & Hl & Hi & Hp & Ht)] end.
    + split.
      { intros (i & u & Hs & Hu). exfalso. specialize (Hno i u Hs). by rewrite bool_decide_eq_false in Hno. }
      intros _. eexists. erewrite Hrun by (by apply ensure_absent_failed; [lia|exact Hl]).
      unfold is_error, mbind, prog_bind, get, lift. cbn [snd].
      destruct fuel as [|[|fuel']]; [lia..|]. cbn [errors_is]. rewrite decide_False by done.
      cbn [unwrap]. rewrite errvar_of_WithCause, decide_True by done. cbn [err_cause].
      by rewrite decide_False by done.
    + apply bool_decide_unpack in Ht. split.
      * intros _. eexists. erewrite Hrun by (by eapply ensure_absent_found).
        unfold is_error, mbind, prog_bind, get, lift. by rewrite errors_is_self by lia.
      * intros []. exists i, u. split; [by exists p|done].
  - unfold scim_ListUsers, service_ListUsers.
    rewrite (try_on_repo_ok _ _ r vs ([], Z.of_nat (size (repo_users r))) r); [reflexivity|].
    cbn [ir_ListUsers memory_repository]. unfold ListUsers.
    rewrite prog_get_bind. cbn [list_filter filter_Page filter_PageSize].
    change (int64 (int64 (0 - 1) * 0)) with 0. rewrite bool_decide_eq_false_2 by lia. rewrite page_ok by lia.
    by rewrite prog_lift_bind, length_fmap, range_length.
Qed.

(** ** Groups *)
Lemma group_at_run p r g : group_heap r !! p = Some g -> group_at p r = (Ok g, r).
Proof. intros Hp. unfold group_at. rewrite prog_get_bind. by rewrite Hp. Qed.

Lemma CreateGroup_run ord uuid p g (r : identity_repo) :
  valid r -> group_heap r !! p = Some g ->
  (forall id q h, repo_groups r !! id = Some q -> group_heap r !! q = Some h -> group_Name h <> group_Name g) ->
  CreateGroup ord uuid p r = (Ok (), set_groups (<[uuid := p]> (repo_groups r))
    (set_group_heap (<[p := set_group_ID uuid g]> (group_heap r)) r)).
Proof.
  intros Hv Hp Hnew. unfold CreateGroup. rewrite prog_get_bind.
  assert (Hrest : forall dup, dup = None -> (match dup with
    | Some e => throw e
    | None => g ← group_at p; write_group p (set_group_ID uuid g);;
        modify (fun r => set_groups (<[uuid := p]> (repo_groups r)) r) end) r =
    (Ok (), set_groups (<[uuid := p]> (repo_groups r)) (set_group_heap (<[p := set_group_ID uuid g]> (group_heap r)) r))).
  { intros dup ->. by rewrite (prog_bind_run _ _ _ g r) by by apply group_at_run. }
  case_bool_decide as Hemp.
  - replace (range ord (repo_groups r)) with (@nil (string * loc)) by by rewrite Hemp, range_empty.
    exact (Hrest None eq_refl).
  - rewrite prog_assoc, (prog_bind_run _ _ _ g r) by by apply group_at_run.
    rewrite (prog_bind_run _ _ _ (Some g) r) by done.
    match goal with |- context [scan ?h ?b ?l] =>
      destruct (scan_spec h b l) as [[Hs Hno]|(b' & k & q & x & Hs & Hin & Hx & Hb)] end.
    + intros k q Hin%elem_of_range. by apply (valid_groups r Hv k).
    + unfold mbind at 1, prog_bind at 1, lift at 1. rewrite Hs. exact (Hrest None eq_refl).
    + exfalso. apply elem_of_range in Hin. cbn in Hb. case_bool_decide as Hname; [|done]. by eapply Hnew.
Qed.

(** The loop over the members of a new group. *)
Definition enrolled (r : identity_repo) (g : string) (members : list Reference) (uid : string) : option (gset string) :=
  if bool_decide (uid <> "" /\ uid ∈ ref_Value <$> members /\ is_Some (repo_users r !! uid))
  then Some ({[g]} ∪ default ∅ (repo_userGroups r !! uid)) else repo_userGroups r !! uid.

Section GroupRuns.
Context (ord : map_order).
#[local] Instance scim_repository : IdentityRepository identity_repo := memory_repository ord.

Lemma add_member_run p gr m (r : identity_repo) vs :
  is_Some (repo_groups r !! group_ID gr) -> group_heap r !! p = Some gr ->
  exists ug vs', add_member p m (r, vs) = (Ok (), (set_userGroups ug r, vs')) /\
    forall uid, ug !! uid = enrolled r (group_ID gr) [m] uid.
Proof.
  intros [q Hg] Hp. unfold add_member, enrolled. cbn [fmap list_fmap].
  assert (Hsame : (ref_Value m <> "" -> repo_users r !! ref_Value m = None) -> forall uid,
    repo_userGroups r !! uid = if bool_decide (uid <> "" /\ uid ∈ [ref_Value m] /\ is_Some (repo_users r !! uid))
      then Some ({[group_ID gr]} ∪ default ∅ (repo_userGroups r !! uid)) else repo_userGroups r !! uid).
  { intros Hm uid. rewrite bool_decide_eq_false_2; [done|]. intros (Hne & ->%list_elem_of_singleton & [x Hx]).
    by rewrite (Hm Hne) in Hx. }
  destruct (decide (ref_Value m = "")) as [Hm|Hm].
  { rewrite bool_decide_eq_true_2 by done. exists (repo_userGroups r), vs.
    split; [by destruct r|by apply Hsame]. }
  rewrite bool_decide_eq_false_2 by done. pose proof (AddUserToGroup_run (ref_Value m) (group_ID gr) r) as Hadd.
  rewrite (prog_bind_run _ _ _ gr (r, vs)) by by apply on_repo_run, group_at_run.
  unfold service_AddUserToGroup, or_not_found, or_internal, mbind, prog_bind, try, on_repo, zoom.
  cbn [ir_GetUserByID ir_GetGroupByID ir_AddUserToGroup scim_repository memory_repository fst].
  unfold GetUserByID at 1, mbind at 1, prog_bind at 1, get at 1.
  rewrite Hg in Hadd. destruct (repo_users r !! ref_Value m) as [u|] eqn:Hu.
  - cbn [mret prog_ret fst snd]. unfold GetGroupByID at 1, mbind at 1, prog_bind at 1, get at 1.
    rewrite Hg. cbn [mret prog_ret fst snd]. rewrite Hadd. eexists _, vs. split; [reflexivity|].
    intros uid. rewrite lookup_insert. case_decide as Heq.
    + subst uid. rewrite bool_decide_eq_true_2; [done|]. by rewrite list_elem_of_singleton, Hu.
    + rewrite bool_decide_eq_false_2; [done|]. rewrite list_elem_of_singleton. naive_solver.
  - cbn [throw fst snd]. rewrite fail_not_found_run. eexists (repo_userGroups r), _.
    split; [cbn [fst snd]; by destruct r|by apply Hsame].
Qed.

Lemma enrolled_cons (r : identity_repo) ug g m members uid :
  (forall uid, ug !! uid = enrolled r g [m] uid) ->
  enrolled (set_userGroups ug r) g members uid = enrolled r g (m :: members) uid.
Proof.
  intros Hug. unfold enrolled. cbn [repo_users repo_userGroups set_userGroups fmap list_fmap]. rewrite Hug.
  unfold enrolled. cbn [fmap list_fmap].
  destruct (decide (uid <> "" /\ is_Some (repo_users r !! uid))) as [[Hne Hu]|Hno].
  - destruct (decide (uid = ref_Value m)) as [->|Hm].
    + rewrite !(bool_decide_eq_true_2 (_ /\ ref_Value m ∈ ref_Value m :: _ /\ _)) by (rewrite elem_of_cons; auto).
      case_bool_decide; [|done]. cbn [default]. f_equal. set_solver.
    + rewrite (bool_decide_eq_false_2 (_ /\ _ ∈ [_] /\ _)) by (rewrite list_elem_of_singleton; naive_solver).
      assert (bool_decide (uid <> "" /\ uid ∈ ref_Value <$> members /\ is_Some (repo_users r !! uid)) =
        bool_decide (uid <> "" /\ uid ∈ ref_Value m :: (ref_Value <$> members) /\ is_Some (repo_users r !! uid)))
        as ->; [|done].
      apply bool_decide_ext. rewrite elem_of_cons. naive_solver.
  - rewrite !bool_decide_eq_false_2 by naive_solver. done.
Qed.

Lemma members_run p gr members (r : identity_repo) vs :
  is_Some (repo_groups r !! group_ID gr) -> group_heap r !! p = Some gr ->
  exists ug vs', for_each (add_member p) members (r, vs) = (Ok (), (set_userGroups ug r, vs')) /\
    forall uid, ug !! uid = enrolled r (group_ID gr) members uid.
Proof.
  revert r vs. induction members as [|m members IH]; intros r vs Hg Hp; cbn [for_each].
  - exists (repo_userGroups r), vs. split; [by destruct r|]. intros uid. unfold enrolled.
    rewrite bool_decide_eq_false_2; [done|]. intros (_ & []%elem_of_nil & _).
  - destruct (add_member_run p gr m r vs Hg Hp) as (ug & vs1 & Hadd & Hug).
    rewrite (prog_bind_run _ _ _ () (set_userGroups ug r, vs1)) by exact Hadd.
    destruct (IH (set_userGroups ug r) vs1 Hg Hp) as (ug' & vs' & Hrun & Hug'). exists ug', vs'.
    split; [exact Hrun|]. intros uid. rewrite Hug'. by apply enrolled_cons.
Qed.
End GroupRuns.

(** [POST /Groups], for a name that no group has. *)
Lemma create_group_run ord Format (r : identity_repo) vs uuid id s :
  valid r ->
  (forall i q h, repo_groups r !! i = Some q -> group_heap r !! q = Some h -> group_Name h <> sg_DisplayName s) ->
  let g := set_group_ID id (ToDomainGroup s) in
  exists r' vs', @scim_CreateGroup _ (memory_repository ord) Format uuid id (Some s) (r, vs) =
      (Ok (answer 201 (ResGroup (ToSCIMGroup Format g []))), (r', vs')) /\
    repo_users r' = repo_users r /\ user_heap r' = user_heap r /\
    (exists p, repo_groups r' !! id = Some p /\ group_heap r' !! p = Some g) /\
    forall uid, repo_userGroups r' !! uid = enrolled r id (sg_Members s) uid.
Proof.
  intros Hv Hnew g.
  set (g0 := set_group_ID uuid (ToDomainGroup s)). set (p := fresh (dom (group_heap r))).
  assert (Hp : group_heap r !! p = None) by apply not_elem_of_dom, is_fresh.
  set (r0 := set_group_heap (<[p := g0]> (group_heap r)) r).
  assert (Hfresh : forall i, repo_groups r !! i <> Some p).
  { intros i Hi. destruct (valid_groups r Hv i p Hi) as [h Hh]. congruence. }
  assert (Hv0 : valid r0) by by apply write_group_valid.
  assert (Hg0 : group_heap r0 !! p = Some g0) by apply lookup_insert_eq.
  assert (Hcreate : CreateGroup ord id p r0 = (Ok (), set_groups (<[id := p]> (repo_groups r))
    (set_group_heap (<[p := g]> (group_heap r0)) r0))).
  { apply (CreateGroup_run ord id p g0 r0 Hv0 Hg0). intros i q h Hi Hq. cbn in Hi, Hq.
    rewrite lookup_insert_ne in Hq by congruence. by apply (Hnew i q). }
  set (r1 := set_groups _ _) in Hcreate.
  assert (Hg1 : group_heap r1 !! p = Some g) by apply lookup_insert_eq.
  destruct (members_run ord p g (sg_Members s) r1 vs) as (ug & vs' & Hrun & Hug); [|exact Hg1|].
  { cbn. rewrite lookup_insert_eq. by eexists. }
  exists (set_userGroups ug r1), vs'. split; [|split; [done|split; [done|split; [|exact Hug]]]].
  + unfold scim_CreateGroup.
    rewrite (prog_bind_run _ _ _ p (r0, vs)) by by apply on_repo_run.
    rewrite (prog_bind_run _ _ _ (inr ()) (r1, vs)) by by apply try_ok, or_internal_ok.
    rewrite (prog_bind_run _ _ _ () (set_userGroups ug r1, vs')) by exact Hrun.
    unfold group_resource. rewrite prog_assoc.
    by rewrite (prog_bind_run _ _ _ g (set_userGroups ug r1, vs')) by by apply on_repo_run, group_at_run.
  + exists p. split; [apply lookup_insert_eq|exact Hg1].
Qed.

(** C0: [POST /Groups] with a name that no group has creates the group under
    the identifier the repository gives it, and enrols those of the members
    that are users, leaving every other membership as it was; who is not a
    user is passed over.  The answer lists no members.  [PUT /Groups/{id}]
    renames the group, whatever members its body lists: no membership changes. *)
Theorem group_members ord Format (group_Users : loc -> list User) (r : identity_repo) vs uuid id s :
  valid r ->
  (forall i q h, repo_groups r !! i = Some q -> group_heap r !! q = Some h -> group_Name h <> sg_DisplayName s) ->
  let g := set_group_ID id (ToDomainGroup s) in
  (exists r' vs', @scim_CreateGroup _ (memory_repository ord) Format uuid id (Some s) (r, vs) =
      (Ok (answer 201 (ResGroup (ToSCIMGroup Format g []))), (r', vs')) /\
    repo_users r' = repo_users r /\ user_heap r' = user_heap r /\
    (exists p, repo_groups r' !! id = Some p /\ group_heap r' !! p = Some g) /\
    forall uid, repo_userGroups r' !! uid = enrolled r id (sg_Members s) uid) /\
  (forall i q h t, repo_groups r !! i = Some q -> group_heap r !! q = Some h -> group_ID h = i ->
     exists r', @scim_PutGroup _ (memory_repository ord) Format group_Users i (Some t) (r, vs) =
       (Ok (answer 200 (ResGroup (ToSCIMGroup Format (put_group_fields (ToDomainGroup t) h) (group_Users q)))), (r', vs)) /\
     repo_userGroups r' = repo_userGroups r /\
     group_heap r' !! q = Some (put_group_fields (ToDomainGroup t) h)).
Proof.
  intros Hv Hnew g. split.
  - by apply create_group_run.
  - intros i q h t Hi Hq Hh. set (h' := put_group_fields (ToDomainGroup t) h).
    set (r1 := set_group_heap (<[q := h']> (group_heap r)) r).
    set (r2 := set_groups (<[i := q]> (repo_groups r)) r1).
    assert (Hh' : group_heap r1 !! q = Some h') by apply lookup_insert_eq.
    exists r2. split; [|by split].
    unfold scim_PutGroup.
    rewrite (prog_bind_run _ _ _ (inr q) (r, vs)).
    2: { apply try_ok, or_not_found_ok. cbn [ir_GetGroupByID memory_repository]. unfold GetGroupByID.
         rewrite prog_get_bind. by rewrite Hi. }
    rewrite (prog_bind_run _ _ _ h (r, vs)) by by apply on_repo_run, group_at_run.
    rewrite (prog_bind_run _ _ _ () (r1, vs)) by by apply on_repo_run.
    rewrite (prog_bind_run _ _ _ (inr ()) (r2, vs)).
    2: { apply try_ok, or_internal_ok. cbn [ir_UpdateGroup memory_repository]. unfold UpdateGroup.
         rewrite (prog_bind_run _ _ _ h' r1) by by apply group_at_run.
         rewrite prog_get_bind. cbn [group_ID put_group_fields h' repo_groups set_group_heap r1]. by rewrite Hh, Hi. }
    unfold group_resource. rewrite prog_assoc.
    by rewrite (prog_bind_run _ _ _ h' (r2, vs)) by by apply on_repo_run, group_at_run.
Qed.

(** ** Creation, over a repository with the errors the service expects *)
Section Creation.
Context (ord : map_order).
#[local] Instance scim_strict : IdentityRepository identity_repo := strict_repository ord.

Lemma strict_create_run hash fuel (r : identity_repo) vs uuid id name email pw h :
  valid r -> (0 < fuel)%nat -> name <> "" -> email <> "" -> pw <> "" ->
  (forall i v, stored r i v -> user_Username v <> name /\ user_Email v <> email) -> hash pw = Ok h ->
  let u := new_user uuid name email h UserStatusActive in
  exists p, user_heap r !! p = None /\ service_CreateUser hash fuel uuid id name email pw (r, vs) =
    (Ok p, (created id p u (set_user_heap (<[p := u]> (user_heap r)) r), vs)).
Proof.
  intros Hv Hf Hn He Hp Hnew Hhash u.
  destruct (alloc_user_run u r Hv) as (p & r1 & Halloc & -> & Hnone & Hv1). exists p. split; [done|].
  assert (Hno : forall test e, (forall i v, stored r i v -> test v = false) ->
    IdentityService.strict (find_user ord test e) r = (Err (Sentinel ErrUserNotFound), r)).
  { intros test e Ht. destruct (strict_find ord test e r Hv) as [(q & v & _ & Hs & Hq)|[Hs _]]; [|done].
    apply stored_at_stored in Hs as [i Hs]. rewrite (Ht i v Hs) in Hq. done. }
  unfold service_CreateUser. rewrite !bool_decide_eq_false_2 by done. cbn [orb].
  rewrite (ensure_absent_missing fuel _ _ _ _ r vs Hf).
  2: { cbn [ir_GetUserByUsername scim_strict strict_repository]. unfold GetUserByUsername. apply Hno.
       intros i v Hs. apply bool_decide_eq_false_2. by apply (Hnew i v Hs). }
  rewrite (ensure_absent_missing fuel _ _ _ _ r vs Hf).
  2: { cbn [ir_GetUserByEmail scim_strict strict_repository]. unfold GetUserByEmail. apply Hno.
       intros i v Hs. apply bool_decide_eq_false_2. by apply (Hnew i v Hs). }
  rewrite (prog_bind_run _ _ _ (inr h) (r, vs)) by (unfold try, lift; by rewrite Hhash).
  rewrite (prog_bind_run _ _ _ p (set_user_heap (<[p := u]> (user_heap r)) r, vs)) by by apply on_repo_run.
  erewrite (prog_bind_run _ _ _ (inr ())); [reflexivity|]. apply try_ok, on_repo_run.
  destruct (CreateUser_run ord id p u (set_user_heap (<[p := u]> (user_heap r)) r) Hv1) as [(e & Hd & _)|[_ Hrun]].
  - apply lookup_insert_eq.
  - exfalso. destruct Hd as (i & v & (q & Hi & Hq) & Hd). cbn in Hi, Hq.
    assert (q <> p) by (intros ->; destruct (valid_users r Hv i p Hi); congruence).
    rewrite lookup_insert_ne in Hq by done. destruct (Hnew i v) as [? ?]; [by exists q|]. by destruct Hd.
  - exact Hrun.
Qed.

Lemma strict_conflict_run hash fuel (r : identity_repo) vs uuid id name email pw :
  valid r -> (0 < fuel)%nat -> name <> "" -> email <> "" -> pw <> "" ->
  (exists i v, stored r i v /\ (user_Username v = name \/ user_Email v = email)) ->
  exists vs', service_CreateUser hash fuel uuid id name email pw (r, vs) = (Err (Sentinel ErrConflict), (r, vs')).
Proof.
  intros Hv Hf Hn He Hp (i & v & (q & Hi & Hq) & Hd).
  unfold service_CreateUser. rewrite !bool_decide_eq_false_2 by done. cbn [orb].
  cbn [ir_GetUserByUsername ir_GetUserByEmail scim_strict strict_repository].
  unfold GetUserByUsername, GetUserByEmail.
  match goal with |- context [ensure_absent fuel (IdentityService.strict (find_user ord ?t ?e)) "username"] =>
    destruct (strict_find ord t e r Hv) as [(p & u & Hl & _ & _)|[Hl Hno]] end.
  { eexists. by eapply ensure_absent_found. }
  rewrite (ensure_absent_missing fuel _ _ _ _ r vs Hf Hl).
  match goal with |- context [ensure_absent fuel (IdentityService.strict (find_user ord ?t ?e)) "email"] =>
    destruct (strict_find ord t e r Hv) as [(p & u & Hl' & _ & _)|[Hl' Hno']] end.
  { eexists. by eapply ensure_absent_found. }
  assert (Hs : stored_at r q v) by (split; [by exists i|done]).
  apply Hno in Hs as Hs1. apply Hno' in Hs as Hs2. rewrite bool_decide_eq_false in Hs1, Hs2. by destruct Hd.
Qed.

(** Filing a new object under a new identifier changes nobody else. *)
Lemma filed_elsewhere (r r' : identity_repo) p id :
  valid r -> user_heap r !! p = None -> repo_users r' = <[id := p]> (repo_users r) ->
  (forall q, q <> p -> user_heap r' !! q = user_heap r !! q) ->
  forall i v, i <> id -> stored r' i v <-> stored r i v.
Proof.
  intros Hv Hp Hu Hh i v Hne. unfold stored. rewrite Hu, lookup_insert_ne by done.
  split; intros (q & Hi & Hq); exists q; (split; [done|]);
    (assert (q <> p) by (intros ->; destruct (valid_users r Hv i p Hi); congruence)); by rewrite Hh in * by done.
Qed.

(** The attributes are stored in a second step. *)
Lemma store_attributes_run attrs p id u (r : identity_repo) vs :
  user_heap r !! p = Some u -> user_ID u = id -> repo_users r !! id = Some p ->
  let u' := set_user_Attributes (attrs ∪ user_Attributes u) u in
  (u ← on_repo (ir_read p);
   on_repo (ir_store p (set_user_Attributes (attrs ∪ user_Attributes u) u)) ;;
   try (service_UpdateUser p) ;; mret ()) (r, vs) =
  (Ok (), (set_users (<[id := p]> (repo_users r)) (set_user_heap (<[p := u']> (user_heap r)) r), vs)).
Proof.
  intros Hp Hu Hid u'. set (r2 := set_user_heap (<[p := u']> (user_heap r)) r).
  assert (Hupd : UpdateUser p r2 = (Ok (), set_users (<[id := p]> (repo_users r)) r2)).
  { unfold UpdateUser. rewrite (prog_bind_run _ _ _ u' r2) by apply user_at_run, lookup_insert_eq.
    rewrite prog_get_bind. cbn [repo_users set_user_heap r2 user_ID u' set_user_Attributes]. by rewrite Hu, Hid. }
  rewrite (prog_bind_run _ _ _ u (r, vs)) by by apply on_repo_run, user_at_run.
  rewrite (prog_bind_run _ _ _ () (r2, vs)) by by apply on_repo_run.
  by erewrite (prog_bind_run _ _ _ (inr ())) by by apply try_ok, or_internal_ok.
Qed.

End Creation.

(** ** Examples *)
Definition plain_resource : Resource := mkResource [SchemaUser] "" None.
Definition jensen : SCIMUser :=
  mkSCIMUser plain_resource "bjensen" "701984" false
    (Some (mkPersonName "" "Jensen" "Barbara" "Jane" "Ms." ""))
    [mkContact "old@example.com" "home" false; mkContact "bjensen@example.com" "work" true]
    [mkContact "555-5555" "work" false] [].
Definition demo_format (t : time) : string := pretty t.
Definition demo_rand (len : nat) : res error (list Z) := Ok (replicate len 7).

Lemma adapter_roundtrip_witness :
  let back := ToSCIMUser demo_format (ToDomainUser jensen) in
  ToDomainUser back = ToDomainUser jensen /\ su_Emails back = [mkContact "bjensen@example.com" "work" true] /\
  su_PhoneNumbers back = [mkContact "555-5555" "work" true].
Proof.
  destruct (adapter_roundtrip demo_format jensen) as (Hback & _ & _ & _ & Hmail & Hphone).
  split; [exact Hback|]. split.
  - apply (Hmail [mkContact "old@example.com" "home" false] _ [] eq_refl ltac:(done) ltac:(constructor)). by left.
  - apply (Hphone [] _ [] eq_refl ltac:(done) ltac:(constructor)). right. constructor.
Defined.

Definition demo_query : string :=
  "not userName eq bob or userName  eq " +:+ String quote ("alice" +:+ String quote " x").
Lemma filter_submatch_witness :
  FindStringSubmatch demo_query = Some "alice" /\
  exists pre t, demo_query = pre +:+ t /\ query_at t "alice".
Proof.
  split; [by vm_compute|].
  destruct (proj1 (proj1 (filter_submatch demo_query) "alice")) as (pre & t & Ht & Hq & _); [by vm_compute|].
  by exists pre, t.
Defined.

Lemma scim_demo_filed : filed demo_repo.
Proof.
  split; [exact demo_repo_valid|]. intros id p u Hid Hp.
  destruct (demo_stored id u) as [-> ->]; [by exists p|done].
Qed.

Lemma put_user_contract_witness :
  exists r', @scim_PutUser _ (memory_repository default_order) demo_format "u1" (Some jensen) (demo_repo, ∅) =
      (Ok (answer 200 (ResUser (ToSCIMUser demo_format (put_fields (ToDomainUser jensen) alice)))), (r', ∅)) /\
    filed_at r' "u1" 1 (put_fields (ToDomainUser jensen) alice).
Proof.
  destruct (@put_user_contract _ _ (memory_directory_laws default_order) demo_format 1 demo_repo ∅ "u1"
    (Some jensen) scim_demo_filed ltac:(lia)) as [_ Hput].
  destruct (Hput 1%positive alice) as [_ Hsome]; [by vm_compute|].
  destruct (Hsome jensen eq_refl) as (r' & Hrun & _ & Hh & _). exists r'. split; [exact Hrun|exact Hh].
Defined.

Lemma memory_provisioning_witness :
  (exists vs', @scim_CreateUser _ (memory_repository default_order) demo_format (fun pw => Ok pw) 2 demo_rand "x" "u9"
     (Some jensen) (demo_repo, ∅) = (Ok internal_error, (demo_repo, vs'))) /\
  @scim_ListUsers _ (memory_repository default_order) demo_format demo_query (demo_repo, ∅) =
    (Ok (list_answer 1 []), (demo_repo, ∅)).
Proof.
  destruct (memory_provisioning default_order demo_format (fun pw => Ok pw) 2 demo_rand (replicate 32 7) demo_repo ∅
    "x" "u9" (Some jensen) demo_query demo_repo_valid ltac:(lia) eq_refl ltac:(done)) as (_ & Hcreate & Hlist).
  split; [|exact Hlist]. apply (proj2 (Hcreate jensen eq_refl ltac:(done) ltac:(by vm_compute))).
  by intros (i & u & [-> ->]%demo_stored & Hu).
Defined.

Definition demo_group : SCIMGroup :=
  mkSCIMGroup (mkResource [SchemaGroup] "" None) "admins" ""
    [mkReference "u1" "" ""; mkReference "nobody" "" ""].
Lemma group_members_witness :
  exists r' vs', @scim_CreateGroup _ (memory_repository default_order) demo_format "x" "g2" (Some demo_group) (demo_repo, ∅) =
      (Ok (answer 201 (ResGroup (ToSCIMGroup demo_format (set_group_ID "g2" (ToDomainGroup demo_group)) []))), (r', vs')) /\
    repo_userGroups r' !! "u1" = Some ({["g2"; "g1"]} : gset string) /\ repo_userGroups r' !! "nobody" = None.
Proof.
  destruct (group_members default_order demo_format (fun _ => []) demo_repo ∅ "x" "g2" demo_group demo_repo_valid)
    as [(r' & vs' & Hrun & _ & _ & _ & Hug) _].
  - intros i q h Hi Hq. apply (proj1 (lookup_singleton_Some "g1" i 1%positive q)) in Hi as [_ <-]. vm_compute in Hq. by injection Hq as <-.
  - exists r', vs'. split; [exact Hrun|]. rewrite !Hug. split; by vm_compute.
Defined.

