(* ===== verification/Gateway.v ===== *)
(** * Between a request and its handler (internal/server/middleware,
      internal/server/http/middleware, internal/api/admin, routes of server.go)

    A middleware is a function from handlers to handlers, as in the source; a
    handler takes a request with its context and answers a response, and may
    panic, which ends the connection.  Keys of a context are pairs of the type
    of the key and its text, since Go compares both.  JSON, the validation of
    tokens and random bytes are arguments. *)

From S2P Require Import Prelude Types GoStd GoText MemIdentity AuditTrail AuditLog IdentityService Scim Authorization.
From Stdlib Require Import Ascii.
Local Open Scope Z_scope.

(** ** Requests, contexts, handlers *)
Inductive ctx_value := CtxString (s : string) | CtxStrings (l : list string).
Notation context := (gmap (string * string) ctx_value).

Record request := mkRequest {
  req_Method : string;
  req_Path : string;
  req_Header : gmap string string;
  req_Cookies : gmap string string;
  req_PostForm : gmap string string;
  req_Vars : gmap string string;
  req_RemoteAddr : string;
  req_Body : string;
  req_Context : context
}.
Record response := mkResponse { resp_Status : Z; resp_Body : string }.

(** [r.Header.Get] and the like: what is absent is empty. *)
Definition Get (m : gmap string string) (name : string) : string := default "" (m !! name).
Definition WithContext (ctx : context) (r : request) : request :=
  mkRequest (req_Method r) (req_Path r) (req_Header r) (req_Cookies r) (req_PostForm r) (req_Vars r)
    (req_RemoteAddr r) (req_Body r) ctx.
Definition WithValue (key : string * string) (v : ctx_value) (r : request) : request :=
  WithContext (<[key := v]> (req_Context r)) r.
Definition ctx_string (key : string * string) (r : request) : option string :=
  match req_Context r !! key with Some (CtxString s) => Some s | _ => None end.
Definition ctx_strings (key : string * string) (r : request) : list string :=
  match req_Context r !! key with Some (CtxStrings l) => l | _ => [] end.

(** The keys of internal/server/middleware/context.go, and that of
    internal/server/http/middleware/authorizer.go *)
Definition UserIDContextKey : string * string := ("internal/server/middleware.contextKey", "user_id").
Definition GroupsContextKey : string * string := ("internal/server/middleware.contextKey", "groups").
Definition userIDKey : string * string := ("internal/server/http/middleware.contextKey", "user_id").
Definition csrfTokenContextKey : string * string := ("internal/server/http/middleware.csrfContextKey", "csrf_token").

Definition StatusOK : Z := 200.
Definition Unauthorized : response := mkResponse 401 "Unauthorized".
Definition Forbidden : response := mkResponse 403 "Forbidden".

(** What the server keeps: the identity repository, the variables of the
    predefined errors, the state of the policy evaluator, the audit service and
    the audit log. *)
Record server (R St : Type) := mkServer {
  sv_repo : R;
  sv_errors : errvars;
  sv_policy : St;
  sv_audit : audit_service;
  sv_log : audit_logger
}.
Arguments mkServer {R St}.
Arguments sv_repo {R St}.
Arguments sv_errors {R St}.
Arguments sv_policy {R St}.
Arguments sv_audit {R St}.
Arguments sv_log {R St}.

Section Middleware.
Context `{IdentityRepository R} `{Evaluator St} `{CaseFolding}.
Context (ValidateJWT : string -> res error (gmap string any)).
(** The clock and the identifiers that one request draws *)
Context (now : time) (auditID logID : string).

Notation serverM := (prog (server R St) error).
Definition handler : Type := request -> serverM response.

Definition on_identity {A} (m : svc R A) : serverM A :=
  zoom (fun s => (sv_repo s, sv_errors s))
    (fun p s => mkServer p.1 p.2 (sv_policy s) (sv_audit s) (sv_log s)) m.
Definition on_policy {A} (m : prog (St * audit_service) error A) : serverM A :=
  zoom (fun s => (sv_policy s, sv_audit s))
    (fun p s => mkServer (sv_repo s) (sv_errors s) p.1 p.2 (sv_log s)) m.
Definition on_log {A} (m : prog audit_logger error A) : serverM A :=
  zoom sv_log (fun l s => mkServer (sv_repo s) (sv_errors s) (sv_policy s) (sv_audit s) l) m.

(** ** Authentication (auth.go) *)
Definition bearer_token (r : request) : option string :=
  let authHeader := Get (req_Header r) "Authorization" in
  if bool_decide (authHeader = "") then None
  else match strings_Split " "%char authHeader with
       | [scheme; token] => if bool_decide (ToLower scheme = "bearer") then Some token else None
       | _ => None
       end.

(** [claims["sub"].(string)] panics when there is no such string. *)
Definition AuthMiddleware_Execute (next : handler) : handler := fun r =>
  match bearer_token r with
  | None => mret Unauthorized
  | Some tokenString =>
      claims ← try (lift (ValidateJWT tokenString));
      match claims with
      | inl _ => mret Unauthorized
      | inr claims =>
          match claims !! "sub" with
          | Some (AnyString sub) =>
              let r := WithValue UserIDContextKey (CtxString sub) r in
              user ← try (on_identity (service_GetUser sub));
              match user with
              | inl _ => mret Unauthorized
              | inr p =>
                  user ← on_identity (on_repo (ir_read p));
                  next (WithValue GroupsContextKey (CtxStrings (group_Name <$> user_Groups user)) r)
              end
          | _ => lift Panic
          end
      end
  end.

(** ** Authorization (authz.go) *)
Definition getClientIP (r : request) : string :=
  let xff := Get (req_Header r) "X-Forwarded-For" in
  if bool_decide (xff <> "") then hd "" (strings_Split ","%char xff)
  else
    let xri := Get (req_Header r) "X-Real-Ip" in
    if bool_decide (xri <> "") then xri else req_RemoteAddr r.

Definition evaluation_context (action resourceType userID : string) (r : request) : EvaluationContext :=
  mkEvaluationContext (mkSubject userID (ctx_strings GroupsContextKey r) ∅)
    (mkResource resourceType (Get (req_Vars r) "id") ∅) action (mkEnvironment (getClientIP r) now "").

Definition AuthorizationMiddleware_Execute (action resourceType : string) (next : handler) : handler := fun r =>
  match ctx_string UserIDContextKey r with
  | None => mret Forbidden
  | Some userID =>
      decision ← try (on_policy (Authorize auditID now (evaluation_context action resourceType userID r)));
      match decision with
      | inr d => if bool_decide (d = DecisionAllow) then next r else mret Forbidden
      | inl _ => mret Forbidden
      end
  end.

(** ** Permissions (http/middleware/authorizer.go)

    [evaluate] is the engine on a subject, an action, a resource and the empty
    context. *)
Definition json_error (status : Z) (message : string) : response := mkResponse status message.
Definition RequirePermission (evaluate : string -> string -> string -> prog St error bool) (requiredPermission : string)
    (next : handler) : handler := fun r =>
  match ctx_string userIDKey r with
  | None | Some "" => mret (json_error 401 "Unauthorized")
  | Some userID =>
      match strings_Split ":"%char requiredPermission with
      | [resource; action] =>
          allowed ← try (on_policy (zoom fst (fun s p => (s, p.2))
                           (evaluate userID action resource)));
          match allowed with
          | inl _ => mret (json_error 500 "Policy evaluation error")
          | inr false => mret (json_error 403 "Permission denied")
          | inr true => next r
          end
      | _ => mret (json_error 500 "Invalid permission format")
      end
  end.
Definition WithUserID (userID : string) (r : request) : request := WithValue userIDKey (CtxString userID) r.

(** ** Cross-site requests (http/middleware/csrf.go)

    [cause] is the error of a missing cookie; the cookie a safe request sets is
    the second half of the answer. *)
Definition csrf_safe (method : string) : bool := bool_decide (method ∈ ["GET"; "HEAD"; "OPTIONS"]).
Definition CSRFMiddleware (generateCSRFToken : res error string) (cause : error) (next : handler) :
    request -> serverM (response * option string) := fun r =>
  let pass r := resp ← next r; mret (resp, None) in
  if strings_HasPrefix (req_Path r) "/api/" then pass r
  else if csrf_safe (req_Method r) then
    token ← try (lift generateCSRFToken);
    match token with
    | inl err => on_identity (on_errors (fun vs => WithCause vs ErrInternal err)) ;; mret (json_error 500 ErrInternal, None)
    | inr token =>
        resp ← next (WithValue csrfTokenContextKey (CtxString token) r);
        mret (resp, Some token)
    end
  else match req_Cookies r !! "_csrf" with
       | None => on_identity (on_errors (fun vs => WithCause vs ErrForbidden cause)) ;; mret (json_error 403 ErrForbidden, None)
       | Some cookieToken =>
           let formToken := Get (req_PostForm r) "_csrf" in
           let formToken := if bool_decide (formToken = "") then Get (req_Header r) "X-Csrf-Token" else formToken in
           if bool_decide (cookieToken = "") || bool_decide (formToken = "") || negb (bool_decide (cookieToken = formToken))
           then mret (json_error 403 ErrForbidden, None)
           else pass r
       end.
Definition GetCSRFToken (r : request) : string := default "" (ctx_string csrfTokenContextKey r).

(** ** The audit of requests (auditor.go) *)
Context (unmarshal : string -> option (gmap string any)) (marshal : gmap string any -> string).

Definition sensitive (key : string) : bool :=
  let lowerKey := ToLower key in
  strings_Contains lowerKey "password" || strings_Contains lowerKey "secret" || strings_Contains lowerKey "token".
Definition mask_value (key : string) (v : any) : any :=
  match v with AnyString _ => if sensitive key then AnyString "***" else v | _ => v end.
Definition mask_fields (data : gmap string any) : gmap string any :=
  map_imap (fun key v => Some (mask_value key v)) data.
Definition maskSensitiveData (body : string) : string :=
  if bool_decide (body = "") then ""
  else match unmarshal body with
       | None => body
       | Some data => marshal (mask_fields data)
       end.

Definition getResult (statusCode : Z) : string :=
  if (200 <=? statusCode) && (statusCode <? 300) then ResultSuccess else ResultFailure.

Definition audited_method (method : string) : bool := bool_decide (method ∈ ["POST"; "PUT"; "DELETE"]).
Definition request_event (r : request) (statusCode : Z) : LogEvent :=
  mkLogEvent "" zero_time EventDataModified (mkActor (default "" (ctx_string UserIDContextKey r)) "user" "")
    (mkTarget "" "http-request" "") "" (getResult statusCode)
    (<["path" := AnyString (req_Path r)]> (<["method" := AnyString (req_Method r)]>
      (<["status" := AnyInt statusCode]> {["body" := AnyString (maskSensitiveData (req_Body r))]})))
    (req_RemoteAddr r) (Get (req_Header r) "User-Agent") "" "" "" "" ∅ "".
Definition AuditorMiddleware (bufferSize : nat) (next : handler) : handler := fun r =>
  if negb (audited_method (req_Method r)) then next r
  else
    resp ← next r;
    on_log (Record_event bufferSize logID now (request_event r (resp_Status resp))) ;;
    mret resp.
End Middleware.

(** ** Administration of users (internal/api/admin/user_handlers.go) *)
Section AdminUsers.
Context `{IdentityRepository R} {St : Type} (now : time) (logID : string) (bufferSize : nat).
Notation serverM := (prog (server R St) error).

Definition admin_event (actor userID : string) : LogEvent :=
  mkLogEvent "" zero_time EventDataModified (mkActor actor "user" "") (mkTarget userID "user" "") "" ResultSuccess
    ∅ "" "" "" "" "" "" ∅ "".
Definition change_status (status : string) : request -> serverM response := fun r =>
  let userID := Get (req_Vars r) "userID" in
  changed ← try (on_identity (service_ChangeUserStatus userID status));
  match changed with
  | inl err => on_identity (on_errors (fun vs => WithCause vs ErrInternal err)) ;; mret (json_error 500 ErrInternal)
  | inr _ =>
      match ctx_string UserIDContextKey r with
      | None => lift Panic
      | Some actor =>
          on_log (Record_event bufferSize logID now (admin_event actor userID)) ;;
          mret (mkResponse StatusOK "")
      end
  end.
Definition BanUser : request -> serverM response := change_status UserStatusLocked.
Definition UnbanUser : request -> serverM response := change_status UserStatusActive.

(** The first result of [strconv.Atoi], whose error is ignored: zero for what
    is no number, the nearest bound for one that is out of range. *)
Definition Atoi (s : string) : Z :=
  let '(neg, digits) := take_sign s in
  let '(n, rest) := take_digits 0 digits in
  if bool_decide (digits = "" \/ rest <> "" /\ n < 2 ^ 64) then 0
  else if neg : bool then Z.max (- 2 ^ 63) (- n) else Z.min (2 ^ 63 - 1) n.
Definition or_default (n default_ : Z) : Z := if n =? 0 then default_ else n.

(** The list of statuses has the one the query names, be it empty. *)
Definition list_filter_of (query : gmap string string) : UserFilter :=
  mkUserFilter (Get query "q") [Get query "status"] (or_default (Atoi (Get query "page")) 1)
    (or_default (Atoi (Get query "pageSize")) 20) (Get query "sortBy") (Get query "sortOrder").
Definition admin_ListUsers (query : gmap string string) : serverM (Z + list loc * Z) :=
  listed ← try (on_identity (service_ListUsers (list_filter_of query)));
  match listed with
  | inl err => on_identity (on_errors (fun vs => WithCause vs ErrInternal err)) ;; mret (inl 500)
  | inr answer => mret (inr answer)
  end.
End AdminUsers.

(** ** Routes (internal/server/http/server.go) *)
Inductive guard := Auth | Authz (action resourceType : string) | APIKeyAuth.
Record route := mkRoute { rt_Method : string; rt_Template : string; rt_Guards : list guard; rt_Handler : string }.

Definition routes_under (prefix : string) (guards : list guard) (rs : list (string * string * string)) : list route :=
  (fun x : string * string * string => mkRoute x.1.1 (prefix +:+ x.1.2) guards x.2) <$> rs.

Definition adminGuards : list guard := [Auth; Authz "user:update" "user"].
(** API keys and WebAuthn are there when the server has them. *)
Definition registerRoutes (has_api_keys has_webauthn : bool) : list route :=
  routes_under "" []
    [("GET", "/metrics", "promhttp"); ("GET", "/oauth/authorize", "oauth.Authorize"); ("POST", "/oauth/token", "oauth.Token");
     ("GET", "/.well-known/openid-configuration", "oauth.Discovery"); ("GET", "/.well-known/jwks.json", "oauth.JWKS")] ++
  (if has_api_keys then routes_under "/api/v1/m2m" [APIKeyAuth] [("GET", "/ping", "ping")] else []) ++
  routes_under "/api/v1" [] [("POST", "/auth/login", "auth.Login"); ("POST", "/users", "identity.CreateUser")] ++
  routes_under "/api/v1" [Auth; Authz "users.read" "user"] [("GET", "/users/{id}", "identity.GetUser")] ++
  routes_under "/api/v1/admin" adminGuards
    [("GET", "/users", "adminUser.ListUsers"); ("POST", "/users/{userID}/ban", "adminUser.BanUser");
     ("POST", "/users/{userID}/unban", "adminUser.UnbanUser")] ++
  routes_under "/api/v1/devcenter" [Auth; Authz "devcenter.admin" "devcenter"]
    [("GET", "/apps", "devcenter.ListApps"); ("POST", "/apps", "devcenter.CreateApp");
     ("GET", "/connectors", "devcenter.ListConnectors"); ("POST", "/connectors/{id}/enable", "devcenter.EnableConnector");
     ("GET", "/diagnostics", "devcenter.Diagnostics")] ++
  routes_under "/scim/v2" [Auth]
    [("POST", "/Users", "scim.CreateUser"); ("GET", "/Users/{id}", "scim.GetUser"); ("DELETE", "/Users/{id}", "scim.DeleteUser");
     ("GET", "/Users", "scim.ListUsers"); ("PUT", "/Users/{id}", "scim.PutUser"); ("POST", "/Groups", "scim.CreateGroup");
     ("GET", "/Groups/{id}", "scim.GetGroup"); ("PUT", "/Groups/{id}", "scim.PutGroup");
     ("DELETE", "/Groups/{id}", "scim.DeleteGroup"); ("GET", "/Groups", "scim.ListGroups")] ++
  routes_under "/api/v1/admin/webhooks" adminGuards
    [("POST", "", "webhook.CreateSubscription"); ("GET", "", "webhook.ListSubscriptions");
     ("DELETE", "/{id}", "webhook.DeleteSubscription"); ("POST", "/{id}/rotate-secret", "webhook.RotateSecret")] ++
  routes_under "/auth" []
    [("GET", "/forgot-password", "recovery.ShowForgotPassword"); ("POST", "/forgot-password", "recovery.HandleForgotPassword");
     ("GET", "/reset-password", "recovery.ShowResetPassword"); ("POST", "/reset-password", "recovery.HandleResetPassword")] ++
  routes_under "/portal" [Auth]
    [("GET", "/devices", "device.ListDevices"); ("POST", "/devices/revoke/{id}", "device.RevokeDevice");
     ("GET", "/security-log", "securityLog.ShowSecurityLog")] ++
  (if has_webauthn
   then routes_under "/api/v1/webauthn/register" [Auth]
          [("POST", "/begin", "webauthn.BeginRegistration"); ("POST", "/finish", "webauthn.FinishRegistration")] ++
        routes_under "/api/v1" []
          [("POST", "/webauthn/login/begin", "webauthn.BeginLogin"); ("POST", "/webauthn/login/finish", "webauthn.FinishLogin")]
   else []) ++
  routes_under "/api/v1/privacy" [Auth]
    [("POST", "/privacy/consent", "privacy.handleConsent"); ("POST", "/privacy/export", "privacy.handleExport");
     ("POST", "/privacy/erasure", "privacy.handleErasure")] ++
  routes_under "" [] [("GET", "/healthz", "healthz"); ("GET", "/readyz", "readyz")].

(** [r.Use(m1, m2)]: the first is the outermost. [api_key] stands for the
    middleware of Platform.v. *)
Section Guards.
Context `{IdentityRepository R} `{Evaluator St} `{CaseFolding}.
Context (ValidateJWT : string -> res error (gmap string any)) (now : time) (auditID : string).
Context (api_key : (request -> prog (server R St) error response) -> request -> prog (server R St) error response).
Definition guarded (guards : list guard) (next : request -> prog (server R St) error response) :
    request -> prog (server R St) error response :=
  foldr (fun g next =>
    match g with
    | Auth => AuthMiddleware_Execute ValidateJWT next
    | Authz action resourceType => AuthorizationMiddleware_Execute now auditID action resourceType next
    | APIKeyAuth => api_key next
    end) next guards.
End Guards.

(** ** Who gets through *)
Section Admission.
Context `{DirectoryLaws R} `{Evaluator St} `{CaseFolding}.
Context (ValidateJWT : string -> res error (gmap string any)) (now : time) (auditID : string).
Implicit Types (s : server R St) (r : request) (next : request -> prog (server R St) error response).

Definition with_errors (vs : errvars) s : server R St := mkServer (sv_repo s) vs (sv_policy s) (sv_audit s) (sv_log s).
Definition with_policy (pa : St * audit_service) s : server R St :=
  mkServer (sv_repo s) (sv_errors s) pa.1 pa.2 (sv_log s).

(** The request bears a token for [sub]; [u] is stored as [sub]. *)
Definition bears (r : request) (sub : string) : Prop :=
  exists tok claims, bearer_token r = Some tok /\ ValidateJWT tok = Ok claims /\ claims !! "sub" = Some (AnyString sub).
Definition request_of (sub : string) (u : User) (r : request) : request :=
  WithValue GroupsContextKey (CtxStrings (group_Name <$> user_Groups u)) (WithValue UserIDContextKey (CtxString sub) r).

Lemma auth_passes next r s sub p u :
  dir_inv (sv_repo s) -> bears r sub -> dir_holds (sv_repo s) sub p u ->
  AuthMiddleware_Execute ValidateJWT next r s = next (request_of sub u r) s.
Proof.
  intros Hinv (tok & claims & Ht & Hj & Hs) Hh. unfold AuthMiddleware_Execute. rewrite Ht.
  rewrite (prog_bind_run _ _ _ (inr claims) s) by (unfold try, lift; by rewrite Hj). rewrite Hs.
  rewrite (prog_bind_run _ _ _ (inr p) s).
  - rewrite (prog_bind_run _ _ _ u s); [done|]. unfold on_identity, zoom, on_repo, zoom.
    cbn [fst snd]. rewrite (dir_read _ sub p u Hinv Hh). by destruct s.
  - unfold on_identity, try, zoom. pose proof (found_run (fun x => lift (Ok x)) (sv_repo s) (sv_errors s) sub p u Hinv Hh) as Hrun.
    unfold mbind, prog_bind, lift, try in Hrun. change (service_GetUserByID sub) with (service_GetUser (R:=R) sub) in Hrun.
    destruct (service_GetUser sub (sv_repo s, sv_errors s)) as [[] []]; try done; injection Hrun as [= -> -> ->]; by destruct s.
Qed.

(** An answer of a middleware that stopped the request *)
Definition refusal (a : res error response) : Prop :=
  match a with Ok resp => resp = Unauthorized \/ resp = Forbidden | Err _ => False | _ => True end.

Lemma same_errors s : with_errors (sv_errors s) s = s.
Proof. by destruct s. Qed.

(** Authentication finds the user, or stops the request. *)
Lemma auth_cases next r s :
  dir_inv (sv_repo s) ->
  (exists sub p u, bears r sub /\ dir_holds (sv_repo s) sub p u) \/
  (exists a vs, AuthMiddleware_Execute ValidateJWT next r s = (a, with_errors vs s) /\ refusal a).
Proof.
  intros Hinv. unfold AuthMiddleware_Execute.
  destruct (bearer_token r) as [tok|] eqn:Ht; [|right; exists (Ok Unauthorized), (sv_errors s); rewrite same_errors; by split; [|left]].
  assert (forall f : error + gmap string any -> prog (server R St) error response,
    (try (lift (ValidateJWT tok)) ≫= f) s =
    match ValidateJWT tok with Ok c => f (inr c) s | Err e => f (inl e) s | Panic => (Panic, s) | Diverge => (Diverge, s) end) as ->.
  { intros f. unfold try, lift, mbind, prog_bind. by destruct (ValidateJWT tok). }
  destruct (ValidateJWT tok) as [claims|e| |] eqn:Hj;
    [|right; eexists _, (sv_errors s); rewrite same_errors; split; [reflexivity|by try left]..].
  destruct (claims !! "sub") as [v|] eqn:Hs; [destruct v as [| | | | |sub| | | |]|];
    try (right; exists Panic, (sv_errors s); rewrite same_errors; by split).
  destruct (dir_find (sv_repo s) sub Hinv) as [(p & u & _ & Hh)|(err & Hget & _)].
  { left. exists sub, p, u. split; [by exists tok, claims|done]. }
  right. eexists (Ok Unauthorized), _. split; [|by left].
  unfold on_identity, try, zoom, service_GetUser, or_not_found, mbind, prog_bind, try, on_repo, zoom. cbn [fst snd].
  rewrite Hget. cbn [fst snd]. rewrite fail_not_found_run. reflexivity.
Qed.

(** The evaluator's decision for a request that bears a token of [sub] *)
Definition decides (action resourceType : string) (r : request) s (sub : string) (u : User)
    (a : res error string) (pa : St * audit_service) : Prop :=
  Authorize auditID now (evaluation_context now action resourceType sub (request_of sub u r)) (sv_policy s, sv_audit s) = (a, pa).

Lemma authz_runs action resourceType next r s sub u a pa :
  decides action resourceType r s sub u a pa ->
  AuthorizationMiddleware_Execute now auditID action resourceType next (request_of sub u r) s =
    if bool_decide (a = Ok DecisionAllow) then next (request_of sub u r) (with_policy pa s)
    else (match a with Panic => Panic | Diverge => Diverge | _ => Ok Forbidden end, with_policy pa s).
Proof.
  unfold decides, AuthorizationMiddleware_Execute. intros Ha.
  assert (ctx_string UserIDContextKey (request_of sub u r) = Some sub) as ->.
  { unfold ctx_string, request_of, WithValue. cbn [req_Context WithContext].
    by rewrite lookup_insert_ne, lookup_insert_eq by done. }
  unfold mbind, prog_bind, try, on_policy, zoom. rewrite Ha.
  destruct a as [d|e| |]; try (by rewrite bool_decide_eq_false_2).
  destruct (decide (d = DecisionAllow)) as [->|Hd].
  - by rewrite !bool_decide_eq_true_2.
  - rewrite bool_decide_eq_false_2 by done. by rewrite bool_decide_eq_false_2 by congruence.
Qed.

(** C30: what protects a route of the API.  Behind authentication and
    authorization the handler runs, on a state that differs only in the
    evaluator's and the audit service's, exactly when the request bears a valid
    token for a user that is stored and the evaluator allows the action for
    this user, the groups of the stored user, and the named resource.  In every
    other case the answer is 401 or 403, or the connection ends, and users and
    audit log are as before.  The status of the user does not count, nor
    whether the session was ended: a locked user passes. *)
Theorem protected_route action resourceType next r s :
  dir_inv (sv_repo s) ->
  let run := guarded ValidateJWT now auditID id [Auth; Authz action resourceType] next r s in
  (forall sub p u pa, bears r sub -> dir_holds (sv_repo s) sub p u ->
     decides action resourceType r s sub u (Ok DecisionAllow) pa ->
     run = next (request_of sub u r) (with_policy pa s)) /\
  (~ (exists sub p u pa, bears r sub /\ dir_holds (sv_repo s) sub p u /\
        decides action resourceType r s sub u (Ok DecisionAllow) pa) ->
   refusal run.1 /\ sv_repo run.2 = sv_repo s /\ sv_log run.2 = sv_log s).
Proof.
  intros Hinv run. subst run. unfold guarded. cbn [foldr]. split.
  - intros sub p u pa Hb Hh Hd. by rewrite (auth_passes _ _ _ _ _ _ Hinv Hb Hh), (authz_runs _ _ _ _ _ _ _ _ _ Hd).
  - intros Hno.
    destruct (auth_cases (AuthorizationMiddleware_Execute now auditID action resourceType next) r s Hinv)
      as [(sub & p & u & Hb & Hh)|(a & vs & -> & Ha)]; [|done].
    rewrite (auth_passes _ _ _ _ _ _ Hinv Hb Hh).
    destruct (Authorize auditID now (evaluation_context now action resourceType sub (request_of sub u r))
      (sv_policy s, sv_audit s)) as [a pa] eqn:Hd.
    rewrite (authz_runs action resourceType next r s sub u a pa Hd). case_bool_decide as Ha.
    + exfalso. apply Hno. exists sub, p, u, pa. subst a. done.
    + by destruct a; repeat split; try right.
Qed.

(** Provisioning is open to every user: all routes of SCIM have authentication
    alone before them, so that whoever is stored - whatever the status, the
    groups and the policies - reaches the handler that creates, changes and
    deletes users; and one route that creates users has nothing before it. *)
Theorem scim_open_to_all_users has_api_keys has_webauthn :
  (forall rt, rt ∈ registerRoutes has_api_keys has_webauthn -> strings_HasPrefix (rt_Template rt) "/scim/v2" = true ->
     rt_Guards rt = [Auth] /\
     forall next r s sub p u, dir_inv (sv_repo s) -> bears r sub -> dir_holds (sv_repo s) sub p u ->
       guarded ValidateJWT now auditID id (rt_Guards rt) next r s = next (request_of sub u r) s) /\
  mkRoute "POST" "/api/v1/users" [] "identity.CreateUser" ∈ registerRoutes has_api_keys has_webauthn.
Proof.
  assert (forallb (fun rt => negb (strings_HasPrefix (rt_Template rt) "/scim/v2") ||
    match rt_Guards rt with [Auth] => true | _ => false end) (registerRoutes has_api_keys has_webauthn) = true) as Hall
    by (destruct has_api_keys, has_webauthn; vm_compute; reflexivity).
  split.
  - intros rt Hrt Hp. rewrite forallb_forall in Hall. apply list_elem_of_In, Hall in Hrt. rewrite Hp in Hrt.
    assert (rt_Guards rt = [Auth]) as Hg by by (cbn in Hrt; repeat case_match).
    split; [done|]. rewrite Hg. intros next r s sub p u Hinv Hb Hh. by apply (auth_passes _ _ _ _ p).
  - destruct has_api_keys, has_webauthn; apply list_elem_of_In; vm_compute; tauto.
Qed.

(** The permission middleware looks for the user under a key that no other code
    writes: behind authentication no request ever gets through it. *)
Theorem permission_never_granted evaluate requiredPermission next r s :
  dir_inv (sv_repo s) -> req_Context r = ∅ ->
  let run := AuthMiddleware_Execute ValidateJWT (RequirePermission evaluate requiredPermission next) r s in
  (refusal run.1 \/ run.1 = Ok (json_error 401 "Unauthorized")) /\ sv_repo run.2 = sv_repo s.
Proof.
  intros Hinv Hctx run. subst run.
  destruct (auth_cases (RequirePermission evaluate requiredPermission next) r s Hinv)
    as [(sub & p & u & Hb & Hh)|(a & vs & -> & Ha)]; [|by split; [left|]].
  rewrite (auth_passes _ _ _ _ _ _ Hinv Hb Hh). unfold RequirePermission.
  assert (ctx_string userIDKey (request_of sub u r) = None) as ->; [|by split; [right|]].
  unfold ctx_string, request_of, WithValue. cbn [req_Context WithContext]. rewrite Hctx.
  rewrite !lookup_insert_ne by done. by rewrite lookup_empty.
Qed.

(** A request names the address it is judged by. *)
Theorem client_names_its_address r ip :
  str_free ","%char ip = true -> ip <> "" -> req_Header r !! "X-Forwarded-For" = Some ip -> getClientIP r = ip.
Proof.
  intros Hfree Hne Hh. unfold getClientIP, Get. rewrite Hh. cbn [default]. rewrite bool_decide_eq_true_2 by done.
  by rewrite strings_Split_free.
Qed.

(** ** Administration *)

Lemma change_status_run (status : string) bufferSize logID r s p u actor l' :
  let id := Get (req_Vars r) "userID" in
  dir_inv (sv_repo s) -> dir_holds (sv_repo s) id p u -> ctx_string UserIDContextKey r = Some actor ->
  Record_event bufferSize logID now (admin_event actor id) (sv_log s) = (Ok (), l') ->
  exists repo, change_status now logID bufferSize status r s =
      (Ok (mkResponse StatusOK ""), mkServer repo (sv_errors s) (sv_policy s) (sv_audit s) l') /\
    dir_inv repo /\ dir_holds repo id p (set_user_Status status u) /\
    forall id' q v, id' <> id -> dir_holds repo id' q v <-> dir_holds (sv_repo s) id' q v.
Proof.
  intros id Hinv Hh Hctx Hlog.
  destruct (dir_replace _ id p u (set_user_Status status u) Hinv Hh eq_refl) as (r1 & r2 & Hst & Hup & Hinv' & Hh' & Hothers).
  exists r2. split; [|done]. unfold change_status. fold id. rewrite Hctx.
  rewrite (prog_bind_run _ _ _ (inr ()) (mkServer r2 (sv_errors s) (sv_policy s) (sv_audit s) (sv_log s))).
  - unfold mbind, prog_bind, on_log, zoom. cbn [sv_log]. by rewrite Hlog.
  - assert (service_ChangeUserStatus id status (sv_repo s, sv_errors s) = (Ok (), (r2, sv_errors s))) as Hrun.
    { unfold service_ChangeUserStatus. destruct (dir_find _ id Hinv) as [(q & v & Hget & Hq)|(err & _ & Hno)]; [|by edestruct Hno].
      destruct (dir_unique _ id p u q v Hinv Hh Hq) as [<- <-].
      rewrite (prog_bind_run _ _ _ p (sv_repo s, sv_errors s)) by by apply or_not_found_ok.
      rewrite (prog_bind_run _ _ _ u (sv_repo s, sv_errors s)) by (apply on_repo_run, (dir_read _ id p u Hinv Hh)).
      rewrite (prog_bind_run _ _ _ () (r1, sv_errors s)) by by apply on_repo_run. by apply or_internal_ok. }
    unfold try, on_identity, zoom. by rewrite Hrun.
Qed.

(** Banning marks the user and does nothing else.  For a stored user and a
    logger that is not shut down the answer is 200, the event names the
    administrator and the user, the user has the status locked and every other
    user is as before - and a token of the banned user authenticates as before:
    the next request reaches its handler. *)
Theorem ban_contract bufferSize logID r s p u actor :
  let id := Get (req_Vars r) "userID" in
  dir_inv (sv_repo s) -> dir_holds (sv_repo s) id p u -> ctx_string UserIDContextKey r = Some actor ->
  al_stopped (sv_log s) = false ->
  exists s' writes, BanUser now logID bufferSize r s = (Ok (mkResponse StatusOK ""), s') /\
    dir_holds (sv_repo s') id p (set_user_Status UserStatusLocked u) /\
    (forall id' q v, id' <> id -> dir_holds (sv_repo s') id' q v <-> dir_holds (sv_repo s) id' q v) /\
    conserves (sv_log s) (sv_log s') writes [enrich logID now (admin_event actor id)] /\
    (forall next r', bears r' id ->
       AuthMiddleware_Execute ValidateJWT next r' s' = next (request_of id (set_user_Status UserStatusLocked u) r') s').
Proof.
  intros id Hinv Hh Hctx Hopen.
  assert (exists l', Record_event bufferSize logID now (admin_event actor id) (sv_log s) = (Ok (), l')) as [l' Hl].
  { unfold Record_event. rewrite prog_get_bind, Hopen. case_bool_decide; eexists; reflexivity. }
  destruct (record_conserves _ _ _ _ _ _ Hl) as [writes Hw].
  destruct (change_status_run UserStatusLocked bufferSize logID r s p u actor l' Hinv Hh Hctx Hl) as (repo & Hrun & Hinv' & Hh' & Ho).
  eexists _, writes. split; [exact Hrun|]. split; [done|]. split; [done|]. split; [done|].
  intros next r' Hb. by apply (auth_passes _ _ _ _ p).
Qed.
End Admission.

(** ** Cross-site requests, and the audit of requests *)
Section Checks.
Context `{IdentityRepository R} {St : Type} `{CaseFolding}.
Implicit Types (s : server R St) (r : request) (next : request -> prog (server R St) error response).

(** The token a state-changing request submits: the form has precedence. *)
Definition submitted (r : request) : string :=
  if bool_decide (Get (req_PostForm r) "_csrf" = "") then Get (req_Header r) "X-Csrf-Token" else Get (req_PostForm r) "_csrf".

(** Double submission decides a state-changing request outside of /api/: it is
    passed on, unchanged, exactly when the cookie is there, is not empty and is
    what the form or, without one, the header submits; otherwise the answer is
    403 and no user is touched. *)
Theorem csrf_decides gen cause next r s :
  strings_HasPrefix (req_Path r) "/api/" = false -> csrf_safe (req_Method r) = false ->
  let run := CSRFMiddleware gen cause next r s in
  (req_Cookies r !! "_csrf" = Some (submitted r) /\ submitted r <> "" ->
     run = (resp ← next r; mret (resp, None)) s) /\
  (~ (req_Cookies r !! "_csrf" = Some (submitted r) /\ submitted r <> "") ->
     run.1 = Ok (json_error 403 ErrForbidden, None) /\ sv_repo run.2 = sv_repo s).
Proof.
  intros Hapi Hsafe run. subst run. unfold CSRFMiddleware. rewrite Hapi, Hsafe. fold (submitted r). split.
  - intros [-> Hne]. rewrite (bool_decide_eq_false_2 _ Hne), (bool_decide_eq_true_2 (_ = _)) by done. done.
  - intros Hno. destruct (req_Cookies r !! "_csrf") as [cookie|]; [|done].
    destruct (bool_decide (cookie = "")); [done|]. destruct (decide (submitted r = "")) as [Hs|Hs].
    + rewrite (bool_decide_eq_true_2 _ Hs). done.
    + rewrite (bool_decide_eq_false_2 _ Hs), (bool_decide_eq_false_2 (cookie = submitted r)); [done|].
      intros ->. by apply Hno.
Qed.

(** What a page of the site can submit later: the token a safe request sets as
    a cookie is the one its handler finds in the context. *)
Theorem csrf_token_offered token cause next r s :
  strings_HasPrefix (req_Path r) "/api/" = false -> csrf_safe (req_Method r) = true ->
  CSRFMiddleware (Ok token) cause next r s =
    (resp ← next (WithValue csrfTokenContextKey (CtxString token) r); mret (resp, Some token)) s /\
  GetCSRFToken (WithValue csrfTokenContextKey (CtxString token) r) = token.
Proof.
  intros Hapi Hsafe. unfold CSRFMiddleware. rewrite Hapi, Hsafe. split; [done|].
  unfold GetCSRFToken, ctx_string, WithValue. cbn. by rewrite lookup_insert_eq.
Qed.

Context (unmarshal : string -> option (gmap string any)) (marshal : gmap string any -> string).

(** The audit of requests.  For a method that is audited, a fresh request
    and a logger that is not shut down, the answer is the handler's and exactly
    one event is logged after it, with the path, the method and the status.
    Masking reaches the strings at the top of a JSON object and nothing else: a
    body that is no JSON object - a form with a password - is logged as it was
    sent.  And the actor is always the empty one: the user is in the context of
    the request that the middleware further in made, not of this one. *)
Theorem request_audited now logID bufferSize next r s resp s1 :
  audited_method (req_Method r) = true -> req_Context r = ∅ -> req_Body r <> "" ->
  next r s = (Ok resp, s1) -> al_stopped (sv_log s1) = false ->
  (forall data, unmarshal (req_Body r) = Some data -> unmarshal (marshal (mask_fields data)) = Some (mask_fields data)) ->
  exists e l' writes,
    AuditorMiddleware now logID unmarshal marshal bufferSize next r s =
      (Ok resp, mkServer (sv_repo s1) (sv_errors s1) (sv_policy s1) (sv_audit s1) l') /\
    conserves (sv_log s1) l' writes [enrich logID now e] /\
    le_Actor e = mkActor "" "user" "" /\ le_Result e = getResult (resp_Status resp) /\
    le_Metadata e !! "path" = Some (AnyString (req_Path r)) /\
    (unmarshal (req_Body r) = None -> le_Metadata e !! "body" = Some (AnyString (req_Body r))) /\
    (forall data, unmarshal (req_Body r) = Some data -> exists text masked,
       le_Metadata e !! "body" = Some (AnyString text) /\ unmarshal text = Some masked /\
       forall key, masked !! key = (fun v => match v with
                                             | AnyString _ => if sensitive key then AnyString "***" else v
                                             | _ => v
                                             end) <$> data !! key).
Proof.
  intros Hm Hctx Hbody Hrun Hopen Hjson. set (e := request_event unmarshal marshal r (resp_Status resp)).
  assert (exists l', Record_event bufferSize logID now e (sv_log s1) = (Ok (), l')) as [l' Hl].
  { unfold Record_event. rewrite prog_get_bind, Hopen. case_bool_decide; eexists; reflexivity. }
  destruct (record_conserves _ _ _ _ _ _ Hl) as [writes Hw]. exists e, l', writes.
  split; [|split; [exact Hw|split; [|split; [done|split; [apply lookup_insert_eq|]]]]].
  - unfold AuditorMiddleware. rewrite Hm. cbn [negb]. unfold mbind, prog_bind. rewrite Hrun. fold e.
    unfold on_log, zoom. by rewrite Hl.
  - unfold e, request_event, ctx_string. cbn [le_Actor]. by rewrite Hctx.
  - assert (le_Metadata e !! "body" = Some (AnyString (maskSensitiveData unmarshal marshal (req_Body r)))) as ->.
    { unfold e, request_event. cbn [le_Metadata]. rewrite !lookup_insert_ne by done. apply lookup_singleton_eq. }
    unfold maskSensitiveData. rewrite bool_decide_eq_false_2 by done. split; [by intros ->|].
    intros data Hdata. rewrite Hdata. eexists _, _. split; [reflexivity|]. split; [by apply Hjson|].
    intros key. unfold mask_fields. rewrite map_lookup_imap. by destruct (data !! key).
Qed.
End Checks.

(** ** Witnesses *)
Definition quiet_log : audit_logger := NewAuditLogger [willing_sink].
Definition demo_server : server identity_repo () := mkServer demo_repo ∅ () (mkAuditService [] false []) quiet_log.
Definition demo_claims (tok : string) : res error (gmap string any) :=
  if bool_decide (tok = "good") then Ok {[ "sub" := AnyString "u1" ]} else Err (Errorf "bad token").
Definition allow_all : Evaluator () := {| ev_Evaluate c := mret DecisionAllow |}.
Definition demo_request : request :=
  mkRequest "POST" "/api/v1/admin/users/u1/ban" {[ "Authorization" := "Bearer good"; "X-Forwarded-For" := "10.0.0.1" ]}
    ∅ ∅ {[ "userID" := "u1" ]} "192.0.2.1:5000" "password=secret" ∅.
Definition answer_ok : request -> prog (server identity_repo ()) error response := fun _ => mret (mkResponse 200 "done").

Definition demo_guarded := @guarded _ (memory_repository default_order) () allow_all ascii_folding demo_claims 7 "a1" id.
Definition demo_auth := @AuthMiddleware_Execute _ (memory_repository default_order) () ascii_folding demo_claims.

Lemma demo_bears : bears demo_claims demo_request "u1".
Proof. exists "good", {[ "sub" := AnyString "u1" ]}. done. Qed.

Lemma protected_route_witness :
  (demo_guarded adminGuards answer_ok demo_request demo_server).1
    = Ok (mkResponse 200 "done").
Proof.
  destruct (@protected_route _ _ (memory_directory_laws default_order) _ allow_all ascii_folding demo_claims 7 "a1"
    "user:update" "user" answer_ok demo_request demo_server scim_demo_filed) as [Hrun _].
  unfold adminGuards, demo_guarded. rewrite (Hrun "u1" 1%positive alice _ demo_bears ltac:(done) eq_refl). reflexivity.
Defined.

Lemma permission_never_granted_witness :
  let run := demo_auth
    (RequirePermission (fun _ _ _ => mret true) "users:read" answer_ok) demo_request demo_server in
  refusal run.1 \/ run.1 = Ok (json_error 401 "Unauthorized").
Proof.
  exact (proj1 (@permission_never_granted _ _ (memory_directory_laws default_order) _ ascii_folding demo_claims
    (fun _ _ _ => mret true) "users:read" answer_ok demo_request demo_server scim_demo_filed eq_refl)).
Defined.

Lemma scim_open_to_all_users_witness :
  demo_guarded [Auth] answer_ok demo_request demo_server =
    answer_ok (request_of "u1" alice demo_request) demo_server.
Proof.
  destruct (@scim_open_to_all_users _ _ (memory_directory_laws default_order) _ allow_all ascii_folding demo_claims 7 "a1" true true)
    as [Hall _].
  exact (proj2 (Hall (mkRoute "DELETE" "/scim/v2/Users/{id}" [Auth] "scim.DeleteUser")
    ltac:(apply list_elem_of_In; vm_compute; tauto) eq_refl)
    answer_ok demo_request demo_server "u1" 1%positive alice scim_demo_filed demo_bears ltac:(done)).
Defined.

Lemma client_names_its_address_witness : getClientIP demo_request = "10.0.0.1".
Proof. exact (client_names_its_address demo_request "10.0.0.1" eq_refl ltac:(done) eq_refl). Defined.

Lemma ban_contract_witness :
  let r := WithValue UserIDContextKey (CtxString "admin") demo_request in
  exists s', (@BanUser _ (memory_repository default_order) () 7 "e1" 10 r demo_server).1 = Ok (mkResponse StatusOK "") /\
    demo_auth answer_ok demo_request s' =
      answer_ok (request_of "u1" (set_user_Status UserStatusLocked alice) demo_request) s'.
Proof.
  destruct (@ban_contract _ _ (memory_directory_laws default_order) _ ascii_folding demo_claims 7 10 "e1"
    (WithValue UserIDContextKey (CtxString "admin") demo_request) demo_server 1%positive alice "admin"
    scim_demo_filed ltac:(done) ltac:(by vm_compute) eq_refl) as (s' & writes & Hrun & _ & _ & _ & Hnext).
  exists s'. split; [by rewrite Hrun|]. exact (Hnext answer_ok demo_request demo_bears).
Defined.

Definition demo_form : request :=
  mkRequest "POST" "/auth/login" ∅ {[ "_csrf" := "t" ]} {[ "_csrf" := "t" ]} ∅ "" "" ∅.
Lemma csrf_decides_witness :
  CSRFMiddleware (Ok "new") (Errorf "no cookie") answer_ok demo_form demo_server =
    (resp ← answer_ok demo_form; mret (resp, None)) demo_server.
Proof.
  apply (csrf_decides (Ok "new") (Errorf "no cookie") answer_ok demo_form demo_server); [reflexivity|reflexivity|].
  split; [reflexivity|discriminate].
Defined.

Lemma csrf_token_offered_witness :
  let r := mkRequest "GET" "/auth/login" ∅ ∅ ∅ ∅ "" "" ∅ in
  GetCSRFToken (WithValue csrfTokenContextKey (CtxString "t") r) = "t".
Proof.
  exact (proj2 (@csrf_token_offered _ _ "t" (Errorf "") answer_ok
    (mkRequest "GET" "/auth/login" ∅ ∅ ∅ ∅ "" "" ∅) demo_server eq_refl eq_refl)).
Defined.

Definition demo_json (s : string) : option (gmap string any) :=
  if bool_decide (s = "J") then Some {[ "Password" := AnyString "pw" ]}
  else if bool_decide (s = "M") then Some {[ "Password" := AnyString "***" ]} else None.

Lemma request_audited_witness :
  exists e, le_Actor e = mkActor "" "user" "" /\ le_Metadata e !! "body" = Some (AnyString "password=secret").
Proof.
  destruct (@request_audited _ _ ascii_folding demo_json (fun _ => "M") 7 "e1" 10 answer_ok
    demo_request demo_server (mkResponse 200 "done") demo_server eq_refl eq_refl ltac:(done) eq_refl eq_refl
    ltac:(intros ? [=])) as (e & l' & writes & _ & _ & Ha & _ & _ & Hform & _).
  exists e. split; [exact Ha|exact (Hform eq_refl)].
Defined.
