(* ===== verification/Rbac.v ===== *)
(** * Administration of roles (internal/services/policy, internal/api/admin/policy_handlers.go)

    Roles, permissions and assignments are rows of the database; the repository
    is a class whose laws say what its statements do to them, and a model in
    memory keeps the laws.  What the rows mean is decided by the evaluator of
    Authorization.v, which reads the roles of a user through a cache: the
    theorems follow an assignment from the endpoint to the decision. *)

From S2P Require Import Prelude Types GoStd GoText MemIdentity AuditTrail AuditLog IdentityService Scim Authorization Gateway.
From Stdlib Require Import Ascii.
Import Engine.
Local Open Scope Z_scope.

(** ** Rows (internal/domain/policy/authz_models.go) *)
Record PermissionRow := mkPermissionRow { pr_ID : Z; pr_Resource : string; pr_Action : string; pr_Description : string }.
Record RoleRow := mkRoleRow { rr_ID : Z; rr_Code : string; rr_Description : string; rr_Permissions : list PermissionRow }.
Record UserRole := mkUserRole { ur_UserID : string; ur_RoleID : Z }.

(** What the evaluator sees of a row *)
Definition permission_of (p : PermissionRow) : Permission := mkPermission (pr_Resource p) (pr_Action p).
Definition role_of (r : RoleRow) : Role := mkRole (rr_Code r) (permission_of <$> rr_Permissions r).

Class RBACRepository (B : Type) := {
  rb_CreateRole : RoleRow -> prog B error RoleRow;
  rb_UpdateRole : RoleRow -> prog B error unit;
  rb_DeleteRole : Z -> prog B error unit;
  rb_ListRoles : prog B error (list RoleRow);
  rb_CreatePermission : PermissionRow -> prog B error PermissionRow;
  rb_ListPermissions : prog B error (list PermissionRow);
  rb_AddPermissionToRole : Z -> Z -> prog B error unit;
  rb_AssignRoleToUser : string -> Z -> prog B error unit;
  rb_UnassignRoleFromUser : string -> Z -> prog B error unit;
  rb_GetRolesForUser : string -> prog B error (list RoleRow)
}.

(** ** The service passes every call on *)
Section Service.
Context `{RBACRepository B}.
Definition service_CreateRole := rb_CreateRole (B:=B).
Definition service_ListRoles := rb_ListRoles (B:=B).
Definition service_UpdateRole := rb_UpdateRole (B:=B).
Definition service_DeleteRole := rb_DeleteRole (B:=B).
Definition service_CreatePermission := rb_CreatePermission (B:=B).
Definition service_ListPermissions := rb_ListPermissions (B:=B).
Definition service_AddPermissionToRole := rb_AddPermissionToRole (B:=B).
Definition service_AssignRoleToUser := rb_AssignRoleToUser (B:=B).
Definition service_UnassignRoleFromUser := rb_UnassignRoleFromUser (B:=B).
End Service.

(** ** The endpoints *)

(** [strconv.ParseUint(s, 10, 32)] *)
Definition ParseUint32 (s : string) : option Z :=
  let '(n, rest) := take_digits 0 s in
  if bool_decide (s <> "" /\ rest = "" /\ n < 2 ^ 32) then Some n else None.

Inductive admin_body := NoBody | RoleBody (r : RoleRow) | RolesBody (l : list RoleRow)
  | PermissionBody (p : PermissionRow) | PermissionsBody (l : list PermissionRow) | ErrorBody (message : string).
Record admin_answer := mkAdminAnswer { aa_status : Z; aa_body : admin_body }.

Section Handlers.
Context `{RBACRepository B}.
Notation hs := (prog B error admin_answer).

Definition bad_request (message : string) : hs := mret (mkAdminAnswer 400 (ErrorBody message)).
Definition or_500 {A} (m : prog B error A) (message : string) (k : A -> admin_answer) : hs :=
  answer ← try m;
  mret (match answer with inl _ => mkAdminAnswer 500 (ErrorBody message) | inr x => k x end).
(** The number in the path; [body] is what decoding the request gave. *)
Definition with_role_id (vars : gmap string string) (k : Z -> hs) : hs :=
  match ParseUint32 (Get vars "roleID") with None => bad_request "Invalid role ID" | Some id => k id end.
Definition with_body {A} (body : option A) (k : A -> hs) : hs :=
  match body with None => bad_request "Invalid request body" | Some x => k x end.
Definition no_content {A} (_ : A) : admin_answer := mkAdminAnswer 204 NoBody.

Definition createRole (body : option RoleRow) : hs :=
  with_body body (fun role => or_500 (service_CreateRole role) "Failed to create role" (fun r => mkAdminAnswer 201 (RoleBody r))).
Definition listRoles : hs :=
  or_500 service_ListRoles "Failed to list roles" (fun l => mkAdminAnswer 200 (RolesBody l)).
Definition updateRole (vars : gmap string string) (body : option RoleRow) : hs :=
  with_role_id vars (fun roleID => with_body body (fun role =>
    let role := mkRoleRow roleID (rr_Code role) (rr_Description role) (rr_Permissions role) in
    or_500 (service_UpdateRole role) "Failed to update role" (fun _ => mkAdminAnswer 200 (RoleBody role)))).
Definition deleteRole (vars : gmap string string) : hs :=
  with_role_id vars (fun roleID => or_500 (service_DeleteRole roleID) "Failed to delete role" no_content).
Definition assignRoleToUser (vars : gmap string string) (body : option Z) : hs :=
  with_body body (fun roleID =>
    or_500 (service_AssignRoleToUser (Get vars "userID") roleID) "Failed to assign role to user" no_content).
Definition unassignRoleFromUser (vars : gmap string string) : hs :=
  with_role_id vars (fun roleID =>
    or_500 (service_UnassignRoleFromUser (Get vars "userID") roleID) "Failed to unassign role from user" no_content).
Definition createPermission (body : option PermissionRow) : hs :=
  with_body body (fun p =>
    or_500 (service_CreatePermission p) "Failed to create permission" (fun p => mkAdminAnswer 201 (PermissionBody p))).
Definition listPermissions : hs :=
  or_500 service_ListPermissions "Failed to list permissions" (fun l => mkAdminAnswer 200 (PermissionsBody l)).
Definition addPermissionToRole (vars : gmap string string) (body : option Z) : hs :=
  with_role_id vars (fun roleID => with_body body (fun permissionID =>
    or_500 (service_AddPermissionToRole roleID permissionID) "Failed to add permission to role" no_content)).
End Handlers.

(** ** What the statements do

    The roles by number, and who has which.  A statement that fails changes
    nothing. *)
(** Rows are read in no promised order, and so are the permissions of a role. *)
Definition same_role (r s : RoleRow) : Prop :=
  rr_ID r = rr_ID s /\ rr_Code r = rr_Code s /\ rr_Description r = rr_Description s /\
  rr_Permissions r ≡ₚ rr_Permissions s.

Class RBACLaws (B : Type) `{RBACRepository B} := {
  roles_of : B -> gmap Z RoleRow;
  assigned : B -> string -> Z -> Prop;
  law_assign u id b : match rb_AssignRoleToUser u id b with
    | (Ok _, b') => roles_of b' = roles_of b /\ forall v i, assigned b' v i <-> (v = u /\ i = id) \/ assigned b v i
    | (Err _, b') => b' = b
    | _ => False end;
  law_unassign u id b : match rb_UnassignRoleFromUser u id b with
    | (Ok _, b') => roles_of b' = roles_of b /\ forall v i, assigned b' v i <-> assigned b v i /\ ~ (v = u /\ i = id)
    | (Err _, b') => b' = b
    | _ => False end;
  law_delete id b : match rb_DeleteRole id b with
    | (Ok _, b') => roles_of b' = delete id (roles_of b) /\ forall v i, assigned b' v i <-> assigned b v i
    | (Err _, b') => b' = b
    | _ => False end;
  law_roles u b : exists l, rb_GetRolesForUser u b = (Ok l, b) /\
    (forall r, r ∈ l -> exists id r0, assigned b u id /\ roles_of b !! id = Some r0 /\ same_role r r0) /\
    (forall id r0, assigned b u id -> roles_of b !! id = Some r0 -> exists r, r ∈ l /\ same_role r r0)
}.

(** What the provider reads: the rows of the user's roles. *)
Definition provider_roles `{RBACRepository B} (b : B) (u : string) : res error (list Role) :=
  match (rb_GetRolesForUser u b).1 with
  | Ok rows => Ok (role_of <$> rows)
  | Err e => Err e
  | Panic => Panic
  | Diverge => Diverge
  end.

(** ** From the endpoint to the decision *)
Section Decisions.
Context `{RBACLaws B}.
Implicit Types (b : B) (c : gmap string (gset string * time)) (u : string).

(** Some role that is assigned to the user has the permission. *)
Definition may b u (action resource : string) : Prop :=
  RbacFacts.no_colon resource = true /\ RbacFacts.no_colon action = true /\
  exists id r p, assigned b u id /\ roles_of b !! id = Some r /\ p ∈ rr_Permissions r /\
    pr_Resource p = resource /\ pr_Action p = action.

Lemma provider_roles_grant b u action resource :
  exists rs, provider_roles b u = Ok rs /\ (grants rs action resource <-> may b u action resource).
Proof.
  destruct (law_roles u b) as (l & Hl & Hin & Hall). unfold provider_roles. rewrite Hl. cbn.
  eexists. split; [reflexivity|]. unfold grants, may.
  split; intros (Hr & Ha & Hex); (split; [done|]); (split; [done|]).
  - destruct Hex as (r & p & Hrin & Hp & <- & <-). apply list_elem_of_fmap in Hrin as (row & -> & Hrow).
    apply Hin in Hrow as (id & r0 & Has & Hid & _ & _ & _ & Hperm). cbn in Hp.
    apply list_elem_of_fmap in Hp as (q & -> & Hq). rewrite Hperm in Hq. by exists id, r0, q.
  - destruct Hex as (id & r0 & p & Has & Hid & Hp & <- & <-).
    destruct (Hall id r0 Has Hid) as (r & Hrl & _ & _ & _ & Hperm). exists (role_of r), (permission_of p).
    split; [apply list_elem_of_fmap; by exists r|].
    split; [|done]. cbn. apply list_elem_of_fmap. exists p. by rewrite Hperm.
Qed.

(** The decision for a user without a living entry, and with one *)
Lemma decision_fresh now b u action resource c :
  cache_get now u c = None ->
  exists ok perms, IsAllowed (provider_roles b) now u action resource c = (Ok ok, cache_set now u perms c) /\
    (ok = true <-> may b u action resource) /\
    existsb (fun perm => match_permission perm action resource) (elements perms) = ok.
Proof.
  intros Hc. destruct (provider_roles_grant b u action resource) as (rs & Hrs & Hgr).
  exists (answer_of rs action resource), (permissions_of rs).
  rewrite (IsAllowed_miss _ now u action resource c rs Hc Hrs). split; [done|]. split; [|done].
  by rewrite answer_of_spec.
Qed.

Lemma or_500_ok {A} (m : prog B error A) message k b x b' :
  m b = (Ok x, b') -> or_500 m message k b = (Ok (k x), b').
Proof. intros Hm. unfold or_500, mbind, prog_bind, try. by rewrite Hm. Qed.

(** C32: an assignment from the endpoint to the decision, and back.  When both
    endpoints answer 204: after the assignment a user whose permissions are not
    cached is allowed exactly what some assigned role grants; a revocation
    removes the assignment from the rows at once, but for the five minutes that
    the cached entry lives the decision stays what it was, and only after that
    it is what the rows that are left grant. *)
Theorem revocation_lags now u id text action resource b b1 b2 c :
  let vars := <["userID" := u]> {[ "roleID" := text ]} in
  cache_get now u c = None -> ParseUint32 text = Some id ->
  assignRoleToUser vars (Some id) b = (Ok (mkAdminAnswer 204 NoBody), b1) ->
  unassignRoleFromUser vars b1 = (Ok (mkAdminAnswer 204 NoBody), b2) ->
  assigned b1 u id /\ ~ assigned b2 u id /\
  exists ok c1, IsAllowed (provider_roles b1) now u action resource c = (Ok ok, c1) /\
    (ok = true <-> may b1 u action resource) /\
    (forall t, now <= t <= now + ttl -> IsAllowed (provider_roles b2) t u action resource c1 = (Ok ok, c1)) /\
    (forall t, now + ttl < t -> exists ok' c', IsAllowed (provider_roles b2) t u action resource c1 = (Ok ok', c') /\
       (ok' = true <-> may b2 u action resource)).
Proof.
  intros vars Hc Hid Hassign Hunassign.
  assert (Get vars "userID" = u) as Hu by done. assert (Get vars "roleID" = text) as Ht by done.
  assert (assigned b1 u id /\ ~ assigned b2 u id) as [Hin Hout].
  { unfold assignRoleToUser, with_body, or_500, service_AssignRoleToUser, mbind, prog_bind, try in Hassign.
    rewrite Hu in Hassign. pose proof (law_assign u id b) as Hlaw.
    destruct (rb_AssignRoleToUser u id b) as [[x|e| |] bb]; try done; injection Hassign as [= <-].
    unfold unassignRoleFromUser, with_role_id, or_500, service_UnassignRoleFromUser, mbind, prog_bind, try in Hunassign.
    rewrite Ht, Hid, Hu in Hunassign. pose proof (law_unassign u id bb) as Hlaw'.
    destruct (rb_UnassignRoleFromUser u id bb) as [[y|e| |] b']; try done; injection Hunassign as [= <-].
    split; [apply Hlaw; by left|]. intros [_ []]%Hlaw'. done. }
  split; [done|]. split; [done|].
  destruct (decision_fresh now b1 u action resource c Hc) as (ok & perms & Hrun & Hok & Hperms).
  exists ok, (cache_set now u perms c). split; [done|]. split; [done|].
  assert (forall t, cache_get t u (cache_set now u perms c) = if bool_decide (t <= now + ttl) then Some perms else None) as Hget.
  { intros t. cbn. by rewrite lookup_insert_eq. }
  split.
  - intros t Hlt. rewrite (IsAllowed_hit _ t u action resource _ perms); [by rewrite Hperms|].
    rewrite Hget. by rewrite bool_decide_eq_true_2 by lia.
  - intros t Hlt. destruct (decision_fresh t b2 u action resource (cache_set now u perms c)) as (ok' & perms' & Hrun' & Hok' & _).
    { rewrite Hget. by rewrite bool_decide_eq_false_2 by lia. }
    by exists ok', (cache_set t u perms' (cache_set now u perms c)).
Qed.
End Decisions.

(** ** The routes of the administration *)
Section AdminRoutes.
Context `{DirectoryLaws R} `{Cache C} `{CaseFolding}.
Context (ValidateJWT : string -> res error (gmap string any)) (now : time) (auditID : string).
Context (roles : string -> res error (list Role)).

(** A permission is split at its colons: no part has one. *)
Lemma split_part_free sep t x : x ∈ strings_Split sep t -> str_free sep x = true.
Proof.
  revert x. induction t as [|c t IH]; intros x; cbn [strings_Split].
  - by intros ->%list_elem_of_singleton.
  - case_bool_decide as Hc; [by intros [->|Hx]%elem_of_cons; [|apply IH]|].
    destruct (strings_Split sep t) as [|w ws].
    + intros ->%list_elem_of_singleton. cbn. by rewrite bool_decide_eq_false_2.
    + intros [->|Hx]%elem_of_cons; [|apply IH; by apply elem_of_cons; right].
      cbn. rewrite bool_decide_eq_false_2 by done. cbn. apply IH, list_elem_of_here.
Qed.

Lemma no_colon_action perm action resource :
  RbacFacts.no_colon action = false -> match_permission perm action resource = false.
Proof.
  intros Hno. unfold match_permission. destruct (strings_Split ":"%char perm) as [|r [|a [|? ?]]] eqn:Hs; try done.
  destruct (bool_decide (a = action)) eqn:Ha; [|by rewrite andb_false_r]. apply bool_decide_eq_true in Ha as ->.
  exfalso. assert (action ∈ strings_Split ":"%char perm) as Hin by (rewrite Hs; set_solver).
  apply split_part_free in Hin. unfold RbacFacts.no_colon in Hno. congruence.
Qed.

Lemma never_granted u resource c : (IsAllowed roles now u "user:update" resource c).1 <> Ok true.
Proof.
  unfold IsAllowed, mbind, prog_bind. destruct (getPermissionsForUser roles now u c) as [[perms|e| |] c']; try done.
  cbn. destruct (existsb _ _) eqn:He; [|done]. apply existsb_exists in He as (perm & _ & Hm).
  by rewrite no_colon_action in Hm.
Qed.

(** An OPA provider that is not there, or not enabled *)
Definition no_opa (opa : option OPAProvider) : Prop :=
  match opa with None => True | Some p => opa_Enabled (opa_config p) = false end.

Lemma adapter_never_allows opa ctx c :
  no_opa opa -> ec_Action ctx = "user:update" -> (adapter_Evaluate roles now opa ctx c).1 <> Ok DecisionAllow.
Proof.
  intros Hopa Hact. unfold adapter_Evaluate, hybrid_Evaluate, mbind, prog_bind.
  pose proof (never_granted (subject_UserID (ec_Subject ctx)) (resource_ID (ec_Resource ctx)) c) as Hno.
  cbn [er_SubjectID er_Action er_Resource adapter_request]. rewrite Hact.
  destruct (IsAllowed _ _ _ _ _ c) as [[allowed|e| |] c']; try done. cbn [fst] in Hno.
  assert (allowed = false) as -> by (destruct allowed; congruence).
  unfold try, lift. destruct opa as [p|]; [|done]. unfold opa_Evaluate. cbn in Hopa. by rewrite Hopa.
Qed.

(** The routes of the administration are closed.  Their guard asks for the
    action "user:update", a permission is stored and matched as a resource and
    an action with a colon between them, and so no role grants it: without OPA
    every request to ban a user or to manage webhooks is refused, whoever sends
    it, whatever roles the user has and whatever is cached. *)
Theorem admin_routes_closed opa has_api_keys has_webauthn rt next r (s : server R C) :
  no_opa opa -> dir_inv (sv_repo s) -> rt ∈ registerRoutes has_api_keys has_webauthn ->
  strings_HasPrefix (rt_Template rt) "/api/v1/admin" = true ->
  let run := @guarded R _ C (hybrid_evaluator roles now opa) _ ValidateJWT now auditID id (rt_Guards rt) next r s in
  refusal run.1 /\ sv_repo run.2 = sv_repo s /\ sv_log run.2 = sv_log s.
Proof.
  intros Hopa Hinv Hrt Hprefix run. subst run.
  assert (rt_Guards rt = adminGuards) as ->.
  { assert (forallb (fun rt => negb (strings_HasPrefix (rt_Template rt) "/api/v1/admin") ||
      match rt_Guards rt with [Auth; Authz "user:update" "user"] => true | _ => false end)
      (registerRoutes has_api_keys has_webauthn) = true) as Hall
      by (destruct has_api_keys, has_webauthn; vm_compute; reflexivity).
    rewrite forallb_forall in Hall. apply list_elem_of_In, Hall in Hrt. rewrite Hprefix in Hrt.
    cbn in Hrt. unfold adminGuards. repeat case_match; done. }
  unfold guarded, adminGuards. cbn [foldr].
  match goal with |- context [AuthMiddleware_Execute ValidateJWT ?k r s] => set (inner := k) end.
  destruct (auth_cases ValidateJWT inner r s Hinv) as [(sub & p & u & Hb & Hh)|(a & vs & -> & Ha)]; [|done].
  rewrite (auth_passes ValidateJWT inner r s sub p u Hinv Hb Hh). unfold inner.
  destruct (@Authorize _ (hybrid_evaluator roles now opa) auditID now
    (evaluation_context now "user:update" "user" sub (request_of sub u r)) (sv_policy s, sv_audit s)) as [a pa] eqn:Hd.
  rewrite (authz_runs now auditID "user:update" "user" next r s sub u a pa Hd).
  rewrite bool_decide_eq_false_2.
  - by destruct a; repeat split; try right.
  - intros ->. unfold Authorize, mbind, prog_bind, try, zoom in Hd. cbn [ev_Evaluate hybrid_evaluator fst snd] in Hd.
    pose proof (adapter_never_allows opa (evaluation_context now "user:update" "user" sub (request_of sub u r)) (sv_policy s) Hopa eq_refl) as Hno.
    destruct (adapter_Evaluate _ _ _ _ _) as [[d|e| |] c']; try done. cbn in Hd, Hno. injection Hd as [= -> _]. by apply Hno.
Qed.
End AdminRoutes.

(** ** A model in memory that keeps the laws

    An assignment of no role, or twice, fails, and so does the removal of a
    role that is assigned: [user_roles.role_id] refers to a role and is part of
    a key. *)
Record rbac_tables := mkTables { rt_roles : gmap Z RoleRow; rt_permissions : gmap Z PermissionRow; rt_user_roles : list UserRole }.
Definition user_role_dec : EqDecision UserRole.
Proof. solve_decision. Defined.
#[global] Existing Instance user_role_dec.

Definition db_error : error := Errorf "constraint violated".
Definition when (ok : bool) (f : rbac_tables -> rbac_tables) : prog rbac_tables error unit :=
  if ok then modify f else throw db_error.
Definition next_id {A} (m : gmap Z A) : Z := 1 + foldr Z.max 0 (elements (dom m)).

#[global] Instance tables_repository : RBACRepository rbac_tables := {
  rb_CreateRole r := t ← get;
    if bool_decide (rr_Code r ∈ (fun x => rr_Code x.2) <$> map_to_list (rt_roles t)) then throw db_error
    else
      let r := mkRoleRow (next_id (rt_roles t)) (rr_Code r) (rr_Description r) (rr_Permissions r) in
      put (mkTables (<[rr_ID r := r]> (rt_roles t)) (rt_permissions t) (rt_user_roles t)) ;; mret r;
  rb_UpdateRole r := modify (fun t => mkTables (<[rr_ID r := r]> (rt_roles t)) (rt_permissions t) (rt_user_roles t));
  rb_DeleteRole id := t ← get;
    when (bool_decide (id ∉ ur_RoleID <$> rt_user_roles t))
      (fun t => mkTables (delete id (rt_roles t)) (rt_permissions t) (rt_user_roles t));
  rb_ListRoles := t ← get; mret (map_to_list (rt_roles t)).*2;
  rb_CreatePermission p := t ← get;
    let p := mkPermissionRow (next_id (rt_permissions t)) (pr_Resource p) (pr_Action p) (pr_Description p) in
    put (mkTables (rt_roles t) (<[pr_ID p := p]> (rt_permissions t)) (rt_user_roles t)) ;; mret p;
  rb_ListPermissions := t ← get; mret (map_to_list (rt_permissions t)).*2;
  rb_AddPermissionToRole id pid := t ← get;
    match rt_roles t !! id, rt_permissions t !! pid with
    | Some r, Some p =>
        put (mkTables (<[id := mkRoleRow id (rr_Code r) (rr_Description r) (rr_Permissions r ++ [p])]> (rt_roles t))
               (rt_permissions t) (rt_user_roles t))
    | _, _ => throw db_error
    end;
  rb_AssignRoleToUser u id := t ← get;
    when (bool_decide (is_Some (rt_roles t !! id)) && bool_decide (mkUserRole u id ∉ rt_user_roles t))
      (fun t => mkTables (rt_roles t) (rt_permissions t) (rt_user_roles t ++ [mkUserRole u id]));
  rb_UnassignRoleFromUser u id :=
    modify (fun t => mkTables (rt_roles t) (rt_permissions t) (filter (fun x => x <> mkUserRole u id) (rt_user_roles t)));
  rb_GetRolesForUser u := t ← get;
    mret (omap (fun x => if bool_decide (ur_UserID x = u) then rt_roles t !! ur_RoleID x else None) (rt_user_roles t))
}.

#[global] Instance tables_laws : RBACLaws rbac_tables.
Proof.
  refine {| roles_of := rt_roles; assigned t u id := mkUserRole u id ∈ rt_user_roles t |}.
  - intros u id t. cbn. rewrite prog_get_bind. unfold when. destruct (_ && _); [|done]. cbn. split; [done|].
    intros v i. rewrite elem_of_app, list_elem_of_singleton. naive_solver.
  - intros u id t. cbn. split; [done|]. intros v i. rewrite list_elem_of_filter. naive_solver.
  - intros id t. cbn. rewrite prog_get_bind. unfold when. by case_bool_decide.
  - intros u t. cbn. eexists. split; [done|]. split.
    + intros r Hr. apply list_elem_of_omap in Hr as ([v i] & Hin & Hr). cbn in Hr.
      case_bool_decide as Hv; [|done]. subst v. by exists i, r.
    + intros id r Hin Hr. exists r. split; [|done]. apply list_elem_of_omap. exists (mkUserRole u id).
      split; [done|]. cbn. by rewrite bool_decide_eq_true_2.
Defined.

(** ** Witnesses *)
Definition demo_tables : rbac_tables :=
  mkTables {[ 1 := mkRoleRow 1 "editor" "" [mkPermissionRow 1 "reports" "write" ""] ]} {[ 1 := mkPermissionRow 1 "reports" "write" "" ]} [].
Definition demo_vars : gmap string string := <["userID" := "u1"]> {[ "roleID" := "1" ]}.

Lemma revocation_lags_witness :
  let b1 := (assignRoleToUser demo_vars (Some 1) demo_tables).2 in
  let b2 := (unassignRoleFromUser demo_vars b1).2 in
  exists c1, IsAllowed (provider_roles b1) 0 "u1" "write" "reports" demo_cache = (Ok true, c1) /\
    (forall t, 0 <= t <= 0 + ttl -> IsAllowed (provider_roles b2) t "u1" "write" "reports" c1 = (Ok true, c1)).
Proof.
  intros b1 b2.
  destruct (@revocation_lags rbac_tables tables_repository tables_laws 0 "u1" 1 "1" "write" "reports" demo_tables b1 b2 demo_cache eq_refl eq_refl
    ltac:(vm_compute; reflexivity) ltac:(vm_compute; reflexivity))
    as (Hin & _ & ok & c1 & Hrun & Hok & Hlag & _).
  assert (ok = true) as ->.
  { apply Hok. split; [reflexivity|]. split; [reflexivity|].
    exists 1, (mkRoleRow 1 "editor" "" [mkPermissionRow 1 "reports" "write" ""]), (mkPermissionRow 1 "reports" "write" "").
    split; [exact Hin|]. split; [vm_compute; reflexivity|]. split; [apply list_elem_of_singleton; reflexivity|split; reflexivity]. }
  exists c1. split; [exact Hrun|exact Hlag].
Defined.

Lemma admin_routes_closed_witness :
  let s := mkServer demo_repo ∅ demo_cache (mkAuditService [] false []) quiet_log in
  refusal (@guarded _ (memory_repository default_order) _ (hybrid_evaluator (fun _ => Ok [mkRole "admin" [mkPermission "" "user:update"]]) 7 None)
    ascii_folding demo_claims 7 "a1" id adminGuards (fun _ => mret (mkResponse 200 "done")) demo_request s).1.
Proof.
  intros s.
  exact (proj1 (@admin_routes_closed _ _ (memory_directory_laws default_order) _ _ ascii_folding demo_claims 7 "a1"
    (fun _ => Ok [mkRole "admin" [mkPermission "" "user:update"]]) None true true
    (mkRoute "POST" "/api/v1/admin/users/{userID}/ban" adminGuards "adminUser.BanUser")
    (fun _ => mret (mkResponse 200 "done")) demo_request s I scim_demo_filed
    ltac:(apply list_elem_of_In; vm_compute; tauto) eq_refl)).
Defined.
