(* ===== verification/Privacy.v ===== *)
(** * Privacy: consent, export and erasure (internal/services/privacy,
      internal/domain/privacy, internal/api/privacy)

    The service works on users, log entries, sessions and consent records.  The
    repository of consents is a class; its laws say what the queries of the
    PostgreSQL repository return, and a table keeps them.  [db.Transaction] is
    the function it runs between a begin and a commit that may fail: none of the
    repositories takes part in it, so nothing is rolled back. *)

From stdpp Require Import sorting.
From S2P Require Import Prelude Types GoStd MemIdentity MemAuth AuditTrail AuditLog IdentityService Redis SessionStore Scim Recovery Gateway.
Local Open Scope Z_scope.

(** ** The data (internal/domain/privacy/model.go) *)
Definition ConsentActionGranted : string := "GRANTED".
Definition ConsentActionRevoked : string := "REVOKED".
Record ConsentRecord := mkConsentRecord {
  consent_ID : string;
  consent_UserID : string;
  consent_PolicyID : string;
  consent_PolicyVersion : string;
  consent_Action : string;
  consent_UserAgent : string;
  consent_IPAddress : string;
  consent_CreatedAt : time
}.
#[global] Instance ConsentRecord_eq_dec : EqDecision ConsentRecord.
Proof. solve_decision. Defined.

(** The repository; the database fills in [CreatedAt]. *)
Class ConsentRepository (P : Type) := {
  CreateConsentRecord : time -> ConsentRecord -> prog P error unit;
  GetLastConsentRecord : string -> string -> prog P error ConsentRecord;
  GetConsentHistory : string -> prog P error (list ConsentRecord)
}.

Record GrantConsentRequest := mkGrantConsentRequest {
  gc_UserID : string;
  gc_PolicyID : string;
  gc_PolicyVersion : string;
  gc_UserAgent : string;
  gc_IPAddress : string
}.
Record ExportData := mkExportData {
  ex_User : loc;
  ex_AuditHistory : list LogEvent;
  ex_ConsentHistory : list ConsentRecord
}.

(** What the service works on *)
Record pworld (R C P : Type) := mkPWorld {
  pw_repo : R;
  pw_errs : errvars;
  pw_auth : auth_repo;
  pw_sessions : C;
  pw_audit : audit_service;
  pw_consents : P
}.
Arguments mkPWorld {R C P}.
Arguments pw_repo {R C P}.
Arguments pw_errs {R C P}.
Arguments pw_auth {R C P}.
Arguments pw_sessions {R C P}.
Arguments pw_audit {R C P}.
Arguments pw_consents {R C P}.

Section Service.
Context `{IdentityRepository R} `{Redis C} `{ConsentRepository P}.
Context (PolicyVersions : gmap string string).
(** What one call draws *)
Context (now : time) (uuid : string).
Notation ps := (prog (pworld R C P) error).

Definition on_users {A} (m : svc R A) : ps A :=
  zoom (fun w => (pw_repo w, pw_errs w))
    (fun p w => mkPWorld p.1 p.2 (pw_auth w) (pw_sessions w) (pw_audit w) (pw_consents w)) m.
Definition on_consents {A} (m : prog P error A) : ps A :=
  zoom pw_consents (fun c w => mkPWorld (pw_repo w) (pw_errs w) (pw_auth w) (pw_sessions w) (pw_audit w) c) m.
Definition on_logs {A} (m : prog auth_repo error A) : ps A :=
  zoom pw_auth (fun a w => mkPWorld (pw_repo w) (pw_errs w) a (pw_sessions w) (pw_audit w) (pw_consents w)) m.
Definition on_user_sessions {A} (m : prog C error A) : ps A :=
  zoom pw_sessions (fun c w => mkPWorld (pw_repo w) (pw_errs w) (pw_auth w) c (pw_audit w) (pw_consents w)) m.
Definition on_recorder {A} (m : prog audit_service error A) : ps A :=
  zoom pw_audit (fun a w => mkPWorld (pw_repo w) (pw_errs w) (pw_auth w) (pw_sessions w) a (pw_consents w)) m.

(** [return types.ErrInternal.WithCause(err)] *)
Definition internal {A} (m : ps A) : ps A :=
  answer ← try m;
  match answer with inr x => mret x | inl err => on_users (fail_internal err) end.

(** ** Consent *)

(** Versions are compared as texts. *)
Definition HasConsentedLatest (userID policyID : string) : ps bool :=
  let latestVersion := Get PolicyVersions policyID in
  if bool_decide (latestVersion = "")
  then on_users (fail_details ErrNotFound {[ "reason" := "Policy not found." ]})
  else
    record ← try (on_consents (GetLastConsentRecord userID policyID));
    match record with
    | inl err => if bool_decide (err = Sentinel ErrNotFound) then mret false else on_users (fail_internal err)
    | inr record => mret (String.leb latestVersion (consent_PolicyVersion record))
    end.

Definition set_user_PrivacySettings (m : gmap string any) (u : User) : User :=
  mkUser (user_ID u) (user_Username u) (user_Email u) (user_Phone u) (user_Password u) (user_Status u)
    (user_Attributes u) m (user_Groups u) (user_CreatedAt u)
    (user_UpdatedAt u) (user_DeletedAt u) (user_LastLoginAt u) (user_MergeHistory u)
    (user_ExternalID u) (user_SourceType u).
Definition consent_record (req : GrantConsentRequest) : ConsentRecord :=
  mkConsentRecord uuid (gc_UserID req) (gc_PolicyID req) (gc_PolicyVersion req) ConsentActionGranted
    (gc_UserAgent req) (gc_IPAddress req) zero_time.
Definition with_consent (req : GrantConsentRequest) (u : User) : User :=
  set_user_PrivacySettings (<[gc_PolicyID req := AnyString (gc_PolicyVersion req)]> (user_PrivacySettings u)) u.

Definition GrantConsent (req : GrantConsentRequest) : ps unit :=
  if bool_decide (gc_PolicyVersion req = "")
  then on_users (fail_details ErrInvalidRequest {[ "reason" := "PolicyVersion is required." ]})
  else
    internal (on_consents (CreateConsentRecord now (consent_record req))) ;;
    user ← internal (on_users (on_repo (ir_GetUserByID (gc_UserID req))));
    u ← on_users (on_repo (ir_read user));
    on_users (on_repo (ir_store user (with_consent req u))) ;;
    internal (on_users (on_repo (ir_UpdateUser user))).

(** ** Export *)
Definition exported_log (log : AuditLog) : LogEvent :=
  mkLogEvent (log_ID log) (log_Timestamp log) (log_Action log) (mkActor (log_ActorID log) "" "")
    (mkTarget (log_Resource log) "" "") "" (log_Status log) ∅ (log_IPAddress log) (log_UserAgent log)
    "" "" "" "" ∅ "".

(** The password is cleared on the object the repository returned. *)
Definition CollectUserData (userID : string) : ps ExportData :=
  user ← internal (on_users (on_repo (ir_GetUserByID userID)));
  on_users (hide_password user) ;;
  auditLogs ← internal (on_logs (MemAuth.GetLogsForUser userID (mkPaginationQuery 1000 0)));
  consents ← internal (on_consents (GetConsentHistory userID));
  mret (mkExportData user (exported_log <$> auditLogs) consents).

(** ** Erasure *)
Definition ErrRecordNotFound : error := Errorf "record not found".
Definition anonymized (u : User) : User :=
  mkUser (user_ID u) ("deleted_" +:+ uuid) ("deleted_" +:+ uuid +:+ "@anonymized.local") "" "" "deleted"
    (user_Attributes u) (user_PrivacySettings u) (user_Groups u) (user_CreatedAt u)
    (user_UpdatedAt u) (user_DeletedAt u) (user_LastLoginAt u) (user_MergeHistory u)
    (user_ExternalID u) (user_SourceType u).

(** The body of the transaction *)
Definition erase (auditID : string) (userID : string) : ps unit :=
  on_user_sessions (RevokeAllUserSessions userID) ;;
  on_recorder (RecordAdminAction auditID now userID "" "user" "account.erased" ""
    {[ "reason" := AnyString "gdpr_right_to_be_forgotten" ]}) ;;
  user ← on_users (on_repo (ir_GetUserByID userID));
  u ← on_users (on_repo (ir_read user));
  on_users (on_repo (ir_store user (anonymized u))) ;;
  on_users (on_repo (ir_UpdateUser user)).

(** [db.Transaction(fn)]; without a database the call panics. *)
Definition Transaction (db : option (res error unit * res error unit)) (fn : ps unit) : ps unit :=
  match db with
  | None => lift Panic
  | Some (begin_, commit) => lift begin_ ;; fn ;; lift commit
  end.
Definition EraseAccount (db : option (res error unit * res error unit)) (auditID userID : string) : ps unit :=
  if bool_decide (userID = "") then throw ErrRecordNotFound
  else Transaction db (erase auditID userID).

(** ** The endpoints (internal/api/privacy/handlers.go) *)

(** The HTTP status of the predefined errors these calls return *)
Definition http_status (code : string) : Z :=
  if bool_decide (code = ErrNotFound) || bool_decide (code = ErrUserNotFound) then 404
  else if bool_decide (code = ErrInvalidRequest) then 400 else 500.
Definition app_answer (err : error) : ps response :=
  match err with
  | Sentinel code => mret (json_error (http_status code) code)
  | _ => on_users (on_errors (fun vs => WithCause vs ErrInternal err)) ;; mret (json_error 500 ErrInternal)
  end.
Definition with_caller (r : request) (k : string -> ps response) : ps response :=
  match ctx_string UserIDContextKey r with
  | None =>
      on_users (on_errors (fun vs => WithDetails vs ErrInternal {[ "reason" := "User ID not found in context." ]})) ;;
      mret (json_error 500 ErrInternal)
  | Some userID => k userID
  end.
Definition answering {A} (m : ps A) (k : A -> ps response) : ps response :=
  answer ← try m;
  match answer with inl err => app_answer err | inr x => k x end.

(** [body] is the decoded request, or the error of decoding it. *)
Definition handleConsent (body : error + GrantConsentRequest) (r : request) : ps response :=
  match body with
  | inl err => on_users (on_errors (fun vs => WithCause vs ErrInvalidRequest err)) ;; mret (json_error 400 ErrInvalidRequest)
  | inr req =>
      with_caller r (fun userID =>
        answering (GrantConsent (mkGrantConsentRequest userID (gc_PolicyID req) (gc_PolicyVersion req)
                     (Get (req_Header r) "User-Agent") (req_RemoteAddr r)))
          (fun _ => mret (mkResponse StatusOK "")))
  end.
Definition handleExport (marshal : ExportData -> res error string) (r : request) : ps response :=
  with_caller r (fun userID =>
    answering (CollectUserData userID) (fun data =>
      answering (internal (lift (marshal data))) (fun text => mret (mkResponse StatusOK text)))).
Definition handleErasure (db : option (res error unit * res error unit)) (auditID : string) (r : request) : ps response :=
  with_caller r (fun userID =>
    answering (EraseAccount db auditID userID) (fun _ => mret (mkResponse StatusOK ""))).
End Service.

(** ** What the service relies on

    The consents that are stored; the last one of a user for a policy is one
    that no other is younger than. *)
Definition consent_of (userID policyID : string) (c : ConsentRecord) : Prop :=
  consent_UserID c = userID /\ consent_PolicyID c = policyID.
Definition with_CreatedAt (now : time) (c : ConsentRecord) : ConsentRecord :=
  mkConsentRecord (consent_ID c) (consent_UserID c) (consent_PolicyID c) (consent_PolicyVersion c) (consent_Action c)
    (consent_UserAgent c) (consent_IPAddress c) (if bool_decide (consent_CreatedAt c = zero_time) then now else consent_CreatedAt c).
Definition youngest (l : list ConsentRecord) (P : ConsentRecord -> Prop) (c : ConsentRecord) : Prop :=
  c ∈ l /\ P c /\ forall d, d ∈ l -> P d -> consent_CreatedAt d <= consent_CreatedAt c.

Class ConsentLaws (P : Type) `{ConsentRepository P} := {
  consents : P -> list ConsentRecord;
  law_consent_create now c p : exists p', CreateConsentRecord now c p = (Ok (), p') /\
    consents p' = consents p ++ [with_CreatedAt now c];
  law_consent_last u pol p :
    (exists c, GetLastConsentRecord u pol p = (Ok c, p) /\ youngest (consents p) (consent_of u pol) c) \/
    (GetLastConsentRecord u pol p = (Err (Sentinel ErrNotFound), p) /\ forall c, c ∈ consents p -> ~ consent_of u pol c);
  law_consent_history u p : exists l, GetConsentHistory u p = (Ok l, p) /\
    l ≡ₚ filter (fun c => consent_UserID c = u) (consents p)
}.

Section Facts.
Context `{DirectoryLaws R} `{RedisLaws C} `{ConsentLaws P}.
Context (PolicyVersions : gmap string string).
Implicit Types (w : pworld R C P).

Definition with_repo (r : R) w : pworld R C P :=
  mkPWorld r (pw_errs w) (pw_auth w) (pw_sessions w) (pw_audit w) (pw_consents w).
Definition with_consents (p : P) w : pworld R C P :=
  mkPWorld (pw_repo w) (pw_errs w) (pw_auth w) (pw_sessions w) (pw_audit w) p.

Lemma on_users_run {A} (m : svc R A) w a r :
  m (pw_repo w, pw_errs w) = (a, (r, pw_errs w)) -> on_users m w = (a, with_repo r w).
Proof. intros Hm. unfold on_users, zoom. by rewrite Hm. Qed.

Lemma users_repo_run {A} (m : prog R error A) w a r :
  m (pw_repo w) = (a, r) -> on_users (on_repo m) w = (a, with_repo r w).
Proof. intros Hm. apply on_users_run. unfold on_repo, zoom. cbn. by rewrite Hm. Qed.

Lemma internal_ok {A} (m : prog (pworld R C P) error A) w a w' : m w = (Ok a, w') -> internal m w = (Ok a, w').
Proof. intros Hm. unfold internal, mbind, prog_bind, try. by rewrite Hm. Qed.

Lemma internal_err {A} (m : prog (pworld R C P) error A) w err w' : m w = (Err err, w') ->
  internal m w = (Err (Sentinel ErrInternal),
    mkPWorld (pw_repo w') (WithCause (pw_errs w') ErrInternal err) (pw_auth w') (pw_sessions w') (pw_audit w') (pw_consents w')).
Proof. intros Hm. unfold internal, mbind, prog_bind, try. rewrite Hm. unfold on_users, zoom. by rewrite fail_internal_run. Qed.

Lemma users_same w : with_repo (pw_repo w) w = w.
Proof. by destruct w. Qed.

Lemma privacy_user_run id p u w : dir_inv (pw_repo w) -> dir_holds (pw_repo w) id p u ->
  on_users (on_repo (ir_GetUserByID id)) w = (Ok p, w).
Proof.
  intros Hinv Hh. rewrite <- (users_same w) at 2. apply users_repo_run.
  destruct (dir_find _ id Hinv) as [(q & v & Hget & Hq)|(err & _ & Hno)]; [|by edestruct Hno].
  by destruct (dir_unique _ id p u q v Hinv Hh Hq) as [<- <-].
Qed.

Lemma read_user_run' id p u w : dir_inv (pw_repo w) -> dir_holds (pw_repo w) id p u ->
  on_users (on_repo (ir_read p)) w = (Ok u, w).
Proof. intros Hinv Hh. rewrite <- (users_same w) at 2. apply users_repo_run. by apply (dir_read _ id p u). Qed.

(** ** Consent *)

(** The answer depends on the version of the youngest record alone, be it a
    grant or a revocation, compared as a text. *)
Lemma consented_by_last u pol latest c w :
  PolicyVersions !! pol = Some latest -> latest <> "" ->
  youngest (consents (pw_consents w)) (consent_of u pol) c ->
  (forall d, youngest (consents (pw_consents w)) (consent_of u pol) d -> consent_PolicyVersion d = consent_PolicyVersion c) ->
  HasConsentedLatest PolicyVersions u pol w = (Ok (String.leb latest (consent_PolicyVersion c)), w).
Proof.
  intros Hpol Hne Hy Huniq. unfold HasConsentedLatest, Get. rewrite Hpol. cbn [default].
  rewrite bool_decide_eq_false_2 by done.
  destruct (law_consent_last u pol (pw_consents w)) as [(d & Hget & Hd)|[_ Hno]].
  - rewrite (prog_bind_run _ _ _ (inr d) w); [by rewrite (Huniq d Hd)|].
    unfold try, on_consents, zoom. rewrite Hget. by destruct w.
  - destruct Hy as (Hin & Hc & _). by edestruct Hno.
Qed.

Lemma grant_run now uuid req p u w :
  dir_inv (pw_repo w) -> dir_holds (pw_repo w) (gc_UserID req) p u -> gc_PolicyVersion req <> "" ->
  exists w', GrantConsent now uuid req w = (Ok (), w') /\
    consents (pw_consents w') = consents (pw_consents w) ++ [with_CreatedAt now (consent_record uuid req)] /\
    dir_holds (pw_repo w') (gc_UserID req) p (with_consent req u) /\
    (forall id q v, id <> gc_UserID req -> dir_holds (pw_repo w') id q v <-> dir_holds (pw_repo w) id q v).
Proof.
  intros Hinv Hh Hv. unfold GrantConsent. rewrite bool_decide_eq_false_2 by done.
  destruct (law_consent_create now (consent_record uuid req) (pw_consents w)) as (c' & Hcreate & Hcs).
  set (w1 := with_consents c' w).
  rewrite (prog_bind_run _ _ _ () w1) by (apply internal_ok; unfold on_consents, zoom; by rewrite Hcreate).
  rewrite (prog_bind_run _ _ _ p w1) by (apply internal_ok, (privacy_user_run _ p u); done).
  rewrite (prog_bind_run _ _ _ u w1) by by apply (read_user_run' (gc_UserID req) p u).
  destruct (dir_replace _ _ p u (with_consent req u) Hinv Hh eq_refl) as (r1 & r2 & Hst & Hup & _ & Hh' & Ho).
  rewrite (prog_bind_run _ _ _ () (with_repo r1 w1)) by by apply users_repo_run.
  exists (with_repo r2 w1). split; [|done]. apply internal_ok.
  rewrite (users_repo_run _ (with_repo r1 w1) (Ok ()) r2 Hup). by destruct w.
Qed.

(** Granting consent.  For a stored user, and records that are older than
    now, [GrantConsent] stores one record with the action GRANTED and the
    version in the settings of the user, and changes no other user; after it
    [HasConsentedLatest] answers whether the version is, as a text, at least the
    one of the configuration.  As texts "2.0" is at least "10.0", and "10.0"
    less than "9.0". *)
Theorem consent_roundtrip now uuid req latest p u w :
  dir_inv (pw_repo w) -> dir_holds (pw_repo w) (gc_UserID req) p u -> gc_PolicyVersion req <> "" ->
  PolicyVersions !! gc_PolicyID req = Some latest -> latest <> "" ->
  (forall c, c ∈ consents (pw_consents w) -> consent_CreatedAt c < now) ->
  exists w', GrantConsent now uuid req w = (Ok (), w') /\
    consents (pw_consents w') = consents (pw_consents w) ++ [with_CreatedAt now (consent_record uuid req)] /\
    dir_holds (pw_repo w') (gc_UserID req) p (with_consent req u) /\
    (forall id q v, id <> gc_UserID req -> dir_holds (pw_repo w') id q v <-> dir_holds (pw_repo w) id q v) /\
    HasConsentedLatest PolicyVersions (gc_UserID req) (gc_PolicyID req) w' =
      (Ok (String.leb latest (gc_PolicyVersion req)), w').
Proof.
  intros Hinv Hh Hv Hpol Hlatest Hold. destruct (grant_run now uuid req p u w Hinv Hh Hv) as (w' & Hrun & Hcs & Hh' & Ho).
  exists w'. repeat (split; [done|]).
  set (c := with_CreatedAt now (consent_record uuid req)).
  assert (forall d, youngest (consents (pw_consents w')) (consent_of (gc_UserID req) (gc_PolicyID req)) d -> d = c) as Hlast.
  { intros d (Hin & Hd & Hmax). rewrite Hcs in Hin. apply elem_of_app in Hin as [Hin| ->%list_elem_of_singleton]; [|done].
    pose proof (Hold d Hin) as Hlt. specialize (Hmax c). rewrite Hcs in Hmax.
    assert (now <= consent_CreatedAt d); [|lia].
    apply Hmax; [apply elem_of_app; right; apply list_elem_of_here|done]. }
  apply (consented_by_last _ _ latest c); [done|done| |].
  - split; [rewrite Hcs; apply elem_of_app; right; apply list_elem_of_here|]. split; [done|].
    intros d Hin Hd. rewrite Hcs in Hin. apply elem_of_app in Hin as [Hin%Hold| ->%list_elem_of_singleton]; [|done].
    change (consent_CreatedAt c) with now. lia.
  - intros d Hd. by rewrite (Hlast d Hd).
Qed.

(** A grant for nobody leaves its record behind all the same. *)
Theorem grant_for_nobody now uuid req w :
  dir_inv (pw_repo w) -> (forall p u, ~ dir_holds (pw_repo w) (gc_UserID req) p u) -> gc_PolicyVersion req <> "" ->
  exists w', GrantConsent now uuid req w = (Err (Sentinel ErrInternal), w') /\
    consents (pw_consents w') = consents (pw_consents w) ++ [with_CreatedAt now (consent_record uuid req)] /\
    pw_repo w' = pw_repo w.
Proof.
  intros Hinv Hno Hv. unfold GrantConsent. rewrite bool_decide_eq_false_2 by done.
  destruct (law_consent_create now (consent_record uuid req) (pw_consents w)) as (c' & Hcreate & Hcs).
  set (w1 := with_consents c' w).
  rewrite (prog_bind_run _ _ _ () w1) by (apply internal_ok; unfold on_consents, zoom; by rewrite Hcreate).
  destruct (dir_find _ (gc_UserID req) Hinv) as [(p & u & _ & Hh)|(err & Hget & _)]; [by edestruct Hno|].
  assert (on_users (on_repo (ir_GetUserByID (gc_UserID req))) w1 = (Err err, w1)) as Hrun.
  { rewrite <- (users_same w1) at 2. by apply users_repo_run. }
  rewrite (prog_bind_fail _ _ _ _ _ (internal_err _ _ _ _ Hrun)). eexists. split; [reflexivity|]. by split; [exact Hcs|].
Qed.

(** ** Erasure *)
Definition erasure_event (now : time) (auditID userID : string) : AuditEvent :=
  mkAuditEvent auditID now "admin" "account.erased" userID "" "user" ResultSuccess ""
    {[ "reason" := AnyString "gdpr_right_to_be_forgotten" ]}.
(** What comes first: the indexed sessions are gone, the event is out. *)
Definition farewell (now : time) (auditID userID : string) w w' : Prop :=
  (forall t id, id ∈ zmembers (pw_sessions w) (userSessionsKey userID) -> kv (pw_sessions w') t (sessionKey id) = None) /\
  pw_audit w' = (Emit (erasure_event now auditID userID) (pw_audit w)).2 /\
  pw_auth w' = pw_auth w /\ pw_consents w' = pw_consents w.

Lemma farewell_run {A} now auditID userID w (k : prog (pworld R C P) error A) :
  exists w1, (on_user_sessions (RevokeAllUserSessions userID) ;;
    on_recorder (RecordAdminAction auditID now userID "" "user" "account.erased" ""
      {[ "reason" := AnyString "gdpr_right_to_be_forgotten" ]}) ;; k) w = k w1 /\
    farewell now auditID userID w w1 /\ pw_repo w1 = pw_repo w /\ pw_errs w1 = pw_errs w.
Proof.
  destruct (revoke_all_deletes userID (pw_sessions w)) as (c' & Hrev & Hgone & _).
  eexists. split.
  - rewrite (prog_bind_run _ _ _ () (mkPWorld (pw_repo w) (pw_errs w) (pw_auth w) c' (pw_audit w) (pw_consents w)))
      by (unfold on_user_sessions, zoom; by rewrite Hrev).
    unfold mbind, prog_bind, on_recorder, zoom, RecordAdminAction, Emit, modify. reflexivity.
  - done.
Qed.

Lemma erase_found now uuid auditID userID p u w :
  dir_inv (pw_repo w) -> dir_holds (pw_repo w) userID p u ->
  exists w', erase now uuid auditID userID w = (Ok (), w') /\ farewell now auditID userID w w' /\
    dir_holds (pw_repo w') userID p (anonymized uuid u) /\
    forall id q v, id <> userID -> dir_holds (pw_repo w') id q v <-> dir_holds (pw_repo w) id q v.
Proof.
  intros Hinv Hh. unfold erase.
  destruct (farewell_run now auditID userID w (user ← on_users (on_repo (ir_GetUserByID userID));
    u ← on_users (on_repo (ir_read user));
    on_users (on_repo (ir_store user (anonymized uuid u))) ;; on_users (on_repo (ir_UpdateUser user))))
    as (w1 & Hrun & Hf & Hr & He). rewrite Hrun. rewrite <- Hr in Hinv, Hh.
  rewrite (prog_bind_run _ _ _ p w1) by by apply (privacy_user_run _ p u).
  rewrite (prog_bind_run _ _ _ u w1) by by apply (read_user_run' userID p u).
  destruct (dir_replace _ _ p u (anonymized uuid u) Hinv Hh eq_refl) as (r1 & r2 & Hst & Hup & _ & Hh' & Ho).
  rewrite (prog_bind_run _ _ _ () (with_repo r1 w1)) by by apply users_repo_run.
  rewrite (users_repo_run _ (with_repo r1 w1) (Ok ()) r2 Hup). eexists. split; [reflexivity|].
  split; [exact Hf|]. split; [exact Hh'|]. intros id q v Hid. rewrite <- Hr. by apply Ho.
Qed.

Lemma erase_missing now uuid auditID userID w :
  dir_inv (pw_repo w) -> (forall p u, ~ dir_holds (pw_repo w) userID p u) ->
  exists e w', erase now uuid auditID userID w = (Err e, w') /\ farewell now auditID userID w w' /\ pw_repo w' = pw_repo w.
Proof.
  intros Hinv Hno. unfold erase.
  destruct (farewell_run now auditID userID w (user ← on_users (on_repo (ir_GetUserByID userID));
    u ← on_users (on_repo (ir_read user));
    on_users (on_repo (ir_store user (anonymized uuid u))) ;; on_users (on_repo (ir_UpdateUser user))))
    as (w1 & Hrun & Hf & Hr & He). rewrite Hrun.
  destruct (dir_find _ userID Hinv) as [(p & u & _ & Hh)|(err & Hget & _)]; [by edestruct Hno|]. rewrite <- Hr in Hget.
  rewrite (prog_bind_fail _ _ w1 err w1).
  - by exists err, w1.
  - rewrite <- (users_same w1) at 2. by apply users_repo_run.
Qed.

(** What erasing takes from a user, and what it leaves *)
Definition made_anonymous (uuid : string) (u v : User) : Prop :=
  (user_Username v = "deleted_" +:+ uuid /\ user_Email v = "deleted_" +:+ uuid +:+ "@anonymized.local" /\
   user_Phone v = "" /\ user_Password v = "" /\ user_Status v = UserStatusDeleted) /\
  (user_ID v = user_ID u /\ user_Attributes v = user_Attributes u /\ user_PrivacySettings v = user_PrivacySettings u /\
   user_Groups v = user_Groups u /\ user_ExternalID v = user_ExternalID u /\ user_MergeHistory v = user_MergeHistory u).

(** C31: erasing an account, with a database whose transactions begin and end
    with the given results.  If it does not begin nothing happens.  Otherwise
    the sessions in the index are revoked and the event is recorded first; a
    stored user is then made anonymous - name, address, telephone number and
    password are replaced and the status is deleted, while attributes, consents,
    groups and log entries stay - no other user changes, and the answer is the
    result of the commit: one that fails is reported for an account that is
    erased.  For a user who is not stored the error comes after the event. *)
Theorem erasure_contract now uuid auditID userID begin_ commit w :
  dir_inv (pw_repo w) -> userID <> "" ->
  let run := EraseAccount now uuid (Some (begin_, commit)) auditID userID w in
  (forall e, begin_ = Err e -> run = (Err e, w)) /\
  (begin_ = Ok () -> forall p u, dir_holds (pw_repo w) userID p u ->
     exists w', run = (commit, w') /\ farewell now auditID userID w w' /\
       (exists v, dir_holds (pw_repo w') userID p v /\ made_anonymous uuid u v) /\
       forall id q v, id <> userID -> dir_holds (pw_repo w') id q v <-> dir_holds (pw_repo w) id q v) /\
  (begin_ = Ok () -> (forall p u, ~ dir_holds (pw_repo w) userID p u) ->
     exists e w', run = (Err e, w') /\ farewell now auditID userID w w' /\ pw_repo w' = pw_repo w).
Proof.
  intros Hinv Hne run. subst run. unfold EraseAccount. rewrite bool_decide_eq_false_2 by done. unfold Transaction.
  split; [by intros e ->|]. split.
  - intros -> p u Hh. rewrite prog_lift_bind. destruct (erase_found now uuid auditID userID p u w Hinv Hh) as (w' & Hrun & Hf & Hh' & Ho).
    exists w'. rewrite (prog_bind_run _ _ _ _ _ Hrun). split; [done|]. split; [done|]. split; [|done].
    by exists (anonymized uuid u).
  - intros -> Hno. rewrite prog_lift_bind.
    destruct (erase_missing now uuid auditID userID w Hinv Hno) as (e & w' & Hrun & Hw').
    exists e, w'. by rewrite (prog_bind_fail _ _ _ _ _ Hrun).
Qed.

(** ** The endpoint *)

(** A consent is recorded for the caller: whoever the body names, the answer
    and what is stored are those for the user the request was authenticated as,
    with the address and the agent of the request. *)
Theorem consent_for_the_caller now uuid req req' userID r w :
  ctx_string UserIDContextKey r = Some userID ->
  gc_PolicyID req = gc_PolicyID req' -> gc_PolicyVersion req = gc_PolicyVersion req' ->
  handleConsent now uuid (inr req) r w = handleConsent now uuid (inr req') r w /\
  (forall p u, dir_inv (pw_repo w) -> dir_holds (pw_repo w) userID p u -> gc_PolicyVersion req <> "" ->
     exists w' c, handleConsent now uuid (inr req) r w = (Ok (mkResponse StatusOK ""), w') /\
       consents (pw_consents w') = consents (pw_consents w) ++ [c] /\
       consent_UserID c = userID /\ consent_IPAddress c = req_RemoteAddr r).
Proof.
  intros Hctx Hpol Hver. unfold handleConsent, with_caller. rewrite Hctx, Hpol, Hver. split; [done|].
  intros p u Hinv Hh Hv.
  set (mine := mkGrantConsentRequest userID (gc_PolicyID req') (gc_PolicyVersion req') (Get (req_Header r) "User-Agent") (req_RemoteAddr r)).
  destruct (grant_run now uuid mine p u w Hinv Hh Hv) as (w' & Hrun & Hcs & _).
  exists w', (with_CreatedAt now (consent_record uuid mine)). split; [|done].
  unfold answering. rewrite (prog_bind_run _ _ _ (inr ()) w'); [done|]. unfold try. by rewrite Hrun.
Qed.
End Facts.

(** ** The table of consents (internal/storage/postgresql/privacy_repository.go)

    [ORDER BY created_at DESC] *)
Definition younger (c d : ConsentRecord) : Prop := consent_CreatedAt d <= consent_CreatedAt c.
#[global] Instance younger_dec : RelDecision younger.
Proof. intros c d. unfold younger. apply _. Defined.
#[global] Instance younger_total : Total younger.
Proof. intros c d. unfold younger. lia. Qed.
#[global] Instance younger_trans : Transitive younger.
Proof. intros c d e. unfold younger. lia. Qed.

Definition consents_by_age (P : ConsentRecord -> Prop) `{forall c, Decision (P c)} (l : list ConsentRecord) : list ConsentRecord :=
  merge_sort younger (filter P l).
#[global] Instance consent_of_dec u pol c : Decision (consent_of u pol c).
Proof. unfold consent_of. apply _. Defined.

#[global] Instance consent_table : ConsentRepository (list ConsentRecord) := {
  CreateConsentRecord now c := modify (fun l => l ++ [with_CreatedAt now c]);
  GetLastConsentRecord u pol := l ← get;
    match consents_by_age (consent_of u pol) l with [] => throw (Sentinel ErrNotFound) | c :: _ => mret c end;
  GetConsentHistory u := l ← get; mret (consents_by_age (fun c => consent_UserID c = u) l)
}.

#[global] Instance consent_table_laws : ConsentLaws (list ConsentRecord).
Proof.
  refine {| consents := id |}.
  - intros now c p. by eexists.
  - intros u pol p. cbn [GetLastConsentRecord consent_table]. rewrite prog_get_bind. cbn [id]. unfold consents_by_age.
    pose proof (merge_sort_Permutation younger (filter (consent_of u pol) p)) as Hperm.
    pose proof (StronglySorted_merge_sort younger (filter (consent_of u pol) p)) as Hsorted.
    destruct (merge_sort younger (filter (consent_of u pol) p)) as [|c l].
    + right. split; [done|]. intros c Hin Hc. apply Permutation_nil_l in Hperm.
      apply (not_elem_of_nil c). rewrite Hperm. by apply list_elem_of_filter.
    + left. exists c. split; [done|]. assert (c ∈ filter (consent_of u pol) p) as Hc by (rewrite <- Hperm; apply list_elem_of_here).
      apply list_elem_of_filter in Hc as [Hc Hin]. split; [done|]. split; [done|]. intros d Hd Hpd.
      assert (d ∈ c :: l) as Hdl by (rewrite Hperm; by apply list_elem_of_filter).
      apply elem_of_cons in Hdl as [->|Hdl]; [lia|]. inversion Hsorted as [|? ? _ Hall]; subst.
      by apply (proj1 (Forall_forall _ _) Hall).
  - intros u p. eexists. split; [done|]. apply merge_sort_Permutation.
Defined.

(** ** Export from the in-memory repository *)

(** An export has the user, at most a thousand of the user's log entries, the
    oldest, and all consents.  The object that is exported is the stored one: to
    leave the password out of the file the service erases it, and the user can
    not log in with it any more. *)
Theorem export_erases_password `{Redis C} ord userID p u (w : pworld identity_repo C (list ConsentRecord)) :
  repo_users (pw_repo w) !! userID = Some p -> user_heap (pw_repo w) !! p = Some u ->
  Z.of_nat (length (auditLogs (pw_auth w))) < 2 ^ 62 ->
  let run := @CollectUserData _ (memory_repository ord) C _ _ userID w in
  (exists data, run.1 = Ok data /\ ex_User data = p /\
     ex_AuditHistory data = exported_log <$> take 1000 (filter (fun e => log_ActorID e = userID) (auditLogs (pw_auth w))) /\
     ex_ConsentHistory data ≡ₚ filter (fun c => consent_UserID c = userID) (pw_consents w)) /\
  user_heap (pw_repo run.2) !! p = Some (clear_password u).
Proof.
  intros Hid Hp Hlen run. subst run. unfold CollectUserData.
  set (r1 := set_user_heap (<[p := clear_password u]> (user_heap (pw_repo w))) (pw_repo w)). set (w1 := with_repo r1 w).
  rewrite (prog_bind_run _ _ w p w).
  2: { apply internal_ok. rewrite <- (users_same w) at 2. apply users_repo_run. cbn [ir_GetUserByID memory_repository].
       unfold GetUserByID. rewrite prog_get_bind. by rewrite Hid. }
  rewrite (prog_bind_run _ _ w () w1).
  2: { apply on_users_run. unfold hide_password. cbn [ir_read ir_store memory_repository].
       rewrite (prog_bind_run _ _ _ u (pw_repo w, pw_errs w)) by by apply on_repo_run, user_at_run.
       by rewrite (on_repo_run _ _ _ (Ok ()) r1). }
  set (logs := filter (fun e => log_ActorID e = userID) (auditLogs (pw_auth w))).
  assert (length logs <= length (auditLogs (pw_auth w)))%nat as Hll by apply length_filter.
  rewrite (prog_bind_run _ _ w1 (take 1000 logs) w1).
  2: { apply internal_ok. unfold on_logs, zoom, MemAuth.GetLogsForUser. rewrite prog_get_bind. unfold lift.
       change (pw_auth w1) with (pw_auth w). fold logs. rewrite log_page_ok by (cbn [pq_Offset pq_PageSize]; lia).
       by destruct w. }
  rewrite (prog_bind_run _ _ w1 (consents_by_age (fun c => consent_UserID c = userID) (pw_consents w)) w1)
    by (apply internal_ok; by destruct w).
  split; [|cbn; apply lookup_insert_eq]. eexists. split; [reflexivity|]. split; [done|]. split; [done|].
  apply merge_sort_Permutation.
Qed.

(** ** Witnesses *)
Definition demo_sessions : redis_state := mkRedis ∅ ∅.
Definition demo_privacy : pworld identity_repo redis_state (list ConsentRecord) :=
  mkPWorld demo_repo ∅ NewAuthMemoryRepository demo_sessions (mkAuditService [NewInMemorySink] false []) [].
Definition demo_grant : GrantConsentRequest := mkGrantConsentRequest "u1" "tos" "2.0" "" "".
Definition memory_laws := memory_directory_laws default_order.
Definition demo_versions : gmap string string := {[ "tos" := "10.0" ]}.

Lemma consent_roundtrip_witness :
  exists w', @GrantConsent _ (memory_repository default_order) redis_state _ _ 7 "c1" demo_grant demo_privacy = (Ok (), w') /\
    @HasConsentedLatest _ redis_state _ _ demo_versions "u1" "tos" w' = (Ok true, w').
Proof.
  destruct (@consent_roundtrip _ _ memory_laws redis_state _ _ _ demo_versions 7 "c1" demo_grant "10.0" 1%positive
    alice demo_privacy scim_demo_filed ltac:(done) ltac:(done) eq_refl ltac:(done) (fun c Hc => match proj1 (elem_of_nil c) Hc with end))
    as (w' & Hrun & _ & _ & _ & Hhas).
  exists w'. split; [exact Hrun|exact Hhas].
Defined.

Lemma grant_for_nobody_witness :
  exists w', @GrantConsent _ (memory_repository default_order) redis_state _ _ 7 "c1"
      (mkGrantConsentRequest "nobody" "tos" "1" "" "") demo_privacy = (Err (Sentinel ErrInternal), w') /\
    length (pw_consents w') = 1%nat.
Proof.
  destruct (@grant_for_nobody _ _ memory_laws redis_state _ _ _ 7 "c1" (mkGrantConsentRequest "nobody" "tos" "1" "" "")
    demo_privacy scim_demo_filed) as (w' & Hrun & Hcs & _).
  - by intros p u [[=] _].
  - done.
  - exists w'. split; [exact Hrun|]. cbn in Hcs. by rewrite Hcs.
Defined.

Lemma erasure_contract_witness :
  exists w', @EraseAccount _ (memory_repository default_order) redis_state _ _ 7 "x9" (Some (Ok (), Err (Errorf "commit"))) "a1" "u1" demo_privacy =
      (Err (Errorf "commit"), w') /\
    exists v, filed_at (pw_repo w') "u1" 1 v /\ made_anonymous "x9" alice v.
Proof.
  destruct (proj1 (proj2 (@erasure_contract _ _ memory_laws redis_state _ _ (list ConsentRecord) 7 "x9" "a1" "u1" (Ok ()) (Err (Errorf "commit")) demo_privacy
    scim_demo_filed ltac:(done))) eq_refl 1%positive alice ltac:(done)) as (w' & Hrun & _ & Hh & _).
  exists w'. split; [exact Hrun|exact Hh].
Defined.

Lemma consent_for_the_caller_witness :
  let r := WithValue UserIDContextKey (CtxString "u1") demo_request in
  exists w' c, @handleConsent _ (memory_repository default_order) redis_state _ _ 7 "c1"
      (inr (mkGrantConsentRequest "victim" "tos" "1" "" "6.6.6.6")) r demo_privacy = (Ok (mkResponse StatusOK ""), w') /\
    consent_UserID c = "u1" /\ consents (pw_consents w') = [c].
Proof.
  destruct (proj2 (@consent_for_the_caller _ _ memory_laws redis_state _ _ _ 7 "c1"
    (mkGrantConsentRequest "victim" "tos" "1" "" "6.6.6.6") (mkGrantConsentRequest "victim" "tos" "1" "" "6.6.6.6") "u1"
    (WithValue UserIDContextKey (CtxString "u1") demo_request) demo_privacy eq_refl eq_refl eq_refl) 1%positive alice
    scim_demo_filed ltac:(done) ltac:(done)) as (w' & c & Hrun & Hcs & Hu & _).
  exists w', c. split; [exact Hrun|]. split; [exact Hu|exact Hcs].
Defined.

Lemma export_erases_password_witness :
  user_heap (pw_repo (@CollectUserData _ (memory_repository default_order) redis_state _ _ "u1" demo_privacy).2) !! 1%positive =
    Some (clear_password alice).
Proof.
  exact (proj2 (export_erases_password (C:=redis_state) default_order "u1" 1%positive alice demo_privacy eq_refl eq_refl ltac:(vm_compute; done))).
Defined.
