(* ===== verification/WebAuthn.v ===== *)
(** * WebAuthn: security keys and passkeys

    - internal/auth/mfa/webauthn_provider.go: credentials kept as factors;
    - internal/server/http/handlers/webauthn.go: the four endpoints;
    - internal/storage/postgresql/postgres_mfa_repository.go: the factors, over
      the tables of Tables.v.

    The protocol is the go-webauthn library's, a class with the part of its
    documentation the program relies on; the JSON of sessions and of a
    credential's metadata and the parser of UUIDs are parameters. *)

From S2P Require Import Prelude Bytes Types GoStd GoText Encoding Secrets Tables MemIdentity MemPolicy IdentityService Redis Gateway.
From Stdlib Require Import Ascii.
Local Open Scope Z_scope.

(** ** The library's data *)
Record CredentialFlags := mkFlags {
  UserPresent : bool;
  UserVerified : bool;
  BackupEligible : bool;
  BackupState : bool
}.
Definition no_flags : CredentialFlags := mkFlags false false false false.

Record Authenticator := mkAuthenticator {
  AAGUID : string;
  SignCount : Z;
  CloneWarning : bool;
  Attachment : string
}.
Definition no_authenticator : Authenticator := mkAuthenticator "" 0 false "".

Record Credential := mkCredential {
  cred_ID : string;
  cred_PublicKey : string;
  cred_AttestationType : string;
  cred_Transport : list string;
  cred_Flags : CredentialFlags;
  cred_Authenticator : Authenticator
}.

(** What is kept of a ceremony between its two requests *)
Record SessionData := mkSessionData {
  sd_Challenge : string;
  sd_UserID : string;
  sd_AllowedCredentialIDs : list string;
  sd_UserVerification : string
}.

(** [WebAuthnUserAdapter]: the identifier, the name and the credentials *)
Record WebAuthnUserAdapter := mkAdapter { wa_user : User; wa_credentials : list Credential }.
Definition WebAuthnID (a : WebAuthnUserAdapter) : string := user_ID (wa_user a).
Definition WebAuthnName (a : WebAuthnUserAdapter) : string := user_Username (wa_user a).

(** What is written of a credential beside its identifier and its key *)
Record CredMetadata := mkCredMetadata {
  meta_AttestationType : string;
  meta_Transport : list string;
  meta_Flags : CredentialFlags;
  meta_Authenticator : Authenticator
}.

(** Options are the fields of the JSON object that goes to the browser; the
    first argument is the random challenge. *)
Notation fields := (list (string * string)).
Class WebAuthnLibrary := {
  w_BeginRegistration : string -> WebAuthnUserAdapter -> list string -> res error (fields * SessionData);
  w_FinishRegistration : WebAuthnUserAdapter -> SessionData -> request -> res error Credential;
  w_BeginLogin : string -> WebAuthnUserAdapter -> res error (fields * SessionData);
  w_FinishLogin : WebAuthnUserAdapter -> SessionData -> request -> res error Credential;
  (** the flag of the authenticator data in an assertion *)
  w_backup_eligible : request -> bool
}.

(** The library names the user in the session, accepts an assertion only for
    that user and with one of the credentials it was given, and compares the
    backup-eligible flag of the assertion with the credential's. *)
Class WebAuthnLaws `{WebAuthnLibrary} : Prop := {
  law_begin_login ch a opts sd : w_BeginLogin ch a = Ok (opts, sd) -> sd_UserID sd = WebAuthnID a;
  law_finish_login a sd req c : w_FinishLogin a sd req = Ok c ->
    sd_UserID sd = WebAuthnID a /\
    exists c0, c0 ∈ wa_credentials a /\ cred_ID c0 = cred_ID c /\
      BackupEligible (cred_Flags c0) = w_backup_eligible req;
  law_login_returns a sd req : is_ok (w_FinishLogin a sd req) = true \/ exists e, w_FinishLogin a sd req = Err e
}.

Class WebAuthnJSON := {
  meta_Marshal : CredMetadata -> string;
  meta_Unmarshal : string -> option CredMetadata;
  session_Marshal : SessionData -> string;
  session_Unmarshal : string -> option SessionData
}.
Class WebAuthnJSONLaws `{WebAuthnJSON} : Prop := {
  law_meta m : meta_Unmarshal (meta_Marshal m) = Some m;
  law_meta_text m : meta_Marshal m <> "";
  law_session sd : session_Unmarshal (session_Marshal sd) = Some sd
}.

(** ** The factors in PostgreSQL (postgres_mfa_repository.go) *)
Definition factor_conflict (f g : MFAFactor) : bool := bool_decide (factor_ID f = factor_ID g).

Section Factors.
Context {F : Type} `{Table MFAFactor F}.

(** The identifier is the database's, [gen_random_uuid()], unless it is set. *)
Definition pg_CreateFactor (uuid : string) (factor : MFAFactor) : prog F error unit :=
  t_insert [if bool_decide (factor_ID factor = uuid_Nil) then set_factor_ID uuid factor else factor].
Definition pg_GetFactor (factorID : string) : prog F error MFAFactor :=
  rows ← t_select (fun f => bool_decide (factor_ID f = factorID));
  match rows with [] => throw (Errorf "record not found") | f :: _ => mret f end.
Definition pg_GetUserFactors (userID : string) : prog F error (list MFAFactor) :=
  t_select (fun f => bool_decide (factor_UserID f = userID)).
Definition pg_GetUserFactorsByType (userID factorType : string) : prog F error (list MFAFactor) :=
  t_select (fun f => bool_decide (factor_UserID f = userID) && bool_decide (factor_Type f = factorType)).
(** [Save]: an update, and an insert when no row was met *)
Definition pg_UpdateFactor (factor : MFAFactor) : prog F error unit :=
  affected ← t_update (fun f => bool_decide (factor_ID f = factor_ID factor)) (fun _ => factor);
  if bool_decide (affected = 0) then t_upsert factor_conflict (fun new _ => new) [factor] else mret ().
Definition pg_DeleteFactor (factorID : string) : prog F error unit :=
  t_delete (fun f => bool_decide (factor_ID f = factorID)) ;; mret ().
End Factors.

(** ** The provider *)
Section Provider.
Context {F : Type} `{Table MFAFactor F} `{WebAuthnLibrary} `{WebAuthnJSON}.
Context (uuid_Parse : string -> option string).

(** The flags are not mapped back. *)
Definition credential_of (f : MFAFactor) : res error Credential :=
  match b64_decode RawURLEncoding (str (factor_CredentialID f)) with
  | None => Err (Wrapf ("failed to decode credential ID for factor " +:+ factor_ID f +:+ ": ") (Errorf "illegal base64 data"))
  | Some credID =>
      let meta := if bool_decide (factor_Metadata f = "") then None else meta_Unmarshal (factor_Metadata f) in
      Ok match meta with
         | None => mkCredential (unstr credID) (factor_PublicKey f) "" [] no_flags no_authenticator
         | Some m => mkCredential (unstr credID) (factor_PublicKey f) (meta_AttestationType m) (meta_Transport m)
                       no_flags (meta_Authenticator m)
         end
  end.
Fixpoint credentials_of (fs : list MFAFactor) : res error (list Credential) :=
  match fs with
  | [] => Ok []
  | f :: fs => c ← credential_of f; cs ← credentials_of fs; Ok (c :: cs)
  end.

Definition loadCredentials (user : User) : prog F error (list Credential) :=
  match uuid_Parse (user_ID user) with
  | None => throw (Wrapf "invalid user id: " (Errorf "invalid UUID"))
  | Some userID =>
      factors ← pg_GetUserFactorsByType userID "webauthn";
      lift (credentials_of factors)
  end.

Definition provider_BeginRegistration (challenge : string) (user : User) : prog F error (fields * SessionData) :=
  creds ← loadCredentials user;
  lift (w_BeginRegistration challenge (mkAdapter user creds) (cred_ID <$> creds)).

(** A user whose identifier is no UUID gets the zero one. *)
Definition factor_of (user : User) (c : Credential) : MFAFactor :=
  let meta := mkCredMetadata (cred_AttestationType c) (cred_Transport c) (cred_Flags c) (cred_Authenticator c) in
  mkMFAFactor uuid_Nil (default uuid_Nil (uuid_Parse (user_ID user))) "webauthn" "active"
    (unstr (b64_encode RawURLEncoding (str (cred_ID c)))) (cred_PublicKey c) "" "" "" (meta_Marshal meta) None 0 0.

Definition provider_FinishRegistration (uuid : string) (user : User) (sessionData : SessionData) (r : request) :
    prog F error Credential :=
  credential ← lift (w_FinishRegistration (mkAdapter user []) sessionData r);
  pg_CreateFactor uuid (factor_of user credential) ;;
  mret credential.

Definition provider_BeginLogin (challenge : string) (user : User) : prog F error (fields * SessionData) :=
  creds ← loadCredentials user;
  if bool_decide (creds = []) then throw (Errorf "no webauthn credentials found")
  else lift (w_BeginLogin challenge (mkAdapter user creds)).

Definition provider_FinishLogin (user : User) (sessionData : SessionData) (r : request) : prog F error Credential :=
  creds ← loadCredentials user;
  lift (w_FinishLogin (mkAdapter user creds) sessionData r).

Definition provider_Verify (user : User) (response : string) : prog F error bool :=
  throw (Errorf "use FinishLogin endpoint for webauthn verification").
Definition provider_ListMethods (user : User) : prog F error (list (string * string)) :=
  match uuid_Parse (user_ID user) with
  | None => throw (Errorf "invalid UUID")
  | Some userID =>
      factors ← pg_GetUserFactorsByType userID "webauthn";
      mret ((fun f => (factor_ID f, "webauthn")) <$> factors)
  end.
End Provider.

(** ** The endpoints *)
Record wa_world (R F C : Type) := mkWaWorld { ww_repo : R; ww_factors : F; ww_redis : C }.
Arguments mkWaWorld {R F C}.
Arguments ww_repo {R F C}.
Arguments ww_factors {R F C}.
Arguments ww_redis {R F C}.

Record reply := mkReply { reply_Status : Z; reply_Fields : fields }.
Definition wa_error (code : string) (status : Z) : reply := mkReply status [("error", code)].

(** The key of [ctx.Value("user_id")] is a plain string. *)
Definition plain_user_id : string * string := ("string", "user_id").

Section Handlers.
Context {R F C : Type} `{IdentityRepository R} `{Table MFAFactor F} `{Redis C}.
Context `{WebAuthnLibrary} `{WebAuthnJSON} (uuid_Parse : string -> option string).
Notation wa A := (prog (wa_world R F C) error A).

Definition on_wa_repo {A} (m : prog R error A) : wa A :=
  zoom ww_repo (fun r w => mkWaWorld r (ww_factors w) (ww_redis w)) m.
Definition on_wa_factors {A} (m : prog F error A) : wa A :=
  zoom ww_factors (fun f w => mkWaWorld (ww_repo w) f (ww_redis w)) m.
Definition on_wa_redis {A} (m : prog C error A) : wa A :=
  zoom ww_redis (fun c w => mkWaWorld (ww_repo w) (ww_factors w) c) m.

(** [if err != nil { WriteJSONError(...); return }] *)
Definition or_reply {A} (m : wa A) (code : string) (status : Z) (k : A -> wa reply) : wa reply :=
  answer ← try m;
  match answer with inl _ => mret (wa_error code status) | inr x => k x end.

Definition session_ttl : Z := 5 * Minute.
Definition regKey (userID : string) : string := "webauthn:reg:" +:+ userID.
Definition loginKey (sessionID : string) : string := "webauthn:login:" +:+ sessionID.

Definition BeginRegistration (challenge : string) (now : time) (r : request) : wa reply :=
  match ctx_string plain_user_id r with
  | None => lift Panic
  | Some userID =>
      or_reply (on_wa_repo (p ← ir_GetUserByID userID; ir_read p)) "USER_NOT_FOUND" 500 (fun user =>
      or_reply (on_wa_factors (provider_BeginRegistration uuid_Parse challenge user)) "WEBAUTHN_ERROR" 500 (fun x =>
      or_reply (on_wa_redis (r_Set now (regKey userID) (session_Marshal x.2) session_ttl)) "REDIS_ERROR" 500 (fun _ =>
      mret (mkReply 200 x.1))))
  end.

Definition FinishRegistration (uuid : string) (now : time) (r : request) : wa reply :=
  match ctx_string plain_user_id r with
  | None => lift Panic
  | Some userID =>
      or_reply (on_wa_repo (p ← ir_GetUserByID userID; ir_read p)) "USER_NOT_FOUND" 500 (fun user =>
      or_reply (on_wa_redis (r_Get now (regKey userID))) "SESSION_EXPIRED" 400 (fun text =>
      match session_Unmarshal text with
      | None => mret (wa_error "INTERNAL_ERROR" 500)
      | Some sessionData =>
          or_reply (on_wa_factors (provider_FinishRegistration uuid_Parse uuid user sessionData r))
            "REGISTRATION_FAILED" 400 (fun credential =>
          try (on_wa_redis (r_Del (regKey userID))) ;;
          mret (mkReply 200 [("status", "registered");
                             ("credential_id", unstr (b64_encode StdEncoding (str (cred_ID credential))))]))
      end))
  end.

(** The identifier of the session is the clock's reading. *)
Definition beginLoginForUser (challenge : string) (now : time) (user : User) : wa reply :=
  or_reply (on_wa_factors (provider_BeginLogin uuid_Parse challenge user)) "WEBAUTHN_ERROR" 500 (fun x =>
  let loginSessionID := pretty now in
  try (on_wa_redis (r_Set now (loginKey loginSessionID) (session_Marshal x.2) session_ttl)) ;;
  mret (mkReply 200 (x.1 ++ [("session_id", loginSessionID)]))).

(** [body] is the decoded body, or nothing when it is no such JSON. *)
Definition BeginLogin (challenge : string) (now : time) (body : option string) (r : request) : wa reply :=
  match body with
  | None =>
      match ctx_string plain_user_id r with
      | None => mret (wa_error "INVALID_REQUEST" 400)
      | Some uid =>
          or_reply (on_wa_repo (p ← ir_GetUserByID uid; ir_read p)) "USER_NOT_FOUND" 500
            (beginLoginForUser challenge now)
      end
  | Some username =>
      or_reply (on_wa_repo (p ← ir_GetUserByUsername username; ir_read p)) "USER_NOT_FOUND" 404
        (beginLoginForUser challenge now)
  end.

Definition FinishLogin (now : time) (sessionID : string) (r : request) : wa reply :=
  if bool_decide (sessionID = "") then mret (wa_error "INVALID_REQUEST" 400)
  else
    or_reply (on_wa_redis (r_Get now (loginKey sessionID))) "SESSION_EXPIRED" 400 (fun text =>
    match session_Unmarshal text with
    | None => mret (wa_error "INTERNAL_ERROR" 500)
    | Some sessionData =>
        or_reply (on_wa_repo (p ← ir_GetUserByID (sd_UserID sessionData); ir_read p)) "USER_NOT_FOUND" 500 (fun user =>
        or_reply (on_wa_factors (provider_FinishLogin uuid_Parse user sessionData r)) "AUTH_FAILED" 401 (fun credential =>
        try (on_wa_redis (r_Del (loginKey sessionID))) ;;
        mret (mkReply 200 [("status", "authenticated");
                           ("credential_id", unstr (b64_encode StdEncoding (str (cred_ID credential))));
                           ("user_id", user_ID user)])))
    end).
End Handlers.

(** ** Credentials through the table *)
Definition forget_flags (c : Credential) : Credential :=
  mkCredential (cred_ID c) (cred_PublicKey c) (cred_AttestationType c) (cred_Transport c) no_flags (cred_Authenticator c).

Section Stored.
Context `{WebAuthnJSONLaws} (uuid_Parse : string -> option string).

Lemma credential_of_factor user c uuid :
  credential_of (set_factor_ID uuid (factor_of uuid_Parse user c)) = Ok (forget_flags c).
Proof.
  unfold credential_of, factor_of, set_factor_ID.
  cbn [factor_CredentialID factor_Metadata factor_PublicKey factor_ID].
  rewrite str_unstr, b64_decode_encode by apply _.
  rewrite bool_decide_eq_false_2 by apply law_meta_text. by rewrite law_meta, unstr_str.
Qed.

Lemma credential_of_flags f c : credential_of f = Ok c -> cred_Flags c = no_flags.
Proof.
  unfold credential_of. destruct (b64_decode _ _); [|done]. cbv zeta. intros [= <-].
  by destruct (if bool_decide _ then _ else _).
Qed.

Lemma credentials_of_cases fs :
  (exists cs, credentials_of fs = Ok cs /\ Forall2 (fun f c => credential_of f = Ok c) fs cs) \/
  (exists e, credentials_of fs = Err e).
Proof.
  induction fs as [|f fs IH]; [left; by exists []|]. cbn [credentials_of].
  destruct (credential_of f) as [c|e| |] eqn:Hc.
  - destruct IH as [(cs & -> & Hcs)|[e ->]]; [|right; by eexists]. left. exists (c :: cs). split; [done|by constructor].
  - right. by eexists.
  - unfold credential_of in Hc. by destruct (b64_decode _ _).
  - unfold credential_of in Hc. by destruct (b64_decode _ _).
Qed.

Context {F : Type} `{TableLaws MFAFactor F factor_conflict}.

(** The factors from which the credentials of a user are loaded *)
Definition factors_of (uid : string) (d : F) : list MFAFactor :=
  select_rows (fun f => bool_decide (factor_UserID f = uid) && bool_decide (factor_Type f = "webauthn")) (t_rows d).

Lemma credentials_of_ok fs cs : Forall2 (fun f c => credential_of f = Ok c) fs cs -> credentials_of fs = Ok cs.
Proof. induction 1 as [|f c fs cs Hc _ IH]; cbn; [done|]. by rewrite Hc; cbn; rewrite IH. Qed.

Lemma load_run user uid d :
  uuid_Parse (user_ID user) = Some uid ->
  exists fs, fs ≡ₚ factors_of uid d /\ loadCredentials uuid_Parse user d = (credentials_of fs, d).
Proof.
  intros Hu. unfold loadCredentials. rewrite Hu. unfold pg_GetUserFactorsByType.
  match goal with |- context [t_select ?p] => destruct (law_select p d) as (fs & Hrun & Hfs) end.
  rewrite (prog_bind_run _ _ _ _ _ Hrun). by exists fs.
Qed.

Lemma load_ok user d cs :
  loadCredentials uuid_Parse user d = (Ok cs, d) ->
  exists uid fs, uuid_Parse (user_ID user) = Some uid /\ fs ≡ₚ factors_of uid d /\
    Forall2 (fun f c => credential_of f = Ok c) fs cs.
Proof.
  intros Hload. destruct (uuid_Parse (user_ID user)) as [uid|] eqn:Hu.
  - destruct (load_run user uid d Hu) as (fs & Hfs & Hrun). exists uid, fs. split; [done|]. split; [done|].
    rewrite Hload in Hrun. injection Hrun as Hrun.
    destruct (credentials_of_cases fs) as [(cs' & Hcs & HF)|[e He]]; rewrite <-Hrun in *; by simplify_eq.
  - unfold loadCredentials in Hload. by rewrite Hu in Hload.
Qed.

Lemma loaded_flags uid d fs cs c :
  fs ≡ₚ factors_of uid d -> Forall2 (fun f c => credential_of f = Ok c) fs cs -> c ∈ cs ->
  cred_Flags c = no_flags /\ exists f, f ∈ t_rows d /\ factor_UserID f = uid /\ credential_of f = Ok c.
Proof.
  intros Hfs HF Hc. apply list_elem_of_lookup in Hc as [i Hi].
  destruct (Forall2_lookup_r _ _ _ _ _ HF Hi) as (f & Hf & Hfc).
  split; [by eapply credential_of_flags|]. exists f.
  assert (Hin : f ∈ factors_of uid d) by (rewrite <-Hfs; by eapply list_elem_of_lookup_2).
  apply elem_of_select in Hin as [Hin Hp]. apply andb_true_iff in Hp as [Hp%bool_decide_eq_true _]. done.
Qed.
End Stored.

(** ** The ceremony of a log-in *)
Section Ceremony.
Context {R F C : Type} `{IdentityRepository R} `{HF : TableLaws MFAFactor F factor_conflict} `{HC : RedisLaws C}.
Context `{WebAuthnLaws} `{WebAuthnJSONLaws} (uuid_Parse : string -> option string).
Notation world := (wa_world R F C).
Implicit Types (w : world) (r : request).

Definition user_by_id (id : string) : prog R error User := p ← ir_GetUserByID id; ir_read p.
Definition user_by_name (name : string) : prog R error User := p ← ir_GetUserByUsername name; ir_read p.

Lemma or_reply_ok {A} (m : prog world error A) code status k w x w' :
  m w = (Ok x, w') -> or_reply m code status k w = k x w'.
Proof. intros Hm. unfold or_reply, try, mbind, prog_bind. by rewrite Hm. Qed.
Lemma or_reply_err {A} (m : prog world error A) code status k w e w' :
  m w = (Err e, w') -> or_reply m code status k w = (Ok (wa_error code status), w').
Proof. intros Hm. unfold or_reply, try, mbind, prog_bind. by rewrite Hm. Qed.

Lemma redis_get_run now key w :
  on_wa_redis (r_Get now key) w =
    (match kv (ww_redis w) now key with Some v => Ok v | None => Err redis_Nil end, w).
Proof. unfold on_wa_redis, zoom. rewrite law_Get. by destruct w. Qed.

Lemma redis_del_run key w :
  exists c, (forall t k, kv c t k = if decide (key = k) then None else kv (ww_redis w) t k) /\
    on_wa_redis (r_Del key) w = (Ok (), mkWaWorld (ww_repo w) (ww_factors w) c).
Proof.
  destruct (law_Del (ww_redis w) key) as (c & Hrun & Hkv & _). exists c. split; [done|].
  unfold on_wa_redis, zoom. by rewrite Hrun.
Qed.

Lemma redis_set_run now key v ttl w :
  exists c, (forall t k, kv c t k = if decide (key = k) then (if lives now ttl t then Some v else None) else kv (ww_redis w) t k) /\
    on_wa_redis (r_Set now key v ttl) w = (Ok (), mkWaWorld (ww_repo w) (ww_factors w) c).
Proof.
  destruct (law_Set (ww_redis w) now key v ttl) as (c & Hrun & Hkv & _). exists c. split; [done|].
  unfold on_wa_redis, zoom. by rewrite Hrun.
Qed.

Lemma on_factors_run {A} (m : prog F error A) w x :
  m (ww_factors w) = (x, ww_factors w) -> on_wa_factors m w = (x, w).
Proof. intros Hm. unfold on_wa_factors, zoom. rewrite Hm. by destruct w. Qed.

Definition with_repo (R' : R) w : world := mkWaWorld R' (ww_factors w) (ww_redis w).
Lemma on_repo_wa {A} (m : prog R error A) w x R' :
  m (ww_repo w) = (x, R') -> on_wa_repo m w = (x, with_repo R' w).
Proof. intros Hm. unfold on_wa_repo, zoom. by rewrite Hm. Qed.

Lemma redis_get_some now key w v : kv (ww_redis w) now key = Some v -> on_wa_redis (r_Get now key) w = (Ok v, w).
Proof. intros Hv. by rewrite redis_get_run, Hv. Qed.
Lemma redis_get_none now key w : kv (ww_redis w) now key = None -> on_wa_redis (r_Get now key) w = (Err redis_Nil, w).
Proof. intros Hv. by rewrite redis_get_run, Hv. Qed.

Lemma expired_login now sid r w :
  sid <> "" -> kv (ww_redis w) now (loginKey sid) = None ->
  FinishLogin uuid_Parse now sid r w = (Ok (wa_error "SESSION_EXPIRED" 400), w).
Proof.
  intros Hs Hk. unfold FinishLogin. rewrite bool_decide_eq_false_2 by done.
  by rewrite (or_reply_err _ _ _ _ _ _ _ (redis_get_none _ _ _ Hk)).
Qed.

(** With a session and its user, everything is up to the library. *)
Lemma live_login now sid r w sd user R' cs :
  sid <> "" -> kv (ww_redis w) now (loginKey sid) = Some (session_Marshal sd) ->
  user_by_id (sd_UserID sd) (ww_repo w) = (Ok user, R') ->
  loadCredentials uuid_Parse user (ww_factors w) = (Ok cs, ww_factors w) ->
  match w_FinishLogin (mkAdapter user cs) sd r with
  | Ok c => exists w', FinishLogin uuid_Parse now sid r w =
        (Ok (mkReply 200 [("status", "authenticated");
                          ("credential_id", unstr (b64_encode StdEncoding (str (cred_ID c))));
                          ("user_id", user_ID user)]), w') /\
      ww_repo w' = R' /\ ww_factors w' = ww_factors w /\
      (forall t k, kv (ww_redis w') t k = if decide (loginKey sid = k) then None else kv (ww_redis w) t k)
  | _ => FinishLogin uuid_Parse now sid r w = (Ok (wa_error "AUTH_FAILED" 401), with_repo R' w)
  end.
Proof.
  intros Hs Hk Hu Hl. unfold FinishLogin. rewrite bool_decide_eq_false_2 by done.
  rewrite (or_reply_ok _ _ _ _ _ _ _ (redis_get_some _ _ _ _ Hk)), law_session.
  rewrite (or_reply_ok _ _ _ _ _ _ _ (on_repo_wa _ _ _ _ Hu)).
  set (w1 := with_repo R' w).
  assert (Hlib : on_wa_factors (provider_FinishLogin uuid_Parse user sd r) w1 = (w_FinishLogin (mkAdapter user cs) sd r, w1)).
  { apply on_factors_run. unfold provider_FinishLogin. by rewrite (prog_bind_run _ _ _ _ _ Hl). }
  destruct (law_login_returns (mkAdapter user cs) sd r) as [Hok|[e He]].
  - destruct (w_FinishLogin (mkAdapter user cs) sd r) as [c| | |]; try done.
    rewrite (or_reply_ok _ _ _ _ _ _ _ Hlib). destruct (redis_del_run (loginKey sid) w1) as (c' & Hkv & Hdel).
    exists (mkWaWorld (ww_repo w1) (ww_factors w1) c'). split; [|done].
    unfold try, mbind, prog_bind. by rewrite Hdel.
  - rewrite He in *. by rewrite (or_reply_err _ _ _ _ _ _ _ Hlib).
Qed.

(** ** Properties *)

(** C36: A log-in with a security key, from the name to the reply.  Beginning
    it answers the library's options with the identifier of a session that
    lives five minutes.  Finishing it within that time succeeds exactly when
    the library accepts the assertion for this user and the credentials in the
    table, of which one has the identifier in the reply; the session is then
    gone, so that no second attempt with it succeeds.  A refused attempt leaves
    the session for another.  Afterwards the session is refused.  The table of
    factors never changes, so the counter of signatures stays that of the
    registration; and no assertion of a credential that is backed up - a
    passkey - is ever accepted, since the flags are not read back. *)
Theorem login_ceremony challenge now name body_request user R1 R2 cs opts sd w :
  user_by_name name (ww_repo w) = (Ok user, R1) -> user_by_id (user_ID user) R1 = (Ok user, R2) ->
  loadCredentials uuid_Parse user (ww_factors w) = (Ok cs, ww_factors w) -> cs <> [] ->
  w_BeginLogin challenge (mkAdapter user cs) = Ok (opts, sd) ->
  exists w1,
    BeginLogin uuid_Parse challenge now (Some name) body_request w =
      (Ok (mkReply 200 (opts ++ [("session_id", pretty now)])), w1) /\
    ww_factors w1 = ww_factors w /\
    (forall r now', now' < now + session_ttl ->
       match w_FinishLogin (mkAdapter user cs) sd r with
       | Ok c => exists w2,
           FinishLogin uuid_Parse now' (pretty now) r w1 =
             (Ok (mkReply 200 [("status", "authenticated");
                               ("credential_id", unstr (b64_encode StdEncoding (str (cred_ID c))));
                               ("user_id", user_ID user)]), w2) /\
           ww_factors w2 = ww_factors w /\ w_backup_eligible r = false /\
           (exists f c0, f ∈ t_rows (ww_factors w) /\ credential_of f = Ok c0 /\ cred_ID c0 = cred_ID c) /\
           (forall t r', FinishLogin uuid_Parse t (pretty now) r' w2 = (Ok (wa_error "SESSION_EXPIRED" 400), w2))
       | _ => exists w2, FinishLogin uuid_Parse now' (pretty now) r w1 = (Ok (wa_error "AUTH_FAILED" 401), w2) /\
           ww_redis w2 = ww_redis w1 /\ ww_factors w2 = ww_factors w
       end) /\
    (forall r now', now + session_ttl <= now' ->
       FinishLogin uuid_Parse now' (pretty now) r w1 = (Ok (wa_error "SESSION_EXPIRED" 400), w1)).
Proof.
  intros Hname Hid Hload Hne Hbegin. assert (Hsd : sd_UserID sd = user_ID user) by exact (law_begin_login _ _ _ _ Hbegin).
  assert (Hsid : pretty now <> "") by apply pretty_Z_nonempty.
  unfold BeginLogin. rewrite (or_reply_ok _ _ _ _ _ _ _ (on_repo_wa _ _ _ _ Hname)). unfold beginLoginForUser.
  set (w0 := with_repo R1 w).
  assert (Hlib : on_wa_factors (provider_BeginLogin uuid_Parse challenge user) w0 = (Ok (opts, sd), w0)).
  { apply on_factors_run. unfold provider_BeginLogin. rewrite (prog_bind_run _ _ _ _ _ Hload).
    rewrite bool_decide_eq_false_2 by done. unfold lift. by rewrite Hbegin. }
  rewrite (or_reply_ok _ _ _ _ _ _ _ Hlib). cbv zeta. cbn [fst snd].
  destruct (redis_set_run now (loginKey (pretty now)) (session_Marshal sd) session_ttl w0) as (c & Hkv & Hset).
  set (w1 := mkWaWorld (ww_repo w0) (ww_factors w0) c) in *. exists w1.
  split; [unfold try, mbind, prog_bind; by rewrite Hset|]. split; [done|].
  assert (Hlive : forall t, kv (ww_redis w1) t (loginKey (pretty now)) =
                    if bool_decide (t < now + session_ttl) then Some (session_Marshal sd) else None).
  { intros t. cbn. rewrite Hkv, decide_True by done. unfold lives. by rewrite bool_decide_eq_false_2. }
  split.
  - intros r now' Hnow. specialize (Hlive now'). rewrite bool_decide_eq_true_2 in Hlive by done.
    rewrite <-Hsd in Hid.
    pose proof (live_login now' (pretty now) r w1 sd user R2 cs Hsid Hlive Hid Hload) as Hrun.
    destruct (w_FinishLogin (mkAdapter user cs) sd r) as [cred|e| |] eqn:Hfin; [|eexists; split; [exact Hrun|done]..].
    destruct Hrun as (w2 & Hrun & _ & Hfac & Hkv2). exists w2. split; [exact Hrun|]. split; [exact Hfac|].
    apply law_finish_login in Hfin as (_ & c0 & Hc0 & Hcid & Hbe). cbn in Hc0.
    destruct (load_ok uuid_Parse user _ _ Hload) as (uid & fs & _ & Hfs & HFall).
    destruct (loaded_flags uid _ fs cs c0 Hfs HFall Hc0) as (Hflags & f & Hf & _ & Hfc).
    split; [by rewrite <-Hbe, Hflags|]. split; [by exists f, c0|].
    intros t r'. apply expired_login; [done|]. by rewrite Hkv2, decide_True.
  - intros r now' Hnow. apply expired_login; [done|]. rewrite Hlive. by rewrite bool_decide_eq_false_2 by lia.
Qed.

(** Security keys cannot be registered: the requests that authentication
    lets through carry the user under a key of its own type, the handlers
    look under a plain string, and both panic for every user, before the user,
    the session or the library is asked. *)
Theorem registration_panics sub u challenge uuid now r w :
  ctx_string plain_user_id r = None ->
  BeginRegistration uuid_Parse challenge now (request_of sub u r) w = (Panic, w) /\
  FinishRegistration uuid_Parse uuid now (request_of sub u r) w = (Panic, w).
Proof.
  intros Hr. assert (Hnone : ctx_string plain_user_id (request_of sub u r) = None).
  { unfold ctx_string, request_of, WithValue in *. cbn [req_Context WithContext].
    rewrite !lookup_insert_ne by done. exact Hr. }
  unfold BeginRegistration, FinishRegistration. by rewrite Hnone.
Qed.

(** A credential that the provider registered is loaded again with its
    identifier, key, attestation, transports and counter - all but its flags -
    whenever the other credentials of the user can be loaded. *)
Theorem registered_credential uuid user uid sessionData r c d cs :
  w_FinishRegistration (mkAdapter user []) sessionData r = Ok c ->
  uuid_Parse (user_ID user) = Some uid -> unique factor_conflict (t_rows d) = true ->
  (forall f, f ∈ t_rows d -> factor_ID f <> uuid) ->
  loadCredentials uuid_Parse user d = (Ok cs, d) ->
  exists d' cs', provider_FinishRegistration uuid_Parse uuid user sessionData r d = (Ok c, d') /\
    loadCredentials uuid_Parse user d' = (Ok cs', d') /\ cs' ≡ₚ forget_flags c :: cs.
Proof.
  intros Hlib Huid Huniq Hfresh Hload. unfold provider_FinishRegistration, lift.
  rewrite (prog_bind_run _ _ d c d) by (by rewrite Hlib). unfold pg_CreateFactor.
  rewrite bool_decide_eq_true_2 by done. set (f := set_factor_ID uuid (factor_of uuid_Parse user c)).
  assert (Hnew : unique factor_conflict (t_rows d ++ [f]) = true).
  { rewrite unique_app, Huniq. cbn [unique forallb andb]. apply forallb_forall. intros g Hg%list_elem_of_In.
    rewrite andb_true_r. apply negb_true_iff, bool_decide_eq_false_2. by apply Hfresh. }
  pose proof (law_insert [f] d) as Hins. rewrite Hnew in Hins. destruct Hins as (d' & Hrun & Hd').
  rewrite (prog_bind_run _ _ _ _ _ Hrun).
  destruct (load_ok uuid_Parse user _ _ Hload) as (uid1 & fs & Hu1 & Hfs & HFall).
  rewrite Huid in Hu1. injection Hu1 as <-.
  destruct (load_run uuid_Parse user uid d' Huid) as (fs' & Hfs' & Hload').
  assert (Hperm : f :: fs ≡ₚ fs').
  { rewrite Hfs, Hfs'. unfold factors_of. rewrite (select_rows_perm _ _ _ Hd').
    rewrite (select_rows_perm _ (t_rows d ++ [f]) (f :: t_rows d)) by (symmetry; apply Permutation_cons_append).
    unfold select_rows. cbn. by rewrite Huid, !bool_decide_eq_true_2. }
  assert (Hcred : credential_of f = Ok (forget_flags c)) by apply credential_of_factor.
  destruct (Permutation_Forall2 Hperm (List.Forall2_cons f (forget_flags c) Hcred HFall)) as (cs' & Hcs & HF').
  exists d', cs'. split; [done|]. split; [by rewrite Hload', (credentials_of_ok _ _ HF')|by symmetry].
Qed.
End Ceremony.

(** ** Witnesses: a small library with the laws, lists and the reference Redis *)
Definition toy_webauthn : WebAuthnLibrary := {|
  w_BeginRegistration ch a ids := Ok ([("publicKey", ch)], mkSessionData ch (WebAuthnID a) ids "");
  w_FinishRegistration a sd r := Ok (mkCredential (req_Body r) "key" "none" ["usb"] (mkFlags true true true true)
                                       (mkAuthenticator "aaguid" 5 false "platform"));
  w_BeginLogin ch a := Ok ([("publicKey", ch)], mkSessionData ch (WebAuthnID a) (cred_ID <$> wa_credentials a) "");
  w_FinishLogin a sd r :=
    match wa_credentials a with
    | c :: _ => if bool_decide (sd_UserID sd = WebAuthnID a) &&
                   bool_decide (BackupEligible (cred_Flags c) = bool_decide (req_Body r = "backed up"))
                then Ok c else Err (Errorf "assertion refused")
    | [] => Err (Errorf "unknown credential")
    end;
  w_backup_eligible r := bool_decide (req_Body r = "backed up")
|}.

Lemma toy_webauthn_laws : @WebAuthnLaws toy_webauthn.
Proof.
  split; cbn [w_BeginLogin w_FinishLogin w_backup_eligible toy_webauthn].
  - by intros ch a opts sd [= _ <-].
  - intros a sd r c Hc. destruct (wa_credentials a) as [|c0 cs]; [done|].
    destruct (bool_decide (sd_UserID sd = WebAuthnID a)) eqn:Hid; [|done].
    destruct (bool_decide (BackupEligible (cred_Flags c0) = _)) eqn:Hbe; [|done]. cbn in Hc. injection Hc as <-.
    apply bool_decide_eq_true in Hid, Hbe. split; [done|]. exists c0. split; [apply list_elem_of_here|done].
  - intros a sd r. destruct (wa_credentials a); [right; by eexists|]. destruct (_ && _); [by left|right; by eexists].
Qed.

Definition flags_tuple (f : CredentialFlags) : bool * bool * bool * bool :=
  (UserPresent f, UserVerified f, BackupEligible f, BackupState f).
Definition meta_tuple (m : CredMetadata) :=
  (meta_AttestationType m, meta_Transport m, flags_tuple (meta_Flags m),
   (AAGUID (meta_Authenticator m), SignCount (meta_Authenticator m), CloneWarning (meta_Authenticator m),
    Attachment (meta_Authenticator m))).
Definition meta_of_tuple (t : string * list string * (bool * bool * bool * bool) * (string * Z * bool * string)) : CredMetadata :=
  let '(a, tr, (f1, f2, f3, f4), (g, n, w, at_)) := t in
  mkCredMetadata a tr (mkFlags f1 f2 f3 f4) (mkAuthenticator g n w at_).
Definition session_tuple (sd : SessionData) :=
  (sd_Challenge sd, sd_UserID sd, sd_AllowedCredentialIDs sd, sd_UserVerification sd).
Definition session_of_tuple (t : string * string * list string * string) : SessionData :=
  let '(a, b, c, d) := t in mkSessionData a b c d.
Definition after_first (s : string) : string := match s with String _ s => s | _ => s end.

Definition toy_json : WebAuthnJSON := {|
  meta_Marshal m := "m" +:+ bits_of (encode (meta_tuple m));
  meta_Unmarshal s := meta_of_tuple <$> decode (of_bits (after_first s));
  session_Marshal sd := bits_of (encode (session_tuple sd));
  session_Unmarshal s := session_of_tuple <$> decode (of_bits s)
|}.
Lemma toy_json_laws : @WebAuthnJSONLaws toy_json.
Proof.
  split; cbn [meta_Marshal meta_Unmarshal session_Marshal session_Unmarshal toy_json].
  - intros m. change (after_first ("m" +:+ ?s)) with s. rewrite of_bits_of, decode_encode. cbn. by destruct m as [? ? [] []].
  - intros m Hm. change ("m" +:+ ?s) with (String "m"%char s) in Hm. discriminate Hm.
  - intros sd. rewrite of_bits_of, decode_encode. cbn. by destruct sd.
Qed.

Definition demo_user_factor : MFAFactor :=
  mkMFAFactor "f1" "u1" "webauthn" "active" (unstr (b64_encode RawURLEncoding (str "cred-1"))) "key" "" "" "" "" None 0 0.
Definition demo_wa : wa_world identity_repo (list MFAFactor) redis_state :=
  mkWaWorld demo_repo [demo_user_factor] (mkRedis ∅ ∅).
Definition demo_assertion (body : string) : request := mkRequest "POST" "/finish" ∅ ∅ ∅ ∅ "" body ∅.

Lemma login_ceremony_witness : exists w1 w2 cred,
  @BeginLogin _ _ _ (memory_repository default_order) (list_table factor_conflict) _ toy_webauthn toy_json Some
    "ch" 1000 (Some "alice") (demo_assertion "") demo_wa = (Ok (mkReply 200 [("publicKey", "ch"); ("session_id", "1000")]), w1) /\
  @FinishLogin _ _ _ (memory_repository default_order) (list_table factor_conflict) _ toy_webauthn toy_json Some
    2000 "1000" (demo_assertion "plain") w1 =
      (Ok (mkReply 200 [("status", "authenticated"); ("credential_id", cred); ("user_id", "u1")]), w2) /\
  ww_factors w2 = [demo_user_factor].
Proof.
  destruct (@login_ceremony _ _ _ (memory_repository default_order) (list_table factor_conflict)
    (list_table_laws factor_conflict) _ memory_redis_laws toy_webauthn toy_webauthn_laws toy_json toy_json_laws Some
    "ch" 1000 "alice" (demo_assertion "") alice demo_repo demo_repo
    [mkCredential "cred-1" "key" "" [] no_flags no_authenticator] [("publicKey", "ch")]
    (mkSessionData "ch" "u1" ["cred-1"] "") demo_wa
    ltac:(vm_compute; reflexivity) ltac:(vm_compute; reflexivity) ltac:(vm_compute; reflexivity)
    ltac:(discriminate) ltac:(vm_compute; reflexivity)) as (w1 & Hbegin & _ & Hfin & _).
  specialize (Hfin (demo_assertion "plain") 2000 ltac:(vm_compute; reflexivity)).
  destruct Hfin as (w2 & Hfin & Hf & _).
  exists w1, w2. eexists. split; [exact Hbegin|]. split; [exact Hfin|exact Hf].
Defined.

Lemma registration_panics_witness :
  @BeginRegistration _ _ _ (memory_repository default_order) (list_table factor_conflict) _ toy_webauthn toy_json Some
    "ch" 1000 (request_of "u1" alice (demo_assertion "")) demo_wa = (Panic, demo_wa).
Proof.
  exact (proj1 (@registration_panics _ _ _ (memory_repository default_order) (list_table factor_conflict) _
    toy_webauthn toy_json Some "u1" alice "ch" "id" 1000 (demo_assertion "") demo_wa eq_refl)).
Defined.

Lemma registered_credential_witness : exists d' cs',
  @provider_FinishRegistration _ (list_table factor_conflict) toy_webauthn toy_json Some "f2" alice
    (mkSessionData "ch" "u1" [] "") (demo_assertion "cred-2") [demo_user_factor] =
      (Ok (mkCredential "cred-2" "key" "none" ["usb"] (mkFlags true true true true) (mkAuthenticator "aaguid" 5 false "platform")), d') /\
  @loadCredentials _ (list_table factor_conflict) toy_json Some alice d' = (Ok cs', d') /\ length cs' = 2%nat.
Proof.
  destruct (@registered_credential (list MFAFactor) (list_table factor_conflict) (list_table_laws factor_conflict)
    toy_webauthn toy_json toy_json_laws Some "f2" alice "u1" (mkSessionData "ch" "u1" [] "") (demo_assertion "cred-2")
    (mkCredential "cred-2" "key" "none" ["usb"] (mkFlags true true true true) (mkAuthenticator "aaguid" 5 false "platform"))
    [demo_user_factor] [mkCredential "cred-1" "key" "" [] no_flags no_authenticator]
    eq_refl eq_refl ltac:(vm_compute; reflexivity)
    ltac:(intros f Hf; apply list_elem_of_singleton in Hf as ->; discriminate) ltac:(vm_compute; reflexivity))
    as (d' & cs' & Hrun & Hload & Hperm).
  exists d', cs'. split; [exact Hrun|]. split; [exact Hload|]. rewrite Hperm. reflexivity.
Defined.
