(* ===== verification/Ldap.v ===== *)
(** * The LDAP server (internal/protocol/ldap)

    - filter_parser.go: which entries a search filter matches;
    - virtual_tree.go: users as directory entries, scopes, the search;
    - search.go, bind.go, schema.go: the two requests and their answers;
    - server.go: the loop over the requests of a connection.

    A BER packet is the tree the library reads or builds.  The parsing of
    distinguished names, the letter case of strings and the services behind the
    directory are arguments. *)

From S2P Require Import Prelude Types GoStd GoText MemIdentity IdentityService.
From Stdlib Require Import Ascii.
Local Open Scope Z_scope.

(** ** BER packets (github.com/go-asn1-ber/asn1-ber) *)
Inductive ClassType := ClassUniversal | ClassApplication | ClassContext | ClassPrivate.
#[global] Instance ClassType_eq_dec : EqDecision ClassType.
Proof. solve_decision. Defined.

(** What the library decoded a primitive into, [BerNil] for nothing. *)
Inductive ber_value :=
  | BerNil
  | BerBool (b : bool)
  | BerInt (z : Z)
  | BerString (s : string)
  | BerBytes (s : string).

Inductive Packet := mkPacket {
  pk_ClassType : ClassType;
  pk_Tag : Z;
  pk_Value : ber_value;
  pk_Data : string;
  pk_Children : list Packet;
  pk_Description : string
}.

Definition TagInteger : Z := 2.
Definition TagOctetString : Z := 4.
Definition TagEnumerated : Z := 10.
Definition TagSequence : Z := 16.
Definition TagSet : Z := 17.

Definition ber_Encode (class : ClassType) (tag : Z) (description : string) (children : list Packet) : Packet :=
  mkPacket class tag BerNil "" children description.
Definition ber_NewInteger (tag value : Z) (description : string) : Packet :=
  mkPacket ClassUniversal tag (BerInt value) "" [] description.
Definition ber_NewString (value description : string) : Packet :=
  mkPacket ClassUniversal TagOctetString (BerString value) value [] description.

(** The type assertions [p.Value.(string)] and [p.Value.(int64)] *)
Definition as_string (p : Packet) : res error string :=
  match pk_Value p with BerString s => Ok s | _ => Panic end.
Definition as_int64 (p : Packet) : res error Z :=
  match pk_Value p with BerInt z => Ok z | _ => Panic end.

(** ** Constants (schema.go) *)
Definition ApplicationBindRequest : Z := 0.
Definition ApplicationBindResponse : Z := 1.
Definition ApplicationUnbindRequest : Z := 2.
Definition ApplicationSearchRequest : Z := 3.
Definition ApplicationSearchResultEntry : Z := 4.
Definition ApplicationSearchResultDone : Z := 5.
Definition ApplicationExtendedResponse : Z := 24.

Definition LDAPResultSuccess : Z := 0.
Definition LDAPResultOperationsError : Z := 1.
Definition LDAPResultProtocolError : Z := 2.
Definition LDAPResultAuthMethodNotSupported : Z := 7.
Definition LDAPResultInvalidCredentials : Z := 49.
Definition LDAPResultUnwillingToPerform : Z := 53.

Definition ScopeBaseObject : Z := 0.
Definition ScopeSingleLevel : Z := 1.
Definition ScopeWholeSubtree : Z := 2.

Definition FilterAnd : Z := 0.
Definition FilterOr : Z := 1.
Definition FilterNot : Z := 2.
Definition FilterEqualityMatch : Z := 3.
Definition FilterSubstrings : Z := 4.
Definition FilterPresent : Z := 7.

(** ** Entries and filters *)
Record Entry := mkEntry { entry_DN : string; entry_Attributes : gmap string (list string) }.

Section Filters.
Context `{CaseFolding} (entry : Entry).

(** One component of a substring filter: 0 initial, 1 any, 2 final. *)
Definition match_component (v : string) (sub : Packet) : res error bool :=
  subVal ← as_string sub;
  Ok (if bool_decide (pk_Tag sub = 0) then String.prefix (ToLower subVal) (ToLower v)
      else if bool_decide (pk_Tag sub = 1) then strings_Contains (ToLower v) (ToLower subVal)
      else if bool_decide (pk_Tag sub = 2) then strings_HasSuffix (ToLower v) (ToLower subVal)
      else true).

(** Every component is looked at, after a mismatch too. *)
Fixpoint match_components (v : string) (subs : list Packet) : res error bool :=
  match subs with
  | [] => Ok true
  | sub :: subs =>
      b ← match_component v sub;
      rest ← match_components v subs;
      Ok (b && rest)
  end.

Fixpoint any_value (f : string -> res error bool) (vals : list string) : res error bool :=
  match vals with
  | [] => Ok false
  | v :: vals => b ← f v; if b : bool then Ok true else any_value f vals
  end.

Definition match_substrings (children : list Packet) : res error bool :=
  attr ← index children 0; attrType ← as_string attr;
  seq ← index children 1;
  match entry_Attributes entry !! attrType with
  | None => Ok false
  | Some vals => any_value (fun v => match_components v (pk_Children seq)) vals
  end.

Definition checkAttributeMatch (children : list Packet) (matcher : string -> string -> bool) : res error bool :=
  match children with
  | c0 :: c1 :: _ =>
      attr ← as_string c0; val ← as_string c1;
      match entry_Attributes entry !! attr with
      | None => Ok false
      | Some entryVals => Ok (existsb (fun v => matcher v val) entryVals)
      end
  | _ => Ok false
  end.

Fixpoint MatchesFilter (filter : Packet) : res error bool :=
  match filter with
  | mkPacket _ tag _ data children _ =>
      if bool_decide (tag = FilterAnd) then
        (fix all (cs : list Packet) : res error bool :=
           match cs with
           | [] => Ok true
           | c :: cs => b ← MatchesFilter c; if b : bool then all cs else Ok false
           end) children
      else if bool_decide (tag = FilterOr) then
        (fix any (cs : list Packet) : res error bool :=
           match cs with
           | [] => Ok false
           | c :: cs => b ← MatchesFilter c; if b : bool then Ok true else any cs
           end) children
      else if bool_decide (tag = FilterNot) then
        match children with
        | [] => Panic
        | c :: _ => b ← MatchesFilter c; Ok (negb b)
        end
      else if bool_decide (tag = FilterEqualityMatch) then checkAttributeMatch children EqualFold
      else if bool_decide (tag = FilterSubstrings) then match_substrings children
      else if bool_decide (tag = FilterPresent) then
        Ok (bool_decide (is_Some (entry_Attributes entry !! data)))
      else Ok false
  end.
End Filters.

(** ** The virtual tree *)
Section Tree.
Context `{CaseFolding} (baseDN : string).

(** [u.Attributes[key].(string)] *)
Definition attribute_string (u : User) (key : string) : option string :=
  match user_Attributes u !! key with Some (AnyString s) => Some s | _ => None end.

Definition user_dn (username : string) : string := "uid=" +:+ username +:+ ",ou=users," +:+ baseDN.

Definition ConvertUserToEntry (u : User) : Entry :=
  let sn := default (user_Username u) (attribute_string u "sn") in
  let cn := default (user_Username u) (attribute_string u "displayName") in
  let attrs : gmap string (list string) :=
    <["objectClass" := ["top"; "person"; "organizationalPerson"; "inetOrgPerson"]]>
    (<["uid" := [user_Username u]]> (<["cn" := [cn]]> (<["sn" := [sn]]>
    (<["mail" := [user_Email u]]> ∅)))) in
  let attrs := match attribute_string u "firstName" with
               | Some val => <["givenName" := [val]]> attrs | None => attrs end in
  let attrs := match attribute_string u "lastName" with
               | Some val => <["sn" := [val]]> attrs | None => attrs end in
  mkEntry (user_dn (user_Username u)) attrs.

Definition isDNInScope (dn base : string) (scope : Z) : bool :=
  let dn := ToLower dn in
  let base := ToLower base in
  if bool_decide (scope = ScopeBaseObject) then bool_decide (dn = base)
  else if negb (strings_HasSuffix dn base) then false
  else
    let remaining := if bool_decide (base = "") then dn else strings_TrimSuffix dn ("," +:+ base) in
    if bool_decide (scope = ScopeSingleLevel)
    then bool_decide (length (strings_Split ","%char remaining) = 1%nat)
    else true.
End Tree.

(** ** What the server needs of the identity and password services *)
Class Directory (W : Type) := {
  dir_ListUsers : UserFilter -> prog W error (list User * Z);
  dir_GetUserByUsername : string -> prog W error User;
  dir_Verify : string -> string -> prog W error bool
}.

Definition empty_filter : UserFilter := mkUserFilter "" [] 0 0 "" "".

Section Server.
Context `{CaseFolding} `{Directory W} (ord : map_order) (baseDN : string).
(** [ldap.ParseDN]: the attribute values of each component, from the left. *)
Context (ParseDN : string -> option (list (list string))).
Notation srv A := (prog W error A).

(** The entries of the users that are in scope and match. *)
Fixpoint select_entries (base : string) (scope : Z) (filter : Packet) (users : list User) : res error (list Entry) :=
  match users with
  | [] => Ok []
  | u :: users =>
      let entry := ConvertUserToEntry baseDN u in
      if negb (isDNInScope (entry_DN entry) base scope) then select_entries base scope filter users
      else
        b ← MatchesFilter entry filter;
        rest ← select_entries base scope filter users;
        Ok (if b : bool then entry :: rest else rest)
  end.

Definition tree_Search (base : string) (scope : Z) (filter : Packet) : srv (list Entry) :=
  let base := ToLower base in
  let serverBase := ToLower baseDN in
  if negb (strings_HasSuffix base serverBase) && negb (bool_decide (base = "")) then mret []
  else
    users ← dir_ListUsers empty_filter;
    lift (select_entries base scope filter users.1).

(** ** Answers *)
Definition encodeLDAPResult (messageID appTag resultCode : Z) (matchedDN errorMessage : string) : Packet :=
  ber_Encode ClassUniversal TagSequence "LDAP Message"
    [ber_NewInteger TagInteger messageID "MessageID";
     ber_Encode ClassApplication appTag "ProtocolOp"
       [ber_NewInteger TagEnumerated resultCode "ResultCode";
        ber_NewString matchedDN "MatchedDN";
        ber_NewString errorMessage "ErrorMessage"]].

Definition encode_attribute (kv : string * list string) : Packet :=
  ber_Encode ClassUniversal TagSequence "PartialAttribute"
    [ber_NewString kv.1 "type";
     ber_Encode ClassUniversal TagSet "vals" ((fun v => ber_NewString v "value") <$> kv.2)].

Definition encodeSearchResultEntry (messageID : Z) (entry : Entry) : Packet :=
  ber_Encode ClassUniversal TagSequence "LDAP Message"
    [ber_NewInteger TagInteger messageID "MessageID";
     ber_Encode ClassApplication ApplicationSearchResultEntry "SearchResultEntry"
       [ber_NewString (entry_DN entry) "objectName";
        ber_Encode ClassUniversal TagSequence "attributes"
          (encode_attribute <$> range ord (entry_Attributes entry))]].

(** [err.Error()] *)
Context (error_text : error -> string).

Fixpoint as_strings (ps : list Packet) : res error (list string) :=
  match ps with
  | [] => Ok []
  | p :: ps => s ← as_string p; rest ← as_strings ps; Ok (s :: rest)
  end.

Definition HandleSearch (messageID : Z) (req : Packet) : srv Packet :=
  if bool_decide (Z.of_nat (length (pk_Children req)) < 8) then
    mret (encodeLDAPResult messageID ApplicationSearchResultDone LDAPResultProtocolError "" "Invalid SearchRequest")
  else
    baseObject ← lift (p ← index (pk_Children req) 0; as_string p);
    scope ← lift (p ← index (pk_Children req) 1; as_int64 p);
    filterPacket ← lift (index (pk_Children req) 6);
    attributesPacket ← lift (index (pk_Children req) 7);
    requestedAttrs ← lift (as_strings (pk_Children attributesPacket));
    answer ← try (tree_Search baseObject scope filterPacket);
    match answer with
    | inl err =>
        mret (encodeLDAPResult messageID ApplicationSearchResultDone LDAPResultOperationsError "" (error_text err))
    | inr entries =>
        mret (ber_Encode ClassContext 0 "MultiResponse"
          ((encodeSearchResultEntry messageID <$> entries) ++
           [encodeLDAPResult messageID ApplicationSearchResultDone LDAPResultSuccess "" ""]))
    end.

Definition bind_result (messageID resultCode : Z) (errorMessage : string) : Packet :=
  encodeLDAPResult messageID ApplicationBindResponse resultCode "" errorMessage.

Definition doSimpleBind (messageID : Z) (dn passwordStr : string) : srv Packet :=
  let denied msg := mret (bind_result messageID LDAPResultInvalidCredentials msg) in
  if bool_decide (dn = "") && bool_decide (passwordStr = "") then mret (bind_result messageID LDAPResultSuccess "")
  else
    match ParseDN dn with
    | None | Some [] => denied "Invalid DN"
    | Some ([] :: _) => denied "Invalid RDN"
    | Some ((val :: _) :: _) =>
        found ← try (dir_GetUserByUsername val);
        match found with
        | inl _ => denied "Invalid Credentials"
        | inr user =>
            verified ← try (dir_Verify (user_ID user) passwordStr);
            match verified with
            | inr true => mret (bind_result messageID LDAPResultSuccess "")
            | _ => denied "Invalid Credentials"
            end
        end
    end.

(** The password of a simple bind: what was decoded, or the raw contents. *)
Definition bind_password (authChoice : Packet) : string :=
  match pk_Value authChoice with
  | BerString p | BerBytes p => p
  | BerNil => pk_Data authChoice
  | _ => ""
  end.

Definition HandleBind (messageID : Z) (req : Packet) : srv Packet :=
  if bool_decide (Z.of_nat (length (pk_Children req)) < 3) then
    mret (bind_result messageID LDAPResultProtocolError "Invalid BindRequest")
  else
    version ← lift (p ← index (pk_Children req) 0; as_int64 p);
    dn ← lift (p ← index (pk_Children req) 1; as_string p);
    authChoice ← lift (index (pk_Children req) 2);
    if negb (bool_decide (version = 3)) then
      mret (bind_result messageID LDAPResultProtocolError "Only LDAPv3 supported")
    else if bool_decide (pk_Tag authChoice = 0) then doSimpleBind messageID dn (bind_password authChoice)
    else mret (bind_result messageID LDAPResultAuthMethodNotSupported "Unsupported auth method").

(** ** A connection (server.go)

    [None]: the connection is closed without an answer.  The packets to write
    are the children of a multiple response. *)
Definition respond (packet : Packet) : srv (option (list Packet)) :=
  match pk_Children packet with
  | c0 :: protocolOp :: _ =>
      match pk_Value c0 with
      | BerInt messageID =>
          if negb (bool_decide (pk_ClassType protocolOp = ClassApplication)) then mret None
          else if bool_decide (pk_Tag protocolOp = ApplicationUnbindRequest) then mret None
          else
            resp ← (if bool_decide (pk_Tag protocolOp = ApplicationBindRequest) then HandleBind messageID protocolOp
                    else if bool_decide (pk_Tag protocolOp = ApplicationSearchRequest)
                    then HandleSearch messageID protocolOp
                    else mret (encodeLDAPResult messageID ApplicationExtendedResponse
                                 LDAPResultUnwillingToPerform "" "Operation not supported"));
            mret (Some (if bool_decide (pk_Tag resp = 0 /\ pk_ClassType resp = ClassContext /\
                                        pk_Description resp = "MultiResponse")
                        then pk_Children resp else [resp]))
      | _ => mret None
      end
  | _ => mret None
  end.

(** The packets read until the connection ends, and what is written for them;
    [write_ok n] tells whether the [n]-th write succeeds. *)
Fixpoint write_all (write_ok : nat -> bool) (n : nat) (out : list Packet) : list Packet * bool :=
  match out with
  | [] => ([], true)
  | p :: out =>
      if write_ok n then let '(sent, ok) := write_all write_ok (S n) out in (p :: sent, ok)
      else ([], false)
  end.

Fixpoint handleConnection (write_ok : nat -> bool) (n : nat) (packets : list Packet) : srv (list Packet) :=
  match packets with
  | [] => mret []
  | packet :: packets =>
      out ← respond packet;
      match out with
      | None => mret []
      | Some out =>
          let '(sent, ok) := write_all write_ok n out in
          if ok : bool then rest ← handleConnection write_ok (n + length out) packets; mret (sent ++ rest)
          else mret sent
      end
  end.
End Server.

(** ** The server over the identity service *)
Section Services.
Context `{IdentityRepository R} (Verify : string -> string -> res error bool).

Fixpoint read_all (ps : list loc) : svc R (list User) :=
  match ps with
  | [] => mret []
  | p :: ps => u ← on_repo (ir_read p); us ← read_all ps; mret (u :: us)
  end.

Definition identity_directory : Directory (R * errvars) := {|
  dir_ListUsers f := answer ← service_ListUsers f; us ← read_all answer.1; mret (us, answer.2);
  dir_GetUserByUsername name := p ← service_GetUserByUsername name; on_repo (ir_read p);
  dir_Verify id pw := lift (Verify id pw)
|}.
End Services.

(** ** A reference semantics of filters (RFC 4511, as far as the server goes) *)
Inductive Filter :=
  | FAnd (fs : list Filter)
  | FOr (fs : list Filter)
  | FNot (f : Filter)
  | FEquals (attr value : string)
  | FSubstrings (attr : string) (subs : list (Z * string))
  | FPresent (attr : string)
  | FOther (tag : Z) (children : list Packet).

(** Induction with the hypothesis for every member of a list. *)
Definition Filter_nested_ind (P : Filter -> Prop)
  (Hand : forall fs, Forall P fs -> P (FAnd fs)) (Hor : forall fs, Forall P fs -> P (FOr fs))
  (Hnot : forall f, P f -> P (FNot f)) (Heq : forall a v, P (FEquals a v))
  (Hsub : forall a subs, P (FSubstrings a subs)) (Hpres : forall a, P (FPresent a))
  (Hother : forall t cs, P (FOther t cs)) : forall f, P f :=
  fix go f := match f with
  | FAnd fs => Hand fs ((fix all l := match l return Forall P l with
                                      | [] => Forall_nil_2 P
                                      | f :: l => Forall_cons_2 P f l (go f) (all l) end) fs)
  | FOr fs => Hor fs ((fix all l := match l return Forall P l with
                                    | [] => Forall_nil_2 P
                                    | f :: l => Forall_cons_2 P f l (go f) (all l) end) fs)
  | FNot f => Hnot f (go f)
  | FEquals a v => Heq a v
  | FSubstrings a subs => Hsub a subs
  | FPresent a => Hpres a
  | FOther t cs => Hother t cs
  end.

(** How the library presents a filter, where [context_value] is what it leaves
    as the value of a primitive of the context class. *)
Section FilterPackets.
Context (context_value : string -> ber_value).

Definition context_packet (tag : Z) (data : string) (children : list Packet) : Packet :=
  mkPacket ClassContext tag BerNil data children "".

Fixpoint packet_of (f : Filter) : Packet :=
  match f with
  | FAnd fs => context_packet FilterAnd "" (packet_of <$> fs)
  | FOr fs => context_packet FilterOr "" (packet_of <$> fs)
  | FNot f => context_packet FilterNot "" [packet_of f]
  | FEquals attr value => context_packet FilterEqualityMatch "" [ber_NewString attr ""; ber_NewString value ""]
  | FSubstrings attr subs =>
      context_packet FilterSubstrings ""
        [ber_NewString attr "";
         ber_Encode ClassUniversal TagSequence ""
           ((fun s => mkPacket ClassContext s.1 (context_value s.2) s.2 [] "") <$> subs)]
  | FPresent attr => context_packet FilterPresent attr []
  | FOther tag children => context_packet tag "" children
  end.
End FilterPackets.

(** The tags the server does not know *)
Definition unknown_tag (tag : Z) : Prop := tag ∉ [FilterAnd; FilterOr; FilterNot; FilterEqualityMatch; FilterSubstrings; FilterPresent].

Fixpoint known (f : Filter) : Prop :=
  match f with
  | FAnd fs | FOr fs => foldr (fun f P => known f /\ P) True fs
  | FNot f => known f
  | FOther tag _ => unknown_tag tag
  | _ => True
  end.

(** Filters that can be evaluated: the components of a substring filter must
    have been decoded. *)
Fixpoint decoded (context_value : string -> ber_value) (f : Filter) : Prop :=
  match f with
  | FAnd fs | FOr fs => foldr (fun f P => decoded context_value f /\ P) True fs
  | FNot f => decoded context_value f
  | FSubstrings _ subs => Forall (fun s => context_value s.2 = BerString s.2) subs
  | _ => True
  end.

Section Satisfaction.
Context `{CaseFolding} (entry : Entry).

Definition sat_component (v : string) (sub : Z * string) : bool :=
  if bool_decide (sub.1 = 0) then String.prefix (ToLower sub.2) (ToLower v)
  else if bool_decide (sub.1 = 1) then strings_Contains (ToLower v) (ToLower sub.2)
  else if bool_decide (sub.1 = 2) then strings_HasSuffix (ToLower v) (ToLower sub.2)
  else true.

Definition values (attr : string) : list string := default [] (entry_Attributes entry !! attr).

Fixpoint sat (f : Filter) : bool :=
  match f with
  | FAnd fs => forallb sat fs
  | FOr fs => existsb sat fs
  | FNot f => negb (sat f)
  | FEquals attr value => existsb (fun v => EqualFold v value) (values attr)
  | FSubstrings attr subs => existsb (fun v => forallb (sat_component v) subs) (values attr)
  | FPresent attr => bool_decide (is_Some (entry_Attributes entry !! attr))
  | FOther _ _ => false
  end.
End Satisfaction.

Section FilterFacts.
Context `{CaseFolding} (entry : Entry) (cv : string -> ber_value).

Lemma match_components_spec v subs :
  Forall (fun s => cv s.2 = BerString s.2) subs ->
  match_components v ((fun s => mkPacket ClassContext s.1 (cv s.2) s.2 [] "") <$> subs) =
    Ok (forallb (sat_component v) subs).
Proof.
  induction 1 as [|s subs Hs _ IH]; [done|]. cbn [fmap list_fmap match_components forallb].
  unfold match_component at 1, as_string. cbn [pk_Value pk_Tag]. rewrite Hs. cbn [mbind res_bind].
  change (list_fmap _ _ ?g ?l) with (g <$> l). rewrite IH. done.
Qed.

Lemma any_value_spec (f : string -> res error bool) (g : string -> bool) vals :
  (forall v, f v = Ok (g v)) -> any_value f vals = Ok (existsb g vals).
Proof.
  intros Hf. induction vals as [|v vals IH]; [done|]. cbn [any_value existsb]. rewrite Hf. cbn [mbind res_bind].
  by destruct (g v).
Qed.

Lemma matches_unknown tag data cs : unknown_tag tag -> MatchesFilter entry (context_packet tag data cs) = Ok false.
Proof.
  intros Ht. unfold unknown_tag in Ht. rewrite !not_elem_of_cons in Ht.
  destruct Ht as (? & ? & ? & ? & ? & ? & _). unfold context_packet. cbn [MatchesFilter].
  by rewrite !bool_decide_eq_false_2 by done.
Qed.

(** The substring filter, whatever is in its components. *)
Lemma matches_substrings attr seq :
  MatchesFilter entry (context_packet FilterSubstrings "" [ber_NewString attr ""; seq]) =
    match entry_Attributes entry !! attr with
    | None => Ok false
    | Some vals => any_value (fun v => match_components v (pk_Children seq)) vals
    end.
Proof. reflexivity. Qed.

Lemma matches_packet_of f :
  known f -> decoded cv f -> MatchesFilter entry (packet_of cv f) = Ok (sat entry f).
Proof.
  induction f as [fs IH|fs IH|f IH|attr value|attr subs|attr|tag cs] using Filter_nested_ind;
    cbn [known decoded packet_of sat].
  - intros Hk Hd. cbn. induction IH as [|f fs Hf _ IH]; [done|]. cbn in Hk, Hd |- *.
    destruct Hk as [Hk1 Hk2], Hd as [Hd1 Hd2]. rewrite (Hf Hk1 Hd1). cbn [mbind res_bind].
    destruct (sat entry f); [by apply IH|done].
  - intros Hk Hd. cbn. induction IH as [|f fs Hf _ IH]; [done|]. cbn in Hk, Hd |- *.
    destruct Hk as [Hk1 Hk2], Hd as [Hd1 Hd2]. rewrite (Hf Hk1 Hd1). cbn [mbind res_bind].
    destruct (sat entry f); [done|by apply IH].
  - intros Hk Hd. cbn. by rewrite (IH Hk Hd).
  - intros _ _. cbn. unfold values. by destruct (entry_Attributes entry !! attr).
  - intros _ Hd. rewrite matches_substrings. cbn [pk_Children ber_Encode]. unfold values.
    destruct (entry_Attributes entry !! attr) as [vals|]; [|done].
    apply any_value_spec. intros v. by apply match_components_spec.
  - done.
  - intros Hk _. by apply matches_unknown.
Qed.
End FilterFacts.

(** C14: The filter evaluation agrees with the reference semantics on every
    filter whose substring components were decoded, and it ends.  A substring
    filter as it arrives - a primitive of the context class has no decoded
    value - makes the server panic on the first entry that has the attribute. *)
Theorem filter_matches_reference `{CaseFolding} entry f :
  known f ->
  (forall cv, decoded cv f -> MatchesFilter entry (packet_of cv f) = Ok (sat entry f)) /\
  (forall attr sub subs v vals, f = FSubstrings attr (sub :: subs) ->
     entry_Attributes entry !! attr = Some (v :: vals) ->
     MatchesFilter entry (packet_of (fun _ => BerNil) f) = Panic).
Proof.
  intros Hk. split; [intros cv; by apply matches_packet_of|].
  intros attr sub subs v vals -> Hv. cbn [packet_of]. by rewrite matches_substrings, Hv.
Qed.

(** ** Scopes *)
Section ScopeFacts.
Context `{CaseFoldingLaws} (baseDN : string).

Lemma user_dn_split name :
  user_dn baseDN name = ("uid=" +:+ name) +:+ "," +:+ ("ou=users," +:+ baseDN).
Proof. unfold user_dn. by rewrite <-string_app_assoc. Qed.

Lemma user_dn_ascii name :
  is_ascii baseDN = true -> is_ascii name = true -> is_ascii (user_dn baseDN name) = true.
Proof. intros Hb Hn. rewrite user_dn_split, !is_ascii_app, Hb, Hn. done. Qed.

Lemma lower_user_dn name :
  is_ascii baseDN = true -> is_ascii name = true ->
  ToLower (user_dn baseDN name) =
    ("uid=" +:+ ascii_lower name) +:+ "," +:+ ("ou=users," +:+ ascii_lower baseDN).
Proof.
  intros Hb Hn. rewrite ToLower_ascii by by apply user_dn_ascii.
  by rewrite user_dn_split, !ascii_lower_app.
Qed.

(** Below a base in the scope: the user's DN ends with it. *)
Lemma in_scope_spec dn base scope :
  scope <> ScopeBaseObject -> scope <> ScopeSingleLevel ->
  isDNInScope dn base scope = strings_HasSuffix (ToLower dn) (ToLower base).
Proof.
  intros Hb Hs. unfold isDNInScope. rewrite (bool_decide_eq_false_2 (scope = ScopeBaseObject)) by done.
  destruct (strings_HasSuffix _ _); [|done]. cbn [negb]. by rewrite bool_decide_eq_false_2.
Qed.

Lemma single_level_of p base :
  is_ascii p = true -> is_ascii base = true -> base <> "" ->
  isDNInScope (p +:+ "," +:+ base) base ScopeSingleLevel = str_free ","%char p.
Proof.
  intros Hp Hb Hne. unfold isDNInScope. rewrite bool_decide_eq_false_2 by done.
  rewrite !ToLower_ascii by (rewrite ?is_ascii_app; by rewrite ?Hp, ?Hb). rewrite !ascii_lower_app.
  assert (strings_HasSuffix (ascii_lower p +:+ ascii_lower "," +:+ ascii_lower base) (ascii_lower base) = true) as ->.
  { apply strings_HasSuffix_spec. exists (ascii_lower p +:+ ","). by rewrite string_app_assoc. }
  cbn [negb]. rewrite (bool_decide_eq_false_2 (ascii_lower base = "")) by (by destruct base).
  rewrite bool_decide_eq_true_2 by done.
  change (ascii_lower ",") with ",". rewrite strings_TrimSuffix_app, <-(str_free_lower p).
  destruct (str_free ","%char (ascii_lower p)) eqn:Hf.
  - rewrite strings_Split_free by done. done.
  - apply bool_decide_eq_false_2. intros Hl. apply strings_Split_single in Hl. congruence.
Qed.
End ScopeFacts.

(** Which users a search sees, for ASCII names: with the whole subtree of
    the server's base or of its users every user; at a single level below the
    users every user whose name has no comma, and below the base itself none;
    as base object the one whose DN it is, up to letter case.  A base is
    compared as a string suffix: one that begins in the middle of a component
    has the users below it as well. *)
Theorem scope_decides `{CaseFoldingLaws} baseDN name :
  is_ascii baseDN = true -> is_ascii name = true -> baseDN <> "" ->
  let dn := user_dn baseDN name in
  let users := "ou=users," +:+ baseDN in
  isDNInScope dn baseDN ScopeWholeSubtree = true /\
  isDNInScope dn users ScopeWholeSubtree = true /\
  isDNInScope dn users ScopeSingleLevel = str_free ","%char name /\
  isDNInScope dn baseDN ScopeSingleLevel = false /\
  (forall base, is_ascii base = true ->
     isDNInScope dn base ScopeBaseObject = bool_decide (ascii_lower base = ascii_lower dn)) /\
  (forall p s, users = p +:+ s -> isDNInScope dn s ScopeWholeSubtree = true).
Proof.
  intros Hb Hn Hne dn users.
  assert (Hu : is_ascii users = true) by (unfold users; by rewrite is_ascii_app, Hb).
  assert (Hsuffix : forall p s, users = p +:+ s -> isDNInScope dn s ScopeWholeSubtree = true).
  { intros p s Hps. rewrite in_scope_spec by done. apply strings_HasSuffix_spec.
    assert (Hs : is_ascii s = true) by (rewrite Hps, is_ascii_app in Hu; by apply andb_true_iff in Hu as [_ ?]).
    unfold dn. rewrite user_dn_split, ToLower_ascii
      by (fold users; by rewrite !is_ascii_app, Hn, Hu). fold users. rewrite Hps, !ascii_lower_app.
    rewrite (ToLower_ascii s Hs). eexists. by rewrite !string_app_assoc. }
  split; [by apply (Hsuffix "ou=users,")|]. split; [by apply (Hsuffix "")|]. split.
  { unfold dn. rewrite user_dn_split. fold users.
    rewrite single_level_of by (done || by rewrite is_ascii_app, Hn). done. }
  split.
  { unfold dn. rewrite user_dn_split.
    replace (("uid=" +:+ name) +:+ "," +:+ "ou=users," +:+ baseDN)
      with (("uid=" +:+ name +:+ ",ou=users") +:+ "," +:+ baseDN) by (by rewrite <-!string_app_assoc).
    rewrite single_level_of; [|by rewrite !is_ascii_app, Hn|done|done].
    rewrite !str_free_app. by rewrite !andb_false_r. }
  split; [|done]. intros base Hbase. unfold isDNInScope. rewrite bool_decide_eq_true_2 by done.
  rewrite !ToLower_ascii by (done || by apply user_dn_ascii). apply bool_decide_ext. split; congruence.
Qed.

(** ** Searches *)
Definition search_children (base : string) (scope : Z) (x2 x3 x4 x5 filter : Packet) (attrs : list string) :
    list Packet :=
  [ber_NewString base ""; ber_NewInteger TagEnumerated scope ""; x2; x3; x4; x5; filter;
   ber_Encode ClassUniversal TagSequence "" ((fun a => ber_NewString a "") <$> attrs)].
Definition search_request (base : string) (scope : Z) (x2 x3 x4 x5 filter : Packet) (attrs : list string) :
    Packet :=
  ber_Encode ClassApplication ApplicationSearchRequest "" (search_children base scope x2 x3 x4 x5 filter attrs).

Section SearchFacts.
Context `{CaseFolding} `{Directory W} (ord : map_order) (baseDN : string) (error_text : error -> string).
Implicit Types w : W.

(** The entries a search is about. *)
Definition visible (base : string) (scope : Z) (f : Filter) (us : list User) : list Entry :=
  filter (fun e => Is_true (isDNInScope (entry_DN e) base scope && sat e f)) (ConvertUserToEntry baseDN <$> us).

Definition below_server (base : string) : bool :=
  strings_HasSuffix (ToLower base) (ToLower baseDN) || bool_decide (ToLower base = "").

Definition multi_response (id : Z) (entries : list Entry) : Packet :=
  ber_Encode ClassContext 0 "MultiResponse"
    ((encodeSearchResultEntry ord id <$> entries) ++
     [encodeLDAPResult id ApplicationSearchResultDone LDAPResultSuccess "" ""]).

Lemma as_strings_of attrs : as_strings ((fun a => ber_NewString a "") <$> attrs) = Ok attrs.
Proof. induction attrs as [|a attrs IH]; [done|]. cbn. change (list_fmap _ _ ?g ?l) with (g <$> l). by rewrite IH. Qed.

Lemma select_entries_spec cv base scope f us :
  known f -> decoded cv f ->
  select_entries baseDN base scope (packet_of cv f) us = Ok (visible base scope f us).
Proof.
  intros Hk Hd. induction us as [|u us IH]; [done|]. cbn [select_entries]. unfold visible.
  rewrite fmap_cons, filter_cons. set (e := ConvertUserToEntry baseDN u).
  destruct (isDNInScope (entry_DN e) base scope); cbn [negb andb]; [|exact IH].
  rewrite matches_packet_of by done. cbn [mbind res_bind]. rewrite IH. cbn [mbind res_bind].
  by destruct (sat e f).
Qed.

(** What a well-formed request turns into. *)
Lemma HandleSearch_run id base scope x2 x3 x4 x5 filter attrs w :
  HandleSearch ord baseDN error_text id (search_request base scope x2 x3 x4 x5 filter attrs) w =
  (answer ← try (tree_Search baseDN base scope filter);
   match answer with
   | inl err =>
       mret (encodeLDAPResult id ApplicationSearchResultDone LDAPResultOperationsError "" (error_text err))
   | inr entries => mret (multi_response id entries)
   end) w.
Proof.
  unfold HandleSearch. rewrite bool_decide_eq_false_2 by (cbn; lia).
  rewrite (prog_bind_run _ _ w base w) by reflexivity.
  rewrite (prog_bind_run _ _ w scope w) by reflexivity.
  rewrite (prog_bind_run _ _ w filter w) by reflexivity.
  rewrite (prog_bind_run _ _ w (ber_Encode ClassUniversal TagSequence "" ((fun a => ber_NewString a "") <$> attrs)) w)
    by reflexivity.
  rewrite (prog_bind_run _ _ w attrs w); [done|]. unfold lift. cbn [pk_Children ber_Encode]. by rewrite as_strings_of.
Qed.
End SearchFacts.

(** A search answers with the entries of exactly the users that are in the
    scope and match the filter, in the order the directory lists them, followed
    by a successful result; below another base it asks nobody and finds
    nothing, and a failing listing is an operations error. *)
Theorem search_decides `{CaseFolding} `{Directory W} ord baseDN error_text id base scope x2 x3 x4 x5 cv f attrs (w : W) :
  known f -> decoded cv f ->
  let run := HandleSearch ord baseDN error_text id
               (search_request base scope x2 x3 x4 x5 (packet_of cv f) attrs) w in
  if negb (below_server baseDN base) then run = (Ok (multi_response ord id []), w)
  else match dir_ListUsers empty_filter w with
       | (Ok (us, _), w') => run = (Ok (multi_response ord id (visible baseDN (ToLower base) scope f us)), w')
       | (Err err, w') => run = (Ok (encodeLDAPResult id ApplicationSearchResultDone
                                       LDAPResultOperationsError "" (error_text err)), w')
       | (Panic, w') => run = (Panic, w')
       | (Diverge, w') => run = (Diverge, w')
       end.
Proof.
  intros Hk Hd run. unfold run. rewrite HandleSearch_run. unfold tree_Search, below_server.
  rewrite negb_orb. destruct (negb _ && negb _); [done|].
  unfold try, mbind, prog_bind, lift.
  destruct (dir_ListUsers empty_filter w) as [[[us total]|err| |] w']; [|done..].
  cbn [fst]. by rewrite select_entries_spec.
Qed.

(** ** Binds *)
Definition bind_request (version : Z) (dn : string) (authChoice : Packet) : Packet :=
  ber_Encode ClassApplication ApplicationBindRequest ""
    [ber_NewInteger TagInteger version ""; ber_NewString dn ""; authChoice].

Section BindFacts.
Context `{Directory W} (ParseDN : string -> option (list (list string))).
Implicit Types w : W.

(** Who is bound: nobody without a name and a password, and otherwise the user
    the first component names, once the password was verified. *)
Definition authenticated (dn password : string) w : Prop :=
  (dn = "" /\ password = "") \/
  exists val vals rdns user w1 w2,
    ParseDN dn = Some ((val :: vals) :: rdns) /\
    dir_GetUserByUsername val w = (Ok user, w1) /\ dir_Verify (user_ID user) password w1 = (Ok true, w2).

Lemma HandleBind_run id version dn auth w :
  HandleBind ParseDN id (bind_request version dn auth) w =
  (if negb (bool_decide (version = 3)) then
     mret (bind_result id LDAPResultProtocolError "Only LDAPv3 supported")
   else if bool_decide (pk_Tag auth = 0) then doSimpleBind ParseDN id dn (bind_password auth)
   else mret (bind_result id LDAPResultAuthMethodNotSupported "Unsupported auth method")) w.
Proof. reflexivity. Qed.

(** A simple bind answers with one of two codes, unless a service panics. *)
Lemma doSimpleBind_run id dn password w :
  exists w', doSimpleBind ParseDN id dn password w = (Panic, w') \/
    doSimpleBind ParseDN id dn password w = (Diverge, w') \/
    (doSimpleBind ParseDN id dn password w = (Ok (bind_result id LDAPResultSuccess ""), w') /\
       authenticated dn password w) \/
    exists msg, doSimpleBind ParseDN id dn password w = (Ok (bind_result id LDAPResultInvalidCredentials msg), w').
Proof.
  unfold doSimpleBind. cbv zeta.
  destruct (bool_decide_reflect (dn = "")) as [Hd|_], (bool_decide_reflect (password = "")) as [Hp|_];
    cbn [andb]; [exists w; right; right; left; by split; [|left]|..].
  all: destruct (ParseDN dn) as [[|[|val vals] rdns]|] eqn:Hdn;
    [exists w; right; right; right; by eexists|exists w; right; right; right; by eexists| |
     exists w; right; right; right; by eexists].
  all: unfold try, mbind, prog_bind;
    destruct (dir_GetUserByUsername val w) as [[user|err| |] w1] eqn:Hu;
    [|exists w1; right; right; right; by eexists|exists w1; by left|exists w1; by right; left];
    destruct (dir_Verify (user_ID user) password w1) as [[[]|err| |] w2] eqn:Hv;
    [exists w2; right; right; left; split; [done|right; by do 6 eexists]
    |exists w2; right; right; right; by eexists|exists w2; right; right; right; by eexists
    |exists w2; by left|exists w2; by right; left].
Qed.
End BindFacts.


(** ** Connections *)
Inductive Request :=
  | RBind (version : Z) (dn : string) (authChoice : Packet)
  | RSearch (base : string) (scope : Z) (x2 x3 x4 x5 : Packet) (f : Filter) (attrs : list string)
  | ROther (tag : Z) (children : list Packet).

Section ConnectionFacts.
Context `{CaseFolding} `{Directory W} (ord : map_order) (baseDN : string).
Context (ParseDN : string -> option (list (list string))) (error_text : error -> string).
Context (cv : string -> ber_value).
Implicit Types w : W.

Definition operation (r : Request) : Packet :=
  match r with
  | RBind version dn auth => bind_request version dn auth
  | RSearch base scope x2 x3 x4 x5 f attrs => search_request base scope x2 x3 x4 x5 (packet_of cv f) attrs
  | ROther tag children => ber_Encode ClassApplication tag "" children
  end.
Definition message (id : Z) (op : Packet) : Packet :=
  ber_Encode ClassUniversal TagSequence "" [ber_NewInteger TagInteger id ""; op].

(** Requests the server has an answer to. *)
Definition servable (r : Request) : Prop :=
  match r with
  | RBind _ _ _ => True
  | RSearch _ _ _ _ _ _ f _ => known f /\ decoded cv f
  | ROther tag _ => tag ∉ [ApplicationBindRequest; ApplicationUnbindRequest; ApplicationSearchRequest]
  end.

(** An answer: entries and one final result, all with the identifier of the
    request. *)
Definition answers_request (id : Z) (out : list Packet) : Prop :=
  exists entries tag code text,
    out = (encodeSearchResultEntry ord id <$> entries) ++ [encodeLDAPResult id tag code "" text].

(** The services always come back. *)
Definition responsive : Prop :=
  (forall f w, returns (dir_ListUsers f w).1 = true) /\
  (forall u w, returns (dir_GetUserByUsername u w).1 = true) /\
  (forall u p w, returns (dir_Verify u p w).1 = true).

Lemma doSimpleBind_returns id dn password w :
  responsive -> exists code msg w', doSimpleBind ParseDN id dn password w = (Ok (bind_result id code msg), w').
Proof.
  intros (_ & Hget & Hver).
  assert (Hno : forall w', doSimpleBind ParseDN id dn password w <> (Panic, w') /\
                           doSimpleBind ParseDN id dn password w <> (Diverge, w')).
  { intros w'. unfold doSimpleBind. cbv zeta. destruct (_ && _); [done|].
    destruct (ParseDN dn) as [[|[|val vals] rdns]|]; [done..| |done].
    unfold try, mbind, prog_bind. specialize (Hget val w).
    destruct (dir_GetUserByUsername val w) as [[user|err| |] w1]; [|done..].
    specialize (Hver (user_ID user) password w1).
    by destruct (dir_Verify (user_ID user) password w1) as [[[]|err| |] w2]. }
  destruct (doSimpleBind_run ParseDN id dn password w) as (w' & [Hp|[Hp|[[Hp _]|[msg Hp]]]]).
  - by destruct (Hno w') as [? _].
  - by destruct (Hno w') as [_ ?].
  - by eexists _, _, w'.
  - by eexists _, _, w'.
Qed.

Lemma answers_one id tag code text : answers_request id [encodeLDAPResult id tag code "" text].
Proof. by exists [], tag, code, text. Qed.

Lemma respond_run id r w :
  responsive -> servable r ->
  exists out w', respond ord baseDN ParseDN error_text (message id (operation r)) w = (Ok (Some out), w') /\
    answers_request id out.
Proof.
  intros Hresp Hr. destruct r as [version dn auth|base scope x2 x3 x4 x5 f attrs|tag children]; unfold respond;
    cbn [message pk_Children ber_Encode ber_NewInteger pk_Value operation pk_ClassType pk_Tag bind_request search_request].
  - rewrite !(bool_decide_eq_true_2 (_ = ApplicationBindRequest)) by done.
    rewrite (bool_decide_eq_true_2 (ClassApplication = ClassApplication)) by done. cbn [negb].
    rewrite (bool_decide_eq_false_2 (ApplicationBindRequest = ApplicationUnbindRequest)) by done.
    assert (exists code msg w', HandleBind ParseDN id (bind_request version dn auth) w =
      (Ok (bind_result id code msg), w')) as (code & msg & w' & Hrun).
    { rewrite HandleBind_run. destruct (negb _); [by eexists _, _, w|]. destruct (bool_decide _); [|by eexists _, _, w].
      by apply doSimpleBind_returns. }
    rewrite (prog_bind_run _ _ _ _ _ Hrun). eexists _, w'. split; [done|]. apply answers_one.
  - rewrite (bool_decide_eq_true_2 (ClassApplication = ClassApplication)) by done. cbn [negb].
    rewrite (bool_decide_eq_false_2 (ApplicationSearchRequest = ApplicationUnbindRequest)) by done.
    rewrite (bool_decide_eq_false_2 (ApplicationSearchRequest = ApplicationBindRequest)) by done.
    rewrite (bool_decide_eq_true_2 (ApplicationSearchRequest = ApplicationSearchRequest)) by done.
    destruct Hr as [Hk Hd].
    assert ((exists entries w', HandleSearch ord baseDN error_text id (search_request base scope x2 x3 x4 x5 (packet_of cv f) attrs) w =
        (Ok (multi_response ord id entries), w')) \/
      exists code text w', HandleSearch ord baseDN error_text id (search_request base scope x2 x3 x4 x5 (packet_of cv f) attrs) w =
        (Ok (encodeLDAPResult id ApplicationSearchResultDone code "" text), w')) as [(entries & w' & Hrun)|(code & text & w' & Hrun)].
    { rewrite HandleSearch_run. unfold tree_Search. destruct (_ && _); [left; by eexists [], w|].
      unfold try, mbind, prog_bind, lift. pose proof (proj1 Hresp empty_filter w) as Hl.
      destruct (dir_ListUsers empty_filter w) as [[[us total]|err| |] w']; [|right; by eexists _, _, w'|done|done].
      cbn [fst]. rewrite select_entries_spec by done. left. by eexists _, w'. }
    + rewrite (prog_bind_run _ _ _ _ _ Hrun). eexists _, w'. split; [done|].
      rewrite bool_decide_eq_true_2 by done. by eexists entries, _, _, _.
    + rewrite (prog_bind_run _ _ _ _ _ Hrun). eexists _, w'. split; [done|].
      rewrite bool_decide_eq_false_2 by (by intros (? & ? & ?)). apply answers_one.
  - cbn in Hr. rewrite !not_elem_of_cons in Hr. destruct Hr as (Hb & Hu & Hs & _).
    rewrite (bool_decide_eq_true_2 (ClassApplication = ClassApplication)) by done. cbn [negb].
    rewrite !bool_decide_eq_false_2 by done. eexists _, w. split; [done|]. apply answers_one.
Qed.

Lemma write_all_ok write_ok n out : (forall n, write_ok n = true) -> write_all write_ok n out = (out, true).
Proof. intros Hok. revert n. induction out as [|p out IH]; intros n; [done|]. cbn. by rewrite Hok, IH. Qed.
End ConnectionFacts.


(** Over the identity service with the in-memory repository every search
    finds nobody: the server asks for a page of size zero. *)
Theorem memory_search_finds_nobody `{CaseFolding} ord Verify baseDN base scope filter w :
  @tree_Search _ _ (@identity_directory _ (memory_repository ord) Verify) baseDN base scope filter w = (Ok [], w).
Proof.
  unfold tree_Search. destruct (_ && _); [done|]. destruct w as [r vs].
  assert (Hlist : ListUsers ord empty_filter r = (Ok ([], Z.of_nat (length (range ord (repo_users r)).*2)), r)).
  { unfold ListUsers. rewrite prog_get_bind. cbn [empty_filter filter_Page filter_PageSize].
    change (int64 (int64 (0 - 1) * 0)) with 0. rewrite bool_decide_eq_false_2 by lia.
    unfold mbind, prog_bind, lift. by rewrite page_ok by lia. }
  unfold mbind, prog_bind, dir_ListUsers, identity_directory, service_ListUsers, on_repo, zoom, ir_ListUsers,
    memory_repository. cbn -[ListUsers]. unfold mbind, prog_bind. cbn -[ListUsers]. by rewrite Hlist.
Qed.

(** ** Examples *)
Definition demo_base : string := "dc=example,dc=com".
Definition demo_entry (u : User) : Entry := ConvertUserToEntry demo_base u.
Definition demo_person (name : string) : User := new_user name name (name +:+ "@example.com") "" UserStatusActive.
Definition demo_people : list User := [demo_person "jdoe"; demo_person "JSmith"].
Definition demo_directory : Directory unit := {|
  dir_ListUsers _ := mret (demo_people, 2);
  dir_GetUserByUsername name :=
    if bool_decide (name = "jdoe") then mret (demo_person "jdoe") else throw (Errorf "not found");
  dir_Verify id pw := mret (bool_decide (id = "jdoe" /\ pw = "s3cret"))
|}.
#[local] Existing Instance demo_directory.
Definition demo_ParseDN (dn : string) : option (list (list string)) :=
  Some ((fun rdn => drop 1 (strings_Split "="%char rdn)) <$> strings_Split ","%char dn).
Definition demo_decoded (s : string) : ber_value := BerString s.
Definition demo_filter : Filter := FAnd [FPresent "mail"; FNot (FSubstrings "uid" [(0, "jd")])].
Definition demo_text (e : error) : string := "error".
Definition demo_auth (pw : string) : Packet := mkPacket ClassContext 0 BerNil pw [] "".
Definition demo_null : Packet := ber_NewInteger TagInteger 0 "".

Lemma filter_matches_reference_witness :
  MatchesFilter (demo_entry (demo_person "jdoe")) (packet_of demo_decoded demo_filter) = Ok false /\
  MatchesFilter (demo_entry (demo_person "jdoe")) (packet_of (fun _ => BerNil) (FSubstrings "uid" [(0, "jd")])) = Panic.
Proof.
  split.
  - rewrite (proj1 (filter_matches_reference (demo_entry (demo_person "jdoe")) demo_filter
      ltac:(repeat split)) demo_decoded); [vm_compute; reflexivity|repeat split; by constructor].
  - by eapply (proj2 (filter_matches_reference (demo_entry (demo_person "jdoe")) (FSubstrings "uid" [(0, "jd")]) I)).
Defined.

Lemma scope_decides_witness :
  isDNInScope (user_dn demo_base "jdoe") ("ou=users," +:+ demo_base) ScopeSingleLevel = true /\
  isDNInScope (user_dn demo_base "jdoe") ("rs," +:+ demo_base) ScopeWholeSubtree = true.
Proof.
  destruct (scope_decides demo_base "jdoe" eq_refl eq_refl ltac:(done)) as (_ & _ & H1 & _ & _ & H2).
  split; [rewrite H1; reflexivity|by apply (H2 "ou=use")].
Defined.

Lemma search_decides_witness :
  HandleSearch default_order demo_base demo_text 7
    (search_request demo_base 2 demo_null demo_null demo_null demo_null (packet_of demo_decoded demo_filter) []) () =
  (Ok (multi_response default_order 7 [demo_entry (demo_person "JSmith")]), ()).
Proof.
  pose proof (search_decides default_order demo_base demo_text 7 demo_base 2 demo_null demo_null demo_null demo_null
    demo_decoded demo_filter [] () ltac:(repeat split) ltac:(repeat split; by constructor)) as Hs.
  cbv zeta in Hs. change (negb (below_server demo_base demo_base)) with false in Hs. cbn [dir_ListUsers demo_directory] in Hs.
  exact Hs.
Defined.


