(* ===== verification/Devices.v ===== *)
(** * Devices (internal/auth/device)

    - device_fingerprint.go: the hash of a fingerprint and the similarity of two;
    - anomaly_detector.go: impossible travel, changed fingerprints, unusual times;
    - trust_scorer.go: the trust score of a device;
    - device_service.go: registration, binding and unbinding.

    The repository is a class with the laws of a table whose fingerprints are
    unique; JSON, SHA-256 in hexadecimal, sines and cosines and the hour of an
    instant are arguments.  A request happens at one instant. *)

From S2P Require Import Prelude Types GoStd.
From Stdlib Require Import SpecFloat.
Local Open Scope Z_scope.

(** ** Data (internal/storage/postgresql/models/device.go, pkg/utils/config.go) *)
Record Device := mkDevice {
  dev_ID : string;
  dev_TenantID : string;
  dev_UserID : string;
  dev_Fingerprint : string;
  dev_FingerprintRaw : gmap string any;
  dev_DeviceName : string;
  dev_DeviceType : string;
  dev_OS : string;
  dev_Browser : string;
  dev_TrustScore : Z;
  dev_LastIP : string;
  dev_LastLocation : string;
  dev_LastActiveAt : time;
  dev_CreatedAt : time;
  dev_UpdatedAt : time;
  dev_BoundAt : option time
}.

Record DeviceTrustConfig := mkTrustConfig {
  tc_BaseScore : Z;
  tc_AgeBonus : Z;
  tc_MaxAgeBonus : Z;
  tc_BoundBonus : Z;
  tc_FrequencyBonus : Z;
  tc_VerifiedBonus : Z;
  tc_MaxSpeedKmH : float64;
  tc_FingerprintThreshold : float64
}.

(** The assignments of the service, field by field. *)
Definition set_TrustScore (score : Z) (d : Device) : Device :=
  mkDevice (dev_ID d) (dev_TenantID d) (dev_UserID d) (dev_Fingerprint d)
    (dev_FingerprintRaw d) (dev_DeviceName d) (dev_DeviceType d) (dev_OS d) (dev_Browser d)
    score (dev_LastIP d) (dev_LastLocation d) (dev_LastActiveAt d) (dev_CreatedAt d)
    (dev_UpdatedAt d) (dev_BoundAt d).
Definition seen (ip : string) (data : gmap string any) (now : time) (d : Device) : Device :=
  mkDevice (dev_ID d) (dev_TenantID d) (dev_UserID d) (dev_Fingerprint d) data
    (dev_DeviceName d) (dev_DeviceType d) (dev_OS d) (dev_Browser d) (dev_TrustScore d) ip
    (dev_LastLocation d) now (dev_CreatedAt d) (dev_UpdatedAt d) (dev_BoundAt d).
Definition bound (userID : string) (boundAt : option time) (d : Device) : Device :=
  mkDevice (dev_ID d) (dev_TenantID d) userID (dev_Fingerprint d) (dev_FingerprintRaw d)
    (dev_DeviceName d) (dev_DeviceType d) (dev_OS d) (dev_Browser d) (dev_TrustScore d)
    (dev_LastIP d) (dev_LastLocation d) (dev_LastActiveAt d) (dev_CreatedAt d)
    (dev_UpdatedAt d) boundAt.
Definition set_CreatedAt (now : time) (d : Device) : Device :=
  mkDevice (dev_ID d) (dev_TenantID d) (dev_UserID d) (dev_Fingerprint d)
    (dev_FingerprintRaw d) (dev_DeviceName d) (dev_DeviceType d) (dev_OS d) (dev_Browser d)
    (dev_TrustScore d) (dev_LastIP d) (dev_LastLocation d) (dev_LastActiveAt d) now
    (dev_UpdatedAt d) (dev_BoundAt d).
Definition set_UpdatedAt (now : time) (d : Device) : Device :=
  mkDevice (dev_ID d) (dev_TenantID d) (dev_UserID d) (dev_Fingerprint d)
    (dev_FingerprintRaw d) (dev_DeviceName d) (dev_DeviceType d) (dev_OS d) (dev_Browser d)
    (dev_TrustScore d) (dev_LastIP d) (dev_LastLocation d) (dev_LastActiveAt d)
    (dev_CreatedAt d) now (dev_BoundAt d).

(** What [Create] fills in (device_repository.go). *)
Definition with_times (now : time) (d : Device) : Device :=
  let d := if bool_decide (dev_CreatedAt d = zero_time) then set_CreatedAt now d else d in
  if bool_decide (dev_UpdatedAt d = zero_time) then set_UpdatedAt now d else d.

(** ** Fingerprints *)
Definition stableFields : list string :=
  ["user_agent"; "screen_resolution"; "timezone"; "language"; "platform"; "cpu_class";
   "hardware_concurrency"; "device_memory"; "canvas_hash"; "webgl_hash"].
Definition compareFields : list string := stableFields ++ ["plugins"; "fonts"].

Section Fingerprint.
Context (json_Marshal : any -> string) (sha256_hex : string -> string) (ord : map_order).

Definition normalized (data : gmap string any) : gmap string any :=
  foldl (fun m field => match data !! field with Some val => <[field := val]> m | None => m end) ∅ stableFields.

Definition canonical (data : gmap string any) : string :=
  let normalized := normalized data in
  let keys := sort_Strings (range ord normalized).*1 in
  foldr (fun k s => k +:+ ":" +:+ json_Marshal (default AnyNil (normalized !! k)) +:+ ";" +:+ s) "" keys.

Definition GenerateHash (data : gmap string any) : string := sha256_hex (canonical data).

Definition isValueEqual (v1 v2 : any) : bool := bool_decide (json_Marshal v1 = json_Marshal v2).

(** The two counters of [Compare]: matches and checks. *)
Definition count_matches (oldData newData : gmap string any) : Z * Z :=
  foldl (fun '(matches, totalChecks) field =>
    match oldData !! field with
    | None => (matches, totalChecks)
    | Some oldVal =>
        match newData !! field with
        | Some newVal => (if isValueEqual oldVal newVal then matches + 1 else matches, totalChecks + 1)
        | None => (matches, totalChecks + 1)
        end
    end) (0, 0) compareFields.

Definition Compare (oldData newData : gmap string any) : float64 :=
  if bool_decide (size oldData = O) || bool_decide (size newData = O) then fzero
  else
    let '(matches, totalChecks) := count_matches oldData newData in
    if bool_decide (totalChecks = 0) then fzero
    else fdiv (float_of_Z matches) (float_of_Z totalChecks).
End Fingerprint.

(** ** Anomalies *)
Definition AnomalyGeoJump : string := "geo_jump".
Definition AnomalyFingerprintChange : string := "fingerprint_change".
Definition AnomalyUnusualTime : string := "unusual_time".

Record AnomalyResult := mkAnomaly {
  an_Detected : bool;
  an_Type : string;
  an_Severity : string;
  an_Details : string;
  an_Confidence : float64
}.
Definition no_anomaly : AnomalyResult := mkAnomaly false "" "" "" fzero.

(** [v1 != v2] on two [interface{}] values: slices and maps of the same type
    cannot be compared. *)
Definition interface_neq (v1 v2 : any) : res error bool :=
  match v1, v2 with
  | AnyStrings _, AnyStrings _ | AnyList _, AnyList _ | AnyStringMap _, AnyStringMap _ => Panic
  | AnyFloat x, AnyFloat y => Ok (negb (SFeqb x y))
  | _, _ => Ok (negb (bool_decide (v1 = v2)))
  end.

Record detector := mkDetector {
  dt_geoService : option (string -> res error (float64 * float64));
  dt_maxSpeedKmH : float64;
  dt_fingerprintThreshold : float64
}.

Definition f09 : float64 := fconst 8106479329266893 (-53).
Definition f07 : float64 := fconst 6305039478318694 (-53).
Definition f06 : float64 := fconst 5404319552844595 (-53).
Definition f005 : float64 := fconst 7205759403792794 (-57).
Definition fone : float64 := float_of_Z 1.

Definition NewAnomalyDetector (geo : option (string -> res error (float64 * float64)))
    (maxSpeedKmH fingerprintThreshold : float64) : detector :=
  mkDetector geo
    (if SFeqb maxSpeedKmH fzero then float_of_Z 900 else maxSpeedKmH)
    (if SFeqb fingerprintThreshold fzero then f07 else fingerprintThreshold).

(** math.Sin, math.Cos, math.Atan2 and math.Sqrt *)
Record math_lib := mkMath {
  Sin : float64 -> float64;
  Cos : float64 -> float64;
  Atan2 : float64 -> float64 -> float64;
  Sqrt : float64 -> float64
}.

Section Anomalies.
Context (math : math_lib) (hour_of : time -> Z) (d : detector).

(** [math.Pi / 180] *)
Definition radian : float64 := fconst 5030569068109113 (-58).

Definition haversineDistance (lat1 lon1 lat2 lon2 : float64) : float64 :=
  let two := float_of_Z 2 in
  let dLat := fmul (fsub lat2 lat1) radian in
  let dLon := fmul (fsub lon2 lon1) radian in
  let a := fadd (fmul (Sin math (fdiv dLat two)) (Sin math (fdiv dLat two)))
             (fmul (fmul (fmul (Cos math (fmul lat1 radian)) (Cos math (fmul lat2 radian)))
                         (Sin math (fdiv dLon two))) (Sin math (fdiv dLon two))) in
  let c := fmul two (Atan2 math (Sqrt math a) (Sqrt math (fsub fone a))) in
  fmul (float_of_Z 6371) c.

Definition geo_jump (details : string) : AnomalyResult :=
  mkAnomaly true AnomalyGeoJump "high" details fone.

Definition DetectGeoJump (prevIP : string) (prevTime : time) (currIP : string) (currTime : time) :
    res error AnomalyResult :=
  match dt_geoService d with
  | None => Ok no_anomaly
  | Some GetLocation =>
      if bool_decide (prevIP = "") || bool_decide (currIP = "") then Ok no_anomaly
      else
        match GetLocation prevIP, GetLocation currIP with
        | Ok (lat1, lon1), Ok (lat2, lon2) =>
            let distance := haversineDistance lat1 lon1 lat2 lon2 in
            let timeDiff := Hours (Sub currTime prevTime) in
            if fle timeDiff fzero then
              Ok (if flt (float_of_Z 100) distance
                  then geo_jump "Distance > 100km with zero or negative time difference" else no_anomaly)
            else
              Ok (if flt (dt_maxSpeedKmH d) (fdiv distance timeDiff)
                  then geo_jump "Speed exceeds threshold" else no_anomaly)
        | Panic, _ | _, Panic => Panic
        | Diverge, _ | _, Diverge => Diverge
        | _, _ => Ok no_anomaly
        end
  end.

Fixpoint count_changes (oldFP newFP : gmap string any) (fields : list string) : res error Z :=
  match fields with
  | [] => Ok 0
  | field :: fields =>
      changed ← match oldFP !! field, newFP !! field with
                | Some v1, Some v2 => interface_neq v1 v2
                | _, _ => Ok false
                end;
      rest ← count_changes oldFP newFP fields;
      Ok (if changed : bool then 1 + rest else rest)
  end.

Definition coreFields : list string := ["screen_resolution"; "timezone"; "platform"].
Definition minorFields : list string := ["plugins"; "fonts"; "canvas_hash"].

Definition DetectFingerprintChange (oldFP newFP : gmap string any) : res error AnomalyResult :=
  coreChanges ← count_changes oldFP newFP coreFields;
  if bool_decide (2 <= coreChanges) then
    Ok (mkAnomaly true AnomalyFingerprintChange "critical" "Multiple core fingerprint fields changed" f09)
  else
    minorChanges ← count_changes oldFP newFP minorFields;
    if bool_decide (3 <= minorChanges) then
      Ok (mkAnomaly true AnomalyFingerprintChange "medium" "Multiple minor fingerprint fields changed" f07)
    else Ok no_anomaly.

Definition DetectUnusualTime (accessTime : time) (historicalTimes : list time) : AnomalyResult :=
  if bool_decide (Z.of_nat (length historicalTimes) < 10) then no_anomaly
  else
    let count := length (filter (fun t => hour_of t = hour_of accessTime) historicalTimes) in
    let probability := fdiv (float_of_Z (Z.of_nat count)) (float_of_Z (Z.of_nat (length historicalTimes))) in
    if flt probability f005
    then mkAnomaly true AnomalyUnusualTime "low" "Access time is unusual for this user" f06
    else no_anomaly.
End Anomalies.

(** ** Trust *)
Definition TrustLevelLow : string := "low".
Definition TrustLevelMedium : string := "medium".
Definition TrustLevelHigh : string := "high".
Definition TrustLevelVerified : string := "verified".

Definition or_default (x y : Z) : Z := if bool_decide (x = 0) then y else x.

Definition NewTrustScorer (c : DeviceTrustConfig) : DeviceTrustConfig :=
  mkTrustConfig (or_default (tc_BaseScore c) 20) (or_default (tc_AgeBonus c) 1)
    (or_default (tc_MaxAgeBonus c) 30) (or_default (tc_BoundBonus c) 20)
    (or_default (tc_FrequencyBonus c) 10) (or_default (tc_VerifiedBonus c) 20)
    (tc_MaxSpeedKmH c) (tc_FingerprintThreshold c).

(** [int(time.Since(t).Hours() / 24)] *)
Definition days_since (now t : time) : Z := int_of_float (fdiv (Hours (Sub now t)) (float_of_Z 24)).

Section Score.
Context (config : DeviceTrustConfig) (now : time).

Definition CalculateScore (device : Device) : Z :=
  let score := tc_BaseScore config in
  let score :=
    if bool_decide (dev_CreatedAt device = zero_time) then score
    else
      let ageBonus := int64 (days_since now (dev_CreatedAt device) * tc_AgeBonus config) in
      let ageBonus := if bool_decide (tc_MaxAgeBonus config < ageBonus) then tc_MaxAgeBonus config else ageBonus in
      int64 (score + ageBonus) in
  let score := if bool_decide (dev_UserID device = "") then score
               else int64 (score + tc_BoundBonus config) in
  let score :=
    match dev_BoundAt device with
    | Some boundAt =>
        if bool_decide (boundAt = zero_time) then score
        else if bool_decide (7 < days_since now boundAt) then int64 (score + tc_VerifiedBonus config) else score
    | None => score
    end in
  let score := if bool_decide (100 < score) then 100 else score in
  if bool_decide (score < 0) then 0 else score.

Definition GetTrustLevel (score : Z) : string :=
  if bool_decide (score < 30) then TrustLevelLow
  else if bool_decide (score < 60) then TrustLevelMedium
  else if bool_decide (score < 80) then TrustLevelHigh
  else TrustLevelVerified.
End Score.

(** ** The service

    [GetByID] fails when there is no such device, [GetByFingerprint] answers
    with none.  Creating and updating complete the caller's object with the
    times: it is returned. *)
Class DeviceRepository (R : Type) := {
  dr_Create : time -> Device -> prog R error Device;
  dr_GetByID : string -> prog R error (option Device);
  dr_GetByFingerprint : string -> prog R error (option Device);
  dr_GetByUserID : string -> prog R error (list Device);
  dr_Update : time -> Device -> prog R error Device
}.

Definition ErrDeviceAlreadyBound : error := Errorf "device already bound to another user".
Definition ErrNotDeviceOwner : error := Errorf "user does not own this device".

Section Service.
Context `{DeviceRepository R} (config : DeviceTrustConfig).
Context (anomalyDetector : option detector) (math : math_lib).
Context (json_Marshal : any -> string) (sha256_hex : string -> string) (ord : map_order).
Notation svc A := (prog R error A).

(** What is detected is dropped, but a panic is not. *)
Definition detect (now : time) (existing : Device) (fingerprintData : gmap string any) (ip : string) : svc unit :=
  match anomalyDetector with
  | None => mret ()
  | Some d =>
      lift (DetectGeoJump math d (dev_LastIP existing) (dev_LastActiveAt existing) ip now) ;;
      lift (DetectFingerprintChange (dev_FingerprintRaw existing) fingerprintData) ;;
      mret ()
  end.

Definition scored (now : time) (device : Device) : Device :=
  set_TrustScore (CalculateScore config now device) device.

Definition new_device (uuid tenantID fpHash : string) (data : gmap string any) (ip : string) (now : time) : Device :=
  mkDevice uuid tenantID "" fpHash data "" "" "" "" 0 ip "" now now now None.

Definition RegisterOrUpdate (now : time) (uuid : string) (fingerprintData : gmap string any) (ip tenantID : string) :
    svc Device :=
  let fpHash := GenerateHash json_Marshal sha256_hex ord fingerprintData in
  existing ← dr_GetByFingerprint fpHash;
  match existing with
  | Some existing =>
      detect now existing fingerprintData ip ;;
      dr_Update now (scored now (seen ip fingerprintData now existing))
  | None =>
      dr_Create now (scored now (new_device uuid tenantID fpHash fingerprintData ip now))
  end.

(** The two halves of [BindToUser]: what is read, and what is then checked and
    written. *)
Definition bind_write (now : time) (userID : string) (device : option Device) : svc unit :=
  match device with
  | None => throw (Errorf "device not found")
  | Some device =>
      if negb (bool_decide (dev_UserID device = "")) && negb (bool_decide (dev_UserID device = userID))
      then throw ErrDeviceAlreadyBound
      else dr_Update now (scored now (bound userID (Some now) device)) ;; mret ()
  end.

Definition BindToUser (now : time) (deviceID userID : string) : svc unit :=
  device ← dr_GetByID deviceID; bind_write now userID device.

Definition UnbindFromUser (now : time) (deviceID userID : string) : svc unit :=
  device ← dr_GetByID deviceID;
  match device with
  | None => throw (Errorf "device not found")
  | Some device =>
      if negb (bool_decide (dev_UserID device = userID)) then throw ErrNotDeviceOwner
      else dr_Update now (scored now (bound "" None device)) ;; mret ()
  end.

Definition GetUserDevices (userID : string) : svc (list Device) := dr_GetByUserID userID.
Definition device_GetByID (deviceID : string) : svc (option Device) := dr_GetByID deviceID.

Definition device_GetTrustLevel (deviceID : string) : svc string :=
  device ← dr_GetByID deviceID;
  match device with
  | None => throw (Errorf "device not found")
  | Some device => mret (GetTrustLevel (dev_TrustScore device))
  end.
End Service.

(** ** Facts *)

Lemma score_range config now d : 0 <= CalculateScore config now d <= 100.
Proof.
  unfold CalculateScore. cbv zeta. match goal with |- context [bool_decide (100 < ?z)] => generalize z end. intros z. case_bool_decide; case_bool_decide; lia.
Qed.

(** The canonical form only depends on the stable fields, and not on the order
    in which the map is visited. *)
Section CanonicalFacts.
Context (json_Marshal : any -> string).

Lemma normalized_lookup data k :
  normalized data !! k = if decide (k ∈ stableFields) then data !! k else None.
Proof.
  unfold normalized.
  assert (Hgen : forall fields (m : gmap string any),
    foldl (fun m field => match data !! field with Some val => <[field := val]> m | None => m end) m fields !! k =
    if decide (k ∈ fields /\ is_Some (data !! k)) then data !! k else m !! k).
  { induction fields as [|f fields IH]; intros m; cbn [foldl].
    - rewrite decide_False; [done|]. intros [Hk _]. by apply elem_of_nil in Hk.
    - rewrite IH. destruct (decide (k ∈ fields /\ is_Some (data !! k))) as [[Hin Hs]|Hno].
      + rewrite decide_True; [done|]. split; [by right|done].
      + destruct (decide (k = f)) as [->|Hne].
        * destruct (data !! f) as [v|] eqn:Hf.
          -- rewrite decide_True by (split; [left|by eexists]). by rewrite lookup_insert_eq.
          -- rewrite decide_False; [done|]. by intros [_ [? ?]].
        * rewrite decide_False; [by destruct (data !! f); rewrite ?lookup_insert_ne|].
          intros [[?|?]%elem_of_cons ?]; [done|]. by apply Hno. }
  rewrite Hgen, lookup_empty. destruct (data !! k) eqn:Hk.
  - destruct (decide (k ∈ stableFields)); [rewrite decide_True; [done|by split; [|eexists]]|rewrite decide_False; [done|tauto]].
  - rewrite decide_False by (by intros [_ [? ?]]). by case_decide.
Qed.

Lemma canonical_ext ord ord' data data' :
  (forall k, k ∈ stableFields -> data !! k = data' !! k) ->
  canonical json_Marshal ord data = canonical json_Marshal ord' data'.
Proof.
  intros Hsame. unfold canonical.
  assert (normalized data = normalized data') as ->.
  { apply map_eq. intros k. rewrite !normalized_lookup. case_decide; auto. }
  assert (sort_Strings (range ord (normalized data')).*1 = sort_Strings (range ord' (normalized data')).*1) as ->; [|done].
  apply sort_Strings_ext. by rewrite !range_perm.
Qed.
End CanonicalFacts.

(** Values that can be compared *)
Definition comparable (v : any) : Prop :=
  match v with AnyStrings _ | AnyList _ | AnyStringMap _ | AnyFloat _ => False | _ => True end.

Definition differs (oldFP newFP : gmap string any) (f : string) : bool :=
  match oldFP !! f, newFP !! f with Some v1, Some v2 => negb (bool_decide (v1 = v2)) | _, _ => false end.
Definition changed_fields (oldFP newFP : gmap string any) (fields : list string) : Z :=
  Z.of_nat (length (filter (fun f => Is_true (differs oldFP newFP f)) fields)).

Lemma interface_neq_comparable v1 v2 :
  comparable v1 -> interface_neq v1 v2 = Ok (negb (bool_decide (v1 = v2))).
Proof. by destruct v1, v2. Qed.

Lemma count_changes_comparable oldFP newFP fields :
  (forall f v, f ∈ fields -> oldFP !! f = Some v -> comparable v) ->
  count_changes oldFP newFP fields = Ok (changed_fields oldFP newFP fields).
Proof.
  induction fields as [|f fields IH]; intros Hcmp; [done|]. cbn [count_changes]. unfold changed_fields.
  assert ((match oldFP !! f, newFP !! f with Some v1, Some v2 => interface_neq v1 v2 | _, _ => Ok false end) =
    Ok (differs oldFP newFP f)) as ->.
  { unfold differs. destruct (oldFP !! f) as [v1|] eqn:Hv1, (newFP !! f) as [v2|]; try done.
    apply interface_neq_comparable. eapply Hcmp; [left|done]. }
  cbn [mbind res_bind]. rewrite filter_cons, IH by (intros g v Hg; by apply Hcmp; right).
  unfold changed_fields. destruct (differs oldFP newFP f); [|done].
  rewrite decide_True by exact I. cbn [length mbind res_bind]. f_equal. lia.
Qed.

(** ** What a device repository promises *)
Class DeviceRepositoryLaws (R : Type) `{DeviceRepository R} := {
  devices : R -> gmap string Device;
  dl_GetByID r id : dr_GetByID id r =
    (match devices r !! id with Some d => Ok (Some d) | None => Err (Errorf "record not found") end, r);
  dl_GetByFingerprint r fp : exists answer, dr_GetByFingerprint fp r = (Ok answer, r) /\
    match answer with
    | Some d => dev_Fingerprint d = fp /\ exists id, devices r !! id = Some d
    | None => forall id d, devices r !! id = Some d -> dev_Fingerprint d <> fp
    end;
  dl_Create r now d : devices r !! dev_ID d = None ->
    (forall id d', devices r !! id = Some d' -> dev_Fingerprint d' <> dev_Fingerprint d) ->
    exists r', dr_Create now d r = (Ok (with_times now d), r') /\
      devices r' = <[dev_ID d := with_times now d]> (devices r);
  dl_Update r now d d0 : devices r !! dev_ID d = Some d0 -> dev_Fingerprint d = dev_Fingerprint d0 -> dev_ID d <> "" ->
    exists r', dr_Update now d r = (Ok (set_UpdatedAt now d), r') /\
      devices r' = <[dev_ID d := set_UpdatedAt now d]> (devices r)
}.

Section ServiceFacts.
Context `{DeviceRepositoryLaws R} (config : DeviceTrustConfig) (anomalyDetector : option detector) (math : math_lib).
Context (json_Marshal : any -> string) (sha256_hex : string -> string) (ord : map_order).
Implicit Types (r : R) (d : Device).
Notation hash := (GenerateHash json_Marshal sha256_hex ord).

(** A well-formed device: an identifier, a trust score within its bounds, the fingerprint of
    its data, and a binding time exactly when it has an owner. *)
Definition device_ok d : Prop :=
  dev_ID d <> "" /\ 0 <= dev_TrustScore d <= 100 /\ dev_Fingerprint d = hash (dev_FingerprintRaw d) /\
  (dev_UserID d = "" <-> dev_BoundAt d = None).

Definition store_ok r : Prop :=
  (forall id d, devices r !! id = Some d -> dev_ID d = id /\ device_ok d) /\
  (forall id id' d d', devices r !! id = Some d -> devices r !! id' = Some d' ->
     dev_Fingerprint d = dev_Fingerprint d' -> id = id').

(** A device written over the one it comes from. *)
Lemma store_ok_update r r' d d0 :
  store_ok r -> devices r !! dev_ID d = Some d0 -> dev_Fingerprint d = dev_Fingerprint d0 -> device_ok d ->
  devices r' = <[dev_ID d := d]> (devices r) -> store_ok r'.
Proof.
  intros [Hok Hun] Hd0 Hfp Hd Hr'. split.
  - intros id d1. rewrite Hr', lookup_insert. case_decide as Heq; [|by apply Hok]. intros [= <-]. by split.
  - intros id id' d1 d2. rewrite Hr', !lookup_insert.
    destruct (decide (dev_ID d = id)) as [<-|]; destruct (decide (dev_ID d = id')) as [<-|]; try done.
    + intros [= <-] Hd2 Heq. eapply Hun; [done..|]. congruence.
    + intros Hd1 [= <-] Heq. eapply Hun; [done..|]. congruence.
    + by apply Hun.
Qed.

Lemma store_ok_create r r' d :
  store_ok r -> devices r !! dev_ID d = None ->
  (forall id d', devices r !! id = Some d' -> dev_Fingerprint d' <> dev_Fingerprint d) -> device_ok d ->
  devices r' = <[dev_ID d := d]> (devices r) -> store_ok r'.
Proof.
  intros [Hok Hun] Hnone Hfp Hd Hr'. split.
  - intros id d1. rewrite Hr', lookup_insert. case_decide as Heq; [|by apply Hok]. intros [= <-]. by split.
  - intros id id' d1 d2. rewrite Hr', !lookup_insert.
    destruct (decide (dev_ID d = id)) as [<-|]; destruct (decide (dev_ID d = id')) as [<-|]; try done.
    + intros [= <-] Hd2 Heq. by destruct (Hfp _ _ Hd2).
    + intros Hd1 [= <-] Heq. by destruct (Hfp _ _ Hd1).
    + by apply Hun.
Qed.

Lemma with_times_device now d :
  dev_ID (with_times now d) = dev_ID d /\ dev_Fingerprint (with_times now d) = dev_Fingerprint d /\
  dev_UserID (with_times now d) = dev_UserID d /\ (device_ok d -> device_ok (with_times now d)).
Proof. unfold with_times. destruct (bool_decide _), (bool_decide _); done. Qed.

(** Detection has no effect, but may panic. *)
Lemma detect_run now d data ip r :
  detect anomalyDetector math now d data ip r = (Ok (), r) \/
  detect anomalyDetector math now d data ip r = (Panic, r) \/
  detect anomalyDetector math now d data ip r = (Diverge, r) \/
  exists e, detect anomalyDetector math now d data ip r = (Err e, r).
Proof.
  unfold detect. destruct anomalyDetector as [dt|]; [|by left]. unfold mbind, prog_bind, lift.
  destruct (DetectGeoJump math dt (dev_LastIP d) (dev_LastActiveAt d) ip now) as [|e| |];
    [|right; right; right; by exists e|right; by left|right; right; by left].
  destruct (DetectFingerprintChange (dev_FingerprintRaw d) data) as [|e| |];
    [by left|right; right; right; by exists e|right; by left|right; right; by left].
Qed.

(** What each operation does to the store. *)
Lemma RegisterOrUpdate_run now uuid data ip tenantID r :
  store_ok r -> devices r !! uuid = None -> uuid <> "" ->
  exists a r', RegisterOrUpdate config anomalyDetector math json_Marshal sha256_hex ord now uuid data ip tenantID r = (a, r') /\
    (r' = r \/ exists d, a = Ok d /\ devices r' = <[dev_ID d := d]> (devices r) /\ device_ok d /\
      ((devices r !! dev_ID d = None /\ dev_UserID d = "" /\
        forall id d', devices r !! id = Some d' -> dev_Fingerprint d' <> dev_Fingerprint d) \/
       exists d0, devices r !! dev_ID d = Some d0 /\ dev_Fingerprint d = dev_Fingerprint d0 /\
         dev_UserID d = dev_UserID d0 /\ dev_TenantID d = dev_TenantID d0 /\ dev_BoundAt d = dev_BoundAt d0)).
Proof.
  intros [Hok Hun] Huuid Hne. unfold RegisterOrUpdate.
  destruct (dl_GetByFingerprint r (hash data)) as ([d0|] & Hget & Hans); rewrite (prog_bind_run _ _ _ _ _ Hget).
  - destruct Hans as [Hfp [id Hid]]. destruct (Hok _ _ Hid) as [Hdid Hd0].
    destruct (detect_run now d0 data ip r) as [Hdt|[Hdt|[Hdt|[e Hdt]]]];
      [|unfold mbind, prog_bind; rewrite Hdt; eexists _, r; split; [done|by left]..].
    rewrite (prog_bind_run _ _ _ _ _ Hdt).
    destruct (dl_Update r now (scored config now (seen ip data now d0)) d0) as (r' & Hup & Hr'); [by cbn; rewrite Hdid|done|apply Hd0|].
    eexists _, r'. split; [exact Hup|]. right. eexists. split; [done|]. split; [exact Hr'|]. split.
    + destruct Hd0 as (Hi & _ & _ & Hb). split; [exact Hi|]. split; [apply score_range|]. by split.
    + right. exists d0. cbn. by rewrite Hdid.
  - destruct (dl_Create r now (scored config now (new_device uuid tenantID (hash data) data ip now))) as (r' & Hcr & Hr');
      [done|exact Hans|].
    set (d := scored config now (new_device uuid tenantID (hash data) data ip now)) in *.
    destruct (with_times_device now d) as (Hi & Hf & Hu & Hw).
    eexists _, r'. split; [exact Hcr|]. right. eexists. split; [done|]. rewrite Hi. split; [exact Hr'|]. split.
    + apply Hw. split; [done|]. split; [apply score_range|]. by split.
    + left. split; [done|]. split; [by rewrite Hu|]. rewrite Hf. exact Hans.
Qed.

Lemma bind_write_run now userID d r :
  devices r !! dev_ID d = Some d -> dev_ID d <> "" ->
  (dev_UserID d <> "" /\ dev_UserID d <> userID /\
   bind_write config now userID (Some d) r = (Err ErrDeviceAlreadyBound, r)) \/
  ((dev_UserID d = "" \/ dev_UserID d = userID) /\
   exists r', bind_write config now userID (Some d) r = (Ok (), r') /\
     devices r' = <[dev_ID d := set_UpdatedAt now (scored config now (bound userID (Some now) d))]> (devices r)).
Proof.
  intros Hd Hne. unfold bind_write.
  destruct (bool_decide_reflect (dev_UserID d = "")) as [He|He]; cbn [negb andb].
  - right. split; [by left|].
    destruct (dl_Update r now (scored config now (bound userID (Some now) d)) d) as (r' & Hup & Hr'); [done..|].
    exists r'. split; [by rewrite (prog_bind_run _ _ _ _ _ Hup)|exact Hr'].
  - destruct (bool_decide_reflect (dev_UserID d = userID)) as [Hu|Hu]; cbn [negb]; [|by left].
    right. split; [by right|].
    destruct (dl_Update r now (scored config now (bound userID (Some now) d)) d) as (r' & Hup & Hr'); [done..|].
    exists r'. split; [by rewrite (prog_bind_run _ _ _ _ _ Hup)|exact Hr'].
Qed.
End ServiceFacts.

(** ** Histories *)
Inductive device_op :=
  | OpRegister (data : gmap string any) (ip tenantID : string)
  | OpBind (deviceID userID : string)
  | OpUnbind (deviceID userID : string).

Section Histories.
Context `{DeviceRepositoryLaws R} (config : DeviceTrustConfig) (anomalyDetector : option detector) (math : math_lib).
Context (json_Marshal : any -> string) (sha256_hex : string -> string) (ord : map_order).
(** [uuid.New] gives an identifier that is not in use, and is not empty. *)
Context (new_id : R -> string).
Hypothesis new_id_fresh : forall r, devices r !! new_id r = None /\ new_id r <> "".
Implicit Types (r : R) (d : Device).
Notation store_ok := (store_ok json_Marshal sha256_hex ord).

Definition run_device_op (now : time) (op : device_op) : prog R error unit :=
  match op with
  | OpRegister data ip tenantID =>
      r ← get;
      RegisterOrUpdate config anomalyDetector math json_Marshal sha256_hex ord now (new_id r) data ip tenantID ;; mret ()
  | OpBind deviceID userID => BindToUser config now deviceID userID
  | OpUnbind deviceID userID => UnbindFromUser config now deviceID userID
  end.

Definition run_history (ops : list (time * device_op)) r : R :=
  foldl (fun r op => (run_device_op op.1 op.2 r).2) r ops.

Definition names_user (op : device_op) : Prop :=
  match op with OpBind _ userID => userID <> "" | _ => True end.

(** Who may own a device after an operation: a device keeps its owner unless
    it was free and is bound, or its owner gives it up. *)
Definition owner_step (op : device_op) d d' : Prop :=
  dev_Fingerprint d' = dev_Fingerprint d /\ dev_TenantID d' = dev_TenantID d /\
  (dev_UserID d' = dev_UserID d \/
   (dev_UserID d = "" /\ op = OpBind (dev_ID d) (dev_UserID d')) \/
   (op = OpUnbind (dev_ID d) (dev_UserID d) /\ dev_UserID d' = "")).

Definition steps_to (op : device_op) r r' : Prop :=
  forall id d, devices r !! id = Some d -> exists d', devices r' !! id = Some d' /\ owner_step op d d'.

Lemma owner_same op d : owner_step op d d.
Proof. split; [done|]. split; [done|by left]. Qed.

Lemma steps_to_write op r r' d0 d :
  devices r !! dev_ID d = Some d0 -> devices r' = <[dev_ID d := d]> (devices r) -> owner_step op d0 d -> steps_to op r r'.
Proof.
  intros Hd0 Hr' Hstep id d1 Hd1. rewrite Hr', lookup_insert. case_decide as Heq.
  - exists d. split; [done|]. rewrite Heq, Hd1 in Hd0. by injection Hd0 as ->.
  - exists d1. split; [done|apply owner_same].
Qed.

Lemma run_device_op_ok now op r :
  store_ok r -> names_user op ->
  store_ok (run_device_op now op r).2 /\ steps_to op r (run_device_op now op r).2.
Proof.
  intros Hok Hname.
  assert (Hstay : store_ok r /\ steps_to op r r).
  { split; [done|]. intros id d Hd. exists d. split; [done|apply owner_same]. }
  destruct op as [data ip tenantID|deviceID userID|deviceID userID]; cbn [run_device_op].
  - rewrite prog_get_bind.
    destruct (RegisterOrUpdate_run config anomalyDetector math json_Marshal sha256_hex ord now (new_id r) data ip tenantID r
      Hok (proj1 (new_id_fresh r)) (proj2 (new_id_fresh r))) as (a & r' & Hrun & Hcase).
    assert (((RegisterOrUpdate config anomalyDetector math json_Marshal sha256_hex ord now (new_id r) data ip tenantID ;; mret ()) r).2 = r') as ->.
    { unfold mbind, prog_bind. rewrite Hrun. by destruct a. }
    destruct Hcase as [->|(d & _ & Hr' & Hd & Hcase)]; [done|].
    destruct Hcase as [(Hnone & _ & Hfp)|(d0 & Hd0 & Hf & Hu & Ht & _)].
    + split; [by eapply store_ok_create|]. intros id d1 Hd1. rewrite Hr', lookup_insert.
      case_decide as Heq; [congruence|]. exists d1. split; [done|apply owner_same].
    + split; [by eapply store_ok_update|]. eapply steps_to_write; [done..|]. split; [done|]. split; [done|by left].
  - unfold BindToUser. pose proof (dl_GetByID r deviceID) as Hget.
    destruct (devices r !! deviceID) as [d|] eqn:Hd; [|by rewrite (prog_bind_fail _ _ _ _ _ Hget)].
    rewrite (prog_bind_run _ _ _ _ _ Hget). destruct (proj1 Hok _ _ Hd) as [Hid Hdok]. rewrite <-Hid in Hd.
    destruct (bind_write_run config now userID d r Hd (proj1 Hdok)) as [(_ & _ & Hrun)|(Hfree & r' & Hrun & Hr')];
      rewrite Hrun; [done|]. cbn [snd].
    set (d' := set_UpdatedAt now (scored config now (bound userID (Some now) d))) in *.
    assert (device_ok json_Marshal sha256_hex ord d').
    { destruct Hdok as (Hne & _ & Hfp & _). split; [exact Hne|]. split; [apply score_range|]. split; [exact Hfp|]. cbn.
      by split; [intros ?|]. }
    change (dev_ID d) with (dev_ID d') in Hr', Hd.
    split; [by eapply store_ok_update|]. eapply steps_to_write; [done..|]. split; [done|]. split; [done|].
    destruct Hfree as [Hfree|Hfree]; [right; left; split; [done|by rewrite Hid]|left; by rewrite Hfree].
  - unfold UnbindFromUser. pose proof (dl_GetByID r deviceID) as Hget.
    destruct (devices r !! deviceID) as [d|] eqn:Hd; [|by rewrite (prog_bind_fail _ _ _ _ _ Hget)].
    rewrite (prog_bind_run _ _ _ _ _ Hget). destruct (proj1 Hok _ _ Hd) as [Hid Hdok]. rewrite <-Hid in Hd.
    destruct (bool_decide_reflect (dev_UserID d = userID)) as [Hu|Hu]; cbn [negb]; [|done].
    destruct (dl_Update r now (scored config now (bound "" None d)) d) as (r' & Hup & Hr'); [done|done|apply Hdok|].
    rewrite (prog_bind_run _ _ _ _ _ Hup). cbn [snd mret prog_ret].
    set (d' := set_UpdatedAt now (scored config now (bound "" None d))) in *.
    assert (device_ok json_Marshal sha256_hex ord d').
    { destruct Hdok as (Hne & _ & Hfp & _). split; [exact Hne|]. split; [apply score_range|]. by split. }
    change (devices r' = <[dev_ID d':=d']> (devices r)) in Hr'. change (dev_ID d) with (dev_ID d') in Hd.
    split; [by eapply store_ok_update|]. eapply steps_to_write; [done..|]. split; [done|]. split; [done|].
    right. right. split; [by rewrite Hid, Hu|done].
Qed.
End Histories.

(** ** Properties *)

(** C15: Over every history of registrations, bindings and releases the stored
    devices stay well-formed - a trust score between 0 and 100, the fingerprint
    of the data they keep, a binding time exactly when they have an owner, no
    two with one fingerprint - and a device changes hands only by being bound
    while it is free or released by its owner. *)
Theorem device_histories `{DeviceRepositoryLaws R} config dt math json sha ord (new_id : R -> string) ops now op r :
  (forall r, devices r !! new_id r = None /\ new_id r <> "") ->
  store_ok json sha ord r -> Forall (fun op => names_user op.2) ops -> names_user op ->
  let r1 := run_history config dt math json sha ord new_id ops r in
  store_ok json sha ord r1 /\
  steps_to op r1 (run_device_op config dt math json sha ord new_id now op r1).2.
Proof.
  intros Hfresh Hok Hops Hop r1. assert (Hr1 : store_ok json sha ord r1).
  { unfold r1. clear r1 Hop. revert r Hok. induction Hops as [|[t o] ops Ho _ IH]; intros r Hok; [done|].
    cbn. apply IH. by apply (run_device_op_ok config dt math json sha ord new_id Hfresh t o r). }
  split; [done|]. by apply run_device_op_ok.
Qed.

(** One after the other, the second of two users to bind a free device is
    refused; but a binding reads the device first and writes it later, and when
    both have read before either has written, both succeed and the device is
    the second writer's. *)
Theorem concurrent_binds `{DeviceRepositoryLaws R} config now id u1 u2 d r :
  devices r !! id = Some d -> dev_ID d = id -> id <> "" -> dev_UserID d = "" -> u1 <> "" -> u2 <> "" -> u1 <> u2 ->
  (exists r1, BindToUser config now id u1 r = (Ok (), r1) /\
     BindToUser config now id u2 r1 = (Err ErrDeviceAlreadyBound, r1)) /\
  (exists read1 read2 r1 r2 d2,
     dr_GetByID id r = (Ok read1, r) /\ dr_GetByID id r = (Ok read2, r) /\
     bind_write config now u1 read1 r = (Ok (), r1) /\ bind_write config now u2 read2 r1 = (Ok (), r2) /\
     devices r2 !! id = Some d2 /\ dev_UserID d2 = u2).
Proof.
  intros Hd Hid Hnid Hfree Hu1 Hu2 Hne. pose proof (dl_GetByID r id) as Hget. rewrite Hd in Hget.
  assert (Hd' : devices r !! dev_ID d = Some d) by (by rewrite Hid).
  destruct (bind_write_run config now u1 d r Hd' ltac:(by rewrite Hid)) as [(? & _)|(_ & r1 & Hrun1 & Hr1)]; [done|].
  set (d1 := set_UpdatedAt now (scored config now (bound u1 (Some now) d))) in *.
  assert (Hd1 : devices r1 !! id = Some d1) by (by rewrite Hr1, Hid, lookup_insert_eq).
  split.
  - exists r1. unfold BindToUser. rewrite (prog_bind_run _ _ _ _ _ Hget). split; [exact Hrun1|].
    pose proof (dl_GetByID r1 id) as Hget1. rewrite Hd1 in Hget1. rewrite (prog_bind_run _ _ _ _ _ Hget1).
    destruct (bind_write_run config now u2 d1 r1) as [(_ & _ & Hrun)|([Hf|Hf] & _)];
      [cbn; by rewrite Hid|cbn; by rewrite Hid|exact Hrun|done|by destruct Hne].
  - exists (Some d), (Some d), r1.
    destruct (dl_Update r1 now (scored config now (bound u2 (Some now) d)) d1) as (r2 & Hup & Hr2);
      [cbn; by rewrite Hid|done|cbn; by rewrite Hid|].
    exists r2. eexists. split; [done|]. split; [done|]. split; [exact Hrun1|]. split.
    + unfold bind_write. rewrite (bool_decide_eq_true_2 (dev_UserID d = "")) by done. cbn [negb andb].
      by rewrite (prog_bind_run _ _ _ _ _ Hup).
    + rewrite Hr2. cbn [dev_ID scored set_TrustScore bound]. by rewrite Hid, lookup_insert_eq.
Qed.

(** A fingerprint's hash depends on its stable fields only, and not on the
    order in which Go visits the map; devices that agree on them are one. *)
Theorem hash_canonical json sha ord ord' data data' :
  (forall k, k ∈ stableFields -> data !! k = data' !! k) ->
  GenerateHash json sha ord data = GenerateHash json sha ord' data'.
Proof. intros Hsame. unfold GenerateHash. f_equal. by apply canonical_ext. Qed.

(** Which changes of a fingerprint are anomalies: two of the three core
    fields are critical, all three minor fields are of medium severity - as
    long as the values can be compared; two arrays under the same field, equal
    or not, make the comparison panic. *)
Theorem fingerprint_change_decides oldFP newFP :
  ((forall f v, f ∈ coreFields ++ minorFields -> oldFP !! f = Some v -> comparable v) ->
   DetectFingerprintChange oldFP newFP = Ok
     (if bool_decide (2 <= changed_fields oldFP newFP coreFields) then
        mkAnomaly true AnomalyFingerprintChange "critical" "Multiple core fingerprint fields changed" f09
      else if bool_decide (changed_fields oldFP newFP minorFields = 3) then
        mkAnomaly true AnomalyFingerprintChange "medium" "Multiple minor fingerprint fields changed" f07
      else no_anomaly)) /\
  ((forall f v, f ∈ coreFields -> oldFP !! f = Some v -> comparable v) ->
   changed_fields oldFP newFP coreFields < 2 ->
   forall l l', oldFP !! "plugins" = Some (AnyList l) -> newFP !! "plugins" = Some (AnyList l') ->
   DetectFingerprintChange oldFP newFP = Panic).
Proof.
  split.
  - intros Hcmp. unfold DetectFingerprintChange.
    rewrite !count_changes_comparable by (intros f v Hf; apply Hcmp; set_solver). cbn [mbind res_bind].
    assert (Hle : changed_fields oldFP newFP minorFields <= 3).
    { pose proof (length_filter (fun f => Is_true (differs oldFP newFP f)) minorFields) as Hl.
      unfold changed_fields. cbn [length minorFields] in Hl. unfold minorFields in *. lia. }
    repeat case_bool_decide; (done || lia).
  - intros Hcmp Hlt l l' Ho Hn. unfold DetectFingerprintChange.
    rewrite (count_changes_comparable _ _ coreFields Hcmp). cbn [mbind res_bind].
    rewrite bool_decide_eq_false_2 by lia. unfold minorFields. cbn [count_changes]. by rewrite Ho, Hn.
Qed.

Definition zero_config : DeviceTrustConfig := mkTrustConfig 0 0 0 0 0 0 fzero fzero.

Lemma days_range now t : - 2 ^ 63 <= days_since now t < 2 ^ 63.
Proof.
  unfold days_since, int_of_float. destruct (fdiv _ _) as [| | |b m e]; try lia. cbv zeta.
  match goal with |- context [if ?c then _ else _] => destruct c eqn:Hc end; [|lia].
  apply andb_true_iff in Hc as [?%Z.leb_le ?%Z.ltb_lt]. lia.
Qed.

(** The default trust: twenty points, one for each day of age up to thirty,
    twenty for an owner and twenty more after a week of ownership - at most
    ninety, and "verified" exactly for devices owned for more than a week and
    known for twenty days. *)
Theorem default_trust now d :
  dev_CreatedAt d <> zero_time -> 0 <= days_since now (dev_CreatedAt d) ->
  let days := days_since now (dev_CreatedAt d) in
  let owned := negb (bool_decide (dev_UserID d = "")) in
  let settled := match dev_BoundAt d with
                 | Some t => negb (bool_decide (t = zero_time)) && bool_decide (7 < days_since now t)
                 | None => false end in
  let score := CalculateScore (NewTrustScorer zero_config) now d in
  score = 20 + Z.min 30 days + (if owned then 20 else 0) + (if settled then 20 else 0) /\
  20 <= score <= 90 /\
  (GetTrustLevel score = TrustLevelVerified <-> owned = true /\ settled = true /\ 20 <= days).
Proof.
  intros Hcr Hdays days owned settled score.
  assert (Hscore : score = 20 + Z.min 30 days + (if owned then 20 else 0) + (if settled then 20 else 0)).
  { unfold score, CalculateScore. cbn [NewTrustScorer zero_config tc_BaseScore tc_AgeBonus tc_MaxAgeBonus
      tc_BoundBonus tc_VerifiedBonus or_default]. cbv zeta.
    change (or_default 0 20) with 20. change (or_default 0 1) with 1. change (or_default 0 30) with 30.
    rewrite (bool_decide_eq_false_2 (dev_CreatedAt d = zero_time)) by done. fold days.
    pose proof (days_range now (dev_CreatedAt d)) as Hr. fold days in Hr. rewrite Z.mul_1_r, (int64_small days) by lia.
    assert ((if bool_decide (30 < days) then 30 else days) = Z.min 30 days) as -> by (case_bool_decide; lia).
    rewrite (int64_small (20 + Z.min 30 days)) by lia. unfold owned, settled.
    destruct (bool_decide (dev_UserID d = "")); cbn [negb]; rewrite ?(int64_small (20 + Z.min 30 days + 20)) by lia;
      destruct (dev_BoundAt d) as [t|]; try destruct (bool_decide (t = zero_time)); cbn [negb andb];
      try destruct (bool_decide (7 < days_since now t));
      rewrite ?int64_small by lia; repeat case_bool_decide; lia. }
  assert (Hrange : 20 <= score <= 90) by (rewrite Hscore; destruct owned, settled; lia).
  split; [exact Hscore|]. split; [exact Hrange|]. unfold GetTrustLevel.
  clearbody score. subst score. destruct owned, settled; repeat case_bool_decide; split; try done; try lia;
    by intros (? & ? & ?).
Qed.

(** ** A table of devices

    The reference repository: a map by identifier, with a unique index on the
    fingerprint. *)
Notation device_table := (gmap string Device).

Definition find_fingerprint (fp : string) (t : device_table) : option Device :=
  match filter (fun d => dev_Fingerprint d = fp) (map_to_list t).*2 with d :: _ => Some d | [] => None end.

#[export] Instance table_repository : DeviceRepository device_table := {|
  dr_Create now d t :=
    match t !! dev_ID d, find_fingerprint (dev_Fingerprint d) t with
    | None, None => (Ok (with_times now d), <[dev_ID d := with_times now d]> t)
    | _, _ => (Err (Errorf "duplicate key"), t)
    end;
  dr_GetByID id t := (match t !! id with Some d => Ok (Some d) | None => Err (Errorf "record not found") end, t);
  dr_GetByFingerprint fp t := (Ok (find_fingerprint fp t), t);
  dr_GetByUserID userID t := (Ok (filter (fun d => dev_UserID d = userID) (map_to_list t).*2), t);
  dr_Update now d t := (Ok (set_UpdatedAt now d), <[dev_ID d := set_UpdatedAt now d]> t)
|}.

Lemma find_fingerprint_spec fp t :
  match find_fingerprint fp t with
  | Some d => dev_Fingerprint d = fp /\ exists id, t !! id = Some d
  | None => forall id d, t !! id = Some d -> dev_Fingerprint d <> fp
  end.
Proof.
  unfold find_fingerprint.
  assert (Hin : forall d, d ∈ filter (fun d => dev_Fingerprint d = fp) (map_to_list t).*2 <->
    dev_Fingerprint d = fp /\ exists id, t !! id = Some d).
  { intros d. rewrite list_elem_of_filter, list_elem_of_fmap. split; intros [Hfp Hex]; (split; [done|]).
    - destruct Hex as ([id d'] & -> & Hid%elem_of_map_to_list). by exists id.
    - destruct Hex as [id Hid]. exists (id, d). split; [done|by apply elem_of_map_to_list]. }
  destruct (filter _ _) as [|d l] eqn:Hl.
  - intros id d Hd Hfp. assert (Hnil : d ∈ @nil Device) by (apply Hin; split; [done|by exists id]).
    by apply elem_of_nil in Hnil.
  - apply Hin. left.
Qed.

#[export] Instance table_laws : DeviceRepositoryLaws device_table.
Proof.
  refine {| devices := fun t => t |}.
  - done.
  - intros t fp. exists (find_fingerprint fp t). split; [done|apply find_fingerprint_spec].
  - intros t now d Hid Hfp. exists (<[dev_ID d := with_times now d]> t). split; [|done].
    cbn. rewrite Hid. pose proof (find_fingerprint_spec (dev_Fingerprint d) t) as Hf.
    destruct (find_fingerprint _ t) as [d'|]; [|done]. destruct Hf as [Heq [id Hd']]. by destruct (Hfp id d').
  - intros t now d d0 _ _ _. by eexists.
Defined.

(** ** Examples *)
Definition demo_data : gmap string any := {[ "platform" := AnyString "linux"; "plugins" := AnyList [AnyString "pdf"] ]}.
Definition demo_json (v : any) : string := match v with AnyString s => s | _ => "" end.
Definition demo_hash (s : string) : string := s.
Definition demo_math : math_lib := mkMath (fun x => x) (fun x => x) (fun x _ => x) (fun x => x).
Definition demo_device : Device :=
  mkDevice "d1" "t1" "" (GenerateHash demo_json demo_hash default_order demo_data) demo_data "" "" "" "" 20 "" "" 0 0 0 None.
Definition demo_devices : device_table := {[ "d1" := demo_device ]}.
Definition demo_device_id (t : device_table) : string := fresh ({[ "" ]} ∪ dom t : gset string).
Lemma demo_device_id_fresh (t : device_table) : t !! demo_device_id t = None /\ demo_device_id t <> "".
Proof.
  pose proof (is_fresh ({[ "" ]} ∪ dom t : gset string)) as Hf. fold (demo_device_id t) in Hf.
  apply not_elem_of_union in Hf as [Hne Hf]. split; [by apply (not_elem_of_dom (D := gset string))|set_solver].
Qed.

Lemma demo_devices_ok : store_ok demo_json demo_hash default_order demo_devices.
Proof.
  split.
  - intros id d Hd. unfold demo_devices in Hd. cbn in Hd. apply lookup_singleton_Some in Hd as [<- <-].
    split; [done|]. split; [done|]. split; [done|]. by split.
  - intros id id' d d' Hd Hd' _. cbn in Hd, Hd'. unfold demo_devices in Hd, Hd'.
    apply lookup_singleton_Some in Hd as [<- _], Hd' as [<- _]. done.
Qed.

Lemma device_histories_witness :
  store_ok demo_json demo_hash default_order
    (run_history zero_config None demo_math demo_json demo_hash default_order demo_device_id
       [(5, OpBind "d1" "u1"); (6, OpRegister ∅ "10.0.0.1" "t1"); (7, OpUnbind "d1" "u2")] demo_devices).
Proof.
  apply (device_histories zero_config None demo_math demo_json demo_hash default_order demo_device_id
    [(5, OpBind "d1" "u1"); (6, OpRegister ∅ "10.0.0.1" "t1"); (7, OpUnbind "d1" "u2")] 8 (OpUnbind "d1" "u1") demo_devices).
  - exact demo_device_id_fresh.
  - exact demo_devices_ok.
  - repeat constructor. done.
  - exact I.
Defined.

Lemma concurrent_binds_witness :
  exists r1, BindToUser zero_config 5 "d1" "u1" demo_devices = (Ok (), r1) /\
    BindToUser zero_config 5 "d1" "u2" r1 = (Err ErrDeviceAlreadyBound, r1).
Proof.
  apply (concurrent_binds zero_config 5 "d1" "u1" "u2" demo_device demo_devices); try done.
Defined.

Lemma hash_canonical_witness :
  GenerateHash demo_json demo_hash default_order demo_data =
  GenerateHash demo_json demo_hash reverse_order (<["fonts" := AnyNil]> demo_data).
Proof.
  apply (hash_canonical demo_json demo_hash default_order reverse_order demo_data (<["fonts" := AnyNil]> demo_data)).
  intros k Hk. symmetry. apply lookup_insert_ne. intros <-. revert Hk.
  apply (bool_decide_unpack (~ _)). vm_compute. exact I.
Defined.

Lemma fingerprint_change_decides_witness :
  DetectFingerprintChange {[ "platform" := AnyString "linux" ]} demo_data = Ok no_anomaly /\
  DetectFingerprintChange demo_data demo_data = Panic.
Proof.
  split.
  - rewrite (proj1 (fingerprint_change_decides {[ "platform" := AnyString "linux" ]} demo_data)).
    + vm_compute. reflexivity.
    + intros f v _ Hv. apply lookup_singleton_Some in Hv as [_ <-]. exact I.
  - eapply (proj2 (fingerprint_change_decides demo_data demo_data)).
    + intros f v Hf Hv. assert (Hcore : f = "platform").
      { destruct (decide (f = "platform")) as [|Hne]; [done|]. exfalso. revert Hv. unfold demo_data.
        rewrite lookup_insert_ne by done. rewrite lookup_singleton_ne; [done|]. intros <-. revert Hf.
        apply (bool_decide_unpack (~ _)). vm_compute. exact I. }
      subst f. vm_compute in Hv. injection Hv as <-. exact I.
    + vm_compute. reflexivity.
    + vm_compute. reflexivity.
    + vm_compute. reflexivity.
Defined.

Lemma default_trust_witness :
  CalculateScore (NewTrustScorer zero_config) (20 * 24 * Hour) (bound "u1" (Some (10 * 24 * Hour)) demo_device) = 80 /\
  GetTrustLevel 80 = TrustLevelVerified.
Proof.
  destruct (default_trust (20 * 24 * Hour) (bound "u1" (Some (10 * 24 * Hour)) demo_device)) as (Hs & _ & _).
  - done.
  - by vm_compute.
  - split; [|done]. rewrite Hs. vm_compute. reflexivity.
Defined.
