(* ===== verification/Lifecycle.v ===== *)
(** * Identity lifecycle and data governance

    - internal/domain/identity/lifecycle/engine.go and model.go: rules that are
      evaluated against a user;
    - internal/domain/identity/governance/inspector.go and model.go: checks of
      the quality of a user's data;
    - internal/worker/lifecycle_job.go: the scan that pages through all users
      and carries out the actions.

    The scan is written against the part of the identity service it calls, the
    class [UserService]; the service over a repository is an instance, and so
    is a plain list of users.  How times, maps and slices print is left open. *)

From S2P Require Import Prelude Types GoStd GoText MemIdentity IdentityService.
From Stdlib Require Import Ascii SpecFloat.
Local Open Scope Z_scope.

(** ** Rules (model.go) *)
Definition OpEq : string := "eq".
Definition OpNeq : string := "neq".
Definition OpGt : string := "gt".
Definition OpLt : string := "lt".
Definition OpGte : string := "gte".
Definition OpLte : string := "lte".
Definition OpContains : string := "contains".

Definition ActionDisable : string := "disable".
Definition ActionDelete : string := "delete".
Definition ActionNotify : string := "notify".
Definition ActionArchive : string := "archive".

Record Action := mkAction { Type_ : string; Params : gmap string any }.
Record Condition := mkCondition { Attribute : string; Operator : string; Value : any }.
Record LifecycleRule := mkRule {
  rule_Name : string; rule_Description : string; Conditions : list Condition; Actions : list Action
}.

(** ** The engine (engine.go)

    What reflection finds in the fields of a user and its attributes. *)
Inductive value :=
  | VAny (a : any)
  | VTime (t : time)
  | VTimePtr (t : option time)
  | VMap (m : gmap string any)
  | VGroups (gs : list UserGroup)
  | VMerges (ms : list MergeRecord).

Section Engine.
Context `{CaseFolding} (format_other : any -> string) (format_value : value -> string) (now : time).

(** The fields of [types.User] with their JSON tags, in the order of the
    declaration. *)
Definition user_fields (u : User) : list (string * string * value) :=
  [("ID", "id", VAny (AnyString (user_ID u)));
   ("Username", "username", VAny (AnyString (user_Username u)));
   ("Email", "email", VAny (AnyString (user_Email u)));
   ("Phone", "phone", VAny (AnyString (user_Phone u)));
   ("Password", "-", VAny (AnyString (user_Password u)));
   ("Status", "status", VAny (AnyString (user_Status u)));
   ("Attributes", "attributes", VMap (user_Attributes u));
   ("PrivacySettings", "privacySettings", VMap (user_PrivacySettings u));
   ("Groups", "groups", VGroups (user_Groups u));
   ("CreatedAt", "createdAt", VTime (user_CreatedAt u));
   ("UpdatedAt", "updatedAt", VTime (user_UpdatedAt u));
   ("DeletedAt", "deletedAt", VTimePtr (user_DeletedAt u));
   ("LastLoginAt", "lastLoginAt", VTimePtr (user_LastLoginAt u));
   ("MergeHistory", "mergeHistory", VMerges (user_MergeHistory u));
   ("ExternalID", "externalId", VAny (AnyString (user_ExternalID u)));
   ("SourceType", "sourceType", VAny (AnyString (user_SourceType u)))].

Fixpoint find_field (attribute : string) (fields : list (string * string * value)) : option value :=
  match fields with
  | [] => None
  | (name, jsonTag, v) :: fields =>
      if EqualFold name attribute || EqualFold jsonTag attribute then Some v else find_field attribute fields
  end.

(** A missing attribute is [nil], as is one whose value is [nil]. *)
Definition getAttributeValue (u : User) (attribute : string) : res error value :=
  if strings_HasPrefix attribute "attributes."
  then Ok (VAny (default AnyNil (user_Attributes u !! strings_TrimPrefix attribute "attributes.")))
  else match find_field attribute (user_fields u) with
       | Some v => Ok v
       | None => Err (Errorf ("unknown attribute: " +:+ attribute))
       end.

Definition toTime (v : value) : option time :=
  match v with VTime t => Some t | VTimePtr t => t | _ => None end.

Definition parseDuration (v : any) : option Z :=
  match v with
  | AnyString s =>
      match (if strings_HasSuffix s "d" then Sscanf_d (strings_TrimSuffix s "d") else None) with
      | Some days => Some (int64 (int64 (days * 24) * Hour))
      | None => ParseDuration s
      end
  | _ => None
  end.

(** [reflect] sees a duration as the integer it is. *)
Definition toFloat (v : any) : option float64 :=
  match v with
  | AnyInt z | AnyDuration z => Some (float_of_Z z)
  | AnyFloat f => Some f
  | _ => None
  end.

Definition Sprint (v : value) : string :=
  match v with
  | VAny a => Sprintf_v format_other a
  | VTimePtr None => "<nil>"
  | _ => format_value v
  end.

Definition compare_duration (age d : Z) (op : string) : res error bool :=
  if bool_decide (op = OpGt) then Ok (bool_decide (d < age))
  else if bool_decide (op = OpGte) then Ok (bool_decide (d <= age))
  else if bool_decide (op = OpLt) then Ok (bool_decide (age < d))
  else if bool_decide (op = OpLte) then Ok (bool_decide (age <= d))
  else if bool_decide (op = OpEq) then Ok (bool_decide (age = d))
  else Err (Errorf ("unsupported operator for time duration: " +:+ op)).

Definition compare_number (x y : float64) (op : string) : option bool :=
  if bool_decide (op = OpEq) then Some (SFeqb x y)
  else if bool_decide (op = OpNeq) then Some (negb (SFeqb x y))
  else if bool_decide (op = OpGt) then Some (flt y x)
  else if bool_decide (op = OpLt) then Some (flt x y)
  else if bool_decide (op = OpGte) then Some (fle y x)
  else if bool_decide (op = OpLte) then Some (fle x y)
  else None.

Definition compare_text (s t : string) (op : string) : bool :=
  if bool_decide (op = OpEq) then bool_decide (s = t)
  else if bool_decide (op = OpNeq) then negb (bool_decide (s = t))
  else if bool_decide (op = OpContains) then strings_Contains s t
  else false.

Definition compare (actual : value) (op : string) (expected : any) : res error bool :=
  match actual with
  | VAny AnyNil => Ok false
  | _ =>
      match toTime actual, parseDuration expected with
      | Some t, Some d => compare_duration (Sub now t) d op
      | _, _ =>
          let number :=
            match (match actual with VAny a => toFloat a | _ => None end), toFloat expected with
            | Some x, Some y => compare_number x y op
            | _, _ => None
            end in
          match number with
          | Some b => Ok b
          | None => Ok (compare_text (Sprint actual) (Sprintf_v format_other expected) op)
          end
      end
  end.

Definition evaluateCondition (u : User) (c : Condition) : res error bool :=
  v ← getAttributeValue u (Attribute c); compare v (Operator c) (Value c).

Fixpoint all_conditions (u : User) (cs : list Condition) : res error bool :=
  match cs with
  | [] => Ok true
  | c :: cs => matched ← evaluateCondition u c; if negb matched then Ok false else all_conditions u cs
  end.

Definition evaluateRule (u : User) (rule : LifecycleRule) : res error bool :=
  if bool_decide (length (Conditions rule) = 0%nat) then Ok false else all_conditions u (Conditions rule).

(** The actions of a rule that matched, without those whose type was seen. *)
Fixpoint add_actions (actions : list Action) (seen : gset string) (new : list Action) :
    list Action * gset string :=
  match new with
  | [] => (actions, seen)
  | a :: new =>
      if bool_decide (Type_ a ∈ seen) then add_actions actions seen new
      else add_actions (actions ++ [a]) ({[ Type_ a ]} ∪ seen) new
  end.

Fixpoint evaluate_rules (u : User) (actions : list Action) (seen : gset string) (rules : list LifecycleRule) :
    res error (list Action) :=
  match rules with
  | [] => Ok actions
  | rule :: rules =>
      match evaluateRule u rule with
      | Ok matched =>
          let '(actions, seen) := if matched : bool then add_actions actions seen (Actions rule) else (actions, seen) in
          evaluate_rules u actions seen rules
      | Err err => Err (Wrapf ("failed to evaluate rule " +:+ rule_Name rule +:+ ": ") err)
      | Panic => Panic
      | Diverge => Diverge
      end
  end.

Definition Evaluate (u : User) (rules : list LifecycleRule) : res error (list Action) :=
  evaluate_rules u [] ∅ rules.
End Engine.

(** ** Data governance (inspector.go) *)
Definition IssueMissingField : string := "missing_field".
Definition IssueInvalidFormat : string := "invalid_format".
Definition IssueLogicalError : string := "logical_error".

Record QualityIssue := mkIssue {
  issue_UserID : string; issue_Field : string; issue_Type : string; issue_Message : string
}.

Definition in_range (lo hi c : ascii) : bool :=
  bool_decide (Ascii.nat_of_ascii lo <= Ascii.nat_of_ascii c <= Ascii.nat_of_ascii hi)%nat.
Definition is_lower (c : ascii) : bool := in_range "a" "z" c.
Definition local_char (c : ascii) : bool :=
  is_lower c || is_digit c || bool_decide (c ∈ ["."; "_"; "%"; "+"; "-"]%char).
Definition domain_char (c : ascii) : bool :=
  is_lower c || is_digit c || bool_decide (c ∈ ["."; "-"]%char).

(** [^[a-z0-9._%+\-]+@[a-z0-9.\-]+\.[a-z]{2,4}$] *)
Definition emailRegex : regex :=
  RSeq (RPlus (RClass local_char)) (RSeq (RChar "@") (RSeq (RPlus (RClass domain_char))
    (RSeq (RChar ".") (RBetween 2 2 (RClass is_lower))))).

(** [^\+?[1-9]\d{1,14}$] *)
Definition phoneRegex : regex :=
  RSeq (ROpt (RChar "+")) (RSeq (RClass (in_range "1" "9")) (RBetween 1 13 (RClass is_digit))).

Definition isFieldMissing (u : User) (field : string) : bool :=
  if bool_decide (field = "email") then bool_decide (user_Email u = "")
  else if bool_decide (field = "username") then bool_decide (user_Username u = "")
  else if bool_decide (field = "phone") then bool_decide (user_Phone u = "")
  else match user_Attributes u !! field with
       | Some v => bool_decide (v = AnyNil) || bool_decide (v = AnyString "")
       | None => true
       end.

Definition issue_when (b : bool) (i : QualityIssue) : list QualityIssue := if b then [i] else [].

Definition Check_user (required : list string) (u : User) : list QualityIssue :=
  ((fun field => mkIssue (user_ID u) field IssueMissingField "Required field is missing or empty") <$>
     List.filter (isFieldMissing u) required) ++
  issue_when (negb (bool_decide (user_Email u = "")) && negb (matches emailRegex (user_Email u)))
    (mkIssue (user_ID u) "email" IssueInvalidFormat "Invalid email format") ++
  issue_when (negb (bool_decide (user_Phone u = "")) && negb (matches phoneRegex (user_Phone u)))
    (mkIssue (user_ID u) "phone" IssueInvalidFormat "Invalid phone format") ++
  issue_when (negb (bool_decide (user_UpdatedAt u = zero_time)) && bool_decide (user_UpdatedAt u < user_CreatedAt u))
    (mkIssue (user_ID u) "timestamps" IssueLogicalError "CreatedAt is after UpdatedAt").

(** ** The scan (lifecycle_job.go) *)
Class UserService (W : Type) := {
  us_ListUsers : UserFilter -> prog W error (list User * Z);
  us_ChangeUserStatus : string -> string -> prog W error unit;
  us_DeleteUser : string -> prog W error unit
}.

Record LifecycleJobConfig := mkJobConfig {
  BatchSize : Z;
  LifecycleRules : list LifecycleRule;
  RequiredFields : list string;
  DryRun : bool
}.

Section Job.
Context `{CaseFolding} `{UserService W} (format_other : any -> string) (format_value : value -> string).
Context (config : LifecycleJobConfig) (now : time).

(** The status of a disabled user is asked of the object the listing gave,
    which no other action of the same user has changed. *)
Fixpoint executeActions (u : User) (actions : list Action) : prog W error unit :=
  match actions with
  | [] => mret ()
  | action :: actions =>
      let rest := executeActions u actions in
      if bool_decide (Type_ action = ActionDisable) then
        if negb (bool_decide (user_Status u = UserStatusInactive)) then
          changed ← try (us_ChangeUserStatus (user_ID u) UserStatusInactive);
          match changed with
          | inl err => throw (Wrapf "failed to disable user: " err)
          | inr _ => rest
          end
        else rest
      else if bool_decide (Type_ action = ActionDelete) then
        deleted ← try (us_DeleteUser (user_ID u));
        match deleted with
        | inl err => throw (Wrapf "failed to delete user: " err)
        | inr _ => rest
        end
      else rest
  end.

(** Errors are logged, and so are the issues the inspector finds. *)
Definition processUser (u : User) : prog W error unit :=
  (match Evaluate format_other format_value now u (LifecycleRules config) with
   | Ok actions =>
       if negb (bool_decide (length actions = 0%nat)) && negb (DryRun config)
       then try (executeActions u actions) ;; mret () else mret ()
   | Err _ => mret ()
   | Panic => lift Panic
   | Diverge => lift Diverge
   end).

Definition page_filter (page size : Z) : UserFilter := mkUserFilter "" [] page size "" "".

Fixpoint scan_pages (fuel : nat) (page pageSize : Z) : prog W error unit :=
  match fuel with
  | O => lift Diverge
  | S fuel =>
      listed ← try (us_ListUsers (page_filter page pageSize));
      match listed with
      | inl _ => mret ()
      | inr (users, total) =>
          if bool_decide (length users = 0%nat) then mret ()
          else
            for_each processUser users ;;
            if bool_decide (total <= int64 (page * pageSize)) then mret ()
            else scan_pages fuel (int64 (page + 1)) pageSize
      end
  end.

Definition Run (fuel : nat) : prog W error unit :=
  scan_pages fuel 1 (if bool_decide (BatchSize config <= 0) then 100 else BatchSize config).
End Job.

(** The identity service over a repository, as the job uses it. *)
Section Services.
Context `{IdentityRepository R} (fuel : nat).

Fixpoint read_users (ps : list loc) : svc R (list User) :=
  match ps with
  | [] => mret []
  | p :: ps => u ← on_repo (ir_read p); us ← read_users ps; mret (u :: us)
  end.

Definition identity_users : UserService (R * errvars) := {|
  us_ListUsers f := answer ← service_ListUsers f; us ← read_users answer.1; mret (us, answer.2);
  us_ChangeUserStatus := service_ChangeUserStatus;
  us_DeleteUser := service_DeleteUser fuel
|}.
End Services.

(** ** Which actions are taken *)

(** The actions of the rules that match, in order; the first of each type. *)
Section EngineFacts.
Context `{CaseFolding} (format_other : any -> string) (format_value : value -> string) (now : time).

Definition matching (u : User) (rule : LifecycleRule) : Prop :=
  evaluateRule format_other format_value now u rule = Ok true.
#[export] Instance matching_decision u rule : Decision (matching u rule).
Proof. unfold matching. apply _. Defined.

Definition matched_actions (u : User) (rules : list LifecycleRule) : list Action :=
  filter (matching u) rules ≫= Actions.
Definition first_of (t : string) (l : list Action) : option Action := head (filter (fun a => Type_ a = t) l).

Lemma first_of_app t l l' : first_of t (l ++ l') = match first_of t l with Some a => Some a | None => first_of t l' end.
Proof. unfold first_of. rewrite filter_app. by destruct (filter _ l). Qed.

Lemma first_of_none t l : first_of t l = None <-> t ∉ Type_ <$> l.
Proof.
  unfold first_of. rewrite list_elem_of_fmap. induction l as [|a l IH].
  - split; [|done]. by intros _ (a & _ & ?%elem_of_nil).
  - rewrite filter_cons. case_decide as Ht; [split; [done|]|].
    + intros Hno. destruct Hno. exists a. split; [done|]. apply elem_of_cons. by left.
    + rewrite IH. apply not_iff_compat. split.
      * intros (b & Hb & Hin). exists b. split; [done|]. apply elem_of_cons. by right.
      * intros (b & Hb & [->|Hin]%elem_of_cons); [done|by exists b].
Qed.

(** What the accumulated actions are of the actions seen so far. *)
Definition deduped (actions : list Action) (seen : gset string) (all : list Action) : Prop :=
  NoDup (Type_ <$> actions) /\ (forall t, t ∈ seen <-> t ∈ Type_ <$> actions) /\
  actions `sublist_of` all /\ (forall t, first_of t actions = first_of t all).

Lemma add_actions_deduped actions seen all new actions' seen' :
  deduped actions seen all -> add_actions actions seen new = (actions', seen') -> deduped actions' seen' (all ++ new).
Proof.
  revert actions seen all. induction new as [|a new IH]; intros actions seen all Hd; cbn.
  - intros [= <- <-]. by rewrite app_nil_r.
  - destruct Hd as (Hnd & Hseen & Hsub & Hfirst). replace (all ++ a :: new) with ((all ++ [a]) ++ new) by by rewrite <- app_assoc.
    case_bool_decide as Ht; intros Hadd; refine (IH _ _ _ _ Hadd).
    + split; [done|]. split; [done|]. split; [by apply sublist_inserts_r|].
      intros t. rewrite first_of_app, <- Hfirst. destruct (first_of t actions) eqn:Hnone; [done|].
      apply first_of_none in Hnone. symmetry. apply first_of_none. cbn. intros ->%list_elem_of_singleton.
      apply Hnone. by apply Hseen.
    + split; [|split; [|split]].
      * rewrite fmap_app. apply NoDup_app. split; [done|]. split; [|apply NoDup_singleton].
        intros t Hin ->%list_elem_of_singleton. apply Ht. by apply Hseen.
      * intros t. rewrite fmap_app, elem_of_app, elem_of_union, Hseen, elem_of_singleton. cbn.
        rewrite list_elem_of_singleton. naive_solver.
      * by apply sublist_app.
      * intros t. by rewrite !first_of_app, Hfirst.
Qed.

Lemma evaluate_rules_ok u rules actions seen all acts :
  deduped actions seen all -> evaluate_rules format_other format_value now u actions seen rules = Ok acts ->
  exists seen', deduped acts seen' (all ++ matched_actions u rules).
Proof.
  revert actions seen all. induction rules as [|rule rules IH]; intros actions seen all Hd; cbn [evaluate_rules].
  - intros [= <-]. exists seen. unfold matched_actions. cbn. by rewrite app_nil_r.
  - destruct (evaluateRule _ _ _ u rule) as [[]|err| |] eqn:Hrule; try done.
    + destruct (add_actions actions seen (Actions rule)) as [actions' seen'] eqn:Hadd. intros Hrest.
      apply (add_actions_deduped _ _ all) in Hadd; [|done]. destruct (IH _ _ _ Hadd Hrest) as (seen2 & Hres).
      exists seen2. unfold matched_actions. rewrite filter_cons, decide_True by done. cbn. by rewrite app_assoc.
    + intros Hrest. destruct (IH _ _ _ Hd Hrest) as (seen2 & Hres). exists seen2.
      unfold matched_actions. rewrite filter_cons, decide_False; [done|]. unfold matching. by rewrite Hrule.
Qed.

(** The engine answers: conditions fail or are false, but nothing panics. *)
Lemma compare_duration_returns age d op : returns (compare_duration age d op) = true.
Proof. unfold compare_duration. by repeat case_bool_decide. Qed.

Lemma compare_returns v op x : returns (compare format_other format_value now v op x) = true.
Proof.
  assert (Hnum : forall (o : option bool) c, returns (match o with Some b => Ok b | None => Ok (E := error) c end) = true)
    by by intros [].
  unfold compare. cbv zeta. destruct (toTime v) as [t|]; [destruct (parseDuration x) as [d|]|];
    destruct v as [[]| | | | |]; try apply compare_duration_returns; try done; apply Hnum.
Qed.

Lemma all_conditions_returns u cs : returns (all_conditions format_other format_value now u cs) = true.
Proof.
  induction cs as [|c cs IH]; cbn; [done|]. unfold evaluateCondition, getAttributeValue.
  destruct (if strings_HasPrefix _ _ then _ else _) as [v|err| |] eqn:Hv; cbn; try done; [|cases_guard..].
  pose proof (compare_returns v (Operator c) (Value c)) as Hr.
  by destruct (compare _ _ _ _ _ _) as [[]|err| |].
Qed.

Lemma evaluate_rules_returns u rules actions seen :
  returns (evaluate_rules format_other format_value now u actions seen rules) = true.
Proof.
  revert actions seen. induction rules as [|rule rules IH]; intros actions seen; cbn; [done|].
  assert (Hr : returns (evaluateRule format_other format_value now u rule) = true).
  { unfold evaluateRule. case_bool_decide; [done|apply all_conditions_returns]. }
  destruct (evaluateRule _ _ _ u rule) as [[]|err| |]; try done.
  destruct (add_actions _ _ _). apply IH.
Qed.
End EngineFacts.

(** ** The scan *)

(** What the job relies on: the listing is a window of the users in a fixed
    order - that of a database table, not that of a Go map -, the operations act on the user they name and on nobody else. *)
Class UserServiceLaws (W : Type) `{UserService W} := {
  users_of : W -> list User;
  law_ListUsers w page size : 1 <= page -> 0 < size -> page * size < 2 ^ 63 ->
    exists total, us_ListUsers (page_filter page size) w =
      (Ok (take (Z.to_nat size) (drop (Z.to_nat ((page - 1) * size)) (users_of w)), total), w) /\
      ((page - 1) * size < Z.of_nat (length (users_of w)) -> total = Z.of_nat (length (users_of w)));
  law_ChangeUserStatus w l1 u l2 status : NoDup (user_ID <$> users_of w) -> users_of w = l1 ++ u :: l2 ->
    exists w', us_ChangeUserStatus (user_ID u) status w = (Ok (), w') /\
      users_of w' = l1 ++ set_user_Status status u :: l2;
  law_ChangeUserStatus_absent w id status : id ∉ user_ID <$> users_of w ->
    exists err w', us_ChangeUserStatus id status w = (Err err, w') /\ users_of w' = users_of w;
  law_DeleteUser w l1 u l2 : NoDup (user_ID <$> users_of w) -> users_of w = l1 ++ u :: l2 ->
    exists w', us_DeleteUser (user_ID u) w = (Ok (), w') /\ users_of w' = l1 ++ l2;
  law_DeleteUser_absent w id : id ∉ user_ID <$> users_of w ->
    exists err w', us_DeleteUser id w = (Err err, w') /\ users_of w' = users_of w
}.

Definition olist (o : option User) : list User := match o with Some u => [u] | None => [] end.

Section ScanFacts.
Context `{CaseFolding} `{UserServiceLaws W} (format_other : any -> string) (format_value : value -> string).
Context (config : LifecycleJobConfig) (now : time).
Implicit Types w : W.

(** What becomes of a user the scan comes to. *)
Definition after_actions (u : User) (actions : list Action) : option User :=
  if bool_decide (ActionDelete ∈ Type_ <$> actions) then None
  else if bool_decide (ActionDisable ∈ Type_ <$> actions) then Some (set_user_Status UserStatusInactive u)
  else Some u.

Definition fate (u : User) : option User :=
  match Evaluate format_other format_value now u (LifecycleRules config) with
  | Ok actions => if DryRun config then Some u else after_actions u actions
  | _ => Some u
  end.

Lemma set_status_same u : user_Status u = UserStatusInactive -> set_user_Status UserStatusInactive u = u.
Proof. destruct u; cbn. by intros ->. Qed.

(** The stored user, after the actions of the user that was listed: they were
    the same to begin with, but the first actions may have disabled or deleted
    it. *)
Definition stored_after (u : User) (v : option User) (actions : list Action) : option User :=
  match v with
  | None => None
  | Some v =>
      if bool_decide (ActionDelete ∈ Type_ <$> actions) then None
      else if bool_decide (ActionDisable ∈ Type_ <$> actions) && negb (bool_decide (user_Status u = UserStatusInactive))
      then Some (set_user_Status UserStatusInactive v) else Some v
  end.

Lemma absent_middle l1 u l2 : NoDup (user_ID <$> (l1 ++ u :: l2)) -> user_ID u ∉ user_ID <$> (l1 ++ l2).
Proof.
  rewrite !fmap_app, fmap_cons. intros Hnd. apply NoDup_app in Hnd as (_ & Hd & Hnd).
  apply NoDup_cons in Hnd as [Hn _]. intros [Hin|Hin]%elem_of_app; [|done].
  apply (Hd _ Hin). apply elem_of_cons. by left.
Qed.

Lemma elem_of_cons_ne {A} (x y : A) l : y <> x -> x ∈ y :: l <-> x ∈ l.
Proof. rewrite elem_of_cons. naive_solver. Qed.

Lemma stored_after_skip u v a actions :
  Type_ a <> ActionDelete -> (Type_ a = ActionDisable -> user_Status u = UserStatusInactive) ->
  stored_after u v (a :: actions) = stored_after u v actions.
Proof.
  intros Hdel Hdis. unfold stored_after. destruct v as [v|]; [|done]. rewrite fmap_cons.
  rewrite (bool_decide_ext (ActionDelete ∈ Type_ a :: (Type_ <$> actions)) (ActionDelete ∈ Type_ <$> actions)) by by apply elem_of_cons_ne.
  case_bool_decide; [done|].
  destruct (bool_decide_reflect (user_Status u = UserStatusInactive)) as [Hs|Hs]; [by rewrite !andb_false_r|].
  rewrite (bool_decide_ext (ActionDisable ∈ Type_ a :: (Type_ <$> actions)) (ActionDisable ∈ Type_ <$> actions)); [done|].
  apply elem_of_cons_ne. by intros ?%Hdis.
Qed.

Lemma stored_after_disable u v a actions :
  Type_ a = ActionDisable -> user_Status u <> UserStatusInactive ->
  stored_after u (Some (set_user_Status UserStatusInactive v)) actions = stored_after u (Some v) (a :: actions).
Proof.
  intros Ha Hs. unfold stored_after. rewrite fmap_cons, Ha.
  rewrite (bool_decide_ext (ActionDelete ∈ ActionDisable :: (Type_ <$> actions)) (ActionDelete ∈ Type_ <$> actions)) by by apply elem_of_cons_ne.
  rewrite (bool_decide_eq_true_2 (ActionDisable ∈ ActionDisable :: (Type_ <$> actions))) by (apply elem_of_cons; by left).
  rewrite (bool_decide_eq_false_2 (user_Status u = UserStatusInactive)) by done. cbn [andb negb].
  case_bool_decide; [done|]. by case_bool_decide.
Qed.

Lemma stored_after_delete u v a actions :
  Type_ a = ActionDelete -> stored_after u v (a :: actions) = None.
Proof.
  intros Ha. unfold stored_after. destruct v; [|done]. rewrite bool_decide_eq_true_2; [done|].
  rewrite fmap_cons, Ha. apply elem_of_cons. by left.
Qed.

(** One call of the service for the user in the middle of the list. *)
Lemma change_status_middle u l1 l2 v w :
  NoDup (user_ID <$> (l1 ++ u :: l2)) -> (forall v', v = Some v' -> user_ID v' = user_ID u) ->
  users_of w = l1 ++ olist v ++ l2 ->
  match v with
  | Some v => exists w1, us_ChangeUserStatus (user_ID u) UserStatusInactive w = (Ok (), w1) /\
      users_of w1 = l1 ++ set_user_Status UserStatusInactive v :: l2
  | None => exists err w1, us_ChangeUserStatus (user_ID u) UserStatusInactive w = (Err err, w1) /\
      users_of w1 = l1 ++ l2
  end.
Proof.
  intros Hnd Hv Hw. destruct v as [v|].
  - rewrite <- (Hv v eq_refl). apply law_ChangeUserStatus; [|done].
    rewrite Hw. revert Hnd. rewrite !fmap_app. cbn. by rewrite (Hv v eq_refl).
  - cbn in Hw. destruct (law_ChangeUserStatus_absent w (user_ID u) UserStatusInactive) as (err & w1 & Hrun & Hw1).
    + rewrite Hw. by apply absent_middle.
    + exists err, w1. by rewrite Hw1, Hw.
Qed.

Lemma delete_middle u l1 l2 v w :
  NoDup (user_ID <$> (l1 ++ u :: l2)) -> (forall v', v = Some v' -> user_ID v' = user_ID u) ->
  users_of w = l1 ++ olist v ++ l2 ->
  exists r w1, us_DeleteUser (user_ID u) w = (r, w1) /\ users_of w1 = l1 ++ l2 /\
    returns r = true /\ (v <> None -> r = Ok ()).
Proof.
  intros Hnd Hv Hw. destruct v as [v|].
  - destruct (law_DeleteUser w l1 v l2) as (w1 & Hrun & Hw1); [|done|].
    + rewrite Hw. revert Hnd. rewrite !fmap_app. cbn. by rewrite (Hv v eq_refl).
    + rewrite (Hv v eq_refl) in Hrun. by exists (Ok ()), w1.
  - cbn in Hw. destruct (law_DeleteUser_absent w (user_ID u)) as (err & w1 & Hrun & Hw1).
    + rewrite Hw. by apply absent_middle.
    + exists (Err err), w1. rewrite Hw1, Hw. split; [done|]. split; [done|]. split; [done|]. by intros [].
Qed.

Lemma executeActions_stored u actions l1 l2 v w :
  NoDup (user_ID <$> (l1 ++ u :: l2)) -> (forall v', v = Some v' -> user_ID v' = user_ID u) ->
  users_of w = l1 ++ olist v ++ l2 ->
  exists r w', executeActions u actions w = (r, w') /\ returns r = true /\
    users_of w' = l1 ++ olist (stored_after u v actions) ++ l2.
Proof.
  intros Hnd. revert v w. induction actions as [|a actions IH]; intros v w Hv Hw.
  { exists (Ok ()), w. do 2 (split; [done|]). rewrite Hw. by destruct v. }
  cbn [executeActions]. case_bool_decide as Hdis; [|case_bool_decide as Hdel].
  - destruct (bool_decide_reflect (user_Status u = UserStatusInactive)) as [Hs|Hs]; cbn [negb].
    { rewrite stored_after_skip by (rewrite ?Hdis; done). by apply IH. }
    pose proof (change_status_middle u l1 l2 v w Hnd Hv Hw) as Hcall. unfold try, mbind, prog_bind.
    destruct v as [v|]; [destruct Hcall as (w1 & -> & Hw1)|destruct Hcall as (err & w1 & -> & Hw1); by eexists _, w1].
    rewrite <- stored_after_disable by done. apply (IH (Some _)); [|done]. intros v' [= <-]. cbn. by apply Hv.
  - destruct (delete_middle u l1 l2 v w Hnd Hv Hw) as (r & w1 & Hrun & Hw1 & Hr & Hok).
    rewrite stored_after_delete by done. unfold try, mbind, prog_bind. rewrite Hrun.
    destruct r as [[]|err| |]; [|by eexists _, w1|done|done].
    destruct (IH None w1) as (r & w2 & Hrest & Hr2 & Hw2); [done|done|]. by exists r, w2.
  - rewrite stored_after_skip by done. by apply IH.
Qed.

Lemma stored_after_self u actions : stored_after u (Some u) actions = after_actions u actions.
Proof.
  unfold stored_after, after_actions. case_bool_decide; [done|].
  destruct (bool_decide_reflect (user_Status u = UserStatusInactive)) as [Hs|Hs]; cbn [negb].
  - rewrite andb_false_r. case_bool_decide; [|done]. by rewrite set_status_same.
  - by rewrite andb_true_r.
Qed.

Lemma fate_id u v : fate u = Some v -> user_ID v = user_ID u.
Proof.
  unfold fate, after_actions. destruct (Evaluate _ _ _ _ _); try (by intros [= <-]).
  destruct (DryRun config); [by intros [= <-]|]. case_bool_decide; [done|]. case_bool_decide; by intros [= <-].
Qed.

Notation process := (processUser format_other format_value config now).

Lemma processUser_run u l1 l2 w :
  NoDup (user_ID <$> users_of w) -> users_of w = l1 ++ u :: l2 ->
  exists w', process u w = (Ok (), w') /\ users_of w' = l1 ++ olist (fate u) ++ l2.
Proof.
  intros Hnd Hw. unfold processUser, fate, Evaluate.
  pose proof (evaluate_rules_returns format_other format_value now u (LifecycleRules config) [] ∅) as Hr.
  destruct (evaluate_rules _ _ _ u [] ∅ _) as [actions|err| |]; try done; [|by exists w].
  destruct (DryRun config); [rewrite andb_false_r; by exists w|]. rewrite andb_true_r.
  destruct (bool_decide_reflect (length actions = 0%nat)) as [Hz|_]; cbn [negb].
  { destruct actions; [|done]. exists w. split; [done|]. by rewrite Hw. }
  destruct (executeActions_stored u actions l1 l2 (Some u) w) as (r & w' & Hrun & Hret & Hw').
  - by rewrite <- Hw.
  - by intros v' [= <-].
  - done.
  - exists w'. rewrite stored_after_self in Hw'. split; [|done]. unfold try, mbind, prog_bind. rewrite Hrun.
    by destruct r.
Qed.

Lemma fate_sublist l : user_ID <$> omap fate l `sublist_of` user_ID <$> l.
Proof.
  induction l as [|u l IH]; [done|]. cbn. destruct (fate u) as [v|] eqn:Hf; cbn.
  - rewrite (fate_id u v Hf). by apply sublist_skip.
  - by apply sublist_cons.
Qed.

Lemma ids_after l1 l l2 :
  NoDup (user_ID <$> (l1 ++ l ++ l2)) -> NoDup (user_ID <$> (l1 ++ omap fate l ++ l2)).
Proof.
  intros Hnd. eapply sublist_NoDup; [exact Hnd|]. rewrite !fmap_app. apply sublist_app; [done|]. apply sublist_app; [apply fate_sublist|done].
Qed.

(** A page of users, one after the other. *)
Lemma process_page users l1 l2 w :
  NoDup (user_ID <$> users_of w) -> users_of w = l1 ++ users ++ l2 ->
  exists w', for_each process users w = (Ok (), w') /\ users_of w' = l1 ++ omap fate users ++ l2.
Proof.
  revert l1 w. induction users as [|u users IH]; intros l1 w Hnd Hw; [by exists w|].
  destruct (processUser_run u l1 (users ++ l2) w Hnd Hw) as (w1 & Hrun & Hw1).
  assert (Hnd1 : NoDup (user_ID <$> users_of w1)).
  { rewrite Hw1. rewrite Hw in Hnd. change (u :: users) with ([u] ++ users) in Hnd.
    rewrite <- (app_assoc [u]) in Hnd. pose proof (ids_after l1 [u] (users ++ l2) Hnd) as Hids. cbn in Hids.
    by destruct (fate u). }
  destruct (IH (l1 ++ olist (fate u)) w1 Hnd1) as (w2 & Hrest & Hw2); [by rewrite Hw1, app_assoc|].
  exists w2. split; [cbn [for_each]; by rewrite (prog_bind_run _ _ _ _ _ Hrun)|].
  rewrite Hw2, <- app_assoc. f_equal. cbn. by destruct (fate u).
Qed.

(** ** The scan as a function of the list of users

    [k] users are before the next page, of [size] users. *)
Fixpoint sweep (fuel k size : nat) (l : list User) : list User :=
  match fuel with
  | O => l
  | S fuel =>
      let users := take size (drop k l) in
      if bool_decide (length users = 0%nat) then l
      else
        let l' := take k l ++ omap fate users ++ drop (k + size) l in
        if bool_decide (length l <= k + size)%nat then l' else sweep fuel (k + size) size l'
  end.

Lemma omap_fate_length l : (length (omap fate l) <= length l)%nat.
Proof. induction l as [|u l IH]; cbn; [lia|]. destruct (fate u); cbn; lia. Qed.

Lemma list_page (k size : nat) (l : list User) : l = take k l ++ take size (drop k l) ++ drop (k + size) l.
Proof. by rewrite <- drop_drop, take_drop, take_drop. Qed.

(** One page: [k] users are before it. *)
Lemma scan_page fuel (k page size : Z) w :
  NoDup (user_ID <$> users_of w) -> 0 < size <= 2 ^ 61 -> 1 <= page -> k = (page - 1) * size ->
  k <= 2 ^ 62 -> Z.of_nat (length (users_of w)) <= 2 ^ 61 ->
  let l := users_of w in
  let users := take (Z.to_nat size) (drop (Z.to_nat k) l) in
  let scan := scan_pages format_other format_value config now in
  if bool_decide (length users = 0%nat) then scan (S fuel) page size w = (Ok (), w)
  else exists w1,
    users_of w1 = take (Z.to_nat k) l ++ omap fate users ++ drop (Z.to_nat k + Z.to_nat size) l /\
    scan (S fuel) page size w =
      (if bool_decide (Z.of_nat (length l) <= k + size) then (Ok (), w1) else scan fuel (page + 1) size w1).
Proof.
  intros Hnd Hsize Hpage Hk Hkm Hlen l users scan.
  destruct (law_ListUsers w page size) as (total & Hlist & Htotal); [lia|lia|nia|].
  rewrite <- Hk in Hlist, Htotal. fold l users in Hlist.
  assert (Hlisted : try (us_ListUsers (page_filter page size)) w = (Ok (inr (users, total)), w))
    by (unfold try; by rewrite Hlist).
  destruct (bool_decide_reflect (length users = 0%nat)) as [Hz|Hz].
  { unfold scan. cbn [scan_pages]. rewrite (prog_bind_run _ _ _ _ _ Hlisted). by rewrite bool_decide_eq_true_2. }
  destruct (process_page users (take (Z.to_nat k) l) (drop (Z.to_nat k + Z.to_nat size) l) w Hnd (list_page (Z.to_nat k) (Z.to_nat size) l)) as (w1 & Hrun & Hw1).
  exists w1. split; [done|]. unfold scan. cbn [scan_pages]. rewrite (prog_bind_run _ _ _ _ _ Hlisted).
  rewrite bool_decide_eq_false_2 by done. rewrite (prog_bind_run _ _ _ _ _ Hrun).
  assert (Hk' : k < Z.of_nat (length l)).
  { unfold users in Hz. rewrite length_take, length_drop in Hz. lia. }
  rewrite Htotal by done. rewrite !int64_small by nia.
  replace (page * size) with (k + size) by nia. fold l. by destruct (bool_decide _).
Qed.

Lemma scan_pages_run fuel (k page size : Z) w :
  NoDup (user_ID <$> users_of w) -> 0 < size <= 2 ^ 61 -> 1 <= page -> k = (page - 1) * size ->
  Z.of_nat (length (users_of w)) <= 2 ^ 61 -> k <= Z.of_nat (length (users_of w)) + size ->
  (0 < fuel)%nat -> Z.of_nat (length (users_of w)) < k + Z.of_nat fuel ->
  exists w', scan_pages format_other format_value config now fuel page size w = (Ok (), w') /\
    users_of w' = sweep fuel (Z.to_nat k) (Z.to_nat size) (users_of w).
Proof.
  intros Hnd Hsize. revert k page w Hnd.
  induction fuel as [|fuel IH]; intros k page w Hnd Hpage Hk Hlen Hkl Hpos Hfuel; [lia|]. cbn [sweep].
  assert (Hk0 : 0 <= k) by nia. assert (Hkm : k <= 2 ^ 62) by (change (2 ^ 62) with (2 ^ 61 + 2 ^ 61); lia).
  pose proof (scan_page fuel k page size w Hnd Hsize Hpage Hk Hkm Hlen) as Hstep. cbv zeta in Hstep.
  destruct (bool_decide_reflect (length (take (Z.to_nat size) (drop (Z.to_nat k) (users_of w))) = 0%nat)) as [Hz|Hz];
    [by exists w|].
  destruct Hstep as (w1 & Hw1 & Hrun). rewrite Hrun. set (users := take _ (drop _ _)) in *.
  rewrite (bool_decide_ext (length (users_of w) <= Z.to_nat k + Z.to_nat size)%nat
    (Z.of_nat (length (users_of w)) <= k + size)) by lia.
  case_bool_decide as Hend; [by exists w1|].
  pose proof (list_page (Z.to_nat k) (Z.to_nat size) (users_of w)) as Hl. fold users in Hl.
  assert (Hlen1 : (length (users_of w1) <= length (users_of w))%nat).
  { pose proof (f_equal length Hl) as Hsum. rewrite !length_app in Hsum. rewrite Hw1, !length_app.
    pose proof (omap_fate_length users). lia. }
  assert (Hnd1 : NoDup (user_ID <$> users_of w1)).
  { rewrite Hw1. apply ids_after. by rewrite <- Hl. }
  replace (Z.to_nat k + Z.to_nat size)%nat with (Z.to_nat (k + size)) in * by lia.
  destruct (IH (k + size) (page + 1) w1) as (w2 & Hrest & Hw2); [done|lia|lia|lia| |lia|lia|].
  - assert (Hk1 : (Z.to_nat (k + size) <= length (users_of w1) + Z.to_nat size)%nat); [|lia].
    rewrite Hw1, !length_app, length_take, length_drop. lia.
  - exists w2. split; [done|]. by rewrite Hw2, Hw1.
Qed.

Lemma omap_fate_full l : (forall u, u ∈ l -> is_Some (fate u)) -> length (omap fate l) = length l.
Proof.
  induction l as [|u l IH]; intros Hall; [done|]. destruct (Hall u) as [v Hv]; [apply elem_of_cons; by left|].
  cbn. rewrite Hv. cbn. f_equal. apply IH. intros u' Hu'. apply Hall. apply elem_of_cons. by right.
Qed.

(** Every user fares as on its own when nobody is deleted. *)
Lemma sweep_complete fuel k size l :
  (forall u, u ∈ drop k l -> is_Some (fate u)) -> (0 < size)%nat -> (length l < k + fuel)%nat ->
  sweep fuel k size l = take k l ++ omap fate (drop k l).
Proof.
  revert k l. induction fuel as [|fuel IH]; intros k l Hall Hsize Hfuel; cbn [sweep].
  { rewrite take_ge, drop_ge by lia. by rewrite app_nil_r. }
  case_bool_decide as Hz.
  { rewrite length_take, length_drop in Hz. rewrite drop_ge, take_ge by lia. by rewrite app_nil_r. }
  set (users := take size (drop k l)). rewrite length_take, length_drop in Hz.
  assert (Hdrop : drop k l = users ++ drop (k + size) l) by (unfold users; by rewrite <- drop_drop, take_drop).
  assert (Hfull : length (omap fate users) = length users).
  { apply omap_fate_full. intros u Hu. apply Hall. rewrite Hdrop. apply elem_of_app. by left. }
  case_bool_decide as Hend.
  { rewrite Hdrop, (drop_ge l (k + size)) by lia. by rewrite !app_nil_r. }
  assert (Hsz : length users = size) by (unfold users; rewrite length_take, length_drop; lia).
  assert (Hpre : length (take k l ++ omap fate users) = (k + size)%nat)
    by (rewrite length_app, length_take, Hfull, Hsz; lia).
  rewrite app_assoc, IH; [|..].
  - rewrite <- Hpre, take_app_length, drop_app_length, Hpre, <- app_assoc. by rewrite Hdrop, omap_app.
  - intros u. rewrite <- Hpre, drop_app_length, Hpre. intros Hu. apply Hall. rewrite Hdrop. apply elem_of_app. by right.
  - done.
  - rewrite length_app, Hpre, length_drop. lia.
Qed.

(** The second, fourth, ... page of a list. *)
Fixpoint skipped_pages (fuel size : nat) (l : list User) : list User :=
  match fuel with
  | O => []
  | S fuel => take size (drop size l) ++ skipped_pages fuel size (drop (size + size) l)
  end.

Lemma skipped_pages_short fuel size l : (length l <= size)%nat -> skipped_pages fuel size l = [].
Proof.
  revert l. induction fuel as [|fuel IH]; intros l Hl; cbn; [done|].
  rewrite !drop_ge by lia. rewrite take_nil. cbn. apply IH. cbn. lia.
Qed.

Lemma omap_fate_none l : (forall u, u ∈ l -> fate u = None) -> omap fate l = [].
Proof.
  induction l as [|u l IH]; intros Hall; [done|]. cbn. rewrite (Hall u) by (apply elem_of_cons; by left).
  apply IH. intros u' Hu'. apply Hall. apply elem_of_cons. by right.
Qed.

Lemma sweep_past fuel k size l : (length l <= k)%nat -> sweep fuel k size l = l.
Proof.
  intros Hk. destruct fuel as [|fuel]; [done|]. cbn [sweep]. rewrite bool_decide_eq_true_2; [done|].
  rewrite length_take, length_drop. lia.
Qed.

(** A deleted page moves the next one to its place, and the scan goes on
    behind it. *)
Lemma sweep_deleting fuel fuel' size kept l :
  (forall u, u ∈ l -> fate u = None) -> (0 < size)%nat -> (length l < fuel)%nat -> (length l < fuel')%nat ->
  sweep fuel (length kept) size (kept ++ l) = kept ++ skipped_pages fuel' size l.
Proof.
  revert fuel' kept l. induction fuel as [|fuel IH]; intros fuel' kept l Hall Hsize Hfuel Hfuel'; [lia|].
  cbn [sweep]. rewrite drop_app_length, take_app_length.
  case_bool_decide as Hz.
  { rewrite length_take in Hz. rewrite skipped_pages_short by lia. destruct l; [done|cbn in Hz; lia]. }
  rewrite length_take in Hz. rewrite omap_fate_none
    by (intros u Hu; apply Hall; eapply elem_of_submseteq, sublist_submseteq, sublist_take; exact Hu).
  rewrite length_app. replace (drop (length kept + size) (kept ++ l)) with (drop size l)
    by (by rewrite <- drop_drop, drop_app_length). cbn [app].
  case_bool_decide as Hend; [by rewrite skipped_pages_short, drop_ge by lia|].
  destruct fuel' as [|fuel']; [lia|]. cbn [skipped_pages].
  destruct (decide (length (drop size l) <= size)%nat) as [Hs|Hs]; rewrite length_drop in Hs.
  { rewrite sweep_past by (rewrite length_app, length_drop; lia).
    rewrite skipped_pages_short by (rewrite length_drop; lia). by rewrite take_ge, app_nil_r by (rewrite length_drop; lia). }
  replace (length kept + size)%nat with (length (kept ++ take size (drop size l)))
    by (rewrite length_app, length_take, length_drop; lia).
  replace (kept ++ drop size l) with ((kept ++ take size (drop size l)) ++ drop (size + size) l)
    by (by rewrite <- app_assoc, <- drop_drop, take_drop).
  rewrite (IH fuel'); [by rewrite app_assoc| |done|rewrite length_drop; lia..].
  intros u Hu. apply Hall. eapply elem_of_submseteq, sublist_submseteq, sublist_drop. exact Hu.
Qed.

Lemma sweep_sublist fuel k size l : user_ID <$> sweep fuel k size l `sublist_of` user_ID <$> l.
Proof.
  revert k l. induction fuel as [|fuel IH]; intros k l; cbn [sweep]; [done|].
  case_bool_decide; [done|].
  assert (Hpage : user_ID <$> (take k l ++ omap fate (take size (drop k l)) ++ drop (k + size) l) `sublist_of`
    user_ID <$> l).
  { rewrite (list_page k size l) at 4. rewrite !fmap_app. apply sublist_app; [done|].
    apply sublist_app; [apply fate_sublist|done]. }
  case_bool_decide; [done|]. etrans; [apply IH|done].
Qed.

Lemma skipped_pages_length n fuel size l :
  length l = (n * (size + size))%nat -> (n <= fuel)%nat -> length (skipped_pages fuel size l) = (n * size)%nat.
Proof.
  revert fuel l. induction n as [|n IH]; intros fuel l Hl Hn.
  - rewrite skipped_pages_short by lia. done.
  - destruct fuel as [|fuel]; [lia|]. cbn [skipped_pages].
    rewrite length_app, length_take, length_drop, IH by (rewrite ?length_drop; lia). lia.
Qed.
End ScanFacts.

(** ** Properties *)

(** The engine takes the actions of the rules that match, in their order, the
    first of each type; it always answers, and when it fails the error is that
    of one of the rules, with the rule's name. *)
Theorem evaluate_first_of_each_type `{CaseFolding} format_other format_value now u rules :
  (forall actions, Evaluate format_other format_value now u rules = Ok actions ->
     let matched := matched_actions format_other format_value now u rules in
     NoDup (Type_ <$> actions) /\ actions `sublist_of` matched /\
     forall t, first_of t actions = first_of t matched) /\
  (forall err, Evaluate format_other format_value now u rules = Err err ->
     exists rule e, rule ∈ rules /\ evaluateRule format_other format_value now u rule = Err e /\
       err = Wrapf ("failed to evaluate rule " +:+ rule_Name rule +:+ ": ") e) /\
  returns (Evaluate format_other format_value now u rules) = true.
Proof.
  split; [|split; [|apply evaluate_rules_returns]].
  - intros actions Heval. destruct (evaluate_rules_ok format_other format_value now u rules [] ∅ [] actions)
      as (seen & Hnd & _ & Hsub & Hfirst); [|done|done].
    split; [constructor|]. split; [set_solver|done].
  - intros err. unfold Evaluate. generalize (@nil Action), (∅ : gset string).
    induction rules as [|rule rules IH]; intros actions seen; cbn; [done|].
    destruct (evaluateRule _ _ _ u rule) as [b|e| |] eqn:Hrule; [|intros [= <-]|done..].
    + destruct (if b then _ else _) as [actions' seen']. intros Herr.
      destruct (IH _ _ Herr) as (r & e & Hr & He). exists r, e. split; [apply elem_of_cons; by right|done].
    + exists rule, e. split; [apply elem_of_cons; by left|done].
Qed.

(** The scan ends, whatever the rules do to the list it pages through: more
    rounds than users are not needed.  It adds nobody and keeps the order. *)
Theorem scan_terminates `{CaseFolding} `{UserServiceLaws W} format_other format_value config now fuel w :
  NoDup (user_ID <$> users_of w) -> Z.of_nat (length (users_of w)) <= 2 ^ 61 -> BatchSize config <= 2 ^ 61 ->
  (length (users_of w) < fuel)%nat ->
  exists w', Run format_other format_value config now fuel w = (Ok (), w') /\
    user_ID <$> users_of w' `sublist_of` user_ID <$> users_of w.
Proof.
  intros Hnd Hlen Hbatch Hfuel. unfold Run. set (size := if bool_decide _ then 100 else _).
  assert (Hsize : 0 < size <= 2 ^ 61) by (unfold size; case_bool_decide; lia).
  destruct (scan_pages_run format_other format_value config now fuel 0 1 size w Hnd Hsize) as (w' & Hrun & Hw');
    [lia..|]. exists w'. split; [done|]. rewrite Hw'. apply sweep_sublist.
Qed.


(** Where the rules delete everybody the scan ends too, but every second page
    survives it: a page that was deleted moves the next one up, which the scan
    then passes over.  Of [2 n] full pages half the users are left. *)
Theorem scan_skips_when_deleting `{CaseFolding} `{UserServiceLaws W} format_other format_value config now fuel w :
  NoDup (user_ID <$> users_of w) -> Z.of_nat (length (users_of w)) <= 2 ^ 61 -> 0 < BatchSize config <= 2 ^ 61 ->
  (length (users_of w) < fuel)%nat ->
  (forall u, u ∈ users_of w -> fate format_other format_value config now u = None) ->
  let size := Z.to_nat (BatchSize config) in
  exists w', Run format_other format_value config now fuel w = (Ok (), w') /\
    users_of w' = skipped_pages fuel size (users_of w) /\
    (forall n, length (users_of w) = (n * (size + size))%nat -> length (users_of w') = (n * size)%nat).
Proof.
  intros Hnd Hlen Hbatch Hfuel Hall size. unfold Run. rewrite bool_decide_eq_false_2 by lia.
  destruct (scan_pages_run format_other format_value config now fuel 0 1 (BatchSize config) w Hnd Hbatch)
    as (w' & Hrun & Hw'); [lia..|].
  assert (Hres : users_of w' = skipped_pages fuel size (users_of w)).
  { rewrite Hw'. unfold size. by apply (sweep_deleting format_other format_value config now fuel fuel _ []); try lia. }
  exists w'. split; [done|]. split; [done|]. intros n Hn. rewrite Hres. apply skipped_pages_length; [done|].
  assert (1 <= size)%nat by lia. nia.
Qed.

(** ** Ages *)
Definition Day : Z := 24 * Hour.
Definition days (n : Z) : any := AnyString (pretty n +:+ "d").

(** The rule the server installs when it has none (cmd/qid-server/main.go). *)
Definition default_rules : list LifecycleRule :=
  [mkRule "Disable Inactive Users" "" [mkCondition "lastLoginAt" OpGt (AnyString "2160h")]
     [mkAction ActionDisable ∅]].

Lemma last_login_field `{CaseFoldingLaws} u : getAttributeValue u "lastLoginAt" = Ok (VTimePtr (user_LastLoginAt u)).
Proof.
  unfold getAttributeValue. rewrite (eq_refl : strings_HasPrefix "lastLoginAt" "attributes." = false).
  cbn [find_field user_fields]. by rewrite !EqualFold_ascii.
Qed.

Lemma parse_days n : 0 <= n -> n * Day < 2 ^ 63 -> parseDuration (days n) = Some (n * Day).
Proof.
  intros Hn Hmax. unfold parseDuration, days. change (n * 86400000000000 < 9223372036854775808) in Hmax.
  assert (Hsuf : strings_HasSuffix (pretty n +:+ "d") "d" = true) by (apply strings_HasSuffix_spec; eauto).
  rewrite Hsuf, strings_TrimSuffix_app, Sscanf_d_pretty by (change (2 ^ 63) with 9223372036854775808; lia).
  change Hour with 3600000000000. change Day with 86400000000000.
  rewrite (int64_small (n * 24)) by (change (2 ^ 63) with 9223372036854775808; lia).
  rewrite int64_small by (change (2 ^ 63) with 9223372036854775808; lia). f_equal. lia.
Qed.

Lemma no_login_text op x : op <> OpEq -> op <> OpNeq -> op <> OpContains -> compare_text "<nil>" x op = false.
Proof. intros H1 H2 H3. unfold compare_text. by rewrite !bool_decide_eq_false_2. Qed.

(** How old a log-in is.  With an age of whole days a condition on
    [lastLoginAt] compares the time since then; for a user who never logged in
    the pointer is nil and no order holds, so that the rule the server installs
    by default disables exactly the users whose last log-in is more than 90 days
    old and leaves those who never logged in alone. *)
Theorem inactivity_rule_decides `{CaseFoldingLaws} format_other format_value now u :
  (forall n op, 0 <= n -> n * Day < 2 ^ 63 ->
     let answer := evaluateCondition format_other format_value now u (mkCondition "lastLoginAt" op (days n)) in
     match user_LastLoginAt u with
     | Some t => answer = compare_duration (Sub now t) (n * Day) op
     | None => op ∈ [OpGt; OpGte; OpLt; OpLte] -> answer = Ok false
     end) /\
  (forall size required, fate format_other format_value (mkJobConfig size default_rules required false) now u =
     match user_LastLoginAt u with
     | Some t => if bool_decide (90 * Day < Sub now t) then Some (set_user_Status UserStatusInactive u) else Some u
     | None => Some u
     end).
Proof.
  split.
  - intros n op Hn Hmax answer. unfold answer, evaluateCondition. rewrite last_login_field. cbn [mbind res_bind].
    unfold compare. cbn [toTime Operator Value]. destruct (user_LastLoginAt u) as [t|].
    + by rewrite parse_days.
    + intros Hop. cbn [toFloat Sprint]. rewrite no_login_text; [done|..]; intros ->; set_solver.
  - intros size required. unfold fate, Evaluate. cbn [LifecycleRules DryRun evaluate_rules default_rules].
    unfold evaluateRule. cbn [Conditions length all_conditions]. unfold evaluateCondition.
    rewrite bool_decide_eq_false_2 by done. cbn [Attribute Operator Value]. rewrite last_login_field.
    cbn [mbind res_bind]. unfold compare. cbn [toTime].
    rewrite (eq_refl : parseDuration (AnyString "2160h") = Some (90 * Day)).
    destruct (user_LastLoginAt u) as [t|]; [|done]. unfold compare_duration.
    rewrite bool_decide_eq_true_2 by done. by case_bool_decide.
Qed.

(** ** Formats *)
Definition valid_phone (s : string) : Prop :=
  exists plus first rest, s = plus +:+ String first rest /\ (plus = "" \/ plus = "+") /\
    in_range "1" "9" first = true /\ (1 <= String.length rest <= 14)%nat /\ str_all is_digit rest = true.

Definition valid_email (s : string) : Prop :=
  exists local domain tld, s = local +:+ "@" +:+ domain +:+ "." +:+ tld /\
    local <> "" /\ str_all local_char local = true /\ domain <> "" /\ str_all domain_char domain = true /\
    (2 <= String.length tld <= 4)%nat /\ str_all is_lower tld = true.

Lemma phone_format s : matches phoneRegex s = true <-> valid_phone s.
Proof.
  rewrite matches_spec. unfold phoneRegex, valid_phone. rewrite lang_seq_inv. split.
  - intros (p & t & -> & Hp & Ht). apply lang_seq_inv in Ht as (f & r & -> & Hf & Hr).
    apply lang_class_inv in Hf as (c & -> & Hc). apply lang_between_class in Hr as [Hl Hd].
    apply lang_opt in Hp. rewrite lang_char in Hp. by exists p, c, r.
  - intros (p & c & r & -> & Hp & Hc & Hl & Hd). exists p, (String c r). split; [done|].
    split; [apply lang_opt; by rewrite lang_char|]. apply lang_seq_inv. exists (String c ""), r.
    split; [done|]. split; [apply lang_class_inv; by exists c|]. by apply lang_between_class.
Qed.

Lemma email_format s : matches emailRegex s = true <-> valid_email s.
Proof.
  rewrite matches_spec. unfold emailRegex, valid_email. rewrite lang_seq_inv. split.
  - intros (local & t1 & -> & Hl & H1). apply lang_plus_class in Hl as [Hl Hla].
    apply lang_seq_inv in H1 as (at_ & t2 & -> & Hat & H2). apply lang_char in Hat as ->.
    apply lang_seq_inv in H2 as (domain & t3 & -> & Hd & H3). apply lang_plus_class in Hd as [Hd Hda].
    apply lang_seq_inv in H3 as (dot & tld & -> & Hdot & Ht). apply lang_char in Hdot as ->.
    apply lang_between_class in Ht as [Ht Hta]. by exists local, domain, tld.
  - intros (local & domain & tld & -> & Hl & Hla & Hd & Hda & Ht & Hta).
    exists local, ("@" +:+ domain +:+ "." +:+ tld). split; [done|]. split; [by apply lang_plus_class|].
    apply lang_seq_inv. exists "@", (domain +:+ "." +:+ tld). split; [done|]. split; [by apply lang_char|].
    apply lang_seq_inv. exists domain, ("." +:+ tld). split; [done|]. split; [by apply lang_plus_class|].
    apply lang_seq_inv. exists ".", tld. split; [done|]. split; [by apply lang_char|]. by apply lang_between_class.
Qed.

(** The inspector has no objection exactly to the users whose required fields
    are there, whose email and phone - where they have one - are well-formed,
    and who were not created after their last update. *)
Theorem quality_check_clean required u :
  Check_user required u = [] <->
  (forall field, field ∈ required -> isFieldMissing u field = false) /\
  (user_Email u = "" \/ valid_email (user_Email u)) /\
  (user_Phone u = "" \/ valid_phone (user_Phone u)) /\
  (user_UpdatedAt u = zero_time \/ user_CreatedAt u <= user_UpdatedAt u).
Proof.
  assert (Hwhen : forall b i, issue_when b i = [] <-> b = false) by (intros [] i; done).
  unfold Check_user. rewrite !app_nil, !Hwhen, !andb_false_iff, !negb_false_iff, !bool_decide_eq_true, bool_decide_eq_false.
  rewrite phone_format, email_format, Z.nlt_ge.
  assert (Hreq : List.filter (isFieldMissing u) required = [] <-> forall f, f ∈ required -> isFieldMissing u f = false).
  { induction required as [|f fs IH]; cbn; [split; [intros _ f ?%elem_of_nil|]; done|].
    destruct (isFieldMissing u f) eqn:Hf.
    - split; [done|]. intros Hall. rewrite Hall in Hf by (apply elem_of_cons; by left). done.
    - rewrite IH. split; [|intros Hall g Hg; apply Hall, elem_of_cons; by right].
      intros Hall g [->|Hg]%elem_of_cons; [done|by apply Hall]. }
  rewrite <- Hreq. destruct (List.filter _ _); cbn; [tauto|]. split; [intros [? _]; done|intros [? _]; done].
Qed.

(** ** A plain list of users *)
#[export] Instance list_service : UserService (list User) := {
  us_ListUsers f l :=
    (Ok (take (Z.to_nat (filter_PageSize f)) (drop (Z.to_nat ((filter_Page f - 1) * filter_PageSize f)) l),
         Z.of_nat (length l)), l);
  us_ChangeUserStatus id status l :=
    if bool_decide (id ∈ user_ID <$> l)
    then (Ok (), (fun u => if bool_decide (user_ID u = id) then set_user_Status status u else u) <$> l)
    else (Err (Sentinel ErrNotFound), l);
  us_DeleteUser id l :=
    if bool_decide (id ∈ user_ID <$> l)
    then (Ok (), filter (fun u => user_ID u <> id) l) else (Err (Sentinel ErrNotFound), l)
}.

(** In the middle of a list without duplicates only one user has its
    identifier. *)
Lemma middle_ids (l1 : list User) u l2 :
  NoDup (user_ID <$> (l1 ++ u :: l2)) ->
  Forall (fun v => user_ID v <> user_ID u) l1 /\ Forall (fun v => user_ID v <> user_ID u) l2.
Proof.
  intros Hnd. apply absent_middle in Hnd. rewrite fmap_app, elem_of_app in Hnd.
  split; apply Forall_forall; intros v Hv Heq; apply Hnd; [left|right]; rewrite <- Heq;
    by apply list_elem_of_fmap_2.
Qed.

Lemma map_others f id (l : list User) :
  Forall (fun v => user_ID v <> id) l ->
  (fun u => if bool_decide (user_ID u = id) then f u else u) <$> l = l.
Proof.
  induction 1 as [|v l Hv _ IH]; [done|]. cbn. rewrite bool_decide_eq_false_2 by done. f_equal. exact IH.
Qed.

#[export] Instance list_service_laws : UserServiceLaws (list User).
Proof.
  refine {| users_of l := l |}.
  - intros l page size _ _ _. eexists. split; [done|]. done.
  - intros l l1 u l2 status Hnd ->. eexists. cbn. rewrite bool_decide_eq_true_2.
    + split; [done|]. destruct (middle_ids l1 u l2 Hnd) as [H1 H2].
      rewrite fmap_app, fmap_cons, !map_others by done. by rewrite bool_decide_eq_true_2.
    + apply list_elem_of_fmap_2, elem_of_app. right. apply elem_of_cons. by left.
  - intros l id status Hid. cbn. rewrite bool_decide_eq_false_2 by done. eauto.
  - intros l l1 u l2 Hnd ->. eexists. cbn. rewrite bool_decide_eq_true_2.
    + split; [done|]. destruct (middle_ids l1 u l2 Hnd) as [H1 H2].
      rewrite filter_app, filter_cons, decide_False by (by intros []). by rewrite !filter_all.
    + apply list_elem_of_fmap_2, elem_of_app. right. apply elem_of_cons. by left.
  - intros l id Hid. cbn. rewrite bool_decide_eq_false_2 by done. eauto.
Defined.

(** ** Examples *)
Definition demo_member (id status : string) (login : option time) : User :=
  mkUser id id (id +:+ "@example.com") "" "" status ∅ ∅ [] 0 0 None login [] "" "".
Definition demo_members : list User :=
  [demo_member "a" "active" (Some 0); demo_member "b" "inactive" None; demo_member "c" "active" None;
   demo_member "d" "active" (Some (80 * Day))].
Definition demo_job (rules : list LifecycleRule) : LifecycleJobConfig := mkJobConfig 2 rules [] false.
Definition purge_rules : list LifecycleRule :=
  [mkRule "Purge" "" [mkCondition "status" OpNeq (AnyString "locked")] [mkAction ActionDelete ∅]].
Notation demo_fate rules u := (fate (fun _ => "") (fun _ => "") (demo_job rules) (100 * Day) u) (only parsing).

Lemma scan_terminates_witness :
  exists l, Run (fun _ => "") (fun _ => "") (demo_job purge_rules) (100 * Day) 5 demo_members = (Ok (), l) /\
    user_ID <$> l `sublist_of` ["a"; "b"; "c"; "d"].
Proof.
  destruct (scan_terminates (W := list User) (fun _ => "") (fun _ => "") (demo_job purge_rules) (100 * Day) 5
    demo_members) as (l & Hrun & Hl).
  - apply (bool_decide_unpack _). vm_compute. exact I.
  - by vm_compute.
  - by vm_compute.
  - by vm_compute; lia.
  - exists l. split; [exact Hrun|exact Hl].
Defined.


Lemma scan_skips_when_deleting_witness :
  exists l, Run (fun _ => "") (fun _ => "") (demo_job purge_rules) (100 * Day) 5 demo_members = (Ok (), l) /\
    user_ID <$> l = ["c"; "d"].
Proof.
  destruct (scan_skips_when_deleting (W := list User) (fun _ => "") (fun _ => "") (demo_job purge_rules) (100 * Day) 5
    demo_members) as (l & Hrun & Hl & _).
  - apply (bool_decide_unpack _). vm_compute. exact I.
  - by vm_compute.
  - by vm_compute.
  - by vm_compute; lia.
  - intros u Hu. repeat (apply elem_of_cons in Hu as [->|Hu]; [by vm_compute|]). by apply elem_of_nil in Hu.
  - exists l. split; [exact Hrun|]. cbn [users_of list_service_laws] in Hl. rewrite Hl. by vm_compute.
Defined.

Lemma inactivity_rule_decides_witness :
  evaluateCondition (fun _ => "") (fun _ => "") (100 * Day) (demo_member "a" "active" (Some 0))
    (mkCondition "lastLoginAt" OpGte (days 90)) = Ok true /\
  demo_fate default_rules (demo_member "c" "active" None) = Some (demo_member "c" "active" None).
Proof.
  split.
  - destruct (inactivity_rule_decides (fun _ => "") (fun _ => "") (100 * Day) (demo_member "a" "active" (Some 0))) as [Hage _].
    rewrite (Hage 90 OpGte); [by vm_compute|lia|by vm_compute].
  - destruct (inactivity_rule_decides (fun _ => "") (fun _ => "") (100 * Day) (demo_member "c" "active" None)) as [_ Hfate].
    exact (Hfate 2 []).
Defined.

Definition demo_overlap : list LifecycleRule :=
  [mkRule "Stale" "" [mkCondition "lastLoginAt" OpGt (days 90)] [mkAction ActionNotify ∅; mkAction ActionDisable ∅];
   mkRule "Members" "" [mkCondition "status" OpEq (AnyString "active")] [mkAction ActionDisable ∅; mkAction ActionArchive ∅]].

Lemma evaluate_first_of_each_type_witness :
  exists actions, Evaluate (fun _ => "") (fun _ => "") (100 * Day) (demo_member "a" "active" (Some 0)) demo_overlap =
      Ok actions /\
    Type_ <$> actions = [ActionNotify; ActionDisable; ActionArchive] /\ NoDup (Type_ <$> actions).
Proof.
  destruct (evaluate_first_of_each_type (fun _ => "") (fun _ => "") (100 * Day) (demo_member "a" "active" (Some 0))
    demo_overlap) as (Hok & _).
  eexists. split; [by vm_compute|]. split; [done|]. refine (proj1 (Hok _ _)). by vm_compute.
Defined.

Lemma quality_check_clean_witness :
  let u := mkUser "u" "jdoe" "j.doe@example.com" "+4915112345" "" "active" ∅ ∅ [] 0 1 None None [] "" "" in
  Check_user ["email"; "username"] u = [] /\ valid_email "j.doe@example.com" /\ valid_phone "+4915112345".
Proof.
  intros u. assert (Hnone : Check_user ["email"; "username"] u = []) by by vm_compute.
  destruct (proj1 (quality_check_clean ["email"; "username"] u) Hnone) as (_ & He & Hp & _). split; [exact Hnone|].
  split; [destruct He as [He|He]; [discriminate He|exact He]|destruct Hp as [Hp|Hp]; [discriminate Hp|exact Hp]].
Defined.
