(* ===== verification/Profile.v ===== *)
(** * User profiles

    internal/identity/profile: what is known of a user's behaviour, risk and
    data quality ([profile_model.go]), how it is collected ([profile_builder.go]),
    scored ([risk_scorer.go], [quality_scorer.go]) and tagged ([tag_manager.go]),
    the service over it ([profile_service.go]) and its event handlers.

    The repository is a class; the functions the PostgreSQL repository applies
    to a row are definitions.  The sources of data - users, access logs, second
    factors -, powers of floats, the calendar and letter case are arguments. *)

From S2P Require Import Prelude Types GoStd GoText.
From Stdlib Require Import Ascii SpecFloat.
Local Open Scope Z_scope.

(** ** The model (profile_model.go) *)
Record BehaviorMetrics := mkBehavior {
  TotalLogins : Z;
  FailedLogins : Z;
  UniqueDevices : Z;
  UniqueLocations : Z;
  UniqueIPs : Z;
  AvgSessionDuration : float64;
  PeakActivityHours : list Z;
  LastLocations : list string;
  LoginFrequency : float64;
  MFAUsageRate : float64;
  PasswordChangeCount : Z;
  LastPasswordChange : option time
}.

Record RiskIndicators := mkRisk {
  AnomalyCount : Z;
  LastAnomalyAt : option time;
  GeoJumpCount : Z;
  FailedMFACount : Z;
  SuspiciousIPCount : Z;
  UnusualTimeAccess : Z;
  NewDeviceCount30d : Z;
  CompromiseIndicators : list string
}.

Record QualityDetails := mkQuality {
  HasEmail : bool;
  EmailVerified : bool;
  HasPhone : bool;
  PhoneVerified : bool;
  HasMFA : bool;
  HasRecoveryEmail : bool;
  ProfileComplete : float64;
  LastVerification : option time
}.

Record UserProfile := mkProfile {
  pf_ID : string;
  pf_UserID : string;
  pf_TenantID : string;
  Behavior : BehaviorMetrics;
  Risk : RiskIndicators;
  pf_RiskScore : Z;
  pf_RiskLevel : string;
  AutoTags : list string;
  ManualTags : list string;
  QualityScore : Z;
  Quality : QualityDetails;
  LastActivityAt : option time;
  LastRiskUpdateAt : option time;
  pf_CreatedAt : time;
  pf_UpdatedAt : time
}.

Definition no_behavior : BehaviorMetrics := mkBehavior 0 0 0 0 0 fzero [] [] fzero fzero 0 None.
Definition no_risk : RiskIndicators := mkRisk 0 None 0 0 0 0 0 [].
Definition no_quality : QualityDetails := mkQuality false false false false false false fzero None.

Definition TagFrequentTraveler : string := "frequent_traveler".
Definition TagHighValueUser : string := "high_value".
Definition TagDormantUser : string := "dormant".
Definition TagNewUser : string := "new_user".
Definition TagSecurityConscious : string := "security_conscious".
Definition TagHighRisk : string := "high_risk".

(** ** The repository (profile_repository.go) *)
Class ProfileRepository (P : Type) := {
  pr_Create : UserProfile -> prog P error unit;
  pr_GetByUserID : string -> prog P error (option UserProfile);
  pr_Update : time -> UserProfile -> prog P error unit;
  pr_UpdateRisk : time -> string -> RiskIndicators -> Z -> string -> prog P error unit;
  pr_UpdateBehavior : time -> string -> BehaviorMetrics -> prog P error unit;
  pr_UpdateTags : time -> string -> list string -> list string -> prog P error unit;
  pr_UpdateQuality : time -> string -> Z -> QualityDetails -> prog P error unit
}.

Section Updates.
Context (now : time) (p : UserProfile).

(** [Update] saves the profile as it is, with the time of the update. *)
Definition saved : UserProfile :=
  mkProfile (pf_ID p) (pf_UserID p) (pf_TenantID p) (Behavior p) (Risk p) (pf_RiskScore p) (pf_RiskLevel p)
    (AutoTags p) (ManualTags p) (QualityScore p) (Quality p) (LastActivityAt p) (LastRiskUpdateAt p)
    (pf_CreatedAt p) now.

Definition with_risk (risk : RiskIndicators) (score : Z) (level : string) : UserProfile :=
  mkProfile (pf_ID p) (pf_UserID p) (pf_TenantID p) (Behavior p) risk score level
    (AutoTags p) (ManualTags p) (QualityScore p) (Quality p) (LastActivityAt p) (Some now)
    (pf_CreatedAt p) now.

Definition with_behavior (behavior : BehaviorMetrics) : UserProfile :=
  mkProfile (pf_ID p) (pf_UserID p) (pf_TenantID p) behavior (Risk p) (pf_RiskScore p) (pf_RiskLevel p)
    (AutoTags p) (ManualTags p) (QualityScore p) (Quality p) (LastActivityAt p) (LastRiskUpdateAt p)
    (pf_CreatedAt p) now.

Definition with_tags (autoTags manualTags : list string) : UserProfile :=
  mkProfile (pf_ID p) (pf_UserID p) (pf_TenantID p) (Behavior p) (Risk p) (pf_RiskScore p) (pf_RiskLevel p)
    autoTags manualTags (QualityScore p) (Quality p) (LastActivityAt p) (LastRiskUpdateAt p)
    (pf_CreatedAt p) now.

Definition with_quality (score : Z) (details : QualityDetails) : UserProfile :=
  mkProfile (pf_ID p) (pf_UserID p) (pf_TenantID p) (Behavior p) (Risk p) (pf_RiskScore p) (pf_RiskLevel p)
    (AutoTags p) (ManualTags p) score details (LastActivityAt p) (LastRiskUpdateAt p)
    (pf_CreatedAt p) now.
End Updates.

(** ** Risk (risk_scorer.go) *)
Record RiskScorerConfig := mkRiskConfig {
  AnomalyWeight : float64;
  GeoJumpWeight : float64;
  FailedMFAWeight : float64;
  SuspiciousIPWeight : float64;
  NewDeviceWeight : float64;
  DecayDays : Z;
  DecayRate : float64
}.

Record AnomalyEvent := mkAnomalyEvent { anomaly_Type : string; anomaly_Timestamp : time }.

(** [time.Since(t).Hours() / 24.0] *)
Definition age_days (now t : time) : float64 := fdiv (Hours (Sub now t)) (float_of_Z 24).

Definition ScoreToLevel (score : Z) : string :=
  if bool_decide (score < 25) then "low"
  else if bool_decide (score < 50) then "medium"
  else if bool_decide (score < 75) then "high"
  else "critical".

Section RiskScorer.
Context (pow : float64 -> float64 -> float64) (config : RiskScorerConfig).

Definition weighted (r : RiskIndicators) : float64 :=
  let add score count weight := fadd score (fmul (float_of_Z count) weight) in
  add (add (add (add (add fzero (AnomalyCount r) (AnomalyWeight config)) (GeoJumpCount r) (GeoJumpWeight config))
    (FailedMFACount r) (FailedMFAWeight config)) (SuspiciousIPCount r) (SuspiciousIPWeight config))
    (NewDeviceCount30d r) (NewDeviceWeight config).

Definition decayed (now : time) (r : RiskIndicators) (score : float64) : float64 :=
  match LastAnomalyAt r with
  | Some t =>
      let daysSince := age_days now t in
      if flt fzero daysSince && bool_decide (0 < DecayDays config)
      then fmul score (pow (DecayRate config) (fdiv daysSince (float_of_Z (DecayDays config)))) else score
  | None => score
  end.

Definition risk_CalculateScore (now : time) (r : RiskIndicators) : Z * string :=
  let finalScore := int_of_float (decayed now r (weighted r)) in
  let finalScore := if bool_decide (100 < finalScore) then 100 else finalScore in
  let finalScore := if bool_decide (finalScore < 0) then 0 else finalScore in
  (finalScore, ScoreToLevel finalScore).

Definition UpdateFromEvent (r : RiskIndicators) (event : AnomalyEvent) : RiskIndicators :=
  let typed t := bool_decide (anomaly_Type event = t) in
  let geo := typed "geo_jump" in
  let ip := typed "suspicious_ip" in
  let mfa := typed "mfa_failure" in
  let device := typed "new_device" in
  let plus (b : bool) n := if b then int64 (n + 1) else n in
  mkRisk (plus (negb (geo || ip || mfa || device)) (AnomalyCount r)) (Some (anomaly_Timestamp event))
    (plus geo (GeoJumpCount r)) (plus mfa (FailedMFACount r)) (plus ip (SuspiciousIPCount r))
    (UnusualTimeAccess r) (plus device (NewDeviceCount30d r)) (CompromiseIndicators r).
End RiskScorer.

(** Without a checker every address is safe. *)
Definition CheckIP (checker : option (string -> res error Z)) (ip : string) : res error bool :=
  match checker with
  | None => Ok false
  | Some reputation => score ← reputation ip; Ok (bool_decide (score < 30))
  end.

(** ** Quality (quality_scorer.go) *)
Record QualityWeightsConfig := mkQualityWeights {
  qw_Email : Z;
  qw_EmailVerified : Z;
  qw_Phone : Z;
  qw_PhoneVerified : Z;
  qw_MFA : Z;
  qw_RecoveryEmail : Z;
  qw_ProfileComplete : Z
}.

Definition quality_CalculateScore (w : QualityWeightsConfig) (d : QualityDetails) : Z :=
  let add (b : bool) weight score := if b then int64 (score + weight) else score in
  let score := add (HasRecoveryEmail d) (qw_RecoveryEmail w) (add (HasMFA d) (qw_MFA w)
    (add (PhoneVerified d) (qw_PhoneVerified w) (add (HasPhone d) (qw_Phone w)
    (add (EmailVerified d) (qw_EmailVerified w) (add (HasEmail d) (qw_Email w) 0))))) in
  let score := int64 (score + int_of_float (fmul (ProfileComplete d) (float_of_Z (qw_ProfileComplete w)))) in
  if bool_decide (100 < score) then 100 else score.

Definition GetImprovementSuggestions (d : QualityDetails) : list string :=
  (if negb (HasEmail d) then ["Add an email address"]
   else if negb (EmailVerified d) then ["Verify your email address"] else []) ++
  (if negb (HasPhone d) then ["Add a phone number"]
   else if negb (PhoneVerified d) then ["Verify your phone number"] else []) ++
  (if negb (HasMFA d) then ["Enable Multi-Factor Authentication (MFA)"] else []) ++
  (if negb (HasRecoveryEmail d) then ["Add a recovery email address"] else []).

(** ** Tags (tag_manager.go)

    What a configuration file holds. *)
Inductive config : Type :=
  | CNil
  | CBool (b : bool)
  | CInt (z : Z)
  | CFloat (f : float64)
  | CString (s : string)
  | CList (l : list config)
  | CMap (m : list (string * config)).

(** [m[key]]; a missing key is nil. *)
Fixpoint config_get (key : string) (m : list (string * config)) : config :=
  match m with
  | [] => CNil
  | (k, v) :: m => if bool_decide (k = key) then v else config_get key m
  end.
Definition config_string (c : config) : string := match c with CString s => s | _ => "" end.

Record TagCondition := mkTagCondition { Field : string; tag_Operator : string; tag_Value : config }.
Record AutoTagRule := mkAutoTagRule { Tag : string; tag_Condition : TagCondition }.

Definition parse_rule (r : list (string * config)) : AutoTagRule :=
  mkAutoTagRule (config_string (config_get "tag" r))
    match config_get "condition" r with
    | CMap c =>
        mkTagCondition (config_string (config_get "field" c)) (config_string (config_get "operator" c))
          (config_get "value" c)
    | _ => mkTagCondition "" "" CNil
    end.
Definition NewTagManager (rules : list (list (string * config))) : list AutoTagRule := parse_rule <$> rules.

(** The constant [0.9] *)
Definition nine_tenths : float64 := fconst 8106479329266893 (-53).

Definition DefaultAutoTagRules : list AutoTagRule :=
  [mkAutoTagRule TagFrequentTraveler (mkTagCondition "behavior.unique_locations" ">=" (CInt 5));
   mkAutoTagRule TagHighValueUser (mkTagCondition "behavior.login_frequency" ">=" (CFloat (float_of_Z 10)));
   mkAutoTagRule TagDormantUser (mkTagCondition "last_activity_days" ">" (CInt 30));
   mkAutoTagRule TagNewUser (mkTagCondition "account_age_days" "<" (CInt 7));
   mkAutoTagRule TagSecurityConscious (mkTagCondition "behavior.mfa_usage_rate" ">=" (CFloat nine_tenths));
   mkAutoTagRule TagHighRisk (mkTagCondition "risk_score" ">=" (CInt 75))].

(** What reflection finds: a number, a text or a boolean; a slice, a pointer
    or another value no configuration value is equal to; an unexported field,
    whose value may not be taken; a struct, with the names and the JSON names
    of its fields. *)
Inductive reflected : Type :=
  | RInt (z : Z)
  | RFloat (f : float64)
  | RString (s : string)
  | RBool (b : bool)
  | ROther
  | RHidden
  | RStruct (fields : list (string * string * reflected)).

Definition reflect_time : reflected :=
  RStruct [("wall", "", RHidden); ("ext", "", RHidden); ("loc", "", RHidden)].

Definition reflect_behavior (b : BehaviorMetrics) : reflected :=
  RStruct
    [("TotalLogins", "total_logins", RInt (TotalLogins b));
     ("FailedLogins", "failed_logins", RInt (FailedLogins b));
     ("UniqueDevices", "unique_devices", RInt (UniqueDevices b));
     ("UniqueLocations", "unique_locations", RInt (UniqueLocations b));
     ("UniqueIPs", "unique_ips", RInt (UniqueIPs b));
     ("AvgSessionDuration", "avg_session_duration", RFloat (AvgSessionDuration b));
     ("PeakActivityHours", "peak_activity_hours", ROther);
     ("LastLocations", "last_locations", ROther);
     ("LoginFrequency", "login_frequency", RFloat (LoginFrequency b));
     ("MFAUsageRate", "mfa_usage_rate", RFloat (MFAUsageRate b));
     ("PasswordChangeCount", "password_change_count", RInt (PasswordChangeCount b));
     ("LastPasswordChange", "last_password_change", ROther)].

Definition reflect_risk (r : RiskIndicators) : reflected :=
  RStruct
    [("AnomalyCount", "anomaly_count", RInt (AnomalyCount r));
     ("LastAnomalyAt", "last_anomaly_at", ROther);
     ("GeoJumpCount", "geo_jump_count", RInt (GeoJumpCount r));
     ("FailedMFACount", "failed_mfa_count", RInt (FailedMFACount r));
     ("SuspiciousIPCount", "suspicious_ip_count", RInt (SuspiciousIPCount r));
     ("UnusualTimeAccess", "unusual_time_access", RInt (UnusualTimeAccess r));
     ("NewDeviceCount30d", "new_device_count_30d", RInt (NewDeviceCount30d r));
     ("CompromiseIndicators", "compromise_indicators", ROther)].

Definition reflect_quality (q : QualityDetails) : reflected :=
  RStruct
    [("HasEmail", "has_email", RBool (HasEmail q));
     ("EmailVerified", "email_verified", RBool (EmailVerified q));
     ("HasPhone", "has_phone", RBool (HasPhone q));
     ("PhoneVerified", "phone_verified", RBool (PhoneVerified q));
     ("HasMFA", "has_mfa", RBool (HasMFA q));
     ("HasRecoveryEmail", "has_recovery_email", RBool (HasRecoveryEmail q));
     ("ProfileComplete", "profile_complete", RFloat (ProfileComplete q));
     ("LastVerification", "last_verification", ROther)].

Definition reflect_profile (p : UserProfile) : reflected :=
  RStruct
    [("ID", "", RString (pf_ID p)); ("UserID", "", RString (pf_UserID p)); ("TenantID", "", RString (pf_TenantID p));
     ("Behavior", "", reflect_behavior (Behavior p)); ("Risk", "", reflect_risk (Risk p));
     ("RiskScore", "", RInt (pf_RiskScore p)); ("RiskLevel", "", RString (pf_RiskLevel p));
     ("AutoTags", "", ROther); ("ManualTags", "", ROther);
     ("QualityScore", "", RInt (QualityScore p)); ("QualityDetails", "", reflect_quality (Quality p));
     ("LastActivityAt", "", ROther); ("LastRiskUpdateAt", "", ROther);
     ("CreatedAt", "", reflect_time); ("UpdatedAt", "", reflect_time)].

(** [strings.ToUpper] of one byte: what is not ASCII is not UTF-8 either, and
    becomes the replacement character. *)
Definition upper_byte (c : ascii) : string :=
  let n := Ascii.nat_of_ascii c in
  if bool_decide (97 <= n <= 122)%nat then String (Ascii.ascii_of_nat (n - 32)) ""
  else if bool_decide (n < 128)%nat then String c ""
  else String (Ascii.ascii_of_nat 239) (String (Ascii.ascii_of_nat 191) (String (Ascii.ascii_of_nat 189) "")).

Definition upper_first (s : string) : string :=
  match s with EmptyString => "" | String c s => upper_byte c +:+ s end.
Definition toCamelCase (s : string) : string := String.concat "" (upper_first <$> strings_Split "_"%char s).

Section TagManager.
Context `{CaseFolding} (now : time).

Definition FieldByName (name : string) (fields : list (string * string * reflected)) : option reflected :=
  snd <$> List.find (fun f => bool_decide (f.1.1 = name)) fields.

Definition field_named (part : string) (fields : list (string * string * reflected)) : option reflected :=
  snd <$> List.find (fun f =>
    EqualFold f.1.1 part || (negb (bool_decide (f.1.2 = "")) && bool_decide (f.1.2 = part))) fields.

Definition find_part (part : string) (fields : list (string * string * reflected)) : option reflected :=
  match FieldByName (toCamelCase part) fields with
  | Some f => Some f
  | None =>
      match FieldByName part fields with
      | Some f => Some f
      | None => field_named part fields
      end
  end.

Fixpoint walk (v : reflected) (parts : list string) : option reflected :=
  match parts with
  | [] => Some v
  | part :: parts =>
      match v with
      | RStruct fields => f ← find_part part fields; walk f parts
      | _ => None
      end
  end.

(** The value of an unexported field cannot be taken: [Interface] panics. *)
Definition getFieldValue (v : reflected) (path : string) : res error (option reflected) :=
  match walk v (strings_Split "."%char path) with
  | Some RHidden => Panic
  | found => Ok found
  end.

Definition number_of (v : reflected) : option float64 :=
  match v with RInt z => Some (float_of_Z z) | RFloat f => Some f | _ => None end.
Definition config_number (c : config) : option float64 :=
  match c with CInt z => Some (float_of_Z z) | CFloat f => Some f | _ => None end.

Definition compare_floats (x : float64) (operator : string) (y : float64) : option bool :=
  if bool_decide (operator = ">") then Some (flt y x)
  else if bool_decide (operator = ">=") then Some (fle y x)
  else if bool_decide (operator = "<") then Some (flt x y)
  else if bool_decide (operator = "<=") then Some (fle x y)
  else if bool_decide (operator = "==") then Some (SFeqb x y)
  else None.

(** Numbers under another operator are of no use to the rest: they are never
    deeply equal here, since [==] was decided, and they are not strings. *)
Definition compareValues (actual : reflected) (operator : string) (target : config) : bool :=
  let compared :=
    match number_of actual, config_number target with
    | Some x, Some y => compare_floats x operator y
    | _, _ => None
    end in
  match compared with
  | Some b => b
  | None =>
      match actual, target with
      | RString s, CString t =>
          if bool_decide (operator = "==") then bool_decide (s = t)
          else bool_decide (operator = "contains") && strings_Contains s t
      | RBool b, CBool c => bool_decide (operator = "==") && bool_decide (b = c)
      | _, _ => false
      end
  end.

Definition tag_evaluateCondition (p : UserProfile) (cond : TagCondition) : res error bool :=
  value ←
    (if bool_decide (Field cond = "last_activity_days")
     then Ok ((fun t => RFloat (age_days now t)) <$> LastActivityAt p)
     else if bool_decide (Field cond = "account_age_days") then Ok (Some (RFloat (age_days now (pf_CreatedAt p))))
     else getFieldValue (reflect_profile p) (Field cond));
  Ok match value with
     | Some v => compareValues v (tag_Operator cond) (tag_Value cond)
     | None => false
     end.

Fixpoint EvaluateAutoTags (rules : list AutoTagRule) (p : UserProfile) : res error (list string) :=
  match rules with
  | [] => Ok []
  | rule :: rules =>
      holds ← tag_evaluateCondition p (tag_Condition rule);
      tags ← EvaluateAutoTags rules p;
      Ok (if holds : bool then Tag rule :: tags else tags)
  end.
End TagManager.

Example camel_case : toCamelCase "unique_locations" = "UniqueLocations".
Proof. reflexivity. Qed.
Example nine_tenths_value : fdiv (float_of_Z 9) (float_of_Z 10) = nine_tenths.
Proof. reflexivity. Qed.

(** ** The builder (profile_builder.go) *)
Record AccessLog := mkAccessLog {
  log_Action : string;
  log_DeviceID : string;
  log_IPAddress : string;
  log_Location : string;
  log_Success : bool;
  log_MFAVerified : bool;
  log_CreatedAt : time
}.

(** What one pass over the logs collects; the hours are 24 counters. *)
Record tally := mkTally {
  t_logins : Z;
  t_failed : Z;
  t_mfa : Z;
  t_devices : gset string;
  t_locations : gset string;
  t_ips : gset string;
  t_hours : list Z
}.

Definition no_tally : tally := mkTally 0 0 0 ∅ ∅ ∅ (replicate 24 0).
Definition add_name (name : string) (s : gset string) : gset string :=
  if bool_decide (name = "") then s else {[ name ]} ∪ s.
Definition plus_one (b : bool) (n : Z) : Z := if b then int64 (n + 1) else n.

(** [hourlyActivity[hour]++] *)
Definition count_hour (hours : list Z) (hour : Z) : res error (list Z) :=
  n ← index hours hour; Ok (<[Z.to_nat hour := int64 (n + 1)]> hours).

Section Builder.
Context (hour_of : time -> Z).

Definition tally_log (t : tally) (l : AccessLog) : res error tally :=
  let login := bool_decide (log_Action l = "login") in
  hours ← count_hour (t_hours t) (hour_of (log_CreatedAt l));
  Ok (mkTally (plus_one (login && log_Success l) (t_logins t))
        (plus_one (login && negb (log_Success l)) (t_failed t))
        (plus_one (log_MFAVerified l) (t_mfa t))
        (add_name (log_DeviceID l) (t_devices t)) (add_name (log_Location l) (t_locations t))
        (add_name (log_IPAddress l) (t_ips t)) hours).

Fixpoint add_logs (t : tally) (logs : list AccessLog) : res error tally :=
  match logs with
  | [] => Ok t
  | l :: logs => t ← tally_log t l; add_logs t logs
  end.

(** [90.0 / 7.0] is a constant expression, rounded once. *)
Definition weeks : float64 := fdiv (float_of_Z 90) (float_of_Z 7).

Definition active_hours (hours : list Z) : list Z :=
  Z.of_nat <$> List.filter (fun h => bool_decide (0 < default 0 (hours !! (h : nat)))) (seq 0 (length hours)).

Definition metrics_of (t : tally) : BehaviorMetrics :=
  mkBehavior (t_logins t) (t_failed t) (Z.of_nat (size (t_devices t))) (Z.of_nat (size (t_locations t)))
    (Z.of_nat (size (t_ips t))) fzero (active_hours (t_hours t)) []
    (fdiv (float_of_Z (t_logins t)) weeks)
    (if bool_decide (0 < t_logins t) then fdiv (float_of_Z (t_mfa t)) (float_of_Z (t_logins t)) else fzero)
    0 None.
End Builder.

Definition attribute_bool (u : User) (key : string) : bool :=
  match user_Attributes u !! key with Some (AnyBool b) => b | _ => false end.

(** Each [filled++] adds one to a float. *)
Definition fone : float64 := float_of_Z 1.
Definition filled (bs : list bool) : float64 := foldl (fun n (b : bool) => if b then fadd n fone else n) fzero bs.

Definition quality_of (u : User) (hasMFA : bool) : QualityDetails :=
  let hasEmail := negb (bool_decide (user_Email u = "")) in
  let emailVerified := attribute_bool u "email_verified" in
  let hasPhone := negb (bool_decide (user_Phone u = "")) in
  let phoneVerified := attribute_bool u "phone_verified" in
  mkQuality hasEmail emailVerified hasPhone phoneVerified hasMFA false
    (fdiv (filled [hasEmail; emailVerified; hasPhone; phoneVerified]) (filled [true; true; true; true])) None.

Section Service.
Context `{ProfileRepository P} `{CaseFolding} (now : time) (new_id : string).
Context (hour_of : time -> Z) (days_before : time -> time) (pow : float64 -> float64 -> float64).
Context (GetUserByID : string -> res error User) (HasAnyMethod : string -> res error bool).
Context (GetLogsForUser : string -> time -> res error (list AccessLog)).
Context (risk_config : RiskScorerConfig) (weights : QualityWeightsConfig) (rules : list AutoTagRule).

(** [days_before] is [t.AddDate(0, 0, -90)]. *)
Definition buildBehaviorMetrics (userID : string) : res error BehaviorMetrics :=
  logs ← GetLogsForUser userID (days_before now);
  t ← add_logs hour_of no_tally logs;
  Ok (metrics_of t).

(** An error of the second-factor service counts as none. *)
Definition buildQualityDetails (userID : string) : res error QualityDetails :=
  user ← GetUserByID userID;
  match HasAnyMethod userID with
  | Ok hasMFA => Ok (quality_of user hasMFA)
  | Err _ => Ok (quality_of user false)
  | Panic => Panic
  | Diverge => Diverge
  end.

Definition tenant_of (u : User) : string :=
  match user_Attributes u !! "tenant_id" with Some (AnyString tid) => tid | _ => "default" end.

Definition fresh_profile (userID tenantID : string) : UserProfile :=
  mkProfile new_id userID tenantID no_behavior no_risk 0 "" [] [] 0 no_quality None None now zero_time.

Definition find_or_create (userID : string) : prog P error UserProfile :=
  found ← pr_GetByUserID userID;
  match found with
  | Some p => mret p
  | None =>
      user ← lift (GetUserByID userID);
      let p := fresh_profile userID (tenant_of user) in
      pr_Create p ;; mret p
  end.

(** What could not be collected stays as it was. *)
Definition collected {A} (r : res error A) (old : A) : res error A :=
  match r with Err _ => Ok old | r => r end.

Definition rebuilt (p : UserProfile) (behavior : BehaviorMetrics) (quality : QualityDetails) : UserProfile :=
  mkProfile (pf_ID p) (pf_UserID p) (pf_TenantID p) behavior (Risk p) (pf_RiskScore p) (pf_RiskLevel p)
    (AutoTags p) (ManualTags p) (QualityScore p) quality (Some now) (LastRiskUpdateAt p) (pf_CreatedAt p) now.

Definition BuildOrUpdate (userID : string) : prog P error UserProfile :=
  p ← find_or_create userID;
  behavior ← lift (collected (buildBehaviorMetrics userID) (Behavior p));
  quality ← lift (collected (buildQualityDetails userID) (Quality p));
  let p := rebuilt p behavior quality in
  pr_Update now p ;;
  mret p.

(** The time of the last activity is set on a copy that is not saved. *)
Definition one_more_login (b : BehaviorMetrics) : BehaviorMetrics :=
  mkBehavior (int64 (TotalLogins b + 1)) (FailedLogins b) (UniqueDevices b) (UniqueLocations b) (UniqueIPs b)
    (AvgSessionDuration b) (PeakActivityHours b) (LastLocations b) (LoginFrequency b) (MFAUsageRate b)
    (PasswordChangeCount b) (LastPasswordChange b).

Definition event_text (event : gmap string any) (key : string) : string :=
  match event !! key with Some (AnyString s) => s | _ => "" end.

Definition IncrementalUpdate (userID : string) (event : gmap string any) : prog P error unit :=
  found ← pr_GetByUserID userID;
  match found with
  | None => BuildOrUpdate userID ;; mret ()
  | Some p =>
      pr_UpdateBehavior now userID
        (if bool_decide (event_text event "type" = "login") then one_more_login (Behavior p) else Behavior p)
  end.

(** *** Manual tags *)
Definition AddManualTag (userID tag : string) : prog P error unit :=
  found ← pr_GetByUserID userID;
  match found with
  | None => mret ()
  | Some p =>
      if bool_decide (tag ∈ ManualTags p) then mret ()
      else pr_UpdateTags now userID (AutoTags p) (ManualTags p ++ [tag])
  end.

Definition RemoveManualTag (userID tag : string) : prog P error unit :=
  found ← pr_GetByUserID userID;
  match found with
  | None => mret ()
  | Some p => pr_UpdateTags now userID (AutoTags p) (List.filter (fun t => negb (bool_decide (t = tag))) (ManualTags p))
  end.

(** *** The service (profile_service.go) *)
Definition GetProfile (userID : string) : prog P error UserProfile :=
  found ← pr_GetByUserID userID;
  match found with
  | None => BuildOrUpdate userID
  | Some p => mret p
  end.

Definition GetRiskLevel (userID : string) : prog P error (Z * string) :=
  p ← GetProfile userID; mret (pf_RiskScore p, pf_RiskLevel p).

(** The object the caller gets is the one the builder made, with the results
    written into it; the tags are evaluated after the new score is set. *)
Definition scored (p : UserProfile) (score : Z) (level : string) : UserProfile :=
  mkProfile (pf_ID p) (pf_UserID p) (pf_TenantID p) (Behavior p) (Risk p) score level
    (AutoTags p) (ManualTags p) (QualityScore p) (Quality p) (LastActivityAt p) (LastRiskUpdateAt p)
    (pf_CreatedAt p) (pf_UpdatedAt p).
Definition tagged (p : UserProfile) (tags : list string) (quality : Z) : UserProfile :=
  mkProfile (pf_ID p) (pf_UserID p) (pf_TenantID p) (Behavior p) (Risk p) (pf_RiskScore p) (pf_RiskLevel p)
    tags (ManualTags p) quality (Quality p) (LastActivityAt p) (LastRiskUpdateAt p)
    (pf_CreatedAt p) (pf_UpdatedAt p).

Definition RefreshProfile (userID : string) : prog P error UserProfile :=
  p ← BuildOrUpdate userID;
  let '(score, level) := risk_CalculateScore pow risk_config now (Risk p) in
  let p := scored p score level in
  pr_UpdateRisk now userID (Risk p) score level ;;
  tags ← lift (EvaluateAutoTags now rules p);
  pr_UpdateTags now userID tags (ManualTags p) ;;
  let quality := quality_CalculateScore weights (Quality p) in
  pr_UpdateQuality now userID quality (Quality p) ;;
  mret (tagged p tags quality).

Definition HandleAnomalyEvent (userID : string) (event : AnomalyEvent) : prog P error unit :=
  p ← GetProfile userID;
  let risk := UpdateFromEvent (Risk p) event in
  let '(score, level) := risk_CalculateScore pow risk_config now risk in
  pr_UpdateRisk now userID risk score level.

Definition GetQualityScore (userID : string) : prog P error (Z * list string) :=
  p ← GetProfile userID; mret (QualityScore p, GetImprovementSuggestions (Quality p)).

Definition GetUserTags (userID : string) : prog P error (list string * list string) :=
  p ← GetProfile userID; mret (AutoTags p, ManualTags p).

(** *** Events (event_handler.go)

    An event that is not a map is ignored. *)
Definition for_user (event : option (gmap string any)) (body : string -> gmap string any -> prog P error unit) :
    prog P error unit :=
  match event with
  | None => mret ()
  | Some evt =>
      let userID := event_text evt "user_id" in
      if bool_decide (userID = "") then mret () else body userID evt
  end.

Definition HandleLoginEvent (event : option (gmap string any)) : prog P error unit :=
  for_user event (fun userID evt =>
    IncrementalUpdate userID
      (<["success" := default AnyNil (evt !! "success")]> {["type" := AnyString "login"]})).

Definition handler_HandleAnomalyEvent (event : option (gmap string any)) : prog P error unit :=
  for_user event (fun userID evt => HandleAnomalyEvent userID (mkAnomalyEvent (event_text evt "anomaly_type") now)).

Definition HandleNewDeviceEvent (event : option (gmap string any)) : prog P error unit :=
  for_user event (fun userID _ => HandleAnomalyEvent userID (mkAnomalyEvent "new_device" now)).

(** The count of password changes is raised on the object that was read,
    which nothing saves. *)
Definition HandlePasswordChangeEvent (event : option (gmap string any)) : prog P error unit :=
  for_user event (fun userID _ => GetProfile userID ;; RefreshProfile userID ;; mret ()).

Definition HandleMFAEvent (event : option (gmap string any)) : prog P error unit :=
  match event with
  | None => mret ()
  | Some evt =>
      let userID := event_text evt "user_id" in
      let success := match evt !! "success" with Some (AnyBool b) => b | _ => false end in
      if success then IncrementalUpdate userID {["type" := AnyString "mfa_verified"]}
      else HandleAnomalyEvent userID (mkAnomalyEvent "mfa_failure" now)
  end.
End Service.

(** ** Repositories

    What the queries of the PostgreSQL repository do to the row of a user; an
    update of a user without a row changes nothing, and a new row is given the
    times it does not have.  A profile is created under an identifier no row
    has, and saved over the row of its identifier. *)
Definition stamped (created updated : time) (p : UserProfile) : UserProfile :=
  mkProfile (pf_ID p) (pf_UserID p) (pf_TenantID p) (Behavior p) (Risk p) (pf_RiskScore p) (pf_RiskLevel p)
    (AutoTags p) (ManualTags p) (QualityScore p) (Quality p) (LastActivityAt p) (LastRiskUpdateAt p) created updated.

Class ProfileLaws (P : Type) `{ProfileRepository P} := {
  profiles : P -> gmap string UserProfile;
  law_Create p w : profiles w !! pf_UserID p = None -> map_Forall (fun _ q => pf_ID q <> pf_ID p) (profiles w) ->
    exists w' c t, pr_Create p w = (Ok (), w') /\ profiles w' = <[pf_UserID p := stamped c t p]> (profiles w);
  law_GetByUserID userID w : pr_GetByUserID userID w = (Ok (profiles w !! userID), w);
  law_Update now p w old : profiles w !! pf_UserID p = Some old -> pf_ID old = pf_ID p -> pf_ID p <> "" ->
    exists w', pr_Update now p w = (Ok (), w') /\ profiles w' = <[pf_UserID p := saved now p]> (profiles w);
  law_UpdateRisk now userID risk score level w :
    exists w', pr_UpdateRisk now userID risk score level w = (Ok (), w') /\
      profiles w' = alter (fun p => with_risk now p risk score level) userID (profiles w);
  law_UpdateBehavior now userID behavior w :
    exists w', pr_UpdateBehavior now userID behavior w = (Ok (), w') /\
      profiles w' = alter (fun p => with_behavior now p behavior) userID (profiles w);
  law_UpdateTags now userID auto manual w :
    exists w', pr_UpdateTags now userID auto manual w = (Ok (), w') /\
      profiles w' = alter (fun p => with_tags now p auto manual) userID (profiles w);
  law_UpdateQuality now userID score details w :
    exists w', pr_UpdateQuality now userID score details w = (Ok (), w') /\
      profiles w' = alter (fun p => with_quality now p score details) userID (profiles w)
}.

(** A table. *)
#[export] Instance profile_table : ProfileRepository (gmap string UserProfile) := {
  pr_Create p w :=
    match w !! pf_UserID p with
    | Some _ => (Err (Errorf "duplicate key"), w)
    | None => (Ok (), <[pf_UserID p := stamped (pf_CreatedAt p) (pf_CreatedAt p) p]> w)
    end;
  pr_GetByUserID userID w := (Ok (w !! userID), w);
  pr_Update now p := modify (insert (pf_UserID p) (saved now p));
  pr_UpdateRisk now userID risk score level := modify (alter (fun p => with_risk now p risk score level) userID);
  pr_UpdateBehavior now userID behavior := modify (alter (fun p => with_behavior now p behavior) userID);
  pr_UpdateTags now userID auto manual := modify (alter (fun p => with_tags now p auto manual) userID);
  pr_UpdateQuality now userID score details := modify (alter (fun p => with_quality now p score details) userID)
}.
#[export] Instance profile_table_laws : ProfileLaws (gmap string UserProfile).
Proof.
  refine {| profiles := fun w => w |}; cbn.
  - intros p w -> _. by eexists _, _, _.
  - done.
  - by eexists.
  - by eexists.
  - by eexists.
  - by eexists.
  - by eexists.
Defined.

(** ** Behaviour *)

(** The metrics as they would be specified: how many logs of a kind there are,
    which names occur in them, in which hours. *)
Section Metrics.
Context (hour_of : time -> Z).
Context (law_hour : forall t, 0 <= hour_of t < 24).

Definition count (f : AccessLog -> bool) (logs : list AccessLog) : Z := Z.of_nat (length (List.filter f logs)).
Definition names (f : AccessLog -> string) (logs : list AccessLog) : gset string :=
  list_to_set (f <$> logs) ∖ {[ "" ]}.
Definition login_ok (l : AccessLog) : bool := bool_decide (log_Action l = "login") && log_Success l.
Definition login_failed (l : AccessLog) : bool := bool_decide (log_Action l = "login") && negb (log_Success l).
Definition in_hour (h : Z) (l : AccessLog) : bool := bool_decide (hour_of (log_CreatedAt l) = h).

Lemma count_snoc f logs l : count f (logs ++ [l]) = count f logs + Z.b2z (f l).
Proof. unfold count. rewrite List.filter_app, length_app. cbn. destruct (f l); cbn; lia. Qed.

Lemma count_bound f logs : 0 <= count f logs <= Z.of_nat (length logs).
Proof. unfold count. pose proof (List.filter_length_le f logs). lia. Qed.

Lemma count_perm f logs logs' : logs ≡ₚ logs' -> count f logs = count f logs'.
Proof.
  unfold count. induction 1; cbn; try done; [destruct (f x)|destruct (f x), (f y)|congruence]; cbn; lia.
Qed.

Lemma names_snoc f logs l : names f (logs ++ [l]) = add_name (f l) (names f logs).
Proof. unfold names, add_name. rewrite fmap_app. cbn. case_bool_decide as Hn; [rewrite Hn|]; set_solver. Qed.

Lemma names_perm f logs logs' : logs ≡ₚ logs' -> names f logs = names f logs'.
Proof. intros Hp. unfold names. by rewrite Hp. Qed.

Definition tallied (logs : list AccessLog) (t : tally) : Prop :=
  t_logins t = count login_ok logs /\ t_failed t = count login_failed logs /\ t_mfa t = count log_MFAVerified logs /\
  t_devices t = names log_DeviceID logs /\ t_locations t = names log_Location logs /\
  t_ips t = names log_IPAddress logs /\ length (t_hours t) = 24%nat /\
  forall h, (h < 24)%nat -> t_hours t !! h = Some (count (in_hour (Z.of_nat h)) logs).

Lemma plus_one_count f logs l : Z.of_nat (length (logs ++ [l])) < 2 ^ 63 ->
  plus_one (f l) (count f logs) = count f (logs ++ [l]).
Proof.
  rewrite length_app, count_snoc. cbn. intros Hl. pose proof (count_bound f logs). unfold plus_one.
  destruct (f l); cbn; [rewrite int64_small|]; lia.
Qed.

Lemma tally_log_tallied logs l t : Z.of_nat (length (logs ++ [l])) < 2 ^ 63 -> tallied logs t ->
  exists t', tally_log hour_of t l = Ok t' /\ tallied (logs ++ [l]) t'.
Proof.
  intros Hl (Hok & Hfail & Hmfa & Hdev & Hloc & Hip & H24 & Hh). unfold tally_log, count_hour.
  pose proof (law_hour (log_CreatedAt l)) as Hrange. set (h := hour_of (log_CreatedAt l)) in *.
  rewrite (index_ok _ _ (count (in_hour h) logs)) by (try lia; rewrite Hh by lia; do 2 f_equal; f_equal; lia).
  eexists. split; [reflexivity|]. unfold tallied; cbn. rewrite Hok, Hfail, Hmfa, Hdev, Hloc, Hip.
  rewrite length_insert, !names_snoc, <- !plus_one_count by done. split_and!; try done.
  intros h' Hh'. rewrite list_lookup_insert. case_decide as Heq.
  - destruct Heq as [<- _]. rewrite Z2Nat.id, <- plus_one_count by (done || lia). unfold in_hour at 2.
    by rewrite bool_decide_eq_true_2.
  - rewrite Hh, <- plus_one_count by done. unfold in_hour at 2. rewrite bool_decide_eq_false_2; [done|].
    fold h. lia.
Qed.

Lemma add_logs_tallied rest : forall logs t, Z.of_nat (length (logs ++ rest)) < 2 ^ 63 -> tallied logs t ->
  exists t', add_logs hour_of t rest = Ok t' /\ tallied (logs ++ rest) t'.
Proof.
  induction rest as [|l rest IH]; intros logs t Hl Ht; [exists t; by rewrite app_nil_r|].
  rewrite cons_middle, app_assoc in *. destruct (tally_log_tallied logs l t) as (t' & Hadd & Ht'); [|done|].
  - rewrite length_app in Hl. lia.
  - cbn. rewrite Hadd. by apply IH.
Qed.

Lemma tally_spec logs : Z.of_nat (length logs) < 2 ^ 63 ->
  exists t, add_logs hour_of no_tally logs = Ok t /\ tallied logs t.
Proof.
  intros Hl. apply (add_logs_tallied logs []); [done|]. unfold tallied, no_tally; cbn. split_and!; try done.
  all: try by unfold names; cbn; set_solver.
  intros h Hh. do 24 (destruct h as [|h]; [done|]). lia.
Qed.

(** The hours in which something happened, in order. *)
Definition hours_seen (logs : list AccessLog) : list Z :=
  Z.of_nat <$> List.filter (fun h => bool_decide (0 < count (in_hour (Z.of_nat h)) logs)) (seq 0 24).

Definition metrics_spec (logs : list AccessLog) : BehaviorMetrics :=
  let logins := count login_ok logs in
  mkBehavior logins (count login_failed logs) (Z.of_nat (size (names log_DeviceID logs)))
    (Z.of_nat (size (names log_Location logs))) (Z.of_nat (size (names log_IPAddress logs)))
    fzero (hours_seen logs) [] (fdiv (float_of_Z logins) weeks)
    (if bool_decide (0 < logins) then fdiv (float_of_Z (count log_MFAVerified logs)) (float_of_Z logins) else fzero)
    0 None.

Lemma metrics_of_tallied logs t : tallied logs t -> metrics_of t = metrics_spec logs.
Proof.
  intros (Hok & Hfail & Hmfa & Hdev & Hloc & Hip & H24 & Hh). unfold metrics_of, metrics_spec.
  rewrite Hok, Hfail, Hmfa, Hdev, Hloc, Hip. f_equal. unfold active_hours, hours_seen. f_equal. rewrite H24.
  apply List.filter_ext_in. intros h Hin%List.in_seq. by rewrite Hh by lia.
Qed.

Lemma metrics_spec_perm logs logs' : logs ≡ₚ logs' -> metrics_spec logs = metrics_spec logs'.
Proof.
  intros Hp. unfold metrics_spec, hours_seen. rewrite !(count_perm _ _ _ Hp), !(names_perm _ _ _ Hp).
  do 2 f_equal. apply List.filter_ext. intros h. by rewrite (count_perm _ _ _ Hp).
Qed.

Lemma hours_seen_spec logs h :
  h ∈ hours_seen logs <-> exists l, l ∈ logs /\ hour_of (log_CreatedAt l) = h.
Proof.
  unfold hours_seen. rewrite list_elem_of_fmap. split.
  - intros (n & -> & [_ Hn%bool_decide_eq_true]%list_elem_of_In%List.filter_In).
    unfold count in Hn. destruct (List.filter _ logs) as [|l ls] eqn:Hf; [done|]. exists l.
    assert (List.In l (List.filter (in_hour (Z.of_nat n)) logs)) as [Hin Hh%bool_decide_eq_true]%List.filter_In
      by (rewrite Hf; by left).
    split; [by apply list_elem_of_In|done].
  - intros (l & Hin & <-). pose proof (law_hour (log_CreatedAt l)). exists (Z.to_nat (hour_of (log_CreatedAt l))).
    split; [lia|]. apply list_elem_of_In, List.filter_In. split; [apply List.in_seq; lia|].
    apply bool_decide_eq_true. rewrite Z2Nat.id by lia. unfold count.
    assert (List.In l (List.filter (in_hour (hour_of (log_CreatedAt l))) logs)) as Hl.
    { apply List.filter_In. split; [by apply list_elem_of_In|]. by apply bool_decide_eq_true. }
    destruct (List.filter _ logs); [done|]. cbn. lia.
Qed.
End Metrics.

Lemma alter_row {A} (f : A -> A) (m : gmap string A) k a : m !! k = Some a -> alter f k m = <[k := f a]> m.
Proof.
  intros Hk. apply map_eq. intros i. rewrite lookup_alter, lookup_insert. case_decide; [|done].
  subst. by rewrite Hk.
Qed.

(** Rebuilding a profile, as one change of the table. *)
Section Contract.
Context `{ProfileLaws P} `{CaseFolding} (now : time) (new_id : string).
Context (hour_of : time -> Z) (days_before : time -> time) (pow : float64 -> float64 -> float64).
Context (GetUserByID : string -> res error User) (HasAnyMethod : string -> res error bool).
Context (GetLogsForUser : string -> time -> res error (list AccessLog)).
Context (risk_config : RiskScorerConfig) (weights : QualityWeightsConfig) (rules : list AutoTagRule).

Let build := BuildOrUpdate now new_id hour_of days_before GetUserByID HasAnyMethod GetLogsForUser.
Let refresh := RefreshProfile now new_id hour_of days_before pow GetUserByID HasAnyMethod GetLogsForUser
  risk_config weights rules.
Let metrics := buildBehaviorMetrics now hour_of days_before GetLogsForUser.
Let details := buildQualityDetails GetUserByID HasAnyMethod.

(** Every row is the row of its user, under an identifier, which is not the one
    that a new profile would be given. *)
Definition rows_ok (w : P) : Prop :=
  new_id <> "" /\ map_Forall (fun userID p => pf_UserID p = userID /\ pf_ID p <> "" /\ pf_ID p <> new_id) (profiles w).

(** The profile a user has or is given. *)
Definition current (w : P) (userID : string) (u : User) : UserProfile :=
  default (fresh_profile now new_id userID (tenant_of u)) (profiles w !! userID).

Lemma current_row w userID u : rows_ok w -> pf_UserID (current w userID u) = userID /\ pf_ID (current w userID u) <> "".
Proof.
  intros [Hid Hrows]. unfold current. destruct (profiles w !! userID) as [p|] eqn:Hp; [|done].
  by destruct (Hrows _ _ Hp) as (? & ? & _).
Qed.

Lemma find_or_create_run w userID u : rows_ok w -> GetUserByID userID = Ok u ->
  exists w' old, find_or_create now new_id GetUserByID userID w = (Ok (current w userID u), w') /\
    profiles w' !! userID = Some old /\ pf_ID old = pf_ID (current w userID u) /\
    forall p, <[userID := p]> (profiles w') = <[userID := p]> (profiles w).
Proof.
  intros [Hid Hrows] Hu. unfold find_or_create, current. rewrite (prog_bind_run _ _ _ _ _ (law_GetByUserID _ _)).
  destruct (profiles w !! userID) as [p|] eqn:Hp; [by exists w, p|]. rewrite Hu. cbn [default].
  rewrite (prog_bind_run _ _ w u w) by done. cbv zeta.
  destruct (law_Create (fresh_profile now new_id userID (tenant_of u)) w Hp) as (w' & c & t & Hrun & Hw').
  { intros userID' q Hq. by destruct (Hrows _ _ Hq) as (_ & _ & ?). }
  rewrite (prog_bind_run _ _ _ _ _ Hrun). eexists w', _. split; [done|]. rewrite Hw'.
  split; [apply lookup_insert_eq|]. split; [done|]. intros p. apply insert_insert_eq.
Qed.

Lemma build_run w userID u behavior quality : rows_ok w -> GetUserByID userID = Ok u ->
  collected (metrics userID) (Behavior (current w userID u)) = Ok behavior ->
  collected (details userID) (Quality (current w userID u)) = Ok quality ->
  let p := rebuilt now (current w userID u) behavior quality in
  exists w', build userID w = (Ok p, w') /\ profiles w' = <[userID := p]> (profiles w).
Proof.
  intros Hrows Hu Hb Hq p. destruct (find_or_create_run w userID u Hrows Hu) as (w1 & old & Hfound & Hold & Hsame & Hw1).
  destruct (current_row w userID u Hrows) as [Huser Hne].
  destruct (law_Update now p w1 old) as (w2 & Hup & Hw2); [cbn; by rewrite Huser|done..|].
  exists w2. unfold build, BuildOrUpdate.
  rewrite (prog_bind_run _ _ _ _ _ Hfound). fold metrics details. rewrite Hb, Hq.
  rewrite (prog_bind_run _ _ w1 behavior w1), (prog_bind_run _ _ w1 quality w1) by done. cbv zeta. fold p.
  rewrite (prog_bind_run _ _ _ _ _ Hup). split; [done|]. rewrite Hw2. cbn [p pf_UserID rebuilt]. by rewrite Huser, Hw1.
Qed.

(** The row [RefreshProfile] leaves. *)
Definition refreshed (p : UserProfile) (behavior : BehaviorMetrics) (quality : QualityDetails)
    (score : Z) (level : string) (tags : list string) : UserProfile :=
  mkProfile (pf_ID p) (pf_UserID p) (pf_TenantID p) behavior (Risk p) score level tags (ManualTags p)
    (quality_CalculateScore weights quality) quality (Some now) (Some now) (pf_CreatedAt p) now.

Lemma rebuild_refresh_run w userID u behavior quality tags : rows_ok w -> GetUserByID userID = Ok u ->
  collected (metrics userID) (Behavior (current w userID u)) = Ok behavior ->
  collected (details userID) (Quality (current w userID u)) = Ok quality ->
  let p := current w userID u in
  let '(score, level) := risk_CalculateScore pow risk_config now (Risk p) in
  EvaluateAutoTags now rules (scored (rebuilt now p behavior quality) score level) = Ok tags ->
  exists w' answer, refresh userID w = (Ok answer, w') /\
    profiles w' = <[userID := refreshed p behavior quality score level tags]> (profiles w).
Proof.
  intros Hrows Hu Hb Hq p. destruct (risk_CalculateScore pow risk_config now (Risk p)) as [score level] eqn:Hscore.
  intros Htags. destruct (build_run w userID u behavior quality Hrows Hu Hb Hq) as (w1 & Hbuild & Hw1).
  fold p in Hbuild, Hw1. unfold refresh, RefreshProfile. fold build.
  rewrite (prog_bind_run _ _ _ _ _ Hbuild). change (Risk (rebuilt now p behavior quality)) with (Risk p).
  rewrite Hscore. cbv zeta.
  set (p1 := scored (rebuilt now p behavior quality) score level) in *.
  destruct (law_UpdateRisk now userID (Risk p1) score level w1) as (w2 & Hr & Hw2).
  rewrite (prog_bind_run _ _ _ _ _ Hr), (prog_bind_run _ _ w2 tags w2) by (by rewrite Htags).
  destruct (law_UpdateTags now userID tags (ManualTags p1) w2) as (w3 & Ht & Hw3).
  rewrite (prog_bind_run _ _ _ _ _ Ht).
  destruct (law_UpdateQuality now userID (quality_CalculateScore weights (Quality p1)) (Quality p1) w3) as (w4 & Hqu & Hw4).
  rewrite (prog_bind_run _ _ _ _ _ Hqu). do 2 eexists. split; [reflexivity|].
  by rewrite Hw4, Hw3, Hw2, Hw1, !alter_insert_eq.
Qed.

(** Manual tags. *)
Lemma AddManualTag_run w userID tag p : profiles w !! userID = Some p ->
  exists w', AddManualTag now userID tag w = (Ok (), w') /\
    profiles w' = if bool_decide (tag ∈ ManualTags p) then profiles w
                  else <[userID := with_tags now p (AutoTags p) (ManualTags p ++ [tag])]> (profiles w).
Proof.
  intros Hp. unfold AddManualTag. rewrite (prog_bind_run _ _ _ _ _ (law_GetByUserID _ _)), Hp.
  case_bool_decide; [by exists w|].
  destruct (law_UpdateTags now userID (AutoTags p) (ManualTags p ++ [tag]) w) as (w' & Hrun & Hw'). exists w'.
  split; [done|]. by rewrite Hw', (alter_row _ _ _ _ Hp).
Qed.

Lemma RemoveManualTag_run w userID tag p : profiles w !! userID = Some p ->
  exists w', RemoveManualTag now userID tag w = (Ok (), w') /\
    profiles w' = <[userID := with_tags now p (AutoTags p)
                      (List.filter (fun t => negb (bool_decide (t = tag))) (ManualTags p))]> (profiles w).
Proof.
  intros Hp. unfold RemoveManualTag. rewrite (prog_bind_run _ _ _ _ _ (law_GetByUserID _ _)), Hp.
  edestruct (law_UpdateTags now userID (AutoTags p)) as (w' & Hrun & Hw'). exists w'.
  split; [exact Hrun|]. by rewrite Hw', (alter_row _ _ _ _ Hp).
Qed.
End Contract.

(** ** Properties *)
Section Properties.
Context `{ProfileLaws P} `{CaseFoldingLaws} (now : time) (new_id : string).
Context (hour_of : time -> Z) (days_before : time -> time) (pow : float64 -> float64 -> float64).
Context (GetUserByID : string -> res error User) (HasAnyMethod : string -> res error bool).
Context (GetLogsForUser : string -> time -> res error (list AccessLog)).
Context (risk_config : RiskScorerConfig) (weights : QualityWeightsConfig).

(** The tags the default rules give. *)
Definition default_tags (p : UserProfile) : list string :=
  let tag_if (b : bool) tag := if b then [tag] else [] in
  tag_if (fle (float_of_Z 5) (float_of_Z (UniqueLocations (Behavior p)))) TagFrequentTraveler ++
  tag_if (fle (float_of_Z 10) (LoginFrequency (Behavior p))) TagHighValueUser ++
  tag_if (match LastActivityAt p with Some t => flt (float_of_Z 30) (age_days now t) | None => false end) TagDormantUser ++
  tag_if (flt (age_days now (pf_CreatedAt p)) (float_of_Z 7)) TagNewUser ++
  tag_if (fle nine_tenths (MFAUsageRate (Behavior p))) TagSecurityConscious ++
  tag_if (fle (float_of_Z 75) (float_of_Z (pf_RiskScore p))) TagHighRisk.

Lemma walk_mfa_rate p :
  getFieldValue (reflect_profile p) "behavior.mfa_usage_rate" = Ok (Some (RFloat (MFAUsageRate (Behavior p)))).
Proof.
  unfold getFieldValue. change (strings_Split "."%char "behavior.mfa_usage_rate") with ["behavior"; "mfa_usage_rate"].
  cbn [walk reflect_profile].
  match goal with |- context [find_part "behavior" ?fs] =>
    change (find_part "behavior" fs) with (Some (reflect_behavior (Behavior p))) end.
  cbn [mbind option_bind reflect_behavior].
  match goal with |- context [find_part "mfa_usage_rate" ?fs] =>
    change (find_part "mfa_usage_rate" fs) with (field_named "mfa_usage_rate" fs) end.
  unfold field_named. cbn [List.find fst snd]. by rewrite !EqualFold_ascii by reflexivity.
Qed.

Lemma EvaluateAutoTags_run rules p bs :
  Forall2 (fun rule b => tag_evaluateCondition now p (tag_Condition rule) = Ok b) rules bs ->
  EvaluateAutoTags now rules p =
  Ok (mjoin (zip_with (fun rule (b : bool) => if b then [Tag rule] else []) rules bs)).
Proof. induction 1 as [|rule b rules bs Hb _ IH]; [done|]. cbn. rewrite Hb, IH. by destruct b. Qed.

Lemma default_rules_tags p : EvaluateAutoTags now DefaultAutoTagRules p = Ok (default_tags p).
Proof.
  rewrite (EvaluateAutoTags_run _ _
    [fle (float_of_Z 5) (float_of_Z (UniqueLocations (Behavior p))); fle (float_of_Z 10) (LoginFrequency (Behavior p));
     match LastActivityAt p with Some t => flt (float_of_Z 30) (age_days now t) | None => false end;
     flt (age_days now (pf_CreatedAt p)) (float_of_Z 7); fle nine_tenths (MFAUsageRate (Behavior p));
     fle (float_of_Z 75) (float_of_Z (pf_RiskScore p))]).
  - unfold default_tags. cbn -[fle flt float_of_Z]. by rewrite app_nil_r.
  - repeat apply Forall2_cons_2; [reflexivity|reflexivity| |reflexivity| |reflexivity|apply Forall2_nil_2].
    + unfold tag_evaluateCondition. cbn -[flt float_of_Z age_days]. by destruct (LastActivityAt p).
    + unfold tag_evaluateCondition. cbn [Field tag_Condition tag_Operator tag_Value].
      rewrite !bool_decide_eq_false_2 by done. by rewrite walk_mfa_rate.
Qed.

(** Nobody is dormant just after a refresh. *)
Lemma age_days_now : age_days now now = fzero.
Proof. unfold age_days, Sub. by rewrite Z.sub_diag. Qed.

(** A rule may name an unexported field of a time, which panics. *)
Lemma hidden_field_panics p tag operator value rules :
  EvaluateAutoTags now (mkAutoTagRule tag (mkTagCondition "created_at.wall" operator value) :: rules) p = Panic.
Proof. done. Qed.

Lemma risk_score_level r score level :
  risk_CalculateScore pow risk_config now r = (score, level) -> level = ScoreToLevel score.
Proof.
  intros Hscore. change level with (score, level).2. change score with (score, level).1 at 2. by rewrite <- Hscore.
Qed.

Lemma risk_score_range r : 0 <= (risk_CalculateScore pow risk_config now r).1 <= 100.
Proof. unfold risk_CalculateScore. cbn. repeat case_bool_decide; lia. Qed.

(** The metrics the builder collects in one pass over the access logs are
    the counts, the distinct names and the hours of a reference definition;
    they do not depend on the order of the logs, and an hour is listed exactly
    when something happened in it. *)
Theorem behavior_metrics (law_hour : forall t, 0 <= hour_of t < 24) userID logs :
  GetLogsForUser userID (days_before now) = Ok logs -> Z.of_nat (length logs) < 2 ^ 63 ->
  buildBehaviorMetrics now hour_of days_before GetLogsForUser userID = Ok (metrics_spec hour_of logs) /\
  (forall logs', logs ≡ₚ logs' -> metrics_spec hour_of logs' = metrics_spec hour_of logs) /\
  (forall h, h ∈ PeakActivityHours (metrics_spec hour_of logs) <-> exists l, l ∈ logs /\ hour_of (log_CreatedAt l) = h) /\
  0 <= TotalLogins (metrics_spec hour_of logs) + FailedLogins (metrics_spec hour_of logs).
Proof.
  intros Hlogs Hl. destruct (tally_spec hour_of law_hour logs Hl) as (t & Hadd & Ht). split_and!.
  - unfold buildBehaviorMetrics. rewrite Hlogs. cbn. rewrite Hadd. cbn. by rewrite (metrics_of_tallied hour_of logs).
  - intros logs' Hp. symmetry. by apply metrics_spec_perm.
  - intros h. by apply hours_seen_spec.
  - cbn. pose proof (count_bound login_ok logs). pose proof (count_bound login_failed logs). lia.
Qed.

Let refresh := RefreshProfile now new_id hour_of days_before pow GetUserByID HasAnyMethod GetLogsForUser
  risk_config weights DefaultAutoTagRules.

(** What the sources say of a user. *)
Definition sources_say (userID : string) (u : User) (hasMFA : bool) (logs : list AccessLog) : Prop :=
  GetUserByID userID = Ok u /\ HasAnyMethod userID = Ok hasMFA /\
  GetLogsForUser userID (days_before now) = Ok logs /\ Z.of_nat (length logs) < 2 ^ 63.

Definition refreshed_row (p : UserProfile) (u : User) (hasMFA : bool) (logs : list AccessLog) : UserProfile :=
  let behavior := metrics_spec hour_of logs in
  let quality := quality_of u hasMFA in
  let '(score, level) := risk_CalculateScore pow risk_config now (Risk p) in
  refreshed now weights p behavior quality score level
    (default_tags (scored (rebuilt now p behavior quality) score level)).

Lemma refresh_row (law_hour : forall t, 0 <= hour_of t < 24) w userID u hasMFA logs :
  rows_ok new_id w -> sources_say userID u hasMFA logs ->
  exists w' answer, refresh userID w = (Ok answer, w') /\
    profiles w' = <[userID := refreshed_row (current now new_id w userID u) u hasMFA logs]> (profiles w).
Proof.
  intros Hrows (Hu & Hmfa & Hlogs & Hl).
  assert (buildBehaviorMetrics now hour_of days_before GetLogsForUser userID = Ok (metrics_spec hour_of logs)) as Hb.
  { destruct (tally_spec hour_of law_hour logs Hl) as (t & Hadd & Ht). unfold buildBehaviorMetrics. rewrite Hlogs. cbn.
    rewrite Hadd. cbn. by rewrite (metrics_of_tallied hour_of logs). }
  assert (buildQualityDetails GetUserByID HasAnyMethod userID = Ok (quality_of u hasMFA)) as Hq.
  { unfold buildQualityDetails. rewrite Hu. cbn. by rewrite Hmfa. }
  unfold refreshed_row. pose proof (rebuild_refresh_run now new_id hour_of days_before pow GetUserByID HasAnyMethod
    GetLogsForUser risk_config weights DefaultAutoTagRules w userID u (metrics_spec hour_of logs) (quality_of u hasMFA)
    (default_tags (scored (rebuilt now (current now new_id w userID u) (metrics_spec hour_of logs) (quality_of u hasMFA))
       (risk_CalculateScore pow risk_config now (Risk (current now new_id w userID u))).1
       (risk_CalculateScore pow risk_config now (Risk (current now new_id w userID u))).2))
    Hrows Hu) as Hrun.
  rewrite Hb, Hq in Hrun. specialize (Hrun eq_refl eq_refl). cbv zeta in Hrun.
  destruct (risk_CalculateScore pow risk_config now (Risk (current now new_id w userID u))) as [score level].
  apply Hrun. apply default_rules_tags.
Qed.

Lemma not_dormant p : LastActivityAt p = Some now -> TagDormantUser ∉ default_tags p.
Proof.
  intros Ha. unfold default_tags. rewrite Ha, age_days_now. replace (flt (float_of_Z 30) fzero) with false by done.
  assert (forall (b : bool) tag, TagDormantUser ∈ (if b then [tag] else []) -> tag = TagDormantUser) as Htag.
  { intros [] tag; [|by intros ?%elem_of_nil]. by intros ->%list_elem_of_singleton. }
  rewrite !elem_of_app. intros Hin. destruct Hin as [Hin%Htag|[Hin%Htag|[?%elem_of_nil|[Hin%Htag|[Hin%Htag|Hin]]]]]; try discriminate Hin; try done.
  apply Htag in Hin. discriminate Hin.
Qed.

(** C23: [RefreshProfile] creates the profile of a user who has none and leaves
    in the table, whatever was there, the row the specification gives: the
    behaviour and the quality as the sources say, the risk it had with its
    score between 0 and 100, the tags of the default rules, the manual tags.
    Since the refresh counts as an activity, the tag for dormant users is never
    among them.  No other row changes. *)
Theorem refresh_contract (law_hour : forall t, 0 <= hour_of t < 24) w userID u hasMFA logs :
  rows_ok new_id w -> sources_say userID u hasMFA logs ->
  let p := current now new_id w userID u in
  exists w' answer row, refresh userID w = (Ok answer, w') /\
    profiles w' = <[userID := row]> (profiles w) /\ row = refreshed_row p u hasMFA logs /\
    Behavior row = metrics_spec hour_of logs /\ Quality row = quality_of u hasMFA /\
    Risk row = Risk p /\ ManualTags row = ManualTags p /\
    0 <= pf_RiskScore row <= 100 /\ pf_RiskLevel row = ScoreToLevel (pf_RiskScore row) /\
    TagDormantUser ∉ AutoTags row.
Proof.
  intros Hrows Hs p. destruct (refresh_row law_hour w userID u hasMFA logs Hrows Hs) as (w' & answer & Hrun & Hw').
  exists w', answer, (refreshed_row p u hasMFA logs). split; [exact Hrun|]. split; [exact Hw'|]. split; [done|].
  unfold refreshed_row. pose proof (risk_score_range (Risk p)) as Hrange.
  destruct (risk_CalculateScore pow risk_config now (Risk p)) as [score level] eqn:Hscore. cbn in Hrange.
  split_and!; try done; try apply Hrange.
  - exact (risk_score_level _ _ _ Hscore).
  - by apply not_dormant.
Qed.

(** The event of a password change leaves no trace in the profile: the
    count is raised on an object that is dropped, and the refresh that follows
    writes the behaviour of the logs, which knows no password changes. *)
Theorem password_change_forgotten (law_hour : forall t, 0 <= hour_of t < 24) w evt userID u hasMFA logs p :
  rows_ok new_id w -> evt !! "user_id" = Some (AnyString userID) -> userID <> "" -> profiles w !! userID = Some p ->
  sources_say userID u hasMFA logs ->
  exists w' row,
    HandlePasswordChangeEvent now new_id hour_of days_before pow GetUserByID HasAnyMethod GetLogsForUser
      risk_config weights DefaultAutoTagRules (Some evt) w = (Ok (), w') /\
    profiles w' !! userID = Some row /\ PasswordChangeCount (Behavior row) = 0 /\ LastPasswordChange (Behavior row) = None.
Proof.
  intros Hrows Hevt Hid Hp Hs. destruct (refresh_row law_hour w userID u hasMFA logs Hrows Hs) as (w' & answer & Hrun & Hw').
  exists w', (refreshed_row (current now new_id w userID u) u hasMFA logs). split; [|split].
  - unfold HandlePasswordChangeEvent, for_user, event_text. rewrite Hevt. cbv zeta. rewrite bool_decide_eq_false_2 by done.
    unfold GetProfile. rewrite prog_assoc. rewrite (prog_bind_run _ _ _ _ _ (law_GetByUserID _ _)), Hp.
    rewrite (prog_bind_run _ _ w p w) by done. fold refresh. by rewrite (prog_bind_run _ _ _ _ _ Hrun).
  - rewrite Hw'. apply lookup_insert_eq.
  - unfold refreshed_row. by destruct (risk_CalculateScore pow risk_config now _).
Qed.

(** The indicators a user has accumulated. *)
Definition indicators (r : RiskIndicators) : Z :=
  AnomalyCount r + GeoJumpCount r + FailedMFACount r + SuspiciousIPCount r + NewDeviceCount30d r.
Definition counters_below (r : RiskIndicators) : Prop :=
  Forall (fun n => 0 <= n < 2 ^ 63 - 1)
    [AnomalyCount r; GeoJumpCount r; FailedMFACount r; SuspiciousIPCount r; NewDeviceCount30d r].

Lemma UpdateFromEvent_one r e : counters_below r -> indicators (UpdateFromEvent r e) = indicators r + 1.
Proof.
  unfold counters_below. rewrite !Forall_cons. intros (Ha & Hg & Hm & Hs & Hd & _).
  assert (forall n, 0 <= n < 2 ^ 63 - 1 -> int64 (n + 1) = n + 1) as Hinc by (intros; apply int64_small; lia).
  unfold UpdateFromEvent, indicators. cbn -[int64]. rewrite !Hinc by done.
  destruct (decide (anomaly_Type e = "geo_jump")) as [He|]; [|destruct (decide (anomaly_Type e = "suspicious_ip")) as [He|];
    [|destruct (decide (anomaly_Type e = "mfa_failure")) as [He|]; [|destruct (decide (anomaly_Type e = "new_device")) as [He|]]]].
  5: rewrite !bool_decide_eq_false_2 by assumption; cbn; lia.
  all: rewrite He; repeat match goal with |- context [bool_decide ?Q] =>
    let v := eval vm_compute in (bool_decide Q) in change (bool_decide Q) with v end; cbn; lia.
Qed.

(** An anomaly raises exactly one counter of the user's profile by one,
    whatever its type, dates the last anomaly, and stores the score and the
    level of the new indicators; it changes nothing else of the profile but the
    times of the updates, and no other profile. *)
Theorem anomaly_counted w userID e p :
  profiles w !! userID = Some p -> counters_below (Risk p) ->
  exists w' row,
    HandleAnomalyEvent now new_id hour_of days_before pow GetUserByID HasAnyMethod GetLogsForUser risk_config
      userID e w = (Ok (), w') /\
    profiles w' = <[userID := row]> (profiles w) /\
    row = with_risk now p (UpdateFromEvent (Risk p) e) (pf_RiskScore row) (ScoreToLevel (pf_RiskScore row)) /\
    indicators (Risk row) = indicators (Risk p) + 1 /\
    LastAnomalyAt (Risk row) = Some (anomaly_Timestamp e) /\
    0 <= pf_RiskScore row <= 100 /\ (pf_RiskLevel row = "critical" <-> 75 <= pf_RiskScore row).
Proof.
  intros Hp Hc. pose proof (risk_score_range (UpdateFromEvent (Risk p) e)) as Hrange.
  destruct (risk_CalculateScore pow risk_config now (UpdateFromEvent (Risk p) e)) as [score level] eqn:Hscore.
  pose proof (risk_score_level _ _ _ Hscore) as ->.
  destruct (law_UpdateRisk now userID (UpdateFromEvent (Risk p) e) score (ScoreToLevel score) w) as (w' & Hrun & Hw').
  exists w', (with_risk now p (UpdateFromEvent (Risk p) e) score (ScoreToLevel score)). split; [|split].
  - unfold HandleAnomalyEvent, GetProfile. rewrite prog_assoc, (prog_bind_run _ _ _ _ _ (law_GetByUserID _ _)), Hp.
    rewrite (prog_bind_run _ _ w p w) by done. by rewrite Hscore.
  - by rewrite Hw', (alter_row _ _ _ _ Hp).
  - cbn in *. split_and!; try done; try apply Hrange; [by apply UpdateFromEvent_one|].
    unfold ScoreToLevel. repeat case_bool_decide; split; try done; lia.
Qed.

End Properties.

Section ManualTags.
Context `{ProfileLaws P} (now : time).

Lemma filter_other_tags tag (l : list string) :
  List.filter (fun t => negb (bool_decide (t = tag))) l = filter (fun t => t <> tag) l.
Proof.
  induction l as [|t l IH]; [done|]. rewrite filter_cons. cbn. rewrite IH. case_bool_decide; case_decide; naive_solver.
Qed.

(** The manual tags of a user are a set: adding one that is there changes
    nothing, adding another and removing it gives back the list, and neither
    touches the rest of the profile or another profile. *)
Theorem manual_tags_set w userID p tag :
  profiles w !! userID = Some p -> NoDup (ManualTags p) ->
  exists w1 w2 added,
    AddManualTag now userID tag w = (Ok (), w1) /\ profiles w1 !! userID = Some added /\
    tag ∈ ManualTags added /\ NoDup (ManualTags added) /\
    (tag ∈ ManualTags p -> profiles w1 = profiles w) /\
    RemoveManualTag now userID tag w1 = (Ok (), w2) /\
    profiles w2 = <[userID := with_tags now added (AutoTags p) (filter (fun t => t <> tag) (ManualTags p))]> (profiles w) /\
    (tag ∉ ManualTags p -> filter (fun t => t <> tag) (ManualTags p) = ManualTags p).
Proof.
  intros Hp Hnd. destruct (AddManualTag_run now w userID tag p Hp) as (w1 & Hadd & Hw1).
  pose (added := if bool_decide (tag ∈ ManualTags p) then p else with_tags now p (AutoTags p) (ManualTags p ++ [tag])).
  assert (profiles w1 = <[userID := added]> (profiles w)) as Hrow.
  { rewrite Hw1. unfold added. case_bool_decide; [|done]. by rewrite insert_id. }
  assert (profiles w1 !! userID = Some added) as Hadded by (rewrite Hrow; apply lookup_insert_eq).
  destruct (RemoveManualTag_run now w1 userID tag added Hadded) as (w2 & Hrem & Hw2).
  exists w1, w2, added. split_and!; try done.
  - unfold added. case_bool_decide; [done|]. cbn. set_solver.
  - unfold added. case_bool_decide as Hin; [done|]. cbn. apply NoDup_app. split; [done|]. split; [set_solver|].
    apply NoDup_singleton.
  - intros Hin. by rewrite Hw1, bool_decide_eq_true_2.
  - rewrite Hw2, Hrow, insert_insert_eq, filter_other_tags. f_equal. unfold added. case_bool_decide; [done|].
    cbn [AutoTags ManualTags with_tags]. rewrite filter_app, filter_cons_False by (intros Hne; by apply Hne).
    by rewrite filter_nil, app_nil_r.
  - intros Hout. apply filter_all. apply Forall_forall. by intros t Ht ->.
Qed.
End ManualTags.

(** ** Witnesses *)
Section Witnesses.
Definition demo_hour (t : time) : Z := (t / Hour) mod 24.
Definition demo_days_before (t : time) : time := t - 90 * (24 * Hour).
Definition demo_pow (x y : float64) : float64 := x.
Definition demo_user_of (userID : string) : res error User :=
  if bool_decide (userID = "alice") then Ok (new_user "alice" "alice" "alice@example.com" "" "active")
  else Err (Sentinel ErrUserNotFound).
Definition demo_mfa (userID : string) : res error bool := Ok true.
Definition demo_login (device : string) (t : time) (ok : bool) : AccessLog :=
  mkAccessLog "login" device "192.0.2.7" "Paris" ok true t.
Definition demo_logs : list AccessLog :=
  [demo_login "phone" (8 * Hour) true; demo_login "laptop" (9 * Hour) false; demo_login "phone" (32 * Hour) true].
Definition demo_log_source (userID : string) (since : time) : res error (list AccessLog) := Ok demo_logs.
Definition demo_risk_config : RiskScorerConfig :=
  mkRiskConfig (float_of_Z 15) (float_of_Z 20) (float_of_Z 10) (float_of_Z 10) (float_of_Z 5) 30 (fconst 4503599627370496 (-53)).
Definition demo_weights : QualityWeightsConfig := mkQualityWeights 20 20 15 15 15 5 10.
Definition demo_now : time := 100 * (24 * Hour).
Definition demo_profile : UserProfile :=
  mkProfile "p1" "alice" "default" no_behavior (mkRisk 4 None 1 0 0 0 0 []) 0 "" ["dormant"] ["vip"] 0 no_quality
    None None 0 0.
Definition demo_table : gmap string UserProfile := {["alice" := demo_profile]}.

Lemma demo_hour_range t : 0 <= demo_hour t < 24.
Proof. apply Z.mod_pos_bound. lia. Qed.
Lemma demo_rows : rows_ok "p2" demo_table.
Proof. split; [done|]. by apply map_Forall_singleton. Qed.
Lemma demo_sources : sources_say demo_now demo_days_before demo_user_of demo_mfa demo_log_source "alice"
  (new_user "alice" "alice" "alice@example.com" "" "active") true demo_logs.
Proof. by repeat split. Qed.
Lemma demo_row : profiles demo_table !! "alice" = Some demo_profile.
Proof. done. Qed.

Lemma behavior_metrics_witness :
  Z.of_nat (length demo_logs) < 2 ^ 63 /\
  buildBehaviorMetrics demo_now demo_hour demo_days_before demo_log_source "alice" = Ok (metrics_spec demo_hour demo_logs).
Proof.
  split; [done|]. apply (behavior_metrics demo_now demo_hour demo_days_before demo_log_source demo_hour_range "alice"
    demo_logs eq_refl eq_refl).
Defined.

Lemma refresh_contract_witness :
  rows_ok "p2" demo_table /\
  exists w' answer row,
    RefreshProfile demo_now "p2" demo_hour demo_days_before demo_pow demo_user_of demo_mfa demo_log_source
      demo_risk_config demo_weights DefaultAutoTagRules "alice" demo_table = (Ok answer, w') /\
    profiles w' = <["alice" := row]> (profiles demo_table).
Proof.
  split; [exact demo_rows|].
  destruct (refresh_contract demo_now "p2" demo_hour demo_days_before demo_pow demo_user_of demo_mfa demo_log_source
    demo_risk_config demo_weights demo_hour_range demo_table "alice" _ true demo_logs demo_rows demo_sources)
    as (w' & answer & row & Hrun & Hw' & _).
  exists w', answer, row. exact (conj Hrun Hw').
Defined.

Lemma password_change_forgotten_witness :
  exists w' row,
    HandlePasswordChangeEvent demo_now "p2" demo_hour demo_days_before demo_pow demo_user_of demo_mfa demo_log_source
      demo_risk_config demo_weights DefaultAutoTagRules (Some {["user_id" := AnyString "alice"]}) demo_table = (Ok (), w') /\
    profiles w' !! "alice" = Some row /\ PasswordChangeCount (Behavior row) = 0.
Proof.
  destruct (password_change_forgotten demo_now "p2" demo_hour demo_days_before demo_pow demo_user_of demo_mfa
    demo_log_source demo_risk_config demo_weights demo_hour_range demo_table {["user_id" := AnyString "alice"]} "alice" _
    true demo_logs demo_profile demo_rows (lookup_singleton_eq _ _) ltac:(discriminate) demo_row demo_sources)
    as (w' & row & Hrun & Hrow & Hcount & _).
  exists w', row. exact (conj Hrun (conj Hrow Hcount)).
Defined.

Lemma anomaly_counted_witness :
  counters_below (Risk demo_profile) /\
  exists w' row,
    HandleAnomalyEvent demo_now "p2" demo_hour demo_days_before demo_pow demo_user_of demo_mfa demo_log_source
      demo_risk_config "alice" (mkAnomalyEvent "geo_jump" demo_now) demo_table = (Ok (), w') /\
    profiles w' = <["alice" := row]> (profiles demo_table) /\ indicators (Risk row) = 6.
Proof.
  assert (counters_below (Risk demo_profile)) as Hc by (repeat constructor; cbn; lia). split; [exact Hc|].
  destruct (anomaly_counted demo_now "p2" demo_hour demo_days_before demo_pow demo_user_of demo_mfa demo_log_source
    demo_risk_config demo_table "alice" (mkAnomalyEvent "geo_jump" demo_now) demo_profile demo_row Hc)
    as (w' & row & Hrun & Hw' & _ & Hone & _).
  exists w', row. split; [exact Hrun|]. split; [exact Hw'|]. rewrite Hone. reflexivity.
Defined.

Lemma manual_tags_set_witness :
  exists w1 added, AddManualTag demo_now "alice" "beta" demo_table = (Ok (), w1) /\
    profiles w1 !! "alice" = Some added /\ "beta" ∈ ManualTags added.
Proof.
  destruct (manual_tags_set demo_now demo_table "alice" demo_profile "beta" demo_row ltac:(apply NoDup_singleton))
    as (w1 & _ & added & Hadd & Hrow & Hin & _).
  exists w1, added. exact (conj Hadd (conj Hrow Hin)).
Defined.
End Witnesses.
