(* ===== verification/LdapSync.v ===== *)
(** * Synchronisation with LDAP directories

    - internal/identity/ldap/schema_mapper.go: from an entry to a user;
    - internal/identity/ldap/deduplication.go: one user per key;
    - internal/domain/identity/conflict_manager.go: local against remote data;
    - internal/identity/ldap/sync_engine.go and sync_scheduler.go: the pipeline
      that pages through the directory and stores its users in batches;
    - internal/services/sync/ldap_sync_service.go: the synchronisation that
      compares the whole directory with the local users.

    Local users are read from and written to a store that answers with copies,
    as the database does: the class [SyncStore].  The directory is a function
    from the cookie of a page to the page.  The channel between the goroutine
    that pages and the one that stores keeps the order of the users, so that
    what is stored is a function of what the pages give. *)

From S2P Require Import Prelude Types GoStd GoText.
From Stdlib Require Import Ascii.
Local Open Scope Z_scope.

(** ** Users as synchronisation writes them *)
Definition set_contact (username email phone : string) (attributes : gmap string any) (u : User) : User :=
  mkUser (user_ID u) username email phone (user_Password u)
    (user_Status u) attributes (user_PrivacySettings u) (user_Groups u)
    (user_CreatedAt u) (user_UpdatedAt u) (user_DeletedAt u) (user_LastLoginAt u)
    (user_MergeHistory u) (user_ExternalID u) (user_SourceType u).

Definition set_source (externalID sourceType : string) (u : User) : User :=
  mkUser (user_ID u) (user_Username u) (user_Email u) (user_Phone u) (user_Password u)
    (user_Status u) (user_Attributes u) (user_PrivacySettings u) (user_Groups u)
    (user_CreatedAt u) (user_UpdatedAt u) (user_DeletedAt u) (user_LastLoginAt u)
    (user_MergeHistory u) externalID sourceType.

Definition set_history (history : list MergeRecord) (u : User) : User :=
  mkUser (user_ID u) (user_Username u) (user_Email u) (user_Phone u) (user_Password u)
    (user_Status u) (user_Attributes u) (user_PrivacySettings u) (user_Groups u)
    (user_CreatedAt u) (user_UpdatedAt u) (user_DeletedAt u) (user_LastLoginAt u)
    history (user_ExternalID u) (user_SourceType u).

Definition set_attributes (attributes : gmap string any) (u : User) : User :=
  set_contact (user_Username u) (user_Email u) (user_Phone u) attributes u.

(** ** The schema mapper (schema_mapper.go) *)
Record AttributeMapping := mkMapping {
  LDAPAttr : string;
  QuantaField : string;
  Required : bool;
  Transform : string;
  FallbackAttr : string
}.

(** An entry is its attributes with their values. *)
Notation entry := (list (string * list string)).

(** [strings.TrimSpace]: the spaces are those of Unicode, in UTF-8. *)
Definition utf8 (bytes : list nat) : string :=
  fold_right (fun n s => String (Ascii.ascii_of_nat n) s) "" bytes.
Definition unicode_spaces : list string :=
  utf8 <$> [[9]; [10]; [11]; [12]; [13]; [32]; [194; 133]; [194; 160]; [225; 154; 128];
            [226; 128; 128]; [226; 128; 129]; [226; 128; 130]; [226; 128; 131]; [226; 128; 132]; [226; 128; 133];
            [226; 128; 134]; [226; 128; 135]; [226; 128; 136]; [226; 128; 137]; [226; 128; 138]; [226; 128; 168];
            [226; 128; 169]; [226; 128; 175]; [226; 129; 159]; [227; 128; 128]]%nat.

Fixpoint trim_left (fuel : nat) (s : string) : string :=
  match fuel with
  | O => s
  | S fuel =>
      match List.find (strings_HasPrefix s) unicode_spaces with
      | Some space => trim_left fuel (strings_TrimPrefix s space)
      | None => s
      end
  end.
Fixpoint trim_right (fuel : nat) (s : string) : string :=
  match fuel with
  | O => s
  | S fuel =>
      match List.find (strings_HasSuffix s) unicode_spaces with
      | Some space => trim_right fuel (strings_TrimSuffix s space)
      | None => s
      end
  end.
Definition TrimSpace (s : string) : string :=
  let s := trim_left (String.length s) s in trim_right (String.length s) s.

Example trim_example : TrimSpace ("  a b" +:+ utf8 [194; 160]%nat) = "a b".
Proof. reflexivity. Qed.

Section Mapper.
Context `{CaseFolding} (GetAttributeValue : entry -> string -> string) (mappings : list AttributeMapping).

Definition applyTransform (value transform : string) : string :=
  if bool_decide (transform = "lowercase") then ToLower value
  else if bool_decide (transform = "trim") then TrimSpace value
  else value.

(** Bit 1 of [userAccountControl] disables the account. *)
Definition setField (u : User) (field value : string) : User :=
  if bool_decide (field = "username") then set_contact value (user_Email u) (user_Phone u) (user_Attributes u) u
  else if bool_decide (field = "email") then set_contact (user_Username u) value (user_Phone u) (user_Attributes u) u
  else if bool_decide (field = "phone") then set_contact (user_Username u) (user_Email u) value (user_Attributes u) u
  else if bool_decide (field = "userAccountControl") then
    match Sscanf_d value with
    | Some val => if negb (bool_decide (Z.land val 2 = 0)) then set_user_Status UserStatusInactive u else u
    | None => u
    end
  else set_attributes (<[field := AnyString value]> (user_Attributes u)) u.

Definition isMapped (attrName : string) : bool := existsb (fun m => bool_decide (LDAPAttr m = attrName)) mappings.

Definition mapped_value (e : entry) (m : AttributeMapping) : string :=
  let value := GetAttributeValue e (LDAPAttr m) in
  if bool_decide (value = "") && negb (bool_decide (FallbackAttr m = ""))
  then GetAttributeValue e (FallbackAttr m) else value.

Fixpoint apply_mappings (e : entry) (ms : list AttributeMapping) (u : User) : res error User :=
  match ms with
  | [] => Ok u
  | m :: ms =>
      let value := mapped_value e m in
      if bool_decide (value = "") && Required m
      then Err (Errorf ("required field " +:+ LDAPAttr m +:+ " is missing"))
      else apply_mappings e ms (setField u (QuantaField m) (applyTransform value (Transform m)))
  end.

Definition add_unmapped (u : User) (e : entry) : User :=
  fold_left (fun u '(name, values) =>
    if isMapped name then u else set_attributes (<[name := AnyStrings values]> (user_Attributes u)) u) e u.

Definition MapEntry (e : entry) : res error User :=
  u ← apply_mappings e mappings (new_user "" "" "" "" UserStatusActive);
  Ok (add_unmapped u e).
End Mapper.

(** ** Deduplication (deduplication.go) *)
Section Dedup.
Context (ord : map_order) (now : time) (rules : list (list string)).

(** The parts of the key of one rule: only the email is a field. *)
Definition key_parts (u : User) (fields : list string) : list string :=
  List.concat (map (fun field =>
    if bool_decide (field = "email") && negb (bool_decide (user_Email u = "")) then ["email:" +:+ user_Email u] else [])
    fields).

Definition generateDeduplicationKey (u : User) : string :=
  match List.find (fun parts => negb (bool_decide (length parts = 0%nat))) (map (key_parts u) rules) with
  | Some parts => String.concat ";" parts
  | None => ""
  end.

Definition coalesce (a b : string) : string := if bool_decide (a = "") then b else a.

(** What [a] has is kept. *)
Definition mergeJSON (a b : gmap string any) : gmap string any := a ∪ b.

Definition mergeIdentities (a b : User) (strategy : string) : User :=
  set_history (user_MergeHistory a ++ [mkMergeRecord [user_ID a; user_ID b] now strategy])
    (set_contact (coalesce (user_Username a) (user_Username b)) (coalesce (user_Email a) (user_Email b)) ""
       (mergeJSON (user_Attributes a) (user_Attributes b)) (new_user "" "" "" "" "")).

(** The action and the merge strategy: a placeholder that keeps what is there. *)
Definition ResolveConflict (existing newUser : User) : string * string := ("keep_existing", "").

Definition dedup_one (seen : gmap string User) (u : User) : gmap string User :=
  let key := generateDeduplicationKey u in
  if bool_decide (key = "") then seen
  else match seen !! key with
       | None => <[key := u]> seen
       | Some existing =>
           let '(action, strategy) := ResolveConflict existing u in
           if bool_decide (action = "keep_existing") then seen
           else if bool_decide (action = "replace") then <[key := u]> seen
           else if bool_decide (action = "merge") then <[key := mergeIdentities existing u strategy]> seen
           else seen
       end.

Definition Process (users : list User) : list User := (range ord (fold_left dedup_one users ∅)).*2.
End Dedup.

(** ** Conflicts (conflict_manager.go) *)
Definition StrategyRemoteWins : string := "RemoteWins".
Definition StrategyLocalWins : string := "LocalWins".
Definition StrategyMerge : string := "Merge".

Definition resolved (local remote : User) (strategy : string) : User :=
  if bool_decide (strategy = StrategyRemoteWins) then
    set_source (user_ExternalID remote) (user_SourceType remote)
      (set_contact (user_Username remote) (user_Email remote) (user_Phone remote) (user_Attributes remote) local)
  else if bool_decide (strategy = StrategyMerge) then
    set_contact (coalesce (user_Username local) (user_Username remote)) (coalesce (user_Email local) (user_Email remote))
      (coalesce (user_Phone local) (user_Phone remote)) (mergeJSON (user_Attributes local) (user_Attributes remote)) local
  else local.

(** The history is not written when the local data wins. *)
Definition Resolve (now : time) (local remote : User) (strategy : string) : User :=
  if bool_decide (strategy = StrategyLocalWins) then local
  else
    let u := resolved local remote strategy in
    set_history (user_MergeHistory u ++ [mkMergeRecord [] now strategy]) u.

(** ** The store *)
Record SyncStats := mkStats {
  StartTime : time;
  EndTime : time;
  Created : Z;
  Updated : Z;
  Disabled : Z;
  Unchanged : Z;
  Errors : Z;
  TotalRemote : Z;
  TotalLocal : Z
}.

Class SyncStore (W : Type) := {
  st_GetUserByExternalID : string -> string -> prog W error User;
  st_GetUserByUsername : string -> prog W error User;
  st_ListUsers : UserFilter -> prog W error (list User * Z);
  st_CreateUser : User -> prog W error unit;
  st_UpdateUser : User -> prog W error unit;
  st_UpsertBatch : list User -> prog W error unit;
  st_MarkCompleted : string -> time -> prog W error unit;
  st_RecordAdminAction : string -> SyncStats -> string -> Z -> prog W error unit
}.

(** ** The engine (sync_engine.go) *)
Section Engine.
Context `{SyncStore W} `{CaseFolding}.
Context (GetAttributeValue : entry -> string -> string) (mappings : list AttributeMapping).
Context (BatchSize : Z) (ConflictStrategy : string) (now : time).

Definition from_source (sourceID : string) (u : User) : User := set_source (user_ExternalID u) sourceID u.

(** The users of a page: entries that cannot be mapped are skipped. *)
Fixpoint map_entries (sourceID : string) (es : list entry) : list User :=
  match es with
  | [] => []
  | e :: es =>
      match MapEntry GetAttributeValue mappings e with
      | Ok u => from_source sourceID u :: map_entries sourceID es
      | _ => map_entries sourceID es
      end
  end.

(** The producer: the users it sends before it stops, and the error that
    stopped it.  A directory whose cookies never end keeps it going for ever. *)
Fixpoint produce (fuel : nat) (SearchPaged : string -> res error (list entry * string)) (sourceID cookie : string) :
    res error (list User * option error) :=
  match fuel with
  | O => Diverge
  | S fuel =>
      match SearchPaged cookie with
      | Err err => Ok ([], Some err)
      | Panic => Panic
      | Diverge => Diverge
      | Ok (entries, newCookie) =>
          let users := map_entries sourceID entries in
          if bool_decide (newCookie = "") then Ok (users, None)
          else
            rest ← produce fuel SearchPaged sourceID newCookie;
            Ok (users ++ rest.1, rest.2)
      end
  end.

(** Local users that cannot be read are left out of the batch. *)
Fixpoint resolve_batch (sourceID strategy : string) (remoteUsers : list User) : prog W error (list User) :=
  match remoteUsers with
  | [] => mret []
  | remote :: remoteUsers =>
      found ← try (st_GetUserByExternalID (user_ExternalID remote) sourceID);
      rest ← resolve_batch sourceID strategy remoteUsers;
      mret match found with
           | inl err => if bool_decide (err = Sentinel ErrUserNotFound) then remote :: rest else rest
           | inr local => Resolve now local remote strategy :: rest
           end
  end.

Definition processBatch (remoteUsers : list User) (sourceID : string) : prog W error unit :=
  let strategy := if bool_decide (ConflictStrategy = "") then StrategyRemoteWins else ConflictStrategy in
  if bool_decide (strategy = StrategyRemoteWins) then st_UpsertBatch remoteUsers
  else finalBatch ← resolve_batch sourceID strategy remoteUsers; st_UpsertBatch finalBatch.

(** The consumer: a batch that fails is logged and forgotten. *)
Definition store_batch (sourceID : string) (batch : list User) : prog W error unit :=
  try (processBatch batch sourceID) ;; mret ().

Fixpoint consume (sourceID : string) (batch users : list User) : prog W error unit :=
  match users with
  | [] => if bool_decide (length batch = 0%nat) then mret () else store_batch sourceID batch
  | user :: users =>
      let batch := batch ++ [user] in
      if bool_decide (BatchSize <= Z.of_nat (length batch))
      then store_batch sourceID batch ;; consume sourceID [] users
      else consume sourceID batch users
  end.

(** A negative size of the channel panics. *)
Definition StartFullSync (fuel : nat) (SearchPaged : string -> res error (list entry * string)) (sourceID : string) :
    prog W error unit :=
  if bool_decide (BatchSize < 0) then lift Panic
  else
    produced ← lift (produce fuel SearchPaged sourceID "");
    consume sourceID [] produced.1 ;;
    match produced.2 with
    | Some err => throw (Wrapf "sync failed during production: " err)
    | None => try (st_MarkCompleted sourceID now) ;; mret ()
    end.

Definition processChangeNotification (sourceID : string) (e : entry) : prog W error unit :=
  match MapEntry GetAttributeValue mappings e with
  | Ok u => store_batch sourceID [from_source sourceID u]
  | Err _ => mret ()
  | Panic => lift Panic
  | Diverge => lift Diverge
  end.

Definition StartIncrementalSync (PersistentSearch : res error (list entry)) (sourceID : string) : prog W error unit :=
  entries ← lift PersistentSearch; for_each (processChangeNotification sourceID) entries.

(** The retries of the scheduler, with the time slept before each. *)
Fixpoint scheduleRetry (attempts : nat) (backoff : Z) (sync : prog W error unit) : prog W error (list Z) :=
  match attempts with
  | O => mret []
  | S attempts =>
      done ← try sync;
      match done with
      | inr _ => mret [backoff]
      | inl _ => slept ← scheduleRetry attempts (int64 (backoff * 2)) sync; mret (backoff :: slept)
      end
  end.
End Engine.

(** ** The synchronisation service (ldap_sync_service.go) *)
Definition ConflictPreferLocal : string := "prefer_local".
Definition ConflictPreferRemote : string := "prefer_remote".

Record StatusRule := mkStatusRule { SourceAttr : string; MatchValue : string; TargetStatus : string }.
Record LDAPSyncConfig := mkSyncConfig { sync_ConflictStrategy : string; sync_LifecycleRules : list StatusRule }.

Section SyncService.
Context `{SyncStore W} (config : LDAPSyncConfig) (now : time).

(** The last statistics are part of the service. *)
Notation sync := (prog (W * option SyncStats) error).
Definition on_store {A} (m : prog W error A) : sync A := zoom fst (fun w s => (w, s.2)) m.

Definition GetLastSyncStatus : sync SyncStats :=
  s ← get; mret (default (mkStats zero_time zero_time 0 0 0 0 0 0 0) s.2).

(** [val == rule.MatchValue]: an attribute that is not a string is different. *)
Definition rule_matches (u : User) (rule : StatusRule) : bool :=
  bool_decide (user_Attributes u !! SourceAttr rule = Some (AnyString (MatchValue rule))).
Definition applyLifecycleRules (u : User) : User :=
  match List.find (rule_matches u) (sync_LifecycleRules config) with
  | Some rule => set_user_Status (TargetStatus rule) u
  | None => u
  end.

Inductive counter := counts_created | counts_updated | counts_disabled | counts_unchanged | counts_error.

Definition bump (c : counter) (s : SyncStats) : SyncStats :=
  let plus d n := if (d : bool) then int64 (n + 1) else n in
  mkStats (StartTime s) (EndTime s)
    (plus (match c with counts_created => true | _ => false end) (Created s))
    (plus (match c with counts_updated => true | _ => false end) (Updated s))
    (plus (match c with counts_disabled => true | _ => false end) (Disabled s))
    (plus (match c with counts_unchanged => true | _ => false end) (Unchanged s))
    (plus (match c with counts_error => true | _ => false end) (Errors s))
    (TotalRemote s) (TotalLocal s).

Definition counted (m : prog W error unit) (c : counter) : sync counter :=
  done ← try (on_store m); mret match done with inr _ => c | inl _ => counts_error end.

Definition createUser (ldapUser : User) : sync counter :=
  counted (st_CreateUser (applyLifecycleRules ldapUser)) counts_created.

(** The local object with the remote data, and whether it is saved. *)
Definition updated_user (localUser ldapUser : User) : User :=
  applyLifecycleRules (set_contact (user_Username localUser) (user_Email ldapUser) (user_Phone ldapUser)
    (user_Attributes ldapUser) localUser).
Definition contact_differs (localUser ldapUser : User) : bool :=
  negb (bool_decide (user_Email localUser = user_Email ldapUser)) ||
  negb (bool_decide (user_Phone localUser = user_Phone ldapUser)).

Definition updateUser (localUser ldapUser : User) : sync (counter * User) :=
  if bool_decide (sync_ConflictStrategy config = ConflictPreferLocal) then mret (counts_unchanged, localUser)
  else
    let u := updated_user localUser ldapUser in
    if contact_differs localUser ldapUser
    then c ← counted (st_UpdateUser u) counts_updated; mret (c, u)
    else mret (counts_unchanged, u).

Definition finalizeSync (syncType : string) (stats : SyncStats) : sync SyncStats :=
  let stats := mkStats (StartTime stats) now (Created stats) (Updated stats) (Disabled stats) (Unchanged stats)
    (Errors stats) (TotalRemote stats) (TotalLocal stats) in
  modify (fun s => (s.1, Some stats)) ;;
  try (on_store (st_RecordAdminAction syncType stats (sync_ConflictStrategy config)
         (Z.of_nat (length (sync_LifecycleRules config))))) ;;
  mret stats.

(** [localUserMap[user.Username] = user]: the last of a name. *)
Definition by_name (users : list User) : gmap string User :=
  fold_left (fun m u => <[user_Username u := u]> m) users ∅.

(** The users of the directory, with the local objects as they are by then. *)
Fixpoint sync_remote (localUserMap : gmap string User) (ldapUsers : list User) (stats : SyncStats) : sync SyncStats :=
  match ldapUsers with
  | [] => mret stats
  | ldapUser :: ldapUsers =>
      match localUserMap !! user_Username ldapUser with
      | Some localUser =>
          answer ← updateUser localUser ldapUser;
          sync_remote (<[user_Username ldapUser := answer.2]> localUserMap) ldapUsers (bump answer.1 stats)
      | None => c ← createUser ldapUser; sync_remote localUserMap ldapUsers (bump c stats)
      end
  end.

(** The local users the directory does not have. *)
Fixpoint disable_missing (ldapUserMap : gmap string User) (localUsers : list User) (stats : SyncStats) : sync SyncStats :=
  match localUsers with
  | [] => mret stats
  | localUser :: localUsers =>
      if bool_decide (ldapUserMap !! user_Username localUser = None) &&
         negb (bool_decide (user_Status localUser = UserStatusInactive))
      then
        c ← counted (st_UpdateUser (set_user_Status UserStatusInactive localUser)) counts_disabled;
        disable_missing ldapUserMap localUsers (bump c stats)
      else disable_missing ldapUserMap localUsers stats
  end.

Definition all_users : UserFilter := mkUserFilter "" [] 1 10000 "" "".

Definition FullSync (SyncUsers : res error (list User)) : sync SyncStats :=
  match SyncUsers with
  | Err err => throw (Wrapf "failed to fetch users from LDAP: " err)
  | Panic => lift Panic
  | Diverge => lift Diverge
  | Ok ldapUsers =>
      listed ← try (on_store (st_ListUsers all_users));
      match listed with
      | inl err => throw (Wrapf "failed to list local users: " err)
      | inr (localUsers, _) =>
          let stats := mkStats now zero_time 0 0 0 0 0 (Z.of_nat (length ldapUsers)) (Z.of_nat (length localUsers)) in
          stats ← sync_remote (by_name localUsers) ldapUsers stats;
          stats ← disable_missing (by_name ldapUsers) localUsers stats;
          finalizeSync "full" stats
      end
  end.

(** [errors.As]: the first predefined error of the chain. *)
Fixpoint first_code (err : error) : option string :=
  match err with
  | Sentinel c => Some c
  | Errorf _ => None
  | Wrapf _ err => first_code err
  end.

(** A local user that cannot be read counts as an error. *)
Fixpoint sync_changed (changedUsers : list User) (stats : SyncStats) : sync SyncStats :=
  match changedUsers with
  | [] => mret stats
  | ldapUser :: changedUsers =>
      found ← try (on_store (st_GetUserByUsername (user_Username ldapUser)));
      c ← match found with
          | inl err => if bool_decide (first_code err = Some ErrUserNotFound) then createUser ldapUser else mret counts_error
          | inr localUser => answer ← updateUser localUser ldapUser; mret answer.1
          end;
      sync_changed changedUsers (bump c stats)
  end.

Definition IncrementalSync (SearchUsers : res error (list User)) : sync SyncStats :=
  match SearchUsers with
  | Err err => throw (Wrapf "failed to fetch incremental changes from LDAP: " err)
  | Panic => lift Panic
  | Diverge => lift Diverge
  | Ok changedUsers =>
      stats ← sync_changed changedUsers (mkStats now zero_time 0 0 0 0 0 (Z.of_nat (length changedUsers)) 0);
      finalizeSync "incremental" stats
  end.
End SyncService.

(** ** The mapper and the deduplication *)
Section MapperFacts.
Context `{CaseFolding} (GetAttributeValue : entry -> string -> string) (mappings : list AttributeMapping).

(** What no mapping can set. *)
Definition anonymous (u : User) : Prop :=
  user_ID u = "" /\ user_ExternalID u = "" /\ user_MergeHistory u = [] /\
  (user_Status u = UserStatusActive \/ user_Status u = UserStatusInactive).

Lemma setField_anonymous u field value : anonymous u -> anonymous (setField u field value).
Proof.
  intros (Hid & Hext & Hh & Hs). unfold setField. repeat (case_bool_decide || case_match); split_and!; try done; cbn; auto.
Qed.

Lemma apply_mappings_anonymous e ms : forall u u',
  anonymous u -> apply_mappings GetAttributeValue e ms u = Ok u' -> anonymous u'.
Proof.
  induction ms as [|m ms IH]; intros u u' Hu; cbn; [by intros [= <-]|]. case_match; [done|].
  apply IH. by apply setField_anonymous.
Qed.

Lemma add_unmapped_anonymous e : forall u, anonymous u -> anonymous (add_unmapped mappings u e).
Proof.
  unfold add_unmapped. induction e as [|[name values] e IH]; intros u Hu; cbn [fold_left]; [done|].
  apply IH. by case_match.
Qed.

Lemma apply_mappings_ok e ms : forall u,
  (exists u', apply_mappings GetAttributeValue e ms u = Ok u') <->
  Forall (fun m => Required m = true -> mapped_value GetAttributeValue e m <> "") ms.
Proof.
  induction ms as [|m ms IH]; intros u; cbn; [split; eauto|]. rewrite Forall_cons.
  case_bool_decide as Hv; cbn [andb].
  - destruct (Required m) eqn:Hr; [|rewrite IH; naive_solver]. split; [by intros [? ?]|]. intros [Hn _]. by destruct (Hn eq_refl).
  - rewrite IH. naive_solver.
Qed.

Lemma MapEntry_anonymous e u : MapEntry GetAttributeValue mappings e = Ok u -> anonymous u.
Proof.
  unfold MapEntry. intros (u' & Hu & [= <-])%bind_ok_inv. apply add_unmapped_anonymous.
  apply apply_mappings_anonymous in Hu; [done|]. by repeat split; left.
Qed.

Lemma map_entries_spec sourceID es u :
  u ∈ map_entries GetAttributeValue mappings sourceID es ->
  user_ID u = "" /\ user_ExternalID u = "" /\ user_SourceType u = sourceID.
Proof.
  induction es as [|e es IH]; cbn; [by intros ?%elem_of_nil|]. destruct (MapEntry _ _ e) as [v| | |] eqn:Hm; try done.
  intros [->|Hu]%elem_of_cons; [|by apply IH]. by apply MapEntry_anonymous in Hm as (? & ? & _).
Qed.
End MapperFacts.

Section DedupFacts.
Context (ord : map_order) (now : time) (rules : list (list string)).
Notation key := (generateDeduplicationKey rules).

Lemma dedup_fold k users : forall seen, k <> "" ->
  fold_left (dedup_one now rules) users seen !! k =
  match seen !! k with Some u => Some u | None => List.find (fun u => bool_decide (key u = k)) users end.
Proof.
  induction users as [|u users IH]; intros seen Hk; cbn [fold_left List.find]; [by destruct (seen !! k)|].
  rewrite IH by done. unfold dedup_one. cbn [ResolveConflict]. case_bool_decide as He.
  - destruct (seen !! k); [done|]. rewrite bool_decide_eq_false_2; [done|congruence].
  - rewrite (bool_decide_eq_true_2 ("keep_existing" = "keep_existing")) by done. destruct (seen !! key u) as [v|] eqn:Hs.
    + case_bool_decide as Hu; [|done]. by rewrite <- Hu, Hs.
    + rewrite lookup_insert. case_decide as Hu; [rewrite Hu in *; by rewrite Hs, bool_decide_eq_true_2|].
      destruct (seen !! k); [done|]. by rewrite bool_decide_eq_false_2.
Qed.

Lemma dedup_no_empty users : forall seen, seen !! "" = None -> fold_left (dedup_one now rules) users seen !! "" = None.
Proof.
  induction users as [|u users IH]; intros seen Hs; cbn [fold_left]; [done|]. apply IH.
  unfold dedup_one. cbn. case_bool_decide; [done|]. destruct (seen !! key u); [done|]. by rewrite lookup_insert_ne.
Qed.

Lemma dedup_lookup k users :
  fold_left (dedup_one now rules) users ∅ !! k =
  if bool_decide (k = "") then None else List.find (fun u => bool_decide (key u = k)) users.
Proof.
  case_bool_decide as Hk; [subst; by apply dedup_no_empty|]. by rewrite dedup_fold, lookup_empty.
Qed.

(** Deduplication keeps of the users that have a key exactly the first of
    each key, in whatever order the map is walked, and drops the users without
    one; no two users it keeps have the same key. *)
Theorem dedup_keeps_first users :
  (forall u, u ∈ Process ord now rules users <->
     key u <> "" /\ List.find (fun v => bool_decide (key v = key u)) users = Some u) /\
  NoDup (key <$> Process ord now rules users).
Proof.
  assert (forall k u, fold_left (dedup_one now rules) users ∅ !! k = Some u -> key u = k /\ k <> "") as Hkey.
  { intros k u. rewrite dedup_lookup. case_bool_decide; [done|].
    intros [_ Hu%bool_decide_eq_true]%List.find_some. done. }
  unfold Process. split.
  - intros u. rewrite list_elem_of_fmap. split.
    + intros ([k v] & -> & Hin%elem_of_range). cbn [snd]. destruct (Hkey _ _ Hin) as [<- Hk]. split; [done|].
      by rewrite dedup_lookup, bool_decide_eq_false_2 in Hin.
    + intros [Hk Hu]. exists (key u, u). split; [done|]. apply elem_of_range. by rewrite dedup_lookup, bool_decide_eq_false_2.
  - rewrite <- list_fmap_compose.
    rewrite (list_fmap_ext (key ∘ snd) fst); [apply range_nodup|].
    intros i [k u] Hi. cbn. apply Hkey. apply (elem_of_range ord). by eapply list_elem_of_lookup_2.
Qed.
End DedupFacts.

(** ** The pipeline *)
Section EngineFacts.
Context `{SyncStore W} `{CaseFolding}.
Context (GetAttributeValue : entry -> string -> string) (mappings : list AttributeMapping).
Context (BatchSize : Z) (ConflictStrategy : string) (now : time).
Notation store := (store_batch ConflictStrategy now).
Notation size_of_batch := (Z.max 1 BatchSize).

(** Full batches, the last one perhaps shorter. *)
Definition batches_ok (bs : list (list User)) : Prop :=
  forall i b, bs !! i = Some b ->
    0 < Z.of_nat (length b) <= size_of_batch /\ ((S i < length bs)%nat -> Z.of_nat (length b) = size_of_batch).

Lemma consume_batches sourceID users : forall batch, Z.of_nat (length batch) < size_of_batch ->
  exists bs, mjoin bs = batch ++ users /\ batches_ok bs /\
    forall w, consume BatchSize ConflictStrategy now sourceID batch users w = for_each (store sourceID) bs w.
Proof.
  induction users as [|u users IH]; intros batch Hb; cbn [consume].
  - case_bool_decide as Hl.
    + apply nil_length_inv in Hl. exists []. by subst.
    + exists [batch]. split; [done|]. split.
      * intros [|i] b; [intros [= <-]|done]. cbn. lia.
      * intros w. cbn [for_each]. unfold store_batch. unfold mbind, prog_bind, mret, prog_ret. by destruct (try _ w) as [[] ?].
  - assert (length (batch ++ [u]) = S (length batch)) as Hs by (rewrite length_app; cbn; lia).
    case_bool_decide as Hfull.
    + destruct (IH [] ltac:(cbn; lia)) as (bs & Hj & Hok & Hrun). exists ((batch ++ [u]) :: bs). split.
      { change ((batch ++ [u]) ++ mjoin bs = batch ++ u :: users). rewrite Hj. by rewrite <- app_assoc. }
      split.
      * intros [|i] b; [intros [= <-]; rewrite Hs; lia|]. intros Hi. destruct (Hok i b Hi). split; [done|].
        cbn. intros. lia.
      * intros w. cbn [for_each]. apply prog_bind_ext. intros [] w'. apply Hrun.
    + destruct (IH (batch ++ [u]) ltac:(lia)) as (bs & Hj & Hok & Hrun). exists bs.
      split; [by rewrite Hj, <- app_assoc|done].
Qed.

(** The pipeline of a full synchronisation, for a directory that gives
    [users] before it ends or fails: however the pages are cut, the users are
    stored in their order, in batches of the configured size of which only the
    last may be shorter; users read before a failing search are stored, the
    failure is the result, and the synchronisation is marked as completed only
    without one.  A failing batch stops nothing and is not reported. *)
Theorem pipeline_batches fuel SearchPaged sourceID users stopped :
  0 <= BatchSize ->
  produce GetAttributeValue mappings fuel SearchPaged sourceID "" = Ok (users, stopped) ->
  exists bs, mjoin bs = users /\ batches_ok bs /\
    forall w, StartFullSync GetAttributeValue mappings BatchSize ConflictStrategy now fuel SearchPaged sourceID w =
      (for_each (store sourceID) bs ;;
       match stopped with
       | Some err => throw (Wrapf "sync failed during production: " err)
       | None => try (st_MarkCompleted sourceID now) ;; mret ()
       end) w.
Proof.
  intros Hsize Hprod. destruct (consume_batches sourceID users [] ltac:(cbn; lia)) as (bs & Hj & Hok & Hrun).
  exists bs. split; [done|]. split; [done|]. intros w. unfold StartFullSync. rewrite bool_decide_eq_false_2 by lia.
  rewrite Hprod, prog_lift_bind. cbn [fst snd]. unfold mbind, prog_bind. by rewrite Hrun.
Qed.

(** A directory whose cookies count the pages down is read to the end. *)
Definition directory (pages : list (list entry)) (cookie : string) : res error (list entry * string) :=
  let n := match Sscanf_d cookie with Some n => Z.to_nat n | None => 0%nat end in
  match pages !! n with
  | Some es => Ok (es, if bool_decide (S n < length pages)%nat then pretty (Z.of_nat (S n)) else "")
  | None => Ok ([], "")
  end.

Lemma directory_cookie pages n : Z.of_nat n < 2 ^ 63 ->
  directory pages (if bool_decide (n = 0%nat) then "" else pretty (Z.of_nat n)) =
  match pages !! n with
  | Some es => Ok (es, if bool_decide (S n < length pages)%nat then pretty (Z.of_nat (S n)) else "")
  | None => Ok ([], "")
  end.
Proof. intros Hn. unfold directory. case_bool_decide; [by subst|]. by rewrite Sscanf_d_pretty, Nat2Z.id by lia. Qed.

Lemma produce_S fuel SearchPaged sourceID cookie entries newCookie :
  SearchPaged cookie = Ok (entries, newCookie) ->
  produce GetAttributeValue mappings (S fuel) SearchPaged sourceID cookie =
  if bool_decide (newCookie = "") then Ok (map_entries GetAttributeValue mappings sourceID entries, None)
  else rest ← produce GetAttributeValue mappings fuel SearchPaged sourceID newCookie;
       Ok (map_entries GetAttributeValue mappings sourceID entries ++ rest.1, rest.2).
Proof. intros Hs. cbn [produce]. by rewrite Hs. Qed.

Lemma produce_directory sourceID pages k : forall n, Z.of_nat (length pages) < 2 ^ 63 ->
  (length pages = n + S k)%nat ->
  produce GetAttributeValue mappings (S k) (directory pages) sourceID
    (if bool_decide (n = 0%nat) then "" else pretty (Z.of_nat n)) =
  Ok (mjoin (map_entries GetAttributeValue mappings sourceID <$> drop n pages), None).
Proof.
  induction k as [|k IH]; intros n Hl Hn; pose proof (directory_cookie pages n ltac:(lia)) as Hc;
    destruct (lookup_lt_is_Some_2 pages n ltac:(lia)) as [es Hes]; rewrite Hes in Hc; rewrite (drop_S _ _ _ Hes).
  - rewrite (bool_decide_eq_false_2 (S n < length pages)%nat) in Hc by lia. rewrite (produce_S _ _ _ _ _ _ Hc).
    rewrite drop_ge by lia. cbn. by rewrite app_nil_r.
  - rewrite (bool_decide_eq_true_2 (S n < length pages)%nat) in Hc by lia. rewrite (produce_S _ _ _ _ _ _ Hc).
    rewrite bool_decide_eq_false_2 by apply pretty_Z_nonempty.
    specialize (IH (S n) Hl ltac:(lia)). rewrite bool_decide_eq_false_2 in IH by done. by rewrite IH.
Qed.

Lemma resolve_batch_same sourceID strategy users l w :
  (forall u, u ∈ users -> st_GetUserByExternalID (user_ExternalID u) sourceID w = (Ok l, w)) ->
  resolve_batch now sourceID strategy users w = (Ok ((fun r => Resolve now l r strategy) <$> users), w).
Proof.
  induction users as [|u users IH]; intros Hl; cbn [resolve_batch]; [done|].
  assert (try (st_GetUserByExternalID (user_ExternalID u) sourceID) w = (Ok (inr l), w)) as Hrun.
  { unfold try. by rewrite Hl by apply list_elem_of_here. }
  rewrite (prog_bind_run _ _ _ _ _ Hrun).
  rewrite (prog_bind_run _ _ w ((fun r => Resolve now l r strategy) <$> users) w); [done|].
  apply IH. intros v Hv. by apply Hl, list_elem_of_further.
Qed.

(** No mapping of attributes can set the external identifier, by which the
    store tells the users of a source apart: all users of a source have the
    same empty one.  Once the store knows one user of the source, a batch
    under a strategy that reads the local user is resolved against that one
    for every user of the directory; where local data win, what is stored is
    that one user, once for each, and no other user of the directory is. *)
Theorem external_ids_collide sourceID es w l :
  let users := map_entries GetAttributeValue mappings sourceID es in
  ConflictStrategy = StrategyLocalWins ->
  st_GetUserByExternalID "" sourceID w = (Ok l, w) ->
  (forall u, u ∈ users -> user_ExternalID u = "" /\ user_SourceType u = sourceID) /\
  processBatch ConflictStrategy now users sourceID w = st_UpsertBatch (replicate (length users) l) w.
Proof.
  intros users Hc Hl. split; [intros u Hu; by apply map_entries_spec in Hu as (_ & ? & ?)|].
  unfold processBatch. rewrite Hc. cbv zeta. change (bool_decide (StrategyLocalWins = "")) with false. cbv iota.
  change (bool_decide (StrategyLocalWins = StrategyRemoteWins)) with false. cbv iota.
  rewrite (prog_bind_run _ _ w ((fun r => Resolve now l r StrategyLocalWins) <$> users) w).
  - f_equal. clear Hl. induction users as [|u us IH]; [done|]. cbn. by rewrite IH.
  - apply resolve_batch_same. intros u Hu. apply map_entries_spec in Hu as (_ & -> & _). done.
Qed.

(** The scheduler's retries: at most as many as configured, each wait twice
    the one before. *)
Lemma scheduleRetry_bound (sync : prog W error unit) attempts : forall backoff w slept w',
  scheduleRetry attempts backoff sync w = (Ok slept, w') -> (length slept <= attempts)%nat.
Proof.
  induction attempts as [|n IH]; intros backoff w slept w'; cbn [scheduleRetry]; [by intros [= <- _]|].
  intros (done & w1 & _ & Hrest)%prog_bind_ok. destruct done as [err|[]].
  - apply prog_bind_ok in Hrest as (rest & w2 & Hrest & [= <- _]). apply IH in Hrest. cbn. lia.
  - injection Hrest as <- _. cbn. lia.
Qed.
End EngineFacts.

(** ** The full synchronisation

    What the store promises: its users have different names; listing gives
    them all while they fit the one page that is asked for; a new name is
    stored under some identifier, a known one with the same identifier is
    overwritten. *)
Class SyncStoreLaws (W : Type) `{SyncStore W} := {
  local_users : W -> gmap string User;
  law_list w : Z.of_nat (size (local_users w)) <= 10000 ->
    exists l total, st_ListUsers all_users w = (Ok (l, total), w) /\ l ≡ₚ (map_to_list (local_users w)).*2;
  law_create u w : local_users w !! user_Username u = None ->
    exists id w', st_CreateUser u w = (Ok (), w') /\
      local_users w' = <[user_Username u := set_user_ID id u]> (local_users w);
  law_update u old w : local_users w !! user_Username u = Some old -> user_ID old = user_ID u ->
    exists w', st_UpdateUser u w = (Ok (), w') /\ local_users w' = <[user_Username u := u]> (local_users w);
  law_record syncType stats strategy rules w :
    exists w', st_RecordAdminAction syncType stats strategy rules w = (Ok (), w') /\ local_users w' = local_users w
}.

Section SyncFacts.
Context `{SyncStoreLaws W} (config : LDAPSyncConfig) (now : time).

Definition named (w : W) : Prop := map_Forall (fun n u => user_Username u = n) (local_users w).
Definition of_name (n : string) (users : list User) : option User :=
  List.find (fun u => bool_decide (user_Username u = n)) users.

Lemma of_name_none n users : of_name n users = None <-> n ∉ user_Username <$> users.
Proof.
  unfold of_name. induction users as [|u users IH]; cbn; [set_solver|]. case_bool_decide; [set_solver|].
  rewrite IH. set_solver.
Qed.

Lemma of_name_in u users : NoDup (user_Username <$> users) -> u ∈ users -> of_name (user_Username u) users = Some u.
Proof.
  unfold of_name. induction users as [|v users IH]; [by intros _ ?%elem_of_nil|]. rewrite fmap_cons.
  intros [Hv Hnd]%NoDup_cons [->|Hu]%elem_of_cons; cbn; [by rewrite bool_decide_eq_true_2|].
  rewrite bool_decide_eq_false_2; [by apply IH|]. intros Heq. apply Hv. rewrite Heq. by apply list_elem_of_fmap_2.
Qed.

(** What the row of a name becomes. *)
Definition row_becomes (remote old new : option User) : Prop :=
  match remote, old with
  | Some r, None => exists id, new = Some (set_user_ID id (applyLifecycleRules config r))
  | Some r, Some l =>
      new = Some (if negb (bool_decide (sync_ConflictStrategy config = ConflictPreferLocal)) && contact_differs l r
                  then updated_user config l r else l)
  | None, Some l => new = Some (if bool_decide (user_Status l = UserStatusInactive) then l
                                else set_user_Status UserStatusInactive l)
  | None, None => new = None
  end.

Lemma lifecycle_identity u :
  user_Username (applyLifecycleRules config u) = user_Username u /\ user_ID (applyLifecycleRules config u) = user_ID u.
Proof. unfold applyLifecycleRules. by case_match. Qed.

(** Counters that do not overflow. *)
Definition tallies (s : SyncStats) (changed disabled : Z) : Prop :=
  0 <= Created s /\ 0 <= Updated s /\ 0 <= Unchanged s /\ Created s + Updated s + Unchanged s = changed /\
  Disabled s = disabled /\ Errors s = 0.

Lemma bump_changed c s k d : tallies s k d -> 0 <= k < 2 ^ 63 - 1 ->
  c = counts_created \/ c = counts_updated \/ c = counts_unchanged -> tallies (bump c s) (k + 1) d.
Proof.
  intros (H1 & H2 & H3 & H4 & H5 & H6) Hk Hc.
  destruct Hc as [->|[->| ->]]; unfold tallies, bump; cbn -[int64]; rewrite int64_small by lia; lia.
Qed.

Lemma bump_disabled s k d : tallies s k d -> 0 <= d < 2 ^ 63 - 1 -> tallies (bump counts_disabled s) k (d + 1).
Proof.
  intros (H1 & H2 & H3 & H4 & H5 & H6) Hd. unfold tallies, bump; cbn -[int64]. rewrite int64_small by lia. lia.
Qed.

Lemma counted_run (m : prog W error unit) c w w' (o : option SyncStats) :
  m w = (Ok (), w') -> counted m c (w, o) = (Ok c, (w', o)).
Proof. intros Hm. unfold counted, on_store, zoom, try, mbind, prog_bind. cbn. by rewrite Hm. Qed.

(** One user of the directory. *)
Lemma sync_one m ldapUser ldapUsers stats w (o : option SyncStats) k :
  named w -> m !! user_Username ldapUser = local_users w !! user_Username ldapUser ->
  tallies stats k 0 -> 0 <= k < 2 ^ 63 - 1 ->
  exists w' stats' m', sync_remote config m (ldapUser :: ldapUsers) stats (w, o) =
      sync_remote config m' ldapUsers stats' (w', o) /\
    named w' /\ tallies stats' (k + 1) 0 /\
    (forall n, n <> user_Username ldapUser -> m' !! n = m !! n /\ local_users w' !! n = local_users w !! n) /\
    row_becomes (Some ldapUser) (local_users w !! user_Username ldapUser) (local_users w' !! user_Username ldapUser).
Proof.
  intros Hnamed Hm Hs Hk. cbn [sync_remote]. rewrite Hm. destruct (lifecycle_identity ldapUser) as [Hname Hid].
  destruct (local_users w !! user_Username ldapUser) as [l|] eqn:Hl.
  - unfold updateUser, row_becomes. case_bool_decide as Hpref; [|destruct (contact_differs l ldapUser) eqn:Hdiff]; cbn [negb andb].
    + exists w, (bump counts_unchanged stats), (<[user_Username ldapUser := l]> m). split_and!; try done.
      * apply bump_changed; auto.
      * intros n Hn. by rewrite lookup_insert_ne.
    + pose proof (Hnamed _ _ Hl) as Hln. set (u := updated_user config l ldapUser).
      assert (user_Username u = user_Username ldapUser /\ user_ID u = user_ID l) as [Hun Hui].
      { unfold u, updated_user. destruct (lifecycle_identity (set_contact (user_Username l) (user_Email ldapUser)
          (user_Phone ldapUser) (user_Attributes ldapUser) l)) as [-> ->]. done. }
      destruct (law_update u l w) as (w' & Hup & Hw'); [by rewrite Hun|done|]. rewrite Hun in Hw'.
      exists w', (bump counts_updated stats), (<[user_Username ldapUser := u]> m). split_and!.
      * by rewrite prog_assoc, (prog_bind_run _ _ _ _ _ (counted_run _ _ _ _ o Hup)).
      * unfold named. rewrite Hw'. by apply map_Forall_insert_2.
      * apply bump_changed; auto.
      * intros n Hn. by rewrite Hw', !lookup_insert_ne.
      * by rewrite Hw', lookup_insert_eq.
    + exists w, (bump counts_unchanged stats), (<[user_Username ldapUser := updated_user config l ldapUser]> m).
      split_and!; try done.
      * apply bump_changed; auto.
      * intros n Hn. by rewrite lookup_insert_ne.
  - destruct (law_create (applyLifecycleRules config ldapUser) w) as (id & w' & Hcr & Hw'); [by rewrite Hname|].
    rewrite Hname in Hw'. exists w', (bump counts_created stats), m. split_and!.
    + unfold createUser. by rewrite (prog_bind_run _ _ _ _ _ (counted_run _ _ _ _ o Hcr)).
    + unfold named. rewrite Hw'. by apply map_Forall_insert_2.
    + apply bump_changed; auto.
    + intros n Hn. by rewrite Hw', lookup_insert_ne.
    + exists id. by rewrite Hw', lookup_insert_eq.
Qed.

Lemma sync_remote_run (o : option SyncStats) ldapUsers : forall m stats w k,
  named w -> NoDup (user_Username <$> ldapUsers) ->
  (forall n, n ∈ user_Username <$> ldapUsers -> m !! n = local_users w !! n) ->
  tallies stats k 0 -> 0 <= k -> k + Z.of_nat (length ldapUsers) < 2 ^ 63 ->
  exists w' stats', sync_remote config m ldapUsers stats (w, o) = (Ok stats', (w', o)) /\ named w' /\
    tallies stats' (k + Z.of_nat (length ldapUsers)) 0 /\
    forall n, match of_name n ldapUsers with
              | Some r => row_becomes (Some r) (local_users w !! n) (local_users w' !! n)
              | None => local_users w' !! n = local_users w !! n
              end.
Proof.
  induction ldapUsers as [|r rs IH]; intros m stats w k Hnamed Hnd Hm Hs Hk Hb.
  - exists w, stats. split_and!; try done. by rewrite Z.add_0_r.
  - cbn [length] in *. rewrite fmap_cons in *. apply NoDup_cons in Hnd as [Hr Hnd].
    destruct (sync_one m r rs stats w o k Hnamed) as (w1 & s1 & m1 & Hrun & Hnamed1 & Hs1 & Hother & Hrow);
      [apply Hm, list_elem_of_here|done|lia|].
    destruct (IH m1 s1 w1 (k + 1) Hnamed1 Hnd) as (w2 & s2 & Hrest & Hnamed2 & Hs2 & Hfin); [|done|lia|lia|].
    { intros n Hn. assert (n <> user_Username r) as Hne by congruence. destruct (Hother n Hne) as [-> ->].
      by apply Hm, list_elem_of_further. }
    exists w2, s2. split_and!; [by rewrite Hrun|done|by replace (k + Z.of_nat (S (length rs))) with (k + 1 + Z.of_nat (length rs)) by lia|].
    intros n. specialize (Hfin n). unfold of_name in *. cbn [List.find]. case_bool_decide as Hn.
    + subst n. change (List.find _ rs) with (of_name (user_Username r) rs) in Hfin.
      rewrite (proj2 (of_name_none _ _) Hr) in Hfin. by rewrite Hfin.
    + by destruct (Hother n (not_eq_sym Hn)) as [_ <-].
Qed.

(** The users to be disabled. *)
Definition to_disable (ldapUserMap : gmap string User) (u : User) : bool :=
  bool_decide (ldapUserMap !! user_Username u = None) && negb (bool_decide (user_Status u = UserStatusInactive)).

Lemma disable_missing_run m (o : option SyncStats) locals : forall stats w k d,
  NoDup (user_Username <$> locals) ->
  (forall u, u ∈ locals -> m !! user_Username u = None -> local_users w !! user_Username u = Some u) ->
  tallies stats k d -> 0 <= d -> d + Z.of_nat (length locals) < 2 ^ 63 ->
  exists w' stats', disable_missing m locals stats (w, o) = (Ok stats', (w', o)) /\
    tallies stats' k (d + Z.of_nat (length (List.filter (to_disable m) locals))) /\
    forall n, local_users w' !! n =
      match of_name n locals with
      | Some u => if to_disable m u then Some (set_user_Status UserStatusInactive u) else local_users w !! n
      | None => local_users w !! n
      end.
Proof.
  induction locals as [|u locals IH]; intros stats w k d Hnd Hl Hs Hd Hb.
  - exists w, stats. split_and!; try done. by rewrite Z.add_0_r.
  - cbn [length] in Hb. rewrite fmap_cons in Hnd. apply NoDup_cons in Hnd as [Hu Hnd].
    cbn [disable_missing List.filter]. fold (to_disable m u). unfold of_name. cbn [List.find].
    destruct (to_disable m u) eqn:Hdis.
    + pose proof Hdis as [Hout%bool_decide_eq_true _]%andb_true_iff.
      destruct (law_update (set_user_Status UserStatusInactive u) u w) as (w1 & Hup & Hw1);
        [exact (Hl u (list_elem_of_here _ _) Hout)|done|]. cbn [set_user_Status user_Username] in Hw1.
      destruct (IH (bump counts_disabled stats) w1 k (d + 1) Hnd) as (w2 & s2 & Hrun & Hs2 & Hfin); [|by apply bump_disabled; [|lia]|lia|lia|].
      { intros v Hv Hvout. rewrite Hw1, lookup_insert_ne; [by apply Hl; [apply list_elem_of_further|]|].
        intros Heq. apply Hu. rewrite Heq. by apply list_elem_of_fmap_2. }
      exists w2, s2. split_and!.
      * by rewrite (prog_bind_run _ _ _ _ _ (counted_run _ _ _ _ o Hup)).
      * cbn [length]. by replace (d + Z.of_nat (S (length (List.filter (to_disable m) locals))))
          with (d + 1 + Z.of_nat (length (List.filter (to_disable m) locals))) by lia.
      * intros n. rewrite Hfin. case_bool_decide as Hn.
        -- subst n. by rewrite (proj2 (of_name_none _ _) Hu), Hw1, lookup_insert_eq, Hdis.
        -- rewrite Hw1, lookup_insert_ne by done. done.
    + destruct (IH stats w k d Hnd) as (w2 & s2 & Hrun & Hs2 & Hfin); [|done|lia|lia|].
      { intros v Hv. apply Hl. by apply list_elem_of_further. }
      exists w2, s2. split_and!; try done. intros n. rewrite Hfin. case_bool_decide as Hn; [|done].
      subst n. by rewrite (proj2 (of_name_none _ _) Hu), Hdis.
Qed.

Lemma by_name_lookup users n : NoDup (user_Username <$> users) -> by_name users !! n = of_name n users.
Proof.
  unfold by_name. assert (forall m : gmap string User, NoDup (user_Username <$> users) ->
    fold_left (fun m u => <[user_Username u := u]> m) users m !! n =
    match of_name n users with Some u => Some u | None => m !! n end) as Hgen.
  { induction users as [|u users IH]; intros m Hnd; [done|]. rewrite fmap_cons in Hnd. apply NoDup_cons in Hnd as [Hu Hnd].
    cbn [fold_left]. rewrite IH by done. unfold of_name at 2. cbn [List.find]. rewrite lookup_insert.
    case_decide as Hn; [rewrite bool_decide_eq_true_2 by done|by rewrite bool_decide_eq_false_2].
    subst n. by rewrite (proj2 (of_name_none _ _) Hu). }
  intros Hnd. rewrite Hgen by done. destruct (of_name n users); [done|apply lookup_empty].
Qed.

Lemma listed_rows w l : named w -> l ≡ₚ (map_to_list (local_users w)).*2 ->
  NoDup (user_Username <$> l) /\ forall n, of_name n l = local_users w !! n.
Proof.
  intros Hnamed Hl.
  assert (user_Username <$> (map_to_list (local_users w)).*2 = (map_to_list (local_users w)).*1) as Hnames.
  { rewrite <- list_fmap_compose. apply list_fmap_ext. intros i [k u] Hi. cbn.
    apply Hnamed. apply elem_of_map_to_list. by eapply list_elem_of_lookup_2. }
  assert (NoDup (user_Username <$> l)) as Hnd by (rewrite Hl, Hnames; apply NoDup_fst_map_to_list).
  split; [done|]. intros n. destruct (local_users w !! n) as [u|] eqn:Hu.
  - destruct (of_name n l) as [v|] eqn:Hv.
    + apply List.find_some in Hv as [Hin%list_elem_of_In Hvn%bool_decide_eq_true]. rewrite Hl in Hin.
      apply list_elem_of_fmap in Hin as ([k v'] & -> & Hkv%elem_of_map_to_list). cbn in *.
      pose proof (Hnamed _ _ Hkv) as Hk. cbn in Hk. congruence.
    + apply of_name_none in Hv. destruct Hv. rewrite Hl, Hnames. apply list_elem_of_fmap. exists (n, u).
      split; [done|]. by apply elem_of_map_to_list.
  - apply of_name_none. rewrite Hl, Hnames. intros ([k v] & -> & Hkv%elem_of_map_to_list)%list_elem_of_fmap. cbn in Hu.
    congruence.
Qed.

End SyncFacts.

(** ** A table of users *)
Definition first_user (f : User -> bool) (w : gmap string User) : res error User :=
  match List.find f (map_to_list w).*2 with Some u => Ok u | None => Err (Sentinel ErrUserNotFound) end.
Definition upsert_row (w : gmap string User) (u : User) : gmap string User := <[user_Username u := u]> w.

#[export] Instance user_table : SyncStore (gmap string User) := {
  st_GetUserByExternalID externalID sourceID w :=
    (first_user (fun u => bool_decide (user_ExternalID u = externalID) && bool_decide (user_SourceType u = sourceID)) w, w);
  st_GetUserByUsername username w :=
    (match w !! username with Some u => Ok u | None => Err (Sentinel ErrUserNotFound) end, w);
  st_ListUsers f w := (Ok ((map_to_list w).*2, Z.of_nat (size w)), w);
  st_CreateUser u w :=
    match w !! user_Username u with
    | Some _ => (Err (Sentinel ErrConflict), w)
    | None => (Ok (), <[user_Username u := set_user_ID ("id-" +:+ user_Username u) u]> w)
    end;
  st_UpdateUser u w := (Ok (), <[user_Username u := u]> w);
  st_UpsertBatch users w := (Ok (), fold_left upsert_row users w);
  st_MarkCompleted sourceID at_ w := (Ok (), w);
  st_RecordAdminAction syncType stats strategy rules w := (Ok (), w)
}.

#[export] Instance user_table_laws : SyncStoreLaws (gmap string User).
Proof.
  refine {| local_users := fun w => w |}; cbn.
  - intros w _. by do 2 eexists.
  - intros u w ->. by do 2 eexists.
  - intros u old w _ _. by eexists.
  - intros. by eexists.
Defined.

Section Witnesses.
Definition demo_get (e : entry) (name : string) : string :=
  match List.find (fun a => bool_decide (a.1 = name)) e with Some (_, v :: _) => v | _ => "" end.
Definition demo_mappings : list AttributeMapping :=
  [mkMapping "uid" "username" true "lowercase" ""; mkMapping "mail" "email" false "trim" "otherMailbox"].
Definition demo_entry (uid mail : string) : entry := [("uid", [uid]); ("mail", [mail])].
Definition demo_pages : list (list entry) :=
  [[demo_entry "Alice" "alice@example.com"; demo_entry "" "nobody"]; [demo_entry "Bob" " bob@example.com "]].
Definition demo_source : list User := mjoin (map_entries demo_get demo_mappings "ad" <$> demo_pages).
Definition demo_local : User := set_source "" "ad" (new_user "1" "alice" "old@example.com" "" "active").
Definition demo_config : LDAPSyncConfig := mkSyncConfig ConflictPreferRemote [mkStatusRule "employeeType" "left" "inactive"].

Lemma pipeline_batches_witness :
  produce demo_get demo_mappings 2 (directory demo_pages) "ad" "" = Ok (demo_source, None) /\
  exists bs, mjoin bs = demo_source /\ batches_ok 1 bs.
Proof.
  split; [vm_compute; reflexivity|].
  destruct (pipeline_batches (W := gmap string User) demo_get demo_mappings 1 "" 0 2 (directory demo_pages) "ad"
    demo_source None) as (bs & Hj & Hok & _); [lia|vm_compute; reflexivity|].
  exact (ex_intro _ bs (conj Hj Hok)).
Defined.

Lemma external_ids_collide_witness :
  st_GetUserByExternalID "" "ad" {["alice" := demo_local]} = (Ok demo_local, {["alice" := demo_local]}) /\
  processBatch StrategyLocalWins 0 (map_entries demo_get demo_mappings "ad" (mjoin demo_pages)) "ad"
    {["alice" := demo_local]} = st_UpsertBatch [demo_local; demo_local] {["alice" := demo_local]}.
Proof.
  assert (st_GetUserByExternalID "" "ad" ({["alice" := demo_local]} : gmap string User) =
    (Ok demo_local, {["alice" := demo_local]})) as Hl by (vm_compute; reflexivity).
  split; [exact Hl|].
  exact (proj2 (external_ids_collide demo_get demo_mappings StrategyLocalWins 0 "ad" (mjoin demo_pages)
    {["alice" := demo_local]} demo_local eq_refl Hl)).
Defined.

End Witnesses.
