(* ===== verification/AuthFlow.v ===== *)
(** * Adaptive risk, security automation and the log-in workflow

    - internal/domain/auth/risk_model.go, internal/auth/adaptive/risk_engine.go
      and strategies/, policy_engine.go: the score of a log-in, its level and
      the decision;
    - internal/storage/redis/geo_manager.go: where a user logged in last;
    - internal/security/automator/engine.go, internal/security/actions/: the
      responses to a score;
    - internal/server/middleware/ip_blacklist.go: who is let in after that;
    - internal/orchestrator/engine.go and workflows/auth_flow.go: workflows of
      steps over a shared state, and the workflow that logs a user in.

    The trigonometry of Go's math package, the GeoIP database and the geo
    commands of Redis are arguments or a class with laws.  The actions a score
    triggers run concurrently: they are run here in an order that is an
    argument. *)

From S2P Require Import Prelude Types GoStd GoText Redis SessionStore Authorization.
From Stdlib Require Import Ascii SpecFloat.
Local Open Scope Z_scope.

(** ** Scores (risk_model.go) *)
Record RiskWeights := mkWeights {
  wt_IPReputation : float64;
  wt_GeoReputation : float64;
  wt_DeviceChange : float64;
  wt_GeoVelocity : float64;
  wt_TimeAnomaly : float64
}.
Record RiskThresholds := mkThresholds { th_Low : float64; th_Medium : float64; th_High : float64 }.
Record RiskConfig := mkRiskConfig { Thresholds : RiskThresholds; Weights : RiskWeights }.

(** The factors the score is made of. *)
Record RiskFactors := mkFactors {
  rf_IPReputation : float64;
  rf_GeoReputation : float64;
  rf_IsKnownDevice : bool;
  rf_GeoVelocity : float64
}.

Definition fone : float64 := float_of_Z 1.

(** The score is between 0 and 1; a score that is not a number stays one. *)
Definition ToScore (f : RiskFactors) (cfg : RiskConfig) : float64 :=
  let w := Weights cfg in
  let score := fadd (fadd (fmul (rf_IPReputation f) (wt_IPReputation w)) (fmul (rf_GeoReputation f) (wt_GeoReputation w)))
                 (fmul (rf_GeoVelocity f) (wt_GeoVelocity w)) in
  let score := if rf_IsKnownDevice f then score else fadd score (wt_DeviceChange w) in
  let score := if flt fone score then fone else score in
  if flt score fzero then fzero else score.

Definition Level (s : float64) (t : RiskThresholds) : string :=
  if fle s (th_Low t) then RiskLevelLow
  else if fle s (th_Medium t) then RiskLevelMedium
  else RiskLevelHigh.

(** ** Decisions (adaptive/policy_engine.go) *)
Definition PolicyDecisionAllow : string := "ALLOW".
Definition PolicyDecisionRequireMFA : string := "REQUIRE_MFA".
Definition PolicyDecisionDeny : string := "DENY".

Definition adaptive_Decide (level : string) (ac : AuthContext) : string :=
  if bool_decide (level = RiskLevelLow) then PolicyDecisionAllow
  else if bool_decide (level = RiskLevelMedium) then PolicyDecisionRequireMFA
  else if bool_decide (level = RiskLevelHigh) then PolicyDecisionRequireMFA
  else PolicyDecisionDeny.

(** ** Where a user logged in (geo_manager.go)

    The geo commands of Redis.  A position is stored as a geohash: what comes
    back is [quantize] of what was written. *)
Record GeoLocation := mkGeoLocation { Lat : float64; Lon : float64; geo_Timestamp : time }.

Class Geo (G : Type) := {
  g_GeoAdd : string -> float64 -> float64 -> string -> prog G error unit;
  g_ZAdd : string -> Z -> string -> prog G error unit;
  g_ZRange_last : string -> prog G error (list string);
  g_GeoPos : string -> string -> prog G error (list (option (float64 * float64)));
  g_Expire : string -> Z -> prog G error unit
}.

(** [time.Time.Unix] *)
Definition Unix (t : time) : Z := t / Second.

(** [strconv.ParseInt(s, 10, 64)] *)
Definition ParseInt (s : string) : option Z :=
  let '(neg, s) := take_sign s in
  let '(n, rest) := take_digits 0 s in
  let n := if neg : bool then - n else n in
  if negb (bool_decide (s = "")) && bool_decide (rest = "") && bool_decide (- 2 ^ 63 <= n < 2 ^ 63) then Some n else None.

Section GeoManager.
Context `{Geo G}.

Definition geoKey (userID : string) : string := "user:geo:" +:+ userID.
Definition timelineKey (userID : string) : string := "user:geo:timeline:" +:+ userID.

Definition SaveLoginGeo (userID : string) (lat lon : float64) (timestamp : time) : prog G error unit :=
  let tsStr := pretty (Unix timestamp) in
  wrapping "failed to add geo location: " (g_GeoAdd (geoKey userID) lon lat tsStr) ;;
  wrapping "failed to update geo timeline: " (g_ZAdd (timelineKey userID) (Unix timestamp) tsStr) ;;
  let ttl := 30 * 24 * Hour in
  ignore (g_Expire (geoKey userID) ttl) ;;
  ignore (g_Expire (timelineKey userID) ttl).

Definition GetLastLoginLocation (userID : string) : prog G error GeoLocation :=
  result ← wrapping "failed to get last login timestamp: " (g_ZRange_last (timelineKey userID));
  match result with
  | [] => throw (Sentinel ErrNotFound)
  | lastTsStr :: _ =>
      geoPos ← wrapping "failed to get geo position: " (g_GeoPos (geoKey userID) lastTsStr);
      match geoPos with
      | Some (lon, lat) :: _ =>
          match ParseInt lastTsStr with
          | Some ts => mret (mkGeoLocation lat lon (ts * Second))
          | None => throw (Wrapf "invalid timestamp format in storage: " (Errorf "invalid syntax"))
          end
      | _ => throw (Sentinel ErrNotFound)
      end
  end.

(** ** The strategies *)
Context (sin cos sqrt : float64 -> float64) (atan2 : float64 -> float64 -> float64).

(** The constant [math.Pi / 180.0] *)
Definition radian : float64 := fconst 5030569068109113 (-58).

Definition haversine (lat1 lon1 lat2 lon2 : float64) : float64 :=
  let two := float_of_Z 2 in
  let dLat := fmul (fsub lat2 lat1) radian in
  let dLon := fmul (fsub lon2 lon1) radian in
  let lat1Rad := fmul lat1 radian in
  let lat2Rad := fmul lat2 radian in
  let a := fadd (fmul (sin (fdiv dLat two)) (sin (fdiv dLat two)))
             (fmul (fmul (fmul (sin (fdiv dLon two)) (sin (fdiv dLon two))) (cos lat1Rad)) (cos lat2Rad)) in
  let c := fmul two (atan2 (sqrt a) (sqrt (fsub fone a))) in
  fmul (float_of_Z 6371) c.

Definition MaxTravelSpeedKmH : float64 := float_of_Z 800.

(** The risk of having travelled [distance] since the last log-in. *)
Definition travel_risk (distance duration : float64) : float64 :=
  if fle duration fzero then (if flt (float_of_Z 10) distance then fone else fzero)
  else if flt MaxTravelSpeedKmH (fdiv distance duration) then fone else fzero.

Definition travel_CalculateRisk (now : time) (userID : string) (currentLat currentLon : float64) : prog G error float64 :=
  last ← try (GetLastLoginLocation userID);
  match last with
  | inl err => if bool_decide (err = Sentinel ErrNotFound) then mret fzero else throw err
  | inr lastGeo =>
      mret (travel_risk (haversine (Lat lastGeo) (Lon lastGeo) currentLat currentLon)
              (Hours (Sub now (geo_Timestamp lastGeo))))
  end.

(** The constants [0.9], [0.1], [0.4] and [0.2] *)
Definition ip_CalculateRisk (ip : string) : float64 :=
  if bool_decide (ip = "1.2.3.4") then fconst 8106479329266893 (-53)
  else if bool_decide (ip = "8.8.8.8") then fconst 7205759403792794 (-56)
  else fconst 7205759403792794 (-54).
Definition geo_default : float64 := fconst 7205759403792794 (-55).

(** ** The engine (risk_engine.go)

    [locate] is the address parsed and looked up in the GeoIP database; a
    failure of either, or no database, is [None]. *)
Context (config : RiskConfig) (now : time) (locate : string -> option (float64 * float64)).
Context (SIsMember : string -> string -> res error bool).

Definition resolveGeo (ip : string) : float64 * float64 := default (fzero, fzero) (locate ip).

Definition isKnownDevice (userID fingerprint : string) : res error bool :=
  if bool_decide (userID = "") || bool_decide (fingerprint = "") then Ok false
  else SIsMember ("user:" +:+ userID +:+ ":devices") fingerprint.

(** Failures are logged, and count as no risk and as an unknown device. *)
Definition risk_Evaluate (ac : AuthContext) : prog G error (float64 * string) :=
  let '(lat, lon) := resolveGeo (ac_IPAddress ac) in
  travel ← (if bool_decide (ac_UserID ac = "") then mret (inr fzero)
            else try (travel_CalculateRisk now (ac_UserID ac) lat lon));
  known ← try (lift (isKnownDevice (ac_UserID ac) (ac_DeviceFingerprint ac)));
  let factors := mkFactors (ip_CalculateRisk (ac_IPAddress ac)) geo_default
    (match known with inr b => b | inl _ => false end) (match travel with inr r => r | inl _ => fzero end) in
  let score := ToScore factors config in
  mret (score, Level score (Thresholds config)).

(** What the engine writes in the background once it has answered. *)
Definition risk_background (ac : AuthContext) : prog G error unit :=
  if bool_decide (ac_UserID ac = "") then mret ()
  else
    let '(lat, lon) := resolveGeo (ac_IPAddress ac) in
    ignore (SaveLoginGeo (ac_UserID ac) lat lon (ac_Timestamp ac)).
End GeoManager.

Example constants :
  (fdiv (float_of_Z 9) (float_of_Z 10), fdiv (float_of_Z 1) (float_of_Z 10), fdiv (float_of_Z 4) (float_of_Z 10),
   fdiv (float_of_Z 2) (float_of_Z 10)) =
  (ip_CalculateRisk "1.2.3.4", ip_CalculateRisk "8.8.8.8", ip_CalculateRisk "", geo_default).
Proof. reflexivity. Qed.

(** ** Responses (automator/engine.go) *)
Record ActionInput := mkInput {
  in_UserID : string; in_IP : string; in_SessionID : string; in_RiskScore : float64; in_Metadata : gmap string string
}.
Record ResponsePolicy := mkResponse {
  resp_Name : string; RiskThreshold : float64; ActionIDs : list string; IsBlocking : bool
}.
Record SecurityAction (W : Type) := mkSecurityAction {
  action_ID : string; action_Execute : ActionInput -> prog W error unit
}.
Arguments mkSecurityAction {W}.
Arguments action_ID {W}.
Arguments action_Execute {W}.

Section Automator.
Context {W : Type}.
Notation registry := (gmap string (SecurityAction W)).

(** [RegisterAction] files an action under its identifier. *)
Definition RegisterAction (action : SecurityAction W) (r : registry) : registry := <[action_ID action := action]> r.

Definition triggered (policies : list ResponsePolicy) (input : ActionInput) : list ResponsePolicy :=
  List.filter (fun p => fle (RiskThreshold p) (in_RiskScore input)) policies.

Definition actionsToRun (r : registry) (policies : list ResponsePolicy) (input : ActionInput) : list (SecurityAction W) :=
  List.concat (map (fun p => omap (fun id => r !! id) (ActionIDs p)) (triggered policies input)).

(** [schedule] is the order in which the goroutines run; an action that fails
    is logged.  Without an action to run nothing is blocked. *)
Definition automator_Execute (schedule : list (SecurityAction W) -> list (SecurityAction W)) (r : registry)
    (policies : list ResponsePolicy) (input : ActionInput) : prog W error bool :=
  match actionsToRun r policies input with
  | [] => mret false
  | actions =>
      for_each (fun a => try (action_Execute a input) ;; mret ()) (schedule actions) ;;
      mret (existsb IsBlocking (triggered policies input))
  end.
End Automator.

(** ** The actions

    Their state: Redis, and the rows of the users.  [rows_set_status] is the
    SQL update of the status by identifier, with the rows it affected. *)
Class UserRows (U : Type) := { rows_set_status : string -> string -> prog U error Z }.

Section Actions.
Context `{Redis C} `{UserRows U} (now : time).
Notation sec := (prog (C * U) error).
Definition on_redis {A} (m : prog C error A) : sec A := zoom fst (fun c w => (c, w.2)) m.
Definition on_rows {A} (m : prog U error A) : sec A := zoom snd (fun u w => (w.1, u)) m.

Definition blacklistKey (ip : string) : string := "security:blacklist:ip:" +:+ ip.

Definition BlockIPAction : SecurityAction (C * U) := mkSecurityAction "block_ip" (fun input =>
  if bool_decide (in_IP input = "") then throw (Errorf "IP address is required for BlockIPAction")
  else on_redis (r_Set now (blacklistKey (in_IP input)) "1" Hour)).

Definition KillSessionAction : SecurityAction (C * U) := mkSecurityAction "kill_session" (fun input =>
  if bool_decide (in_UserID input = "") then throw (Errorf "UserID is required for KillSessionAction")
  else
    wrapping ("failed to kill sessions for user " +:+ in_UserID input +:+ ": ")
      (on_redis (RevokeAllUserSessions (in_UserID input)))).

Definition LockUserAction : SecurityAction (C * U) := mkSecurityAction "lock_user" (fun input =>
  if bool_decide (in_UserID input = "") then throw (Errorf "UserID is required for LockUserAction")
  else
    affected ← wrapping ("failed to lock user " +:+ in_UserID input +:+ ": ")
                 (on_rows (rows_set_status (in_UserID input) UserStatusLocked));
    if bool_decide (affected = 0) then throw (Errorf ("user " +:+ in_UserID input +:+ " not found for locking"))
    else mret ()).

Definition all_actions : gmap string (SecurityAction (C * U)) :=
  RegisterAction BlockIPAction (RegisterAction KillSessionAction (RegisterAction LockUserAction ∅)).

(** ip_blacklist.go: whether a request from [remoteAddr] is passed on; a
    Redis that fails lets everybody in. *)
Definition IPBlacklist (remoteAddr : string) : prog C error bool :=
  exists_ ← try (r_Exists now (blacklistKey remoteAddr));
  mret match exists_ with
       | inl _ => true
       | inr n => bool_decide (n <= 0)
       end.
End Actions.

(** ** Workflows (orchestrator/engine.go)

    The values of the shared state; a map that is passed to every step. *)
Inductive flow_value :=
  | FVString (s : string)
  | FVUser (u : User)
  | FVTime (t : time)
  | FVScore (f : float64)
  | FVLevel (l : string)
  | FVBool (b : bool)
  | FVToken (accessToken tokenType : string)
  | FVOther.
Notation flow_state := (gmap string flow_value).

Record Step (W : Type) := mkStep { step_Name : string; step_Func : prog (W * flow_state) error unit }.
Arguments mkStep {W}.
Arguments step_Name {W}.
Arguments step_Func {W}.
Record Workflow (W : Type) := mkWorkflow { wf_Name : string; Steps : list (Step W) }.
Arguments mkWorkflow {W}.
Arguments wf_Name {W}.
Arguments Steps {W}.

Section Orchestrator.
Context {W : Type}.
Notation workflows := (gmap string (Workflow W)).

Definition RegisterWorkflow (wf : Workflow W) (ws : workflows) : res error workflows :=
  match ws !! wf_Name wf with
  | Some _ => Err (Errorf ("workflow with name '" +:+ wf_Name wf +:+ "' is already registered"))
  | None => Ok (<[wf_Name wf := wf]> ws)
  end.

Fixpoint run_steps (steps : list (Step W)) : prog (W * flow_state) error unit :=
  match steps with
  | [] => mret ()
  | step :: steps =>
      wrapping ("step '" +:+ step_Name step +:+ "' failed: ") (step_Func step) ;;
      run_steps steps
  end.

(** The state is the caller's map: what the steps wrote stays there when one
    fails. *)
Definition workflow_Execute (ws : workflows) (name : string) : prog (W * flow_state) error flow_state :=
  match ws !! name with
  | None => throw (Errorf ("workflow '" +:+ name +:+ "' not found"))
  | Some wf => run_steps (Steps wf) ;; s ← get; mret s.2
  end.
End Orchestrator.

(** ** The log-in workflow (workflows/auth_flow.go)

    [risk] is the risk engine and [respond] the automator. *)
Section AuthWorkflow.
Context {W : Type} (risk : AuthContext -> prog W error (float64 * string)) (respond : ActionInput -> prog W error bool).
Context (clock : time).
Notation step := (prog (W * flow_state) error).
Definition on_world {A} (m : prog W error A) : step A := zoom fst (fun w s => (w, s.2)) m.
Definition set_value (key : string) (v : flow_value) : step unit := modify (fun s => (s.1, <[key := v]> s.2)).

Definition state_string (st : flow_state) (key : string) : string :=
  match st !! key with Some (FVString s) => s | _ => "" end.
(** [state["user"].( *types.User)] panics when there is none. *)
Definition state_user : step User :=
  s ← get; match s.2 !! "user" with Some (FVUser u) => mret u | _ => lift Panic end.

Definition validateInput : step unit :=
  s ← get;
  match s.2 !! "username", s.2 !! "password" with
  | Some _, Some _ => mret ()
  | _, _ => throw (Errorf "missing username or password in workflow state")
  end.

Definition authenticatePrimary : step unit :=
  s ← get;
  match s.2 !! "username" with
  | Some (FVString username) => set_value "user" (FVUser (new_user "user-123" username "" "" ""))
  | _ => lift Panic
  end.

Definition assessRisk : step unit :=
  user ← state_user;
  s ← get;
  let clientIP := state_string s.2 "client_ip" in
  let userAgent := state_string s.2 "user_agent" in
  let now := match s.2 !! "now" with Some (FVTime t) => if bool_decide (t = zero_time) then clock else t | _ => clock end in
  answer ← on_world (risk (mkAuthContext (user_ID user) clientIP userAgent now "" false));
  let '(score, level) := answer in
  set_value "risk_score" (FVScore score) ;;
  set_value "risk_level" (FVLevel level) ;;
  responded ← try (on_world (respond (mkInput (user_ID user) clientIP "" score {[ "user_agent" := userAgent ]})));
  let isBlocking := match responded with inr b => b | inl _ => false end in
  if isBlocking then throw (Errorf "login blocked by security policy")
  else if bool_decide (level = RiskLevelHigh) then throw (Errorf "login blocked due to high risk")
  else mret ().

Definition checkMfaRequired : step unit :=
  state_user ;;
  s ← get;
  set_value "mfa_required" (FVBool
    match s.2 !! "risk_level" with
    | Some (FVLevel level) => bool_decide (level = RiskLevelMedium) || bool_decide (level = RiskLevelHigh)
    | _ => true
    end).

Definition issueTokens : step unit :=
  state_user ;; set_value "tokens" (FVToken "dummy-access-token" "Bearer").

Definition standard_auth_flow : Workflow W :=
  mkWorkflow "standard_auth_flow"
    [mkStep "validate_input" validateInput; mkStep "authenticate_primary" authenticatePrimary;
     mkStep "assess_risk" assessRisk; mkStep "check_mfa_required" checkMfaRequired; mkStep "issue_tokens" issueTokens].

(** [NewAuthWorkflow] drops the error of the registration. *)
Definition NewAuthWorkflow (ws : gmap string (Workflow W)) : gmap string (Workflow W) :=
  match RegisterWorkflow standard_auth_flow ws with Ok ws => ws | _ => ws end.
End AuthWorkflow.

(** ** Facts *)
Definition is_number (s : float64) : bool := match s with S754_nan => false | _ => true end.

Lemma SFcompare_sym x y : is_number x = true -> is_number y = true ->
  SFcompare x y = match SFcompare y x with Some Lt => Some Gt | Some Gt => Some Lt | c => c end.
Proof.
  destruct x as [sx|sx| |sx mx ex], y as [sy|sy| |sy my ey]; cbn [is_number]; try discriminate; intros _ _;
    destruct sx, sy; try reflexivity; unfold SFcompare; rewrite (Z.compare_antisym ey ex);
    destruct (ey ?= ex)%Z; try reflexivity; change (Pos.compare_cont Eq ?a ?b) with (Pos.compare a b);
    rewrite (Pos.compare_antisym my mx); by destruct (Pos.compare my mx).
Qed.

Lemma not_flt_fle x y : is_number x = true -> is_number y = true -> flt y x = false -> fle x y = true.
Proof.
  intros Hx Hy. unfold flt, fle, SFltb, SFleb. rewrite (SFcompare_sym x y) by done.
  destruct (SFcompare y x) as [[]|] eqn:Hc; try done.
  by destruct x as [[]|[]| |[] ? ?], y as [[]|[]| |[] ? ?]; cbn in Hc; try done; repeat case_match.
Qed.

Lemma not_flt_one s : is_number s = true -> flt fone s = false -> fle s fone = true.
Proof. intros. by apply not_flt_fle. Qed.

Lemma not_flt_zero s : is_number s = true -> flt s fzero = false -> fle fzero s = true.
Proof. intros. by apply not_flt_fle. Qed.

Lemma ToScore_range f cfg : is_number (ToScore f cfg) = true -> fle fzero (ToScore f cfg) = true /\ fle (ToScore f cfg) fone = true.
Proof.
  unfold ToScore. cbv zeta. set (x := if rf_IsKnownDevice f then _ else _). clearbody x.
  destruct (flt fone x) eqn:H1; [by split|]. destruct (flt x fzero) eqn:H2; [by split|].
  intros Hn. split; [by apply not_flt_zero|by apply not_flt_one].
Qed.

(** A score that is a number is between 0 and 1; a score that is not a
    number is of the highest level; the decision about a level the engine
    gives is to allow exactly the lowest and never to deny, and the levels
    follow the order of the scores. *)
Theorem risk_levels f cfg ac :
  (is_number (ToScore f cfg) = true -> fle fzero (ToScore f cfg) = true /\ fle (ToScore f cfg) fone = true) /\
  Level S754_nan (Thresholds cfg) = RiskLevelHigh /\
  (forall s, adaptive_Decide (Level s (Thresholds cfg)) ac <> PolicyDecisionDeny) /\
  (forall s, adaptive_Decide (Level s (Thresholds cfg)) ac = PolicyDecisionAllow <-> fle s (th_Low (Thresholds cfg)) = true).
Proof.
  split; [apply ToScore_range|]. split; [|split; intros s; unfold Level; destruct (fle s (th_Low (Thresholds cfg))), (fle s (th_Medium (Thresholds cfg))); done].
  unfold Level, fle, SFleb. cbn. done.
Qed.

(** *** The workflow *)
Section FlowFacts.
Context {W : Type} (risk : AuthContext -> prog W error (float64 * string)) (respond : ActionInput -> prog W error bool).
Context (clock : time).
Notation flow := (workflow_Execute (NewAuthWorkflow risk respond clock ∅) "standard_auth_flow").

(** What the risk engine and the automator are asked. *)
Definition flow_time (st : flow_state) : time :=
  match st !! "now" with Some (FVTime t) => if bool_decide (t = zero_time) then clock else t | _ => clock end.
Definition flow_context (st : flow_state) : AuthContext :=
  mkAuthContext "user-123" (state_string st "client_ip") (state_string st "user_agent") (flow_time st) "" false.
Definition flow_input (st : flow_state) (score : float64) : ActionInput :=
  mkInput "user-123" (state_string st "client_ip") "" score {[ "user_agent" := state_string st "user_agent" ]}.
Definition with_user (name : string) (st : flow_state) : flow_state :=
  <["user" := FVUser (new_user "user-123" name "" "" "")]> st.
Definition with_risk_of (score : float64) (level : string) (st : flow_state) : flow_state :=
  <["risk_level" := FVLevel level]> (<["risk_score" := FVScore score]> st).

Lemma state_string_insert st k v key : key <> k -> state_string (<[k := v]> st) key = state_string st key.
Proof. intros Hne. unfold state_string. by rewrite lookup_insert_ne. Qed.

Lemma state_user_run (w : W) st u : st !! "user" = Some (FVUser u) -> state_user (w, st) = (Ok u, (w, st)).
Proof. intros Hu. unfold state_user. rewrite prog_get_bind. cbn [snd]. by rewrite Hu. Qed.

Lemma assess_run w w1 w2 st name score level blocking :
  risk (flow_context st) w = (Ok (score, level), w1) -> respond (flow_input st score) w1 = (Ok blocking, w2) ->
  assessRisk risk respond clock (w, with_user name st) =
  ((if blocking then Err (Errorf "login blocked by security policy")
    else if bool_decide (level = RiskLevelHigh) then Err (Errorf "login blocked due to high risk") else Ok ()),
   (w2, with_risk_of score level (with_user name st))).
Proof.
  intros Hrisk Hresp. unfold assessRisk.
  rewrite (prog_bind_run _ _ _ _ _ (state_user_run w (with_user name st) _ (lookup_insert_eq _ _ _))), prog_get_bind.
  assert (forall key, key <> "user" -> state_string (with_user name st) key = state_string st key) as Hs
    by (intros; by apply state_string_insert).
  assert (with_user name st !! "now" = st !! "now") as Hnow by by apply lookup_insert_ne.
  cbv zeta. cbn [snd fst]. rewrite !Hs, Hnow by discriminate. fold (flow_time st).
  change (user_ID _) with "user-123". fold (flow_context st).
  rewrite (prog_bind_run _ _ _ (score, level) (w1, with_user name st))
    by (unfold on_world, zoom; cbn [fst snd]; by rewrite Hrisk).
  rewrite (prog_bind_run _ _ _ () (w1, <["risk_score" := FVScore score]> (with_user name st))) by done.
  rewrite (prog_bind_run _ _ _ () (w1, with_risk_of score level (with_user name st))) by done.
  rewrite (prog_bind_run _ _ _ (inr blocking) (w2, with_risk_of score level (with_user name st))).
  - destruct blocking; [done|]. by case_bool_decide.
  - unfold on_world, zoom, try. cbn [fst snd]. fold (flow_input st score). by rewrite Hresp.
Qed.

Lemma run_steps_cons (st : Step W) steps s :
  run_steps (st :: steps) s = (wrapping ("step '" +:+ step_Name st +:+ "' failed: ") (step_Func st) ;; run_steps steps) s.
Proof. done. Qed.

Lemma flow_steps s : flow s =
  (run_steps
     [mkStep "validate_input" validateInput; mkStep "authenticate_primary" authenticatePrimary;
      mkStep "assess_risk" (assessRisk risk respond clock); mkStep "check_mfa_required" checkMfaRequired;
      mkStep "issue_tokens" issueTokens] ;;
   s ← get; mret s.2) s.
Proof. unfold workflow_Execute, NewAuthWorkflow, RegisterWorkflow. by rewrite lookup_empty, lookup_insert_eq. Qed.

(** The standard log-in workflow: without a user name and a password it
    fails at its first step; with them - whatever the password is, it is
    compared with nothing - it issues tokens to the user it makes up, unless
    the automator blocks or the level of the risk is the highest; at the middle
    level it notes that a second factor is required and issues the tokens all
    the same.  A failed workflow leaves no tokens in the state. *)
Theorem standard_flow_decides w st name password score level blocking w1 w2 :
  ((st !! "username" = None \/ st !! "password" = None) ->
     flow (w, st) = (Err (Wrapf "step 'validate_input' failed: "
                            (Errorf "missing username or password in workflow state")), (w, st))) /\
  (st !! "username" = Some (FVString name) -> st !! "password" = Some password ->
   risk (flow_context st) w = (Ok (score, level), w1) -> respond (flow_input st score) w1 = (Ok blocking, w2) ->
   let assessed := with_risk_of score level (with_user name st) in
   let refused msg := flow (w, st) = (Err (Wrapf "step 'assess_risk' failed: " (Errorf msg)), (w2, assessed)) /\
                      assessed !! "tokens" = st !! "tokens" in
   (blocking = true -> refused "login blocked by security policy") /\
   (blocking = false -> level = RiskLevelHigh -> refused "login blocked due to high risk") /\
   (blocking = false -> level <> RiskLevelHigh -> exists st', flow (w, st) = (Ok st', (w2, st')) /\
      st' !! "tokens" = Some (FVToken "dummy-access-token" "Bearer") /\
      st' !! "mfa_required" = Some (FVBool (bool_decide (level = RiskLevelMedium))) /\
      st' !! "user" = Some (FVUser (new_user "user-123" name "" "" "")))).
Proof.
  split.
  - intros Hmiss. rewrite flow_steps. apply prog_bind_fail. rewrite run_steps_cons. apply prog_bind_fail, wrapping_fails. cbn [step_Func].
    unfold validateInput. rewrite prog_get_bind. cbn [snd]. destruct Hmiss as [-> | ->]; [done|]. by destruct (st !! "username").
  - intros Hname Hpass Hrisk Hresp assessed refused.
    pose proof (assess_run w w1 w2 st name score level blocking Hrisk Hresp) as Hassess. fold assessed in Hassess.
    assert (assessed !! "tokens" = st !! "tokens") as Htok.
    { unfold assessed, with_risk_of, with_user. by rewrite !lookup_insert_ne. }
    assert (forall rest, run_steps (mkStep "validate_input" validateInput :: mkStep "authenticate_primary" authenticatePrimary :: rest)
      (w, st) = run_steps rest (w, with_user name st)) as Hstart.
    { intros rest. rewrite run_steps_cons, (prog_bind_run _ _ _ () (w, st)), run_steps_cons,
        (prog_bind_run _ _ _ () (w, with_user name st)); [done| |]; apply wrapping_returns; cbn [step_Func].
      - unfold authenticatePrimary. rewrite prog_get_bind. cbn [snd]. by rewrite Hname.
      - unfold validateInput. rewrite prog_get_bind. cbn [snd]. by rewrite Hname, Hpass. }
    unfold refused. split; [|split]; intros ->; [|intros ->|intros Hlevel].
    + split; [|done]. rewrite flow_steps. apply prog_bind_fail. rewrite Hstart, run_steps_cons. by apply prog_bind_fail, wrapping_fails.
    + split; [|done]. rewrite flow_steps. apply prog_bind_fail. rewrite Hstart, run_steps_cons. by apply prog_bind_fail, wrapping_fails.
    + rewrite bool_decide_eq_false_2 in Hassess by done.
      pose (checked := <["mfa_required" := FVBool (bool_decide (level = RiskLevelMedium) || bool_decide (level = RiskLevelHigh))]> assessed).
      assert (assessed !! "user" = Some (FVUser (new_user "user-123" name "" "" ""))) as Huser.
      { unfold assessed, with_risk_of. rewrite !lookup_insert_ne by discriminate. apply lookup_insert_eq. }
      assert (checked !! "user" = Some (FVUser (new_user "user-123" name "" "" ""))) as Hchecked.
      { unfold checked. by rewrite lookup_insert_ne by discriminate. }
      exists (<["tokens" := FVToken "dummy-access-token" "Bearer"]> checked). split_and!.
      * rewrite flow_steps, (prog_bind_run _ _ _ () (w2, <["tokens" := FVToken "dummy-access-token" "Bearer"]> checked)); [done|].
        rewrite Hstart, run_steps_cons, (prog_bind_run _ _ _ () (w2, assessed)) by (by apply wrapping_returns).
        rewrite run_steps_cons, (prog_bind_run _ _ _ () (w2, checked)).
        -- rewrite run_steps_cons,
             (prog_bind_run _ _ _ () (w2, <["tokens" := FVToken "dummy-access-token" "Bearer"]> checked)); [done|].
           apply wrapping_returns. cbn [step_Func]. unfold issueTokens.
           by rewrite (prog_bind_run _ _ _ _ _ (state_user_run w2 checked _ Hchecked)).
        -- apply wrapping_returns. cbn [step_Func]. unfold checkMfaRequired. rewrite (prog_bind_run _ _ _ _ _ (state_user_run w2 assessed _ Huser)).
           rewrite prog_get_bind. cbn [snd].
           assert (assessed !! "risk_level" = Some (FVLevel level)) as -> by apply lookup_insert_eq. done.
      * apply lookup_insert_eq.
      * rewrite lookup_insert_ne by discriminate. unfold checked. rewrite lookup_insert_eq.
        by rewrite (bool_decide_eq_false_2 (level = RiskLevelHigh)), orb_false_r by done.
      * by rewrite lookup_insert_ne by discriminate.
Qed.
End FlowFacts.

(** *** The responses *)
Class UserRowsLaws (U : Type) `{UserRows U} := {
  row_status : U -> string -> option string;
  law_set_status id st u : exists n u', rows_set_status id st u = (Ok n, u') /\
    (n = 0 <-> row_status u id = None) /\
    (forall id', row_status u' id' = if decide (id = id') then ((fun _ => st) <$> row_status u id) else row_status u id')
}.

Lemma revoke_all_spec `{RedisLaws C} u c :
  exists c', RevokeAllUserSessions u c = (Ok (), c') /\
    (forall id t, id ∈ zmembers c (userSessionsKey u) -> kv c' t (sessionKey id) = None) /\
    (forall t k, kv c' t k = None \/ kv c' t k = kv c t k) /\
    (forall t k, (forall id, k <> sessionKey id) -> kv c' t k = kv c t k).
Proof.
  unfold RevokeAllUserSessions. rewrite (prog_bind_run _ _ c _ _ (law_ZRange_all c (userSessionsKey u))).
  generalize (zmembers c (userSessionsKey u)). intros ids. revert c.
  induction ids as [|i ids IH]; intros c.
  - exists c. split; [done|]. split; [by intros id t ?%elem_of_nil|]. split; [by right|done].
  - cbn [for_each]. destruct (delete_run u i c) as (c1 & Hrun & Hkv & _). rewrite (ignore_run _ _ _ _ _ Hrun).
    destruct (IH c1) as (c2 & Hrest & Hdel & Hle & Hother). exists c2. split; [done|]. split_and!.
    + intros id t [->|Hin]%elem_of_cons; [|by apply Hdel].
      destruct (Hle t (sessionKey i)) as [Hn|Hn]; [done|]. by rewrite Hn, Hkv, decide_True.
    + intros t k. destruct (Hle t k) as [Hn|Hn]; [by left|]. rewrite Hn, Hkv. case_decide; auto.
    + intros t k Hk. rewrite Hother, Hkv by done. rewrite decide_False; [done|]. intros Heq. by apply (Hk i).
Qed.

(** Actions that establish their effects, keep those of the others and do not
    panic, in whatever order they are run. *)
Lemma run_actions {W} (input : ActionInput) (I : W -> Prop) (Q : string -> W -> Prop) acts : forall s,
  (forall a s, a ∈ acts -> I s -> exists r s', action_Execute a input s = (r, s') /\ returns r = true /\ I s' /\
     Q (action_ID a) s' /\ forall id, Q id s -> Q id s') ->
  I s ->
  exists s', for_each (fun a => try (action_Execute a input) ;; mret ()) acts s = (Ok (), s') /\ I s' /\
    (forall id, Q id s -> Q id s') /\ forall a, a ∈ acts -> Q (action_ID a) s'.
Proof.
  induction acts as [|a acts IH]; intros s Ha HI.
  - exists s. split; [done|]. split; [done|]. split; [done|]. by intros a ?%elem_of_nil.
  - destruct (Ha a s) as (r & s1 & Hrun & Hr & HI1 & HQ & Hkeep); [apply list_elem_of_here|done|].
    destruct (IH s1) as (s2 & Hrest & HI2 & Hkeep2 & HQ2); [|done|].
    { intros b s0 Hb. apply Ha. by apply list_elem_of_further. }
    exists s2. split_and!; [|done|by intros id HQid; apply Hkeep2, Hkeep|].
    + cbn [for_each]. assert (exists x, try (action_Execute a input) s = (Ok x, s1)) as [x Htry].
      { unfold try. rewrite Hrun. destruct r; try discriminate; by eexists. }
      rewrite prog_assoc, (prog_bind_run _ _ _ _ _ Htry). exact Hrest.
    + intros b [->|Hb]%elem_of_cons; [by apply Hkeep2|by apply HQ2].
Qed.

Section Responses.
Context `{RedisLaws C} `{UserRowsLaws U} (now : time).
Notation actions := (all_actions (C := C) (U := U) now).

Lemma known_actions id a : actions !! id = Some a -> action_ID a = id /\
  (a = BlockIPAction now \/ a = KillSessionAction \/ a = LockUserAction).
Proof.
  unfold all_actions, RegisterAction. rewrite !lookup_insert, lookup_empty. cbn [action_ID BlockIPAction KillSessionAction LockUserAction].
  repeat case_decide; intros [= <-]; subst; cbn; auto.
Qed.

Lemma registered_actions :
  actions !! "block_ip" = Some (BlockIPAction now) /\ actions !! "kill_session" = Some KillSessionAction /\
  actions !! "lock_user" = Some LockUserAction.
Proof. done. Qed.

Lemma key_blacklist_session ip id : blacklistKey ip <> sessionKey id.
Proof. unfold blacklistKey, sessionKey. cbn. discriminate. Qed.

(** What has been done for an identifier of an action. *)
Definition response_done (input : ActionInput) (indexed : list string) (id : string) (w : C * U) : Prop :=
  (id = "block_ip" -> forall t, t < now + Hour -> kv w.1 t (blacklistKey (in_IP input)) = Some "1") /\
  (id = "kill_session" -> forall s t, s ∈ indexed -> kv w.1 t (sessionKey s) = None) /\
  (id = "lock_user" -> row_status w.2 (in_UserID input) = Some UserStatusLocked).

Definition response_inv (input : ActionInput) (indexed : list string) (w : C * U) : Prop :=
  (forall s, s ∈ indexed -> s ∈ zmembers w.1 (userSessionsKey (in_UserID input)) \/ forall t, kv w.1 t (sessionKey s) = None) /\
  row_status w.2 (in_UserID input) <> None.

Lemma block_step input indexed w : in_IP input <> "" -> response_inv input indexed w ->
  exists r w', action_Execute (BlockIPAction now) input w = (r, w') /\ returns r = true /\ response_inv input indexed w' /\
    response_done input indexed "block_ip" w' /\ forall id, response_done input indexed id w -> response_done input indexed id w'.
Proof.
  destruct w as [c u]. intros Hip [Hidx Hrow].
  destruct (law_Set c now (blacklistKey (in_IP input)) "1" Hour) as (c' & Hrun & Hkv & Hz).
  exists (Ok ()), (c', u). cbn [BlockIPAction action_Execute]. rewrite bool_decide_eq_false_2 by done.
  assert (forall s t, kv c' t (sessionKey s) = kv c t (sessionKey s)) as Hs.
  { intros s t. rewrite Hkv, decide_False; [done|]. apply key_blacklist_session. }
  assert (forall t, t < now + Hour -> kv c' t (blacklistKey (in_IP input)) = Some "1") as Hblock.
  { intros t Ht. rewrite Hkv, decide_True by done. unfold lives. rewrite (bool_decide_eq_true_2 (t < now + Hour)) by done.
    by rewrite orb_true_r. }
  split; [unfold on_redis, zoom; cbn [fst snd]; by rewrite Hrun|]. split; [done|]. split; [|split].
  - split; [|done]. intros s Hin. cbn [fst]. rewrite Hz. destruct (Hidx s Hin) as [Hl|Hn]; [by left|right].
    intros t. by rewrite Hs.
  - split; [by intros _ t Ht; apply Hblock|]. by split.
  - intros id (Hb & Hk & Hl). split; [by intros _ t Ht; apply Hblock|]. split; [|done].
    intros Hid s t Hin. cbn [fst]. rewrite Hs. by apply Hk.
Qed.

Lemma kill_step input indexed w : in_UserID input <> "" -> response_inv input indexed w ->
  exists r w', action_Execute KillSessionAction input w = (r, w') /\ returns r = true /\ response_inv input indexed w' /\
    response_done input indexed "kill_session" w' /\ forall id, response_done input indexed id w -> response_done input indexed id w'.
Proof.
  destruct w as [c u]. intros Hid [Hidx Hrow]. destruct (revoke_all_spec (in_UserID input) c) as (c' & Hrun & Hdel & Hle & Hother).
  exists (Ok ()), (c', u). cbn [KillSessionAction action_Execute]. rewrite bool_decide_eq_false_2 by done.
  assert (forall s t, s ∈ indexed -> kv c' t (sessionKey s) = None) as Hkill.
  { intros s t Hin. destruct (Hidx s Hin) as [Hl|Hn]; [by apply Hdel|].
    destruct (Hle t (sessionKey s)) as [?| ->]; [done|]. apply Hn. }
  split; [apply wrapping_returns; unfold on_redis, zoom; cbn [fst snd]; by rewrite Hrun|]. split; [done|]. split; [|split].
  - split; [|done]. intros s Hin. right. intros t. by apply Hkill.
  - split; [done|]. split; [|done]. intros _ s t Hin. by apply Hkill.
  - intros id (Hb & Hk & Hl). split; [|split; [|done]].
    + intros Hi t Ht. cbn [fst]. rewrite Hother; [by apply Hb|]. intros s. apply key_blacklist_session.
    + intros _ s t Hin. by apply Hkill.
Qed.

Lemma lock_step input indexed w : in_UserID input <> "" -> response_inv input indexed w ->
  exists r w', action_Execute LockUserAction input w = (r, w') /\ returns r = true /\ response_inv input indexed w' /\
    response_done input indexed "lock_user" w' /\ forall id, response_done input indexed id w -> response_done input indexed id w'.
Proof.
  destruct w as [c u]. intros Hid [Hidx Hrow]. cbn [fst snd] in *.
  destruct (law_set_status (in_UserID input) UserStatusLocked u) as (n & u' & Hrun & Hn & Hst).
  assert (row_status u' (in_UserID input) = Some UserStatusLocked) as Hlock.
  { rewrite Hst, decide_True by done. by destruct (row_status u (in_UserID input)). }
  exists (Ok ()), (c, u'). cbn [LockUserAction action_Execute]. rewrite bool_decide_eq_false_2 by done. split_and!.
  - rewrite (prog_bind_run _ _ _ n (c, u')) by (apply wrapping_returns; unfold on_rows, zoom; cbn [fst snd]; by rewrite Hrun).
    by rewrite bool_decide_eq_false_2 by (by rewrite Hn).
  - done.
  - split; [done|]. cbn [snd]. by rewrite Hlock.
  - by split.
  - intros id (Hb & Hk & Hl). by split.
Qed.

Lemma actions_in_spec a policies input :
  a ∈ actionsToRun actions policies input <->
  exists p id, p ∈ triggered policies input /\ id ∈ ActionIDs p /\ actions !! id = Some a.
Proof.
  unfold actionsToRun. rewrite list_elem_of_In, List.in_concat. setoid_rewrite List.in_map_iff. split.
  - intros (l & (p & <- & Hp%list_elem_of_In) & Ha%list_elem_of_In). apply list_elem_of_omap in Ha as (id & Hid & Ha).
    by exists p, id.
  - intros (p & id & Hp & Hid & Ha). exists (omap (fun id => actions !! id) (ActionIDs p)). split.
    + exists p. split; [done|]. by apply list_elem_of_In.
    + apply list_elem_of_In, list_elem_of_omap. by exists id.
Qed.

Lemma triggered_spec p policies input :
  p ∈ triggered policies input <-> p ∈ policies /\ fle (RiskThreshold p) (in_RiskScore input) = true.
Proof. unfold triggered. by rewrite list_elem_of_In, List.filter_In, <- list_elem_of_In. Qed.

Lemma nobody_to_block policies input :
  existsb IsBlocking (triggered policies input) = true <-> exists p, p ∈ triggered policies input /\ IsBlocking p = true.
Proof. rewrite existsb_exists. by setoid_rewrite list_elem_of_In. Qed.

Lemma actions_run schedule policies input w : (forall l, schedule l ≡ₚ l) ->
  in_UserID input <> "" -> in_IP input <> "" -> row_status w.2 (in_UserID input) <> None ->
  let indexed := zmembers w.1 (userSessionsKey (in_UserID input)) in
  exists w', for_each (fun a => try (action_Execute a input) ;; mret ())
      (schedule (actionsToRun actions policies input)) w = (Ok (), w') /\
    forall a, a ∈ actionsToRun actions policies input -> response_done input indexed (action_ID a) w'.
Proof.
  intros Hsched Hid Hip Hrow indexed.
  destruct (run_actions input (response_inv input indexed) (response_done input indexed)
    (schedule (actionsToRun actions policies input)) w) as (w' & Hrun & _ & _ & Hdone).
  - intros a v Ha Hinv. rewrite (Hsched (actionsToRun actions policies input)) in Ha.
    apply actions_in_spec in Ha as (p & id & _ & _ & Ha). apply known_actions in Ha as [_ [->|[->| ->]]].
    + by apply block_step.
    + by apply kill_step.
    + by apply lock_step.
  - split; [by left|done].
  - exists w'. split; [done|]. intros a Ha. apply Hdone. by rewrite Hsched.
Qed.

(** C25: the automator's responses to a score, in whatever order the goroutines
    of the actions run: every action of a policy whose threshold the score
    reaches has had its effect in the end - the address is refused for an hour,
    none of the user's indexed sessions is left, the user is locked.  It blocks
    exactly when a triggered policy is blocking and some triggered policy names
    an action that is registered: a blocking policy without actions blocks
    nobody. *)
Theorem responses_any_order schedule policies input w : (forall l, schedule l ≡ₚ l) ->
  in_UserID input <> "" -> in_IP input <> "" -> row_status w.2 (in_UserID input) <> None ->
  let indexed := zmembers w.1 (userSessionsKey (in_UserID input)) in
  exists blocked w', automator_Execute schedule actions policies input w = (Ok blocked, w') /\
    (blocked = true <-> (exists p, p ∈ triggered policies input /\ IsBlocking p = true) /\
       exists p id, p ∈ triggered policies input /\ id ∈ ActionIDs p /\ is_Some (actions !! id)) /\
    forall p id, p ∈ triggered policies input -> id ∈ ActionIDs p ->
      (id = "block_ip" -> forall t, t < now + Hour -> IPBlacklist t (in_IP input) w'.1 = (Ok false, w'.1)) /\
      (id = "kill_session" -> forall s t, s ∈ indexed -> kv w'.1 t (sessionKey s) = None) /\
      (id = "lock_user" -> row_status w'.2 (in_UserID input) = Some UserStatusLocked).
Proof.
  intros Hsched Hid Hip Hrow indexed.
  destruct (actions_run schedule policies input w Hsched Hid Hip Hrow) as (w1 & Hrun & Hdone).
  assert (forall p id a, p ∈ triggered policies input -> id ∈ ActionIDs p -> actions !! id = Some a ->
    action_ID a = id /\ a ∈ actionsToRun actions policies input) as Hact.
  { intros p id a Hp Hi Ha. split; [by apply known_actions in Ha as [? _]|]. apply actions_in_spec. by exists p, id. }
  unfold automator_Execute. destruct (actionsToRun actions policies input) as [|a0 acts] eqn:Hacts.
  - exists false, w. split; [done|]. assert (forall p id, p ∈ triggered policies input -> id ∈ ActionIDs p -> actions !! id = None) as Hnone.
    { intros p id Hp Hi. destruct (actions !! id) as [a|] eqn:Ha; [|done].
      destruct (Hact p id a Hp Hi Ha) as [_ Hin]. by apply elem_of_nil in Hin. }
    split.
    + split; [done|]. intros [_ (p & id & Hp & Hi & [a Ha])]. by rewrite (Hnone p id Hp Hi) in Ha.
    + intros p id Hp Hi. specialize (Hnone p id Hp Hi). destruct registered_actions as (Hb & Hk & Hl).
      repeat split; intros ->; congruence.
  - exists (existsb IsBlocking (triggered policies input)), w1. split; [by rewrite (prog_bind_run _ _ _ _ _ Hrun)|]. split.
    + rewrite nobody_to_block. split; [|by intros [? _]]. intros Hb. split; [done|].
      assert (a0 ∈ actionsToRun actions policies input) as (p & id & Hp & Hi & Ha)%actions_in_spec
        by (rewrite Hacts; apply list_elem_of_here).
      exists p, id. split; [done|]. split; [done|]. by exists a0.
    + intros p id Hp Hi. assert (forall a, actions !! id = Some a -> response_done input indexed id w1) as Hd.
      { intros a Ha. destruct (Hact p id a Hp Hi Ha) as [<- Hin]. by apply Hdone. }
      destruct registered_actions as (Hrb & Hrk & Hrl). split; [|split].
      * intros -> t Ht. destruct (Hd (BlockIPAction now)) as (Hb & _ & _); [done|].
        unfold IPBlacklist. rewrite (prog_bind_run _ _ w1.1 (inr 1) w1.1); [done|].
        unfold try. rewrite law_Exists, Hb by done. done.
      * intros ->. destruct (Hd KillSessionAction) as (_ & Hk & _); [done|]. by apply Hk.
      * intros ->. destruct (Hd LockUserAction) as (_ & _ & Hl); [done|]. by apply Hl.
Qed.
End Responses.

(** The list of refused addresses is kept by address and asked by address
    and port: once an address is blocked, requests from any of its ports are
    let in as before. *)
Theorem block_misses_ports `{RedisLaws C} `{UserRows U} now input (w : C * U) port t :
  in_IP input <> "" -> kv w.1 t (blacklistKey (in_IP input +:+ ":" +:+ port)) = None ->
  exists w', action_Execute (BlockIPAction now) input w = (Ok (), w') /\
    IPBlacklist t (in_IP input +:+ ":" +:+ port) w'.1 = (Ok true, w'.1).
Proof.
  destruct w as [c u]. intros Hip Hk. destruct (law_Set c now (blacklistKey (in_IP input)) "1" Hour) as (c' & Hrun & Hkv & _).
  exists (c', u). split.
  - cbn [BlockIPAction action_Execute]. rewrite bool_decide_eq_false_2 by done. unfold on_redis, zoom. cbn [fst snd].
    by rewrite Hrun.
  - unfold IPBlacklist. cbn [fst] in *. rewrite (prog_bind_run _ _ c' (inr 0) c'); [done|].
    unfold try. rewrite law_Exists, Hkv, decide_False, Hk; [done|]. unfold blacklistKey.
    intros Heq%(inj (String.append "security:blacklist:ip:")). apply (f_equal String.length) in Heq.
    rewrite !string_length_app in Heq. cbn in Heq. lia.
Qed.

(** *** Where a user was *)
Class GeoLaws (G : Type) `{Geo G} := {
  quantize : float64 * float64 -> float64 * float64;
  positions : G -> string -> string -> option (float64 * float64);
  scores : G -> string -> gmap string Z;
  law_GeoAdd key lon lat m g : exists g', g_GeoAdd key lon lat m g = (Ok (), g') /\
    (forall key' m', positions g' key' m' =
       if decide (key = key' /\ m = m') then Some (quantize (lon, lat)) else positions g key' m') /\
    (forall key', scores g' key' = scores g key');
  law_geo_ZAdd key s m g : exists g', g_ZAdd key s m g = (Ok (), g') /\
    (forall key' m', positions g' key' m' = positions g key' m') /\ scores g' key = <[m := s]> (scores g key);
  law_ZRange_last key g m s : scores g key !! m = Some s ->
    (forall m' s', scores g key !! m' = Some s' -> m' = m \/ s' < s) -> g_ZRange_last key g = (Ok [m], g);
  law_GeoPos key m g : g_GeoPos key m g = (Ok [positions g key m], g);
  law_Expire key ttl g : exists g', g_Expire key ttl g = (Ok (), g') /\
    (forall key' m', positions g' key' m' = positions g key' m') /\ (forall key', scores g' key' = scores g key')
}.

Lemma ParseInt_pretty n : 0 <= n < 2 ^ 63 -> ParseInt (pretty n) = Some n.
Proof.
  intros Hn. unfold ParseInt. destruct (pretty_starts n ltac:(lia)) as (c & s & Hs & Hc).
  assert (take_digits 0 (pretty n) = (n, "")) as Hd.
  { pose proof (take_digits_pretty n "" ltac:(lia) eq_refl) as Ht.
    replace (pretty n +:+ "") with (pretty n) in Ht; [done|]. generalize (pretty n). intros p.
    induction p as [|x p IH]; [done|]. by rewrite string_app_cons, <- IH. }
  rewrite Hs, take_sign_digit, <- Hs, Hd by done.
  rewrite (bool_decide_eq_false_2 (pretty n = "")) by by rewrite Hs.
  rewrite (bool_decide_eq_true_2 ("" = "")) by done. by rewrite bool_decide_eq_true_2 by lia.
Qed.

Section GeoFacts.
Context `{GeoLaws G} (sin cos sqrt : float64 -> float64) (atan2 : float64 -> float64 -> float64).
Context (locate : string -> option (float64 * float64)).

(** No log-in of the user is recorded for a later second. *)
Definition latest (g : G) (userID : string) (ts : Z) : Prop :=
  forall m s, scores g (timelineKey userID) !! m = Some s -> m = pretty ts \/ s < ts.

Lemma save_run userID lat lon timestamp g : latest g userID (Unix timestamp) -> 0 <= Unix timestamp < 2 ^ 63 ->
  exists g', SaveLoginGeo userID lat lon timestamp g = (Ok (), g') /\
    GetLastLoginLocation userID g' =
      (Ok (mkGeoLocation (quantize (lon, lat)).2 (quantize (lon, lat)).1 (Unix timestamp * Second)), g').
Proof.
  intros Hlast Hts. set (m := pretty (Unix timestamp)).
  destruct (law_GeoAdd (geoKey userID) lon lat m g) as (g1 & Hadd & Hpos1 & Hsc1).
  destruct (law_geo_ZAdd (timelineKey userID) (Unix timestamp) m g1) as (g2 & Hz & Hpos2 & Hsc2).
  destruct (law_Expire (geoKey userID) (30 * 24 * Hour) g2) as (g3 & He3 & Hpos3 & Hsc3).
  destruct (law_Expire (timelineKey userID) (30 * 24 * Hour) g3) as (g4 & He4 & Hpos4 & Hsc4).
  exists g4. split.
  - unfold SaveLoginGeo. cbv zeta. fold m. rewrite (wrapping_ok _ _ _ _ _ _ Hadd), (wrapping_ok _ _ _ _ _ _ Hz).
    rewrite (ignore_run _ _ _ _ _ He3). unfold ignore. rewrite (prog_bind_run _ _ g3 (inr ()) g4); [done|].
    unfold try. by rewrite He4.
  - unfold GetLastLoginLocation.
    rewrite (wrapping_ok _ _ _ g4 [m] g4).
    + rewrite (wrapping_ok _ _ _ _ _ _ (law_GeoPos (geoKey userID) m g4)).
      rewrite Hpos4, Hpos3, Hpos2, Hpos1, decide_True by done. destruct (quantize (lon, lat)) as [qlon qlat].
      unfold m. by rewrite ParseInt_pretty.
    + apply (law_ZRange_last _ _ _ (Unix timestamp)); rewrite Hsc4, Hsc3, Hsc2, ?Hsc1; [apply lookup_insert_eq|].
      intros m' s'. rewrite lookup_insert. case_decide; [by left|]. apply Hlast.
Qed.

(** What the engine writes in the background is where the next log-in is
    measured from: the position of the address, to the second and to the
    precision of the store.  An address that cannot be located is recorded as
    the point 0,0, so that the next log-in from a real place is measured from
    there. *)
Theorem travel_after_login ac g : ac_UserID ac <> "" ->
  latest g (ac_UserID ac) (Unix (ac_Timestamp ac)) -> 0 <= Unix (ac_Timestamp ac) < 2 ^ 63 ->
  let '(lon, lat) := quantize (match locate (ac_IPAddress ac) with Some (lat, lon) => (lon, lat) | None => (fzero, fzero) end) in
  exists g', risk_background locate ac g = (Ok (), g') /\
    forall now lat' lon', travel_CalculateRisk sin cos sqrt atan2 now (ac_UserID ac) lat' lon' g' =
      (Ok (travel_risk (haversine sin cos sqrt atan2 lat lon lat' lon')
             (Hours (Sub now (Unix (ac_Timestamp ac) * Second)))), g').
Proof.
  intros Hid Hlast Hts.
  set (p := match locate (ac_IPAddress ac) with Some (lat, lon) => (lon, lat) | None => (fzero, fzero) end).
  assert (resolveGeo locate (ac_IPAddress ac) = (p.2, p.1)) as Hres.
  { unfold resolveGeo, p. by destruct (locate (ac_IPAddress ac)) as [[]|]. }
  destruct (save_run (ac_UserID ac) p.2 p.1 (ac_Timestamp ac) g Hlast Hts) as (g' & Hsave & Hget).
  rewrite <- surjective_pairing in Hget. destruct (quantize p) as [lon lat]. cbn [fst snd] in Hget.
  exists g'. split.
  - unfold risk_background. rewrite bool_decide_eq_false_2 by done. rewrite Hres. unfold ignore.
    rewrite (prog_bind_run _ _ g (inr ()) g'); [done|]. unfold try. by rewrite Hsave.
  - intros now lat' lon'. unfold travel_CalculateRisk.
    rewrite (prog_bind_run _ _ g' (inr (mkGeoLocation lat lon (Unix (ac_Timestamp ac) * Second))) g'); [done|].
    unfold try. by rewrite Hget.
Qed.
End GeoFacts.

(** ** Instances *)
#[export] Instance status_table : UserRows (gmap string string) := {
  rows_set_status id st u :=
    match u !! id with Some _ => (Ok 1, <[id := st]> u) | None => (Ok 0, u) end
}.
#[export] Instance status_table_laws : UserRowsLaws (gmap string string).
Proof.
  refine {| row_status := fun u id => u !! id |}. intros id st u. cbn. destruct (u !! id) as [s|] eqn:Hid.
  - exists 1, (<[id := st]> u). split; [done|]. split; [done|]. intros id'. by rewrite lookup_insert.
  - exists 0, u. split; [done|]. split; [done|]. intros id'. case_decide; [by subst|done].
Defined.

(** Geo sets and timelines as maps; positions are kept as they are. *)
Record geo_state := mkGeoState {
  geo_sets : gmap string (gmap string (float64 * float64));
  geo_timelines : gmap string (gmap string Z)
}.
Definition geo_set (g : geo_state) (key : string) : gmap string (float64 * float64) := default ∅ (geo_sets g !! key).
Definition geo_timeline (g : geo_state) (key : string) : gmap string Z := default ∅ (geo_timelines g !! key).
Definition greatest (l : list (string * Z)) : option (string * Z) :=
  List.find (fun x => forallb (fun y => bool_decide (y.1 = x.1) || bool_decide (y.2 < x.2)) l) l.

#[export] Instance geo_maps : Geo geo_state := {
  g_GeoAdd key lon lat m g :=
    (Ok (), mkGeoState (<[key := <[m := (lon, lat)]> (geo_set g key)]> (geo_sets g)) (geo_timelines g));
  g_ZAdd key s m g :=
    (Ok (), mkGeoState (geo_sets g) (<[key := <[m := s]> (geo_timeline g key)]> (geo_timelines g)));
  g_ZRange_last key g :=
    (Ok match greatest (map_to_list (geo_timeline g key)) with Some (m, _) => [m] | None => [] end, g);
  g_GeoPos key m g := (Ok [geo_set g key !! m], g);
  g_Expire key ttl g := (Ok (), g)
}.

Lemma greatest_spec l m s : (m, s) ∈ l -> (forall m' s', (m', s') ∈ l -> m' = m \/ s' < s) ->
  exists s', greatest l = Some (m, s').
Proof.
  intros Hin Hmax. unfold greatest. destruct (List.find _ l) as [[m' s']|] eqn:Hf.
  - apply List.find_some in Hf as [Hin'%list_elem_of_In Hall]. rewrite List.forallb_forall in Hall.
    apply list_elem_of_In in Hin. specialize (Hall (m, s) Hin). cbn in Hall.
    apply orb_true_iff in Hall as [Hm%bool_decide_eq_true|Hs%bool_decide_eq_true]; [subst; by eexists|].
    destruct (Hmax m' s' Hin') as [->|]; [by eexists|lia].
  - apply list_elem_of_In in Hin as Hin'. apply (List.find_none _ _ Hf) in Hin'. cbn in Hin'.
    rewrite (proj2 (List.forallb_forall _ _)) in Hin'; [done|]. intros [m' s'] Hy%list_elem_of_In. cbn.
    apply orb_true_iff. rewrite !bool_decide_eq_true. by apply Hmax.
Qed.

#[export] Instance geo_maps_laws : GeoLaws geo_state.
Proof.
  refine {| quantize := fun p => p; positions := fun g key m => geo_set g key !! m; scores := geo_timeline |}.
  - intros key lon lat m g. eexists. split; [done|]. split; [|done]. intros key' m'. unfold geo_set at 1. cbn.
    rewrite lookup_insert. case_decide as Hk; cbn.
    + subst key'. rewrite lookup_insert. repeat case_decide; try done; naive_solver.
    + rewrite decide_False; [done|naive_solver].
  - intros key s m g. eexists. split; [done|]. split; [done|]. unfold geo_timeline at 1. cbn. by rewrite lookup_insert_eq.
  - intros key g m s Hm Hmax. cbn.
    destruct (greatest_spec (map_to_list (geo_timeline g key)) m s) as [s' ->]; [by apply elem_of_map_to_list| |done].
    intros m' s'' Hin%elem_of_map_to_list. by apply Hmax.
  - done.
  - intros key ttl g. by exists g.
Defined.

Section Witnesses.
Definition demo_flow_state : flow_state :=
  <["username" := FVString "alice"]> {["password" := FVString "wrong"]}.
Definition demo_risk (ac : AuthContext) : prog () error (float64 * string) := mret (fone, RiskLevelMedium).
Definition demo_respond (input : ActionInput) : prog () error bool := mret false.

Lemma standard_flow_decides_witness :
  exists st', workflow_Execute (NewAuthWorkflow demo_risk demo_respond 0 ∅) "standard_auth_flow" ((), demo_flow_state) =
      (Ok st', ((), st')) /\
    st' !! "tokens" = Some (FVToken "dummy-access-token" "Bearer") /\ st' !! "mfa_required" = Some (FVBool true).
Proof.
  destruct (standard_flow_decides demo_risk demo_respond 0 () demo_flow_state "alice" (FVString "wrong") fone
    RiskLevelMedium false () ()) as [_ Hflow].
  destruct (Hflow eq_refl eq_refl eq_refl eq_refl) as (_ & _ & Hok).
  destruct (Hok eq_refl ltac:(discriminate)) as (st' & Hrun & Htok & Hmfa & _).
  exact (ex_intro _ st' (conj Hrun (conj Htok Hmfa))).
Defined.

Definition demo_input : ActionInput := mkInput "alice" "192.0.2.7" "" fone ∅.
Definition demo_policies : list ResponsePolicy :=
  [mkResponse "critical" (fconst 4503599627370496 (-53)) ["lock_user"; "block_ip"; "kill_session"] true].
Definition demo_world : redis_state * gmap string string := (mkRedis ∅ ∅, {["alice" := "active"]}).

Lemma responses_any_order_witness :
  row_status demo_world.2 "alice" <> None /\
  exists w', automator_Execute reverse (all_actions 0) demo_policies demo_input demo_world = (Ok true, w') /\
    IPBlacklist 1 "192.0.2.7" w'.1 = (Ok false, w'.1).
Proof.
  assert (row_status demo_world.2 (in_UserID demo_input) <> None) as Hrow by discriminate. split; [exact Hrow|].
  destruct (responses_any_order 0 reverse demo_policies demo_input demo_world)
    as (blocked & w' & Hrun & Hb & Hdone); [intros l; apply reverse_Permutation|discriminate|discriminate|exact Hrow|].
  assert (blocked = true) as ->.
  { apply Hb. split; [|exists (mkResponse "critical" (fconst 4503599627370496 (-53)) ["lock_user"; "block_ip"; "kill_session"] true), "lock_user"];
      [exists (mkResponse "critical" (fconst 4503599627370496 (-53)) ["lock_user"; "block_ip"; "kill_session"] true)|].
    - split; [apply list_elem_of_here|reflexivity].
    - split; [apply list_elem_of_here|]. split; [apply list_elem_of_here|]. vm_compute. by eexists. }
  exists w'. split; [exact Hrun|].
  apply (Hdone (mkResponse "critical" (fconst 4503599627370496 (-53)) ["lock_user"; "block_ip"; "kill_session"] true) "block_ip");
    [apply list_elem_of_here|apply list_elem_of_further, list_elem_of_here|reflexivity|reflexivity].
Defined.

Lemma block_misses_ports_witness :
  exists w', action_Execute (BlockIPAction 0) demo_input demo_world = (Ok (), w') /\
    IPBlacklist 1 ("192.0.2.7" +:+ ":" +:+ "50000") w'.1 = (Ok true, w'.1).
Proof.
  destruct (block_misses_ports 0 demo_input demo_world "50000" 1) as (w' & Hrun & Hpass); [discriminate|reflexivity|].
  exact (ex_intro _ w' (conj Hrun Hpass)).
Defined.

Definition demo_login : AuthContext := mkAuthContext "alice" "10.0.0.1" "" (5 * Second + 7) "" false.
Definition demo_float (x : float64) : float64 := x.
Lemma travel_after_login_witness :
  latest (mkGeoState ∅ ∅) "alice" 5 /\
  exists g', risk_background (fun _ => None) demo_login (mkGeoState ∅ ∅) = (Ok (), g').
Proof.
  assert (latest (mkGeoState ∅ ∅) "alice" (Unix (ac_Timestamp demo_login))) as Hl by (intros m s Hm; discriminate Hm).
  split; [exact Hl|].
  destruct (travel_after_login demo_float demo_float demo_float (fun x _ => x) (fun _ => None) demo_login (mkGeoState ∅ ∅))
    as (g' & Hrun & _); [discriminate|exact Hl|split; [discriminate|reflexivity]|].
  exact (ex_intro _ g' Hrun).
Defined.
End Witnesses.
