(* ===== verification/Platform.v ===== *)
(** * API keys, rate limits and quotas

    - internal/services/platform/apikey_service.go and internal/domain/apikey:
      the keys applications authenticate with, and the middleware that checks
      them (internal/server/middleware/apikey_auth.go);
    - internal/server/middleware/ratelimit.go: the fixed-window rate limit, a
      Lua script that Redis runs atomically;
    - internal/multitenant/quota_manager.go: the quotas of tenants.

    Random bytes, bcrypt, the calendar and the tables of the database are
    arguments. *)

From stdpp Require Import sorting.
From S2P Require Import Prelude Types GoStd GoText Redis.
From Stdlib Require Import Ascii.
Local Open Scope Z_scope.

(** ** Hexadecimal *)
Definition hex_digit (n : Z) : ascii :=
  default "0"%char (String.get (Z.to_nat n) "0123456789abcdef").
Definition hex_EncodeToString (bytes : list Z) : string :=
  foldr (fun b s => String (hex_digit (b / 16)) (String (hex_digit (b mod 16)) s)) "" bytes.

Lemma hex_length bytes : String.length (hex_EncodeToString bytes) = (2 * length bytes)%nat.
Proof.
  unfold hex_EncodeToString. induction bytes as [|b bytes IH]; [done|]. cbn [foldr String.length length]. lia.
Qed.

(** ** Keys (internal/domain/apikey/model.go) *)
Record APIKey := mkAPIKey {
  key_ID : string;
  key_AppID : string;
  key_KeyID : string;
  key_KeyHash : string;
  key_Prefix : string;
  key_Scopes : list string;
  key_ExpiresAt : option time;
  key_Revoked : bool;
  key_CreatedAt : time;
  key_UpdatedAt : time
}.

Record RateLimitPolicy := mkRateLimitPolicy { rl_AppID : string; rl_Limit : Z; rl_Window : Z }.

Definition revoke_key (now : time) (k : APIKey) : APIKey :=
  mkAPIKey (key_ID k) (key_AppID k) (key_KeyID k) (key_KeyHash k) (key_Prefix k) (key_Scopes k)
    (key_ExpiresAt k) true (key_CreatedAt k) now.

(** The operations of the key repository that the program calls; writing
    reads the clock, for the times of creation and of the last change. *)
Class APIKeyRepository (R : Type) := {
  kr_Create : time -> APIKey -> prog R error unit;
  kr_GetByID : string -> prog R error APIKey;
  kr_GetByKeyID : string -> prog R error APIKey;
  kr_Update : time -> APIKey -> prog R error unit;
  kr_GetRateLimitPolicy : string -> prog R error (option RateLimitPolicy)
}.

Section Keys.
Context `{APIKeyRepository R}.
Context (rand : nat -> Z -> res error (list Z)) (bcrypt_hash : string -> res error string).
Context (bcrypt_compare : string -> string -> bool).
Notation ks A := (prog (R * errvars) error A).

Definition on_keys {A} (m : prog R error A) : ks A := zoom fst (fun r w => (r, w.2)) m.

(** [return types.ErrInternal.WithCause(err)] *)
Definition or_internal_error {A} (m : ks A) : ks A :=
  answer ← try m;
  match answer with
  | inr x => mret x
  | inl err => modify (fun w => (w.1, WithCause w.2 ErrInternal err)) ;; throw (Sentinel ErrInternal)
  end.

(** The bytes of the key identifier, of the secret and of the internal
    identifier, whose error is not looked at. *)
Definition generateID : res error string :=
  match rand 2%nat 16 with
  | Ok b => Ok (hex_EncodeToString b)
  | Err _ => Ok (hex_EncodeToString (replicate 16 0))
  | Panic => Panic
  | Diverge => Diverge
  end.

Definition default_prefix (prefix : string) : string := if bool_decide (prefix = "") then "qid_live_" else prefix.

Definition GenerateKey (now : time) (appID prefix : string) (scopes : list string) (ttl : Z) : ks (string * APIKey) :=
  let prefix := default_prefix prefix in
  keyIDBytes ← or_internal_error (lift (rand 0%nat 8));
  let keyID := hex_EncodeToString keyIDBytes in
  secretBytes ← or_internal_error (lift (rand 1%nat 16));
  let secret := hex_EncodeToString secretBytes in
  let plaintextKey := prefix +:+ keyID +:+ secret in
  hashBytes ← or_internal_error (lift (bcrypt_hash plaintextKey));
  let expiresAt := if bool_decide (0 < ttl) then Some (now + ttl) else None in
  id ← lift generateID;
  let key := mkAPIKey id appID keyID hashBytes prefix scopes expiresAt false now now in
  or_internal_error (on_keys (kr_Create now key)) ;;
  mret (plaintextKey, key).

Definition randomPartLen : Z := 48.
Definition keyIDLen : Z := 16.

(** [plaintextKey[prefixLen : prefixLen+keyIDLen]] *)
Definition key_id_of (plaintextKey : string) : string :=
  String.substring (String.length plaintextKey - 48) 16 plaintextKey.

Definition ValidateKey (now : time) (plaintextKey : string) : ks APIKey :=
  let invalid := throw (Sentinel ErrInvalidToken) in
  if bool_decide (Z.of_nat (String.length plaintextKey) <= randomPartLen) then invalid
  else
    found ← try (on_keys (kr_GetByKeyID (key_id_of plaintextKey)));
    match found with
    | inl _ => invalid
    | inr key =>
        if key_Revoked key then invalid
        else if match key_ExpiresAt key with Some t => bool_decide (t < now) | None => false end then invalid
        else if negb (bcrypt_compare (key_KeyHash key) plaintextKey) then invalid
        else mret key
    end.

Definition GetRateLimitPolicy (appID : string) : ks (option RateLimitPolicy) :=
  on_keys (kr_GetRateLimitPolicy appID).

Definition RevokeKey (now : time) (id : string) : ks unit :=
  key ← on_keys (kr_GetByID id);
  on_keys (kr_Update now (revoke_key now key)).

(** The middleware: the application and its key go into the context. *)
Definition apikey_Execute (now : time) (apiKeyHeader : string) : ks (string + APIKey) :=
  if bool_decide (apiKeyHeader = "") then mret (inl "Missing API Key")
  else
    answer ← try (ValidateKey now apiKeyHeader);
    match answer with
    | inl _ => mret (inl "Invalid API Key")
    | inr key => mret (inr key)
    end.
End Keys.

(** ** Counters in Redis

    INCR keeps the lifetime of a counter, EXPIRE sets it; one that is not
    positive removes the key at once. *)
(** [fmt.Sscanf(countStr, "%d", &count)], whose error is ignored *)
Definition scan_int (s : string) : Z := default 0 (Sscanf_d s).

Class RedisCounters (C : Type) `{Redis C} := {
  r_Incr : time -> string -> prog C error Z;
  r_Expire : time -> string -> Z -> prog C error unit
}.

Class RedisCounterLaws (C : Type) `{RedisCounters C} `{!RedisLaws C} := {
  law_Incr_new c now k : kv c now k = None -> exists c', r_Incr now k c = (Ok 1, c') /\
    forall t k', now <= t -> kv c' t k' = if decide (k = k') then Some (pretty 1) else kv c t k';
  law_Incr c now k n : 0 <= n < 2 ^ 63 - 1 -> kv c now k = Some (pretty n) ->
    exists c', r_Incr now k c = (Ok (n + 1), c') /\
    forall t k', now <= t -> kv c' t k' =
      if decide (k = k') then (match kv c t k' with Some _ => Some (pretty (n + 1)) | None => None end) else kv c t k';
  law_Expire c now k ttl : exists c', r_Expire now k ttl c = (Ok (), c') /\
    forall t k', now <= t -> kv c' t k' =
      if decide (k = k') then (if bool_decide (t < now + ttl) then kv c now k' else None) else kv c t k'
}.

(** ** The rate limit *)
Record rate_request := mkRateRequest { rr_AppID : option string; rr_RemoteAddr : string }.

(** [strings.LastIndex(s, ":")], the part before it *)
Fixpoint before_last_colon (s : string) : option string :=
  match s with
  | EmptyString => None
  | String c s =>
      match before_last_colon s with
      | Some p => Some (String c p)
      | None => if bool_decide (c = ":"%char) then Some "" else None
      end
  end.

Section RateLimit.
Context `{RedisCounters C}.
(** [GetRateLimitPolicy] of the key service, when there is one. *)
Context (policies : option (string -> res error (option RateLimitPolicy))).
Context (defaultLimit defaultWindow : Z).

(** The Lua script; the window counts seconds. *)
Definition redisRateLimitScript (now : time) (key : string) (limit window : Z) : prog C error Z :=
  current ← r_Incr now key;
  (if bool_decide (current = 1) then r_Expire now key (window * Second) else mret ()) ;;
  mret (if bool_decide (limit < current) then 0 else 1).

Definition app_of (r : rate_request) : string := default "" (rr_AppID r).
Definition rate_key (r : rate_request) : string :=
  if bool_decide (app_of r = "")
  then "ratelimit:ip:" +:+ default (rr_RemoteAddr r) (before_last_colon (rr_RemoteAddr r))
  else "ratelimit:app:" +:+ app_of r.

Definition rate_policy (r : rate_request) : res error (Z * Z) :=
  let defaults := (defaultLimit, defaultWindow) in
  if bool_decide (app_of r = "") then Ok defaults
  else
    match policies with
    | None => Ok defaults
    | Some lookup =>
        match lookup (app_of r) with
        | Ok (Some policy) => Ok (rl_Limit policy, rl_Window policy)
        | Ok None | Err _ => Ok defaults
        | Panic => Panic
        | Diverge => Diverge
        end
    end.

(** [None]: the request goes on; [Some window]: too many requests, retry after
    the window.  A failure of Redis lets the request pass. *)
Definition ratelimit_Execute (now : time) (r : rate_request) : prog C error (option Z) :=
  '(limit, window) ← lift (rate_policy r);
  allowed ← try (redisRateLimitScript now (rate_key r) limit window);
  mret (match allowed with
        | inl _ => None
        | inr allowed => if bool_decide (allowed = 0) then Some window else None
        end).
End RateLimit.

(** ** Quotas *)
Record TenantQuotas := mkTenantQuotas { tq_MaxUsers : Z; tq_MaxApplications : Z; tq_MaxAPICallsPerDay : Z }.

Definition ErrQuotaExceeded : error := Errorf "quota exceeded".
Definition exceeded (what : string) (max : Z) : error :=
  Wrapf ("max " +:+ what +:+ " " +:+ pretty max +:+ " reached") ErrQuotaExceeded.

Section Quotas.
Context `{RedisCounters C} (config : gmap string TenantQuotas).
(** [SELECT count from a table WHERE tenant_id = ?] *)
Context (count_rows : string -> string -> res error Z).
(** [Format] with the layout of a date *)
Context (date_of : time -> string).

Definition check_rows (table what : string) (max : TenantQuotas -> Z) (tenantID : string) : res error unit :=
  match config !! tenantID with
  | None => Ok ()
  | Some quotas =>
      if bool_decide (max quotas <= 0) then Ok ()
      else
        match count_rows table tenantID with
        | Err err => Err (Wrapf ("failed to count " +:+ table +:+ ": ") err)
        | Ok count => if bool_decide (max quotas <= count) then Err (exceeded what (max quotas)) else Ok ()
        | Panic => Panic
        | Diverge => Diverge
        end
  end.

Definition CheckUserQuota : string -> res error unit := check_rows "users" "users" tq_MaxUsers.
Definition CheckApplicationQuota : string -> res error unit :=
  check_rows "applications" "applications" tq_MaxApplications.

Definition getAPIQuotaKey (now : time) (tenantID : string) : string :=
  "quota:api:" +:+ tenantID +:+ ":" +:+ date_of now.

Definition CheckAPICallQuota (now : time) (tenantID : string) : prog C error unit :=
  match config !! tenantID with
  | None => mret ()
  | Some quotas =>
      if bool_decide (tq_MaxAPICallsPerDay quotas <= 0) then mret ()
      else
        countStr ← try (r_Get now (getAPIQuotaKey now tenantID));
        match countStr with
        | inl err => if bool_decide (err = redis_Nil) then mret ()
                     else throw (Wrapf "failed to get api usage: " err)
        | inr countStr =>
            if bool_decide (tq_MaxAPICallsPerDay quotas <= scan_int countStr)
            then throw (exceeded "api calls" (tq_MaxAPICallsPerDay quotas)) else mret ()
        end
  end.

(** [now.Add(24 * time.Hour).Truncate(24 * time.Hour)]: days begin at
    multiples of 24 hours from the zero time, which is one of them from the
    epoch. *)
Definition Day : Z := 24 * Hour.
Definition next_day (now : time) : time := (now + Day) - (now + Day) mod Day.

Definition IncrementAPICall (now : time) (tenantID : string) : prog C error unit :=
  match config !! tenantID with
  | None => mret ()
  | Some quotas =>
      if bool_decide (tq_MaxAPICallsPerDay quotas <= 0) then mret ()
      else
        let key := getAPIQuotaKey now tenantID in
        newVal ← try (r_Incr now key);
        match newVal with
        | inl err => throw (Wrapf "failed to increment api usage: " err)
        | inr newVal =>
            (if bool_decide (newVal = 1)
             then try (r_Expire now key (next_day now - now)) ;; mret () else mret ()) ;;
            if bool_decide (tq_MaxAPICallsPerDay quotas < newVal)
            then throw (exceeded "api calls" (tq_MaxAPICallsPerDay quotas)) else mret ()
        end
  end.
End Quotas.

(** ** Facts *)

Lemma scan_int_pretty n : 0 <= n < 2 ^ 63 -> scan_int (pretty n) = n.
Proof. intros Hn. unfold scan_int. by rewrite Sscanf_d_pretty. Qed.

(** ** A window

    [window_open c now k n e]: from [now] on the counter stands at [n], until
    it expires at [e]. *)
Section Windows.
Context `{RedisCounterLaws C}.
Implicit Types c : C.

Definition window_open c (now : time) (k : string) (n : Z) (e : time) : Prop :=
  forall t, now <= t -> kv c t k = if bool_decide (t < e) then Some (pretty n) else None.

Lemma window_later c now now' k n e : now <= now' -> window_open c now k n e -> window_open c now' k n e.
Proof. intros Hle Hw t Ht. apply Hw. lia. Qed.

(** The first count opens the window. *)
Lemma incr_first c now k ttl :
  kv c now k = None -> exists c' c'', r_Incr now k c = (Ok 1, c') /\
    r_Expire now k ttl c' = (Ok (), c'') /\ window_open c'' now k 1 (now + ttl).
Proof.
  intros Hk. destruct (law_Incr_new c now k Hk) as (c' & Hrun & Hkv).
  destruct (law_Expire c' now k ttl) as (c'' & Hexp & Hkv''). exists c', c''.
  do 2 (split; [done|]). intros t Ht. rewrite Hkv'', decide_True by done.
  case_bool_decide; [|done]. rewrite Hkv by lia. by rewrite decide_True.
Qed.

(** Every further one adds to it and does not extend it. *)
Lemma incr_next c now k n e :
  0 <= n < 2 ^ 63 - 1 -> now < e -> window_open c now k n e ->
  exists c', r_Incr now k c = (Ok (n + 1), c') /\ window_open c' now k (n + 1) e.
Proof.
  intros Hn He Hw. destruct (law_Incr c now k n Hn) as (c' & Hrun & Hkv).
  { rewrite Hw by lia. by rewrite bool_decide_eq_true_2. }
  exists c'. split; [done|]. intros t Ht. rewrite Hkv, decide_True, Hw by done.
  by case_bool_decide.
Qed.

Lemma window_closed c now k n e : window_open c now k n e -> now <= e -> forall t, e <= t -> kv c t k = None.
Proof. intros Hw He t Ht. rewrite Hw by lia. by rewrite bool_decide_eq_false_2 by lia. Qed.
End Windows.

Section RateLimitFacts.
Context `{RedisCounterLaws C} (policies : option (string -> res error (option RateLimitPolicy))).
Context (defaultLimit defaultWindow : Z).
Implicit Types c : C.
Notation Execute := (ratelimit_Execute policies defaultLimit defaultWindow).

(** The requests of one client, one after the other. *)
Fixpoint run_requests (reqs : list (time * rate_request)) : prog C error (list (option Z)) :=
  match reqs with
  | [] => mret []
  | (now, r) :: reqs => v ← Execute now r; vs ← run_requests reqs; mret (v :: vs)
  end.

Definition verdict (limit window n : Z) : option Z := if bool_decide (limit < n) then Some window else None.

Lemma mw_Execute_run now r limit window n c c' :
  rate_policy policies defaultLimit defaultWindow r = Ok (limit, window) ->
  redisRateLimitScript now (rate_key r) limit window c = (Ok (if bool_decide (limit < n) then 0 else 1), c') ->
  Execute now r c = (Ok (verdict limit window n), c').
Proof.
  intros Hp Hs. unfold ratelimit_Execute. rewrite Hp. unfold lift, mbind at 1, prog_bind at 1.
  unfold try, mbind, prog_bind. rewrite Hs. unfold verdict. by destruct (bool_decide (limit < n)).
Qed.

Lemma run_requests_open k limit window e n reqs c now :
  0 < n -> n + Z.of_nat (length reqs) < 2 ^ 63 -> window_open c now k n e ->
  Forall (fun q => rate_policy policies defaultLimit defaultWindow q.2 = Ok (limit, window) /\
                   rate_key q.2 = k /\ q.1 < e) reqs ->
  StronglySorted Z.le (now :: reqs.*1) ->
  exists c' now', run_requests reqs c = (Ok ((fun i => verdict limit window (n + Z.of_nat i)) <$> seq 1 (length reqs)), c') /\
    window_open c' now' k (n + Z.of_nat (length reqs)) e /\ (now' = now \/ now' < e).
Proof.
  intros Hn Hlen Hw Hreqs Hsort. revert n c now Hn Hlen Hw Hsort.
  induction Hreqs as [|[t r] reqs (Hp & Hk & Ht) _ IH]; intros n c now Hn Hlen Hw Hsort.
  - exists c, now. cbn. rewrite Z.add_0_r. by split; [|split; [|left]].
  - cbn [length] in Hlen. cbn [fmap list_fmap fst snd] in *. inversion Hsort as [|? ? Hsort' Hnow]; subst.
    inversion Hnow as [|? ? Hnt _]; subst.
    destruct (incr_next c t (rate_key r) n e ltac:(lia) Ht (window_later _ _ _ _ _ _ Hnt Hw)) as (c1 & Hincr & Hw1).
    assert (Hrun : Execute t r c = (Ok (verdict limit window (n + 1)), c1)).
    { apply mw_Execute_run; [done|]. unfold redisRateLimitScript. rewrite (prog_bind_run _ _ _ _ _ Hincr).
      by rewrite (bool_decide_eq_false_2 (n + 1 = 1)) by lia. }
    destruct (IH (n + 1) c1 t ltac:(lia) ltac:(lia) Hw1 Hsort') as (c2 & now2 & Hrest & Hw2 & Hnow2).
    exists c2, now2. split; [|split].
    + cbn [run_requests]. rewrite (prog_bind_run _ _ _ _ _ Hrun), (prog_bind_run _ _ _ _ _ Hrest).
      unfold mret, prog_ret. do 2 f_equal. cbn [length seq fmap list_fmap]. f_equal.
      rewrite <-(fmap_S_seq 1). rewrite <-list_fmap_compose. apply list_fmap_ext. intros i j _. cbn. f_equal. lia.
    + cbn [length]. by replace (n + Z.of_nat (S (length reqs))) with (n + 1 + Z.of_nat (length reqs)) by lia.
    + right. destruct Hnow2 as [->|]; lia.
Qed.
End RateLimitFacts.

(** C18: The fixed window: of the requests of one client that begin with the
    first to open a window and lie within it, exactly the first [limit] pass
    and the others are told to come back after a window; once it is over the
    count begins anew. *)
Theorem rate_limit_window `{RedisCounterLaws C} policies defaultLimit defaultWindow k limit window t0 r0 reqs (c : C) :
  rate_policy policies defaultLimit defaultWindow r0 = Ok (limit, window) -> rate_key r0 = k ->
  0 < window -> kv c t0 k = None ->
  Forall (fun q => rate_policy policies defaultLimit defaultWindow q.2 = Ok (limit, window) /\
                   rate_key q.2 = k /\ q.1 < t0 + window * Second) reqs ->
  StronglySorted Z.le (t0 :: reqs.*1) -> Z.of_nat (length reqs) < 2 ^ 62 ->
  exists c', run_requests policies defaultLimit defaultWindow ((t0, r0) :: reqs) c =
      (Ok ((fun i => verdict limit window (Z.of_nat i)) <$> seq 1 (S (length reqs))), c') /\
    forall t, t0 + window * Second <= t -> kv c' t k = None.
Proof.
  intros Hp Hk Hwin Hnone Hreqs Hsort Hlen.
  assert (Hpos : 0 < window * Second) by (unfold Second; lia).
  destruct (incr_first c t0 k (window * Second) Hnone) as (c1 & c2 & Hincr & Hexp & Hw).
  assert (Hrun : ratelimit_Execute policies defaultLimit defaultWindow t0 r0 c = (Ok (verdict limit window 1), c2)).
  { apply mw_Execute_run; [done|]. unfold redisRateLimitScript. rewrite Hk, (prog_bind_run _ _ _ _ _ Hincr).
    rewrite (bool_decide_eq_true_2 (1 = 1)) by done. by rewrite (prog_bind_run _ _ _ _ _ Hexp). }
  destruct (run_requests_open policies defaultLimit defaultWindow k limit window (t0 + window * Second) 1 reqs c2 t0
    ltac:(lia) ltac:(lia) Hw Hreqs Hsort) as (c3 & now3 & Hrest & Hw3 & Hnow3).
  exists c3. split.
  - cbn [run_requests]. rewrite (prog_bind_run _ _ _ _ _ Hrun), (prog_bind_run _ _ _ _ _ Hrest).
    unfold mret, prog_ret. do 2 f_equal. cbn [seq fmap list_fmap]. f_equal.
    rewrite <-(fmap_S_seq 1), <-list_fmap_compose. apply list_fmap_ext. intros i j _. cbn. f_equal. lia.
  - apply (window_closed _ _ _ _ _ Hw3). destruct Hnow3; lia.
Qed.

(** ** Quotas of calls *)
Section QuotaFacts.
Context `{RedisCounterLaws C} (config : gmap string TenantQuotas) (date_of : time -> string).
Implicit Types c : C.

Fixpoint run_calls (tenantID : string) (times : list time) : prog C error (list (res error unit)) :=
  match times with
  | [] => mret []
  | now :: times =>
      v ← try (IncrementAPICall config date_of now tenantID);
      vs ← run_calls tenantID times;
      mret ((match v with inl err => Err err | inr _ => Ok () end) :: vs)
  end.

Definition call_verdict (max n : Z) : res error unit :=
  if bool_decide (max < n) then Err (exceeded "api calls" max) else Ok ().

Lemma next_day_bounds now : now < next_day now <= now + Day.
Proof.
  unfold next_day. pose proof (Z.mod_pos_bound (now + Day) Day ltac:(unfold Day, Hour, Minute, Second; lia)). lia.
Qed.

Lemma same_day now t : now <= t < next_day now -> t / Day = now / Day.
Proof.
  intros [Hle Hlt]. unfold next_day in Hlt.
  assert (HD : 0 < Day) by (unfold Day, Hour, Minute, Second; lia).
  pose proof (Z.div_mod (now + Day) Day ltac:(lia)) as Hdm.
  assert (Hdiv : (now + Day) / Day = now / Day + 1) by (rewrite <-(Z.mul_1_l Day) at 1; apply Z.div_add; lia).
  rewrite Hdiv in Hdm.
  assert (Hup : t < Day * (now / Day + 1)) by lia.
  assert (t / Day < now / Day + 1) by (apply Z.div_lt_upper_bound; lia).
  assert (now / Day <= t / Day) by (by apply Z.div_le_mono). lia.
Qed.

Lemma increment_run now tenantID quotas n c c' :
  config !! tenantID = Some quotas -> 0 < tq_MaxAPICallsPerDay quotas ->
  (newVal ← r_Incr now (getAPIQuotaKey date_of now tenantID);
   (if bool_decide (newVal = 1)
    then r_Expire now (getAPIQuotaKey date_of now tenantID) (next_day now - now) else mret ()) ;;
   mret newVal) c = (Ok n, c') ->
  try (IncrementAPICall config date_of now tenantID) c =
    (Ok (match call_verdict (tq_MaxAPICallsPerDay quotas) n with Err err => inl err | _ => inr () end), c').
Proof.
  intros Hq Hmax. unfold IncrementAPICall. rewrite Hq, bool_decide_eq_false_2 by lia. cbv zeta.
  unfold call_verdict, try, mbind, prog_bind. destruct (r_Incr now _ c) as [[m|err| |] c1]; try done.
  destruct (bool_decide (m = 1)).
  - destruct (r_Expire now _ _ c1) as [[[]|err| |] c2]; try done. intros [= <- <-]. by destruct (bool_decide _).
  - intros [= <- <-]. by destruct (bool_decide _).
Qed.

Lemma run_calls_open tenantID quotas k e n times c now :
  config !! tenantID = Some quotas -> 0 < tq_MaxAPICallsPerDay quotas ->
  0 < n -> n + Z.of_nat (length times) < 2 ^ 63 -> window_open c now k n e ->
  Forall (fun t => getAPIQuotaKey date_of t tenantID = k /\ t < e) times ->
  StronglySorted Z.le (now :: times) ->
  exists c' now', run_calls tenantID times c =
      (Ok ((fun i => call_verdict (tq_MaxAPICallsPerDay quotas) (n + Z.of_nat i)) <$> seq 1 (length times)), c') /\
    window_open c' now' k (n + Z.of_nat (length times)) e /\ now <= now' /\ (forall t, t ∈ times -> t <= now') /\
    (now' = now \/ now' ∈ times).
Proof.
  intros Hq Hmax Hn Hlen Hw Htimes. revert n c now Hn Hlen Hw.
  induction Htimes as [|t times (Hk & Ht) _ IH]; intros n c now Hn Hlen Hw Hsort.
  - exists c, now. cbn. rewrite Z.add_0_r. split; [done|]. split; [done|]. split; [done|].
    split; [|by left]. intros t Hin. by apply elem_of_nil in Hin.
  - cbn [length] in Hlen. inversion Hsort as [|? ? Hsort' Hnow]; subst. inversion Hnow as [|? ? Hnt _]; subst.
    set (k := getAPIQuotaKey date_of t tenantID) in *.
    destruct (incr_next c t k n e ltac:(lia) Ht (window_later _ _ _ _ _ _ Hnt Hw)) as (c1 & Hincr & Hw1).
    assert (Hrun := increment_run t tenantID quotas (n + 1) c c1 Hq Hmax). fold k in Hrun.
    rewrite (prog_bind_run _ _ _ _ _ Hincr), (bool_decide_eq_false_2 (n + 1 = 1)) in Hrun by lia.
    specialize (Hrun eq_refl).
    destruct (IH (n + 1) c1 t ltac:(lia) ltac:(lia) Hw1 Hsort') as (c2 & now2 & Hrest & Hw2 & Hle & Hall & Hnow2).
    exists c2, now2. split; [|split; [|split; [lia|split]]].
    + cbn [run_calls]. rewrite (prog_bind_run _ _ _ _ _ Hrun), (prog_bind_run _ _ _ _ _ Hrest).
      unfold mret, prog_ret. do 2 f_equal. cbn [length seq fmap list_fmap]. f_equal.
      * unfold call_verdict. by destruct (bool_decide _).
      * rewrite <-(fmap_S_seq 1), <-list_fmap_compose. apply list_fmap_ext. intros i j _. cbn. f_equal. lia.
    + cbn [length]. by replace (n + Z.of_nat (S (length times))) with (n + 1 + Z.of_nat (length times)) by lia.
    + intros t' [->|Hin]%elem_of_cons; [done|by apply Hall].
    + right. destruct Hnow2 as [->|]; [left|by right].
Qed.
End QuotaFacts.

(** The daily quota: of the calls a tenant makes within a day exactly the
    first [MaxAPICallsPerDay] are let through, and a check refuses the tenant
    from then until the end of that day. *)
Theorem daily_quota `{RedisCounterLaws C} config date_of tenantID quotas t0 times (c : C) :
  (forall t, t / Day = t0 / Day -> date_of t = date_of t0) ->
  config !! tenantID = Some quotas -> 0 < tq_MaxAPICallsPerDay quotas ->
  kv c t0 (getAPIQuotaKey date_of t0 tenantID) = None ->
  Forall (fun t => t < next_day t0) times -> StronglySorted Z.le (t0 :: times) ->
  Z.of_nat (length times) < 2 ^ 62 ->
  exists c', run_calls config date_of tenantID (t0 :: times) c =
      (Ok ((fun i => call_verdict (tq_MaxAPICallsPerDay quotas) (Z.of_nat i)) <$> seq 1 (S (length times))), c') /\
    forall t, t0 <= t < next_day t0 -> (forall t', t' ∈ times -> t' <= t) ->
      (CheckAPICallQuota config date_of t tenantID c').1 =
        if bool_decide (tq_MaxAPICallsPerDay quotas <= Z.of_nat (S (length times)))
        then Err (exceeded "api calls" (tq_MaxAPICallsPerDay quotas)) else Ok ().
Proof.
  intros Hdate Hq Hmax Hnone Htimes Hsort Hlen. set (k := getAPIQuotaKey date_of t0 tenantID) in *.
  assert (Hkey : forall t, t0 <= t < next_day t0 -> getAPIQuotaKey date_of t tenantID = k).
  { intros t Ht. unfold k, getAPIQuotaKey. by rewrite (Hdate t (same_day _ _ Ht)). }
  destruct (incr_first c t0 k (next_day t0 - t0) Hnone) as (c1 & c2 & Hincr & Hexp & Hw).
  replace (t0 + (next_day t0 - t0)) with (next_day t0) in Hw by lia.
  assert (Hrun := increment_run config date_of t0 tenantID quotas 1 c c2 Hq Hmax). fold k in Hrun.
  rewrite (prog_bind_run _ _ _ _ _ Hincr), (bool_decide_eq_true_2 (1 = 1)), (prog_bind_run _ _ _ _ _ Hexp) in Hrun by done.
  specialize (Hrun eq_refl).
  assert (Hall : Forall (fun t => getAPIQuotaKey date_of t tenantID = k /\ t < next_day t0) times).
  { inversion Hsort as [|? ? _ Hge]; subst. rewrite Forall_forall in Htimes, Hge |- *. intros t Ht.
    split; [apply Hkey; split; auto|auto]. }
  destruct (run_calls_open config date_of tenantID quotas k (next_day t0) 1 times c2 t0 Hq Hmax ltac:(lia) ltac:(lia) Hw Hall Hsort)
    as (c3 & now3 & Hrest & Hw3 & Hle & _ & Hin).
  exists c3. split.
  - cbn [run_calls]. rewrite (prog_bind_run _ _ _ _ _ Hrun), (prog_bind_run _ _ _ _ _ Hrest).
    unfold mret, prog_ret. do 2 f_equal. cbn [seq fmap list_fmap]. f_equal.
    + unfold call_verdict. by destruct (bool_decide _).
    + rewrite <-(fmap_S_seq 1), <-list_fmap_compose. apply list_fmap_ext. intros i j _. cbn. f_equal. lia.
  - intros t Ht Hlast. unfold CheckAPICallQuota. rewrite Hq, bool_decide_eq_false_2 by lia.
    rewrite (Hkey t Ht). unfold try, mbind, prog_bind. rewrite law_Get.
    assert (Hnow : now3 <= t) by (destruct Hin as [->|Hin]; [lia|by apply Hlast]).
    rewrite (Hw3 t Hnow), bool_decide_eq_true_2 by lia. cbn [fst].
    rewrite scan_int_pretty by lia.
    replace (1 + Z.of_nat (length times)) with (Z.of_nat (S (length times))) by lia. by case_bool_decide.
Qed.

(** ** What a key repository promises *)
Class APIKeyRepositoryLaws (R : Type) `{APIKeyRepository R} := {
  by_id : R -> string -> option APIKey;
  by_key_id : R -> string -> option APIKey;
  kl_GetByID r id : kr_GetByID id r =
    (match by_id r id with Some k => Ok k | None => Err (Sentinel ErrNotFound) end, r);
  kl_GetByKeyID r id : kr_GetByKeyID id r =
    (match by_key_id r id with Some k => Ok k | None => Err (Sentinel ErrNotFound) end, r);
  kl_Create r now k : by_id r (key_ID k) = None -> by_key_id r (key_KeyID k) = None ->
    key_CreatedAt k = now -> key_UpdatedAt k = now ->
    exists r', kr_Create now k r = (Ok (), r') /\
      (forall id, by_id r' id = if decide (key_ID k = id) then Some k else by_id r id) /\
      (forall id, by_key_id r' id = if decide (key_KeyID k = id) then Some k else by_key_id r id);
  kl_Update r now k k0 : by_id r (key_ID k) = Some k0 -> key_KeyID k0 = key_KeyID k -> by_key_id r (key_KeyID k) = Some k0 ->
    key_ID k <> "" -> key_UpdatedAt k = now ->
    exists r', kr_Update now k r = (Ok (), r') /\
      (forall id, by_id r' id = if decide (key_ID k = id) then Some k else by_id r id) /\
      (forall id, by_key_id r' id = if decide (key_KeyID k = id) then Some k else by_key_id r id)
}.

Section KeyFacts.
Context `{APIKeyRepositoryLaws R} (rand : nat -> Z -> res error (list Z)).
Context (bcrypt_hash : string -> res error string) (bcrypt_compare : string -> string -> bool).
Implicit Types r : R.

Lemma on_keys_run {A} (m : prog R error A) a r r' vs : m r = (a, r') -> on_keys m (r, vs) = (a, (r', vs)).
Proof. unfold on_keys, zoom. cbn. by intros ->. Qed.

Lemma or_internal_error_ok {A} (m : prog (R * errvars) error A) w x w' :
  m w = (Ok x, w') -> or_internal_error m w = (Ok x, w').
Proof. unfold or_internal_error, mbind, prog_bind, try. by intros ->. Qed.

(** Who a key lets in. *)
Definition valid_key (now : time) (plaintextKey : string) r (k : APIKey) : Prop :=
  48 < Z.of_nat (String.length plaintextKey) /\ by_key_id r (key_id_of plaintextKey) = Some k /\
  key_Revoked k = false /\ (forall t, key_ExpiresAt k = Some t -> now <= t) /\
  bcrypt_compare (key_KeyHash k) plaintextKey = true.

Lemma ValidateKey_run now plaintextKey r vs :
  (exists k, valid_key now plaintextKey r k /\ ValidateKey bcrypt_compare now plaintextKey (r, vs) = (Ok k, (r, vs))) \/
  ((forall k, ~ valid_key now plaintextKey r k) /\
   ValidateKey bcrypt_compare now plaintextKey (r, vs) = (Err (Sentinel ErrInvalidToken), (r, vs))).
Proof.
  unfold ValidateKey, valid_key. cbv zeta.
  destruct (bool_decide_reflect (Z.of_nat (String.length plaintextKey) <= randomPartLen)) as [Hl|Hl];
    unfold randomPartLen in Hl; [right; split; [|done]; intros k (? & _); lia|].
  unfold try, mbind, prog_bind.
  rewrite (on_keys_run _ _ _ _ vs (kl_GetByKeyID r (key_id_of plaintextKey))).
  destruct (by_key_id r (key_id_of plaintextKey)) as [k|] eqn:Hk;
    [|right; split; [|done]; by intros k (_ & ? & _)].
  destruct (key_Revoked k) eqn:Hrev; [right; split; [|done]; intros k' (_ & [= <-] & ? & _); congruence|].
  destruct (match key_ExpiresAt k with Some t => bool_decide (t < now) | None => false end) eqn:Hexp.
  { right. split; [|done]. intros k' (_ & [= <-] & _ & Hle & _). destruct (key_ExpiresAt k) as [t|]; [|done].
    apply bool_decide_eq_true in Hexp. specialize (Hle t eq_refl). lia. }
  destruct (bcrypt_compare (key_KeyHash k) plaintextKey) eqn:Hc; cbn [negb].
  - left. exists k. split; [|done]. split; [lia|]. split; [done|]. split; [done|]. split; [|done].
    intros t Ht. rewrite Ht in Hexp. apply bool_decide_eq_false in Hexp. lia.
  - right. split; [|done]. intros k' (_ & [= <-] & _ & _ & ?). congruence.
Qed.

(** The identifier is found again in the key it is part of. *)
Lemma key_id_of_key prefix keyID secret :
  String.length keyID = 16%nat -> String.length secret = 32%nat ->
  key_id_of (prefix +:+ keyID +:+ secret) = keyID.
Proof.
  intros Hk Hs. unfold key_id_of. rewrite !string_length_app, Hk, Hs.
  replace (String.length prefix + (16 + 32) - 48)%nat with (String.length prefix) by lia. rewrite <-Hk.
  induction prefix as [|ch prefix IH]; [exact (substring_prefix keyID secret)|exact IH].
Qed.
End KeyFacts.

(** C16: The life of a key: what [GenerateKey] hands out - the prefix and 48
    hexadecimal digits - is accepted until its lifetime is over, by whoever
    presents it, and neither later nor after it was revoked; validation
    changes nothing. *)
Theorem api_key_lifecycle `{APIKeyRepositoryLaws R} rand bcrypt_hash bcrypt_compare now appID prefix scopes ttl
    idBytes keyBytes secretBytes hash (r : R) vs :
  rand 0%nat 8 = Ok keyBytes -> length keyBytes = 8%nat ->
  rand 1%nat 16 = Ok secretBytes -> length secretBytes = 16%nat -> rand 2%nat 16 = Ok idBytes -> length idBytes = 16%nat ->
  let plaintext := default_prefix prefix +:+ hex_EncodeToString keyBytes +:+ hex_EncodeToString secretBytes in
  bcrypt_hash plaintext = Ok hash -> bcrypt_compare hash plaintext = true ->
  by_id r (hex_EncodeToString idBytes) = None -> by_key_id r (hex_EncodeToString keyBytes) = None ->
  exists key r', GenerateKey rand bcrypt_hash now appID prefix scopes ttl (r, vs) = (Ok (plaintext, key), (r', vs)) /\
    key_AppID key = appID /\ key_Scopes key = scopes /\
    (forall t, (0 < ttl -> t <= now + ttl) ->
       ValidateKey bcrypt_compare t plaintext (r', vs) = (Ok key, (r', vs))) /\
    (forall t, 0 < ttl -> now + ttl < t ->
       ValidateKey bcrypt_compare t plaintext (r', vs) = (Err (Sentinel ErrInvalidToken), (r', vs))) /\
    (forall t, exists r'', RevokeKey t (key_ID key) (r', vs) = (Ok (), (r'', vs)) /\
       forall t', ValidateKey bcrypt_compare t' plaintext (r'', vs) = (Err (Sentinel ErrInvalidToken), (r'', vs))).
Proof.
  intros Hr0 Hl0 Hr1 Hl1 Hr2 Hl2 plaintext Hhash Hcmp Hid Hkid.
  set (expiresAt := if bool_decide (0 < ttl) then Some (now + ttl) else None).
  set (key := mkAPIKey (hex_EncodeToString idBytes) appID (hex_EncodeToString keyBytes) hash (default_prefix prefix)
                scopes expiresAt false now now).
  destruct (kl_Create r now key Hid Hkid eq_refl eq_refl) as (r' & Hcr & Hby & Hkey).
  exists key, r'. split; [|split; [done|split; [done|]]].
  { unfold GenerateKey. cbv zeta.
    rewrite (prog_bind_run _ _ _ keyBytes (r, vs)) by (apply or_internal_error_ok; unfold lift; by rewrite Hr0).
    rewrite (prog_bind_run _ _ _ secretBytes (r, vs)) by (apply or_internal_error_ok; unfold lift; by rewrite Hr1).
    fold plaintext. rewrite (prog_bind_run _ _ _ hash (r, vs)) by (apply or_internal_error_ok; unfold lift; by rewrite Hhash).
    rewrite (prog_bind_run _ _ _ (hex_EncodeToString idBytes) (r, vs)) by (unfold lift, generateID; by rewrite Hr2).
    fold expiresAt key.
    by rewrite (prog_bind_run _ _ _ () (r', vs)) by (by apply or_internal_error_ok, on_keys_run). }
  assert (Hlen : String.length (hex_EncodeToString keyBytes) = 16%nat /\ String.length (hex_EncodeToString secretBytes) = 32%nat)
    by (rewrite !hex_length; lia).
  assert (Hpref : (0 < String.length (default_prefix prefix))%nat).
  { unfold default_prefix. destruct (bool_decide_reflect (prefix = "")) as [|Hne]; [cbn; lia|].
    destruct prefix; [done|cbn; lia]. }
  assert (Hkof : key_id_of plaintext = hex_EncodeToString keyBytes) by (apply key_id_of_key; apply Hlen).
  assert (Hlong : 48 < Z.of_nat (String.length plaintext)).
  { unfold plaintext. rewrite !string_length_app. lia. }
  split; [|split].
  - intros t Ht.
    assert (Hv : valid_key bcrypt_compare t plaintext r' key).
    { split; [done|]. rewrite Hkof, Hkey, decide_True by done. do 2 (split; [done|]). split; [|done].
      intros e. cbn [key_ExpiresAt key]. unfold expiresAt. case_bool_decide; [|done]. intros [= <-]. auto. }
    destruct (ValidateKey_run bcrypt_compare t plaintext r' vs) as [(k & Hk & Hrun)|[Hno _]]; [|by destruct (Hno key)].
    destruct Hv as (_ & Hv & _), Hk as (_ & Hk & _). congruence.
  - intros t Httl Ht.
    destruct (ValidateKey_run bcrypt_compare t plaintext r' vs) as [(k & (_ & Hk & _ & Hexp & _) & _)|[_ Hrun]]; [|done].
    rewrite Hkof, Hkey, decide_True in Hk by done. injection Hk as <-.
    specialize (Hexp (now + ttl)). cbn [key_ExpiresAt key] in Hexp. unfold expiresAt in Hexp.
    rewrite bool_decide_eq_true_2 in Hexp by done. specialize (Hexp eq_refl). lia.
  - intros t. unfold RevokeKey.
    assert (Hk1 : by_id r' (key_ID key) = Some key) by (by rewrite Hby, decide_True).
    pose proof (kl_GetByID r' (key_ID key)) as Hget. rewrite Hk1 in Hget.
    destruct (kl_Update r' t (revoke_key t key) key) as (r'' & Hup & _ & Hkey'');
      [done|done|by cbn; rewrite Hkey, decide_True| |done|].
    { cbn [revoke_key key key_ID]. intros He. pose proof (hex_length idBytes) as Hhex. rewrite He, Hl2 in Hhex. done. }
    exists r''. split.
    + rewrite (prog_bind_run _ _ _ _ _ (on_keys_run _ _ _ _ _ Hget)). by apply on_keys_run.
    + intros t'. destruct (ValidateKey_run bcrypt_compare t' plaintext r'' vs) as [(k & (_ & Hk & Hrev & _) & _)|[_ Hrun]]; [|done].
      rewrite Hkof, Hkey'' in Hk. cbn [revoke_key key_KeyID key] in Hk. rewrite decide_True in Hk by done.
      by injection Hk as <-.
Qed.

(** A key is accepted exactly when it is long enough, its identifier is
    known, it is neither revoked nor expired and its hash matches the whole of
    it; every refusal is the same invalid-token error. *)
Theorem validate_key_decides `{APIKeyRepositoryLaws R} bcrypt_compare now plaintext (r : R) vs :
  (forall k, ValidateKey bcrypt_compare now plaintext (r, vs) = (Ok k, (r, vs)) <->
             valid_key bcrypt_compare now plaintext r k) /\
  ((forall k, ~ valid_key bcrypt_compare now plaintext r k) ->
   ValidateKey bcrypt_compare now plaintext (r, vs) = (Err (Sentinel ErrInvalidToken), (r, vs))).
Proof.
  destruct (ValidateKey_run bcrypt_compare now plaintext r vs) as [(k & Hk & Hrun)|[Hno Hrun]]; rewrite Hrun.
  - split; [|intros Hno; by destruct (Hno k)]. intros k'. split; [by intros [= <-]|].
    intros (_ & Hk' & _). destruct Hk as (_ & Hk & _). congruence.
  - split; [|done]. intros k. split; [done|]. intros Hk. by destruct (Hno k).
Qed.

(** ** Reference implementations *)
#[export] Instance memory_counters : RedisCounters redis_state := {
  r_Incr now k c :=
    match rd_kv c now k, rd_values c !! k with
    | Some v, Some (_, since, ttl) =>
        if bool_decide (pretty (scan_int v) = v /\ scan_int v < 2 ^ 63 - 1)
        then (Ok (scan_int v + 1), set_value k (pretty (scan_int v + 1)) since ttl c)
        else (Err (Errorf "ERR value is not an integer or out of range"), c)
    | _, _ => (Ok 1, set_value k (pretty 1) now 0 c)
    end;
  r_Expire now k ttl c :=
    (Ok (), match rd_kv c now k with
            | Some v => if bool_decide (0 < ttl) then set_value k v now ttl c
                        else mkRedis (delete k (rd_values c)) (rd_zsets c)
            | None => c
            end)
}.

Lemma lives_later since ttl now t : now <= t -> lives since ttl now = false -> lives since ttl t = false.
Proof.
  unfold lives. rewrite !orb_false_iff, !bool_decide_eq_false. intros Hle [? ?]. split; [done|lia].
Qed.

Lemma rd_kv_later (c : redis_state) now t k : now <= t -> rd_kv c now k = None -> rd_kv c t k = None.
Proof.
  unfold rd_kv. intros Hle. destruct (rd_values c !! k) as [[[v since] ttl]|]; [|done].
  destruct (lives since ttl now) eqn:Hl; [done|]. by rewrite (lives_later _ _ _ _ Hle Hl).
Qed.

#[export] Instance memory_counter_laws : RedisCounterLaws redis_state.
Proof.
  split.
  - intros c now k Hk. change (rd_kv c now k = None) in Hk. eexists. split; [by cbn; rewrite Hk|].
    intros t k' _. change (rd_kv (set_value k (pretty 1) now 0 c) t k' = if decide (k = k') then Some (pretty 1) else rd_kv c t k').
    rewrite rd_kv_set. by case_decide.
  - intros c now k n Hn Hk. change (rd_kv c now k = Some (pretty n)) in Hk.
    destruct (rd_values c !! k) as [[[v since] ttl]|] eqn:Hv; [|unfold rd_kv in Hk; by rewrite Hv in Hk].
    eexists. split; [cbn; rewrite Hk, Hv, scan_int_pretty, bool_decide_eq_true_2 by (lia || (split; [done|lia])); reflexivity|].
    intros t k' _. change (rd_kv (set_value k (pretty (n + 1)) since ttl c) t k' =
      if decide (k = k') then match rd_kv c t k' with Some _ => Some (pretty (n + 1)) | None => None end else rd_kv c t k').
    rewrite rd_kv_set. case_decide as Heq; [|done]. subst k'. unfold rd_kv. rewrite Hv. by destruct (lives since ttl t).
  - intros c now k ttl. eexists. split; [done|]. intros t k' Ht.
    change (rd_kv (match rd_kv c now k with
            | Some v => if bool_decide (0 < ttl) then set_value k v now ttl c
                        else mkRedis (delete k (rd_values c)) (rd_zsets c)
            | None => c end) t k' =
      if decide (k = k') then (if bool_decide (t < now + ttl) then rd_kv c now k' else None) else rd_kv c t k').
    destruct (rd_kv c now k) as [v|] eqn:Hv.
    + destruct (bool_decide_reflect (0 < ttl)) as [Httl|Httl].
      * rewrite rd_kv_set. unfold lives. rewrite (bool_decide_eq_false_2 (ttl = 0)) by lia. cbn [orb].
        case_decide; [subst k'; by rewrite Hv|done].
      * unfold rd_kv at 1. cbn [rd_values]. rewrite lookup_delete. case_decide; [|done].
        by rewrite bool_decide_eq_false_2 by lia.
    + case_decide; [|done]. subst k'. rewrite Hv, (rd_kv_later c now t k Ht Hv). by case_bool_decide.
Defined.

(** A table of keys, with a unique index on the key identifier. *)
Record key_table := mkKeyTable { kt_ids : gmap string APIKey; kt_key_ids : gmap string APIKey }.
Definition put_key (k : APIKey) (t : key_table) : key_table :=
  mkKeyTable (<[key_ID k := k]> (kt_ids t)) (<[key_KeyID k := k]> (kt_key_ids t)).
#[export] Instance table_keys : APIKeyRepository key_table := {
  kr_Create _ k t :=
    match kt_ids t !! key_ID k, kt_key_ids t !! key_KeyID k with
    | None, None => (Ok (), put_key k t)
    | _, _ => (Err (Errorf "duplicate key"), t)
    end;
  kr_GetByID id t := (match kt_ids t !! id with Some k => Ok k | None => Err (Sentinel ErrNotFound) end, t);
  kr_GetByKeyID id t := (match kt_key_ids t !! id with Some k => Ok k | None => Err (Sentinel ErrNotFound) end, t);
  kr_Update _ k t := (Ok (), put_key k t);
  kr_GetRateLimitPolicy _ t := (Ok None, t)
}.
#[export] Instance table_key_laws : APIKeyRepositoryLaws key_table.
Proof.
  refine {| by_id t id := kt_ids t !! id; by_key_id t id := kt_key_ids t !! id |}.
  - done.
  - done.
  - intros t now k Hid Hk _ _. exists (put_key k t). split; [cbn; by rewrite Hid, Hk|].
    split; intros id; cbn; rewrite lookup_insert; by case_decide.
  - intros t now k k0 _ _ _ _ _. exists (put_key k t). split; [done|].
    split; intros id; cbn; rewrite lookup_insert; by case_decide.
Defined.

(** ** Examples *)
Definition demo_key_rand (i : nat) (n : Z) : res error (list Z) := Ok (replicate (Z.to_nat n) (171 + Z.of_nat i)).
Definition demo_bcrypt (s : string) : res error string := Ok ("hash " +:+ s).
Definition demo_bcrypt_compare (h s : string) : bool := bool_decide (h = "hash " +:+ s).
Definition demo_plaintext : string :=
  "qid_live_" +:+ hex_EncodeToString (replicate 8 171) +:+ hex_EncodeToString (replicate 16 172).

Lemma api_key_lifecycle_witness :
  exists key r', GenerateKey demo_key_rand demo_bcrypt 5 "shop" "" ["read"] 100 (mkKeyTable ∅ ∅, ∅) =
      (Ok (demo_plaintext, key), (r', ∅)) /\
    ValidateKey demo_bcrypt_compare 105 demo_plaintext (r', ∅) = (Ok key, (r', ∅)).
Proof.
  destruct (api_key_lifecycle demo_key_rand demo_bcrypt demo_bcrypt_compare 5 "shop" "" ["read"] 100
    (replicate 16 173) (replicate 8 171) (replicate 16 172) ("hash " +:+ demo_plaintext) (mkKeyTable ∅ ∅) ∅
    eq_refl eq_refl eq_refl eq_refl eq_refl eq_refl eq_refl eq_refl ltac:(done) ltac:(done))
    as (key & r' & Hgen & _ & _ & Hok & _ & _).
  exists key, r'. split; [exact Hgen|]. apply Hok. lia.
Defined.

Definition demo_key : APIKey := mkAPIKey "k1" "shop" "abababababababab" ("hash " +:+ demo_plaintext) "qid_live_" [] None false 0 0.
Lemma validate_key_decides_witness :
  ValidateKey demo_bcrypt_compare 7 "short" (put_key demo_key (mkKeyTable ∅ ∅), ∅) =
    (Err (Sentinel ErrInvalidToken), (put_key demo_key (mkKeyTable ∅ ∅), ∅)).
Proof.
  apply (proj2 (validate_key_decides demo_bcrypt_compare 7 "short" (put_key demo_key (mkKeyTable ∅ ∅)) ∅)).
  intros k (Hlen & _). by cbn in Hlen.
Defined.

Definition demo_rate_request : rate_request := mkRateRequest None "10.0.0.1:4242".
Lemma rate_limit_window_witness :
  exists c', run_requests None 2 60 [(0, demo_rate_request); (1, demo_rate_request); (59 * Second, demo_rate_request)]
      (mkRedis ∅ ∅) = (Ok [None; None; Some 60], c').
Proof.
  destruct (rate_limit_window None 2 60 "ratelimit:ip:10.0.0.1" 2 60 0 demo_rate_request
    [(1, demo_rate_request); (59 * Second, demo_rate_request)] (mkRedis ∅ ∅)) as (c' & Hrun & _).
  - done.
  - done.
  - done.
  - done.
  - repeat constructor.
  - repeat constructor; by vm_compute.
  - done.
  - exists c'. exact Hrun.
Defined.

Definition demo_quotas : gmap string TenantQuotas := {[ "t1" := mkTenantQuotas 0 0 2 ]}.
Lemma daily_quota_witness :
  exists c', run_calls demo_quotas (fun t => pretty (t / Day)) "t1" [0; 1; 2] (mkRedis ∅ ∅) =
      (Ok [Ok (); Ok (); Err (exceeded "api calls" 2)], c').
Proof.
  destruct (daily_quota demo_quotas (fun t => pretty (t / Day)) "t1" (mkTenantQuotas 0 0 2) 0 [1; 2] (mkRedis ∅ ∅))
    as (c' & Hrun & _).
  - by intros t ->.
  - done.
  - done.
  - done.
  - repeat constructor.
  - repeat constructor; by vm_compute.
  - done.
  - exists c'. exact Hrun.
Defined.
