(* ===== verification/Webhook.v ===== *)
(** * Webhooks

    - internal/domain/webhook/model.go, internal/services/webhook/service.go and
      internal/api/admin/webhook_handlers.go: subscriptions and their secrets;
    - internal/services/webhook/dispatcher.go: an event becomes delivery tasks;
    - internal/worker/webhook_sender.go: the bounded queue, signing, delivery
      and retries.

    The repository is a class with the laws of a table.  A delivery runs next
    to the rest of the program: what the others do to the repository while it
    sleeps is an argument, and so are the receiver's replies, the duration of a
    request, JSON and random bytes.  HMAC and SHA-256 are executable
    ([Hashes]). *)

From S2P Require Import Prelude Bytes Hashes Types GoStd Platform.
From stdpp Require Import pretty.
Local Open Scope Z_scope.

(** ** Subscriptions (internal/domain/webhook/model.go) *)
Record Subscription := mkSubscription {
  sub_ID : string;
  sub_URL : string;
  sub_Secret : string;
  sub_Events : list string;
  sub_Active : bool;
  sub_CreatedAt : time;
  sub_UpdatedAt : time
}.

Definition ErrSubscriptionNotFound : string := "SUBSCRIPTION_NOT_FOUND".

Class WebhookRepository (R : Type) := {
  wr_Create : Subscription -> prog R error unit;
  wr_GetByID : string -> prog R error Subscription;
  wr_List : prog R error (list Subscription);
  wr_Update : Subscription -> prog R error unit;
  wr_Delete : string -> prog R error unit;
  wr_FindByEventType : string -> prog R error (list Subscription)
}.

(** ** The service (internal/services/webhook/service.go) *)
Section Service.
Context `{WebhookRepository R} (rand : res error (list Z)).

Definition generateSecret : res error string := bytes ← rand; Ok (hex_EncodeToString bytes).

Definition CreateSubscription (uuid : string) (now : time) (url : string) (events : list string) :
    prog R error Subscription :=
  secret ← lift generateSecret;
  let sub := mkSubscription uuid url secret events true now now in
  wr_Create sub ;; mret sub.

Definition ListSubscriptions : prog R error (list Subscription) := wr_List.
Definition GetSubscription (id : string) : prog R error Subscription := wr_GetByID id.
Definition DeleteSubscription (id : string) : prog R error unit := wr_Delete id.

Definition with_secret (secret : string) (now : time) (s : Subscription) : Subscription :=
  mkSubscription (sub_ID s) (sub_URL s) secret (sub_Events s) (sub_Active s) (sub_CreatedAt s) now.

Definition RotateSecret (now : time) (id : string) : prog R error Subscription :=
  sub ← wr_GetByID id;
  newSecret ← lift generateSecret;
  let sub := with_secret newSecret now sub in
  wr_Update sub ;; mret sub.

(** ** The administration endpoints (internal/api/admin/webhook_handlers.go)

    What [json.Marshal] writes of a subscription: the secret is tagged "-". *)
Record SubscriptionJSON := mkSubscriptionJSON {
  js_id : string;
  js_url : string;
  js_events : list string;
  js_active : bool;
  js_created_at : time;
  js_updated_at : time
}.
Definition sub_json (s : Subscription) : SubscriptionJSON :=
  mkSubscriptionJSON (sub_ID s) (sub_URL s) (sub_Events s) (sub_Active s) (sub_CreatedAt s) (sub_UpdatedAt s).

Inductive admin_body : Type :=
  | AdminText (s : string)
  | AdminSubscription (s : SubscriptionJSON)
  | AdminSubscriptions (l : list SubscriptionJSON)
  | AdminNothing.

(** [http.Error(w, ...)] for a failed call, or else the answer *)
Definition or_failure {A} (m : prog R error A) (message : string) (answer : A -> Z * admin_body) :
    prog R error (Z * admin_body) :=
  done ← try m;
  match done with
  | inl _ => mret (500, AdminText message)
  | inr x => mret (answer x)
  end.

Definition admin_CreateSubscription (uuid : string) (now : time) (body : option (string * list string)) :
    prog R error (Z * admin_body) :=
  match body with
  | None => mret (400, AdminText "Invalid request body")
  | Some (url, events) =>
      or_failure (CreateSubscription uuid now url events) "Failed to create subscription"
        (fun sub => (201, AdminSubscription (sub_json sub)))
  end.
Definition admin_ListSubscriptions : prog R error (Z * admin_body) :=
  or_failure ListSubscriptions "Failed to list subscriptions"
    (fun subs => (200, AdminSubscriptions (sub_json <$> subs))).
Definition admin_DeleteSubscription (id : string) : prog R error (Z * admin_body) :=
  or_failure (DeleteSubscription id) "Failed to delete subscription" (fun _ => (204, AdminNothing)).
Definition admin_RotateSecret (now : time) (id : string) : prog R error (Z * admin_body) :=
  or_failure (RotateSecret now id) "Failed to rotate secret"
    (fun sub => (200, AdminSubscription (sub_json sub))).
End Service.

(** ** Deliveries *)
Record DeliveryTask (P : Type) := mkDeliveryTask {
  task_SubscriptionID : string;
  task_EventID : string;
  task_EventType : string;
  task_Payload : P;
  task_Attempt : Z;
  task_NextRetry : time
}.
Arguments mkDeliveryTask {P}.
Arguments task_SubscriptionID {P}.
Arguments task_EventID {P}.
Arguments task_EventType {P}.
Arguments task_Payload {P}.
Arguments task_Attempt {P}.
Arguments task_NextRetry {P}.

(** The request that is sent, with the headers the sender sets. *)
Record WebhookRequest := mkWebhookRequest {
  req_URL : string;
  req_Body : string;
  req_Signature : string;
  req_Timestamp : string;
  req_EventID : string;
  req_EventType : string
}.

Definition signPayload (secret body : string) (ts : Z) : string :=
  hex_EncodeToString (b2z <$> hmac_sha256 (str secret) (str (pretty ts +:+ "." +:+ body))).

(** [time.Time.Unix] *)
Definition Unix (t : time) : Z := t / Second.

Definition maxRetries : Z := 3.

Section Sender.
Context {P : Type} `{WebhookRepository R}.

(** ** The queue (webhook_sender.go, dispatcher.go) *)
Record dispatch_state := mkDispatch { ds_repo : R; ds_queue : list (DeliveryTask P) }.
Definition on_subscriptions {A} : prog R error A -> prog dispatch_state error A :=
  zoom ds_repo (fun r s => mkDispatch r (ds_queue s)).

(** [select] with a default: a task that finds the buffer full is dropped. *)
Definition Enqueue (queueSize : nat) (task : DeliveryTask P) : prog dispatch_state error unit :=
  modify (fun s => if bool_decide (length (ds_queue s) < queueSize)%nat
                   then mkDispatch (ds_repo s) (ds_queue s ++ [task]) else s).

Definition new_task (eventID eventType : string) (payload : P) (now : time) (sub : Subscription) : DeliveryTask P :=
  mkDeliveryTask (sub_ID sub) eventID eventType payload 0 now.

Definition Dispatch (queueSize : nat) (eventID : string) (now : time) (eventType : string) (payload : P) :
    prog dispatch_state error unit :=
  found ← try (on_subscriptions (wr_FindByEventType eventType));
  match found with
  | inl _ => mret ()
  | inr subs => for_each (fun sub => Enqueue queueSize (new_task eventID eventType payload now sub)) subs
  end.

(** ** One delivery *)
Context (json_Marshal : P -> option string) (valid_url : string -> bool).
(** The status of the reply to the n-th request of this goroutine, if there is
    one, and the time it takes. *)
Context (reply : nat -> option Z) (took : nat -> time).
(** What the rest of the program does to the repository during the back-off
    that precedes an attempt. *)
Context (others : Z -> R -> R).

Record delivery := mkDelivery { d_repo : R; d_clock : time; d_sent : list (time * WebhookRequest) }.

Definition on_table {A} : prog R error A -> prog delivery error A :=
  zoom d_repo (fun r w => mkDelivery r (d_clock w) (d_sent w)).
(** [time.Sleep] *)
Definition Sleep (d : Z) : prog delivery error unit :=
  modify (fun w => mkDelivery (d_repo w) (d_clock w + Z.max 0 d) (d_sent w)).
Definition meanwhile (attempt : Z) : prog delivery error unit :=
  modify (fun w => mkDelivery (others attempt (d_repo w)) (d_clock w) (d_sent w)).

Definition request_for (task : DeliveryTask P) (body : string) (sub : Subscription) (now : time) : WebhookRequest :=
  mkWebhookRequest (sub_URL sub) body (signPayload (sub_Secret sub) body (Unix now)) (pretty (Unix now))
    (task_EventID task) (task_EventType task).

(** [w.client.Do(req)] *)
Definition client_Do (req : WebhookRequest) : prog delivery error (option Z) :=
  w ← get;
  modify (fun w => mkDelivery (d_repo w) (d_clock w + took (length (d_sent w))) (d_sent w ++ [(d_clock w, req)])) ;;
  mret (reply (length (d_sent w))).

Definition delivered (status : option Z) : bool :=
  match status with Some c => bool_decide (200 <= c < 300) | None => false end.

(** The task of the next attempt, after [2^attempt] seconds. *)
Definition retry_task (task : DeliveryTask P) (now : time) : DeliveryTask P :=
  let attempt := task_Attempt task + 1 in
  mkDeliveryTask (task_SubscriptionID task) (task_EventID task) (task_EventType task) (task_Payload task)
    attempt (now + 2 ^ attempt * Second).

Fixpoint process (fuel : nat) (task : DeliveryTask P) : prog delivery error unit :=
  match fuel with
  | O => lift Diverge
  | S fuel =>
      found ← try (on_table (wr_GetByID (task_SubscriptionID task)));
      match found with
      | inl _ => mret ()
      | inr sub =>
          match json_Marshal (task_Payload task) with
          | None => mret ()
          | Some body =>
              w ← get;
              Sleep (task_NextRetry task - d_clock w) ;;
              w ← get;
              if negb (valid_url (sub_URL sub)) then mret () else
                status ← client_Do (request_for task body sub (d_clock w));
                if delivered status then mret ()
                else if bool_decide (task_Attempt task < maxRetries) then
                  w ← get;
                  let task := retry_task task (d_clock w) in
                  Sleep (2 ^ task_Attempt task * Second) ;;
                  meanwhile (task_Attempt task) ;;
                  process fuel task
                else mret ()
          end
      end
  end.

(** The worker takes the first task off the queue, and each task has a
    goroutine of its own. *)
Definition next_task (s : dispatch_state) : option (DeliveryTask P * dispatch_state) :=
  match ds_queue s with
  | task :: queue => Some (task, mkDispatch (ds_repo s) queue)
  | [] => None
  end.
End Sender.
Arguments dispatch_state : clear implicits.
Arguments delivery : clear implicits.

(** ** What a repository does

    [wr_row r id] is the row of the table with this key. *)
Class WebhookLaws (R : Type) `{WebhookRepository R} := {
  wr_row : R -> string -> option Subscription;
  law_sub_get r id : wr_GetByID id r =
    match wr_row r id with
    | Some s => (Ok s, r)
    | None => (Err (Sentinel ErrSubscriptionNotFound), r)
    end;
  law_sub_id r id s : wr_row r id = Some s -> sub_ID s = id;
  law_sub_create r s : wr_row r (sub_ID s) = None -> exists r', wr_Create s r = (Ok (), r') /\
    forall id, wr_row r' id = if decide (id = sub_ID s) then Some s else wr_row r id;
  law_sub_update r s : exists r', wr_Update s r = (Ok (), r') /\
    forall id, wr_row r' id = if decide (id = sub_ID s) then Some s else wr_row r id;
  law_sub_delete r id : exists r', wr_Delete id r = (Ok (), r') /\
    forall i, wr_row r' i = if decide (i = id) then None else wr_row r i;
  law_sub_find r t : exists l, wr_FindByEventType t r = (Ok l, r) /\ NoDup l /\
    forall s, s ∈ l <-> wr_row r (sub_ID s) = Some s /\ sub_Active s = true /\ t ∈ sub_Events s
}.

#[global] Instance Subscription_eq_dec : EqDecision Subscription.
Proof. solve_decision. Defined.

(** A table, every row under its own identifier. *)
Definition sub_table : Type := { m : gmap string Subscription | map_Forall (fun id s => sub_ID s = id) m }.

Lemma sub_insert_ok (m : gmap string Subscription) s :
  map_Forall (fun id s => sub_ID s = id) m -> map_Forall (fun id s => sub_ID s = id) (<[sub_ID s := s]> m).
Proof. intros Hm. by apply map_Forall_insert_2. Qed.
Lemma sub_delete_ok (m : gmap string Subscription) id :
  map_Forall (fun id s => sub_ID s = id) m -> map_Forall (fun id s => sub_ID s = id) (delete id m).
Proof. intros Hm. by apply map_Forall_delete. Qed.

Definition sub_put (s : Subscription) (t : sub_table) : sub_table :=
  exist _ (<[sub_ID s := s]> (proj1_sig t)) (sub_insert_ok _ s (proj2_sig t)).
Definition sub_drop (id : string) (t : sub_table) : sub_table :=
  exist _ (delete id (proj1_sig t)) (sub_delete_ok _ id (proj2_sig t)).

#[export] Instance table_subscriptions : WebhookRepository sub_table := {|
  wr_Create s := modify (sub_put s);
  wr_GetByID id := t ← get;
    match proj1_sig t !! id with Some s => mret s | None => throw (Sentinel ErrSubscriptionNotFound) end;
  wr_List := t ← get; mret (map_to_list (proj1_sig t)).*2;
  wr_Update s := modify (sub_put s);
  wr_Delete id := modify (sub_drop id);
  wr_FindByEventType e := t ← get;
    mret (filter (fun s => sub_Active s = true /\ e ∈ sub_Events s) (map_to_list (proj1_sig t)).*2)
|}.

#[export] Instance table_subscription_laws : WebhookLaws sub_table.
Proof.
  refine {| wr_row t id := proj1_sig t !! id |}.
  - intros r id. cbn. unfold mbind, prog_bind, get. by destruct (proj1_sig r !! id).
  - intros [m Hm] id s Hs. exact (Hm id s Hs).
  - intros r s _. exists (sub_put s r). split; [done|]. intros id. cbn. rewrite lookup_insert. by repeat case_decide; subst.
  - intros r s. exists (sub_put s r). split; [done|]. intros id. cbn. rewrite lookup_insert. by repeat case_decide; subst.
  - intros r id. exists (sub_drop id r). split; [done|]. intros i. cbn. rewrite lookup_delete. by repeat case_decide; subst.
  - intros [m Hm] t. eexists. split; [done|]. split.
    + apply NoDup_filter. apply NoDup_fmap_2_strong; [|apply NoDup_map_to_list].
      intros [i s] [j s'] Hi Hj Heq. cbn in Heq. subst s'.
      apply elem_of_map_to_list in Hi, Hj. pose proof (Hm i s Hi). pose proof (Hm j s Hj). congruence.
    + intros s. rewrite list_elem_of_filter, list_elem_of_fmap. cbn. split.
      * intros [[Ha He] ([i s'] & -> & Hi%elem_of_map_to_list)]. cbn. split; [|done].
        rewrite (Hm i s' Hi). exact Hi.
      * intros (Hs & Ha & He). split; [done|]. exists (sub_ID s, s). split; [done|]. by apply elem_of_map_to_list.
Defined.

(** ** Secrets *)
Section Secrets.
Context `{WebhookLaws R}.

Lemma hex_of_bytes (bytes : list Z) : generateSecret (Ok bytes) = Ok (hex_EncodeToString bytes).
Proof. done. Qed.

(** Creating a subscription stores it, active and with a secret drawn at
    random, and rotating its secret replaces the secret; neither answer depends
    on the secret.  Nothing that leaves the program tells the subscriber the
    key that deliveries are signed with. *)
Theorem secret_never_told (r : R) uuid now url events b1 b2 :
  wr_row r uuid = None ->
  let create b := admin_CreateSubscription (Ok b) uuid now (Some (url, events)) r in
  let stored b := mkSubscription uuid url (hex_EncodeToString b) events true now now in
  (create b1).1 = (create b2).1 /\
  (create b1).1 = Ok (201, AdminSubscription (mkSubscriptionJSON uuid url events true now now)) /\
  (forall id, wr_row (create b1).2 id = if decide (id = uuid) then Some (stored b1) else wr_row r id) /\
  (forall r' id s now', wr_row r' id = Some s ->
     let rotate b := admin_RotateSecret (Ok b) now' id r' in
     (rotate b1).1 = (rotate b2).1 /\
     (rotate b1).1 = Ok (200, AdminSubscription (sub_json (with_secret "" now' s))) /\
     (forall i, wr_row (rotate b1).2 i =
        if decide (i = id) then Some (with_secret (hex_EncodeToString b1) now' s) else wr_row r' i)).
Proof.
  intros Hnone create stored.
  assert (Hcreate : forall b, exists r', create b =
    (Ok (201, AdminSubscription (mkSubscriptionJSON uuid url events true now now)), r') /\
    forall id, wr_row r' id = if decide (id = uuid) then Some (stored b) else wr_row r id).
  { intros b. destruct (law_sub_create r (stored b) Hnone) as (r' & Hrun & Hrow). exists r'. split; [|exact Hrow].
    unfold create, admin_CreateSubscription, or_failure, CreateSubscription, try.
    rewrite hex_of_bytes. unfold mbind, prog_bind, lift. fold (stored b). by rewrite Hrun. }
  assert (Hrotate : forall b r' id s now', wr_row r' id = Some s -> exists r2,
    admin_RotateSecret (Ok b) now' id r' = (Ok (200, AdminSubscription (sub_json (with_secret "" now' s))), r2) /\
    forall i, wr_row r2 i = if decide (i = id) then Some (with_secret (hex_EncodeToString b) now' s) else wr_row r' i).
  { intros b r' id s now' Hs.
    destruct (law_sub_update r' (with_secret (hex_EncodeToString b) now' s)) as (r2 & Hrun & Hrow). exists r2. split.
    - unfold admin_RotateSecret, or_failure, RotateSecret, try, mbind, prog_bind. rewrite law_sub_get, Hs.
      rewrite hex_of_bytes. unfold lift. cbv beta iota. by rewrite Hrun.
    - intros i. rewrite Hrow. cbn [sub_ID with_secret]. by rewrite (law_sub_id _ _ _ Hs). }
  destruct (Hcreate b1) as (r1 & -> & Hrow1), (Hcreate b2) as (r2 & -> & _).
  split; [done|]. split; [done|]. split; [exact Hrow1|].
  intros r' id s now' Hs rotate. unfold rotate.
  destruct (Hrotate b1 r' id s now' Hs) as (r3 & -> & Hrow3), (Hrotate b2 r' id s now' Hs) as (r4 & -> & _).
  by split.
Qed.
End Secrets.

(** ** The queue *)
Section Queue.
Context {P : Type} `{WebhookLaws R}.

Lemma enqueue_all queueSize (f : Subscription -> DeliveryTask P) l (s : dispatch_state P R) :
  (length (ds_queue s) <= queueSize)%nat ->
  for_each (fun sub => Enqueue queueSize (f sub)) l s =
    (Ok (), mkDispatch (ds_repo s) (take queueSize (ds_queue s ++ (f <$> l)))).
Proof.
  revert s. induction l as [|sub l IH]; intros s Hs; cbn [for_each fmap list_fmap].
  - rewrite app_nil_r, take_ge by done. by destruct s.
  - destruct (decide (length (ds_queue s) < queueSize)%nat) as [Hfull|Hfull].
    + rewrite (prog_bind_run _ _ _ () (mkDispatch (ds_repo s) (ds_queue s ++ [f sub])))
        by (unfold Enqueue, modify; by rewrite bool_decide_eq_true_2).
      rewrite IH by (cbn; rewrite length_app; cbn; lia). cbn [ds_repo ds_queue].
      by rewrite <- app_assoc.
    + rewrite (prog_bind_run _ _ _ () s) by (unfold Enqueue, modify; by rewrite bool_decide_eq_false_2).
      rewrite IH by done. do 2 f_equal. assert (length (ds_queue s) = queueSize) as <- by lia.
      by rewrite !take_app_length.
Qed.

(** An event is queued once for every active subscription of its type, in
    the order of the repository, until the queue is full; the tasks that do not
    fit are dropped, and the queue never holds more than its size. *)
Theorem dispatch_queues queueSize eventID now eventType (payload : P) (s : dispatch_state P R) :
  (length (ds_queue s) <= queueSize)%nat ->
  exists subs, NoDup subs /\
    (forall sub, sub ∈ subs <->
       wr_row (ds_repo s) (sub_ID sub) = Some sub /\ sub_Active sub = true /\ eventType ∈ sub_Events sub) /\
    let tasks := new_task eventID eventType payload now <$> subs in
    Dispatch queueSize eventID now eventType payload s =
      (Ok (), mkDispatch (ds_repo s) (take queueSize (ds_queue s ++ tasks))) /\
    (length (take queueSize (ds_queue s ++ tasks)) <= queueSize)%nat /\
    (forall task, task ∈ tasks -> task_Attempt task = 0 /\ task_NextRetry task = now /\ task_EventID task = eventID).
Proof.
  intros Hs. destruct (law_sub_find (ds_repo s) eventType) as (subs & Hfind & Hnodup & Hin).
  exists subs. split; [done|]. split; [done|]. split; [|split].
  - unfold Dispatch. rewrite (prog_bind_run _ _ _ (inr subs) s).
    + by apply enqueue_all.
    + unfold try, on_subscriptions, zoom. rewrite Hfind. by destruct s.
  - rewrite length_take. lia.
  - by intros task (sub & -> & _)%list_elem_of_fmap.
Qed.
End Queue.

(** ** Deliveries *)
Section Delivery.
Context {P : Type} `{WebhookLaws R}.
Context (json_Marshal : P -> option string) (valid_url : string -> bool).
Context (reply : nat -> option Z) (took : nat -> time) (others : Z -> R -> R).
Notation deliver := (process json_Marshal valid_url reply took others).

(** The repository at the n-th attempt from [attempt] on. *)
Fixpoint repo_after (attempt : Z) (n : nat) (r : R) : R :=
  match n with
  | O => r
  | S n => repo_after (attempt + 1) n (others (attempt + 1) r)
  end.

(** Each request but the first is sent at least [2^k] seconds after the one
    before, for the k-th attempt. *)
Fixpoint spaced (attempt : Z) (last : time) (l : list (time * WebhookRequest)) : Prop :=
  match l with
  | [] => True
  | (t, _) :: l => last + 2 ^ attempt * Second <= t /\ spaced (attempt + 1) t l
  end.

(** One attempt, up to the decision what comes next. *)
Lemma process_attempt fuel (task : DeliveryTask P) (w : delivery R) sub body :
  let now := d_clock w + Z.max 0 (task_NextRetry task - d_clock w) in
  let req := request_for task body sub now in
  let n := length (d_sent w) in
  let w' := mkDelivery (d_repo w) (now + took n) (d_sent w ++ [(now, req)]) in
  let task' := retry_task task (now + took n) in
  wr_row (d_repo w) (task_SubscriptionID task) = Some sub -> json_Marshal (task_Payload task) = Some body ->
  valid_url (sub_URL sub) = true ->
  deliver (S fuel) task w =
    if delivered (reply n) then (Ok (), w')
    else if bool_decide (task_Attempt task < maxRetries)
      then deliver fuel task' (mkDelivery (others (task_Attempt task') (d_repo w))
             (now + took n + Z.max 0 (2 ^ task_Attempt task' * Second)) (d_sent w'))
      else (Ok (), w').
Proof.
  intros now req n w' task' Hrow Hbody Hurl. cbn [process].
  rewrite (prog_bind_run _ _ _ (inr sub) w)
    by (unfold try, on_table, zoom; rewrite law_sub_get, Hrow; by destruct w).
  rewrite Hbody, prog_get_bind, (prog_bind_run _ _ _ () (mkDelivery (d_repo w) now (d_sent w))) by done.
  rewrite prog_get_bind, Hurl. cbn [negb].
  rewrite (prog_bind_run _ _ _ (reply n) w') by done. destruct (delivered (reply n)); [done|].
  by case_bool_decide.
Qed.

Lemma process_stops fuel (task : DeliveryTask P) (w : delivery R) :
  wr_row (d_repo w) (task_SubscriptionID task) = None \/ json_Marshal (task_Payload task) = None ->
  deliver (S fuel) task w = (Ok (), w).
Proof.
  intros Hno. cbn [process]. unfold mbind, prog_bind, try, on_table, zoom. rewrite law_sub_get.
  destruct (wr_row (d_repo w) (task_SubscriptionID task)), (json_Marshal (task_Payload task));
    destruct w; by destruct Hno.
Qed.

Lemma process_bad_url fuel (task : DeliveryTask P) (w : delivery R) sub body :
  wr_row (d_repo w) (task_SubscriptionID task) = Some sub -> json_Marshal (task_Payload task) = Some body ->
  valid_url (sub_URL sub) = false ->
  exists now, deliver (S fuel) task w = (Ok (), mkDelivery (d_repo w) now (d_sent w)).
Proof.
  intros Hrow Hbody Hurl. eexists. cbn [process]. unfold mbind, prog_bind, try, on_table, zoom, get, Sleep, modify.
  rewrite law_sub_get, Hrow, Hbody, Hurl. reflexivity.
Qed.

(** What a delivery sends from a repository [r] and a time [start] on, after
    [k] requests of this goroutine. *)
Record delivery_history (task : DeliveryTask P) (r : R) (start : time) (k : nat)
    (new : list (time * WebhookRequest)) : Prop := {
  dh_bound : (length new <= S (Z.to_nat (maxRetries - task_Attempt task)))%nat;
  (** each request is made from the subscription as it is at that moment *)
  dh_requests : forall i t req, new !! i = Some (t, req) ->
    exists sub body, wr_row (repo_after (task_Attempt task) i r) (task_SubscriptionID task) = Some sub /\
      json_Marshal (task_Payload task) = Some body /\ req = request_for task body sub t;
  dh_times : match new with
             | [] => True
             | (t, _) :: rest => start <= t /\ task_NextRetry task <= t /\ spaced (task_Attempt task + 1) t rest
             end;
  (** a request is only followed by another when it failed *)
  dh_failures : forall i, (S i < length new)%nat -> delivered (reply (k + i)) = false;
  (** the last one succeeded, or was the last that is allowed, or none more
      could be made *)
  dh_end : (exists i, S i = length new /\ delivered (reply (k + i)) = true) \/
    length new = S (Z.to_nat (maxRetries - task_Attempt task)) \/
    (forall sub body, wr_row (repo_after (task_Attempt task) (length new) r) (task_SubscriptionID task) = Some sub ->
       json_Marshal (task_Payload task) = Some body -> valid_url (sub_URL sub) = false)
}.

Lemma history_nil task r start k :
  (forall sub body, wr_row r (task_SubscriptionID task) = Some sub ->
     json_Marshal (task_Payload task) = Some body -> valid_url (sub_URL sub) = false) ->
  delivery_history task r start k [].
Proof. intros Hno. split; cbn; [lia|done|done|lia|]. right. by right. Qed.

Lemma history_one task r start k t sub body :
  wr_row r (task_SubscriptionID task) = Some sub -> json_Marshal (task_Payload task) = Some body ->
  start <= t -> task_NextRetry task <= t ->
  delivered (reply k) = true \/ ~ task_Attempt task < maxRetries ->
  delivery_history task r start k [(t, request_for task body sub t)].
Proof.
  intros Hrow Hbody Hs Hn Hend. split; cbn; [lia| |done|lia|].
  - intros [|i] t' q; [|done]. intros [= <- <-]. by exists sub, body.
  - destruct Hend as [Hd|Ha]; [left; exists 0%nat; by rewrite Nat.add_0_r|right; left; lia].
Qed.

Lemma history_cons task r start k t now sub body new :
  wr_row r (task_SubscriptionID task) = Some sub -> json_Marshal (task_Payload task) = Some body ->
  start <= t -> task_NextRetry task <= t -> t <= now ->
  delivered (reply k) = false -> task_Attempt task < maxRetries ->
  let task' := retry_task task now in
  delivery_history task' (others (task_Attempt task') r) (now + 2 ^ task_Attempt task' * Second) (S k) new ->
  delivery_history task r start k ((t, request_for task body sub t) :: new).
Proof.
  intros Hrow Hbody Hs Hn Ht Hd Ha task' [Hb Hreq Htimes Hfail Hend].
  assert (Ha' : Z.to_nat (maxRetries - task_Attempt task) = S (Z.to_nat (maxRetries - task_Attempt task')))
    by (cbn; lia).
  split.
  - cbn [length]. lia.
  - intros [|i] t' q; cbn [lookup list_lookup].
    + intros [= <- <-]. by exists sub, body.
    + exact (Hreq i t' q).
  - split; [done|]. split; [done|]. destruct new as [|[t' q] new]; [done|]. cbn [spaced].
    destruct Htimes as (Hstart & _ & Hsp). cbn [retry_task task_Attempt task'] in Hstart, Hsp. split; [lia|exact Hsp].
  - intros [|i] Hi; [by rewrite Nat.add_0_r|]. rewrite <- Nat.add_succ_comm. apply Hfail. cbn in Hi. lia.
  - destruct Hend as [(i & Hi & Hr)|[Hl|Hno]].
    + left. exists (S i). cbn [length]. split; [by f_equal|]. by rewrite <- Nat.add_succ_comm.
    + right. left. cbn [length]. lia.
    + right. right. exact Hno.
Qed.

(** C27: a delivery ends.  It sends at most one request per attempt it has
    left, four for a new task; every request carries the payload, the event and
    a signature with the secret that the subscription has at that moment, over
    the time it is sent at; the back-off doubles.  It stops after a reply that
    is a success and not before, unless the attempts run out, the subscription
    is gone, or its address or the payload cannot be sent. *)
Theorem delivery_contract fuel (task : DeliveryTask P) (w : delivery R) :
  (Z.to_nat (maxRetries - task_Attempt task) < fuel)%nat -> (forall n, 0 <= took n) ->
  exists new w', deliver fuel task w = (Ok (), w') /\ d_sent w' = d_sent w ++ new /\
    delivery_history task (d_repo w) (d_clock w) (length (d_sent w)) new.
Proof.
  intros Hfuel Htook. revert task w Hfuel. induction fuel as [|fuel IH]; intros task w Hfuel; [lia|].
  destruct (wr_row (d_repo w) (task_SubscriptionID task)) as [sub|] eqn:Hrow.
  2: { exists [], w. rewrite process_stops, app_nil_r by auto. split; [done|]. split; [done|].
       apply history_nil. congruence. }
  destruct (json_Marshal (task_Payload task)) as [body|] eqn:Hbody.
  2: { exists [], w. rewrite process_stops, app_nil_r by auto. split; [done|]. split; [done|].
       apply history_nil. congruence. }
  destruct (valid_url (sub_URL sub)) eqn:Hurl.
  2: { destruct (process_bad_url fuel task w sub body Hrow Hbody Hurl) as [now ->].
       exists [], (mkDelivery (d_repo w) now (d_sent w)). rewrite app_nil_r. split; [done|]. split; [done|].
       apply history_nil. congruence. }
  pose proof (process_attempt fuel task w sub body Hrow Hbody Hurl) as Hrun.
  set (now := d_clock w + Z.max 0 (task_NextRetry task - d_clock w)) in Hrun.
  set (n := length (d_sent w)) in *. pose proof (Htook n) as Htn. rewrite Hrun. clear Hrun.
  assert (Hnow : d_clock w <= now /\ task_NextRetry task <= now) by lia. destruct Hnow as [Hs Hn].
  destruct (delivered (reply n)) eqn:Hd.
  { eexists _, _. split; [done|]. split; [done|]. apply history_one; auto. }
  destruct (decide (task_Attempt task < maxRetries)) as [Ha|Ha].
  2: { rewrite bool_decide_eq_false_2 by done. eexists _, _. split; [done|]. split; [done|]. apply history_one; auto. }
  rewrite bool_decide_eq_true_2 by done. set (task' := retry_task task (now + took n)).
  match goal with |- context [deliver fuel task' ?w'] => destruct (IH task' w') as (new & w2 & Hrun & Hsent & Hh) end.
  { cbn. lia. }
  cbn [d_repo d_clock d_sent] in Hsent, Hh. rewrite length_app in Hh. cbn [length] in Hh.
  rewrite Nat.add_1_r, Z.max_r in Hh by (pose proof (Z.pow_nonneg 2 (task_Attempt task')); unfold Second; lia).
  eexists _, w2. split; [exact Hrun|]. split; [rewrite Hsent, <- app_assoc; reflexivity|].
  exact (history_cons task _ _ n now (now + took n) sub body new Hrow Hbody Hs Hn ltac:(lia) Hd Ha Hh).
Qed.
End Delivery.

(** ** Examples *)
Definition demo_subscription : Subscription :=
  mkSubscription "s1" "https://example.org/hook" "00ff" ["user.created"] true 0 0.
Definition demo_table : sub_table := sub_put demo_subscription (exist _ ∅ (map_Forall_empty _)).
Definition demo_task : DeliveryTask string := new_task "e1" "user.created" "{}" 0 demo_subscription.
(** The receiver fails once; meanwhile the secret is rotated. *)
Definition demo_reply (n : nat) : option Z := match n with O => Some 503 | _ => Some 200 end.
Definition demo_others (attempt : Z) (t : sub_table) : sub_table :=
  sub_put (with_secret "11ee" Second demo_subscription) t.

Lemma secret_never_told_witness :
  (admin_CreateSubscription (Ok [1; 2]) "s2" 7 (Some ("u", ["a"])) demo_table).1 =
  (admin_CreateSubscription (Ok [3; 4]) "s2" 7 (Some ("u", ["a"])) demo_table).1 /\
  (admin_RotateSecret (Ok [1; 2]) 7 "s1" demo_table).1 = (admin_RotateSecret (Ok [3; 4]) 7 "s1" demo_table).1.
Proof.
  destruct (secret_never_told demo_table "s2" 7 "u" ["a"] [1; 2] [3; 4] ltac:(by vm_compute)) as (Hc & _ & _ & Hr).
  split; [exact Hc|]. destruct (Hr demo_table "s1" demo_subscription 7 ltac:(by vm_compute)) as [H1 _]. exact H1.
Defined.

Lemma dispatch_queues_witness :
  exists subs, Dispatch 1 "e1" 5 "user.created" "{}" (mkDispatch demo_table []) =
    (Ok (), mkDispatch demo_table (take 1 (new_task "e1" "user.created" "{}" 5 <$> subs))) /\
    demo_subscription ∈ subs.
Proof.
  destruct (dispatch_queues 1 "e1" 5 "user.created" "{}" (mkDispatch demo_table []) (Nat.le_0_l 1))
    as (subs & _ & Hin & Hrun & _).
  exists subs. split; [exact Hrun|]. apply Hin. split; [by vm_compute|]. split; [done|]. by apply list_elem_of_singleton.
Defined.

Lemma delivery_contract_witness :
  exists new w', process Some (fun _ => true) demo_reply (fun _ => Second) demo_others 5 demo_task
      (mkDelivery demo_table 0 []) = (Ok (), w') /\ d_sent w' = new /\
    (length new <= 4)%nat /\
    fst <$> d_sent (process Some (fun _ => true) demo_reply (fun _ => Second) demo_others 5 demo_task
      (mkDelivery demo_table 0 [])).2 = [0; 3 * Second].
Proof.
  destruct (delivery_contract Some (fun _ => true) demo_reply (fun _ => Second) demo_others 5 demo_task
    (mkDelivery demo_table 0 []) ltac:(vm_compute; lia) ltac:(done)) as (new & w' & Hrun & Hsent & Hh).
  exists new, w'. split; [exact Hrun|]. split; [exact Hsent|]. split; [exact (dh_bound _ _ _ _ _ _ _ _ _ Hh)|].
  by vm_compute.
Defined.

(** What a receiver that knows the secret computes. *)
Example demo_signature :
  signPayload "00ff" "{}" 1700000000 = "1f6c6b182ea25fc88e7ba6bc80b8a08d2ee9c15cee6dd8a949713629e953db4b".
Proof. by vm_compute. Qed.
