(* ===== verification/Server.v ===== *)
(** * The assembled server (internal/server/http/server.go)

    What [NewServerWithConfig] builds from the configuration, in which order it
    fails, the chain of middleware every request goes through, the probes, and
    how cmd/qid-server/main.go configures the lifecycle job.  Connecting to
    PostgreSQL (internal/storage/postgresql/db.go) is GORM and its driver: the
    outcomes of those calls are arguments, as are those of opening the rules of
    OPA, the WebAuthn library, the GeoIP database and the templates. *)

From S2P Require Import Prelude Types GoStd GoText MemIdentity AuditTrail AuditLog Redis RedisStores IdentityService Authorization AuthService SessionStore MFA Gateway Lifecycle AuthFlow Platform.
From Stdlib Require Import Ascii.
Local Open Scope Z_scope.

(** ** Connecting to PostgreSQL (db.go) *)
Record PostgresConfig := mkPostgresConfig {
  pc_Host : string;
  pc_Port : Z;
  pc_User : string;
  pc_Password : string;
  pc_DbName : string;
  pc_SSLMode : string;
  pc_MaxIdleConns : Z;
  pc_MaxOpenConns : Z;
  pc_ConnMaxLifetime : string
}.
(** The pool that is handed out, with its limits *)
Record pool := mkPool { pool_dsn : string; pool_MaxIdle : Z; pool_MaxOpen : Z; pool_MaxLifetime : Z }.

(** What the calls of libraries answer while the server starts *)
Record start_calls := mkCalls {
  gorm_Open : string -> res error unit;
  gorm_Use : res error unit;
  gorm_DB : res error unit;
  redis_ping : time -> bool;
  opa_load : res error unit;
  webauthn_init : res error unit;
  geoip_open : res error unit;
  new_renderer : res error unit
}.

(** [fmt.Errorf("...: %w", err)] around a call *)
Definition wrapped {A} (msg : string) (r : res error A) : res error A :=
  match r with Err e => Err (Wrapf msg e) | r => r end.

Definition dsn_of (config : PostgresConfig) : string :=
  "host=" +:+ pc_Host config +:+ " user=" +:+ pc_User config +:+ " password=" +:+ pc_Password config +:+
  " dbname=" +:+ pc_DbName config +:+ " port=" +:+ pretty (pc_Port config) +:+ " sslmode=" +:+ pc_SSLMode config.

Definition invalid_duration : error := Errorf "time: invalid duration".
Definition NewConnection (calls : start_calls) (config : PostgresConfig) : res error pool :=
  wrapped "failed to connect to database: " (gorm_Open calls (dsn_of config)) ;;
  wrapped "failed to use prometheus plugin: " (gorm_Use calls) ;;
  wrapped "failed to get underlying sql.DB: " (gorm_DB calls) ;;
  match ParseDuration (pc_ConnMaxLifetime config) with
  | None => Err (Wrapf "failed to parse connMaxLifetime: " invalid_duration)
  | Some duration => Ok (mkPool (dsn_of config) (pc_MaxIdleConns config) (pc_MaxOpenConns config) duration)
  end.

(** ** What the server is made of *)
Record RateLimitConfig := mkRateLimitConfig { rlc_Enabled : bool; rlc_DefaultLimit : Z; rlc_DefaultWindow : Z }.
Record Config := mkConfig {
  cfg_StorageMode : string;
  cfg_Postgres : PostgresConfig;
  cfg_OPA : Engine.OPAConfig;
  cfg_PolicyFile : string;
  cfg_RateLimit : RateLimitConfig;
  cfg_MetricsEnabled : bool
}.

(** What stands behind an interface variable *)
Inductive backend := BNil | BMemory | BPostgres | BRedis.
#[global] Instance backend_eq_dec : EqDecision backend.
Proof. solve_decision. Defined.

Record repositories := mkRepositories {
  idRepo : backend;
  groupRepo : backend;
  sessionRepo : backend;
  tokenRepo : backend;
  auditRepo : backend;
  policyRepo : backend;
  rbacRepo : backend;
  appRepo : backend;
  webhookRepo : backend;
  privacyRepo : backend;
  apiKeyRepo : backend
}.

(** The repositories, the database and whether there is a Redis client. *)
Definition storage (calls : start_calls) (appCfg : Config) (now : time) :
    res error (repositories * option pool * bool) * time :=
  if bool_decide (cfg_StorageMode appCfg = "memory") then
    (Ok (mkRepositories BMemory BMemory BMemory BMemory BNil BNil BNil BNil BNil BNil BNil, None, false), now)
  else if bool_decide (cfg_StorageMode appCfg = "postgres") then
    match wrapped "failed to connect to postgres: " (NewConnection calls (cfg_Postgres appCfg)) with
    | Ok db =>
        let '(r, now) := NewRedisClient (redis_ping calls) (mkRetryConfig 0 0 0) 0 now in
        (match wrapped "failed to connect to redis: " r with
         | Ok _ => Ok (mkRepositories BPostgres BPostgres BRedis BRedis BPostgres BPostgres BPostgres BPostgres
                         BPostgres BPostgres BPostgres, Some db, true)
         | Err e => Err e
         | Panic => Panic
         | Diverge => Diverge
         end, now)
    | Err e => (Err e, now)
    | Panic => (Panic, now)
    | Diverge => (Diverge, now)
    end
  else (Err (Errorf ("invalid storage mode: " +:+ cfg_StorageMode appCfg)), now).

(** [NewOPAProvider] (internal/policy/engine/opa_provider.go) *)
Definition NewOPAProvider (calls : start_calls) (cfg : Engine.OPAConfig) (policyFile : string) : res error unit :=
  if negb (Engine.opa_Enabled cfg) then Ok ()
  else if bool_decide (Engine.opa_Mode cfg = "sidecar") then Ok ()
  else if bool_decide (policyFile = "") then Err (Errorf "policy file path is required for OPA SDK mode")
  else wrapped "failed to load OPA policy: " (opa_load calls).

(** What the services are built with, whatever the configuration says: the
    session manager, the queue of webhooks, the audit log (batch, interval,
    buffer), the log-in service and the codes of the recovery. *)
Record settings := mkSettings {
  set_sessions : SessionConfig;
  set_webhook_queue : nat;
  set_audit_batch : nat;
  set_audit_interval : Z;
  set_audit_buffer : nat;
  set_auth : AuthService.Config;
  set_otp : OTPConfig
}.
Definition fixed_settings : settings :=
  mkSettings (SessionStore.mkSessionConfig (24 * Hour) true Hour true 5) 100 100 (5 * Second) 1000
    (AuthService.mkConfig Hour (24 * Hour) (24 * Hour)) (mkOTPConfig (15 * Minute) 6).

(** The server, as far as its parts depend on the configuration *)
Record assembly := mkAssembly {
  as_repositories : repositories;
  as_db : option pool;
  as_redis : bool;
  as_opa : bool;
  as_webauthn : bool;
  as_geoip : bool;
  as_APIKeyService : bool;
  as_DBRBACProvider : bool;
  as_rate_limit : option (Z * Z);
  as_metrics : bool;
  as_settings : settings
}.

(** [noopRBACProvider.IsAllowed] *)
Definition noop_IsAllowed (subjectID action resource : string) : res error bool := Ok false.

(** [registerRoutes]: the limiter exists with a Redis client, and is installed
    when the configuration says so. *)
Definition positive_or (n d : Z) : Z := if bool_decide (0 < n) then n else d.
Definition rate_limiter (redis : bool) (cfg : RateLimitConfig) : option (Z * Z) :=
  if redis && rlc_Enabled cfg
  then Some (positive_or (rlc_DefaultLimit cfg) 1000, positive_or (rlc_DefaultWindow cfg) 60)
  else None.

Definition NewServerWithConfig (calls : start_calls) (appCfg : Config) (now : time) : res error assembly * time :=
  let '(r, now) := storage calls appCfg now in
  (match r with
   | Ok (repos, db, redis) =>
       wrapped "failed to initialize UI renderer: " (new_renderer calls) ;;
       Ok (mkAssembly repos db redis (is_ok (NewOPAProvider calls (cfg_OPA appCfg) (cfg_PolicyFile appCfg))) (is_ok (webauthn_init calls)) (is_ok (geoip_open calls))
             (bool_decide (apiKeyRepo repos <> BNil)) (bool_decide (rbacRepo repos <> BNil))
             (rate_limiter redis (cfg_RateLimit appCfg)) (cfg_MetricsEnabled appCfg) fixed_settings)
   | Err e => Err e
   | Panic => Panic
   | Diverge => Diverge
   end, now).

Definition routes_of (a : assembly) : list route := registerRoutes (as_APIKeyService a) (as_webauthn a).

(** ** The probes *)
Section Probes.
(** The database pool, its ping and that of Redis *)
Context (pool_of_db db_ping redis_health : res error unit).

Definition healthzHandler : response := Gateway.mkResponse StatusOK "OK".
Definition failed (r : res error unit) : bool := negb (is_ok r).
Definition readyzHandler (a : assembly) : response :=
  if bool_decide (is_Some (as_db a)) && failed pool_of_db then Gateway.mkResponse 500 "failed to get database connection pool"
  else if bool_decide (is_Some (as_db a)) && failed db_ping then Gateway.mkResponse 503 "database unavailable"
  else if as_redis a && failed redis_health then Gateway.mkResponse 503 "redis unavailable"
  else Gateway.mkResponse StatusOK "OK".
End Probes.

(** ** The chain of middleware

    What a request reaches: Redis, the services, the lines of the access log
    and the counters. *)
Record access_line := mkLine { ln_Method : string; ln_Path : string; ln_Status : Z; ln_IP : string }.
Record site (C R St : Type) := mkSite {
  site_redis : C;
  site_server : server R St;
  site_log : list access_line;
  site_requests : gmap (string * string * string) Z
}.
Arguments mkSite {C R St}.
Arguments site_redis {C R St}.
Arguments site_server {C R St}.
Arguments site_log {C R St}.
Arguments site_requests {C R St}.

(** An answer, and the header Retry-After *)
Record answer := mkAnswer { an_response : response; an_RetryAfter : option Z }.
Definition plain (r : response) : answer := mkAnswer r None.

Definition ContextKeyAppID : string * string := ("pkg/types.ContextKey", "AppID").

Section Chain.
Context `{RedisCounters C} `{IdentityRepository R} `{Evaluator St} `{CaseFolding}.
Context (ValidateJWT : string -> res error (gmap string any)).
Context (unmarshal : string -> option (gmap string any)) (marshal : gmap string any -> string).
Context (api_key : handler (R := R) (St := St) -> handler (R := R) (St := St)).
Context (policies : option (string -> res error (option RateLimitPolicy))).
(** Whether the handler called [WriteHeader] itself *)
Context (wrote_header : response -> bool).
Context (now : time) (auditID logID : string).
Notation siteM A := (prog (site C R St) error A).
Notation site_handler := (request -> siteM answer).

Definition on_site_redis {A} (m : prog C error A) : siteM A :=
  zoom site_redis (fun c s => mkSite c (site_server s) (site_log s) (site_requests s)) m.
Definition on_server {A} (m : prog (server R St) error A) : siteM A :=
  zoom site_server (fun sv s => mkSite (site_redis s) sv (site_log s) (site_requests s)) m.

(** ip_blacklist.go: without a client the call is one of a nil interface. *)
Definition IPBlacklistMiddleware (redisClient : bool) (next : site_handler) : site_handler := fun r =>
  if redisClient then
    pass ← on_site_redis (IPBlacklist now (req_RemoteAddr r));
    if pass : bool then next r else mret (plain Forbidden)
  else lift Panic.

(** logging.go: the recorded status is zero until somebody calls
    [WriteHeader]. *)
Definition LoggingMiddleware_Execute (next : site_handler) : site_handler := fun r =>
  resp ← next r;
  let status := if wrote_header (an_response resp) then resp_Status (an_response resp) else 0 in
  modify (fun s => mkSite (site_redis s) (site_server s)
    (site_log s ++ [mkLine (req_Method r) (req_Path r) status (getClientIP r)]) (site_requests s)) ;;
  mret resp.

(** ratelimit.go *)
Definition in_quotes (s : string) : string := String "034"%char (s +:+ String "034"%char "").
Definition TooManyRequests : response :=
  Gateway.mkResponse 429 ("{" +:+ in_quotes "code" +:+ ":" +:+ in_quotes "too_many_requests" +:+ "," +:+
    in_quotes "message" +:+ ":" +:+ in_quotes "You have exceeded the rate limit" +:+ "}").
Definition rate_request_of (r : request) : rate_request :=
  mkRateRequest (ctx_string ContextKeyAppID r) (req_RemoteAddr r).
Definition RateLimitMiddleware_Execute (defaultLimit defaultWindow : Z) (next : site_handler) : site_handler := fun r =>
  refused ← on_site_redis (ratelimit_Execute policies defaultLimit defaultWindow now (rate_request_of r));
  match refused with
  | Some window => mret (mkAnswer TooManyRequests (Some window))
  | None => next r
  end.

(** metrics.go *)
Definition MetricsMiddleware_Execute (rt : route) (next : site_handler) : site_handler := fun r =>
  resp ← next r;
  let labels := (pretty (resp_Status (an_response resp)), req_Method r, rt_Template rt) in
  modify (fun s => mkSite (site_redis s) (site_server s) (site_log s)
    (<[labels := default 0 (site_requests s !! labels) + 1]> (site_requests s))) ;;
  mret resp.

(** The router: what [NewServer] and [registerRoutes] install for all routes,
    then the guards of the route, then its handler. *)
Definition inner_chain (rt : route) (h : handler) : handler :=
  AuditorMiddleware now logID unmarshal marshal (set_audit_buffer fixed_settings) (guarded ValidateJWT now auditID api_key (rt_Guards rt) h).
Definition Router (a : assembly) (rt : route) (h : handler) : site_handler :=
  IPBlacklistMiddleware (as_redis a) (LoggingMiddleware_Execute (
    (match as_rate_limit a with Some (limit, window) => RateLimitMiddleware_Execute limit window | None => id end) (
      (if as_metrics a then MetricsMiddleware_Execute rt else id) (fun r =>
        resp ← on_server (inner_chain rt h r); mret (plain resp))))).
End Chain.

(** ** Starting (cmd/qid-server/main.go)

    The rules and the governance settings of the configuration are marshalled
    to YAML and read again, and the errors of both are dropped: the arguments
    are what the fields hold afterwards. *)
Section Start.
Context {yaml : Type} (remarshal_rules : yaml -> list LifecycleRule) (remarshal_governance : yaml -> list string).

Record LifecycleSettings := mkLifecycleSettings {
  ls_BatchSize : Z;
  ls_DryRun : bool;
  ls_LifecycleRules : option yaml;
  ls_Governance : option yaml
}.

Definition lifecycle_config (cfg : LifecycleSettings) : LifecycleJobConfig :=
  let rules := match ls_LifecycleRules cfg with Some y => remarshal_rules y | None => [] end in
  mkJobConfig (ls_BatchSize cfg)
    (if bool_decide (length rules = 0%nat) then default_rules else rules)
    (match ls_Governance cfg with Some y => remarshal_governance y | None => ["email"; "username"] end)
    (ls_DryRun cfg).
End Start.

(** ** Starting, mode by mode *)
Section Starting.
Context (calls : start_calls) (now : time).
Implicit Types (cfg : Config) (a : assembly).

(** In memory the server starts whatever the databases do, without a Redis
    client, a database, roles, policies, applications, webhooks, consents or
    keys. *)
Lemma memory_starts cfg :
  cfg_StorageMode cfg = "memory" -> new_renderer calls = Ok () ->
  exists a, NewServerWithConfig calls cfg now = (Ok a, now) /\
    as_redis a = false /\ as_db a = None /\ as_rate_limit a = None /\ as_APIKeyService a = false /\
    as_DBRBACProvider a = false /\
    as_repositories a = mkRepositories BMemory BMemory BMemory BMemory BNil BNil BNil BNil BNil BNil BNil.
Proof.
  intros Hm Hr. unfold NewServerWithConfig, storage. rewrite bool_decide_eq_true_2 by done. rewrite Hr.
  by eexists.
Qed.

(** With PostgreSQL it starts exactly when every one of the connections can be
    made and the lifetime of connections is a duration. *)
Lemma postgres_starts cfg a t :
  cfg_StorageMode cfg = "postgres" -> NewServerWithConfig calls cfg now = (Ok a, t) ->
  gorm_Open calls (dsn_of (cfg_Postgres cfg)) = Ok () /\
  (exists d, ParseDuration (pc_ConnMaxLifetime (cfg_Postgres cfg)) = Some d /\
     as_db a = Some (mkPool (dsn_of (cfg_Postgres cfg)) (pc_MaxIdleConns (cfg_Postgres cfg))
                       (pc_MaxOpenConns (cfg_Postgres cfg)) d)) /\
  (NewRedisClient (redis_ping calls) (mkRetryConfig 0 0 0) 0 now).1 = Ok () /\
  as_redis a = true /\ as_APIKeyService a = true /\ as_DBRBACProvider a = true /\
  as_rate_limit a = rate_limiter true (cfg_RateLimit cfg) /\ as_metrics a = cfg_MetricsEnabled cfg.
Proof.
  intros Hm. unfold NewServerWithConfig, storage.
  rewrite bool_decide_eq_false_2, bool_decide_eq_true_2 by (by rewrite Hm).
  unfold NewConnection. destruct (gorm_Open calls _) as [[]| | |]; try done.
  destruct (gorm_Use calls) as [[]| | |]; try done. destruct (gorm_DB calls) as [[]| | |]; try done.
  cbn [wrapped mbind res_bind]. destruct (ParseDuration _) as [d|]; [|done]. cbn [wrapped].
  destruct (NewRedisClient _ _ _ _) as [[[]| | |] t']; cbn [wrapped]; try done.
  destruct (new_renderer calls) as [[]| | |]; try done. cbn. intros [= <- <-]. cbn. split; [done|].
  split; [by exists d|]. done.
Qed.

(** Where the lifetime of connections is configured as the empty text the server
    does not start: it is no duration.  Left out, it has the default of an hour
    ([Config.v]). *)
Lemma lifetime_required cfg :
  cfg_StorageMode cfg = "postgres" -> pc_ConnMaxLifetime (cfg_Postgres cfg) = "" ->
  is_ok (NewServerWithConfig calls cfg now).1 = false.
Proof.
  intros Hm Hl. destruct (NewServerWithConfig calls cfg now) as [[a| | |] t] eqn:Hn; try done.
  destruct (postgres_starts _ _ _ Hm Hn) as (_ & (d & Hd & _) & _). rewrite Hl in Hd. by vm_compute in Hd.
Qed.
End Starting.

(** ** The way of a request *)
Section Path.
Context `{RedisCounterLaws C} `{IdentityRepository R} `{Evaluator St} `{CaseFolding}.
Context (ValidateJWT : string -> res error (gmap string any)).
Context (unmarshal : string -> option (gmap string any)) (marshal : gmap string any -> string).
Context (api_key : handler (R := R) (St := St) -> handler (R := R) (St := St)).
Context (policies : option (string -> res error (option RateLimitPolicy))).
Context (wrote_header : response -> bool) (now : time) (auditID logID : string).
Implicit Types (c : C) (s : site C R St) (r : request) (a : assembly) (rt : route).
Notation inner := (inner_chain ValidateJWT unmarshal marshal api_key now auditID logID).
Notation serve := (Router ValidateJWT unmarshal marshal api_key policies wrote_header now auditID logID).

(** A counter stands at [n]; one that was never begun stands at zero. *)
Definition counted c (key : string) (n : Z) : Prop :=
  (n = 0 /\ kv c now key = None) \/ (0 < n < 2 ^ 63 - 1 /\ kv c now key = Some (pretty n)).

Lemma script_counts c key n limit window :
  counted c key n -> 0 < window ->
  exists c', redisRateLimitScript now key limit window c = (Ok (if bool_decide (limit < n + 1) then 0 else 1), c') /\
    kv c' now key = Some (pretty (n + 1)) /\
    forall t k, now <= t -> k <> key -> kv c' t k = kv c t k.
Proof.
  intros Hc Hw. assert (0 < window * Second) by (unfold Second; lia). unfold redisRateLimitScript.
  destruct Hc as [[-> Hnone]|[Hn Hkv]].
  - destruct (law_Incr_new c now key Hnone) as (c1 & Hrun & Hkv1).
    destruct (law_Expire c1 now key (window * Second)) as (c2 & Hrun2 & Hkv2). exists c2.
    rewrite (prog_bind_run _ _ _ _ _ Hrun). rewrite (bool_decide_eq_true_2 (1 = 1)) by done.
    rewrite (prog_bind_run _ _ _ _ _ Hrun2). split; [done|]. split.
    + rewrite Hkv2 by lia. rewrite decide_True by done. rewrite bool_decide_eq_true_2 by lia.
      rewrite Hkv1 by lia. by rewrite decide_True.
    + intros t k Ht Hk. rewrite Hkv2 by done. rewrite decide_False by congruence. rewrite Hkv1 by done.
      by rewrite decide_False by congruence.
  - destruct (law_Incr c now key n ltac:(lia) Hkv) as (c1 & Hrun & Hkv1). exists c1.
    rewrite (prog_bind_run _ _ _ _ _ Hrun). rewrite (bool_decide_eq_false_2 (n + 1 = 1)) by lia. split; [done|].
    split; [rewrite Hkv1 by lia; rewrite decide_True by done; by rewrite Hkv|].
    intros t k Ht Hk. rewrite Hkv1 by done. by rewrite decide_False by congruence.
Qed.

(** The line and the count that an answer leaves. *)
Definition line_of r (resp : response) : access_line :=
  mkLine (req_Method r) (req_Path r) (if wrote_header resp then resp_Status resp else 0) (getClientIP r).
Definition count_of a rt r (resp : response) (m : gmap (string * string * string) Z) :=
  if as_metrics a then
    let labels := (pretty (resp_Status resp), req_Method r, rt_Template rt) in
    <[labels := default 0 (m !! labels) + 1]> m
  else m.

Lemma metered_run a rt h r s :
  (if as_metrics a then MetricsMiddleware_Execute rt else id)
    (fun r => resp ← on_server (inner rt h r); mret (plain resp)) r s =
  let '(x, sv) := inner rt h r (site_server s) in
  (plain <$> x, mkSite (site_redis s) sv (site_log s)
     (match x with Ok resp => count_of a rt r resp (site_requests s) | _ => site_requests s end)).
Proof.
  unfold count_of, MetricsMiddleware_Execute.
  destruct (as_metrics a); unfold on_server, zoom, id, mbind, prog_bind, modify, mret, prog_ret;
    destruct (inner rt h r (site_server s)) as [[] sv]; reflexivity.
Qed.

Lemma logged_run next r s :
  LoggingMiddleware_Execute wrote_header next r s =
  match next r s with
  | (Ok resp, s') => (Ok resp, mkSite (site_redis s') (site_server s') (site_log s' ++ [line_of r (an_response resp)])
                                (site_requests s'))
  | failed => failed
  end.
Proof. unfold LoggingMiddleware_Execute, mbind, prog_bind. by destruct (next r s) as [[] s']. Qed.

Lemma blacklist_run next r s :
  IPBlacklistMiddleware now true next r s =
  if bool_decide (kv (site_redis s) now (blacklistKey (req_RemoteAddr r)) = None) then next r s else (Ok (plain Forbidden), s).
Proof.
  unfold IPBlacklistMiddleware, on_site_redis, zoom, IPBlacklist, try, mbind, prog_bind. rewrite law_Exists.
  destruct s as [c sv l m]. cbn [site_redis]. destruct (kv c now _) as [v|]; reflexivity.
Qed.

Lemma limited_run next r s n limit window :
  req_Context r = ∅ -> counted (site_redis s) (rate_key (rate_request_of r)) n -> 0 < window ->
  exists c', kv c' now (rate_key (rate_request_of r)) = Some (pretty (n + 1)) /\
    (forall t k, now <= t -> k <> rate_key (rate_request_of r) -> kv c' t k = kv (site_redis s) t k) /\
    RateLimitMiddleware_Execute policies now limit window next r s =
      let s' := mkSite c' (site_server s) (site_log s) (site_requests s) in
      if bool_decide (n < limit) then next r s' else (Ok (mkAnswer TooManyRequests (Some window)), s').
Proof.
  intros Hctx Hc Hw. destruct (script_counts _ _ _ limit window Hc Hw) as (c' & Hrun & Hkv & Hother).
  exists c'. split; [done|]. split; [done|]. cbv zeta.
  assert (Hp : rate_policy policies limit window (rate_request_of r) = Ok (limit, window)).
  { unfold rate_policy, app_of, rate_request_of, ctx_string. cbn [rr_AppID]. by rewrite Hctx. }
  unfold RateLimitMiddleware_Execute, on_site_redis, zoom, mbind, prog_bind.
  rewrite (mw_Execute_run _ _ _ _ _ _ _ _ _ _ Hp Hrun). unfold verdict.
  case_bool_decide; case_bool_decide; first [done|lia].
Qed.

(** C39: The way of a request through the server.  A blocked address is refused
    and leaves no trace: no count, no line in the access log, no audit.  Any
    other request raises the count of its address by one; past the limit it is
    told to come back after the window, and only the access log knows of it;
    within the limit it reaches the auditor, the guards of its route and its
    handler, and what they answer goes out with one line of the access log and
    one count of the metrics - neither of which is written when they panic. *)
Theorem request_path a rt h r s n limit window :
  as_redis a = true -> as_rate_limit a = Some (limit, window) -> 0 < window -> req_Context r = ∅ ->
  let key := "ratelimit:ip:" +:+ default (req_RemoteAddr r) (before_last_colon (req_RemoteAddr r)) in
  counted (site_redis s) key n ->
  (kv (site_redis s) now (blacklistKey (req_RemoteAddr r)) <> None -> serve a rt h r s = (Ok (plain Forbidden), s)) /\
  (kv (site_redis s) now (blacklistKey (req_RemoteAddr r)) = None -> exists c',
     kv c' now key = Some (pretty (n + 1)) /\
     (forall t k, now <= t -> k <> key -> kv c' t k = kv (site_redis s) t k) /\
     let line resp := site_log s ++ [line_of r resp] in
     if bool_decide (n < limit) then
       let '(x, sv) := inner rt h r (site_server s) in
       serve a rt h r s = match x with
         | Ok resp => (Ok (plain resp), mkSite c' sv (line resp) (count_of a rt r resp (site_requests s)))
         | x => (plain <$> x, mkSite c' sv (site_log s) (site_requests s))
         end
     else serve a rt h r s =
       (Ok (mkAnswer TooManyRequests (Some window)), mkSite c' (site_server s) (line TooManyRequests) (site_requests s))).
Proof.
  intros Hr Hl Hw Hctx key Hc.
  assert (Hkey : rate_key (rate_request_of r) = key).
  { unfold rate_key, app_of, rate_request_of, ctx_string. cbn [rr_AppID rr_RemoteAddr]. by rewrite Hctx. }
  unfold Router. rewrite Hr, Hl, blacklist_run. split; [intros Hk; by rewrite bool_decide_eq_false_2 by done|].
  intros Hk. rewrite (bool_decide_eq_true_2 _ Hk). rewrite <-Hkey in Hc.
  destruct (limited_run ((if as_metrics a then MetricsMiddleware_Execute rt else id)
    (fun r => resp ← on_server (inner rt h r); mret (plain resp))) r s n limit window Hctx Hc Hw)
    as (c' & Hkv & Hother & Hrun). rewrite Hkey in Hkv, Hother. exists c'. split; [done|]. split; [done|].
  rewrite logged_run, Hrun. cbv zeta. case_bool_decide; [|done].
  rewrite metered_run. cbn [site_server site_redis site_log site_requests].
  by destruct (inner rt h r (site_server s)) as [[] sv].
Qed.

(** With the in-memory storage - the one of the configuration that is shipped -
    the server starts and answers nothing: every request of every route, the
    probes included, ends in a call of the missing Redis client. *)
Theorem memory_mode calls cfg t :
  cfg_StorageMode cfg = "memory" -> new_renderer calls = Ok () ->
  exists a, NewServerWithConfig calls cfg t = (Ok a, t) /\
    mkRoute "GET" "/healthz" [] "healthz" ∈ routes_of a /\
    (forall ok1 ok2 ok3, resp_Status (readyzHandler ok1 ok2 ok3 a) = StatusOK) /\
    (forall rt h r s, rt ∈ routes_of a -> serve a rt h r s = (Panic, s)).
Proof.
  intros Hm Hr. destruct (memory_starts calls t cfg Hm Hr) as (a & Ha & Hred & Hdb & _).
  exists a. split; [done|]. split; [|split].
  - unfold routes_of. apply list_elem_of_In.
    destruct (as_APIKeyService a), (as_webauthn a); repeat first [left; reflexivity|right].
  - intros ok1 ok2 ok3. unfold readyzHandler. by rewrite Hred, Hdb.
  - intros rt h r s _. unfold Router, IPBlacklistMiddleware. by rewrite Hred.
Qed.
End Path.

(** What a stranger can reach: the routes without a guard, and no others. *)
Definition open_routes (webauthn : bool) : list (string * string) :=
  [("GET", "/metrics"); ("GET", "/oauth/authorize"); ("POST", "/oauth/token");
   ("GET", "/.well-known/openid-configuration"); ("GET", "/.well-known/jwks.json");
   ("POST", "/api/v1/auth/login"); ("POST", "/api/v1/users");
   ("GET", "/auth/forgot-password"); ("POST", "/auth/forgot-password");
   ("GET", "/auth/reset-password"); ("POST", "/auth/reset-password");
   ("GET", "/healthz"); ("GET", "/readyz")] ++
  (if webauthn then [("POST", "/api/v1/webauthn/login/begin"); ("POST", "/api/v1/webauthn/login/finish")] else []).

Lemma unguarded_routes api_keys webauthn rt :
  rt ∈ registerRoutes api_keys webauthn -> (rt_Guards rt = [] <-> (rt_Method rt, rt_Template rt) ∈ open_routes webauthn).
Proof.
  assert (Hall : Forall (fun rt => bool_decide (rt_Guards rt = []) =
    bool_decide ((rt_Method rt, rt_Template rt) ∈ open_routes webauthn)) (registerRoutes api_keys webauthn)).
  { destruct api_keys, webauthn; apply Forall_forall; intros x Hx; apply list_elem_of_In in Hx;
      cbn in Hx; repeat destruct Hx as [<-|Hx]; done || by vm_compute. }
  intros Hin. rewrite Forall_forall in Hall. specialize (Hall rt Hin).
  split; intros Hx; [apply (bool_decide_unpack _); rewrite <-Hall|apply (bool_decide_unpack _); rewrite Hall];
    by apply bool_decide_pack.
Qed.

(** Nobody who configures rules of his own has the default ones, and nobody who
    configures none is without the one that disables. *)
Lemma lifecycle_defaults {yaml} (rules : yaml -> list LifecycleRule) (governance : yaml -> list string) cfg :
  LifecycleRules (lifecycle_config rules governance cfg) <> [] /\
  (forall y, ls_LifecycleRules cfg = Some y -> rules y <> [] ->
     LifecycleRules (lifecycle_config rules governance cfg) = rules y) /\
  (ls_LifecycleRules cfg = None -> LifecycleRules (lifecycle_config rules governance cfg) = default_rules).
Proof.
  unfold lifecycle_config. cbn [LifecycleRules].
  split; [|split; [intros y ->; by destruct (rules y)|by intros ->]].
  case_bool_decide as Hl; [done|]. intros Hn. by rewrite Hn in Hl.
Qed.

(** ** Examples *)
Definition demo_calls : start_calls := mkCalls (fun _ => Ok ()) (Ok ()) (Ok ()) (fun _ => true) (Ok ())
  (Err (Errorf "no relying party")) (Err (Errorf "no file")) (Ok ()).
Definition demo_config (mode : string) : Config :=
  mkConfig mode (mkPostgresConfig "db" 5432 "quantaid" "pw" "quantaid" "disable" 5 10 "1h") (Engine.mkOPAConfig false "") "" (mkRateLimitConfig true 2 0) true.
Definition demo_assembly : assembly :=
  match (NewServerWithConfig demo_calls (demo_config "postgres") 0).1 with
  | Ok a => a
  | _ => mkAssembly (mkRepositories BNil BNil BNil BNil BNil BNil BNil BNil BNil BNil BNil) None false false false false false false None false fixed_settings
  end.
Example demo_assembled : as_rate_limit demo_assembly = Some (2, 60) /\ as_webauthn demo_assembly = false /\
  (pool_MaxLifetime <$> as_db demo_assembly) = Some (3600 * Second).
Proof. by vm_compute. Qed.

Definition demo_site : site redis_state identity_repo () := mkSite (mkRedis ∅ ∅) demo_server [] ∅.
Definition demo_open : route := mkRoute "POST" "/api/v1/auth/login" [] "auth.Login".
Definition demo_no_json (s : string) : option (gmap string any) := None.
Definition demo_no_text (m : gmap string any) : string := "".

Lemma request_path_witness :
  counted (C := redis_state) 7 (site_redis demo_site) "ratelimit:ip:192.0.2.1" 0 /\
  exists s', @Router redis_state memory_redis memory_counters identity_repo (memory_repository default_order) () allow_all
    ascii_folding demo_claims demo_no_json demo_no_text id None (fun _ => true) 7 "a1" "l1" demo_assembly demo_open
    (fun _ => mret (Gateway.mkResponse 200 "welcome")) demo_request demo_site = (Ok (plain (Gateway.mkResponse 200 "welcome")), s') /\
    site_log s' = [mkLine "POST" "/api/v1/admin/users/u1/ban" 200 "10.0.0.1"].
Proof.
  assert (Hc : counted (C := redis_state) 7 (site_redis demo_site) "ratelimit:ip:192.0.2.1" 0) by (left; split; reflexivity).
  split; [exact Hc|].
  destruct (@request_path redis_state memory_redis memory_counters memory_redis_laws memory_counter_laws identity_repo
    (memory_repository default_order) () allow_all ascii_folding demo_claims demo_no_json demo_no_text id None
    (fun _ => true) 7 "a1" "l1" demo_assembly demo_open (fun _ => mret (Gateway.mkResponse 200 "welcome")) demo_request
    demo_site 0 2 60) as [_ Hpass]; [reflexivity|reflexivity|lia|reflexivity|exact Hc|].
  destruct (Hpass eq_refl) as (c' & _ & _ & Hrun). eexists. split; [exact Hrun|reflexivity].
Defined.

Lemma memory_mode_witness :
  exists a, NewServerWithConfig demo_calls (demo_config "memory") 0 = (Ok a, 0) /\
    @Router redis_state memory_redis memory_counters identity_repo (memory_repository default_order) () allow_all
      ascii_folding demo_claims demo_no_json demo_no_text id None (fun _ => true) 7 "a1" "l1" a demo_open
      (fun _ => mret (Gateway.mkResponse 200 "welcome")) demo_request demo_site = (Panic, demo_site).
Proof.
  destruct (@memory_mode redis_state memory_redis memory_counters identity_repo (memory_repository default_order) ()
    allow_all ascii_folding demo_claims demo_no_json demo_no_text id None (fun _ => true) 7 "a1" "l1" demo_calls
    (demo_config "memory") 0) as (a & Ha & _ & _ & Hpanic); [reflexivity|reflexivity|].
  exists a. split; [exact Ha|]. injection Ha as <-. apply Hpanic, list_elem_of_In.
  repeat first [left; reflexivity|right].
Defined.
