(* ===== verification/PgStores.v ===== *)
(** * The PostgreSQL repositories of keys, devices, roles, policies, providers, logs and applications

    internal/storage/postgresql (apikey_repository.go, rbac_repository.go,
    policy_repo.go, auth_repo.go, postgres_application_repository.go) and
    internal/auth/device/device_repository.go, over the tables of Tables.v.
    Those behind an interface of another file - keys, devices, roles - are
    instances of its class and keep its laws, so that the theorems about the
    services hold on the database.  How GORM saves the associations of a role is
    an argument. *)

From stdpp Require Import sorting.
From S2P Require Import Prelude Types GoStd MemIdentity MemAuth MemPolicy AuditTrail AuditLog IdentityService Tables PgIdentity Authorization Redis OAuth Scim Gateway Rbac Devices Platform.
Local Open Scope Z_scope.

(** ** GORM over one table

    [First] takes the first row by primary key, [Save] updates the row of a
    primary key that is set - and when there is none, inserts it - and inserts
    where it is not set. *)
Section Gorm.
Context {A D K : Type} `{Table A D} `{EqDecision K}.
Context (key : A -> K) (le : K -> K -> Prop) {le_dec : forall x y, Decision (le x y)} (unset : K).

Definition by_key (l : list A) : list A := merge_sort (fun a b => le (key a) (key b)) l.
Definition with_key (k : K) (a : A) : bool := bool_decide (key a = k).
Definition First (p : A -> bool) : prog D error A :=
  rows ← t_select p;
  match by_key rows with [] => throw ErrRecordNotFound | a :: _ => mret a end.
Definition Save (create update : A -> A) (merge : A -> A -> A) (a : A) : prog D error A :=
  if bool_decide (key a = unset) then
    let a := create a in t_insert [a] ;; mret a
  else
    let a := update a in
    affected ← t_update (with_key (key a)) (fun _ => a);
    if bool_decide (affected = 0) then
      let a := create a in t_upsert (fun b c => bool_decide (key b = key c)) merge [a] ;; mret a
    else mret a.
Definition Delete_where (p : A -> bool) : prog D error unit := t_delete p ;; mret ().
End Gorm.

(** What they do to a table of unique rows. *)
Section GormFacts.
Context {A D K : Type} {conflict : A -> A -> bool} `{UniqueRows A D conflict} `{Countable K}.
Context (key : A -> K) (le : K -> K -> Prop) {le_dec : forall x y, Decision (le x y)} (unset : K).
Context (conflict_sym : forall a b, conflict a b = conflict b a).
Context (conflict_key : forall a b, key a = key b -> conflict a b = true).
Implicit Types (d : D) (a b : A).
Notation first_row := (First key le).

Lemma First_none p d : (forall a, a ∈ t_rows d -> p a = false) -> first_row p d = (Err ErrRecordNotFound, d).
Proof.
  intros Hno. unfold First. destruct (law_select p d) as (l & Hrun & Hl). rewrite (prog_bind_run _ _ _ _ _ Hrun).
  assert (l = []) as ->; [|done]. apply Permutation_nil_r. rewrite Hl. destruct (select_rows p (t_rows d)) as [|a k] eqn:Hs; [done|].
  assert (a ∈ select_rows p (t_rows d)) as [Ha Hp]%elem_of_select by (rewrite Hs; left). by rewrite (Hno a Ha) in Hp.
Qed.

Lemma First_one p d a :
  a ∈ t_rows d -> p a = true -> (forall b, b ∈ t_rows d -> p b = true -> b = a) -> first_row p d = (Ok a, d).
Proof.
  intros Ha Hp Hone. unfold First. destruct (law_select p d) as (l & Hrun & Hl). rewrite (prog_bind_run _ _ _ _ _ Hrun).
  destruct (by_key key le l) as [|b k] eqn:Hs.
  - assert (a ∈ by_key key le l) as Hin; [|rewrite Hs in Hin; by apply elem_of_nil in Hin].
    unfold by_key. rewrite merge_sort_Permutation, Hl. by apply elem_of_select.
  - assert (b ∈ by_key key le l) as Hin by (rewrite Hs; left).
    unfold by_key in Hin. rewrite merge_sort_Permutation, Hl in Hin. apply elem_of_select in Hin as [Hb Hpb].
    by rewrite (Hone b Hb Hpb).
Qed.

(** The rows by a key that is unique *)
Definition rows_by {K'} `{Countable K'} (f : A -> K') d : gmap K' A := list_to_map ((fun a => (f a, a)) <$> t_rows d).

Lemma unique_keys_NoDup {K'} `{Countable K'} (f : A -> K') l :
  (forall a b, f a = f b -> conflict a b = true) -> unique conflict l = true -> NoDup (f <$> l).
Proof.
  intros Hf. induction l as [|a l IH]; cbn; [intros _; apply NoDup_nil_2|]. intros [Ha Hl]%andb_true_iff.
  apply NoDup_cons. split; [|by apply IH]. intros (b & Hb & Hin)%list_elem_of_fmap. rewrite forallb_forall in Ha.
  specialize (Ha b). rewrite <-list_elem_of_In, (Hf a b Hb) in Ha. by specialize (Ha Hin).
Qed.

Lemma lookup_rows_by {K'} `{Countable K'} (f : A -> K') d k a :
  (forall a b, f a = f b -> conflict a b = true) -> rows_by f d !! k = Some a <-> a ∈ t_rows d /\ f a = k.
Proof.
  intros Hf. unfold rows_by. rewrite <-elem_of_list_to_map.
  - rewrite list_elem_of_fmap. split; [intros (b & [= -> ->] & Hb); done|intros [Ha <-]; by exists a].
  - rewrite <-list_fmap_compose. exact (unique_keys_NoDup f _ Hf (rows_unique d)).
Qed.

Lemma lookup_rows_none {K'} `{Countable K'} (f : A -> K') d k :
  (forall a b, f a = f b -> conflict a b = true) -> rows_by f d !! k = None <-> forall a, a ∈ t_rows d -> f a <> k.
Proof.
  intros Hf. split.
  - intros Hn a Ha Hk. assert (rows_by f d !! k = Some a) as Hs by (by apply lookup_rows_by). congruence.
  - intros Hno. destruct (rows_by f d !! k) as [a|] eqn:Hs; [|done].
    apply lookup_rows_by in Hs as [Ha Hk]; [|done]. by destruct (Hno a Ha).
Qed.

(** A row written over those with its key is an insertion into the map. *)
Lemma rows_by_write {K'} `{Countable K'} (f : A -> K') d d' a :
  (forall a b, f a = f b -> conflict a b = true) ->
  (forall b, b ∈ t_rows d' <-> b = a \/ b ∈ t_rows d /\ f b <> f a) -> rows_by f d' = <[f a := a]> (rows_by f d).
Proof.
  intros Hf Hrows. apply map_eq. intros k. apply option_eq. intros b.
  rewrite (lookup_rows_by f d' k b Hf), Hrows, lookup_insert. case_decide as Hk; [subst k|].
  - split; [intros [[->|[_ Hne]] Hb]; done|intros [= ->]; by split; [left|]].
  - rewrite (lookup_rows_by f d k b Hf). split; [intros [[->|[Hb _]] Hfb]; done|].
    intros [Hb <-]. split; [right|done]. by split; [|congruence].
Qed.

Lemma First_by {K'} `{Countable K'} (f : A -> K') p d k :
  (forall a b, f a = f b -> conflict a b = true) -> (forall a, p a = bool_decide (f a = k)) ->
  first_row p d = (match rows_by f d !! k with Some a => Ok a | None => Err ErrRecordNotFound end, d).
Proof.
  intros Hf Hp. destruct (rows_by f d !! k) as [a|] eqn:Hk.
  - apply lookup_rows_by in Hk as [Ha Hfa]; [|done]. apply First_one; [done|rewrite Hp; by apply bool_decide_eq_true_2|].
    intros b Hb. rewrite Hp, bool_decide_eq_true. intros Hfb.
    apply (rows_pair conflict_sym d b a Hb Ha), Hf. congruence.
  - apply First_none. intros a Ha. rewrite Hp. apply bool_decide_eq_false_2.
    by apply (proj1 (lookup_rows_none f d k Hf) Hk).
Qed.

Lemma insert_by d a :
  (forall b, b ∈ t_rows d -> conflict b a = false) ->
  exists d', t_insert [a] d = (Ok (), d') /\ (forall b, b ∈ t_rows d' <-> b = a \/ b ∈ t_rows d) /\
    forall K' `{Countable K'} (f : A -> K'), (forall a b, f a = f b -> conflict a b = true) ->
      rows_by f d' = <[f a := a]> (rows_by f d).
Proof.
  intros Hfree. destruct (insert_row d a Hfree) as (d' & Hrun & Hrows). exists d'. split; [done|]. split; [done|].
  intros K' ? ? f Hf. apply rows_by_write; [done|]. intros b. rewrite Hrows. split; [|tauto].
  intros [->|Hb]; [by left|]. right. split; [done|]. intros He. specialize (Hfree b Hb). by rewrite (Hf b a He) in Hfree.
Qed.

Lemma Save_by create update merge d a a0 :
  a0 ∈ t_rows d -> key a0 = key a -> key a <> unset -> key (update a) = key a ->
  (forall b, b ∈ t_rows d -> key b <> key a -> conflict b (update a) = false) ->
  exists d', Save key unset create update merge a d = (Ok (update a), d') /\
    (forall b, b ∈ t_rows d' <-> b = update a \/ b ∈ t_rows d /\ key b <> key a) /\
    forall K' `{Countable K'} (f : A -> K'), (forall a b, f a = f b -> conflict a b = true) -> f (update a) = f a0 ->
      rows_by f d' = <[f (update a) := update a]> (rows_by f d).
Proof.
  intros Ha0 Hk0 Hne Hupd Hfree.
  assert (Hsame : forall b, b ∈ t_rows d -> key b = key a -> b = a0).
  { intros b Hb Hkb. apply (rows_pair conflict_sym d b a0 Hb Ha0), conflict_key. congruence. }
  destruct (update_row conflict_sym (fun a => conflict_key a a eq_refl) d (with_key key (key a)) (update a) a0)
    as (d' & n & Hrun & Hn & Hrows); unfold with_key.
  - done.
  - by apply bool_decide_eq_true_2.
  - intros b Hb Hkb%bool_decide_eq_true. by apply Hsame.
  - intros b Hb Hkb%bool_decide_eq_false. by apply Hfree.
  - assert (Hrows' : forall b, b ∈ t_rows d' <-> b = update a \/ b ∈ t_rows d /\ key b <> key a).
    { intros b. rewrite Hrows. unfold with_key. by rewrite bool_decide_eq_false. }
    exists d'. split; [|split; [exact Hrows'|]].
    + unfold Save. rewrite bool_decide_eq_false_2 by done. cbv zeta. rewrite Hupd.
      rewrite (prog_bind_run _ _ _ _ _ Hrun). by rewrite bool_decide_eq_false_2 by lia.
    + intros K' ? ? f Hf Hfa. apply rows_by_write; [done|]. intros b. rewrite Hrows'.
      split; (intros [->|[Hb Hne']]; [by left|]); right; (split; [done|]).
      * intros He. apply Hne'. assert (b = a0) as ->; [|done]. apply (rows_pair conflict_sym d b a0 Hb Ha0), Hf. congruence.
      * intros He. apply Hne'. assert (b = a0) as -> by (by apply Hsame). done.
Qed.

Lemma Delete_rows p d : exists d', Delete_where p d = (Ok (), d') /\ forall b, b ∈ t_rows d' <-> b ∈ t_rows d /\ p b = false.
Proof.
  destruct (Tables.law_delete p d) as (d' & n & Hrun & Hrows). exists d'.
  split; [unfold Delete_where; by rewrite (prog_bind_run _ _ _ _ _ Hrun)|]. intros b. rewrite Hrows. apply elem_of_delete.
Qed.

Lemma Find_rows p d : exists l, t_select p d = (Ok l, d) /\ forall a, a ∈ l <-> a ∈ t_rows d /\ p a = true.
Proof. destruct (law_select p d) as (l & Hrun & Hl). exists l. split; [done|]. intros a. rewrite Hl. apply elem_of_select. Qed.
End GormFacts.

(** [errors.Is(err, gorm.ErrRecordNotFound)]: the answer for a missing row *)
Definition on_missing {S A} (m : prog S error A) (missing : prog S error A) : prog S error A :=
  answer ← try m;
  match answer with
  | inr x => mret x
  | inl err => if bool_decide (err = ErrRecordNotFound) then missing else throw err
  end.

(** ** API keys (apikey_repository.go) *)
Definition key_conflict (k j : APIKey) : bool :=
  bool_decide (key_ID k = key_ID j) || bool_decide (key_KeyID k = key_KeyID j).
Definition set_key_times (created updated : time) (k : APIKey) : APIKey :=
  mkAPIKey (key_ID k) (key_AppID k) (key_KeyID k) (key_KeyHash k) (key_Prefix k) (key_Scopes k) (key_ExpiresAt k)
    (key_Revoked k) created updated.
Definition stamp_new_key (now : time) (k : APIKey) : APIKey :=
  set_key_times (auto_time now (key_CreatedAt k)) (auto_time now (key_UpdatedAt k)) k.
Definition stamp_saved_key (now : time) (k : APIKey) : APIKey := set_key_times (key_CreatedAt k) now k.
Definition merge_key (new old : APIKey) : APIKey := set_key_times (key_CreatedAt old) (key_UpdatedAt new) new.

Section APIKeys.
Context {D L : Type} `{Table APIKey D} `{Table RateLimitPolicy L}.
Notation ak A := (prog (D * L) error A).

Definition on_key_rows {A} (m : prog D error A) : ak A := zoom fst (fun d s => (d, s.2)) m.
Definition on_limits {A} (m : prog L error A) : ak A := zoom snd (fun l s => (s.1, l)) m.
Definition first_key (p : APIKey -> bool) : ak APIKey := on_key_rows (First key_ID string_le p).

Definition akr_Create (now : time) (key : APIKey) : ak unit := on_key_rows (t_insert [stamp_new_key now key]).
Definition akr_GetByID (id : string) : ak APIKey :=
  on_missing (first_key (fun k => bool_decide (key_ID k = id))) (throw (Sentinel ErrNotFound)).
Definition akr_GetByPrefix (prefix : string) : ak (list APIKey) :=
  on_key_rows (t_select (fun k => bool_decide (key_Prefix k = prefix))).
Definition akr_GetByKeyID (keyID : string) : ak APIKey :=
  on_missing (first_key (fun k => bool_decide (key_KeyID k = keyID))) (throw (Sentinel ErrNotFound)).
Definition akr_Update (now : time) (key : APIKey) : ak unit :=
  on_key_rows (Save key_ID "" (stamp_new_key now) (stamp_saved_key now) merge_key key) ;; mret ().
Definition akr_Delete (id : string) : ak unit := on_key_rows (Delete_where (fun k => bool_decide (key_ID k = id))).
Definition akr_ListByAppID (appID : string) : ak (list APIKey) :=
  on_key_rows (t_select (fun k => bool_decide (key_AppID k = appID))).
Definition akr_GetRateLimitPolicy (appID : string) : ak (option RateLimitPolicy) :=
  on_missing (policy ← on_limits (First rl_AppID string_le (fun p => bool_decide (rl_AppID p = appID))); mret (Some policy))
    (mret None).

#[local] Instance pg_api_keys : APIKeyRepository (D * L) := {|
  kr_Create := akr_Create;
  kr_GetByID := akr_GetByID;
  kr_GetByKeyID := akr_GetByKeyID;
  kr_Update := akr_Update;
  kr_GetRateLimitPolicy := akr_GetRateLimitPolicy
|}.
End APIKeys.

(** ** Devices (internal/auth/device/device_repository.go) *)
Definition device_conflict (d e : Device) : bool :=
  bool_decide (dev_ID d = dev_ID e) || bool_decide (dev_Fingerprint d = dev_Fingerprint e).
Definition merge_device (new old : Device) : Device :=
  mkDevice (dev_ID new) (dev_TenantID new) (dev_UserID new) (dev_Fingerprint new) (dev_FingerprintRaw new)
    (dev_DeviceName new) (dev_DeviceType new) (dev_OS new) (dev_Browser new) (dev_TrustScore new) (dev_LastIP new)
    (dev_LastLocation new) (dev_LastActiveAt new) (dev_CreatedAt old) (dev_UpdatedAt new) (dev_BoundAt new).

Section DeviceRows.
Context {D : Type} `{Table Device D}.
Notation dr A := (prog D error A).

Definition pgd_Create (now : time) (device : Device) : dr Device :=
  let device := with_times now device in
  t_insert [device] ;; mret device.
Definition pgd_GetByID (id : string) : dr (option Device) :=
  device ← First dev_ID string_le (fun d => bool_decide (dev_ID d = id)); mret (Some device).
Definition pgd_GetByFingerprint (fingerprint : string) : dr (option Device) :=
  on_missing (device ← First dev_ID string_le (fun d => bool_decide (dev_Fingerprint d = fingerprint)); mret (Some device))
    (mret None).
Definition pgd_GetByUserID (userID : string) : dr (list Device) :=
  t_select (fun d => bool_decide (dev_UserID d = userID)).
Definition pgd_Update (now : time) (device : Device) : dr Device :=
  Save dev_ID "" (with_times now) (set_UpdatedAt now) merge_device (set_UpdatedAt now device).
Definition pgd_Delete (id : string) : dr unit := Delete_where (fun d => bool_decide (dev_ID d = id)).
Definition pgd_UpdateTrustScore (now : time) (id : string) (score : Z) : dr unit :=
  t_update (fun d => bool_decide (dev_ID d = id)) (fun d => set_UpdatedAt now (set_TrustScore score d)) ;; mret ().
(** The address and the place are written when there is one. *)
Definition last_active (now : time) (ip location : string) (d : Device) : Device :=
  mkDevice (dev_ID d) (dev_TenantID d) (dev_UserID d) (dev_Fingerprint d) (dev_FingerprintRaw d)
    (dev_DeviceName d) (dev_DeviceType d) (dev_OS d) (dev_Browser d) (dev_TrustScore d)
    (if bool_decide (ip = "") then dev_LastIP d else ip)
    (if bool_decide (location = "") then dev_LastLocation d else location) now (dev_CreatedAt d) now (dev_BoundAt d).
Definition pgd_UpdateLastActive (now : time) (id ip location : string) : dr unit :=
  t_update (fun d => bool_decide (dev_ID d = id)) (last_active now ip location) ;; mret ().

#[local] Instance pg_devices : DeviceRepository D := {|
  dr_Create := pgd_Create;
  dr_GetByID := pgd_GetByID;
  dr_GetByFingerprint := pgd_GetByFingerprint;
  dr_GetByUserID := pgd_GetByUserID;
  dr_Update := pgd_Update
|}.
End DeviceRows.

(** ** Roles (rbac_repository.go)

    Roles, permissions, who has which role, which role has which permission;
    and the last number either sequence gave.  The assignments and the links
    refer to the other tables. *)
Definition role_conflict (r q : RoleRow) : bool :=
  bool_decide (rr_ID r = rr_ID q) || bool_decide (rr_Code r = rr_Code q).
Definition permission_conflict (p q : PermissionRow) : bool :=
  bool_decide (pr_ID p = pr_ID q) || (bool_decide (pr_Resource p = pr_Resource q) && bool_decide (pr_Action p = pr_Action q)).
Definition assignment_conflict (a b : UserRole) : bool := bool_decide (a = b).
Definition link_conflict (a b : Z * Z) : bool := bool_decide (a = b).

Record rbac_db (R P U J : Type) := mkRbacDb { db_roles : R; db_permissions : P; db_user_roles : U; db_links : J; db_role_seq : Z; db_perm_seq : Z }.
Arguments mkRbacDb {R P U J}.
Arguments db_roles {R P U J}.
Arguments db_permissions {R P U J}.
Arguments db_user_roles {R P U J}.
Arguments db_links {R P U J}.
Arguments db_role_seq {R P U J}.
Arguments db_perm_seq {R P U J}.

Section Roles.
Context {R P U J : Type} `{Table RoleRow R} `{Table PermissionRow P} `{Table UserRole U} `{Table (Z * Z) J}.
Notation rb A := (prog (rbac_db R P U J) error A).
(** How GORM saves the permissions of a role, and appends one to it *)
Context (save_permissions : Z -> list PermissionRow -> rb unit) (append_permission : Z -> Z -> rb unit).

Definition on_roles {A} (m : prog R error A) : rb A :=
  zoom db_roles (fun x s => mkRbacDb x (db_permissions s) (db_user_roles s) (db_links s) (db_role_seq s) (db_perm_seq s)) m.
Definition on_permissions {A} (m : prog P error A) : rb A :=
  zoom db_permissions (fun x s => mkRbacDb (db_roles s) x (db_user_roles s) (db_links s) (db_role_seq s) (db_perm_seq s)) m.
Definition on_user_roles {A} (m : prog U error A) : rb A :=
  zoom db_user_roles (fun x s => mkRbacDb (db_roles s) (db_permissions s) x (db_links s) (db_role_seq s) (db_perm_seq s)) m.
Definition on_links {A} (m : prog J error A) : rb A :=
  zoom db_links (fun x s => mkRbacDb (db_roles s) (db_permissions s) (db_user_roles s) x (db_role_seq s) (db_perm_seq s)) m.

(** A number that is not set is the next of the sequence. *)
Definition next_role_id (id : Z) : rb Z :=
  if bool_decide (id = 0) then
    s ← get; let n := db_role_seq s + 1 in
    put (mkRbacDb (db_roles s) (db_permissions s) (db_user_roles s) (db_links s) n (db_perm_seq s)) ;; mret n
  else mret id.
Definition next_permission_id (id : Z) : rb Z :=
  if bool_decide (id = 0) then
    s ← get; let n := db_perm_seq s + 1 in
    put (mkRbacDb (db_roles s) (db_permissions s) (db_user_roles s) (db_links s) (db_role_seq s) n) ;; mret n
  else mret id.

Definition set_permissions (ps : list PermissionRow) (r : RoleRow) : RoleRow :=
  mkRoleRow (rr_ID r) (rr_Code r) (rr_Description r) ps.
Definition rbr_CreateRole (role : RoleRow) : rb RoleRow :=
  id ← next_role_id (rr_ID role);
  let role := mkRoleRow id (rr_Code role) (rr_Description role) (rr_Permissions role) in
  on_roles (t_insert [set_permissions [] role]) ;;
  save_permissions id (rr_Permissions role) ;;
  mret role.
Definition rbr_GetRoleByCode (code : string) : rb (option RoleRow) :=
  on_missing (role ← on_roles (First rr_ID Z.le (fun r => bool_decide (rr_Code r = code))); mret (Some role)) (mret None).
Definition rbr_UpdateRole (role : RoleRow) : rb unit :=
  (if bool_decide (rr_ID role = 0) then rbr_CreateRole role ;; mret ()
   else
     on_roles (Save rr_ID 0 (set_permissions []) (set_permissions []) (fun new _ => new) role) ;;
     save_permissions (rr_ID role) (rr_Permissions role)).
Definition rbr_DeleteRole (roleID : Z) : rb unit :=
  assignments ← on_user_roles (t_select (fun a => bool_decide (ur_RoleID a = roleID)));
  links ← on_links (t_select (fun l => bool_decide (l.1 = roleID)));
  match assignments, links with
  | [], [] => on_roles (Delete_where (fun r => bool_decide (rr_ID r = roleID)))
  | _, _ => throw ErrForeignKey
  end.
Definition rbr_ListRoles : rb (list RoleRow) := on_roles (t_select (fun _ => true)).

Definition rbr_CreatePermission (permission : PermissionRow) : rb PermissionRow :=
  id ← next_permission_id (pr_ID permission);
  let permission := mkPermissionRow id (pr_Resource permission) (pr_Action permission) (pr_Description permission) in
  on_permissions (t_insert [permission]) ;; mret permission.
Definition rbr_GetPermission (resource action : string) : rb (option PermissionRow) :=
  on_missing (p ← on_permissions (First pr_ID Z.le (fun p => bool_decide (pr_Resource p = resource) && bool_decide (pr_Action p = action)));
              mret (Some p)) (mret None).
Definition rbr_ListPermissions : rb (list PermissionRow) := on_permissions (t_select (fun _ => true)).

Definition rbr_AddPermissionToRole (roleID permissionID : Z) : rb unit := append_permission roleID permissionID.
Definition rbr_RemovePermissionFromRole (roleID permissionID : Z) : rb unit :=
  on_links (Delete_where (fun l => bool_decide (l = (roleID, permissionID)))).
Definition rbr_AssignRoleToUser (userID : string) (roleID : Z) : rb unit :=
  roles ← on_roles (t_select (fun r => bool_decide (rr_ID r = roleID)));
  match roles with
  | [] => throw ErrForeignKey
  | _ => on_user_roles (t_insert [mkUserRole userID roleID])
  end.
Definition rbr_UnassignRoleFromUser (userID : string) (roleID : Z) : rb unit :=
  on_user_roles (Delete_where (fun a => bool_decide (ur_UserID a = userID) && bool_decide (ur_RoleID a = roleID))).

(** [Preload("Permissions")] *)
Definition attach (links : list (Z * Z)) (ps : list PermissionRow) (r : RoleRow) : RoleRow :=
  set_permissions (filter (fun p => (rr_ID r, pr_ID p) ∈ links) ps) r.
Definition preload (roles : list RoleRow) : rb (list RoleRow) :=
  links ← on_links (t_select (fun l => bool_decide (l.1 ∈ rr_ID <$> roles)));
  ps ← on_permissions (t_select (fun p => bool_decide (pr_ID p ∈ links.*2)));
  mret (attach links ps <$> roles).
Definition rbr_GetRolesForUser (userID : string) : rb (list RoleRow) :=
  assignments ← on_user_roles (t_select (fun a => bool_decide (ur_UserID a = userID)));
  roles ← on_roles (t_select (fun r => bool_decide (rr_ID r ∈ ur_RoleID <$> assignments)));
  preload roles.
Definition rbr_GetPermissionsForUser (userID : string) : rb (list PermissionRow) :=
  assignments ← on_user_roles (t_select (fun a => bool_decide (ur_UserID a = userID)));
  links ← on_links (t_select (fun l => bool_decide (l.1 ∈ ur_RoleID <$> assignments)));
  on_permissions (t_select (fun p => bool_decide (pr_ID p ∈ links.*2))).
Definition rbr_GetPermissionsForRole (roleID : Z) : rb (list PermissionRow) :=
  role ← on_roles (First rr_ID Z.le (fun r => bool_decide (rr_ID r = roleID)));
  roles ← preload [role];
  mret (match roles with r :: _ => rr_Permissions r | [] => [] end).

#[local] Instance pg_rbac : RBACRepository (rbac_db R P U J) := {|
  rb_CreateRole := rbr_CreateRole;
  rb_UpdateRole := rbr_UpdateRole;
  rb_DeleteRole := rbr_DeleteRole;
  rb_ListRoles := rbr_ListRoles;
  rb_CreatePermission := rbr_CreatePermission;
  rb_ListPermissions := rbr_ListPermissions;
  rb_AddPermissionToRole := rbr_AddPermissionToRole;
  rb_AssignRoleToUser := rbr_AssignRoleToUser;
  rb_UnassignRoleFromUser := rbr_UnassignRoleFromUser;
  rb_GetRolesForUser := rbr_GetRolesForUser
|}.
End Roles.

(** ** Policies (policy_repo.go)

    A row is a policy with its times; the newest come first, and rows of one
    instant in any order. *)
Notation policy_row := (Policy * (time * time))%type.
Definition policy_conflict (p q : policy_row) : bool := bool_decide (policy_ID p.1 = policy_ID q.1).
Definition later {A} (when_ : A -> time) (a b : A) : Prop := when_ b <= when_ a.
#[global] Instance later_dec {A} (when_ : A -> time) a b : Decision (later when_ a b) := decide (when_ b <= when_ a).
Definition newest_first {A} (when_ : A -> time) (l : list A) : list A := merge_sort (later when_) l.
Definition or_not_found {S A} (details : gmap string string) (m : prog S error A) : prog (S * errvars) error A :=
  answer ← try (zoom fst (fun s w => (s, w.2)) m);
  match answer with
  | inr x => mret x
  | inl err => if bool_decide (err = ErrRecordNotFound)
               then modify (fun w => (w.1, WithDetails w.2 ErrNotFound details)) ;; throw (Sentinel ErrNotFound)
               else throw err
  end.

Section PolicyRows.
Context {D : Type} `{Table policy_row D}.

Definition pgp_CreatePolicy (now : time) (policy : Policy) : prog D error unit := t_insert [(policy, (now, now))].
Definition pgp_GetPolicyByID (id : string) : prog (D * errvars) error Policy :=
  or_not_found {[ "id" := id ]}
    (row ← First (fun r : policy_row => policy_ID r.1) string_le (fun r => bool_decide (policy_ID r.1 = id)); mret row.1).
(** [created] is the time of creation in the caller's struct. *)
Definition pgp_UpdatePolicy (now created : time) (policy : Policy) : prog D error unit :=
  Save (fun r : policy_row => policy_ID r.1) "" (fun r => (r.1, (auto_time now created, now))) (fun r => (r.1, (created, now)))
    (fun new old => (new.1, (old.2.1, new.2.2))) (policy, (created, now)) ;; mret ().
Definition pgp_DeletePolicy (id : string) : prog D error unit := Delete_where (fun r => bool_decide (policy_ID r.1 = id)).
Definition pgp_ListPolicies (pq : PaginationQuery) : prog D error (list Policy) :=
  rows ← t_select (fun _ => true);
  mret (sql_window (pq_Offset pq) (pq_PageSize pq) (newest_first (fun r : policy_row => r.2.1) rows)).*1.
Definition for_subject (subject : string) (p : Policy) : bool :=
  bool_decide (subject ∈ policy_Subjects p) || bool_decide ("*" ∈ policy_Subjects p).
Definition pgp_FindPoliciesForSubject (subject : string) : prog D error (list Policy) :=
  rows ← t_select (fun r => for_subject subject r.1); mret rows.*1.
End PolicyRows.

(** ** Identity providers and log entries (auth_repo.go)

    A provider that is deleted stays as a row that no query sees. *)
Record IdentityProvider := mkProvider {
  idp_ID : string;
  idp_Name : string;
  idp_Type : string;
  idp_Enabled : bool;
  idp_Config : string;
  idp_DeletedAt : option time
}.
Definition provider_conflict (p q : IdentityProvider) : bool :=
  bool_decide (idp_ID p = idp_ID q) || bool_decide (idp_Name p = idp_Name q).
Definition alive (p : IdentityProvider) : bool := bool_decide (idp_DeletedAt p = None).
Definition set_DeletedAt (at_ : option time) (p : IdentityProvider) : IdentityProvider :=
  mkProvider (idp_ID p) (idp_Name p) (idp_Type p) (idp_Enabled p) (idp_Config p) at_.

Section Providers.
Context {D : Type} `{Table IdentityProvider D}.
(** The constraint a [*pq.Error] with the code of a unique violation names *)
Context (unique_violation : error -> option string).
Notation ip A := (prog (D * errvars) error A).

Definition on_providers {A} (m : prog D error A) : ip A := zoom fst (fun d w => (d, w.2)) m.
Definition pgi_CreateProvider (provider : IdentityProvider) : ip unit :=
  answer ← try (on_providers (t_insert [provider]));
  match answer with
  | inr _ => mret ()
  | inl err =>
      match unique_violation err with
      | Some constraint =>
          modify (fun w => (w.1, WithDetails w.2 ErrConflict {[ "field" := constraint ]})) ;; throw (Sentinel ErrConflict)
      | None => throw err
      end
  end.
Definition pgi_GetProviderByID (id : string) : ip IdentityProvider :=
  or_not_found {[ "id" := id ]} (First idp_ID string_le (fun p => bool_decide (idp_ID p = id) && alive p)).
Definition pgi_GetProviderByName (name : string) : ip IdentityProvider :=
  or_not_found {[ "name" := name ]} (First idp_ID string_le (fun p => bool_decide (idp_Name p = name) && alive p)).
Definition pgi_ListProviders : ip (list IdentityProvider) := on_providers (t_select alive).
(** An update meets the rows that are alive; where it meets none the insert
    that follows overwrites the row of the key, deleted or not. *)
Definition pgi_UpdateProvider (provider : IdentityProvider) : ip unit :=
  if bool_decide (idp_ID provider = "") then on_providers (t_insert [provider])
  else
    affected ← on_providers (t_update (fun p => bool_decide (idp_ID p = idp_ID provider) && alive p) (fun _ => provider));
    if bool_decide (affected = 0)
    then on_providers (t_upsert (fun p q => bool_decide (idp_ID p = idp_ID q)) (fun new _ => new) [provider])
    else mret ().
Definition pgi_DeleteProvider (now : time) (id : string) : ip unit :=
  on_providers (t_update (fun p => bool_decide (idp_ID p = id) && alive p) (set_DeletedAt (Some now))) ;; mret ().
End Providers.

Definition log_conflict (a b : AuditLog) : bool := bool_decide (log_ID a = log_ID b).
Section Logs.
Context {D : Type} `{Table AuditLog D}.
Definition pgl_CreateLogEntry (entry : AuditLog) : prog D error unit := t_insert [entry].
Definition pgl_page (p : AuditLog -> bool) (pq : PaginationQuery) : prog D error (list AuditLog) :=
  rows ← t_select p; mret (sql_window (pq_Offset pq) (pq_PageSize pq) (newest_first log_Timestamp rows)).
Definition pgl_GetLogsForUser (userID : string) (pq : PaginationQuery) : prog D error (list AuditLog) :=
  pgl_page (fun e => bool_decide (log_ActorID e = userID)) pq.
Definition pgl_GetLogsByAction (action : string) (pq : PaginationQuery) : prog D error (list AuditLog) :=
  pgl_page (fun e => bool_decide (log_Action e = action)) pq.
End Logs.

(** ** Applications (postgres_application_repository.go) *)
Definition app_conflict (a b : Application) : bool :=
  bool_decide (app_ID a = app_ID b) || bool_decide (app_Name a = app_Name b).
(** The columns with a default take it when they are empty. *)
Definition or_column_default (d s : string) : string := if bool_decide (s = "") then d else s.
Definition stamp_new_app (now : time) (a : Application) : Application :=
  mkApplication (app_ID a) (app_Name a) (app_Description a) (or_column_default "active" (app_Status a))
    (or_column_default "confidential" (app_ClientType a)) (app_Protocol a) (app_ProtocolConfig a)
    (auto_time now (app_CreatedAt a)) (auto_time now (app_UpdatedAt a)).
Definition stamp_saved_app (now : time) (a : Application) : Application :=
  mkApplication (app_ID a) (app_Name a) (app_Description a) (app_Status a) (app_ClientType a) (app_Protocol a)
    (app_ProtocolConfig a) (app_CreatedAt a) now.
Definition merge_app (new old : Application) : Application :=
  mkApplication (app_ID new) (app_Name new) (app_Description new) (app_Status new) (app_ClientType new) (app_Protocol new)
    (app_ProtocolConfig new) (app_CreatedAt old) (app_UpdatedAt new).

(** A [JSONB] column holds the text of its value, and what is read is what the
    text says: a number is a [float64], a list holds anything, an object has
    its keys in order.  NaN and the infinities have no text. *)
Definition key_le (a b : string * any) : Prop := string_le a.1 b.1.
#[local] Instance key_le_dec a b : Decision (key_le a b) := decide (string_le a.1 b.1).
Fixpoint json_value (v : any) : option any :=
  match v with
  | AnyNil | AnyBool _ | AnyString _ => Some v
  | AnyInt z | AnyDuration z => Some (AnyFloat (float_of_Z z))
  | AnyFloat (SpecFloat.S754_zero _ | SpecFloat.S754_finite _ _ _) => Some v
  | AnyFloat _ => None
  | AnyStrings l => Some (AnyList (AnyString <$> l))
  | AnyList l => AnyList <$> mapM json_value l
  | AnyStringMap m => Some (AnyStruct (merge_sort key_le (prod_map id AnyString <$> map_to_list m)))
  | AnyStruct fields => AnyStruct <$> mapM (fun f : string * any => pair f.1 <$> json_value f.2) fields
  end.
Definition jsonb_column (m : gmap string any) : res error (gmap string any) :=
  match mapM (fun f : string * any => pair f.1 <$> json_value f.2) (map_to_list m) with
  | Some fields => Ok (list_to_map fields)
  | None => Err (Errorf "json: unsupported value")
  end.
Definition app_row (a : Application) : res error Application :=
  config ← jsonb_column (app_ProtocolConfig a);
  mret (mkApplication (app_ID a) (app_Name a) (app_Description a) (app_Status a) (app_ClientType a) (app_Protocol a)
    config (app_CreatedAt a) (app_UpdatedAt a)).

Section Applications.
Context {D : Type} `{Table Application D}.
(** Creating completes the caller's struct: it is returned. *)
Definition pga_CreateApplication (now : time) (app : Application) : prog D error Application :=
  let app := stamp_new_app now app in
  row ← lift (app_row app);
  t_insert [row] ;; mret app.
Definition pga_GetApplicationByID (id : string) : prog D error Application :=
  First app_ID string_le (fun a => bool_decide (app_ID a = id)).
Definition pga_GetApplicationByName (name : string) : prog D error Application :=
  First app_ID string_le (fun a => bool_decide (app_Name a = name)).
Definition pga_UpdateApplication (now : time) (app : Application) : prog D error unit :=
  row ← lift (app_row app);
  Save app_ID "" (stamp_new_app now) (stamp_saved_app now) merge_app row ;; mret ().
Definition pga_DeleteApplication (id : string) : prog D error unit := Delete_where (fun a => bool_decide (app_ID a = id)).
Definition pga_ListApplications (pq : PaginationQuery) : prog D error (list Application) :=
  rows ← t_select (fun _ => true); mret (sql_window (pq_Offset pq) (pq_PageSize pq) rows).
Definition pga_GetApplicationByClientID (clientID : string) : prog D error Application :=
  First app_ID string_le (fun a => bool_decide (app_ID a = clientID)).
End Applications.

(** ** The interfaces are kept

    The services' theorems are about any repository with the laws: these are
    the instances on the database. *)
Lemma on_missing_ok {S A} (m missing : prog S error A) s x s' : m s = (Ok x, s') -> on_missing m missing s = (Ok x, s').
Proof. unfold on_missing, try, mbind, prog_bind. by intros ->. Qed.
Lemma on_missing_none {S A} (m missing : prog S error A) s s' :
  m s = (Err ErrRecordNotFound, s') -> on_missing m missing s = missing s'.
Proof. unfold on_missing, try, mbind, prog_bind. intros ->. by rewrite bool_decide_eq_true_2. Qed.

Lemma bool_decide_sym {A} `{EqDecision A} (a b : A) : bool_decide (a = b) = bool_decide (b = a).
Proof. by apply bool_decide_ext. Qed.

Section APIKeyLaws.
Context {D L : Type} `{UniqueRows APIKey D key_conflict} `{Table RateLimitPolicy L}.
Implicit Types (r : D * L) (k : APIKey).

Lemma key_conflict_sym k j : key_conflict k j = key_conflict j k.
Proof. unfold key_conflict. by rewrite (bool_decide_sym (key_ID k)), (bool_decide_sym (key_KeyID k)). Qed.
Lemma key_conflict_id k j : key_ID k = key_ID j -> key_conflict k j = true.
Proof. intros He. unfold key_conflict. by rewrite (bool_decide_eq_true_2 _ He). Qed.
Lemma key_conflict_key_id k j : key_KeyID k = key_KeyID j -> key_conflict k j = true.
Proof. intros He. unfold key_conflict. by rewrite (bool_decide_eq_true_2 _ He), orb_true_r. Qed.
Lemma key_no_conflict k j : key_conflict k j = false <-> key_ID k <> key_ID j /\ key_KeyID k <> key_KeyID j.
Proof. unfold key_conflict. by rewrite orb_false_iff, !bool_decide_eq_false. Qed.
#[local] Hint Resolve key_conflict_sym key_conflict_id key_conflict_key_id : core.

Lemma first_key_run (f : APIKey -> string) p r id :
  (forall k j, f k = f j -> key_conflict k j = true) -> (forall k, p k = bool_decide (f k = id)) ->
  on_missing (first_key p) (throw (Sentinel ErrNotFound)) r =
    (match rows_by f r.1 !! id with Some k => Ok k | None => Err (Sentinel ErrNotFound) end, r).
Proof.
  intros Hf Hp. destruct r as [d l].
  pose proof (First_by key_ID string_le key_conflict_sym f p d id Hf Hp) as Hfirst. cbn [fst].
  destruct (rows_by f d !! id) as [k|].
  - apply on_missing_ok. unfold first_key, on_key_rows, zoom. cbn [fst]. by rewrite Hfirst.
  - rewrite (on_missing_none _ _ _ (d, l)); [done|]. unfold first_key, on_key_rows, zoom. cbn [fst]. by rewrite Hfirst.
Qed.

#[local] Instance pg_api_key_laws : @APIKeyRepositoryLaws (D * L) pg_api_keys.
Proof.
  refine {| by_id r := fun id => rows_by key_ID r.1 !! id; by_key_id r := fun id => rows_by key_KeyID r.1 !! id |}.
  - intros r id. apply first_key_run; auto.
  - intros r id. apply first_key_run; auto.
  - intros [d l] now k Hid Hkid Hc Hu. cbn [fst] in *.
    assert (Hst : stamp_new_key now k = k).
    { unfold stamp_new_key, auto_time. rewrite Hc, Hu. replace (if bool_decide (now = zero_time) then now else now) with now
        by by case_bool_decide. destruct k. cbn in *. by subst. }
    rewrite lookup_rows_none in Hid, Hkid by auto.
    destruct (insert_by d k) as (d' & Hrun & _ & Hby).
    { intros b Hb. apply key_no_conflict. split; [by apply Hid|by apply Hkid]. }
    exists (d', l). split.
    + cbn [kr_Create pg_api_keys]. unfold akr_Create, on_key_rows, zoom. cbn [fst snd]. by rewrite Hst, Hrun.
    + cbn [fst]. rewrite !Hby by auto. split; intros id; by rewrite lookup_insert.
  - intros [d l] now k k0 Hid Hsame Hkid Hne Hu. cbn [fst] in *.
    apply lookup_rows_by in Hid as [Hin Hid]; [|auto].
    assert (Hst : stamp_saved_key now k = k) by (destruct k; cbn in *; by subst).
    destruct (Save_by key_ID "" key_conflict_sym key_conflict_id (stamp_new_key now) (stamp_saved_key now) merge_key d k k0)
      as (d' & Hrun & _ & Hby); rewrite ?Hst in *; try done.
    { intros b Hb Hbk. apply key_no_conflict. split; [done|]. intros He. apply Hbk. rewrite <-Hid. f_equal.
      apply (rows_pair key_conflict_sym d b k0 Hb Hin), key_conflict_key_id. congruence. }
    exists (d', l). split.
    + cbn [kr_Update pg_api_keys]. unfold akr_Update.
      rewrite (prog_bind_run _ _ _ k (d', l)); [done|]. unfold on_key_rows, zoom. cbn [fst snd]. by rewrite Hrun.
    + cbn [fst]. rewrite !Hby by auto. split; intros id; by rewrite lookup_insert.
Defined.
End APIKeyLaws.

Section DeviceLaws.
Context {D : Type} `{UniqueRows Device D device_conflict}.

Lemma device_conflict_sym d e : device_conflict d e = device_conflict e d.
Proof. unfold device_conflict. by rewrite (bool_decide_sym (dev_ID d)), (bool_decide_sym (dev_Fingerprint d)). Qed.
Lemma device_conflict_id d e : dev_ID d = dev_ID e -> device_conflict d e = true.
Proof. intros He. unfold device_conflict. by rewrite (bool_decide_eq_true_2 _ He). Qed.
Lemma device_conflict_fp d e : dev_Fingerprint d = dev_Fingerprint e -> device_conflict d e = true.
Proof. intros He. unfold device_conflict. by rewrite (bool_decide_eq_true_2 _ He), orb_true_r. Qed.
Lemma device_no_conflict d e : device_conflict d e = false <-> dev_ID d <> dev_ID e /\ dev_Fingerprint d <> dev_Fingerprint e.
Proof. unfold device_conflict. by rewrite orb_false_iff, !bool_decide_eq_false. Qed.
#[local] Hint Resolve device_conflict_sym device_conflict_id device_conflict_fp : core.

#[local] Instance pg_device_laws : @DeviceRepositoryLaws D pg_devices.
Proof.
  refine {| devices := rows_by dev_ID |}.
  - intros d id. cbn [dr_GetByID pg_devices]. unfold pgd_GetByID.
    pose proof (First_by dev_ID string_le device_conflict_sym dev_ID (fun d => bool_decide (dev_ID d = id)) d id
      device_conflict_id (fun _ => eq_refl)) as Hf.
    destruct (rows_by dev_ID d !! id) as [x|]; [by rewrite (prog_bind_run _ _ _ _ _ Hf)|by rewrite (prog_bind_fail _ _ _ _ _ Hf)].
  - intros d fp. cbn [dr_GetByFingerprint pg_devices]. unfold pgd_GetByFingerprint.
    pose proof (First_by dev_ID string_le device_conflict_sym dev_Fingerprint (fun d => bool_decide (dev_Fingerprint d = fp)) d fp
      device_conflict_fp (fun _ => eq_refl)) as Hf. exists (rows_by dev_Fingerprint d !! fp).
    destruct (rows_by dev_Fingerprint d !! fp) as [x|] eqn:Hx.
    + split; [apply on_missing_ok; by rewrite (prog_bind_run _ _ _ _ _ Hf)|].
      apply lookup_rows_by in Hx as [Hin Hfp]; [|auto]. split; [done|]. exists (dev_ID x). apply lookup_rows_by; auto.
    + split; [by rewrite (on_missing_none _ _ _ d) by by rewrite (prog_bind_fail _ _ _ _ _ Hf)|].
      intros id e He. apply lookup_rows_by in He as [Hin _]; [|auto]. by apply (proj1 (lookup_rows_none _ d fp device_conflict_fp) Hx).
  - intros r now d Hid Hfp. destruct (with_times_device (fun _ => "") id default_order now d) as (Hi & Hf & _).
    destruct (insert_by r (with_times now d)) as (d' & Hrun & _ & Hby).
    { intros b Hb. apply device_no_conflict. rewrite Hi, Hf. split.
      - by apply (proj1 (lookup_rows_none dev_ID r (dev_ID d) device_conflict_id) Hid).
      - apply (Hfp (dev_ID b) b). apply lookup_rows_by; auto. }
    exists d'. split; [|rewrite Hby, Hi; auto].
    cbn [dr_Create pg_devices]. unfold pgd_Create. cbv zeta. by rewrite (prog_bind_run _ _ _ _ _ Hrun).
  - intros r now d d0 Hid Hfp Hne. apply lookup_rows_by in Hid as [Hin Hid]; [|auto].
    destruct (Save_by dev_ID "" device_conflict_sym device_conflict_id (with_times now) (set_UpdatedAt now) merge_device r
      (set_UpdatedAt now d) d0) as (d' & Hrun & _ & Hby); try done.
    { intros b Hb Hbk. apply device_no_conflict. split; [done|]. intros He. apply Hbk. cbn in He |- *. rewrite <-Hid. f_equal.
      apply (rows_pair device_conflict_sym r b d0 Hb Hin), device_conflict_fp. congruence. }
    exists d'. split; [exact Hrun|]. rewrite Hby; auto.
Defined.
End DeviceLaws.

Section RoleLaws.
Context {R P U J : Type} `{UniqueRows RoleRow R role_conflict} `{TableLaws PermissionRow P permission_conflict}.
Context `{UniqueRows UserRole U assignment_conflict} `{TableLaws (Z * Z) J link_conflict}.
Context (save_permissions : Z -> list PermissionRow -> prog (rbac_db R P U J) error unit).
Context (append_permission : Z -> Z -> prog (rbac_db R P U J) error unit).
Implicit Types b : rbac_db R P U J.

Lemma role_conflict_sym r q : role_conflict r q = role_conflict q r.
Proof. unfold role_conflict. by rewrite (bool_decide_sym (rr_ID r)), (bool_decide_sym (rr_Code r)). Qed.
Lemma role_conflict_id r q : rr_ID r = rr_ID q -> role_conflict r q = true.
Proof. intros He. unfold role_conflict. by rewrite (bool_decide_eq_true_2 _ He). Qed.
Lemma assignment_conflict_sym x y : assignment_conflict x y = assignment_conflict y x.
Proof. apply bool_decide_sym. Qed.

(** A query over one of the tables *)
Lemma on_roles_select p b : exists l, on_roles (t_select p) b = (Ok l, b) /\ l ≡ₚ select_rows p (t_rows (db_roles b)).
Proof. destruct (law_select p (db_roles b)) as (l & Hr & Hl). exists l. split; [|done]. unfold on_roles, zoom. rewrite Hr. by destruct b. Qed.
Lemma on_permissions_select p b :
  exists l, on_permissions (t_select p) b = (Ok l, b) /\ l ≡ₚ select_rows p (t_rows (db_permissions b)).
Proof. destruct (law_select p (db_permissions b)) as (l & Hr & Hl). exists l. split; [|done]. unfold on_permissions, zoom. rewrite Hr. by destruct b. Qed.
Lemma on_user_roles_select p b :
  exists l, on_user_roles (t_select p) b = (Ok l, b) /\ l ≡ₚ select_rows p (t_rows (db_user_roles b)).
Proof. destruct (law_select p (db_user_roles b)) as (l & Hr & Hl). exists l. split; [|done]. unfold on_user_roles, zoom. rewrite Hr. by destruct b. Qed.
Lemma on_links_select p b : exists l, on_links (t_select p) b = (Ok l, b) /\ l ≡ₚ select_rows p (t_rows (db_links b)).
Proof. destruct (law_select p (db_links b)) as (l & Hr & Hl). exists l. split; [|done]. unfold on_links, zoom. rewrite Hr. by destruct b. Qed.

(** A role with all of its permissions *)
Definition full_role b (r : RoleRow) : RoleRow := attach (t_rows (db_links b)) (t_rows (db_permissions b)) r.

Lemma filter_select {A} (Q Q' : A -> Prop) `{!forall x, Decision (Q x), !forall x, Decision (Q' x)} p (l : list A) :
  (forall x, x ∈ l -> Q' x <-> p x = true /\ Q x) -> filter Q (select_rows p l) = filter Q' l.
Proof.
  unfold select_rows. induction l as [|x l IH]; intros Hq; [done|]. cbn [List.filter].
  assert (Hx : Q' x <-> p x = true /\ Q x) by (apply Hq; left). rewrite filter_cons.
  rewrite <-(IH ltac:(intros y Hy; apply Hq; by right)).
  destruct (p x); [rewrite filter_cons|]; repeat case_decide; naive_solver.
Qed.

Lemma preload_run roles b :
  exists l, preload roles b = (Ok l, b) /\ exists links ps, l = attach links ps <$> roles /\
    forall r, r ∈ roles -> same_role (attach links ps r) (full_role b r).
Proof.
  unfold preload. destruct (on_links_select (fun l => bool_decide (l.1 ∈ rr_ID <$> roles)) b) as (links & Hl & Hlinks).
  rewrite (prog_bind_run _ _ _ _ _ Hl).
  destruct (on_permissions_select (fun p => bool_decide (pr_ID p ∈ links.*2)) b) as (ps & Hp & Hps).
  rewrite (prog_bind_run _ _ _ _ _ Hp). eexists. split; [done|]. exists links, ps. split; [done|].
  intros r Hr. split; [done|]. split; [done|]. split; [done|]. cbn [rr_Permissions full_role attach set_permissions].
  rewrite Hps. erewrite filter_select; [reflexivity|]. intros p Hpin. cbv beta. rewrite bool_decide_eq_true.
  assert (Hlink : (rr_ID r, pr_ID p) ∈ links <-> (rr_ID r, pr_ID p) ∈ t_rows (db_links b)).
  { rewrite Hlinks, elem_of_select. split; [by intros [? _]|]. intros Hin. split; [done|].
    apply bool_decide_eq_true_2, list_elem_of_fmap. by exists r. }
  rewrite <-Hlink. split; [|by intros [_ ?]]. intros Hin. split; [|done]. apply list_elem_of_fmap. by exists (rr_ID r, pr_ID p).
Qed.

#[local] Instance pg_rbac_laws : @RBACLaws (rbac_db R P U J) (pg_rbac save_permissions append_permission).
Proof.
  refine {| roles_of := fun b => full_role b <$> rows_by rr_ID (db_roles b);
            assigned := fun b u id => mkUserRole u id ∈ t_rows (db_user_roles b) |}.
  - intros u id b. cbn [rb_AssignRoleToUser pg_rbac]. unfold rbr_AssignRoleToUser.
    destruct (on_roles_select (fun r => bool_decide (rr_ID r = id)) b) as (rs & Hr & _).
    rewrite (prog_bind_run _ _ _ _ _ Hr). destruct rs as [|r rs]; [done|].
    unfold on_user_roles, zoom. pose proof (law_insert [mkUserRole u id] (db_user_roles b)) as Hi.
    destruct (unique assignment_conflict _).
    + destruct Hi as (d' & -> & Hrows). split; [done|]. intros v i. cbn [db_user_roles].
      rewrite Hrows, elem_of_app, list_elem_of_singleton. naive_solver.
    + rewrite Hi. by destruct b.
  - intros u id b. cbn [rb_UnassignRoleFromUser pg_rbac]. unfold rbr_UnassignRoleFromUser, on_user_roles, zoom.
    destruct (Delete_rows (fun a => bool_decide (ur_UserID a = u) && bool_decide (ur_RoleID a = id)) (db_user_roles b))
      as (d' & -> & Hrows). split; [done|]. intros v i. cbn [db_user_roles]. rewrite Hrows. cbn [ur_UserID ur_RoleID].
    rewrite andb_false_iff, !bool_decide_eq_false. split; [intros [? [?|?]]; naive_solver|].
    intros [? Hne]. split; [done|]. destruct (decide (v = u)) as [->|]; [|by left]. right. intros ->. by apply Hne.
  - intros id b. cbn [rb_DeleteRole pg_rbac]. unfold rbr_DeleteRole.
    destruct (on_user_roles_select (fun a => bool_decide (ur_RoleID a = id)) b) as (asg & Ha & _).
    rewrite (prog_bind_run _ _ _ _ _ Ha).
    destruct (on_links_select (fun l => bool_decide (l.1 = id)) b) as (ls & Hl & _). rewrite (prog_bind_run _ _ _ _ _ Hl).
    destruct asg; [|done]. destruct ls; [|done]. unfold on_roles, zoom.
    destruct (Delete_rows (fun r => bool_decide (rr_ID r = id)) (db_roles b)) as (d' & -> & Hrows). split; [|done].
    cbn [db_roles]. rewrite <-fmap_delete. apply map_eq. intros k. rewrite !lookup_fmap. f_equal. apply option_eq. intros r.
    rewrite lookup_delete_Some, !(lookup_rows_by rr_ID) by exact role_conflict_id. rewrite Hrows, bool_decide_eq_false.
    naive_solver.
  - intros u b. cbn [rb_GetRolesForUser pg_rbac]. unfold rbr_GetRolesForUser.
    destruct (on_user_roles_select (fun a => bool_decide (ur_UserID a = u)) b) as (asg & Ha & Hasg).
    rewrite (prog_bind_run _ _ _ _ _ Ha).
    destruct (on_roles_select (fun r => bool_decide (rr_ID r ∈ ur_RoleID <$> asg)) b) as (rs & Hr & Hrs).
    rewrite (prog_bind_run _ _ _ _ _ Hr).
    destruct (preload_run rs b) as (l & Hrun & links & ps & -> & Hsame). eexists. split; [exact Hrun|].
    assert (Hin : forall r, r ∈ rs <-> r ∈ t_rows (db_roles b) /\ mkUserRole u (rr_ID r) ∈ t_rows (db_user_roles b)).
    { intros r. rewrite Hrs, elem_of_select, bool_decide_eq_true, list_elem_of_fmap. setoid_rewrite Hasg.
      setoid_rewrite elem_of_select. setoid_rewrite bool_decide_eq_true. split.
      - intros [? ([v i] & -> & ? & <-)]. done.
      - intros [? ?]. split; [done|]. by exists (mkUserRole u (rr_ID r)). }
    split.
    + intros x Hx. apply list_elem_of_fmap in Hx as (r & -> & Hrr). apply Hin in Hrr as Hrr'. destruct Hrr' as [Hrow Has].
      exists (rr_ID r), (full_role b r). split; [done|]. split; [|by apply Hsame].
      rewrite lookup_fmap. replace (rows_by rr_ID (db_roles b) !! rr_ID r) with (Some r); [done|]. symmetry.
      apply (lookup_rows_by rr_ID); [exact role_conflict_id|done].
    + intros id r0 Has Hr0. rewrite lookup_fmap in Hr0. apply fmap_Some in Hr0 as (r & Hrow & ->).
      apply (lookup_rows_by rr_ID) in Hrow as [Hrow <-]; [|exact role_conflict_id].
      assert (Hrr : r ∈ rs) by by apply Hin. exists (attach links ps r). split; [|by apply Hsame].
      apply list_elem_of_fmap. by exists r.
Defined.
End RoleLaws.

#[local] Existing Instances pg_api_keys pg_devices.


(** ** What else the queries answer *)

(** An empty page is a page of nothing, where the memory answers a slice. *)
Lemma no_page_size {D} `{TableLaws Application D conflict} offset d :
  pga_ListApplications (mkPaginationQuery 0 offset) d = (Ok [], d).
Proof.
  unfold pga_ListApplications. destruct (law_select (fun _ => true) d) as (l & Hrun & _). rewrite (prog_bind_run _ _ _ _ _ Hrun).
  unfold sql_window. cbn [pq_PageSize pq_Offset]. by destruct (0 <? offset).
Qed.

(** Unlike the repository in memory, the database finds the policies for
    everybody as well. *)
Lemma subject_policies {D} `{TableLaws policy_row D conflict} subject d :
  exists l, pgp_FindPoliciesForSubject subject d = (Ok l, d) /\
    forall p, p ∈ l <-> (exists t, (p, t) ∈ t_rows d) /\ (subject ∈ policy_Subjects p \/ "*" ∈ policy_Subjects p).
Proof.
  unfold pgp_FindPoliciesForSubject. destruct (Find_rows (fun r : policy_row => for_subject subject r.1) d) as (l & Hrun & Hl).
  rewrite (prog_bind_run _ _ _ _ _ Hrun). eexists. split; [done|]. intros p. rewrite list_elem_of_fmap.
  setoid_rewrite Hl. unfold for_subject. setoid_rewrite orb_true_iff. setoid_rewrite bool_decide_eq_true. split.
  - intros ([q t] & -> & Hin & Hs). by split; [exists t|].
  - intros [[t Hin] Hs]. by exists (p, t).
Qed.

(** A log is read from its end: whatever the window, later entries come before
    earlier ones. *)
#[global] Instance later_total {A} (f : A -> time) : Total (later f).
Proof. intros a b. unfold later. lia. Qed.
#[global] Instance later_trans {A} (f : A -> time) : Transitive (later f).
Proof. intros a b c. unfold later. lia. Qed.

Lemma window_sorted {A} (R : A -> A -> Prop) offset limit l : StronglySorted R l -> StronglySorted R (sql_window offset limit l).
Proof.
  intros Hs. assert (Hd : forall n l, StronglySorted R l -> StronglySorted R (drop n l)).
  { intros n. induction n as [|n IH]; intros [|x k] Hk; try done. apply IH. by inversion Hk. }
  assert (Ht : forall n l, StronglySorted R l -> StronglySorted R (take n l)).
  { intros n. induction n as [|n IH]; intros [|x k] Hk; try done; [constructor|]. inversion Hk; subst. constructor; [by apply IH|].
    by apply Forall_take. }
  unfold sql_window. destruct (0 <? offset), (0 <=? limit); auto.
Qed.

Lemma window_elem {A} offset limit (l : list A) x : x ∈ sql_window offset limit l -> x ∈ l.
Proof.
  assert (Hs : sql_window offset limit l `sublist_of` l).
  { unfold sql_window. destruct (0 <? offset), (0 <=? limit); try done;
      [etrans; [apply sublist_take|apply sublist_drop]|apply sublist_drop|apply sublist_take]. }
  intros Hx. eapply elem_of_submseteq; [exact Hx|]. by apply sublist_submseteq.
Qed.

Lemma logs_newest_first {D} `{TableLaws AuditLog D conflict} userID pq d :
  exists l, pgl_GetLogsForUser userID pq d = (Ok l, d) /\ StronglySorted (later log_Timestamp) l /\
    forall e, e ∈ l -> e ∈ t_rows d /\ log_ActorID e = userID.
Proof.
  unfold pgl_GetLogsForUser, pgl_page. destruct (Find_rows (fun e => bool_decide (log_ActorID e = userID)) d) as (l & Hrun & Hl).
  rewrite (prog_bind_run _ _ _ _ _ Hrun). eexists. split; [done|]. split.
  - apply window_sorted. apply StronglySorted_merge_sort; apply _.
  - intros e He. assert (Hin : e ∈ newest_first log_Timestamp l).
    { revert He. apply window_elem. }
    unfold newest_first in Hin. rewrite merge_sort_Permutation in Hin. apply Hl in Hin. by rewrite bool_decide_eq_true in Hin.
Qed.

(** A provider that was deleted cannot be replaced: no query sees it any more,
    and its name stays taken in the index. *)
Section DeletedProviders.
Context `{UniqueRows IdentityProvider D provider_conflict} (unique_violation : error -> option string).
Implicit Types (d : D) (p q : IdentityProvider).

Lemma provider_conflict_sym p q : provider_conflict p q = provider_conflict q p.
Proof. unfold provider_conflict. by rewrite (bool_decide_sym (idp_ID p)), (bool_decide_sym (idp_Name p)). Qed.
Lemma provider_conflict_id p q : idp_ID p = idp_ID q -> provider_conflict p q = true.
Proof. intros He. unfold provider_conflict. by rewrite (bool_decide_eq_true_2 _ He). Qed.
Lemma provider_conflict_name p q : idp_Name p = idp_Name q -> provider_conflict p q = true.
Proof. intros He. unfold provider_conflict. by rewrite (bool_decide_eq_true_2 _ He), orb_true_r. Qed.

Lemma unique_same_keys (g : IdentityProvider -> IdentityProvider) l :
  (forall p, idp_ID (g p) = idp_ID p /\ idp_Name (g p) = idp_Name p) ->
  unique provider_conflict (map g l) = unique provider_conflict l.
Proof.
  intros Hg. assert (Hc : forall p q, provider_conflict (g p) (g q) = provider_conflict p q).
  { intros p q. unfold provider_conflict. destruct (Hg p) as [-> ->], (Hg q) as [-> ->]. done. }
  assert (Hall : forall p l, forallb (fun q => negb (provider_conflict (g p) q)) (map g l) =
    forallb (fun q => negb (provider_conflict p q)) l).
  { intros p k. induction k as [|q k IH]; [done|]. cbn. by rewrite Hc, IH. }
  induction l as [|p l IH]; [done|]. cbn. by rewrite IH, Hall.
Qed.

Lemma delete_provider_run now id d vs :
  exists d', pgi_DeleteProvider now id (d, vs) = (Ok (), (d', vs)) /\
    t_rows d' ≡ₚ update_rows (fun p => bool_decide (idp_ID p = id) && alive p) (set_DeletedAt (Some now)) (t_rows d).
Proof.
  pose proof (law_update (fun p => bool_decide (idp_ID p = id) && alive p) (set_DeletedAt (Some now)) d) as Hu.
  unfold update_rows in Hu at 1. rewrite unique_same_keys in Hu by (intros p; by destruct (_ && _)).
  rewrite rows_unique in Hu.
  destruct Hu as (d' & Hrun & Hrows). exists d'. split; [|done].
  unfold pgi_DeleteProvider. rewrite (prog_bind_run _ _ _ (Z.of_nat (length (select_rows
    (fun p => bool_decide (idp_ID p = id) && alive p) (t_rows d)))) (d', vs)); [done|].
  unfold on_providers, zoom. cbn [fst snd]. by rewrite Hrun.
Qed.

Theorem deleted_provider now p d vs :
  p ∈ t_rows d ->
  exists d', pgi_DeleteProvider now (idp_ID p) (d, vs) = (Ok (), (d', vs)) /\
    (pgi_GetProviderByID (idp_ID p) (d', vs)).1 = Err (Sentinel ErrNotFound) /\
    (exists l, pgi_ListProviders (d', vs) = (Ok l, (d', vs)) /\ forall q, q ∈ l -> idp_ID q <> idp_ID p) /\
    (forall q, idp_Name q = idp_Name p -> exists e vs',
       pgi_CreateProvider unique_violation q (d', vs) = (Err e, (d', vs')) /\
       (unique_violation ErrDuplicateKey = None -> e = ErrDuplicateKey)).
Proof.
  intros Hp. destruct (delete_provider_run now (idp_ID p) d vs) as (d' & Hrun & Hrows). exists d'. split; [exact Hrun|].
  assert (Hgone : forall q, q ∈ t_rows d' -> idp_ID q = idp_ID p -> alive q = false).
  { intros q Hq Hid. rewrite Hrows in Hq. unfold update_rows in Hq. apply list_elem_of_In, in_map_iff in Hq as (r & <- & Hr).
    destruct (bool_decide (idp_ID r = idp_ID p)) eqn:Hrid; cbn [andb] in *.
    - destruct (alive r) eqn:Har; [|done]. by apply bool_decide_eq_false_2.
    - by rewrite Hid, bool_decide_eq_true_2 in Hrid. }
  split; [|split].
  - unfold pgi_GetProviderByID, or_not_found, try, mbind, prog_bind, zoom. cbn [fst snd].
    rewrite First_none; [by rewrite bool_decide_eq_true_2|]. intros q Hq.
    case_bool_decide as Hid; [|done]. by rewrite Hgone.
  - destruct (Find_rows alive d') as (l & Hl & Hin). exists l. split.
    + unfold pgi_ListProviders, on_providers, zoom. cbn [fst snd]. by rewrite Hl.
    + intros q Hq Hid. apply Hin in Hq as [Hq Ha]. by rewrite Hgone in Ha.
  - intros q Hname.
    assert (Hdup : t_insert [q] d' = (Err ErrDuplicateKey, d')).
    { pose proof (law_insert [q] d') as Hi. destruct (unique provider_conflict (t_rows d' ++ [q])) eqn:Hu; [|done]. exfalso.
      assert (Htaken : exists r, r ∈ t_rows d' /\ idp_Name r = idp_Name q).
      { exists (if bool_decide (idp_ID p = idp_ID p) && alive p then set_DeletedAt (Some now) p else p). split.
        - rewrite Hrows. apply list_elem_of_In, in_map_iff. exists p. split; [done|by apply list_elem_of_In].
        - rewrite Hname. by destruct (_ && _). }
      destruct Htaken as (r & Hr & Hrn). rewrite unique_app, !andb_true_iff, forallb_forall in Hu. destruct Hu as [_ Hu].
      apply list_elem_of_In in Hr. specialize (Hu r Hr). cbn in Hu. by rewrite provider_conflict_name in Hu. }
    unfold pgi_CreateProvider, try, on_providers, zoom, mbind, prog_bind. cbn [fst snd]. rewrite Hdup.
    destruct (unique_violation ErrDuplicateKey); by eexists _, _.
Qed.
End DeletedProviders.

(** ** Examples *)
Definition demo_key_row : APIKey := mkAPIKey "k1" "shop" "abc" "hash" "qid_live_" [] None false 1 1.
Definition demo_keys : utable key_conflict := exist (fun l => unique key_conflict l = true) [demo_key_row] eq_refl.
Definition demo_roles : rbac_db (utable role_conflict) (utable permission_conflict) (utable assignment_conflict) (utable link_conflict) :=
  mkRbacDb (exist (fun l => unique role_conflict l = true) [mkRoleRow 1 "editor" "" []] eq_refl)
    (exist (fun l => unique permission_conflict l = true) [mkPermissionRow 7 "page" "edit" ""] eq_refl)
    (exist (fun l => unique assignment_conflict l = true) [mkUserRole "ann" 1] eq_refl)
    (exist (fun l => unique link_conflict l = true) [(1, 7)] eq_refl) 1 7.
Example demo_roles_read :
  (@rbr_GetRolesForUser _ _ _ _ (unique_table _) (unique_table _) (unique_table _) (unique_table _) "ann" demo_roles).1 =
    Ok [mkRoleRow 1 "editor" "" [mkPermissionRow 7 "page" "edit" ""]].
Proof. vm_compute. reflexivity. Qed.

Definition no_limits : Table RateLimitPolicy (list RateLimitPolicy) := list_table (fun _ _ => false).
Definition demo_save (id : Z) (ps : list PermissionRow) :
  prog (rbac_db (utable role_conflict) (utable permission_conflict) (utable assignment_conflict) (utable link_conflict)) error unit := mret ().
Definition demo_append (id pid : Z) :
  prog (rbac_db (utable role_conflict) (utable permission_conflict) (utable assignment_conflict) (utable link_conflict)) error unit := mret ().

