(* ===== verification/DevCenter.v ===== *)
(** * Applications and the developer centre

    internal/services/application/service.go (the application service),
    internal/services/platform/devcenter_service.go, handlers/devcenter.go and
    pkg/types/devcenter.go, over the table of applications of PgStores.v.  The
    theorems follow an application from its registration to the OAuth adapter
    (OAuth.v): it is stored once, found by its client identifier, and refused
    there, since the adapter does not read what a JSON column gives back. *)

From S2P Require Import Prelude Types GoStd MemIdentity IdentityService Authorization AuthService AuthApi Tables PgIdentity Redis OAuth PgStores.
Local Open Scope Z_scope.

(** ** Requests and answers (pkg/types/devcenter.go) *)
Record CreateApplicationRequest := mkCreateApplicationRequest {
  car_Name : string;
  car_Description : string;
  car_Protocol : string;
  car_ProtocolConfig : gmap string any
}.
Record CreateAppRequest := mkCreateAppRequest { creq_Name : string; creq_Protocol : string; creq_RedirectURI : string }.
Record DevCenterAppDTO := mkDevCenterAppDTO {
  dto_ID : string;
  dto_Name : string;
  dto_Protocol : string;
  dto_ClientID : string;
  dto_RedirectURI : string;
  dto_Enabled : bool
}.
Record DevCenterConnectorDTO := mkDevCenterConnectorDTO {
  con_ID : string;
  con_Type : string;
  con_Name : string;
  con_Enabled : bool;
  con_TenantID : string
}.
Record DiagnosticsDTO := mkDiagnosticsDTO {
  diag_Version : string;
  diag_BuildTime : string;
  diag_GoVersion : string;
  diag_ConfigInfo : gmap string string
}.
Inductive dev_body :=
  | DevText (s : string)
  | DevApps (l : list DevCenterAppDTO)
  | DevApp (a : DevCenterAppDTO)
  | DevConnectors (l : list DevCenterConnectorDTO)
  | DevDiagnostics (d : DiagnosticsDTO)
  | DevNothing.

Definition ApplicationStatusActive : string := "active".

(** ** The services

    The state is the database with the variables of the predefined errors. *)
Section Services.
Context {D : Type} `{Table Application D}.
Notation dc A := (prog (D * errvars) error A).

Definition on_apps {A} (m : prog D error A) : dc A := zoom fst (fun d s => (d, s.2)) m.
(** A predefined error is passed on, any other is the cause of [ErrInternal]. *)
Definition or_ErrInternal {A} (m : dc A) : dc A :=
  answer ← try m;
  match answer with
  | inr x => mret x
  | inl (Sentinel code) => throw (Sentinel code)
  | inl err => modify (fun s => (s.1, WithCause s.2 ErrInternal err)) ;; throw (Sentinel ErrInternal)
  end.

Definition GetApplicationByID (id : string) : dc Application := or_ErrInternal (on_apps (pga_GetApplicationByID id)).
Definition CreateApplication (uuid : string) (now : time) (req : CreateApplicationRequest) : dc Application :=
  let app := mkApplication uuid (car_Name req) (car_Description req) ApplicationStatusActive ""
               (car_Protocol req) (car_ProtocolConfig req) zero_time zero_time in
  or_ErrInternal (on_apps (pga_CreateApplication now app)).
(** The page asked for is empty. *)
Definition ListApplications : dc (list Application) := or_ErrInternal (on_apps (pga_ListApplications (mkPaginationQuery 0 0))).

(** *** The developer centre *)
Definition app_dto (redirectURI : string) (app : Application) : DevCenterAppDTO :=
  mkDevCenterAppDTO (app_ID app) (app_Name app) (app_Protocol app) "" redirectURI
    (bool_decide (app_Status app = ApplicationStatusActive)).
Definition ListApps : dc (list DevCenterAppDTO) := apps ← ListApplications; mret (app_dto "" <$> apps).
Definition CreateApp (uuid : string) (now : time) (req : CreateAppRequest) : dc DevCenterAppDTO :=
  let protocolConfig := {[ "redirect_uris" := AnyStrings [creq_RedirectURI req] ]} in
  app ← CreateApplication uuid now (mkCreateApplicationRequest (creq_Name req) "" (creq_Protocol req) protocolConfig);
  mret (app_dto (creq_RedirectURI req) app).
Definition ListConnectors : dc (list DevCenterConnectorDTO) :=
  mret [mkDevCenterConnectorDTO "ldap-1" "ldap" "LDAP Connector" true ""].
Definition EnableConnector (id : string) : dc unit := mret ().
Definition Diagnostics : dc DiagnosticsDTO :=
  mret (mkDiagnosticsDTO "1.0.0" "2021-01-01T00:00:00Z" "go1.17" {[ "environment" := "development" ]}).

(** ** The handlers (handlers/devcenter.go)

    [http.Error(w, err.Error(), status)] for a failed call *)
Definition or_text {A} (status : Z) (m : dc A) (answer : A -> Z * dev_body) : dc (Z * dev_body) :=
  done ← try m;
  match done with
  | inl err => mret (status, DevText (Error_text err))
  | inr x => mret (answer x)
  end.
Definition dev_ListApps : dc (Z * dev_body) := or_text 500 ListApps (fun apps => (200, DevApps apps)).
Definition dev_CreateApp (uuid : string) (now : time) (body : string + CreateAppRequest) : dc (Z * dev_body) :=
  match body with
  | inl message => mret (400, DevText message)
  | inr req => or_text 400 (CreateApp uuid now req) (fun app => (201, DevApp app))
  end.
Definition dev_ListConnectors : dc (Z * dev_body) := or_text 500 ListConnectors (fun l => (200, DevConnectors l)).
Definition dev_EnableConnector (id : string) : dc (Z * dev_body) :=
  or_text 500 (EnableConnector id) (fun _ => (200, DevNothing)).
Definition dev_Diagnostics : dc (Z * dev_body) := or_text 500 Diagnostics (fun d => (200, DevDiagnostics d)).
End Services.

(** ** What becomes of an application *)
Section Facts.
Context `{UniqueRows Application D app_conflict}.
Implicit Types (d : D) (vs : errvars).

Lemma on_apps_run {A} (m : prog D error A) d vs r d' : m d = (r, d') -> on_apps m (d, vs) = (r, (d', vs)).
Proof. intros Hm. unfold on_apps, zoom. cbn [fst snd]. by rewrite Hm. Qed.

Lemma or_ErrInternal_run {A} (m : prog (D * errvars) error A) s x s' : m s = (Ok x, s') -> or_ErrInternal m s = (Ok x, s').
Proof. intros Hm. unfold or_ErrInternal, try, mbind, prog_bind. by rewrite Hm. Qed.

Lemma or_text_run {A} status (m : prog (D * errvars) error A) answer s x s' :
  m s = (Ok x, s') -> or_text status m answer s = (Ok (answer x), s').
Proof. intros Hm. unfold or_text, try, mbind, prog_bind. by rewrite Hm. Qed.

(** The row an application makes. *)
Definition registered (uuid : string) (now : time) (req : CreateAppRequest) : Application :=
  mkApplication uuid (creq_Name req) "" ApplicationStatusActive ClientTypeConfidential (creq_Protocol req)
    {[ "redirect_uris" := AnyList [AnyString (creq_RedirectURI req)] ]} now now.

Definition created (uuid : string) (now : time) (req : CreateAppRequest) : Application :=
  mkApplication uuid (creq_Name req) "" ApplicationStatusActive ClientTypeConfidential (creq_Protocol req)
    {[ "redirect_uris" := AnyStrings [creq_RedirectURI req] ]} now now.

Lemma created_row uuid now req : app_row (created uuid now req) = Ok (registered uuid now req).
Proof. unfold app_row, jsonb_column, created. cbn [app_ProtocolConfig]. by rewrite map_to_list_singleton. Qed.

Lemma app_conflict_false a b : app_conflict a b = false <-> app_ID a <> app_ID b /\ app_Name a <> app_Name b.
Proof. unfold app_conflict. by rewrite orb_false_iff, !bool_decide_eq_false. Qed.

Lemma pga_create_run uuid now req d :
  (forall b, b ∈ t_rows d -> app_conflict b (registered uuid now req) = false) ->
  exists d',
    pga_CreateApplication now (mkApplication uuid (creq_Name req) "" ApplicationStatusActive "" (creq_Protocol req)
      {[ "redirect_uris" := AnyStrings [creq_RedirectURI req] ]} zero_time zero_time) d = (Ok (created uuid now req), d') /\
    forall b, b ∈ t_rows d' <-> b = registered uuid now req \/ b ∈ t_rows d.
Proof.
  intros Hfree. destruct (insert_row d (registered uuid now req) Hfree) as (d' & Hrun & Hrows). exists d'. split; [|done].
  unfold pga_CreateApplication. change (stamp_new_app _ _) with (created uuid now req). cbv zeta. rewrite created_row.
  rewrite (prog_bind_run _ _ _ _ _ (eq_refl : lift (Ok (registered uuid now req)) d = (Ok _, d))).
  by rewrite (prog_bind_run _ _ _ _ _ Hrun).
Qed.

Lemma found_by_client_id uuid now req d d' :
  (forall b, b ∈ t_rows d -> app_conflict b (registered uuid now req) = false) ->
  (forall b, b ∈ t_rows d' <-> b = registered uuid now req \/ b ∈ t_rows d) ->
  pga_GetApplicationByClientID uuid d' = (Ok (registered uuid now req), d').
Proof.
  intros Hfree Hrows. apply First_one.
  - apply Hrows. by left.
  - by apply bool_decide_eq_true.
  - intros b [->|Hb]%Hrows Hid%bool_decide_eq_true; [done|]. by apply Hfree, app_conflict_false in Hb as [? _].
Qed.

(** An application is registered once, under an identifier and a name that
    were free, and a taken name is an internal error that leaves the table. *)
Lemma app_registered uuid now req d vs :
  (forall b, b ∈ t_rows d -> app_conflict b (registered uuid now req) = false) ->
  exists d',
    dev_CreateApp uuid now (inr req) (d, vs) =
      (Ok (201, DevApp (mkDevCenterAppDTO uuid (creq_Name req) (creq_Protocol req) "" (creq_RedirectURI req) true)), (d', vs)) /\
    (forall b, b ∈ t_rows d' <-> b = registered uuid now req \/ b ∈ t_rows d) /\
    pga_GetApplicationByClientID uuid d' = (Ok (registered uuid now req), d').
Proof.
  intros Hfree. destruct (pga_create_run uuid now req d Hfree) as (d' & Hrun & Hrows). exists d'.
  split; [|split; [done|exact (found_by_client_id uuid now req d d' Hfree Hrows)]].
  unfold dev_CreateApp. apply (or_text_run 400 _ (fun app => (201, DevApp app)) _ (app_dto (creq_RedirectURI req) (created uuid now req))).
  unfold CreateApp. cbv zeta. unfold CreateApplication. cbn [car_Name car_Description car_Protocol car_ProtocolConfig].
  by rewrite (prog_bind_run _ _ _ _ _ (or_ErrInternal_run _ _ _ _ (on_apps_run _ d vs _ d' Hrun))).
Qed.

Lemma taken_name uuid now req d vs b :
  b ∈ t_rows d -> app_conflict b (registered uuid now req) = true ->
  dev_CreateApp uuid now (inr req) (d, vs) =
    (Ok (400, DevText "code: internal_error, message: An unexpected internal error occurred"),
     (d, WithCause vs ErrInternal ErrDuplicateKey)).
Proof.
  intros Hb Hc. pose proof (law_insert [registered uuid now req] d) as Hi.
  assert (unique app_conflict (t_rows d ++ [registered uuid now req]) = false) as Hu.
  { apply not_true_is_false. rewrite unique_app. intros [_ Hall]%andb_true_iff. rewrite forallb_forall in Hall.
    apply list_elem_of_In, Hall in Hb. cbn in Hb. by rewrite Hc in Hb. }
  rewrite Hu in Hi.
  unfold dev_CreateApp, or_text, CreateApp, CreateApplication, or_ErrInternal, on_apps, zoom, try, mbind, prog_bind.
  cbn [fst snd car_Name car_Description car_Protocol car_ProtocolConfig]. unfold pga_CreateApplication.
  change (stamp_new_app _ _) with (created uuid now req). cbv zeta. rewrite created_row. unfold mbind, prog_bind, lift.
  by rewrite Hi.
Qed.

(** The developer centre lists no application, whatever the database holds. *)
Lemma lists_nothing d vs : dev_ListApps (d, vs) = (Ok (200, DevApps []), (d, vs)).
Proof.
  apply (or_text_run 500 _ (fun apps => (200, DevApps apps)) _ []). unfold ListApps, ListApplications.
  by rewrite (prog_bind_run _ _ _ _ _ (or_ErrInternal_run _ _ _ _ (on_apps_run _ d vs _ d (no_page_size 0 d)))).
Qed.
End Facts.

(** ** The application and the OAuth adapter

    The adapter over the table: no authorization request for the application
    gets a code, and no client may ask for a token in its own name, although
    the application is stored as it was registered. *)
Section Client.
Context `{UniqueRows Application D app_conflict} `{IdentityRepository R} `{Redis C}.

Definition apps_of (d : D) (clientID : string) : res error Application := (pga_GetApplicationByClientID clientID d).1.

Lemma devcenter_app_unusable uuid now req (d : D) vs (a : adapter) (o : oracle) (w : oworld R C) t code refresh c treq :
  (forall b, b ∈ t_rows d -> app_conflict b (registered uuid now req) = false) ->
  exists d', (exists b, dev_CreateApp uuid now (inr req) (d, vs) = (Ok (201, b), (d', vs))) /\
    (ad_apps a = Some (apps_of d') -> ad_logger a = true ->
     credential c "client_id" = uuid -> credential c "response_type" = "code" ->
     (HandleAuthRequest a o t code c w).1 = Err (Sentinel ErrInvalidClient)) /\
    (ad_apps a = Some (apps_of d') -> req_ClientID treq = uuid -> GrantType treq = "client_credentials" ->
     (HandleTokenRequest a o t refresh treq w).1 = Err (Sentinel ErrInvalidClient)).
Proof.
  intros Hfree. destruct (app_registered uuid now req d vs Hfree) as (d' & Hrun & _ & Hget). exists d'.
  assert (Hfound : apps_of d' uuid = Ok (registered uuid now req)) by (unfold apps_of; by rewrite Hget).
  split; [by eexists|]. split.
  - intros Ha Hl Hid Hr. unfold HandleAuthRequest, log_line, get_application. rewrite Ha, Hl, Hr, Hid, Hfound.
    cbn [negb]. by rewrite bool_decide_eq_true_2.
  - intros Ha Hid Hg. unfold HandleTokenRequest. rewrite Hg. cbn [bool_decide decide].
    unfold handleClientCredentials, get_application. by rewrite Ha, Hid, Hfound.
Qed.
End Client.

(** On a table that holds nothing. *)
Definition empty_apps : utable app_conflict := exist _ [] eq_refl.
Definition shop : CreateAppRequest := mkCreateAppRequest "shop" "oidc" "https://shop.example/cb".

Example shop_registered :
  (@dev_CreateApp _ (unique_table app_conflict) "a1" 7 (inr shop) (empty_apps, ∅)).1 =
  Ok (201, DevApp (mkDevCenterAppDTO "a1" "shop" "oidc" "" "https://shop.example/cb" true)).
Proof. vm_compute. reflexivity. Qed.
