(* ===== verification/Plugins.v ===== *)
(** * Plugins and the LDAP connector (pkg/plugins)

    The registry and the manager of plugins (registry.go, manager.go, base.go),
    and the one connector there is (connectors/ldap): its dialling, its log-in
    by search and bind, and its reading of users.  On the manager of plugins
    stands one of second factors (pkg/auth/mfa/manager.go).  A plugin is a handle into a
    world that its methods change; the LDAP library is a class of operations on
    a connection, with the laws of RFC 4511 on who a connection is bound as. *)

From S2P Require Import Prelude Types GoStd AuthService AuthApi.
Local Open Scope Z_scope.

Definition ErrPluginNotFound : string := "plugin_not_found".
Definition PluginTypeIdentityConnector : string := "identity_connector".

(** The settings of one instance (pkg/types/auth.go). *)
Record ConnectorConfig := mkConnectorConfig {
  cc_InstanceID : string;
  cc_ProviderID : string;
  cc_Config : gmap string any;
  cc_PrivateKey : string;
  cc_RedisURL : string;
  cc_JWTSecret : string
}.
Record PluginConfig := mkPluginConfig { plc_Name : string; plc_Enabled : bool; plc_Settings : gmap string any }.

(** ** The interface (interfaces.go) *)
Class IPlugin (P W : Type) := {
  p_Name : P -> W -> string;
  p_Type : P -> W -> string;
  p_Initialize : P -> ConnectorConfig -> prog W error unit;
  p_Start : P -> prog W error unit;
  p_Stop : P -> prog W error unit;
  p_HealthCheck : P -> prog W error unit
}.

(** *** The skeleton to embed (base.go): the world is the plugin itself. *)
Record BasePlugin := mkBasePlugin { PluginName : string; PluginType : string; has_logger : bool }.
#[global] Instance base_plugin : IPlugin unit BasePlugin := {|
  p_Name _ b := PluginName b;
  p_Type _ b := PluginType b;
  p_Initialize _ _ := modify (fun b => mkBasePlugin (PluginName b) (PluginType b) true);
  p_Start _ := mret ();
  p_Stop _ := mret ();
  p_HealthCheck _ := mret ()
|}.

(** ** Registry and manager

    A factory makes a plugin; the manager keeps those it has started. *)
Section Manager.
Context {P W : Type} `{IPlugin P W} (ord : map_order).

Record plugin_state := mkPluginState {
  ps_world : W;
  ps_factories : gmap string (W -> P * W);
  ps_active : gmap string P;
  ps_errors : errvars
}.
Notation pl A := (prog plugin_state error A).

Definition on_plugin {A} (m : prog W error A) : pl A :=
  zoom ps_world (fun w s => mkPluginState w (ps_factories s) (ps_active s) (ps_errors s)) m.
Definition make (factory : W -> P * W) : pl P :=
  on_plugin (fun w => let '(p, w) := factory w in (Ok p, w)).
Definition set_active (f : gmap string P -> gmap string P) : pl unit :=
  modify (fun s => mkPluginState (ps_world s) (ps_factories s) (f (ps_active s)) (ps_errors s)).

Definition plugin_missing {A} (name : string) : pl A :=
  modify (fun s => mkPluginState (ps_world s) (ps_factories s) (ps_active s)
                     (WithDetails (ps_errors s) ErrPluginNotFound {[ "name" := name ]})) ;;
  throw (Sentinel ErrPluginNotFound).

(** *** registry.go *)
Definition RegisterPlugin (name : string) (factory : W -> P * W) : pl unit :=
  s ← get;
  match ps_factories s !! name with
  | Some _ => throw (Errorf ("plugin with name '" +:+ name +:+ "' is already registered"))
  | None => put (mkPluginState (ps_world s) (<[name := factory]> (ps_factories s)) (ps_active s) (ps_errors s))
  end.
Definition GetPluginFactory (name : string) : pl (W -> P * W) :=
  s ← get; match ps_factories s !! name with Some factory => mret factory | None => plugin_missing name end.
Definition ListPlugins : pl (list string) := s ← get; mret (range ord (ps_factories s)).*1.
(** Every factory makes a plugin, for its type only. *)
Fixpoint names_of_type (pluginType : string) (l : list (string * (W -> P * W))) : pl (list string) :=
  match l with
  | [] => mret []
  | (name, factory) :: l =>
      p ← make factory;
      s ← get;
      names ← names_of_type pluginType l;
      mret (if bool_decide (p_Type p (ps_world s) = pluginType) then name :: names else names)
  end.
Definition ListPluginsByType (pluginType : string) : pl (list string) :=
  s ← get; names_of_type pluginType (range ord (ps_factories s)).

(** *** manager.go *)
Definition plugin_name (p : P) : pl string := s ← get; mret (p_Name p (ps_world s)).
Definition start_plugin (pconf : PluginConfig) : pl unit :=
  if negb (plc_Enabled pconf) then mret () else
  factory ← GetPluginFactory (plc_Name pconf);
  plugin ← make factory;
  name ← plugin_name plugin;
  let connectorConfig := mkConnectorConfig name name (plc_Settings pconf) "" "" "" in
  on_plugin (p_Initialize plugin connectorConfig) ;;
  on_plugin (p_Start plugin) ;;
  name ← plugin_name plugin;
  set_active <[name := plugin]>.
Definition start_plugins (configs : list PluginConfig) : pl unit := for_each start_plugin configs.
(** The list of configurations is declared and never filled. *)
Definition LoadAndStartPlugins : pl unit := start_plugins [].
(** A plugin that cannot be stopped is logged; none is forgotten. *)
Definition StopAllPlugins : pl unit :=
  s ← get; for_each (fun kp : string * P => try (on_plugin (p_Stop kp.2)) ;; mret ()) (range ord (ps_active s)).
Definition GetPlugin (name : string) : pl P :=
  s ← get; match ps_active s !! name with Some plugin => mret plugin | None => plugin_missing name end.
End Manager.
Arguments plugin_state : clear implicits.
Arguments mkPluginState {P W}.
Arguments ps_world {P W}.
Arguments ps_factories {P W}.
Arguments ps_active {P W}.
Arguments ps_errors {P W}.

(** ** LDAP connections (github.com/go-ldap/ldap/v3) *)
Record ldap_entry := mkLdapEntry { le_DN : string; le_Attributes : list (string * list string) }.
Record SearchRequest := mkSearchRequest {
  sq_BaseDN : string;
  sq_Scope : Z;
  sq_DerefAliases : Z;
  sq_Filter : string;
  sq_Attributes : list string
}.
Definition ScopeBaseObject : Z := 0.
Definition ScopeWholeSubtree : Z := 2.
Definition NeverDerefAliases : Z := 0.

Class LdapConn (C : Type) := {
  lc_StartTLS : prog C error unit;
  lc_Bind : string -> string -> prog C error unit;
  lc_Search : SearchRequest -> prog C error (list ldap_entry);
  lc_SearchWithPaging : SearchRequest -> Z -> prog C error (list ldap_entry);
  lc_Close : prog C error unit
}.

(** RFC 4511: a bind that succeeds makes the connection that of the name, one
    that fails leaves it anonymous, and a search leaves it alone.  The directory
    accepts a name with its password, before and after. *)
Class LdapLaws (C : Type) `{LdapConn C} := {
  lc_who : C -> option string;
  lc_accepts : C -> string -> string -> bool;
  law_bind dn pw c : match lc_Bind dn pw c with
    | (Ok _, c') => lc_who c' = Some dn /\ lc_accepts c dn pw = true /\ lc_accepts c' = lc_accepts c
    | (Err _, c') => lc_who c' = None /\ lc_accepts c' = lc_accepts c
    | _ => False
    end;
  law_ldap_search q c : match lc_Search q c with
    | (Ok _, c') | (Err _, c') => lc_who c' = lc_who c /\ lc_accepts c' = lc_accepts c
    | _ => False
    end;
  law_paging q n c : match lc_SearchWithPaging q n c with
    | (Ok _, c') | (Err _, c') => lc_who c' = lc_who c /\ lc_accepts c' = lc_accepts c
    | _ => False
    end
}.

(** ** The connector (config.go, mapper.go, ldap_connector.go) *)
Record LDAPConfig := mkLDAPConfig {
  lcfg_Host : string;
  lcfg_Port : Z;
  lcfg_UseTLS : bool;
  lcfg_BindDN : string;
  lcfg_BindPassword : string;
  lcfg_BaseDN : string;
  lcfg_UserFilter : string;
  lcfg_AttrMapping : gmap string string
}.
(** The fields of an [AuthResponse] that the connector sets. *)
Record ConnectorResponse := mkConnectorResponse {
  cresp_Success : bool;
  cresp_User : option User;
  cresp_Error : option string
}.

Section Connector.
Context `{LdapConn C} (GetAttributeValue : list (string * list string) -> string -> string) (ord : map_order) (cfg : LDAPConfig).
Notation lc A := (prog (C * errvars) error A).

Definition mapping (field : string) : string := default "" (lcfg_AttrMapping cfg !! field).
Definition GetAttributeList : list string := (range ord (lcfg_AttrMapping cfg)).*2.

Definition with_contact (email phone : string) (attributes : gmap string any) (u : User) : User :=
  mkUser (user_ID u) (user_Username u) email phone (user_Password u)
    (user_Status u) attributes (user_PrivacySettings u) (user_Groups u)
    (user_CreatedAt u) (user_UpdatedAt u) (user_DeletedAt u) (user_LastLoginAt u)
    (user_MergeHistory u) (user_ExternalID u) (user_SourceType u).
(** All attributes are kept under their own names; the mapped name can be
    among them and is then overwritten.  The library finds the value of an
    attribute. *)
Definition MapEntryToUser (entry : ldap_entry) : User :=
  let value := GetAttributeValue (le_Attributes entry) in
  let displayName := match lcfg_AttrMapping cfg !! "display_name" with
    | Some attribute => {[ "displayName" := AnyString (value attribute) ]}
    | None => ∅
    end in
  let phone := match lcfg_AttrMapping cfg !! "phone" with Some attribute => value attribute | None => "" end in
  let attributes := fold_left (fun m '(name, values) => <[name := AnyStrings values]> m) (le_Attributes entry) displayName in
  with_contact (value (mapping "email")) phone attributes (new_user "" (value (mapping "username")) "" "" "").

(** *** Dialling

    [Retry] is the library's loop with exponential backoff over a dial.  A
    connection that cannot be secured or bound is not closed. *)
Definition dial_url : string := "ldap://" +:+ lcfg_Host cfg +:+ ":" +:+ pretty (lcfg_Port cfg).
Definition secured_and_bound : prog C error unit :=
  (if lcfg_UseTLS cfg then wrapping "ldap starttls: " lc_StartTLS else mret ()) ;;
  wrapping "ldap bind: " (lc_Bind (lcfg_BindDN cfg) (lcfg_BindPassword cfg)).
Definition NewLDAPConnector {W} (DialURL : string -> prog W error C)
    (Retry : prog W error C -> prog W error C) : prog W error C :=
  conn ← wrapping "ldap dial: " (Retry (DialURL dial_url));
  match secured_and_bound conn with
  | (Ok _, conn) => mret conn
  | (Err err, _) => throw err
  | (Panic, _) => lift Panic
  | (Diverge, _) => lift Diverge
  end.

Definition on_conn {A} (m : prog C error A) : lc A := zoom fst (fun c s => (c, s.2)) m.

Definition connector_Name : string := "ldap-connector".
Definition connector_Type : string := PluginTypeIdentityConnector.
Definition connector_Stop : lc unit := on_conn (try lc_Close) ;; mret ().
Definition connector_HealthCheck : lc unit :=
  on_conn (lc_Search (mkSearchRequest "" ScopeBaseObject NeverDerefAliases "(objectClass=*)" ["dn"])) ;; mret ().

(** *** Searching *)
Definition user_filter (identifier : string) : string :=
  "(&" +:+ lcfg_UserFilter cfg +:+ "(" +:+ mapping "username" +:+ "=" +:+ identifier +:+ "))".
Definition connector_search (filter : string) : SearchRequest :=
  mkSearchRequest (lcfg_BaseDN cfg) ScopeWholeSubtree NeverDerefAliases filter GetAttributeList.

Definition missing_field {A} (field : string) : lc A :=
  modify (fun s => (s.1, WithDetails s.2 ErrBadRequest {[ "field" := field ]})) ;; throw (Sentinel ErrBadRequest).
Definition required_credential (credentials : gmap string string) (field : string) : lc string :=
  match credentials !! field with Some v => mret v | None => missing_field field end.
(** A failure is logged, and the caller told no more. *)
Definition or_internal {A} (m : lc A) : lc A :=
  answer ← try m;
  match answer with inl _ => throw (Sentinel ErrInternal) | inr x => mret x end.

Definition Authenticate (credentials : gmap string string) : lc ConnectorResponse :=
  username ← required_credential credentials "username";
  password ← required_credential credentials "password";
  entries ← or_internal (on_conn (lc_Search (connector_search (user_filter username))));
  match entries with
  | [] => mret (mkConnectorResponse false None (Some ErrUserNotFound))
  | entry :: _ =>
      userBind ← try (on_conn (lc_Bind (le_DN entry) password));
      or_internal (on_conn (lc_Bind (lcfg_BindDN cfg) (lcfg_BindPassword cfg))) ;;
      match userBind with
      | inl _ => mret (mkConnectorResponse false None (Some ErrInvalidCredentials))
      | inr _ => mret (mkConnectorResponse true (Some (MapEntryToUser entry)) None)
      end
  end.

Definition connector_GetUser (identifier : string) : lc User :=
  entries ← on_conn (lc_Search (connector_search (user_filter identifier)));
  match entries with
  | [] => throw (Sentinel ErrUserNotFound)
  | entry :: _ => mret (MapEntryToUser entry)
  end.
Definition SearchUsers (filter : string) : lc (list User) :=
  entries ← on_conn (lc_SearchWithPaging (connector_search filter) 100);
  mret (MapEntryToUser <$> entries).
Definition SyncUsers : lc (list User) := SearchUsers (lcfg_UserFilter cfg).
Definition connector_GetGroup (identifier : string) : lc UserGroup := throw (Errorf "not implemented").
Definition SyncGroups : lc (list UserGroup) := throw (Errorf "not implemented").

(** The connector as a plugin *)
Definition ldap_plugin : IPlugin unit (C * errvars) := {|
  p_Name _ _ := connector_Name;
  p_Type _ _ := connector_Type;
  p_Initialize _ _ := mret ();
  p_Start _ := mret ();
  p_Stop _ := connector_Stop;
  p_HealthCheck _ := connector_HealthCheck
|}.
End Connector.

(** ** Second factors by plugin (pkg/auth/mfa/manager.go)

    A plugin that is an MFA provider as well; the challenges it sent are kept
    until one answer to them is checked. *)
Definition ErrMfaChallengeInvalid : string := "mfa_challenge_invalid".
Definition ErrPluginLoadFailed : string := "plugin_load_failed".
Definition AuthMethodTOTP : string := "totp".
Definition AuthMethodSMS : string := "sms".

Record IMFAProvider (W : Type) := mkIMFAProvider {
  mp_SendChallenge : User -> prog W error MFAChallenge;
  mp_VerifyChallenge : string -> string -> prog W error bool
}.
Arguments mkIMFAProvider {W}.
Arguments mp_SendChallenge {W}.
Arguments mp_VerifyChallenge {W}.

Record mfa_state (P W : Type) := mkMfaState { mf_plugins : plugin_state P W; mf_challenges : gmap string MFAChallenge }.
Arguments mkMfaState {P W}.
Arguments mf_plugins {P W}.
Arguments mf_challenges {P W}.

Section MfaManager.
Context {P W : Type} `{IPlugin P W} (as_mfa : P -> option (IMFAProvider W)).
Notation mf A := (prog (mfa_state P W) error A).

Definition on_plugins {A} (m : prog (plugin_state P W) error A) : mf A :=
  zoom mf_plugins (fun p s => mkMfaState p (mf_challenges s)) m.
Definition on_mfa_errors (f : errvars -> errvars) : mf unit :=
  on_plugins (modify (fun s => mkPluginState (ps_world s) (ps_factories s) (ps_active s) (f (ps_errors s)))).
Definition set_challenges (f : gmap string MFAChallenge -> gmap string MFAChallenge) : mf unit :=
  modify (fun s => mkMfaState (mf_plugins s) (f (mf_challenges s))).

Definition getMfaMethodForUser (user : User) : string := AuthMethodTOTP.
Definition getPluginNameForMethod (method : string) : string :=
  if bool_decide (method = AuthMethodTOTP) then "totp_provider"
  else if bool_decide (method = AuthMethodSMS) then "sms_provider" else "".

(** The error that is wrapped is the one it is wrapped in. *)
Definition get_provider (pluginName : string) : mf P :=
  answer ← try (on_plugins (GetPlugin pluginName));
  match answer with
  | inl err => on_mfa_errors (fun vs => WithCause vs ErrPluginNotFound err) ;; throw (Sentinel ErrPluginNotFound)
  | inr plugin => mret plugin
  end.

Definition TriggerChallenge (user : User) : mf MFAChallenge :=
  let pluginName := getPluginNameForMethod (getMfaMethodForUser user) in
  plugin ← get_provider pluginName;
  match as_mfa plugin with
  | None =>
      on_mfa_errors (fun vs => WithCause vs ErrPluginLoadFailed
        (Errorf ("plugin '" +:+ pluginName +:+ "' does not implement IMFAProvider"))) ;;
      throw (Sentinel ErrPluginLoadFailed)
  | Some provider =>
      challenge ← on_plugins (on_plugin (mp_SendChallenge provider user));
      set_challenges <[ch_ID challenge := challenge]> ;;
      mret challenge
  end.

Definition VerifyChallenge (challengeID code : string) : mf bool :=
  s ← get;
  match mf_challenges s !! challengeID with
  | None =>
      on_mfa_errors (fun vs => WithDetails vs ErrMfaChallengeInvalid {[ "reason" := "not found or expired" ]}) ;;
      throw (Sentinel ErrMfaChallengeInvalid)
  | Some challenge =>
      plugin ← get_provider (getPluginNameForMethod (ch_Provider challenge));
      match as_mfa plugin with
      | None => throw (Sentinel ErrPluginLoadFailed)
      | Some provider =>
          isValid ← on_plugins (on_plugin (mp_VerifyChallenge provider challengeID code));
          set_challenges (delete challengeID) ;;
          mret isValid
      end
  end.
End MfaManager.

(** ** What the connector promises *)
Section ConnectorFacts.
Context `{LdapLaws C} (GetAttributeValue : list (string * list string) -> string -> string) (ord : map_order) (cfg : LDAPConfig).
Implicit Types (c : C) (vs : errvars) (credentials : gmap string string).
Notation auth := (Authenticate GetAttributeValue ord cfg).

Lemma new_connector_bound {W} (dial : string -> prog W error C) retry w c w' :
  NewLDAPConnector cfg dial retry w = (Ok c, w') -> lc_who c = Some (lcfg_BindDN cfg).
Proof.
  unfold NewLDAPConnector. intros (conn & w1 & _ & Hrun)%prog_bind_ok.
  destruct (secured_and_bound cfg conn) as [[u| | |] c1] eqn:Hc; try done. injection Hrun as -> _.
  unfold secured_and_bound in Hc. apply prog_bind_ok in Hc as (u1 & c2 & _ & Hc).
  revert Hc. unfold wrapping, try, mbind, prog_bind.
  pose proof (law_bind (lcfg_BindDN cfg) (lcfg_BindPassword cfg) c2) as Hb.
  destruct (lc_Bind _ _ c2) as [[| | |] c3]; try done. destruct Hb as [Hb _]. by intros [= _ <-].
Qed.

(** The text of a filter is the identifier as it is given, so that a stranger
    adds a condition of his own. *)
Lemma filter_injection name condition :
  user_filter cfg (name +:+ ")(" +:+ condition) =
  "(&" +:+ lcfg_UserFilter cfg +:+ "(" +:+ mapping cfg "username" +:+ "=" +:+ name +:+ ")(" +:+ condition +:+ "))".
Proof. unfold user_filter. by rewrite <-!string_app_assoc. Qed.

(** What a call leaves of the connection *)
Definition same_conn c c' : Prop := lc_who c' = lc_who c /\ lc_accepts c' = lc_accepts c.

Lemma on_conn_search q c vs :
  exists r c', on_conn (lc_Search q) (c, vs) = (r, (c', vs)) /\ lc_Search q c = (r, c') /\ same_conn c c' /\
    ((exists l, r = Ok l) \/ exists e, r = Err e).
Proof.
  pose proof (law_ldap_search q c) as Hs. unfold on_conn, zoom. cbn [fst snd].
  destruct (lc_Search q c) as [[l|e| |] c'] eqn:Hrun; try done; eexists _, c'; (split; [done|]); (split; [done|]);
    (split; [done|]); eauto.
Qed.

Lemma on_conn_bind dn pw c vs :
  exists r c', on_conn (lc_Bind dn pw) (c, vs) = (r, (c', vs)) /\ lc_accepts c' = lc_accepts c /\
    ((r = Ok () /\ lc_who c' = Some dn /\ lc_accepts c dn pw = true) \/ (exists e, r = Err e) /\ lc_who c' = None).
Proof.
  pose proof (law_bind dn pw c) as Hb. unfold on_conn, zoom. cbn [fst snd].
  destruct (lc_Bind dn pw c) as [[[]|e| |] c'] eqn:Hrun; try done; eexists _, c'; (split; [done|]).
  - destruct Hb as (? & ? & ?). split; [done|]. by left.
  - destruct Hb. split; [done|]. right. eauto.
Qed.

(** The outcome of a log-in, and whose the connection is then: success needs a
    directory that accepts the first entry found with the password, and the
    connection is the administrator's again unless that bind fails, which is an
    internal error and leaves it anonymous. *)
Definition login_outcome credentials c (r : res error ConnectorResponse) c' : Prop :=
  match r with
  | Ok resp =>
      exists username password, credentials !! "username" = Some username /\ credentials !! "password" = Some password /\
        exists c1 entries,
          lc_Search (connector_search ord cfg (user_filter cfg username)) c = (Ok entries, c1) /\
          match entries with
          | [] => same_conn c c' /\ resp = mkConnectorResponse false None (Some ErrUserNotFound)
          | entry :: _ =>
              lc_who c' = Some (lcfg_BindDN cfg) /\
              (resp = mkConnectorResponse false None (Some ErrInvalidCredentials) \/
               lc_accepts c (le_DN entry) password = true /\
               resp = mkConnectorResponse true (Some (MapEntryToUser GetAttributeValue cfg entry)) None)
          end
  | Err e => same_conn c c' /\ (e = Sentinel ErrBadRequest \/ e = Sentinel ErrInternal) \/
             e = Sentinel ErrInternal /\ lc_who c' = None
  | _ => False
  end.

Lemma credential_of_run credentials field c vs :
  match credentials !! field with
  | Some v => required_credential credentials field (c, vs) = (Ok v, (c, vs))
  | None => exists vs', required_credential credentials field (c, vs) = (Err (Sentinel ErrBadRequest), (c, vs'))
  end.
Proof. unfold required_credential. destruct (credentials !! field); [done|by eexists]. Qed.

Lemma authenticate_outcome credentials c vs :
  exists r c' vs', auth credentials (c, vs) = (r, (c', vs')) /\ login_outcome credentials c r c'.
Proof.
  unfold Authenticate. pose proof (credential_of_run credentials "username" c vs) as Hu.
  destruct (credentials !! "username") as [username|] eqn:Hun;
    [|destruct Hu as [vs' Hu]; rewrite (prog_bind_fail _ _ _ _ _ Hu); eexists _, c, vs'; split; [done|left; by repeat split; left]].
  rewrite (prog_bind_run _ _ _ _ _ Hu). pose proof (credential_of_run credentials "password" c vs) as Hp.
  destruct (credentials !! "password") as [password|] eqn:Hpw;
    [|destruct Hp as [vs' Hp]; rewrite (prog_bind_fail _ _ _ _ _ Hp); eexists _, c, vs'; split; [done|left; by repeat split; left]].
  rewrite (prog_bind_run _ _ _ _ _ Hp).
  destruct (on_conn_search (connector_search ord cfg (user_filter cfg username)) c vs) as (rs & c1 & Hs & Hsearch & Hsame & Hrs).
  destruct Hrs as [[entries ->]|[e ->]].
  2:{ eexists _, c1, vs. split; [unfold or_internal, try, mbind, prog_bind; by rewrite Hs|]. left. by split; [|right]. }
  erewrite prog_bind_run by (unfold or_internal, try, mbind, prog_bind; by rewrite Hs).
  destruct entries as [|entry entries].
  { eexists _, c1, vs. split; [done|]. exists username, password. do 2 (split; [done|]). by exists c1, []. }
  destruct (on_conn_bind (le_DN entry) password c1 vs) as (rb & c2 & Hb & Hacc & Hbind).
  destruct (on_conn_bind (lcfg_BindDN cfg) (lcfg_BindPassword cfg) c2 vs) as (ra & c3 & Ha & _ & Hadmin).
  set (ub := match rb with Err e => inl e | _ => inr () end).
  assert (Htry : try (on_conn (lc_Bind (le_DN entry) password)) (c1, vs) = (Ok ub, (c2, vs))).
  { unfold try. rewrite Hb. subst ub. by destruct Hbind as [(-> & _)|([e ->] & _)]. }
  rewrite (prog_bind_run _ _ _ _ _ Htry).
  destruct Hadmin as [(-> & Hwho & _)|([e ->] & Hwho)].
  2:{ eexists _, c3, vs. split; [unfold or_internal, try, mbind, prog_bind; by rewrite Ha|]. right. done. }
  erewrite prog_bind_run by (unfold or_internal, try, mbind, prog_bind; by rewrite Ha).
  subst ub. destruct Hbind as [(-> & _ & Hok)|([e ->] & _)]; (eexists _, c3, vs; split; [done|]);
    exists username, password; do 2 (split; [done|]); exists c1, (entry :: entries); do 2 (split; [done|]).
  - right. destruct Hsame as [_ Hsame]. by rewrite Hsame in Hok.
  - by left.
Qed.

(** Every history of calls leaves the connection the administrator's, unless a
    log-in answers with an internal error. *)
Inductive connector_call := CallAuthenticate (credentials : gmap string string) | CallGetUser (identifier : string)
  | CallSearchUsers (filter : string) | CallHealthCheck.
Definition run_call (call : connector_call) : prog (C * errvars) error unit :=
  match call with
  | CallAuthenticate credentials => auth credentials ;; mret ()
  | CallGetUser identifier => try (connector_GetUser GetAttributeValue ord cfg identifier) ;; mret ()
  | CallSearchUsers filter => try (SearchUsers GetAttributeValue ord cfg filter) ;; mret ()
  | CallHealthCheck => try connector_HealthCheck ;; mret ()
  end.
Definition admins (s : C * errvars) : Prop := lc_who s.1 = Some (lcfg_BindDN cfg).

Lemma searching_preserves {A} q (k : list ldap_entry -> prog (C * errvars) error A) :
  (forall l, preserves admins (k l)) -> preserves admins (on_conn (lc_Search q) ≫= k).
Proof.
  intros Hk. apply preserves_bind; [|done]. intros [c vs] Hs. unfold admins in *. cbn [fst] in Hs.
  destruct (on_conn_search q c vs) as (r & c' & -> & _ & [Hwho _] & _). cbn. congruence.
Qed.

Lemma paging_preserves q n : preserves admins (on_conn (lc_SearchWithPaging q n)).
Proof.
  intros [c vs] Hs. unfold admins, on_conn, zoom in *. cbn [fst snd] in *. pose proof (law_paging q n c) as Hp.
  destruct (lc_SearchWithPaging q n c) as [[| | |] c']; cbn; destruct Hp as [Hp _] || done; congruence.
Qed.

Lemma call_keeps_admin call s :
  admins s -> (run_call call s).1 <> Err (Sentinel ErrInternal) -> admins (run_call call s).2.
Proof.
  intros Hs Hok. destruct call as [credentials|identifier|filter|].
  - destruct s as [c vs]. cbn [run_call] in *. unfold admins in Hs. cbn [fst] in Hs.
    destruct (authenticate_outcome credentials c vs) as (r & c' & vs' & Hrun & Hout).
    unfold admins. destruct r as [resp|e| |]; try done.
    + rewrite (prog_bind_run _ _ _ _ _ Hrun). cbn. destruct Hout as (username & password & _ & _ & c1 & entries & _ & Hout).
      destruct entries as [|entry entries]; [destruct Hout as [[Hw _] _]; congruence|by destruct Hout as [Hw _]].
    + rewrite (prog_bind_fail _ _ _ _ _ Hrun) in *. cbn in *.
      destruct Hout as [[[Hw _] _]|[-> _]]; [congruence|done].
  - apply (preserves_bind admins); [|intros; apply preserves_ret|done]. apply preserves_try, searching_preserves.
    intros []; [apply preserves_throw|apply preserves_ret].
  - apply (preserves_bind admins); [|intros; apply preserves_ret|done]. apply preserves_try.
    apply preserves_bind; [apply paging_preserves|intros; apply preserves_ret].
  - apply (preserves_bind admins); [|intros; apply preserves_ret|done]. apply preserves_try, searching_preserves.
    intros; apply preserves_ret.
Qed.

Lemma connector_history calls s s' :
  admins s -> for_each run_call calls s = (Ok (), s') -> admins s'.
Proof.
  revert s. induction calls as [|call calls IH]; cbn [for_each]; intros s Hs Hrun; [by injection Hrun as <-|].
  apply prog_bind_ok in Hrun as ([] & s1 & Hcall & Hrun). apply (IH s1); [|done].
  pose proof (call_keeps_admin call s Hs) as Hk. rewrite Hcall in Hk. by apply Hk.
Qed.
End ConnectorFacts.

(** ** Registry and manager *)
Section ManagerFacts.
Context {P W : Type} `{IPlugin P W} (ord : map_order).
Implicit Types (s : plugin_state P W) (factory : W -> P * W).

(** A name is registered once; a second registration is refused and leaves the
    first. *)
Lemma register_once name factory s :
  match ps_factories s !! name with
  | None => exists s', RegisterPlugin name factory s = (Ok (), s') /\
      ps_factories s' = <[name := factory]> (ps_factories s) /\ GetPluginFactory name s' = (Ok factory, s') /\
      forall factory', exists e, RegisterPlugin name factory' s' = (Err e, s')
  | Some _ => exists e, RegisterPlugin name factory s = (Err e, s)
  end.
Proof.
  destruct (ps_factories s !! name) eqn:Hn.
  { eexists. unfold RegisterPlugin. by rewrite prog_get_bind, Hn. }
  set (s' := mkPluginState (ps_world s) (<[name := factory]> (ps_factories s)) (ps_active s) (ps_errors s)).
  assert (Hf : ps_factories s' !! name = Some factory) by apply lookup_insert_eq. exists s'. split; [|split; [done|split]].
  - unfold RegisterPlugin. by rewrite prog_get_bind, Hn.
  - unfold GetPluginFactory. by rewrite prog_get_bind, Hf.
  - intros factory'. eexists. unfold RegisterPlugin. by rewrite prog_get_bind, Hf.
Qed.

(** No plugin is ever started: the configurations are not read, so that none
    can be found. *)
Lemma nothing_loaded name s :
  ps_active s = ∅ ->
  LoadAndStartPlugins s = (Ok (), s) /\ StopAllPlugins ord s = (Ok (), s) /\
  (GetPlugin name s).1 = Err (Sentinel ErrPluginNotFound).
Proof.
  intros Hs. split; [done|]. unfold StopAllPlugins, GetPlugin. rewrite !prog_get_bind, Hs, range_empty, lookup_empty. done.
Qed.

(** The loop over configurations, as it would run: one that is enabled and
    registered is made, initialised and started in this order, and the first
    failure ends the loop with what was started before it still running. *)
Lemma started_plugin pconf s factory p w w1 w2 :
  plc_Enabled pconf = true -> ps_factories s !! plc_Name pconf = Some factory -> factory (ps_world s) = (p, w) ->
  p_Initialize p (mkConnectorConfig (p_Name p w) (p_Name p w) (plc_Settings pconf) "" "" "") w = (Ok (), w1) ->
  p_Start p w1 = (Ok (), w2) ->
  start_plugin pconf s =
    (Ok (), mkPluginState w2 (ps_factories s) (<[p_Name p w2 := p]> (ps_active s)) (ps_errors s)).
Proof.
  intros He Hf Hm Hi Hst. unfold start_plugin. rewrite He. cbn [negb].
  rewrite (prog_bind_run _ _ s factory s) by (unfold GetPluginFactory; by rewrite prog_get_bind, Hf).
  unfold make, on_plugin, zoom. set (at_world w0 := mkPluginState w0 (ps_factories s) (ps_active s) (ps_errors s)).
  rewrite (prog_bind_run _ _ s p (at_world w)) by (by rewrite Hm).
  rewrite (prog_bind_run _ _ (at_world w) (p_Name p w) (at_world w)) by done.
  rewrite (prog_bind_run _ _ (at_world w) () (at_world w1)) by (cbn; by rewrite Hi).
  rewrite (prog_bind_run _ _ (at_world w1) () (at_world w2)) by (cbn; by rewrite Hst).
  done.
Qed.

Lemma start_fails pconf configs s e s' :
  start_plugin pconf s = (Err e, s') -> start_plugins (pconf :: configs) s = (Err e, s').
Proof. intros Hs. unfold start_plugins. cbn [for_each]. by rewrite (prog_bind_fail _ _ _ _ _ Hs). Qed.
End ManagerFacts.

(** ** Second factors *)
Section MfaFacts.
Context {P W : Type} `{IPlugin P W} (as_mfa : P -> option (IMFAProvider W)).
Implicit Types (s : mfa_state P W).

Lemma get_provider_missing name s :
  ps_active (mf_plugins s) !! name = None ->
  exists s', get_provider name s = (Err (Sentinel ErrPluginNotFound), s') /\ mf_challenges s' = mf_challenges s /\
    err_cause (errvar_of (ps_errors (mf_plugins s')) ErrPluginNotFound) = Some (Sentinel ErrPluginNotFound).
Proof.
  intros Hn. unfold get_provider, on_plugins, GetPlugin, zoom, try, mbind, prog_bind, get. rewrite Hn. cbn.
  eexists. split; [done|]. split; [done|]. unfold errvar_of. cbn. by rewrite lookup_insert_eq.
Qed.

(** Since no plugin is started, every challenge fails, and the error it fails
    with is its own cause: to compare it with any other error does not end. *)
Lemma challenge_loops user s :
  ps_active (mf_plugins s) = ∅ ->
  exists s', TriggerChallenge as_mfa user s = (Err (Sentinel ErrPluginNotFound), s') /\
    forall fuel target, target <> ErrPluginNotFound ->
      errors_is fuel (ps_errors (mf_plugins s')) (Sentinel ErrPluginNotFound) target = Diverge.
Proof.
  intros Hs. destruct (get_provider_missing (getPluginNameForMethod (getMfaMethodForUser user)) s) as (s' & Hrun & _ & Hc);
    [by rewrite Hs, lookup_empty|].
  exists s'. split; [unfold TriggerChallenge; by rewrite (prog_bind_fail _ _ _ _ _ Hrun)|].
  intros fuel target Ht. by apply errors_is_cycle.
Qed.

(** With a provider: a challenge takes one answer, right or wrong, and every
    later one finds it gone; an error of the provider keeps it. *)
Lemma one_answer id challenge plugin provider s code :
  mf_challenges s !! id = Some challenge ->
  ps_active (mf_plugins s) !! getPluginNameForMethod (ch_Provider challenge) = Some plugin ->
  as_mfa plugin = Some provider ->
  exists r s', VerifyChallenge as_mfa id code s = (r, s') /\
    match mp_VerifyChallenge provider id code (ps_world (mf_plugins s)) with
    | (Ok valid, w) => r = Ok valid /\ ps_world (mf_plugins s') = w /\ mf_challenges s' = delete id (mf_challenges s) /\
        forall code', (VerifyChallenge as_mfa id code' s').1 = Err (Sentinel ErrMfaChallengeInvalid)
    | (_, w) => (forall b, r <> Ok b) /\ ps_world (mf_plugins s') = w /\ mf_challenges s' = mf_challenges s
    end.
Proof.
  intros Hc Hp Hm. unfold VerifyChallenge at 1. rewrite prog_get_bind, Hc.
  assert (Hget : get_provider (getPluginNameForMethod (ch_Provider challenge)) s = (Ok plugin, s)).
  { unfold get_provider, on_plugins, GetPlugin, zoom, try, mbind, prog_bind, get. rewrite Hp. by destruct s. }
  rewrite (prog_bind_run _ _ _ _ _ Hget), Hm. unfold on_plugins, on_plugin, zoom, set_challenges, mbind, prog_bind, modify.
  destruct (mp_VerifyChallenge provider id code (ps_world (mf_plugins s))) as [[valid|e| |] w]; cbn; eexists _, _;
    (split; [done|]); cbn; [|done..].
  split; [done|]. split; [done|]. split; [done|]. intros code'. unfold VerifyChallenge. rewrite prog_get_bind. cbn.
  by rewrite lookup_delete_eq.
Qed.
End MfaFacts.
