(* ===== verification/Portal.v ===== *)
(** * Pages for people, and the history of accesses

    internal/server/http/ui: the renderer, the pages of log-in, recovery
    ([Recovery.v]), devices ([SessionStore.v]) and the security log
    ([AuditTrail.v]); internal/portal/services/access_history_service.go over a
    table ([Tables.v]).  Templates, the parser of user agents and the printing of
    times are arguments.  portal/handlers/device_handler.go is left out: it calls
    functions that are not there and does not compile. *)

From stdpp Require Import sorting.
From Stdlib Require Import Ascii.
From S2P Require Import Prelude Types GoStd AuthApi MemIdentity AuditTrail Tables PgIdentity Redis SessionStore IdentityService MFA Recovery OAuth PgStores Gateway.
Local Open Scope Z_scope.

(** ** The renderer (renderer.go) *)
Record DeviceInfo := mkDeviceInfo {
  di_ID : string;
  di_IPAddress : string;
  di_Browser : string;
  di_OS : string;
  di_Device : string;
  di_LastActive : string;
  di_DeviceFingerprint : string;
  di_Current : bool
}.
Inductive page_data :=
  | PageNil
  | PageStrings (l : list (string * string))
  | PageMaps (l : list (string * any))
  | PageSessions (l : list DeviceInfo)
  | PageLogs (l : list AuditEvent).
Inductive ui_answer :=
  | UiPage (template token : string) (data : page_data)
  | UiText (status : Z) (message : string)
  | UiRedirect (status : Z) (url : string).

(** A page is parsed under its path and run under the name after the last
    slash.  [Clone], [ParseFS] and [ExecuteTemplate] are the library's on the
    files that are built in. *)
Record templates := mkTemplates {
  tm_Clone : res error unit;
  tm_ParseFS : string -> res error unit;
  tm_Execute : string -> string -> page_data -> res error unit
}.
Fixpoint exec_name_from (name s : string) : string :=
  match s with
  | "" => name
  | String c s => exec_name_from (if bool_decide (c = "/"%char) then s else name) s
  end.
Definition exec_name (tmplName : string) : string := exec_name_from tmplName tmplName.

Section Renderer.
Context (t : templates).
Definition or_page {A} (r : res error A) (message : string) (k : A -> res error ui_answer) : res error ui_answer :=
  match r with
  | Ok a => k a
  | Err err => Ok (UiText 500 (message +:+ Error_text err))
  | Panic => Panic
  | Diverge => Diverge
  end.
Definition Render (r : request) (tmplName : string) (data : page_data) : res error ui_answer :=
  or_page (tm_Clone t) "failed to clone templates: " (fun _ =>
  or_page (tm_ParseFS t ("templates/" +:+ tmplName)) "failed to parse template file: " (fun _ =>
  or_page (tm_Execute t (exec_name tmplName) (GetCSRFToken r) data) "failed to render template: " (fun _ =>
  Ok (UiPage tmplName (GetCSRFToken r) data)))).

(** ** Log-in and consent (auth_handlers.go, portal_handlers.go) *)
Definition ShowLoginPage (r : request) : res error ui_answer := Render r "login.html" PageNil.
(** [form] is the parsed form, if it parses. *)
Definition HandleLogin (form : option (string -> string)) (r : request) : res error ui_answer :=
  match form with
  | None => Ok (UiText 400 "Failed to parse form")
  | Some value =>
      if bool_decide (value "username" = "admin") && bool_decide (value "password" = "password")
      then Ok (UiRedirect 302 "/auth/mfa")
      else Render r "login.html" (PageStrings [("Error", "Invalid username or password"); ("Username", value "username")])
  end.
Definition ShowMFAPage (r : request) : res error ui_answer := Render r "mfa_challenge.html" PageNil.
Definition HandleMFA (r : request) : res error ui_answer := Ok (UiRedirect 302 "/dashboard").
Definition ShowConsentPage (r : request) : res error ui_answer :=
  Render r "consent.html" (PageMaps [("ClientName", AnyString "Example App"); ("Scopes", AnyStrings ["openid"; "profile"; "email"])]).
Definition HandleConsent (r : request) : res error ui_answer := Ok (UiText 501 "Not Implemented").
Definition ShowProfilePage (r : request) : res error ui_answer :=
  Render r "profile.html" (PageMaps [("Username", AnyString "johndoe"); ("Email", AnyString "johndoe@example.com");
    ("MFAFactors", AnyList [AnyStringMap (<["Type" := "TOTP"]> {["Identifier" := "Enabled"]})])]).
Definition HandleAddTOTP (r : request) : res error ui_answer := Ok (UiText 501 "Not Implemented").
Definition HandleAddWebAuthn (r : request) : res error ui_answer :=
  Ok (UiText 501 "This should be handled by an API endpoint.").

(** ** The security log (security_log_handlers.go) *)
Definition to_login : ui_answer := UiRedirect 303 "/auth/login".
Definition ShowSecurityLog (query : option (string -> res error (list AuditEvent))) (r : request) : res error ui_answer :=
  match ctx_string UserIDContextKey r with
  | None => Ok to_login
  | Some userID =>
      match GetLogsForUser query userID 50 with
      | Ok logs => Render r "portal/security_log.html" (PageLogs logs)
      | Err _ => Ok (UiText 500 "Internal Server Error")
      | Panic => Panic
      | Diverge => Diverge
      end
  end.

(** ** Recovery (recovery_handlers.go) *)
Section RecoveryPages.
Context `{IdentityRepository R} `{Redis C}.
Context (manager : option (string -> res error Notifier)) (config : OTPConfig).
Context (HashPassword : string -> res error string) (fuel : nat).
Notation rs A := (prog (rworld R C) error A).

Definition ShowForgotPassword (r : request) : res error ui_answer := Render r "auth/forgot_password.html" PageNil.
Definition ShowResetPassword (r : request) : res error ui_answer := Render r "auth/reset_password.html" PageNil.
(** A failure is logged, and the page is the same. *)
Definition HandleForgotPassword (rand : Z -> res error (list Z)) (now : time) (form : string -> string) (r : request) :
    rs ui_answer :=
  try (InitiateRecovery manager config fuel rand now (form "email")) ;;
  lift (Render r "auth/reset_password.html" (PageMaps [("Email", AnyString (form "email"))])).
Definition HandleResetPassword (now : time) (form : string -> string) (r : request) : rs ui_answer :=
  done ← try (VerifyAndReset HashPassword fuel now (form "email") (form "code") (form "password"));
  match done with
  | inl _ => lift (Render r "auth/reset_password.html"
      (PageMaps [("Error", AnyString "Invalid code or request failed."); ("Email", AnyString (form "email"))]))
  | inr _ => mret (UiRedirect 303 "/auth/login?reset=success")
  end.
End RecoveryPages.

(** ** Devices (device_handlers.go): the sessions of the user *)
Record user_agent := mkUserAgent { ua_Browser : string * string; ua_Mobile : bool; ua_Bot : bool; ua_OS : string }.

Section DevicePages.
Context `{Redis C} (marshal : UserSession -> string) (unmarshal : string -> option UserSession).
Context (config : SessionConfig) (fingerprint : string -> string).
Context (parse_ua : string -> user_agent) (format_time : time -> string).
Notation dp A := (prog C error A).

Definition device_info (s : UserSession) : DeviceInfo :=
  let ua := parse_ua (session_UserAgent s) in
  let deviceType := if ua_Bot ua then "Bot" else if ua_Mobile ua then "Mobile" else "Desktop" in
  mkDeviceInfo (session_ID s) (session_IPAddress s) (fst (ua_Browser ua) +:+ " " +:+ snd (ua_Browser ua)) (ua_OS ua)
    deviceType (format_time (session_LastRotatedAt s)) (session_DeviceFingerprint s) false.
Definition ui_ListDevices (now : time) (r : request) : dp ui_answer :=
  match ctx_string UserIDContextKey r with
  | None => mret to_login
  | Some userID =>
      sessions ← try (sm_GetUserSessions unmarshal now userID);
      match sessions with
      | inl _ => mret (UiText 500 "Internal Server Error")
      | inr sessions => lift (Render r "portal/devices.html" (PageSessions (device_info <$> sessions)))
      end
  end.
Definition RevokeDevice (now : time) (r : request) : dp ui_answer :=
  match ctx_string UserIDContextKey r with
  | None => mret to_login
  | Some userID =>
      try (RevokeSession config unmarshal fingerprint now userID (Get (req_Vars r) "id")) ;;
      mret (UiRedirect 303 "/portal/devices")
  end.
End DevicePages.
End Renderer.

(** ** The history of accesses (access_history_service.go, models/access_log.go)

    [al_Timestamp] is not a column. *)
Record AccessLog := mkAccessLog {
  al_ID : string;
  al_TenantID : string;
  al_UserID : string;
  al_DeviceID : string;
  al_EventType : string;
  al_Action : string;
  al_IPAddress : string;
  al_UserAgent : string;
  al_Location : string;
  al_Success : bool;
  al_MFAVerified : bool;
  al_Metadata : gmap string any;
  al_CreatedAt : time;
  al_Timestamp : time
}.
Record AccessLogFilter := mkAccessLogFilter {
  alf_UserID : string;
  alf_DeviceID : string;
  alf_EventType : string;
  alf_StartTime : option time;
  alf_EndTime : option time;
  alf_Success : option bool;
  alf_Limit : Z;
  alf_Offset : Z
}.
Definition access_conflict (a b : AccessLog) : bool := bool_decide (al_ID a = al_ID b).
Definition with_origin (id location : string) (created : time) (a : AccessLog) : AccessLog :=
  mkAccessLog id (al_TenantID a) (al_UserID a) (al_DeviceID a) (al_EventType a) (al_Action a) (al_IPAddress a)
    (al_UserAgent a) location (al_Success a) (al_MFAVerified a) (al_Metadata a) created (al_Timestamp a).
(** The row: the metadata as their JSON reads, and no timestamp. *)
Definition access_row (a : AccessLog) : res error AccessLog :=
  metadata ← jsonb_column (al_Metadata a);
  mret (mkAccessLog (al_ID a) (al_TenantID a) (al_UserID a) (al_DeviceID a) (al_EventType a) (al_Action a)
    (al_IPAddress a) (al_UserAgent a) (al_Location a) (al_Success a) (al_MFAVerified a) metadata (al_CreatedAt a) zero_time).

Section AccessHistory.
Context {D : Type} `{Table AccessLog D}.
Context (GetLocation : option (string -> res error (option string))) (days_before : Z -> time -> time).
Notation ah A := (prog D error A).

Definition located (ip location : string) : res error string :=
  match GetLocation with
  | Some geo =>
      if bool_decide (ip = "") then Ok location
      else match geo ip with
           | Ok (Some city) => Ok city
           | Ok None | Err _ => Ok location
           | Panic => Panic
           | Diverge => Diverge
           end
  | None => Ok location
  end.
Definition completed (uuid : string) (now : time) (log : AccessLog) : res error AccessLog :=
  location ← located (al_IPAddress log) (al_Location log);
  mret (with_origin (if bool_decide (al_ID log = "") then uuid else al_ID log) location
    (if bool_decide (al_CreatedAt log = zero_time) then now else al_CreatedAt log) log).
Definition RecordAccess (uuid : string) (now : time) (log : AccessLog) : ah AccessLog :=
  log ← lift (completed uuid now log);
  row ← lift (access_row log);
  t_insert [row] ;; mret log.

Definition unless_empty (s : string) (v : string) : bool := bool_decide (s = "") || bool_decide (v = s).
Definition selected (filter : AccessLogFilter) (a : AccessLog) : bool :=
  unless_empty (alf_UserID filter) (al_UserID a) && unless_empty (alf_DeviceID filter) (al_DeviceID a) &&
  unless_empty (alf_EventType filter) (al_EventType a) &&
  match alf_StartTime filter with Some start => start <=? al_CreatedAt a | None => true end &&
  match alf_EndTime filter with Some stop => al_CreatedAt a <=? stop | None => true end &&
  match alf_Success filter with Some success => bool_decide (al_Success a = success) | None => true end.
Definition access_window {A} (filter : AccessLogFilter) (l : list A) : list A :=
  sql_window (alf_Offset filter) (if 0 <? alf_Limit filter then alf_Limit filter else -1) l.
Definition Query (filter : AccessLogFilter) : ah (list AccessLog * Z) :=
  counted ← t_select (selected filter);
  rows ← t_select (selected filter);
  mret (access_window filter (newest_first al_CreatedAt rows), Z.of_nat (length counted)).
Definition GetRecentByUser (userID : string) (limit : Z) : ah (list AccessLog) :=
  answer ← Query (mkAccessLogFilter userID "" "" None None None limit 0); mret answer.1.
Definition expired (tenantID : string) (cutoff : time) (a : AccessLog) : bool :=
  bool_decide (al_TenantID a = tenantID) && (al_CreatedAt a <? cutoff).
Definition CleanupOldLogs (now : time) (tenantID : string) (retentionDays : Z) : ah Z :=
  t_delete (expired tenantID (days_before retentionDays now)).
End AccessHistory.

(** ** What the pages show *)
Section RecoveryFacts.
Context (t : templates) `{AccountLaws R} `{RedisLaws C}.
Context (manager : option (string -> res error Notifier)) (config : OTPConfig).
Context (HashPassword : string -> res error string) (fuel : nat).
Implicit Types w : rworld R C.
Notation reset := (HandleResetPassword t HashPassword fuel).

Definition refused (form : string -> string) (r : request) : res error ui_answer :=
  Render t r "auth/reset_password.html"
    (PageMaps [("Error", AnyString "Invalid code or request failed."); ("Email", AnyString (form "email"))]).

(** The page hides what the service tells apart: nobody's address, a code that
    expired and a wrong one give one answer, and change nothing. *)
Lemma reset_page_uniform now form r w :
  acc_inv (rw_repo w) -> (0 < fuel)%nat ->
  nobody w (form "email") \/
    (exists p u, account w (form "email") p u /\ kv (mw_redis (rw_mfa w)) now (otpKey (user_ID u)) <> Some (form "code")) ->
  reset now form r w = (refused form r, w).
Proof.
  intros Hinv Hf Hwho.
  assert (Hrun : exists err, VerifyAndReset HashPassword fuel now (form "email") (form "code") (form "password") w = (Err err, w)).
  { destruct Hwho as [Hno|(p & u & Hacc & Hcode)].
    - exists (Sentinel ErrInvalidCredentials). unfold VerifyAndReset. rewrite (lookup_nobody _ _ _ Hinv Hno). by rewrite unknown_user_run.
    - pose proof (VerifyAndReset_run HashPassword fuel now (form "email") (form "code") (form "password") p u w Hinv Hacc) as Hrun.
      cbv zeta in Hrun. destruct (kv (mw_redis (rw_mfa w)) now (otpKey (user_ID u))) as [c|]; [|by eexists].
      rewrite bool_decide_eq_false_2 in Hrun by congruence. by eexists. }
  destruct Hrun as [err Hrun]. unfold HandleResetPassword, try, mbind, prog_bind. by rewrite Hrun.
Qed.

(** The right code sets the password and leads to the log-in. *)
Lemma reset_page_done now form r w p u hash :
  acc_inv (rw_repo w) -> account w (form "email") p u ->
  kv (mw_redis (rw_mfa w)) now (otpKey (user_ID u)) = Some (form "code") -> HashPassword (form "password") = Ok hash ->
  exists w', reset now form r w = (Ok (UiRedirect 303 "/auth/login?reset=success"), w') /\ reset_done w now p u hash w'.
Proof.
  intros Hinv Hacc Hkv Hhash.
  pose proof (VerifyAndReset_run HashPassword fuel now (form "email") (form "code") (form "password") p u w Hinv Hacc) as Hrun.
  cbv zeta in Hrun. rewrite Hkv, bool_decide_eq_true_2, Hhash in Hrun by done. destruct Hrun as (w' & Hrun & Hdone).
  exists w'. split; [|done]. unfold HandleResetPassword, try, mbind, prog_bind. by rewrite Hrun.
Qed.

(** Asking for a code is answered by one page, whether there is a user or not. *)
Lemma forgot_page_uniform rand now form r w :
  match (InitiateRecovery manager config fuel rand now (form "email") w).1 with
  | Ok _ | Err _ => (HandleForgotPassword t manager config fuel rand now form r w).1 =
      Render t r "auth/reset_password.html" (PageMaps [("Email", AnyString (form "email"))])
  | _ => True
  end.
Proof.
  unfold HandleForgotPassword, try, mbind, prog_bind.
  by destruct (InitiateRecovery manager config fuel rand now (form "email") w) as [[| | |] w'].
Qed.
End RecoveryFacts.

(** *** Sessions as devices *)
Section DeviceFacts.
Context (t : templates) `{RedisLaws C} (unmarshal : string -> option UserSession).
Context (config : SessionConfig) (fingerprint : string -> string).
Context (parse_ua : string -> user_agent) (format_time : time -> string).
Implicit Types c : C.

(** Whoever is logged in ends any session whose identifier he has, his own or
    not: the key is deleted without a look at whose it is, and only his own
    index is cleared of it. *)
Lemma revoke_anyones_session now r c userID :
  ctx_string UserIDContextKey r = Some userID -> userID <> "" ->
  let id := Get (req_Vars r) "id" in
  exists c', RevokeDevice unmarshal config fingerprint now r c = (Ok (UiRedirect 303 "/portal/devices"), c') /\
    (forall s, kv c' s (sessionKey id) = None) /\
    (forall s k, k <> sessionKey id -> kv c' s k = kv c s k) /\
    (forall other, other <> userID -> zmembers c' (userSessionsKey other) = zmembers c (userSessionsKey other)).
Proof.
  intros Hr Hne id. destruct (delete_run userID id c) as (c' & Hrun & Hkv & Hz & _). exists c'. split; [|split; [|split]].
  - unfold RevokeDevice. rewrite Hr. unfold RevokeSession. rewrite (bool_decide_eq_false_2 _ Hne). cbn [negb].
    unfold try, mbind, prog_bind. fold id. by rewrite Hrun.
  - intros s. by rewrite Hkv, decide_True.
  - intros s k Hk. by rewrite Hkv, decide_False by congruence.
  - intros other Ho. apply Hz. intros Heq. apply Ho. unfold userSessionsKey in Heq. by simplify_eq.
Qed.

(** Without a log-in nothing is read or revoked. *)
Lemma no_login now r c :
  ctx_string UserIDContextKey r = None ->
  ui_ListDevices t unmarshal parse_ua format_time now r c = (Ok to_login, c) /\
  RevokeDevice unmarshal config fingerprint now r c = (Ok to_login, c).
Proof. intros Hr. unfold ui_ListDevices, RevokeDevice. by rewrite Hr. Qed.
End DeviceFacts.

(** *** Accesses *)
Section AccessFacts.
Context {D : Type} `{UniqueRows AccessLog D access_conflict}.
Context (GetLocation : option (string -> res error (option string))) (days_before : Z -> time -> time).
Implicit Types (d : D) (filter : AccessLogFilter).

(** A query counts what the filter selects, and answers the page of it that was
    asked for, the newest first. *)
Lemma query_answers filter d :
  exists rows page, Query filter d = (Ok (page, Z.of_nat (length rows)), d) /\
    rows ≡ₚ select_rows (selected filter) (t_rows d) /\
    StronglySorted (later al_CreatedAt) page /\
    (exists sorted, sorted ≡ₚ rows /\ StronglySorted (later al_CreatedAt) sorted /\ page = access_window filter sorted).
Proof.
  destruct (law_select (selected filter) d) as (rows & Hrun & Hrows).
  set (sorted := newest_first al_CreatedAt rows).
  assert (Hsorted : StronglySorted (later al_CreatedAt) sorted) by (apply StronglySorted_merge_sort; apply _).
  exists rows, (access_window filter sorted). split; [|split; [done|split; [by apply window_sorted|]]].
  - unfold Query. by rewrite !(prog_bind_run _ _ _ _ _ Hrun).
  - exists sorted. split; [apply merge_sort_Permutation|done].
Qed.

(** The last accesses of a user are his, and as many as asked for. *)
Lemma recent_accesses userID limit d :
  userID <> "" -> 0 < limit ->
  exists l, GetRecentByUser userID limit d = (Ok l, d) /\ (length l <= Z.to_nat limit)%nat /\
    StronglySorted (later al_CreatedAt) l /\ forall a, a ∈ l -> a ∈ t_rows d /\ al_UserID a = userID.
Proof.
  intros Hu Hl. destruct (query_answers (mkAccessLogFilter userID "" "" None None None limit 0) d)
    as (rows & page & Hrun & Hrows & Hs & sorted & Hperm & _ & Hpage).
  exists page. split; [unfold GetRecentByUser; by rewrite (prog_bind_run _ _ _ _ _ Hrun)|].
  assert (Hp : page = take (Z.to_nat limit) sorted).
  { rewrite Hpage. unfold access_window, sql_window. cbn [alf_Limit alf_Offset].
    rewrite (proj2 (Z.ltb_lt 0 limit)) by done. by rewrite (proj2 (Z.leb_le 0 limit)) by lia. }
  split; [rewrite Hp, length_take; lia|]. split; [done|]. intros a Ha.
  assert (Hin : a ∈ select_rows (selected (mkAccessLogFilter userID "" "" None None None limit 0)) (t_rows d)).
  { rewrite <-Hrows, <-Hperm. rewrite Hpage in Ha. by apply window_elem in Ha. }
  apply elem_of_select in Hin as [Hin Hsel]. split; [done|]. unfold selected, unless_empty in Hsel.
  cbn in Hsel. rewrite (bool_decide_eq_false_2 _ Hu) in Hsel. cbn in Hsel.
  rewrite !andb_true_r in Hsel. by apply bool_decide_eq_true in Hsel.
Qed.

(** Cleaning up deletes exactly what the tenant has from before the day. *)
Lemma cleanup_deletes now tenantID days d :
  exists d' n, CleanupOldLogs days_before now tenantID days d = (Ok n, d') /\
    forall a, a ∈ t_rows d' <->
      a ∈ t_rows d /\ (al_TenantID a = tenantID -> days_before days now <= al_CreatedAt a).
Proof.
  unfold CleanupOldLogs. destruct (Tables.law_delete (expired tenantID (days_before days now)) d) as (d' & n & Hrun & Hrows).
  exists d', n. split; [done|]. intros a. rewrite Hrows, elem_of_delete. unfold expired.
  rewrite andb_false_iff, bool_decide_eq_false, Z.ltb_ge. split; intros [Hin Ha]; (split; [done|]); [|destruct (decide (al_TenantID a = tenantID))]; tauto.
Qed.

(** What is recorded is found. *)
Lemma recorded uuid now log a row d :
  completed GetLocation uuid now log = Ok a -> access_row a = Ok row ->
  (forall b, b ∈ t_rows d -> al_ID b <> al_ID a) ->
  exists d', RecordAccess GetLocation uuid now log d = (Ok a, d') /\
    forall b, b ∈ t_rows d' <-> b = row \/ b ∈ t_rows d.
Proof.
  intros Hc Hr Hfree. assert (Hid : al_ID row = al_ID a).
  { unfold access_row in Hr. apply bind_ok_inv in Hr as (m & _ & Hr). by injection Hr as <-. }
  destruct (insert_row d row) as (d' & Hrun & Hrows).
  { intros b Hb. apply bool_decide_eq_false. rewrite Hid. by apply Hfree. }
  exists d'. split; [|done]. unfold RecordAccess. rewrite Hc, (prog_lift_bind a), Hr, (prog_lift_bind row).
  by rewrite (prog_bind_run _ _ _ _ _ Hrun).
Qed.
End AccessFacts.
