(* ===== verification/Client.v ===== *)
(** * The client library (pkg/client)

    client.go, auth.go and identity.go against the handlers they call
    ([AuthApi.v]) and the authentication before them ([Gateway.v]).  The body of
    a request or an answer stands for its JSON: [decode_login] and [decode_user]
    say what the client reads of an answer, field by field.  The network is an
    argument, and so is what [http.NewRequest] makes of an address. *)

From S2P Require Import Prelude Types GoStd GoText MemIdentity IdentityService AuditTrail OAuth PgStores AuthService AuthApi Gateway.
From Stdlib Require Import Ascii.
Local Open Scope Z_scope.

(** ** Requests and answers *)
Inductive client_json :=
  | NoJSON
  | LoginJSON (username password : string)
  | CreateUserJSON (username email password : string).
Record client_request := mkClientRequest { cr_request : request; cr_json : client_json }.

(** An error of the API is a value of its own, equal to no predefined error. *)
Inductive client_error := ApiError (code message : string) (details : gmap string string) | ClientError (err : error).

Record UserDTO := mkUserDTO { udto_ID : string; udto_Username : string; udto_Email : string }.
Record LoginResponse := mkLoginResponse {
  lresp_AccessToken : string;
  lresp_RefreshToken : string;
  lresp_TokenType : string;
  lresp_ExpiresIn : Z;
  lresp_User : option UserDTO
}.
Definition zero_login : LoginResponse := mkLoginResponse "" "" "" 0 None.

(** What [json.Decode] reads into a [LoginResponse]: a challenge has none of its
    keys, and an answer without a body no JSON at all. *)
Definition end_of_input : error := Errorf "EOF".
Definition decode_login (body : api_body) : res error LoginResponse :=
  match body with
  | NoBody => Err end_of_input
  | TokenBody (Some t) =>
      Ok (mkLoginResponse (tok_AccessToken t) (tok_RefreshToken t) (tok_TokenType t) (tok_ExpiresIn t) None)
  | TokenBody None | ChallengeBody _ | UserBody _ | ErrorBody _ _ _ => Ok zero_login
  end.
(** The password is not part of a user's JSON, and the attributes are read as
    JSON has them; what JSON cannot say makes an answer without a body. *)
Definition json_user (u : User) : res error User :=
  attributes ← jsonb_column (user_Attributes u);
  privacy ← jsonb_column (user_PrivacySettings u);
  mret (mkUser (user_ID u) (user_Username u) (user_Email u) (user_Phone u) "" (user_Status u) attributes privacy
    (user_Groups u) (user_CreatedAt u) (user_UpdatedAt u) (user_DeletedAt u) (user_LastLoginAt u)
    (user_MergeHistory u) (user_ExternalID u) (user_SourceType u)).
Definition decode_user (body : api_body) : res error User :=
  match body with
  | NoBody => Err end_of_input
  | UserBody u => match json_user u with Ok u => Ok u | _ => Err end_of_input end
  | TokenBody _ | ChallengeBody _ | ErrorBody _ _ _ => Ok (new_user "" "" "" "" "")
  end.

(** ** The client (client.go) *)
Record client := mkClient { cl_baseURL : string; cl_token : string }.
Definition NewClient (baseURL : string) : client := mkClient baseURL "".

Section Client.
Context {W : Type} (valid_url : string -> option error) (Do : client_request -> prog W error api_response).
Notation cl A := (prog (client * W) client_error A).

Definition SetAuthToken (token : string) : cl unit := modify (fun s => (mkClient (cl_baseURL s.1) token, s.2)).

Definition request_headers (token : string) : gmap string string :=
  let headers := <["Accept" := "application/json"]> {["Content-Type" := "application/json"]} in
  if bool_decide (token = "") then headers else <["Authorization" := "Bearer " +:+ token]> headers.
Definition newRequest (method path : string) (body : client_json) : cl client_request :=
  s ← get;
  match valid_url (cl_baseURL s.1 +:+ path) with
  | Some err => throw (ClientError err)
  | None => mret (mkClientRequest (mkRequest method path (request_headers (cl_token s.1)) ∅ ∅ ∅ "" "" ∅) body)
  end.

Definition send (req : client_request) : cl api_response := fun s =>
  match Do req s.2 with
  | (Ok resp, w) => (Ok resp, (s.1, w))
  | (Err err, w) => (Err (ClientError err), (s.1, w))
  | (Panic, w) => (Panic, (s.1, w))
  | (Diverge, w) => (Diverge, (s.1, w))
  end.
Definition client_do {A} (req : client_request) (decode : api_body -> res error A) : cl A :=
  resp ← send req;
  if (ar_Status resp <? 200) || (300 <=? ar_Status resp) then
    match ar_Body resp with
    | ErrorBody code message details => throw (ApiError code message details)
    | _ => throw (ClientError (Errorf ("API request failed with status " +:+ pretty (ar_Status resp))))
    end
  else match decode (ar_Body resp) with
       | Ok v => mret v
       | Err err => throw (ClientError (Wrapf "failed to decode response body: " err))
       | Panic => lift Panic
       | Diverge => lift Diverge
       end.

(** ** auth.go *)
Definition client_Login (username password : string) : cl LoginResponse :=
  req ← newRequest "POST" "/api/v1/auth/login" (LoginJSON username password);
  loginResp ← client_do req decode_login;
  (if bool_decide (lresp_AccessToken loginResp = "") then mret () else SetAuthToken (lresp_AccessToken loginResp)) ;;
  mret loginResp.
Definition client_Logout : cl unit := SetAuthToken "".

(** ** identity.go *)
Definition client_CreateUser (username email password : string) : cl User :=
  req ← newRequest "POST" "/api/v1/users" (CreateUserJSON username email password);
  client_do req decode_user.
Definition client_GetUserByID (userID : string) : cl User :=
  if bool_decide (userID = "") then throw (ClientError (Errorf "user ID cannot be empty"))
  else
    req ← newRequest "GET" ("/api/v1/users/" +:+ userID) NoJSON;
    client_do req decode_user.
End Client.

(** ** The client and the server *)
Section ClientServer.
Context `{IdentityRepository R} `{AuthStore T} `{FamilyStore F} (o : outside) (auditID : string).
Context (HashPassword : string -> res error string) (fuel : nat) (uuid repo_uuid : string).
Context (valid_url : string -> option error) (urls_valid : forall url, valid_url url = None).

(** What the server does with the bodies that the client sends. *)
Definition serve_json (req : client_request) : prog (api R T F) error api_response :=
  match cr_json req with
  | LoginJSON username password => handle_Login o auditID (inr (mkAuthnRequest username password "" "" false))
  | CreateUserJSON username email password =>
      handle_CreateUser o auditID HashPassword fuel uuid repo_uuid (inr (username, email, password))
  | NoJSON =>
      let id := strings_TrimPrefix (req_Path (cr_request req)) "/api/v1/users/" in
      handle_GetUser {[ "id" := id ]}
  end.
Implicit Types (a : api R T F) (c : client).

Lemma newRequest_run (W : Type) method path body (s : client * W) :
  newRequest valid_url method path body s =
  (Ok (mkClientRequest (mkRequest method path (request_headers (cl_token s.1)) ∅ ∅ ∅ "" "" ∅) body), s).
Proof. unfold newRequest. by rewrite prog_get_bind, urls_valid. Qed.

(** A log-in through the client says what the server answered: the tokens, which
    the client then carries, or the error; but the challenge of a second factor
    reads as a log-in without tokens. *)
Lemma client_login username password c a resp a' :
  handle_Login o auditID (inr (mkAuthnRequest username password "" "" false)) a = (Ok resp, a') ->
  let run := client_Login valid_url serve_json username password (c, a) in
  (forall t, resp = mkApiResponse 200 (TokenBody (Some t)) ->
     run = (Ok (mkLoginResponse (tok_AccessToken t) (tok_RefreshToken t) (tok_TokenType t) (tok_ExpiresIn t) None),
            (if bool_decide (tok_AccessToken t = "") then c else mkClient (cl_baseURL c) (tok_AccessToken t), a'))) /\
  (forall challenge, resp = mkApiResponse 200 (ChallengeBody challenge) -> run = (Ok zero_login, (c, a'))) /\
  (forall status code message details, resp = mkApiResponse status (ErrorBody code message details) -> 300 <= status ->
     run = (Err (ApiError code message details), (c, a'))).
Proof.
  intros Hserve run. subst run. unfold client_Login. rewrite (prog_bind_run _ _ _ _ _ (newRequest_run _ _ _ _ _)). cbn [fst].
  assert (Hsend : forall r, send serve_json (mkClientRequest r (LoginJSON username password)) (c, a) = (Ok resp, (c, a')))
    by (intros r; unfold send; cbn [fst snd serve_json cr_json]; by rewrite Hserve).
  unfold client_do. rewrite prog_assoc, (prog_bind_run _ _ _ _ _ (Hsend _)). split; [|split].
  - intros t ->. cbn [ar_Status ar_Body decode_login]. cbn [Z.ltb Z.leb Z.compare orb]. cbn -[bool_decide].
    unfold SetAuthToken, modify, mbind, prog_bind. cbn -[bool_decide]. by destruct (bool_decide (tok_AccessToken t = "")).
  - by intros challenge ->.
  - intros status code message details -> Hst. cbn [ar_Status ar_Body]. by rewrite (proj2 (Z.leb_le 300 status) Hst), orb_true_r.
Qed.

(** A user is created through the client exactly as the handler creates him,
    and comes back as he was stored but for the password. *)
Lemma client_creates username email password c a u a' :
  handle_CreateUser o auditID HashPassword fuel uuid repo_uuid (inr (username, email, password)) a =
    (Ok (mkApiResponse 201 (UserBody u)), a') ->
  client_CreateUser valid_url serve_json username email password (c, a) =
    (match json_user u with
     | Ok v => Ok v
     | _ => Err (ClientError (Wrapf "failed to decode response body: " end_of_input))
     end, (c, a')).
Proof.
  intros Hserve. unfold client_CreateUser. rewrite (prog_bind_run _ _ _ _ _ (newRequest_run _ _ _ _ _)). cbn [fst].
  unfold client_do, send, mbind, prog_bind. cbn [fst snd serve_json cr_json]. rewrite Hserve. cbn.
  by destruct (json_user u).
Qed.
End ClientServer.

(** A token without spaces that a log-in has given is the one the server's
    authentication reads from every later request. *)
Lemma token_carried {W} `{CaseFoldingLaws} (valid_url : string -> option error) method path body (s : client * W) req s' :
  cl_token s.1 <> "" -> str_free " "%char (cl_token s.1) = true ->
  newRequest valid_url method path body s = (Ok req, s') -> bearer_token (cr_request req) = Some (cl_token s.1).
Proof.
  intros Ht Hfree. unfold newRequest. rewrite prog_get_bind. destruct (valid_url _); [done|]. intros [= <- _].
  assert (Hget : Get (request_headers (cl_token s.1)) "Authorization" = "Bearer " +:+ cl_token s.1).
  { unfold Get, request_headers. rewrite (bool_decide_eq_false_2 _ Ht). by rewrite lookup_insert_eq. }
  unfold bearer_token. cbn [cr_request req_Header]. rewrite Hget. cbv zeta.
  rewrite bool_decide_eq_false_2 by (by change ("Bearer " +:+ cl_token s.1) with (String "B" ("earer " +:+ cl_token s.1))).
  assert (Hs : strings_Split " "%char ("Bearer " +:+ cl_token s.1) = ["Bearer"; cl_token s.1]).
  { change ("Bearer " +:+ cl_token s.1) with ("Bearer" +:+ String " "%char (cl_token s.1)).
    by rewrite strings_Split_app, (strings_Split_free _ _ Hfree). }
  rewrite Hs. rewrite ToLower_ascii by done. reflexivity.
Qed.
