(* ===== verification/RadiusService.v ===== *)
(** * The RADIUS service (internal/protocol/radius/server.go)

    Starting and stopping the server, and the workers that read datagrams and
    hand them to the handlers of RadiusServer.v, as a step relation over the
    sockets, the channel that stops the workers and what each worker is at.  The
    kernel's answers to [ListenUDP] are arguments, and a step is one move of one
    worker, in any order. *)

From S2P Require Import Prelude Bytes Types GoStd RadiusPacket RadiusAttributes RadiusAuth RadiusServer.

(** ** The state

    Sockets are numbered in the order they were opened; a connection of the
    server is the number of its socket, or nil.  A worker remembers the
    connection it has begun to read from. *)
Inductive channel := ChanNil | ChanOpen | ChanClosed.
#[global] Instance channel_eq_dec : EqDecision channel.
Proof. solve_decision. Defined.
Inductive port := Auth | Acct.
#[global] Instance port_eq_dec : EqDecision port.
Proof. solve_decision. Defined.
Inductive phase := Selecting | Reading (conn : option nat) | Returned.
#[global] Instance phase_eq_dec : EqDecision phase.
Proof. solve_decision. Defined.

Record service (DB : Type) := mkService {
  sv_sockets : list bool;
  sv_authConn : option nat;
  sv_acctConn : option nat;
  sv_stopCh : channel;
  sv_workers : list (port * phase);
  sv_cache : gmap string RADIUSClient;
  sv_db : DB;
  sv_done : bool;
  sv_crashed : bool
}.
Arguments mkService {DB}.
Arguments sv_sockets {DB}.
Arguments sv_authConn {DB}.
Arguments sv_acctConn {DB}.
Arguments sv_stopCh {DB}.
Arguments sv_workers {DB}.
Arguments sv_cache {DB}.
Arguments sv_db {DB}.
Arguments sv_done {DB}.
Arguments sv_crashed {DB}.

Section Service.
Context {DB : Type}.
Notation service := (service DB).
Definition NewServer (db : DB) : service := mkService [] None None ChanNil [] ∅ db false false.

Definition conn_of (s : service) (p : port) : option nat := match p with Auth => sv_authConn s | Acct => sv_acctConn s end.
(** A nil connection answers like a closed one, with an error. *)
Definition readable (s : service) (conn : option nat) : bool :=
  match conn with Some k => default false (sv_sockets s !! k) | None => false end.
Definition set_conns (sockets : list bool) (auth acct : option nat) (s : service) : service :=
  mkService sockets auth acct (sv_stopCh s) (sv_workers s) (sv_cache s) (sv_db s) (sv_done s) (sv_crashed s).
Definition set_stopCh (c : channel) (s : service) : service :=
  mkService (sv_sockets s) (sv_authConn s) (sv_acctConn s) c (sv_workers s) (sv_cache s) (sv_db s) (sv_done s) (sv_crashed s).
Definition set_workers (l : list (port * phase)) (s : service) : service :=
  mkService (sv_sockets s) (sv_authConn s) (sv_acctConn s) (sv_stopCh s) l (sv_cache s) (sv_db s) (sv_done s) (sv_crashed s).
Definition set_worker (i : nat) (p : port) (ph : phase) (s : service) : service :=
  set_workers (<[i := (p, ph)]> (sv_workers s)) s.
Definition handled (cache : gmap string RADIUSClient) (db : DB) (crashed : bool) (s : service) : service :=
  mkService (sv_sockets s) (sv_authConn s) (sv_acctConn s) (sv_stopCh s) (sv_workers s) cache db (sv_done s) crashed.

(** ** Start and Stop

    A port that cannot be had leaves its connection nil; the channel and the
    workers come last. *)
Section Control.
Context (auth_free acct_free : bool) (WorkerCount : nat).
Definition Start : prog service error unit :=
  s ← get;
  let n := length (sv_sockets s) in
  if negb auth_free then
    put (set_conns (sv_sockets s) None (sv_acctConn s) s) ;; throw (Errorf "auth port listen failed: ")
  else if negb acct_free then
    put (set_conns (sv_sockets s ++ [false]) (Some n) None s) ;; throw (Errorf "acct port listen failed: ")
  else
    let s := set_conns (sv_sockets s ++ [true; true]) (Some n) (Some (S n)) s in
    put (set_workers (sv_workers s ++ concat (replicate WorkerCount [(Auth, Selecting); (Acct, Selecting)])) (set_stopCh ChanOpen s)).
End Control.

Definition close_socket (conn : option nat) (sockets : list bool) : list bool :=
  match conn with Some k => <[k := false]> sockets | None => sockets end.
(** Closing a nil or a closed channel panics.  What remains is to wait. *)
Definition Stop : prog service error unit :=
  s ← get;
  match sv_stopCh s with
  | ChanNil | ChanClosed => lift Panic
  | ChanOpen =>
      put (set_conns (close_socket (sv_acctConn s) (close_socket (sv_authConn s) (sv_sockets s)))
             (sv_authConn s) (sv_acctConn s) (set_stopCh ChanClosed s))
  end.
(** The wait ends when every worker has returned. *)
Definition waited (s : service) : Prop := Forall (fun w : port * phase => w.2 = Returned) (sv_workers s).

(** ** The workers *)
Section Workers.
Context `{RadiusBackend} `{ClientDB}.
Context (MaxPacketSize : nat) (authenticator : option AuthenticatorConfig).
Context (accounting : option (DB -> RadiusAccounting -> res error DB)) (now_id now : Z).

(** A datagram is cut to the buffer and handled; a panic is the process's. *)
Definition handle (p : port) (data : list byte) (ip : string) (s : service) : service :=
  let data := take MaxPacketSize data in
  match p with
  | Auth => let '(cache, r) := handleAuthRequest authenticator (sv_cache s) data ip in
            handled cache (sv_db s) (match r with Panic => true | _ => sv_crashed s end) s
  | Acct => let '(cache, r) := handleAcctRequest accounting (sv_cache s) (sv_db s) data ip now_id now in
            handled cache (match r with Ok (db, _) => db | _ => sv_db s end)
              (match r with Panic => true | _ => sv_crashed s end) s
  end.

(** The moves of a worker: at the selection it returns when it is told to and
    reads otherwise; a read gives a datagram or, on a connection that is not
    readable, an error, which ends the worker once the channel is closed. *)
Inductive worker_step : service -> service -> Prop :=
  | step_stopped s i p : sv_crashed s = false -> sv_workers s !! i = Some (p, Selecting) ->
      sv_stopCh s = ChanClosed \/ sv_done s = true -> worker_step s (set_worker i p Returned s)
  | step_read s i p : sv_crashed s = false -> sv_workers s !! i = Some (p, Selecting) ->
      sv_stopCh s <> ChanClosed -> sv_done s = false -> worker_step s (set_worker i p (Reading (conn_of s p)) s)
  | step_error s i p conn : sv_crashed s = false -> sv_workers s !! i = Some (p, Reading conn) -> readable s conn = false ->
      worker_step s (set_worker i p (if bool_decide (sv_stopCh s = ChanClosed) then Returned else Selecting) s)
  | step_datagram s i p conn data ip : sv_crashed s = false -> sv_workers s !! i = Some (p, Reading conn) ->
      readable s conn = true -> worker_step s (set_worker i p Selecting (handle p data ip s)).
End Workers.

(** ** One start and one stop *)
Definition weight (w : port * phase) : nat := match w.2 with Selecting => 1 | Reading _ => 2 | Returned => 0 end.
Definition pending (s : service) : nat := sum_list_with weight (sv_workers s).

(** Every read that is under way is from the connection of the server. *)
Definition attached (s : service) : Prop :=
  forall i p conn, sv_workers s !! i = Some (p, Reading conn) -> conn = conn_of s p.
(** After the stop nothing is readable. *)
Definition stopping (s : service) : Prop :=
  sv_stopCh s = ChanClosed /\ (forall p, readable s (conn_of s p) = false) /\ attached s.

End Service.
Arguments service : clear implicits.

Lemma sum_insert (l : list (port * phase)) i w w' :
  l !! i = Some w -> (sum_list_with weight (<[i := w']> l) + weight w = sum_list_with weight l + weight w')%nat.
Proof.
  revert i. induction l as [|x l IH]; intros [|i]; [done..| |].
  - intros [= ->]. cbn. lia.
  - intros Hi. specialize (IH i Hi). change (<[S i := w']> (x :: l)) with (x :: <[i := w']> l). cbn [sum_list_with]. lia.
Qed.

Section Facts.
Context `{RadiusBackend} `{ClientDB} {DB : Type}.
Context (MaxPacketSize : nat) (authenticator : option AuthenticatorConfig).
Context (accounting : option (DB -> RadiusAccounting -> res error DB)) (now_id now : Z).
Implicit Types s : service DB.
Notation move := (worker_step MaxPacketSize authenticator accounting now_id now).

(** What a move of worker [i] leaves alone *)
Lemma set_worker_fields i p ph s :
  sv_stopCh (set_worker i p ph s) = sv_stopCh s /\ (forall q, conn_of (set_worker i p ph s) q = conn_of s q) /\
  (forall c, readable (set_worker i p ph s) c = readable s c) /\ sv_crashed (set_worker i p ph s) = sv_crashed s.
Proof. by repeat split; intros []. Qed.

Lemma attached_set_worker i p ph s :
  attached s -> (forall conn, ph = Reading conn -> conn = conn_of s p) -> attached (set_worker i p ph s).
Proof.
  intros Ha Hph j q conn. cbn. rewrite list_lookup_insert_Some. intros [(-> & [= <- ->] & _)|[_ Hj]].
  - transitivity (conn_of s p); [by apply Hph|by destruct p].
  - transitivity (conn_of s q); [exact (Ha j q conn Hj)|by destruct q].
Qed.

Lemma pending_set_worker i p ph ph' s :
  sv_workers s !! i = Some (p, ph) -> (pending (set_worker i p ph' s) + weight (p, ph) = pending s + weight (p, ph'))%nat.
Proof. intros Hi. unfold pending. cbn. by apply sum_insert. Qed.

(** After the stop every move is one worker nearer to its return: it handles no
    datagram, and nobody waits for more than two moves of each. *)
Lemma stopping_step s s' : stopping s -> move s s' -> stopping s' /\ (pending s' < pending s)%nat /\
  sv_cache s' = sv_cache s /\ sv_db s' = sv_db s /\ sv_crashed s' = sv_crashed s.
Proof.
  intros (Hc & Hlive & Ha) Hstep. destruct Hstep as [s i p _ Hi _|s i p _ Hi Hne _|s i p conn _ Hi Hl|s i p conn data ip _ Hi Hl].
  - split; [|split; [pose proof (pending_set_worker i p _ Returned s Hi); cbn in *; lia|done]].
    split; [done|]. split; [intros q; destruct (set_worker_fields i p Returned s) as (_ & Hq & Hl & _); by rewrite Hl, Hq|].
    by apply attached_set_worker.
  - done.
  - rewrite Hc, bool_decide_eq_true_2 by done.
    split; [|split; [pose proof (pending_set_worker i p _ Returned s Hi); cbn in *; lia|done]].
    split; [done|]. split; [intros q; destruct (set_worker_fields i p Returned s) as (_ & Hq & Hl' & _); by rewrite Hl', Hq|].
    by apply attached_set_worker.
  - exfalso. rewrite (Ha i p conn Hi), Hlive in Hl. done.
Qed.

(** Until all have returned one of them can move. *)
Lemma stopping_progress s : stopping s -> sv_crashed s = false -> ~ waited s -> exists s', move s s'.
Proof.
  intros (Hc & Hlive & Ha) Hcr Hw.
  assert (Hex : exists i p ph, sv_workers s !! i = Some (p, ph) /\ ph <> Returned).
  { unfold waited in Hw. apply not_Forall_Exists in Hw; [|intros w; apply _].
    apply Exists_exists in Hw as ([p ph] & Hin & Hne). apply list_elem_of_lookup in Hin as [i Hi]. by exists i, p, ph. }
  destruct Hex as (i & p & [|conn|] & Hi & Hne); [|..|done].
  - eexists. apply (step_stopped MaxPacketSize authenticator accounting now_id now s i p); auto.
  - eexists. apply (step_error MaxPacketSize authenticator accounting now_id now s i p conn); auto. by rewrite (Ha i p conn Hi).
Qed.
End Facts.

(** ** The life of a server *)
Section Life.
Context `{RadiusBackend} `{ClientDB} {DB : Type}.
Context (MaxPacketSize : nat) (authenticator : option AuthenticatorConfig).
Context (accounting : option (DB -> RadiusAccounting -> res error DB)) (now_id now : Z).
Implicit Types s : service DB.
Notation move := (worker_step MaxPacketSize authenticator accounting now_id now).

Definition running (workers : nat) s : Prop :=
  sv_stopCh s = ChanOpen /\ sv_sockets s = [true; true] /\ sv_authConn s = Some 0%nat /\ sv_acctConn s = Some 1%nat /\
  attached s /\ length (sv_workers s) = workers.

Definition both (n : nat) : list (port * phase) := concat (replicate n [(Auth, Selecting); (Acct, Selecting)]).
Lemma both_length n : length (both n) = (2 * n)%nat.
Proof. induction n as [|n IH]; [done|]. unfold both in *. cbn. lia. Qed.
Lemma both_selecting n i p ph : both n !! i = Some (p, ph) -> ph = Selecting.
Proof.
  revert i. induction n as [|n IH]; intros [|[|i]]; cbn; intros Hi; [done..|by injection Hi| |by apply (IH i)]. by injection Hi.
Qed.

Lemma starts n (db : DB) :
  exists s, Start true true n (NewServer db) = (Ok (), s) /\ running (2 * n) s /\ sv_crashed s = false /\ sv_workers s = both n.
Proof.
  exists (set_workers (both n) (set_stopCh ChanOpen (set_conns [true; true] (Some 0%nat) (Some 1%nat) (NewServer db)))).
  split; [done|]. split; [|done]. do 4 (split; [done|]). split; [|apply both_length].
  intros i p conn Hi. by apply both_selecting in Hi.
Qed.

Lemma handle_fields p data ip s :
  let s' := handle MaxPacketSize authenticator accounting now_id now p data ip s in
  sv_stopCh s' = sv_stopCh s /\ sv_sockets s' = sv_sockets s /\ sv_authConn s' = sv_authConn s /\
  sv_acctConn s' = sv_acctConn s /\ sv_workers s' = sv_workers s.
Proof.
  unfold handle. destruct p; [destruct (handleAuthRequest _ _ _ _)|destruct (handleAcctRequest _ _ _ _ _ _ _)]; done.
Qed.

Lemma handle_attached p data ip s : attached s -> attached (handle MaxPacketSize authenticator accounting now_id now p data ip s).
Proof.
  intros Ha i q conn. destruct (handle_fields p data ip s) as (_ & _ & Hau & Hac & Hw). rewrite Hw. intros Hi.
  unfold conn_of. rewrite Hau, Hac. exact (Ha i q conn Hi).
Qed.

Lemma running_step n s s' : running n s -> move s s' -> running n s'.
Proof.
  intros (Hc & Hs & Hau & Hac & Ha & Hl) Hstep.
  assert (Hw : forall i p ph s0, attached s0 -> (forall c, ph = Reading c -> c = conn_of s0 p) -> sv_stopCh s0 = ChanOpen ->
    sv_sockets s0 = [true; true] -> sv_authConn s0 = Some 0%nat -> sv_acctConn s0 = Some 1%nat ->
    length (sv_workers s0) = n -> running n (set_worker i p ph s0)).
  { intros i p ph s0 ???????. unfold running. cbn. rewrite length_insert. do 4 (split; [done|]). split; [|done].
    by apply attached_set_worker. }
  destruct Hstep as [s i p _ Hi _|s i p _ Hi _ _|s i p conn _ Hi Hlive|s i p conn data ip _ Hi Hlive].
  - by apply Hw.
  - apply Hw; try done. by intros c [= ->].
  - exfalso. rewrite (Ha i p conn Hi) in Hlive. unfold readable, conn_of in Hlive. by destruct p; rewrite ?Hau, ?Hac, Hs in Hlive.
  - destruct (handle_fields p data ip s) as (E1 & E2 & E3 & E4 & E5). apply Hw; [by apply handle_attached|done|congruence..].
Qed.

Lemma running_rtc n s s' : running n s -> rtc move s s' -> running n s'.
Proof. intros Hr Hs. induction Hs as [|s s1 s2 Hm _ IH]; [done|]. apply IH. by apply (running_step n s). Qed.

Lemma pending_bound s : (pending s <= 2 * length (sv_workers s))%nat.
Proof. unfold pending. induction (sv_workers s) as [|[p []] l IH]; cbn in *; lia. Qed.

Lemma stop_running n s : running n s ->
  exists s', Stop s = (Ok (), s') /\ stopping s' /\ sv_workers s' = sv_workers s /\ sv_db s' = sv_db s /\ sv_crashed s' = sv_crashed s.
Proof.
  intros (Hc & Hs & Hau & Hac & Ha & Hl). unfold Stop. rewrite prog_get_bind, Hc. eexists. split; [reflexivity|].
  split; [|done]. split; [done|]. rewrite Hs, Hau, Hac. split; [by intros []|].
  intros i p conn Hi. rewrite (Ha i p conn Hi). by destruct p; cbn; rewrite ?Hau, ?Hac.
Qed.

Lemma stopping_run k s s' : stopping s -> nsteps move k s s' ->
  stopping s' /\ (k + pending s' <= pending s)%nat /\ sv_db s' = sv_db s /\ sv_crashed s' = sv_crashed s.
Proof.
  intros Hst Hrun. induction Hrun as [s|k s s1 s2 Hm _ IH]; [split; [done|]; split; [lia|done]|].
  destruct (stopping_step _ _ _ _ _ s s1 Hst Hm) as (Hst1 & Hp & _ & Hdb & Hcr). destruct (IH Hst1) as (Hst2 & Hp2 & Hdb2 & Hcr2).
  split; [done|]. split; [lia|]. split; congruence.
Qed.

(** A server that was started can be stopped at any moment, and the wait ends:
    after the stop no worker handles a datagram, after at most four moves for
    each pair of workers none can move, and then all have returned. *)
Theorem service_stops n (db : DB) s0 s :
  Start true true n (NewServer db) = (Ok (), s0) -> rtc move s0 s -> sv_crashed s = false ->
  exists s1, Stop s = (Ok (), s1) /\ forall k s2, nsteps move k s1 s2 ->
    (k <= 4 * n)%nat /\ sv_db s2 = sv_db s /\ ((forall s3, ~ move s2 s3) -> waited s2).
Proof.
  intros Hstart Hrun Hcr. destruct (starts n db) as (s0' & Hs0 & Hr0 & _ & _). rewrite Hstart in Hs0. injection Hs0 as <-.
  pose proof (running_rtc _ _ _ Hr0 Hrun) as Hr. destruct (stop_running _ _ Hr) as (s1 & Hstop & Hst & Hw & Hdb & Hcr1).
  exists s1. split; [done|]. intros k s2 Hk. destruct (stopping_run k s1 s2 Hst Hk) as (Hst2 & Hp & Hdb2 & Hcr2).
  split; [|split; [congruence|]].
  - pose proof (pending_bound s1) as Hb. rewrite Hw in Hb. destruct Hr as (_ & _ & _ & _ & _ & Hl). lia.
  - intros Hstuck. destruct (decide (Forall (fun w : port * phase => w.2 = Returned) (sv_workers s2))) as [Hd|Hnd]; [done|].
    destruct (stopping_progress MaxPacketSize authenticator accounting now_id now s2 Hst2) as [s3 Hm]; [congruence|done|].
    by destruct (Hstuck s3).
Qed.

(** One datagram that a handler panics on is the end of the process: no worker
    moves any more. *)
Lemma hostile_datagram_ends n s i data ip client cache :
  running n s -> sv_crashed s = false -> sv_workers s !! i = Some (Auth, Reading (Some 0%nat)) ->
  GetByIP (sv_cache s) ip = (cache, Ok client) -> undersized (take MaxPacketSize data) ->
  exists s', move s s' /\ sv_crashed s' = true /\ forall s'', ~ move s' s''.
Proof.
  intros (_ & Hs & _ & _ & _ & _) Hcr Hi Hc Hu.
  exists (set_worker i Auth Selecting (handle MaxPacketSize authenticator accounting now_id now Auth data ip s)).
  assert (Hcrash : sv_crashed (handle MaxPacketSize authenticator accounting now_id now Auth data ip s) = true).
  { unfold handle, handleAuthRequest. rewrite Hc. cbn [on_result]. by rewrite (proj2 (ParsePacket_panics _ _) Hu). }
  split; [|split; [done|]].
  - apply (step_datagram _ _ _ _ _ s i Auth (Some 0%nat)); [done..|]. unfold readable. by rewrite Hs.
  - intros s'' Hm. remember (set_worker _ _ _ _) as s' eqn:Hs'. assert (sv_crashed s' = true) as Hx by by subst s'.
    destruct Hm; congruence.
Qed.

(** A port that is taken: nothing was started, no socket is left open, and to
    stop the server panics. *)
Lemma auth_taken acct n s :
  Start false acct n s = (Err (Errorf "auth port listen failed: "), set_conns (sv_sockets s) None (sv_acctConn s) s).
Proof. done. Qed.
Lemma acct_taken n s :
  Start true false n s =
    (Err (Errorf "acct port listen failed: "), set_conns (sv_sockets s ++ [false]) (Some (length (sv_sockets s))) None s).
Proof. done. Qed.

Lemma failed_start auth acct n (db : DB) : auth && acct = false ->
  exists e s, Start auth acct n (NewServer db) = (Err e, s) /\ sv_workers s = [] /\ (forall k, sv_sockets s !! k <> Some true) /\
    (Stop s).1 = Panic.
Proof.
  intros Hf. destruct auth, acct; try done.
  - eexists _, _. split; [apply acct_taken|]. split; [done|]. by split; [intros [|[]]|].
  - eexists _, _. split; [apply auth_taken|]. done.
  - eexists _, _. split; [apply auth_taken|]. done.
Qed.

(** To start a running server again finds its own port taken and makes it deaf:
    the connection is nil, a worker of the port that comes to read is never given
    a datagram any more, and the old socket stays open when the server stops. *)
Definition deaf (i : nat) s : Prop :=
  sv_authConn s = None /\ exists ph, sv_workers s !! i = Some (Auth, ph) /\ (ph = Selecting \/ ph = Reading None \/ ph = Returned).

Lemma deaf_step i s s' : deaf i s -> move s s' -> deaf i s'.
Proof.
  intros (Hau & ph & Hi & Hph) Hm.
  assert (Hother : forall j p ph' s0, sv_authConn s0 = None -> sv_workers s0 = sv_workers s ->
    (i = j -> p = Auth /\ (ph' = Selecting \/ ph' = Reading None \/ ph' = Returned)) -> deaf i (set_worker j p ph' s0)).
  { intros j p ph' s0 Ha Hw Hij. split; [done|]. cbn. rewrite Hw. destruct (decide (i = j)) as [<-|Hne].
    - destruct (Hij eq_refl) as [-> Hok]. exists ph'. split; [|done]. apply list_lookup_insert_eq. by apply lookup_lt_Some in Hi.
    - exists ph. split; [by rewrite list_lookup_insert_ne|done]. }
  destruct Hm as [s j p _ Hj _|s j p _ Hj _ _|s j p conn _ Hj _|s j p conn data ip _ Hj Hl].
  - apply Hother; [done..|]. intros <-. rewrite Hi in Hj. injection Hj as <- _. auto.
  - apply Hother; [done..|]. intros <-. rewrite Hi in Hj. injection Hj as <- _. cbn. rewrite Hau. auto.
  - apply Hother; [done..|]. intros <-. rewrite Hi in Hj. injection Hj as <- _. case_bool_decide; auto.
  - destruct (handle_fields p data ip s) as (_ & _ & E3 & _ & E5). apply Hother; [congruence|done|].
    intros <-. rewrite Hi in Hj. injection Hj as <- ->. by destruct Hph as [|[[= ->]|]].
Qed.

Lemma second_start n m s acct i p :
  running n s -> sv_workers s !! i = Some (Auth, p) -> p = Selecting \/ p = Returned ->
  exists e s', Start false acct m s = (Err e, s') /\ deaf i s' /\ (forall s'', rtc move s' s'' -> deaf i s'') /\
    exists s1, Stop s' = (Ok (), s1) /\ sv_sockets s1 !! 0%nat = Some true.
Proof.
  intros (Hc & Hs & Hau & Hac & Ha & Hl) Hi Hp. eexists _, _. split; [apply auth_taken|].
  assert (Hd : deaf i (set_conns (sv_sockets s) None (sv_acctConn s) s)) by (split; [done|]; exists p; split; [done|tauto]).
  split; [done|]. split.
  - intros s'' Hrun. clear -Hd Hrun H H0. induction Hrun as [|x y z Hm _ IH]; [done|]. apply IH. by apply (deaf_step i x).
  - unfold Stop. rewrite prog_get_bind. cbn [sv_stopCh set_conns]. rewrite Hc. eexists. split; [reflexivity|].
    cbn. by rewrite Hs, Hac.
Qed.
End Life.
