(* ===== verification/Tenancy.v ===== *)
(** * Tenants in the database (internal/multitenant, postgresql/tenant_middleware.go)

    The tenant of a request, the condition that the GORM callback adds to the
    statements of its context, and the policies of row-level security.  What a
    condition does to the rows is that of the tables of Tables.v; PostgreSQL's
    answers to the statements on policies are a class with laws. *)

From S2P Require Import Prelude Types GoStd Tables Gateway.

(** ** The tenant of a context (context.go) *)
Definition tenantKey : string * string := ("internal/multitenant.tenantKey", "").
Definition WithTenantID (tenantID : string) (r : request) : request := WithValue tenantKey (CtxString tenantID) r.
Definition GetTenantID (r : request) : option string := ctx_string tenantKey r.
Definition MustGetTenantID (r : request) : res error string :=
  match GetTenantID r with Some tenantID => Ok tenantID | None => Panic end.

(** ** The middleware (tenant_isolator.go): whatever tenant the header names *)
Definition extractTenantID (r : request) : string := Get (req_Header r) "X-Tenant-Id".
Definition tenant_Middleware {A} (next : request -> A) (r : request) : A :=
  let tenantID := extractTenantID r in
  if bool_decide (tenantID = "") then next r else next (WithTenantID tenantID r).

(** ** The callback (tenant_middleware.go)

    A statement: its context, the fields of its model if it has one, its table
    and the conditions it has so far. *)
Inductive db_operation := OpQuery | OpCreate | OpUpdate | OpDelete | OpRow.
Record statement := mkStatement {
  st_Context : option request;
  st_Schema : option (list string);
  st_Table : string;
  st_Where : list (string * string)
}.
Definition with_tenant (tenantID : string) (st : statement) : statement :=
  mkStatement (st_Context st) (st_Schema st) (st_Table st) (st_Where st ++ [("tenant_id", tenantID)]).
Definition isolated_tables : list string := ["users"; "groups"; "applications"].
Definition TenantScopeMiddleware (st : statement) : statement :=
  match st_Context st ≫= GetTenantID with
  | None => st
  | Some tenantID =>
      match st_Schema st with
      | Some fields =>
          if bool_decide ("TenantID" ∈ fields) then with_tenant tenantID st
          else if bool_decide ("tenant_id" ∈ fields) then with_tenant tenantID st
          else st
      | None => if bool_decide (st_Table st ∈ isolated_tables) then with_tenant tenantID st else st
      end
  end.
Definition RegisterTenantCallbacks : list (db_operation * (statement -> statement)) :=
  [(OpQuery, TenantScopeMiddleware); (OpCreate, TenantScopeMiddleware); (OpUpdate, TenantScopeMiddleware);
   (OpDelete, TenantScopeMiddleware); (OpRow, TenantScopeMiddleware)].

(** *** The statements of a repository, with the callback

    [column a c] is the value of column [c] of row [a].  An insertion has no
    conditions. *)
Section Scoped.
Context {A D : Type} `{Table A D} (column : A -> string -> string).
Definition meets (conditions : list (string * string)) (a : A) : bool :=
  forallb (fun c => bool_decide (column a c.1 = c.2)) conditions.
Definition conditions_of (st : statement) : list (string * string) := st_Where (TenantScopeMiddleware st).
Definition scoped_select (st : statement) (p : A -> bool) : prog D error (list A) :=
  t_select (fun a => p a && meets (conditions_of st) a).
Definition scoped_update (st : statement) (p : A -> bool) (f : A -> A) : prog D error Z :=
  t_update (fun a => p a && meets (conditions_of st) a) f.
Definition scoped_delete (st : statement) (p : A -> bool) : prog D error Z :=
  t_delete (fun a => p a && meets (conditions_of st) a).
Definition scoped_insert (st : statement) (a : A) : prog D error unit := t_insert [a].
End Scoped.

(** ** Row-level security (tenant_isolator.go) *)
Inductive rls_statement :=
  | EnableRLS (table : string)
  | DropPolicy (name table : string)
  | CreatePolicy (name table column setting : string)
  | SetLocal (setting value : string).

Class Rls (D : Type) := { rls_Exec : rls_statement -> prog D error unit }.

Section Isolator.
Context `{Rls D}.
Notation db A := (prog D error A).
Definition policyName (table : string) : string := table +:+ "_tenant_isolation".
Definition enable_on (table : string) : db unit :=
  wrapping ("failed to enable RLS on " +:+ table +:+ ": ") (rls_Exec (EnableRLS table)) ;;
  wrapping ("failed to drop existing policy on " +:+ table +:+ ": ") (rls_Exec (DropPolicy (policyName table) table)) ;;
  wrapping ("failed to create policy on " +:+ table +:+ ": ")
    (rls_Exec (CreatePolicy (policyName table) table "tenant_id" "app.current_tenant")).
Definition EnableRowLevelSecurity : db unit := for_each enable_on isolated_tables.
Definition SetTenantContext (tenantID : string) : db unit := rls_Exec (SetLocal "app.current_tenant" tenantID).
End Isolator.

(** PostgreSQL: a table that is not there and a column it has not are errors,
    as is a policy of a name that is taken; what fails changes nothing. *)
Class RlsLaws (D : Type) `{Rls D} := {
  columns : D -> string -> option (list string);
  secured : D -> gset string;
  policies : D -> gmap (string * string) (string * string);
  law_enable t d : match columns d t with
    | Some _ => exists d', rls_Exec (EnableRLS t) d = (Ok (), d') /\ columns d' = columns d /\
                  secured d' = {[ t ]} ∪ secured d /\ policies d' = policies d
    | None => exists e, rls_Exec (EnableRLS t) d = (Err e, d)
    end;
  law_drop n t d : match columns d t with
    | Some _ => exists d', rls_Exec (DropPolicy n t) d = (Ok (), d') /\ columns d' = columns d /\
                  secured d' = secured d /\ policies d' = delete (t, n) (policies d)
    | None => exists e, rls_Exec (DropPolicy n t) d = (Err e, d)
    end;
  law_create n t c s d :
    match columns d t with
    | Some cs =>
        if bool_decide (c ∈ cs) && bool_decide (policies d !! (t, n) = None)
        then exists d', rls_Exec (CreatePolicy n t c s) d = (Ok (), d') /\ columns d' = columns d /\
               secured d' = secured d /\ policies d' = <[(t, n) := (c, s)]> (policies d)
        else exists e, rls_Exec (CreatePolicy n t c s) d = (Err e, d)
    | None => exists e, rls_Exec (CreatePolicy n t c s) d = (Err e, d)
    end
}.

(** ** Facts *)

(** A request without the header has no tenant, one with it the one it names. *)
Lemma tenant_of_header {A} (next : request -> A) r :
  tenant_Middleware next r =
    if bool_decide (Get (req_Header r) "X-Tenant-Id" = "") then next r
    else next (WithTenantID (Get (req_Header r) "X-Tenant-Id") r).
Proof. done. Qed.

Lemma tenant_kept tenantID r : GetTenantID (WithTenantID tenantID r) = Some tenantID.
Proof. unfold GetTenantID, ctx_string, WithTenantID. cbn. by rewrite lookup_insert_eq. Qed.

Section ScopedFacts.
Context {A D : Type} {conflict : A -> A -> bool} `{TableLaws A D conflict} (column : A -> string -> string).
Implicit Types (d : D) (st : statement) (p : A -> bool).

Definition of_tenant (tenantID : string) st : Prop := (st_Context st ≫= GetTenantID) = Some tenantID.
Definition has_tenant_column st : Prop :=
  match st_Schema st with
  | Some fields => "TenantID" ∈ fields \/ "tenant_id" ∈ fields
  | None => st_Table st ∈ isolated_tables
  end.

Lemma callback_adds tenantID st : of_tenant tenantID st ->
  (has_tenant_column st -> conditions_of st = st_Where st ++ [("tenant_id", tenantID)]) /\
  (~ has_tenant_column st -> conditions_of st = st_Where st).
Proof.
  unfold of_tenant, has_tenant_column, conditions_of, TenantScopeMiddleware. intros ->.
  destruct (st_Schema st) as [fields|]; repeat case_bool_decide; split; (done || tauto).
Qed.

(** Within a tenant's context a model with a tenant's column reads, changes and
    deletes the rows of the tenant and no others. *)
Lemma tenant_isolated tenantID st p f d :
  of_tenant tenantID st -> has_tenant_column st ->
  let own a := column a "tenant_id" = tenantID in
  (exists l, scoped_select column st p d = (Ok l, d) /\ forall a, a ∈ l -> a ∈ t_rows d /\ p a = true /\ own a) /\
  (forall n d', scoped_update column st p f d = (Ok n, d') -> forall a, a ∈ t_rows d -> ~ own a -> a ∈ t_rows d') /\
  (exists n d', scoped_delete column st p d = (Ok n, d') /\ forall a, a ∈ t_rows d -> ~ own a -> a ∈ t_rows d').
Proof.
  intros Ht Hc own. destruct (callback_adds tenantID st Ht) as [Hadd _]. specialize (Hadd Hc).
  assert (Hmeets : forall a, meets column (conditions_of st) a = true -> own a).
  { intros a. rewrite Hadd. unfold meets. rewrite forallb_app. intros [_ Ha]%andb_true_iff. cbn in Ha.
    rewrite andb_true_r in Ha. by apply bool_decide_eq_true in Ha. }
  assert (Hout : forall a, ~ own a -> p a && meets column (conditions_of st) a = false).
  { intros a Hn. apply not_true_is_false. intros [_ Hm]%andb_true_iff. by apply Hn, Hmeets. }
  split; [|split].
  - destruct (law_select (fun a => p a && meets column (conditions_of st) a) d) as (l & Hrun & Hl). exists l. split; [done|].
    intros a. rewrite Hl, elem_of_select. intros [Hin [Hp Hm]%andb_true_iff]. auto.
  - intros n d' Hrun a Ha Hn. pose proof (law_update (fun a => p a && meets column (conditions_of st) a) f d) as Hu.
    destruct (unique conflict _).
    + destruct Hu as (d1 & Hrun' & Hrows). unfold scoped_update in Hrun. rewrite Hrun' in Hrun. injection Hrun as <- <-.
      rewrite Hrows. apply list_elem_of_In, in_map_iff. exists a. split; [by rewrite Hout|by apply list_elem_of_In].
    + unfold scoped_update in Hrun. congruence.
  - destruct (Tables.law_delete (fun a => p a && meets column (conditions_of st) a) d) as (d' & n & Hrun & Hrows).
    exists n, d'. split; [done|]. intros a Ha Hn. rewrite Hrows. apply elem_of_delete. split; [done|]. by apply Hout.
Qed.

(** A model without the column is not scoped, whatever its table is called: its
    statements see every tenant's rows. *)
Lemma not_isolated tenantID st p d :
  of_tenant tenantID st -> ~ has_tenant_column st -> st_Where st = [] ->
  exists l, scoped_select column st p d = (Ok l, d) /\ forall a, a ∈ l <-> a ∈ t_rows d /\ p a = true.
Proof.
  intros Ht Hc Hw. destruct (callback_adds tenantID st Ht) as [_ Hno]. specialize (Hno Hc).
  destruct (law_select (fun a => p a && meets column (conditions_of st) a) d) as (l & Hrun & Hl). exists l. split; [done|].
  intros a. rewrite Hl, elem_of_select, Hno, Hw. cbn. by rewrite andb_true_r.
Qed.
End ScopedFacts.

(** The fields of the models of users and applications (pkg/types): there is no
    tenant among them, so that the tables the callback names are not scoped. *)
Definition user_model_fields : list string :=
  ["ID"; "Username"; "Email"; "Phone"; "Password"; "Status"; "Attributes"; "PrivacySettings"; "Groups"; "CreatedAt";
   "UpdatedAt"; "DeletedAt"; "LastLoginAt"; "MergeHistory"; "ExternalID"; "SourceType"].
Definition application_model_fields : list string :=
  ["ID"; "Name"; "Description"; "Status"; "ClientType"; "Protocol"; "ProtocolConfig"; "CreatedAt"; "UpdatedAt"].
Lemma users_not_scoped ctx where_ fields :
  fields = user_model_fields \/ fields = application_model_fields -> ~ has_tenant_column (mkStatement ctx (Some fields) "users" where_).
Proof.
  intros Hf. assert ("TenantID" ∉ fields /\ "tenant_id" ∉ fields) as [H1 H2].
  { destruct Hf as [->| ->]; split; apply (bool_decide_eq_false_1 _); vm_compute; reflexivity. }
  by intros [Hin|Hin].
Qed.

(** *** Policies *)
Section RlsFacts.
Context `{RlsLaws D}.
Implicit Types d : D.

Definition policy_of (table : string) : gmap (string * string) (string * string) -> gmap (string * string) (string * string) :=
  <[(table, policyName table) := ("tenant_id", "app.current_tenant")]>.

Lemma enable_on_run t cs d : columns d t = Some cs ->
  exists d', columns d' = columns d /\ secured d' = {[ t ]} ∪ secured d /\
    if bool_decide ("tenant_id" ∈ cs)
    then enable_on t d = (Ok (), d') /\ policies d' = policy_of t (policies d)
    else (exists e, enable_on t d = (Err e, d')) /\ policies d' = delete (t, policyName t) (policies d).
Proof.
  intros Hc. pose proof (law_enable t d) as He. rewrite Hc in He. destruct He as (d1 & He & Hc1 & Hs1 & Hp1).
  pose proof (law_drop (policyName t) t d1) as Hd. rewrite Hc1, Hc in Hd. destruct Hd as (d2 & Hd & Hc2 & Hs2 & Hp2).
  pose proof (law_create (policyName t) t "tenant_id" "app.current_tenant" d2) as Hk. rewrite Hc2, Hc in Hk.
  assert (Hfree : policies d2 !! (t, policyName t) = None) by (by rewrite Hp2, lookup_delete_eq).
  rewrite (bool_decide_eq_true_2 _ Hfree), andb_true_r in Hk. unfold enable_on.
  rewrite (prog_bind_run _ _ _ _ _ (wrapping_returns _ _ _ _ _ He)), (prog_bind_run _ _ _ _ _ (wrapping_returns _ _ _ _ _ Hd)).
  destruct (bool_decide ("tenant_id" ∈ cs)).
  - destruct Hk as (d3 & Hk & Hc3 & Hs3 & Hp3). exists d3. split; [congruence|]. split; [congruence|].
    split; [by apply wrapping_returns|]. rewrite Hp3, Hp2, Hp1. unfold policy_of. by rewrite insert_delete_eq.
  - destruct Hk as [e Hk]. exists d2. split; [congruence|]. split; [congruence|]. split; [|congruence].
    eexists. by apply wrapping_fails.
Qed.

(** Where the three tables have the column, each is secured by its policy, and to
    do it again changes nothing more. *)
Lemma all_secured d : (forall t, t ∈ isolated_tables -> exists cs, columns d t = Some cs /\ "tenant_id" ∈ cs) ->
  exists d', EnableRowLevelSecurity d = (Ok (), d') /\ columns d' = columns d /\
    secured d' = {["users"; "groups"; "applications"]} ∪ secured d /\
    policies d' = policy_of "applications" (policy_of "groups" (policy_of "users" (policies d))).
Proof.
  intros Hall. unfold EnableRowLevelSecurity, isolated_tables in *.
  assert (Hone : forall t d1, t ∈ ["users"; "groups"; "applications"] -> columns d1 = columns d -> exists d2,
    enable_on t d1 = (Ok (), d2) /\ columns d2 = columns d /\ secured d2 = {[ t ]} ∪ secured d1 /\ policies d2 = policy_of t (policies d1)).
  { intros t d1 Ht Hc. destruct (Hall t Ht) as (cs & Hcs & Hin). destruct (enable_on_run t cs d1) as (d2 & Hc2 & Hs2 & Hrun); [congruence|].
    rewrite (bool_decide_eq_true_2 _ Hin) in Hrun. destruct Hrun as [Hrun Hp]. exists d2. split; [done|]. split; [congruence|]. done. }
  destruct (Hone "users" d) as (d1 & R1 & C1 & S1 & P1); [by left|done|].
  destruct (Hone "groups" d1) as (d2 & R2 & C2 & S2 & P2); [by right; left|done|].
  destruct (Hone "applications" d2) as (d3 & R3 & C3 & S3 & P3); [by right; right; left|done|].
  exists d3. cbn [for_each]. rewrite (prog_bind_run _ _ _ _ _ R1), (prog_bind_run _ _ _ _ _ R2), (prog_bind_run _ _ _ _ _ R3).
  split; [done|]. split; [done|]. split; [rewrite S3, S2, S1; set_solver|]. by rewrite P3, P2, P1.
Qed.

(** The program's own table of users has no such column: the call fails and
    leaves it secured without a policy, which hides every row of it. *)
Lemma users_locked d cs : columns d "users" = Some cs -> "tenant_id" ∉ cs ->
  exists e d', EnableRowLevelSecurity d = (Err e, d') /\ "users" ∈ secured d' /\ policies d' !! ("users", policyName "users") = None.
Proof.
  intros Hc Hno. destruct (enable_on_run "users" cs d Hc) as (d' & _ & Hs & Hrun). rewrite (bool_decide_eq_false_2 _ Hno) in Hrun.
  destruct Hrun as [[e Hrun] Hp]. exists e, d'. split; [|split; [set_solver|by rewrite Hp, lookup_delete_eq]].
  unfold EnableRowLevelSecurity, isolated_tables. cbn [for_each]. by rewrite (prog_bind_fail _ _ _ _ _ Hrun).
Qed.
End RlsFacts.
