(* ===== verification/SessionScheduler.v ===== *)
(** * The scheduler of evaluations (internal/auth/session/evaluation_scheduler.go)

    Starting and stopping the scheduler, its loop and the goroutines it starts
    for the sessions that are due, as a step relation over the world of
    SessionLifecycle.v.  A step is one tick of a loop, the return of a loop or
    one whole evaluation, in any order and at any instant. *)

From S2P Require Import Prelude Types GoStd GoText Redis SessionStore SessionRisk SessionLifecycle.

Local Open Scope Z_scope.

(** ** The state

    The channel is made by [Start]; a loop is alive until it returns; the tasks
    are the sessions whose evaluation was started and has not finished. *)
Inductive stop_channel := StopNil | StopOpen | StopClosed.
#[global] Instance stop_channel_eq_dec : EqDecision stop_channel.
Proof. solve_decision. Defined.

Record scheduler (W : Type) := mkScheduler {
  es_running : bool;
  es_stopCh : stop_channel;
  es_loops : list bool;
  es_tasks : list loc;
  es_world : W;
  es_done : bool;
  es_crashed : bool
}.
Arguments mkScheduler {W}.
Arguments es_running {W}.
Arguments es_stopCh {W}.
Arguments es_loops {W}.
Arguments es_tasks {W}.
Arguments es_world {W}.
Arguments es_done {W}.
Arguments es_crashed {W}.

Section Control.
Context {W : Type}.
Notation scheduler := (scheduler W).
Notation control A := (prog scheduler error A).
Definition NewScheduler (w : W) : scheduler := mkScheduler false StopNil [] [] w false false.

Definition set_running (b : bool) (s : scheduler) : scheduler :=
  mkScheduler b (es_stopCh s) (es_loops s) (es_tasks s) (es_world s) (es_done s) (es_crashed s).
Definition set_stop (c : stop_channel) (s : scheduler) : scheduler :=
  mkScheduler (es_running s) c (es_loops s) (es_tasks s) (es_world s) (es_done s) (es_crashed s).
Definition set_loops (l : list bool) (s : scheduler) : scheduler :=
  mkScheduler (es_running s) (es_stopCh s) l (es_tasks s) (es_world s) (es_done s) (es_crashed s).
Definition set_tasks (l : list loc) (w : W) (crashed : bool) (s : scheduler) : scheduler :=
  mkScheduler (es_running s) (es_stopCh s) (es_loops s) l w (es_done s) (es_crashed s || crashed).
(** The context of the scheduler ends. *)
Definition cancel (s : scheduler) : scheduler :=
  mkScheduler (es_running s) (es_stopCh s) (es_loops s) (es_tasks s) (es_world s) true (es_crashed s).

(** [s.running.CompareAndSwap(from, to)] *)
Definition CompareAndSwap (from to : bool) : control bool :=
  s ← get;
  if bool_decide (es_running s = from) then put (set_running to s) ;; mret true else mret false.

(** The channel is made and the loop is started after the swap. *)
Definition launch : control unit := modify (fun s => set_loops (es_loops s ++ [true]) (set_stop StopOpen s)).
Definition sched_Start : control unit :=
  swapped ← CompareAndSwap false true;
  if swapped : bool then launch else mret ().

(** Closing a nil or a closed channel panics. *)
Definition close_stopCh : control unit :=
  s ← get;
  match es_stopCh s with StopOpen => put (set_stop StopClosed s) | _ => lift Panic end.
Definition sched_Stop : control unit :=
  swapped ← CompareAndSwap true false;
  if swapped : bool then close_stopCh else mret ().

(** session_manager.go: a manager may have no scheduler; the answer is dropped. *)
Definition StartScheduler (present : bool) : control unit := if present then try sched_Start ;; mret () else mret ().
Definition StopScheduler (present : bool) : control unit := if present then try sched_Stop ;; mret () else mret ().

(** What [Stop] waits for, unless its own context ends before. *)
Definition quiet (s : scheduler) : Prop := Forall (fun alive => alive = false) (es_loops s) /\ es_tasks s = [].
End Control.

(** ** The loop and the evaluations *)
Section Steps.
Context `{SessionRepository R} `{SessionEventRepository V} `{Redis C}.
Context (e : evaluator) (has_events has_notify : bool) (config : SchedulerConfig).
Notation scheduler := (scheduler (world R V C)).

Inductive sched_step : scheduler -> scheduler -> Prop :=
  (** A tick: the sessions that are due are each given a goroutine. *)
  | step_tick s i now l w : es_crashed s = false -> es_loops s !! i = Some true ->
      getSessionsNeedingEvaluation now config (es_world s) = (Ok l, w) ->
      sched_step s (set_tasks (es_tasks s ++ l) w false s)
  | step_tick_panics s i now w : es_crashed s = false -> es_loops s !! i = Some true ->
      getSessionsNeedingEvaluation now config (es_world s) = (Panic, w) ->
      sched_step s (set_tasks (es_tasks s) w true s)
  (** A loop may return as soon as it is told to; when a tick is there too the
      choice between the two is free. *)
  | step_return s i : es_crashed s = false -> es_loops s !! i = Some true ->
      es_stopCh s = StopClosed \/ es_done s = true -> sched_step s (set_loops (<[i := false]> (es_loops s)) s)
  (** [TriggerImmediate] *)
  | step_trigger s id p w : es_crashed s = false ->
      on_sessions (V:=V) (C:=C) (sr_GetByID id) (es_world s) = (Ok p, w) ->
      sched_step s (set_tasks (es_tasks s ++ [p]) w false s)
  (** An evaluation; its result is not looked at, a panic is the process's. *)
  | step_evaluate s k p now uuid r w : es_crashed s = false -> es_tasks s !! k = Some p ->
      evaluateSession e has_events has_notify now uuid p (es_world s) = (r, w) -> r <> Diverge ->
      sched_step s (set_tasks (delete k (es_tasks s)) w (match r with Panic => true | _ => false end) s).
End Steps.

(** ** Starting and stopping *)
Section ControlFacts.
Context {W : Type}.
Implicit Types (w : W) (s : scheduler W).

(** To start a running scheduler, or to stop one that does not run, does nothing. *)
Lemma start_running s : es_running s = true -> sched_Start s = (Ok (), s).
Proof. intros Hr. unfold sched_Start, CompareAndSwap. rewrite prog_assoc, prog_get_bind, Hr. done. Qed.
Lemma stop_idle s : es_running s = false -> sched_Stop s = (Ok (), s).
Proof. intros Hr. unfold sched_Stop, CompareAndSwap. rewrite prog_assoc, prog_get_bind, Hr. done. Qed.

(** A manager starts and stops its scheduler as often as it likes: the second
    call of either in a row changes nothing. *)
Lemma manager_scheduler present w : exists s,
  (StartScheduler present ;; StartScheduler present) (NewScheduler w) = StartScheduler present (NewScheduler w) /\
  (StartScheduler present ;; StopScheduler present ;; StopScheduler present) (NewScheduler w) = (Ok (), s) /\
  es_running s = false /\ es_loops s = (if present then [true] else []) /\
  es_stopCh s = (if present then StopClosed else StopNil).
Proof. destruct present; eexists; repeat split. Qed.

(** A call of [Stop] that comes between the swap of [Start] and the making of
    the channel closes a nil channel. *)
Lemma start_race w : ((CompareAndSwap false true ;; sched_Stop) (NewScheduler w)).1 = Panic.
Proof. done. Qed.

(** A loop reads the channel of the scheduler each time it waits: when [Stop]
    gave up before the loop had returned, the next [Start] gives the old loop a
    channel that is open, and two loops run. *)
Lemma restart_keeps_loop w : exists s, (sched_Start ;; sched_Stop ;; sched_Start) (NewScheduler w) = (Ok (), s) /\
  es_loops s = [true; true] /\ es_stopCh s = StopOpen /\ es_done s = false.
Proof. by eexists. Qed.
End ControlFacts.

(** ** What a run keeps *)
Section RunFacts.
Context `{SessionRepositoryLaws R} `{SessionEventLaws V} `{RedisLaws C}.
Context (e : evaluator) (has_events has_notify : bool) (config : SchedulerConfig).
Context (batch : 0 < BatchSize config).
(** The queries as in SessionLifecycle.v; a session that is read is an object,
    and reading it changes no other. *)
Context (by_risk : forall level limit, query_ok (R:=R) (sr_FindByRiskLevel level limit) limit).
Context (active : forall limit, query_ok (R:=R) (sr_FindActiveSessions limit) limit).
Context (by_id : forall id (r r' : R) p, sr_GetByID id r = (Ok p, r') ->
  is_Some (object r' p) /\ forall q s, object r q = Some s -> object r' q = Some s).
Notation world := (world R V C).
Notation scheduler := (scheduler world).
Notation step := (sched_step e has_events has_notify config).
Notation obj w p := (object (w_sessions w) p).
Implicit Types (s : scheduler) (w : world).

Definition sound s : Prop := es_crashed s = false /\ Forall (fun p => is_Some (obj (es_world s) p)) (es_tasks s).

(** Every session object is still there, and descends from what it was. *)
Definition keeps w w' : Prop := forall p x, obj w p = Some x -> exists x', obj w' p = Some x' /\ descends x x'.

Lemma descends_refl x : descends x x.
Proof. unfold descends. tauto. Qed.
Lemma keeps_refl w : keeps w w.
Proof. intros p x Hx. exists x. split; [done|apply descends_refl]. Qed.
Lemma keeps_trans w1 w2 w3 : keeps w1 w2 -> keeps w2 w3 -> keeps w1 w3.
Proof.
  intros H12 H23 p x Hx. destruct (H12 p x Hx) as (y & Hy & Hxy). destruct (H23 p y Hy) as (z & Hz & Hyz).
  exists z. split; [done|]. by apply (descends_trans x y z).
Qed.
Lemma keeps_objects w w' l : keeps w w' -> Forall (fun p => is_Some (obj w p)) l -> Forall (fun p => is_Some (obj w' p)) l.
Proof. intros Hk Hl. eapply Forall_impl; [exact Hl|]. intros p [x Hx]. destruct (Hk p x Hx) as (x' & ? & _). by exists x'. Qed.

(** A round finds sessions, and changes none. *)
Lemma tick_finds now w : exists l, getSessionsNeedingEvaluation now config w = (Ok l, w) /\ Forall (fun p => is_Some (obj w p)) l.
Proof.
  destruct (batch_bounds now config w batch by_risk active) as (l & Hl & _ & Hd). exists l. split; [done|].
  eapply Forall_impl; [exact Hd|]. by intros p [(x & Hx & _)|[(x & Hx & _)|(x & Hx & _)]]; exists x.
Qed.

Lemma evaluation_keeps now uuid p w : is_Some (obj w p) ->
  exists w', evaluateSession e has_events has_notify now uuid p w = (Ok (), w') /\ keeps w w'.
Proof.
  intros [x Hx]. destruct (run_op_run e has_events has_notify p (OpScheduled now uuid) x w Hx) as (w' & Hr & Hb).
  exists w'. split; [done|]. intros q y Hy. destruct (decide (p = q)) as [<-|Hne].
  - rewrite Hx in Hy. injection Hy as <-. eexists. split; [by apply (becomes_obj _ _ _ _ Hb)|apply descends_op].
  - exists y. split; [by rewrite Hb, decide_False|apply descends_refl].
Qed.

Lemma trigger_keeps id w p w' : on_sessions (V:=V) (C:=C) (sr_GetByID id) w = (Ok p, w') -> is_Some (obj w' p) /\ keeps w w'.
Proof.
  unfold on_sessions, zoom. destruct (sr_GetByID id (w_sessions w)) as [r r'] eqn:Hget. intros [= -> <-].
  destruct (by_id _ _ _ _ Hget) as [Hp Hold]. split; [done|]. intros q x Hx. exists x. split; [by apply Hold|apply descends_refl].
Qed.

Lemma sched_step_keeps s s' : sound s -> step s s' -> sound s' /\ keeps (es_world s) (es_world s').
Proof.
  intros [Hc Ht] Hs. destruct Hs as [s i now l w _ _ Hl|s i now w _ _ Hl|s i _ _ _|s id p w _ Hget|s k p now uuid r w _ Hk Hr _].
  - destruct (tick_finds now (es_world s)) as (l' & Hl' & Hf). rewrite Hl in Hl'. injection Hl' as -> ->.
    split; [split; cbn; [by rewrite Hc|by apply Forall_app]|apply keeps_refl].
  - destruct (tick_finds now (es_world s)) as (l' & Hl' & _). congruence.
  - split; [done|apply keeps_refl].
  - destruct (trigger_keeps _ _ _ _ Hget) as [Hp Hk]. split; [|done]. split; cbn; [by rewrite Hc|].
    apply Forall_app. split; [by apply (keeps_objects _ _ _ Hk)|by constructor].
  - destruct (evaluation_keeps now uuid p (es_world s)) as (w' & Hw & Hkeep).
    { rewrite Forall_lookup in Ht. by apply (Ht k). }
    rewrite Hr in Hw. injection Hw as -> ->. split; [|done]. split; cbn; [by rewrite Hc|].
    by apply (keeps_objects _ _ _ Hkeep), Forall_delete.
Qed.

(** However ticks, triggers and evaluations interleave, the scheduler never
    panics, and every session stays itself: its identity, permissions and expiry
    are kept, its level is between one and four and its status one of the four. *)
Theorem scheduler_history s s' : sound s -> rtc step s s' -> sound s' /\ keeps (es_world s) (es_world s').
Proof.
  intros Hs Hrun. induction Hrun as [s|s s1 s2 Hstep _ IH]; [split; [done|apply keeps_refl]|].
  destruct (sched_step_keeps s s1 Hs Hstep) as [Hs1 Hk]. destruct (IH Hs1) as [Hs2 Hk2].
  split; [done|]. by apply (keeps_trans _ (es_world s1)).
Qed.

(** A session that is due is given a goroutine at every tick until an
    evaluation of it has stored its time: two ticks that come first start two. *)
Lemma tick_again s i now l : sound s -> es_loops s !! i = Some true ->
  getSessionsNeedingEvaluation now config (es_world s) = (Ok l, es_world s) ->
  exists s', nsteps step 2 s s' /\ es_tasks s' = es_tasks s ++ l ++ l /\ es_world s' = es_world s.
Proof.
  intros [Hc _] Hi Hl. set (s1 := set_tasks (es_tasks s ++ l) (es_world s) false s).
  exists (set_tasks (es_tasks s1 ++ l) (es_world s) false s1). split; [|split; [cbn; by rewrite <- app_assoc|done]].
  assert (Hc1 : es_crashed s1 = false) by (cbn; by rewrite Hc).
  econstructor; [exact (step_tick e has_events has_notify config s i now l (es_world s) Hc Hi Hl)|].
  econstructor; [exact (step_tick e has_events has_notify config s1 i now l (es_world s) Hc1 Hi Hl)|constructor].
Qed.

(** ** Stopping *)
Definition told s : Prop := es_stopCh s = StopClosed \/ es_done s = true.
Definition alive s : nat := length (filter (fun b : bool => b = true) (es_loops s)).

Lemma alive_return (l : list bool) i : l !! i = Some true ->
  length (filter (fun b : bool => b = true) l) = S (length (filter (fun b : bool => b = true) (<[i := false]> l))).
Proof.
  revert i. induction l as [|b l IH]; intros [|i]; [done..| |].
  - intros [= ->]. change (<[0%nat := false]> (true :: l)) with (false :: l). by rewrite filter_cons_True, filter_cons_False.
  - intros Hi. specialize (IH i Hi). change (<[S i := false]> (b :: l)) with (b :: <[i := false]> l).
    destruct b; [rewrite !filter_cons_True by done; cbn; by f_equal|by rewrite !filter_cons_False].
Qed.

Lemma loops_return s : sound s -> told s -> exists s', rtc step s s' /\ sound s' /\ told s' /\
  Forall (fun b => b = false) (es_loops s') /\ es_tasks s' = es_tasks s.
Proof.
  remember (alive s) as n eqn:Hn. revert s Hn. induction n as [|n IH]; intros s Hn Hs Ht.
  - exists s. split; [done|]. do 2 (split; [done|]). split; [|done]. apply Forall_forall. intros b Hb.
    destruct b; [|done]. symmetry in Hn. apply nil_length_inv in Hn. exfalso. eapply not_elem_of_nil. rewrite <- Hn.
    by apply list_elem_of_filter.
  - assert (exists b, b ∈ filter (fun b : bool => b = true) (es_loops s)) as [b [Hb Hin]%list_elem_of_filter].
    { unfold alive in Hn. destruct (filter _ _) as [|b l]; [done|]. exists b. constructor. }
    subst b. apply list_elem_of_lookup in Hin as [i Hi].
    destruct (IH (set_loops (<[i := false]> (es_loops s)) s)) as (s' & Hrun & Hrest).
    + pose proof (alive_return (es_loops s) i Hi) as Ha. unfold alive in *. cbn in *. lia.
    + exact Hs.
    + exact Ht.
    + exists s'. split; [|exact Hrest]. econstructor; [|exact Hrun]. destruct Hs as [Hc _]. by apply step_return.
Qed.

Lemma tasks_finish s : sound s -> Forall (fun b => b = false) (es_loops s) -> exists s', rtc step s s' /\ quiet s'.
Proof.
  remember (es_tasks s) as l eqn:Hl. revert s Hl. induction l as [|p l IH]; intros s Hl Hs Hf.
  { exists s. by split; [|split]. }
  pose proof Hs as [Hc Ht]. rewrite <- Hl in Ht. apply Forall_cons in Ht as [Hp _].
  destruct (evaluation_keeps 0 "" p (es_world s) Hp) as (w' & Hw & _).
  assert (Hstep : step s (set_tasks (delete 0%nat (es_tasks s)) w' false s)).
  { apply (step_evaluate e has_events has_notify config s 0 p 0 "" (Ok ()) w'); [done|by rewrite <- Hl|done..]. }
  destruct (sched_step_keeps _ _ Hs Hstep) as [Hs1 _]. rewrite <- Hl in Hstep, Hs1.
  destruct (IH (set_tasks l w' false s)) as (s' & Hrun & Hq); [done|exact Hs1|exact Hf|].
  exists s'. split; [|done]. by econstructor.
Qed.

(** Once told to stop, by the channel or by the context, the scheduler can come
    to rest from every state it can get to; what was started is finished, and
    afterwards only a trigger starts an evaluation. *)
Theorem scheduler_stops s s' : sound s -> told s -> rtc step s s' -> exists s'', rtc step s' s'' /\ quiet s'' /\
  forall s3, step s'' s3 -> exists p, es_tasks s3 = [p] /\ es_loops s3 = es_loops s''.
Proof.
  intros Hs Ht Hrun. destruct (scheduler_history s s' Hs Hrun) as [Hs' _].
  assert (Ht' : told s').
  { clear -Hrun Ht. induction Hrun as [|x y z Hxy _ IH]; [done|]. apply IH. by destruct Hxy. }
  destruct (loops_return s' Hs' Ht') as (s1 & Hr1 & Hs1 & _ & Hf & _). destruct (tasks_finish s1 Hs1 Hf) as (s2 & Hr2 & Hq).
  exists s2. split; [by etrans|]. split; [done|]. destruct Hq as [Hl He]. intros s3 Hstep. destruct Hstep; try congruence.
  - by eapply (Forall_lookup_1 _ _ i) in Hl; [|done].
  - by eapply (Forall_lookup_1 _ _ i) in Hl; [|done].
  - by eapply (Forall_lookup_1 _ _ i) in Hl; [|done].
  - exists p. by rewrite He.
  - by rewrite He in *.
Qed.
End RunFacts.

(** ** Over the reference repository *)
Lemma repo_by_id id (r r' : session_repo) p : sr_GetByID id r = (Ok p, r') ->
  is_Some (object r' p) /\ forall q s, object r q = Some s -> object r' q = Some s.
Proof.
  cbn. destruct (rp_index r !! id) as [q|]; [|done]. destruct (rp_heap r !! q) as [x|] eqn:Hx; [|done].
  intros [= <- <-]. by split; [exists x|].
Qed.

Definition demo_config : SchedulerConfig := NewEvaluationScheduler (mkSchedulerConfig 0 Minute (30 * Second) 0 0).
Definition demo_started : scheduler (world session_repo (list SessionEvent) redis_state) :=
  cancel (sched_Start (NewScheduler (demo_world demo_session))).2.

(** Two hours after it was opened the session is due; its evaluation and the end
    of the loop leave a scheduler at rest, with a second factor asked for. *)
Example demo_schedule : exists s, rtc (sched_step demo_evaluator true true demo_config) demo_started s /\
  es_tasks s = [] /\ es_loops s = [false] /\
  se_Status <$> object (w_sessions (es_world s)) 1%positive = Some SessionStatusStepUpRequired.
Proof.
  eexists. split.
  - eapply rtc_l; [eapply (step_tick _ _ _ _ _ 0 (2 * Hour)); [reflexivity..|vm_compute; reflexivity]|].
    eapply rtc_l; [eapply (step_evaluate _ _ _ _ _ 0 1%positive (2 * Hour) "e1"); [reflexivity..|vm_compute; reflexivity|done]|].
    apply rtc_once. eapply (step_return _ _ _ _ _ 0); [reflexivity..|by right].
  - split; [reflexivity|]. split; [reflexivity|]. vm_compute. reflexivity.
Qed.

Lemma demo_history s : rtc (sched_step demo_evaluator true true demo_config) demo_started s ->
  es_crashed s = false /\ exists x, object (w_sessions (es_world s)) 1%positive = Some x /\ se_Permissions x = se_Permissions demo_session.
Proof.
  intros Hrun. destruct (scheduler_history demo_evaluator true true demo_config ltac:(done) (fun _ _ => repo_find_ok _ _)
    (fun _ => repo_find_ok _ _) repo_by_id demo_started s) as [[Hc _] Hk]; [by split|done|].
  split; [done|]. destruct (Hk 1%positive demo_session ltac:(reflexivity)) as (x & Hx & Hd). exists x. split; [done|]. apply Hd.
Qed.
