(* ===== verification/Background.v ===== *)
(** * What runs on a clock (internal/identity/ldap/sync_scheduler.go,
    internal/worker/lifecycle_job.go, handlers/sync.go)

    The scheduler of the LDAP synchronisation with its retries and its listener,
    the loop of the lifecycle job, and the endpoints that start a
    synchronisation by hand.  Cron and the timers are arguments: the moments at
    which something wakes. *)

From S2P Require Import Prelude Types GoStd GoText MemIdentity IdentityService Lifecycle LdapSync.

Local Open Scope Z_scope.

(** ** The scheduler of the synchronisation *)
Record SchedulerConfig := mkSchedulerConfig {
  EnableAutoRetry : bool;
  MaxRetries : Z;
  RetryBackoff : Z
}.

Section Scheduler.
Context {W : Type} (config : SchedulerConfig) (sync : prog W error unit).

(** What cron calls; the pauses between the retries are the result. *)
Definition scheduled_full_sync : prog W error (list Z) :=
  done ← try sync;
  match done with
  | inr _ => mret []
  | inl _ => if EnableAutoRetry config then scheduleRetry (Z.to_nat (MaxRetries config)) (RetryBackoff config) sync else mret []
  end.

(** The goroutine of the incremental synchronisation: it pauses after a failure
    only, and looks whether it was cancelled after each round. *)
Fixpoint listener (fuel : nat) (cancelled : nat -> bool) (round : nat) : prog W error (list Z) :=
  match fuel with
  | O => lift Diverge
  | S fuel =>
      done ← try sync;
      let pause := match done with inl _ => [RetryBackoff config] | inr _ => [] end in
      if cancelled round then mret pause
      else rest ← listener fuel cancelled (S round); mret (pause ++ rest)
  end.
End Scheduler.

(** ** The loop of the lifecycle job *)
Inductive wake := Tick (now : time) | Cancelled.

Section LifecycleJob.
Context `{CaseFolding} `{UserService W} (format_other : any -> string) (format_value : value -> string).
Context (config : LifecycleJobConfig) (fuel : nat).
Notation scan now := (Run format_other format_value config now fuel).

Fixpoint job_loop (wakes : list wake) : prog W error unit :=
  match wakes with
  | [] | Cancelled :: _ => mret ()
  | Tick now :: wakes => scan now ;; job_loop wakes
  end.

(** A ticker needs a positive interval. *)
Definition job_Start (Enabled : bool) (Interval : Z) (started : time) (wakes : list wake) : prog W error unit :=
  if negb Enabled then mret ()
  else if bool_decide (Interval <= 0) then lift Panic
  else scan started ;; job_loop wakes.
End LifecycleJob.

(** ** The endpoints (handlers/sync.go) *)
Record sync_answer := mkSyncAnswer { sa_Status : Z; sa_Body : string + SyncStats }.

Section Handlers.
Context `{SyncStore W} (sync_config : LDAPSyncConfig) (now : time).
Notation sync := (prog (W * option SyncStats) error).

Definition answer_sync (message : string) (m : sync SyncStats) : sync sync_answer :=
  answer ← try m;
  mret match answer with
       | inl _ => mkSyncAnswer 500 (inl message)
       | inr stats => mkSyncAnswer 200 (inr stats)
       end.

Definition handleFullSync (SyncUsers : res error (list User)) : sync sync_answer :=
  answer_sync "Failed to perform full sync" (FullSync sync_config now SyncUsers).

(** A time that was parsed has the offset of its text; formatting prints the
    clock at that offset, and the layout adds the letter Z. *)
Context (Parse : string -> option (time * Z)) (clock : time -> string).
Definition changes_filter (since : time * Z) : string :=
  "(&(objectClass=inetOrgPerson)(modifyTimestamp>=" +:+ clock (since.1 + since.2) +:+ "Z))".

Definition handleIncrementalSync (SearchUsers : string -> res error (list User)) (sinceStr : string) : sync sync_answer :=
  let run since := answer_sync "Failed to perform incremental sync" (IncrementalSync sync_config now (SearchUsers (changes_filter since))) in
  if bool_decide (sinceStr = "") then run (now - 24 * Hour, 0)
  else match Parse sinceStr with
       | None => mret (mkSyncAnswer 400 (inl "Invalid 'since' parameter"))
       | Some since => run since
       end.

Definition handleGetStatus : sync sync_answer := stats ← GetLastSyncStatus; mret (mkSyncAnswer 200 (inr stats)).
End Handlers.

(** ** The pauses of the retries *)
Lemma int64_mod x y : x mod 2 ^ 64 = y mod 2 ^ 64 -> int64 x = int64 y.
Proof. intros Hxy. unfold int64. rewrite (Z.add_mod x), (Z.add_mod y), Hxy by lia. done. Qed.
Lemma int64_int64_mul x k : int64 (int64 x * k) = int64 (x * k).
Proof.
  apply int64_mod. rewrite (Z.mul_mod (int64 x)), (Z.mul_mod x) by lia. do 2 f_equal. unfold int64.
  rewrite Zminus_mod_idemp_l. f_equal. lia.
Qed.

Fixpoint backoffs (n : nat) (backoff : Z) : list Z :=
  match n with O => [] | S n => backoff :: backoffs n (int64 (backoff * 2)) end.

Lemma backoffs_lookup n : forall i b, (i < n)%nat -> - 2 ^ 63 <= b < 2 ^ 63 -> backoffs n b !! i = Some (int64 (2 ^ Z.of_nat i * b)).
Proof.
  induction n as [|n IH]; intros [|i] b Hi Hb; cbn [backoffs]; [lia..| |].
  - cbn. by rewrite Z.mul_1_l, int64_small.
  - cbn [lookup list_lookup]. change (backoffs n (int64 (b * 2)) !! i = Some (int64 (2 ^ Z.of_nat (S i) * b))).
    rewrite IH by (lia || apply int64_range). f_equal. rewrite Z.mul_comm, int64_int64_mul. f_equal.
    rewrite Nat2Z.inj_succ, Z.pow_succ_r by lia. lia.
Qed.

(** Half a second doubles until the thirty-sixth pause, which is negative. *)
Example backoff_overflows :
  backoffs 60 (Second / 2) !! 34%nat = Some 8589934592000000000 /\ backoffs 60 (Second / 2) !! 35%nat = Some (- 1266874889709551616) /\
  backoffs 60 (Second / 2) !! 56%nat = Some 0.
Proof. vm_compute. done. Qed.

Section SchedulerFacts.
Context {W : Type} (config : SchedulerConfig) (sync : prog W error unit).
Implicit Types w : W.

(** [n] synchronisations that fail, one after the other. *)
Inductive failing : nat -> W -> W -> Prop :=
  | failing_0 w : failing 0 w w
  | failing_S n w err w1 w2 : sync w = (Err err, w1) -> failing n w1 w2 -> failing (S n) w w2.

Lemma retry_run k n b w w1 : failing k w w1 -> (k <= n)%nat ->
  exists b', scheduleRetry n b sync w =
    (rest ← scheduleRetry (n - k) b' sync; mret (backoffs k b ++ rest)) w1 /\ forall j, backoffs (k + j) b = backoffs k b ++ backoffs j b'.
Proof.
  intros Hf. revert n b. induction Hf as [w|k w err w1 w2 Hs _ IH]; intros n b Hn.
  - exists b. split; [|done]. rewrite Nat.sub_0_r. unfold mbind, prog_bind. by destruct (scheduleRetry n b sync w) as [[] ?].
  - destruct n as [|n]; [lia|]. destruct (IH n (int64 (b * 2)) ltac:(lia)) as (b' & Hr & Hb). exists b'. split; [|intros j; cbn; by rewrite Hb].
    cbn [scheduleRetry]. assert (Ht : try sync w = (Ok (inl err), w1)) by by (unfold try; rewrite Hs).
    rewrite (prog_bind_run _ _ _ _ _ Ht). cbn [Nat.sub]. unfold mbind, prog_bind. unfold mbind, prog_bind in Hr. rewrite Hr.
    by destruct (scheduleRetry (n - k) b' sync w2) as [[] ?].
Qed.

(** The scheduled synchronisation is tried again until it succeeds, at most the
    configured number of times, each pause twice the one before as far as the
    width of a duration goes. *)
Theorem retries_until_success k w w0 err w1 w2 :
  sync w = (Err err, w0) -> EnableAutoRetry config = true -> - 2 ^ 63 <= RetryBackoff config < 2 ^ 63 -> failing k w0 w1 ->
  ((k < Z.to_nat (MaxRetries config))%nat -> sync w1 = (Ok (), w2) ->
     scheduled_full_sync config sync w = (Ok (backoffs (S k) (RetryBackoff config)), w2)) /\
  (k = Z.to_nat (MaxRetries config) -> scheduled_full_sync config sync w = (Ok (backoffs k (RetryBackoff config)), w1)) /\
  (forall i, (i < k)%nat -> backoffs k (RetryBackoff config) !! i = Some (int64 (2 ^ Z.of_nat i * RetryBackoff config))).
Proof.
  intros Hs Ha Hb Hf. assert (Ht : try sync w = (Ok (inl err), w0)) by by (unfold try; rewrite Hs).
  unfold scheduled_full_sync. rewrite (prog_bind_run _ _ _ _ _ Ht), Ha. split; [|split; [|intros; by apply backoffs_lookup]].
  - intros Hk Hok. destruct (retry_run k _ (RetryBackoff config) _ _ Hf (Nat.lt_le_incl _ _ Hk)) as (b' & -> & Hbs).
    destruct (Z.to_nat (MaxRetries config) - k)%nat as [|m] eqn:Hm; [lia|].
    assert (Hlast : scheduleRetry (S m) b' sync w1 = (Ok [b'], w2)).
    { cbn [scheduleRetry]. assert (Hi : try sync w1 = (Ok (inr ()), w2)) by by (unfold try; rewrite Hok).
      by rewrite (prog_bind_run _ _ _ _ _ Hi). }
    rewrite (prog_bind_run _ _ _ _ _ Hlast). specialize (Hbs 1%nat). rewrite Nat.add_1_r in Hbs. by rewrite Hbs.
  - intros ->. destruct (retry_run _ _ (RetryBackoff config) _ _ Hf (le_n _)) as (b' & -> & _). rewrite Nat.sub_diag.
    cbn [scheduleRetry]. unfold mbind, prog_bind, mret, prog_ret. by rewrite app_nil_r.
Qed.

(** While the searches succeed the listener asks the directory again and again
    without any pause, until it is cancelled. *)
Lemma listener_spins (next : W -> W) cancelled k w : (forall w, sync w = (Ok (), next w)) ->
  forall round, (forall i, (i < k)%nat -> cancelled (round + i)%nat = false) ->
  listener config sync k cancelled round w = (Diverge, Nat.iter k next w) /\
  (cancelled (round + k)%nat = true -> listener config sync (S k) cancelled round w = (Ok [], Nat.iter (S k) next w)).
Proof.
  intros Hs. assert (Ht : forall v, try sync v = (Ok (inr ()), next v)) by (intros v; by unfold try; rewrite Hs).
  revert w. induction k as [|k IH]; intros w round Hc.
  - split; [done|]. rewrite Nat.add_0_r. intros Hk. cbn [listener]. by rewrite (prog_bind_run _ _ _ _ _ (Ht w)), Hk.
  - assert (H0 : cancelled round = false) by (rewrite <- (Nat.add_0_r round); apply Hc; lia).
    destruct (IH (next w) (S round)) as [Hd Hok]; [intros i Hi; rewrite Nat.add_succ_comm; apply Hc; lia|].
    rewrite !Nat.iter_succ_r. split.
    + cbn [listener]. rewrite (prog_bind_run _ _ _ _ _ (Ht w)), H0. unfold mbind, prog_bind. by rewrite Hd.
    + intros Hk. rewrite Nat.add_succ_r in Hk. specialize (Hok Hk). rewrite Nat.iter_succ_r in Hok.
      change (listener config sync (S (S k)) cancelled round w = (Ok [], Nat.iter k next (next (next w)))).
      change (listener config sync (S (S k)) cancelled round) with
        (done ← try sync; let pause := match done with inl _ => [RetryBackoff config] | inr _ => [] end in
         if cancelled round then mret pause else rest ← listener config sync (S k) cancelled (S round); mret (pause ++ rest)).
      rewrite (prog_bind_run _ _ _ _ _ (Ht w)), H0. by rewrite (prog_bind_run _ _ _ _ _ Hok).
Qed.
End SchedulerFacts.

(** ** The scans of the lifecycle job *)
Section JobFacts.
Context `{CaseFolding} `{UserService W} (format_other : any -> string) (format_value : value -> string).
Context (config : LifecycleJobConfig) (fuel : nat).
Notation start := (job_Start format_other format_value config fuel).

(** The ticks before the job was cancelled *)
Fixpoint ticks (wakes : list wake) : list time :=
  match wakes with
  | [] | Cancelled :: _ => []
  | Tick now :: wakes => now :: ticks wakes
  end.

(** One scan at once and one at each tick until it is cancelled; disabled, none;
    and without a positive interval a panic, which is the process's, since
    nothing recovers it in the goroutine of the job. *)
Lemma job_scans enabled interval started wakes w :
  start enabled interval started wakes w =
    if enabled then
      if bool_decide (interval <= 0) then (Panic, w)
      else for_each (fun now => Run format_other format_value config now fuel) (started :: ticks wakes) w
    else (Ok (), w).
Proof.
  unfold job_Start. destruct enabled; [|done]. cbn [negb]. case_bool_decide; [done|]. cbn [for_each].
  apply prog_bind_ext. intros _ w'. revert w'.
  induction wakes as [|[now|] wakes IH]; intros w'; [done| |done]. cbn [job_loop ticks for_each].
  apply prog_bind_ext. intros _ w''. apply IH.
Qed.

(** After it was cancelled nothing is scanned. *)
Lemma job_cancelled enabled interval started l l' w :
  start enabled interval started (l ++ Cancelled :: l') w = start enabled interval started l w.
Proof.
  rewrite !job_scans. assert (Ht : ticks (l ++ Cancelled :: l') = ticks l); [|by rewrite Ht].
  induction l as [|[now|] l IH]; [done| |done]. cbn. by rewrite IH.
Qed.
End JobFacts.

(** ** The endpoints *)
Section HandlerFacts.
Context `{SyncStore W} (sync_config : LDAPSyncConfig) (now : time).
Implicit Types (w : W) (o : option SyncStats).

(** What is reported is remembered. *)
Lemma finalize_remembers kind stats s r s' : finalizeSync sync_config now kind stats s = (Ok r, s') -> s'.2 = Some r.
Proof.
  unfold finalizeSync. cbv zeta. intros (u & s1 & [= _ <-] & Hrest)%prog_bind_ok.
  apply prog_bind_ok in Hrest as (x & s2 & Ht & [= <- <-]). unfold try, on_store, zoom in Ht. cbn [fst snd] in Ht.
  destruct (st_RecordAdminAction _ _ _ _ _) as [[] ?]; by injection Ht as _ <-.
Qed.

Lemma full_remembers users s r s' : FullSync sync_config now users s = (Ok r, s') -> s'.2 = Some r.
Proof.
  unfold FullSync. destruct users as [users|err| |]; [|done..]. intros (listed & s1 & _ & Hrest)%prog_bind_ok.
  destruct listed as [err|[localUsers total]]; [done|]. apply prog_bind_ok in Hrest as (x & s2 & _ & Hrest).
  apply prog_bind_ok in Hrest as (y & s3 & _ & Hrest). by apply finalize_remembers in Hrest.
Qed.
Lemma incremental_remembers users s r s' : IncrementalSync sync_config now users s = (Ok r, s') -> s'.2 = Some r.
Proof.
  unfold IncrementalSync. destruct users as [users|err| |]; [|done..]. intros (x & s1 & _ & Hrest)%prog_bind_ok.
  by apply finalize_remembers in Hrest.
Qed.

(** A synchronisation that is answered with its statistics is the one that the
    status reports next. *)
Theorem status_reports_last (Parse : string -> option (time * Z)) clock search users since s stats s' :
  handleFullSync sync_config now users s = (Ok (mkSyncAnswer 200 (inr stats)), s') \/
  handleIncrementalSync sync_config now Parse clock search since s = (Ok (mkSyncAnswer 200 (inr stats)), s') ->
  handleGetStatus s' = (Ok (mkSyncAnswer 200 (inr stats)), s').
Proof.
  assert (Hanswer : forall message m, (forall r t, m s = (Ok r, t) -> t.2 = Some r) ->
    answer_sync (W:=W) message m s = (Ok (mkSyncAnswer 200 (inr stats)), s') -> s'.2 = Some stats).
  { intros message m Hm (x & s1 & Ht & Hx)%prog_bind_ok. unfold try in Ht.
    destruct (m s) as [[r|err| |] t] eqn:Hr; try done; injection Ht as <- <-; [|done]. injection Hx as <- <-. by apply Hm. }
  intros Hrun. assert (Ho : s'.2 = Some stats).
  { destruct Hrun as [Hrun|Hrun].
    - eapply Hanswer; [|exact Hrun]. intros r t. apply full_remembers.
    - unfold handleIncrementalSync in Hrun. case_bool_decide.
      + eapply Hanswer; [|exact Hrun]. intros r t. apply incremental_remembers.
      + destruct (Parse since); [|done]. eapply Hanswer; [|exact Hrun]. intros r t. apply incremental_remembers. }
  unfold handleGetStatus, GetLastSyncStatus. rewrite prog_assoc, prog_get_bind, Ho. done.
Qed.

(** A directory that cannot be read leaves everything, the status too, as it was. *)
Lemma unreadable_directory err s :
  handleFullSync sync_config now (Err err) s = (Ok (mkSyncAnswer 500 (inl "Failed to perform full sync")), s).
Proof. done. Qed.
Lemma bad_since (Parse : string -> option (time * Z)) clock search since s : since <> "" -> Parse since = None ->
  handleIncrementalSync sync_config now Parse clock search since s = (Ok (mkSyncAnswer 400 (inl "Invalid 'since' parameter")), s).
Proof. intros Hs Hp. unfold handleIncrementalSync. by rewrite bool_decide_eq_false_2, Hp. Qed.

(** A moment given with an offset asks for the changes since another: the
    directory gets the same filter as for the moment that is later by the
    offset. *)
Lemma offset_shifts clock t offset : changes_filter clock (t, offset) = changes_filter clock (t + offset, 0).
Proof. unfold changes_filter. cbn. by rewrite Z.add_0_r. Qed.
End HandlerFacts.
