(* ===== verification/LdapService.v ===== *)
(** * The LDAP service (internal/protocol/ldap/server.go)

    Starting and stopping the server, the goroutine that accepts connections and
    those that serve them, as a step relation whose steps are labelled with the
    connection that moves; what a connection answers is [respond] of Ldap.v.
    What the kernel gives is part of the steps. *)

From S2P Require Import Prelude Types GoStd GoText Ldap.

Local Open Scope Z_scope.

(** ** The state

    Listeners are numbered in the order they were opened; a goroutine that
    accepts remembers the listener it waits at. *)
Inductive accepting := Ready | Waiting (listener : option nat) | Pausing | Gone.
#[global] Instance accepting_eq_dec : EqDecision accepting.
Proof. solve_decision. Defined.

Record ldap_service (W : Type) := mkLdapService {
  ld_quit : bool;
  ld_listeners : list bool;
  ld_listener : option nat;
  ld_loops : list accepting;
  ld_conns : list bool;
  ld_world : W;
  ld_crashed : bool
}.
Arguments mkLdapService {W}.
Arguments ld_quit {W}.
Arguments ld_listeners {W}.
Arguments ld_listener {W}.
Arguments ld_loops {W}.
Arguments ld_conns {W}.
Arguments ld_world {W}.
Arguments ld_crashed {W}.

Section Service.
Context {W : Type}.
Notation service := (ldap_service W).
Definition ldap_NewServer (w : W) : service := mkLdapService false [] None [] [] w false.

Definition set_listeners (l : list bool) (cur : option nat) (s : service) : service :=
  mkLdapService (ld_quit s) l cur (ld_loops s) (ld_conns s) (ld_world s) (ld_crashed s).
Definition set_quit (s : service) : service :=
  mkLdapService true (ld_listeners s) (ld_listener s) (ld_loops s) (ld_conns s) (ld_world s) (ld_crashed s).
Definition set_loop (l : list accepting) (s : service) : service :=
  mkLdapService (ld_quit s) (ld_listeners s) (ld_listener s) l (ld_conns s) (ld_world s) (ld_crashed s).
Definition set_conn (l : list bool) (w : W) (crashed : bool) (s : service) : service :=
  mkLdapService (ld_quit s) (ld_listeners s) (ld_listener s) (ld_loops s) l w (ld_crashed s || crashed).

Definition listening (s : service) (l : option nat) : bool :=
  match l with Some k => default false (ld_listeners s !! k) | None => false end.

(** [Listen], with or without TLS, may fail; then nothing is started. *)
Definition ldap_Start (listens : error + unit) : prog service error unit :=
  match listens with
  | inl err => throw err
  | inr _ =>
      modify (fun s => set_loop (ld_loops s ++ [Ready])
                (set_listeners (ld_listeners s ++ [true]) (Some (length (ld_listeners s))) s))
  end.

(** The channel of the server is made once, by [NewServer]: closing it again
    panics.  What remains is to wait. *)
Definition ldap_Stop : prog service error unit :=
  s ← get;
  if ld_quit s then lift Panic
  else
    put (set_listeners (match ld_listener s with Some k => <[k := false]> (ld_listeners s) | None => ld_listeners s end)
           (ld_listener s) (set_quit s)).
Definition stopped (s : service) : Prop :=
  Forall (fun l => l = Gone) (ld_loops s) /\ Forall (fun c => c = false) (ld_conns s).
End Service.

(** ** The goroutines *)
Section Steps.
Context `{CaseFolding} `{Directory W} (ord : map_order) (baseDN : string).
Context (ParseDN : string -> option (list (list string))) (error_text : error -> string).
Notation service := (ldap_service W).

(** After a packet the connection goes on when there was an answer and it could
    be written. *)
Definition goes_on (r : res error (option (list Packet))) (written : bool) : bool :=
  match r with Ok (Some _) => written | _ => false end.

(** The label is the connection that moves, if one does. *)
Inductive ldap_step : option nat -> service -> service -> Prop :=
  | step_accept s i : ld_crashed s = false -> ld_loops s !! i = Some Ready ->
      ldap_step None s (set_loop (<[i := Waiting (ld_listener s)]> (ld_loops s)) s)
  | step_connected s i l : ld_crashed s = false -> ld_loops s !! i = Some (Waiting l) -> listening s l = true ->
      ldap_step None s (set_conn (ld_conns s ++ [true]) (ld_world s) false (set_loop (<[i := Ready]> (ld_loops s)) s))
  (** Accepting fails, always so at a listener that was closed. *)
  | step_failed s i l : ld_crashed s = false -> ld_loops s !! i = Some (Waiting l) ->
      ldap_step None s (set_loop (<[i := if ld_quit s then Gone else Pausing]> (ld_loops s)) s)
  | step_wake s i : ld_crashed s = false -> ld_loops s !! i = Some Pausing ->
      ldap_step None s (set_loop (<[i := Ready]> (ld_loops s)) s)
  (** The client sends a packet, or ends the connection. *)
  | step_packet s j packet r w written : ld_crashed s = false -> ld_conns s !! j = Some true ->
      respond ord baseDN ParseDN error_text packet (ld_world s) = (r, w) -> r <> Diverge ->
      ldap_step (Some j) s (set_conn (<[j := goes_on r written]> (ld_conns s)) w
        (match r with Panic => true | _ => false end) s)
  | step_hangup s j : ld_crashed s = false -> ld_conns s !! j = Some true ->
      ldap_step (Some j) s (set_conn (<[j := false]> (ld_conns s)) (ld_world s) false s).

Inductive ldap_run : list (option nat) -> service -> service -> Prop :=
  | run_nil s : ldap_run [] s s
  | run_cons l ls s s1 s2 : ldap_step l s s1 -> ldap_run ls s1 s2 -> ldap_run (l :: ls) s s2.
End Steps.

(** ** The life of a server *)
Section Life.
Context `{CaseFolding} `{Directory W} (ord : map_order) (baseDN : string).
Context (ParseDN : string -> option (list (list string))) (error_text : error -> string).
Notation service := (ldap_service W).
Notation step := (ldap_step ord baseDN ParseDN error_text).
Notation run := (ldap_run ord baseDN ParseDN error_text).
Implicit Types s : service.

(** A server that was started once: one listener, one goroutine at it. *)
Definition up s : Prop :=
  ld_quit s = false /\ ld_listeners s = [true] /\ ld_listener s = Some 0%nat /\
  exists a, ld_loops s = [a] /\ a <> Gone /\ (forall l, a = Waiting l -> l = Some 0%nat).
(** After the stop. *)
Definition closing s : Prop :=
  ld_quit s = true /\ ld_listeners s = [false] /\ ld_listener s = Some 0%nat /\
  exists a, ld_loops s = [a] /\ (forall l, a = Waiting l -> l = Some 0%nat).

Lemma starts_up (w : W) : exists s, ldap_Start (inr ()) (ldap_NewServer w) = (Ok (), s) /\ up s /\ ld_conns s = [] /\ ld_crashed s = false.
Proof. eexists. split; [reflexivity|]. split; [|done]. do 3 (split; [done|]). by eexists. Qed.

Lemma up_step l s s' : up s -> step l s s' -> up s'.
Proof.
  intros (Hq & Hl & Hc & a & Ha & Hg & Hw) Hs.
  destruct Hs as [s i _ Hi|s i k _ Hi Hk|s i k _ Hi|s i _ Hi|s j packet r w written _ Hj _ _|s j _ Hj];
    [..|by repeat split; try done; exists a|by repeat split; try done; exists a];
    rewrite Ha in Hi; apply list_lookup_singleton_Some in Hi as [-> ->]; do 3 (split; [done|]);
    cbn; rewrite Ha; eexists; (split; [reflexivity|]).
  - split; [done|]. by intros l [= <-].
  - by split.
  - by rewrite Hq.
  - by split.
Qed.

Lemma closes s : up s -> exists s', ldap_Stop s = (Ok (), s') /\ closing s' /\ ld_conns s' = ld_conns s /\ ld_crashed s' = ld_crashed s.
Proof.
  intros (Hq & Hl & Hc & a & Ha & _ & Hw). unfold ldap_Stop. rewrite prog_get_bind, Hq, Hl, Hc. eexists. split; [reflexivity|].
  split; [|done]. do 3 (split; [done|]). by exists a.
Qed.

(** How far the goroutine that accepts is from its end *)
Definition distance (a : accepting) : nat := match a with Pausing => 3 | Ready => 2 | Waiting _ => 1 | Gone => 0 end.
Definition distances s : nat := sum_list_with distance (ld_loops s).
Definition own (l : option nat) : nat := match l with None => 1 | Some _ => 0 end.

Lemma closing_step l s s' : closing s -> step l s s' ->
  closing s' /\ length (ld_conns s') = length (ld_conns s) /\ (own l + distances s' <= distances s)%nat /\
  (forall j, l <> Some j -> ld_conns s' !! j = ld_conns s !! j).
Proof.
  intros (Hq & Hl & Hc & a & Ha & Hw) Hs. unfold distances.
  destruct Hs as [s i _ Hi|s i k _ Hi Hk|s i k _ Hi|s i _ Hi|s j packet r w written _ Hj _ _|s j _ Hj].
  1-4: rewrite Ha in Hi; apply list_lookup_singleton_Some in Hi as [-> ->].
  - split; [|by cbn; rewrite Ha]. do 3 (split; [done|]). cbn. rewrite Ha. eexists. split; [reflexivity|]. by intros l [= <-].
  - rewrite (Hw k eq_refl) in Hk. unfold listening in Hk. by rewrite Hl in Hk.
  - split; [|by cbn; rewrite Ha, Hq]. do 3 (split; [done|]). cbn. rewrite Ha, Hq. by eexists.
  - split; [|by cbn; rewrite Ha]. do 3 (split; [done|]). cbn. rewrite Ha. by eexists.
  - split; [do 3 (split; [done|]); by exists a|]. cbn. rewrite length_insert. split; [done|]. split; [lia|].
    intros k Hk. rewrite list_lookup_insert_ne; [done|congruence].
  - split; [do 3 (split; [done|]); by exists a|]. cbn. rewrite length_insert. split; [done|]. split; [lia|].
    intros k Hk. rewrite list_lookup_insert_ne; [done|congruence].
Qed.

Lemma closing_run ls s s' : closing s -> run ls s s' ->
  closing s' /\ length (ld_conns s') = length (ld_conns s) /\ (sum_list_with own ls + distances s' <= distances s)%nat /\
  (forall j, Some j ∉ ls -> ld_conns s' !! j = ld_conns s !! j).
Proof.
  intros Hc Hr. induction Hr as [s|l ls s s1 s2 Hs _ IH]; [by split_and!|].
  destruct (closing_step l s s1 Hc Hs) as (Hc1 & Hn1 & Hd1 & Hk1). destruct (IH Hc1) as (Hc2 & Hn2 & Hd2 & Hk2).
  split; [done|]. split; [congruence|]. split; [cbn; lia|]. intros j Hj. rewrite Hk2, Hk1; [done|..]; set_solver.
Qed.

(** Until the server has stopped something can move. *)
Lemma closing_progress s : closing s -> ld_crashed s = false -> ~ stopped s -> exists l s', step l s s'.
Proof.
  intros (Hq & Hl & Hc & a & Ha & Hw) Hcr Hn. destruct (decide (Forall (fun c => c = false) (ld_conns s))) as [Hf|Hf].
  - assert (Hg : a <> Gone) by (intros ->; apply Hn; split; [rewrite Ha; by constructor|done]).
    assert (Hi : ld_loops s !! 0%nat = Some a) by by rewrite Ha. exists None. destruct a as [|k| |]; [..|done].
    + eexists. by apply (step_accept ord baseDN ParseDN error_text s 0).
    + eexists. by apply (step_failed ord baseDN ParseDN error_text s 0 k).
    + eexists. by apply (step_wake ord baseDN ParseDN error_text s 0).
  - apply not_Forall_Exists in Hf; [|intros c; apply _]. apply Exists_exists in Hf as (c & Hin & Hne).
    apply list_elem_of_lookup in Hin as [j Hj]. exists (Some j). eexists. apply step_hangup; [done|]. destruct c; [done|by destruct Hne].
Qed.

(** [Stop] waits for the clients: nobody new is let in, the goroutine that
    accepts ends within three moves, but a connection whose client neither ends
    it nor sends a packet is served for ever and [Stop] does not come back; once
    nothing can move any more, all have ended. *)
Theorem stop_waits_for_clients (w : W) s0 s ls0 : ldap_Start (inr ()) (ldap_NewServer w) = (Ok (), s0) -> run ls0 s0 s ->
  exists s1, ldap_Stop s = (Ok (), s1) /\ ld_conns s1 = ld_conns s /\ forall ls s2, run ls s1 s2 ->
    length (ld_conns s2) = length (ld_conns s) /\ (sum_list_with own ls <= 3)%nat /\
    (forall j, ld_conns s !! j = Some true -> Some j ∉ ls -> ~ stopped s2) /\
    (ld_crashed s2 = false -> (forall l s3, ~ step l s2 s3) -> stopped s2).
Proof.
  intros Hstart Hrun. destruct (starts_up w) as (s0' & Hs0 & Hup & _). rewrite Hstart in Hs0. injection Hs0 as <-.
  assert (Hs : up s) by (clear -Hrun Hup; induction Hrun as [|l ls x y z Hxy _ IH]; [done|]; apply IH; by apply (up_step l x)).
  destruct (closes s Hs) as (s1 & Hstop & Hc1 & Hconn & _). exists s1. split; [done|]. split; [done|]. intros ls s2 Hr.
  destruct (closing_run ls s1 s2 Hc1 Hr) as (Hc2 & Hn & Hd & Hk). rewrite Hconn in *. split; [done|]. split; [|split].
  - destruct Hc1 as (_ & _ & _ & a & Ha & _). unfold distances in Hd. rewrite Ha in Hd. cbn in Hd. destruct a; cbn in Hd; lia.
  - intros j Hj Hnot [_ Hf]. rewrite <- (Hk j Hnot) in Hj. by apply (Forall_lookup_1 _ _ _ _ Hf) in Hj.
  - intros Hcr Hstuck. destruct (decide (Forall (fun l => l = Gone) (ld_loops s2) /\ Forall (fun c => c = false) (ld_conns s2))) as [Hd'|Hd'];
      [done|]. destruct (closing_progress s2 Hc2 Hcr Hd') as (l & s3 & Hx). by destruct (Hstuck l s3).
Qed.

(** A second [Stop] panics, whatever came between. *)
Lemma stop_twice s : ld_quit s = true -> (ldap_Stop s).1 = Panic.
Proof. intros Hq. unfold ldap_Stop. by rewrite prog_get_bind, Hq. Qed.

(** One packet that a handler panics on - here a bind whose version is no
    number - ends the process, for every client. *)
Definition hostile_bind : Packet :=
  ber_Encode ClassUniversal TagSequence "" [ber_NewInteger TagInteger 1 "";
    ber_Encode ClassApplication ApplicationBindRequest "" [ber_NewString "3" ""; ber_NewString "" ""; ber_NewString "" ""]].

Lemma hostile_bind_ends s j : ld_crashed s = false -> ld_conns s !! j = Some true ->
  exists s', step (Some j) s s' /\ ld_crashed s' = true /\ forall l s'', ~ step l s' s''.
Proof.
  intros Hc Hj. eexists. split; [|split].
  - apply (step_packet ord baseDN ParseDN error_text s j hostile_bind Panic (ld_world s) true Hc Hj); [|done]. reflexivity.
  - cbn. by rewrite orb_true_r.
  - intros l s'' Hs. assert (Ht : ld_crashed (set_conn (<[j:=false]> (ld_conns s)) (ld_world s) true s) = true) by (cbn; by rewrite orb_true_r).
    revert Hs. cbn [goes_on]. generalize dependent (set_conn (<[j:=false]> (ld_conns s)) (ld_world s) true s). intros s1 Ht Hs.
    destruct Hs; congruence.
Qed.
End Life.
