(* ===== verification/Federation.v ===== *)
(** * Federation (pkg/auth/engine.go, pkg/auth/protocols/saml.go, oidc.go,
    internal/protocols/saml, handlers/oidc.go, oauth.go, saml.go)

    The engine that sends a request to the plugin of its protocol, the SAML
    adapter, the SAML service over its library, and what the server publishes of
    OpenID Connect. *)

From S2P Require Import Prelude Types GoStd GoText MemIdentity IdentityService Redis AuthService AuthApi OAuth Gateway Plugins.

Local Open Scope Z_scope.

(** ** The engine (pkg/auth/engine.go) *)
Definition ProtocolSAML : string := "saml".
Definition ProtocolOAuth : string := "oauth2".
Definition ProtocolOIDC : string := "oidc".
Record auth_request := mkAuthRequest { rq_Protocol : string; rq_Credentials : gmap string string }.

Definition getPluginNameForProtocol (protocol : string) : string :=
  if bool_decide (protocol = ProtocolOAuth) then "oauth2_adapter"
  else if bool_decide (protocol = ProtocolSAML) then "saml_adapter"
  else if bool_decide (protocol = ProtocolOIDC) then "oidc_adapter" else "default_password_connector".

Section Engine.
(** [as_adapter]: the plugin as a protocol adapter, if it is one; an adapter
    answers with a pointer, which may be nil. *)
Context {P W A : Type} `{IPlugin P W} (as_adapter : P -> option (auth_request -> prog W error (option A))).
Notation pl X := (prog (plugin_state P W) error X).

Definition engine_fail {X} (code : string) (cause : error) : pl X :=
  modify (fun s => mkPluginState (ps_world s) (ps_factories s) (ps_active s) (WithCause (ps_errors s) code cause)) ;;
  throw (Sentinel code).

Definition engine_Authenticate (request : auth_request) : pl A :=
  let pluginName := getPluginNameForProtocol (rq_Protocol request) in
  found ← try (GetPlugin pluginName);
  match found with
  | inl err => engine_fail ErrPluginNotFound err
  | inr plugin =>
      match as_adapter plugin with
      | None => engine_fail ErrPluginLoadFailed (Errorf ("plugin '" +:+ pluginName +:+ "' does not implement IProtocolAdapter"))
      | Some handle =>
          answer ← try (on_plugin (handle request));
          match answer with
          | inl (Sentinel code) => throw (Sentinel code)
          | inl err => engine_fail ErrInternal err
          | inr None => lift Panic
          | inr (Some response) => mret response
          end
      end
  end.
End Engine.

(** ** The SAML adapter (pkg/auth/protocols/saml.go)

    Without its logger, which [Initialize] sets, a request that is one panics. *)
Definition saml_handleSSORequest {A} (samlRequestData : string) : prog errvars error A :=
  modify (fun vs => WithDetails vs ErrInternal {[ "status" := "not implemented" ]}) ;; throw (Sentinel ErrInternal).
Definition saml_HandleAuthRequest {A} (has_logger : bool) (request : auth_request) : prog errvars error A :=
  match rq_Credentials request !! "SAMLRequest" with
  | None => modify (fun vs => WithDetails vs ErrBadRequest {[ "error" := "missing SAMLRequest" ]}) ;; throw (Sentinel ErrBadRequest)
  | Some samlRequestData => if has_logger then saml_handleSSORequest samlRequestData else lift Panic
  end.

(** ** The SAML service (internal/protocols/saml/service.go) *)
Record EntityDescriptor := mkEntityDescriptor { ed_EntityID : string; ed_AssertionConsumerServices : list (string * string * Z) }.
Record saml_session := mkSamlSession {
  ss_ID : string;
  ss_NameID : string;
  ss_NameIDFormat : string;
  ss_UserEmail : string;
  ss_UserName : string;
  ss_Groups : list string
}.
Record saml_service := mkSamlService { SSOURL : string; MetadataURL : string }.
Definition HTTPPostBinding : string := "urn:oasis:names:tc:SAML:2.0:bindings:HTTP-POST".
Definition acsURL : string := "http://localhost:3000/v1/auth/saml/acs".

(** [url.Parse] of the two addresses *)
Definition saml_NewService (url_Parse : string -> res error string) (idpIssuerURL : string) : res error saml_service :=
  ssoURL ← url_Parse (idpIssuerURL +:+ "/sso");
  metadataURL ← url_Parse idpIssuerURL;
  mret (mkSamlService ssoURL metadataURL).

Definition GetServiceProvider (serviceProviderID : string) : res error EntityDescriptor :=
  Ok (mkEntityDescriptor serviceProviderID [(HTTPPostBinding, acsURL, 1)]).
Definition saml_GetSession (uuid : string) : option saml_session :=
  Some (mkSamlSession uuid "test.user@example.com" "urn:oasis:names:tc:SAML:1.1:nameid-format:emailAddress"
    "test.user@example.com" "Test User" ["Admins"; "Developers"]).

(** The identity provider of the library: it reads the request, asks for the
    service provider and for the session, and writes an assertion or none. *)
Record saml_assertion := mkSamlAssertion { as_NameID : string; as_Groups : list string; as_Destination : string }.
Class SamlIdP (Req Resp : Type) := {
  ServeSSO : (string -> res error EntityDescriptor) -> (Req -> option saml_session) -> Req -> Resp;
  assertion_of : Resp -> option saml_assertion;
  issuer_of : Req -> string;
  (** The address the answer is to go to, of a request that is in order *)
  asks_for : Req -> option string
}.
Definition locations (sp : EntityDescriptor) : list string := (fun x : string * string * Z => x.1.2) <$> ed_AssertionConsumerServices sp.
Class SamlIdPLaws (Req Resp : Type) `{SamlIdP Req Resp} := {
  sso_asserts provider session req a : assertion_of (ServeSSO provider session req) = Some a ->
    exists sp s, provider (issuer_of req) = Ok sp /\ session req = Some s /\ as_NameID a = ss_NameID s /\
      as_Groups a = ss_Groups s /\ as_Destination a ∈ locations sp;
  sso_answers provider session req sp s url : provider (issuer_of req) = Ok sp -> asks_for req = Some url -> url ∈ locations sp ->
    session req = Some s -> is_Some (assertion_of (ServeSSO provider session req))
}.

Definition saml_HandleSSO `{SamlIdP Req Resp} (uuid : string) (req : Req) : Resp :=
  ServeSSO GetServiceProvider (fun _ => saml_GetSession uuid) req.

(** ** OpenID Connect (pkg/auth/protocols/oidc.go)

    The adapter has an adapter for OAuth of its own, which nobody gives a
    repository. *)
Record oidc_adapter := mkOidcAdapter {
  oi_logger : bool;
  oi_oauth : adapter;
  oi_privateKey : option string;
  oi_jwtSecret : string
}.
Definition NewOIDCAdapter : oidc_adapter := mkOidcAdapter false (mkAdapter false None "" None) None "".

Section OidcAdapter.
(** The PEM reader, and whether the Redis of the configuration can be reached. *)
Context (ParsePEM : string -> option string) (reachable : bool).
Definition oauth_Initialize (config : ConnectorConfig) (a : adapter) : adapter :=
  mkAdapter true (ad_apps a) (if reachable then cc_JWTSecret config else ad_jwtSecret a) (ad_idKey a).
(** The outcome for the adapter of OAuth is dropped. *)
Definition oidc_Initialize (config : ConnectorConfig) : prog (oidc_adapter * errvars) error unit :=
  modify (fun s => (mkOidcAdapter true (oauth_Initialize config (oi_oauth s.1)) (oi_privateKey s.1) (oi_jwtSecret s.1), s.2)) ;;
  match ParsePEM (cc_PrivateKey config) with
  | None => modify (fun s => (s.1, WithCause s.2 ErrInternal (Errorf "pem"))) ;; throw (Sentinel ErrInternal)
  | Some key => modify (fun s => (mkOidcAdapter (oi_logger s.1) (oi_oauth s.1) (Some key) (cc_JWTSecret config), s.2))
  end.
Definition SetPrivateKey (key : option string) (a : oidc_adapter) : oidc_adapter :=
  mkOidcAdapter (oi_logger a) (oi_oauth a) key (oi_jwtSecret a).
End OidcAdapter.

(** The public key of the key there is; of none the address is taken, which
    panics. *)
Record web_key := mkWebKey { wk_Key : string; wk_KeyID : string; wk_Algorithm : string; wk_Use : string }.
Definition GetJWKS (public : string -> string) (a : oidc_adapter) : res error (list web_key) :=
  match oi_privateKey a with None => Panic | Some key => Ok [mkWebKey (public key) "1" "RS256" "sig"] end.

(** ** The endpoints *)
Inductive oidc_answer := OidcText (status : Z) (text : string) | OidcClaims (claims : gmap string any) | OidcKeys (keys : list web_key)
  | OidcStatus (status : Z).

Definition oidc_discovery (baseURL : string) : gmap string any :=
  <["issuer" := AnyString baseURL]>
  (<["authorization_endpoint" := AnyString (baseURL +:+ "/oauth/authorize")]>
  (<["token_endpoint" := AnyString (baseURL +:+ "/oauth/token")]>
  (<["userinfo_endpoint" := AnyString (baseURL +:+ "/oauth/userinfo")]>
  (<["jwks_uri" := AnyString (baseURL +:+ "/.well-known/jwks.json")]>
  (<["response_types_supported" := AnyStrings ["code"]]>
  (<["subject_types_supported" := AnyStrings ["public"]]>
  (<["id_token_signing_alg_values_supported" := AnyStrings ["RS256"]]>
  (<["scopes_supported" := AnyStrings ["openid"; "profile"; "email"]]>
  (<["token_endpoint_auth_methods_supported" := AnyStrings ["client_secret_post"]]>
  (<["claims_supported" := AnyStrings ["sub"; "iss"; "aud"; "exp"; "iat"; "name"; "email"; "email_verified"]]> ∅)))))))))).

Section Endpoints.
Context `{CaseFolding} `{IdentityRepository R} `{Redis C} (a : adapter) (o : oracle).
Notation oa A := (prog (oworld R C) error A).

Definition UserInfo (r : request) : oa oidc_answer :=
  let authHeader := Get (req_Header r) "Authorization" in
  if bool_decide (authHeader = "") then mret (OidcText 401 "Authorization header required")
  else match bearer_token r with
       | None => mret (OidcText 401 "Invalid Authorization header format")
       | Some accessToken =>
           answer ← try (GetUserInfo a o accessToken);
           mret match answer with
                | inl err => OidcText 500 (Error_text err)
                | inr claims => OidcClaims claims
                end
       end.
Definition oidc_Discovery (baseURL : string) : oa oidc_answer := mret (OidcClaims (oidc_discovery baseURL)).
Definition oidc_JWKS (public : string -> string) (oidc : oidc_adapter) : oa oidc_answer :=
  keys ← lift (GetJWKS public oidc); mret (OidcKeys keys).

(** What the server publishes instead (handlers/oauth.go) *)
Definition oauth_Discovery : oa oidc_answer := mret (OidcStatus 501).
Definition oauth_JWKS : oa oidc_answer := mret (OidcStatus 501).
End Endpoints.

(** ** The engine *)
Section EngineFacts.
Context {P W A : Type} `{IPlugin P W} (as_adapter : P -> option (auth_request -> prog W error (option A))).
Implicit Types s : plugin_state P W.
Notation authenticate := (engine_Authenticate as_adapter).

Definition with_cause s code cause : plugin_state P W :=
  mkPluginState (ps_world s) (ps_factories s) (ps_active s) (WithCause (ps_errors s) code cause).

(** Without the plugin of its protocol a request fails, with an error that is
    its own cause: to compare it with any other error does not end. *)
Lemma engine_loops request s : ps_active s !! getPluginNameForProtocol (rq_Protocol request) = None ->
  exists s', authenticate request s = (Err (Sentinel ErrPluginNotFound), s') /\
    forall fuel target, target <> ErrPluginNotFound -> errors_is fuel (ps_errors s') (Sentinel ErrPluginNotFound) target = Diverge.
Proof.
  intros Hn. unfold engine_Authenticate, GetPlugin, try, mbind, prog_bind, get. rewrite Hn. cbn. eexists. split; [done|].
  intros fuel target Ht. apply errors_is_cycle; [|done]. cbn. unfold errvar_of at 1. cbn. by rewrite lookup_insert_eq.
Qed.

(** With it: a plugin that is no adapter fails to load; what the adapter answers
    is the answer, and its errors are those of the program or internal ones. *)
Theorem engine_decides request s plugin :
  ps_active s !! getPluginNameForProtocol (rq_Protocol request) = Some plugin ->
  match as_adapter plugin with
  | None => exists cause, authenticate request s = (Err (Sentinel ErrPluginLoadFailed), with_cause s ErrPluginLoadFailed cause)
  | Some handle =>
      let '(r, s') := on_plugin (handle request) s in
      authenticate request s =
        match r with
        | Ok (Some response) => (Ok response, s')
        | Ok None | Panic => (Panic, s')
        | Err (Sentinel code) => (Err (Sentinel code), s')
        | Err err => (Err (Sentinel ErrInternal), with_cause s' ErrInternal err)
        | Diverge => (Diverge, s')
        end
  end.
Proof.
  intros Hp. unfold engine_Authenticate. assert (Hg : try (GetPlugin (getPluginNameForProtocol (rq_Protocol request))) s = (Ok (inr plugin), s)).
  { unfold try, GetPlugin, mbind, prog_bind, get. by rewrite Hp. }
  rewrite (prog_bind_run _ _ _ _ _ Hg). destruct (as_adapter plugin) as [handle|]; [|by eexists].
  unfold try, mbind, prog_bind. by destruct (on_plugin (handle request) s) as [[[response|]|[]| |] s'].
Qed.
End EngineFacts.

(** A manager starts no plugin (Plugins.v), so that no protocol is served. *)
Lemma nothing_served {P W A} `{IPlugin P W} (as_adapter : P -> option (auth_request -> prog W error (option A))) request (s s' : plugin_state P W) :
  ps_active s = ∅ -> LoadAndStartPlugins s = (Ok (), s') ->
  (engine_Authenticate as_adapter request s').1 = Err (Sentinel ErrPluginNotFound).
Proof.
  intros Hs [= <-]. destruct (engine_loops as_adapter request s) as (s1 & -> & _); [|done]. by rewrite Hs, lookup_empty.
Qed.

(** The SAML adapter answers no request. *)
Lemma saml_adapter_refuses {A} has_logger request vs : is_ok (saml_HandleAuthRequest (A:=A) has_logger request vs).1 = false.
Proof. unfold saml_HandleAuthRequest. by destruct (rq_Credentials request !! "SAMLRequest"), has_logger. Qed.

(** ** The SAML service *)
Section SamlFacts.
Context `{SamlIdPLaws Req Resp}.

(** Whoever asks, and for whichever service provider, is asserted to be the same
    administrator, at one address; and every request in order for that address
    gets such an assertion, without anybody having logged in. *)
Theorem saml_asserts_one_user uuid (req : Req) :
  (forall a, assertion_of (saml_HandleSSO uuid req) = Some a ->
     as_NameID a = "test.user@example.com" /\ as_Groups a = ["Admins"; "Developers"] /\ as_Destination a = acsURL) /\
  (asks_for req = Some acsURL -> is_Some (assertion_of (saml_HandleSSO uuid req))).
Proof.
  unfold saml_HandleSSO. split.
  - intros a Ha. destruct (sso_asserts _ _ _ _ Ha) as (sp & s & [= <-] & [= <-] & Hn & Hg & Hd).
    split; [done|]. split; [done|]. by apply list_elem_of_singleton in Hd.
  - intros Hreq. eapply sso_answers; [reflexivity|exact Hreq| |reflexivity]. by apply list_elem_of_singleton.
Qed.
End SamlFacts.

(** *** A library that keeps the laws: a request is an issuer and an address. *)
#[global] Instance reference_idp : SamlIdP (string * string) (option saml_assertion) := {|
  ServeSSO provider session req :=
    match provider req.1, session req with
    | Ok sp, Some s => if bool_decide (req.2 ∈ locations sp) then Some (mkSamlAssertion (ss_NameID s) (ss_Groups s) req.2) else None
    | _, _ => None
    end;
  assertion_of r := r;
  issuer_of := fst;
  asks_for req := Some req.2
|}.
#[global] Instance reference_idp_laws : SamlIdPLaws (string * string) (option saml_assertion).
Proof.
  refine (Build_SamlIdPLaws _ _ _ _ _).
  - intros provider session req a. cbn. destruct (provider req.1) as [sp| | |], (session req) as [s|]; try done.
    case_bool_decide; [|done]. intros [= <-]. by exists sp, s.
  - intros provider session req sp s url. cbn. intros -> [= <-] Hin ->. rewrite bool_decide_eq_true_2 by done. by eexists.
Qed.

Example stranger_is_admin :
  saml_HandleSSO "u1" ("https://evil.example", acsURL) = Some (mkSamlAssertion "test.user@example.com" ["Admins"; "Developers"] acsURL).
Proof. reflexivity. Qed.

(** ** OpenID Connect *)
Section OidcFacts.
Context `{CaseFolding} `{IdentityRepository R} `{Redis C} (o : oracle).

(** However the adapter is initialised, its own adapter for OAuth has no
    applications, and every authorization through it panics. *)
Inductive oidc_history : oidc_adapter -> Prop :=
  | oidc_new : oidc_history NewOIDCAdapter
  | oidc_initialized ParsePEM reachable config a vs r a' vs' : oidc_history a ->
      oidc_Initialize ParsePEM reachable config (a, vs) = (r, (a', vs')) -> oidc_history a'
  | oidc_keyed a key : oidc_history a -> oidc_history (SetPrivateKey key a).

Lemma oidc_never_authorizes a now code credentials (w : oworld R C) : oidc_history a ->
  (OAuth.HandleAuthRequest (oi_oauth a) o now code credentials w).1 = Panic.
Proof.
  intros Ha. assert (Hn : ad_apps (oi_oauth a) = None).
  { induction Ha as [|ParsePEM reachable config a vs r a' vs' _ IH Hrun|a key _ IH]; [done| |done].
    revert Hrun. unfold oidc_Initialize, mbind, prog_bind, modify, throw. cbn. destruct (ParsePEM _); by intros [= <- <- _]. }
  unfold OAuth.HandleAuthRequest. by rewrite Hn.
Qed.

(** A new adapter has no keys to show; with a key, the one key is of RS256. *)
Lemma jwks_needs_key public : GetJWKS public NewOIDCAdapter = Panic.
Proof. done. Qed.
Lemma jwks_of_key public a key : GetJWKS public (SetPrivateKey (Some key) a) = Ok [mkWebKey (public key) "1" "RS256" "sig"].
Proof. done. Qed.

(** A token that is not valid is answered as a failure of the server. *)
Lemma invalid_token a r tok err (w : oworld R C) : bearer_token r = Some tok -> or_parse o (ad_jwtSecret a) tok = Err err ->
  exists w', UserInfo a o r w = (Ok (OidcText 500 (Error_text (Sentinel ErrInvalidToken))), w').
Proof.
  intros Hb Hp. assert (Hh : Get (req_Header r) "Authorization" <> "").
  { intros He. unfold bearer_token in Hb. by rewrite He in Hb. }
  unfold UserInfo. rewrite bool_decide_eq_false_2, Hb by done.
  unfold GetUserInfo, or_deny, deny_cause, lift, try, mbind, prog_bind. rewrite Hp. by eexists.
Qed.

(** What it returns for a valid one is a claim of the token or the identifier of
    the user, and never more than the scope of the token allows. *)
Lemma user_info_scoped a r tok claims scope p u (w : oworld R C) rp :
  bearer_token r = Some tok -> or_parse o (ad_jwtSecret a) tok = Ok claims -> claims !! "scope" = Some (AnyString scope) ->
  (exists sub, claims !! "sub" = Some (AnyString sub) /\ ir_GetUserByID sub (ow_users w) = (Ok p, rp)) -> (ir_read p rp).1 = Ok u ->
  exists info w', UserInfo a o r w = (Ok (OidcClaims info), w') /\ info !! "sub" = Some (AnyString (user_ID u)) /\
    (ScopeContains scope "profile" = false -> info !! "name" = None) /\
    (ScopeContains scope "email" = false -> info !! "email" = None /\ info !! "email_verified" = None).
Proof.
  intros Hb Hp Hsc (sub & Hsub & Hget) Hread. assert (Hh : Get (req_Header r) "Authorization" <> "").
  { intros He. unfold bearer_token in Hb. by rewrite He in Hb. }
  unfold UserInfo. rewrite bool_decide_eq_false_2, Hb by done.
  unfold GetUserInfo, OAuth.as_string, or_deny, on_users, zoom, lift, try, mbind, prog_bind, mret, prog_ret.
  rewrite Hp, Hsub, Hget. cbn [ow_users]. destruct (ir_read p rp) as [[] rp'] eqn:Hrd; try done. injection Hread as ->. rewrite Hsc.
  eexists _, _. split; [reflexivity|]. destruct (ScopeContains scope "profile"), (ScopeContains scope "email"); by simplify_map_eq.
Qed.
End OidcFacts.

(** The address of the user information that the discovery of the OIDC handler
    announces is a route of no server; and the discovery the server does route
    answers that it is not implemented. *)
Definition routed (path : string) (rs : list route) : bool := existsb (fun r => bool_decide (rt_Template r = path)) rs.
Lemma discovery_unrouted api webauthn base :
  oidc_discovery base !! "userinfo_endpoint" = Some (AnyString (base +:+ "/oauth/userinfo")) /\
  routed "/oauth/userinfo" (registerRoutes api webauthn) = false /\
  routed "/.well-known/openid-configuration" (registerRoutes api webauthn) = true.
Proof. split; [by unfold oidc_discovery; simplify_map_eq|]. destruct api, webauthn; vm_compute; done. Qed.
Lemma discovery_not_implemented `{IdentityRepository R} `{Redis C} (w : oworld R C) :
  oauth_Discovery w = (Ok (OidcStatus 501), w) /\ oauth_JWKS w = (Ok (OidcStatus 501), w).
Proof. done. Qed.
