(* ===== verification/Outputs.v ===== *)
(** * What leaves the program as text

    cmd/audit-exporter (the command that exports the audit log and reports on
    compliance), internal/audit/pipeline.go and internal/config/audit_config.go
    (the sinks that write events to files and to standard output), and
    pkg/notification/smtp (mail).  The database, the files and the mail server
    answer as arguments say. *)

From S2P Require Import Prelude Types GoStd AuditLog Compliance MFA.
From Stdlib Require Import Ascii.

Local Open Scope Z_scope.

Definition newline : ascii := "010".
Definition line (s : string) : string := s +:+ String newline "".

(** ** The exporter (cmd/audit-exporter/main.go, compliance.go) *)
Record export_flags := mkExportFlags {
  fl_StartDate : option string;
  fl_EndDate : option string;
  fl_EventType : option string;
  fl_Format : option string;
  fl_Output : option string
}.
Inductive output := Printed (content : string) | Written (path content : string).

Section Exporter.
Context (connectDB : res error unit) (query : QueryFilter -> res error (list LogEvent)).
Context (ParseDate : string -> option time) (WriteFile : string -> string -> res error unit).
Context (format_rfc3339 format_rfc1123 : time -> string) (marshal : list LogEvent -> res error string).

Definition wrap {A} (message : string) (m : res error A) : res error A :=
  match m with Err err => Err (Wrapf message err) | r => r end.
Definition date_flag (message : string) (flag : option string) : res error time :=
  match flag with
  | None => Ok zero_time
  | Some s => match ParseDate s with Some t => Ok t | None => Err (Wrapf message (Errorf "parsing time")) end
  end.
Definition deliver (flag : option string) (content : string) : res error output :=
  match flag with
  | Some path => _ ← WriteFile path content; Ok (Written path content)
  | None => Ok (Printed content)
  end.

Definition exportAction (now : time) (flags : export_flags) : res error output :=
  _ ← wrap "failed to connect to database: " connectDB;
  start ← date_flag "invalid start-date format: " (fl_StartDate flags);
  end_ ← date_flag "invalid end-date format: " (fl_EndDate flags);
  let eventTypes := match fl_EventType flags with Some t => [t] | None => [] end in
  let req := mkReportRequest (default FormatJSON (fl_Format flags)) (mkQueryFilter start end_ eventTypes "" "") in
  report ← wrap "failed to generate report: " (GenerateReport format_rfc3339 format_rfc1123 marshal now query req);
  deliver (fl_Output flags) (rep_Content report).

(** *** Reports on compliance *)
Context (error_text : error -> string) (format_date : time -> string).
Context (marshal_report : ComplianceReport -> res error string) (format_percent : float64 -> string) (ToUpper : string -> string).

Definition text_result (result : ComplianceResult) : string :=
  line ("Rule ID: " +:+ result_RuleID result) +:+ line ("Status: " +:+ ToUpper (result_Status result)) +:+
  (if bool_decide (result_Details result = "") then "" else line ("Details: " +:+ result_Details result)) +:+
  line "----------------------------------------".
Definition formatComplianceReportAsText (report : ComplianceReport) : string :=
  line "========================================" +:+ line "Compliance Report" +:+ line "========================================" +:+
  line ("Standard: " +:+ report_Standard report) +:+ line ("Generated At: " +:+ format_rfc1123 (report_Timestamp report)) +:+
  line ("Pass Rate: " +:+ format_percent (fmul (report_PassRate report) (float_of_Z 100))) +:+
  line "----------------------------------------" +:+ String.concat "" (text_result <$> report_Results report).

Definition generateComplianceReport (now : time) (standard format : string) : res error Report :=
  complianceReport ← RunChecksForStandard error_text now (exporter_rules format_date) (mkCheckEnv query mockIdentityRepository) standard;
  '(content, mime) ← (if bool_decide (format = FormatJSON) then content ← marshal_report complianceReport; Ok (content, "application/json")
                      else Ok (formatComplianceReportAsText complianceReport, "text/plain"));
  Ok (mkReport (standard +:+ " Compliance Report") now format content mime).

Definition complianceReportAction (now : time) (standard : string) (format output_path : option string) : res error output :=
  _ ← wrap "failed to connect to database: " connectDB;
  report ← wrap "failed to generate compliance report: " (generateComplianceReport now standard (default FormatPDF format));
  deliver output_path (rep_Content report).
End Exporter.

(** ** Sinks that write (pipeline.go, audit_config.go)

    Files are written at their end; the file of a sink is open as long as the
    sink is. *)
Record files := mkFiles { fs_content : gmap string string; fs_stdout : string; fs_open : list string }.
Inductive text_sink := FileSink (path : string) | StdoutSink.
Record AuditSinkConfig := mkAuditSinkConfig { sk_Type : string; sk_Path : string }.

Section Sinks.
Context {E : Type} (marshal : E -> res error string) (can_open can_write : string -> bool).
Notation fs A := (prog files error A).

Definition NewFileSink (path : string) : fs text_sink :=
  if can_open path then
    modify (fun f => mkFiles (<[path := default "" (fs_content f !! path)]> (fs_content f)) (fs_stdout f) (path :: fs_open f)) ;;
    mret (FileSink path)
  else throw (Wrapf "failed to open audit log file: " (Errorf "open")).
Definition fileSink_Write (path : string) (event : E) : fs unit :=
  data ← lift (wrap "failed to marshal audit event: " (marshal event));
  if can_write path then
    modify (fun f => mkFiles (<[path := default "" (fs_content f !! path) +:+ line data]> (fs_content f)) (fs_stdout f) (fs_open f))
  else throw (Wrapf "failed to write to audit log file: " (Errorf "write")).
Definition stdoutSink_Write (event : E) : fs unit :=
  data ← lift (wrap "failed to marshal audit event: " (marshal event));
  modify (fun f => mkFiles (fs_content f) (fs_stdout f +:+ line data) (fs_open f)).
Definition sink_Write (sink : text_sink) (event : E) : fs unit :=
  match sink with FileSink path => fileSink_Write path event | StdoutSink => stdoutSink_Write event end.

(** A sink that fails is logged. *)
Definition pipeline_Emit (sinks : list text_sink) (event : E) : fs unit :=
  for_each (fun sink => try (sink_Write sink event) ;; mret ()) sinks.

(** The sinks of the configuration, up to the first that is wrong; what was
    opened before stays open. *)
Fixpoint NewPipelineFromConfig (sinks : list AuditSinkConfig) : fs (list text_sink) :=
  match sinks with
  | [] => mret []
  | sinkCfg :: sinks =>
      sink ← (if bool_decide (sk_Type sinkCfg = "file") then
                if bool_decide (sk_Path sinkCfg = "") then throw (Errorf "file sink requires a path")
                else opened ← try (NewFileSink (sk_Path sinkCfg));
                     match opened with inl err => throw (Wrapf "failed to create file sink: " err) | inr sink => mret sink end
              else if bool_decide (sk_Type sinkCfg = "stdout") then mret StdoutSink
              else throw (Errorf ("unsupported audit sink type: " +:+ sk_Type sinkCfg)));
      rest ← NewPipelineFromConfig sinks;
      mret (sink :: rest)
  end.
End Sinks.

(** ** Mail (pkg/notification/smtp/sender.go) *)
Record SMTPConfig := mkSMTPConfig { sm_Host : string; sm_Port : Z; sm_Username : string; sm_Password : string; sm_From : string }.
Record mail := mkMail { ml_addr : string; ml_auth : option (string * string * string); ml_from : string; ml_to : list string; ml_data : string }.
Definition crlf : string := String "013" (String newline "").
Definition mail_data (from : string) (to : list string) (subject body : string) : string :=
  "From: " +:+ from +:+ crlf +:+ "To: " +:+ String.concat "," to +:+ crlf +:+ "Subject: " +:+ subject +:+ crlf +:+
  "Content-Type: text/html; charset=UTF-8" +:+ crlf +:+ crlf +:+ body +:+ crlf.
Definition smtp_Send (config : SMTPConfig) (sendMail : mail -> res error unit) (msg : Message) : res error unit :=
  let auth := if negb (bool_decide (sm_Username config = "")) && negb (bool_decide (sm_Password config = ""))
              then Some (sm_Username config, sm_Password config, sm_Host config) else None in
  let to := [msg_Recipient msg] in
  wrap "failed to send email: " (sendMail (mkMail (sm_Host config +:+ ":" +:+ pretty (sm_Port config)) auth (sm_From config) to
    (mail_data (sm_From config) to (msg_Subject msg) (msg_Body msg)))).
Definition smtp_Type : string := "email".

(** ** The export *)
Section ExportFacts.
Context (ParseDate : string -> option time) (WriteFile : string -> string -> res error unit).
Context (format_rfc3339 format_rfc1123 : time -> string) (marshal : list LogEvent -> res error string).
Notation export query := (exportAction (Ok ()) query ParseDate WriteFile format_rfc3339 format_rfc1123 marshal).

(** Exporting as CSV prints a text that reads back as one record for each event
    of the log between the two dates - and the end date is an instant, the
    midnight it begins with, so that of the last day nothing else is there. *)
Theorem exported_events now rows start stop first last :
  ParseDate start = Some first -> ParseDate stop = Some last -> first <> zero_time -> last <> zero_time ->
  exists events content,
    export (table_Query rows) now (mkExportFlags (Some start) (Some stop) None (Some FormatCSV) None) = Ok (Printed content) /\
    CSV.read_all content = Some (csv_header :: (csv_record format_rfc3339 <$> events)) /\
    forall e, e ∈ events <-> e ∈ rows /\ first <= le_Timestamp e <= last.
Proof.
  intros Hs He H1 H2. set (f := mkQueryFilter first last [] "" "").
  exists (filter (fun e => Query_matches f e = true) rows), (exportCSV format_rfc3339 (filter (fun e => Query_matches f e = true) rows)).
  split; [unfold exportAction, date_flag; cbn; by rewrite Hs, He|]. split.
  - apply CSVFacts.read_write. constructor; [done|]. apply Forall_fmap, Forall_true. done.
  - intros e. rewrite list_elem_of_filter. unfold Query_matches, f. cbn.
    rewrite !bool_decide_eq_false_2 by done. rewrite !bool_decide_eq_true_2 by done. cbn [orb]. rewrite !andb_true_r, andb_true_iff, !Z.leb_le.
    tauto.
Qed.

(** Without a database there is no export, and a date that does not parse is
    refused before anything is read. *)
Lemma no_database err query now flags :
  exportAction (Err err) query ParseDate WriteFile format_rfc3339 format_rfc1123 marshal now flags = Err (Wrapf "failed to connect to database: " err).
Proof. done. Qed.
Lemma bad_start query now s flags : fl_StartDate flags = Some s -> ParseDate s = None ->
  export query now flags = Err (Wrapf "invalid start-date format: " (Errorf "parsing time")).
Proof. intros Hf Hp. unfold exportAction, date_flag. cbn. by rewrite Hf, Hp. Qed.
End ExportFacts.

(** The report on the retention of accounts passes whatever accounts there are:
    the command asks a repository that has none. *)
Lemma gdpr_always_passes error_text format_date query now :
  exists rate, RunChecksForStandard error_text now (exporter_rules format_date) (mkCheckEnv query mockIdentityRepository) StandardGDPR =
    Ok (mkComplianceReport StandardGDPR now [mkComplianceResult "GDPR-05" "pass" "" None] rate).
Proof. by eexists. Qed.
(** A standard of the program that the command has no rules for *)
Lemma iso_has_no_rules error_text format_date query now :
  RunChecksForStandard error_text now (exporter_rules format_date) (mkCheckEnv query mockIdentityRepository) StandardISO27001 =
    Err (Errorf "no compliance rules defined for standard").
Proof. done. Qed.

(** ** The sinks *)
Section SinkFacts.
Context {E : Type} (marshal : E -> res error string) (can_open can_write : string -> bool).

Definition log_of (encode : E -> string) (events : list E) : string := String.concat "" (line ∘ encode <$> events).

Lemma log_of_cons encode e events : log_of encode (e :: events) = line (encode e) +:+ log_of encode events.
Proof. unfold log_of. cbn. destruct (line ∘ encode <$> events) as [|s l]; [by rewrite string_app_nil_r|done]. Qed.

(** What a file sink writes is one line for each event, in their order. *)
Lemma emitted encode path events : (forall e, marshal e = Ok (encode e)) -> can_write path = true ->
  forall f, exists f', for_each (pipeline_Emit marshal can_write [FileSink path]) events f = (Ok (), f') /\
    fs_content f' = (if bool_decide (events = []) then fs_content f
                     else <[path := default "" (fs_content f !! path) +:+ log_of encode events]> (fs_content f)) /\
    fs_stdout f' = fs_stdout f.
Proof.
  intros Hm Hw. induction events as [|e events IH]; intros f; cbn [for_each]; [by exists f|].
  set (f1 := mkFiles (<[path := default "" (fs_content f !! path) +:+ line (encode e)]> (fs_content f)) (fs_stdout f) (fs_open f)).
  assert (Hrun : pipeline_Emit marshal can_write [FileSink path] e f = (Ok (), f1)).
  { unfold pipeline_Emit, for_each, sink_Write, fileSink_Write, try, lift, mbind, prog_bind. rewrite Hm. cbn. by rewrite Hw. }
  rewrite (prog_bind_run _ _ _ _ _ Hrun). destruct (IH f1) as (f' & -> & Hc & Ho). exists f'. split; [done|]. split; [|done].
  rewrite Hc, (bool_decide_eq_false_2 (e :: events = [])), log_of_cons by done. case_bool_decide as Hn.
  - subst. cbn. by rewrite string_app_nil_r.
  - cbn [fs_content f1]. rewrite lookup_insert_eq, insert_insert_eq. cbn. by rewrite string_app_assoc.
Qed.

(** A log of events whose encoding has no line break, as that of JSON, is read
    back line by line. *)
Theorem log_roundtrip encode events : (forall e, str_free newline (encode e) = true) ->
  strings_Split newline (log_of encode events) = (encode <$> events) ++ [""].
Proof.
  intros Hf. induction events as [|e events IH]; [done|]. rewrite log_of_cons. unfold line.
  rewrite <- string_app_assoc. change (String newline "" +:+ log_of encode events) with (String newline (log_of encode events)).
  rewrite strings_Split_app, IH, strings_Split_free by done. done.
Qed.

(** A configuration that is wrong in a later sink leaves the files of the earlier
    ones open. *)
Lemma wrong_sink_leaks path kind f : can_open path = true -> path <> "" -> kind <> "file" -> kind <> "stdout" ->
  exists e f', NewPipelineFromConfig can_open [mkAuditSinkConfig "file" path; mkAuditSinkConfig kind ""] f = (Err e, f') /\
    path ∈ fs_open f'.
Proof.
  intros Ho Hp Hk1 Hk2. unfold NewPipelineFromConfig. cbn [sk_Type sk_Path]. rewrite (bool_decide_eq_true_2 ("file" = "file")) by done.
  rewrite (bool_decide_eq_false_2 (path = "")), (bool_decide_eq_false_2 (kind = "file")), (bool_decide_eq_false_2 (kind = "stdout")) by done.
  unfold NewFileSink, try, mbind, prog_bind. rewrite Ho. cbn. eexists _, _. split; [reflexivity|]. cbn. constructor.
Qed.
End SinkFacts.

(** A subject with a line break adds header lines to the mail. *)
Lemma subject_adds_headers from to subject header body :
  mail_data from to (subject +:+ crlf +:+ header) body =
  "From: " +:+ from +:+ crlf +:+ "To: " +:+ String.concat "," to +:+ crlf +:+ "Subject: " +:+ subject +:+ crlf +:+ header +:+ crlf +:+
  "Content-Type: text/html; charset=UTF-8" +:+ crlf +:+ crlf +:+ body +:+ crlf.
Proof. unfold mail_data. by rewrite <- !string_app_assoc. Qed.
(** Credentials are used only when there are both. *)
Lemma no_credentials config sendMail msg : sm_Username config = "" \/ sm_Password config = "" ->
  smtp_Send config (fun m => match ml_auth m with Some _ => Panic | None => sendMail m end) msg = smtp_Send config sendMail msg.
Proof. intros [H|H]; unfold smtp_Send; rewrite H; cbn; [done|]. by rewrite andb_false_r. Qed.
