(* ===== verification/Unrouted.v ===== *)
(** * Endpoints that no route leads to

    handlers/admin_api.go, handlers/application.go and cmd/qid-server/mfa.go:
    the listing and creation of users for administrators, the registration of
    applications, and the second factors.  Nothing in the program registers
    them; they are modelled as they would answer. *)

From S2P Require Import Prelude Types GoStd MemPolicy MemIdentity IdentityService AuthService AuthApi Redis MFA Tables OAuth PgStores DevCenter Gateway.

Local Open Scope Z_scope.

(** ** Users (handlers/admin_api.go) *)
Inductive admin_body := AdminText (s : string) | AdminUsers (users : list User) (page size total : Z) | AdminUser (u : User).

Section AdminApi.
Context `{IdentityRepository R}.
Notation api A := (prog R error A).

Fixpoint read_all_users (ps : list loc) : api (list User) :=
  match ps with [] => mret [] | p :: ps => u ← ir_read p; us ← read_all_users ps; mret (u :: us) end.

(** A missing page is the page zero. *)
Definition api_filter (query : gmap string string) : UserFilter :=
  let page := Atoi (Get query "page") in
  let size := Atoi (Get query "size") in
  mkUserFilter "" [] (if bool_decide (page < 0) then 0 else page) (if bool_decide (size = 0) then 10 else size) "" "".
Definition api_ListUsers (query : gmap string string) : api (Z * admin_body) :=
  let filter := api_filter query in
  listed ← try (ir_ListUsers filter);
  match listed with
  | inl _ => mret (500, AdminText "query failed")
  | inr (ps, total) => users ← read_all_users ps; mret (200, AdminUsers users (filter_Page filter) (filter_PageSize filter) total)
  end.

(** Of the body only the name and the address are used. *)
Record create_body := mkCreateBody { cb_Username : string; cb_Email : string; cb_RoleIDs : list string }.
Definition bare_user (req : create_body) : User := new_user "" (cb_Username req) (cb_Email req) "" "".
Definition api_CreateUser (uuid : string) (body : string + create_body) : api (Z * admin_body) :=
  match body with
  | inl message => mret (400, AdminText message)
  | inr req =>
      p ← ir_alloc (bare_user req);
      created ← try (ir_CreateUser uuid p);
      match created with
      | inl _ => mret (500, AdminText "create failed")
      | inr _ => u ← ir_read p; mret (201, AdminUser u)
      end
  end.
End AdminApi.

(** ** Applications (handlers/application.go) *)
Section ApplicationApi.
Context {D : Type} `{Table Application D}.
Definition application_CreateApplication (uuid : string) (now : time) (body : error + CreateApplicationRequest) :
    prog (D * errvars) error (Z * (string + Application)) :=
  match body with
  | inl err => modify (fun s => (s.1, WithCause s.2 ErrBadRequest err)) ;; mret (HttpStatus ErrBadRequest, inl ErrBadRequest)
  | inr req =>
      created ← try (CreateApplication uuid now req);
      mret match created with
           | inl (Sentinel code) => (HttpStatus code, inl code)
           | inl _ => (HttpStatus ErrInternal, inl ErrInternal)
           | inr app => (201, inr app)
           end
  end.
End ApplicationApi.

(** ** Second factors (cmd/qid-server/mfa.go) *)
Inductive mfa_body := MfaText (s : string) | MfaURL (url : string) | MfaCodes (codes : list string) | MfaNothing.
Section MfaApi.
Context {K : Type} (Generate : string -> string -> res error K) (URL : K -> string).
Context `{Redis C} (GetUserFactors : string -> res error (list MFAFactor)) (VerifyCode : string -> string -> bool).
Context (challenge_user : string -> option string).
Notation m A := (prog C error A).

(** The secret is shown and kept nowhere. *)
Definition handleTOTPSetup : m (Z * mfa_body) :=
  key ← try (lift (Generate "QuantaID" "user@example.com"));
  mret match key with
       | inl _ => (500, MfaText "Failed to generate secret")
       | inr key => (200, MfaURL (URL key))
       end.
(** The user is a new identifier. *)
Definition handleTOTPVerify (uuid : string) (body : option string) : m (Z * mfa_body) :=
  match body with
  | None => mret (400, MfaText "Invalid request body")
  | Some code =>
      valid ← try (lift (VerifyTOTP GetUserFactors VerifyCode uuid code));
      mret match valid with
           | inl _ => (500, MfaText "Failed to verify TOTP code")
           | inr false => (401, MfaText "Invalid TOTP code")
           | inr true => (200, MfaNothing)
           end
  end.
Definition handleGenerateRecoveryCodes (rand : nat -> Z -> res error (list Z)) : m (Z * mfa_body) :=
  codes ← try (lift (GenerateRecoveryCodes rand));
  mret match codes with
       | inl _ => (500, MfaText "Failed to generate recovery codes")
       | inr codes => (200, MfaCodes codes)
       end.
Record challenge_body := mkChallengeBody { chb_ChallengeID : string; chb_Method : string; chb_Code : string }.
Definition handleMFAChallenge (now : time) (body : option challenge_body) : m (Z * mfa_body) :=
  match body with
  | None => mret (400, MfaText "Invalid request body")
  | Some req =>
      verified ← try (policy_VerifyMFAChallenge GetUserFactors VerifyCode challenge_user now (chb_ChallengeID req) (chb_Method req) (chb_Code req));
      mret match verified with
           | inl (Sentinel code) => (HttpStatus code, MfaText (error_Message code))
           | inl _ => (500, MfaText "Failed to verify MFA challenge")
           | inr _ => (200, MfaNothing)
           end
  end.
End MfaApi.

(** ** How they would answer *)

(** Without a page in its query the listing asks for the page before the first,
    and over the repository in memory that is a panic as soon as there is room
    for a page. *)
Lemma listing_without_page_panics ord r : 
  (@api_ListUsers _ (memory_repository ord) ∅ r).1 = Panic.
Proof.
  unfold api_ListUsers, try. cbn [ir_ListUsers memory_repository]. unfold MemIdentity.ListUsers.
  change (filter_Page (api_filter ∅)) with 0. change (filter_PageSize (api_filter ∅)) with 10.
  unfold mbind, prog_bind, get, lift. change (int64 (int64 (0 - 1) * 10)) with (-10).
  rewrite bool_decide_eq_false_2 by lia. rewrite (proj2 (page_panic _ (-10) 10 ltac:(lia))); [done|]. left. lia.
Qed.

(** A user who is created so has no password, no status and none of the roles
    that were asked for. *)
Lemma created_bare username email roles :
  bare_user (mkCreateBody username email roles) = bare_user (mkCreateBody username email []) /\
  user_Password (bare_user (mkCreateBody username email roles)) = "" /\ user_Status (bare_user (mkCreateBody username email roles)) = "".
Proof. done. Qed.

Section MfaFacts.
Context `{RedisLaws C} (GetUserFactors : string -> res error (list MFAFactor)) (VerifyCode : string -> string -> bool).
Context (challenge_user : string -> option string).
Implicit Types c : C.

(** Nobody can verify a code: an identifier that was drawn just now is that of no
    user, and a user without factors is an error of the server. *)
Lemma totp_verifies_nobody uuid code c : GetUserFactors uuid = Ok [] ->
  handleTOTPVerify GetUserFactors VerifyCode uuid (Some code) c = (Ok (500, MfaText "Failed to verify TOTP code"), c).
Proof. intros Hf. unfold handleTOTPVerify, VerifyTOTP, lift, try, mbind, prog_bind. by rewrite Hf. Qed.

(** What a challenge decides (MFA.v), as it is answered: a challenge for which a
    method is named that the policy does not know is passed with any code. *)
Lemma challenge_answers now req c : (forall u, exists fs, GetUserFactors u = Ok fs) ->
  let run := handleMFAChallenge GetUserFactors VerifyCode challenge_user now (Some req) c in
  (kv c now (challengeKey (chb_ChallengeID req)) = None -> run.1 = Ok (HttpStatus ErrInvalidRequest, MfaText (error_Message ErrInvalidRequest))) /\
  (is_Some (kv c now (challengeKey (chb_ChallengeID req))) -> chb_Method req <> "totp" -> chb_Method req <> "sms" ->
     run.1 = Ok (200, MfaNothing)).
Proof.
  intros Hf. cbv zeta.
  pose proof (policy_challenge_decides GetUserFactors VerifyCode challenge_user now (chb_ChallengeID req) (chb_Method req) (chb_Code req) c Hf) as Hd.
  cbv zeta in Hd. unfold handleMFAChallenge. split.
  - intros Hn. rewrite Hn in Hd. unfold try, mbind, prog_bind. by rewrite Hd.
  - intros [v Hv] Ht Hs. rewrite Hv in Hd. rewrite !(bool_decide_eq_false_2 (chb_Method req = _)) in Hd by done.
    destruct Hd as (c' & Hr & _). unfold try, mbind, prog_bind. by rewrite Hr.
Qed.
End MfaFacts.

(** A body that does not decode is the client's mistake. *)
Lemma undecodable_application {D} `{Table Application D} uuid now err (s : D * errvars) :
  application_CreateApplication uuid now (inl err) s = (Ok (400, inl ErrBadRequest), (s.1, WithCause s.2 ErrBadRequest err)).
Proof. done. Qed.

(** None of these is among the handlers of the routes. *)
Lemma nothing_routes_here api webauthn :
  Forall (fun r => rt_Handler r ∉ ["admin.ListUsers"; "admin.CreateUser"; "application.CreateApplication"; "handleTOTPSetup";
    "handleTOTPVerify"; "handleGenerateRecoveryCodes"; "handleMFAChallenge"]) (registerRoutes api webauthn).
Proof. apply (bool_decide_unpack _). by destruct api, webauthn; vm_compute. Qed.
