(* ===== verification/PolicyReload.v ===== *)
(** * Loading the Rego policy again (internal/policy/engine/opa_provider.go,
    internal/services/policy/service.go)

    The provider keeps the query it prepared from the policy file; the policy
    service watches the directory of the file and has it loaded again.  Reading
    the file, preparing a query and the watcher answer as arguments say. *)

From S2P Require Import Prelude Types GoStd Authorization.
Import Engine.

Notation query := (EvaluationRequest -> res error rego_value).

(** ** Loading (opa_provider.go) *)
Section Loading.
(** [Prepare path content]: the query over the module of that content *)
Context (Prepare : string -> string -> res error query).
Notation provider A := (prog OPAProvider error A).

Definition set_query (q : query) (p : OPAProvider) : OPAProvider := mkOPAProvider (opa_config p) q (opa_sidecar p).
Definition LoadPolicy (ReadFile : string -> res error string) (path : string) : provider unit :=
  content ← try (lift (ReadFile path));
  match content with
  | inl err => throw (Wrapf "failed to read policy file: " err)
  | inr policyContent =>
      prepared ← try (lift (Prepare path policyContent));
      match prepared with
      | inl err => throw (Wrapf "failed to prepare rego query: " err)
      | inr q => modify (set_query q)
      end
  end.

(** ** Watching (service.go)

    An event of the watcher comes with the files as they are when it is
    handled. *)
Inductive watch_event :=
  | FileEvent (write create : bool) (name : string) (ReadFile : string -> res error string)
  | WatchError.
Context (PolicyFile : string).
Definition Reload (ReadFile : string -> res error string) : provider unit := LoadPolicy ReadFile PolicyFile.
Definition on_event (e : watch_event) : provider unit :=
  match e with
  | FileEvent write create _ ReadFile => if write || create then try (Reload ReadFile) ;; mret () else mret ()
  | WatchError => mret ()
  end.
(** The goroutine is there as soon as there is a watcher, whether or not the
    directory can be watched. *)
Definition watch_loop (events : list watch_event) : provider unit := for_each on_event events.
Record watching := mkWatching { wt_goroutine : bool; wt_directory : bool }.
Definition startFileWatcher (NewWatcher AddDirectory : res error unit) : res error unit * watching :=
  match NewWatcher with
  | Ok _ => match AddDirectory with
            | Ok _ => (Ok (), mkWatching true true)
            | r => (r, mkWatching true false)
            end
  | r => (r, mkWatching false false)
  end.
(** An error is logged. *)
Definition policy_NewService (NewWatcher AddDirectory : res error unit) (opaProvider : option OPAProvider) : watching :=
  match opaProvider with
  | Some p =>
      if opa_Enabled (opa_config p) && bool_decide (opa_Mode (opa_config p) = "sdk")
      then (startFileWatcher NewWatcher AddDirectory).2 else mkWatching false false
  | None => mkWatching false false
  end.

(** ** What decides *)
Definition well_behaved : Prop := forall path content, (exists q, Prepare path content = Ok q) \/ exists e, Prepare path content = Err e.
Definition readable_fs (ReadFile : string -> res error string) : Prop := forall path, (exists s, ReadFile path = Ok s) \/ exists e, ReadFile path = Err e.

(** What an event offers: the query of a file that can be read and prepared. *)
Definition offers (e : watch_event) : option query :=
  match e with
  | FileEvent write create _ ReadFile =>
      if write || create then
        match ReadFile PolicyFile with
        | Ok content => match Prepare PolicyFile content with Ok q => Some q | _ => None end
        | _ => None
        end
      else None
  | WatchError => None
  end.
Definition event_readable (e : watch_event) : Prop :=
  match e with FileEvent _ _ _ ReadFile => readable_fs ReadFile | WatchError => True end.

Lemma on_event_run e p : well_behaved -> event_readable e ->
  on_event e p = (Ok (), match offers e with Some q => set_query q p | None => p end).
Proof.
  intros Hprep Hread. destruct e as [write create name ReadFile|]; [|done]. unfold on_event, offers. destruct (write || create); [|done].
  unfold Reload, LoadPolicy, try, lift, mbind, prog_bind. destruct (Hread PolicyFile) as [[s ->]|[e ->]]; [|done].
  by destruct (Hprep PolicyFile s) as [[q ->]|[e ->]].
Qed.

(** After any history of events the query is that of the last good version of
    the file, and the one from the start when there was none; a version that
    cannot be read or prepared changes no decision. *)
Theorem last_good_policy events p : well_behaved -> Forall event_readable events ->
  exists p', watch_loop events p = (Ok (), p') /\ opa_config p' = opa_config p /\ opa_sidecar p' = opa_sidecar p /\
    opa_query p' = default (opa_query p) (last (omap offers events)).
Proof.
  intros Hprep Hr. revert p. induction Hr as [|e events He _ IH]; intros p; [by exists p|].
  unfold watch_loop. cbn [for_each]. rewrite (prog_bind_run _ _ _ _ _ (on_event_run e p Hprep He)).
  destruct (IH (match offers e with Some q => set_query q p | None => p end)) as (p' & Hrun & Hc & Hs & Hq). exists p'.
  split; [exact Hrun|]. cbn [omap list_omap]. rewrite Hc, Hs, Hq. destruct (offers e) as [q|]; [|done].
  split; [done|]. split; [done|]. rewrite last_cons. by destruct (last (omap offers events)).
Qed.

Lemma bad_version_decides_nothing e p req : well_behaved -> event_readable e -> offers e = None ->
  opa_Evaluate (on_event e p).2 req = opa_Evaluate p req.
Proof. intros Hp He Ho. by rewrite (on_event_run e p Hp He), Ho. Qed.

(** The provider reads the file with the empty mode too, but then nothing
    watches it. *)
Lemma empty_mode_unwatched NewWatcher AddDirectory p : opa_Mode (opa_config p) = "" ->
  policy_NewService NewWatcher AddDirectory (Some p) = mkWatching false false.
Proof. intros Hm. unfold policy_NewService. by rewrite Hm, andb_false_r. Qed.
(** A directory that cannot be watched leaves a goroutine that gets no events. *)
Lemma unwatched_goroutine e p : opa_Enabled (opa_config p) = true -> opa_Mode (opa_config p) = "sdk" ->
  policy_NewService (Ok ()) (Err e) (Some p) = mkWatching true false.
Proof. intros He Hm. unfold policy_NewService. by rewrite He, Hm. Qed.
End Loading.

Example reloaded :
  let Prepare (path content : string) : res error query :=
    if bool_decide (content = "") then Err (Errorf "empty module")
    else Ok (fun _ => Ok (RegoObject (Some (bool_decide (content = "allow"))) None)) in
  let p := mkOPAProvider (mkOPAConfig true "sdk") (fun _ => Ok RegoUndefined) (fun _ => Err (Errorf "none")) in
  let at_ content := FileEvent true false "policy.rego" (fun _ => Ok content) in
  let p' := (watch_loop Prepare "policy.rego" [at_ "allow"; at_ ""] p).2 in
  forall req, opa_Evaluate p' req = Ok (true, false).
Proof. reflexivity. Qed.
