(* ===== verification/LdapClient.v ===== *)
(** * The LDAP client of the synchronisation (internal/identity/ldap/client.go)

    The client over the library it calls, and the synchronisation pipeline of
    LdapSync.v reading a whole directory through it.  The library is a class:
    dialling, binding, searching and closing, with the laws of paged results
    (RFC 2696). *)

From S2P Require Import Prelude Types GoStd GoText LdapSync.

Local Open Scope Z_scope.

(** ** Requests and results *)
Inductive search_scope := ScopeBaseObject | ScopeSingleLevel | ScopeWholeSubtree.
Inductive control := ControlPaging (PagingSize : Z) (Cookie : string) | ControlOther (oid : string).

Record SearchRequest := mkSearchRequest {
  sq_BaseDN : string;
  sq_Scope : search_scope;
  sq_Filter : string;
  sq_Attributes : list string;
  sq_Controls : list control
}.
Record SearchResult := mkSearchResult { sr_Entries : list entry; sr_Controls : list control }.

(** The library: [L] is everything outside, [K] a connection.  The second
    argument of [DialURL] is [InsecureSkipVerify]. *)
Class LdapLibrary (L K : Type) := {
  DialURL : string -> bool -> prog L error K;
  conn_Bind : K -> string -> string -> prog L error unit;
  conn_Search : K -> SearchRequest -> prog L error SearchResult;
  conn_Close : K -> prog L error unit
}.

(** ** The client *)
Record LDAPClient (K : Type) := mkLDAPClient {
  lc_conn : option K;
  lc_url : string;
  lc_user : string;
  lc_pass : string
}.
Arguments mkLDAPClient {K}.
Arguments lc_conn {K}.
Arguments lc_url {K}.
Arguments lc_user {K}.
Arguments lc_pass {K}.

(** The cookie of the first paging control of an answer. *)
Fixpoint next_cookie (cs : list control) : string :=
  match cs with
  | [] => ""
  | ControlPaging _ cookie :: _ => cookie
  | ControlOther _ :: cs => next_cookie cs
  end.

Section LdapClient.
Context `{LdapLibrary L K}.
Notation client A := (prog (LDAPClient K * L) error A).

Definition NewLDAPClient (url user pass : string) : LDAPClient K := mkLDAPClient None url user pass.

Definition on_library {A} (m : prog L error A) : client A := zoom snd (fun l w => (w.1, l)) m.
Definition set_conn (k : K) (c : LDAPClient K) : LDAPClient K :=
  mkLDAPClient (Some k) (lc_url c) (lc_user c) (lc_pass c).

(** The connection is kept before the bind is tried. *)
Definition Connect : client unit :=
  w ← get;
  l ← on_library (DialURL (lc_url w.1) true);
  modify (fun w => (set_conn l w.1, w.2)) ;;
  on_library (conn_Bind l (lc_user w.1) (lc_pass w.1)).

Definition Close : client unit :=
  w ← get;
  match lc_conn w.1 with Some k => on_library (conn_Close k) | None => mret () end.

(** A search on the connection of the client, which is nil until [Connect]. *)
Definition search_with (q : SearchRequest) : client SearchResult :=
  w ← get;
  match lc_conn w.1 with Some k => on_library (conn_Search k q) | None => lift Panic end.

Definition Search (baseDN filter : string) (attributes : list string) : client (list entry) :=
  sr ← search_with (mkSearchRequest baseDN ScopeWholeSubtree filter attributes []);
  mret (sr_Entries sr).

(** The cookie is set on the control that was just made. *)
Definition SearchPaged (baseDN filter : string) (pageSize : Z) (cookie : string) : client (list entry * string) :=
  sr ← search_with (mkSearchRequest baseDN ScopeWholeSubtree filter ["*"] [ControlPaging pageSize cookie]);
  mret (sr_Entries sr, next_cookie (sr_Controls sr)).

Definition PersistentSearch (baseDN filter : string) (attributes : list string) : client SearchResult :=
  search_with (mkSearchRequest baseDN ScopeWholeSubtree filter attributes []).

(** What the engine asks for the cookie of a page: its batch size is cut to 32
    bits. *)
Definition engine_page (BatchSize : Z) (baseDN filter : string) (w : LDAPClient K * L) (cookie : string) :
    res error (list entry * string) :=
  (SearchPaged baseDN filter (wrap 32 BatchSize) cookie w).1.
End LdapClient.

(** ** The laws of a directory that answers in pages

    An open connection answers a paged search with the entries that follow
    those already given, at least one of them, and a cookie for the rest; an
    empty cookie with the last.  Searching changes nothing. *)
Class LdapPaging (L K : Type) `{LdapLibrary L K} := {
  conn_open : L -> K -> Prop;
  matching : L -> string -> string -> list entry;
  cookie_at : L -> string -> nat -> Prop;
  law_first l : cookie_at l "" 0%nat;
  law_page l k base filter size cookie n :
    conn_open l k -> 0 < size < 2 ^ 32 -> cookie_at l cookie n ->
    exists es cs,
      conn_Search k (mkSearchRequest base ScopeWholeSubtree filter ["*"] [ControlPaging size cookie]) l =
        (Ok (mkSearchResult es cs), l) /\
      if bool_decide (next_cookie cs = "") then es = drop n (matching l base filter)
      else es <> [] /\ (exists rest, drop n (matching l base filter) = es ++ rest) /\
        cookie_at l (next_cookie cs) (n + length es)
}.

Section ClientFacts.
Context `{LdapLibrary L K}.
Implicit Types (c : LDAPClient K) (l : L).

Lemma search_with_run q c l k : lc_conn c = Some k ->
  search_with q (c, l) = (match conn_Search k q l with (r, l') => (r, (c, l')) end).
Proof.
  intros Hk. unfold search_with. rewrite prog_get_bind. cbn [fst]. rewrite Hk.
  unfold on_library, zoom. cbn [fst snd]. by destruct (conn_Search k q l).
Qed.

(** Before [Connect] every search dereferences a nil connection. *)
Lemma search_unconnected url user pass l baseDN filter attributes pageSize cookie :
  let w := (NewLDAPClient url user pass, l) in
  Search baseDN filter attributes w = (Panic, w) /\
  SearchPaged baseDN filter pageSize cookie w = (Panic, w) /\
  PersistentSearch baseDN filter attributes w = (Panic, w) /\
  Close w = (Ok (), w).
Proof. done. Qed.

(** A bind that is refused leaves the connection in place: the searches that
    follow are sent over it, unauthenticated. *)
Lemma refused_bind_searches c l l1 l2 k err q :
  DialURL (lc_url c) true l = (Ok k, l1) -> conn_Bind k (lc_user c) (lc_pass c) l1 = (Err err, l2) ->
  Connect (c, l) = (Err err, (set_conn k c, l2)) /\
  search_with q (set_conn k c, l2) = (match conn_Search k q l2 with (r, l') => (r, (set_conn k c, l')) end).
Proof.
  intros Hd Hb. split; [|by apply search_with_run]. unfold Connect. rewrite prog_get_bind.
  assert (on_library (DialURL (lc_url c) true) (c, l) = (Ok k, (c, l1))) as Hdial by (unfold on_library, zoom; cbn; by rewrite Hd).
  rewrite (prog_bind_run _ _ _ _ _ Hdial). unfold mbind, prog_bind, modify, on_library, zoom. cbn. by rewrite Hb.
Qed.

(** [PersistentSearch] is [Search]: it sends no control, so its answer is
    everything that matches and ends. *)
Lemma persistent_is_search baseDN filter attributes (w : LDAPClient K * L) :
  Search baseDN filter attributes w = (sr ← PersistentSearch baseDN filter attributes; mret (sr_Entries sr)) w.
Proof. done. Qed.
End ClientFacts.

(** ** Reading a whole directory *)
Section Pages.
Context `{LdapPaging L K} `{SyncStore W} `{CaseFolding}.
Context (GetAttributeValue : entry -> string -> string) (mappings : list AttributeMapping).
Context (BatchSize : Z) (ConflictStrategy : string) (now : time).
Context (baseDN filter : string) (c : LDAPClient K) (l : L) (k : K).
Context (connected : lc_conn c = Some k) (is_open : conn_open l k).
Notation page := (engine_page BatchSize baseDN filter (c, l)).
Notation users sourceID := (map_entries GetAttributeValue mappings sourceID).

Lemma map_entries_app sourceID es es' : users sourceID (es ++ es') = users sourceID es ++ users sourceID es'.
Proof. induction es as [|e es IH]; cbn; [done|]. rewrite IH. by destruct (MapEntry _ _ e). Qed.

Lemma page_answers cookie n : 0 < wrap 32 BatchSize -> cookie_at l cookie n ->
  exists es cookie', page cookie = Ok (es, cookie') /\
    if bool_decide (cookie' = "") then es = drop n (matching l baseDN filter)
    else es <> [] /\ (exists rest, drop n (matching l baseDN filter) = es ++ rest) /\ cookie_at l cookie' (n + length es).
Proof.
  intros Hb Hc. assert (0 < wrap 32 BatchSize < 2 ^ 32) as Hsize by (pose proof (wrap_range 32 BatchSize); lia).
  destruct (law_page l k baseDN filter _ cookie n is_open Hsize Hc) as (es & cs & Hs & Hrest).
  exists es, (next_cookie cs). split; [|done]. unfold engine_page, SearchPaged. unfold mbind, prog_bind.
  rewrite (search_with_run _ _ _ _ connected), Hs. done.
Qed.

(** However the directory cuts its pages, the producer gives all its entries,
    in order; the entries that are left are fuel enough. *)
Lemma produce_pages sourceID : 0 < wrap 32 BatchSize -> forall fuel n cookie, cookie_at l cookie n ->
  (length (drop n (matching l baseDN filter)) < fuel)%nat ->
  produce GetAttributeValue mappings fuel page sourceID cookie = Ok (users sourceID (drop n (matching l baseDN filter)), None).
Proof.
  intros Hb fuel. induction fuel as [|fuel IH]; intros n cookie Hc Hf; [lia|].
  destruct (page_answers cookie n Hb Hc) as (es & cookie' & Hp & Hrest). rewrite (produce_S _ _ _ _ _ _ _ _ Hp).
  case_bool_decide; [by subst es|]. destruct Hrest as (Hes & [rest Hdrop] & Hc').
  assert (drop (n + length es) (matching l baseDN filter) = rest) as Hnext.
  { rewrite <- drop_drop, Hdrop. by rewrite drop_app_length. }
  rewrite (IH _ _ Hc').
  - cbn. by rewrite Hnext, <- map_entries_app, <- Hdrop.
  - rewrite Hnext. rewrite Hdrop, length_app in Hf. destruct es; [done|]. cbn in Hf. lia.
Qed.

(** A full synchronisation through the client stores the users of the whole
    directory, in order and in full batches, and is marked as completed. *)
Theorem directory_synchronised sourceID fuel : 0 <= BatchSize -> 0 < wrap 32 BatchSize ->
  (length (matching l baseDN filter) < fuel)%nat ->
  exists bs, mjoin bs = users sourceID (matching l baseDN filter) /\ batches_ok BatchSize bs /\
    forall w, StartFullSync GetAttributeValue mappings BatchSize ConflictStrategy now fuel page sourceID w =
      (for_each (store_batch ConflictStrategy now sourceID) bs ;; (try (st_MarkCompleted sourceID now) ;; mret ())) w.
Proof.
  intros Hsize Hb Hf. pose proof (produce_pages sourceID Hb fuel 0 "" (law_first l) Hf) as Hprod. rewrite drop_0 in Hprod.
  destruct (consume_batches BatchSize ConflictStrategy now sourceID (users sourceID (matching l baseDN filter)) []
    ltac:(cbn; lia)) as (bs & Hj & Hok & Hrun).
  exists bs. split; [done|]. split; [done|]. intros w. unfold StartFullSync. rewrite bool_decide_eq_false_2 by lia.
  rewrite Hprod, prog_lift_bind. cbn [fst snd]. unfold mbind at 1 2, prog_bind at 1 2. by rewrite Hrun.
Qed.
End Pages.

(** ** A directory in memory

    One account binds; connections are numbered; a cookie is the number of
    entries given so far. *)
Record demo_server := mkServer { srv_entries : list entry; srv_account : string * string; srv_conns : nat; srv_open : list nat }.

Definition position (cookie : string) : option nat :=
  if bool_decide (cookie = "") then Some 0%nat
  else match Sscanf_d cookie with Some n => Some (Z.to_nat n) | None => None end.

Definition demo_answer (es : list entry) (cs : list control) : SearchResult :=
  match cs with
  | ControlPaging size cookie :: _ =>
      match position cookie with
      | Some n =>
          let page := take (Z.to_nat size) (drop n es) in
          let rest := drop (n + length page) es in
          mkSearchResult page
            [ControlOther "1.3.6.1.1"; ControlPaging 0 (if bool_decide (rest = []) then "" else pretty (Z.of_nat (n + length page)))]
      | None => mkSearchResult [] []
      end
  | _ => mkSearchResult es []
  end.

#[export] Instance demo_library : LdapLibrary demo_server nat := {|
  DialURL url skip := fun s =>
    if bool_decide (url = "") then (Err (Errorf "dial"), s)
    else (Ok (srv_conns s), mkServer (srv_entries s) (srv_account s) (S (srv_conns s)) (srv_conns s :: srv_open s));
  conn_Bind k user pass := fun s => (if bool_decide ((user, pass) = srv_account s) then Ok () else Err (Errorf "bind"), s);
  conn_Search k q := fun s =>
    (if bool_decide (k ∈ srv_open s) then Ok (demo_answer (srv_entries s) (sq_Controls q)) else Err (Errorf "closed"), s);
  conn_Close k := fun s =>
    (Ok (), mkServer (srv_entries s) (srv_account s) (srv_conns s) (List.filter (fun j => negb (bool_decide (j = k))) (srv_open s)))
|}.

Lemma take_nonempty {A} (n : nat) (es : list A) : (0 < n)%nat -> es <> [] -> take n es <> [].
Proof. destruct n; [lia|]. by destruct es. Qed.

Lemma position_pretty n : Z.of_nat n < 2 ^ 63 -> position (pretty (Z.of_nat n)) = Some n.
Proof.
  intros. unfold position. rewrite bool_decide_eq_false_2 by apply pretty_Z_nonempty.
  by rewrite Sscanf_d_pretty, Nat2Z.id by lia.
Qed.

Definition can_search (s : demo_server) (k : nat) : Prop := k ∈ srv_open s /\ Z.of_nat (length (srv_entries s)) < 2 ^ 63.

Lemma demo_page s k base filter size cookie n : can_search s k -> 0 < size < 2 ^ 32 -> position cookie = Some n ->
  exists es cs,
    conn_Search k (mkSearchRequest base ScopeWholeSubtree filter ["*"] [ControlPaging size cookie]) s =
      (Ok (mkSearchResult es cs), s) /\
    if bool_decide (next_cookie cs = "") then es = drop n (srv_entries s)
    else es <> [] /\ (exists rest, drop n (srv_entries s) = es ++ rest) /\ position (next_cookie cs) = Some (n + length es)%nat.
Proof.
  intros [Hopen Hlen] Hsize Hc.
  set (page := take (Z.to_nat size) (drop n (srv_entries s))).
  assert (drop n (srv_entries s) = page ++ drop (n + length page) (srv_entries s)) as Hcut.
  { rewrite <- drop_drop. unfold page. rewrite length_take.
    destruct (Nat.le_ge_cases (Z.to_nat size) (length (drop n (srv_entries s)))).
    - rewrite Nat.min_l by done. by rewrite take_drop.
    - rewrite Nat.min_r, drop_all, app_nil_r by done. by rewrite take_ge. }
  exists page, [ControlOther "1.3.6.1.1";
    ControlPaging 0 (if bool_decide (drop (n + length page) (srv_entries s) = []) then "" else pretty (Z.of_nat (n + length page)))].
  split.
  - unfold conn_Search, demo_library. rewrite bool_decide_eq_true_2 by done. cbn [sq_Controls demo_answer]. by rewrite Hc.
  - cbn [next_cookie]. destruct (bool_decide_reflect (drop (n + length page) (srv_entries s) = [])) as [Hrest|Hrest].
    + rewrite bool_decide_eq_true_2 by done. by rewrite Hrest, app_nil_r in Hcut.
    + rewrite bool_decide_eq_false_2 by apply pretty_Z_nonempty.
      assert (n + length page < length (srv_entries s))%nat.
      { destruct (Nat.lt_ge_cases (n + length page) (length (srv_entries s))); [done|]. by rewrite drop_ge in Hrest. }
      split; [|split; [by eexists|apply position_pretty; lia]].
      apply take_nonempty; [lia|]. intros Hnil. apply (f_equal length) in Hnil. rewrite length_drop in Hnil. cbn in Hnil. lia.
Qed.

#[export] Instance memory_pages : LdapPaging demo_server nat := {|
  conn_open := can_search;
  matching s _ _ := srv_entries s;
  cookie_at _ cookie n := position cookie = Some n;
  law_first _ := eq_refl;
  law_page := demo_page
|}.

Lemma connect_opens url user pass s : url <> "" -> (user, pass) = srv_account s ->
  Connect (NewLDAPClient url user pass, s) =
    (Ok (), (mkLDAPClient (Some (srv_conns s)) url user pass,
             mkServer (srv_entries s) (srv_account s) (S (srv_conns s)) (srv_conns s :: srv_open s))).
Proof.
  intros Hu Ha. unfold Connect, on_library, zoom, mbind, prog_bind, get, modify, DialURL, conn_Bind, demo_library. cbn.
  rewrite bool_decide_eq_false_2 by done. cbn. by rewrite bool_decide_eq_true_2.
Qed.

Definition demo_directory : demo_server :=
  mkServer (mjoin demo_pages ++ [demo_entry "Carol" ""]) ("cn=sync", "secret") 0 [].

Definition demo_run : res error unit * gmap string User :=
  let w := (Connect (NewLDAPClient "ldap://dc" "cn=sync" "secret", demo_directory)).2 in
  StartFullSync demo_get demo_mappings 2 "" 0 5 (engine_page 2 "dc=x" "(uid=*)" w) "ad" ∅.

Lemma directory_synchronised_witness :
  exists bs, mjoin bs = map_entries demo_get demo_mappings "ad" (srv_entries demo_directory) /\ batches_ok 2 bs /\
    demo_run.1 = Ok () /\ (map_to_list demo_run.2).*1 ≡ₚ ["alice"; "bob"; "carol"].
Proof.
  edestruct (directory_synchronised (W := gmap string User) demo_get demo_mappings 2 "" 0 "dc=x" "(uid=*)"
    (mkLDAPClient (Some 0%nat) "ldap://dc" "cn=sync" "secret")
    (mkServer (srv_entries demo_directory) ("cn=sync", "secret") 1 [0%nat]) 0%nat) with (sourceID := "ad") (fuel := 5%nat)
    as (bs & Hj & Hok & _); [reflexivity| |lia|reflexivity|cbn; lia|].
  - split; [apply list_elem_of_here|reflexivity].
  - exists bs. split; [exact Hj|]. split; [exact Hok|].
    split; [vm_compute; reflexivity|].
    apply (bool_decide_unpack _). vm_compute. exact I.
Defined.
