(* ===== verification/Telemetry.v ===== *)
(** * Metrics and the goroutines of the Redis client

    internal/storage/redis/metrics.go and internal/metrics: which metrics a
    registry gets, and what a request adds to them.
    internal/storage/redis/client.go: the health check and the collector of pool
    statistics, as steps.  The registry of Prometheus is a class with its laws;
    counters are integers, which floats hold up to 2^53. *)

From S2P Require Import Prelude Types GoStd RedisStores.

Local Open Scope Z_scope.

(** ** Registering metrics *)
Record Desc := mkDesc { d_Name : string; d_Help : string; d_Labels : list string }.

(** [MustRegister] panics when a name is already there. *)
Class Registerer (G : Type) := {
  NewRegistry : G;
  MustRegister : list Desc -> prog G error unit;
  gathered : G -> gmap string Desc
}.
Definition by_metric (ds : list Desc) : gmap string Desc := list_to_map ((fun d => (d_Name d, d)) <$> ds).
Class RegistererLaws (G : Type) `{Registerer G} := {
  law_empty : gathered NewRegistry = ∅;
  law_register g ds : NoDup (d_Name <$> ds) -> Forall (fun d => gathered g !! d_Name d = None) ds ->
    exists g', MustRegister ds g = (Ok (), g') /\ gathered g' = by_metric ds ∪ gathered g;
  law_register_again g d : is_Some (gathered g !! d_Name d) -> (MustRegister [d] g).1 = Panic
}.

Section Metrics.
Context `{Registerer G} (BuildFQName : string -> string -> string -> string).

(** The variable [registerMetricsOnce] and the default registry. *)
Record registration := mkRegistration { rg_once : bool; rg_default : G }.
Notation metrics A := (prog registration error A).

(** The nine metrics of a client (redis/metrics.go). *)
Definition redis_descs (namespace : string) : list Desc :=
  [mkDesc (BuildFQName namespace "redis" "commands_total") "Total number of Redis commands executed." ["command"];
   mkDesc (BuildFQName namespace "redis" "command_latency_seconds") "Latency of Redis commands in seconds." ["command"];
   mkDesc (BuildFQName namespace "redis" "errors_total") "Total number of Redis errors." ["command"];
   mkDesc (BuildFQName namespace "redis_pool" "hits_total") "Total number of connection pool hits." [];
   mkDesc (BuildFQName namespace "redis_pool" "misses_total") "Total number of connection pool misses." [];
   mkDesc (BuildFQName namespace "redis_pool" "timeouts_total") "Total number of connection pool timeouts." [];
   mkDesc (BuildFQName namespace "redis_pool" "total_connections") "Total number of connections in the pool." [];
   mkDesc (BuildFQName namespace "redis_pool" "idle_connections") "Number of idle connections in the pool." [];
   mkDesc (BuildFQName namespace "redis_pool" "stale_connections") "Number of stale connections in the pool." []].

(** [NewMetrics]: without a registry ([shared] false) a new one is made and
    dropped.  The function of a [sync.Once] counts as run when it panics. *)
Definition NewMetrics (namespace : string) (shared : bool) : metrics (list Desc) := fun s =>
  let m := redis_descs namespace in
  if rg_once s then (Ok m, s)
  else if shared then
    let '(r, g) := MustRegister m (rg_default s) in (r ≫= (fun _ => Ok m), mkRegistration true g)
  else (fst (MustRegister m NewRegistry) ≫= (fun _ => Ok m), mkRegistration true (rg_default s)).

Definition NewRedisMetrics (namespace : string) : metrics (list Desc) := NewMetrics namespace true.

(** The variables of internal/metrics/prometheus.go are registered one by one
    before [main] runs, with those of sync_metrics.go. *)
Definition HTTPRequestsTotal : Desc :=
  mkDesc "quantaid_http_requests_total" "Total number of HTTP requests" ["method"; "path"; "status"].
Definition HTTPRequestDuration : Desc :=
  mkDesc "quantaid_http_request_duration_seconds" "HTTP request duration in seconds" ["method"; "path"].
Definition package_descs : list Desc :=
  [HTTPRequestsTotal; HTTPRequestDuration;
   mkDesc "quantaid_db_queries_total" "Total number of database queries executed" [];
   mkDesc "quantaid_cache_hits_total" "Total number of cache hits" [];
   mkDesc "quantaid_cache_misses_total" "Total number of cache misses" [];
   mkDesc "quantaid_oauth_tokens_issued_total" "Total number of OAuth tokens issued" [];
   mkDesc "quantaid_mfa_verifications_total" "Total number of MFA verifications" ["status"];
   mkDesc "quantaid_auth_risk_score" "Distribution of risk scores for authentication attempts" [];
   mkDesc "quantaid_auth_risk_level_total" "Total number of authentication attempts per risk level" ["level"];
   mkDesc "quantaid_auth_mfa_challenge_total" "Total number of MFA challenges issued" ["provider"];
   mkDesc "quantaid_auth_mfa_failure_total" "Total number of failed MFA verifications" ["provider"; "reason"];
   mkDesc "auth_login_total" "Total number of login attempts." ["status"]].

Definition sync_descs : list Desc :=
  [mkDesc "ldap_sync_duration_seconds" "LDAP sync duration in seconds" ["source_id"; "sync_type"];
   mkDesc "ldap_sync_errors_total" "LDAP sync errors total" ["source_id"; "error_type"];
   mkDesc "identity_duplicates_detected_total" "Identity duplicates detected total" ["source_id"; "match_field"];
   mkDesc "ldap_sync_lag_seconds" "Incremental sync lag in seconds" ["source_id"]].

Definition register_default (d : Desc) : metrics unit :=
  zoom rg_default (fun g s => mkRegistration (rg_once s) g) (MustRegister [d]).
Definition init_package : metrics unit := for_each register_default (package_descs ++ sync_descs).

(** [NewHTTPMetricsMiddleware] with the default registry (http_middleware.go). *)
Definition request_duration : Desc :=
  mkDesc "quantaid_http_request_duration_seconds" "Histogram of HTTP request latencies." ["method"; "path"; "status"].
Definition request_total : Desc :=
  mkDesc "quantaid_http_requests_total" "Total number of HTTP requests." ["method"; "path"; "status"].
Definition NewHTTPMetricsMiddleware : metrics (Desc * Desc) :=
  register_default request_duration ;; register_default request_total ;; mret (request_duration, request_total).
End Metrics.

Section MetricsFacts.
Context `{RegistererLaws G} (BuildFQName : string -> string -> string -> string).
(** Within a namespace the names that are built differ. *)
Context (names_differ : forall namespace, NoDup (d_Name <$> redis_descs BuildFQName namespace)).
Notation NewMetrics := (NewMetrics BuildFQName).
Notation NewRedisMetrics := (NewRedisMetrics BuildFQName).
Notation descs := (redis_descs BuildFQName).
Implicit Types (s : registration (G:=G)).

(** The second set of metrics that the program makes, with whatever namespace,
    is registered nowhere. *)
Lemma metrics_once s namespace shared : rg_once s = true -> NewMetrics namespace shared s = (Ok (descs namespace), s).
Proof. intros Hs. unfold Telemetry.NewMetrics. by rewrite Hs. Qed.

(** In the mode with a database the server makes metrics for its client and
    then for the session manager: only the first can be read at /metrics, and
    what the session manager counts is lost. *)
Theorem session_metrics_lost g namespace :
  Forall (fun d => gathered g !! d_Name d = None) (descs "quantid") ->
  (forall d, d ∈ descs namespace -> gathered g !! d_Name d = None /\ d_Name d ∉ d_Name <$> descs "quantid") ->
  exists g', (NewRedisMetrics "quantid" ;; NewRedisMetrics namespace) (mkRegistration false g) =
    (Ok (descs namespace), mkRegistration true g') /\
  gathered g' = by_metric (descs "quantid") ∪ gathered g /\
  forall d, d ∈ descs namespace -> gathered g' !! d_Name d = None.
Proof.
  intros Hfresh Hother. destruct (law_register g (descs "quantid") (names_differ _) Hfresh) as (g' & Hr & Hg).
  exists g'. assert (NewRedisMetrics "quantid" (mkRegistration false g) = (Ok (descs "quantid"), mkRegistration true g')) as Hfirst.
  { unfold Telemetry.NewRedisMetrics, Telemetry.NewMetrics. cbn [rg_once rg_default]. by rewrite Hr. }
  rewrite (prog_bind_run _ _ _ _ _ Hfirst). split; [done|]. split; [done|]. intros d Hd.
  destruct (Hother d Hd) as [Hn Hd']. rewrite Hg. apply lookup_union_None. split; [|done].
  apply not_elem_of_list_to_map. by rewrite <- list_fmap_compose.
Qed.

Lemma register_default_run d s : gathered (rg_default s) !! d_Name d = None ->
  exists g, register_default d s = (Ok (), mkRegistration (rg_once s) g) /\ gathered g = <[d_Name d := d]> (gathered (rg_default s)).
Proof.
  intros Hd. destruct (law_register (rg_default s) [d]) as (g & Hr & Hg); [by apply NoDup_singleton|by repeat constructor|].
  exists g. unfold register_default, zoom. rewrite Hr. split; [done|]. rewrite Hg. unfold by_metric. cbn.
  by rewrite insert_empty, <- insert_union_singleton_l.
Qed.

Lemma register_each ds : forall s, NoDup (d_Name <$> ds) -> Forall (fun d => gathered (rg_default s) !! d_Name d = None) ds ->
  exists g, for_each register_default ds s = (Ok (), mkRegistration (rg_once s) g) /\
    gathered g = by_metric ds ∪ gathered (rg_default s).
Proof.
  induction ds as [|d ds IH]; intros s Hnd Hf.
  - exists (rg_default s). split; [by destruct s|].
    change (by_metric []) with (∅ : gmap string Desc). by rewrite (left_id_L ∅ (∪)).
  - inversion Hnd as [|? ? Hd Hnd' Heq]; subst. inversion Hf as [|? ? Hd' Hf' Heq]; subst.
    destruct (register_default_run d s Hd') as (g1 & Hr & Hg1).
    destruct (IH (mkRegistration (rg_once s) g1) Hnd') as (g & Hrun & Hg).
    { apply Forall_forall. intros e He. cbn [rg_default]. rewrite Hg1, lookup_insert_ne.
      - by apply (proj1 (Forall_forall _ _) Hf').
      - intros Hname. apply Hd. rewrite Hname. by apply list_elem_of_fmap_2. }
    exists g. cbn [for_each]. rewrite (prog_bind_run _ _ _ _ _ Hr). split; [done|].
    rewrite Hg. cbn [rg_default]. rewrite Hg1. unfold by_metric. cbn [fmap list_fmap list_to_map].
    rewrite <- insert_union_r, insert_union_l; [done|].
    apply not_elem_of_list_to_map. by rewrite <- list_fmap_compose.
Qed.

(** [NewHTTPMetricsMiddleware] asks for two names that the variables of its own
    package have taken: on the default registry it panics. *)
Theorem http_metrics_panic s : Forall (fun d => gathered (rg_default s) !! d_Name d = None) (package_descs ++ sync_descs) ->
  exists s', init_package s = (Ok (), s') /\ (NewHTTPMetricsMiddleware s').1 = Panic.
Proof.
  intros Hf. destruct (register_each (package_descs ++ sync_descs) s) as (g & Hr & Hg); [by apply (bool_decide_unpack _)|done|].
  exists (mkRegistration (rg_once s) g). split; [done|].
  pose proof (law_register_again g request_duration) as Hp. unfold NewHTTPMetricsMiddleware, register_default, zoom, mbind, prog_bind.
  cbn [rg_default]. destruct (MustRegister [request_duration] g) as [r g1]. cbn [fst] in Hp. rewrite Hp; [done|].
  rewrite Hg, lookup_union_l'; [|by eexists]. by eexists.
Qed.
End MetricsFacts.

(** ** What a request adds (http_middleware.go)

    A handler writes headers and bodies; the wrapper remembers the last status
    it was given, and starts from 0. *)
Inductive write := WriteHeader (statusCode : Z) | WriteBody (body : string).

Definition responseWriter (statusCode : Z) (w : write) : Z :=
  match w with WriteHeader code => code | WriteBody _ => statusCode end.
Definition recorded (ws : list write) : Z := fold_left responseWriter ws 0.

(** The status that net/http sends: the first that is not informational, and
    200 before a body. *)
Fixpoint sent (ws : list write) : Z :=
  match ws with
  | WriteHeader code :: ws => if bool_decide (100 <= code < 200 /\ code <> 101) then sent ws else code
  | _ => 200
  end.

(** The labels counted: [mux.CurrentRoute] is nil where no route matched, and
    its template is asked for all the same. *)
Definition Execute (route : option string) (method : string) (ws : list write) : res error (string * string * string) :=
  match route with
  | None => Panic
  | Some path => Ok (method, if bool_decide (path = "") then "not_found" else path, pretty (recorded ws))
  end.

(** internal/metrics/prometheus.go: Gin gives the status that was sent, and an
    empty path where no route matched. *)
Definition Middleware (FullPath method : string) (Status : Z) : string * string * string :=
  (method, FullPath, pretty Status).

Lemma recorded_app ws ws' : recorded (ws ++ ws') = fold_left responseWriter ws' (recorded ws).
Proof. apply fold_left_app. Qed.

(** A body leaves the status that was recorded; so a handler that never sets one
    answers with 200 and is counted under status 0. *)
Lemma recorded_bodies ws code : 200 <= code ->
  Forall (fun w => match w with WriteBody _ => True | _ => False end) ws ->
  recorded (WriteHeader code :: ws) = code /\ sent (WriteHeader code :: ws) = code /\ recorded ws = 0 /\ sent ws = 200.
Proof.
  intros Hc Hb. assert (forall c, fold_left responseWriter ws c = c) as Hf.
  { intros c. induction Hb as [|[]]; [done..|]. cbn. done. }
  unfold recorded. cbn. rewrite !Hf. rewrite bool_decide_eq_false_2 by lia. split_and!; [done..|]. by destruct Hb as [|[]].
Qed.

Lemma counted_as_zero path method body : path <> "" ->
  Execute (Some path) method [WriteBody body] = Ok (method, path, "0") /\ sent [WriteBody body] = 200.
Proof. intros Hp. unfold Execute. by rewrite bool_decide_eq_false_2. Qed.

(** ** The goroutines of the client (redis/client.go) *)
Record PoolStats := mkPoolStats {
  ps_Hits : Z;
  ps_Misses : Z;
  ps_Timeouts : Z;
  ps_TotalConns : Z;
  ps_IdleConns : Z;
  ps_StaleConns : Z
}.
(** The gauges and counters of the pool. *)
Definition pool_metrics := PoolStats.
Definition no_metrics : pool_metrics := mkPoolStats 0 0 0 0 0 0.

(** A tick of [startPoolStatsCollector]: gauges are set; counters, the one of
    stale connections too, are added what the pool has counted so far. *)
Definition collect (stats : PoolStats) (m : pool_metrics) : pool_metrics :=
  mkPoolStats (ps_Hits m + ps_Hits stats) (ps_Misses m + ps_Misses stats) (ps_Timeouts m + ps_Timeouts stats)
    (ps_TotalConns stats) (ps_IdleConns stats) (ps_StaleConns m + ps_StaleConns stats).

(** A goroutine makes its ticker first, then waits for a tick or for the channel
    to be closed. *)
Inductive goroutine := Off | Starting | Waiting | Returned.
Record loops := mkLoops {
  lp_closed : bool;
  lp_health : goroutine;
  lp_pool : goroutine;
  lp_metrics : pool_metrics;
  lp_crashed : bool
}.
Definition set_health (g : goroutine) (s : loops) : loops :=
  mkLoops (lp_closed s) g (lp_pool s) (lp_metrics s) (lp_crashed s).
Definition set_pool (g : goroutine) (s : loops) : loops :=
  mkLoops (lp_closed s) (lp_health s) g (lp_metrics s) (lp_crashed s).
Definition set_metrics (m : pool_metrics) (s : loops) : loops :=
  mkLoops (lp_closed s) (lp_health s) (lp_pool s) m (lp_crashed s).
Definition close_stopCh (s : loops) : loops :=
  mkLoops true (lp_health s) (lp_pool s) (lp_metrics s) (lp_crashed s).
Definition crash (s : loops) : loops :=
  mkLoops (lp_closed s) (lp_health s) (lp_pool s) (lp_metrics s) true.

(** What [NewRedisClient] starts. *)
Definition start_goroutines (Enabled : bool) (m : pool_metrics) : loops :=
  mkLoops false (if Enabled then Starting else Off) Starting m false.

Section Goroutines.
Context (Enabled : bool) (Interval : Z) (cfg : RetryConfig).

(** A round of the health check: a ping, and a connection attempt when it
    fails, whose answer is dropped. *)
Definition health_round (ping : time -> bool) (now : time) : option (res error unit) :=
  if ping now then None else Some (reconnectWithBackoff ping cfg now).1.1.

(** Steps, with the statistics that the collector read. *)
Inductive loop_step : loops -> option PoolStats -> loops -> Prop :=
  | step_health_start s : lp_crashed s = false -> lp_health s = Starting -> 0 < Interval ->
      loop_step s None (set_health Waiting s)
  (** [time.NewTicker] panics, and takes the process with it. *)
  | step_health_ticker s : lp_crashed s = false -> lp_health s = Starting -> Interval <= 0 ->
      loop_step s None (crash s)
  | step_health_tick s ping now : lp_crashed s = false -> lp_health s = Waiting ->
      health_round ping now <> Some Panic -> loop_step s None s
  | step_health_return s : lp_crashed s = false -> lp_health s = Waiting -> lp_closed s = true ->
      loop_step s None (set_health Returned s)
  | step_pool_start s : lp_crashed s = false -> lp_pool s = Starting -> loop_step s None (set_pool Waiting s)
  | step_pool_tick s stats : lp_crashed s = false -> lp_pool s = Waiting ->
      loop_step s (Some stats) (set_metrics (collect stats (lp_metrics s)) s)
  | step_pool_return s : lp_crashed s = false -> lp_pool s = Waiting -> lp_closed s = true ->
      loop_step s None (set_pool Returned s)
  | step_close s : lp_crashed s = false -> lp_closed s = false -> loop_step s None (close_stopCh s).

Inductive runs : loops -> list PoolStats -> loops -> Prop :=
  | runs_nil s : runs s [] s
  | runs_cons s o s1 l s2 : loop_step s o s1 -> runs s1 l s2 -> runs s (option_list o ++ l) s2.

Definition over (g : goroutine) : Prop := g = Off \/ g = Returned.

(** A goroutine returns only after [Close]; a run crashes only where the health
    check is enabled without an interval. *)
Definition loops_sound (s : loops) : Prop :=
  (lp_health s = Returned \/ lp_pool s = Returned -> lp_closed s = true) /\
  lp_pool s <> Off /\ (lp_health s = Off <-> Enabled = false) /\
  (lp_crashed s = true -> Enabled = true /\ Interval <= 0) /\
  (lp_health s = Waiting -> 0 < Interval).

Lemma start_sound m : loops_sound (start_goroutines Enabled m).
Proof. unfold loops_sound, start_goroutines. cbn. destruct Enabled; intuition congruence. Qed.

Lemma step_sound s o s' : loop_step s o s' -> loops_sound s -> loops_sound s'.
Proof.
  intros Hs H. unfold loops_sound in *. destruct Hs; cbn in *; destruct Enabled; intuition (congruence || lia).
Qed.

Lemma runs_sound s l s' : runs s l s' -> loops_sound s -> loops_sound s'.
Proof. induction 1 as [|s o s1 l s2 Hs _ IH]; [done|]. intros. eapply IH, step_sound; eauto. Qed.

Lemma runs_metrics s l s' : runs s l s' -> lp_metrics s' = fold_left (fun m stats => collect stats m) l (lp_metrics s).
Proof.
  induction 1 as [|s o s1 l s2 Hs _ IH]; [done|]. rewrite fold_left_app, IH. f_equal. by destruct Hs.
Qed.

(** A closed client can always bring both goroutines to their end. *)
Lemma closed_ends s : loops_sound s -> lp_crashed s = false -> lp_closed s = true -> (Enabled = true -> 0 < Interval) ->
  exists s', runs s [] s' /\ over (lp_health s') /\ lp_pool s' = Returned /\ lp_metrics s' = lp_metrics s.
Proof.
  intros (_ & Hpool & Hoff & _ & _) Hc Hcl Hi.
  assert (exists s1, runs s [] s1 /\ over (lp_health s1) /\ lp_crashed s1 = false /\ lp_closed s1 = true /\
    lp_pool s1 = lp_pool s /\ lp_metrics s1 = lp_metrics s) as (s1 & Hr1 & Ho & Hc1 & Hcl1 & Hp1 & Hm1).
  { unfold over. destruct (lp_health s) eqn:Hh.
    - exists s. split_and!; [constructor|by left|done..].
    - exists (set_health Returned (set_health Waiting s)). split_and!; [|by right|done..].
      eapply (runs_cons _ None (set_health Waiting s) []); [apply step_health_start; [done..|apply Hi; destruct Enabled; naive_solver]|].
      eapply (runs_cons _ None _ []); [by apply step_health_return|constructor].
    - exists (set_health Returned s). split_and!; [|by right|done..].
      eapply (runs_cons _ None _ []); [by apply step_health_return|constructor].
    - exists s. split_and!; [constructor|by right|done..]. }
  assert (exists s2, runs s1 [] s2 /\ lp_pool s2 = Returned /\ lp_health s2 = lp_health s1 /\ lp_metrics s2 = lp_metrics s1)
    as (s2 & Hr2 & Hp2 & Hh2 & Hm2).
  { rewrite <- Hp1 in Hpool. destruct (lp_pool s1) eqn:Hp; [done|..].
    - exists (set_pool Returned (set_pool Waiting s1)). split_and!; [|done..].
      eapply (runs_cons _ None (set_pool Waiting s1) []); [by apply step_pool_start|].
      eapply (runs_cons _ None _ []); [by apply step_pool_return|constructor].
    - exists (set_pool Returned s1). split_and!; [|done..].
      eapply (runs_cons _ None _ []); [by apply step_pool_return|constructor].
    - exists s1. split_and!; [constructor|done..]. }
  exists s2. rewrite Hh2, Hm2. split_and!; [|done..].
  clear - Hr1 Hr2. remember [] as l in Hr1. revert s2 Hr2. induction Hr1 as [|s o s1 l s2 Hs _ IH]; [done|].
  intros s3 Hr. apply app_nil in Heql as [Ho ->]. destruct o; [done|].
  eapply (runs_cons _ None s1 []); [done|]. by apply IH.
Qed.
End Goroutines.

(** ** What the goroutines do to the metrics *)
Notation collected l := (fold_left (fun m stats => collect stats m) l).

Lemma collected_hits l : forall m, ps_Hits (collected l m) = ps_Hits m + foldr (fun x a => ps_Hits x + a) 0 l.
Proof. induction l as [|x l IH]; intros m; cbn [fold_left foldr]; [lia|]. rewrite IH. cbn. lia. Qed.

(** The counter of hits is the number of hits only when every reading but the
    last was of a pool without any: each reading is a total, and is added to
    those before. *)
Theorem hits_right_once l last :
  Forall (fun x => 0 <= ps_Hits x) l ->
  let m := collected (l ++ [last]) no_metrics in
  ps_TotalConns m = ps_TotalConns last /\ ps_Hits last <= ps_Hits m /\
  (ps_Hits m = ps_Hits last <-> Forall (fun x => ps_Hits x = 0) l).
Proof.
  intros Hl m. subst m. rewrite fold_left_app. cbn [fold_left]. split; [done|].
  change (ps_Hits last <= ps_Hits (collected l no_metrics) + ps_Hits last /\
    (ps_Hits (collected l no_metrics) + ps_Hits last = ps_Hits last <-> Forall (fun x => ps_Hits x = 0) l)).
  rewrite collected_hits. change (ps_Hits no_metrics) with 0.
  induction Hl as [|x l Hx Hl [IHle IH]]; cbn [foldr]; [split; [lia|by split]|].
  rewrite Forall_cons. split; [lia|]. split.
  - intros Hz. split; [lia|]. apply IH. lia.
  - intros [Hx0 Hz%IH]. lia.
Qed.

(** A pool that nobody uses any more goes on being counted, at every tick. *)
Lemma idle_pool_counted n stats : ps_Hits (collected (replicate n stats) no_metrics) = Z.of_nat n * ps_Hits stats.
Proof. rewrite collected_hits. induction n as [|n IH]; cbn [replicate foldr] in *; cbn in *; lia. Qed.

(** From its start a client loses no reading, crashes only where the health
    check is enabled without an interval, and, once closed, both of its
    goroutines can end. *)
Theorem client_goroutines Enabled Interval cfg m l s :
  runs Interval cfg (start_goroutines Enabled m) l s ->
  lp_metrics s = collected l m /\
  (lp_crashed s = true -> Enabled = true /\ Interval <= 0) /\
  (lp_health s = Returned \/ lp_pool s = Returned -> lp_closed s = true) /\
  (lp_crashed s = false -> lp_closed s = true -> (Enabled = true -> 0 < Interval) ->
   exists s', runs Interval cfg s [] s' /\ over (lp_health s') /\ lp_pool s' = Returned).
Proof.
  intros Hr. pose proof (runs_sound Enabled _ _ _ _ _ Hr (start_sound Enabled Interval m)) as Hs.
  split; [exact (runs_metrics _ _ _ _ _ Hr)|]. split; [apply Hs|]. split; [apply Hs|]. intros Hc Hcl Hi.
  destruct (closed_ends Enabled Interval cfg s Hs Hc Hcl Hi) as (s' & ? & ? & ? & _). by exists s'.
Qed.

(** An interval that is left out is zero: the process dies with the first step
    of the health check. *)
Lemma no_interval_crashes cfg m Interval : Interval <= 0 ->
  exists s, runs Interval cfg (start_goroutines true m) [] s /\ lp_crashed s = true.
Proof.
  intros Hi. exists (crash (start_goroutines true m)). split; [|reflexivity].
  eapply (runs_cons _ _ _ None _ []); [by apply step_health_ticker|constructor].
Qed.

(** ** A registry in memory, and witnesses *)
#[export] Instance map_registry : Registerer (gmap string Desc) := {|
  NewRegistry := ∅;
  MustRegister ds := fun g =>
    if bool_decide (NoDup (d_Name <$> ds) /\ Forall (fun d => g !! d_Name d = None) ds)
    then (Ok (), by_metric ds ∪ g) else (Panic, g);
  gathered g := g
|}.
#[export] Instance map_registry_laws : RegistererLaws (gmap string Desc).
Proof.
  split; [done|..].
  - intros g ds Hn Hf. exists (by_metric ds ∪ g). unfold MustRegister, map_registry. by rewrite bool_decide_eq_true_2.
  - intros g d [x Hx]. unfold MustRegister, map_registry. rewrite bool_decide_eq_false_2; [done|].
    intros [_ Hf]. apply Forall_cons_1 in Hf as [Hf _]. cbv beta in Hf.
    change (g !! d_Name d = Some x) in Hx. by rewrite Hx in Hf.
Defined.

Definition underscored (namespace subsystem name : string) : string := namespace +:+ "_" +:+ subsystem +:+ "_" +:+ name.

Lemma underscored_differ namespace : NoDup (d_Name <$> redis_descs underscored namespace).
Proof.
  cbn [redis_descs fmap list_fmap d_Name]. unfold underscored.
  assert (forall l, NoDup l -> NoDup ((fun x => namespace +:+ x) <$> l)) as Hmap.
  { intros l Hl. apply NoDup_fmap_2_strong; [|done]. intros x y _ _ Hxy. by apply (inj (String.app namespace)) in Hxy. }
  exact (Hmap ["_redis_commands_total"; "_redis_command_latency_seconds"; "_redis_errors_total"; "_redis_pool_hits_total";
    "_redis_pool_misses_total"; "_redis_pool_timeouts_total"; "_redis_pool_total_connections"; "_redis_pool_idle_connections";
    "_redis_pool_stale_connections"] ltac:(apply (bool_decide_unpack _); vm_compute; exact I)).
Qed.

Lemma session_metrics_lost_witness :
  exists g', (NewRedisMetrics underscored "quantid" ;; NewRedisMetrics underscored "session_manager") (mkRegistration false ∅) =
    (Ok (redis_descs underscored "session_manager"), mkRegistration true g') /\
  is_Some (gathered g' !! "quantid_redis_commands_total") /\ gathered g' !! "session_manager_redis_commands_total" = None.
Proof.
  destruct (session_metrics_lost underscored underscored_differ (∅ : gmap string Desc) "session_manager") as (g' & Hr & Hg & Hl).
  - apply Forall_forall. intros d _. reflexivity.
  - apply Forall_forall. apply (bool_decide_unpack _). vm_compute. exact I.
  - exists g'. split; [exact Hr|]. split; [rewrite Hg; apply (bool_decide_unpack _); vm_compute; exact I|].
    exact (Hl _ (list_elem_of_here _ _)).
Defined.

Lemma http_metrics_panic_witness :
  exists s', init_package (mkRegistration false (∅ : gmap string Desc)) = (Ok (), s') /\ (NewHTTPMetricsMiddleware s').1 = Panic.
Proof. apply (http_metrics_panic (mkRegistration false (∅ : gmap string Desc))). apply Forall_forall. intros d _. reflexivity. Defined.

Lemma client_goroutines_witness :
  let s := mkLoops true Off Waiting (mkPoolStats 10 0 0 2 1 0) false in
  let cfg := mkRetryConfig 3 0 0 in
  runs 0 cfg (start_goroutines false no_metrics) [mkPoolStats 5 0 0 2 1 0; mkPoolStats 5 0 0 2 1 0] s /\
  exists s', runs 0 cfg s [] s' /\ over (lp_health s') /\ lp_pool s' = Returned.
Proof.
  intros s cfg.
  assert (runs 0 cfg (start_goroutines false no_metrics) [mkPoolStats 5 0 0 2 1 0; mkPoolStats 5 0 0 2 1 0] s) as Hr.
  { eapply (runs_cons _ _ _ None); [by apply step_pool_start|].
    eapply (runs_cons _ _ _ (Some _)); [by apply step_pool_tick|]. eapply (runs_cons _ _ _ (Some _)); [by apply step_pool_tick|].
    eapply (runs_cons _ _ _ None _ []); [by apply step_close|constructor]. }
  split; [exact Hr|]. exact (proj2 (proj2 (proj2 (client_goroutines false 0 cfg no_metrics _ s Hr))) eq_refl eq_refl ltac:(discriminate)).
Defined.
