(* ===== verification/Fingerprint.v ===== *)
(** * The fingerprint of a browser (internal/auth/adaptive/device_fingerprint.go)

    The features of a device joined by bars and hashed.  When two devices share
    a fingerprint: where no feature holds a separator they have the same
    features; where one does, they need not.  SHA-256 in hexadecimal is an
    argument. *)

From S2P Require Import Prelude Types GoStd GoText.
From Stdlib Require Import Ascii.

Local Open Scope Z_scope.

Record FingerprintData := mkFingerprintData {
  fd_UserAgent : string;
  fd_ScreenResolution : string;
  fd_Timezone : Z;
  fd_Language : string;
  fd_Platform : string;
  fd_Plugins : list string;
  fd_CanvasHash : string;
  fd_WebGLHash : string;
  fd_AudioHash : string;
  fd_Fonts : list string;
  fd_ClientHintsMobile : string;
  fd_ClientHintsPlat : string;
  fd_ClientHintsArch : string;
  fd_ClientHintsModel : string;
  fd_CustomData : gmap string string
}.

Definition features (data : FingerprintData) : list string :=
  [fd_UserAgent data; fd_ScreenResolution data; pretty (fd_Timezone data); fd_Language data; fd_Platform data;
   String.concat "," (fd_Plugins data); fd_CanvasHash data; fd_WebGLHash data; fd_AudioHash data;
   String.concat "," (fd_Fonts data); fd_ClientHintsMobile data; fd_ClientHintsPlat data;
   fd_ClientHintsArch data; fd_ClientHintsModel data].

Section Generate.
Context (sha256_hex : string -> string).

Definition Generate (data : FingerprintData) : string := sha256_hex (String.concat "|" (features data)).
(** What is left to do in the source answers a constant. *)
Definition CompareSimilarity (fp1 fp2 : string) : float64 := fzero.
Definition TrustDevice (userID fingerprint : string) (duration : Z) : res error unit := Ok ().
End Generate.

(** ** Joining with a separator *)
Fixpoint free (c : ascii) (s : string) : bool :=
  match s with "" => true | String d s => negb (bool_decide (d = c)) && free c s end.

Lemma free_app c s t : free c (s +:+ t) = free c s && free c t.
Proof. induction s as [|d s IH]; [done|]. rewrite string_app_cons. cbn [free]. by rewrite IH, andb_assoc. Qed.

Lemma not_free_sep c s t : free c (s +:+ String c t) = false.
Proof. rewrite free_app. cbn [free]. rewrite bool_decide_eq_true_2 by done. cbn. by rewrite andb_false_r. Qed.

Lemma split_at c a : forall b r r', free c a = true -> free c b = true ->
  a +:+ String c r = b +:+ String c r' -> a = b /\ r = r'.
Proof.
  induction a as [|d a IH]; intros [|e b] r r' Ha Hb Heq.
  - by injection Heq.
  - injection Heq as <- _. cbn in Hb. by rewrite bool_decide_eq_true_2 in Hb.
  - injection Heq as -> _. cbn in Ha. by rewrite bool_decide_eq_true_2 in Ha.
  - rewrite !string_app_cons in Heq. injection Heq as -> Heq. cbn [free] in Ha, Hb.
    apply andb_true_iff in Ha as [_ Ha]. apply andb_true_iff in Hb as [_ Hb].
    by destruct (IH b r r' Ha Hb Heq) as [-> ->].
Qed.

Section Join.
Context (c : ascii).
Notation join := (String.concat (String c "")).
Notation plain := (fun x => free c x = true).

Lemma join_cons x y l : join (x :: y :: l) = x +:+ String c (join (y :: l)).
Proof. done. Qed.

Lemma join_inj l : forall l', length l = length l' -> Forall plain l -> Forall plain l' -> join l = join l' -> l = l'.
Proof.
  induction l as [|x [|y l] IH]; intros [|x' [|y' l']] Hlen Hl Hl' Heq; try done.
  - cbn in Heq. by subst.
  - rewrite !join_cons in Heq. apply Forall_cons_1 in Hl as [Hx Hl]. apply Forall_cons_1 in Hl' as [Hx' Hl'].
    apply split_at in Heq as [-> Heq]; [|done..]. f_equal. apply IH; [cbn in *; lia|done..].
Qed.

(** Lists of any length, whose elements are not empty. *)
Lemma join_inj_nonempty l : forall l', Forall plain l -> Forall plain l' -> Forall (fun x => x <> "") l ->
  Forall (fun x => x <> "") l' -> join l = join l' -> l = l'.
Proof.
  induction l as [|x [|y l] IH]; intros [|x' [|y' l']] Hl Hl' Hn Hn' Heq; try done;
    try apply Forall_cons_1 in Hl as [Hx Hl]; try apply Forall_cons_1 in Hl' as [Hx' Hl'];
    try apply Forall_cons_1 in Hn as [Hnx Hn]; try apply Forall_cons_1 in Hn' as [Hnx' Hn'].
  - cbn in Heq. by subst.
  - rewrite join_cons in Heq. by destruct x'.
  - cbn in Heq. by subst.
  - cbn in Heq. by subst.
  - rewrite join_cons in Heq. cbn [String.concat] in Heq. subst x. by rewrite not_free_sep in Hx.
  - rewrite join_cons in Heq. by destruct x.
  - rewrite join_cons in Heq. cbn [String.concat] in Heq. subst x'. by rewrite not_free_sep in Hx'.
  - rewrite !join_cons in Heq. apply split_at in Heq as [-> Heq]; [|done..]. f_equal. by apply IH.
Qed.
End Join.

Lemma free_join c d l : d <> c -> Forall (fun x => free c x = true) l -> free c (String.concat (String d "") l) = true.
Proof.
  intros Hd Hl. induction Hl as [|x l Hx Hl IH]; [done|]. destruct l as [|y l]; [done|].
  rewrite join_cons, free_app, Hx. cbn [free andb]. rewrite bool_decide_eq_false_2 by done. done.
Qed.

Lemma pretty_go_free c x : is_digit c = false -> forall s, free c s = true -> free c (pretty_N_go x s) = true.
Proof.
  intros Hc. induction (N.lt_wf_0 x) as [x _ IH]. intros s Hs. destruct (decide (x = 0)%N) as [->|Hx].
  - by rewrite pretty_N_go_0.
  - rewrite pretty_N_go_step by lia. apply IH; [apply N.div_lt; lia|]. cbn [free]. rewrite Hs, andb_true_r.
    destruct (digit_of_char (x mod 10) ltac:(apply N.mod_lt; lia)) as [_ Hd].
    apply negb_true_iff, bool_decide_eq_false_2. intros Heq. rewrite Heq in Hd. congruence.
Qed.

Lemma pretty_free c (n : Z) : is_digit c = false -> c <> "-"%char -> free c (pretty n) = true.
Proof.
  intros Hc Hm. destruct n as [|p|p].
  - cbn. rewrite andb_true_r. apply negb_true_iff, bool_decide_eq_false_2. by intros <-.
  - rewrite pretty_pos. by apply pretty_go_free.
  - change (pretty (Z.neg p)) with ("-" +:+ pretty (Z.pos p)). rewrite free_app, pretty_pos, pretty_go_free by done.
    cbn. rewrite bool_decide_eq_false_2; [done|congruence].
Qed.

(** ** When fingerprints agree *)
Definition named (l : list string) : Prop := Forall (fun x => x <> "" /\ free "," x = true) l.
(** No feature holds a bar; plugins and fonts have names without a comma. *)
Definition separable (data : FingerprintData) : Prop :=
  Forall (fun x => free "|" x = true)
    [fd_UserAgent data; fd_ScreenResolution data; fd_Language data; fd_Platform data; fd_CanvasHash data;
     fd_WebGLHash data; fd_AudioHash data; fd_ClientHintsMobile data; fd_ClientHintsPlat data;
     fd_ClientHintsArch data; fd_ClientHintsModel data] /\
  Forall (fun x => free "|" x = true) (fd_Plugins data) /\ Forall (fun x => free "|" x = true) (fd_Fonts data) /\
  named (fd_Plugins data) /\ named (fd_Fonts data).

(** The same device but for what is not hashed. *)
Definition without_custom (data : FingerprintData) : FingerprintData :=
  mkFingerprintData (fd_UserAgent data) (fd_ScreenResolution data) (fd_Timezone data) (fd_Language data)
    (fd_Platform data) (fd_Plugins data) (fd_CanvasHash data) (fd_WebGLHash data) (fd_AudioHash data) (fd_Fonts data)
    (fd_ClientHintsMobile data) (fd_ClientHintsPlat data) (fd_ClientHintsArch data) (fd_ClientHintsModel data) ∅.

Section GenerateFacts.
Context (sha256_hex : string -> string).
Notation Generate := (Generate sha256_hex).
Implicit Types data : FingerprintData.

Lemma features_free data : separable data -> Forall (fun x => free "|" x = true) (features data).
Proof.
  intros (Ht & Hp & Hf & _). rewrite !Forall_cons in Ht. unfold features.
  repeat (apply Forall_cons; split); try apply Forall_nil; try tauto; try exact I;
    [by apply pretty_free|by apply free_join|by apply free_join].
Qed.

Lemma named_join l l' : named l -> named l' -> String.concat "," l = String.concat "," l' -> l = l'.
Proof.
  intros Hl Hl'. unfold named in *. apply join_inj_nonempty; eapply Forall_impl; eauto; naive_solver.
Qed.

(** Devices without separators in their features share a fingerprint exactly
    when they have the same features: nothing collides but for the hash. *)
Theorem fingerprint_separates data1 data2 :
  (forall s t, sha256_hex s = sha256_hex t -> s = t) -> separable data1 -> separable data2 ->
  (Generate data1 = Generate data2 <-> without_custom data1 = without_custom data2).
Proof.
  intros Hhash H1 H2. split.
  - intros Heq%Hhash. pose proof (features_free _ H1) as F1. pose proof (features_free _ H2) as F2.
    apply join_inj in Heq; [|done..]. destruct H1 as (_ & _ & _ & Hp1 & Hf1), H2 as (_ & _ & _ & Hp2 & Hf2).
    unfold features in Heq. injection Heq as ? ? Htz ? ? Hp ? ? ? Hf ? ? ? ?. apply (inj pretty) in Htz.
    apply named_join in Hp; [|done..]. apply named_join in Hf; [|done..]. clear Hp1 Hp2 Hf1 Hf2.
    unfold without_custom. destruct data1, data2. cbn in *. by subst.
  - intros Heq. unfold Fingerprint.Generate. do 2 f_equal. change (features data1) with (features (without_custom data1)).
    by rewrite Heq.
Qed.

(** The user agent is a header that the client chooses: with a bar in it a
    device passes for another, whatever the hash. *)
Lemma bar_collides agent resolution tz language platform plugins canvas webgl audio fonts m p a model custom :
  let device agent resolution := mkFingerprintData agent resolution tz language platform plugins canvas webgl audio fonts
    m p a model custom in
  Generate (device (agent +:+ "|" +:+ resolution) "x") = Generate (device agent (resolution +:+ "|x")).
Proof.
  cbv zeta. unfold Fingerprint.Generate, features. f_equal. cbn [fd_UserAgent fd_ScreenResolution fd_Timezone fd_Language
    fd_Platform fd_Plugins fd_CanvasHash fd_WebGLHash fd_AudioHash fd_Fonts fd_ClientHintsMobile fd_ClientHintsPlat
    fd_ClientHintsArch fd_ClientHintsModel].
  rewrite !join_cons, <- !string_app_assoc. reflexivity.
Qed.
End GenerateFacts.

Definition demo_device (plugins : list string) : FingerprintData :=
  mkFingerprintData "Firefox" "1920x1080" (-60) "en" "Linux" plugins "c" "w" "a" ["Arial"; "Mono"] "?0" "Linux" "x86" "" ∅.

Lemma fingerprint_separates_witness :
  Generate id (demo_device ["pdf"; "flash"]) <> Generate id (demo_device ["pdf"]) /\
  Generate id (demo_device ["pdf,flash"]) = Generate id (demo_device ["pdf"; "flash"]).
Proof.
  split; [|reflexivity]. intros Heq.
  apply (fingerprint_separates id (demo_device ["pdf"; "flash"]) (demo_device ["pdf"])) in Heq; [discriminate|done|..];
    (split; [repeat constructor|split; [repeat constructor|split; [repeat constructor|]]]); split; repeat constructor; discriminate.
Defined.
