(* ===== verification/PgProfiles.v ===== *)
(** * Profiles in the database (internal/identity/profile/profile_repository.go)

    The repository of profiles over a table with its two unique indexes, the
    identifier and the user: it keeps the laws that Profile.v is proved
    against.  [FindByTag] is not modelled: what its query means depends on how
    GORM reads the doubled question mark. *)

From S2P Require Import Prelude Types GoStd IdentityService Tables PgIdentity PgStores Profile.

Local Open Scope Z_scope.

Definition profile_conflict (p q : UserProfile) : bool :=
  bool_decide (pf_ID p = pf_ID q) || bool_decide (pf_UserID p = pf_UserID q).

(** A time that is not set is filled in. *)
Definition or_now (now t : time) : time := if bool_decide (t = zero_time) then now else t.
Definition stamp_new_profile (now : time) (p : UserProfile) : UserProfile :=
  stamped (or_now now (pf_CreatedAt p)) (or_now now (pf_UpdatedAt p)) p.
(** A conflict on the identifier overwrites all but the time of creation. *)
Definition merge_profile (new old : UserProfile) : UserProfile := stamped (pf_CreatedAt old) (pf_UpdatedAt new) new.

Section ProfileRows.
Context {D : Type} `{Table UserProfile D} (clock : time).
Notation pp A := (prog D error A).
Definition of_user (userID : string) (p : UserProfile) : bool := bool_decide (pf_UserID p = userID).

Definition ppr_Create (profile : UserProfile) : pp unit := t_insert [stamp_new_profile clock profile].
(** No profile is not an error. *)
Definition ppr_GetByUserID (userID : string) : pp (option UserProfile) :=
  on_missing (profile ← First pf_ID string_le (of_user userID); mret (Some profile)) (mret None).
Definition ppr_Update (now : time) (profile : UserProfile) : pp unit :=
  Save pf_ID "" (stamp_new_profile now) (saved now) merge_profile (saved now profile) ;; mret ().

(** [Model(&UserProfile{}).Where(user_id).Updates(...)] *)
Definition Updates (userID : string) (f : UserProfile -> UserProfile) : pp unit := t_update (of_user userID) f ;; mret ().
Definition ppr_UpdateRisk (now : time) (userID : string) (risk : RiskIndicators) (score : Z) (level : string) : pp unit :=
  Updates userID (fun p => with_risk now p risk score level).
Definition ppr_UpdateBehavior (now : time) (userID : string) (behavior : BehaviorMetrics) : pp unit :=
  Updates userID (fun p => with_behavior now p behavior).
Definition ppr_UpdateTags (now : time) (userID : string) (autoTags manualTags : list string) : pp unit :=
  Updates userID (fun p => with_tags now p autoTags manualTags).
Definition ppr_UpdateQuality (now : time) (userID : string) (score : Z) (details : QualityDetails) : pp unit :=
  Updates userID (fun p => with_quality now p score details).

(** In no promised order: a limit keeps some of the profiles. *)
Definition ppr_FindByRiskLevel (tenantID level : string) (limit : Z) : pp (list UserProfile) :=
  rows ← t_select (fun p => bool_decide (pf_TenantID p = tenantID) && bool_decide (pf_RiskLevel p = level));
  mret (sql_window 0 limit rows).
Definition ppr_Delete (userID : string) : pp unit := Delete_where (of_user userID).

#[local] Instance pg_profiles : ProfileRepository D := {|
  pr_Create := ppr_Create;
  pr_GetByUserID := ppr_GetByUserID;
  pr_Update := ppr_Update;
  pr_UpdateRisk := ppr_UpdateRisk;
  pr_UpdateBehavior := ppr_UpdateBehavior;
  pr_UpdateTags := ppr_UpdateTags;
  pr_UpdateQuality := ppr_UpdateQuality
|}.
End ProfileRows.

(** ** The laws of the repository *)
Section ProfileLaws.
Context {D : Type} `{UniqueRows UserProfile D profile_conflict} (clock : time).
Implicit Types (p q : UserProfile) (d : D).
#[local] Existing Instance pg_profiles.
Notation rows d := (rows_by pf_UserID d).

Lemma profile_conflict_sym p q : profile_conflict p q = profile_conflict q p.
Proof. unfold profile_conflict. by rewrite (bool_decide_sym (pf_ID p)), (bool_decide_sym (pf_UserID p)). Qed.
Lemma profile_conflict_id p q : pf_ID p = pf_ID q -> profile_conflict p q = true.
Proof. intros He. unfold profile_conflict. by rewrite (bool_decide_eq_true_2 _ He). Qed.
Lemma profile_conflict_user p q : pf_UserID p = pf_UserID q -> profile_conflict p q = true.
Proof. intros He. unfold profile_conflict. by rewrite (bool_decide_eq_true_2 _ He), orb_true_r. Qed.
Lemma profile_no_conflict p q : profile_conflict p q = false <-> pf_ID p <> pf_ID q /\ pf_UserID p <> pf_UserID q.
Proof. unfold profile_conflict. by rewrite orb_false_iff, !bool_decide_eq_false. Qed.
#[local] Hint Resolve profile_conflict_sym profile_conflict_id profile_conflict_user : core.

(** A change that keeps both identifiers keeps the rows apart. *)
Definition keeps_ids (f : UserProfile -> UserProfile) : Prop := forall p, pf_ID (f p) = pf_ID p /\ pf_UserID (f p) = pf_UserID p.

Lemma unique_update s f (l : list UserProfile) : keeps_ids f ->
  unique profile_conflict (update_rows s f l) = unique profile_conflict l.
Proof.
  intros Hf. assert (forall p q, profile_conflict (if s p then f p else p) (if s q then f q else q) = profile_conflict p q) as Hc.
  { intros p q. unfold profile_conflict. destruct (Hf p) as [Hp Hpu], (Hf q) as [Hq Hqu].
    destruct (s p), (s q); by rewrite ?Hp, ?Hpu, ?Hq, ?Hqu. }
  induction l as [|p l IH]; [done|]. cbn [update_rows map unique]. fold (update_rows s f l). rewrite IH. f_equal.
  clear IH. induction l as [|q l IH]; [done|]. cbn [update_rows map forallb]. fold (update_rows s f l). by rewrite Hc, IH.
Qed.

Lemma Updates_run userID f d : keeps_ids f ->
  exists d', Updates userID f d = (Ok (), d') /\ rows d' = alter f userID (rows d).
Proof.
  intros Hf. pose proof (law_update (of_user userID) f d) as Hup. rewrite unique_update, rows_unique in Hup by done.
  destruct Hup as (d' & Hrun & Hrows). exists d'. unfold Updates. rewrite (prog_bind_run _ _ _ _ _ Hrun). split; [done|].
  assert (Hin : forall q, q ∈ t_rows d' <-> exists p, p ∈ t_rows d /\ q = if of_user userID p then f p else p).
  { intros q. rewrite Hrows. unfold update_rows. rewrite list_elem_of_fmap. naive_solver. }
  apply map_eq. intros k. apply option_eq. intros q. rewrite lookup_rows_by, Hin by auto. rewrite lookup_alter_Some.
  setoid_rewrite (lookup_rows_by pf_UserID d); [|auto..]. unfold of_user. split.
  - intros [(p & Hp & ->) Hk]. case_bool_decide as Hu.
    + left. destruct (Hf p) as [_ Hfu]. rewrite Hfu in Hk. split; [congruence|]. exists p. split; [|done]. split; congruence.
    + right. split; [congruence|done].
  - intros [(<- & p & [Hp Hk] & ->)|(Hk & Hq & Hqk)].
    + destruct (Hf p) as [_ Hfu]. split; [|congruence]. exists p. by rewrite bool_decide_eq_true_2.
    + split; [|done]. exists q. rewrite bool_decide_eq_false_2; [done|congruence].
Qed.

#[local] Instance pg_profile_laws : @ProfileLaws D (pg_profiles clock).
Proof.
  refine {| profiles := rows_by pf_UserID |}.
  - intros p d Hu Hids.
    destruct (insert_by d (stamp_new_profile clock p)) as (d' & Hrun & _ & Hby).
    { intros q Hq. apply profile_no_conflict. split; cbn.
      - refine (Hids (pf_UserID q) q _). apply lookup_rows_by; auto.
      - by apply (proj1 (lookup_rows_none pf_UserID d _ profile_conflict_user) Hu). }
    exists d', (or_now clock (pf_CreatedAt p)), (or_now clock (pf_UpdatedAt p)). split; [exact Hrun|].
    rewrite Hby by auto. done.
  - intros userID d. cbn [pr_GetByUserID pg_profiles]. unfold ppr_GetByUserID.
    pose proof (First_by pf_ID string_le profile_conflict_sym pf_UserID (of_user userID) d userID
      profile_conflict_user (fun _ => eq_refl)) as Hf.
    destruct (rows d !! userID) as [x|].
    + apply on_missing_ok. by rewrite (prog_bind_run _ _ _ _ _ Hf).
    + by rewrite (on_missing_none _ _ _ d) by by rewrite (prog_bind_fail _ _ _ _ _ Hf).
  - intros now p d old Hold Hid Hne. apply lookup_rows_by in Hold as [Hin Hu]; [|auto].
    destruct (Save_by pf_ID "" profile_conflict_sym profile_conflict_id (stamp_new_profile now) (saved now) merge_profile d
      (saved now p) old) as (d' & Hrun & _ & Hby); try done.
    { intros q Hq Hqk. apply profile_no_conflict. split; [done|]. intros He. apply Hqk. cbn in He |- *. rewrite <- Hid. f_equal.
      apply (rows_pair profile_conflict_sym d q old Hq Hin), profile_conflict_user. congruence. }
    exists d'. split; [|rewrite Hby; auto].
    cbn [pr_Update pg_profiles]. unfold ppr_Update. by rewrite (prog_bind_run _ _ _ _ _ Hrun).
  - intros. by apply Updates_run.
  - intros. by apply Updates_run.
  - intros. by apply Updates_run.
  - intros. by apply Updates_run.
Defined.

(** ** The operations beside the interface *)

(** [FindByRiskLevel] gives profiles of the tenant and the level, all of them
    while the limit is negative or not below their number. *)
Lemma find_by_level tenantID level limit d :
  exists l, ppr_FindByRiskLevel tenantID level limit d = (Ok l, d) /\
    (forall p, p ∈ l -> p ∈ t_rows d /\ pf_TenantID p = tenantID /\ pf_RiskLevel p = level) /\
    (limit < 0 \/ Z.of_nat (length (t_rows d)) <= limit ->
     forall p, p ∈ t_rows d -> pf_TenantID p = tenantID -> pf_RiskLevel p = level -> p ∈ l) /\
    (0 <= limit -> Z.of_nat (length l) <= limit).
Proof.
  unfold ppr_FindByRiskLevel. set (s := fun p => _ && _). destruct (law_select s d) as (l & Hrun & Hl).
  exists (sql_window 0 limit l). rewrite (prog_bind_run _ _ _ _ _ Hrun). split; [done|].
  assert (Hin : forall p, p ∈ l <-> p ∈ t_rows d /\ pf_TenantID p = tenantID /\ pf_RiskLevel p = level).
  { intros p. rewrite Hl, elem_of_select. unfold s. by rewrite andb_true_iff, !bool_decide_eq_true. }
  assert (length l <= length (t_rows d))%nat as Hlen.
  { rewrite Hl. unfold select_rows. apply List.filter_length_le. }
  unfold sql_window. cbn. split_and!.
  - intros p. destruct (0 <=? limit); [intros Hp; apply Hin; by eapply elem_of_take in Hp as (i & Hi%list_elem_of_lookup_2 & _)|apply Hin].
  - intros Hlim p Hp Ht Hv. destruct (0 <=? limit) eqn:Hz; [|by apply Hin].
    rewrite take_ge by lia. by apply Hin.
  - intros Hz. rewrite (proj2 (Z.leb_le 0 limit) Hz), length_take. lia.
Qed.

(** A user's profile that was deleted is gone, and no other. *)
Lemma delete_profile userID d : exists d', ppr_Delete userID d = (Ok (), d') /\ rows d' = delete userID (rows d).
Proof.
  unfold ppr_Delete, Delete_where. destruct (law_delete (of_user userID) d) as (d' & n & Hrun & Hrows). exists d'.
  rewrite (prog_bind_run _ _ _ _ _ Hrun). split; [done|]. apply map_eq. intros k. apply option_eq. intros q.
  rewrite lookup_rows_by by auto. rewrite lookup_delete_Some, lookup_rows_by by auto. rewrite Hrows.
  unfold delete_rows. rewrite list_elem_of_In, List.filter_In, <- list_elem_of_In. unfold of_user.
  rewrite negb_true_iff, bool_decide_eq_false. naive_solver.
Qed.
End ProfileLaws.

(** ** The contract over the database

    What Profile.v proves of the manual tags, on a table of unique rows. *)
#[local] Existing Instance unique_table.
#[local] Existing Instance unique_table_laws.
#[local] Existing Instance unique_table_unique.
#[local] Existing Instance pg_profiles.

Definition profile_rows : utable profile_conflict := exist (fun l => unique profile_conflict l = true) [demo_profile] eq_refl.

Lemma tagged_in_database :
  exists w', @AddManualTag _ (pg_profiles 5) 5 "alice" "partner" profile_rows = (Ok (), w') /\
    (fun p => ManualTags p) <$> (rows_by pf_UserID w' !! "alice") = Some ["vip"; "partner"].
Proof.
  destruct (@AddManualTag_run _ (pg_profiles 5) (pg_profile_laws 5) 5 profile_rows "alice" "partner" demo_profile)
    as (w' & Hrun & Hw').
  - change (rows_by pf_UserID profile_rows !! "alice" = Some demo_profile). apply lookup_rows_by; [exact profile_conflict_user|].
    split; [apply list_elem_of_here|reflexivity].
  - exists w'. split; [exact Hrun|].
    change (rows_by pf_UserID w' = if bool_decide ("partner" ∈ ["vip"]) then rows_by pf_UserID profile_rows
      else <["alice" := with_tags 5 demo_profile ["dormant"] ["vip"; "partner"]]> (rows_by pf_UserID profile_rows)) in Hw'.
    rewrite bool_decide_eq_false_2 in Hw' by set_solver. by rewrite Hw', lookup_insert_eq.
Qed.

(** A second profile of a user is refused. *)
Lemma one_profile_each clock (d : utable profile_conflict) p q : rows_by pf_UserID d !! pf_UserID p = Some q ->
  ppr_Create clock p d = (Err ErrDuplicateKey, d).
Proof.
  intros [Hq Hu]%lookup_rows_by; [|exact profile_conflict_user]. unfold ppr_Create.
  pose proof (law_insert [stamp_new_profile clock p] d) as Hi.
  destruct (unique profile_conflict (t_rows d ++ [stamp_new_profile clock p])) eqn:Huniq; [|done].
  assert (q = stamp_new_profile clock p) as Heq; [|exfalso].
  - apply (unique_pair profile_conflict profile_conflict_sym _ _ _ Huniq).
    + apply elem_of_app. by left.
    + apply elem_of_app. right. by apply list_elem_of_here.
    + by apply profile_conflict_user.
  - rewrite unique_app in Huniq. apply andb_true_iff in Huniq as [_ Hx]. rewrite forallb_forall in Hx.
    apply list_elem_of_In in Hq. specialize (Hx q Hq). cbn in Hx. rewrite (profile_conflict_user q) in Hx by (by subst q). done.
Qed.
